(* ===== verification/_CoqProject ===== *)
-Q . S2P
Prelude.v
Aggr.v
RxSink.v
RxTable.v
TxBaTable.v
RxReorder.v
RxProps.v
RxPath.v
RxTheorems.v
DhcpServer.v
DhcpProps.v
DhcpTheorems.v
CString.v
Cli.v
CliProps.v
CliTheorems.v
CfpTables.v
Cfp.v
CfpTheorems.v
WlcmData.v
Wlcm.v
WlcmProps.v
WlcmTheorems.v
WlcmTable.v
WlcmErrors.v
OsRwlock.v
OsEvents.v
OsMisc.v
ScanData.v
ScanParse.v
ScanParseProps.v
ScanParseTheorems.v
ScanTable.v
ScanTableProps.v
ScanTableTheorems.v
Domain.v
DomainTheorems.v
ScanFind.v
ScanFindTheorems.v
ScanCmd.v
ScanCmdTheorems.v
ScanReqTheorems.v
TxBus.v
Sdio.v
SdioProps.v
SdioReadProps.v
SdioTheorems.v
Wmm.v
WmmProps.v
WmmState.v
WmmRound.v
WmmCalls.v
WmmTheorems.v
Dns.v
DnsProps.v
DnsTheorems.v
DnsSafety.v
TxBa.v
TxBaProps.v
TxBaTheorems.v
CliUtils.v
CliUtilsTheorems.v
Rsn.v
RsnProps.v
RsnTheorems.v
HtCap.v
HtCapTheorems.v
Join.v
JoinProps.v
JoinTheorems.v
RatesTheorems.v
JoinCalls.v
JoinCallsTheorems.v
