(* ===== verification/Prelude.v ===== *)
(** * The NXP Wi-Fi driver and connection manager

    A model of the core of the driver library [wifi_nxp] for microcontrollers
    and the theorems that make it correct.  The library is a stack:

    - the user's calls and the console ([cli/]) reach the connection manager
      ([wlcmgr/wlan.c]), a thread that takes messages from one queue;
    - the connection manager calls the driver ([wifidriver/]), whose
      [mlan_*.c] files implement 802.11 on top of the firmware's commands and
      events, and which delivers received packets to the network stack;
    - packets of the network stack ([port/lwip/wifi_netif.c]) wait in queues per
      access category ([mlan_wmm.c]) until a thread of the driver ([wifi.c])
      gives them to the SDIO transport ([wifi-sdio.c]), which also hands up what
      the card sends;
    - beside them stand a DHCP server for the access point ([dhcpd/]) and the
      adaptation to the operating system ([port/os/]).

    ** Conventions

    A C function is a function of its arguments and of the state it reads and
    writes.  What C leaves undefined (an access outside an object, a shift that
    is too wide, a loop that does not end) is a value, [Fault], of the monad
    [outcome] of this file; the theorems that say [Ret] exclude it, under the
    conditions their comments name.  A failing assertion is [Fault Hang].  Integers are in [Z], with the wrap-around of
    their width written where the code computes ([u8], [u16], [u32]).  A buffer
    is a list of bytes with checked accesses; a pointer into a buffer or an
    array is an index.  Where the code of a lower layer is not in the repository
    (firmware, FreeRTOS, lwIP, the SDK), or is not modelled, its answers are
    parameters: records of answers ([calls]) or type classes with laws
    ([RxSink], [MessageQueue], [SdioEnv]); [TxBus] is the class through which
    the transmit queues use the transport, which is its instance.  The model is of one
    configuration: station and access point with the supplicant of the
    firmware, 5 GHz and 802.11ac on, WMM queues on, A-MSDU in A-MPDU off,
    802.11k/v/r, OWE, MBO, IPv6 and host-sleep wake locks off, SDIO with 32 data
    ports and aggregation in both directions, little-endian 32-bit processor.

    ** Files

    - [Prelude]: faults and the monad, integers, arrays, memory, tactics.
    - [Aggr]: A-MSDU aggregation ([mlan_11n_aggr.c]).  [RxSink], [RxTable],
      [RxReorder], [RxPath]: delivery, one reorder window, the block-ack
      sessions of an interface and the path of a packet from the bus
      ([mlan_11n_rxreorder.c], [mlan_sta_rx.c], [mlan_txrx.c],
      [mlan_glue.c]).  [RxProps], [RxTheorems]: in-order delivery whatever the
      order of arrival, equivalence of the window with arithmetic modulo 4096,
      every packet delivered or freed once, timers, set-up and tear-down, round
      trip of aggregation, and where window sizes and identifiers break it.
    - [DhcpServer], [DhcpProps], [DhcpTheorems]: the DHCP server
      ([dhcpd/dhcp-server.c]).  On a subnet of sixteen addresses or more the
      leases stay consistent under any input, and only of a datagram of more than
      1019 bytes is anything read past the buffer; standard requests get the
      answers of the protocol, responses parse.
    - [Dns], [DnsProps], [DnsTheorems], [DnsSafety]: its name server
      ([dhcpd/dns-server.c]).  Names are stored as the protocol writes them,
      queries for them answered and others refused.  Whatever the datagram, its
      loops end, and where it returns the leases of the DHCP server, whose buffer
      it shares, are as they were; malformed questions are read past the buffer
      ([question_cut_off], [endless_question_sent_from_null]).
    - [CString]: strings of the C library.  [Cli], [CliProps], [CliTheorems]:
      the console ([cli/cli.c], [cli/cli_mem_simple.c]).  A typed line runs its
      command with its words; the editor is plain line editing; the two line
      buffers have one owner each.
    - [CfpTables], [Cfp], [CfpTheorems]: channels, powers, rates, operating
      classes and regions ([mlan_cfp.c], parts of [mlan_11ac.c]).
    - [WlcmData], [Wlcm]: the connection manager ([wlcmgr/wlan.c]): its data,
      every handler of the station and access-point state machines, power save,
      the table of networks and the calls that post messages.  [WlcmProps]:
      the invariant and its preservation by every interleaving of messages,
      calls, timer and timeouts.  [WlcmTheorems]: no state reachable from one
      where a network was selected faults, and the first request to connect leads
      to such a state ([first_connection_selects]); an attempt to connect succeeds when the answers are good and ends when
      the network is absent, the strongest access point is chosen.
      [WlcmTable]: the table of networks refines a finite map.  [WlcmErrors]:
      failures of lower layers and requests at a bad time.
    - [OsRwlock], [OsEvents], [OsMisc]: the reader-writer lock, the event flags
      and the rest of the adaptation ([port/os/os.c], [os.h]): exclusion by
      rule induction over the steps of the threads, and that threads that go on
      and release what they hold all get out, by a measure; the
      flags as a refinement of a queue of waiters.
    - [ScanData], [ScanParse], [ScanParseProps], [ScanParseTheorems]: beacons and
      probe responses ([mlan_scan.c]): a record whose RSN elements are long enough
      is parsed within its bounds, and an encoded beacon is parsed back.  [ScanTable], [ScanTableProps],
      [ScanTableTheorems]: the table of access points under scan responses and
      events; it keeps the strongest.  [ScanFind], [ScanFindTheorems]: the
      search of the table.  [ScanCmd], [ScanCmdTheorems], [ScanReqTheorems]: the
      channels of a request and the commands that carry them.
    - [Domain], [DomainTheorems]: country information ([mlan_11d.c]).
    - [TxBus]: what the queues ask of the transport.  [Sdio], [SdioProps],
      [SdioReadProps], [SdioTheorems]: the transport ([wifi-sdio.c]): the write
      side implements [TxBus], an aggregate names its ports, an interrupt
      delivers every announced packet once, and what happens to packets the code
      does not expect.
    - [Wmm]: the transmit queues ([mlan_wmm.c], [wifi.c], [wifi_netif.c], the
      pause events of [mlan_glue.c]).  [WmmProps], [WmmState]: the counts of an
      interface, and the owner of every buffer.  [WmmRound]: the reference
      schedule and the loops that implement it.  [WmmCalls]: any sequence of
      calls, each with the card awake in time or not.  [WmmTheorems]: one owner per
      buffer, up to the assertion when a packet finds the card asleep; the turn of the transmit thread
      refines the schedule, an accepted packet reaches the bus, and the whole over
      SDIO.
    - [TxBaTable], [TxBa], [TxBaProps], [TxBaTheorems]: transmit block-ack sessions
      ([mlan_11n.c], parts of [mlan_glue.c] and [wifi-uap.c]).  Every session of a
      peer and TID follows its own automaton, over the receive side of
      [RxReorder], as long as the TIDs are of the eight and there is memory; a
      peer that answered is not asked again; what the requests to
      end sessions do wrong.
    - [CliUtils], [CliUtilsTheorems]: the numbers, addresses and options of a
      command line ([cli/cli_utils.c]).  An address is accepted exactly if it is
      the text of six bytes, perhaps with more behind it; numbers are read
      modulo their width.
    - [Rsn], [RsnProps], [RsnTheorems]: the security element of an association
      request ([wlan_update_rsn_ie] of [mlan_join.c]): narrowed in place to what
      the station chose, refused when nothing suits, and led out of its buffer by
      a count the access point made up.  [HtCap], [HtCapTheorems]: the elements
      of 802.11n and 802.11ac in the request ([mlan_11n.c], [mlan_11ac.c]): which
      bits are the station's, and the lesser of two maps of streams.  [Join],
      [JoinProps], [JoinTheorems], [RatesTheorems]: the command
      ([mlan_join.c]) in the command buffer refines a list of TLVs; its rates are
      the common ones, and without memory to find them the request fails.  [JoinCalls], [JoinCallsTheorems]: the start of a
      connection and the answer ([mlan_glue.c], [mlan_sta_ioctl.c],
      [mlan_join.c]): the port stays closed until a protected network has keys.

    ** Fuel

    Loops of the code that recurse on data are structural here.  The loops with
    fuel are: the parser and the stripping of the console (fuel: the length of
    the line, [handle_input_returns]); the walk over an A-MSDU (fuel: its
    length, [deaggregate_terminates]); the search for a DHCP address (fuel 12: with
    eight leases and three addresses never given one of the next twelve is free
    on a subnet of sixteen, [dhcp_leases_stay_consistent]; on a smaller one the
    code may not return, [next_yiaddr_full_subnet_hangs]); the power-save machines (fuel 4; no event
    changes the state more than three times, and they never leave their first
    state, [wlcm_reachable_safe]); the waiters of an event (their number and
    one more); the elements of a beacon (its bytes and two) and the records of a
    scan response or event (the bytes left and one), each of which takes at
    least one byte; the walks over TLVs (the length of the memory); the commands
    of a scan (the channels and one: each command takes one, and
    [refused_scans_never_end] says when the code does not return); the ports of
    one read (seventeen: at most sixteen packets), the reads of an interrupt
    (thirty-three: one per port and the last, [interrupt_drains_ports]; the code
    does not return on a packet that does not fit,
    [oversized_packet_never_ends]) and the packets of an aggregate (its bytes);
    the receivers freed and the packets of a receiver sent (their number,
    [every_buffer_has_one_owner]); pause records (the bytes of the event); the
    labels of a name (the bytes of the buffer, [name_server_keeps_leases]); the
    suites of a security element (the bytes of the memory and one,
    [rsn_narrowed]) and the rates of a request (the sizes of the arrays and one,
    [rates_common]).

    ** Not modelled

    Firmware images, certificates and generated command tables (data); the start
    of the card and the download of the firmware ([sdio.c], [mlan_sdio.c],
    [firmware_dnld.c]) and the code that only fills the fields of command
    structures or passes calls on ([mlan_sta_cmd.c], the commands of [wifi.c],
    [mlan_api.c], most of [mlan_glue.c]): what makes it right is the layout the
    firmware expects, which is not in the repository.  Of the association, the
    commands of ad hoc networks, deauthentication and WPS.  A-MSDU in A-MPDU on
    the transmit side, host-sleep, 802.11ax and the protocols under options that
    are off in the modelled configuration.  The demonstration commands
    ([wlan_tests.c] and its siblings) and network utilities ([nw_utils/]); lwIP
    glue ([port/lwip/]) but for its output function; the adaptation to hostapd
    ([wpa_supp_if/]). *)
From Stdlib Require Export ZArith Lia.
From stdpp Require Export prelude gmap numbers.

Global Set Default Goal Selector "!".
#[export] Set Default Goal Selector "!".
Open Scope Z_scope.

(** ** Faults and the outcome monad

    A C function either runs to completion or does something the language
    does not define (or never returns).  The model makes the second case a
    value, so that absence of such behaviour is a statement one can prove. *)

Inductive fault :=
  | OutOfBounds      (* an access outside the object *)
  | ShiftTooWide     (* a shift count not below the operand's width *)
  | NullPointer      (* a dereference of a null or dangling pointer *)
  | OutOfFuel        (* a loop that exceeded the fuel of its model *)
  | Hang.            (* a deliberate or accidental endless loop *)

Inductive outcome (A : Type) :=
  | Ret (a : A)
  | Fault (f : fault).
Arguments Ret {A} a.
Arguments Fault {A} f.

#[export] Instance fault_eq_dec : EqDecision fault.
Proof. solve_decision. Defined.

#[export] Instance outcome_ret : MRet outcome := @Ret.
#[export] Instance outcome_bind : MBind outcome := fun A B k m =>
  match m with
  | Ret a => k a
  | Fault f => Fault f
  end.

Definition is_ret {A} (m : outcome A) : bool :=
  match m with Ret _ => true | Fault _ => false end.

Lemma bind_ret {A B} (k : A -> outcome B) (a : A) : (Ret a ≫= k) = k a.
Proof. reflexivity. Qed.

Lemma bind_inv {A B} (m : outcome A) (k : A -> outcome B) (b : B) :
  m ≫= k = Ret b -> exists a, m = Ret a /\ k a = Ret b.
Proof. destruct m; simpl; [eauto | discriminate]. Qed.

(** ** Machine integers *)

Definition wrap (w z : Z) : Z := z mod 2 ^ w.
Abbreviation u8 := (wrap 8).
Abbreviation u16 := (wrap 16).
Abbreviation u32 := (wrap 32).
Abbreviation u64 := (wrap 64).

(** Conversion to a signed 16-bit / 32-bit integer (two's complement). *)
Definition s16 (z : Z) : Z :=
  let r := wrap 16 z in if r <? 2 ^ 15 then r else r - 2 ^ 16.
Definition s32 (z : Z) : Z :=
  let r := wrap 32 z in if r <? 2 ^ 31 then r else r - 2 ^ 32.

(** A 64-bit right shift; a count of 64 or more is undefined in C. *)
Definition shr64 (x n : Z) : outcome Z :=
  if (0 <=? n) && (n <? 64) then Ret (Z.shiftr x n) else Fault ShiftTooWide.
(** [MLAN_SET_BIT_U64]: sets bit [n] of a 64-bit word. *)
Definition set_bit_u64 (x n : Z) : outcome Z :=
  if (0 <=? n) && (n <? 64) then Ret (Z.lor x (Z.shiftl 1 n)) else Fault ShiftTooWide.

Lemma wrap_small w z : 0 <= z < 2 ^ w -> wrap w z = z.
Proof. apply Z.mod_small. Qed.

Lemma wrap_range w z : 0 <= w -> 0 <= wrap w z < 2 ^ w.
Proof. intros. apply Z.mod_pos_bound. apply Z.pow_pos_nonneg; lia. Qed.

Lemma s16_small z : 0 <= z < 2 ^ 15 -> s16 z = z.
Proof.
  intros H. unfold s16. rewrite wrap_small by lia.
  destruct (Z.ltb_spec z (2 ^ 15)); lia.
Qed.

Lemma land_ones_mod x n : 0 <= n -> Z.land x (2 ^ n - 1) = x mod 2 ^ n.
Proof. intros. rewrite <- Z.land_ones, Z.ones_equiv by lia. f_equal. Qed.

(** The 12-bit sequence-number mask [MAX_TID_VALUE - 1]. *)
Lemma land_4095 x : Z.land x 4095 = x mod 4096.
Proof. exact (land_ones_mod x 12 ltac:(lia)). Qed.

Lemma mod_sub_once a m : m <= a < 2 * m -> a mod m = a - m.
Proof. intros. symmetry. apply (Z.mod_unique_pos a m 1); lia. Qed.

Lemma mod_add_once a m : - m <= a < 0 -> a mod m = a + m.
Proof. intros. symmetry. apply (Z.mod_unique_pos a m (-1)); lia. Qed.

(** ** Checked arrays *)

Definition arr_get {A} (l : list A) (i : Z) : outcome A :=
  if i <? 0 then Fault OutOfBounds
  else match l !! Z.to_nat i with Some x => Ret x | None => Fault OutOfBounds end.

Definition arr_set {A} (l : list A) (i : Z) (x : A) : outcome (list A) :=
  if (0 <=? i) && (i <? Z.of_nat (length l)) then Ret (<[Z.to_nat i := x]> l)
  else Fault OutOfBounds.

Lemma arr_get_ret {A} (l : list A) (i : Z) (x : A) :
  arr_get l i = Ret x <-> 0 <= i /\ l !! Z.to_nat i = Some x.
Proof.
  unfold arr_get. destruct (Z.ltb_spec i 0).
  - split; [discriminate | lia].
  - destruct (l !! Z.to_nat i); split; intros; try destruct_and?;
      simplify_eq; auto; lia.
Qed.

Lemma arr_get_lookup {A} (l : list A) (i : nat) (x : A) :
  l !! i = Some x -> arr_get l (Z.of_nat i) = Ret x.
Proof. intros. apply arr_get_ret. rewrite Nat2Z.id. split; [lia | done]. Qed.

Lemma arr_get_total {A} (l : list A) (i : Z) :
  0 <= i < Z.of_nat (length l) -> exists x, arr_get l i = Ret x /\ l !! Z.to_nat i = Some x.
Proof.
  intros. destruct (lookup_lt_is_Some_2 l (Z.to_nat i)) as [x Hx]; [lia |].
  exists x. split; [| done]. apply arr_get_ret. split; [lia | done].
Qed.

Lemma arr_set_ret {A} (l : list A) (i : Z) (x : A) :
  0 <= i < Z.of_nat (length l) -> arr_set l i x = Ret (<[Z.to_nat i := x]> l).
Proof.
  intros. unfold arr_set.
  destruct (Z.leb_spec 0 i), (Z.ltb_spec i (Z.of_nat (length l))); simpl; try lia; done.
Qed.

Lemma arr_set_oob {A} (l : list A) (i : Z) (x : A) :
  ~ (0 <= i < Z.of_nat (length l)) -> arr_set l i x = Fault OutOfBounds.
Proof.
  intros. unfold arr_set.
  destruct (Z.leb_spec 0 i), (Z.ltb_spec i (Z.of_nat (length l))); simpl; done || lia.
Qed.

(** Access at the end of a known prefix. *)
Lemma arr_get_app {A} (pre post : list A) (x : A) (i : Z) :
  i = Z.of_nat (length pre) -> arr_get (pre ++ x :: post) i = Ret x.
Proof. intros ->. apply arr_get_lookup. by apply list_lookup_middle. Qed.

Lemma arr_set_app {A} (pre post : list A) (x y : A) (i : Z) :
  i = Z.of_nat (length pre) -> arr_set (pre ++ y :: post) i x = Ret (pre ++ x :: post).
Proof.
  intros ->. rewrite arr_set_ret by (rewrite length_app; simpl; lia).
  rewrite Nat2Z.id. f_equal. rewrite insert_app_r_alt by lia. by rewrite Nat.sub_diag.
Qed.

(** ** Automation shared by the components *)

Create HintDb mlan discriminated.
#[export] Hint Constants Opaque : mlan.
#[export] Hint Resolve wrap_range arr_get_lookup : mlan.

(** Decide every boolean comparison of integers in sight. *)
Ltac zbool :=
  repeat match goal with
  | |- context [?a <? ?b] => destruct (Z.ltb_spec a b)
  | |- context [?a <=? ?b] => destruct (Z.leb_spec a b)
  | |- context [?a =? ?b] => destruct (Z.eqb_spec a b)
  | |- context [?a >? ?b] => rewrite (Z.gtb_ltb a b)
  | |- context [?a >=? ?b] => rewrite (Z.geb_leb a b)
  end; simpl.

(** Normalise [bind]s of known results and split monadic hypotheses. *)
Ltac outcome_step :=
  match goal with
  | H : Ret _ = Ret _ |- _ => injection H as H; subst
  | H : Fault _ = Ret _ |- _ => discriminate H
  | H : Ret _ = Fault _ |- _ => discriminate H
  | H : mbind _ _ = Ret _ |- _ =>
      apply bind_inv in H; destruct H as (? & ? & ?)
  end.
(** Case analysis on the first computation of a [bind] in the goal. *)
Ltac case_bind E :=
  match goal with |- context [?m ≫= _] => destruct m eqn:E end; cbn [mbind outcome_bind].
Ltac outcome_inv := repeat outcome_step.

(** ** Byte buffers: [memcpy]-style block reads and writes *)

Definition mem_read {A} (m : list A) (off n : Z) : outcome (list A) :=
  if (0 <=? off) && (0 <=? n) && (off + n <=? Z.of_nat (length m))
  then Ret (take (Z.to_nat n) (drop (Z.to_nat off) m))
  else Fault OutOfBounds.

Definition mem_write {A} (m : list A) (off : Z) (bs : list A) : outcome (list A) :=
  if (0 <=? off) && (off + Z.of_nat (length bs) <=? Z.of_nat (length m))
  then Ret (take (Z.to_nat off) m ++ bs ++ drop (Z.to_nat off + length bs) m)
  else Fault OutOfBounds.

(** Consecutive writes fill a region from its start. *)
Lemma mem_write_next {A} (pre old post bs : list A) (off : Z) :
  off = Z.of_nat (length pre) -> (length bs <= length old)%nat ->
  mem_write (pre ++ old ++ post) off bs = Ret ((pre ++ bs) ++ drop (length bs) old ++ post).
Proof.
  intros -> Hl. unfold mem_write. rewrite !length_app, !Nat2Z.id.
  rewrite take_app_length, <- drop_drop, drop_app_length, drop_app_le by lia.
  zbool; [by rewrite <- (assoc_L (++)) | lia..].
Qed.

(** A 16-bit big-endian (network order) value. *)
Definition be16 (z : Z) : list Z := [u8 (Z.shiftr z 8); u8 z].
Definition of_be16 (bs : list Z) : Z :=
  match bs with [h; l] => h * 256 + l | _ => 0 end.

Definition mem_read_be16 (m : list Z) (off : Z) : outcome Z :=
  bs ← mem_read m off 2; Ret (of_be16 bs).

Lemma be16_of_be16 z : 0 <= z < 65536 -> of_be16 (be16 z) = z.
Proof.
  intros. unfold of_be16, be16, wrap. rewrite Z.shiftr_div_pow2 by lia.
  change (2 ^ 8) with 256. rewrite (Z.mod_small (z / 256)).
  - pose proof (Z.div_mod z 256). lia.
  - split; [apply Z.div_pos; lia | apply Z.div_lt_upper_bound; lia].
Qed.

(** The same in little-endian order. *)
Definition le16 (z : Z) : list Z := [u8 z; u8 (Z.shiftr z 8)].
Definition of_le16 (bs : list Z) : Z := match bs with [l; h] => l + 256 * h | _ => 0 end.
Definition mem_read_le16 (m : list Z) (p : Z) : outcome Z := bs ← mem_read m p 2; Ret (of_le16 bs).

Lemma of_le16_le16 z : 0 <= z < 65536 -> of_le16 (le16 z) = z.
Proof.
  intros. unfold of_le16, le16, wrap. rewrite Z.shiftr_div_pow2 by lia. change (2 ^ 8) with 256. rewrite (Z.mod_small (z / 256)).
  - pose proof (Z.div_mod z 256). lia.
  - split; [apply Z.div_pos; lia | apply Z.div_lt_upper_bound; lia].
Qed.

Lemma mem_read_app {A} (pre bs post : list A) (off n : Z) :
  off = Z.of_nat (length pre) -> n = Z.of_nat (length bs) ->
  mem_read (pre ++ bs ++ post) off n = Ret bs.
Proof.
  intros -> ->. unfold mem_read. rewrite !length_app, !Nat2Z.id.
  rewrite drop_app_length, take_app_length. zbool; lia || done.
Qed.

Lemma mem_read_head {A} (bs post : list A) (n : Z) :
  n = Z.of_nat (length bs) -> mem_read (bs ++ post) 0 n = Ret bs.
Proof. exact (fun H => mem_read_app [] bs post 0 n eq_refl H). Qed.

Lemma mem_write_app {A} (pre old post bs : list A) (off : Z) :
  off = Z.of_nat (length pre) -> length old = length bs ->
  mem_write (pre ++ old ++ post) off bs = Ret (pre ++ bs ++ post).
Proof.
  intros -> Hl. unfold mem_write. rewrite !length_app, !Nat2Z.id.
  rewrite take_app_length, <- Hl, <- drop_drop, !drop_app_length. zbool; lia || done.
Qed.


(** ** Byte strings *)
Definition is_byte (b : Z) : Prop := 0 <= b < 256.
Abbreviation bytes := (Forall is_byte).

Lemma mem_read_bytes m off n bs : bytes m -> mem_read m off n = Ret bs -> bytes bs.
Proof.
  unfold mem_read. intros Hm H. case_match; simplify_eq.
  by apply Forall_take, Forall_drop.
Qed.

Lemma mem_write_bytes m off bs m' : bytes m -> bytes bs -> mem_write m off bs = Ret m' -> bytes m'.
Proof.
  unfold mem_write. intros Hm Hb H. case_match; simplify_eq.
  apply Forall_app_2; [by apply Forall_take | apply Forall_app_2; [done | by apply Forall_drop]].
Qed.

Lemma mem_write_length {A} (m bs m' : list A) off : mem_write m off bs = Ret m' -> length m' = length m.
Proof.
  unfold mem_write. intros H.
  destruct (Z.leb_spec 0 off); simpl in H; [| done].
  destruct (Z.leb_spec (off + Z.of_nat (length bs)) (Z.of_nat (length m))); simplify_eq.
  rewrite !length_app, length_take, length_drop. lia.
Qed.

Lemma mem_read_be16_range m off z : bytes m -> mem_read_be16 m off = Ret z -> 0 <= z < 65536.
Proof.
  unfold mem_read_be16. intros Hm H. outcome_inv.
  match goal with H : mem_read _ _ _ = Ret _ |- _ => apply mem_read_bytes in H as Hb; [| done] end.
  unfold of_be16, is_byte in *. repeat (case_match; try lia). simplify_eq.
  inversion Hb as [| ? ? ? Hb']. inversion Hb'. lia.
Qed.

Lemma mem_read_fault {A} (m : list A) off n f : mem_read m off n = Fault f -> f = OutOfBounds.
Proof. unfold mem_read. intros. case_match; simplify_eq; done. Qed.

Lemma mem_write_fault {A} (m bs : list A) off f : mem_write m off bs = Fault f -> f = OutOfBounds.
Proof. unfold mem_write. intros. case_match; simplify_eq; done. Qed.

Lemma mem_read_be16_fault m off f : mem_read_be16 m off = Fault f -> f = OutOfBounds.
Proof.
  unfold mem_read_be16. destruct (mem_read m off 2) eqn:E; simpl; [done |].
  intros [= <-]. by apply mem_read_fault in E.
Qed.

(** A list of known length splits into consecutive blocks. *)
Lemma split_block {A} (l : list A) (n : nat) :
  (n <= length l)%nat -> exists a b, l = a ++ b /\ length a = n /\ length b = (length l - n)%nat.
Proof.
  intros. exists (take n l), (drop n l). rewrite take_drop, length_take, length_drop.
  split; [done | lia].
Qed.

(** Accesses within the bounds. *)
Lemma mem_read_fits {A} (m : list A) p n : 0 <= p -> 0 <= n -> p + n <= Z.of_nat (length m) ->
  exists bs, mem_read m p n = Ret bs /\ Z.of_nat (length bs) = n.
Proof.
  intros. unfold mem_read. rewrite !(proj2 (Z.leb_le _ _)) by lia. eexists. split; [done |]. rewrite length_take, length_drop. lia.
Qed.
Lemma mem_read_len {A} (m : list A) p n bs : mem_read m p n = Ret bs -> Z.of_nat (length bs) = n.
Proof.
  unfold mem_read. destruct (Z.leb_spec 0 p), (Z.leb_spec 0 n), (Z.leb_spec (p + n) (Z.of_nat (length m))); try done.
  intros [= <-]. rewrite length_take, length_drop. lia.
Qed.
Lemma mem_write_total {A} (m bs : list A) p : 0 <= p -> p + Z.of_nat (length bs) <= Z.of_nat (length m) ->
  exists m', mem_write m p bs = Ret m' /\ length m' = length m.
Proof.
  intros. destruct (mem_write m p bs) as [m' |] eqn:E; [exists m'; split; [done | by eapply mem_write_length] |].
  unfold mem_write in E. rewrite !(proj2 (Z.leb_le _ _)) in E by lia. done.
Qed.
Lemma byte_at m p : bytes m -> 0 <= p < Z.of_nat (length m) -> exists b, arr_get m p = Ret b /\ is_byte b.
Proof.
  intros Hm H. destruct (arr_get_total m p H) as (b & E & El). exists b. split; [done |]. by eapply Forall_lookup_1.
Qed.
Lemma mem_read_le16_total m p : bytes m -> 0 <= p -> p + 2 <= Z.of_nat (length m) -> exists x, mem_read_le16 m p = Ret x /\ 0 <= x < 65536.
Proof.
  intros Hm ? ?. destruct (mem_read_fits m p 2) as (bs & E & Hl); [lia.. |]. unfold mem_read_le16. rewrite E, bind_ret. eexists. split; [done |].
  pose proof (mem_read_bytes _ _ _ _ Hm E) as Hb. destruct bs as [| l [| h []]]; cbn in Hl; try lia.
  inversion Hb as [| ? ? Hl' Hb']; subst. inversion Hb' as [| ? ? Hh _]; subst. unfold is_byte in *. cbn. lia.
Qed.
