(* ===== verification/Aggr.v ===== *)
(** * A-MSDU aggregation and de-aggregation ([wifidriver/mlan_11n_aggr.c])

    [wlan_11n_deaggregate_pkt] walks the sub-frames of an A-MSDU in place, in
    the buffer the frame was received into; [wlan_11n_form_amsdu_pkt] builds
    one A-MSDU sub-frame from an Ethernet frame.  The buffer is a list of
    bytes and a C pointer into it is its index, so every access is checked. *)
From S2P Require Import Prelude.

(** ** Constants *)
Definition MLAN_MAC_ADDR_LENGTH : Z := 6.
Definition LLC_SNAP_LEN : Z := 8.
Definition MLAN_RX_DATA_BUF_SIZE : Z := 4 * 1024.
Definition sizeof_Eth803Hdr_t : Z := 14.

Inductive mlan_status :=
  | MLAN_STATUS_FAILURE | MLAN_STATUS_SUCCESS | MLAN_STATUS_PENDING | MLAN_STATUS_RESOURCE.
#[export] Instance mlan_status_eq_dec : EqDecision mlan_status.
Proof. solve_decision. Defined.

Definition rfc1042_eth_hdr : list Z := [0xaa; 0xaa; 0x03; 0x00; 0x00; 0x00].

(** Bytes that bring a sub-frame of [n] bytes to a multiple of four. *)
Definition pad4 (n : Z) : Z := if Z.land n 3 =? 0 then 0 else 4 - Z.land n 3.

(** ** Counting the sub-frames *)
Fixpoint num_aggrpkts_loop (fuel : nat) (mem : list Z) (data total_pkt_len pkt_count : Z) : outcome Z :=
  match fuel with
  | O => Fault OutOfFuel
  | S fuel' =>
      if 0 <? total_pkt_len then
        pkt_len ← mem_read_be16 mem (data + 2 * MLAN_MAC_ADDR_LENGTH);
        let pad := pad4 (pkt_len + sizeof_Eth803Hdr_t) in
        num_aggrpkts_loop fuel' mem
          (data + (pkt_len + pad + sizeof_Eth803Hdr_t))
          (total_pkt_len - (pkt_len + pad + sizeof_Eth803Hdr_t))
          (pkt_count + 1)
      else Ret pkt_count
  end.

(** Each round consumes at least a header, so [total_pkt_len] rounds suffice. *)
Definition loop_fuel (total_pkt_len : Z) : nat := S (Z.to_nat total_pkt_len).

Definition wlan_11n_get_num_aggrpkts (mem : list Z) (data total_pkt_len : Z) : outcome Z :=
  num_aggrpkts_loop (loop_fuel total_pkt_len) mem data total_pkt_len 0.

(** ** De-aggregation *)

(** What de-aggregation leaves: the status, the buffer (sub-frame headers are
    rewritten in place) and the frames given to
    [wrapper_deliver_amsdu_subframe], in order. *)
Record deagg := MkDeagg {
  da_ret : mlan_status;
  da_mem : list Z;
  da_out : list (list Z)
}.

Fixpoint deaggregate_loop (fuel : nat) (data total_pkt_len : Z) (st : deagg) : outcome deagg :=
  match fuel with
  | O => Fault OutOfFuel
  | S fuel' =>
      if 0 <? total_pkt_len then
        pkt_len ← mem_read_be16 (da_mem st) (data + 2 * MLAN_MAC_ADDR_LENGTH);
        if total_pkt_len <? pkt_len then Ret st
        else
          let pad := pad4 (pkt_len + sizeof_Eth803Hdr_t) in
          let total_pkt_len' := total_pkt_len - (pkt_len + pad + sizeof_Eth803Hdr_t) in
          hdr ← mem_read (da_mem st) (data + sizeof_Eth803Hdr_t) 6;
          '(mem', data', pkt_len') ←
            (if decide (hdr = rfc1042_eth_hdr) then
               macs ← mem_read (da_mem st) data (2 * MLAN_MAC_ADDR_LENGTH);
               m ← mem_write (da_mem st) (data + LLC_SNAP_LEN) macs;
               Ret (m, data + LLC_SNAP_LEN, u16 (pkt_len + (sizeof_Eth803Hdr_t - LLC_SNAP_LEN)))
             else
               m ← mem_write (da_mem st) (data + 2 * MLAN_MAC_ADDR_LENGTH) [0; 0];
               Ret (m, data, u16 (pkt_len + sizeof_Eth803Hdr_t)));
          frame ← mem_read mem' data' pkt_len';
          deaggregate_loop fuel' (data' + (pkt_len' + pad)) total_pkt_len'
            (MkDeagg MLAN_STATUS_SUCCESS mem' (da_out st ++ [frame]))
      else Ret st
  end.

(** [mem] is the buffer, [data] the index [pbuf + data_offset] and [data_len]
    the frame's length.  The second component is the [use_count] the buffer is
    given. *)
Definition wlan_11n_deaggregate_pkt (mem : list Z) (data data_len : Z) : outcome (deagg * option Z) :=
  let st := MkDeagg MLAN_STATUS_FAILURE mem [] in
  if MLAN_RX_DATA_BUF_SIZE <? data_len then Ret (st, None)
  else
    use_count ← wlan_11n_get_num_aggrpkts mem data data_len;
    st' ← deaggregate_loop (loop_fuel data_len) data data_len st;
    Ret (st', Some use_count).

(** ** Building a sub-frame *)

(** [data] is the Ethernet frame, [amsdu_buf] the buffer written at [off];
    the result is the buffer, the bytes used and the padding. *)
Definition wlan_11n_form_amsdu_pkt (amsdu_buf : list Z) (off : Z) (data : list Z) (pkt_len : Z)
    : outcome (list Z * Z * Z) :=
  macs ← mem_read data 0 (2 * MLAN_MAC_ADDR_LENGTH);
  b1 ← mem_write amsdu_buf off macs;
  snap_type ← mem_read data (2 * MLAN_MAC_ADDR_LENGTH) 2;
  let len := u16 (pkt_len + LLC_SNAP_LEN - (2 * MLAN_MAC_ADDR_LENGTH + 2)) in
  b2 ← mem_write b1 (off + 2 * MLAN_MAC_ADDR_LENGTH) (be16 len);
  b3 ← mem_write b2 (off + 2 * MLAN_MAC_ADDR_LENGTH + 2) (rfc1042_eth_hdr ++ snap_type);
  body ← mem_read data (2 * MLAN_MAC_ADDR_LENGTH + 2) (pkt_len - (2 * MLAN_MAC_ADDR_LENGTH + 2));
  b4 ← mem_write b3 (off + 2 * MLAN_MAC_ADDR_LENGTH + 2 + LLC_SNAP_LEN) body;
  let pad := pad4 (pkt_len + LLC_SNAP_LEN) in
  b5 ← (if pad =? 0 then Ret b4
        else mem_write b4 (off + pkt_len + LLC_SNAP_LEN) (replicate (Z.to_nat pad) 0));
  Ret (b5, pkt_len + LLC_SNAP_LEN + pad, pad).

(** ** The frame format: what the 802.11 standard puts in an A-MSDU *)
Record subframe := MkSub {
  sf_da : list Z; sf_sa : list Z; sf_body : list Z; sf_pad : list Z }.

Definition sf_len (s : subframe) : Z := Z.of_nat (length (sf_body s)).
Definition sf_size (s : subframe) : Z := 14 + sf_len s + Z.of_nat (length (sf_pad s)).

Definition sf_core (s : subframe) : list Z :=
  sf_da s ++ sf_sa s ++ be16 (sf_len s) ++ sf_body s.
Definition sf_encode (s : subframe) : list Z := sf_core s ++ sf_pad s.

Definition sf_wf (s : subframe) : Prop :=
  length (sf_da s) = 6%nat /\ length (sf_sa s) = 6%nat /\ (6 <= length (sf_body s))%nat /\
  sf_len s < 65536 - 14.
Definition sf_padded (s : subframe) : Prop :=
  Z.of_nat (length (sf_pad s)) = pad4 (sf_len s + 14).

(** Every sub-frame but the last is padded; the last one may be. *)
Fixpoint amsdu_wf (l : list subframe) : Prop :=
  match l with
  | [] => True
  | [s] => sf_wf s /\ Z.of_nat (length (sf_pad s)) <= pad4 (sf_len s + 14)
  | s :: l' => sf_wf s /\ sf_padded s /\ amsdu_wf l'
  end.

Definition amsdu_encode (l : list subframe) : list Z := concat (sf_encode <$> l).

(** The Ethernet frame a sub-frame stands for: the RFC 1042 header is removed,
    or the length field is cleared when there is none. *)
Definition sf_deliver (s : subframe) : list Z :=
  if decide (take 6 (sf_body s) = rfc1042_eth_hdr)
  then sf_da s ++ sf_sa s ++ drop 6 (sf_body s)
  else sf_da s ++ sf_sa s ++ [0; 0] ++ sf_body s.

(** ** Lemmas *)

Lemma pad4_range n : 0 <= pad4 n <= 3.
Proof.
  unfold pad4. replace (Z.land n 3) with (n mod 4)
    by (symmetry; exact (land_ones_mod n 2 ltac:(lia))).
  pose proof (Z.mod_pos_bound n 4 ltac:(lia)). zbool; lia.
Qed.

Lemma pad4_mod4 n : (14 + n + pad4 (n + 14)) mod 4 = 0.
Proof.
  unfold pad4. replace (Z.land (n + 14) 3) with ((n + 14) mod 4)
    by (symmetry; exact (land_ones_mod (n + 14) 2 ltac:(lia))).
  zbool; Z.div_mod_to_equations; lia.
Qed.

Lemma length_be16 z : length (be16 z) = 2%nat.
Proof. reflexivity. Qed.

(** Reading the pieces of a sub-frame that sits in the buffer after [pre]. *)
Section Pieces.
Context (s : subframe) (pre rest : list Z) (data : Z).
Hypothesis Hwf : sf_wf s.
Hypothesis Hdata : data = Z.of_nat (length pre).

Lemma read_len :
  mem_read_be16 (pre ++ sf_core s ++ rest) (data + 12) = Ret (sf_len s).
Proof using Hwf Hdata.
  destruct Hwf as (Hd & Hs & _ & Hl). unfold mem_read_be16, sf_core.
  replace (pre ++ (sf_da s ++ sf_sa s ++ be16 (sf_len s) ++ sf_body s) ++ rest)
    with ((pre ++ sf_da s ++ sf_sa s) ++ be16 (sf_len s) ++ (sf_body s ++ rest))
    by (rewrite <- !(assoc_L (++)); done).
  rewrite (mem_read_app (pre ++ sf_da s ++ sf_sa s));
    [| rewrite !length_app; lia | rewrite length_be16; lia].
  rewrite bind_ret, be16_of_be16; [done | unfold sf_len in *; lia].
Qed.

Lemma read_hdr :
  mem_read (pre ++ sf_core s ++ rest) (data + 14) 6 = Ret (take 6 (sf_body s)).
Proof using Hwf Hdata.
  destruct Hwf as (Hd & Hs & Hb & Hl). unfold sf_core.
  rewrite <- (take_drop 6 (sf_body s)) at 1.
  replace (pre ++ (sf_da s ++ sf_sa s ++ be16 (sf_len s) ++ take 6 (sf_body s) ++ drop 6 (sf_body s)) ++ rest)
    with ((pre ++ sf_da s ++ sf_sa s ++ be16 (sf_len s)) ++ take 6 (sf_body s) ++ (drop 6 (sf_body s) ++ rest))
    by (rewrite <- !(assoc_L (++)); done).
  apply mem_read_app; rewrite ?length_app, ?length_be16, ?length_take; lia.
Qed.

Lemma read_macs :
  mem_read (pre ++ sf_core s ++ rest) data 12 = Ret (sf_da s ++ sf_sa s).
Proof using Hwf Hdata.
  destruct Hwf as (Hd & Hs & _ & Hl). unfold sf_core.
  replace (pre ++ (sf_da s ++ sf_sa s ++ be16 (sf_len s) ++ sf_body s) ++ rest)
    with (pre ++ (sf_da s ++ sf_sa s) ++ (be16 (sf_len s) ++ sf_body s ++ rest))
    by (rewrite <- !(assoc_L (++)); done).
  apply mem_read_app; rewrite ?length_app; lia.
Qed.

(** Moving the addresses over the RFC 1042 header. *)
Lemma move_macs :
  exists junk, length junk = 8%nat /\
    mem_write (pre ++ sf_core s ++ rest) (data + 8) (sf_da s ++ sf_sa s) =
    Ret ((pre ++ junk) ++ (sf_da s ++ sf_sa s ++ drop 6 (sf_body s)) ++ rest).
Proof using Hwf Hdata.
  destruct Hwf as (Hd & Hs & Hb & Hl).
  exists (take 8 (sf_da s ++ sf_sa s)). split; [rewrite length_take, length_app; lia |].
  unfold sf_core. rewrite <- (take_drop 6 (sf_body s)) at 1.
  set (junk := take 8 (sf_da s ++ sf_sa s)).
  set (old := drop 8 (sf_da s ++ sf_sa s) ++ be16 (sf_len s) ++ take 6 (sf_body s)).
  replace (pre ++ (sf_da s ++ sf_sa s ++ be16 (sf_len s) ++ take 6 (sf_body s) ++ drop 6 (sf_body s)) ++ rest)
    with ((pre ++ junk) ++ old ++ (drop 6 (sf_body s) ++ rest)).
  - rewrite mem_write_app; [by rewrite <- !(assoc_L (++)) | |].
    + subst junk. rewrite length_app, length_take, length_app. lia.
    + subst old. rewrite !length_app, length_drop, length_app, length_be16, length_take. lia.
  - subst junk old. rewrite <- !(assoc_L (++)).
    rewrite (assoc_L (++) (take 8 _)), take_drop. by rewrite <- !(assoc_L (++)).
Qed.

Lemma clear_len :
  mem_write (pre ++ sf_core s ++ rest) (data + 12) [0; 0] =
  Ret (pre ++ (sf_da s ++ sf_sa s ++ [0; 0] ++ sf_body s) ++ rest).
Proof using Hwf Hdata.
  destruct Hwf as (Hd & Hs & Hb & Hl). unfold sf_core.
  replace (pre ++ (sf_da s ++ sf_sa s ++ be16 (sf_len s) ++ sf_body s) ++ rest)
    with ((pre ++ sf_da s ++ sf_sa s) ++ be16 (sf_len s) ++ (sf_body s ++ rest))
    by (rewrite <- !(assoc_L (++)); done).
  rewrite mem_write_app; [by rewrite <- !(assoc_L (++)) | rewrite !length_app; lia | done].
Qed.
End Pieces.

(** One round of the loop on a well-formed sub-frame. *)
Lemma deaggregate_step fuel s pre rest data total out ret :
  sf_wf s -> data = Z.of_nat (length pre) -> 0 < total -> sf_len s <= total ->
  exists pre', Z.of_nat (length pre') = data + 14 + sf_len s /\
  deaggregate_loop (S fuel) data total (MkDeagg ret (pre ++ sf_core s ++ rest) out) =
  deaggregate_loop fuel (data + (sf_len s + pad4 (sf_len s + 14) + 14))
    (total - (sf_len s + pad4 (sf_len s + 14) + 14))
    (MkDeagg MLAN_STATUS_SUCCESS (pre' ++ rest) (out ++ [sf_deliver s])).
Proof.
  intros Hwf Hdata Htot Hle. pose proof Hwf as (Hd & Hs & Hb & Hl).
  assert (0 <= sf_len s) by (unfold sf_len; lia).
  cbn [deaggregate_loop da_mem da_out].
  change (2 * MLAN_MAC_ADDR_LENGTH) with 12. change sizeof_Eth803Hdr_t with 14. change LLC_SNAP_LEN with 8.
  destruct (Z.ltb_spec 0 total); [| lia].
  rewrite read_len by done. rewrite bind_ret.
  destruct (Z.ltb_spec total (sf_len s)); [lia |].
  rewrite read_hdr by done. rewrite bind_ret. unfold sf_deliver.
  destruct (decide (take 6 (sf_body s) = rfc1042_eth_hdr)) as [He | He].
  - rewrite read_macs by done. rewrite bind_ret.
    destruct (move_macs s pre rest data Hwf Hdata) as (junk & Hj & ->).
    rewrite !bind_ret. change (14 - 8) with 6.
    rewrite wrap_small by lia.
    rewrite mem_read_app; [| rewrite length_app; lia |].
    + rewrite bind_ret.
      exists ((pre ++ junk) ++ sf_da s ++ sf_sa s ++ drop 6 (sf_body s)). split.
      * rewrite !length_app, length_drop. unfold sf_len in *. lia.
      * rewrite <- !(assoc_L (++)). f_equal; lia.
    + rewrite !length_app, length_drop. unfold sf_len in *. lia.
  - rewrite clear_len by done. rewrite !bind_ret. rewrite wrap_small by lia.
    rewrite mem_read_app; [| done |].
    + rewrite bind_ret.
      exists (pre ++ sf_da s ++ sf_sa s ++ [0; 0] ++ sf_body s). split.
      * rewrite !length_app. simpl. unfold sf_len in *. lia.
      * rewrite <- !(assoc_L (++)). f_equal; lia.
    + rewrite !length_app. simpl. unfold sf_len in *. lia.
Qed.

Lemma amsdu_wf_cons s l : amsdu_wf (s :: l) ->
  sf_wf s /\ Z.of_nat (length (sf_pad s)) <= pad4 (sf_len s + 14) /\
  amsdu_wf l /\ (l = [] \/ sf_padded s).
Proof. destruct l; simpl; unfold sf_padded; intuition lia. Qed.

Lemma amsdu_encode_cons s l : amsdu_encode (s :: l) = sf_core s ++ sf_pad s ++ amsdu_encode l.
Proof. unfold amsdu_encode, sf_encode. simpl. by rewrite <- (assoc_L (++)). Qed.

Lemma sf_core_length s : sf_wf s -> Z.of_nat (length (sf_core s)) = 14 + sf_len s.
Proof. intros (? & ? & ? & ?). unfold sf_core, sf_len. rewrite !length_app, length_be16. lia. Qed.

Lemma deaggregate_loop_correct l : forall fuel pre post data total out ret,
  amsdu_wf l -> l <> [] ->
  data = Z.of_nat (length pre) -> total = Z.of_nat (length (amsdu_encode l)) ->
  (Z.to_nat total < fuel)%nat ->
  exists mem', length mem' = length (pre ++ amsdu_encode l ++ post) /\
  deaggregate_loop fuel data total (MkDeagg ret (pre ++ amsdu_encode l ++ post) out) =
  Ret (MkDeagg MLAN_STATUS_SUCCESS mem' (out ++ (sf_deliver <$> l))).
Proof.
  induction l as [| s l IH]; [done |]. intros fuel pre post data total out ret Hwf _ Hdata Htot Hfuel.
  destruct (amsdu_wf_cons _ _ Hwf) as (Hs & Hpad & Hl & Hlast).
  pose proof (sf_core_length s Hs) as Hcl. pose proof (pad4_range (sf_len s + 14)) as Hpr.
  assert (0 <= sf_len s) by (unfold sf_len; lia).
  rewrite amsdu_encode_cons, !length_app in *.
  destruct fuel as [| fuel]; [lia |].
  rewrite <- !(assoc_L (++)).
  destruct (deaggregate_step fuel s pre (sf_pad s ++ amsdu_encode l ++ post) data total out ret)
    as (pre' & Hpre' & ->); [done | done | lia | lia |].
  destruct l as [| s' l'].
  - exists (pre' ++ sf_pad s ++ amsdu_encode [] ++ post). split.
    + rewrite !length_app. simpl. lia.
    + destruct fuel as [| fuel]; [lia |]. cbn [deaggregate_loop]. simpl in Htot.
      destruct (Z.ltb_spec 0 (total - (sf_len s + pad4 (sf_len s + 14) + 14))); [lia | done].
  - destruct Hlast as [? | Hp]; [done |]. unfold sf_padded in Hp.
    destruct (IH fuel (pre' ++ sf_pad s) post
                (data + (sf_len s + pad4 (sf_len s + 14) + 14))
                (total - (sf_len s + pad4 (sf_len s + 14) + 14))
                (out ++ [sf_deliver s]) MLAN_STATUS_SUCCESS) as (mem' & Hlen & Heq);
      [done | done | rewrite length_app; lia | lia | lia |].
    exists mem'. rewrite <- !(assoc_L (++)) in *. split; [| exact Heq].
    rewrite Hlen, !length_app. lia.
Qed.

Lemma num_aggrpkts_loop_correct l : forall fuel pre post data total n,
  amsdu_wf l -> l <> [] ->
  data = Z.of_nat (length pre) -> total = Z.of_nat (length (amsdu_encode l)) ->
  (Z.to_nat total < fuel)%nat ->
  num_aggrpkts_loop fuel (pre ++ amsdu_encode l ++ post) data total n =
  Ret (n + Z.of_nat (length l)).
Proof.
  induction l as [| s l IH]; [done |]. intros fuel pre post data total n Hwf _ Hdata Htot Hfuel.
  destruct (amsdu_wf_cons _ _ Hwf) as (Hs & Hpad & Hl & Hlast).
  pose proof (sf_core_length s Hs) as Hcl. pose proof (pad4_range (sf_len s + 14)) as Hpr.
  assert (0 <= sf_len s) by (unfold sf_len; lia).
  rewrite amsdu_encode_cons, !length_app in *.
  destruct fuel as [| fuel]; [lia |]. cbn [num_aggrpkts_loop].
  destruct (Z.ltb_spec 0 total); [| lia].
  rewrite <- !(assoc_L (++)). change (2 * MLAN_MAC_ADDR_LENGTH) with 12.
  rewrite read_len by done. rewrite bind_ret. change sizeof_Eth803Hdr_t with 14.
  destruct l as [| s' l'].
  - destruct fuel as [| fuel]; [lia |]. cbn [num_aggrpkts_loop]. simpl in Htot.
    destruct (Z.ltb_spec 0 (total - (sf_len s + pad4 (sf_len s + 14) + 14))); [lia |].
    done.
  - destruct Hlast as [? | Hp]; [done |]. unfold sf_padded in Hp.
    rewrite (assoc_L (++) (sf_core s)), (assoc_L (++) pre).
    rewrite IH; [f_equal; simpl; lia | done | done | rewrite !length_app; lia | lia | lia].
Qed.

Lemma deaggregate_correct_aux (l : list subframe) (pre post : list Z) :
  amsdu_wf l -> l <> [] -> Z.of_nat (length (amsdu_encode l)) <= MLAN_RX_DATA_BUF_SIZE ->
  exists mem', length mem' = length (pre ++ amsdu_encode l ++ post) /\
  wlan_11n_deaggregate_pkt (pre ++ amsdu_encode l ++ post)
    (Z.of_nat (length pre)) (Z.of_nat (length (amsdu_encode l))) =
  Ret (MkDeagg MLAN_STATUS_SUCCESS mem' (sf_deliver <$> l), Some (Z.of_nat (length l))).
Proof.
  intros Hwf Hne Hsz. unfold wlan_11n_deaggregate_pkt, wlan_11n_get_num_aggrpkts, loop_fuel.
  destruct (Z.ltb_spec MLAN_RX_DATA_BUF_SIZE (Z.of_nat (length (amsdu_encode l)))); [lia |].
  rewrite (num_aggrpkts_loop_correct l) by (done || lia). rewrite bind_ret, Z.add_0_l.
  edestruct (deaggregate_loop_correct l) as (mem' & Hl & ->); try done || lia.
  by exists mem'.
Qed.

(** *** Termination *)

Lemma num_aggrpkts_loop_terminates fuel : forall mem data total n,
  bytes mem -> (Z.to_nat total < fuel)%nat ->
  num_aggrpkts_loop fuel mem data total n <> Fault OutOfFuel.
Proof.
  induction fuel as [| fuel IH]; intros mem data total n Hm Hf; [lia |]. cbn [num_aggrpkts_loop].
  destruct (Z.ltb_spec 0 total); [| done].
  destruct (mem_read_be16 mem _) as [len | f] eqn:Hr; simpl.
  - apply mem_read_be16_range in Hr as Hlen; [| done].
    pose proof (pad4_range (len + sizeof_Eth803Hdr_t)).
    apply IH; [done |]. unfold sizeof_Eth803Hdr_t in *. lia.
  - apply mem_read_be16_fault in Hr. congruence.
Qed.

Lemma deaggregate_loop_terminates fuel : forall data total st,
  bytes (da_mem st) -> (Z.to_nat total < fuel)%nat ->
  deaggregate_loop fuel data total st <> Fault OutOfFuel.
Proof.
  induction fuel as [| fuel IH]; intros data total st Hm Hf; [lia |]. cbn [deaggregate_loop].
  destruct (Z.ltb_spec 0 total); [| done].
  destruct (mem_read_be16 _ _) as [len | f] eqn:Hr; simpl; [| apply mem_read_be16_fault in Hr; congruence].
  apply mem_read_be16_range in Hr as Hlen; [| done].
  pose proof (pad4_range (len + sizeof_Eth803Hdr_t)).
  destruct (Z.ltb_spec total len); [done |].
  destruct (mem_read _ _ 6) as [hdr | f] eqn:Hh; simpl; [| apply mem_read_fault in Hh; congruence].
  destruct (decide _).
  - destruct (mem_read _ data _) as [macs | f] eqn:Hmac; simpl; [| apply mem_read_fault in Hmac; congruence].
    destruct (mem_write _ _ macs) as [m | f] eqn:Hw; simpl; [| apply mem_write_fault in Hw; congruence].
    destruct (mem_read m _ _) eqn:Hfr; simpl; [| apply mem_read_fault in Hfr; congruence].
    apply IH; [| unfold sizeof_Eth803Hdr_t in *; lia].
    eapply mem_write_bytes, Hw; [done |]. by eapply mem_read_bytes, Hmac.
  - destruct (mem_write _ _ _) as [m | f] eqn:Hw; simpl; [| apply mem_write_fault in Hw; congruence].
    destruct (mem_read m _ _) eqn:Hfr; simpl; [| apply mem_read_fault in Hfr; congruence].
    apply IH; [| unfold sizeof_Eth803Hdr_t in *; lia].
    eapply mem_write_bytes, Hw; [done |]. by repeat constructor.
Qed.

(** C34:  De-aggregating a well-formed A-MSDU delivers exactly the Ethernet
    frames of its sub-frames, in order, for any content of the buffer around
    the frame, and records their number. *)
Theorem deaggregate_correct (l : list subframe) (pre post : list Z) :
  amsdu_wf l -> l <> [] -> Z.of_nat (length (amsdu_encode l)) <= MLAN_RX_DATA_BUF_SIZE ->
  exists mem', length mem' = length (pre ++ amsdu_encode l ++ post) /\
  wlan_11n_deaggregate_pkt (pre ++ amsdu_encode l ++ post)
    (Z.of_nat (length pre)) (Z.of_nat (length (amsdu_encode l))) =
  Ret (MkDeagg MLAN_STATUS_SUCCESS mem' (sf_deliver <$> l), Some (Z.of_nat (length l))).
Proof. exact (deaggregate_correct_aux l pre post). Qed.

(**  De-aggregation terminates on every received frame, well formed or
    not: each round consumes at least a sub-frame header. *)
Theorem deaggregate_terminates (mem : list Z) (data data_len : Z) :
  bytes mem -> wlan_11n_deaggregate_pkt mem data data_len <> Fault OutOfFuel.
Proof.
  intros Hm. unfold wlan_11n_deaggregate_pkt, wlan_11n_get_num_aggrpkts, loop_fuel.
  case_match; [done |].
  case_bind Hn.
  - case_bind Hd; [done |].
    intros [= ->].
    refine (deaggregate_loop_terminates _ _ _ _ _ _ Hd); [exact Hm | lia].
  - intros [= ->]. refine (num_aggrpkts_loop_terminates _ _ _ _ _ Hm _ Hn). lia.
Qed.

(** *** Round trip with the sender's side *)

(** The sub-frame an Ethernet frame becomes. *)
Definition sf_of_frame (data : list Z) : subframe :=
  MkSub (take 6 data) (take 6 (drop 6 data)) (rfc1042_eth_hdr ++ drop 12 data)
    (replicate (Z.to_nat (pad4 (Z.of_nat (length data) + LLC_SNAP_LEN))) 0).

Lemma sf_of_frame_wf data :
  (14 <= length data)%nat -> Z.of_nat (length data) < 60000 ->
  sf_wf (sf_of_frame data) /\ sf_padded (sf_of_frame data) /\
  sf_len (sf_of_frame data) = Z.of_nat (length data) - 6.
Proof.
  intros. assert (Hl : sf_len (sf_of_frame data) = Z.of_nat (length data) - 6)
    by (unfold sf_len; simpl; rewrite length_drop; lia).
  pose proof (pad4_range (Z.of_nat (length data) + LLC_SNAP_LEN)).
  unfold sf_wf, sf_padded. rewrite Hl. simpl.
  rewrite !length_take, !length_drop, length_replicate.
  replace (Z.of_nat (length data) - 6 + 14) with (Z.of_nat (length data) + LLC_SNAP_LEN)
    by (unfold LLC_SNAP_LEN; lia).
  repeat split; lia.
Qed.

Lemma sf_deliver_of_frame data : (14 <= length data)%nat -> sf_deliver (sf_of_frame data) = data.
Proof.
  intros. unfold sf_deliver. cbn [sf_body sf_da sf_sa sf_of_frame].
  rewrite (take_app_length' rfc1042_eth_hdr), (drop_app_length' rfc1042_eth_hdr) by done.
  rewrite decide_True by done. rewrite (assoc_L (++)).
  rewrite <- (take_drop 12 data) at 4. f_equal.
  rewrite <- (take_drop 6 (take 12 data)), take_take. f_equal. by rewrite skipn_firstn_comm.
Qed.

(** The encoding of an Ethernet frame given by its three parts. *)
Lemma sf_encode_of_frame macs ty body :
  length macs = 12%nat -> length ty = 2%nat ->
  sf_encode (sf_of_frame (macs ++ ty ++ body)) =
  macs ++ be16 (Z.of_nat (length body) + 8) ++ (rfc1042_eth_hdr ++ ty) ++ body ++
  replicate (Z.to_nat (pad4 (Z.of_nat (length body) + 22))) 0.
Proof.
  intros Hm Ht. unfold sf_encode, sf_core, sf_len. cbn [sf_da sf_sa sf_body sf_pad sf_of_frame].
  rewrite !(drop_app_length' macs _ 12) by done. rewrite !length_app, Hm, Ht.
  rewrite (take_app_le macs), (drop_app_le macs) by lia.
  rewrite (take_app_le (drop 6 macs)) by (rewrite length_drop; lia).
  rewrite (take_ge (drop 6 macs)) by (rewrite length_drop; lia).
  rewrite (assoc_L (++) (take 6 macs)), take_drop.
  change (length rfc1042_eth_hdr) with 6%nat. change LLC_SNAP_LEN with 8.
  rewrite <- !(assoc_L (++)). repeat (f_equal; try lia).
Qed.

(** What [wlan_11n_form_amsdu_pkt] writes: the padded sub-frame, nothing else. *)
Lemma form_amsdu_pkt_writes data pre old post :
  (14 <= length data)%nat -> Z.of_nat (length data) < 60000 ->
  Z.of_nat (length old) = sf_size (sf_of_frame data) ->
  wlan_11n_form_amsdu_pkt (pre ++ old ++ post) (Z.of_nat (length pre)) data (Z.of_nat (length data)) =
  Ret (pre ++ sf_encode (sf_of_frame data) ++ post, sf_size (sf_of_frame data),
       pad4 (Z.of_nat (length data) + LLC_SNAP_LEN)).
Proof.
  intros Hlen Hmax Hold. destruct (sf_of_frame_wf data Hlen Hmax) as (_ & Hpad & Hsl).
  unfold sf_size, sf_padded in *. rewrite Hsl in *. rewrite Hpad in *.
  destruct (split_block data 12) as (macs & d1 & -> & Hm & Hd1); [lia |].
  destruct (split_block d1 2) as (ty & body & -> & Hty & Hb); [lia |].
  rewrite sf_encode_of_frame by done.
  rewrite !length_app, Hm, Hty in Hlen, Hmax, Hold, Hpad |- *.
  unfold wlan_11n_form_amsdu_pkt, LLC_SNAP_LEN. change (2 * MLAN_MAC_ADDR_LENGTH) with 12.
  change (12 + 2) with 14.
  replace (Z.of_nat (12 + (2 + length body)) - 6 + 14) with (Z.of_nat (length body) + 22) in * by lia.
  replace (Z.of_nat (12 + (2 + length body)) + 8) with (Z.of_nat (length body) + 22) in * by lia.
  set (p := pad4 (Z.of_nat (length body) + 22)) in *.
  pose proof (pad4_range (Z.of_nat (length body) + 22)) as Hpr. fold p in Hpr.
  replace (14 + (Z.of_nat (12 + (2 + length body)) - 6)) with (Z.of_nat (length body) + 22) in * by lia.
  rewrite (mem_read_head macs) by lia. rewrite bind_ret.
  rewrite mem_write_next by lia. rewrite bind_ret.
  rewrite (mem_read_app macs ty body 12 2) by lia. rewrite bind_ret.
  rewrite wrap_small by lia.
  replace (Z.of_nat (length body) + 22 - 14) with (Z.of_nat (length body) + 8) by lia.
  rewrite mem_write_next by (rewrite ?length_app, ?length_drop, ?length_be16; lia). rewrite bind_ret.
  rewrite mem_write_next by (rewrite ?length_app, ?length_drop, ?length_be16; simpl; lia). rewrite bind_ret.
  replace (macs ++ ty ++ body) with ((macs ++ ty) ++ body ++ []) by (by rewrite app_nil_r, (assoc_L (++))).
  rewrite (mem_read_app (macs ++ ty) body) by (rewrite ?length_app; lia). rewrite bind_ret.
  rewrite mem_write_next by (rewrite ?length_app, ?length_drop, ?length_be16; simpl; lia). rewrite bind_ret.
  destruct (Z.eqb_spec p 0) as [Hp0 | Hp0].
  - rewrite bind_ret, Hp0. simpl replicate. rewrite !drop_drop, drop_ge by (rewrite ?length_app; simpl; lia).
    by rewrite <- !(assoc_L (++)).
  - rewrite mem_write_next
      by (rewrite ?length_app, ?length_drop, ?length_be16, ?length_replicate; simpl; lia).
    rewrite bind_ret, !drop_drop, drop_ge by (rewrite ?length_app, ?length_replicate; simpl; lia).
    by rewrite <- !(assoc_L (++)).
Qed.

(** C33:  Round trip: the sub-frame [wlan_11n_form_amsdu_pkt] writes for an
    Ethernet frame is de-aggregated back into that very frame. *)
Theorem form_deaggregate_roundtrip (data pre old post : list Z) :
  (14 <= length data)%nat -> Z.of_nat (length data) + 11 <= MLAN_RX_DATA_BUF_SIZE ->
  Z.of_nat (length old) = sf_size (sf_of_frame data) ->
  exists buf size pad mem',
    wlan_11n_form_amsdu_pkt (pre ++ old ++ post) (Z.of_nat (length pre)) data (Z.of_nat (length data)) =
      Ret (buf, size, pad) /\ size mod 4 = 0 /\ length buf = length (pre ++ old ++ post) /\
    wlan_11n_deaggregate_pkt buf (Z.of_nat (length pre)) size =
      Ret (MkDeagg MLAN_STATUS_SUCCESS mem' [data], Some 1).
Proof.
  intros Hlen Hmax Hold. unfold MLAN_RX_DATA_BUF_SIZE in Hmax.
  destruct (sf_of_frame_wf data) as (Hwf & Hpad & Hsl); [done | lia |].
  set (s := sf_of_frame data) in *.
  assert (Hsz : Z.of_nat (length (amsdu_encode [s])) = sf_size s).
  { rewrite amsdu_encode_cons, !length_app. pose proof (sf_core_length s Hwf).
    unfold sf_size. simpl. lia. }
  pose proof (pad4_range (sf_len s + 14)) as Hr. unfold sf_padded in Hpad.
  destruct (deaggregate_correct_aux [s] pre post) as (mem' & Hmem & Hd);
    [by split; [| rewrite Hpad] | done | unfold MLAN_RX_DATA_BUF_SIZE; unfold sf_size in *; lia |].
  unfold amsdu_encode in Hmem, Hsz, Hd. simpl in Hmem, Hsz, Hd. rewrite app_nil_r in Hmem, Hsz, Hd.
  exists (pre ++ sf_encode s ++ post), (sf_size s), (pad4 (Z.of_nat (length data) + LLC_SNAP_LEN)), mem'.
  split; [by apply form_amsdu_pkt_writes; [| lia |] |]. split; [| split].
  - unfold sf_size. rewrite Hpad. rewrite Hsl. apply pad4_mod4.
  - rewrite !length_app. lia.
  - rewrite <- Hsz, Hd. unfold s. by rewrite sf_deliver_of_frame by done.
Qed.

(**  The length check compares the sub-frame's length with what is left of
    the frame without counting the 14-byte header: a frame cut short by up to
    14 bytes is accepted, and the sub-frame delivered extends past the received
    data into whatever the buffer holds there. *)
Theorem deaggregate_truncated_accepted (s : subframe) (pre post : list Z) (data_len : Z) :
  sf_wf s -> 0 < data_len <= MLAN_RX_DATA_BUF_SIZE ->
  sf_len s <= data_len < 14 + sf_len s ->
  exists mem', wlan_11n_deaggregate_pkt (pre ++ sf_core s ++ post) (Z.of_nat (length pre)) data_len =
    Ret (MkDeagg MLAN_STATUS_SUCCESS mem' [sf_deliver s], Some 1).
Proof.
  intros Hwf Hd Hl. unfold wlan_11n_deaggregate_pkt, wlan_11n_get_num_aggrpkts, loop_fuel.
  pose proof (pad4_range (sf_len s + 14)).
  destruct (Z.ltb_spec MLAN_RX_DATA_BUF_SIZE data_len); [lia |].
  destruct (Z.to_nat data_len) as [| n] eqn:Hn; [lia |].
  assert (Hc : num_aggrpkts_loop (S (S n)) (pre ++ sf_core s ++ post) (Z.of_nat (length pre)) data_len 0 = Ret 1).
  { remember (S n) as n1. cbn [num_aggrpkts_loop]. destruct (Z.ltb_spec 0 data_len); [| lia].
    change (2 * MLAN_MAC_ADDR_LENGTH) with 12. rewrite read_len by done. rewrite bind_ret.
    change sizeof_Eth803Hdr_t with 14. subst n1. cbn [num_aggrpkts_loop].
    destruct (Z.ltb_spec 0 (data_len - (sf_len s + pad4 (sf_len s + 14) + 14))); [lia | done]. }
  rewrite Hc, bind_ret.
  destruct (deaggregate_step (S n) s pre post (Z.of_nat (length pre)) data_len [] MLAN_STATUS_FAILURE)
    as (pre' & _ & ->); [done | done | lia | lia |].
  cbn [deaggregate_loop].
  destruct (Z.ltb_spec 0 (data_len - (sf_len s + pad4 (sf_len s + 14) + 14))); [lia |].
  by exists (pre' ++ post).
Qed.

(** ** Concrete instances *)

Definition ex_frame : list Z :=
  [1; 2; 3; 4; 5; 6; 7; 8; 9; 10; 11; 12; 0x08; 0x00; 0x45; 0x00; 0x11; 0x22].
Definition ex_subframes : list subframe :=
  [sf_of_frame ex_frame;
   MkSub [1; 1; 1; 1; 1; 1] [2; 2; 2; 2; 2; 2] [0xe0; 0xe0; 3; 4; 5; 6; 7] []].

Lemma deaggregate_correct_witness :
  exists mem', length mem' = 51%nat /\
  wlan_11n_deaggregate_pkt ([9; 9] ++ amsdu_encode ex_subframes) 2 49 =
  Ret (MkDeagg MLAN_STATUS_SUCCESS mem'
         [ex_frame; [1; 1; 1; 1; 1; 1; 2; 2; 2; 2; 2; 2; 0; 0; 0xe0; 0xe0; 3; 4; 5; 6; 7]],
       Some 2).
Proof.
  destruct (deaggregate_correct ex_subframes [9; 9] []) as (mem' & Hl & He).
  - repeat split; vm_compute; first [reflexivity | discriminate | lia].
  - discriminate.
  - vm_compute. discriminate.
  - exists mem'. split; [exact Hl | exact He].
Defined.

Lemma deaggregate_terminates_witness :
  bytes ex_frame /\ wlan_11n_deaggregate_pkt ex_frame 0 18 <> Fault OutOfFuel.
Proof.
  assert (H : bytes ex_frame) by (repeat constructor; vm_compute; discriminate).
  split; [exact H | apply (deaggregate_terminates ex_frame 0 18 H)].
Defined.

Lemma form_deaggregate_roundtrip_witness :
  exists buf size pad mem',
    wlan_11n_form_amsdu_pkt (replicate 40 0xff) 0 ex_frame 18 = Ret (buf, size, pad) /\
    size mod 4 = 0 /\ length buf = 40%nat /\
    wlan_11n_deaggregate_pkt buf 0 size = Ret (MkDeagg MLAN_STATUS_SUCCESS mem' [ex_frame], Some 1).
Proof.
  apply (form_deaggregate_roundtrip ex_frame [] (replicate 28 0xff) (replicate 12 0xff));
    vm_compute; first [reflexivity | discriminate | lia].
Defined.

Lemma deaggregate_truncated_accepted_witness :
  exists mem', wlan_11n_deaggregate_pkt (sf_core (sf_of_frame ex_frame) ++ [7; 7]) 0 20 =
    Ret (MkDeagg MLAN_STATUS_SUCCESS mem' [ex_frame], Some 1).
Proof.
  apply (deaggregate_truncated_accepted (sf_of_frame ex_frame) [] [7; 7] 20);
    [apply sf_of_frame_wf; simpl; lia | split; [reflexivity | vm_compute; discriminate]
    | split; [vm_compute; discriminate | reflexivity]].
Defined.
