(* ===== verification/RxSink.v ===== *)
(** * Delivery of received packets

    The end of the receive path: [wlan_process_rx_packet]
    ([wifidriver/mlan_sta_rx.c]), [wlan_11n_dispatch_amsdu_pkt] and
    [wlan_11n_dispatch_pkt] ([wifidriver/mlan_11n_rxreorder.c]), and the callback
    [wrapper_moal_recv_packet] ([wifidriver/mlan_glue.c]) they end in.

    The reorder component is written against the interface [RxSink]: something
    a packet can be dispatched to or freed from.  [RxSinkLaws] is what the
    driver's own sink, at the end of the file, is shown to provide. *)
From S2P Require Import Prelude Aggr.

(** ** Data *)

Definition PKT_TYPE_MGMT_FRAME : Z := 0xE5.
Definition PKT_TYPE_AMSDU : Z := 0xE6.
Definition PKT_TYPE_BAR : Z := 0xE7.

(** The receive descriptor the firmware puts in front of a packet. *)
Record RxPD := MkRxPD {
  rp_bss_type : Z;       (* u8 *)
  rp_bss_num : Z;        (* u8 *)
  rx_pkt_length : Z;     (* u16 *)
  rx_pkt_offset : Z;     (* u16 *)
  rx_pkt_type : Z;       (* u16 *)
  rp_seq_num : Z;        (* u16 *)
  rp_priority : Z;       (* u8 *)
  rp_rx_rate : Z;        (* u8 *)
  rp_snr : Z;            (* s8 *)
  rp_nf : Z;             (* s8 *)
  rp_rate_info : Z;      (* u8 *)
  rp_tail : list Z       (* the 23 bytes the driver does not read here *)
}.

Definition sizeof_RxPD : Z := 38.

Definition RxPD_bytes (r : RxPD) : list Z :=
  [u8 (rp_bss_type r); u8 (rp_bss_num r)] ++ le16 (rx_pkt_length r) ++ le16 (rx_pkt_offset r) ++
  le16 (rx_pkt_type r) ++ le16 (rp_seq_num r) ++
  [u8 (rp_priority r); u8 (rp_rx_rate r); u8 (rp_snr r); u8 (rp_nf r); u8 (rp_rate_info r)] ++
  rp_tail r.

(** A packet on its way up.  [mb_addr] is the address the structure was
    allocated at, [mb_pbuf] the descriptor copy [pmbuf->pbuf] points to,
    [mb_lwip] the bytes of the network stack's buffer [pmbuf->lwip_pbuf], and
    the two addresses are the Ethernet header at [pmbuf->pdesc]. *)
Record mlan_buffer := MkBuf {
  mb_addr : Z;
  mb_status_code : Z;
  mb_bss_index : Z;
  mb_dest_addr : list Z;
  mb_src_addr : list Z;
  mb_lwip : list Z;
  mb_pbuf : RxPD;
  mb_data_offset : Z;
  mb_data_len : Z
}.

(** A [void *] payload: a packet, or the marker for one the firmware dropped. *)
Inductive rx_ptr :=
  | RX_PKT_DROPPED_IN_FW
  | Mbuf (b : mlan_buffer).

(** What the receive path does to the outside world, in order. *)
Inductive rx_event :=
  | UpPacket (b : mlan_buffer)               (* wm_wifi.deliver_packet_above_callback *)
  | Deaggregate (b : mlan_buffer)            (* the call of wlan_11n_deaggregate_pkt *)
  | UpSubframe (bss_type : Z) (data : list Z) (* wm_wifi.amsdu_data_intput_callback *)
  | FreePbuf (b : mlan_buffer)               (* pbuf_free(pmbuf->lwip_pbuf) *)
  | FreeRxPD (b : mlan_buffer)               (* os_mem_free(pmbuf->pbuf) *)
  | FreeMbuf (b : mlan_buffer).              (* os_mem_free(pmbuf) *)

(** ** The interface *)
Class RxSink (W : Type) := {
  sink_dispatch : W -> rx_ptr -> outcome (mlan_status * W);
  sink_free : W -> mlan_buffer -> W;
  sink_delivered : W -> list mlan_buffer;  (* packets dispatched so far, in order *)
  sink_released : W -> list mlan_buffer;   (* packets whose memory was released, in order *)
  sink_inv : W -> Prop;
  sink_ok : mlan_buffer -> Prop            (* packets the sink can take *)
}.

Class RxSinkLaws (W : Type) `{RxSink W} := {
  sink_dispatch_spec : forall w b, sink_inv w -> sink_ok b ->
    exists r w', sink_dispatch w (Mbuf b) = Ret (r, w') /\ sink_inv w' /\
      sink_delivered w' = sink_delivered w ++ [b] /\
      sink_released w' = sink_released w ++ [b];
  sink_free_spec : forall w b, sink_inv w ->
    sink_inv (sink_free w b) /\
    sink_delivered (sink_free w b) = sink_delivered w /\
    sink_released (sink_free w b) = sink_released w ++ [b]
}.

(** ** The driver's sink *)
Record rx_world := MkWorld {
  w_amsdu_inbuf : list Z;         (* the global amsdu_inbuf[4096] *)
  w_rates : gmap Z (Z * Z);       (* rxpd_rate and rxpd_rate_info of priv[i] *)
  w_log : list rx_event
}.

Definition emit (w : rx_world) (es : list rx_event) : rx_world :=
  MkWorld (w_amsdu_inbuf w) (w_rates w) (w_log w ++ es).

Definition wrapper_moal_recv_packet (w : rx_world) (b : mlan_buffer) : outcome (mlan_status * rx_world) :=
  if negb (mb_data_offset b =? 0) then Fault Hang
  else Ret (MLAN_STATUS_SUCCESS, emit w [UpPacket b; FreeRxPD b; FreeMbuf b]).

(** [wlan_free_mlan_buffer] ([wifidriver/mlan_misc.c]) has an empty body. *)
Definition wlan_free_mlan_buffer (w : rx_world) (b : mlan_buffer) : rx_world := w.

Definition wlan_process_rx_packet (w : rx_world) (b : mlan_buffer) : outcome (mlan_status * rx_world) :=
  let w1 := MkWorld (w_amsdu_inbuf w)
              (<[mb_bss_index b := (rp_rx_rate (mb_pbuf b), rp_rate_info (mb_pbuf b))]> (w_rates w))
              (w_log w) in
  '(ret, w2) ← wrapper_moal_recv_packet w1 b;
  Ret (ret, if decide (ret = MLAN_STATUS_PENDING) then w2 else wlan_free_mlan_buffer w2 b).

Definition wlan_11n_dispatch_amsdu_pkt (w : rx_world) (b : mlan_buffer) : outcome (mlan_status * rx_world) :=
  if rx_pkt_type (mb_pbuf b) =? PKT_TYPE_AMSDU then
    let data_len := rx_pkt_length (mb_pbuf b) in
    let data_offset := mb_data_offset b + rx_pkt_offset (mb_pbuf b) in
    m1 ← mem_write (w_amsdu_inbuf w) 0 (RxPD_bytes (mb_pbuf b));
    (* pbuf_copy_partial copies at most the bytes the chain holds *)
    m2 ← mem_write m1 data_offset (take (Z.to_nat data_len) (mb_lwip b));
    '(da, _) ← wlan_11n_deaggregate_pkt m2 data_offset data_len;
    let bss_type := default 0 (head m2) in
    Ret (MLAN_STATUS_SUCCESS,
         MkWorld (da_mem da) (w_rates w)
           (w_log w ++ [FreeRxPD b; FreePbuf b; Deaggregate b] ++
            (UpSubframe bss_type <$> da_out da) ++ [FreeMbuf b]))
  else Ret (MLAN_STATUS_FAILURE, w).

Definition wlan_11n_dispatch_pkt (w : rx_world) (payload : rx_ptr) : outcome (mlan_status * rx_world) :=
  match payload with
  | RX_PKT_DROPPED_IN_FW => Ret (MLAN_STATUS_SUCCESS, w)
  | Mbuf b =>
      '(r, w1) ← wlan_11n_dispatch_amsdu_pkt w b;
      if decide (r = MLAN_STATUS_SUCCESS) then Ret (MLAN_STATUS_SUCCESS, w1)
      else wlan_process_rx_packet w1 b
  end.

(** The three releases of [wlan_11n_free_rxreorder_pkt]. *)
Definition free_rx_buffer (w : rx_world) (b : mlan_buffer) : rx_world :=
  emit w [FreePbuf b; FreeRxPD b; FreeMbuf b].

(** ** The laws *)
Definition delivered_of (e : rx_event) : option mlan_buffer :=
  match e with UpPacket b | Deaggregate b => Some b | _ => None end.
Definition released_of (e : rx_event) : option mlan_buffer :=
  match e with FreeMbuf b => Some b | _ => None end.

(** An A-MSDU the sink can take: well-formed sub-frames that fit the buffer
    after the descriptor. *)
Definition amsdu_buffer_ok (b : mlan_buffer) : Prop :=
  exists l, amsdu_wf l /\ l <> [] /\
    take (Z.to_nat (rx_pkt_length (mb_pbuf b))) (mb_lwip b) = amsdu_encode l /\
    rx_pkt_length (mb_pbuf b) = Z.of_nat (length (amsdu_encode l)) /\
    0 <= rx_pkt_offset (mb_pbuf b) /\
    rx_pkt_offset (mb_pbuf b) + rx_pkt_length (mb_pbuf b) <= 4096 /\
    length (rp_tail (mb_pbuf b)) = 23%nat.

Definition world_ok (w : rx_world) : Prop := length (w_amsdu_inbuf w) = 4096%nat.
Definition buffer_ok (b : mlan_buffer) : Prop :=
  mb_data_offset b = 0 /\ (rx_pkt_type (mb_pbuf b) = PKT_TYPE_AMSDU -> amsdu_buffer_ok b).

#[export] Instance driver_sink : RxSink rx_world := {
  sink_dispatch := wlan_11n_dispatch_pkt;
  sink_free := free_rx_buffer;
  sink_delivered w := omap delivered_of (w_log w);
  sink_released w := omap released_of (w_log w);
  sink_inv := world_ok;
  sink_ok := buffer_ok
}.

Lemma length_RxPD_bytes r : length (RxPD_bytes r) = (15 + length (rp_tail r))%nat.
Proof. unfold RxPD_bytes. rewrite !length_app. simpl. lia. Qed.

Lemma mem_write_split {A} (m bs : list A) (off : Z) :
  0 <= off -> off + Z.of_nat (length bs) <= Z.of_nat (length m) ->
  exists pre post, mem_write m off bs = Ret (pre ++ bs ++ post) /\
    Z.of_nat (length pre) = off /\ length (pre ++ bs ++ post) = length m.
Proof.
  intros. destruct (split_block m (Z.to_nat off)) as (pre & r & -> & Hp & Hr); [lia |].
  rewrite length_app in *. destruct (split_block r (length bs)) as (old & post & -> & Ho & Hpost); [lia |].
  exists pre, post. rewrite mem_write_app by lia. rewrite !length_app in *. split; [done | lia].
Qed.

(** De-aggregating a well-formed A-MSDU from [amsdu_inbuf]. *)
Lemma dispatch_amsdu_ok w b l :
  world_ok w -> mb_data_offset b = 0 -> rx_pkt_type (mb_pbuf b) = PKT_TYPE_AMSDU ->
  amsdu_wf l -> l <> [] ->
  take (Z.to_nat (rx_pkt_length (mb_pbuf b))) (mb_lwip b) = amsdu_encode l ->
  rx_pkt_length (mb_pbuf b) = Z.of_nat (length (amsdu_encode l)) ->
  0 <= rx_pkt_offset (mb_pbuf b) ->
  rx_pkt_offset (mb_pbuf b) + rx_pkt_length (mb_pbuf b) <= 4096 ->
  length (rp_tail (mb_pbuf b)) = 23%nat ->
  exists mem bss, length mem = 4096%nat /\
    wlan_11n_dispatch_amsdu_pkt w b =
    Ret (MLAN_STATUS_SUCCESS, MkWorld mem (w_rates w)
      (w_log w ++ [FreeRxPD b; FreePbuf b; Deaggregate b] ++
       (UpSubframe bss <$> (sf_deliver <$> l)) ++ [FreeMbuf b])).
Proof.
  intros Hw Hoff Hty Hwf Hne Htake Hlen Ho Hfit Htail. unfold world_ok in Hw.
  unfold wlan_11n_dispatch_amsdu_pkt. rewrite Hty, Z.eqb_refl, Hoff, Z.add_0_l.
  destruct (mem_write_split (w_amsdu_inbuf w) (RxPD_bytes (mb_pbuf b)) 0) as (p1 & q1 & -> & _ & H1);
    [lia | rewrite length_RxPD_bytes; lia |].
  rewrite bind_ret, Htake.
  destruct (mem_write_split (p1 ++ RxPD_bytes (mb_pbuf b) ++ q1) (amsdu_encode l) (rx_pkt_offset (mb_pbuf b)))
    as (p2 & q2 & -> & Hp2 & H2); [lia | lia |].
  rewrite bind_ret, Hlen, <- Hp2.
  destruct (deaggregate_correct_aux l p2 q2) as (mem' & Hm & ->);
    [done | done | unfold MLAN_RX_DATA_BUF_SIZE; lia |].
  exists mem', (default 0 (head (p2 ++ amsdu_encode l ++ q2))). split; [lia | done].
Qed.

#[export] Instance driver_sink_laws : RxSinkLaws rx_world.
Proof.
  split.
  - intros w b Hw [Hoff Hok]. cbn [sink_dispatch driver_sink]. unfold wlan_11n_dispatch_pkt.
    destruct (decide (rx_pkt_type (mb_pbuf b) = PKT_TYPE_AMSDU)) as [Hty | Hty].
    + destruct (Hok Hty) as (l & Hwf & Hne & Htake & Hlen & Ho & Hfit & Htail).
      destruct (dispatch_amsdu_ok w b l) as (mem & bss & Hmem & ->); try done.
      eexists _, _. split; [reflexivity |]. simpl. split; [done |].
      rewrite !omap_app. simpl. rewrite !omap_app. simpl.
      assert (Hno : forall (f : rx_event -> option mlan_buffer), (forall d, f (UpSubframe bss d) = None) ->
                omap f (UpSubframe bss <$> (sf_deliver <$> l)) = []).
      { intros f Hf. induction l as [| s l' IH] using list_ind; [done |]. clear - Hf.
        generalize (sf_deliver <$> s :: l'). intros ds. induction ds; simpl; [done | by rewrite Hf]. }
      by rewrite !Hno by done.
    + unfold wlan_11n_dispatch_amsdu_pkt. destruct (Z.eqb_spec (rx_pkt_type (mb_pbuf b)) PKT_TYPE_AMSDU); [done |].
      rewrite bind_ret. destruct (decide _); [done |].
      unfold wlan_process_rx_packet, wrapper_moal_recv_packet. rewrite Hoff. simpl.
      eexists _, _. split; [reflexivity |]. simpl. by rewrite !omap_app.
  - intros w b Hw. simpl. rewrite !omap_app. simpl. by rewrite app_nil_r.
Qed.
