(* ===== verification/RxTable.v ===== *)
(** * The receive reorder table of one block-ack session

    Models the per-session half of [wifidriver/mlan_11n_rxreorder.c]: a window
    of slots indexed by sequence number, filled as packets arrive and drained
    in order.  The sink packets are dispatched to is the interface [RxSink];
    the theorems use only its laws. *)
From S2P Require Import Prelude Aggr RxSink.

(** ** Data *)
Definition MAX_TID_VALUE : Z := 4096.
Definition TWOPOW11 : Z := 2048.
Definition DEFAULT_SEQ_NUM : Z := 0xffff.
Definition MIN_FLUSH_TIMER_MS : Z := 50.

Inductive baStatus_e :=
  | BA_STREAM_NOT_SETUP | BA_STREAM_SETUP_INPROGRESS | BA_STREAM_SETUP_COMPLETE.

(** [timer_context]: the flag the driver keeps, whether the OS timer object
    exists, and the period the OS timer was last started with, [None] when it
    is stopped. *)
Record reorder_tmr_cnxt_t := MkTimer {
  timer_alloc : bool;
  timer_is_set : bool;
  timer_armed : option Z
}.

Record RxReorderTbl := MkTbl {
  tid : Z;
  ta : list Z;
  start_win : Z;                         (* u16 *)
  last_seq : Z;                          (* u16 *)
  win_size : Z;                          (* u16 *)
  rx_reorder_ptr : list (option rx_ptr);
  timer_context : reorder_tmr_cnxt_t;
  ba_status : baStatus_e;
  amsdu : Z;                             (* u8 *)
  force_no_drop : bool;
  check_start_win : bool;
  pkt_count : Z;                         (* u8 *)
  bitmap : Z                             (* u64 *)
}.

(** Field assignments, [t->f = v]. *)
Definition with_start_win (v : Z) (t : RxReorderTbl) : RxReorderTbl :=
  MkTbl (tid t) (ta t) v (last_seq t) (win_size t) (rx_reorder_ptr t) (timer_context t) (ba_status t)
    (amsdu t) (force_no_drop t) (check_start_win t) (pkt_count t) (bitmap t).
Definition with_last_seq (v : Z) (t : RxReorderTbl) : RxReorderTbl :=
  MkTbl (tid t) (ta t) (start_win t) v (win_size t) (rx_reorder_ptr t) (timer_context t) (ba_status t)
    (amsdu t) (force_no_drop t) (check_start_win t) (pkt_count t) (bitmap t).
Definition with_slots (v : list (option rx_ptr)) (t : RxReorderTbl) : RxReorderTbl :=
  MkTbl (tid t) (ta t) (start_win t) (last_seq t) (win_size t) v (timer_context t) (ba_status t)
    (amsdu t) (force_no_drop t) (check_start_win t) (pkt_count t) (bitmap t).
Definition with_timer (v : reorder_tmr_cnxt_t) (t : RxReorderTbl) : RxReorderTbl :=
  MkTbl (tid t) (ta t) (start_win t) (last_seq t) (win_size t) (rx_reorder_ptr t) v (ba_status t)
    (amsdu t) (force_no_drop t) (check_start_win t) (pkt_count t) (bitmap t).
Definition with_ba (s : baStatus_e) (a : Z) (t : RxReorderTbl) : RxReorderTbl :=
  MkTbl (tid t) (ta t) (start_win t) (last_seq t) (win_size t) (rx_reorder_ptr t) (timer_context t) s
    a (force_no_drop t) (check_start_win t) (pkt_count t) (bitmap t).
Definition with_force_no_drop (v : bool) (t : RxReorderTbl) : RxReorderTbl :=
  MkTbl (tid t) (ta t) (start_win t) (last_seq t) (win_size t) (rx_reorder_ptr t) (timer_context t) (ba_status t)
    (amsdu t) v (check_start_win t) (pkt_count t) (bitmap t).
Definition with_check_start_win (v : bool) (t : RxReorderTbl) : RxReorderTbl :=
  MkTbl (tid t) (ta t) (start_win t) (last_seq t) (win_size t) (rx_reorder_ptr t) (timer_context t) (ba_status t)
    (amsdu t) (force_no_drop t) v (pkt_count t) (bitmap t).
Definition with_pkt_count (v : Z) (t : RxReorderTbl) : RxReorderTbl :=
  MkTbl (tid t) (ta t) (start_win t) (last_seq t) (win_size t) (rx_reorder_ptr t) (timer_context t) (ba_status t)
    (amsdu t) (force_no_drop t) (check_start_win t) v (bitmap t).
Definition with_bitmap (v : Z) (t : RxReorderTbl) : RxReorderTbl :=
  MkTbl (tid t) (ta t) (start_win t) (last_seq t) (win_size t) (rx_reorder_ptr t) (timer_context t) (ba_status t)
    (amsdu t) (force_no_drop t) (check_start_win t) (pkt_count t) v.

(** ** Operations *)

(** [mlan_11n_rxreorder_timer_restart]: starting an OS timer that is running
    restarts it with the new period. *)
Definition moal_start_timer (ms : Z) (c : reorder_tmr_cnxt_t) : reorder_tmr_cnxt_t :=
  MkTimer (timer_alloc c) (timer_is_set c) (Some ms).
Definition moal_stop_timer (c : reorder_tmr_cnxt_t) : reorder_tmr_cnxt_t :=
  MkTimer (timer_alloc c) (timer_is_set c) None.
Definition set_timer_is_set (v : bool) (c : reorder_tmr_cnxt_t) : reorder_tmr_cnxt_t :=
  MkTimer (timer_alloc c) v (timer_armed c).

Definition mlan_11n_rxreorder_timer_restart (t : RxReorderTbl) : RxReorderTbl :=
  let c := timer_context t in
  let c1 := if timer_is_set c then moal_stop_timer c else c in
  with_timer (set_timer_is_set true (moal_start_timer (u32 (win_size t * MIN_FLUSH_TIMER_MS)) c1)) t.

(** The rotation loop: slots [off ..] move to the front. *)
Fixpoint rotate_loop (n : nat) (j off : Z) (l : list (option rx_ptr)) : outcome (list (option rx_ptr)) :=
  match n with
  | O => Ret l
  | S n' =>
      x ← arr_get l (off + j);
      l1 ← arr_set l j x;
      l2 ← arr_set l1 (off + j) None;
      rotate_loop n' (j + 1) off l2
  end.

Section ops.
Context {W : Type} `{RxSink W}.

(** The first loop of [wlan_11n_dispatch_pkt_until_start_win]: dispatch and
    clear slots [i .. i+n-1], skipping holes.  The result of the dispatch is
    ignored, as the code ignores it. *)
Fixpoint dispatch_loop (n : nat) (i : Z) (l : list (option rx_ptr)) (w : W) :
    outcome (list (option rx_ptr) * W) :=
  match n with
  | O => Ret (l, w)
  | S n' =>
      p ← arr_get l i;
      match p with
      | None => dispatch_loop n' (i + 1) l w
      | Some x =>
          l1 ← arr_set l i None;
          '(_, w1) ← sink_dispatch w x;
          dispatch_loop n' (i + 1) l1 w1
      end
  end.

Definition wlan_11n_dispatch_pkt_until_start_win (t : RxReorderTbl) (w : W) (new_start : Z) :
    outcome (mlan_status * RxReorderTbl * W) :=
  let no_pkt_to_send :=
    u16 (if new_start >? start_win t
         then (if new_start - start_win t <? win_size t then new_start - start_win t else win_size t)
         else win_size t) in
  '(l1, w1) ← dispatch_loop (Z.to_nat no_pkt_to_send) 0 (rx_reorder_ptr t) w;
  let xchg := u16 (win_size t - no_pkt_to_send) in
  l2 ← rotate_loop (Z.to_nat xchg) 0 no_pkt_to_send l1;
  bm ← shr64 (bitmap t) no_pkt_to_send;
  Ret (MLAN_STATUS_SUCCESS, with_bitmap bm (with_start_win new_start (with_slots l2 t)), w1).

(** The loop of [wlan_11n_free_rxreorder_pkt]; it dereferences what it finds. *)
Fixpoint free_loop (n : nat) (i : Z) (l : list (option rx_ptr)) (w : W) :
    outcome (list (option rx_ptr) * W) :=
  match n with
  | O => Ret (l, w)
  | S n' =>
      p ← arr_get l i;
      match p with
      | None => free_loop n' (i + 1) l w
      | Some x =>
          l1 ← arr_set l i None;
          match x with
          | RX_PKT_DROPPED_IN_FW => Fault NullPointer
          | Mbuf b => free_loop n' (i + 1) l1 (sink_free w b)
          end
      end
  end.

Definition wlan_11n_free_rxreorder_pkt (t : RxReorderTbl) (w : W) :
    outcome (mlan_status * RxReorderTbl * W) :=
  '(l, w1) ← free_loop (Z.to_nat (win_size t)) 0 (rx_reorder_ptr t) w;
  Ret (MLAN_STATUS_SUCCESS, with_slots l t, w1).

(** The scan of [wlan_11n_scan_and_dispatch]: stop at the first hole; the
    index reached is returned. *)
Fixpoint scan_loop (n : nat) (i : Z) (l : list (option rx_ptr)) (w : W) :
    outcome (Z * list (option rx_ptr) * W) :=
  match n with
  | O => Ret (i, l, w)
  | S n' =>
      p ← arr_get l i;
      match p with
      | None => Ret (i, l, w)
      | Some x =>
          l1 ← arr_set l i None;
          '(_, w1) ← sink_dispatch w x;
          scan_loop n' (i + 1) l1 w1
      end
  end.

Definition wlan_11n_scan_and_dispatch (t : RxReorderTbl) (w : W) :
    outcome (mlan_status * RxReorderTbl * W) :=
  '(i, l1, w1) ← scan_loop (Z.to_nat (win_size t)) 0 (rx_reorder_ptr t) w;
  l2 ← (if i >? 0
        then rotate_loop (Z.to_nat (u16 (win_size t - i))) 0 i l1
        else Ret l1);
  bm ← shr64 (bitmap t) i;
  Ret (MLAN_STATUS_SUCCESS,
       with_start_win (Z.land (start_win t + i) (MAX_TID_VALUE - 1)) (with_bitmap bm (with_slots l2 t)), w1).

(** [wlan_11n_find_last_seqnum]: the index of the last occupied slot, or -1. *)
Fixpoint find_last_loop (n : nat) (l : list (option rx_ptr)) : outcome Z :=
  match n with
  | O => Ret (-1)
  | S n' =>
      p ← arr_get l (Z.of_nat n');
      match p with
      | Some _ => Ret (Z.of_nat n')
      | None => find_last_loop n' l
      end
  end.
Definition wlan_11n_find_last_seqnum (t : RxReorderTbl) : outcome Z :=
  find_last_loop (Z.to_nat (s16 (win_size t))) (rx_reorder_ptr t).

(** [wlan_flush_data], the timer callback, on the table its context names. *)
Definition wlan_flush_data (t : RxReorderTbl) (w : W) : outcome (RxReorderTbl * W) :=
  let t1 := with_timer (set_timer_is_set false (timer_context t)) t in
  startWin ← wlan_11n_find_last_seqnum t1;
  if startWin >=? 0 then
    '(_, t2, w2) ← wlan_11n_dispatch_pkt_until_start_win t1 w
       (Z.land (start_win t1 + u16 startWin + 1) (MAX_TID_VALUE - 1));
    Ret (t2, w2)
  else Ret (t1, w).

(** A one-shot OS timer that expires is stopped, then its callback runs. *)
Definition timer_expires (t : RxReorderTbl) (w : W) : outcome (RxReorderTbl * W) :=
  wlan_flush_data (with_timer (moal_stop_timer (timer_context t)) t) w.

(** The steps of [mlan_11n_rxreorder_pkt] on the table it found. *)

(** [check_start_win]: the packets that arrive before the window start the
    peer announced.  [inl] is an early return, [inr] falls through. *)
Definition rxreorder_check_start (t : RxReorderTbl) (w : W) (seq_num pkt_type : Z) (payload : rx_ptr) :
    outcome ((mlan_status * RxReorderTbl * W) + RxReorderTbl) :=
  if check_start_win t then
    if seq_num =? start_win t then Ret (inr (with_check_start_win false t))
    else
      let t1 := with_pkt_count (u8 (pkt_count t + 1)) t in
      if pkt_count t1 <? win_size t1 / 2 then
        if last_seq t1 =? seq_num then Ret (inl (MLAN_STATUS_FAILURE, t1, w))
        else
          let t2 := with_last_seq seq_num t1 in
          if pkt_type =? PKT_TYPE_BAR then Ret (inl (MLAN_STATUS_SUCCESS, t2, w))
          else '(_, w1) ← sink_dispatch w payload; Ret (inl (MLAN_STATUS_SUCCESS, t2, w1))
      else
        let t2 := with_check_start_win false t1 in
        if negb (seq_num =? start_win t2) && negb (last_seq t2 =? DEFAULT_SEQ_NUM) then
          let end_win := u16 (Z.land (start_win t2 + win_size t2 - 1) (MAX_TID_VALUE - 1)) in
          if ((end_win >? start_win t2) && (last_seq t2 >=? start_win t2) && (last_seq t2 <? end_win))
             || ((end_win <? start_win t2) && ((last_seq t2 >=? start_win t2) || (last_seq t2 <? end_win)))
          then Ret (inr (with_start_win (u16 (last_seq t2 + 1)) t2))
          else if (seq_num <? start_win t2) && (seq_num >? last_seq t2)
          then Ret (inr (with_start_win (u16 (last_seq t2 + 1)) t2))
          else Ret (inr t2)
        else Ret (inr t2)
  else Ret (inr t).

(** Is the packet older than the window? *)
Definition rxreorder_too_old (t : RxReorderTbl) (seq_num : Z) : bool :=
  let start := start_win t in
  if start + TWOPOW11 >? MAX_TID_VALUE - 1
  then (seq_num >=? Z.land (start + TWOPOW11) (MAX_TID_VALUE - 1)) && (seq_num <? start)
  else (seq_num <? start) || (seq_num >? start + TWOPOW11).

(** Placement: move the window so that [seq_num] (for a block-ack request, the
    last sequence number of the requested window) is in it, store the packet,
    and dispatch from the front.  This is the part of the function from the
    adjustment for block-ack requests to the label [done]. *)
Definition rxreorder_place (t : RxReorderTbl) (w : W) (seq_num0 pkt_type : Z) (payload : rx_ptr) :
    outcome (mlan_status * RxReorderTbl * W) :=
  let start := start_win t in
  let win := win_size t in
  let end_win := u16 (Z.land ((start + win) - 1) (MAX_TID_VALUE - 1)) in
  let seq_num := if pkt_type =? PKT_TYPE_BAR
                 then u16 (Z.land ((seq_num0 + win) - 1) (MAX_TID_VALUE - 1)) else seq_num0 in
  '(ret, start1, t1, w1) ←
    (if ((end_win <? start) && (seq_num <? start) && (seq_num >? end_win))
        || ((end_win >? start) && ((seq_num >? end_win) || (seq_num <? start)))
     then
       let delta := s16 (s16 seq_num - s16 win) in
       let start' := if delta + 1 >=? 0 then u16 (u32 (u32 (seq_num - win) + 1))
                     else u16 (u32 (u32 (MAX_TID_VALUE - u32 (win - seq_num)) + 1)) in
       '(r, t', w') ← wlan_11n_dispatch_pkt_until_start_win t w start';
       Ret (r, start', t', w')
     else Ret (MLAN_STATUS_SUCCESS, start, t, w));
  if negb (bool_decide (ret = MLAN_STATUS_SUCCESS)) then Ret (ret, t1, w1)
  else if pkt_type =? PKT_TYPE_BAR then wlan_11n_scan_and_dispatch t1 w1
  else
    let idx := if seq_num >=? start1 then seq_num - start1 else (seq_num + MAX_TID_VALUE) - start1 in
    old ← arr_get (rx_reorder_ptr t1) idx;
    match old with
    | Some _ => Ret (MLAN_STATUS_FAILURE, t1, w1)
    | None =>
        l ← arr_set (rx_reorder_ptr t1) idx (Some payload);
        bm ← set_bit_u64 (bitmap t1) idx;
        wlan_11n_scan_and_dispatch (with_bitmap bm (with_slots l t1)) w1
    end.

(** The code after the label [done]. *)
Definition rxreorder_done (t : RxReorderTbl) : RxReorderTbl :=
  let t1 := if timer_is_set (timer_context t) && (bitmap t =? 0)
            then with_timer (set_timer_is_set false (moal_stop_timer (timer_context t))) t else t in
  if negb (timer_is_set (timer_context t1)) && negb (bitmap t1 =? 0)
  then mlan_11n_rxreorder_timer_restart t1 else t1.

(** [mlan_11n_rxreorder_pkt] for a packet whose table was found. *)
Definition rxreorder_tbl_pkt (t : RxReorderTbl) (w : W) (seq_num pkt_type : Z) (payload : rx_ptr) :
    outcome (mlan_status * RxReorderTbl * W) :=
  if (pkt_type =? PKT_TYPE_AMSDU) && (amsdu t =? 0) then
    '(_, w1) ← sink_dispatch w payload; Ret (MLAN_STATUS_SUCCESS, t, w1)
  else
    c ← rxreorder_check_start t w seq_num pkt_type payload;
    match c with
    | inl r => Ret r
    | inr t1 =>
        if negb (force_no_drop t1) && rxreorder_too_old t1 seq_num
        then Ret (MLAN_STATUS_FAILURE, rxreorder_done t1, w)
        else
          let t2 := if force_no_drop t1 then with_force_no_drop false t1 else t1 in
          '(r, t3, w1) ← rxreorder_place t2 w seq_num pkt_type payload;
          Ret (r, rxreorder_done t3, w1)
    end.

(** Several packets in a row. *)
Fixpoint rxreorder_tbl_pkts (t : RxReorderTbl) (w : W) (l : list (Z * rx_ptr)) :
    outcome (list mlan_status * RxReorderTbl * W) :=
  match l with
  | [] => Ret ([], t, w)
  | (seq, p) :: l' =>
      '(r, t1, w1) ← rxreorder_tbl_pkt t w seq 0 p;
      '(rs, t2, w2) ← rxreorder_tbl_pkts t1 w1 l';
      Ret (r :: rs, t2, w2)
  end.
End ops.

(** ** The reference reorder buffer

    The same window on mathematical integers: distances modulo 4096 instead of
    case splits on wrap-around, list surgery instead of loops. *)
Definition dist (s a : Z) : Z := (a - s) mod MAX_TID_VALUE.

Definition slot_mbuf (o : option rx_ptr) : option mlan_buffer :=
  match o with Some (Mbuf b) => Some b | _ => None end.
Abbreviation mbufs := (omap slot_mbuf).
Abbreviation blanks n := (replicate n (@None rx_ptr)).

(** Length of the run of occupied slots at the front. *)
Fixpoint run_len (l : list (option rx_ptr)) : nat :=
  match l with Some _ :: l' => S (run_len l') | _ => O end.

(** The occupancy bit mask of a window. *)
Fixpoint occupancy (l : list (option rx_ptr)) : Z :=
  match l with
  | [] => 0
  | o :: l' => 2 * occupancy l' + (match o with Some _ => 1 | None => 0 end)
  end.

Record window := MkWindow { wd_start : Z; wd_slots : list (option rx_ptr); wd_out : list mlan_buffer }.

(** Drop [n] slots from the front, delivering what they hold. *)
Definition ref_advance (n : nat) (new_start : Z) (v : window) : window :=
  MkWindow new_start (drop n (wd_slots v) ++ blanks n) (wd_out v ++ mbufs (take n (wd_slots v))).
Definition ref_drain (v : window) : window :=
  let k := run_len (wd_slots v) in
  ref_advance k ((wd_start v + Z.of_nat k) mod MAX_TID_VALUE) v.

(** How many slots a move of the window start flushes.  Going forward without
    wrapping it is the distance, but never more than the window; any other
    move flushes the whole window. *)
Definition ref_shift (start win new : Z) : Z :=
  if start <? new then Z.min (new - start) win else win.

Definition ref_make_room (win e : Z) (v : window) : window :=
  if dist (wd_start v) e <? win then v
  else let new := (e - win + 1) mod MAX_TID_VALUE in
       ref_advance (Z.to_nat (ref_shift (wd_start v) win new)) new v.

Definition ref_place (win seq : Z) (bar : bool) (payload : rx_ptr) (v : window) : mlan_status * window :=
  if bar then (MLAN_STATUS_SUCCESS, ref_drain (ref_make_room win ((seq + win - 1) mod MAX_TID_VALUE) v))
  else
    let v1 := ref_make_room win seq v in
    let i := Z.to_nat (dist (wd_start v1) seq) in
    match wd_slots v1 !! i with
    | Some (Some _) => (MLAN_STATUS_FAILURE, v1)
    | _ => (MLAN_STATUS_SUCCESS,
            ref_drain (MkWindow (wd_start v1) (<[i := Some payload]> (wd_slots v1)) (wd_out v1)))
    end.

Definition window_of (t : RxReorderTbl) : window := MkWindow (start_win t) (rx_reorder_ptr t) [].
Definition put_window (v : window) (t : RxReorderTbl) : RxReorderTbl :=
  with_bitmap (occupancy (wd_slots v)) (with_start_win (wd_start v) (with_slots (wd_slots v) t)).

(** ** Occupancy *)
Lemma occupancy_range l : 0 <= occupancy l < 2 ^ Z.of_nat (length l).
Proof.
  induction l as [| o l IH]; simpl length; [simpl; lia |].
  rewrite Nat2Z.inj_succ, Z.pow_succ_r by lia. simpl. destruct o; lia.
Qed.

Lemma occupancy_app_blanks l n : occupancy (l ++ blanks n) = occupancy l.
Proof.
  induction l as [| o l IH]; simpl; [| lia].
  induction n as [| n IH]; simpl; lia.
Qed.

Lemma occupancy_drop l n : occupancy (drop n l) = Z.shiftr (occupancy l) (Z.of_nat n).
Proof.
  revert n. induction l as [| o l IH]; intros n.
  - rewrite drop_nil. simpl. by rewrite Z.shiftr_0_l.
  - destruct n as [| n]; [done |]. simpl drop. rewrite IH, Nat2Z.inj_succ, <- Z.add_1_l.
    rewrite <- Z.shiftr_shiftr by lia. f_equal. simpl occupancy.
    rewrite Z.shiftr_div_pow2 by lia. change (2 ^ 1) with 2.
    destruct o; [apply (Z.div_unique _ _ _ 1) | apply (Z.div_unique _ _ _ 0)]; lia.
Qed.

Definition occupied (l : list (option rx_ptr)) (i : nat) : bool :=
  match l !! i with Some (Some _) => true | _ => false end.

Lemma occupancy_testbit l i : Z.testbit (occupancy l) (Z.of_nat i) = occupied l i.
Proof.
  revert i. induction l as [| o l IH]; intros i.
  - simpl occupancy. by rewrite Z.testbit_0_l.
  - destruct i as [| i]; simpl occupancy.
    + destruct o; [by rewrite Z.testbit_odd_0 | by rewrite Z.add_0_r, Z.testbit_even_0].
    + rewrite Nat2Z.inj_succ.
      destruct o; [rewrite Z.testbit_odd_succ by lia | rewrite Z.add_0_r, Z.testbit_even_succ by lia]; apply IH.
Qed.

Lemma occupancy_insert l i p :
  (i < length l)%nat ->
  occupancy (<[i := Some p]> l) = Z.lor (occupancy l) (Z.shiftl 1 (Z.of_nat i)).
Proof.
  intros Hi. apply Z.bits_inj'. intros k Hk. rewrite <- (Z2Nat.id k Hk).
  rewrite Z.lor_spec, !occupancy_testbit, Z.shiftl_1_l, Z.pow2_bits_eqb by lia.
  destruct (decide (Z.to_nat k = i)) as [<- | Hne].
  - rewrite Z.eqb_refl, orb_true_r. unfold occupied. by rewrite list_lookup_insert_eq.
  - replace (Z.of_nat i =? Z.of_nat (Z.to_nat k)) with false by (symmetry; apply Z.eqb_neq; lia).
    rewrite orb_false_r. unfold occupied. by rewrite list_lookup_insert_ne by done.
Qed.

Lemma occupancy_zero l : occupancy l = 0 <-> Forall (fun o => o = None) l.
Proof.
  induction l as [| o l IH]; simpl; [by split |].
  pose proof (occupancy_range l). rewrite List.Forall_cons_iff, <- IH. destruct o; [split; [lia | by intros [? _]] | split; [split; [done | lia] | lia]].
Qed.

Lemma run_len_le l : (run_len l <= length l)%nat.
Proof. induction l as [| [] l IH]; simpl; lia. Qed.

(** ** The loops *)
Lemma rotate_loop_spec (done rest : list (option rx_ptr)) (off : nat) :
  (0 < off)%nat ->
  rotate_loop (length rest) (Z.of_nat (length done)) (Z.of_nat off) (done ++ blanks off ++ rest) =
  Ret (done ++ rest ++ blanks off).
Proof.
  intros Hoff. revert done. induction rest as [| x rest IH]; intros done; simpl rotate_loop.
  - by rewrite app_nil_r.
  - rewrite (assoc_L (++)), (arr_get_app (done ++ blanks off) rest x), bind_ret
      by (rewrite length_app, length_replicate; lia).
    destruct off as [| off]; [lia |]. simpl replicate. rewrite <- (assoc_L (++)). simpl app.
    rewrite arr_set_app, bind_ret by done.
    replace (done ++ x :: blanks off ++ x :: rest) with ((done ++ x :: blanks off) ++ x :: rest)
      by (by rewrite <- (assoc_L (++))).
    rewrite arr_set_app, bind_ret by (rewrite length_app; simpl; rewrite length_replicate; lia).
    replace ((done ++ x :: blanks off) ++ None :: rest) with ((done ++ [x]) ++ blanks (S off) ++ rest).
    + replace (Z.of_nat (length done) + 1) with (Z.of_nat (length (done ++ [x]))) by (rewrite length_app; simpl; lia).
      rewrite IH. f_equal. rewrite <- (assoc_L (++)). done.
    + rewrite replicate_S_end, <- !(assoc_L (++)). done.
Qed.

(** ** The wrap-around arithmetic of the window *)
Ltac zmod := unfold dist, MAX_TID_VALUE in *; Z.div_mod_to_equations; lia.

Lemma dist_range s a : 0 <= dist s a < MAX_TID_VALUE.
Proof. zmod. Qed.

Lemma window_test start win e :
  0 <= start <= MAX_TID_VALUE -> 2 <= win <= 63 -> 0 <= e < MAX_TID_VALUE ->
  let end_win := (start + win - 1) mod MAX_TID_VALUE in
  ((end_win <? start) && (e <? start) && (e >? end_win))
  || ((end_win >? start) && ((e >? end_win) || (e <? start))) = negb (dist start e <? win).
Proof. intros. unfold end_win. zbool; first [reflexivity | exfalso; zmod]. Qed.

Lemma new_start_value win e :
  2 <= win <= 63 -> 0 <= e < MAX_TID_VALUE ->
  (if s16 (s16 e - s16 win) + 1 >=? 0 then u16 (u32 (u32 (e - win) + 1))
   else u16 (u32 (u32 (MAX_TID_VALUE - u32 (win - e)) + 1))) = (e - win + 1) mod MAX_TID_VALUE.
Proof.
  intros. unfold MAX_TID_VALUE in *. rewrite (s16_small e), (s16_small win) by lia.
  replace (s16 (e - win)) with (e - win).
  - rewrite Z.geb_leb. destruct (Z.leb_spec 0 (e - win + 1)).
    + unfold wrap. change (2 ^ 32) with 4294967296. change (2 ^ 16) with 65536. zmod.
    + rewrite (wrap_small 32 (win - e)), (wrap_small 32 (4096 - (win - e))) by lia.
      rewrite (wrap_small 32 (4096 - (win - e) + 1)), wrap_small by lia. zmod.
  - unfold s16, wrap. change (2 ^ 16) with 65536. change (2 ^ 15) with 32768.
    destruct (Z.ltb_spec ((e - win) mod 65536) 32768); zmod.
Qed.

Lemma slot_index start e :
  0 <= start <= MAX_TID_VALUE -> 0 <= e < MAX_TID_VALUE ->
  (if e >=? start then e - start else e + MAX_TID_VALUE - start) = dist start e.
Proof. intros. rewrite Z.geb_leb. destruct (Z.leb_spec start e); zmod. Qed.

Lemma u16_land_4095 z : u16 (Z.land z (MAX_TID_VALUE - 1)) = z mod MAX_TID_VALUE.
Proof.
  change (MAX_TID_VALUE - 1) with 4095. rewrite land_4095. apply wrap_small.
  pose proof (Z.mod_pos_bound z 4096). unfold MAX_TID_VALUE. lia.
Qed.

Section sent.
Context {W : Type} `{RxSinkLaws W}.

(** [w'] is [w] after dispatching [bs], in order, and releasing them. *)
Definition sent (w w' : W) (bs : list mlan_buffer) : Prop :=
  sink_inv w' /\ sink_delivered w' = sink_delivered w ++ bs /\ sink_released w' = sink_released w ++ bs.

(** What a slot may hold in a window starting at [start]. *)
Definition slot_ok (start : Z) (i : nat) (p : rx_ptr) : Prop :=
  exists b, p = Mbuf b /\ sink_ok b /\ rp_seq_num (mb_pbuf b) = (start + Z.of_nat i) mod MAX_TID_VALUE.
Definition good_ptr (p : rx_ptr) : Prop := exists b, p = Mbuf b /\ sink_ok b.
Abbreviation good_slots := (Forall (fun o => match o with Some p => good_ptr p | None => True end)).

Lemma sent_refl w : sink_inv w -> sent w w [].
Proof. intros. unfold sent. by rewrite !app_nil_r. Qed.

Lemma sent_trans w1 w2 w3 l1 l2 : sent w1 w2 l1 -> sent w2 w3 l2 -> sent w1 w3 (l1 ++ l2).
Proof.
  intros (? & D1 & R1) (? & D2 & R2). unfold sent. by rewrite D2, R2, D1, R1, <- !(assoc_L (++)).
Qed.

Lemma sent_inv w w' l : sent w w' l -> sink_inv w'.
Proof. by intros (? & _). Qed.

Lemma sink_dispatch_sent w b : sink_inv w -> sink_ok b ->
  exists r w', sink_dispatch w (Mbuf b) = Ret (r, w') /\ sent w w' [b].
Proof. intros. destruct (sink_dispatch_spec w b) as (r & w' & ? & ? & ? & ?); try done. by exists r, w'. Qed.

Lemma dispatch_loop_spec (pre l post : list (option rx_ptr)) (w : W) :
  good_slots l -> sink_inv w ->
  exists w', dispatch_loop (length l) (Z.of_nat (length pre)) (pre ++ l ++ post) w =
    Ret (pre ++ blanks (length l) ++ post, w') /\ sent w w' (mbufs l).
Proof.
  intros Hg. revert pre w. induction Hg as [| o l Ho Hg IH]; intros pre w Hw; simpl dispatch_loop.
  - exists w. split; [done | by apply sent_refl].
  - rewrite arr_get_app, bind_ret by done.
    assert (Hnext : Z.of_nat (length pre) + 1 = Z.of_nat (length (pre ++ [@None rx_ptr])))
      by (rewrite length_app; simpl; lia).
    destruct o as [p |].
    + destruct Ho as (b & -> & Hb). simpl app. rewrite arr_set_app, bind_ret by done.
      destruct (sink_dispatch_sent w b) as (r & w1 & -> & Hs); [done.. |]. rewrite bind_ret.
      destruct (IH (pre ++ [None]) w1) as (w' & E & Hs'); [by eapply sent_inv |].
      rewrite <- !(assoc_L (++)) in E. simpl in E. rewrite Hnext, E.
      exists w'. split; [done |]. exact (sent_trans _ _ _ _ _ Hs Hs').
    + destruct (IH (pre ++ [None]) w) as (w' & E & Hs'); [done |].
      rewrite <- !(assoc_L (++)) in E. simpl in E. simpl app. rewrite Hnext, E. by exists w'.
Qed.

Lemma scan_loop_spec (pre l : list (option rx_ptr)) (w : W) :
  good_slots l -> sink_inv w ->
  exists w', scan_loop (length l) (Z.of_nat (length pre)) (pre ++ l) w =
    Ret (Z.of_nat (length pre + run_len l), pre ++ blanks (run_len l) ++ drop (run_len l) l, w') /\
    sent w w' (mbufs (take (run_len l) l)).
Proof.
  intros Hg. revert pre w. induction Hg as [| o l Ho Hg IH]; intros pre w Hw; simpl scan_loop.
  - exists w. rewrite Nat.add_0_r. split; [done | by apply sent_refl].
  - rewrite arr_get_app, bind_ret by done. destruct o as [p |].
    + destruct Ho as (b & -> & Hb). rewrite arr_set_app, bind_ret by done.
      destruct (sink_dispatch_sent w b) as (r & w1 & -> & Hs); [done.. |]. rewrite bind_ret.
      replace (Z.of_nat (length pre) + 1) with (Z.of_nat (length (pre ++ [@None rx_ptr])))
        by (rewrite length_app; simpl; lia).
      destruct (IH (pre ++ [None]) w1) as (w' & E & Hs'); [by eapply sent_inv |].
      rewrite <- !(assoc_L (++)) in E. simpl in E. rewrite E.
      exists w'. split; [| exact (sent_trans _ _ _ _ _ Hs Hs')].
      rewrite length_app. simpl. do 4 f_equal. lia.
    + exists w. simpl. rewrite Nat.add_0_r. split; [done | by apply sent_refl].
Qed.

(** ** Moving the window *)
Record tbl_wf (t : RxReorderTbl) : Prop := {
  tw_win : 1 <= win_size t <= 63;
  tw_len : Z.of_nat (length (rx_reorder_ptr t)) = win_size t;
  tw_start : 0 <= start_win t <= MAX_TID_VALUE;
  tw_slots : good_slots (rx_reorder_ptr t);
  tw_bitmap : bitmap t = occupancy (rx_reorder_ptr t)
}.

Lemma rotate_blanks (l : list (option rx_ptr)) (n : nat) :
  (0 < n)%nat ->
  rotate_loop (length (drop n l)) 0 (Z.of_nat n) (blanks n ++ drop n l) = Ret (drop n l ++ blanks n).
Proof. exact (rotate_loop_spec [] (drop n l) n). Qed.

Lemma shr64_occupancy l (n : nat) : (n < 64)%nat ->
  shr64 (occupancy l) (Z.of_nat n) = Ret (occupancy (drop n l ++ blanks n)).
Proof.
  intros. unfold shr64. rewrite occupancy_app_blanks, occupancy_drop. zbool; done || lia.
Qed.

Lemma ref_shift_bounds start win new : 1 <= win -> 1 <= ref_shift start win new <= win.
Proof. intros. unfold ref_shift. zbool; lia. Qed.

Lemma until_ref t w new : tbl_wf t -> sink_inv w -> new < 65536 ->
  let v := ref_advance (Z.to_nat (ref_shift (start_win t) (win_size t) new)) new (window_of t) in
  exists w', wlan_11n_dispatch_pkt_until_start_win t w new = Ret (MLAN_STATUS_SUCCESS, put_window v t, w') /\
    sent w w' (wd_out v).
Proof.
  intros [Hwin Hlen Hst Hsl Hbm] Hw Hnew v. unfold wlan_11n_dispatch_pkt_until_start_win.
  pose proof (ref_shift_bounds (start_win t) (win_size t) new (proj1 Hwin)) as Hn.
  set (n := ref_shift (start_win t) (win_size t) new) in *.
  replace (u16 _) with n by (rewrite wrap_small; unfold n, ref_shift in *; zbool; lia).
  set (l := rx_reorder_ptr t) in *. set (k := Z.to_nat n).
  assert (Hk : n = Z.of_nat k) by lia.
  rewrite wrap_small by lia.
  destruct (dispatch_loop_spec [] (take k l) (drop k l) w) as (w' & E & Hs);
    [by apply Forall_take | done |].
  simpl in E. change (Z.of_nat 0) with 0 in E.
  rewrite take_drop, length_take_le in E by lia. rewrite E, bind_ret.
  replace (Z.to_nat (win_size t - n)) with (length (drop k l)) by (rewrite length_drop; lia).
  rewrite Hk, rotate_blanks, bind_ret, Hbm, shr64_occupancy, bind_ret by lia.
  exists w'. split; [done |]. unfold v, ref_advance. simpl. done.
Qed.

Lemma scan_ref t w : tbl_wf t -> sink_inv w ->
  let v := ref_drain (window_of t) in
  exists w', wlan_11n_scan_and_dispatch t w = Ret (MLAN_STATUS_SUCCESS, put_window v t, w') /\
    sent w w' (wd_out v).
Proof.
  intros [Hwin Hlen Hst Hsl Hbm] Hw v. unfold wlan_11n_scan_and_dispatch.
  set (l := rx_reorder_ptr t) in *. pose proof (run_len_le l) as Hk.
  replace (Z.to_nat (win_size t)) with (length l) by lia.
  destruct (scan_loop_spec [] l w) as (w' & E & Hs); [done.. |].
  simpl in E. change (Z.of_nat 0) with 0 in E. rewrite E, bind_ret.
  exists w'. split; [| exact Hs]. unfold v, ref_drain, ref_advance. simpl wd_slots. simpl wd_start.
  fold l. set (k := run_len l) in *. rewrite wrap_small by lia.
  replace (Z.to_nat (win_size t - Z.of_nat k)) with (length (drop k l)) by (rewrite length_drop; lia).
  assert (Hrot : (if Z.of_nat k >? 0 then rotate_loop (length (drop k l)) 0 (Z.of_nat k) (blanks k ++ drop k l)
                  else Ret (blanks k ++ drop k l)) = Ret (drop k l ++ blanks k)).
  { destruct k as [| k']; [simpl; by rewrite app_nil_r |].
    rewrite Z.gtb_ltb. destruct (Z.ltb_spec 0 (Z.of_nat (S k'))); [apply rotate_blanks; lia | lia]. }
  rewrite Hrot, bind_ret, Hbm, shr64_occupancy, bind_ret by lia.
  change (MAX_TID_VALUE - 1) with 4095. by rewrite land_4095.
Qed.


Lemma good_slots_advance n l : good_slots l -> good_slots (drop n l ++ blanks n).
Proof. intros. apply Forall_app_2; [by apply Forall_drop | by apply Forall_replicate]. Qed.

Lemma length_advance {A} (n : nat) (l : list A) x : (n <= length l)%nat -> length (drop n l ++ replicate n x) = length l.
Proof. intros. rewrite length_app, length_drop, length_replicate. lia. Qed.

Lemma put_window_wf v t :
  tbl_wf t -> 0 <= wd_start v <= MAX_TID_VALUE -> length (wd_slots v) = length (rx_reorder_ptr t) ->
  good_slots (wd_slots v) -> tbl_wf (put_window v t).
Proof. intros [] **. split; simpl; try done; lia. Qed.

Lemma put_window_id t : tbl_wf t -> put_window (window_of t) t = t.
Proof. intros []. destruct t. unfold put_window. simpl in *. by subst. Qed.

Lemma put_window_out v o t : put_window (MkWindow (wd_start v) (wd_slots v) o) t = put_window v t.
Proof. done. Qed.

(** Making room leaves a window in which [e] has a slot. *)
Lemma make_room_facts t e :
  tbl_wf t -> 2 <= win_size t -> 0 <= e < MAX_TID_VALUE ->
  let v := ref_make_room (win_size t) e (window_of t) in
  0 <= wd_start v <= MAX_TID_VALUE /\ length (wd_slots v) = length (rx_reorder_ptr t) /\
  good_slots (wd_slots v) /\ dist (wd_start v) e < win_size t.
Proof.
  intros [] Hw He v. unfold v, ref_make_room.
  pose proof (ref_shift_bounds (start_win t) (win_size t) ((e - win_size t + 1) mod MAX_TID_VALUE)) as Hn.
  destruct (Z.ltb_spec (dist (wd_start (window_of t)) e) (win_size t)) as [Hlt | Hge]; [done |].
  simpl in *. rewrite length_advance by lia. repeat split; try zmod. by apply good_slots_advance.
Qed.

(** The window move of [rxreorder_place]. *)
Lemma make_room_ref t w e :
  tbl_wf t -> 2 <= win_size t -> sink_inv w -> 0 <= e < MAX_TID_VALUE ->
  let v := ref_make_room (win_size t) e (window_of t) in
  exists w', (if negb (dist (start_win t) e <? win_size t) then
      '(r, t', w') ← wlan_11n_dispatch_pkt_until_start_win t w ((e - win_size t + 1) mod MAX_TID_VALUE);
      Ret (r, (e - win_size t + 1) mod MAX_TID_VALUE, t', w')
    else Ret (MLAN_STATUS_SUCCESS, start_win t, t, w)) =
    Ret (MLAN_STATUS_SUCCESS, wd_start v, put_window v t, w') /\ sent w w' (wd_out v).
Proof.
  intros Ht Hw2 Hw He v. unfold v, ref_make_room. simpl wd_start.
  destruct (Z.ltb_spec (dist (start_win t) e) (win_size t)) as [Hlt | Hge]; simpl negb; cbv iota.
  - exists w. rewrite put_window_id by done. split; [done | by apply sent_refl].
  - destruct (until_ref t w ((e - win_size t + 1) mod MAX_TID_VALUE)) as (w' & -> & Hs); [done.. | zmod |].
    rewrite bind_ret. by exists w'.
Qed.

(** Placement is the reference placement. *)
Lemma place_ref t w seq ty b :
  tbl_wf t -> 2 <= win_size t -> sink_inv w -> 0 <= seq < MAX_TID_VALUE -> sink_ok b ->
  let '(r, v) := ref_place (win_size t) seq (ty =? PKT_TYPE_BAR) (Mbuf b) (window_of t) in
  exists w', rxreorder_place t w seq ty (Mbuf b) = Ret (r, put_window v t, w') /\ sent w w' (wd_out v).
Proof.
  intros Ht Hw2 Hw Hseq Hb. unfold rxreorder_place, ref_place. cbv zeta.
  rewrite !u16_land_4095. pose proof Ht as [Hwin Hlen Hst _ _].
  set (e := if ty =? PKT_TYPE_BAR then (seq + win_size t - 1) mod MAX_TID_VALUE else seq).
  assert (He : 0 <= e < MAX_TID_VALUE) by (unfold e; destruct (ty =? PKT_TYPE_BAR); [zmod | done]).
  rewrite new_start_value, window_test by (done || lia).
  destruct (make_room_facts t e) as (Hst1 & Hlen1 & Hg1 & Hd1); [done.. |].
  destruct (make_room_ref t w e) as (w1 & -> & Hs1); [done.. |]. rewrite bind_ret. simpl negb. cbv iota.
  set (v1 := ref_make_room (win_size t) e (window_of t)) in *.
  unfold e in *. destruct (ty =? PKT_TYPE_BAR).
  - destruct (scan_ref (put_window v1 t) w1) as (w2 & -> & Hs2);
      [by apply put_window_wf | by eapply sent_inv |].
    exists w2. split; [done |]. exact (sent_trans _ _ _ _ _ Hs1 Hs2).
  - rewrite slot_index by done. fold v1. simpl rx_reorder_ptr.
    pose proof (dist_range (wd_start v1) seq) as Hd0.
    destruct (arr_get_total (wd_slots v1) (dist (wd_start v1) seq)) as (old & -> & Hold); [lia |].
    rewrite bind_ret, Hold. destruct old as [p |]; [by exists w1 |].
    set (i := Z.to_nat (dist (wd_start v1) seq)) in *.
    rewrite arr_set_ret, bind_ret by lia. fold i.
    replace (set_bit_u64 _ _) with (Ret (occupancy (<[i := Some (Mbuf b)]> (wd_slots v1)))).
    2:{ unfold set_bit_u64. simpl bitmap. rewrite occupancy_insert by lia.
        unfold i. rewrite Z2Nat.id by lia. zbool; done || lia. }
    rewrite bind_ret.
    set (t2 := put_window (MkWindow (wd_start v1) (<[i := Some (Mbuf b)]> (wd_slots v1)) (wd_out v1)) t).
    destruct (scan_ref t2 w1) as (w2 & E2 & Hs2).
    + apply put_window_wf; simpl; [done | done | by rewrite length_insert |].
      apply Forall_insert; [done | by exists b].
    + by eapply sent_inv.
    + exists w2. split; [exact E2 |]. exact (sent_trans _ _ _ _ _ Hs1 Hs2).
Qed.

(** ** Windows hold the right packets *)
Definition mbuf_seq (b : mlan_buffer) : Z := rp_seq_num (mb_pbuf b).
Definition slots_seq (start : Z) (l : list (option rx_ptr)) : Prop :=
  forall i b, l !! i = Some (Some (Mbuf b)) -> mbuf_seq b = (start + Z.of_nat i) mod MAX_TID_VALUE.
(** [n] consecutive sequence numbers from [s]. *)
Definition seq_range (s : Z) (n : nat) : list Z := (fun i => (s + Z.of_nat i) mod MAX_TID_VALUE) <$> seq 0 n.

Lemma seq_range_S s n : seq_range s (S n) = s mod MAX_TID_VALUE :: seq_range (s + 1) n.
Proof.
  unfold seq_range. rewrite <- (cons_seq n 0), fmap_cons. f_equal; [f_equal; lia |].
  rewrite <- fmap_S_seq, <- list_fmap_compose. apply list_fmap_ext. intros. simpl. f_equal. lia.
Qed.

Lemma seq_range_app s n m : seq_range s (n + m) = seq_range s n ++ seq_range (s + Z.of_nat n) m.
Proof.
  revert s. induction n as [| n IH]; intros s.
  - simpl. f_equal. lia.
  - simpl Nat.add. rewrite !seq_range_S, IH. simpl. do 3 f_equal. lia.
Qed.

Lemma seq_range_mod s n : seq_range (s mod MAX_TID_VALUE) n = seq_range s n.
Proof. unfold seq_range. apply list_fmap_ext. intros. unfold MAX_TID_VALUE. apply Z.add_mod_idemp_l. lia. Qed.

Lemma length_seq_range s n : length (seq_range s n) = n.
Proof. unfold seq_range. by rewrite length_fmap, length_seq. Qed.

Lemma elem_of_seq_range s n z :
  z ∈ seq_range s n <-> exists i, (i < n)%nat /\ z = (s + Z.of_nat i) mod MAX_TID_VALUE.
Proof.
  unfold seq_range. rewrite list_elem_of_fmap. setoid_rewrite elem_of_seq.
  split; intros (i & ? & ?); exists i; split; done || lia.
Qed.

Lemma seq_range_NoDup s n : (n <= 4096)%nat -> NoDup (seq_range s n).
Proof.
  intros Hn. unfold seq_range. apply NoDup_fmap_2_strong; [| apply NoDup_seq].
  intros x y Hx%elem_of_seq Hy%elem_of_seq. zmod.
Qed.

Lemma slots_seq_mod start start' l :
  start mod MAX_TID_VALUE = start' mod MAX_TID_VALUE -> slots_seq start l -> slots_seq start' l.
Proof. unfold slots_seq. intros He Hl i b Hi. rewrite (Hl i b Hi). zmod. Qed.

Lemma slots_seq_blank start l : occupancy l = 0 -> slots_seq start l.
Proof.
  intros Ho%occupancy_zero i b Hi. by eapply Forall_lookup_1 in Ho; [| exact Hi].
Qed.

Lemma slots_seq_advance start n l :
  slots_seq start l -> slots_seq (start + Z.of_nat n) (drop n l ++ blanks n).
Proof.
  intros Hl i b Hi. destruct (decide (i < length (drop n l))%nat) as [Hlt | Hge].
  - rewrite lookup_app_l, lookup_drop in Hi by done. rewrite (Hl _ _ Hi). f_equal. lia.
  - rewrite lookup_app_r in Hi by lia. apply lookup_replicate_1 in Hi as [? _]. done.
Qed.

Lemma slots_seq_insert start l i b :
  slots_seq start l -> mbuf_seq b = (start + Z.of_nat i) mod MAX_TID_VALUE ->
  slots_seq start (<[i := Some (Mbuf b)]> l).
Proof.
  intros Hl Hb j b' Hj. apply list_lookup_insert_Some in Hj as [(<- & ? & _) | (_ & Hj)]; [by simplify_eq | by apply Hl].
Qed.

(** The run at the front holds consecutive packets. *)
Lemma run_seqs start l :
  good_slots l -> slots_seq start l ->
  mbuf_seq <$> mbufs (take (run_len l) l) = seq_range start (run_len l).
Proof.
  revert start. induction l as [| o l IH]; intros start Hg Hl; [done |].
  inversion Hg as [| ? ? Ho Hg']; subst. destruct o as [p |]; [| done].
  destruct Ho as (b & -> & Hb). simpl. rewrite seq_range_S. f_equal.
  - rewrite (Hl 0%nat b) by done. f_equal. lia.
  - apply IH; [done |]. intros i b' Hi. rewrite (Hl (S i) b' Hi). f_equal. lia.
Qed.

Lemma run_head_empty l : occupied (drop (run_len l) l ++ blanks (run_len l)) 0 = false.
Proof.
  induction l as [| [p |] l IH]; [done | | done]. simpl run_len. rewrite skipn_cons.
  rewrite replicate_S_end, (assoc_L (++)). unfold occupied in *.
  destruct (drop (run_len l) l ++ blanks (run_len l)) as [| x ?]; done.
Qed.

Lemma mbufs_advance n l : mbufs (take n l) ++ mbufs (drop n l ++ blanks n) = mbufs l.
Proof.
  rewrite omap_app, (assoc_L (++)), <- omap_app, take_drop.
  assert (mbufs (blanks n) = []) as ->; [| apply app_nil_r]. induction n; done.
Qed.

Lemma mbufs_insert l i b :
  l !! i = Some None -> mbufs (<[i := Some (Mbuf b)]> l) ≡ₚ b :: mbufs l.
Proof.
  intros Hi. rewrite <- (take_drop_middle l i None Hi).
  assert (Hlen : i = length (take i l)) by (apply lookup_lt_Some in Hi; rewrite length_take; lia).
  rewrite Hlen at 1. rewrite insert_app_r_alt, Nat.sub_diag by done. simpl.
  rewrite !omap_app. simpl. symmetry. apply Permutation_middle.
Qed.

(** *** The reference operations keep the window right and lose nothing *)
Record window_ok (win : Z) (v : window) : Prop := {
  wo_start : 0 <= wd_start v <= MAX_TID_VALUE;
  wo_len : Z.of_nat (length (wd_slots v)) = win;
  wo_good : good_slots (wd_slots v);
  wo_seq : slots_seq (wd_start v) (wd_slots v)
}.
Definition wd_all (v : window) : list mlan_buffer := wd_out v ++ mbufs (wd_slots v).

Lemma advance_ok win n new v :
  window_ok win v -> Z.of_nat n <= win -> 0 <= new <= MAX_TID_VALUE ->
  Z.of_nat n = win \/ new mod MAX_TID_VALUE = (wd_start v + Z.of_nat n) mod MAX_TID_VALUE ->
  window_ok win (ref_advance n new v) /\ wd_all (ref_advance n new v) = wd_all v.
Proof.
  intros [] Hn Hnew Hseq. split.
  - split; simpl; [done | rewrite length_advance; lia | by apply good_slots_advance |].
    destruct Hseq as [Hall | Heq].
    + apply slots_seq_blank, occupancy_zero. rewrite drop_ge by lia. by apply Forall_replicate.
    + eapply slots_seq_mod; [symmetry; exact Heq | by apply slots_seq_advance].
  - unfold wd_all. simpl. by rewrite <- (assoc_L (++)), mbufs_advance.
Qed.

Lemma drain_ok win v : window_ok win v -> window_ok win (ref_drain v) /\ wd_all (ref_drain v) = wd_all v.
Proof.
  intros Hv. pose proof Hv as []. pose proof (run_len_le (wd_slots v)).
  apply advance_ok; [done | lia | zmod | right; zmod].
Qed.

Lemma make_room_ok win e v :
  window_ok win v -> 1 <= win -> 0 <= e < MAX_TID_VALUE ->
  window_ok win (ref_make_room win e v) /\ wd_all (ref_make_room win e v) = wd_all v.
Proof.
  intros Hv Hw He. unfold ref_make_room. destruct (_ <? win); [done |].
  set (new := (e - win + 1) mod MAX_TID_VALUE).
  assert (Hnew : 0 <= new < MAX_TID_VALUE) by (unfold new; zmod).
  pose proof (ref_shift_bounds (wd_start v) win new Hw) as Hn.
  apply advance_ok; [done | lia | lia |].
  unfold ref_shift in *. destruct (Z.ltb_spec (wd_start v) new); [| left; lia].
  destruct (Z.min_spec (new - wd_start v) win) as [[? ->] | [? ->]]; [right | left; lia].
  f_equal. lia.
Qed.

Lemma make_room_dist win e v :
  0 <= e < MAX_TID_VALUE -> 1 <= win <= 63 -> dist (wd_start (ref_make_room win e v)) e < win.
Proof.
  intros He Hw. unfold ref_make_room. destruct (Z.ltb_spec (dist (wd_start v) e) win); [done |]. simpl. zmod.
Qed.

Lemma place_ok win seq bar b v :
  window_ok win v -> 2 <= win <= 63 -> 0 <= seq < MAX_TID_VALUE -> sink_ok b -> mbuf_seq b = seq ->
  let '(r, v') := ref_place win seq bar (Mbuf b) v in
  window_ok win v' /\
  wd_all v' ≡ₚ (if bool_decide (r = MLAN_STATUS_SUCCESS) && negb bar then [b] else []) ++ wd_all v.
Proof.
  intros Hv Hw Hseq Hb Hbs. unfold ref_place. destruct bar.
  - destruct (make_room_ok win ((seq + win - 1) mod MAX_TID_VALUE) v) as [H1 E1]; [done | lia | zmod |].
    destruct (drain_ok _ _ H1) as [H2 E2]. split; [done |]. simpl. by rewrite E2, E1.
  - destruct (make_room_ok win seq v) as [H1 E1]; [done | lia | done |].
    pose proof (make_room_dist win seq v Hseq ltac:(lia)) as Hd.
    set (v1 := ref_make_room win seq v) in *. set (i := Z.to_nat (dist (wd_start v1) seq)).
    pose proof (dist_range (wd_start v1) seq) as Hd0.
    assert (Hi : (i < length (wd_slots v1))%nat) by (destruct H1; unfold i; lia).
    destruct (lookup_lt_is_Some_2 _ _ Hi) as [o Ho]. rewrite Ho. destruct o as [p |].
    + split; [done |]. simpl. by rewrite E1.
    + edestruct (drain_ok win (MkWindow (wd_start v1) (<[i := Some (Mbuf b)]> (wd_slots v1)) (wd_out v1)))
        as [H2 E2].
      * destruct H1. split; simpl; [done | by rewrite length_insert | |].
        -- apply Forall_insert; [done | by exists b].
        -- apply slots_seq_insert; [done |]. unfold i. rewrite Hbs. zmod.
      * split; [done |]. rewrite E2. simpl. rewrite <- E1. unfold wd_all at 1. simpl.
        rewrite mbufs_insert by done. symmetry. apply Permutation_middle.
Qed.

(** ** The invariant of a reorder table *)
Record tbl_inv (t : RxReorderTbl) : Prop := {
  ti_wf : tbl_wf t;
  ti_win : 2 <= win_size t;
  ti_seq : slots_seq (start_win t) (rx_reorder_ptr t);
  ti_check : check_start_win t = true -> occupancy (rx_reorder_ptr t) = 0;
  ti_last : 0 <= last_seq t < MAX_TID_VALUE \/ last_seq t = DEFAULT_SEQ_NUM;
  ti_timer : bitmap t <> 0 -> timer_is_set (timer_context t) = true;
  ti_armed : timer_is_set (timer_context t) = true ->
             timer_armed (timer_context t) = Some (win_size t * MIN_FLUSH_TIMER_MS)
}.

(** The session a table belongs to and its window size never change. *)
Definition session (t : RxReorderTbl) : Z * list Z * Z := (tid t, ta t, win_size t).

(** A packet the firmware hands over: its descriptor carries [seq]. *)
Definition packet_ok (seq : Z) (b : mlan_buffer) : Prop :=
  0 <= seq < MAX_TID_VALUE /\ sink_ok b /\ mbuf_seq b = seq.

Lemma tbl_inv_window t : tbl_inv t -> window_ok (win_size t) (window_of t).
Proof. intros [[] ]. by split. Qed.

(** After [done] the timer runs exactly when something is buffered. *)
Lemma done_timer t :
  0 <= win_size t <= 63 ->
  (timer_is_set (timer_context t) = true -> timer_armed (timer_context t) = Some (win_size t * MIN_FLUSH_TIMER_MS)) ->
  exists c, rxreorder_done t = with_timer c t /\ timer_is_set c = negb (bitmap t =? 0) /\
    (timer_is_set c = true -> timer_armed c = Some (win_size t * MIN_FLUSH_TIMER_MS)).
Proof.
  intros Hw Ha. unfold rxreorder_done.
  assert (Hwin : u32 (win_size t * MIN_FLUSH_TIMER_MS) = win_size t * MIN_FLUSH_TIMER_MS)
    by (apply wrap_small; unfold MIN_FLUSH_TIMER_MS; lia).
  destruct (timer_is_set (timer_context t)) eqn:Eset, (bitmap t =? 0) eqn:Eb;
    simpl; rewrite ?Eset, ?Eb; simpl.
  - eexists. by split.
  - exists (timer_context t). rewrite Eset. split; [by destruct t | auto].
  - exists (timer_context t). rewrite Eset. split; [by destruct t | done].
  - unfold mlan_11n_rxreorder_timer_restart. rewrite Eset, Hwin. eexists. by split.
Qed.

Lemma put_window_inv0 t v :
  tbl_inv t -> window_ok (win_size t) v -> check_start_win t = false ->
  tbl_inv (rxreorder_done (put_window v t)).
Proof.
  intros [[] ] [] Hc. destruct (done_timer (put_window v t)) as (c & -> & Hset & Harm); simpl; [lia | done |].
  split; simpl; try done.
  - congruence.
  - intros Hb. rewrite Hset. simpl. by apply Z.eqb_neq in Hb as ->.
Qed.

Lemma done_same t :
  rx_reorder_ptr (rxreorder_done t) = rx_reorder_ptr t /\ start_win (rxreorder_done t) = start_win t /\
  session (rxreorder_done t) = session t /\ bitmap (rxreorder_done t) = bitmap t /\
  check_start_win (rxreorder_done t) = check_start_win t /\ force_no_drop (rxreorder_done t) = force_no_drop t.
Proof. unfold rxreorder_done, mlan_11n_rxreorder_timer_restart. by repeat case_match. Qed.

(** The result of handling a packet in a running window, by the reference. *)
Lemma tbl_pkt_running t w seq ty b :
  tbl_inv t -> check_start_win t = false -> sink_inv w -> packet_ok seq b ->
  ty <> PKT_TYPE_AMSDU \/ amsdu t <> 0 ->
  force_no_drop t = true \/ rxreorder_too_old t seq = false ->
  let '(r, v) := ref_place (win_size t) seq (ty =? PKT_TYPE_BAR) (Mbuf b) (window_of t) in
  exists w', rxreorder_tbl_pkt t w seq ty (Mbuf b) =
    Ret (r, rxreorder_done (put_window v (with_force_no_drop false t)), w') /\ sent w w' (wd_out v).
Proof.
  intros Hi Hc Hw (Hseq & Hb & Hbs) Ham Hold. unfold rxreorder_tbl_pkt.
  replace ((ty =? PKT_TYPE_AMSDU) && (amsdu t =? 0)) with false
    by (destruct (Z.eqb_spec ty PKT_TYPE_AMSDU), (Z.eqb_spec (amsdu t) 0);
          try done; by destruct Ham).
  unfold rxreorder_check_start. rewrite Hc, bind_ret. cbv iota beta.
  replace (negb (force_no_drop t) && rxreorder_too_old t seq) with false
    by (destruct Hold as [-> | ->]; [done | by destruct (force_no_drop t)]).
  set (t2 := if force_no_drop t then with_force_no_drop false t else t).
  assert (Ht2 : t2 = with_force_no_drop false t)
    by (unfold t2; destruct (force_no_drop t) eqn:E; [done | destruct t; simpl in *; by subst]).
  pose proof (place_ref t2 w seq ty b) as Hp. rewrite Ht2 in *.
  assert (Hwf : tbl_wf (with_force_no_drop false t)) by (destruct Hi as [[] ]; by split).
  specialize (Hp Hwf (ti_win _ Hi) Hw Hseq Hb).
  change (window_of (with_force_no_drop false t)) with (window_of t) in Hp.
  change (win_size (with_force_no_drop false t)) with (win_size t) in Hp.
  destruct (ref_place _ _ _ _ _) as [r v]. destruct Hp as (w' & -> & Hs). rewrite bind_ret. by exists w'.
Qed.

(** The fields of the start-up phase do not matter to the window. *)
Lemma tbl_inv_meta t ls ck pc :
  tbl_inv t -> 0 <= ls < MAX_TID_VALUE \/ ls = DEFAULT_SEQ_NUM ->
  (ck = true -> occupancy (rx_reorder_ptr t) = 0) ->
  tbl_inv (with_last_seq ls (with_check_start_win ck (with_pkt_count pc t))).
Proof. intros [[] ] Hls Hck. split; simpl; try done. Qed.

Lemma tbl_inv_start t s :
  tbl_inv t -> 0 <= s <= MAX_TID_VALUE -> occupancy (rx_reorder_ptr t) = 0 -> tbl_inv (with_start_win s t).
Proof. intros [[] ] Hs Ho. split; simpl; try done. by apply slots_seq_blank. Qed.

(** The start-up phase either returns with the table unchanged but for
    [last_seq] and [pkt_count], or falls through with a running, empty window. *)
Lemma check_start_spec t w seq ty b :
  tbl_inv t -> sink_inv w -> packet_ok seq b ->
  (exists r t' w' out, rxreorder_check_start t w seq ty (Mbuf b) = Ret (inl (r, t', w')) /\ tbl_inv t' /\
     sent w w' out /\ rx_reorder_ptr t' = rx_reorder_ptr t /\ session t' = session t /\
     out = if bool_decide (r = MLAN_STATUS_SUCCESS) && negb (ty =? PKT_TYPE_BAR) then [b] else []) \/
  (exists t', rxreorder_check_start t w seq ty (Mbuf b) = Ret (inr t') /\ tbl_inv t' /\
     check_start_win t' = false /\ rx_reorder_ptr t' = rx_reorder_ptr t /\ amsdu t' = amsdu t /\
     session t' = session t).
Proof.
  intros Hi Hw (Hseq & Hb & Hbs). unfold rxreorder_check_start.
  destruct (check_start_win t) eqn:Ec; [| right; by exists t].
  pose proof (ti_check _ Hi Ec) as Hempty. pose proof (ti_last _ Hi) as Hlast.
  destruct (Z.eqb_spec seq (start_win t)).
  { right. exists (with_check_start_win false t). split; [done |].
    split; [exact (tbl_inv_meta t (last_seq t) false (pkt_count t) Hi Hlast (fun _ => Hempty)) | done]. }
  cbv zeta. simpl pkt_count. simpl win_size. simpl last_seq. set (pc := u8 (pkt_count t + 1)).
  pose proof (fun ls ck Hls => tbl_inv_meta t ls ck pc Hi Hls (fun _ => Hempty)) as Hmeta.
  destruct (pc <? win_size t / 2).
  - left. assert (Hnew : tbl_inv (with_last_seq seq (with_pkt_count pc t)))
      by exact (Hmeta seq (check_start_win t) (or_introl Hseq)).
    destruct (Z.eqb_spec (last_seq t) seq) as [<- | Hne]; [| destruct (Z.eqb_spec ty PKT_TYPE_BAR)].
    + eexists _, _, w, []. split; [reflexivity |].
      split; [exact (Hmeta (last_seq t) (check_start_win t) Hlast) | split; [by apply sent_refl | done]].
    + eexists _, _, w, []. split; [reflexivity |]. split; [done | split; [by apply sent_refl | done]].
    + destruct (sink_dispatch_sent w b) as (r & w' & -> & Hs); [done.. |]. rewrite bind_ret.
      eexists _, _, w', [b]. split; [reflexivity | done].
  - right. pose proof (Hmeta (last_seq t) false Hlast) as Hrun.
    destruct (negb (seq =? _) && negb (last_seq _ =? _)) eqn:El; [| by eexists].
    apply andb_prop in El as [_ El%negb_true_iff%Z.eqb_neq]. simpl in El.
    assert (Hl : 0 <= u16 (last_seq t + 1) <= MAX_TID_VALUE)
      by (destruct Hlast; [unfold MAX_TID_VALUE in *; rewrite wrap_small; lia | done]).
    pose proof (tbl_inv_start _ _ Hrun Hl Hempty) as Hstart.
    destruct (_ || _); [| destruct (_ && _)]; by eexists.
Qed.

(** One packet: no fault, the invariant is kept, and every packet is accounted for. *)
Lemma tbl_pkt_spec t w seq ty b :
  tbl_inv t -> sink_inv w -> packet_ok seq b ->
  exists r t' w' out, rxreorder_tbl_pkt t w seq ty (Mbuf b) = Ret (r, t', w') /\
    tbl_inv t' /\ session t' = session t /\ sent w w' out /\
    out ++ mbufs (rx_reorder_ptr t') ≡ₚ
      (if bool_decide (r = MLAN_STATUS_SUCCESS) && negb (ty =? PKT_TYPE_BAR) then [b] else []) ++
      mbufs (rx_reorder_ptr t).
Proof.
  intros Hi Hw Hp. pose proof Hp as (Hseq & Hb & Hbs). unfold rxreorder_tbl_pkt.
  destruct ((ty =? PKT_TYPE_AMSDU) && (amsdu t =? 0)) eqn:Eam.
  { destruct (sink_dispatch_sent w b) as (r & w' & -> & Hs); [done.. |]. rewrite bind_ret.
    apply andb_prop in Eam as [->%Z.eqb_eq _]. by eexists _, _, _, [b]. }
  destruct (check_start_spec t w seq ty b Hi Hw Hp)
    as [(r & t' & w' & out & -> & Hi' & Hs & Hs1 & Hk & ->) | (t1 & Ec & Hi1 & Hc1 & Hs1 & Ha1 & Hk)].
  { rewrite bind_ret. eexists _, _, w', _. by rewrite Hs1. }
  rewrite <- Hs1, <- Hk. clear Hs1 Hk.
  destruct (negb (force_no_drop t1) && rxreorder_too_old t1 seq) eqn:Eold.
  - rewrite Ec, bind_ret. cbv iota beta. rewrite Eold. eexists _, _, w, []. split; [reflexivity |].
    rewrite <- (put_window_id t1 (ti_wf _ Hi1)) at 1 2.
    split; [by apply put_window_inv0; [| apply tbl_inv_window |] |].
    rewrite put_window_id by apply Hi1. destruct (done_same t1) as (-> & _ & -> & _).
    split; [done | split; [by apply sent_refl | done]].
  - pose proof (tbl_pkt_running t1 w seq ty b Hi1 Hc1 Hw Hp) as Hrun.
    unfold rxreorder_tbl_pkt in Hrun. rewrite Ha1, Eam in Hrun.
    unfold rxreorder_check_start in Hrun. rewrite Hc1, bind_ret, Eold in Hrun.
    rewrite Ec, bind_ret. cbv iota beta in *. rewrite Eold.
    pose proof (place_ok (win_size t1) seq (ty =? PKT_TYPE_BAR) b (window_of t1)) as Hok.
    destruct (ref_place _ _ _ _ _) as [r v].
    destruct Hok as [Hv Hall]; [by apply tbl_inv_window | pose proof (ti_win _ Hi1); destruct (ti_wf _ Hi1); lia | done.. |].
    destruct Hrun as (w' & E & Hs).
    + destruct (Z.eqb_spec ty PKT_TYPE_AMSDU); [right | by left]. by apply Z.eqb_neq.
    + destruct (force_no_drop t1); [by left | by right].
    + eexists _, _, w', _. split; [exact E |].
      destruct (done_same (put_window v (with_force_no_drop false t1))) as (Es & _ & -> & _).
      split; [| split; [done | split; [exact Hs |]]].
      * apply put_window_inv0; [| done..]. destruct Hi1 as [[] ]. split; simpl; done.
      * unfold wd_all in Hall. simpl in Hall. rewrite Es. exact Hall.
Qed.
End sent.
