(* ===== verification/TxBaTable.v ===== *)
(** * The peers of an interface and their transmit block-ack sessions

    The list [tx_ba_stream_tbl_ptr] of an interface and the operations of
    [wifidriver/mlan_11n.c] on it.  The entry of a peer says for each TID whether
    packets to it may be aggregated, and whether they are. *)
From S2P Require Import Prelude RxTable.

(** ** Data *)
Definition MAX_NUM_TID : Z := 8.
#[export] Instance baStatus_eq_dec : EqDecision baStatus_e.
Proof. solve_decision. Defined.

Record TxBAStreamTbl := MkTxBA {
  txba_ra : list Z;
  ampdu_stat : list Z;          (* int[MAX_NUM_TID]: a session is set up *)
  txba_status : baStatus_e;
  txba_amsdu : Z;               (* u8 *)
  txpkt_cnt : Z;                (* u32 *)
  txba_thresh : Z;              (* u32 *)
  ampdu_supported : list Z      (* t_u8[MAX_NUM_TID] *)
}.
Definition with_ampdu_stat (v : list Z) (x : TxBAStreamTbl) : TxBAStreamTbl :=
  MkTxBA (txba_ra x) v (txba_status x) (txba_amsdu x) (txpkt_cnt x) (txba_thresh x) (ampdu_supported x).
Definition with_txba_status (v : baStatus_e) (x : TxBAStreamTbl) : TxBAStreamTbl :=
  MkTxBA (txba_ra x) (ampdu_stat x) v (txba_amsdu x) (txpkt_cnt x) (txba_thresh x) (ampdu_supported x).
Definition with_txba_amsdu (v : Z) (x : TxBAStreamTbl) : TxBAStreamTbl :=
  MkTxBA (txba_ra x) (ampdu_stat x) (txba_status x) v (txpkt_cnt x) (txba_thresh x) (ampdu_supported x).
Definition with_txpkt_cnt (v : Z) (x : TxBAStreamTbl) : TxBAStreamTbl :=
  MkTxBA (txba_ra x) (ampdu_stat x) (txba_status x) (txba_amsdu x) v (txba_thresh x) (ampdu_supported x).
Definition with_txba_thresh (v : Z) (x : TxBAStreamTbl) : TxBAStreamTbl :=
  MkTxBA (txba_ra x) (ampdu_stat x) (txba_status x) (txba_amsdu x) (txpkt_cnt x) v (ampdu_supported x).
Definition with_ampdu_supported (v : list Z) (x : TxBAStreamTbl) : TxBAStreamTbl :=
  MkTxBA (txba_ra x) (ampdu_stat x) (txba_status x) (txba_amsdu x) (txpkt_cnt x) (txba_thresh x) v.

(** ** Operations on the list *)

(** The position of the first entry of [ra]. *)
Fixpoint wlan_11n_get_txbastream_tbl (l : list TxBAStreamTbl) (ra : list Z) : option nat :=
  match l with
  | [] => None
  | x :: l' => if bool_decide (txba_ra x = ra) then Some O else S <$> wlan_11n_get_txbastream_tbl l' ra
  end.

(** What the functions below share: the entry of [ra], if there is one, is
    changed by [f]. *)
Definition update_entry (f : TxBAStreamTbl -> outcome TxBAStreamTbl) (l : list TxBAStreamTbl) (ra : list Z) : outcome (list TxBAStreamTbl) :=
  match wlan_11n_get_txbastream_tbl l ra with
  | Some i => x ← arr_get l (Z.of_nat i); y ← f x; Ret (<[i := y]> l)
  | None => Ret l
  end.

(** [got]: the allocator had memory; [rand]: [os_rand_range(5, 5)]. *)
Definition wlan_11n_create_txbastream_tbl (got : bool) (rand : Z) (l : list TxBAStreamTbl) (ra : list Z) (s : baStatus_e) :
  outcome (list TxBAStreamTbl) :=
  match wlan_11n_get_txbastream_tbl l ra with
  | Some _ => Ret l
  | None =>
      if got then
        Ret (l ++ [MkTxBA ra (replicate (Z.to_nat MAX_NUM_TID) 0) s 0 0 (u32 rand) (replicate (Z.to_nat MAX_NUM_TID) 0)])
      else Fault NullPointer
  end.
Definition wlan_11n_delete_txbastream_tbl_entry (l : list TxBAStreamTbl) (ra : list Z) : list TxBAStreamTbl :=
  match wlan_11n_get_txbastream_tbl l ra with Some i => delete i l | None => l end.
(** Deletes the first entry until there is none. *)
Fixpoint deleteall_loop (fuel : nat) (l : list TxBAStreamTbl) : outcome (list TxBAStreamTbl) :=
  match l with
  | [] => Ret []
  | x :: _ =>
      match fuel with
      | O => Fault OutOfFuel
      | S fuel => deleteall_loop fuel (wlan_11n_delete_txbastream_tbl_entry l (txba_ra x))
      end
  end.

Definition set_ampdu_stat (status tid_ : Z) (x : TxBAStreamTbl) : outcome TxBAStreamTbl :=
  s ← arr_set (ampdu_stat x) tid_ status; Ret (with_ampdu_stat s x).
Definition wlan_11n_update_txbastream_tbl_ampdu_supported (l : list TxBAStreamTbl) (ra : list Z) (supported : Z) : outcome (list TxBAStreamTbl) :=
  update_entry (fun x => Ret (with_ampdu_supported (replicate (Z.to_nat MAX_NUM_TID) supported) x)) l ra.
Definition wlan_11n_update_txbastream_tbl_tx_thresh (l : list TxBAStreamTbl) (ra : list Z) (tx_thresh : Z) : outcome (list TxBAStreamTbl) :=
  update_entry (fun x => Ret (with_txba_thresh tx_thresh x)) l ra.
Definition wlan_11n_update_txbastream_tbl_tx_cnt (l : list TxBAStreamTbl) (ra : list Z) : outcome (list TxBAStreamTbl) :=
  update_entry (fun x => Ret (with_txpkt_cnt (u32 (txpkt_cnt x + 1)) x)) l ra.
(** [wlan_11n_get_sta_peer_amsdu], of the peer [ra]. *)
Definition wlan_11n_get_sta_peer_amsdu (l : list TxBAStreamTbl) (ra : list Z) : outcome Z :=
  match wlan_11n_get_txbastream_tbl l ra with
  | Some i => x ← arr_get l (Z.of_nat i); Ret (txba_amsdu x)
  | None => Ret 0
  end.

(** ** The list as a map *)
Definition addresses (l : list TxBAStreamTbl) : list (list Z) := txba_ra <$> l.
Definition entry_of (l : list TxBAStreamTbl) (ra : list Z) : option TxBAStreamTbl :=
  i ← wlan_11n_get_txbastream_tbl l ra; l !! i.

Lemma get_tx_Some l ra i : wlan_11n_get_txbastream_tbl l ra = Some i -> exists x, l !! i = Some x /\ txba_ra x = ra.
Proof.
  revert i. induction l as [| x l IH]; intros i Hi; simpl in Hi; [done |]. case_bool_decide as Hx; simplify_eq; [by exists x |].
  apply fmap_Some in Hi as (k & Hk & ->). by apply IH.
Qed.

Lemma get_tx_None l ra : wlan_11n_get_txbastream_tbl l ra = None -> ra ∉ addresses l.
Proof.
  induction l as [| x l IH]; simpl; [intros _; apply not_elem_of_nil |]. case_bool_decide as Hx; [done |].
  intros Hn. apply fmap_None in Hn. rewrite not_elem_of_cons. split; [congruence | by apply IH].
Qed.

Lemma get_tx_lookup l ra i x : NoDup (addresses l) -> l !! i = Some x -> txba_ra x = ra -> wlan_11n_get_txbastream_tbl l ra = Some i.
Proof.
  intros Hnd Hx Hra. destruct (wlan_11n_get_txbastream_tbl l ra) as [j |] eqn:E.
  - apply get_tx_Some in E as (y & Hy & Hra'). f_equal. eapply (NoDup_lookup _ j i ra Hnd);
      unfold addresses; rewrite list_lookup_fmap; [rewrite Hy | rewrite Hx]; by f_equal/=.
  - apply get_tx_None in E as []. subst ra. apply list_elem_of_fmap. exists x. split; [done | by eapply list_elem_of_lookup_2].
Qed.

Lemma entry_of_Some l ra x : entry_of l ra = Some x -> x ∈ l /\ txba_ra x = ra.
Proof.
  unfold entry_of. intros (i & Hi & Hx)%bind_Some. apply get_tx_Some in Hi as (y & Hy & Hra). simplify_eq.
  split; [by eapply list_elem_of_lookup_2 | done].
Qed.

Lemma entry_of_None l ra : entry_of l ra = None <-> ra ∉ addresses l.
Proof.
  unfold entry_of. split.
  - intros H. destruct (wlan_11n_get_txbastream_tbl l ra) as [i |] eqn:E; [| by apply get_tx_None].
    destruct (get_tx_Some _ _ _ E) as (x & Hx & _). simpl in H. congruence.
  - intros H. destruct (wlan_11n_get_txbastream_tbl l ra) as [i |] eqn:E; [| done].
    destruct (get_tx_Some _ _ _ E) as (x & Hx & Hra). destruct H. subst ra. apply list_elem_of_fmap.
    exists x. split; [done | by eapply list_elem_of_lookup_2].
Qed.

Lemma entry_of_cons x l ra : entry_of (x :: l) ra = if bool_decide (txba_ra x = ra) then Some x else entry_of l ra.
Proof. unfold entry_of. simpl. case_bool_decide; [done |]. by destruct (wlan_11n_get_txbastream_tbl l ra). Qed.

Lemma entry_of_app l1 l2 ra : entry_of (l1 ++ l2) ra = match entry_of l1 ra with Some x => Some x | None => entry_of l2 ra end.
Proof. induction l1 as [| x l1 IH]; [done |]. cbn [app]. rewrite !entry_of_cons. by case_bool_decide. Qed.

Lemma get_tx_split l ra i : wlan_11n_get_txbastream_tbl l ra = Some i ->
  exists l1 x l2, l = l1 ++ x :: l2 /\ length l1 = i /\ txba_ra x = ra /\ ra ∉ addresses l1.
Proof.
  revert i. induction l as [| x l IH]; intros i Hi; simpl in Hi; [done |]. case_bool_decide as Hx; simplify_eq.
  - exists [], x, l. split; [done |]. split; [done |]. split; [done | apply not_elem_of_nil].
  - apply fmap_Some in Hi as (k & Hk & ->). destruct (IH k Hk) as (l1 & y & l2 & -> & <- & Hra & Hn).
    exists (x :: l1), y, l2. split; [done |]. split; [done |]. split; [done |]. unfold addresses. cbn. rewrite not_elem_of_cons.
    split; [congruence | done].
Qed.

Lemma update_entry_spec f l ra : NoDup (addresses l) ->
  match entry_of l ra with
  | None => update_entry f l ra = Ret l
  | Some x => forall y, f x = Ret y -> txba_ra y = ra ->
      exists l', update_entry f l ra = Ret l' /\ addresses l' = addresses l /\
        forall r, entry_of l' r = if bool_decide (ra = r) then Some y else entry_of l r
  end.
Proof.
  intros Hnd. unfold update_entry. destruct (wlan_11n_get_txbastream_tbl l ra) as [i |] eqn:E.
  - destruct (get_tx_split _ _ _ E) as (l1 & x & l2 & -> & <- & Hx & Hn).
    assert (Ex : entry_of (l1 ++ x :: l2) ra = Some x).
    { rewrite entry_of_app, entry_of_cons, (proj2 (entry_of_None l1 ra) Hn). by rewrite bool_decide_true. }
    rewrite Ex. intros y Hf Hy. rewrite arr_get_app, bind_ret, Hf, bind_ret by done.
    assert (Ei : <[length l1 := y]> (l1 ++ x :: l2) = l1 ++ y :: l2) by (clear; induction l1; simpl; congruence). rewrite Ei. eexists. split; [done |]. split.
    { unfold addresses. rewrite !fmap_app, !fmap_cons. congruence. }
    intros r. rewrite !entry_of_app, !entry_of_cons, Hx, Hy. case_bool_decide as Hr; [| done].
    subst r. by rewrite (proj2 (entry_of_None l1 ra) Hn).
  - by rewrite (proj2 (entry_of_None l ra) (get_tx_None _ _ E)).
Qed.

Lemma delete_entry_map l ra : NoDup (addresses l) ->
  NoDup (addresses (wlan_11n_delete_txbastream_tbl_entry l ra)) /\
  (forall r, entry_of (wlan_11n_delete_txbastream_tbl_entry l ra) r = if bool_decide (ra = r) then None else entry_of l r) /\
  forall x, x ∈ wlan_11n_delete_txbastream_tbl_entry l ra -> x ∈ l.
Proof.
  intros Hnd. unfold wlan_11n_delete_txbastream_tbl_entry. destruct (wlan_11n_get_txbastream_tbl l ra) as [i |] eqn:E.
  - destruct (get_tx_split _ _ _ E) as (l1 & x & l2 & -> & <- & Hx & Hn). rewrite delete_middle.
    unfold addresses in Hnd. rewrite fmap_app, fmap_cons, Hx in Hnd. apply list.NoDup_app in Hnd as (Hn1 & Hd & Hn2).
    apply list.NoDup_cons in Hn2 as [Hn2 Hn3]. split; [| split].
    + unfold addresses. rewrite fmap_app. apply list.NoDup_app. split; [done |]. split; [| done].
      intros a Ha Hb. apply (Hd a Ha). by apply elem_of_cons; right.
    + intros r. rewrite !entry_of_app, entry_of_cons, Hx. case_bool_decide as Hr; [subst r | done].
      rewrite (proj2 (entry_of_None l1 ra) Hn). by apply entry_of_None.
    + intros y. rewrite !elem_of_app, elem_of_cons. tauto.
  - split; [done |]. split; [| done]. intros r. case_bool_decide as Hr; [subst r | done]. by apply entry_of_None, get_tx_None.
Qed.

Lemma create_entry_map rand l ra s : NoDup (addresses l) ->
  exists l', wlan_11n_create_txbastream_tbl true rand l ra s = Ret l' /\ NoDup (addresses l') /\
    forall r, entry_of l' r =
      match entry_of l r with
      | Some x => Some x
      | None => if bool_decide (ra = r) then Some (MkTxBA ra (replicate 8 0) s 0 0 (u32 rand) (replicate 8 0)) else None
      end.
Proof.
  intros Hnd. unfold wlan_11n_create_txbastream_tbl. destruct (wlan_11n_get_txbastream_tbl l ra) as [i |] eqn:E.
  - exists l. split; [done |]. split; [done |]. intros r. destruct (entry_of l r) as [x |] eqn:Er; [done |].
    case_bool_decide as Hr; [subst r | done]. apply entry_of_None in Er. destruct Er.
    destruct (get_tx_Some _ _ _ E) as (x & Hx & Hra). rewrite <- Hra. apply list_elem_of_fmap. exists x. split; [done | by eapply list_elem_of_lookup_2].
  - eexists. split; [done |]. split.
    + unfold addresses. rewrite fmap_app. apply list.NoDup_app. split; [done |]. split; [| apply NoDup_singleton].
      intros a Ha Hb. apply list_elem_of_singleton in Hb. subst a. by destruct (get_tx_None _ _ E).
    + intros r. rewrite entry_of_app. destruct (entry_of l r); [done |]. by rewrite entry_of_cons.
Qed.

Lemma deleteall_empties l : deleteall_loop (length l) l = Ret [].
Proof.
  induction l as [| x l IH]; [done |]. cbn [length deleteall_loop]. unfold wlan_11n_delete_txbastream_tbl_entry. cbn.
  rewrite bool_decide_true by done. exact IH.
Qed.
