(* ===== verification/RxReorder.v ===== *)
(** * Block-ack sessions of an interface

    The operations of [wifidriver/mlan_11n_rxreorder.c] on the list of reorder
    tables an interface ([mlan_private]) keeps: setting sessions up and tearing
    them down, finding the table of a packet, and the per-TID admission masks
    of [wifidriver/wifi.c]. *)
From S2P Require Import Prelude Aggr RxSink RxTable TxBaTable.

(** ** Data *)
Definition BLOCKACKPARAM_TID_MASK : Z := 0x3C.
Definition BLOCKACKPARAM_WINSIZE_MASK : Z := 0xffc0.
Definition BLOCKACKPARAM_AMSDU_SUPP_MASK : Z := 0x1.
Definition ADDBA_RSP_STATUS_DECLINED : Z := 37.
Definition ADDBA_RSP_STATUS_ACCEPT : Z := 0.
Definition BA_RESULT_FAILURE : Z := 1.
Definition BA_STREAM_NOT_ALLOWED : Z := 0xff.
Definition TYPE_DELBA_RECEIVE : Z := 2.
Definition REASON_CODE_STA_TIMEOUT : Z := 39.

Record mlan_private := MkPriv {
  bss_mode : Z;
  bss_role : Z;
  addba_reject : list Z;             (* t_u8[MAX_NUM_TID] *)
  aggr_prio_amsdu : list Z;          (* aggr_prio_tbl[].amsdu *)
  rx_win_size : Z;                   (* add_ba_param.rx_win_size, u32 *)
  rx_amsdu : Z;                      (* add_ba_param.rx_amsdu, u8 *)
  rx_seq : list Z;                   (* t_u16[MAX_NUM_TID] *)
  tx_ba_stream_tbl_ptr : list TxBAStreamTbl;
  rx_reorder_tbl_ptr : list RxReorderTbl
}.

Definition with_tables (l : list RxReorderTbl) (p : mlan_private) : mlan_private :=
  MkPriv (bss_mode p) (bss_role p) (addba_reject p) (aggr_prio_amsdu p) (rx_win_size p) (rx_amsdu p)
    (rx_seq p) (tx_ba_stream_tbl_ptr p) l.
Definition with_rx_seq (l : list Z) (p : mlan_private) : mlan_private :=
  MkPriv (bss_mode p) (bss_role p) (addba_reject p) (aggr_prio_amsdu p) (rx_win_size p) (rx_amsdu p)
    l (tx_ba_stream_tbl_ptr p) (rx_reorder_tbl_ptr p).
Definition with_txba (l : list TxBAStreamTbl) (p : mlan_private) : mlan_private :=
  MkPriv (bss_mode p) (bss_role p) (addba_reject p) (aggr_prio_amsdu p) (rx_win_size p) (rx_amsdu p)
    (rx_seq p) l (rx_reorder_tbl_ptr p).

Record HostCmd_DS_11N_ADDBA_REQ := MkAddbaReq {
  add_req_result : Z;
  req_peer : list Z;
  req_dialog_token : Z;
  req_param_set : Z;     (* u16 *)
  req_tmo : Z;           (* u16 *)
  req_ssn : Z            (* u16 *)
}.
Record HostCmd_DS_11N_ADDBA_RSP := MkAddbaRsp {
  add_rsp_result : Z;
  rsp_peer : list Z;
  rsp_dialog_token : Z;
  status_code : Z;       (* u16 *)
  rsp_param_set : Z;     (* u16 *)
  rsp_tmo : Z;
  rsp_ssn : Z
}.
Record HostCmd_DS_11N_DELBA := MkDelba {
  del_result : Z;
  del_peer : list Z;
  del_ba_param_set : Z;  (* u16 *)
  del_reason : Z;
  del_reserved : Z
}.
Record HostCmd_DS_11N_BATIMEOUT := MkBaTimeout { bt_tid : Z; bt_peer : list Z; bt_origninator : Z }.

(** A host command: identifier, size on the wire, body.  Values are in host
    byte order; on the little-endian targets the conversions are identities. *)
Record host_cmd (A : Type) := MkCmd { hc_command : Z; hc_size : Z; hc_body : A }.
Arguments MkCmd {A}.
Arguments hc_body {A}.
Definition S_DS_GEN : Z := 8.

(** What the allocator and the timer service answer, and what a fresh block
    holds where the code does not initialise it. *)
Record alloc_env := MkAlloc {
  ae_node : bool;
  ae_slots : bool;
  ae_timer : bool;
  ae_junk_amsdu : Z
}.

(** ** Stateless operations *)
Definition queuing_ra_based (p : mlan_private) : bool :=
  negb ((bss_mode p =? 1) && (Z.land (bss_role p) 1 =? 0)).

(** [wifi_sta_ampdu_rx_enable_per_tid_is_allowed] and its uAP twin. *)
Definition ampdu_rx_enable_per_tid_is_allowed (mask : Z) (tid : Z) : bool :=
  negb (Z.land (Z.shiftr mask tid) 1 =? 0).

(** [wlan_11n_get_rxreorder_tbl]: the position of the first table of [tid] and [ta]. *)
Fixpoint get_rxreorder_tbl (l : list RxReorderTbl) (tid_ : Z) (ta_ : list Z) : option nat :=
  match l with
  | [] => None
  | t :: l' =>
      if bool_decide (ta t = ta_) && (tid t =? tid_) then Some O
      else S <$> get_rxreorder_tbl l' tid_ ta_
  end.
Definition wlan_11n_get_rxreorder_tbl (p : mlan_private) (tid_ : Z) (ta_ : list Z) : option nat :=
  get_rxreorder_tbl (rx_reorder_tbl_ptr p) tid_ ta_.

Definition wlan_11n_update_txbastream_tbl_ampdu_stat (p : mlan_private) (ra : list Z) (status tid_ : Z) :
    outcome mlan_private :=
  l ← update_entry (set_ampdu_stat status tid_) (tx_ba_stream_tbl_ptr p) ra; Ret (with_txba l p).

Definition wlan_cmd_11n_addba_req (pdata : HostCmd_DS_11N_ADDBA_REQ) : host_cmd HostCmd_DS_11N_ADDBA_REQ :=
  MkCmd 0x00ce (14 + S_DS_GEN)
    (MkAddbaReq 0 (req_peer pdata) (req_dialog_token pdata) (req_param_set pdata) (req_tmo pdata) (req_ssn pdata)).

Definition wlan_cmd_11n_delba (pdata : HostCmd_DS_11N_DELBA) : host_cmd HostCmd_DS_11N_DELBA :=
  MkCmd 0x00d0 (12 + S_DS_GEN) pdata.

(** [wlan_11n_ba_stream_timeout]: the DELBA it asks the command path to send. *)
Definition wlan_11n_ba_stream_timeout (e : HostCmd_DS_11N_BATIMEOUT) : HostCmd_DS_11N_DELBA :=
  let p1 := u16 (Z.lor 0 (Z.shiftl (u16 (bt_tid e)) 12)) in
  let p2 := u16 (Z.lor p1 (Z.shiftl (u16 (bt_origninator e)) 11)) in
  MkDelba 0 (bt_peer e) p2 REASON_CODE_STA_TIMEOUT 0.

(** The parameter set of an ADDBA response: the peer's, with the driver's own
    window size and, A-MSDU in A-MPDU being off, without the A-MSDU bit. *)
Definition addba_rsp_params (p : mlan_private) (req_params : Z) : Z :=
  let s1 := u16 (Z.land req_params (Z.lnot BLOCKACKPARAM_WINSIZE_MASK)) in
  let s2 := u16 (Z.land s1 (Z.lnot BLOCKACKPARAM_AMSDU_SUPP_MASK)) in
  u16 (Z.lor s2 (u32 (Z.shiftl (rx_win_size p) 6))).
Definition params_tid (s : Z) : Z := Z.shiftr (Z.land s BLOCKACKPARAM_TID_MASK) 2.
Definition params_win (s : Z) : Z := Z.shiftr (Z.land s BLOCKACKPARAM_WINSIZE_MASK) 6.

(** Is the request declined, and with which response? *)
Definition addba_rsp (p : mlan_private) (mask : Z) (req : HostCmd_DS_11N_ADDBA_REQ) :
    outcome (Z * Z * HostCmd_DS_11N_ADDBA_RSP) :=
  let tid_ := params_tid (req_param_set req) in
  rej ← arr_get (addba_reject p) tid_;
  let st1 := if negb (rej =? ADDBA_RSP_STATUS_ACCEPT) then ADDBA_RSP_STATUS_DECLINED
             else ADDBA_RSP_STATUS_ACCEPT in
  let params := addba_rsp_params p (req_param_set req) in
  let win := params_win params in
  let st2 := if win =? 0 then ADDBA_RSP_STATUS_DECLINED else st1 in
  let allowed := ampdu_rx_enable_per_tid_is_allowed mask tid_ in
  let st3 := if allowed then st2 else ADDBA_RSP_STATUS_DECLINED in
  let res := if allowed then 0 else BA_RESULT_FAILURE in
  Ret (tid_, win, MkAddbaRsp res (req_peer req) (req_dialog_token req) st3 params (req_tmo req) (req_ssn req)).

(** ** Operations on the session list *)
Section ops.
Context {W : Type} `{RxSink W}.
Variable in_reset : bool.   (* mlan_adap->in_reset *)

(** [wlan_11n_delete_rxreorder_tbl_entry] on the table at position [i]. *)
Definition wlan_11n_delete_rxreorder_tbl_entry (p : mlan_private) (w : W) (i : nat) : outcome (mlan_private * W) :=
  t ← arr_get (rx_reorder_tbl_ptr p) (Z.of_nat i);
  '(_, t1, w1) ←
    (if in_reset then wlan_11n_free_rxreorder_pkt t w
     else wlan_11n_dispatch_pkt_until_start_win t w
            (Z.land (start_win t + win_size t) (MAX_TID_VALUE - 1)));
  (* the timer is stopped and freed, the node unlinked, its two blocks freed *)
  Ret (with_tables (delete i (rx_reorder_tbl_ptr p)) p, w1).

Definition wlan_11n_create_rxreorder_tbl (ae : alloc_env) (p : mlan_private) (w : W)
    (ta_ : list Z) (tid_ win seq_num : Z) : outcome (mlan_private * W) :=
  match wlan_11n_get_rxreorder_tbl p tid_ ta_ with
  | Some i =>
      t ← arr_get (rx_reorder_tbl_ptr p) (Z.of_nat i);
      '(_, t1, w1) ← wlan_11n_dispatch_pkt_until_start_win t w seq_num;
      Ret (with_tables (<[i := t1]> (rx_reorder_tbl_ptr p)) p, w1)
  | None =>
      if negb (ae_node ae) then Ret (p, w)
      else
        last ← (if queuing_ra_based p then Ret 0 else arr_get (rx_seq p) tid_);
        if negb (ae_slots ae) then Ret (p, w)
        else
          let t := MkTbl tid_ ta_ seq_num last win (replicate (Z.to_nat win) None)
                     (MkTimer (ae_timer ae) false None) BA_STREAM_SETUP_INPROGRESS (ae_junk_amsdu ae)
                     false true 0 0 in
          Ret (with_tables (rx_reorder_tbl_ptr p ++ [t]) p, w)
  end.

(** [wlan_cmd_11n_addba_rspgen]; [mask] is [sta_ampdu_rx_enable_per_tid].
    [wlan_cmd_11n_uap_addba_rspgen] computes the same with the uAP mask. *)
Definition wlan_cmd_11n_addba_rspgen (ae : alloc_env) (mask : Z) (p : mlan_private) (w : W)
    (req : HostCmd_DS_11N_ADDBA_REQ) : outcome (host_cmd HostCmd_DS_11N_ADDBA_RSP * mlan_private * W) :=
  '(tid_, win, rsp) ← addba_rsp p mask req;
  '(p1, w1) ←
    (if status_code rsp =? ADDBA_RSP_STATUS_ACCEPT
     then wlan_11n_create_rxreorder_tbl ae p w (req_peer req) tid_ win (req_ssn req)
     else Ret (p, w));
  Ret (MkCmd 0x00cf (16 + S_DS_GEN) rsp, p1, w1).

(** The uAP handler tests its conditions in another order. *)
Definition wlan_cmd_11n_uap_addba_rspgen (ae : alloc_env) (mask : Z) (p : mlan_private) (w : W)
    (req : HostCmd_DS_11N_ADDBA_REQ) : outcome (host_cmd HostCmd_DS_11N_ADDBA_RSP * mlan_private * W) :=
  let s0 := req_param_set req in
  let tid_ := params_tid s0 in
  rej ← arr_get (addba_reject p) tid_;
  let st1 := if negb (rej =? 0) then ADDBA_RSP_STATUS_DECLINED else ADDBA_RSP_STATUS_ACCEPT in
  let s1 := u16 (Z.land s0 (Z.lnot BLOCKACKPARAM_AMSDU_SUPP_MASK)) in
  let allowed := ampdu_rx_enable_per_tid_is_allowed mask tid_ in
  let st2 := if allowed then st1 else ADDBA_RSP_STATUS_DECLINED in
  let res := if allowed then 0 else BA_RESULT_FAILURE in
  let s2 := u16 (Z.land s1 (Z.lnot BLOCKACKPARAM_WINSIZE_MASK)) in
  let s3 := u16 (Z.lor s2 (u32 (Z.shiftl (rx_win_size p) 6))) in
  let win := params_win s3 in
  let st3 := if win =? 0 then ADDBA_RSP_STATUS_DECLINED else st2 in
  let rsp := MkAddbaRsp res (req_peer req) (req_dialog_token req) st3 s3 (req_tmo req) (req_ssn req) in
  '(p1, w1) ←
    (if st3 =? ADDBA_RSP_STATUS_ACCEPT
     then wlan_11n_create_rxreorder_tbl ae p w (req_peer req) tid_ win (req_ssn req)
     else Ret (p, w));
  Ret (MkCmd 0x00cf (16 + S_DS_GEN) rsp, p1, w1).

Definition mlan_11n_rxreorder_pkt (p : mlan_private) (w : W) (seq_num tid_ : Z) (ta_ : list Z)
    (pkt_type : Z) (payload : rx_ptr) : outcome (mlan_status * mlan_private * W) :=
  match wlan_11n_get_rxreorder_tbl p tid_ ta_ with
  | None =>
      if pkt_type =? PKT_TYPE_BAR then Ret (MLAN_STATUS_SUCCESS, p, w)
      else '(_, w1) ← sink_dispatch w payload; Ret (MLAN_STATUS_SUCCESS, p, w1)
  | Some i =>
      t ← arr_get (rx_reorder_tbl_ptr p) (Z.of_nat i);
      '(r, t1, w1) ← rxreorder_tbl_pkt t w seq_num pkt_type payload;
      Ret (r, with_tables (<[i := t1]> (rx_reorder_tbl_ptr p)) p, w1)
  end.

(** The flush timer of the table at position [i] expires. *)
Definition reorder_timer_fires (p : mlan_private) (w : W) (i : nat) : outcome (mlan_private * W) :=
  t ← arr_get (rx_reorder_tbl_ptr p) (Z.of_nat i);
  '(t1, w1) ← timer_expires t w;
  Ret (with_tables (<[i := t1]> (rx_reorder_tbl_ptr p)) p, w1).

Definition mlan_11n_update_bastream_tbl (p : mlan_private) (w : W) (tid_ : Z) (peer_mac : list Z)
    (type : Z) (initiator : Z) : outcome (mlan_private * W) :=
  let cleanup := if type =? TYPE_DELBA_RECEIVE then negb (initiator =? 0) else initiator =? 0 in
  if cleanup then
    match wlan_11n_get_rxreorder_tbl p tid_ peer_mac with
    | None => Ret (p, w)
    | Some i => wlan_11n_delete_rxreorder_tbl_entry p w i
    end
  else
    match wlan_11n_get_txbastream_tbl (tx_ba_stream_tbl_ptr p) peer_mac with
    | None => Ret (p, w)
    | Some _ =>
        p1 ← wlan_11n_update_txbastream_tbl_ampdu_stat p peer_mac 0 (u8 tid_);
        Ret (p1, w)
    end.

Definition wlan_ret_11n_addba_resp (p : mlan_private) (w : W) (resp : HostCmd_DS_11N_ADDBA_RSP) :
    outcome (mlan_private * W) :=
  let s := rsp_param_set resp in
  let tid_ := params_tid s in
  match wlan_11n_get_rxreorder_tbl p tid_ (rsp_peer resp) with
  | None => Ret (p, w)
  | Some i =>
      if status_code resp =? 0 then
        t ← arr_get (rx_reorder_tbl_ptr p) (Z.of_nat i);
        a ← (if negb (Z.land s BLOCKACKPARAM_AMSDU_SUPP_MASK =? 0) && negb (rx_amsdu p =? 0)
             then x ← arr_get (aggr_prio_amsdu p) tid_; Ret (if x =? BA_STREAM_NOT_ALLOWED then 0 else 1)
             else Ret 0);
        Ret (with_tables (<[i := with_ba BA_STREAM_SETUP_COMPLETE a t]> (rx_reorder_tbl_ptr p)) p, w)
      else wlan_11n_delete_rxreorder_tbl_entry p w i
  end.

(** [wlan_11n_cleanup_reorder_tbl]: delete the head until the list is empty. *)
Fixpoint cleanup_loop (fuel : nat) (p : mlan_private) (w : W) : outcome (mlan_private * W) :=
  match rx_reorder_tbl_ptr p with
  | [] => Ret (p, w)
  | _ :: _ =>
      match fuel with
      | O => Fault OutOfFuel
      | S fuel' =>
          '(p1, w1) ← wlan_11n_delete_rxreorder_tbl_entry p w 0;
          cleanup_loop fuel' p1 w1
      end
  end.
Definition wlan_11n_cleanup_reorder_tbl (p : mlan_private) (w : W) : outcome (mlan_private * W) :=
  '(p1, w1) ← cleanup_loop (length (rx_reorder_tbl_ptr p)) p w;
  Ret (with_rx_seq (replicate (length (rx_seq p1)) 0xffff) (with_tables [] p1), w1).

(** [wlan_cleanup_reorder_tbl]: the sessions of one peer. *)
Fixpoint cleanup_peer_loop (n : nat) (i : Z) (p : mlan_private) (w : W) (ta_ : list Z) : outcome (mlan_private * W) :=
  match n with
  | O => Ret (p, w)
  | S n' =>
      '(p1, w1) ← match wlan_11n_get_rxreorder_tbl p i ta_ with
                  | Some k => wlan_11n_delete_rxreorder_tbl_entry p w k
                  | None => Ret (p, w)
                  end;
      cleanup_peer_loop n' (i + 1) p1 w1 ta_
  end.
Definition wlan_cleanup_reorder_tbl (p : mlan_private) (w : W) (ta_ : list Z) : outcome (mlan_private * W) :=
  cleanup_peer_loop (Z.to_nat MAX_NUM_TID) 0 p w ta_.
End ops.

Definition wlan_set_rxreorder_tbl_no_drop_flag (p : mlan_private) (flag : bool) : mlan_private :=
  with_tables (with_force_no_drop flag <$> rx_reorder_tbl_ptr p) p.
Definition wlan_update_rxreorder_tbl (privs : list (option mlan_private)) (flag : bool) : list (option mlan_private) :=
  map (option_map (fun p => wlan_set_rxreorder_tbl_no_drop_flag p flag)) privs.

(** ** Lookup *)
Definition tbl_key (t : RxReorderTbl) : Z * list Z := (tid t, ta t).

Lemma get_rxreorder_tbl_Some l tid_ ta_ i :
  get_rxreorder_tbl l tid_ ta_ = Some i -> exists t, l !! i = Some t /\ tbl_key t = (tid_, ta_).
Proof.
  revert i. induction l as [| t l IH]; intros i Hi; simpl in Hi; [done |].
  case_bool_decide as Hta; destruct (Z.eqb_spec (tid t) tid_) as [Htid |]; simpl in Hi;
    first [ apply fmap_Some in Hi as (k & Hk & ->); by apply IH | simplify_eq; by exists t].
Qed.

Lemma get_rxreorder_tbl_None l tid_ ta_ :
  get_rxreorder_tbl l tid_ ta_ = None -> (tid_, ta_) ∉ tbl_key <$> l.
Proof.
  induction l as [| t l IH]; simpl; [intros _; apply not_elem_of_nil |].
  case_bool_decide; destruct (Z.eqb_spec (tid t) tid_); simpl; intros Hn; try done;
    apply fmap_None in Hn; rewrite not_elem_of_cons;
    (split; [unfold tbl_key; congruence | by apply IH]).
Qed.

(** ** The invariant of an interface *)
Section inv.
Context {W : Type} `{RxSinkLaws W}.

Record priv_inv (p : mlan_private) : Prop := {
  pi_tables : Forall tbl_inv (rx_reorder_tbl_ptr p);
  pi_keys : NoDup (tbl_key <$> rx_reorder_tbl_ptr p);
  pi_rx_seq : length (rx_seq p) = 8%nat;
  pi_rx_seq_ok : Forall (fun s => 0 <= s < MAX_TID_VALUE \/ s = DEFAULT_SEQ_NUM) (rx_seq p);
  pi_reject : length (addba_reject p) = 8%nat
}.

(** Every packet an interface holds. *)
Definition tbl_buffered (t : RxReorderTbl) : list mlan_buffer := mbufs (RxTable.rx_reorder_ptr t).
Definition buffered (p : mlan_private) : list mlan_buffer := rx_reorder_tbl_ptr p ≫= tbl_buffered.

Lemma buffered_insert l i t t1 x y :
  l !! i = Some t -> x ++ tbl_buffered t1 ≡ₚ y ++ tbl_buffered t ->
  x ++ (<[i := t1]> l ≫= tbl_buffered) ≡ₚ y ++ (l ≫= tbl_buffered).
Proof.
  intros Hi Hp. rewrite <- (take_drop_middle l i t Hi) at 2.
  rewrite (insert_take_drop l i t1) by (by eapply lookup_lt_Some).
  rewrite !bind_app, !bind_cons, !(Permutation_app_comm (take i l ≫= _)), !(assoc_L (++)).
  by rewrite Hp.
Qed.

Lemma buffered_delete l i t :
  l !! i = Some t -> tbl_buffered t ++ (delete i l ≫= tbl_buffered) ≡ₚ l ≫= tbl_buffered.
Proof.
  intros Hi. rewrite delete_take_drop. rewrite <- (take_drop_middle l i t Hi) at 3.
  rewrite !bind_app, bind_cons, !(assoc_L (++)). f_equiv. apply Permutation_app_comm.
Qed.

Lemma priv_inv_insert p i t t1 :
  priv_inv p -> rx_reorder_tbl_ptr p !! i = Some t -> tbl_inv t1 -> tbl_key t1 = tbl_key t ->
  priv_inv (with_tables (<[i := t1]> (rx_reorder_tbl_ptr p)) p).
Proof.
  intros [] Hi Ht Hk. split; simpl; try done; [by apply Forall_insert |].
  rewrite list_fmap_insert, Hk, list_insert_id; [done |]. by rewrite list_lookup_fmap, Hi.
Qed.

Lemma priv_inv_delete p i :
  priv_inv p -> priv_inv (with_tables (delete i (rx_reorder_tbl_ptr p)) p).
Proof.
  intros []. split; simpl; try done; [by apply Forall_delete |].
  eapply sublist_NoDup; [exact pi_keys0 |].
  rewrite list_fmap_delete; apply sublist_delete.
Qed.

Lemma priv_get p i : priv_inv p -> (i < length (rx_reorder_tbl_ptr p))%nat ->
  exists t, arr_get (rx_reorder_tbl_ptr p) (Z.of_nat i) = Ret t /\ rx_reorder_tbl_ptr p !! i = Some t /\ tbl_inv t.
Proof.
  intros [] Hi. destruct (lookup_lt_is_Some_2 _ _ Hi) as [t Ht]. exists t.
  split; [by apply arr_get_lookup | split; [done |]]. by eapply Forall_lookup_1.
Qed.

(** ** One step of each operation *)

(** Moving the window a full length flushes it. *)
Lemma mbufs_take_all (l : list (option rx_ptr)) n : (length l <= n)%nat -> mbufs (take n l) = mbufs l.
Proof. intros. by rewrite take_ge. Qed.

Lemma delete_flush t w : tbl_inv t -> sink_inv w ->
  exists t1 w', wlan_11n_dispatch_pkt_until_start_win t w (Z.land (start_win t + win_size t) (MAX_TID_VALUE - 1)) =
    Ret (MLAN_STATUS_SUCCESS, t1, w') /\ sent w w' (tbl_buffered t).
Proof.
  intros Hi Hw. pose proof (ti_wf _ Hi) as Hwf. pose proof Hwf as [].
  change (MAX_TID_VALUE - 1) with 4095. rewrite land_4095.
  destruct (until_ref t w ((start_win t + win_size t) mod 4096)) as (w' & -> & Hs); [done.. | zmod |].
  eexists _, w'. split; [done |]. simpl in Hs. rewrite mbufs_take_all in Hs; [done |].
  unfold ref_shift. zbool; zmod.
Qed.

(** Packets released without being delivered. *)
Definition dropped (w w' : W) (bs : list mlan_buffer) : Prop :=
  sink_inv w' /\ sink_delivered w' = sink_delivered w /\ sink_released w' = sink_released w ++ bs.

Lemma free_loop_spec (pre l : list (option rx_ptr)) (w : W) :
  Forall (fun o => match o with Some p => good_ptr p | None => True end) l -> sink_inv w ->
  exists w', free_loop (length l) (Z.of_nat (length pre)) (pre ++ l) w =
    Ret (pre ++ blanks (length l), w') /\ dropped w w' (mbufs l).
Proof.
  intros Hg. revert pre w. induction Hg as [| o l Ho Hg IH]; intros pre w Hw; simpl free_loop.
  - exists w. split; [done |]. unfold dropped. by rewrite app_nil_r.
  - rewrite arr_get_app, bind_ret by done.
    replace (Z.of_nat (length pre) + 1) with (Z.of_nat (length (pre ++ [@None rx_ptr])))
      by (rewrite length_app; simpl; lia).
    destruct o as [p |].
    + destruct Ho as (b & -> & Hb). rewrite arr_set_app, bind_ret by done.
      destruct (sink_free_spec w b Hw) as (Hw1 & Hd & Hr).
      destruct (IH (pre ++ [None]) _ Hw1) as (w' & E & Hi' & Hd' & Hr').
      rewrite <- !(assoc_L (++)) in E. simpl in E. rewrite E. exists w'. split; [done |].
      unfold dropped. rewrite Hd', Hr', Hd, Hr, <- (assoc_L (++)). done.
    + destruct (IH (pre ++ [None]) w Hw) as (w' & E & Hs').
      rewrite <- !(assoc_L (++)) in E. simpl in E. rewrite E. by exists w'.
Qed.

Lemma free_pkt_spec t w : tbl_inv t -> sink_inv w ->
  exists t1 w', wlan_11n_free_rxreorder_pkt t w = Ret (MLAN_STATUS_SUCCESS, t1, w') /\ dropped w w' (tbl_buffered t).
Proof.
  intros [[]] Hw. unfold wlan_11n_free_rxreorder_pkt.
  replace (Z.to_nat (win_size t)) with (length (RxTable.rx_reorder_ptr t)) by lia.
  destruct (free_loop_spec [] (RxTable.rx_reorder_ptr t) w) as (w' & E & Hd); [done.. |].
  simpl in E. change (Z.of_nat 0) with 0 in E. rewrite E, bind_ret. by eexists _, w'.
Qed.

(** What a teardown does with the packets of a session. *)
Definition torn_down (in_reset : bool) (w w' : W) (bs : list mlan_buffer) : Prop :=
  if in_reset then dropped w w' bs else sent w w' bs.

Lemma torn_down_trans r w1 w2 w3 l1 l2 :
  torn_down r w1 w2 l1 -> torn_down r w2 w3 l2 -> torn_down r w1 w3 (l1 ++ l2).
Proof.
  destruct r; [| apply sent_trans]. intros (? & D1 & R1) (? & D2 & R2). unfold torn_down, dropped.
  by rewrite D2, R2, D1, R1, <- (assoc_L (++)).
Qed.

Lemma torn_down_inv r w w' l : torn_down r w w' l -> sink_inv w'.
Proof. destruct r; by intros (? & _). Qed.

Lemma torn_down_nil r w : sink_inv w -> torn_down r w w [].
Proof. intros. destruct r; unfold torn_down, dropped, sent; by rewrite ?app_nil_r. Qed.

Lemma delete_entry_spec r p w i :
  priv_inv p -> sink_inv w -> (i < length (rx_reorder_tbl_ptr p))%nat ->
  exists t w', rx_reorder_tbl_ptr p !! i = Some t /\
    wlan_11n_delete_rxreorder_tbl_entry r p w i =
      Ret (with_tables (delete i (rx_reorder_tbl_ptr p)) p, w') /\ torn_down r w w' (tbl_buffered t).
Proof.
  intros Hp Hw Hi. destruct (priv_get p i Hp Hi) as (t & E & Ht & Hinv).
  unfold wlan_11n_delete_rxreorder_tbl_entry. rewrite E, bind_ret. exists t.
  destruct r; [destruct (free_pkt_spec t w Hinv Hw) as (t1 & w' & -> & Hd)
              | destruct (delete_flush t w Hinv Hw) as (t1 & w' & -> & Hd)]; rewrite bind_ret; by exists w'.
Qed.

Lemma cleanup_loop_spec r n p w :
  priv_inv p -> sink_inv w -> length (rx_reorder_tbl_ptr p) = n ->
  exists p' w', cleanup_loop r n p w = Ret (p', w') /\ priv_inv p' /\ rx_reorder_tbl_ptr p' = [] /\
    torn_down r w w' (buffered p).
Proof.
  revert p w. induction n as [| n IH]; intros p w Hp Hw Hn; simpl; unfold buffered;
    destruct (rx_reorder_tbl_ptr p) as [| t l] eqn:El; simpl in Hn; try lia.
  - exists p, w. split; [done |]. split; [done |]. split; [done | by apply torn_down_nil].
  - destruct (delete_entry_spec r p w 0 Hp Hw) as (t' & w1 & Ht & -> & Hs1); [rewrite El; simpl; lia |].
    rewrite bind_ret. rewrite El in Ht. simplify_eq/=.
    destruct (IH (with_tables (delete 0%nat (rx_reorder_tbl_ptr p)) p) w1) as (p' & w' & -> & Hp' & Hnil & Hs);
      [by apply priv_inv_delete | by eapply torn_down_inv | rewrite El; simpl; lia |].
    exists p', w'. split; [done |]. split; [done |]. split; [done |].
    unfold buffered in Hs. rewrite El in Hs. exact (torn_down_trans _ _ _ _ _ _ Hs1 Hs).
Qed.

(** ** The flush timer *)
Lemma find_last_spec (l : list (option rx_ptr)) (n : nat) : (n <= length l)%nat ->
  exists k, find_last_loop n l = Ret k /\ -1 <= k < Z.of_nat n /\
    forall j, k < Z.of_nat j -> (j < n)%nat -> l !! j = Some None.
Proof.
  induction n as [| n IH]; intros Hn; simpl find_last_loop; [exists (-1); repeat split; intros; lia |].
  destruct (arr_get_total l (Z.of_nat n)) as (o & -> & Ho); [lia |]. rewrite Nat2Z.id in Ho. rewrite bind_ret.
  destruct o as [p |]; [exists (Z.of_nat n); repeat split; intros; lia |].
  destruct IH as (k & -> & Hk & Hlast); [lia |]. exists k. split; [done |]. split; [lia |].
  intros j Hj Hjn. destruct (decide (j = n)) as [-> | ]; [done | apply Hlast; lia].
Qed.

Lemma all_none_occupancy (l : list (option rx_ptr)) :
  (forall j, (j < length l)%nat -> l !! j = Some None) -> occupancy l = 0.
Proof.
  intros Hn. apply occupancy_zero, Forall_lookup_2. intros j o Hj.
  rewrite Hn in Hj by (by eapply lookup_lt_Some). by simplify_eq.
Qed.

Lemma occupancy_zero_mbufs (l : list (option rx_ptr)) : occupancy l = 0 -> mbufs l = [].
Proof. intros Ho%occupancy_zero. induction Ho as [| o l -> _ IH]; done. Qed.

(** The timer callback delivers everything the window holds, in window order,
    and leaves the window empty and the timer off. *)
Lemma timer_expires_spec t w : tbl_inv t -> sink_inv w ->
  exists t' w', timer_expires t w = Ret (t', w') /\ tbl_inv t' /\ session t' = session t /\
    sent w w' (tbl_buffered t) /\ bitmap t' = 0 /\ tbl_buffered t' = [] /\
    timer_is_set (timer_context t') = false /\ timer_armed (timer_context t') = None.
Proof.
  intros Hi Hw. pose proof Hi as [[Hwin Hlen Hst Hsl Hbm] Hwin2 Hseq Hck Hls Htm Harm]. unfold timer_expires, wlan_flush_data.
  set (t1 := with_timer _ _). unfold wlan_11n_find_last_seqnum.
  set (l := RxTable.rx_reorder_ptr t) in *.
  change (win_size t1) with (win_size t). change (RxTable.rx_reorder_ptr t1) with l.
  replace (s16 (win_size t)) with (win_size t) by (symmetry; apply s16_small; lia).
  destruct (find_last_spec l (Z.to_nat (win_size t))) as (k & -> & Hk & Hlast); [lia |]. rewrite bind_ret.
  assert (Hwf : tbl_wf t1) by (split; simpl; done).
  rewrite Z.geb_leb. destruct (Z.leb_spec 0 k) as [Hk0 | Hk0].
  - change (MAX_TID_VALUE - 1) with 4095. rewrite land_4095, (wrap_small 16 k) by lia.
    change (start_win t1) with (start_win t).
    set (new := (start_win t + k + 1) mod 4096). assert (Hnew : 0 <= new < 4096) by (unfold new; zmod).
    destruct (until_ref t1 w new Hwf Hw) as (w' & -> & Hs); [lia |]. rewrite bind_ret.
    set (n := ref_shift (start_win t1) (win_size t1) new) in *.
    assert (Hn : k < n <= win_size t) by (unfold n, ref_shift; change (start_win t1) with (start_win t);
      change (win_size t1) with (win_size t); unfold new in *; zbool; zmod).
    assert (Hempty : occupancy (drop (Z.to_nat n) l) = 0).
    { apply all_none_occupancy. intros j Hj. rewrite length_drop in Hj. rewrite lookup_drop. apply Hlast; lia. }
    assert (Hocc : occupancy (drop (Z.to_nat n) l ++ blanks (Z.to_nat n)) = 0)
      by (by rewrite occupancy_app_blanks).
    eexists _, w'. split; [reflexivity |]. simpl in Hs. fold n l in Hs.
    replace (tbl_buffered t) with (mbufs (take (Z.to_nat n) l)).
    2:{ unfold tbl_buffered. fold l. rewrite <- (take_drop (Z.to_nat n) l) at 2.
        by rewrite omap_app, (occupancy_zero_mbufs (drop _ _)), app_nil_r. }
    split; [| split; [done | split; [exact Hs | split; [exact Hocc | split; [by apply occupancy_zero_mbufs | done]]]]].
    split; simpl; fold n l; try done; [| by apply slots_seq_blank].
    apply put_window_wf; simpl; [done | unfold MAX_TID_VALUE; lia | |].
    + fold n l. rewrite length_advance; [done | fold l; lia].
    + fold n l. by apply good_slots_advance.
  - assert (Hocc : occupancy l = 0) by (apply all_none_occupancy; intros j Hj; apply Hlast; lia).
    exists t1, w. split; [done |]. unfold tbl_buffered. fold l. rewrite (occupancy_zero_mbufs l Hocc).
    split; [split; simpl; try done; rewrite Hbm; intros Hb; congruence |].
    split; [done |]. split; [by apply sent_refl |]. split; [simpl; by rewrite Hbm |].
    split; [exact (occupancy_zero_mbufs l Hocc) | done].
Qed.
End inv.
