(* ===== verification/RxProps.v ===== *)
(** * Properties of the receive reordering

    The theorems about [RxTable] and [RxReorder], each with the concrete run
    that shows its hypotheses can hold. *)
From S2P Require Import Prelude Aggr RxSink RxTable RxReorder.

Section props.
Context {W : Type} `{RxSinkLaws W}.

(** ** Helpers *)

(** A packet inside the window is never taken for an old one. *)
Lemma too_old_in_window t seq :
  0 <= start_win t <= MAX_TID_VALUE -> 0 <= seq < MAX_TID_VALUE -> dist (start_win t) seq < 63 ->
  rxreorder_too_old t seq = false.
Proof.
  intros Hs Hq Hd. unfold rxreorder_too_old, TWOPOW11. change (MAX_TID_VALUE - 1) with 4095.
  rewrite land_4095. zbool; first [done | exfalso; zmod].
Qed.

Lemma mbuf_slot (l : list (option rx_ptr)) b : b ∈ mbufs l <-> exists i, l !! i = Some (Some (Mbuf b)).
Proof.
  rewrite list_elem_of_omap. split.
  - intros (o & (i & Hi)%list_elem_of_lookup & Ho). exists i. destruct o as [[| b'] |]; simplify_eq/=; done.
  - intros (i & Hi). exists (Some (Mbuf b)). split; [by eapply list_elem_of_lookup_2 | done].
Qed.

(** One new packet inside the window of a running table. *)
Lemma in_window_step t w b :
  tbl_inv t -> check_start_win t = false -> sink_inv w -> packet_ok (mbuf_seq b) b ->
  dist (start_win t) (mbuf_seq b) < win_size t ->
  occupied (RxTable.rx_reorder_ptr t) (Z.to_nat (dist (start_win t) (mbuf_seq b))) = false ->
  exists t' w' out,
    rxreorder_tbl_pkt t w (mbuf_seq b) 0 (Mbuf b) = Ret (MLAN_STATUS_SUCCESS, t', w') /\
    tbl_inv t' /\ check_start_win t' = false /\ session t' = session t /\ sent w w' out /\
    mbuf_seq <$> out = seq_range (start_win t) (length out) /\
    start_win t' = (start_win t + Z.of_nat (length out)) mod MAX_TID_VALUE /\
    occupied (RxTable.rx_reorder_ptr t') 0 = false /\
    out ++ tbl_buffered t' ≡ₚ b :: tbl_buffered t.
Proof.
  intros Hi Hc Hw Hp Hd Hfree. pose proof Hi as [[Hwin Hlen Hst Hsl Hbm] Hwin2 Hseq Hck Hls Htm Harm].
  pose proof (dist_range (start_win t) (mbuf_seq b)) as Hd0.
  pose proof (tbl_pkt_running t w (mbuf_seq b) 0 b Hi Hc Hw Hp) as Hrun.
  pose proof (place_ok (win_size t) (mbuf_seq b) false b (window_of t)) as Hok.
  change (0 =? PKT_TYPE_BAR) with false in Hrun. unfold ref_place, ref_make_room in Hrun, Hok. simpl in Hrun, Hok.
  destruct (Z.ltb_spec (dist (start_win t) (mbuf_seq b)) (win_size t)) as [_ |]; [| lia]. simpl in Hrun, Hok.
  set (i := Z.to_nat (dist (start_win t) (mbuf_seq b))) in *. set (l := RxTable.rx_reorder_ptr t) in *.
  destruct (lookup_lt_is_Some_2 l i) as [o Ho]; [lia |].
  unfold occupied in Hfree. rewrite Ho in Hfree, Hrun, Hok. destruct o; [done |].
  destruct Hok as [Hv Hall]; [by apply tbl_inv_window | lia | apply Hp | apply Hp | done |].
  destruct Hrun as (w' & E & Hs); [by left | right; apply too_old_in_window; [done | apply Hp | lia] |].
  set (l1 := <[i:=Some (Mbuf b)]> l) in *.
  set (v := ref_drain (MkWindow (start_win t) l1 [])) in *.
  assert (Hg1 : Forall (fun o => match o with Some p => good_ptr p | None => True end) l1)
    by (apply Forall_insert; [done | exists b; split; [done | apply Hp]]).
  assert (Hs1 : slots_seq (start_win t) l1)
    by (apply slots_seq_insert; [done |]; unfold i; rewrite Z2Nat.id by lia; unfold packet_ok in Hp; zmod).
  assert (Hrun1 : mbuf_seq <$> wd_out v = seq_range (start_win t) (run_len l1)) by exact (run_seqs _ _ Hg1 Hs1).
  assert (Hlen1 : length (wd_out v) = run_len l1)
    by (rewrite <- (length_seq_range (start_win t) (run_len l1)), <- Hrun1, length_fmap; done).
  destruct (done_same (put_window v (with_force_no_drop false t))) as (Es & Est & Ek & _ & Ec & _).
  exists (rxreorder_done (put_window v (with_force_no_drop false t))), w', (wd_out v).
  split; [exact E |]. split; [apply put_window_inv0; [by split | done | done] |].
  rewrite Ec, Ek, Est, Hlen1. split; [done |]. split; [done |]. split; [exact Hs |]. split; [exact Hrun1 |].
  split; [done |]. split; [rewrite Es; apply run_head_empty |].
  unfold tbl_buffered. rewrite Es. exact Hall.
Qed.
(** All packets still to be delivered, buffered or yet to arrive, are the
    next [m] sequence numbers; then the remaining arrivals deliver them. *)
Lemma arrivals_deliver bs : forall t w s m,
  tbl_inv t -> check_start_win t = false -> sink_inv w -> Forall (fun b => packet_ok (mbuf_seq b) b) bs ->
  start_win t mod MAX_TID_VALUE = s mod MAX_TID_VALUE -> Z.of_nat m <= win_size t ->
  occupied (RxTable.rx_reorder_ptr t) 0 = false ->
  mbuf_seq <$> (tbl_buffered t ++ bs) ≡ₚ seq_range s m ->
  exists t' w' out,
    rxreorder_tbl_pkts t w ((fun b => (mbuf_seq b, Mbuf b)) <$> bs) =
      Ret (replicate (length bs) MLAN_STATUS_SUCCESS, t', w') /\
    tbl_inv t' /\ sent w w' out /\ mbuf_seq <$> out = seq_range s m /\
    out ≡ₚ tbl_buffered t ++ bs /\ tbl_buffered t' = [].
Proof.
  induction bs as [| b bs IH]; intros t w s m Hi Hc Hw Hok Hst Hm Hfree Hperm;
    pose proof Hi as [[Hwin Hlen Hstart Hsl Hbm] Hwin2 Hseq _ _ _ _].
  - exists t, w, []. rewrite app_nil_r in Hperm |- *. destruct m as [| m].
    + apply Permutation_length in Hperm. rewrite length_fmap in Hperm. apply nil_length_inv in Hperm.
      rewrite Hperm. repeat (split; [done || by apply sent_refl |]). done.
    + exfalso. assert (Hin : s mod MAX_TID_VALUE ∈ mbuf_seq <$> tbl_buffered t)
        by (rewrite Hperm, seq_range_S; left).
      apply list_elem_of_fmap in Hin as (b & Hb & (i & Hb')%mbuf_slot).
      pose proof (lookup_lt_Some _ _ _ Hb'). rewrite (Hseq i b Hb') in Hb.
      assert (i = 0%nat) as -> by zmod. unfold occupied in Hfree. by rewrite Hb' in Hfree.
  - inversion Hok as [| ? ? Hb Hok']; subst. rename Hb into Hbok.
    assert (Hin : mbuf_seq b ∈ seq_range s m)
      by (rewrite <- Hperm, fmap_app; apply elem_of_app; right; left).
    apply elem_of_seq_range in Hin as (j & Hj & Hbs).
    assert (Hd : dist (start_win t) (mbuf_seq b) = Z.of_nat j) by zmod.
    assert (Hnew : occupied (RxTable.rx_reorder_ptr t) j = false).
    { destruct (occupied _ j) eqn:Eo; [| done]. exfalso. unfold occupied in Eo.
      destruct (_ !! j) as [[p |] |] eqn:Ej; try done.
      destruct (Forall_lookup_1 _ _ _ _ Hsl Ej) as (b' & -> & _).
      pose proof (seq_range_NoDup s m ltac:(lia)) as Hnd. rewrite <- Hperm, fmap_app, fmap_cons in Hnd.
      apply list.NoDup_app in Hnd as (_ & Hnd & _). apply (Hnd (mbuf_seq b)); [| left].
      apply list_elem_of_fmap. exists b'. split; [rewrite (Hseq j b' Ej); zmod |].
      apply mbuf_slot. by exists j. }
    destruct (in_window_step t w b) as (t1 & w1 & out & E & Hi1 & Hc1 & Hk1 & Hs1 & Hout & Hst1 & Hfree1 & Hall);
      [done.. | lia | by rewrite Hd, Nat2Z.id |].
    assert (Hrange : seq_range s m =
      seq_range (start_win t) (length out) ++ seq_range (s + Z.of_nat (length out)) (m - length out)).
    { assert (length out <= m)%nat.
      { apply (f_equal length) in Hout. apply Permutation_length in Hperm, Hall.
        rewrite ?length_fmap, ?length_app, ?length_seq_range in *. simpl in *. lia. }
      replace m with (length out + (m - length out))%nat at 1 by lia. rewrite seq_range_app.
      by rewrite <- (seq_range_mod s (length out)), <- Hst, seq_range_mod. }
    destruct (IH t1 w1 (s + Z.of_nat (length out)) (m - length out)%nat) as (t' & w' & out' & E' & Hi' & Hs' & Hq & Hp' & He);
      [done | done | by eapply sent_inv | done | zmod | injection Hk1; lia | done | |].
    + rewrite Hrange, <- Hout in Hperm. apply (Permutation_app_inv_l (mbuf_seq <$> out)).
      rewrite <- Hperm, <- fmap_app, (assoc_L (++)), Hall. apply fmap_Permutation.
      simpl. apply Permutation_middle.
    + exists t', w', (out ++ out'). rewrite fmap_cons. cbn [rxreorder_tbl_pkts length replicate]. rewrite E, bind_ret, E', bind_ret. split; [done |]. split; [done |].
      split; [by eapply sent_trans |]. split; [by rewrite fmap_app, Hout, Hq, <- Hrange |].
      split; [| done]. rewrite Hp', (assoc_L (++)), Hall. simpl. apply Permutation_middle.
Qed.
(** A packet handed to an interface: no fault, the invariant is kept, and
    every packet is delivered once, still held, or refused. *)
Lemma priv_pkt_spec p w seq tid_ ta_ ty b :
  priv_inv p -> sink_inv w -> packet_ok seq b ->
  exists r p' w' out, mlan_11n_rxreorder_pkt p w seq tid_ ta_ ty (Mbuf b) = Ret (r, p', w') /\
    priv_inv p' /\ sent w w' out /\
    out ++ buffered p' ≡ₚ
      (if bool_decide (r = MLAN_STATUS_SUCCESS) && negb (ty =? PKT_TYPE_BAR) then [b] else []) ++ buffered p.
Proof.
  intros Hp Hw Hb. unfold mlan_11n_rxreorder_pkt, wlan_11n_get_rxreorder_tbl.
  destruct (get_rxreorder_tbl _ tid_ ta_) as [i |] eqn:Eg.
  - apply get_rxreorder_tbl_Some in Eg as (t & Ht & _). rewrite (arr_get_lookup _ _ _ Ht), bind_ret.
    pose proof (Forall_lookup_1 _ _ _ _ (pi_tables _ Hp) Ht) as Hi.
    destruct (tbl_pkt_spec t w seq ty b Hi Hw Hb) as (r & t' & w' & out & -> & Hi' & Hk & Hs & Hall).
    rewrite bind_ret. eexists r, _, w', out. split; [done |]. split; [| split; [done |]].
    + eapply priv_inv_insert; [done.. |]. unfold tbl_key. by injection Hk as -> -> _.
    + unfold buffered. simpl. by eapply buffered_insert.
  - destruct (Z.eqb_spec ty PKT_TYPE_BAR).
    + exists MLAN_STATUS_SUCCESS, p, w, []. split; [done |]. split; [done |]. split; [by apply sent_refl | done].
    + destruct Hb as (_ & Hb & _). destruct (sink_dispatch_sent w b Hw Hb) as (r & w' & -> & Hs). rewrite bind_ret.
      exists MLAN_STATUS_SUCCESS, p, w', [b]. split; [done |]. split; [done |]. split; done.
Qed.

(** An empty window is a good state for a session to be in. *)
Lemma empty_table_inv tid_ ta_ start last win a st am ck pc :
  2 <= win <= 63 -> 0 <= start < MAX_TID_VALUE ->
  0 <= last < MAX_TID_VALUE \/ last = DEFAULT_SEQ_NUM ->
  tbl_inv (MkTbl tid_ ta_ start last win (blanks (Z.to_nat win)) (MkTimer a false None) st am false ck pc 0).
Proof.
  intros Hw Hs Hl.
  assert (Ho : occupancy (blanks (Z.to_nat win)) = 0) by (apply occupancy_zero; by apply Forall_replicate).
  split; simpl; try done.
  - split; simpl; [lia | rewrite length_replicate; lia | lia | by apply Forall_replicate | done].
  - lia.
  - by apply slots_seq_blank.
Qed.
End props.
