(* ===== verification/RxPath.v ===== *)
(** * The receive path of a station interface

    From the network interface's call down to the reordering:
    [wrapper_wlan_handle_rx_packet] ([wifidriver/mlan_glue.c]),
    [wlan_handle_rx_packet] ([wifidriver/mlan_txrx.c]) for a station interface,
    and [wlan_ops_sta_process_rx_packet] ([wifidriver/mlan_sta_rx.c]), over the
    driver's own sink. *)
From S2P Require Import Prelude Aggr RxSink RxTable TxBaTable RxReorder RxProps.

(** ** Data *)

(** What the station path reads of the interface and does not change. *)
Record sta_conf := MkSta {
  curr_addr : list Z;           (* own address *)
  bssid : list Z;               (* curr_bss_params.bss_descriptor.mac_address *)
  is_11n_enabled : bool;        (* IS_11N_ENABLED(priv) *)
  mgmt_frame_passthru : bool;   (* mgmt_frame_passthru_mask != 0 *)
  sta_bss_index : Z
}.

Definition WM_SUCCESS : Z := 0.
Definition WM_FAIL : Z := 1.
Definition MLAN_ERROR_PKT_SIZE_INVALID : Z := 0x80000001.

Definition set_bss_index (i : Z) (b : mlan_buffer) : mlan_buffer :=
  MkBuf (mb_addr b) (mb_status_code b) i (mb_dest_addr b) (mb_src_addr b) (mb_lwip b) (mb_pbuf b)
    (mb_data_offset b) (mb_data_len b).
Definition set_data_len (n : Z) (b : mlan_buffer) : mlan_buffer :=
  MkBuf (mb_addr b) (mb_status_code b) (mb_bss_index b) (mb_dest_addr b) (mb_src_addr b) (mb_lwip b) (mb_pbuf b)
    (mb_data_offset b) n.
Definition set_status_code (c : Z) (b : mlan_buffer) : mlan_buffer :=
  MkBuf (mb_addr b) c (mb_bss_index b) (mb_dest_addr b) (mb_src_addr b) (mb_lwip b) (mb_pbuf b)
    (mb_data_offset b) (mb_data_len b).

(** ** Operations *)

(** [wlan_ops_sta_process_rx_packet].  The packet is returned as its fields
    stand at the end, for the caller that frees it. *)
Definition wlan_ops_sta_process_rx_packet (c : sta_conf) (p : mlan_private) (w : rx_world) (b : mlan_buffer) :
    outcome (mlan_status * mlan_buffer * mlan_private * rx_world) :=
  let prx_pd := mb_pbuf b in
  let len := rx_pkt_offset prx_pd + rx_pkt_length prx_pd in
  if len >? u16 (mb_data_len b) then
    let b1 := set_status_code MLAN_ERROR_PKT_SIZE_INVALID b in
    Ret (MLAN_STATUS_FAILURE, b1, p, wlan_free_mlan_buffer w b1)
  else
    let b1 := set_data_len len b in
    if mgmt_frame_passthru c && (rx_pkt_type prx_pd =? PKT_TYPE_MGMT_FRAME) then Fault Hang
    else if negb (is_11n_enabled c) || negb (bool_decide (curr_addr c = mb_dest_addr b1)) then
      '(_, w1) ← wlan_process_rx_packet w b1; Ret (MLAN_STATUS_SUCCESS, b1, p, w1)
    else
      '(ta_, p1) ←
        (if queuing_ra_based p then Ret (mb_src_addr b1, p)
         else
           s ← (if negb (rx_pkt_type prx_pd =? PKT_TYPE_BAR) && (rp_priority prx_pd <? MAX_NUM_TID)
                then arr_set (rx_seq p) (rp_priority prx_pd) (rp_seq_num prx_pd) else Ret (rx_seq p));
           Ret (bssid c, with_rx_seq s p));
      '(ret, p2, w1) ← mlan_11n_rxreorder_pkt p1 w (rp_seq_num prx_pd) (rp_priority prx_pd) ta_
                         (u8 (rx_pkt_type prx_pd)) (Mbuf b1);
      Ret (ret, b1, p2,
           if negb (bool_decide (ret = MLAN_STATUS_SUCCESS)) || (rx_pkt_type prx_pd =? PKT_TYPE_BAR)
           then wlan_free_mlan_buffer w1 b1 else w1).

(** [wlan_handle_rx_packet] once the station interface is found. *)
Definition wlan_handle_rx_packet (c : sta_conf) (p : mlan_private) (w : rx_world) (b : mlan_buffer) :
    outcome (mlan_status * mlan_buffer * mlan_private * rx_world) :=
  wlan_ops_sta_process_rx_packet c p w (set_bss_index (sta_bss_index c) b).

(** [wrapper_wlan_handle_rx_packet]; [mem1] and [mem2] are the answers of the
    two allocations, [addr] the address of the first, [payload] the Ethernet
    frame and [lwip] the bytes of the network buffer. *)
Definition wrapper_wlan_handle_rx_packet (c : sta_conf) (mem1 mem2 : bool) (addr : Z)
    (p : mlan_private) (w : rx_world) (datalen : Z) (rxpd : RxPD) (lwip payload : list Z) :
    outcome (Z * mlan_private * rx_world) :=
  if negb mem1 then Ret (- WM_FAIL, p, w)
  else if negb mem2 then Ret (- WM_FAIL, p, w)
  else
    let b := MkBuf addr 0 0 (take 6 payload) (take 6 (drop 6 payload)) lwip rxpd 0 datalen in
    '(rv, b1, p1, w1) ← wlan_handle_rx_packet c p w b;
    if bool_decide (rv = MLAN_STATUS_SUCCESS) then Ret (WM_SUCCESS, p1, w1)
    else Ret (- WM_FAIL, p1, emit w1 [FreeRxPD b1; FreeMbuf b1]).

(** ** Accounting *)

(** The buffer the wrapper builds. *)
Definition rx_buffer (c : sta_conf) (addr : Z) (rxpd : RxPD) (lwip payload : list Z) (status len : Z) : mlan_buffer :=
  MkBuf addr status (sta_bss_index c) (take 6 payload) (take 6 (drop 6 payload)) lwip rxpd 0 len.

(** Does the packet take the reordering path? *)
Definition goes_to_reorder (c : sta_conf) (payload : list Z) : bool :=
  is_11n_enabled c && bool_decide (curr_addr c = take 6 payload).

(** A packet of the firmware the driver can handle. *)
Record fw_packet_ok (c : sta_conf) (rxpd : RxPD) (lwip : list Z) : Prop := {
  fp_seq : 0 <= rp_seq_num rxpd < MAX_TID_VALUE;
  fp_type : 0 <= rx_pkt_type rxpd < 256;
  fp_priority : 0 <= rp_priority rxpd;
  fp_mgmt : mgmt_frame_passthru c && (rx_pkt_type rxpd =? PKT_TYPE_MGMT_FRAME) = false;
  fp_amsdu : rx_pkt_type rxpd = PKT_TYPE_AMSDU -> amsdu_buffer_ok (rx_buffer c 0 rxpd lwip [] 0 0)
}.

Lemma process_rx_packet_spec w b : mb_data_offset b = 0 ->
  exists r w', wlan_process_rx_packet w b = Ret (r, w') /\ w_amsdu_inbuf w' = w_amsdu_inbuf w /\
    sink_delivered w' = sink_delivered w ++ [b] /\ sink_released w' = sink_released w ++ [b].
Proof.
  intros Ho. unfold wlan_process_rx_packet, wrapper_moal_recv_packet. rewrite Ho.
  eexists _, _. split; [reflexivity |]. split; [done |]. simpl. by rewrite !omap_app.
Qed.

Lemma with_rx_seq_inv p i s l :
  priv_inv p -> 0 <= s < MAX_TID_VALUE -> arr_set (rx_seq p) i s = Ret l -> priv_inv (with_rx_seq l p).
Proof.
  intros [] Hs Hset. unfold arr_set in Hset. case_match; simplify_eq.
  split; simpl; try done; [by rewrite length_insert |]. apply Forall_insert; [done | by left].
Qed.

(** The station handler accounts for the packet: it is released, held by a
    reorder table, or refused; an accepted block-ack request is neither. *)
Lemma sta_process_spec c p w b :
  priv_inv p -> world_ok w -> fw_packet_ok c (mb_pbuf b) (mb_lwip b) -> mb_data_offset b = 0 ->
  exists r b' p' w', wlan_ops_sta_process_rx_packet c p w b = Ret (r, b', p', w') /\
    mb_addr b' = mb_addr b /\ mb_pbuf b' = mb_pbuf b /\ priv_inv p' /\ world_ok w' /\
    sink_released w' ++ buffered p' ≡ₚ
      (if bool_decide (r = MLAN_STATUS_SUCCESS) &&
          negb (is_11n_enabled c && bool_decide (curr_addr c = mb_dest_addr b) &&
                (rx_pkt_type (mb_pbuf b) =? PKT_TYPE_BAR)) then [b'] else []) ++
      sink_released w ++ buffered p.
Proof.
  intros Hp Hw [Hseq Hty Hpr Hmg Ham] Hoff. unfold wlan_ops_sta_process_rx_packet.
  destruct (_ >? _).
  { eexists _, _, p, w. split; [reflexivity |]. done. }
  rewrite Hmg. set (len := rx_pkt_offset (mb_pbuf b) + _). set (b1 := set_data_len len b).
  rewrite <- negb_andb. simpl mb_dest_addr.
  destruct (is_11n_enabled c && bool_decide (curr_addr c = mb_dest_addr b)) eqn:E11; simpl negb; cbv iota.
  2:{ destruct (process_rx_packet_spec w b1 Hoff) as (r & w' & -> & Hw' & _ & Hr). rewrite bind_ret.
      eexists _, b1, p, w'. split; [reflexivity |]. split; [done |]. split; [done |]. split; [done |].
      split; [unfold world_ok; by rewrite Hw' |]. rewrite Hr, (Permutation_app_comm _ [b1]), <- (assoc_L (++)). done. }
  assert (Hpk : packet_ok (rp_seq_num (mb_pbuf b)) b1)
    by (split; [done | split; [split; [done |] | done]]; exact Ham).
  (* the transmitter address and the last sequence number *)
  assert (Hta : exists ta_ p1, (if queuing_ra_based p then Ret (mb_src_addr b1, p)
         else s ← (if negb (rx_pkt_type (mb_pbuf b) =? PKT_TYPE_BAR) && (rp_priority (mb_pbuf b) <? MAX_NUM_TID)
                then arr_set (rx_seq p) (rp_priority (mb_pbuf b)) (rp_seq_num (mb_pbuf b)) else Ret (rx_seq p));
           Ret (bssid c, with_rx_seq s p)) = Ret (ta_, p1) /\ priv_inv p1 /\ buffered p1 = buffered p).
  { destruct (queuing_ra_based p); [by eexists _, p |].
    destruct (negb _ && _) eqn:Ec.
    - apply andb_prop in Ec as [_ Hlt%Z.ltb_lt]. unfold MAX_NUM_TID in Hlt.
      assert (Hset : arr_set (rx_seq p) (rp_priority (mb_pbuf b)) (rp_seq_num (mb_pbuf b)) =
        Ret (<[Z.to_nat (rp_priority (mb_pbuf b)) := rp_seq_num (mb_pbuf b)]> (rx_seq p)))
        by (apply arr_set_ret; rewrite (pi_rx_seq _ Hp); lia).
      rewrite Hset, bind_ret. eexists _, _. split; [reflexivity |]. split; [by eapply with_rx_seq_inv | done].
    - rewrite bind_ret. eexists _, _. split; [reflexivity |]. by destruct p. }
  destruct Hta as (ta_ & p1 & -> & Hp1 & Hbuf). rewrite bind_ret.
  destruct (priv_pkt_spec p1 w (rp_seq_num (mb_pbuf b)) (rp_priority (mb_pbuf b)) ta_
      (u8 (rx_pkt_type (mb_pbuf b))) b1 Hp1 Hw Hpk) as (r & p' & w' & out & -> & Hp' & (Hw' & _ & Hr) & Hall).
  rewrite bind_ret. eexists r, b1, p', w'.
  split; [unfold wlan_free_mlan_buffer; by destruct (_ || _) |].
  split; [done |]. split; [done |]. split; [done |]. split; [done |].
  rewrite Hr, <- (assoc_L (++)), Hall, wrap_small by done. simpl andb.
  rewrite Hbuf. solve_Permutation.
Qed.

(** ** The theorem of the station path *)

(** C1: For a packet as the firmware is meant to hand it over ([fw_packet_ok]: a
    sequence number below 4096, a type of one byte, an A-MSDU made of whole
    sub-frames that fit the buffer behind the descriptor, no management frame to
    pass on) and sessions with windows of 2 to 63 ([priv_inv]), the station
    receive path does not fault, keeps the reorder tables
    consistent and accounts for the packet exactly once: its memory is
    released, or a reorder table holds it.  The one exception is a block-ack
    request the reordering accepts, whose buffer is neither. *)
Theorem sta_rx_accounts_for_packet c mem1 mem2 addr p w datalen rxpd lwip payload :
  priv_inv p -> world_ok w -> fw_packet_ok c rxpd lwip ->
  exists rc p' w', wrapper_wlan_handle_rx_packet c mem1 mem2 addr p w datalen rxpd lwip payload = Ret (rc, p', w') /\
    priv_inv p' /\ world_ok w' /\
    (if mem1 && mem2 then
       exists b, mb_addr b = addr /\ mb_pbuf b = rxpd /\ (rc = WM_SUCCESS \/ rc = - WM_FAIL) /\
         sink_released w' ++ buffered p' ≡ₚ
           (if (rc =? WM_SUCCESS) && goes_to_reorder c payload && (rx_pkt_type rxpd =? PKT_TYPE_BAR)
            then [] else [b]) ++ sink_released w ++ buffered p
     else rc = - WM_FAIL /\ p' = p /\ w' = w).
Proof.
  intros Hp Hw Hfp. unfold wrapper_wlan_handle_rx_packet.
  destruct mem1; [destruct mem2 |]; simpl negb; cbv iota; [| by eexists _, p, w..].
  unfold wlan_handle_rx_packet.
  destruct (sta_process_spec c p w (rx_buffer c addr rxpd lwip payload 0 datalen) Hp Hw Hfp eq_refl)
    as (r & b' & p' & w' & E & Ha & Hb & Hp' & Hw' & Hacc).
  unfold rx_buffer in E. unfold set_bss_index. simpl in *. rewrite E, bind_ret.
  case_bool_decide as Er; simpl in Hacc.
  - eexists _, p', w'. split; [reflexivity |]. split; [done |]. split; [done |].
    exists b'. split; [done |]. split; [done |]. split; [by left |]. simpl. unfold goes_to_reorder.
    rewrite Hacc. simpl. by destruct (_ && _ && _).
  - eexists _, p', _. split; [reflexivity |]. split; [done |]. split; [done |].
    exists b'. split; [done |]. split; [done |]. split; [by right |]. simpl.
    rewrite omap_app. simpl. simpl in Hacc. rewrite <- Hacc. solve_Permutation.
Qed.

(** A concrete interface, world and packet. *)
Definition ex_peer : list Z := [2; 0; 0; 0; 0; 1].
Definition ex_own : list Z := [2; 0; 0; 0; 0; 2].
Definition ex_conf : sta_conf := MkSta ex_own ex_peer true false 0.
Definition ex_table (start win : Z) : RxReorderTbl :=
  MkTbl 0 ex_peer start 0xffff win (blanks (Z.to_nat win)) (MkTimer true false None)
    BA_STREAM_SETUP_COMPLETE 0 false false 0 0.
Definition ex_priv (l : list RxReorderTbl) : mlan_private :=
  MkPriv 1 0 (replicate 8 0) (replicate 8 0) 32 0 (replicate 8 0xffff) [] l.
Definition ex_world : rx_world := MkWorld (replicate 4096 0) ∅ [].
Definition ex_rxpd (type seq : Z) : RxPD := MkRxPD 0 0 60 38 type seq 0 0 0 0 0 (replicate 23 0).
Definition ex_buf (seq : Z) : mlan_buffer := MkBuf seq 0 0 ex_own ex_peer [] (ex_rxpd 2 seq) 0 98.

Lemma ex_table_inv start win : 2 <= win <= 63 -> 0 <= start < MAX_TID_VALUE -> tbl_inv (ex_table start win).
Proof. intros. apply empty_table_inv; [done | done | by right]. Qed.

Lemma ex_priv_inv l : Forall tbl_inv l -> NoDup (tbl_key <$> l) -> priv_inv (ex_priv l).
Proof. intros. split; simpl; try done. repeat (constructor; [by right |]). constructor. Qed.

Lemma ex_priv_one_inv start win : 2 <= win <= 63 -> 0 <= start < MAX_TID_VALUE -> priv_inv (ex_priv [ex_table start win]).
Proof. intros. apply ex_priv_inv; [by apply Forall_singleton, ex_table_inv | apply NoDup_singleton]. Qed.

Lemma ex_world_ok : world_ok ex_world.
Proof. reflexivity. Qed.

Lemma ex_packet_ok type seq lwip :
  type = 2 \/ type = PKT_TYPE_BAR -> 0 <= seq < MAX_TID_VALUE -> fw_packet_ok ex_conf (ex_rxpd type seq) lwip.
Proof. intros [-> | ->] Hs; split; simpl; try done; unfold PKT_TYPE_BAR; lia. Qed.

Lemma ex_buf_ok seq : 0 <= seq < MAX_TID_VALUE -> packet_ok (mbuf_seq (ex_buf seq)) (ex_buf seq).
Proof. by intros. Qed.

(** A block-ack request that lands in the window of a session: it succeeds,
    and its buffer stays allocated. *)
Lemma sta_rx_accounts_for_packet_witness :
  exists p' w',
    wrapper_wlan_handle_rx_packet ex_conf true true 7 (ex_priv [ex_table 100 32]) ex_world 98
      (ex_rxpd PKT_TYPE_BAR 105) [] (ex_own ++ ex_peer) = Ret (0, p', w') /\ w_log w' = [] /\ priv_inv p'.
Proof.
  destruct (sta_rx_accounts_for_packet ex_conf true true 7 (ex_priv [ex_table 100 32]) ex_world 98
      (ex_rxpd PKT_TYPE_BAR 105) [] (ex_own ++ ex_peer)) as (rc & p' & w' & E & Hp & _).
  - apply ex_priv_one_inv; unfold MAX_TID_VALUE; lia.
  - exact ex_world_ok.
  - apply ex_packet_ok; [by right | unfold MAX_TID_VALUE; lia].
  - exists p', w'. vm_compute in E. injection E as <- <- <-. split; [done | split; [done | exact Hp]].
Defined.
