(* ===== verification/RxTheorems.v ===== *)
(** * Theorems about receive reordering

    In-order delivery, the flush timer, session set-up and tear-down, the
    equivalence of the window arithmetic with arithmetic modulo 4096, and the
    places where the code's assumptions about window sizes and traffic
    identifiers do not hold. *)
From S2P Require Import Prelude Aggr RxSink RxTable TxBaTable RxReorder RxProps RxPath.

(** ** In-order delivery *)
Section order.
Context {W : Type} `{RxSinkLaws W}.

End order.


(** ** The window arithmetic *)
Section arithmetic.
Context {W : Type} `{RxSinkLaws W}.

(** C12: The case splits on sequence-number wrap-around, the 16- and 32-bit
    wrapping arithmetic, the rotation loops and the bitmap shifts of the
    packet handler compute exactly the reference window operation, which is
    defined with distances modulo 4096 and list surgery. *)
Theorem reorder_matches_modular_reference t w seq ty b :
  tbl_inv t -> check_start_win t = false -> sink_inv w -> packet_ok seq b ->
  ty <> PKT_TYPE_AMSDU \/ amsdu t <> 0 ->
  force_no_drop t = true \/ rxreorder_too_old t seq = false ->
  let '(r, v) := ref_place (win_size t) seq (ty =? PKT_TYPE_BAR) (Mbuf b) (window_of t) in
  exists t' w', rxreorder_tbl_pkt t w seq ty (Mbuf b) = Ret (r, t', w') /\
    start_win t' = wd_start v /\ RxTable.rx_reorder_ptr t' = wd_slots v /\
    bitmap t' = occupancy (wd_slots v) /\
    sink_delivered w' = sink_delivered w ++ wd_out v /\
    (timer_is_set (timer_context t') = negb (bitmap t' =? 0)).
Proof.
  intros Hi Hc Hw Hp Ham Hold.
  pose proof (tbl_pkt_running t w seq ty b Hi Hc Hw Hp Ham Hold) as Hrun.
  destruct (ref_place _ _ _ _ _) as [r v]. destruct Hrun as (w' & E & (_ & Hd & _)).
  set (t1 := put_window v (with_force_no_drop false t)) in *.
  destruct (done_same t1) as (Hs & Hst & _ & Hb & _).
  exists (rxreorder_done t1), w'. rewrite Hs, Hst, Hb. repeat (split; [done |]).
  destruct Hi as [[Hwin _ _ _ _] Hwin2 _ _ _ _ Harm].
  destruct (done_timer t1) as (c & -> & Hset & _); [simpl; lia | exact Harm | exact Hset].
Qed.
End arithmetic.

(** Window 4090..4121 (that is, 25): packet 30 moves it to 4095..30. *)
Lemma reorder_matches_modular_reference_witness :
  exists t' w', rxreorder_tbl_pkt (ex_table 4090 32) ex_world 30 2 (Mbuf (ex_buf 30)) = Ret (MLAN_STATUS_SUCCESS, t', w') /\
    start_win t' = 4095 /\ bitmap t' = 2 ^ 31.
Proof.
  pose proof (reorder_matches_modular_reference (ex_table 4090 32) ex_world 30 2 (ex_buf 30)) as Ht.
  destruct Ht as (t' & w' & E & Hst & _ & Hb & _).
  - apply ex_table_inv; unfold MAX_TID_VALUE; lia.
  - reflexivity.
  - exact ex_world_ok.
  - apply ex_buf_ok. unfold MAX_TID_VALUE. lia.
  - left. discriminate.
  - right. reflexivity.
  - exists t', w'. split; [exact E |]. split; [exact Hst | exact Hb].
Defined.

(** When the sequence numbers wrap, moving the window flushes all of it
    and not only the slots that leave it: packets inside the new window are
    delivered early, before older ones that are still missing.  Here packet 9
    is delivered although 0..8 are still expected, and packet 0 after it. *)
Theorem wrap_flush_delivers_out_of_order :
  exists t' w', rxreorder_tbl_pkts (ex_table 4090 32) ex_world
      ((fun b => (mbuf_seq b, Mbuf b)) <$> [ex_buf 9; ex_buf 31; ex_buf 0]) =
    Ret (replicate 3 MLAN_STATUS_SUCCESS, t', w') /\
    mbuf_seq <$> sink_delivered w' = [9; 0] /\ start_win t' = 1.
Proof. eexists _, _. split; [vm_compute; reflexivity |]. by vm_compute. Qed.

(** ** The flush timer and tear-down *)
Section teardown.
Context {W : Type} `{RxSinkLaws W}.

(** When the flush timer of a session fires, every packet its window
    holds is delivered, in window order, the window is left empty and
    consistent, no timer runs, and the other sessions keep their packets. *)
Theorem flush_timer_empties_window p w i t :
  priv_inv p -> sink_inv w -> rx_reorder_tbl_ptr p !! i = Some t ->
  exists p' w' t', reorder_timer_fires p w i = Ret (p', w') /\ priv_inv p' /\
    sink_delivered w' = sink_delivered w ++ tbl_buffered t /\
    rx_reorder_tbl_ptr p' = <[i := t']> (rx_reorder_tbl_ptr p) /\
    tbl_buffered t' = [] /\ bitmap t' = 0 /\ timer_armed (timer_context t') = None.
Proof.
  intros Hp Hw Ht. unfold reorder_timer_fires. rewrite (arr_get_lookup _ _ _ Ht), bind_ret.
  pose proof (Forall_lookup_1 _ _ _ _ (pi_tables _ Hp) Ht) as Hi.
  destruct (timer_expires_spec t w Hi Hw) as (t' & w' & -> & Hi' & Hk & (_ & Hd & _) & Hb & He & _ & Ha).
  rewrite bind_ret. eexists _, w', t'. split; [reflexivity |]. split; [| done].
  eapply priv_inv_insert; [done.. |]. unfold tbl_key. by injection Hk as -> -> _.
Qed.

(** Cleaning up an interface terminates and empties its session list;
    every packet that was held is delivered, or, during a firmware reset,
    released undelivered; nothing is lost or released twice. *)
Theorem cleanup_releases_everything r p w :
  priv_inv p -> sink_inv w ->
  exists p' w', wlan_11n_cleanup_reorder_tbl r p w = Ret (p', w') /\
    rx_reorder_tbl_ptr p' = [] /\ buffered p' = [] /\ priv_inv p' /\
    sink_released w' = sink_released w ++ buffered p /\
    sink_delivered w' = sink_delivered w ++ (if r then [] else buffered p).
Proof.
  intros Hp Hw. unfold wlan_11n_cleanup_reorder_tbl.
  destruct (cleanup_loop_spec r _ p w Hp Hw eq_refl) as (p' & w' & -> & Hp' & He & Hs). rewrite bind_ret.
  eexists _, w'. split; [reflexivity |]. split; [done |]. split; [done |]. split.
  - destruct Hp'. split; simpl; try done; [apply NoDup_nil_2 | by rewrite length_replicate |].
    apply Forall_replicate. by right.
  - destruct r; [destruct Hs as (_ & -> & ->) | destruct Hs as (_ & -> & ->)]; by rewrite ?app_nil_r.
Qed.
End teardown.

(** A session that holds packet 102 of a window starting at 100. *)
Definition ex_holding : RxReorderTbl :=
  put_window (MkWindow 100 (<[2%nat := Some (Mbuf (ex_buf 102))]> (blanks 32)) [])
    (with_timer (MkTimer true true (Some 1600)) (ex_table 100 32)).

Lemma ex_holding_inv : priv_inv (ex_priv [ex_holding]).
Proof.
  apply ex_priv_inv; [apply Forall_singleton | apply NoDup_singleton].
  assert (Hlt : 2 <= 32 <= 63) by lia. pose proof (ex_table_inv 100 32 Hlt ltac:(unfold MAX_TID_VALUE; lia)) as [Hwf _ Hsq _ _ _ _].
  split; simpl; try done; [| | by right].
  - apply put_window_wf; [destruct Hwf; by split | simpl; unfold MAX_TID_VALUE; lia | done |].
    apply Forall_insert; [by apply Forall_replicate | by exists (ex_buf 102)].
  - apply (slots_seq_insert 100 (blanks 32) 2); [exact Hsq | done].
Qed.

Lemma flush_timer_empties_window_witness :
  exists p' w', reorder_timer_fires (ex_priv [ex_holding]) ex_world 0 = Ret (p', w') /\
    sink_delivered w' = [ex_buf 102].
Proof.
  destruct (flush_timer_empties_window (ex_priv [ex_holding]) ex_world 0 ex_holding
    ex_holding_inv ex_world_ok eq_refl) as (p' & w' & t' & E & _ & Hd & _).
  exists p', w'. split; [exact E | exact Hd].
Defined.

Lemma cleanup_releases_everything_witness :
  exists p' w', wlan_11n_cleanup_reorder_tbl true (ex_priv [ex_holding]) ex_world = Ret (p', w') /\
    sink_released w' = [ex_buf 102] /\ sink_delivered w' = [].
Proof.
  destruct (cleanup_releases_everything true (ex_priv [ex_holding]) ex_world ex_holding_inv ex_world_ok)
    as (p' & w' & E & _ & _ & _ & Hr & Hd).
  exists p', w'. split; [exact E |]. split; [exact Hr | exact Hd].
Defined.

(** ** Session set-up *)
Section setup.
Context {W : Type} `{RxSinkLaws W}.

(** The parameter set, bit by bit. *)
Lemma params_testbit p s n : 0 <= n < 16 ->
  Z.testbit (addba_rsp_params p s) n =
    (Z.testbit s n && negb (Z.testbit 0xffc0 n) && negb (Z.testbit 1 n))
    || Z.testbit (Z.shiftl (RxReorder.rx_win_size p) 6) n.
Proof.
  intros Hn. unfold addba_rsp_params, wrap. rewrite Z.mod_pow2_bits_low, Z.lor_spec by lia. f_equal.
  - unfold BLOCKACKPARAM_WINSIZE_MASK, BLOCKACKPARAM_AMSDU_SUPP_MASK.
    rewrite Z.mod_pow2_bits_low, Z.land_spec, Z.mod_pow2_bits_low, Z.land_spec, !Z.lnot_spec by lia. done.
  - by rewrite Z.mod_pow2_bits_low by lia.
Qed.

(** The parameter set keeps the peer's TID and carries the driver's window. *)
Lemma params_fields p s :
  params_tid (addba_rsp_params p s) = params_tid s /\
  params_win (addba_rsp_params p s) = RxReorder.rx_win_size p mod 2 ^ 10.
Proof.
  unfold params_tid, params_win, BLOCKACKPARAM_TID_MASK, BLOCKACKPARAM_WINSIZE_MASK.
  split; apply Z.bits_inj'; intros n Hn; rewrite !Z.shiftr_spec, ?Z.land_spec by lia.
  - destruct (Z.ltb_spec n 4) as [Hlt | Hge].
    + rewrite params_testbit, (Z.shiftl_spec_low _ 6), orb_false_r by lia.
      assert (n = 0 \/ n = 1 \/ n = 2 \/ n = 3) as [-> | [-> | [-> | ->]]] by lia;
        simpl; by rewrite ?andb_true_r.
    + rewrite (Z.bits_above_log2 0x3C (n + 2)) by (simpl; lia). by rewrite !andb_false_r.
  - destruct (Z.ltb_spec n 10) as [Hlt | Hge].
    + assert (Hm : Z.testbit 0xffc0 (n + 6) = true).
      { change 0xffc0 with (Z.shiftl (Z.ones 10) 6). rewrite Z.shiftl_spec by lia.
        replace (n + 6 - 6) with n by lia. apply Z.ones_spec_low. lia. }
      rewrite params_testbit, Hm, Z.shiftl_spec, Z.mod_pow2_bits_low by lia. simpl.
      replace (n + 6 - 6) with n by lia. by rewrite andb_false_r, andb_true_r.
    + rewrite Z.mod_pow2_bits_high, (Z.bits_above_log2 0xffc0 (n + 6)) by (simpl; lia). apply andb_false_r.
Qed.

(** An ADDBA request for a new session on an admitted TID is answered with
    status "accept", the peer's TID and the driver's own window size, and
    creates an empty, consistent reorder table that starts at the peer's
    sequence number; nothing else changes. *)
Theorem addba_accept_creates_session am mask p (w : W) req :
  priv_inv p -> 0 <= req_ssn req < MAX_TID_VALUE -> 2 <= RxReorder.rx_win_size p <= 63 ->
  arr_get (addba_reject p) (params_tid (req_param_set req)) = Ret 0 ->
  ampdu_rx_enable_per_tid_is_allowed mask (params_tid (req_param_set req)) = true ->
  wlan_11n_get_rxreorder_tbl p (params_tid (req_param_set req)) (req_peer req) = None ->
  exists cmd t, wlan_cmd_11n_addba_rspgen (MkAlloc true true true am) mask p w req =
      Ret (cmd, with_tables (rx_reorder_tbl_ptr p ++ [t]) p, w) /\
    status_code (hc_body cmd) = ADDBA_RSP_STATUS_ACCEPT /\
    params_tid (rsp_param_set (hc_body cmd)) = params_tid (req_param_set req) /\
    params_win (rsp_param_set (hc_body cmd)) = RxReorder.rx_win_size p /\
    tbl_key t = (params_tid (req_param_set req), req_peer req) /\
    win_size t = RxReorder.rx_win_size p /\ start_win t = req_ssn req /\ tbl_buffered t = [] /\
    priv_inv (with_tables (rx_reorder_tbl_ptr p ++ [t]) p).
Proof.
  intros Hp Hssn Hwin Hrej Hall Hnone. pose proof (params_fields p (req_param_set req)) as [Htid Hw].
  rewrite Z.mod_small in Hw by lia.
  unfold wlan_cmd_11n_addba_rspgen, addba_rsp. rewrite Hrej, bind_ret, Hall, Hw.
  destruct (Z.eqb_spec (RxReorder.rx_win_size p) 0); [lia |]. cbn [negb mbind outcome_bind].
  simpl status_code. unfold wlan_11n_create_rxreorder_tbl. simpl ae_node. rewrite Hnone. simpl negb. cbv iota.
  pose proof (get_rxreorder_tbl_None _ _ _ Hnone) as Hfresh.
  apply arr_get_ret in Hrej as [Htid0 Hrej]. pose proof (lookup_lt_Some _ _ _ Hrej) as Htid8.
  rewrite (pi_reject _ Hp) in Htid8.
  assert (Hlast : exists last, (if queuing_ra_based p then Ret 0
      else arr_get (rx_seq p) (params_tid (req_param_set req))) = Ret last /\
      (0 <= last < MAX_TID_VALUE \/ last = DEFAULT_SEQ_NUM)).
  { destruct (queuing_ra_based p); [exists 0; split; [done |]; left; unfold MAX_TID_VALUE; lia |].
    destruct (arr_get_total (rx_seq p) (params_tid (req_param_set req))) as (x & -> & Hx);
      [rewrite (pi_rx_seq _ Hp); lia |].
    exists x. split; [done |]. exact (Forall_lookup_1 _ _ _ _ (pi_rx_seq_ok _ Hp) Hx). }
  destruct Hlast as (last & -> & Hlast). rewrite Z.eqb_refl, bind_ret. simpl negb. cbv iota. rewrite bind_ret.
  eexists _, _. split; [reflexivity |]. split; [done |]. split; [exact Htid |]. split; [exact Hw |].
  split; [done |]. split; [done |]. split; [done |].
  assert (Hinv := empty_table_inv (params_tid (req_param_set req)) (req_peer req) (req_ssn req) last
    (RxReorder.rx_win_size p) true BA_STREAM_SETUP_INPROGRESS am true 0 Hwin Hssn Hlast).
  split.
  - unfold tbl_buffered. apply occupancy_zero_mbufs, occupancy_zero, Forall_replicate. done.
  - destruct Hp. split; simpl; try done; [by apply Forall_app_2, Forall_singleton |].
    rewrite fmap_app. apply list.NoDup_app. split; [done |]. split; [| apply NoDup_singleton].
    intros k Hk Hin. apply list_elem_of_singleton in Hin as ->. done.
Qed.

(** The per-TID reject table has eight entries, but the TID field of an
    ADDBA request has four bits: a request for TID 8..15 indexes past it. *)
Theorem addba_tid_indexes_past_reject_table ae mask p (w : W) req :
  length (addba_reject p) = 8%nat -> 8 <= params_tid (req_param_set req) ->
  wlan_cmd_11n_addba_rspgen ae mask p w req = Fault OutOfBounds.
Proof.
  intros Hl Ht. unfold wlan_cmd_11n_addba_rspgen, addba_rsp, arr_get.
  destruct (Z.ltb_spec (params_tid (req_param_set req)) 0); [lia |].
  by rewrite lookup_ge_None_2 by lia.
Qed.
End setup.

Definition ex_addba (tid_ : Z) : HostCmd_DS_11N_ADDBA_REQ :=
  MkAddbaReq 0 ex_peer 1 (Z.lor 0x1002 (Z.shiftl tid_ 2)) 0 100.

Lemma addba_accept_creates_session_witness :
  exists cmd t, wlan_cmd_11n_addba_rspgen (MkAlloc true true true 0) 0xff (ex_priv []) ex_world (ex_addba 5) =
      Ret (cmd, ex_priv [t], ex_world) /\ start_win t = 100 /\ win_size t = 32 /\ tid t = 5.
Proof.
  destruct (addba_accept_creates_session 0 0xff (ex_priv []) ex_world (ex_addba 5))
    as (cmd & t & E & _ & _ & _ & Hk & Hw & Hs & _).
  - apply ex_priv_inv; [constructor | apply NoDup_nil_2].
  - simpl. unfold MAX_TID_VALUE. lia.
  - simpl. lia.
  - reflexivity.
  - reflexivity.
  - reflexivity.
  - exists cmd, t. injection Hk as Hk _. split; [exact E |]. split; [exact Hs |]. split; [exact Hw | exact Hk].
Defined.

Lemma addba_tid_indexes_past_reject_table_witness :
  wlan_cmd_11n_addba_rspgen (MkAlloc true true true 0) 0xff (ex_priv []) ex_world (ex_addba 9) = Fault OutOfBounds.
Proof. apply addba_tid_indexes_past_reject_table; [reflexivity | vm_compute; discriminate]. Defined.

(** ** Window sizes the code does not expect *)
Section windows.
Context {W : Type} `{RxSinkLaws W}.

(** A session with a window of one packet overruns its slot array: its
    window end equals its start, so neither test that moves the window can
    succeed, and any other accepted packet is stored outside the array. *)
Theorem window_of_one_overruns t w seq ty p :
  win_size t = 1 -> length (RxTable.rx_reorder_ptr t) = 1%nat ->
  0 <= start_win t < MAX_TID_VALUE -> 0 <= seq < MAX_TID_VALUE -> seq <> start_win t ->
  ty <> PKT_TYPE_BAR -> check_start_win t = false ->
  ty <> PKT_TYPE_AMSDU \/ amsdu t <> 0 ->
  force_no_drop t = true \/ rxreorder_too_old t seq = false ->
  rxreorder_tbl_pkt t w seq ty p = Fault OutOfBounds.
Proof.
  intros Hw Hl Hs Hq Hne Hty Hc Ham Hold. unfold rxreorder_tbl_pkt.
  replace ((ty =? PKT_TYPE_AMSDU) && (amsdu t =? 0)) with false
    by (destruct (Z.eqb_spec ty PKT_TYPE_AMSDU), (Z.eqb_spec (amsdu t) 0); try done; by destruct Ham).
  unfold rxreorder_check_start. rewrite Hc, bind_ret. cbv iota beta.
  replace (negb (force_no_drop t) && rxreorder_too_old t seq) with false
    by (destruct Hold as [-> | ->]; [done | by destruct (force_no_drop t)]).
  set (t2 := if force_no_drop t then with_force_no_drop false t else t).
  assert (H2 : start_win t2 = start_win t /\ win_size t2 = win_size t /\
    RxTable.rx_reorder_ptr t2 = RxTable.rx_reorder_ptr t) by (unfold t2; by destruct (force_no_drop t)).
  destruct H2 as (Es & Ew & El). unfold rxreorder_place. rewrite Es, Ew, Hw, !u16_land_4095.
  apply Z.eqb_neq in Hty as ->.
  replace ((start_win t + 1 - 1) mod MAX_TID_VALUE) with (start_win t) by zmod.
  rewrite !Z.gtb_ltb, !Z.ltb_irrefl. simpl.
  unfold arr_get. rewrite El. destruct (_ <? 0); [done |].
  rewrite lookup_ge_None_2; [done |]. rewrite Hl.
  rewrite Z.geb_leb. destruct (Z.leb_spec (start_win t) seq); unfold MAX_TID_VALUE in *; lia.
Qed.

(** The occupancy bitmap has 64 bits and a shift of 64 is undefined: with
    a window of 64 or more, every move that flushes the whole window shifts by
    the window size. *)
Theorem window_of_64_shifts_too_wide t w new :
  64 <= win_size t < 65536 -> Z.of_nat (length (RxTable.rx_reorder_ptr t)) = win_size t ->
  Forall (fun o => match o with Some p => good_ptr p | None => True end) (RxTable.rx_reorder_ptr t) ->
  sink_inv w -> new <= start_win t ->
  wlan_11n_dispatch_pkt_until_start_win t w new = Fault ShiftTooWide.
Proof.
  intros Hwin Hlen Hg Hw Hn. unfold wlan_11n_dispatch_pkt_until_start_win.
  rewrite Z.gtb_ltb. destruct (Z.ltb_spec (start_win t) new); [lia |]. rewrite wrap_small by lia.
  set (l := RxTable.rx_reorder_ptr t) in *.
  destruct (dispatch_loop_spec [] l [] w Hg Hw) as (w' & E & _). simpl in E. rewrite !app_nil_r in E.
  change (Z.of_nat 0) with 0 in E. replace (Z.to_nat (win_size t)) with (length l) by lia.
  rewrite E, bind_ret, Z.sub_diag. change (u16 0) with 0. simpl. unfold shr64.
  destruct (Z.ltb_spec (win_size t) 64); [lia |]. by rewrite andb_false_r.
Qed.
End windows.

Lemma window_of_one_overruns_witness :
  rxreorder_tbl_pkt (ex_table 100 1) ex_world 101 2 (Mbuf (ex_buf 101)) = Fault OutOfBounds.
Proof.
  apply window_of_one_overruns; try reflexivity; try (vm_compute; split; [discriminate | reflexivity]);
    try discriminate; [left; discriminate | right; reflexivity].
Defined.

Lemma window_of_64_shifts_too_wide_witness :
  wlan_11n_dispatch_pkt_until_start_win (ex_table 100 64) ex_world 50 = Fault ShiftTooWide.
Proof.
  apply window_of_64_shifts_too_wide; [simpl; lia | reflexivity | by apply Forall_replicate | reflexivity | simpl; lia].
Defined.
