(* ===== verification/DhcpServer.v ===== *)
(** * The DHCP server

    Models [dhcpd/dhcp-server.c]: the cache of leases, the choice of the next
    address, the parsing of a request in the receive buffer and the response
    written over it.  32-bit fields are the values the little-endian processor
    loads, so an address in network order is byte-swapped by [ntohl]. *)
From S2P Require Import Prelude.

(** ** Constants and data *)
Definition SERVER_BUFFER_SIZE : Z := 1024.
Definition MAC_IP_CACHE_SIZE : Z := 8.
Definition CLIENT_IP_NOT_FOUND : Z := 0.
Definition BOOTP_OP_REQUEST : Z := 1.
Definition BOOTP_OP_RESPONSE : Z := 2.
Definition BOOTP_OPTION_SUBNET_MASK : Z := 1.
Definition BOOTP_OPTION_ROUTER : Z := 3.
Definition BOOTP_OPTION_NAMESERVER : Z := 6.
Definition BOOTP_OPTION_REQUESTED_IP : Z := 50.
Definition BOOTP_OPTION_ADDRESS_TIME : Z := 51.
Definition BOOTP_OPTION_DHCP_MESSAGE : Z := 53.
Definition BOOTP_OPTION_DHCP_SERVER_ID : Z := 54.
Definition BOOTP_END_OPTION : Z := 0xFF.
Definition sizeof_bootp_header : Z := 240.
Definition sizeof_bootp_option : Z := 2.

Inductive dhcp_message_type :=
  | DHCP_MESSAGE_DISCOVER | DHCP_MESSAGE_OFFER | DHCP_MESSAGE_REQUEST | DHCP_MESSAGE_DECLINE
  | DHCP_MESSAGE_ACK | DHCP_MESSAGE_NAK | DHCP_MESSAGE_RELEASE | DHCP_MESSAGE_INFORM | DHCP_NO_RESPONSE.
Definition message_code (m : dhcp_message_type) : Z :=
  match m with
  | DHCP_MESSAGE_DISCOVER => 1 | DHCP_MESSAGE_OFFER => 2 | DHCP_MESSAGE_REQUEST => 3
  | DHCP_MESSAGE_DECLINE => 4 | DHCP_MESSAGE_ACK => 5 | DHCP_MESSAGE_NAK => 6
  | DHCP_MESSAGE_RELEASE => 7 | DHCP_MESSAGE_INFORM => 8 | DHCP_NO_RESPONSE => 255
  end.
#[export] Instance dhcp_message_type_eq_dec : EqDecision dhcp_message_type.
Proof. solve_decision. Defined.

Inductive dhcp_status :=
  | WM_OK | WM_FAILED | EINVAL_ | DHCPD_INVALID_INPUT | DHCPD_INVALID_OPCODE | DHCPD_INCORRECT_HEADER
  | DHCPD_RESP_SEND.

Record client_mac_cache := MkLease { client_mac : list Z; client_ip_of : Z }.

(** [struct dhcp_server_data] without its sockets, and the two globals the
    responses use. *)
Record dhcp_server_data := MkDhcps {
  count_clients : Z;
  msg : list Z;                              (* char[SERVER_BUFFER_SIZE] *)
  ip_mac_mapping : list client_mac_cache;    (* [MAC_IP_CACHE_SIZE] *)
  netmask : Z;                               (* network order *)
  my_ip : Z;                                 (* network order *)
  client_ip : Z;                             (* network order *)
  current_ip : Z;                            (* host order *)
  dhcp_address_timeout : Z;
  dns_enabled : bool                         (* dhcp_dns_server_handler != NULL *)
}.

Definition set_cache (n : Z) (m : list client_mac_cache) (s : dhcp_server_data) : dhcp_server_data :=
  MkDhcps n (msg s) m (netmask s) (my_ip s) (client_ip s) (current_ip s) (dhcp_address_timeout s) (dns_enabled s).
Definition set_msg (m : list Z) (s : dhcp_server_data) : dhcp_server_data :=
  MkDhcps (count_clients s) m (ip_mac_mapping s) (netmask s) (my_ip s) (client_ip s) (current_ip s)
    (dhcp_address_timeout s) (dns_enabled s).
Definition set_client_ip (a : Z) (s : dhcp_server_data) : dhcp_server_data :=
  MkDhcps (count_clients s) (msg s) (ip_mac_mapping s) (netmask s) (my_ip s) a (current_ip s)
    (dhcp_address_timeout s) (dns_enabled s).
Definition set_current_ip (a : Z) (s : dhcp_server_data) : dhcp_server_data :=
  MkDhcps (count_clients s) (msg s) (ip_mac_mapping s) (netmask s) (my_ip s) (client_ip s) a
    (dhcp_address_timeout s) (dns_enabled s).

(** What the server sends: a response, and a gratuitous ARP for its address. *)
Inductive dhcp_event :=
  | Response (bytes : list Z)
  | GratuitousArp (ip : Z).

(** ** Byte order *)
Definition bswap32 (z : Z) : Z :=
  Z.lor (Z.lor (Z.shiftl (Z.land z 0xff) 24) (Z.shiftl (Z.land (Z.shiftr z 8) 0xff) 16))
        (Z.lor (Z.shiftl (Z.land (Z.shiftr z 16) 0xff) 8) (Z.land (Z.shiftr z 24) 0xff)).
Abbreviation ntohl := bswap32.
Abbreviation htonl := bswap32.
Definition not32 (z : Z) : Z := u32 (Z.lnot z).

Definition of_le32 (bs : list Z) : Z :=
  match bs with
  | [a; b; c; d] => a + 256 * b + 65536 * c + 16777216 * d
  | _ => 0
  end.
(** [write_u32]: the four bytes, least significant first. *)
Definition write_u32 (be_value : Z) : list Z :=
  [Z.land be_value 0xFF; Z.land (Z.shiftr be_value 8) 0xFF; Z.land (Z.shiftr be_value 16) 0xFF;
   u8 (Z.shiftr be_value 24)].

(** ** The lease cache *)
Definition ac_not_full (s : dhcp_server_data) : bool := count_clients s <? MAC_IP_CACHE_SIZE.

Definition ac_add (s : dhcp_server_data) (chaddr : list Z) (ip : Z) : outcome (dhcp_status * dhcp_server_data) :=
  if ac_not_full s then
    m ← arr_set (ip_mac_mapping s) (count_clients s) (MkLease chaddr ip);
    Ret (WM_OK, set_cache (count_clients s + 1) m s)
  else Ret (WM_FAILED, s).

(** The entries both lookup loops visit. *)
Definition leases (s : dhcp_server_data) : list client_mac_cache :=
  take (Z.to_nat (count_clients s)) (take (Z.to_nat MAC_IP_CACHE_SIZE) (ip_mac_mapping s)).

Fixpoint lookup_mac_loop (l : list client_mac_cache) (chaddr : list Z) : Z :=
  match l with
  | [] => CLIENT_IP_NOT_FOUND
  | e :: l' => if bool_decide (client_mac e = chaddr) then client_ip_of e else lookup_mac_loop l' chaddr
  end.
Definition ac_lookup_mac (s : dhcp_server_data) (chaddr : list Z) : Z := lookup_mac_loop (leases s) chaddr.

Fixpoint lookup_ip_loop (l : list client_mac_cache) (ip : Z) : option (list Z) :=
  match l with
  | [] => None
  | e :: l' => if client_ip_of e =? ip then Some (client_mac e) else lookup_ip_loop l' ip
  end.
Definition ac_lookup_ip (s : dhcp_server_data) (ip : Z) : option (list Z) := lookup_ip_loop (leases s) ip.

Definition ac_valid_ip (s : dhcp_server_data) (requested_ip : Z) : bool :=
  if (requested_ip =? ntohl (my_ip s)) || (requested_ip =? ntohl (Z.land (my_ip s) (netmask s)))
     || (requested_ip =? ntohl (Z.lor (my_ip s) (not32 (netmask s))))
  then false
  else match ac_lookup_ip s (htonl requested_ip) with Some _ => false | None => true end.

Definition dhcp_get_ip_from_mac (s : dhcp_server_data) (mac : list Z) : dhcp_status * Z :=
  let ip := ac_lookup_mac s mac in
  (if ip =? CLIENT_IP_NOT_FOUND then WM_FAILED else WM_OK, ip).

(** [dhcp_server_lease_timeout]: at most 49700 days. *)
Definition dhcp_server_lease_timeout (s : dhcp_server_data) (val : Z) : dhcp_status * dhcp_server_data :=
  if (val =? 0) || (val >? 60 * 60 * 24 * 49700) then (EINVAL_, s)
  else (WM_OK, MkDhcps (count_clients s) (msg s) (ip_mac_mapping s) (netmask s) (my_ip s) (client_ip s)
                 (current_ip s) val (dns_enabled s)).

(** ** The next address *)
Definition following_ip (s : dhcp_server_data) (ip : Z) : Z :=
  Z.lor (ntohl (Z.land (my_ip s) (netmask s))) (Z.land (u32 (ip + 1)) (ntohl (not32 (netmask s)))).

Fixpoint next_ip_loop (fuel : nat) (s : dhcp_server_data) (ip : Z) : outcome Z :=
  match fuel with
  | O => Fault OutOfFuel
  | S fuel' => if ac_valid_ip s ip then Ret ip else next_ip_loop fuel' s (following_ip s ip)
  end.

(** Eleven addresses at most are not available: the server's own, the
    network's, the broadcast address and eight leases. *)
Definition next_fuel : nat := 12.

Definition next_yiaddr (s : dhcp_server_data) (chaddr : list Z) : outcome (Z * dhcp_server_data) :=
  let new_ip := ac_lookup_mac s chaddr in
  if new_ip =? CLIENT_IP_NOT_FOUND then
    ip ← next_ip_loop next_fuel s (following_ip s (current_ip s));
    let s1 := set_current_ip ip s in
    '(_, s2) ← ac_add s1 chaddr (htonl ip);
    Ret (htonl ip, s2)
  else Ret (new_ip, s).

(** ** Responses *)
Definition dns_get_nameserver (s : dhcp_server_data) : Z := if dns_enabled s then my_ip s else 0.

(** An option written at [offset]; the next offset is returned. *)
Definition put_option (m : list Z) (offset type : Z) (value : list Z) : outcome (list Z * Z) :=
  m1 ← mem_write m offset ([type; Z.of_nat (length value)] ++ value);
  Ret (m1, offset + sizeof_bootp_option + Z.of_nat (length value)).

Definition make_response (s : dhcp_server_data) (type : dhcp_message_type) : outcome (Z * dhcp_server_data) :=
  m1 ← mem_write (msg s) 0 [BOOTP_OP_RESPONSE; 1; 6; 0];
  chaddr ← mem_read (msg s) 28 6;
  '(yiaddr, s1) ←
    (if decide (type = DHCP_MESSAGE_OFFER) then next_yiaddr s chaddr
     else Ret (if decide (type = DHCP_MESSAGE_ACK) then client_ip s else 0, s));
  (* ciaddr, yiaddr, siaddr, riaddr *)
  m2 ← mem_write m1 12 (write_u32 0 ++ write_u32 yiaddr ++ write_u32 0 ++ write_u32 0);
  '(m3, o3) ← put_option m2 sizeof_bootp_header BOOTP_OPTION_DHCP_MESSAGE [message_code type];
  if decide (type = DHCP_MESSAGE_NAK) then Ret (o3, set_msg m3 s1)
  else
    '(m4, o4) ← put_option m3 o3 BOOTP_OPTION_SUBNET_MASK (write_u32 (netmask s1));
    '(m5, o5) ← put_option m4 o4 BOOTP_OPTION_ADDRESS_TIME (write_u32 (htonl (dhcp_address_timeout s1)));
    '(m6, o6) ← put_option m5 o5 BOOTP_OPTION_DHCP_SERVER_ID (write_u32 (my_ip s1));
    '(m7, o7) ← put_option m6 o6 BOOTP_OPTION_ROUTER (write_u32 (my_ip s1));
    '(m8, o8) ← put_option m7 o7 BOOTP_OPTION_NAMESERVER (write_u32 (dns_get_nameserver s1));
    m9 ← mem_write m8 o8 [BOOTP_END_OPTION];
    Ret (o8 + 1, set_msg m9 s1).

(** [dhcp_send_response]; [sendto] gives the result of each call. *)
Fixpoint dhcp_send_response (fuel : nat) (sendto : nat -> Z) (calls : nat) (sent len : Z) : outcome dhcp_status :=
  if sent <? u32 len then
    match fuel with
    | O => Fault OutOfFuel
    | S fuel' =>
        let nb := sendto calls in
        if nb <? 0 then Ret DHCPD_RESP_SEND
        else dhcp_send_response fuel' sendto (S calls) (u32 (sent + nb)) len
    end
  else Ret WM_OK.

(** ** Requests *)

(** The local variables of the option loop. *)
Record parse_state := MkParse {
  ps_server : dhcp_server_data;
  response_type : dhcp_message_type;
  got_ip : bool;
  need_ip : bool;
  got_client_ip : bool
}.

(** The check of a requested address, run after each option once an address
    has been named. *)
Definition check_requested (s : dhcp_server_data) (chaddr : list Z) (got : bool) : outcome (bool * dhcp_server_data) :=
  if Z.land (client_ip s) (netmask s) =? Z.land (my_ip s) (netmask s) then
    let new_ip := ac_lookup_mac s chaddr in
    if negb (new_ip =? CLIENT_IP_NOT_FOUND) then Ret (new_ip =? client_ip s, s)
    else if ac_valid_ip s (ntohl (client_ip s)) then
      if ac_not_full s then '(_, s1) ← ac_add s chaddr (client_ip s); Ret (true, s1)
      else Ret (true, s)
    else Ret (got, s)
  else Ret (got, s).

(** One option at [pos]. *)
Definition parse_option (chaddr : list Z) (ciaddr type len : Z) (pos : Z) (p : parse_state) : outcome parse_state :=
  p1 ← (if (type =? BOOTP_OPTION_DHCP_MESSAGE) && (len =? 1) then
          v ← arr_get (msg (ps_server p)) (pos + 2);
          Ret (if v =? message_code DHCP_MESSAGE_DISCOVER then
                 MkParse (ps_server p) DHCP_MESSAGE_OFFER (got_ip p) (need_ip p) (got_client_ip p)
               else if v =? message_code DHCP_MESSAGE_REQUEST then
                 if negb (ciaddr =? 0) then
                   MkParse (set_client_ip ciaddr (ps_server p)) (response_type p) (got_ip p) true true
                 else MkParse (ps_server p) (response_type p) (got_ip p) true (got_client_ip p)
               else p)
        else Ret p);
  p2 ← (if (type =? BOOTP_OPTION_REQUESTED_IP) && (len =? 4) then
          bs ← mem_read (msg (ps_server p1)) (pos + 2) 4;
          Ret (MkParse (set_client_ip (of_le32 bs) (ps_server p1)) (response_type p1) (got_ip p1) (need_ip p1) true)
        else Ret p1);
  r ← (if got_client_ip p2 then check_requested (ps_server p2) chaddr (got_ip p2)
       else Ret (got_ip p2, ps_server p2));
  let got : bool := fst r in
  Ret (MkParse (snd r)
         (if need_ip p2 then (if got then DHCP_MESSAGE_ACK else DHCP_MESSAGE_NAK) else response_type p2)
         got (need_ip p2) (got_client_ip p2)).

Fixpoint options_loop (fuel : nat) (chaddr : list Z) (ciaddr pos len : Z) (p : parse_state) : outcome parse_state :=
  if 0 <? len then
    type ← arr_get (msg (ps_server p)) pos;
    if type =? BOOTP_END_OPTION then Ret p
    else
      match fuel with
      | O => Fault OutOfFuel
      | S fuel' =>
          olen ← arr_get (msg (ps_server p)) (pos + 1);
          p1 ← parse_option chaddr ciaddr type olen pos p;
          let consumed := sizeof_bootp_option + olen in
          options_loop fuel' chaddr ciaddr (pos + consumed) (len - consumed) p1
      end
  else Ret p.

(** [process_dhcp_message] on the [len] bytes received into [dhcps.msg]. *)
Definition process_dhcp_message (s : dhcp_server_data) (len : Z) :
    outcome (dhcp_status * dhcp_server_data * list dhcp_event) :=
  if u32 len <? sizeof_bootp_header + sizeof_bootp_option + 1 then Ret (DHCPD_INVALID_INPUT, s, [])
  else
    op ← arr_get (msg s) 0;
    if negb (op =? BOOTP_OP_REQUEST) && negb (op =? BOOTP_OP_RESPONSE) then Ret (DHCPD_INVALID_OPCODE, s, [])
    else
      htype ← arr_get (msg s) 1;
      hlen ← arr_get (msg s) 2;
      if negb (htype =? 1) || negb (hlen =? 6) then Ret (DHCPD_INCORRECT_HEADER, s, [])
      else
        ci ← mem_read (msg s) 12 4;
        chaddr ← mem_read (msg s) 28 6;
        p ← options_loop (Z.to_nat len) chaddr (of_le32 ci) sizeof_bootp_header (len - sizeof_bootp_header)
              (MkParse s DHCP_NO_RESPONSE false false false);
        if decide (response_type p = DHCP_NO_RESPONSE) then Ret (WM_OK, ps_server p, [])
        else
          '(n, s1) ← make_response (ps_server p) (response_type p);
          Ret (WM_OK, s1,
               [Response (take (Z.to_nat n) (msg s1))] ++
               (if decide (response_type p = DHCP_MESSAGE_ACK) then [GratuitousArp (my_ip s1)] else [])).

(** A datagram arrives: at most the buffer's size is copied to its start. *)
Definition dhcp_receive (s : dhcp_server_data) (datagram : list Z) :
    outcome (dhcp_status * dhcp_server_data * list dhcp_event) :=
  let d := take (Z.to_nat SERVER_BUFFER_SIZE) datagram in
  m ← mem_write (msg s) 0 d;
  if 0 <? Z.of_nat (length d) then process_dhcp_message (set_msg m s) (Z.of_nat (length d))
  else Ret (WM_OK, s, []).
