(* ===== verification/DhcpProps.v ===== *)
(** * Properties of the DHCP server

    The lease invariant and its preservation, the choice of addresses, the
    layout of responses, and the requests the server answers wrongly. *)
From S2P Require Import Prelude DhcpServer.

(** ** Byte swapping *)

(** Evaluate the comparisons that the context decides. *)
Ltac zcases :=
  repeat match goal with
  | |- context [?a <? ?b] =>
      first [ rewrite (proj2 (Z.ltb_lt a b)) by lia | rewrite (proj2 (Z.ltb_ge a b)) by lia ]
  | |- context [?a <=? ?b] =>
      first [ rewrite (proj2 (Z.leb_le a b)) by lia | rewrite (proj2 (Z.leb_gt a b)) by lia ]
  end; simpl.

Lemma byte_bits z k j n : 0 <= k -> 0 <= j -> 0 <= n ->
  Z.testbit (Z.shiftl (Z.land (Z.shiftr z k) 0xff) j) n = (j <=? n) && (n <? j + 8) && Z.testbit z (n - j + k).
Proof.
  intros. change 0xff with (Z.ones 8). rewrite Z.shiftl_spec by lia.
  destruct (Z.leb_spec j n); simpl; [| by rewrite Z.testbit_neg_r by lia].
  rewrite Z.land_spec, Z.shiftr_spec by lia.
  destruct (Z.ltb_spec n (j + 8)); simpl.
  - by rewrite Z.ones_spec_low, andb_true_r by lia.
  - by rewrite Z.ones_spec_high, andb_false_r by lia.
Qed.

(** Where bit [n] of a swapped word comes from. *)
Definition swap_bit (n : Z) : Z := if n <? 8 then n + 24 else if n <? 16 then n + 8 else if n <? 24 then n - 8 else n - 24.

Lemma bswap32_bits z n : 0 <= n -> Z.testbit (bswap32 z) n = (n <? 32) && Z.testbit z (swap_bit n).
Proof.
  intros Hn. unfold bswap32, swap_bit.
  rewrite <- (Z.shiftr_0_r z) at 1. rewrite <- (Z.shiftl_0_r (Z.land (Z.shiftr z 24) 0xff)).
  rewrite !Z.lor_spec, !byte_bits by lia.
  assert (n < 8 \/ 8 <= n < 16 \/ 16 <= n < 24 \/ 24 <= n < 32 \/ 32 <= n) as Hc by lia.
  change (0 + 8) with 8. change (8 + 8) with 16. change (16 + 8) with 24. change (24 + 8) with 32.
  destruct Hc as [Hc | [Hc | [Hc | [Hc | Hc]]]]; zcases; rewrite ?orb_false_r, ?orb_false_l; try done; f_equal; lia.
Qed.

Lemma bits_range z w : 0 <= w -> (forall n, w <= n -> Z.testbit z n = false) -> 0 <= z < 2 ^ w.
Proof.
  intros Hw Hb. replace z with (z mod 2 ^ w); [apply Z.mod_pos_bound, Z.pow_pos_nonneg; lia |].
  apply Z.bits_inj'. intros n Hn. destruct (Z.ltb_spec n w).
  - by apply Z.mod_pow2_bits_low.
  - by rewrite Z.mod_pow2_bits_high, Hb by lia.
Qed.

Lemma range_bits z w n : 0 <= z < 2 ^ w -> w <= n -> Z.testbit z n = false.
Proof.
  intros Hz Hn. assert (0 <= w) by (destruct (Z.leb_spec 0 w); [done | rewrite Z.pow_neg_r in Hz; lia]).
  rewrite <- (Z.mod_small z (2 ^ w)) by done. apply Z.mod_pow2_bits_high. lia.
Qed.

Lemma bswap32_range z : 0 <= bswap32 z < 2 ^ 32.
Proof.
  apply bits_range; [lia |]. intros n Hn. rewrite bswap32_bits by lia.
  by destruct (Z.ltb_spec n 32); [lia |].
Qed.

Lemma swap_bit_swap n : 0 <= n < 32 -> 0 <= swap_bit n < 32 /\ swap_bit (swap_bit n) = n.
Proof.
  intros Hn. unfold swap_bit.
  destruct (Z.ltb_spec n 8), (Z.ltb_spec n 16), (Z.ltb_spec n 24); zbool; lia.
Qed.

Lemma bswap32_involutive z : 0 <= z < 2 ^ 32 -> bswap32 (bswap32 z) = z.
Proof.
  intros Hz. apply Z.bits_inj'. intros n Hn. rewrite bswap32_bits by done.
  destruct (Z.ltb_spec n 32); simpl; [| by rewrite (range_bits z 32)].
  destruct (swap_bit_swap n) as [Hr Hs]; [lia |]. rewrite bswap32_bits, Hs by lia.
  by destruct (Z.ltb_spec (swap_bit n) 32); [| lia].
Qed.

Lemma bswap32_inj a b : 0 <= a < 2 ^ 32 -> 0 <= b < 2 ^ 32 -> bswap32 a = bswap32 b -> a = b.
Proof. intros Ha Hb E. by rewrite <- (bswap32_involutive a), <- (bswap32_involutive b), E. Qed.

Lemma bswap32_land a b : bswap32 (Z.land a b) = Z.land (bswap32 a) (bswap32 b).
Proof.
  apply Z.bits_inj'. intros n Hn. rewrite Z.land_spec, !bswap32_bits, Z.land_spec by done.
  by destruct (n <? 32).
Qed.

Lemma bswap32_lor a b : bswap32 (Z.lor a b) = Z.lor (bswap32 a) (bswap32 b).
Proof.
  apply Z.bits_inj'. intros n Hn. rewrite Z.lor_spec, !bswap32_bits, Z.lor_spec by done.
  by destruct (n <? 32).
Qed.

Lemma not32_value z : 0 <= z < 2 ^ 32 -> not32 z = 2 ^ 32 - 1 - z.
Proof.
  intros Hz. unfold not32, wrap, Z.lnot. symmetry. apply (Z.mod_unique_pos _ _ (-1)); lia.
Qed.

Lemma bswap32_not z : bswap32 (not32 z) = not32 (bswap32 z).
Proof.
  apply Z.bits_inj'. intros n Hn. unfold not32, wrap. rewrite bswap32_bits by done.
  destruct (Z.ltb_spec n 32); simpl; [| by rewrite Z.mod_pow2_bits_high by lia].
  destruct (swap_bit_swap n) as [Hr _]; [lia |].
  rewrite !Z.mod_pow2_bits_low, !Z.lnot_spec, bswap32_bits by lia. by destruct (Z.ltb_spec n 32); [| lia].
Qed.

(** ** Prefixes *)
Lemma land_prefix x k : 0 <= x < 2 ^ 32 -> 0 <= k <= 32 -> Z.land x (2 ^ 32 - 2 ^ k) = x / 2 ^ k * 2 ^ k.
Proof.
  intros Hx Hk. replace (2 ^ 32 - 2 ^ k) with (Z.shiftl (Z.ones (32 - k)) k).
  2:{ rewrite Z.shiftl_mul_pow2, Z.ones_equiv by lia. replace (2 ^ 32) with (2 ^ (32 - k) * 2 ^ k).
      - lia.
      - rewrite <- Z.pow_add_r by lia. f_equal. lia. }
  rewrite <- Z.shiftr_div_pow2, <- Z.shiftl_mul_pow2 by lia.
  apply Z.bits_inj'. intros n Hn. rewrite Z.land_spec, !Z.shiftl_spec by lia.
  destruct (Z.ltb_spec n k).
  - by rewrite !(Z.testbit_neg_r _ (n - k)), andb_false_r by lia.
  - rewrite Z.shiftr_spec by lia. replace (n - k + k) with n by lia.
    destruct (Z.ltb_spec n 32).
    + by rewrite Z.ones_spec_low, andb_true_r by lia.
    + by rewrite (range_bits x 32) by lia.
Qed.

Lemma lor_disjoint a b k : 0 <= k -> 0 <= b < 2 ^ k -> Z.lor (a * 2 ^ k) b = a * 2 ^ k + b.
Proof.
  intros Hk Hb. rewrite <- Z.lxor_lor, <- Z.add_nocarry_lxor; [done | |];
    apply Z.bits_inj'; intros n Hn; rewrite Z.land_spec, <- Z.shiftl_mul_pow2, Z.shiftl_spec, Z.testbit_0_l by lia;
    (destruct (Z.ltb_spec n k); [by rewrite (Z.testbit_neg_r _ (n - k)) by lia | by rewrite (range_bits b k), andb_false_r by lia]).
Qed.

Lemma div_mod_split x k : 0 <= k -> x = x / 2 ^ k * 2 ^ k + x mod 2 ^ k.
Proof. intros. pose proof (Z.div_mod x (2 ^ k) ltac:(apply Z.pow_nonzero; lia)). lia. Qed.

(** ** The subnet, in host order *)
Definition hmy (s : dhcp_server_data) : Z := bswap32 (my_ip s).
Definition subnet_of (k a : Z) : Z := a / 2 ^ k.
Definition net_addr (k : Z) (s : dhcp_server_data) : Z := hmy s / 2 ^ k * 2 ^ k.
Definition bcast_addr (k : Z) (s : dhcp_server_data) : Z := net_addr k s + (2 ^ k - 1).

(** An address the server may hand out. *)
Definition assignable (k : Z) (s : dhcp_server_data) (a : Z) : Prop :=
  0 <= a < 2 ^ 32 /\ subnet_of k a = subnet_of k (hmy s) /\
  a <> hmy s /\ a <> net_addr k s /\ a <> bcast_addr k s.

(** A server on a subnet with [k] host bits, and a consistent lease cache. *)
Record dhcp_ok (k : Z) (s : dhcp_server_data) : Prop := {
  dk_bits : 4 <= k < 32;
  dk_mask : netmask s = bswap32 (2 ^ 32 - 2 ^ k);
  dk_my : 0 <= my_ip s < 2 ^ 32;
  dk_net : net_addr k s <> 0;
  dk_len : length (ip_mac_mapping s) = 8%nat;
  dk_count : 0 <= count_clients s <= 8;
  dk_msg : length (msg s) = 1024%nat;
  dk_bytes : bytes (msg s);
  dk_client : 0 <= client_ip s < 2 ^ 32;
  dk_lease : Forall (fun e => 0 <= client_ip_of e < 2 ^ 32 /\ assignable k s (bswap32 (client_ip_of e))) (leases s);
  dk_macs : NoDup (client_mac <$> leases s);
  dk_ips : NoDup (client_ip_of <$> leases s)
}.

Section subnet.
Variables (k : Z) (s : dhcp_server_data).
Hypothesis Hs : dhcp_ok k s.

Lemma pow2k : 16 <= 2 ^ k < 2 ^ 32.
Proof using Hs.
  destruct Hs. split; [change 16 with (2 ^ 4); apply Z.pow_le_mono_r; lia | apply Z.pow_lt_mono_r; lia].
Qed.

Lemma hmy_range : 0 <= hmy s < 2 ^ 32.
Proof using. apply bswap32_range. Qed.

Lemma ntohl_mask : bswap32 (netmask s) = 2 ^ 32 - 2 ^ k.
Proof using Hs. destruct Hs. rewrite dk_mask0. apply bswap32_involutive. pose proof pow2k. lia. Qed.

Lemma ntohl_network : ntohl (Z.land (my_ip s) (netmask s)) = net_addr k s.
Proof using Hs.
  rewrite bswap32_land, ntohl_mask. apply land_prefix; [apply hmy_range |]. destruct Hs. lia.
Qed.

Lemma ntohl_hostmask : ntohl (not32 (netmask s)) = 2 ^ k - 1.
Proof using Hs. rewrite bswap32_not, ntohl_mask, not32_value; pose proof pow2k; lia. Qed.

Lemma ntohl_broadcast : ntohl (Z.lor (my_ip s) (not32 (netmask s))) = bcast_addr k s.
Proof using Hs.
  pose proof pow2k. destruct Hs as [Hk].
  rewrite bswap32_lor, ntohl_hostmask. fold (hmy s). unfold bcast_addr, net_addr.
  rewrite <- lor_disjoint by lia. rewrite (div_mod_split (hmy s) k) at 1 by lia.
  assert (Hm : 0 <= hmy s mod 2 ^ k < 2 ^ k) by (apply Z.mod_pos_bound; lia).
  rewrite <- (lor_disjoint _ (hmy s mod 2 ^ k) k), <- Z.lor_assoc by lia. f_equal.
  replace (2 ^ k - 1) with (Z.ones k) by (rewrite Z.ones_equiv; lia).
  apply Z.bits_inj'. intros n Hn. rewrite Z.lor_spec.
  destruct (Z.ltb_spec n k).
  - by rewrite Z.ones_spec_low, orb_true_r by lia.
  - rewrite (range_bits (hmy s mod 2 ^ k) k) by lia. by rewrite Z.ones_spec_high by lia.
Qed.

(** Stepping through the subnet. *)
Lemma following_ip_value ip : following_ip s ip = net_addr k s + (ip + 1) mod 2 ^ k.
Proof using Hs.
  pose proof pow2k. pose proof (dk_bits _ _ Hs) as Hk. unfold following_ip. rewrite ntohl_network, ntohl_hostmask, land_ones_mod by lia.
  replace (u32 (ip + 1) mod 2 ^ k) with ((ip + 1) mod 2 ^ k).
  - apply lor_disjoint; [lia | apply Z.mod_pos_bound; lia].
  - unfold wrap. replace (2 ^ 32) with (2 ^ k * 2 ^ (32 - k)) by (rewrite <- Z.pow_add_r by lia; f_equal; lia).
    rewrite Z.rem_mul_r by (apply Z.pow_nonzero || apply Z.pow_pos_nonneg; lia).
    by rewrite (Z.mul_comm (2 ^ k)), Z.mod_add, Z.mod_mod by lia.
Qed.

Lemma following_ip_iter n ip :
  Nat.iter n (following_ip s) (following_ip s ip) = net_addr k s + (ip + 1 + Z.of_nat n) mod 2 ^ k.
Proof using Hs.
  pose proof pow2k. induction n as [| n IH]; simpl Nat.iter; [rewrite following_ip_value; do 2 f_equal; lia |].
  rewrite IH, following_ip_value. f_equal. unfold net_addr.
  rewrite <- Z.add_assoc, Z.add_comm, Z.mod_add by lia.
  rewrite Z.add_mod_idemp_l by lia. f_equal. lia.
Qed.

Lemma net_plus_assign x : 0 <= x < 2 ^ k -> 0 <= net_addr k s + x < 2 ^ 32 /\ subnet_of k (net_addr k s + x) = subnet_of k (hmy s).
Proof using Hs.
  intros Hx. pose proof pow2k. pose proof hmy_range. pose proof (dk_bits _ _ Hs) as Hk. unfold net_addr, subnet_of.
  assert (Hd : 0 <= hmy s / 2 ^ k) by (apply Z.div_pos; lia).
  assert (He : (hmy s / 2 ^ k * 2 ^ k + x) / 2 ^ k = hmy s / 2 ^ k)
    by (rewrite Z.add_comm, Z.div_add, Z.div_small by lia; lia).
  split; [| done]. split; [nia |].
  assert (Hlt : hmy s / 2 ^ k < 2 ^ (32 - k)).
  { apply Z.div_lt_upper_bound; [lia |]. rewrite <- Z.pow_add_r by lia. replace (k + (32 - k)) with 32 by lia. lia. }
  replace (2 ^ 32) with (2 ^ (32 - k) * 2 ^ k) by (rewrite <- Z.pow_add_r by lia; f_equal; lia). nia.
Qed.

Lemma lookup_ip_None l ip : lookup_ip_loop l ip = None <-> ip ∉ client_ip_of <$> l.
Proof using.
  induction l as [| e l IH]; simpl; [split; [intros _; apply not_elem_of_nil | done] |].
  rewrite not_elem_of_cons. destruct (Z.eqb_spec (client_ip_of e) ip) as [He | He].
  - split; [done | intros [Hn _]; by destruct Hn].
  - rewrite IH. split; [intros; split; [lia | done] | by intros [_ ?]].
Qed.

Lemma lookup_mac_found l mac : lookup_mac_loop l mac <> 0 ->
  exists e, e ∈ l /\ client_mac e = mac /\ client_ip_of e = lookup_mac_loop l mac.
Proof using.
  induction l as [| e l IH]; simpl; [done |]. case_bool_decide as Hm.
  - exists e. split; [left | done].
  - intros (e' & ? & ?)%IH. exists e'. split; [by right | done].
Qed.

Lemma lookup_mac_zero l mac : Forall (fun e => client_ip_of e <> 0) l -> lookup_mac_loop l mac = 0 -> mac ∉ client_mac <$> l.
Proof using.
  induction 1 as [| e l He _ IH]; simpl; [intros _; apply not_elem_of_nil |]. case_bool_decide as Hm; [done |].
  intros Hz. rewrite not_elem_of_cons. split; [congruence | by apply IH].
Qed.

Lemma valid_ip_spec ip : 0 <= ip < 2 ^ 32 ->
  ac_valid_ip s ip = true <->
    ip <> hmy s /\ ip <> net_addr k s /\ ip <> bcast_addr k s /\ bswap32 ip ∉ client_ip_of <$> leases s.
Proof using Hs.
  intros Hip. unfold ac_valid_ip. rewrite ntohl_network, ntohl_broadcast. fold (hmy s).
  rewrite <- lookup_ip_None. unfold ac_lookup_ip.
  destruct (Z.eqb_spec ip (hmy s)), (Z.eqb_spec ip (net_addr k s)), (Z.eqb_spec ip (bcast_addr k s)); simpl;
    try (split; [done | by intros (? & ? & ? & _)]).
  destruct (lookup_ip_loop _ _); split; [done | by intros (_ & _ & _ & ?) | done | done].
Qed.
End subnet.

(** ** The lease cache *)
Lemma leases_length k s : dhcp_ok k s -> Z.of_nat (length (leases s)) = count_clients s.
Proof.
  intros []. unfold leases. rewrite !length_take, dk_len0. change (Z.to_nat MAC_IP_CACHE_SIZE) with 8%nat. lia.
Qed.

Lemma leases_eq k s : dhcp_ok k s -> leases s = take (Z.to_nat (count_clients s)) (ip_mac_mapping s).
Proof.
  intros []. unfold leases. change (Z.to_nat MAC_IP_CACHE_SIZE) with 8%nat. by rewrite (take_ge _ 8) by lia.
Qed.

Lemma lease_nonzero k s : dhcp_ok k s -> Forall (fun e => client_ip_of e <> 0) (leases s).
Proof.
  intros Hs. eapply Forall_impl; [| exact (dk_lease _ _ Hs)]. intros e (_ & (_ & He & _)) Hz. simpl in *.
  rewrite Hz in He. change (bswap32 0) with 0 in He. unfold subnet_of in He.
  pose proof (pow2k k s Hs). rewrite Z.div_0_l in He by lia. apply (dk_net _ _ Hs). unfold net_addr. lia.
Qed.

(** A client without a lease gets a new one, if there is room. *)
Lemma add_lease k s mac ip :
  dhcp_ok k s -> ac_lookup_mac s mac = 0 -> 0 <= ip < 2 ^ 32 -> assignable k s (bswap32 ip) ->
  ip ∉ client_ip_of <$> leases s ->
  exists st s', ac_add s mac ip = Ret (st, s') /\ dhcp_ok k s' /\
    (if ac_not_full s then leases s' = leases s ++ [MkLease mac ip] else s' = s) /\
    my_ip s' = my_ip s /\ msg s' = msg s /\ client_ip s' = client_ip s.
Proof.
  intros Hs Hmac Hip Ha Hfresh. unfold ac_add.
  destruct (ac_not_full s) eqn:Hroom; [| by exists WM_FAILED, s].
  unfold ac_not_full in Hroom. apply Z.ltb_lt in Hroom. unfold MAC_IP_CACHE_SIZE in Hroom.
  pose proof (dk_count _ _ Hs). pose proof (dk_len _ _ Hs).
  rewrite arr_set_ret, bind_ret by lia. eexists WM_OK, _. split; [reflexivity |].
  set (s' := set_cache _ _ _).
  assert (Hl : leases s' = leases s ++ [MkLease mac ip]).
  { rewrite (leases_eq k s Hs). unfold leases, s'. simpl. change (Z.to_nat MAC_IP_CACHE_SIZE) with 8%nat.
    rewrite (take_ge _ 8) by (rewrite length_insert; lia).
    replace (Z.to_nat (count_clients s + 1)) with (S (Z.to_nat (count_clients s))) by lia.
    rewrite (take_S_r _ _ (MkLease mac ip)) by (apply list_lookup_insert_eq; lia).
    by rewrite take_insert_ge by lia. }
  split; [| split; [exact Hl | done]].
  pose proof (lookup_mac_zero _ _ (lease_nonzero k s Hs) Hmac) as Hm.
  destruct Hs. split; simpl; try done; [by rewrite length_insert | lia | | |].
  - rewrite Hl. apply Forall_app_2; [done |]. apply Forall_singleton. done.
  - rewrite Hl, fmap_app. apply list.NoDup_app. split; [done |]. split; [| apply NoDup_singleton].
    intros x Hx Hin. apply list_elem_of_singleton in Hin as ->. done.
  - rewrite Hl, fmap_app. apply list.NoDup_app. split; [done |]. split; [| apply NoDup_singleton].
    intros x Hx Hin. apply list_elem_of_singleton in Hin as ->. done.
Qed.

(** ** Choosing an address *)
Lemma next_ip_loop_fails s n : forall ip, (forall f, next_ip_loop n s ip <> Fault f) \/
  (next_ip_loop n s ip = Fault OutOfFuel /\ forall i, (i < n)%nat -> ac_valid_ip s (Nat.iter i (following_ip s) ip) = false).
Proof.
  induction n as [| n IH]; intros ip; simpl; [right; split; [done | lia] |].
  destruct (ac_valid_ip s ip) eqn:Ev; [by left |].
  destruct (IH (following_ip s ip)) as [Hok | [Hf Hall]]; [by left |]. right. split; [done |].
  intros [| i] Hi; [done |]. rewrite Nat.iter_succ_r. apply Hall. lia.
Qed.

Lemma next_ip_loop_sound s n : forall ip ip', next_ip_loop n s ip = Ret ip' ->
  ac_valid_ip s ip' = true /\ exists i, ip' = Nat.iter i (following_ip s) ip.
Proof.
  induction n as [| n IH]; intros ip ip' E; simpl in E; [done |].
  destruct (ac_valid_ip s ip) eqn:Ev; [injection E as <-; split; [done | by exists 0%nat] |].
  destruct (IH _ _ E) as (Hv & i & Hi). split; [done |]. exists (S i). by rewrite Nat.iter_succ_r.
Qed.

Lemma mod_add_inj p c x y : 16 <= p -> 0 <= x < 12 -> 0 <= y < 12 -> (c + x) mod p = (c + y) mod p -> x = y.
Proof.
  intros Hp Hx Hy E. pose proof (Z.div_mod (c + x) p ltac:(lia)). pose proof (Z.div_mod (c + y) p ltac:(lia)).
  set (qx := (c + x) / p) in *. set (qy := (c + y) / p) in *.
  assert (x - y = p * (qx - qy)) by lia. assert (qx - qy = 0) by nia. nia.
Qed.

(** Eleven addresses can be unavailable, so one of twelve is not. *)
Lemma next_ip_found k s ip : dhcp_ok k s ->
  exists ip', next_ip_loop next_fuel s (following_ip s ip) = Ret ip' /\ assignable k s ip' /\
    bswap32 ip' ∉ client_ip_of <$> leases s.
Proof.
  intros Hs. pose proof (pow2k k s Hs) as Hp.
  assert (Hin : forall i, let a := Nat.iter i (following_ip s) (following_ip s ip) in
    0 <= a < 2 ^ 32 /\ subnet_of k a = subnet_of k (hmy s)).
  { intros i. rewrite (following_ip_iter k s Hs). apply net_plus_assign; [done |]. apply Z.mod_pos_bound. lia. }
  destruct (next_ip_loop_fails s next_fuel (following_ip s ip)) as [Hok | [_ Hall]].
  - destruct (next_ip_loop next_fuel s (following_ip s ip)) as [ip' | f] eqn:E; [| by destruct (Hok f)].
    exists ip'. split; [done |]. destruct (next_ip_loop_sound _ _ _ _ E) as (Hv & i & ->).
    destruct (Hin i) as [Hr Hsub]. apply (valid_ip_spec k s Hs _ Hr) in Hv as (? & ? & ? & ?). by split.
  - exfalso.
    set (cands := (fun i => Nat.iter i (following_ip s) (following_ip s ip)) <$> seq 0 next_fuel).
    set (taken := [hmy s; net_addr k s; bcast_addr k s] ++ (bswap32 <$> (client_ip_of <$> leases s))).
    assert (Hnd : NoDup cands).
    { apply NoDup_fmap_2_strong; [| apply NoDup_seq]. intros x y Hx%elem_of_seq Hy%elem_of_seq.
      rewrite !(following_ip_iter k s Hs). intros E. apply Z.add_cancel_l in E. unfold next_fuel in *.
      apply Nat2Z.inj, (mod_add_inj (2 ^ k) (ip + 1)); [lia | lia | lia | done]. }
    assert (Hsub : forall a, a ∈ cands -> a ∈ taken).
    { intros a (i & -> & Hi%elem_of_seq)%list_elem_of_fmap.
      destruct (Hin i) as [Hr _]. assert (Hi' : (i < next_fuel)%nat) by (destruct Hi; done).
      pose proof (Hall i Hi') as Hv. apply not_true_iff_false in Hv.
      rewrite (valid_ip_spec k s Hs _ Hr) in Hv. unfold taken.
      set (a := Nat.iter i _ _) in *.
      destruct (decide (a = hmy s)) as [-> | ]; [left |].
      destruct (decide (a = net_addr k s)) as [-> | ]; [right; left |].
      destruct (decide (a = bcast_addr k s)) as [-> | ]; [right; right; left |].
      apply elem_of_app. right. apply list_elem_of_fmap. exists (bswap32 a).
      split; [by rewrite bswap32_involutive |]. destruct (decide (bswap32 a ∈ client_ip_of <$> leases s)); [done | tauto]. }
    pose proof (submseteq_length _ _ (NoDup_submseteq _ _ Hnd Hsub)) as Hlen.
    unfold cands, taken in Hlen. rewrite length_app, !length_fmap, length_seq in Hlen. simpl in Hlen.
    pose proof (leases_length k s Hs). pose proof (dk_count _ _ Hs). unfold next_fuel in Hlen. lia.
Qed.

Lemma dhcp_ok_current k s a : dhcp_ok k s -> dhcp_ok k (set_current_ip a s).
Proof. intros []. by split. Qed.
Lemma dhcp_ok_client k s a : dhcp_ok k s -> 0 <= a < 2 ^ 32 -> dhcp_ok k (set_client_ip a s).
Proof. intros [] Ha. by split. Qed.
Lemma dhcp_ok_msg k s m : dhcp_ok k s -> length m = 1024%nat -> bytes m -> dhcp_ok k (set_msg m s).
Proof. intros [] Hl Hb. by split. Qed.

(** Leases are only ever added. *)
Definition extends (s s' : dhcp_server_data) : Prop :=
  my_ip s' = my_ip s /\ netmask s' = netmask s /\ exists new, leases s' = leases s ++ new.

Lemma extends_refl s : extends s s.
Proof. split; [done |]. split; [done |]. exists []. by rewrite app_nil_r. Qed.

Lemma extends_trans a b c : extends a b -> extends b c -> extends a c.
Proof.
  intros (? & ? & n1 & E1) (? & ? & n2 & E2). split; [congruence |]. split; [congruence |].
  exists (n1 ++ n2). by rewrite E2, E1, <- (assoc_L (++)).
Qed.

(** The address chosen for a client: its lease, or a fresh one that is
    recorded while there is room. *)
Lemma next_yiaddr_spec k s mac : dhcp_ok k s ->
  exists a s', next_yiaddr s mac = Ret (a, s') /\ dhcp_ok k s' /\ extends s s' /\ msg s' = msg s /\
    0 <= a < 2 ^ 32 /\ assignable k s (bswap32 a) /\
    (if ac_lookup_mac s mac =? 0
     then (a ∉ client_ip_of <$> leases s) /\
       (if ac_not_full s then leases s' = leases s ++ [MkLease mac a] else leases s' = leases s)
     else a = ac_lookup_mac s mac /\ s' = s).
Proof.
  intros Hs. unfold next_yiaddr. change CLIENT_IP_NOT_FOUND with 0.
  destruct (Z.eqb_spec (ac_lookup_mac s mac) 0) as [Hz | Hnz].
  - destruct (next_ip_found k s (current_ip s) Hs) as (ip & -> & Ha & Hfresh). rewrite bind_ret.
    assert (Hb : bswap32 (bswap32 ip) = ip) by (apply bswap32_involutive, Ha).
    destruct (add_lease k (set_current_ip ip s) mac (bswap32 ip)) as (st & s' & E & Hs' & Hl & Hmy & Hmsg & _);
      [by apply dhcp_ok_current | exact Hz | apply bswap32_range | rewrite Hb; exact Ha | exact Hfresh |].
    rewrite E, bind_ret. exists (bswap32 ip), s'. split; [done |]. split; [done |].
    change (ac_not_full (set_current_ip ip s)) with (ac_not_full s) in Hl.
    assert (Hl' : (if ac_not_full s then leases s' = leases s ++ [MkLease mac (bswap32 ip)] else leases s' = leases s))
      by (destruct (ac_not_full s); [exact Hl | by rewrite Hl]).
    split.
    { split; [exact Hmy |]. split; [rewrite (dk_mask _ _ Hs'), (dk_mask _ _ Hs); done |].
      destruct (ac_not_full s); [by eexists | exists []; by rewrite app_nil_r]. }
    split; [exact Hmsg |]. split; [apply bswap32_range |]. by rewrite Hb.
  - unfold ac_lookup_mac in *. destruct (lookup_mac_found _ _ Hnz) as (e & He & Hm & Hip).
    eapply list.Forall_forall in He; [| exact (dk_lease _ _ Hs)].
    cbv beta in He. rewrite Hip in He.
    eexists _, s. split; [reflexivity |]. split; [done |]. split; [apply extends_refl |]. by destruct He.
Qed.

(** ** Parsing a request *)
Lemma of_le32_range bs : bytes bs -> 0 <= of_le32 bs < 2 ^ 32.
Proof.
  intros Hb. unfold of_le32, is_byte in *. repeat (case_match; try lia).
  repeat match goal with H : Forall _ (_ :: _) |- _ => inversion H; clear H; subst end. lia.
Qed.

Lemma arr_get_byte m i b : bytes m -> arr_get m i = Ret b -> is_byte b.
Proof. intros Hm [_ Hb]%arr_get_ret. exact (Forall_lookup_1 _ _ _ _ Hm Hb). Qed.

Lemma arr_get_fault {A} (l : list A) i f : arr_get l i = Fault f -> f = OutOfBounds.
Proof. unfold arr_get. repeat case_match; congruence. Qed.

(** The accesses that fail are those past the buffer. *)
Lemma msg_get_past k s i f : dhcp_ok k s -> 0 <= i -> arr_get (msg s) i = Fault f -> f = OutOfBounds /\ 1024 <= i.
Proof.
  intros Hs Hi E. split; [by eapply arr_get_fault |]. destruct (Z.ltb_spec i 1024); [| done].
  destruct (arr_get_total (msg s) i) as (x & E' & _); [rewrite (dk_msg _ _ Hs); lia | congruence].
Qed.
Lemma msg_read_past k s off n f : dhcp_ok k s -> 0 <= off -> 0 <= n -> mem_read (msg s) off n = Fault f -> f = OutOfBounds /\ 1024 < off + n.
Proof.
  intros Hs Ho Hn E. split; [by eapply mem_read_fault |]. unfold mem_read in E. rewrite (dk_msg _ _ Hs) in E.
  destruct (Z.leb_spec 0 off), (Z.leb_spec 0 n), (Z.leb_spec (off + n) (Z.of_nat 1024)); try done; lia.
Qed.

(** A step of the server: it keeps the leases consistent, only adds leases,
    does not touch the buffer, and fails only by reading past it, which happens
    only if [far]. *)
Definition step_ok (far : Prop) (k : Z) (s : dhcp_server_data) (r : outcome dhcp_server_data) : Prop :=
  match r with
  | Ret s' => dhcp_ok k s' /\ extends s s' /\ msg s' = msg s
  | Fault f => f = OutOfBounds /\ far
  end.

Lemma step_trans far k a b c : step_ok far k a (Ret b) -> step_ok far k b (Ret c) -> step_ok far k a (Ret c).
Proof.
  intros (_ & He & Hm) (Hc & He' & Hm'). split; [done |]. split; [by eapply extends_trans | congruence].
Qed.

Lemma step_client far k s a : dhcp_ok k s -> 0 <= a < 2 ^ 32 -> step_ok far k s (Ret (set_client_ip a s)).
Proof. intros Hs Ha. split; [by apply dhcp_ok_client | split; [exact (extends_refl s) | done]]. Qed.

Lemma step_refl far k s : dhcp_ok k s -> step_ok far k s (Ret s).
Proof. intros. split; [done | split; [apply extends_refl | done]]. Qed.

Lemma check_requested_ok far k s mac got : dhcp_ok k s ->
  exists g s', check_requested s mac got = Ret (g, s') /\ step_ok far k s (Ret s') /\
    client_ip s' = client_ip s /\
    (g = true -> got = true \/ subnet_of k (bswap32 (client_ip s)) = subnet_of k (hmy s)).
Proof.
  intros Hs. unfold check_requested. pose proof (pow2k k s Hs) as Hp. pose proof (dk_client _ _ Hs) as Hc.
  destruct (Z.eqb_spec (Z.land (client_ip s) (netmask s)) (Z.land (my_ip s) (netmask s))) as [Hsub | Hsub].
  2:{ exists got, s. split; [done |]. split; [by apply step_refl |]. split; [done | by left]. }
  assert (Hsub' : subnet_of k (bswap32 (client_ip s)) = subnet_of k (hmy s)).
  { apply (f_equal bswap32) in Hsub. rewrite (ntohl_network k s Hs), bswap32_land, (ntohl_mask k s Hs) in Hsub.
    pose proof (dk_bits _ _ Hs). rewrite land_prefix in Hsub by (apply bswap32_range || lia).
    unfold net_addr in Hsub. unfold subnet_of. nia. }
  change CLIENT_IP_NOT_FOUND with 0. destruct (Z.eqb_spec (ac_lookup_mac s mac) 0) as [Hz | Hnz]; simpl negb; cbv iota.
  2:{ eexists _, s. split; [reflexivity |]. split; [by apply step_refl |]. split; [done | by right]. }
  destruct (ac_valid_ip s (ntohl (client_ip s))) eqn:Ev.
  2:{ exists got, s. split; [done |]. split; [by apply step_refl |]. split; [done | by left]. }
  destruct (ac_not_full s) eqn:Hroom.
  2:{ exists true, s. split; [done |]. split; [by apply step_refl |]. split; [done | by right]. }
  apply (valid_ip_spec k s Hs _ (bswap32_range _)) in Ev as (Hm & Hn & Hb & Hfresh).
  rewrite bswap32_involutive in Hfresh by done.
  destruct (add_lease k s mac (client_ip s)) as (st & s' & -> & Hs' & Hl & Hmy & Hmsg & Hcl); try done.
  { split; [apply bswap32_range | done]. }
  rewrite bind_ret, Hroom in *. exists true, s'. split; [done |]. split; [| split; [done | by right]].
  split; [done |]. split; [| done]. split; [done |].
  split; [rewrite (dk_mask _ _ Hs'), (dk_mask _ _ Hs); done | by eexists].
Qed.

Definition server_of (r : outcome parse_state) : outcome dhcp_server_data := p ← r; Ret (ps_server p).

Lemma parse_option_ok k mac ci type len pos p : dhcp_ok k (ps_server p) -> 0 <= ci < 2 ^ 32 -> 0 <= pos ->
  step_ok (1019 <= pos) k (ps_server p) (server_of (parse_option mac ci type len pos p)).
Proof.
  intros Hs Hci Hpos. unfold parse_option, server_of.
  set (r1 := if (type =? _) && _ then _ else Ret p).
  assert (H1 : match r1 with Ret p1 => step_ok (1019 <= pos) k (ps_server p) (Ret (ps_server p1)) | Fault f => f = OutOfBounds /\ 1019 <= pos end).
  { unfold r1. destruct (_ && _); [| by apply step_refl].
    destruct (arr_get _ _) eqn:E; [| apply (msg_get_past k) in E; [split; [apply E | lia] | done | lia]]. rewrite bind_ret.
    destruct (a =? message_code DHCP_MESSAGE_DISCOVER); [by apply step_refl |].
    destruct (a =? message_code DHCP_MESSAGE_REQUEST); [| by apply step_refl].
    destruct (negb (ci =? 0)); [by apply step_client | by apply step_refl]. }
  destruct r1 as [p1 | f]; [rewrite bind_ret | exact H1].
  set (r2 := if (type =? _) && _ then _ else Ret p1).
  assert (H2 : match r2 with Ret p2 => step_ok (1019 <= pos) k (ps_server p) (Ret (ps_server p2)) | Fault f => f = OutOfBounds /\ 1019 <= pos end).
  { unfold r2. destruct (_ && _); [| done].
    destruct (mem_read _ _ _) eqn:E; [| apply (msg_read_past k) in E; [split; [apply E | lia] | apply H1 | lia | lia]]. rewrite bind_ret.
    eapply step_trans; [exact H1 |]. destruct H1 as (Hs1 & _).
    apply step_client; [done |]. apply of_le32_range. eapply mem_read_bytes; [| exact E]. apply Hs1. }
  destruct r2 as [p2 | f]; [rewrite bind_ret | exact H2].
  destruct (got_client_ip p2); [| rewrite !bind_ret; exact H2].
  destruct (check_requested_ok (1019 <= pos) k (ps_server p2) mac (got_ip p2)) as (g & s' & -> & Hst & _); [apply H2 |].
  rewrite !bind_ret. exact (step_trans _ _ _ _ _ H2 Hst).
Qed.

(** On a message of [n] bytes nothing is read past the buffer when six of its
    bytes are behind the message. *)
Lemma options_loop_ok k mac ci n fuel : forall pos len p,
  dhcp_ok k (ps_server p) -> 0 <= ci < 2 ^ 32 -> len <= Z.of_nat fuel -> 0 <= pos -> pos + len = n ->
  step_ok (1019 < n) k (ps_server p) (server_of (options_loop fuel mac ci pos len p)).
Proof.
  induction fuel as [| fuel IH]; intros pos len p Hs Hci Hf Hpos Hn; simpl options_loop;
    (destruct (Z.ltb_spec 0 len); [| by apply step_refl]); [lia |].
  destruct (arr_get (msg (ps_server p)) pos) as [type | f] eqn:E1; [rewrite bind_ret | apply (msg_get_past k) in E1; [split; [apply E1 | lia] | done | lia]].
  destruct (type =? BOOTP_END_OPTION); [by apply step_refl |].
  destruct (arr_get (msg (ps_server p)) (pos + 1)) as [olen | f] eqn:E2; [rewrite bind_ret | apply (msg_get_past k) in E2; [split; [apply E2 | lia] | done | lia]].
  pose proof (arr_get_byte _ _ _ (dk_bytes _ _ Hs) E2) as Hl. unfold is_byte in Hl.
  pose proof (parse_option_ok k mac ci type olen pos p Hs Hci Hpos) as Hp.
  destruct (parse_option mac ci type olen pos p) as [p1 | f]; [rewrite bind_ret | destruct Hp as [-> Hfar]; split; [done | lia]].
  simpl in Hp. specialize (IH (pos + (sizeof_bootp_option + olen)) (len - (sizeof_bootp_option + olen)) p1).
  destruct Hp as (Hs1 & He1 & Hm1). specialize (IH Hs1 Hci ltac:(unfold sizeof_bootp_option; lia) ltac:(unfold sizeof_bootp_option; lia) ltac:(lia)).
  unfold server_of in *. destruct (options_loop _ _ _ _ _ p1) as [p2 | f]; [| exact IH].
  simpl in *. destruct IH as (Hs2 & He2 & Hm2). split; [done |]. split; [by eapply extends_trans | congruence].
Qed.

(** ** Building a response *)
Lemma write_u32_bytes z : bytes (write_u32 z).
Proof.
  unfold write_u32, is_byte. change 0xFF with (Z.ones 8).
  repeat (constructor; [first [ rewrite Z.land_ones by lia; apply Z.mod_pos_bound; lia
                              | exact (wrap_range 8 _ ltac:(lia)) ] |]). constructor.
Qed.

Lemma of_le32_write_u32 z : 0 <= z < 2 ^ 32 -> of_le32 (write_u32 z) = z.
Proof.
  intros Hz. unfold write_u32, of_le32, wrap. change 0xFF with (Z.ones 8).
  rewrite !Z.land_ones, !Z.shiftr_div_pow2 by lia.
  change (2 ^ 8) with 256. change (2 ^ 16) with 65536. change (2 ^ 24) with 16777216. change (2 ^ 32) with 4294967296 in Hz.
  Z.div_mod_to_equations. lia.
Qed.

(** The options of a message, up to the end option. *)
Fixpoint message_options (fuel : nat) (bs : list Z) : option (list (Z * list Z)) :=
  match fuel, bs with
  | S fuel', t :: bs' =>
      if t =? BOOTP_END_OPTION then Some []
      else match bs' with
           | l :: v => if Z.of_nat (length v) <? l then None
                       else cons (t, take (Z.to_nat l) v) <$> message_options fuel' (drop (Z.to_nat l) v)
           | [] => None
           end
  | _, _ => None
  end.

(** The options every response but a refusal carries. *)
Definition standard_options (s : dhcp_server_data) (type : dhcp_message_type) : list (Z * list Z) :=
  [(BOOTP_OPTION_DHCP_MESSAGE, [message_code type]);
   (BOOTP_OPTION_SUBNET_MASK, write_u32 (netmask s));
   (BOOTP_OPTION_ADDRESS_TIME, write_u32 (htonl (dhcp_address_timeout s)));
   (BOOTP_OPTION_DHCP_SERVER_ID, write_u32 (my_ip s));
   (BOOTP_OPTION_ROUTER, write_u32 (my_ip s));
   (BOOTP_OPTION_NAMESERVER, write_u32 (dns_get_nameserver s))].

Definition encode_option (o : Z * list Z) : list Z := [fst o; Z.of_nat (length (snd o))] ++ snd o.
Definition encode_options (l : list (Z * list Z)) : list Z := concat (encode_option <$> l).

Lemma put_option_next pre rest t v off : off = Z.of_nat (length pre) -> (2 + length v <= length rest)%nat ->
  put_option (pre ++ rest) off t v =
    Ret ((pre ++ encode_option (t, v)) ++ drop (2 + length v) rest, off + 2 + Z.of_nat (length v)).
Proof.
  intros Hoff Hl. unfold put_option.
  replace (pre ++ rest) with (pre ++ rest ++ []) by (by rewrite app_nil_r).
  rewrite mem_write_next by (simpl; done || lia). rewrite bind_ret, app_nil_r. done.
Qed.

Lemma mem_write_within (pre rest bs : list Z) (off : Z) :
  0 <= off -> off + Z.of_nat (length bs) <= Z.of_nat (length pre) ->
  exists pre', mem_write (pre ++ rest) off bs = Ret (pre' ++ rest) /\ mem_write pre off bs = Ret pre' /\
    length pre' = length pre.
Proof.
  intros Ho Hl. unfold mem_write. rewrite length_app.
  destruct (Z.leb_spec 0 off); [| lia]. simpl.
  destruct (Z.leb_spec (off + Z.of_nat (length bs)) (Z.of_nat (length pre))); [| lia].
  destruct (Z.leb_spec (off + Z.of_nat (length bs)) (Z.of_nat (length pre + length rest))); [| lia].
  eexists. split; [| split; [reflexivity |]].
  - rewrite take_app_le, drop_app_le by lia. by rewrite <- !(assoc_L (++)).
  - rewrite !length_app, length_take, length_drop. lia.
Qed.

Lemma message_code_byte t : is_byte (message_code t).
Proof. unfold is_byte. destruct t; simpl; lia. Qed.

(** The first part of a response: the header, with the address for the client. *)
Definition response_type_ok (t : dhcp_message_type) : Prop :=
  t = DHCP_MESSAGE_OFFER \/ t = DHCP_MESSAGE_ACK \/ t = DHCP_MESSAGE_NAK.

Lemma encode_bytes l : Forall (fun o => is_byte (fst o) /\ bytes (snd o) /\ (length (snd o) < 256)%nat) l -> bytes (encode_options l).
Proof.
  induction 1 as [| o l (H1 & H2 & H3) _ IH]; [constructor |].
  apply Forall_app_2; [| exact IH]. unfold encode_option. constructor; [done |].
  constructor; [unfold is_byte; lia | done].
Qed.

(** What a response is: 240 header bytes carrying [yiaddr], then the options. *)
Definition response_bytes (s : dhcp_server_data) (type : dhcp_message_type) (hdr : list Z) : list Z :=
  hdr ++ (if decide (type = DHCP_MESSAGE_NAK) then encode_option (BOOTP_OPTION_DHCP_MESSAGE, [message_code type])
          else encode_options (standard_options s type) ++ [BOOTP_END_OPTION]).

Lemma standard_options_bytes s type : bytes (encode_options (standard_options s type)).
Proof.
  apply encode_bytes. unfold standard_options.
  assert (Hm : bytes [message_code type]) by (constructor; [apply message_code_byte | constructor]).
  repeat (constructor; [split; [vm_compute; split; [discriminate | reflexivity] | split; [first [exact Hm | apply write_u32_bytes] | simpl; lia]] |]).
  constructor.
Qed.

Lemma mem_write_inv {A} (m bs m' : list A) off : mem_write m off bs = Ret m' ->
  m' = take (Z.to_nat off) m ++ bs ++ drop (Z.to_nat off + length bs) m.
Proof. unfold mem_write. intros. by case_match; simplify_eq. Qed.

(** The option chain of a response, appended to any header. *)
Lemma put_standard_options s type hdr rest :
  length hdr = 240%nat -> (40 <= length rest)%nat -> type <> DHCP_MESSAGE_NAK ->
  ('(m3, o3) ← put_option (hdr ++ rest) sizeof_bootp_header BOOTP_OPTION_DHCP_MESSAGE [message_code type];
   if decide (type = DHCP_MESSAGE_NAK) then Ret (o3, set_msg m3 s)
   else
    '(m4, o4) ← put_option m3 o3 BOOTP_OPTION_SUBNET_MASK (write_u32 (netmask s));
    '(m5, o5) ← put_option m4 o4 BOOTP_OPTION_ADDRESS_TIME (write_u32 (htonl (dhcp_address_timeout s)));
    '(m6, o6) ← put_option m5 o5 BOOTP_OPTION_DHCP_SERVER_ID (write_u32 (my_ip s));
    '(m7, o7) ← put_option m6 o6 BOOTP_OPTION_ROUTER (write_u32 (my_ip s));
    '(m8, o8) ← put_option m7 o7 BOOTP_OPTION_NAMESERVER (write_u32 (dns_get_nameserver s));
    m9 ← mem_write m8 o8 [BOOTP_END_OPTION];
    Ret (o8 + 1, set_msg m9 s)) =
  Ret (274, set_msg (response_bytes s type hdr ++ drop 34 rest) s).
Proof.
  intros Hh Hr Ht.
  assert (Hlen : forall z, length (write_u32 z) = 4%nat) by done.
  rewrite put_option_next by (rewrite ?Hh; simpl; done || lia). rewrite bind_ret. cbn [length].
  destruct (decide (type = DHCP_MESSAGE_NAK)); [done |].
  do 5 (rewrite put_option_next, bind_ret; [
    | rewrite !length_app, Hh; simpl; unfold sizeof_bootp_header; lia
    | rewrite ?length_drop, Hlen; lia]; rewrite !Hlen).
  set (pre := ((((((hdr ++ _) ++ _) ++ _) ++ _) ++ _) ++ _)). set (post := drop _ (drop _ _)).
  replace (pre ++ post) with (pre ++ post ++ []) by (by rewrite app_nil_r).
  rewrite mem_write_next, bind_ret.
  - rewrite app_nil_r. do 3 f_equal. unfold response_bytes. destruct (decide _); [done |].
    unfold pre, post. rewrite !drop_drop, <- !(assoc_L (++)). do 2 f_equal.
  - unfold pre. rewrite !length_app, Hh. simpl. unfold sizeof_bootp_header. lia.
  - unfold post. rewrite !length_drop. simpl. lia.
Qed.

(** The header writes of a response. *)
Lemma response_header hdr rest yiaddr : length hdr = 240%nat ->
  exists h1 h2, mem_write (hdr ++ rest) 0 [BOOTP_OP_RESPONSE; 1; 6; 0] = Ret (h1 ++ rest) /\
    mem_write (h1 ++ rest) 12 (write_u32 0 ++ write_u32 yiaddr ++ write_u32 0 ++ write_u32 0) = Ret (h2 ++ rest) /\
    length h2 = 240%nat /\ (bytes hdr -> bytes h2) /\
    mem_read h2 16 4 = Ret (write_u32 yiaddr) /\ mem_read h2 28 6 = mem_read hdr 28 6.
Proof.
  intros Hh. set (B := write_u32 0 ++ write_u32 yiaddr ++ write_u32 0 ++ write_u32 0).
  destruct (mem_write_within hdr rest [BOOTP_OP_RESPONSE; 1; 6; 0] 0) as (h1 & E1 & I1 & L1); [lia | simpl; lia |].
  destruct (mem_write_within h1 rest B 12) as (h2 & E2 & I2 & L2); [lia | simpl; lia |].
  exists h1, h2. split; [exact E1 |]. split; [exact E2 |]. split; [lia |]. split; [| split].
  - intros Hb. eapply mem_write_bytes; [| | exact I2].
    + eapply mem_write_bytes; [exact Hb | | exact I1].
      repeat (constructor; [vm_compute; split; [discriminate | reflexivity] |]). constructor.
    + unfold B. repeat apply Forall_app_2; apply write_u32_bytes.
  - apply mem_write_inv in I2. rewrite I2. change (Z.to_nat 12 + length B)%nat with 28%nat. unfold B.
    change (Z.to_nat 12) with 12%nat. rewrite (assoc_L (++) (take 12 h1)), (assoc_L (++) (take 12 h1)), <- !(assoc_L (++)).
    rewrite (assoc_L (++) (take 12 h1)). apply mem_read_app; [| done].
    rewrite length_app, length_take. change (length (write_u32 0)) with 4%nat. lia.
  - apply mem_write_inv in I1, I2.
    assert (Hd : drop 28 h2 = drop 28 hdr).
    { rewrite I2, (assoc_L (++)), drop_app_length'.
      - change (Z.to_nat 12 + length B)%nat with 28%nat. rewrite I1.
        change (Z.to_nat 0) with 0%nat. change (drop 24 (drop 4 hdr) = drop 28 hdr). by rewrite drop_drop.
      - rewrite length_app, length_take. change (length B) with 16%nat. lia. }
    unfold mem_read. change (Z.to_nat 28) with 28%nat. rewrite Hd, L2, L1. done.
Qed.

Lemma response_bytes_length s type hdr : length hdr = 240%nat -> type <> DHCP_MESSAGE_NAK ->
  length (response_bytes s type hdr) = 274%nat.
Proof. intros Hh Ht. unfold response_bytes. destruct (decide _); [done |]. rewrite length_app, Hh. reflexivity. Qed.

Lemma response_bytes_bytes s type hdr : bytes hdr -> bytes (response_bytes s type hdr).
Proof.
  intros Hh. unfold response_bytes. apply Forall_app_2; [done |]. destruct (decide _).
  - constructor; [vm_compute; split; [discriminate | reflexivity] |].
    constructor; [vm_compute; split; [discriminate | reflexivity] |].
    constructor; [apply message_code_byte | constructor].
  - apply Forall_app_2; [apply standard_options_bytes |]. constructor; [vm_compute; split; [discriminate | reflexivity] | constructor].
Qed.

(** A response fits the buffer, carries the chosen address and exactly the
    options of its kind; building it keeps the server consistent. *)
Lemma make_response_spec k s type mac : dhcp_ok k s -> response_type_ok type -> mem_read (msg s) 28 6 = Ret mac ->
  exists n s' hdr yiaddr, make_response s type = Ret (n, s') /\ dhcp_ok k s' /\ extends s s' /\
    take (Z.to_nat n) (msg s') = response_bytes s' type hdr /\ length hdr = 240%nat /\
    mem_read hdr 16 4 = Ret (write_u32 yiaddr) /\ mem_read hdr 28 6 = Ret mac /\
    (if decide (type = DHCP_MESSAGE_OFFER) then exists s1, next_yiaddr s mac = Ret (yiaddr, s1) /\ leases s' = leases s1
     else yiaddr = (if decide (type = DHCP_MESSAGE_ACK) then client_ip s else 0) /\ leases s' = leases s).
Proof.
  intros Hs Ht Hmac.
  destruct (split_block (msg s) 240) as (hdr & rest & Em & Hh & Hr); [rewrite (dk_msg _ _ Hs); lia |].
  rewrite (dk_msg _ _ Hs) in Hr.
  assert (Hmac' : mem_read hdr 28 6 = Ret mac).
  { rewrite <- Hmac, Em. unfold mem_read. rewrite length_app, Hh, Hr. simpl.
    change (Z.to_nat 28) with 28%nat. change (Z.to_nat 6) with 6%nat.
    rewrite drop_app_le, take_app_le by (rewrite ?length_drop; lia). done. }
  assert (Hbytes : bytes hdr /\ bytes rest).
  { pose proof (dk_bytes _ _ Hs) as Hb. rewrite Em in Hb. by apply Forall_app in Hb. }
  destruct Hbytes as [Hbh Hbr].
  (* the address *)
  assert (Hy : exists yiaddr s1, (if decide (type = DHCP_MESSAGE_OFFER) then next_yiaddr s mac
      else Ret (if decide (type = DHCP_MESSAGE_ACK) then client_ip s else 0, s)) = Ret (yiaddr, s1) /\
      dhcp_ok k s1 /\ extends s s1 /\
      (if decide (type = DHCP_MESSAGE_OFFER) then next_yiaddr s mac = Ret (yiaddr, s1)
       else yiaddr = (if decide (type = DHCP_MESSAGE_ACK) then client_ip s else 0) /\ leases s1 = leases s)).
  { destruct (decide (type = DHCP_MESSAGE_OFFER)).
    - destruct (next_yiaddr_spec k s mac Hs) as (a & s1 & E & Hs1 & He & _). by exists a, s1.
    - eexists _, s. split; [reflexivity |]. split; [done |]. split; [apply extends_refl | done]. }
  destruct Hy as (yiaddr & s1 & Ey & Hs1 & He & Hyi).
  destruct (response_header hdr rest yiaddr Hh) as (h1 & h2 & E1 & E2 & L2 & B2 & Y2 & M2).
  unfold make_response. rewrite Hmac, Em, E1, !bind_ret, Ey, bind_ret, E2, bind_ret.
  assert (Hfin : forall n m, length m = 1024%nat -> bytes m -> take (Z.to_nat n) m = response_bytes s1 type h2 ->
    exists n' s' hdr0 y, (Ret (n, set_msg m s1) : outcome (Z * dhcp_server_data)) = Ret (n', s') /\ dhcp_ok k s' /\ extends s s' /\
    take (Z.to_nat n') (msg s') = response_bytes s' type hdr0 /\ length hdr0 = 240%nat /\
    mem_read hdr0 16 4 = Ret (write_u32 y) /\ mem_read hdr0 28 6 = Ret mac /\
    (if decide (type = DHCP_MESSAGE_OFFER) then exists s1, next_yiaddr s mac = Ret (y, s1) /\ leases s' = leases s1
     else y = (if decide (type = DHCP_MESSAGE_ACK) then client_ip s else 0) /\ leases s' = leases s)).
  { intros n m Hlm Hbm Htk. exists n, (set_msg m s1), h2, yiaddr. split; [done |]. split; [by apply dhcp_ok_msg |].
    split; [exact He |]. split; [exact Htk |]. split; [exact L2 |]. split; [exact Y2 |]. split; [by rewrite M2 |].
    destruct (decide (type = DHCP_MESSAGE_OFFER)); [by exists s1 | exact Hyi]. }
  assert (Hc : type = DHCP_MESSAGE_NAK \/ type <> DHCP_MESSAGE_NAK) by (destruct type; (by left) || (by right)).
  destruct Hc as [-> | Hnak].
  - rewrite put_option_next, bind_ret by (rewrite ?L2; simpl; done || lia).
    destruct (decide (DHCP_MESSAGE_NAK = DHCP_MESSAGE_NAK)); [| done]. apply Hfin.
    + rewrite !length_app, L2, length_drop, Hr. reflexivity.
    + apply Forall_app_2; [| by apply Forall_drop].
      exact (response_bytes_bytes s1 DHCP_MESSAGE_NAK h2 (B2 Hbh)).
    + rewrite take_app_length' by (rewrite length_app, L2; reflexivity). done.
  - rewrite put_standard_options by (done || lia). apply Hfin.
    + rewrite length_app, response_bytes_length, length_drop, Hr by done. reflexivity.
    + apply Forall_app_2; [by apply response_bytes_bytes, B2 | by apply Forall_drop].
    + by rewrite take_app_length' by (by rewrite response_bytes_length).
Qed.
