(* ===== verification/DhcpTheorems.v ===== *)
(** * Theorems about the DHCP server

    Leases stay consistent under any input, standard requests are answered as
    the protocol asks, responses have the layout clients expect; and the
    inputs for which the code does something else. *)
From S2P Require Import Prelude DhcpServer DhcpProps.

(** ** Any input *)
Definition rt_ok (t : dhcp_message_type) : Prop := t = DHCP_NO_RESPONSE \/ response_type_ok t.

Lemma parse_option_rt mac ci type len pos p p' :
  parse_option mac ci type len pos p = Ret p' -> rt_ok (response_type p) -> rt_ok (response_type p').
Proof.
  unfold parse_option. intros E Hp. apply bind_inv in E as (p1 & E1 & E).
  assert (H1 : rt_ok (response_type p1)).
  { destruct ((type =? BOOTP_OPTION_DHCP_MESSAGE) && (len =? 1)); [| by injection E1 as <-]. apply bind_inv in E1 as (v & _ & E1). cbv beta in E1. injection E1 as <-.
    destruct (v =? 1); [right; left; reflexivity |].
    destruct (v =? 3); [| done]. by destruct (negb (ci =? 0)). }
  apply bind_inv in E as (p2 & E2 & E).
  assert (H2 : rt_ok (response_type p2)).
  { destruct ((type =? BOOTP_OPTION_REQUESTED_IP) && (len =? 4)); [| by injection E2 as <-]. apply bind_inv in E2 as (v & _ & E2). cbv beta in E2. by injection E2 as <-. }
  apply bind_inv in E as (r & _ & E). cbv beta zeta in E. injection E as <-. simpl.
  destruct (need_ip p2); [| exact H2]. right. destruct (fst r); [right; left; reflexivity | right; right; reflexivity].
Qed.

Lemma options_loop_rt mac ci fuel : forall pos len p p',
  options_loop fuel mac ci pos len p = Ret p' -> rt_ok (response_type p) -> rt_ok (response_type p').
Proof.
  induction fuel as [| fuel IH]; intros pos len p p' E Hp; simpl in E;
    (destruct (0 <? len); [| by injection E as <-]); apply bind_inv in E as (ty & _ & E);
    (destruct (ty =? BOOTP_END_OPTION); [by injection E as <- |]); [done |].
  apply bind_inv in E as (ol & _ & E). apply bind_inv in E as (p1 & E1 & E).
  eapply IH; [exact E |]. by eapply parse_option_rt.
Qed.

(** What the server sends is well formed. *)
Definition event_ok (s : dhcp_server_data) (e : dhcp_event) : Prop :=
  match e with
  | Response r => exists type hdr, response_type_ok type /\ length hdr = 240%nat /\ r = response_bytes s type hdr
  | GratuitousArp ip => ip = my_ip s
  end.

Lemma process_ok k s len : dhcp_ok k s -> 0 <= len <= 1024 ->
  match process_dhcp_message s len with
  | Ret (st, s', ev) => dhcp_ok k s' /\ extends s s' /\ Forall (event_ok s') ev
  | Fault f => f = OutOfBounds /\ 1019 < len
  end.
Proof.
  intros Hs Hlen. unfold process_dhcp_message.
  assert (Hdone : dhcp_ok k s /\ extends s s /\ Forall (event_ok s) []) by (split; [done | split; [apply extends_refl | done]]).
  destruct (_ <? _); [done |].
  destruct (arr_get (msg s) 0) as [op | f] eqn:E0; [rewrite bind_ret | apply (msg_get_past k) in E0; [lia | done | done]].
  destruct (_ && _); [done |].
  destruct (arr_get (msg s) 1) as [ht | f] eqn:E1; [rewrite bind_ret | apply (msg_get_past k) in E1; [lia | done | done]].
  destruct (arr_get (msg s) 2) as [hl | f] eqn:E2; [rewrite bind_ret | apply (msg_get_past k) in E2; [lia | done | done]].
  destruct (_ || _); [done |].
  destruct (mem_read (msg s) 12 4) as [ci | f] eqn:E3; [rewrite bind_ret | apply (msg_read_past k) in E3; [lia | done | done | done]].
  destruct (mem_read (msg s) 28 6) as [mac | f] eqn:E4; [rewrite bind_ret | apply (msg_read_past k) in E4; [lia | done | done | done]].
  assert (Hci : 0 <= of_le32 ci < 2 ^ 32) by (apply of_le32_range; eapply mem_read_bytes; [apply Hs | exact E3]).
  set (p0 := MkParse s DHCP_NO_RESPONSE false false false).
  pose proof (options_loop_ok k mac (of_le32 ci) len (Z.to_nat len) sizeof_bootp_header (len - sizeof_bootp_header) p0
    Hs Hci ltac:(unfold sizeof_bootp_header; lia) ltac:(done) ltac:(lia)) as Hl. unfold server_of in Hl.
  destruct (options_loop _ _ _ _ _ p0) as [p | f] eqn:El; [rewrite bind_ret in *; cbn [mbind outcome_bind] | exact Hl].
  destruct Hl as (Hs' & He & Hm). simpl in He, Hm.
  destruct (decide (response_type p = DHCP_NO_RESPONSE)) as [| Hne]; [by split |].
  destruct (options_loop_rt _ _ _ _ _ _ _ El ltac:(by left)) as [| Hrt]; [done |].
  rewrite <- Hm in E4.
  destruct (make_response_spec k (ps_server p) (response_type p) mac Hs' Hrt E4)
    as (n & s' & hdr & y & -> & Hs2 & He2 & Hmsg & Hh & _ & _ & _). rewrite bind_ret.
  split; [done |]. split; [by eapply extends_trans |].
  apply Forall_app_2; [apply Forall_singleton; by exists (response_type p), hdr |].
  destruct (decide _); [by apply Forall_singleton | done].
Qed.

(** C22: On a subnet of at least sixteen addresses, whatever bytes arrive, the
    server ends: it finishes with a consistent lease table (at most eight
    leases, no address and no client twice, every address in the subnet and
    neither the server's own nor the network or broadcast address), where leases
    were only added, and what it sends has the layout of a response. A datagram
    of up to 1019 bytes makes it read nothing outside its buffer of 1024; only
    of a longer one the last option can be read past the buffer. *)
Theorem dhcp_leases_stay_consistent k s d :
  dhcp_ok k s -> bytes d ->
  match dhcp_receive s d with
  | Ret (st, s', ev) => dhcp_ok k s' /\ extends s s' /\ Forall (event_ok s') ev
  | Fault f => f = OutOfBounds /\ (1019 < length d)%nat
  end.
Proof.
  intros Hs Hd. unfold dhcp_receive. set (d' := take _ d).
  assert (Hl : (length d' <= 1024)%nat) by (unfold d'; rewrite length_take; change (Z.to_nat SERVER_BUFFER_SIZE) with 1024%nat; lia).
  destruct (mem_write (msg s) 0 d') as [m | f] eqn:E; [rewrite bind_ret |].
  2: { exfalso. unfold mem_write in E. rewrite (dk_msg _ _ Hs) in E.
       destruct (Z.leb_spec (0 + Z.of_nat (length d')) (Z.of_nat 1024)); [done | lia]. }
  destruct (_ <? _); [| by split; [| split; [apply extends_refl |]]].
  assert (Hs' : dhcp_ok k (set_msg m s)).
  { apply dhcp_ok_msg; [done | by rewrite (mem_write_length _ _ _ _ E), (dk_msg _ _ Hs) |].
    eapply mem_write_bytes; [exact (dk_bytes _ _ Hs) | | exact E]. by apply Forall_take. }
  pose proof (process_ok k (set_msg m s) (Z.of_nat (length d')) Hs' ltac:(lia)) as H.
  destruct (process_dhcp_message _ _) as [[[st s'] ev] | f]; [exact H |]. destruct H as [-> H]. split; [done |].
  unfold d' in H. rewrite length_take in H. lia.
Qed.

(** ** A concrete server: 192.168.10.1/24 *)
Definition ip4 (a b c d : Z) : Z := of_le32 [a; b; c; d].
Definition no_lease : client_mac_cache := MkLease [0; 0; 0; 0; 0; 0] 0.
Definition ex_server (mask me : Z) (l : list client_mac_cache) : dhcp_server_data :=
  MkDhcps (Z.of_nat (length l)) (replicate 1024 0) (l ++ replicate (8 - length l) no_lease) mask me 0 0 86400 true.
Definition ex_dhcps : dhcp_server_data := ex_server (ip4 255 255 255 0) (ip4 192 168 10 1) [].
(** The 240 header bytes of a client's message. *)
Definition ex_header (mac : list Z) (ciaddr : Z) : list Z :=
  [1; 1; 6; 0] ++ replicate 8 0 ++ write_u32 ciaddr ++ replicate 12 0 ++ mac ++ replicate 206 0.
Definition ex_mac (n : Z) : list Z := [2; 0; 0; 0; 0; n].
Definition ex_request (mac : list Z) (ciaddr ip : Z) : list Z :=
  ex_header mac ciaddr ++ [53; 1; 3; 50; 4] ++ write_u32 ip ++ [255].

Lemma ex_dhcps_ok : dhcp_ok 8 ex_dhcps.
Proof.
  split.
  - lia.
  - vm_compute. reflexivity.
  - vm_compute. split; [discriminate | reflexivity].
  - vm_compute. discriminate.
  - reflexivity.
  - vm_compute. split; discriminate.
  - vm_compute. reflexivity.
  - apply Forall_replicate. unfold is_byte. lia.
  - vm_compute. split; [discriminate | reflexivity].
  - apply Forall_nil.
  - apply NoDup_nil_2.
  - apply NoDup_nil_2.
Qed.

Lemma ex_request_bytes n ci ip : is_byte n -> bytes (ex_request (ex_mac n) ci ip).
Proof.
  intros Hn. assert (H0 : is_byte 0) by (unfold is_byte; lia).
  repeat apply Forall_app_2; try apply write_u32_bytes; try (by apply Forall_replicate);
    repeat (constructor; [first [exact Hn | vm_compute; split; [discriminate | reflexivity]] |]); constructor.
Qed.

Lemma dhcp_leases_stay_consistent_witness :
  match dhcp_receive ex_dhcps (ex_request (ex_mac 7) 0 (ip4 192 168 10 77)) with
  | Ret (st, s', ev) => leases s' = [MkLease (ex_mac 7) (ip4 192 168 10 77)] /\ dhcp_ok 8 s'
  | Fault _ => False
  end.
Proof.
  assert (Hl : match dhcp_receive ex_dhcps (ex_request (ex_mac 7) 0 (ip4 192 168 10 77)) with
    | Ret (st, s', ev) => leases s' = [MkLease (ex_mac 7) (ip4 192 168 10 77)] | Fault _ => False end)
    by (vm_compute; reflexivity).
  pose proof (dhcp_leases_stay_consistent 8 ex_dhcps (ex_request (ex_mac 7) 0 (ip4 192 168 10 77)) ex_dhcps_ok
    (ex_request_bytes 7 0 _ ltac:(unfold is_byte; lia))) as Ht.
  destruct (dhcp_receive _ _) as [[[st s'] ev] | f]; [| done]. split; [exact Hl | exact (proj1 Ht)].
Defined.

(** ** Standard messages *)

(** A client's message: 240 header bytes and options that fit the buffer. *)
Record client_header (hdr : list Z) (ci : Z) (mac : list Z) : Prop := {
  ch_len : length hdr = 240%nat;
  ch_bytes : bytes hdr;
  ch_op : arr_get hdr 0 = Ret BOOTP_OP_REQUEST;
  ch_htype : arr_get hdr 1 = Ret 1;
  ch_hlen : arr_get hdr 2 = Ret 6;
  ch_ciaddr : mem_read hdr 12 4 = Ret (write_u32 ci);
  ch_mac : mem_read hdr 28 6 = Ret mac
}.

Lemma arr_get_app_l {A} (a b : list A) i x : arr_get a i = Ret x -> arr_get (a ++ b) i = Ret x.
Proof. intros [Hi Hx]%arr_get_ret. apply arr_get_ret. split; [done |]. by apply lookup_app_l_Some. Qed.

Lemma arr_get_app_r {A} (a b : list A) i x n :
  n = Z.of_nat (length a) -> 0 <= i -> arr_get b i = Ret x -> arr_get (a ++ b) (n + i) = Ret x.
Proof.
  intros -> Hi [_ Hx]%arr_get_ret. apply arr_get_ret. split; [lia |].
  rewrite lookup_app_r by lia. rewrite <- Hx. f_equal. lia.
Qed.

Lemma mem_read_app_l {A} (a b bs : list A) off n : mem_read a off n = Ret bs -> mem_read (a ++ b) off n = Ret bs.
Proof.
  unfold mem_read. rewrite length_app. intros E. case_match eqn:Ec; [| done]. injection E as <-.
  apply andb_prop in Ec as [[Ho Hn]%andb_prop Hl]. apply Z.leb_le in Ho, Hn, Hl.
  rewrite drop_app_le by lia. rewrite take_app_le by (rewrite length_drop; lia). zbool; done || lia.
Qed.

Lemma mem_read_app_r {A} (a b bs : list A) off n k :
  k = Z.of_nat (length a) -> 0 <= off -> mem_read b off n = Ret bs -> mem_read (a ++ b) (k + off) n = Ret bs.
Proof.
  intros -> Hoff. unfold mem_read. rewrite length_app. intros E. case_match eqn:Ec; [| done]. injection E as <-.
  apply andb_prop in Ec as [[Ho Hn]%andb_prop Hl]. apply Z.leb_le in Ho, Hn, Hl.
  rewrite drop_app_ge by lia. replace (Z.to_nat (Z.of_nat (length a) + off) - length a)%nat with (Z.to_nat off) by lia.
  zbool; done || lia.
Qed.

(** A request for [ip], as clients send it: message type, requested address,
    end. *)
Definition request_options (ip : Z) : list Z := [53; 1; 3; 50; 4] ++ write_u32 ip ++ [255].

Lemma parse_request_type s mac pos rt : arr_get (msg s) (pos + 2) = Ret 3 ->
  parse_option mac 0 53 1 pos (MkParse s rt false false false) = Ret (MkParse s DHCP_MESSAGE_NAK false true false).
Proof. intros E. unfold parse_option. simpl. by rewrite E. Qed.

Lemma parse_discover_type s mac pos rt : arr_get (msg s) (pos + 2) = Ret 1 ->
  parse_option mac 0 53 1 pos (MkParse s rt false false false) = Ret (MkParse s DHCP_MESSAGE_OFFER false false false).
Proof. intros E. unfold parse_option. simpl. by rewrite E. Qed.

Lemma parse_requested_ip s mac pos rt ip g s' : mem_read (msg s) (pos + 2) 4 = Ret (write_u32 ip) -> 0 <= ip < 2 ^ 32 ->
  check_requested (set_client_ip ip s) mac false = Ret (g, s') ->
  parse_option mac 0 50 4 pos (MkParse s rt false true false) =
    Ret (MkParse s' (if g then DHCP_MESSAGE_ACK else DHCP_MESSAGE_NAK) g true true).
Proof.
  intros E Hip Ec. unfold parse_option. cbn -[mem_read of_le32 check_requested write_u32]. rewrite E.
  cbn -[mem_read of_le32 check_requested write_u32]. rewrite of_le32_write_u32 by done. by rewrite Ec.
Qed.

(** One round of the loop. *)
Lemma options_loop_step n mac ci pos len p type olen p1 :
  0 < len -> arr_get (msg (ps_server p)) pos = Ret type -> type <> BOOTP_END_OPTION ->
  arr_get (msg (ps_server p)) (pos + 1) = Ret olen -> parse_option mac ci type olen pos p = Ret p1 ->
  options_loop (S n) mac ci pos len p = options_loop n mac ci (pos + (2 + olen)) (len - (2 + olen)) p1.
Proof.
  intros Hl Ht He Ho Hp. simpl. destruct (Z.ltb_spec 0 len); [| lia].
  rewrite Ht, bind_ret. apply Z.eqb_neq in He as ->. by rewrite Ho, bind_ret, Hp.
Qed.

Lemma options_loop_end n mac ci pos len p :
  0 < len -> arr_get (msg (ps_server p)) pos = Ret BOOTP_END_OPTION -> options_loop n mac ci pos len p = Ret p.
Proof. intros Hl Ht. destruct n; simpl; (destruct (Z.ltb_spec 0 len); [| lia]); by rewrite Ht. Qed.

(** The option loop on such a request. *)
Lemma request_loop k s hdr mac ip rest n : dhcp_ok k s -> length hdr = 240%nat -> 0 <= ip < 2 ^ 32 ->
  msg s = hdr ++ request_options ip ++ rest ->
  exists g s', check_requested (set_client_ip ip s) mac false = Ret (g, s') /\ step_ok False k (set_client_ip ip s) (Ret s') /\
    options_loop (S (S n)) mac 0 240 10 (MkParse s DHCP_NO_RESPONSE false false false) =
      Ret (MkParse s' (if g then DHCP_MESSAGE_ACK else DHCP_MESSAGE_NAK) g true true).
Proof.
  intros Hs Hlen Hip Em. pose proof (dhcp_ok_client k s ip Hs Hip) as Hs1.
  destruct (check_requested_ok False k (set_client_ip ip s) mac false Hs1) as (g & s' & Ec & Hst & _).
  exists g, s'. split; [exact Ec |]. split; [exact Hst |]. destruct Hst as (_ & _ & Hm'). simpl in Hm'.
  assert (Hget : forall i x, 0 <= i -> arr_get (request_options ip ++ rest) i = Ret x -> arr_get (msg s) (240 + i) = Ret x)
    by (intros i x Hi Hx; rewrite Em; apply arr_get_app_r; [lia | done | done]).
  assert (Hip4 : mem_read (msg s) (240 + 3 + 2) 4 = Ret (write_u32 ip)).
  { rewrite Em. apply (mem_read_app_r hdr _ _ 5 4 240); [lia | lia |].
    apply (mem_read_app [53; 1; 3; 50; 4] (write_u32 ip) ([255] ++ rest)); done. }
  erewrite options_loop_step; [| lia | exact (Hget 0 53 ltac:(lia) eq_refl) | discriminate
    | exact (Hget 1 1 ltac:(lia) eq_refl) | apply parse_request_type; exact (Hget 2 3 ltac:(lia) eq_refl)].
  erewrite options_loop_step; [| lia | exact (Hget 3 50 ltac:(lia) eq_refl) | discriminate
    | exact (Hget 4 4 ltac:(lia) eq_refl) | exact (parse_requested_ip s mac (240 + 3) _ ip g s' Hip4 Hip Ec)].
  apply options_loop_end; [lia |]. simpl. rewrite Hm'. exact (Hget 9 255 ltac:(lia) eq_refl).
Qed.

(** The client may use [ip]: it holds a lease for it, or it holds none and
    nobody else has it. *)
Definition may_use (k : Z) (s : dhcp_server_data) (mac : list Z) (ip : Z) : Prop :=
  if ac_lookup_mac s mac =? 0 then assignable k s (bswap32 ip) /\ ip ∉ client_ip_of <$> leases s
  else ac_lookup_mac s mac = ip.

Lemma same_subnet k s a : dhcp_ok k s ->
  Z.land a (netmask s) = Z.land (my_ip s) (netmask s) <->
  bswap32 (Z.land a (netmask s)) = bswap32 (Z.land (my_ip s) (netmask s)).
Proof.
  intros Hs. split; [congruence |]. pose proof (dk_mask _ _ Hs) as Hm. pose proof (bswap32_range (2 ^ 32 - 2 ^ k)) as Hr.
  rewrite <- Hm in Hr. intros E. apply bswap32_inj in E; [done | |];
    (split; [apply Z.land_nonneg; right; lia |]);
    (eapply bits_range; [lia |]); intros n Hn; rewrite Z.land_spec, (range_bits (netmask s) 32 n) by lia; apply andb_false_r.
Qed.

Lemma same_subnet_of k s a : dhcp_ok k s ->
  Z.land a (netmask s) = Z.land (my_ip s) (netmask s) <-> subnet_of k (bswap32 a) = subnet_of k (hmy s).
Proof.
  intros Hs. rewrite (same_subnet k s a Hs), (ntohl_network k s Hs), bswap32_land, (ntohl_mask k s Hs).
  pose proof (dk_bits _ _ Hs). pose proof (pow2k k s Hs). rewrite land_prefix by (apply bswap32_range || lia).
  unfold net_addr, subnet_of. split; [nia | congruence].
Qed.

(** The decision on a requested address. *)
Lemma check_requested_spec k s mac g s' : dhcp_ok k s -> check_requested s mac false = Ret (g, s') ->
  (g = true <-> may_use k s mac (client_ip s)) /\
  leases s' = (if g && (ac_lookup_mac s mac =? 0) && ac_not_full s
               then leases s ++ [MkLease mac (client_ip s)] else leases s).
Proof.
  intros Hs. unfold check_requested, may_use. pose proof (pow2k k s Hs) as Hp. pose proof (dk_client _ _ Hs) as Hc.
  change CLIENT_IP_NOT_FOUND with 0. pose proof (same_subnet_of k s (client_ip s) Hs) as Hsub.
  assert (Hheld : ac_lookup_mac s mac <> 0 -> subnet_of k (bswap32 (ac_lookup_mac s mac)) = subnet_of k (hmy s)).
  { intros Hnz. unfold ac_lookup_mac in *. destruct (lookup_mac_found _ _ Hnz) as (e & He & _ & Hip).
    eapply list.Forall_forall in He; [| exact (dk_lease _ _ Hs)]. rewrite <- Hip. apply He. }
  destruct (Z.eqb_spec (Z.land (client_ip s) (netmask s)) (Z.land (my_ip s) (netmask s))) as [Hin | Hout];
    destruct (Z.eqb_spec (ac_lookup_mac s mac) 0) as [Hz | Hnz]; cbn [negb].
  - pose proof (valid_ip_spec k s Hs (bswap32 (client_ip s)) (bswap32_range _)) as Hv.
    rewrite bswap32_involutive in Hv by done. apply Hsub in Hin.
    assert (Hiff : ac_valid_ip s (ntohl (client_ip s)) = true <->
      assignable k s (bswap32 (client_ip s)) /\ client_ip s ∉ client_ip_of <$> leases s).
    { rewrite Hv. unfold assignable. pose proof (bswap32_range (client_ip s)). tauto. }
    destruct (ac_valid_ip s _).
    + destruct (ac_not_full s) eqn:Hroom.
      * destruct Hiff as [Hi _]. destruct (Hi eq_refl) as [Ha Hf].
        destruct (add_lease k s mac (client_ip s) Hs Hz Hc Ha Hf) as (st & s2 & -> & _ & Hl & _).
        rewrite bind_ret, Hroom in *. intros E. injection E as <- <-. split; [tauto | exact Hl].
      * intros E. injection E as <- <-. split; [tauto | done].
    + intros E. injection E as <- <-. split; [tauto | done].
  - intros E. injection E as <- <-. rewrite Z.eqb_eq. split; [done | by rewrite andb_false_r].
  - intros E. injection E as <- <-. split; [| done]. split; [done |]. intros [(_ & Ha & _) _]. tauto.
  - intros E. injection E as <- <-. split; [| done]. split; [done |]. intros Heq. rewrite <- Heq in Hsub, Hout. tauto.
Qed.

Lemma client_header_app hdr ci mac rest : client_header hdr ci mac -> 0 <= ci < 2 ^ 32 ->
  arr_get (hdr ++ rest) 0 = Ret BOOTP_OP_REQUEST /\ arr_get (hdr ++ rest) 1 = Ret 1 /\ arr_get (hdr ++ rest) 2 = Ret 6 /\
  mem_read (hdr ++ rest) 12 4 = Ret (write_u32 ci) /\ mem_read (hdr ++ rest) 28 6 = Ret mac.
Proof.
  intros [] Hci. split; [by apply arr_get_app_l |]. split; [by apply arr_get_app_l |]. split; [by apply arr_get_app_l |].
  split; by apply mem_read_app_l.
Qed.

(** A message of a client's header and [opts] is parsed by the option loop. *)
Lemma receive_message k s hdr ci mac opts : dhcp_ok k s -> client_header hdr ci mac -> 0 <= ci < 2 ^ 32 -> bytes opts ->
  (3 <= length opts <= 784)%nat ->
  exists rest, length rest = (784 - length opts)%nat /\
    let s1 := set_msg (hdr ++ opts ++ rest) s in
    dhcp_ok k s1 /\ mem_read (msg s1) 28 6 = Ret mac /\
    dhcp_receive s (hdr ++ opts) =
      (p ← options_loop (240 + length opts) mac ci 240 (Z.of_nat (length opts)) (MkParse s1 DHCP_NO_RESPONSE false false false);
       if decide (response_type p = DHCP_NO_RESPONSE) then Ret (WM_OK, ps_server p, [])
       else '(n, s2) ← make_response (ps_server p) (response_type p);
            Ret (WM_OK, s2, [Response (take (Z.to_nat n) (msg s2))] ++
                 (if decide (response_type p = DHCP_MESSAGE_ACK) then [GratuitousArp (my_ip s2)] else []))).
Proof.
  intros Hs Hh Hci Hb Hl. pose proof (ch_len _ _ _ Hh) as Hlen. pose proof (dk_msg _ _ Hs) as Hm.
  exists (drop (240 + length opts) (msg s)). split; [rewrite length_drop; lia |]. intros s1.
  assert (Hs1 : dhcp_ok k s1).
  { apply dhcp_ok_msg; [done | rewrite !length_app, length_drop; lia |].
    apply Forall_app_2; [apply Hh | apply Forall_app_2; [done |]]. apply Forall_drop, (dk_bytes _ _ Hs). }
  destruct (client_header_app hdr ci mac (opts ++ drop (240 + length opts) (msg s)) Hh Hci) as (E0 & E1 & E2 & E3 & E4).
  split; [exact Hs1 |]. split; [exact E4 |].
  unfold dhcp_receive. change (Z.to_nat SERVER_BUFFER_SIZE) with 1024%nat.
  rewrite take_ge by (rewrite length_app; lia). unfold mem_write. rewrite length_app, Hlen.
  destruct (Z.leb_spec (0 + Z.of_nat (240 + length opts)) (Z.of_nat (length (msg s)))); [| lia]. simpl andb. cbv iota.
  rewrite bind_ret. change (Z.to_nat 0) with 0%nat. rewrite take_0, <- (assoc_L (++)), Nat.add_0_l. cbn [app]. fold s1.
  destruct (Z.ltb_spec 0 (Z.of_nat (240 + length opts))); [| lia].
  unfold process_dhcp_message. rewrite wrap_small by lia. unfold sizeof_bootp_header, sizeof_bootp_option.
  destruct (Z.ltb_spec (Z.of_nat (240 + length opts)) (240 + 2 + 1)); [lia |].
  assert (Em : msg s1 = hdr ++ opts ++ drop (240 + length opts) (msg s)) by done. rewrite !Em.
  rewrite E0, bind_ret. simpl negb. cbv iota. simpl andb. cbv iota. rewrite E1, bind_ret, E2, bind_ret. simpl negb. simpl orb. cbv iota.
  rewrite E3, bind_ret, E4, bind_ret, of_le32_write_u32 by done. rewrite Nat2Z.id.
  replace (Z.of_nat (240 + length opts) - 240) with (Z.of_nat (length opts)) by lia. done.
Qed.

(** C23: A client sends a request whose header has no address of the client
    ([ciaddr] is 0) and whose options are the message type and the address it asks
    for. It is acknowledged exactly when it may use that address: it already
    leases it, or it leases nothing and the address is assignable and free.  The
    answer carries the address (or 0 in a refusal) and the client's hardware
    address, and an acknowledged new client is recorded if the table of leases has
    room: of a full one it is acknowledged and not recorded. *)
Theorem dhcp_request_answered k s hdr mac ip :
  dhcp_ok k s -> client_header hdr 0 mac -> 0 <= ip < 2 ^ 32 ->
  exists g s' h,
    dhcp_receive s (hdr ++ request_options ip) =
      Ret (WM_OK, s', Response (response_bytes s' (if g : bool then DHCP_MESSAGE_ACK else DHCP_MESSAGE_NAK) h) ::
                      (if g then [GratuitousArp (my_ip s)] else [])) /\
    (g = true <-> may_use k s mac ip) /\ length h = 240%nat /\
    mem_read h 16 4 = Ret (write_u32 (if g then ip else 0)) /\ mem_read h 28 6 = Ret mac /\
    leases s' = (if g && (ac_lookup_mac s mac =? 0) && ac_not_full s then leases s ++ [MkLease mac ip] else leases s).
Proof.
  intros Hs Hh Hip.
  destruct (receive_message k s hdr 0 mac (request_options ip) Hs Hh ltac:(lia)) as (rest & _ & Hs1 & Hmac & ->).
  { repeat apply Forall_app_2; [| apply write_u32_bytes |]; repeat constructor; discriminate. }
  { vm_compute. split; apply Nat.leb_le; reflexivity. }
  set (s1 := set_msg _ s) in *. change (Z.of_nat (length (request_options ip))) with 10.
  destruct (request_loop k s1 hdr mac ip rest 248 Hs1 (ch_len _ _ _ Hh) Hip eq_refl) as (g & s2 & Ec & (Hs2 & (Hmy2 & _) & Hm2) & El).
  change (240 + length (request_options ip))%nat with 250%nat. rewrite El, bind_ret. cbn [response_type ps_server].
  destruct (check_requested_ok False k (set_client_ip ip s1) mac false (dhcp_ok_client k s1 ip Hs1 Hip)) as (g' & s2' & Ec' & _ & Hcl & _).
  rewrite Ec in Ec'. injection Ec' as <- <-. cbn [client_ip set_client_ip] in Hcl.
  destruct (check_requested_spec k (set_client_ip ip s1) mac g s2 (dhcp_ok_client k s1 ip Hs1 Hip) Ec) as [Hg Hl].
  assert (Ht : response_type_ok (if g then DHCP_MESSAGE_ACK else DHCP_MESSAGE_NAK)) by (destruct g; unfold response_type_ok; tauto).
  cbn [msg set_client_ip] in Hm2. rewrite <- Hm2 in Hmac.
  destruct (make_response_spec k s2 _ mac Hs2 Ht Hmac) as (n & s3 & h & y & -> & Hs3 & (Hmy3 & _) & Hr & Hhl & Hy & Hmh & Hyl).
  rewrite bind_ret. exists g, s3, h. rewrite Hr, Hmy3, Hmy2. cbn [my_ip set_client_ip].
  destruct g; cbn [decide] in *; (destruct (decide _) in Hyl; [done |]); destruct Hyl as [Hyl Hl3].
  - split; [reflexivity |]. split; [exact Hg |]. split; [exact Hhl |]. split; [rewrite Hy, Hyl, <- Hcl; reflexivity |].
    split; [exact Hmh |]. rewrite Hl3. exact Hl.
  - split; [reflexivity |]. split; [exact Hg |]. split; [exact Hhl |]. split; [rewrite Hy, Hyl; reflexivity |].
    split; [exact Hmh |]. rewrite Hl3. exact Hl.
Qed.

Lemma ex_client_header n : is_byte n -> client_header (ex_header (ex_mac n) 0) 0 (ex_mac n).
Proof.
  intros Hn. assert (H0 : is_byte 0) by (unfold is_byte; lia). split; try reflexivity.
  repeat apply Forall_app_2; try apply write_u32_bytes; try (by apply Forall_replicate);
    repeat (constructor; [first [exact Hn | vm_compute; split; [discriminate | reflexivity]] |]); constructor.
Qed.

Lemma dhcp_request_answered_witness :
  exists s' h, dhcp_receive ex_dhcps (ex_request (ex_mac 7) 0 (ip4 192 168 10 77)) =
      Ret (WM_OK, s', [Response (response_bytes s' DHCP_MESSAGE_ACK h); GratuitousArp (ip4 192 168 10 1)]) /\
    leases s' = [MkLease (ex_mac 7) (ip4 192 168 10 77)].
Proof.
  destruct (dhcp_request_answered 8 ex_dhcps (ex_header (ex_mac 7) 0) (ex_mac 7) (ip4 192 168 10 77) ex_dhcps_ok)
    as (g & s' & h & E & [_ Hg] & _ & _ & _ & Hl).
  - apply ex_client_header. unfold is_byte. lia.
  - vm_compute. split; [discriminate | reflexivity].
  - assert (Hu : may_use 8 ex_dhcps (ex_mac 7) (ip4 192 168 10 77)).
    { unfold may_use. change (ac_lookup_mac ex_dhcps (ex_mac 7) =? 0) with true. cbv iota. split.
      - unfold assignable. split; [vm_compute; split; [discriminate | reflexivity] |]. vm_compute. repeat split; discriminate.
      - apply not_elem_of_nil. }
    rewrite (Hg Hu) in *. exists s', h. split; [exact E | exact Hl].
Defined.

(** The options of a discovery. *)
Definition discover_options : list Z := [53; 1; 1; 255].

(** A discovery is answered by an offer of an address the client may use (its
    lease, or a free assignable one), for any consistent lease table on a
    subnet of at least sixteen addresses; a new client is recorded while the
    table has room, so that its request is acknowledged. *)
Theorem dhcp_discover_offered k s hdr mac :
  dhcp_ok k s -> client_header hdr 0 mac ->
  exists s' h ip,
    dhcp_receive s (hdr ++ discover_options) = Ret (WM_OK, s', [Response (response_bytes s' DHCP_MESSAGE_OFFER h)]) /\
    may_use k s mac ip /\ 0 <= ip < 2 ^ 32 /\ length h = 240%nat /\
    mem_read h 16 4 = Ret (write_u32 ip) /\ mem_read h 28 6 = Ret mac /\
    leases s' = (if (ac_lookup_mac s mac =? 0) && ac_not_full s then leases s ++ [MkLease mac ip] else leases s).
Proof.
  intros Hs Hh.
  destruct (receive_message k s hdr 0 mac discover_options Hs Hh ltac:(lia)) as (rest & _ & Hs1 & Hmac & ->).
  { repeat constructor; discriminate. }
  { vm_compute. split; apply Nat.leb_le; reflexivity. }
  set (s1 := set_msg _ s) in *. change (Z.of_nat (length discover_options)) with 4.
  change (240 + length discover_options)%nat with (S 243).
  assert (Hget : forall i x, 0 <= i -> arr_get (discover_options ++ rest) i = Ret x -> arr_get (msg s1) (240 + i) = Ret x)
    by (intros i x Hi Hx; apply arr_get_app_r; [rewrite (ch_len _ _ _ Hh); lia | done | done]).
  erewrite options_loop_step; [| lia | exact (Hget 0 53 ltac:(lia) eq_refl) | discriminate
    | exact (Hget 1 1 ltac:(lia) eq_refl) | apply parse_discover_type; exact (Hget 2 1 ltac:(lia) eq_refl)].
  rewrite options_loop_end; [| lia | exact (Hget 3 255 ltac:(lia) eq_refl)].
  rewrite bind_ret. cbn [response_type ps_server]. destruct (decide (DHCP_MESSAGE_OFFER = DHCP_NO_RESPONSE)); [done |].
  destruct (make_response_spec k s1 DHCP_MESSAGE_OFFER mac Hs1 ltac:(by left) Hmac)
    as (n' & s3 & h & y & -> & Hs3 & _ & Hr & Hhl & Hy & Hmh & Hyl).
  rewrite bind_ret, Hr. destruct (decide (DHCP_MESSAGE_OFFER = DHCP_MESSAGE_OFFER)); [| done].
  destruct Hyl as (s2 & En & Hl3). exists s3, h, y. split; [reflexivity |].
  destruct (next_yiaddr_spec k s1 mac Hs1) as (a & s2' & En' & _ & _ & _ & Ha & Hasg & Hcase).
  rewrite En in En'. injection En' as <- <-. unfold may_use.
  change (ac_lookup_mac s1 mac) with (ac_lookup_mac s mac) in Hcase. change (ac_not_full s1) with (ac_not_full s) in Hcase.
  change (leases s1) with (leases s) in Hcase. rewrite Hl3. destruct (ac_lookup_mac s mac =? 0).
  - destruct Hcase as [Hf Hl]. split; [split; [exact Hasg | exact Hf] |].
    split; [done |]. split; [done |]. split; [done |]. split; [done |]. simpl. by destruct (ac_not_full s).
  - destruct Hcase as [-> ->]. done.
Qed.

Lemma dhcp_discover_offered_witness :
  exists s' h ip, dhcp_receive ex_dhcps (ex_header (ex_mac 7) 0 ++ discover_options) =
    Ret (WM_OK, s', [Response (response_bytes s' DHCP_MESSAGE_OFFER h)]) /\ leases s' = [MkLease (ex_mac 7) ip].
Proof.
  destruct (dhcp_discover_offered 8 ex_dhcps (ex_header (ex_mac 7) 0) (ex_mac 7) ex_dhcps_ok)
    as (s' & h & ip & E & _ & _ & _ & _ & _ & Hl).
  - apply ex_client_header. unfold is_byte. lia.
  - exists s', h, ip. split; [exact E | exact Hl].
Defined.

(** ** The layout of responses *)
Lemma message_options_encode l rest : forall fuel, (length l < fuel)%nat ->
  Forall (fun o : Z * list Z => fst o <> BOOTP_END_OPTION) l ->
  message_options fuel (encode_options l ++ BOOTP_END_OPTION :: rest) = Some l.
Proof.
  induction l as [| [t v] l IH]; intros [| fuel] Hf Hl; simpl in Hf; try lia; [done |].
  apply List.Forall_cons_iff in Hl as [Ht Hl]. cbn [fst] in Ht.
  change (encode_options ((t, v) :: l)) with (t :: Z.of_nat (length v) :: (v ++ encode_options l)).
  cbn [message_options app]. apply Z.eqb_neq in Ht as ->. rewrite <- (assoc_L (++)), Nat2Z.id, length_app.
  destruct (Z.ltb_spec (Z.of_nat (length v + length (encode_options l ++ BOOTP_END_OPTION :: rest))) (Z.of_nat (length v))); [lia |].
  rewrite drop_app_length, take_app_length, IH by (done || lia). done.
Qed.

(** Parsing the options of an offer or an acknowledgement gives back exactly
    the six options the server means to send: message type, netmask, lease
    time, server, router and name server, then the end. *)
Theorem dhcp_response_parses k s type mac :
  dhcp_ok k s -> type = DHCP_MESSAGE_OFFER \/ type = DHCP_MESSAGE_ACK -> mem_read (msg s) 28 6 = Ret mac ->
  exists n s', make_response s type = Ret (n, s') /\ 0 <= n <= SERVER_BUFFER_SIZE /\
    message_options 7 (drop 240 (take (Z.to_nat n) (msg s'))) = Some (standard_options s' type).
Proof.
  intros Hs Ht Hm. assert (Htn : type <> DHCP_MESSAGE_NAK) by (destruct Ht as [-> | ->]; done).
  destruct (make_response_spec k s type mac Hs ltac:(unfold response_type_ok; tauto) Hm)
    as (n & s' & h & y & E & Hs' & _ & Hr & Hh & _).
  exists n, s'. split; [exact E |].
  pose proof (f_equal length Hr) as Hlen. rewrite response_bytes_length, length_take, (dk_msg _ _ Hs') in Hlen by done.
  split; [unfold SERVER_BUFFER_SIZE; lia |].
  rewrite Hr. unfold response_bytes. destruct (decide _); [done |]. rewrite drop_app_length' by done.
  apply message_options_encode; [simpl; lia |].
  repeat (constructor; [discriminate |]). constructor.
Qed.

Lemma dhcp_response_parses_witness :
  exists n s', make_response ex_dhcps DHCP_MESSAGE_OFFER = Ret (n, s') /\ 0 <= n <= SERVER_BUFFER_SIZE /\
    message_options 7 (drop 240 (take (Z.to_nat n) (msg s'))) = Some (standard_options s' DHCP_MESSAGE_OFFER).
Proof. exact (dhcp_response_parses 8 ex_dhcps DHCP_MESSAGE_OFFER [0; 0; 0; 0; 0; 0] ex_dhcps_ok (or_introl eq_refl) eq_refl). Defined.

(** A refusal has no end option: the function returns before writing it, so
    what the client parses runs off the end of the message. *)
Theorem dhcp_refusal_has_no_end k s mac :
  dhcp_ok k s -> mem_read (msg s) 28 6 = Ret mac ->
  exists s', make_response s DHCP_MESSAGE_NAK = Ret (243, s') /\ mem_read (msg s') 240 3 = Ret [53; 1; 6] /\
    forall fuel, message_options fuel (drop 240 (take 243 (msg s'))) = None.
Proof.
  intros Hs Hm. destruct (make_response_spec k s DHCP_MESSAGE_NAK mac Hs ltac:(unfold response_type_ok; tauto) Hm)
    as (n & s' & h & y & E & Hs' & _ & Hr & Hh & _).
  unfold response_bytes in Hr. destruct (decide (DHCP_MESSAGE_NAK = DHCP_MESSAGE_NAK)); [| done].
  pose proof (f_equal length Hr) as Hlen. rewrite length_app, Hh, length_take, (dk_msg _ _ Hs') in Hlen. simpl in Hlen.
  assert (Hn : n = 243) by lia. subst n. exists s'. split; [exact E |].
  change (Z.to_nat 243) with 243%nat in Hr. split.
  - rewrite <- (take_drop 243 (msg s')), Hr, <- (assoc_L (++)). by apply mem_read_app; [rewrite Hh |].
  - intros fuel. rewrite Hr, drop_app_length' by done. destruct fuel as [| [| fuel]]; reflexivity.
Qed.

Lemma dhcp_refusal_has_no_end_witness :
  exists s', make_response ex_dhcps DHCP_MESSAGE_NAK = Ret (243, s') /\
    forall fuel, message_options fuel (drop 240 (take 243 (msg s'))) = None.
Proof.
  destruct (dhcp_refusal_has_no_end 8 ex_dhcps [0; 0; 0; 0; 0; 0] ex_dhcps_ok eq_refl) as (s' & E & _ & H). by exists s'.
Defined.

(** ** Where the server is stuck or wrong *)

(** The search for the next address has no end when the subnet has no
    assignable address left: it takes every fuel. *)
Theorem next_yiaddr_full_subnet_hangs s ip :
  (forall a, ac_valid_ip s (following_ip s a) = false) ->
  forall fuel, next_ip_loop fuel s (following_ip s ip) = Fault OutOfFuel.
Proof.
  intros Hv fuel. revert ip. induction fuel as [| fuel IH]; intros ip; [done |].
  simpl. rewrite Hv. apply IH.
Qed.

(** 192.168.10.1/30 whose only client address is leased. *)
Definition ex_full_subnet : dhcp_server_data :=
  ex_server (ip4 255 255 255 252) (ip4 192 168 10 1) [MkLease (ex_mac 1) (ip4 192 168 10 2)].

Lemma next_yiaddr_full_subnet_hangs_witness :
  next_ip_loop 10000 ex_full_subnet (following_ip ex_full_subnet 0) = Fault OutOfFuel.
Proof.
  apply next_yiaddr_full_subnet_hangs. intros a. unfold following_ip.
  change (ntohl (not32 (netmask ex_full_subnet))) with 3.
  change 3 with (2 ^ 2 - 1). rewrite land_ones_mod by lia.
  pose proof (Z.mod_pos_bound (u32 (a + 1)) 4 ltac:(lia)) as Hm. change (2 ^ 2) with 4.
  set (h := u32 (a + 1) mod 4) in *.
  assert (h = 0 \/ h = 1 \/ h = 2 \/ h = 3) as [-> | [-> | [-> | ->]]] by lia; vm_compute; reflexivity.
Defined.

Definition last_response (r : outcome (dhcp_status * dhcp_server_data * list dhcp_event)) : list Z :=
  match r with Ret (_, _, Response b :: _) => b | _ => [] end.
Definition next_server (s : dhcp_server_data) (r : outcome (dhcp_status * dhcp_server_data * list dhcp_event)) : dhcp_server_data :=
  match r with Ret (_, s', _) => s' | Fault _ => s end.
(** The message type and the address of a response. *)
Definition answer (b : list Z) : Z * list Z := (default 0 (b !! 242%nat), take 4 (drop 16 b)).

Definition ex_full_table : dhcp_server_data :=
  ex_server (ip4 255 255 255 0) (ip4 192 168 10 1)
    ((fun n => MkLease (ex_mac n) (ip4 192 168 10 (10 + n))) <$> [1; 2; 3; 4; 5; 6; 7; 8]).

(** With a full table the server acknowledges one address to two clients: an
    acknowledged lease it cannot record is forgotten. *)
Theorem dhcp_full_table_shares_address :
  let r1 := dhcp_receive ex_full_table (ex_request (ex_mac 20) 0 (ip4 192 168 10 99)) in
  let r2 := dhcp_receive (next_server ex_full_table r1) (ex_request (ex_mac 21) 0 (ip4 192 168 10 99)) in
  answer (last_response r1) = (5, [192; 168; 10; 99]) /\ answer (last_response r2) = (5, [192; 168; 10; 99]).
Proof. vm_compute. split; reflexivity. Qed.

(** A client that names a good address in the header and another one in a
    later option is acknowledged the second one, although it is outside the
    subnet: the check of the second leaves the verdict on the first. *)
Theorem dhcp_acknowledges_outside_subnet :
  answer (last_response (dhcp_receive ex_dhcps
    (ex_request (ex_mac 7) (ip4 192 168 10 77) (ip4 8 8 8 8)))) = (5, [8; 8; 8; 8]).
Proof. vm_compute. reflexivity. Qed.

(** A full-size datagram of one-byte options makes the option loop read past
    the receive buffer: the loop tests only that one byte is left. *)
Theorem dhcp_option_header_overread :
  dhcp_receive ex_dhcps (ex_header (ex_mac 7) 0 ++ [0; 1; 0] ++ replicate 781 0) = Fault OutOfBounds.
Proof. vm_compute. reflexivity. Qed.

(** ** Sending *)

(** Sending in parts: the loop returns once the stack has taken every byte. *)
Lemma send_response_sum fuel : forall sendto calls sent len,
  0 <= len < 2 ^ 31 -> 0 <= sent <= len -> (forall i, 0 < sendto i \/ sendto i < 0) ->
  (forall i, sendto i <= len) -> len - sent <= Z.of_nat fuel ->
  exists st, dhcp_send_response fuel sendto calls sent len = Ret st /\
    (st = WM_OK \/ (st = DHCPD_RESP_SEND /\ exists i, sendto i < 0)).
Proof.
  induction fuel as [| fuel IH]; intros sendto calls sent len Hl Hs Hp Hm Hf; simpl; rewrite wrap_small by lia;
    (destruct (Z.ltb_spec sent len); [| by exists WM_OK; split; [| left]]); [lia |].
  destruct (Z.ltb_spec (sendto calls) 0); [exists DHCPD_RESP_SEND; split; [done |]; right; split; [done |]; by exists calls |].
  destruct (Hp calls) as [Hpos | ]; [| lia]. specialize (Hm calls) as Hmc. rewrite wrap_small by lia.
  destruct (Z.leb_spec (sent + sendto calls) len) as [Hle | Hgt].
  - apply IH; try done; lia.
  - exists WM_OK. split; [| by left]. destruct fuel; simpl; rewrite wrap_small by lia; (destruct (Z.ltb_spec (sent + sendto calls) len); [lia | done]).
Qed.

(** Sending a response returns, after at most one call for each byte, when every call
    of the stack takes at least one byte or fails; it reports an error only
    when a call failed. *)
Theorem dhcp_send_response_returns sendto len :
  0 <= len < 2 ^ 31 -> (forall i, sendto i < 0 \/ 0 < sendto i <= len) ->
  exists st, dhcp_send_response (Z.to_nat len) sendto 0 0 len = Ret st /\
    (st = WM_OK \/ (st = DHCPD_RESP_SEND /\ exists i, sendto i < 0)).
Proof. intros Hl Hs. apply send_response_sum; try lia; intros i; destruct (Hs i); lia. Qed.

Lemma dhcp_send_response_returns_witness :
  exists st, dhcp_send_response 274 (fun i => if (i <? 2)%nat then 100 else 74) 0 0 274 = Ret st /\
    (st = WM_OK \/ (st = DHCPD_RESP_SEND /\ exists i, (if (i <? 2)%nat then 100 else 74) < 0)).
Proof. apply (dhcp_send_response_returns (fun i => if (i <? 2)%nat then 100 else 74) 274); [lia |]. intros i. case_match; lia. Defined.
