(* ===== verification/CString.v ===== *)
(** * C strings in memory

    The string functions of the C library that the console and the name server
    use, on a list of characters with checked accesses; a string's own bytes
    are the characters up to its NUL. *)
From S2P Require Import Prelude.
From stdpp Require Export strings.
Open Scope Z_scope.

(** The characters of a literal. *)
Definition lit (s : String.string) : list Z := (fun a => Z.of_N (Ascii.N_of_ascii a)) <$> String.list_ascii_of_string s.
Arguments lit s%_string.

(** [strlen] of the string at the head of [l]. *)
Fixpoint strlen_list (l : list Z) : outcome Z :=
  match l with
  | [] => Fault OutOfBounds
  | c :: l' => if c =? 0 then Ret 0 else n ← strlen_list l'; Ret (n + 1)
  end.
Definition c_strlen (m : list Z) (pos : Z) : outcome Z := strlen_list (drop (Z.to_nat pos) m).

(** The string at [pos]. *)
Definition c_string (m : list Z) (pos : Z) : outcome (list Z) := n ← c_strlen m pos; mem_read m pos n.

(** [strcmp(s, &m[pos]) == 0] for the string [s]. *)
Fixpoint strcmp_eq (s : list Z) (m : list Z) (pos : Z) : outcome bool :=
  c ← arr_get m pos;
  match s with
  | [] => Ret (c =? 0)
  | a :: s' => if c =? a then strcmp_eq s' m (pos + 1) else Ret false
  end.

(** [strncmp(s, &m[pos], len) == 0]. *)
Fixpoint strncmp_eq (s : list Z) (m : list Z) (pos len : Z) : outcome bool :=
  if len <=? 0 then Ret true
  else
    c ← arr_get m pos;
    match s with
    | [] => Ret (c =? 0)
    | a :: s' => if c =? a then strncmp_eq s' m (pos + 1) (len - 1) else Ret false
    end.

(** [strchr]: the offset of [c] in the string at the head of [l]. *)
Fixpoint strchr_list (l : list Z) (c : Z) : outcome (option Z) :=
  match l with
  | [] => Fault OutOfBounds
  | a :: l' =>
      if a =? c then Ret (Some 0)
      else if a =? 0 then Ret None
      else o ← strchr_list l' c; Ret (match o with Some n => Some (n + 1) | None => None end)
  end.
Definition c_strchr (m : list Z) (pos c : Z) : outcome (option Z) := strchr_list (drop (Z.to_nat pos) m) c.

(** ** Facts *)
Definition no_nul (s : list Z) : Prop := Forall (fun c => c <> 0) s.

Lemma strlen_list_app s rest : no_nul s -> strlen_list (s ++ 0 :: rest) = Ret (Z.of_nat (length s)).
Proof.
  induction 1 as [| c s Hc _ IH]; [done |]. apply Z.eqb_neq in Hc. cbn [app strlen_list length]. rewrite Hc, IH.
  cbn [mbind outcome_bind]. f_equal. lia.
Qed.

Lemma c_strlen_app pre s rest pos : pos = Z.of_nat (length pre) -> no_nul s ->
  c_strlen (pre ++ s ++ 0 :: rest) pos = Ret (Z.of_nat (length s)).
Proof. intros -> Hs. unfold c_strlen. rewrite Nat2Z.id, drop_app_length. by apply strlen_list_app. Qed.

Lemma c_string_app pre s rest pos : pos = Z.of_nat (length pre) -> no_nul s ->
  c_string (pre ++ s ++ 0 :: rest) pos = Ret s.
Proof. intros Hp Hs. unfold c_string. rewrite (c_strlen_app pre) by done. by rewrite bind_ret, mem_read_app. Qed.

Lemma strcmp_eq_app s : forall pre t rest pos, pos = Z.of_nat (length pre) -> no_nul s -> no_nul t ->
  strcmp_eq s (pre ++ t ++ 0 :: rest) pos = Ret (bool_decide (s = t)).
Proof.
  induction s as [| a s IH]; intros pre t rest pos Hp Hs Ht.
  - destruct t as [| c t]; cbn [strcmp_eq app]; rewrite (arr_get_app pre) by done; rewrite bind_ret; [done |].
    apply List.Forall_cons_iff in Ht as [Hc _]. apply Z.eqb_neq in Hc as ->. by rewrite bool_decide_false.
  - apply List.Forall_cons_iff in Hs as [Ha Hs].
    destruct t as [| c t]; cbn [strcmp_eq app]; rewrite (arr_get_app pre) by done; rewrite bind_ret.
    + destruct (Z.eqb_spec 0 a); [lia |]. by rewrite bool_decide_false.
    + apply List.Forall_cons_iff in Ht as [Hc Ht]. destruct (Z.eqb_spec c a) as [-> | Hne].
      * rewrite (cons_middle a), (assoc_L (++)). rewrite IH; [| rewrite length_app; simpl; lia | done | done].
        f_equal. apply bool_decide_ext. split; congruence.
      * rewrite bool_decide_false; [done | congruence].
Qed.

Lemma strchr_list_absent s rest c : no_nul s -> c <> 0 -> c ∉ s -> strchr_list (s ++ 0 :: rest) c = Ret None.
Proof.
  intros Hs Hc. induction Hs as [| a s Ha _ IH]; intros Hin; cbn [app strchr_list].
  - destruct (Z.eqb_spec 0 c); [lia | done].
  - apply not_elem_of_cons in Hin as [Hac Hin]. destruct (Z.eqb_spec a c); [congruence |].
    apply Z.eqb_neq in Ha as ->. by rewrite IH.
Qed.

Lemma strlen_list_fault l f : strlen_list l = Fault f -> f = OutOfBounds.
Proof.
  induction l as [| c l IH]; simpl; [congruence |]. destruct (c =? 0); [done |].
  destruct (strlen_list l); simpl; [done |]. intros E. apply IH. congruence.
Qed.

Lemma strlen_list_bound l n : strlen_list l = Ret n -> 0 <= n < Z.of_nat (length l) /\ l !! Z.to_nat n = Some 0.
Proof.
  revert n. induction l as [| c l IH]; intros n; simpl; [done |]. destruct (Z.eqb_spec c 0) as [-> | ].
  - intros E. injection E as <-. split; [lia | done].
  - intros (k & Hk & E)%bind_inv. injection E as <-. destruct (IH _ Hk) as [Hr Hl]. split; [lia |].
    replace (Z.to_nat (k + 1)) with (S (Z.to_nat k)) by lia. done.
Qed.
