(* ===== verification/Cli.v ===== *)
(** * The command-line console

    Models [cli/cli.c] and [cli/cli_mem_simple.c]: the table of commands, the
    line editor that the idle hook runs on each character, the parser that
    splits a line in its buffer, and the passing of a line buffer from the
    editor to the command thread. *)
From S2P Require Import Prelude CString.

(** ** Constants and data *)
Definition INBUF_SIZE : Z := 512.
Definition MAX_COMMANDS : Z := 100.
Definition ARGV_SIZE : Z := 64.
Definition END_CHAR : Z := 13.
Definition QUOTE : Z := 34.
Definition SPACE : Z := 32.
Definition BACKSLASH : Z := 92.
Definition PROMPT : list Z := [13; 10] ++ lit "# ".
Definition HALT_MSG : list Z := lit "CLI_HALT".
Definition crlf : list Z := [13; 10].

(** A registered command; [command_id] stands for its address. *)
Record cli_command := MkCommand {
  command_id : Z;
  name : option (list Z);
  help : option (list Z);
  has_function : bool
}.

(** [buff1] and [buff2] of the allocator, and what the queue carries. *)
Inductive slot := Buff1 | Buff2.
Inductive message := MsgBuffer (b : slot) | MsgHalt.
#[export] Instance slot_eq_dec : EqDecision slot.
Proof. solve_decision. Defined.
#[export] Instance message_eq_dec : EqDecision message.
Proof. solve_decision. Defined.

Inductive key_state := BASIC_KEY | EXT_KEY_FIRST_SYMBOL | EXT_KEY_SECOND_SYMBOL.
#[export] Instance key_state_eq_dec : EqDecision key_state.
Proof. solve_decision. Defined.

(** ** The table of commands *)
Definition command_table : Type := list (option cli_command).

(** Whether entry [c] is the one looked for: a match of [len] bytes, or of the
    whole name when [len] is 0. *)
Definition name_matches (nm : list Z) (m : list Z) (pos len : Z) : outcome bool :=
  if negb (len =? 0) then strncmp_eq nm m pos len else strcmp_eq nm m pos.

Fixpoint lookup_loop (cmds : command_table) (n num : Z) (m : list Z) (pos len : Z) : outcome (option cli_command) :=
  match cmds with
  | [] => Ret None
  | c :: cmds' =>
      if n <? num then
        match c with
        | None => Fault NullPointer
        | Some cmd =>
            match name cmd with
            | None => lookup_loop cmds' n num m pos len
            | Some nm =>
                b ← name_matches nm m pos len;
                if (b : bool) then Ret (Some cmd) else lookup_loop cmds' (n + 1) num m pos len
            end
        end
      else Ret None
  end.
Definition lookup_command (cmds : command_table) (num : Z) (m : list Z) (pos len : Z) : outcome (option cli_command) :=
  lookup_loop (take (Z.to_nat MAX_COMMANDS) cmds) 0 num m pos len.

Definition same_command (a : option cli_command) (c : cli_command) : bool :=
  match a with Some x => command_id x =? command_id c | None => false end.

Fixpoint find_command (cmds : command_table) (i num : Z) (c : cli_command) : option Z :=
  match cmds with
  | [] => None
  | x :: cmds' => if i <? num then if same_command x c then Some i else find_command cmds' (i + 1) num c else None
  end.

(** Both give the C result and the table with its count. *)
Definition cli_register_command (cmds : command_table) (num : Z) (c : cli_command) : outcome (Z * command_table * Z) :=
  match name c with
  | None => Ret (1, cmds, num)
  | Some _ =>
      if negb (has_function c) then Ret (1, cmds, num)
      else if num <? MAX_COMMANDS then
        match find_command cmds 0 num c with
        | Some _ => Ret (0, cmds, num)
        | None => cmds' ← arr_set cmds num (Some c); Ret (0, cmds', num + 1)
        end
      else Ret (1, cmds, num)
  end.

Definition cli_unregister_command (cmds : command_table) (num : Z) (c : cli_command) : outcome (Z * command_table * Z) :=
  match name c with
  | None => Ret (1, cmds, num)
  | Some _ =>
      if negb (has_function c) then Ret (1, cmds, num)
      else match find_command cmds 0 num c with
           | None => Ret (1, cmds, num)
           | Some i =>
               let num' := num - 1 in
               let remaining_cmds := num' - i in
               cmds1 ← (if remaining_cmds >? 0
                        then rest ← mem_read cmds (i + 1) remaining_cmds; mem_write cmds i rest
                        else Ret cmds);
               cmds2 ← arr_set cmds1 num' None;
               Ret (0, cmds2, num')
           end
  end.

(** [cli_register_commands] and [cli_unregister_commands] stop at the first
    failure. *)
Fixpoint for_commands (f : command_table -> Z -> cli_command -> outcome (Z * command_table * Z))
    (cs : list cli_command) (cmds : command_table) (num : Z) : outcome (Z * command_table * Z) :=
  match cs with
  | [] => Ret (0, cmds, num)
  | c :: cs' =>
      '(r, cmds1, num1) ← f cmds num c;
      if negb (r =? 0) then Ret (1, cmds1, num1) else for_commands f cs' cmds1 num1
  end.
Definition cli_register_commands := for_commands cli_register_command.
Definition cli_unregister_commands := for_commands cli_unregister_command.

(** What [help] prints. *)
Fixpoint help_loop (cmds : command_table) (n num : Z) : outcome (list Z) :=
  match cmds with
  | [] => Ret []
  | c :: cmds' =>
      if n <? num then
        match c with
        | None => Fault NullPointer
        | Some cmd =>
            match name cmd with
            | None => help_loop cmds' n num
            | Some nm => o ← help_loop cmds' (n + 1) num; Ret (nm ++ [SPACE] ++ default [] (help cmd) ++ crlf ++ o)
            end
        end
      else Ret []
  end.
Definition help_command (cmds : command_table) (num : Z) : outcome (list Z) :=
  o ← help_loop (take (Z.to_nat MAX_COMMANDS) cmds) 0 num; Ret (crlf ++ o).

(** ** Splitting a line *)

(** The loop meant to strip CR and LF; [i] is 0 when it runs. *)
Definition strip_char (buf : list Z) (i j : Z) : outcome (list Z) :=
  c ← arr_get buf j;
  if (c =? 13) || (c =? 10) then
    buf1 ← (if j <? INBUF_SIZE - 1
            then rest ← mem_read buf (j + 1) (INBUF_SIZE - i); mem_write buf j rest
            else Ret buf);
    arr_set buf1 INBUF_SIZE 0
  else Ret buf.
Fixpoint strip_loop (k : nat) (buf : list Z) (i j : Z) : outcome (list Z) :=
  match k with
  | O => Ret buf
  | S k' => buf1 ← strip_char buf i j; strip_loop k' buf1 i (j + 1)
  end.

(** The parser's variables; an argument is the position of its first
    character in the buffer. *)
Record parser := MkParser {
  in_arg : bool;
  in_quote : bool;
  argc : Z;
  argv : list (option Z);
  pbuf : list Z;
  pi : Z
}.
Inductive parse_result := Next (p : parser) | EndOfLine (p : parser) | SyntaxError (p : parser).

Definition set_stat (a q : bool) (p : parser) : parser := MkParser a q (argc p) (argv p) (pbuf p) (pi p).
Definition set_pbuf (b : list Z) (p : parser) : parser := MkParser (in_arg p) (in_quote p) (argc p) (argv p) b (pi p).
Definition set_pi (i : Z) (p : parser) : parser := MkParser (in_arg p) (in_quote p) (argc p) (argv p) (pbuf p) i.
Definition advance (p : parser) : parse_result := Next (set_pi (pi p + 1) p).

(** [argc++; argv[argc - 1] = &buf[at]]. *)
Definition start_arg (at_ : Z) (p : parser) : outcome parser :=
  argv' ← arr_set (argv p) (argc p) (Some at_);
  Ret (MkParser (in_arg p) (in_quote p) (argc p + 1) argv' (pbuf p) (pi p)).

(** A quote or blank after a backslash inside an argument. *)
Definition escaped (p : parser) : outcome bool :=
  if 0 <? pi p then c ← arr_get (pbuf p) (pi p - 1); Ret ((c =? BACKSLASH) && in_arg p) else Ret false.

(** The rest of the line moves one to the left, over the backslash.  (The code
    calls [memcpy] on overlapping ranges; a copy in ascending order is meant.) *)
Definition shift_left (p : parser) : outcome parser :=
  n ← c_strlen (pbuf p) (pi p);
  rest ← mem_read (pbuf p) (pi p) (n + 1);
  buf ← mem_write (pbuf p) (pi p - 1) rest;
  Ret (set_pi (pi p - 1) (set_pbuf buf p)).

Definition end_arg (p : parser) : outcome parser := buf ← arr_set (pbuf p) (pi p) 0; Ret (set_pbuf buf p).

Definition parse_char (p : parser) : outcome parse_result :=
  c ← arr_get (pbuf p) (pi p);
  if c =? 0 then Ret (if in_quote p then SyntaxError p else EndOfLine p)
  else if c =? QUOTE then
    e ← escaped p;
    if (e : bool) then p1 ← shift_left p; Ret (advance p1)
    else match in_quote p, in_arg p with
         | false, true => Ret (advance p)
         | true, false => Ret (SyntaxError p)
         | false, false => p1 ← start_arg (pi p + 1) (set_stat true true p); Ret (advance p1)
         | true, true => p1 ← end_arg (set_stat false false p); Ret (advance p1)
         end
  else if c =? SPACE then
    e ← escaped p;
    if (e : bool) then p1 ← shift_left p; Ret (advance p1)
    else if negb (in_quote p) && in_arg p then p1 ← end_arg (set_stat false (in_quote p) p); Ret (advance p1)
    else Ret (advance p)
  else if negb (in_arg p) then p1 ← start_arg (pi p) (set_stat true (in_quote p) p); Ret (advance p1)
  else Ret (advance p).

Fixpoint parse_loop (fuel : nat) (p : parser) : outcome parse_result :=
  match fuel with
  | O => Fault OutOfFuel
  | S fuel' =>
      r ← parse_char p;
      match r with
      | Next p' => if pi p' <? INBUF_SIZE then parse_loop fuel' p' else Ret (EndOfLine p')
      | _ => Ret r
      end
  end.

(** An index is left for good after at most two rounds. *)
Definition parse_fuel : nat := 1026.

(** The call of a command's function: the command, and its arguments as
    positions in the line. *)
Record call := MkCall { call_command : cli_command; call_argc : Z; call_argv : list (option Z) }.

(** [handle_input]: its result, the line as it leaves it, its output and the
    function it calls. *)
Definition handle_input (cmds : command_table) (num : Z) (echo_disabled : bool) (line : list Z) :
    outcome (Z * list Z * list Z * option call) :=
  buf ← strip_loop (Z.to_nat INBUF_SIZE) line 0 0;
  r ← parse_loop parse_fuel (MkParser false false 0 (replicate (Z.to_nat ARGV_SIZE) None) buf 0);
  match r with
  | SyntaxError p => Ret (2, pbuf p, [], None)
  | Next p | EndOfLine p =>
      if in_quote p then Ret (2, pbuf p, [], None)
      else if argc p <? 1 then Ret (0, pbuf p, [], None)
      else
        let out := if echo_disabled then [] else crlf in
        first ← arr_get (argv p) 0;
        match first with
        | None => Fault NullPointer
        | Some a0 =>
            dot ← c_strchr (pbuf p) a0 46;
            command ← lookup_command cmds num (pbuf p) a0 (default 0 dot);
            match command with
            | None => Ret (1, pbuf p, out, None)
            | Some c => Ret (0, pbuf p, out, Some (MkCall c (argc p) (argv p)))
            end
        end
  end.

(** [print_bad_command]: characters outside the printable range in hex. *)
Definition hex_digit (d : Z) : Z := if d <? 10 then 48 + d else 87 + d.
Definition hex_of_byte (c : Z) : list Z := if c <? 16 then [hex_digit c] else [hex_digit (c / 16); hex_digit (c mod 16)].
Definition isprint (c : Z) : bool := (32 <=? c) && (c <? 127).
Definition print_bad_command (line : list Z) : outcome (list Z) :=
  s ← c_string line 0;
  Ret (lit "command '" ++ (s ≫= (fun c => if isprint c then [c] else lit "\0x" ++ hex_of_byte c)) ++ lit "' not found" ++ crlf).

(** ** Editing a line *)

(** The variables of the editor: the two statics of [get_input], the buffer
    and the position of the next character. *)
Record editor := MkEditor {
  state : key_state;
  second_char : Z;
  inbuf : list Z;
  bp : Z
}.
Definition set_inbuf (b : list Z) (s : editor) : editor := MkEditor (state s) (second_char s) b (bp s).
Definition set_state (k : key_state) (s : editor) : editor := MkEditor k (second_char s) (inbuf s) (bp s).
Definition set_bp (n : Z) (s : editor) : editor := MkEditor (state s) (second_char s) (inbuf s) n.

(** The commands that match what was typed: their number [m], the first match
    [fm] and the output. *)
Fixpoint matches_loop (cmds : command_table) (n num : Z) (typed : list Z) (len : Z) (m : Z) (fm : option (list Z)) :
    outcome (Z * option (list Z) * list Z) :=
  match cmds with
  | [] => Ret (m, fm, [])
  | c :: cmds' =>
      if n <? num then
        match c with
        | None => Fault NullPointer
        | Some cmd =>
            match name cmd with
            | None => matches_loop cmds' n num typed len m fm
            | Some nm =>
                b ← strncmp_eq nm typed 0 len;
                if (b : bool) then
                  let fm' := if m =? 0 then Some nm else fm in
                  let out := if m =? 0 then []
                             else if m =? 1 then default [] fm ++ [SPACE] ++ nm ++ [SPACE] else nm ++ [SPACE] in
                  '(m', fm'', o) ← matches_loop cmds' (n + 1) num typed len (m + 1) fm';
                  Ret (m', fm'', out ++ o)
                else matches_loop cmds' (n + 1) num typed len m fm
            end
        end
      else Ret (m, fm, [])
  end.

Definition tab_complete (cmds : command_table) (num : Z) (s : editor) : outcome (editor * list Z) :=
  '(m, fm, o) ← matches_loop (take (Z.to_nat MAX_COMMANDS) cmds) 0 num (inbuf s) (bp s) 0 None;
  s1 ← (match fm with
        | Some nm =>
            if m =? 1 then
              let n := u32 (Z.of_nat (length nm) - bp s) in
              if u32 (bp s + n) <? INBUF_SIZE then
                tail ← mem_read (nm ++ [0]) (bp s) n;
                b1 ← mem_write (inbuf s) (bp s) tail;
                let bp1 := u32 (bp s + n) in
                b2 ← arr_set b1 bp1 SPACE;
                b3 ← arr_set b2 (bp1 + 1) 0;
                Ret (set_bp (bp1 + 1) (set_inbuf b3 s))
              else Ret s
            else Ret s
        | None => Ret s
        end);
  line ← c_string (inbuf s1) 0;
  Ret (s1, crlf ++ o ++ PROMPT ++ line).

(** One round of [get_input] on the character [c] of the console: [Some r] when
    it returns [r]. *)
Definition get_input_char (cmds : command_table) (num : Z) (echo_disabled : bool) (s0 : editor) (c : Z) :
    outcome (option Z * editor * list Z) :=
  buf ← arr_set (inbuf s0) (bp s0) c;
  let s := set_inbuf buf s0 in
  let enter : outcome (option Z * editor * list Z) :=   (* end of the line *)
    b ← arr_set (inbuf s) (bp s) 0; Ret (Some 1, set_state BASIC_KEY (set_bp 0 (set_inbuf b s)), []) in
  if bool_decide (state s = EXT_KEY_SECOND_SYMBOL) && (second_char s =? 0x4F) && (c =? 0x4D) then enter
  else
    let s1 := if bool_decide (state s = EXT_KEY_FIRST_SYMBOL) then MkEditor (state s) c (inbuf s) (bp s) else s in
    if bool_decide (state s = EXT_KEY_FIRST_SYMBOL) && ((c =? 0x4F) || (c =? 0x5B))
    then Ret (None, set_state EXT_KEY_SECOND_SYMBOL s1, [])
    else if c =? 0x1B then Ret (None, set_state EXT_KEY_FIRST_SYMBOL s1, [])
    else
      let s2 := set_state BASIC_KEY s1 in
      if c =? END_CHAR then b ← arr_set (inbuf s2) (bp s2) 0; Ret (Some 1, set_bp 0 (set_inbuf b s2), [])
      else if (c =? 0x08) || (c =? 0x7f) then
        if bp s2 >? 0 then Ret (None, set_bp (bp s2 - 1) s2, if echo_disabled then [] else [0x08; SPACE; 0x08])
        else Ret (None, s2, [])
      else if c =? 9 then
        b ← arr_set (inbuf s2) (bp s2) 0;
        '(s3, o) ← tab_complete cmds num (set_inbuf b s2);
        Ret (None, s3, o)
      else
        let out := if echo_disabled then [] else [c] in
        if bp s2 + 1 >=? INBUF_SIZE
        then Ret (Some 0, set_bp 0 s2, out ++ lit "Error: input buffer overflow" ++ crlf ++ PROMPT)
        else Ret (None, set_bp (bp s2 + 1) s2, out).

(** [get_input] on the characters the console has: it returns with the rest of
    them, or waits for more ([None]). *)
Fixpoint get_input (cmds : command_table) (num : Z) (echo_disabled : bool) (s : editor) (chars : list Z) :
    outcome (option (Z * list Z) * editor * list Z) :=
  match chars with
  | [] => Ret (None, s, [])
  | c :: chars' =>
      '(r, s1, o) ← get_input_char cmds num echo_disabled s c;
      match r with
      | Some v => Ret (Some (v, chars'), s1, o)
      | None => '(r', s2, o') ← get_input cmds num echo_disabled s1 chars'; Ret (r', s2, o ++ o')
      end
  end.

(** ** Line buffers *)
Record allocator := MkAllocator { alloc0 : bool; alloc1 : bool; buff1 : list Z; buff2 : list Z }.
Definition buffer_of (b : slot) (a : allocator) : list Z := match b with Buff1 => buff1 a | Buff2 => buff2 a end.
Definition write_buffer (b : slot) (l : list Z) (a : allocator) : allocator :=
  match b with
  | Buff1 => MkAllocator (alloc0 a) (alloc1 a) l (buff2 a)
  | Buff2 => MkAllocator (alloc0 a) (alloc1 a) (buff1 a) l
  end.

Definition cli_mem_malloc (a : allocator) (size : Z) : option slot * allocator :=
  if negb (size =? INBUF_SIZE) then (None, a)
  else if negb (alloc0 a) then (Some Buff1, MkAllocator true (alloc1 a) (buff1 a) (buff2 a))
  else if negb (alloc1 a) then (Some Buff2, MkAllocator (alloc0 a) true (buff1 a) (buff2 a))
  else (None, a).

Definition cli_mem_free (a : allocator) (b : slot) : allocator :=
  match b with
  | Buff1 => MkAllocator false (alloc1 a) (buff1 a) (buff2 a)
  | Buff2 => MkAllocator (alloc0 a) false (buff1 a) (buff2 a)
  end.

Definition cli_get_cmd_buffer (a : allocator) : option slot * allocator := cli_mem_malloc a INBUF_SIZE.

(** ** The console and the command thread *)

(** The operating system's message queue, which is not part of this code. *)
Class MessageQueue (Q : Type) := {
  queue_send : Q -> message -> bool * Q;        (* [false]: not sent *)
  queue_recv : Q -> option message * Q          (* [None]: nothing received *)
}.

Section console.
Context {Q : Type} `{MessageQueue Q}.

(** The structure [cli], the allocator and the editor's statics. *)
Record cli := MkCli {
  input_enabled : bool;
  initialized : bool;
  cli_bp : Z;
  cli_inbuf : option slot;
  commands : command_table;
  num_commands : Z;
  echo_disabled : bool;
  input_queue : Q;
  mem : allocator;
  keys : key_state;
  keys_second : Z
}.

Definition set_mem (a : allocator) (s : cli) : cli :=
  MkCli (input_enabled s) (initialized s) (cli_bp s) (cli_inbuf s) (commands s) (num_commands s) (echo_disabled s)
    (input_queue s) a (keys s) (keys_second s).
Definition set_queue (q : Q) (s : cli) : cli :=
  MkCli (input_enabled s) (initialized s) (cli_bp s) (cli_inbuf s) (commands s) (num_commands s) (echo_disabled s)
    q (mem s) (keys s) (keys_second s).
Definition set_cli_inbuf (b : option slot) (p : Z) (s : cli) : cli :=
  MkCli (input_enabled s) (initialized s) p b (commands s) (num_commands s) (echo_disabled s)
    (input_queue s) (mem s) (keys s) (keys_second s).

Definition cli_submit_cmd_buffer (s : cli) (m : message) : bool * cli :=
  if initialized s then let '(ok, q) := queue_send (input_queue s) m in (ok, set_queue q s)
  else (false, s).

(** The editor runs on the buffer [b]. *)
Definition run_editor (s : cli) (b : slot) (chars : list Z) : outcome (option (Z * list Z) * cli * list Z) :=
  '(r, e, o) ← get_input (commands s) (num_commands s) (echo_disabled s)
                 (MkEditor (keys s) (keys_second s) (buffer_of b (mem s)) (cli_bp s)) chars;
  Ret (r, MkCli (input_enabled s) (initialized s) (bp e) (cli_inbuf s) (commands s) (num_commands s) (echo_disabled s)
            (input_queue s) (write_buffer b (inbuf e) (mem s)) (state e) (second_char e), o).

(** One call of the idle hook, with the characters the console gives it. *)
Definition console_tick (s : cli) (chars : list Z) : outcome (cli * list Z * list Z) :=
  let '(b, s1) :=
    match cli_inbuf s with
    | Some b => (Some b, s)
    | None => let '(b, a) := cli_get_cmd_buffer (mem s) in
              (b, match b with Some _ => set_cli_inbuf b 0 (set_mem a s) | None => s end)
    end in
  match b with
  | None => Ret (s1, chars, [])
  | Some b =>
      if input_enabled s1 then
        '(r, s2, o) ← run_editor s1 b chars;
        match r with
        | Some (v, rest) =>
            if v =? 1 then
              let '(ok, s3) := cli_submit_cmd_buffer s2 (MsgBuffer b) in
              Ret (set_cli_inbuf None (cli_bp s3) s3, rest,
                   o ++ (if (ok : bool) then [] else lit "Error: problem sending cli message" ++ crlf))
            else Ret (s2, rest, o)
        | None => Ret (s2, [], o)
        end
      else Ret (s1, chars, [])
  end.

(** One round of the command thread: what it printed, the function it called
    and whether it goes on. *)
Definition cli_main (s : cli) : outcome (bool * cli * list Z * option call) :=
  let '(m, q) := queue_recv (input_queue s) in
  let s1 := set_queue q s in
  match m with
  | None => Ret (true, s1, [], None)
  | Some MsgHalt => Ret (false, s1, [], None)
  | Some (MsgBuffer b) =>
      halt ← strcmp_eq HALT_MSG (buffer_of b (mem s1)) 0;
      if (halt : bool) then Ret (false, s1, [], None)
      else
        '(r, line, o, c) ← handle_input (commands s1) (num_commands s1) (echo_disabled s1) (buffer_of b (mem s1));
        o1 ← (if r =? 1 then print_bad_command line
              else Ret (if r =? 2 then lit "syntax error" ++ crlf else []));
        Ret (true, set_mem (cli_mem_free (write_buffer b line (mem s1)) b) s1, o ++ o1 ++ PROMPT, c)
  end.
End console.
Arguments cli : clear implicits.

(** A bounded queue, first in first out. *)
Record fifo := MkFifo { depth : nat; queued : list message }.
#[export] Instance fifo_queue : MessageQueue fifo := {
  queue_send q m := if (length (queued q) <? depth q)%nat then (true, MkFifo (depth q) (queued q ++ [m])) else (false, q);
  queue_recv q := match queued q with [] => (None, q) | m :: l => (Some m, MkFifo (depth q) l) end
}.
