(* ===== verification/CliProps.v ===== *)
(** * Properties of the console's parser, editor and table

    The parser on lines printed from words, the stripping loop, fuel, the
    editor against plain line editing, and the table of commands. *)
From S2P Require Import Prelude CString Cli.

(** ** Lines printed from words *)

(** A blank or a quote inside a word is written with a backslash. *)
Definition special (c : Z) : bool := (c =? QUOTE) || (c =? SPACE).
Definition esc_char (c : Z) : list Z := if special c then [BACKSLASH; c] else [c].
Definition esc_word (w : list Z) : list Z := w ≫= esc_char.
Fixpoint line_of (ws : list (list Z)) : list Z :=
  match ws with
  | [] => []
  | [w] => esc_word w
  | w :: ws' => esc_word w ++ SPACE :: line_of ws'
  end.

(** What a word may consist of. *)
Definition word_char (c : Z) : Prop := c <> 0 /\ c <> BACKSLASH.
Definition word_ok (w : list Z) : Prop := w <> [] /\ Forall word_char w.

(** The words in memory, each with its NUL, and where they are. *)
Definition layout (ws : list (list Z)) : list Z := ws ≫= (fun w => w ++ [0]).
Fixpoint positions (base : Z) (ws : list (list Z)) : list (option Z) :=
  match ws with
  | [] => []
  | w :: ws' => Some base :: positions (base + Z.of_nat (length w) + 1) ws'
  end.

Lemma line_of_cons w w2 ws : line_of (w :: w2 :: ws) = esc_word w ++ SPACE :: line_of (w2 :: ws).
Proof. done. Qed.

Lemma word_ok_no_nul w : word_ok w -> no_nul w.
Proof. intros [_ Hw]. eapply list.Forall_impl; [exact Hw |]. intros c [Hc _]. exact Hc. Qed.

Lemma esc_word_no_nul w : Forall word_char w -> no_nul (esc_word w).
Proof.
  induction 1 as [| c w [Hc _] _ IH]; [constructor |]. unfold esc_word. cbn [mbind list_bind].
  apply Forall_app_2; [| exact IH]. unfold esc_char.
  destruct (special c); repeat constructor; done || (unfold BACKSLASH; lia).
Qed.

Lemma line_of_no_nul ws : Forall word_ok ws -> no_nul (line_of ws).
Proof.
  induction 1 as [| w ws [_ Hw] _ IH]; [constructor |]. destruct ws as [| w2 ws]; [by apply esc_word_no_nul |].
  rewrite line_of_cons. apply Forall_app_2; [by apply esc_word_no_nul |]. constructor; [unfold SPACE; lia | exact IH].
Qed.

(** The arguments are found where [positions] says. *)
Lemma layout_string ws : forall pre junk base k w, Forall word_ok ws -> base = Z.of_nat (length pre) ->
  ws !! k = Some w ->
  exists p, positions base ws !! k = Some (Some p) /\ c_string (pre ++ layout ws ++ junk) p = Ret w.
Proof.
  induction ws as [| w0 ws IH]; intros pre junk base k w Hw Hb Hk; [done |].
  apply List.Forall_cons_iff in Hw as [Hw0 Hw]. destruct k as [| k]; simpl in Hk.
  - injection Hk as <-. exists base. split; [done |]. cbn [layout mbind list_bind].
    rewrite <- !(assoc_L (++)). cbn [app]. apply c_string_app; [done | by apply word_ok_no_nul].
  - cbn [layout mbind list_bind positions]. rewrite <- (assoc_L (++)), (assoc_L (++) pre).
    apply IH; [done | rewrite !length_app; simpl; lia | done].
Qed.

(** ** The parser on such a line *)

(** The parser between two characters: [pre] is done, [input] is to come. *)
Definition at_point (a : bool) (n : Z) (av : list (option Z)) (pre input junk : list Z) : parser :=
  MkParser a false n av (pre ++ input ++ 0 :: junk) (Z.of_nat (length pre)).

Lemma parse_loop_step n p p' : parse_char p = Ret (Next p') -> pi p' < INBUF_SIZE -> parse_loop (S n) p = parse_loop n p'.
Proof. intros E H. simpl. rewrite E, bind_ret. destruct (Z.ltb_spec (pi p') INBUF_SIZE); [done | lia]. Qed.

Lemma snoc_app {A} (pre : list A) c rest : pre ++ c :: rest = (pre ++ [c]) ++ rest.
Proof. by rewrite <- (assoc_L (++)). Qed.

Lemma length_snoc {A} (pre : list A) c : Z.of_nat (length (pre ++ [c])) = Z.of_nat (length pre) + 1.
Proof. rewrite length_app. simpl. lia. Qed.

(** An ordinary character. *)
Lemma parse_plain a n av pre c rest junk : c <> 0 -> special c = false ->
  parse_char (at_point a n av pre (c :: rest) junk) =
    (if a then Ret (Next (at_point true n av (pre ++ [c]) rest junk))
     else av' ← arr_set av n (Some (Z.of_nat (length pre)));
          Ret (Next (at_point true (n + 1) av' (pre ++ [c]) rest junk))).
Proof.
  intros Hc Hs. unfold special in Hs. apply orb_false_elim in Hs as [Hq Hb].
  unfold parse_char, at_point. cbn [pbuf pi in_quote in_arg app]. rewrite arr_get_app by done. rewrite bind_ret.
  apply Z.eqb_neq in Hc. rewrite Hc, Hq, Hb. destruct a; cbn [negb].
  - unfold advance, set_pi. simpl. rewrite length_snoc, snoc_app. done.
  - unfold start_arg, set_stat. cbn [in_arg in_quote argv argc pbuf pi].
    destruct (arr_set av n _); [| done]. rewrite !bind_ret. unfold advance, set_pi. simpl. rewrite length_snoc, snoc_app. done.
Qed.

(** An escaped character, after its backslash. *)
Lemma parse_escaped n av pre c rest junk : special c = true -> no_nul rest ->
  parse_char (at_point true n av (pre ++ [BACKSLASH]) (c :: rest) junk) =
    Ret (Next (at_point true n av (pre ++ [c]) rest (0 :: junk))).
Proof.
  intros Hs Hr.
  assert (Hc : c <> 0) by (unfold special, QUOTE, SPACE in Hs; lia).
  unfold parse_char, at_point. cbn [pbuf pi in_quote in_arg app]. rewrite arr_get_app by done. rewrite bind_ret.
  apply Z.eqb_neq in Hc as Hc0. rewrite Hc0.
  assert (He : escaped (MkParser true false n av ((pre ++ [BACKSLASH]) ++ c :: rest ++ 0 :: junk)
      (Z.of_nat (length (pre ++ [BACKSLASH])))) = Ret true).
  { unfold escaped. cbn [pi pbuf in_arg]. rewrite length_snoc.
    destruct (Z.ltb_spec 0 (Z.of_nat (length pre) + 1)); [| lia].
    rewrite <- snoc_app, arr_get_app by lia. by rewrite bind_ret, Z.eqb_refl. }
  assert (Hsh : shift_left (MkParser true false n av ((pre ++ [BACKSLASH]) ++ c :: rest ++ 0 :: junk)
      (Z.of_nat (length (pre ++ [BACKSLASH])))) =
      Ret (MkParser true false n av (pre ++ c :: rest ++ 0 :: 0 :: junk) (Z.of_nat (length pre)))).
  { unfold shift_left. cbn [pbuf pi].
    pose proof (c_strlen_app (pre ++ [BACKSLASH]) (c :: rest) junk _ eq_refl ltac:(by constructor)) as Hl.
    cbn [app] in Hl. rewrite Hl, bind_ret.
    replace (c :: rest ++ 0 :: junk) with ((c :: rest ++ [0]) ++ junk) by (simpl; by rewrite <- (assoc_L (++))).
    rewrite mem_read_app; [| done | simpl; rewrite length_app; simpl; lia]. rewrite bind_ret, length_snoc.
    replace ((pre ++ [BACKSLASH]) ++ (c :: rest ++ [0]) ++ junk)
      with (pre ++ (BACKSLASH :: c :: rest) ++ 0 :: junk)
      by (rewrite <- !(assoc_L (++)); simpl; by rewrite <- (assoc_L (++))).
    rewrite (mem_write_app pre (BACKSLASH :: c :: rest)); [| lia | simpl; rewrite length_app; simpl; lia].
    rewrite bind_ret. unfold set_pi, set_pbuf. cbn [in_arg in_quote argc argv pbuf]. do 2 f_equal; [| lia].
    simpl. by rewrite <- (assoc_L (++)). }
  assert (Hgo : (e ← escaped (MkParser true false n av ((pre ++ [BACKSLASH]) ++ c :: rest ++ 0 :: junk)
      (Z.of_nat (length (pre ++ [BACKSLASH])))); if (e : bool) then p1 ← shift_left (MkParser true false n av ((pre ++ [BACKSLASH]) ++ c :: rest ++ 0 :: junk)
      (Z.of_nat (length (pre ++ [BACKSLASH])))); Ret (advance p1) else Fault Hang) =
    Ret (Next (MkParser true false n av ((pre ++ [c]) ++ rest ++ 0 :: 0 :: junk) (Z.of_nat (length (pre ++ [c])))))).
  { rewrite He, bind_ret, Hsh, bind_ret. unfold advance, set_pi. simpl. rewrite length_snoc, snoc_app. done. }
  rewrite He, !bind_ret in *. unfold special in Hs. destruct (c =? QUOTE); [exact Hgo |]. simpl in Hs. rewrite Hs. exact Hgo.
Qed.

Lemma esc_word_cons c w : esc_word (c :: w) = esc_char c ++ esc_word w.
Proof. done. Qed.

(** One character of a word, escaped or not. *)
Lemma parse_one c n av pre rest junk fuel : word_char c -> no_nul rest ->
  (length pre + length (esc_char c) + length rest + length junk < 512)%nat ->
  exists junk', (length pre + 1 + length junk' = length pre + length (esc_char c) + length junk)%nat /\
    parse_loop (length (esc_char c) + fuel) (at_point true n av pre (esc_char c ++ rest) junk) =
    parse_loop fuel (at_point true n av (pre ++ [c]) rest junk').
Proof.
  intros [Hc _] Hr Hl. unfold esc_char in *. destruct (special c) eqn:Hs; simpl in Hl.
  - exists (0 :: junk). split; [simpl; lia |]. cbn [length plus app].
    rewrite (parse_loop_step _ _ _ (parse_plain true n av pre BACKSLASH (c :: rest) junk ltac:(done) eq_refl)).
    2:{ cbn [pi at_point]. rewrite length_snoc. unfold INBUF_SIZE. lia. }
    rewrite (parse_loop_step _ _ _ (parse_escaped n av pre c rest junk Hs Hr)); [done |].
    cbn [pi at_point]. rewrite length_snoc. unfold INBUF_SIZE. lia.
  - exists junk. split; [simpl; lia |]. cbn [length plus app].
    rewrite (parse_loop_step _ _ _ (parse_plain true n av pre c rest junk Hc Hs)); [done |].
    cbn [pi at_point]. rewrite length_snoc. unfold INBUF_SIZE. lia.
Qed.

Lemma parse_chars w : forall n av pre rest junk fuel, Forall word_char w -> no_nul rest ->
  (length pre + length (esc_word w) + length rest + length junk < 512)%nat ->
  exists junk', (length w + length junk' = length (esc_word w) + length junk)%nat /\
    parse_loop (length (esc_word w) + fuel) (at_point true n av pre (esc_word w ++ rest) junk) =
    parse_loop fuel (at_point true n av (pre ++ w) rest junk').
Proof.
  induction w as [| c w IH]; intros n av pre rest junk fuel Hw Hr Hl.
  - exists junk. rewrite app_nil_r. done.
  - apply List.Forall_cons_iff in Hw as [Hc Hw]. rewrite esc_word_cons in *.
    rewrite length_app in *. rewrite <- (assoc_L (++)), <- (Nat.add_assoc _ _ fuel).
    destruct (parse_one c n av pre (esc_word w ++ rest) junk (length (esc_word w) + fuel) Hc)
      as (j1 & L1 & ->).
    { apply Forall_app_2; [by apply esc_word_no_nul | done]. }
    { rewrite length_app. lia. }
    destruct (IH n av (pre ++ [c]) rest j1 fuel Hw Hr) as (j2 & L2 & ->); [rewrite length_app; simpl; lia |].
    exists j2. split; [simpl; lia |]. by rewrite <- snoc_app.
Qed.

(** The first character of an argument. *)
Lemma parse_first c n don todo x pre rest junk fuel : word_char c -> no_nul rest -> n = Z.of_nat (length don) ->
  (length pre + length (esc_char c) + length rest + length junk < 512)%nat ->
  exists junk', (1 + length junk' = length (esc_char c) + length junk)%nat /\
    parse_loop (length (esc_char c) + fuel) (at_point false n (don ++ x :: todo) pre (esc_char c ++ rest) junk) =
    parse_loop fuel (at_point true (n + 1) ((don ++ [Some (Z.of_nat (length pre))]) ++ todo) (pre ++ [c]) rest junk').
Proof.
  intros [Hc _] Hr Hn Hl. unfold esc_char in *. rewrite <- snoc_app.
  assert (Hset : arr_set (don ++ x :: todo) n (Some (Z.of_nat (length pre))) = Ret (don ++ Some (Z.of_nat (length pre)) :: todo))
    by (by apply arr_set_app).
  destruct (special c) eqn:Hs; simpl in Hl.
  - exists (0 :: junk). split; [done |]. cbn [length plus app].
    pose proof (parse_plain false n (don ++ x :: todo) pre BACKSLASH (c :: rest) junk ltac:(done) eq_refl) as E.
    cbv iota in E. rewrite Hset, bind_ret in E. rewrite (parse_loop_step _ _ _ E).
    2:{ cbn [pi at_point]. rewrite length_snoc. unfold INBUF_SIZE. lia. }
    rewrite (parse_loop_step _ _ _ (parse_escaped _ _ pre c rest junk Hs Hr)); [done |].
    cbn [pi at_point]. rewrite length_snoc. unfold INBUF_SIZE. lia.
  - exists junk. split; [done |]. cbn [length plus app].
    pose proof (parse_plain false n (don ++ x :: todo) pre c rest junk Hc Hs) as E.
    cbv iota in E. rewrite Hset, bind_ret in E. rewrite (parse_loop_step _ _ _ E); [done |].
    cbn [pi at_point]. rewrite length_snoc. unfold INBUF_SIZE. lia.
Qed.

Lemma parse_word w n don todo x pre rest junk fuel : word_ok w -> no_nul rest -> n = Z.of_nat (length don) ->
  (length pre + length (esc_word w) + length rest + length junk < 512)%nat ->
  exists junk', (length w + length junk' = length (esc_word w) + length junk)%nat /\
    parse_loop (length (esc_word w) + fuel) (at_point false n (don ++ x :: todo) pre (esc_word w ++ rest) junk) =
    parse_loop fuel (at_point true (n + 1) ((don ++ [Some (Z.of_nat (length pre))]) ++ todo) (pre ++ w) rest junk').
Proof.
  intros [Hne Hw] Hr Hn Hl. destruct w as [| c w]; [done |].
  apply List.Forall_cons_iff in Hw as [Hc Hw]. rewrite esc_word_cons in *.
  rewrite length_app in *. rewrite <- (assoc_L (++)), <- (Nat.add_assoc _ _ fuel).
  destruct (parse_first c n don todo x pre (esc_word w ++ rest) junk (length (esc_word w) + fuel) Hc)
    as (j1 & L1 & ->); [apply Forall_app_2; [by apply esc_word_no_nul | done] | done | rewrite length_app; lia |].
  destruct (parse_chars w (n + 1) ((don ++ [Some (Z.of_nat (length pre))]) ++ todo) (pre ++ [c]) rest j1 fuel Hw Hr)
    as (j2 & L2 & E); [rewrite length_app; simpl; lia |].
  exists j2. split; [simpl; lia |]. rewrite E. by rewrite (snoc_app pre c w).
Qed.

(** The blank after a word ends the argument. *)
Lemma parse_blank n av pre c rest junk : c <> BACKSLASH ->
  parse_char (at_point true n av (pre ++ [c]) (SPACE :: rest) junk) =
    Ret (Next (at_point false n av ((pre ++ [c]) ++ [0]) rest junk)).
Proof.
  intros Hc. unfold parse_char, at_point. cbn [pbuf pi in_quote in_arg app]. rewrite arr_get_app by done. rewrite bind_ret.
  change (SPACE =? 0) with false. change (SPACE =? QUOTE) with false. rewrite Z.eqb_refl.
  unfold escaped. cbn [pi pbuf in_arg]. rewrite length_snoc.
  destruct (Z.ltb_spec 0 (Z.of_nat (length pre) + 1)); [| lia].
  rewrite <- snoc_app, arr_get_app by lia. rewrite bind_ret. apply Z.eqb_neq in Hc as ->.
  cbn [mbind outcome_bind andb negb]. unfold end_arg. cbn [pi pbuf set_stat]. rewrite snoc_app.
  rewrite arr_set_app by (rewrite length_snoc; lia). rewrite bind_ret.
  unfold advance, set_pi, set_pbuf. simpl. rewrite !length_snoc, <- !(assoc_L (++)). done.
Qed.

Lemma word_last w : word_ok w -> exists w' c, w = w' ++ [c] /\ c <> BACKSLASH.
Proof.
  intros [Hne Hw]. destruct w as [| c w _] using rev_ind; [done |].
  exists w, c. split; [done |]. apply Forall_app in Hw as [_ Hw]. by apply List.Forall_cons_iff in Hw as [[_ ?] _].
Qed.

(** The whole line. *)
Lemma parse_words ws : forall n don todo pre junk fuel, Forall word_ok ws -> ws <> [] -> n = Z.of_nat (length don) ->
  (length ws <= length todo)%nat -> (length pre + length (line_of ws) + length junk < 512)%nat ->
  exists junk', (length (layout ws) + length junk' = 1 + length (line_of ws) + length junk)%nat /\
    parse_loop (length (line_of ws) + S fuel) (at_point false n (don ++ todo) pre (line_of ws) junk) =
    Ret (EndOfLine (MkParser true false (n + Z.of_nat (length ws))
           (don ++ positions (Z.of_nat (length pre)) ws ++ drop (length ws) todo)
           (pre ++ layout ws ++ junk') (Z.of_nat (length pre + length (layout ws)) - 1))).
Proof.
  induction ws as [| w ws IH]; intros n don todo pre junk fuel Hw Hne Hn Ht Hl; [done |].
  apply List.Forall_cons_iff in Hw as [Hw0 Hw]. destruct todo as [| x todo]; [simpl in Ht; lia |].
  destruct ws as [| w2 ws].
  - cbn [line_of] in *. replace (at_point false n (don ++ x :: todo) pre (esc_word w) junk)
      with (at_point false n (don ++ x :: todo) pre (esc_word w ++ []) junk) by (by rewrite app_nil_r).
    destruct (parse_word w n don todo x pre [] junk (S fuel) Hw0 ltac:(constructor) Hn ltac:(simpl; lia)) as (j1 & L1 & ->).
    exists j1. cbn [layout mbind list_bind]. rewrite !length_app. cbn [length]. split; [lia |].
    cbn [parse_loop]. unfold parse_char, at_point. cbn [pbuf pi app]. rewrite arr_get_app by done.
    rewrite !bind_ret. cbn [in_quote]. change (0 =? 0) with true. cbv iota. rewrite bind_ret. do 3 f_equal.
    + rewrite <- snoc_app. done.
    + rewrite <- !(assoc_L (++)). done.
    + rewrite length_app. cbn [length]. lia.
  - rewrite line_of_cons in *. rewrite length_app in *. cbn [length] in Hl. cbn [length].
    replace (length (esc_word w) + S (length (line_of (w2 :: ws))) + S fuel)%nat
      with (length (esc_word w) + S (length (line_of (w2 :: ws)) + S fuel))%nat by lia.
    destruct (parse_word w n don todo x pre (SPACE :: line_of (w2 :: ws)) junk (S (length (line_of (w2 :: ws)) + S fuel)) Hw0)
      as (j1 & L1 & ->); [constructor; [unfold SPACE; lia | by apply line_of_no_nul] | done | cbn [length]; lia |].
    destruct (word_last w Hw0) as (w' & c & Ew & Hc).
    assert (Epre : pre ++ w = (pre ++ w') ++ [c]) by (rewrite Ew; apply (assoc_L (++))).
    rewrite Epre. rewrite (parse_loop_step _ _ _ (parse_blank _ _ (pre ++ w') c _ _ Hc)).
    2:{ cbn [pi at_point]. rewrite <- Epre, !length_app. cbn [length]. unfold INBUF_SIZE. lia. }
    rewrite <- Epre.
    destruct (IH (n + 1) (don ++ [Some (Z.of_nat (length pre))]) todo ((pre ++ w) ++ [0]) j1 fuel Hw ltac:(done))
      as (j2 & L2 & ->); [rewrite length_app; cbn [length]; lia | cbn [length] in *; lia | rewrite !length_app; cbn [length] in *; lia |].
    exists j2. change (layout (w :: w2 :: ws)) with ((w ++ [0]) ++ layout (w2 :: ws)).
    rewrite !length_app. cbn [length] in *. split; [lia |]. do 3 f_equal.
    + lia.
    + rewrite <- (assoc_L (++)). cbn [app]. replace (Z.of_nat (length pre + length w + 1))
        with (Z.of_nat (length pre) + Z.of_nat (length w) + 1) by lia. done.
    + rewrite <- !(assoc_L (++)). done.
    + lia.
Qed.

(** ** The loop meant to strip CR and LF *)
Definition not_crlf (c : Z) : Prop := c <> 13 /\ c <> 10.
Abbreviation crlf_free := (Forall not_crlf).

Lemma not_crlf_test c : not_crlf c <-> (c =? 13) || (c =? 10) = false.
Proof. unfold not_crlf. lia. Qed.

#[export] Instance not_crlf_dec c : Decision (not_crlf c).
Proof. unfold not_crlf. apply _. Defined.

Lemma strip_loop_clean buf k : crlf_free buf -> forall j, 0 <= j -> j + Z.of_nat k <= Z.of_nat (length buf) ->
  strip_loop k buf 0 j = Ret buf.
Proof.
  intros Hb. induction k as [| k IH]; intros j Hj Hk; [done |]. simpl. unfold strip_char.
  destruct (arr_get_total buf j) as (c & -> & Hc); [lia |]. rewrite bind_ret.
  pose proof (Forall_lookup_1 _ _ _ _ Hb Hc) as Hn. apply not_crlf_test in Hn as ->. rewrite bind_ret. apply IH; lia.
Qed.

(** With a CR or LF in the line it writes outside the buffer. *)
Lemma strip_loop_dirty buf k : length buf = 512%nat -> forall j, 0 <= j -> j + Z.of_nat k = 512 ->
  ~ crlf_free (drop (Z.to_nat j) buf) -> strip_loop k buf 0 j = Fault OutOfBounds.
Proof.
  intros Hl. induction k as [| k IH]; intros j Hj Hk Hd.
  - destruct Hd. rewrite drop_ge by lia. constructor.
  - simpl. unfold strip_char. destruct (arr_get_total buf j) as (c & -> & Hc); [lia |]. rewrite bind_ret.
    destruct ((c =? 13) || (c =? 10)) eqn:Ec.
    + unfold INBUF_SIZE. destruct (Z.ltb_spec j (512 - 1)).
      * unfold mem_read. rewrite Hl. destruct (Z.leb_spec (j + 1 + (512 - 0)) (Z.of_nat 512)); [lia |]. by rewrite !andb_false_r.
      * rewrite bind_ret. unfold arr_set. rewrite Hl. done.
    + rewrite bind_ret. apply IH; [lia | lia |]. intros Hf. apply Hd.
      rewrite (drop_S _ c _ Hc). constructor; [by apply not_crlf_test |].
      by replace (S (Z.to_nat j)) with (Z.to_nat (j + 1)) by lia.
Qed.

(** ** The parser stops *)

(** How many rounds are left at an index: two for each, one fewer when the
    character before it cannot escape. *)
Definition after_backslash (p : parser) : bool :=
  match arr_get (pbuf p) (pi p - 1) with Ret c => c =? BACKSLASH | Fault _ => false end.
Definition rounds_left (p : parser) : nat :=
  (2 * Z.to_nat (INBUF_SIZE - pi p) + (if after_backslash p then 1 else 0))%nat.

(** Moves that copy nothing advance. *)
Lemma rounds_advance p p' : pi p' = pi p + 1 -> 0 <= pi p < INBUF_SIZE -> (rounds_left p' < rounds_left p)%nat.
Proof.
  intros Hp Hr. unfold rounds_left. rewrite Hp. unfold INBUF_SIZE in *. destruct (after_backslash p), (after_backslash p'); lia.
Qed.

Lemma arr_get_write_at (m rest : list Z) off c m' : mem_write m off (c :: rest) = Ret m' -> arr_get m' off = Ret c.
Proof.
  unfold mem_write. intros H. destruct (Z.leb_spec 0 off); cbn [andb] in H; [| done].
  destruct (Z.leb_spec (off + Z.of_nat (length (c :: rest))) (Z.of_nat (length m))); [| done].
  injection H as <-. apply arr_get_app. rewrite length_take. simpl length in *. lia.
Qed.

Lemma shift_rounds p p' c : arr_get (pbuf p) (pi p) = Ret c -> c <> 0 -> c <> BACKSLASH -> escaped p = Ret true ->
  (p1 ← shift_left p; Ret (advance p1)) = Ret (Next p') ->
  (rounds_left p' < rounds_left p)%nat /\ 0 <= pi p' /\ length (pbuf p') = length (pbuf p).
Proof.
  intros Ec Hc0 Hc Hesc H. apply bind_inv in H as (p1 & Hs & H). cbv beta in H. injection H as <-.
  unfold escaped in Hesc. destruct (Z.ltb_spec 0 (pi p)); [| done].
  apply bind_inv in Hesc as (b & Hb & Hesc). cbv beta in Hesc. injection Hesc as Hesc.
  apply andb_prop in Hesc as [Hbs _]. apply Z.eqb_eq in Hbs as ->.
  unfold shift_left in Hs. apply bind_inv in Hs as (n & Hn & Hs). apply bind_inv in Hs as (rest & Hr & Hs).
  apply bind_inv in Hs as (b & Hw & Hs). cbv beta in Hs. injection Hs as <-.
  cbn [pi pbuf set_pi set_pbuf].
  pose proof (mem_write_length _ _ _ _ Hw) as Hlen. split; [| split; [lia | exact Hlen]].
  unfold rounds_left, after_backslash. cbn [pi pbuf set_pi set_pbuf]. replace (pi p - 1 + 1 - 1) with (pi p - 1) by lia.
  rewrite Hb, Z.eqb_refl. replace (pi p - 1 + 1) with (pi p) by lia.
  assert (Hget : arr_get b (pi p - 1) = Ret c).
  { assert (exists rest', rest = c :: rest') as [rest' ->]; [| by eapply arr_get_write_at].
    unfold c_strlen in Hn. apply arr_get_ret in Ec as [_ Ec].
    unfold mem_read in Hr. case_match; [| done]. injection Hr as <-. rewrite (drop_S _ c _ Ec) in *.
    pose proof (strlen_list_bound _ _ Hn). replace (Z.to_nat (n + 1)) with (S (Z.to_nat n)) by lia. by eexists. }
  apply Z.eqb_neq in Hc. rewrite Hget, Hc. lia.
Qed.

Lemma parse_char_rounds p p' : 0 <= pi p < INBUF_SIZE -> parse_char p = Ret (Next p') ->
  (rounds_left p' < rounds_left p)%nat /\ 0 <= pi p' /\ length (pbuf p') = length (pbuf p).
Proof.
  intros Hp E. unfold parse_char in E. apply bind_inv in E as (c & Ec & E). cbv beta in E.
  assert (Hadv : forall q, pi q = pi p -> length (pbuf q) = length (pbuf p) -> advance q = Next p' ->
    (rounds_left p' < rounds_left p)%nat /\ 0 <= pi p' /\ length (pbuf p') = length (pbuf p)).
  { intros q Hq Hl Ea. injection Ea as <-. split; [| split; [simpl; lia | exact Hl]]. apply rounds_advance; [simpl; lia | done]. }
  assert (Harg : forall at_ q q', start_arg at_ q = Ret q' -> pi q' = pi q /\ pbuf q' = pbuf q).
  { intros at_ q q' H. unfold start_arg in H. apply bind_inv in H as (av & _ & H). cbv beta in H. by injection H as <-. }
  assert (Hend : forall q q', end_arg q = Ret q' -> pi q' = pi q /\ length (pbuf q') = length (pbuf q)).
  { intros q q' H. unfold end_arg in H. apply bind_inv in H as (b & Hb & H). cbv beta in H. injection H as <-.
    split; [done |]. unfold arr_set in Hb. case_match; [| done]. injection Hb as <-. simpl. by rewrite length_insert. }
  destruct (Z.eqb_spec c 0) as [| Hc0]; [destruct (in_quote p); discriminate E |].
  destruct (Z.eqb_spec c QUOTE) as [-> | Hq].
  - apply bind_inv in E as ([|] & He & E); [by eapply shift_rounds |].
    destruct (in_quote p), (in_arg p); try discriminate E.
    + apply bind_inv in E as (q & Hq & E). apply Hend in Hq as [? ?]. apply (Hadv q); [done | done | congruence].
    + apply (Hadv p); [done | done | congruence].
    + apply bind_inv in E as (q & Hq & E). apply Harg in Hq as [? Hq]. apply (Hadv q); [done | by rewrite Hq | congruence].
  - destruct (Z.eqb_spec c SPACE) as [-> | Hs].
    + apply bind_inv in E as ([|] & He & E); [by eapply shift_rounds |].
      destruct (negb (in_quote p) && in_arg p).
      * apply bind_inv in E as (q & Hq' & E). apply Hend in Hq' as [? ?]. apply (Hadv q); [done | done | congruence].
      * apply (Hadv p); [done | done | congruence].
    + destruct (negb (in_arg p)).
      * apply bind_inv in E as (q & Hq' & E). apply Harg in Hq' as [? Hq']. apply (Hadv q); [done | by rewrite Hq' | congruence].
      * apply (Hadv p); [done | done | congruence].
Qed.

(** The faults of one round. *)
Lemma bind_fault {A B} (P : fault -> Prop) (m : outcome A) (k : A -> outcome B) f :
  m ≫= k = Fault f -> (m = Fault f -> P f) -> (forall a, m = Ret a -> k a = Fault f -> P f) -> P f.
Proof. destruct m; simpl; [eauto |]. intros E H _. apply H. congruence. Qed.

Lemma arr_set_fault {A} (l : list A) i x f : arr_set l i x = Fault f -> f = OutOfBounds.
Proof. unfold arr_set. intros. case_match; congruence. Qed.

Lemma arr_get_oob {A} (l : list A) i f : arr_get l i = Fault f -> f = OutOfBounds.
Proof. unfold arr_get. repeat case_match; congruence. Qed.

Ltac fault_step :=
  match goal with
  | H : arr_get _ _ = Fault _ |- _ => exact (arr_get_oob _ _ _ H)
  | H : arr_set _ _ _ = Fault _ |- _ => exact (arr_set_fault _ _ _ _ H)
  | H : mem_read _ _ _ = Fault _ |- _ => exact (mem_read_fault _ _ _ _ H)
  | H : mem_write _ _ _ = Fault _ |- _ => exact (mem_write_fault _ _ _ _ H)
  | H : strlen_list _ = Fault _ |- _ => exact (strlen_list_fault _ _ H)
  | H : Ret _ = Fault _ |- _ => discriminate H
  | H : Fault _ = Fault _ |- _ => injection H as H; subst; reflexivity
  | H : mbind _ _ = Fault _ |- _ =>
      apply (bind_fault (fun f => f = OutOfBounds)) in H; [exact H | clear H; intros H | clear H; intros ? _ H; cbv beta in H]
  | H : (if ?b then _ else _) = Fault _ |- _ => destruct b
  | H : match ?x with _ => _ end = Fault _ |- _ => destruct x
  end.

Lemma parse_char_fault p f : parse_char p = Fault f -> f = OutOfBounds.
Proof. unfold parse_char, escaped, shift_left, start_arg, end_arg, c_strlen. intros H. repeat fault_step. Qed.

Lemma parse_loop_enough n : forall p, 0 <= pi p < INBUF_SIZE -> (rounds_left p < n)%nat ->
  parse_loop n p <> Fault OutOfFuel /\ parse_loop n p <> Fault Hang.
Proof.
  induction n as [| n IH]; intros p Hp Hr; [lia |]. simpl.
  destruct (parse_char p) as [[p' | p' | p'] | f] eqn:E; cbn [mbind outcome_bind]; try done.
  - destruct (parse_char_rounds p p' Hp E) as (Hlt & Hpos & _).
    destruct (Z.ltb_spec (pi p') INBUF_SIZE); [| done]. apply IH; lia.
  - by rewrite (parse_char_fault p f E).
Qed.

(** ** The table of commands *)

(** A table that holds exactly [l], in registration order. *)
Record table_holds (cmds : command_table) (num : Z) (l : list cli_command) : Prop := {
  th_table : cmds = (Some <$> l) ++ replicate (100 - length l) None;
  th_num : num = Z.of_nat (length l);
  th_max : (length l <= 100)%nat;
  th_ids : NoDup (command_id <$> l);
  th_valid : Forall (fun c => is_Some (name c) /\ has_function c = true) l
}.

(** The first command that is called [s]. *)
Definition named (s : list Z) (c : cli_command) : bool := bool_decide (name c = Some s).
Fixpoint first_named (s : list Z) (l : list cli_command) : option cli_command :=
  match l with
  | [] => None
  | c :: l' => if named s c then Some c else first_named s l'
  end.

Lemma lookup_loop_spec m pos s l : forall (rest : command_table) n num,
  Forall (fun c => is_Some (name c) /\ (forall nm, name c = Some nm -> strcmp_eq nm m pos = Ret (bool_decide (nm = s)))) l ->
  num = n + Z.of_nat (length l) -> lookup_loop ((Some <$> l) ++ rest) n num m pos 0 = Ret (first_named s l).
Proof.
  induction l as [| c l IH]; intros rest n num Hl Hn.
  - simpl in *. destruct rest as [| c rest]; [done |]. simpl. destruct (Z.ltb_spec n num); [lia | done].
  - apply List.Forall_cons_iff in Hl as [[[nm Hnm] Hc] Hl]. cbn [fmap list_fmap app lookup_loop length] in *.
    destruct (Z.ltb_spec n num); [| lia]. rewrite Hnm. unfold name_matches. change (0 =? 0) with true. cbn [negb].
    rewrite (Hc nm Hnm), bind_ret. cbn [first_named]. unfold named. rewrite Hnm.
    destruct (decide (nm = s)) as [-> | Hne].
    + by rewrite !bool_decide_true.
    + rewrite !bool_decide_false by congruence. rewrite IH; [done | done | lia].
Qed.

Lemma lookup_command_spec cmds num l pre s rest pos : table_holds cmds num l ->
  Forall (fun c => forall nm, name c = Some nm -> no_nul nm) l -> pos = Z.of_nat (length pre) -> no_nul s ->
  lookup_command cmds num (pre ++ s ++ 0 :: rest) pos 0 = Ret (first_named s l).
Proof.
  intros [-> -> Hmax _ Hv] Hn -> Hs. unfold lookup_command. rewrite take_ge.
  2:{ rewrite length_app, length_fmap, length_replicate. change (Z.to_nat MAX_COMMANDS) with 100%nat. lia. }
  apply lookup_loop_spec; [| lia]. rewrite Forall_forall in Hv. rewrite Forall_forall in Hn. apply List.Forall_forall.
  intros c Hc. apply list_elem_of_In in Hc. split; [by apply Hv |]. intros nm Hnm.
  apply strcmp_eq_app; [done | by eapply Hn | done].
Qed.

(** ** A whole line *)
Lemma handle_words cmds num echo l ws junk : table_holds cmds num l ->
  Forall (fun c => forall nm, name c = Some nm -> no_nul nm) l ->
  Forall word_ok ws -> ws <> [] -> (length ws <= 64)%nat -> length (line_of ws ++ 0 :: junk) = 512%nat ->
  crlf_free (line_of ws ++ 0 :: junk) -> (forall w, ws !! 0%nat = Some w -> 46 ∉ w) ->
  exists buf out,
    handle_input cmds num echo (line_of ws ++ 0 :: junk) =
      Ret (match ws !! 0%nat ≫= (fun w => first_named w l) with
           | Some c => (0, buf, out, Some (MkCall c (Z.of_nat (length ws))
                         (positions 0 ws ++ replicate (64 - length ws) None)))
           | None => (1, buf, out, None)
           end) /\
    length buf = 512%nat /\
    forall k w, ws !! k = Some w -> exists p, positions 0 ws !! k = Some (Some p) /\ c_string buf p = Ret w.
Proof.
  intros Ht Hnames Hws Hne Hcount Hlen Hclean Hdot. rewrite length_app in Hlen. cbn [length] in Hlen.
  unfold handle_input. rewrite strip_loop_clean; [| done | lia | rewrite length_app; cbn [length]; change (Z.to_nat INBUF_SIZE) with 512%nat; lia].
  rewrite bind_ret. replace parse_fuel with (length (line_of ws) + S (1025 - length (line_of ws)))%nat by (unfold parse_fuel; lia).
  change (MkParser false false 0 (replicate (Z.to_nat ARGV_SIZE) None) (line_of ws ++ 0 :: junk) 0)
    with (at_point false 0 ([] ++ replicate 64 None) [] (line_of ws) junk).
  destruct (parse_words ws 0 [] (replicate 64 None) [] junk (1025 - length (line_of ws)) Hws Hne eq_refl)
    as (j' & Lj & ->); [rewrite length_replicate; lia | simpl; lia |].
  rewrite bind_ret. cbn [in_quote argc argv pbuf app length]. change (Z.of_nat 0) with 0.
  assert (Hlw : (0 < length ws)%nat) by (destruct ws; [done | simpl; lia]).
  destruct (Z.ltb_spec (0 + Z.of_nat (length ws)) 1); [lia |].
  destruct ws as [| w ws]; [done |]. apply List.Forall_cons_iff in Hws as Hws'. destruct Hws' as [Hw _].
  cbn [positions app]. change (arr_get (Some 0 :: ?x) 0) with (Ret (Some 0)). rewrite bind_ret.
  assert (Hs : layout (w :: ws) ++ j' = [] ++ w ++ 0 :: (layout ws ++ j')).
  { change (layout (w :: ws)) with ((w ++ [0]) ++ layout ws). by rewrite <- !(assoc_L (++)). }
  unfold c_strchr. change (Z.to_nat 0) with 0%nat. rewrite drop_0. cbn [app] in Hs. rewrite Hs.
  rewrite strchr_list_absent; [| by apply word_ok_no_nul | done | by apply Hdot]. rewrite bind_ret. change (default 0 (@None Z)) with 0.
  pose proof (lookup_command_spec cmds num l [] w (layout ws ++ j') 0 Ht Hnames eq_refl (word_ok_no_nul w Hw)) as Hlook.
  cbn [app] in Hlook. rewrite Hlook, bind_ret.
  exists (w ++ 0 :: layout ws ++ j'), (if echo then [] else crlf). split; [| split].
  - change ((w :: ws) !! 0%nat) with (Some w).
    change (Some w ≫= (fun v => first_named v l)) with (first_named w l).
    destruct (first_named w l) as [c |]; [| reflexivity].
    rewrite drop_replicate. replace (0 + Z.of_nat (length (w :: ws))) with (Z.of_nat (length (w :: ws))) by lia. reflexivity.
  - rewrite <- Hs, length_app. cbn [length] in *. lia.
  - intros k v Hk. rewrite <- Hs. by apply (layout_string (w :: ws) [] j' 0 k v).
Qed.

(** ** Editing *)

(** What a character does to the line: erase, or append. *)
Definition erase (c : Z) : bool := (c =? 0x08) || (c =? 0x7f).
Definition edit (typed : list Z) (c : Z) : list Z := if erase c then removelast typed else typed ++ [c].
Definition edit_line (typed chars : list Z) : list Z := foldl edit typed chars.

(** A character that is neither an escape, a tab nor the end of the line. *)
Definition line_char (c : Z) : Prop := c <> 0x1B /\ c <> 9 /\ c <> END_CHAR.

(** The editor on a line: [typed] so far, the rest of the buffer after it. *)
Definition editing (sc : Z) (typed junk : list Z) : editor :=
  MkEditor BASIC_KEY sc (typed ++ junk) (Z.of_nat (length typed)).

Lemma snoc_inv {A} (l : list A) : l <> [] -> exists l' x, l = l' ++ [x].
Proof. destruct l as [| x l' _] using rev_ind; [done | by exists l', x]. Qed.

Lemma get_input_edit cmds num echo sc typed junk c : line_char c ->
  (length typed + length junk = 512)%nat -> (length typed < 511)%nat ->
  exists junk' out,
    get_input_char cmds num echo (editing sc typed junk) c = Ret (None, editing sc (edit typed c) junk', out) /\
    (length (edit typed c) + length junk' = 512)%nat /\ (length (edit typed c) <= S (length typed))%nat /\
    (not_crlf c -> crlf_free (typed ++ junk) -> crlf_free (edit typed c ++ junk')).
Proof.
  intros (Hesc & Htab & Hend) Hlen Hmax. destruct junk as [| x j]; [simpl in Hlen; lia |]. simpl in Hlen.
  unfold get_input_char, editing. cbn [inbuf bp state second_char].
  rewrite arr_set_app by done. rewrite bind_ret. cbn [state set_inbuf inbuf bp second_char].
  rewrite !bool_decide_false by done. cbn [andb].
  apply Z.eqb_neq in Hesc as He. rewrite He. apply Z.eqb_neq in Hend as Hn. rewrite Hn.
  unfold edit, erase, set_state, set_bp, set_inbuf. cbn [state bp inbuf second_char].
  assert (Hfree : not_crlf c -> crlf_free (typed ++ x :: j) -> crlf_free (typed ++ c :: j)).
  { intros Hc Hf. apply Forall_app in Hf as [Hf1 Hf2]. apply List.Forall_cons_iff in Hf2 as [_ Hf2].
    apply Forall_app_2; [done | by constructor]. }
  destruct ((c =? 8) || (c =? 127)).
  - destruct typed as [| d t _] using rev_ind.
    + destruct (0 >? 0) eqn:E0; [done |]. exists (c :: j), []. split; [done |]. split; [simpl in *; lia |]. split; [simpl; lia | exact Hfree].
    + rewrite length_app in *. cbn [length] in *.
      rewrite Z.gtb_ltb. destruct (Z.ltb_spec 0 (Z.of_nat (length t + 1))); [| lia].
      rewrite removelast_last. exists (d :: c :: j), (if echo then [] else [8; SPACE; 8]). split.
      * unfold editing.
        rewrite <- (assoc_L (++)). cbn [app]. do 5 f_equal. lia.
      * split; [simpl; lia |]. split; [lia |]. intros Hc Hf. specialize (Hfree Hc Hf). by rewrite <- (assoc_L (++)) in Hfree.
  - apply Z.eqb_neq in Htab as ->.
    rewrite Z.geb_leb. destruct (Z.leb_spec INBUF_SIZE (Z.of_nat (length typed) + 1)); [unfold INBUF_SIZE in *; lia |].
    exists j, (if echo then [] else [c]). split.
    + unfold editing.
      rewrite length_snoc, <- snoc_app. done.
    + rewrite length_app. cbn [length]. split; [lia |]. split; [lia |]. intros Hc Hf. rewrite <- snoc_app. by apply Hfree.
Qed.

Lemma get_input_enter cmds num echo sc typed x junk :
  get_input_char cmds num echo (editing sc typed (x :: junk)) END_CHAR =
    Ret (Some 1, MkEditor BASIC_KEY sc (typed ++ 0 :: junk) 0, []).
Proof.
  unfold get_input_char, editing. cbn [inbuf bp state second_char]. rewrite arr_set_app by done. rewrite bind_ret.
  cbn [state set_inbuf inbuf bp second_char]. rewrite !bool_decide_false by done. cbn [andb].
  change (END_CHAR =? 27) with false. rewrite Z.eqb_refl. unfold set_state, set_bp, set_inbuf. cbn [inbuf bp state second_char].
  rewrite arr_set_app by done. done.
Qed.

(** A whole line, typed and corrected. *)
Lemma get_input_line cmds num echo sc chars : forall typed junk, Forall line_char chars ->
  (length typed + length junk = 512)%nat -> (length typed + length chars < 512)%nat ->
  exists junk' out,
    get_input cmds num echo (editing sc typed junk) (chars ++ [END_CHAR]) =
      Ret (Some (1, []), MkEditor BASIC_KEY sc (edit_line typed chars ++ 0 :: junk') 0, out) /\
    (length (edit_line typed chars) + S (length junk') = 512)%nat /\
    (crlf_free chars -> crlf_free (typed ++ junk) -> crlf_free (edit_line typed chars ++ 0 :: junk')).
Proof.
  induction chars as [| c chars IH]; intros typed junk Hc Hlen Hmax.
  - destruct junk as [| x j]; [simpl in *; lia |]. exists j, []. cbn [app get_input edit_line foldl].
    rewrite get_input_enter, bind_ret. split; [done |]. split; [simpl in *; lia |]. intros _ Hf.
    apply Forall_app in Hf as [Hf1 Hf2]. apply List.Forall_cons_iff in Hf2 as [_ Hf2].
    apply Forall_app_2; [done | by constructor].
  - apply List.Forall_cons_iff in Hc as [Hc0 Hc]. cbn [length] in Hmax.
    destruct (get_input_edit cmds num echo sc typed junk c Hc0 Hlen ltac:(lia)) as (j1 & o1 & E & L1 & L1' & F1).
    destruct (IH (edit typed c) j1 Hc L1 ltac:(lia)) as (j2 & o2 & E2 & L2 & F2).
    exists j2, (o1 ++ o2). cbn [app get_input]. rewrite E, bind_ret, E2, bind_ret. split; [done |]. split; [exact L2 |].
    intros Hcf Hf. apply List.Forall_cons_iff in Hcf as [Hc1 Hcf]. apply F2; [done |]. by apply F1.
Qed.

(** Without erasing, the line is what was typed. *)
Lemma edit_line_plain chars : Forall (fun c => erase c = false) chars -> forall typed, edit_line typed chars = typed ++ chars.
Proof.
  induction 1 as [| c chars Hc _ IH]; intros typed; [by rewrite app_nil_r |].
  cbn [edit_line foldl]. unfold edit at 2. rewrite Hc. unfold edit_line in IH. by rewrite IH, <- (assoc_L (++)).
Qed.
