(* ===== verification/CliTheorems.v ===== *)
(** * Theorems about the console

    From a typed line to the call of its command; the editor as plain line
    editing; ownership of the two line buffers; the parser's termination; and
    the inputs that make it write outside its buffers. *)
From S2P Require Import Prelude CString Cli CliProps.

(** ** What the console relies on from the queue *)
Class FifoQueue (Q : Type) `{MessageQueue Q} := {
  contents : Q -> list message;
  send_room : forall q m, (length (contents q) < 4)%nat ->
    exists q', queue_send q m = (true, q') /\ contents q' = contents q ++ [m];
  recv_none : forall q, contents q = [] -> exists q', queue_recv q = (None, q') /\ contents q' = [];
  recv_some : forall q m l, contents q = m :: l -> exists q', queue_recv q = (Some m, q') /\ contents q' = l
}.

(** The bounded queue of the operating system, of the depth the console asks
    for. *)
Record queue4 := MkQueue4 { q4 : list message }.
#[export] Instance queue4_ops : MessageQueue queue4 := {
  queue_send q m := if (length (q4 q) <? 4)%nat then (true, MkQueue4 (q4 q ++ [m])) else (false, q);
  queue_recv q := match q4 q with [] => (None, q) | m :: l => (Some m, MkQueue4 l) end
}.
#[export] Instance queue4_fifo : FifoQueue queue4.
Proof.
  refine {| contents := q4 |}.
  - intros [l] m Hl. simpl in *. apply Nat.ltb_lt in Hl as ->. by eexists.
  - intros [l] Hl. simpl in *. subst l. by eexists.
  - intros [l0] m l Hl. simpl in *. subst l0. by eexists.
Defined.

(** ** From a typed line to a call *)
Section line.
Context {Q : Type} `{FifoQueue Q}.

(** Nothing typed, nothing queued, both buffers free and without line ends. *)
Record console_idle (s : cli Q) : Prop := {
  ci_on : input_enabled s = true /\ initialized s = true;
  ci_inbuf : cli_inbuf s = None;
  ci_queue : contents (input_queue s) = [];
  ci_free : alloc0 (mem s) = false /\ alloc1 (mem s) = false;
  ci_len : length (buff1 (mem s)) = 512%nat /\ length (buff2 (mem s)) = 512%nat;
  ci_clean : crlf_free (buff1 (mem s)) /\ crlf_free (buff2 (mem s));
  ci_keys : keys s = BASIC_KEY
}.

(** Words of printable characters other than the backslash. *)
Definition printable (c : Z) : Prop := 32 <= c < 127 /\ c <> BACKSLASH.
Definition printable_word (w : list Z) : Prop := w <> [] /\ Forall printable w.

Lemma printable_word_ok w : printable_word w -> word_ok w.
Proof.
  intros [Hne Hw]. split; [done |]. eapply list.Forall_impl; [exact Hw |].
  intros c [Hc Hb]. split; [lia | done].
Qed.

Lemma line_of_chars (P : Z -> Prop) ws : P BACKSLASH -> P SPACE -> Forall (Forall P) ws -> Forall P (line_of ws).
Proof.
  intros Hb Hs. assert (He : forall w, Forall P w -> Forall P (esc_word w)).
  { induction 1 as [| c w Hc _ IH]; [constructor |]. rewrite esc_word_cons. apply Forall_app_2; [| exact IH].
    unfold esc_char. destruct (special c); repeat constructor; done. }
  induction 1 as [| w ws Hw _ IH]; [constructor |]. destruct ws as [| w2 ws]; [by apply He |].
  rewrite line_of_cons. apply Forall_app_2; [by apply He |]. by constructor.
Qed.

Lemma typed_line_chars ws : Forall printable_word ws ->
  Forall (fun c => line_char c /\ not_crlf c /\ erase c = false) (line_of ws).
Proof.
  intros Hws. apply line_of_chars; [vm_compute; repeat split; discriminate.. |].
  eapply list.Forall_impl; [exact Hws |]. intros w [_ Hw]. eapply list.Forall_impl; [exact Hw |].
  intros c [Hc Hb]. unfold line_char, not_crlf, erase, END_CHAR. repeat split; lia.
Qed.

(** The editor hands the typed line to the queue. *)
Lemma tick_line s ws : console_idle s -> Forall printable_word ws -> (length (line_of ws) < 512)%nat ->
  exists s1 o junk, console_tick s (line_of ws ++ [END_CHAR]) = Ret (s1, [], o) /\
    contents (input_queue s1) = [MsgBuffer Buff1] /\
    mem s1 = MkAllocator true false (line_of ws ++ 0 :: junk) (buff2 (mem s)) /\
    length (line_of ws ++ 0 :: junk) = 512%nat /\ crlf_free (line_of ws ++ 0 :: junk) /\
    cli_inbuf s1 = None /\ keys s1 = BASIC_KEY /\ commands s1 = commands s /\ num_commands s1 = num_commands s /\
    input_enabled s1 = true /\ initialized s1 = true.
Proof.
  intros [[Hen Hin] Hb Hq [Ha0 Ha1] [Hl1 Hl2] [Hc1 Hc2] Hk] Hws Hlen.
  pose proof (typed_line_chars ws Hws) as Hch.
  destruct (get_input_line (commands s) (num_commands s) (echo_disabled s) (keys_second s) (line_of ws) [] (buff1 (mem s)))
    as (junk & o & E & Lj & F).
  { eapply list.Forall_impl; [exact Hch |]. by intros c (? & _). }
  { simpl. lia. }
  { simpl. lia. }
  rewrite edit_line_plain in *; [| eapply list.Forall_impl; [exact Hch |]; by intros c (_ & _ & ?) ..].
  unfold console_tick, cli_get_cmd_buffer, cli_mem_malloc. rewrite Hb. change (negb (INBUF_SIZE =? INBUF_SIZE)) with false.
  cbv iota. rewrite Ha0. cbn [negb]. cbv iota. cbn [input_enabled set_cli_inbuf set_mem]. rewrite Hen.
  unfold run_editor. cbn [commands num_commands echo_disabled keys keys_second mem cli_bp set_cli_inbuf set_mem buffer_of buff1].
  unfold editing in E. cbn [app length] in E, F. change (Z.of_nat 0) with 0 in E. rewrite Hk, E, bind_ret.
  cbn [mbind outcome_bind]. change (1 =? 1) with true. cbv iota.
  unfold cli_submit_cmd_buffer. cbn [initialized set_cli_inbuf set_mem]. rewrite Hin. cbn [input_queue set_cli_inbuf set_mem].
  destruct (send_room (input_queue s) (MsgBuffer Buff1)) as (q' & -> & Hq'); [rewrite Hq; simpl; lia |].
  eexists _, _, junk. split; [reflexivity |]. rewrite Hq in Hq'. cbn -[contents]. rewrite ?Ha1, ?Hen, ?Hin.
  split; [exact Hq' |]. split; [done |]. split; [rewrite length_app; simpl; simpl in Lj; lia |].
  split; [| done]. apply F; [| done]. eapply list.Forall_impl; [exact Hch |]. by intros c (_ & ? & _).
Qed.

(** C21: Typing a line of words (blanks and quotes inside a word escaped) and
    pressing enter runs the command of that name: the idle hook hands the
    buffer to the command thread, which calls the first registered command of
    that name with exactly the typed words as its arguments, and gives the
    buffer back; the console is idle again. *)
Theorem typed_line_runs_command s ws w0 c l :
  console_idle s -> table_holds (commands s) (num_commands s) l ->
  Forall (fun c => forall nm, name c = Some nm -> no_nul nm) l ->
  Forall printable_word ws -> (length ws <= 64)%nat -> (length (line_of ws) < 512)%nat ->
  head ws = Some w0 -> 46 ∉ w0 -> first_named w0 l = Some c -> line_of ws <> HALT_MSG ->
  exists s1 o1 s2 o2 av,
    console_tick s (line_of ws ++ [END_CHAR]) = Ret (s1, [], o1) /\
    cli_main s1 = Ret (true, s2, o2, Some (MkCall c (Z.of_nat (length ws)) av)) /\
    (forall k w, ws !! k = Some w -> exists p, av !! k = Some (Some p) /\ c_string (buff1 (mem s2)) p = Ret w) /\
    contents (input_queue s2) = [] /\ cli_inbuf s2 = None /\ alloc0 (mem s2) = false /\ alloc1 (mem s2) = false /\
    keys s2 = BASIC_KEY.
Proof.
  intros Hs Ht Hn Hws Hmax Hlen Hhead Hdot Hc Hhalt.
  destruct (tick_line s ws Hs Hws Hlen) as (s1 & o1 & junk & E & Hq & Hm & Hl & Hf & Hib & Hk & Hcm & Hnum & _ & _).
  assert (Hwk : Forall word_ok ws) by (eapply list.Forall_impl; [exact Hws |]; apply printable_word_ok).
  assert (Hw0 : ws !! 0%nat = Some w0) by (by destruct ws).
  destruct (handle_words (commands s1) (num_commands s1) (echo_disabled s1) l ws junk) as (buf & out & Eh & Lb & Hstr);
    [by rewrite Hcm, Hnum | done | done | by destruct ws | done | done | done | congruence |].
  rewrite Hw0 in Eh. change (Some w0 ≫= (fun w => first_named w l)) with (first_named w0 l) in Eh. rewrite Hc in Eh.
  destruct (recv_some (input_queue s1) (MsgBuffer Buff1) [] Hq) as (q' & Er & Hq').
  exists s1, o1. unfold cli_main. rewrite Er. cbn [mem set_queue buffer_of]. rewrite Hm. cbn [buff1 commands num_commands echo_disabled set_queue].
  pose proof (strcmp_eq_app HALT_MSG [] (line_of ws) junk 0 eq_refl) as Hcmp. cbn [app] in Hcmp.
  rewrite Hcmp; [| repeat constructor; discriminate | by apply line_of_no_nul].
  rewrite bool_decide_false by done. rewrite bind_ret, Eh, bind_ret. change (0 =? 1) with false. change (0 =? 2) with false. cbv iota.
  rewrite bind_ret. eexists _, _, _. split; [exact E |]. split; [reflexivity |].
  cbn -[contents c_string]. split; [| split; [exact Hq' |]; split; [exact Hib |]; split; [done |]; split; [done | exact Hk]].
  intros k w Hw. destruct (Hstr k w Hw) as (p & Hp & Hstring). exists p. split; [| exact Hstring].
  by apply lookup_app_l_Some.
Qed.

(** ** Ownership of the line buffers *)

(** Who holds a buffer: the editor, or a message in the queue. *)
Definition owned (s : cli Q) (bufs : list slot) : list slot := option_list (cli_inbuf s) ++ bufs.
Definition allocated (a : allocator) (b : slot) : bool := match b with Buff1 => alloc0 a | Buff2 => alloc1 a end.
Record buffers_owned (s : cli Q) : Prop := {
  bo_init : initialized s = true;
  bo_owned : exists bufs, contents (input_queue s) = MsgBuffer <$> bufs /\ NoDup (owned s bufs) /\
    forall b, allocated (mem s) b = true <-> b ∈ owned s bufs
}.

(** One call of the idle hook, or one round of the command thread that goes on. *)
Inductive console_step (s : cli Q) : cli Q -> Prop :=
  | step_tick chars s' rest o : console_tick s chars = Ret (s', rest, o) -> console_step s s'
  | step_main s' o c : cli_main s = Ret (true, s', o, c) -> console_step s s'.

Lemma slots_bound (l : list slot) : NoDup l -> (length l <= 2)%nat.
Proof.
  intros Hl. apply (submseteq_length l [Buff1; Buff2]), NoDup_submseteq; [done |].
  intros [|] _; [left | right; left].
Qed.

Lemma allocated_free a b b' : allocated (cli_mem_free a b) b' = if decide (b' = b) then false else allocated a b'.
Proof. by destruct b, b'. Qed.
Lemma allocated_write a b l b' : allocated (write_buffer b l a) b' = allocated a b'.
Proof. by destruct b, b'. Qed.
Lemma allocated_malloc a b a' : cli_get_cmd_buffer a = (Some b, a') ->
  allocated a b = false /\ forall b', allocated a' b' = if decide (b' = b) then true else allocated a b'.
Proof.
  unfold cli_get_cmd_buffer, cli_mem_malloc. change (negb (INBUF_SIZE =? INBUF_SIZE)) with false. cbv iota.
  destruct (alloc0 a) eqn:E0; simpl; [destruct (alloc1 a) eqn:E1; simpl; [done |] |];
    intros Ea; injection Ea as <- <-; (split; [done |]); intros [|]; done.
Qed.

(** Sending the editor's buffer moves it to the queue. *)
Lemma submit_owned s b : buffers_owned s -> cli_inbuf s = Some b ->
  exists s', cli_submit_cmd_buffer s (MsgBuffer b) = (true, s') /\ buffers_owned (set_cli_inbuf None (cli_bp s') s').
Proof.
  intros [Hin (bufs & Hq & Hnd & Hal)] Hb. unfold owned in *. rewrite Hb in *. simpl in Hnd, Hal.
  pose proof (slots_bound _ Hnd) as Hl. simpl in Hl.
  unfold cli_submit_cmd_buffer. rewrite Hin.
  destruct (send_room (input_queue s) (MsgBuffer b)) as (q' & -> & Hq'); [rewrite Hq, length_fmap; lia |].
  eexists. split; [reflexivity |]. split; [done |]. exists (bufs ++ [b]). simpl. rewrite Hq', Hq, fmap_app. split; [done |].
  assert (Hp : b :: bufs ≡ₚ bufs ++ [b]) by (by rewrite Permutation_app_comm).
  split; [by rewrite <- Hp |]. intros b'. by rewrite Hal, Hp.
Qed.

Lemma run_editor_owned s b chars r s' o : run_editor s b chars = Ret (r, s', o) -> buffers_owned s -> buffers_owned s' /\ cli_inbuf s' = cli_inbuf s.
Proof.
  unfold run_editor. intros ([[r0 e] o0] & _ & E)%bind_inv. cbv beta in E. injection E as <- <- <-.
  intros [Hin (bufs & Hq & Hnd & Hal)]. split; [| done]. split; [done |]. exists bufs. split; [done |]. split; [done |].
  intros b'. simpl. rewrite allocated_write. apply Hal.
Qed.

Lemma tick_owned s chars s' rest o : console_tick s chars = Ret (s', rest, o) -> buffers_owned s -> buffers_owned s'.
Proof.
  intros E Hs. unfold console_tick in E.
  assert (Hs1 : forall b s1, match cli_inbuf s with
      | Some b => (Some b, s)
      | None => let '(b, a) := cli_get_cmd_buffer (mem s) in
                (b, match b with Some _ => set_cli_inbuf b 0 (set_mem a s) | None => s end)
      end = (b, s1) -> buffers_owned s1 /\ (forall b0, b = Some b0 -> cli_inbuf s1 = Some b0)).
  { intros b s1 E1. destruct (cli_inbuf s) as [b0 |] eqn:Eb.
    - injection E1 as <- <-. split; [done |]. by intros ? [= <-].
    - destruct (cli_get_cmd_buffer (mem s)) as [[b0 |] a] eqn:Em; injection E1 as <- <-; [| by split].
      split; [| by intros ? [= <-]]. destruct Hs as [Hin (bufs & Hq & Hnd & Hal)]. apply allocated_malloc in Em as [Hfree Ha].
      unfold owned in *. rewrite Eb in *. simpl in Hnd, Hal. split; [done |]. exists bufs. split; [done |]. simpl. split.
      + constructor; [| done]. rewrite <- Hal. by rewrite Hfree.
      + intros b'. rewrite Ha. destruct (decide (b' = b0)) as [-> |]; [split; [by left | done] |].
        rewrite Hal. unfold owned. simpl. rewrite elem_of_cons. tauto. }
  destruct (match cli_inbuf s with Some b => _ | None => _ end) as [[b |] s1]; destruct (Hs1 _ _ eq_refl) as [Ho Hb];
    [| by injection E as <- <- <-].
  destruct (input_enabled s1); [| by injection E as <- <- <-].
  apply bind_inv in E as ([[r s2] o2] & Er & E). cbv beta in E.
  destruct (run_editor_owned _ _ _ _ _ _ Er Ho) as [Ho2 Hb2].
  destruct r as [[v rest'] |]; [| by injection E as <- <- <-].
  destruct (v =? 1); [| by injection E as <- <- <-].
  destruct (submit_owned s2 b Ho2) as (s3 & Es & Ho3); [rewrite Hb2; by apply Hb |].
  rewrite Es in E. by injection E as <- _ _.
Qed.

Lemma main_owned s s' o c : cli_main s = Ret (true, s', o, c) -> buffers_owned s -> buffers_owned s'.
Proof.
  intros E [Hin (bufs & Hq & Hnd & Hal)]. unfold cli_main in E. destruct bufs as [| b bufs].
  - destruct (recv_none (input_queue s) Hq) as (q' & Er & Hq'). rewrite Er in E. injection E as <- _ _.
    split; [done |]. by exists [].
  - destruct (recv_some (input_queue s) _ _ Hq) as (q' & Er & Hq'). rewrite Er in E.
    apply bind_inv in E as ([|] & _ & E); [done |]. apply bind_inv in E as ([[[r line] o0] c0] & _ & E).
    apply bind_inv in E as (o1 & _ & E). cbv beta in E. injection E as <- _ _.
    unfold owned in *. apply list.NoDup_app in Hnd as (Hn1 & Hn2 & Hn3). apply NoDup_cons in Hn3 as [Hb Hn3].
    split; [done |]. exists bufs. split; [exact Hq' |]. unfold owned. simpl. split.
    + apply list.NoDup_app. split; [done |]. split; [| done]. intros x Hx Hx'. apply (Hn2 x Hx). by right.
    + intros b'. rewrite allocated_free, allocated_write. destruct (decide (b' = b)) as [-> |].
      * split; [done |]. intros [Hx | Hx]%elem_of_app; [| done]. destruct (Hn2 b Hx). by left.
      * rewrite Hal, !elem_of_app, elem_of_cons. tauto.
Qed.

(** C35: However calls of the idle hook and rounds of the command thread
    interleave and whatever is typed, each line buffer is free or held by
    exactly one of the editor and the queued messages. *)
Theorem console_buffers_owned s s' :
  buffers_owned s -> rtc console_step s s' -> buffers_owned s'.
Proof.
  intros Hs Hr. induction Hr as [| s s1 s' Hstep _ IH]; [done |]. apply IH.
  destruct Hstep as [chars s1 rest o E | s1 o c E]; [by eapply tick_owned | by eapply main_owned].
Qed.
End line.

(** ** A concrete console *)
Definition ex_command (id : Z) (s : list Z) : cli_command := MkCommand id (Some s) None true.
Definition ex_commands : list cli_command := [ex_command 1 (lit "help"); ex_command 2 (lit "wlan-scan"); ex_command 3 (lit "ping")].
Definition ex_table (l : list cli_command) : command_table := (Some <$> l) ++ replicate (100 - length l) None.
Definition ex_mem : allocator := MkAllocator false false (replicate 512 0) (replicate 512 0).
Definition ex_console : cli queue4 :=
  MkCli true true 0 None (ex_table ex_commands) 3 false (MkQueue4 []) ex_mem BASIC_KEY 0.
Definition ex_words : list (list Z) := [lit "ping"; lit "10.0.0.1"; lit "two words"].

Lemma ex_table_holds : table_holds (ex_table ex_commands) 3 ex_commands.
Proof.
  split; [done | done | simpl; lia | | repeat constructor; by eexists].
  apply (bool_decide_unpack (NoDup (command_id <$> ex_commands))). vm_compute. exact I.
Qed.

Lemma crlf_free_zeros n : crlf_free (replicate n 0).
Proof. apply Forall_replicate. done. Qed.

Lemma printable_lit (w : list Z) : bool_decide (Forall (fun c => 32 <= c < 127 /\ c <> 92) w) = true -> Forall printable w.
Proof. intros Hw. by apply bool_decide_eq_true in Hw. Qed.

Lemma typed_line_runs_command_witness :
  exists s1 o1 s2 o2 av,
    console_tick ex_console (line_of ex_words ++ [END_CHAR]) = Ret (s1, [], o1) /\
    cli_main s1 = Ret (true, s2, o2, Some (MkCall (ex_command 3 (lit "ping")) 3 av)) /\
    exists p, av !! 2%nat = Some (Some p) /\ c_string (buff1 (mem s2)) p = Ret (lit "two words").
Proof.
  destruct (typed_line_runs_command ex_console ex_words (lit "ping") (ex_command 3 (lit "ping")) ex_commands)
    as (s1 & o1 & s2 & o2 & av & E1 & E2 & Hs & _).
  - split; try done; split; done || apply crlf_free_zeros.
  - apply ex_table_holds.
  - repeat constructor; intros nm [= <-]; repeat constructor; discriminate.
  - repeat constructor; try done; by apply printable_lit.
  - simpl; lia.
  - vm_compute. apply Nat.leb_le. reflexivity.
  - reflexivity.
  - apply (bool_decide_unpack (46 ∉ lit "ping")). vm_compute. exact I.
  - reflexivity.
  - discriminate.
  - exists s1, o1, s2, o2, av. split; [exact E1 |]. split; [exact E2 |]. by apply Hs.
Defined.

Lemma console_buffers_owned_witness : exists s', rtc console_step ex_console s' /\ buffers_owned s' /\ cli_inbuf s' = Some Buff1.
Proof.
  assert (E : exists s' rest o, console_tick ex_console [104; 101] = Ret (s', rest, o) /\ cli_inbuf s' = Some Buff1)
    by (eexists _, _, _; split; vm_compute; reflexivity).
  destruct E as (s' & rest & o & E & Hb).
  assert (Hr : rtc console_step ex_console s') by (eapply rtc_l; [by eapply step_tick | apply rtc_refl]).
  exists s'. split; [exact Hr |]. split; [| exact Hb]. apply (console_buffers_owned ex_console s'); [| exact Hr].
  split; [done |]. exists []. split; [done |]. split; [constructor |]. intros [|]; simpl; (split; [done |]); by intros ?%elem_of_nil.
Defined.

(** ** The editor *)
Lemma edit_no_nul typed c : c <> 0 -> no_nul typed -> no_nul (edit typed c).
Proof.
  intros Hc Ht. unfold edit. destruct (erase c); [| apply Forall_app_2; [done | by repeat constructor]].
  destruct typed as [| d t _] using rev_ind; [constructor |]. rewrite removelast_last. by apply Forall_app in Ht as [? _].
Qed.

Lemma edit_line_no_nul chars : no_nul chars -> forall typed, no_nul typed -> no_nul (edit_line typed chars).
Proof.
  induction 1 as [| c chars Hc _ IH]; intros typed Ht; [done |]. apply IH. by apply edit_no_nul.
Qed.

(** C36: The line editor is plain line editing: whatever is typed and erased
    before enter (no tab or escape), the editor returns with the string that
    appending and erasing characters one by one gives, and is ready for the
    next line. *)
Theorem editor_edits_line cmds num echo sc buf chars :
  length buf = 512%nat -> Forall (fun c => line_char c /\ c <> 0) chars -> (length chars < 512)%nat ->
  exists e out,
    get_input cmds num echo (MkEditor BASIC_KEY sc buf 0) (chars ++ [END_CHAR]) = Ret (Some (1, []), e, out) /\
    c_string (inbuf e) 0 = Ret (edit_line [] chars) /\ bp e = 0 /\ state e = BASIC_KEY /\ length (inbuf e) = 512%nat.
Proof.
  intros Hl Hc Hlen.
  destruct (get_input_line cmds num echo sc chars [] buf) as (junk & out & E & Lj & _).
  { eapply list.Forall_impl; [exact Hc |]. by intros c []. }
  { done. }
  { done. }
  eexists _, out. split; [exact E |]. cbn [inbuf bp state]. split; [| split; [done |]; split; [done |]].
  - apply (c_string_app []); [done |]. apply edit_line_no_nul; [| constructor].
    eapply list.Forall_impl; [exact Hc |]. by intros c [].
  - rewrite length_app. exact Lj.
Qed.

Lemma editor_edits_line_witness :
  exists e out, get_input [] 0 false (MkEditor BASIC_KEY 0 (replicate 512 0) 0) (lit "pingg" ++ [8] ++ lit " x" ++ [END_CHAR]) =
      Ret (Some (1, []), e, out) /\ c_string (inbuf e) 0 = Ret (lit "ping x").
Proof.
  destruct (editor_edits_line [] 0 false 0 (replicate 512 0) (lit "pingg" ++ [8] ++ lit " x")) as (e & out & E & Hs & _).
  - reflexivity.
  - apply (bool_decide_unpack (Forall (fun c => (c <> 27 /\ c <> 9 /\ c <> 13) /\ c <> 0) (lit "pingg" ++ [8] ++ lit " x"))).
    vm_compute. exact I.
  - vm_compute. apply Nat.leb_le. reflexivity.
  - exists e, out. split; [exact E | exact Hs].
Defined.

(** *** Completion *)
Lemma strncmp_eq_prefix nm : forall pre typed rest pos, pos = Z.of_nat (length pre) -> no_nul typed ->
  strncmp_eq nm (pre ++ typed ++ rest) pos (Z.of_nat (length typed)) = Ret (bool_decide (typed `prefix_of` nm)).
Proof.
  induction nm as [| a nm IH]; intros pre typed rest pos Hp Ht; destruct typed as [| c t]; cbn [strncmp_eq length].
  - by rewrite bool_decide_true by apply prefix_nil.
  - destruct (Z.leb_spec (Z.of_nat (S (length t))) 0); [lia |]. cbn [app]. rewrite arr_get_app by done. rewrite bind_ret.
    apply List.Forall_cons_iff in Ht as [Hc _]. apply Z.eqb_neq in Hc as ->.
    rewrite bool_decide_false; [done |]. by intros ?%prefix_nil_inv.
  - by rewrite bool_decide_true by apply prefix_nil.
  - destruct (Z.leb_spec (Z.of_nat (S (length t))) 0); [lia |]. cbn [app]. rewrite arr_get_app by done. rewrite bind_ret.
    apply List.Forall_cons_iff in Ht as [Hc Ht]. destruct (Z.eqb_spec c a) as [-> | Hne].
    + rewrite snoc_app. replace (Z.of_nat (S (length t)) - 1) with (Z.of_nat (length t)) by lia.
      rewrite IH by (rewrite ?length_snoc; done || lia). f_equal. apply bool_decide_ext.
      split; [apply prefix_cons | apply prefix_cons_inv_2].
    + rewrite bool_decide_false; [done |]. intros Hpre. by apply prefix_cons_inv_1 in Hpre.
Qed.

Lemma strncmp_eq_start nm typed junk : no_nul typed ->
  strncmp_eq nm (typed ++ junk) 0 (Z.of_nat (length typed)) = Ret (bool_decide (typed `prefix_of` nm)).
Proof. exact (strncmp_eq_prefix nm [] typed junk 0 eq_refl). Qed.

Lemma c_string_start s rest : no_nul s -> c_string (s ++ 0 :: rest) 0 = Ret s.
Proof. exact (c_string_app [] s rest 0 eq_refl). Qed.

(** The first match, if any, starts with what was typed. *)
Definition match_found (typed : list Z) (l : list cli_command) (m : Z) (fm : option (list Z)) : Prop :=
  0 <= m /\ (m = 0 -> fm = None) /\
  forall nm, fm = Some nm -> typed `prefix_of` nm /\ exists c, c ∈ l /\ name c = Some nm.

Lemma matches_loop_spec typed junk (all : list cli_command) : no_nul typed -> forall l (rest : command_table) n num m fm,
  Forall (fun c => is_Some (name c) /\ c ∈ all) l -> num = n + Z.of_nat (length l) -> match_found typed all m fm ->
  exists m' fm' o, matches_loop ((Some <$> l) ++ rest) n num (typed ++ junk) (Z.of_nat (length typed)) m fm = Ret (m', fm', o) /\
    match_found typed all m' fm'.
Proof.
  intros Ht. induction l as [| c l IH]; intros rest n num m fm Hl Hn Hf.
  - simpl in *. destruct rest as [| c rest]; [by exists m, fm, [] |]. simpl. destruct (Z.ltb_spec n num); [lia |]. by exists m, fm, [].
  - apply List.Forall_cons_iff in Hl as [[[nm Hnm] Hin] Hl]. cbn [fmap list_fmap app matches_loop length] in *.
    destruct (Z.ltb_spec n num); [| lia]. rewrite Hnm.
    rewrite (strncmp_eq_start nm typed junk Ht), bind_ret.
    destruct (bool_decide (typed `prefix_of` nm)) eqn:Eb.
    + apply bool_decide_eq_true in Eb. destruct Hf as (Hm & Hm0 & Hfm).
      destruct (IH rest (n + 1) num (m + 1) (if m =? 0 then Some nm else fm) Hl ltac:(lia)) as (m' & fm' & o & -> & Hf').
      { split; [lia |]. split; [lia |]. intros nm'. destruct (m =? 0); [| apply Hfm]. intros [= <-]. split; [done |]. by exists c. }
      rewrite bind_ret. by eexists _, _, _.
    + destruct (IH rest (n + 1) num m fm Hl ltac:(lia) Hf) as (m' & fm' & o & -> & Hf'). by eexists _, _, _.
Qed.

(** The editor's buffer: a NUL-free prefix and something after it. *)
Definition editor_ok (e : editor) : Prop :=
  exists typed junk, inbuf e = typed ++ junk /\ bp e = Z.of_nat (length typed) /\ no_nul typed /\
    (length typed + length junk = 512)%nat /\ junk <> [].

Definition short_names (l : list cli_command) : Prop :=
  Forall (fun c => forall nm, name c = Some nm -> no_nul nm /\ (length nm <= 510)%nat) l.

Lemma tab_complete_ok cmds num l k sc typed junk : table_holds cmds num l -> short_names l -> no_nul typed ->
  (length typed + S (length junk) = 512)%nat ->
  exists e o, tab_complete cmds num (MkEditor k sc (typed ++ 0 :: junk) (Z.of_nat (length typed))) = Ret (e, o) /\ editor_ok e.
Proof.
  intros [-> -> Hmax _ Hv] Hnames Ht Hlen. unfold tab_complete. cbn [inbuf bp]. rewrite take_ge.
  2:{ rewrite length_app, length_fmap, length_replicate. change (Z.to_nat MAX_COMMANDS) with 100%nat. lia. }
  destruct (matches_loop_spec typed (0 :: junk) l Ht l (replicate (100 - length l) None) 0 (Z.of_nat (length l)) 0 None)
    as (m & fm & o & -> & _ & _ & Hfm).
  { rewrite Forall_forall in Hv. apply List.Forall_forall. intros c Hc. apply list_elem_of_In in Hc. split; [by apply Hv | done]. }
  { lia. }
  { split; [lia |]. split; done. }
  rewrite bind_ret.
  assert (Hno : forall s : editor, s = MkEditor k sc (typed ++ 0 :: junk) (Z.of_nat (length typed)) -> exists e o', (line ← c_string (inbuf s) 0; Ret (s, crlf ++ o ++ PROMPT ++ line)) = Ret (e, o') /\ editor_ok e).
  { intros s ->. cbn [inbuf]. rewrite (c_string_start typed junk Ht), bind_ret. eexists _, _. split; [reflexivity |].
    by exists typed, (0 :: junk). }
  destruct fm as [nm |]; [| rewrite bind_ret; by apply Hno].
  destruct (m =? 1); [| rewrite bind_ret; by apply Hno].
  destruct (Hfm nm eq_refl) as [[tl ->] (c & Hc & Hnm)].
  unfold short_names in Hnames. rewrite Forall_forall in Hnames. destruct (Hnames c Hc _ Hnm) as [Hnn Hnl]. rewrite length_app in *.
  rewrite (wrap_small 32 (Z.of_nat (length typed + length tl) - Z.of_nat (length typed))) by lia.
  replace (Z.of_nat (length typed) + (Z.of_nat (length typed + length tl) - Z.of_nat (length typed)))
    with (Z.of_nat (length (typed ++ tl))) by (rewrite length_app; lia).
  rewrite wrap_small by (rewrite length_app; lia). unfold INBUF_SIZE.
  destruct (Z.ltb_spec (Z.of_nat (length (typed ++ tl))) 512); [| rewrite length_app in *; lia].
  rewrite <- (assoc_L (++)). rewrite mem_read_app by (lia || done). rewrite bind_ret.
  destruct (split_block (0 :: junk) (length tl + 2)) as (old & post & Ej & Lo & Lp); [simpl; rewrite length_app in *; lia |].
  destruct old as [| x old]; [simpl in Lo; lia |]. rewrite Ej.
  destruct (split_block (x :: old) (length tl)) as (o1 & o2 & Eo & L1 & L2); [simpl in *; lia |].
  destruct o2 as [| y1 [| y2 [| y3 o2]]]; simpl in L2, Lo; try lia. rewrite Eo, <- (assoc_L (++) o1).
  rewrite mem_write_app by done. rewrite bind_ret. cbn [app]. rewrite (assoc_L (++) typed tl).
  rewrite arr_set_app by done. rewrite bind_ret, (snoc_app (typed ++ tl) SPACE), arr_set_app by (rewrite length_snoc; lia). rewrite !bind_ret.
  unfold set_bp, set_inbuf. cbn [state second_char inbuf bp].
  assert (Hsp : no_nul ((typed ++ tl) ++ [SPACE])) by (apply Forall_app_2; [done | by repeat constructor]).
  rewrite (c_string_start _ post Hsp), bind_ret. eexists _, _. split; [reflexivity |].
  exists ((typed ++ tl) ++ [SPACE]), (0 :: post). cbn [inbuf bp]. rewrite length_snoc. split; [done |]. split; [done |]. split; [done |].
  split; [| done]. rewrite !length_app in *. simpl in *. lia.
Qed.

Lemma editor_ok_intro k sc typed junk n : n = Z.of_nat (length typed) -> no_nul typed -> (length typed + length junk = 512)%nat ->
  junk <> [] -> editor_ok (MkEditor k sc (typed ++ junk) n).
Proof. intros -> ? ? ?. by exists typed, junk. Qed.

Lemma editor_ok_start k sc buf : length buf = 512%nat -> editor_ok (MkEditor k sc buf 0).
Proof. intros Hl. apply (editor_ok_intro k sc [] buf); [done | constructor | done |]. intros ->. done. Qed.

Lemma get_input_char_ok cmds num echo l e c : table_holds cmds num l -> short_names l -> editor_ok e -> c <> 0 ->
  exists r e' o, get_input_char cmds num echo e c = Ret (r, e', o) /\ editor_ok e'.
Proof.
  intros Hl Hn (typed & junk & Hi & Hb & Ht & Hlen & Hj) Hc. destruct e as [k sc buf n]. cbn [inbuf bp] in *. subst buf n.
  destruct junk as [| x junk]; [done |]. simpl in Hlen.
  assert (Hok : forall k' sc' y, editor_ok (MkEditor k' sc' (typed ++ y :: junk) (Z.of_nat (length typed))))
    by (intros; apply editor_ok_intro; simpl; done || lia).
  assert (Hok0 : forall k' sc' y, editor_ok (MkEditor k' sc' (typed ++ y :: junk) 0))
    by (intros; apply editor_ok_start; rewrite length_app; simpl; lia).
  unfold get_input_char. cbn [inbuf bp state second_char]. rewrite arr_set_app by done. rewrite bind_ret.
  unfold set_inbuf, set_state, set_bp. cbn [inbuf bp state second_char].
  match goal with |- context [if ?b then _ else _] => destruct b end.
  { rewrite arr_set_app by done. rewrite bind_ret. by eexists _, _, _. }
  set (k1 := if bool_decide (k = EXT_KEY_FIRST_SYMBOL) then _ else _).
  assert (Hk1 : exists sc1, k1 = MkEditor k sc1 (typed ++ c :: junk) (Z.of_nat (length typed))) by (unfold k1; case_bool_decide; by eexists).
  destruct Hk1 as [sc1 ->]. cbn [inbuf bp state second_char].
  match goal with |- context [if ?b then _ else _] => destruct b end; [by eexists _, _, _ |].
  destruct (c =? 27); [by eexists _, _, _ |].
  destruct (c =? END_CHAR); [rewrite arr_set_app by done; rewrite bind_ret; by eexists _, _, _ |].
  match goal with |- context [if ?b then _ else _] => destruct b end.
  { rewrite Z.gtb_ltb. destruct (Z.ltb_spec 0 (Z.of_nat (length typed))); [| by eexists _, _, _].
    eexists _, _, _. split; [reflexivity |].
    destruct typed as [| d t _] using rev_ind; [simpl in *; lia |]. rewrite <- (assoc_L (++)).
    rewrite length_app in *. cbn [length] in *. apply Forall_app in Ht as [Ht _].
    apply editor_ok_intro; [lia | done | simpl; lia | done]. }
  destruct (c =? 9).
  { rewrite arr_set_app by done. rewrite bind_ret.
    destruct (tab_complete_ok cmds num l BASIC_KEY sc1 typed junk Hl Hn Ht ltac:(lia)) as (e' & o & -> & He).
    rewrite bind_ret. by eexists _, _, _. }
  rewrite Z.geb_leb. unfold INBUF_SIZE. destruct (Z.leb_spec 512 (Z.of_nat (length typed) + 1)); [by eexists _, _, _ |].
  eexists _, _, _. split; [reflexivity |]. rewrite snoc_app.
  apply editor_ok_intro; [by rewrite length_snoc | apply Forall_app_2; [done | by repeat constructor] | |].
  - rewrite length_app. simpl. lia.
  - intros ->. simpl in Hlen. lia.
Qed.

(** Whatever keys are pressed (escape sequences, tabs and erasing included,
    but no NUL character), the editor stays inside its buffer, when the
    registered names are at most 510 characters long. *)
Theorem editor_stays_in_buffer cmds num echo l e chars :
  table_holds cmds num l -> short_names l -> editor_ok e -> Forall (fun c => c <> 0) chars ->
  exists r e' o, get_input cmds num echo e chars = Ret (r, e', o) /\ editor_ok e'.
Proof.
  intros Hl Hn He Hc. revert e He. induction Hc as [| c chars Hc _ IH]; intros e He; [by eexists _, _, _ |].
  destruct (get_input_char_ok cmds num echo l e c Hl Hn He Hc) as (r & e1 & o1 & E & He1).
  cbn [get_input]. rewrite E, bind_ret. destruct r as [v |]; [by eexists _, _, _ |].
  destruct (IH e1 He1) as (r' & e2 & o2 & -> & He2). rewrite bind_ret. by eexists _, _, _.
Qed.

Lemma editor_stays_in_buffer_witness :
  exists r e' o, get_input (ex_table ex_commands) 3 false (MkEditor BASIC_KEY 0 (replicate 512 0) 0) (lit "wl" ++ [9; 27; 91; 65; 8]) =
    Ret (r, e', o) /\ editor_ok e'.
Proof.
  apply (editor_stays_in_buffer _ _ _ ex_commands); [apply ex_table_holds | | by apply editor_ok_start |].
  - repeat (apply List.Forall_cons; [intros nm [= <-]; split; [repeat constructor; discriminate | apply Nat.leb_le; reflexivity] |]).
    apply List.Forall_nil.
  - apply (bool_decide_unpack (Forall (fun c => c <> 0) (lit "wl" ++ [9; 27; 91; 65; 8]))). vm_compute. exact I.
Defined.

(** A NUL character typed inside a command name and then a tab make the
    completion copy with a length that wrapped around. *)
Theorem completion_overruns_after_nul :
  get_input (ex_table ex_commands) 3 false (MkEditor BASIC_KEY 0 (replicate 512 0) 0) (lit "help" ++ [0; 120; 9]) =
    Fault OutOfBounds.
Proof. vm_compute. reflexivity. Qed.

(** A cursor key is not ignored: the last character of its escape sequence
    is put into the line. *)
Theorem cursor_key_types_letter :
  match get_input (ex_table ex_commands) 3 true (MkEditor BASIC_KEY 0 (replicate 512 0) 0) ([27; 91; 65] ++ lit "help" ++ [END_CHAR]) with
  | Ret (r, e, _) => r = Some (1, []) /\ c_string (inbuf e) 0 = Ret (lit "Ahelp")
  | Fault _ => False
  end.
Proof. vm_compute. split; reflexivity. Qed.

(** ** The parser *)
Lemma lookup_loop_fault cmds m pos len : forall n num f, lookup_loop cmds n num m pos len = Fault f -> f <> OutOfFuel /\ f <> Hang.
Proof.
  assert (Hcmp : forall s p k f, strncmp_eq s m p k = Fault f -> f = OutOfBounds).
  { induction s as [| a s IH]; intros p k f; simpl; (destruct (k <=? 0); [done |]);
      (destruct (arr_get m p) eqn:E; [rewrite bind_ret | intros [= <-]; by eapply arr_get_oob]); [done |].
    destruct (_ =? a); [apply IH | done]. }
  assert (Hcmp0 : forall s p f, strcmp_eq s m p = Fault f -> f = OutOfBounds).
  { induction s as [| a s IH]; intros p f; simpl;
      (destruct (arr_get m p) eqn:E; [rewrite bind_ret | intros [= <-]; by eapply arr_get_oob]); [done |].
    destruct (_ =? a); [apply IH | done]. }
  induction cmds as [| [c |] cmds IH]; intros n num f; simpl; [done | |].
  - destruct (n <? num); [| done]. destruct (name c) as [nm |]; [| apply IH]. unfold name_matches.
    destruct (negb (len =? 0)).
    + destruct (strncmp_eq nm m pos len) as [[|] |] eqn:E; rewrite ?bind_ret; [done | apply IH |].
      intros [= <-]. apply Hcmp in E as ->. done.
    + destruct (strcmp_eq nm m pos) as [[|] |] eqn:E; rewrite ?bind_ret; [done | apply IH |].
      intros [= <-]. apply Hcmp0 in E as ->. done.
  - destruct (n <? num); [| done]. by intros [= <-].
Qed.

Lemma strip_loop_length k buf : length buf = 512%nat -> forall j, 0 <= j -> j + Z.of_nat k = 512 ->
  match strip_loop k buf 0 j with Ret b => b = buf | Fault f => f = OutOfBounds end.
Proof.
  intros Hl j Hj Hk. destruct (decide (crlf_free (drop (Z.to_nat j) buf))) as [Hc | Hd]; [| by rewrite strip_loop_dirty].
  revert j Hj Hk Hc. induction k as [| k IH]; intros j Hj Hk Hc; [done |]. simpl. unfold strip_char.
  destruct (arr_get_total buf j) as (c & -> & Hx); [lia |]. rewrite bind_ret.
  rewrite (drop_S _ c _ Hx) in Hc. apply List.Forall_cons_iff in Hc as [Hc1 Hc]. apply not_crlf_test in Hc1 as ->.
  rewrite bind_ret. apply IH; [lia | lia |]. by replace (Z.to_nat (j + 1)) with (S (Z.to_nat j)) by lia.
Qed.

Lemma strchr_list_fault m c f : strchr_list m c = Fault f -> f = OutOfBounds.
Proof.
  induction m as [| a m IH]; simpl; [congruence |]. destruct (a =? c); [done |]. destruct (a =? 0); [done |].
  destruct (strchr_list m c); simpl; [done |]. intros E. apply IH. congruence.
Qed.

(** Parsing any 512-byte line ends: the escape handling steps back, but at
    most once for each position.  It returns one of the three documented
    results, and calls a function only when it returns 0. *)
Theorem handle_input_returns cmds num echo line :
  length line = 512%nat ->
  match handle_input cmds num echo line with
  | Ret (r, _, _, c) => r = 2 /\ c = None \/ r = 1 /\ c = None \/ r = 0
  | Fault f => f <> OutOfFuel /\ f <> Hang
  end.
Proof.
  intros Hl. unfold handle_input. change (Z.to_nat INBUF_SIZE) with 512%nat.
  pose proof (strip_loop_length 512 line Hl 0 ltac:(lia) eq_refl) as Hs.
  destruct (strip_loop 512 line 0 0) as [b |]; [subst b | by subst f]. rewrite bind_ret.
  destruct (parse_loop_enough parse_fuel (MkParser false false 0 (replicate (Z.to_nat ARGV_SIZE) None) line 0)) as [H1 H2].
  { simpl. unfold INBUF_SIZE. lia. }
  { unfold rounds_left, parse_fuel. cbn [pi]. unfold INBUF_SIZE. destruct (after_backslash _); lia. }
  destruct (parse_loop _ _) as [r | f]; [rewrite bind_ret | by split; congruence].
  assert (Hp : forall p, match
      (if in_quote p then Ret (2, pbuf p, [], None)
       else if argc p <? 1 then Ret (0, pbuf p, [], None)
       else first ← arr_get (argv p) 0;
            match first with
            | None => Fault NullPointer
            | Some a0 =>
                dot ← c_strchr (pbuf p) a0 46;
                command ← lookup_command cmds num (pbuf p) a0 (default 0 dot);
                match command with
                | None => Ret (1, pbuf p, if echo then [] else crlf, None)
                | Some c => Ret (0, pbuf p, if echo then [] else crlf, Some (MkCall c (argc p) (argv p)))
                end
            end) with
    | Ret (r, _, _, c) => r = 2 /\ c = None \/ r = 1 /\ c = None \/ r = 0
    | Fault f => f <> OutOfFuel /\ f <> Hang
    end).
  { intros p. destruct (in_quote p); [tauto |]. destruct (argc p <? 1); [tauto |].
    destruct (arr_get (argv p) 0) as [[a0 |] | f] eqn:E; cbn [mbind outcome_bind]; [| done | apply arr_get_oob in E as ->; done].
    unfold c_strchr. destruct (strchr_list _ 46) as [dot | f] eqn:Ed; cbn [mbind outcome_bind]; [| apply strchr_list_fault in Ed as ->; done].
    destruct (lookup_command _ _ _ _ _) as [[c |] | f] eqn:El; cbn [mbind outcome_bind]; [tauto | tauto |].
    unfold lookup_command in El. by apply lookup_loop_fault in El. }
  destruct r as [p | p | p]; [apply Hp | apply Hp | tauto].
Qed.

Lemma handle_input_returns_witness :
  match handle_input (ex_table ex_commands) 3 true (replicate 512 BACKSLASH) with
  | Ret (r, _, _, c) => r = 2 /\ c = None \/ r = 1 /\ c = None \/ r = 0
  | Fault f => f <> OutOfFuel /\ f <> Hang
  end.
Proof. apply handle_input_returns. reflexivity. Defined.

(** Any CR or LF in the line buffer, which the stripping loop is there to
    remove, makes it move and write bytes outside the buffer. *)
Theorem line_end_in_buffer_overruns cmds num echo line :
  length line = 512%nat -> ~ crlf_free line -> handle_input cmds num echo line = Fault OutOfBounds.
Proof.
  intros Hl Hd. unfold handle_input. change (Z.to_nat INBUF_SIZE) with 512%nat. by rewrite strip_loop_dirty.
Qed.

(** The second line of a terminal that ends lines with CR LF. *)
Lemma line_end_in_buffer_overruns_witness :
  handle_input (ex_table ex_commands) 3 false ([10] ++ lit "help" ++ replicate 507 0) = Fault OutOfBounds.
Proof.
  apply line_end_in_buffer_overruns; [reflexivity |]. intros Hf. apply List.Forall_cons_iff in Hf as [[_ Hf] _]. by apply Hf.
Defined.

(** A line of sixty-five arguments is parsed past the end of [argv]. *)
Theorem sixty_five_arguments_overrun :
  handle_input (ex_table ex_commands) 3 false (line_of (replicate 65 (lit "a")) ++ replicate 383 0) = Fault OutOfBounds.
Proof. vm_compute. reflexivity. Qed.

(** A user who types the stop message ends the command thread, and the line
    buffer stays allocated. *)
Theorem typed_halt_stops_console :
  match console_tick ex_console (HALT_MSG ++ [END_CHAR]) with
  | Ret (s1, _, _) =>
      match cli_main s1 with
      | Ret (go, s2, _, _) => go = false /\ alloc0 (mem s2) = true /\ cli_inbuf s2 = None /\ contents (input_queue s2) = []
      | Fault _ => False
      end
  | Fault _ => False
  end.
Proof. vm_compute. repeat split; reflexivity. Qed.

(** ** Registering commands *)
Lemma find_command_spec c l : forall (rest : command_table) i num, num = i + Z.of_nat (length l) ->
  (command_id c ∉ command_id <$> l -> find_command ((Some <$> l) ++ rest) i num c = None) /\
  (forall l1 x l2, l = l1 ++ x :: l2 -> command_id x = command_id c -> command_id c ∉ command_id <$> l1 ->
     find_command ((Some <$> l) ++ rest) i num c = Some (i + Z.of_nat (length l1))).
Proof.
  induction l as [| y l IH]; intros rest i num Hn.
  - split; [intros _ | intros l1 x l2 E; by destruct l1]. simpl in *. destruct rest as [| r rest]; [done |]. simpl.
    destruct (Z.ltb_spec i num); [lia | done].
  - cbn [fmap list_fmap app find_command length] in *. destruct (Z.ltb_spec i num); [| lia].
    destruct (IH rest (i + 1) num ltac:(lia)) as [IH1 IH2]. unfold same_command. split.
    + intros Hc. apply not_elem_of_cons in Hc as [Hne Hc]. destruct (Z.eqb_spec (command_id y) (command_id c)); [congruence |].
      by apply IH1.
    + intros [| z l1] x l2 E Hx Hl1; injection E as -> ->.
      * rewrite Hx, Z.eqb_refl. simpl. f_equal. lia.
      * apply not_elem_of_cons in Hl1 as [Hne Hl1]. destruct (Z.eqb_spec (command_id z) (command_id c)); [congruence |].
        rewrite (IH2 l1 x l2 eq_refl Hx Hl1). simpl. f_equal. lia.
Qed.

Lemma replicate_none_S (n : nat) : (0 < n)%nat -> replicate n (@None cli_command) = None :: replicate (n - 1) None.
Proof. destruct n; [lia |]. intros _. simpl. by rewrite Nat.sub_0_r. Qed.

(** Registering a valid command appends it to the table, unless it is
    registered already (then nothing changes and the call succeeds) or the
    table holds a hundred commands (then the call fails, also for a command
    that is registered). *)
Theorem register_command_spec cmds num l c :
  table_holds cmds num l -> is_Some (name c) -> has_function c = true ->
  if decide (length l = 100%nat) then cli_register_command cmds num c = Ret (1, cmds, num)
  else if decide (command_id c ∈ command_id <$> l) then cli_register_command cmds num c = Ret (0, cmds, num)
  else exists cmds', cli_register_command cmds num c = Ret (0, cmds', num + 1) /\ table_holds cmds' (num + 1) (l ++ [c]).
Proof.
  intros [-> -> Hmax Hnd Hv] [nm Hnm] Hf. unfold cli_register_command. rewrite Hnm, Hf. cbn [negb]. unfold MAX_COMMANDS.
  destruct (decide (length l = 100%nat)) as [H100 | Hroom]; [by destruct (Z.ltb_spec (Z.of_nat (length l)) 100); [lia |] |].
  destruct (Z.ltb_spec (Z.of_nat (length l)) 100); [| lia].
  destruct (find_command_spec c l (replicate (100 - length l) None) 0 (Z.of_nat (length l)) ltac:(lia)) as [Hnone Hsome].
  destruct (decide _) as [Hin | Hnin].
  - apply list_elem_of_fmap in Hin as (x & Hx & (l1 & l2 & ->)%list_elem_of_split).
    rewrite (Hsome l1 x l2); [done | done | done |].
    rewrite fmap_app in Hnd. apply list.NoDup_app in Hnd as (_ & Hd & _). intros Hc. apply (Hd _ Hc). rewrite Hx. by left.
  - rewrite (Hnone Hnin), replicate_none_S by lia. rewrite arr_set_app by (by rewrite length_fmap). rewrite bind_ret.
    eexists. split; [reflexivity |]. split.
    + rewrite fmap_app, <- (assoc_L (++)), length_app. cbn [length]. by replace (100 - (length l + 1))%nat with (100 - length l - 1)%nat by lia.
    + rewrite length_app. simpl. lia.
    + rewrite length_app. simpl. lia.
    + rewrite fmap_app. apply list.NoDup_app. split; [done |]. split; [| apply NoDup_singleton].
      intros x Hx Hx'. apply list_elem_of_singleton in Hx' as ->. done.
    + apply Forall_app_2; [done |]. apply Forall_singleton. split; [by eexists | done].
Qed.

Lemma register_command_spec_witness :
  exists cmds', cli_register_command (ex_table ex_commands) 3 (ex_command 4 (lit "iperf")) = Ret (0, cmds', 4) /\
    table_holds cmds' 4 (ex_commands ++ [ex_command 4 (lit "iperf")]).
Proof. exact (register_command_spec _ 3 ex_commands (ex_command 4 (lit "iperf")) ex_table_holds ltac:(by eexists) eq_refl). Defined.

(** Moving the entries after a removed one. *)
Lemma close_gap {A} (a b r : list A) (x : A) :
  exists z, (if Z.of_nat (length b) >? 0
             then rest ← mem_read (a ++ x :: b ++ r) (Z.of_nat (length a) + 1) (Z.of_nat (length b));
                  mem_write (a ++ x :: b ++ r) (Z.of_nat (length a)) rest
             else Ret (a ++ x :: b ++ r)) = Ret (a ++ b ++ z :: r).
Proof.
  rewrite Z.gtb_ltb. destruct b as [| y b _] using rev_ind; [by exists x |].
  destruct (Z.ltb_spec 0 (Z.of_nat (length (b ++ [y])))); [| rewrite length_app in *; simpl in *; lia].
  exists y. rewrite (snoc_app a x). rewrite mem_read_app by (rewrite ?length_snoc; done || lia). rewrite bind_ret.
  replace ((a ++ [x]) ++ (b ++ [y]) ++ r) with (a ++ (x :: b) ++ y :: r) by (rewrite <- !(assoc_L (++)); done).
  rewrite mem_write_app by (rewrite ?length_app; simpl; lia). done.
Qed.

(** Unregistering a command removes that command and keeps the others in
    order, with no gap, so that every lookup still sees all of them. *)
Theorem unregister_command_spec cmds num l1 x l2 c :
  table_holds cmds num (l1 ++ x :: l2) -> command_id x = command_id c -> is_Some (name c) -> has_function c = true ->
  exists cmds', cli_unregister_command cmds num c = Ret (0, cmds', num - 1) /\ table_holds cmds' (num - 1) (l1 ++ l2).
Proof.
  intros [-> -> Hmax Hnd Hv] Hx [nm Hnm] Hf. unfold cli_unregister_command. rewrite Hnm, Hf. cbn [negb].
  destruct (find_command_spec c (l1 ++ x :: l2) (replicate (100 - length (l1 ++ x :: l2)) None) 0
    (Z.of_nat (length (l1 ++ x :: l2))) ltac:(lia)) as [_ Hsome].
  assert (Hl1 : command_id c ∉ command_id <$> l1).
  { rewrite fmap_app in Hnd. apply list.NoDup_app in Hnd as (_ & Hd & _). intros Hc. apply (Hd _ Hc). rewrite <- Hx. by left. }
  rewrite (Hsome l1 x l2 eq_refl Hx Hl1). rewrite length_app in *. cbn [length] in *.
  rewrite fmap_app, fmap_cons, <- (assoc_L (++)). cbn [app].
  destruct (close_gap (Some <$> l1) (Some <$> l2) (replicate (100 - (length l1 + S (length l2))) None) (Some x)) as [z Hgap].
  rewrite !length_fmap in Hgap.
  replace (Z.of_nat (length l1 + S (length l2)) - 1 - (0 + Z.of_nat (length l1))) with (Z.of_nat (length l2)) by lia.
  unfold command_table in *. rewrite !Z.add_0_l, Hgap, bind_ret, (assoc_L (++)).
  rewrite arr_set_app by (rewrite length_app, !length_fmap; lia). rewrite bind_ret.
  eexists. split; [reflexivity |]. rewrite fmap_app, fmap_cons in Hnd. split.
  - rewrite length_app, fmap_app.
    replace (100 - (length l1 + length l2))%nat with (S (100 - (length l1 + S (length l2)))) by lia. done.
  - rewrite length_app. lia.
  - rewrite length_app. lia.
  - rewrite fmap_app. apply list.NoDup_app in Hnd as (Hn1 & Hd & Hn2). apply NoDup_cons in Hn2 as [Hx2 Hn2].
    apply list.NoDup_app. split; [done |]. split; [| done]. intros i Hi Hi'. apply (Hd i Hi). by right.
  - apply Forall_app in Hv as [Hv1 Hv2]. apply List.Forall_cons_iff in Hv2 as [_ Hv2]. by apply Forall_app_2.
Qed.

Lemma unregister_command_spec_witness :
  exists cmds', cli_unregister_command (ex_table ex_commands) 3 (ex_command 2 (lit "wlan-scan")) = Ret (0, cmds', 2) /\
    table_holds cmds' 2 [ex_command 1 (lit "help"); ex_command 3 (lit "ping")].
Proof.
  exact (unregister_command_spec (ex_table ex_commands) 3 [ex_command 1 (lit "help")] (ex_command 2 (lit "wlan-scan"))
    [ex_command 3 (lit "ping")] (ex_command 2 (lit "wlan-scan")) ex_table_holds eq_refl ltac:(by eexists) eq_refl).
Defined.
