(* ===== verification/CfpTables.v ===== *)
(** * Channel, power and operating-class tables

    The static tables of [wifidriver/mlan_cfp.c], entry for entry, in the
    configuration with 5 GHz, 802.11ac and the channel information of the
    firmware. *)
From S2P Require Import Prelude CString.

(** ** Transmit powers *)
Definition WLAN_TX_PWR_DEFAULT : Z := 20.
Definition WLAN_TX_PWR_US_DEFAULT : Z := 20.
Definition WLAN_TX_PWR_JP_BG_DEFAULT : Z := 20.
Definition WLAN_TX_PWR_JP_A_DEFAULT : Z := 23.
Definition WLAN_TX_PWR_FR_100MW : Z := 20.
Definition WLAN_TX_PWR_FR_10MW : Z := 10.
Definition WLAN_TX_PWR_EMEA_DEFAULT : Z := 20.
Definition WLAN_TX_PWR_CN_2000MW : Z := 33.
Definition WLAN_TX_PWR_WW_DEFAULT : Z := 8.

(** ** Entries *)
Record chan_freq_power_t := MkCfp {
  channel : Z;                           (* t_u16 *)
  freq : Z;
  max_tx_power : Z;                      (* t_u16 *)
  passive_scan_or_radar_detect : bool;
  flags : Z                              (* dynamic.flags *)
}.
Definition cfp (c f p : Z) (d : bool) : chan_freq_power_t := MkCfp c f p d 0.
#[export] Instance chan_freq_power_eq_dec : EqDecision chan_freq_power_t.
Proof. solve_decision. Defined.

(** Country strings are their first two characters. *)
Record country_code_mapping_t := MkCountry { country_code : list Z; cfp_code_bg : Z; cfp_code_a : Z }.
Record oper_bw_chan := MkOper { oper_class : Z; global_oper_class : Z; bandwidth : Z; channel_list : list Z }.
Record cfp_table_t := MkTable { code : Z; table : list chan_freq_power_t }.

Definition country_code_mapping : list country_code_mapping_t := [
    MkCountry (lit "WW") 0xaa 0xaa;
    MkCountry (lit "US") 0x10 0x10;
    MkCountry (lit "CA") 0x10 0x20;
    MkCountry (lit "SG") 0x10 0x10;
    MkCountry (lit "EU") 0x30 0x30;
    MkCountry (lit "AU") 0x30 0x30;
    MkCountry (lit "KR") 0x30 0x30;
    MkCountry (lit "FR") 0x32 0x32;
    MkCountry (lit "JP") 0xFF 0x40;
    MkCountry (lit "CN") 0x30 0x50].

(** ** Operating classes *)
Definition oper_bw_chan_us : list oper_bw_chan := [
    MkOper 1 115 0 [36; 40; 44; 48; 0; 0; 0; 0; 0; 0; 0; 0; 0];
    MkOper 2 118 0 [52; 56; 60; 64; 0; 0; 0; 0; 0; 0; 0; 0; 0];
    MkOper 3 124 0 [149; 153; 157; 161; 0; 0; 0; 0; 0; 0; 0; 0; 0];
    MkOper 4 121 0 [100; 104; 108; 112; 116; 120; 124; 128; 132; 136; 140; 144; 0];
    MkOper 5 125 0 [149; 153; 157; 161; 165; 0; 0; 0; 0; 0; 0; 0; 0];
    MkOper 12 81 0 [1; 2; 3; 4; 5; 6; 7; 8; 9; 10; 11; 0; 0];
    MkOper 22 116 1 [36; 44; 0; 0; 0; 0; 0; 0; 0; 0; 0; 0; 0];
    MkOper 23 119 1 [52; 60; 0; 0; 0; 0; 0; 0; 0; 0; 0; 0; 0];
    MkOper 24 122 1 [100; 108; 116; 124; 132; 140; 0; 0; 0; 0; 0; 0; 0];
    MkOper 25 126 1 [149; 157; 0; 0; 0; 0; 0; 0; 0; 0; 0; 0; 0];
    MkOper 26 126 1 [149; 157; 0; 0; 0; 0; 0; 0; 0; 0; 0; 0; 0];
    MkOper 27 117 1 [40; 48; 0; 0; 0; 0; 0; 0; 0; 0; 0; 0; 0];
    MkOper 28 120 1 [56; 64; 0; 0; 0; 0; 0; 0; 0; 0; 0; 0; 0];
    MkOper 29 123 1 [104; 112; 120; 128; 136; 144; 0; 0; 0; 0; 0; 0; 0];
    MkOper 30 127 1 [153; 161; 0; 0; 0; 0; 0; 0; 0; 0; 0; 0; 0];
    MkOper 31 127 1 [153; 161; 0; 0; 0; 0; 0; 0; 0; 0; 0; 0; 0];
    MkOper 32 83 1 [1; 2; 3; 4; 5; 6; 7; 0; 0; 0; 0; 0; 0];
    MkOper 33 84 1 [5; 6; 7; 8; 9; 10; 11; 0; 0; 0; 0; 0; 0];
    MkOper 128 128 2 [42; 58; 106; 122; 138; 155; 0; 0; 0; 0; 0; 0; 0];
    MkOper 129 129 3 [50; 114; 0; 0; 0; 0; 0; 0; 0; 0; 0; 0; 0];
    MkOper 130 130 2 [42; 58; 106; 122; 138; 155; 0; 0; 0; 0; 0; 0; 0]].

Definition oper_bw_chan_eu : list oper_bw_chan := [
    MkOper 1 115 0 [36; 40; 44; 48; 0; 0; 0; 0; 0; 0; 0; 0; 0];
    MkOper 2 118 0 [52; 56; 60; 64; 0; 0; 0; 0; 0; 0; 0; 0; 0];
    MkOper 3 121 0 [100; 104; 108; 112; 116; 120; 124; 128; 132; 136; 140; 0; 0];
    MkOper 4 81 0 [1; 2; 3; 4; 5; 6; 7; 8; 9; 10; 11; 12; 13];
    MkOper 5 116 1 [36; 44; 0; 0; 0; 0; 0; 0; 0; 0; 0; 0; 0];
    MkOper 6 119 1 [52; 60; 0; 0; 0; 0; 0; 0; 0; 0; 0; 0; 0];
    MkOper 7 122 1 [100; 108; 116; 124; 132; 0; 0; 0; 0; 0; 0; 0; 0];
    MkOper 8 117 1 [40; 48; 0; 0; 0; 0; 0; 0; 0; 0; 0; 0; 0];
    MkOper 9 120 1 [56; 64; 0; 0; 0; 0; 0; 0; 0; 0; 0; 0; 0];
    MkOper 10 123 1 [104; 112; 120; 128; 136; 0; 0; 0; 0; 0; 0; 0; 0];
    MkOper 11 83 1 [1; 2; 3; 4; 5; 6; 7; 8; 9; 0; 0; 0; 0];
    MkOper 12 84 1 [5; 6; 7; 8; 9; 10; 11; 12; 13; 0; 0; 0; 0];
    MkOper 17 125 0 [149; 153; 157; 161; 165; 169; 0; 0; 0; 0; 0; 0; 0];
    MkOper 128 128 2 [42; 58; 106; 122; 138; 155; 0; 0; 0; 0; 0; 0; 0];
    MkOper 129 129 3 [50; 114; 0; 0; 0; 0; 0; 0; 0; 0; 0; 0; 0];
    MkOper 130 130 2 [42; 58; 106; 122; 138; 155; 0; 0; 0; 0; 0; 0; 0]].

Definition oper_bw_chan_jp : list oper_bw_chan := [
    MkOper 1 115 0 [34; 38; 42; 46; 36; 40; 44; 48; 0; 0; 0; 0; 0];
    MkOper 30 81 0 [1; 2; 3; 4; 5; 6; 7; 8; 9; 10; 11; 12; 13];
    MkOper 31 82 0 [14; 0; 0; 0; 0; 0; 0; 0; 0; 0; 0; 0; 0];
    MkOper 32 118 0 [52; 56; 60; 64; 0; 0; 0; 0; 0; 0; 0; 0; 0];
    MkOper 33 118 0 [52; 56; 60; 64; 0; 0; 0; 0; 0; 0; 0; 0; 0];
    MkOper 34 121 0 [100; 104; 108; 112; 116; 120; 124; 128; 132; 136; 140; 0; 0];
    MkOper 35 121 0 [100; 104; 108; 112; 116; 120; 124; 128; 132; 136; 140; 0; 0];
    MkOper 36 116 1 [36; 44; 0; 0; 0; 0; 0; 0; 0; 0; 0; 0; 0];
    MkOper 37 119 1 [52; 60; 0; 0; 0; 0; 0; 0; 0; 0; 0; 0; 0];
    MkOper 38 119 1 [52; 60; 0; 0; 0; 0; 0; 0; 0; 0; 0; 0; 0];
    MkOper 39 122 1 [100; 108; 116; 124; 132; 0; 0; 0; 0; 0; 0; 0; 0];
    MkOper 40 122 1 [100; 108; 116; 124; 132; 0; 0; 0; 0; 0; 0; 0; 0];
    MkOper 41 117 1 [40; 48; 0; 0; 0; 0; 0; 0; 0; 0; 0; 0; 0];
    MkOper 42 120 1 [56; 64; 0; 0; 0; 0; 0; 0; 0; 0; 0; 0; 0];
    MkOper 43 120 1 [56; 64; 0; 0; 0; 0; 0; 0; 0; 0; 0; 0; 0];
    MkOper 44 123 1 [104; 112; 120; 128; 136; 0; 0; 0; 0; 0; 0; 0; 0];
    MkOper 45 123 1 [104; 112; 120; 128; 136; 0; 0; 0; 0; 0; 0; 0; 0];
    MkOper 56 83 1 [1; 2; 3; 4; 5; 6; 7; 8; 9; 0; 0; 0; 0];
    MkOper 57 84 1 [5; 6; 7; 8; 9; 10; 11; 12; 13; 0; 0; 0; 0];
    MkOper 58 121 0 [100; 104; 108; 112; 116; 120; 124; 128; 132; 136; 140; 0; 0];
    MkOper 128 128 2 [42; 58; 106; 122; 138; 155; 0; 0; 0; 0; 0; 0; 0];
    MkOper 129 129 3 [50; 114; 0; 0; 0; 0; 0; 0; 0; 0; 0; 0; 0];
    MkOper 130 130 2 [42; 58; 106; 122; 138; 155; 0; 0; 0; 0; 0; 0; 0]].

Definition oper_bw_chan_cn : list oper_bw_chan := [
    MkOper 1 115 0 [36; 40; 44; 48; 0; 0; 0; 0; 0; 0; 0; 0; 0];
    MkOper 2 118 0 [52; 56; 60; 64; 0; 0; 0; 0; 0; 0; 0; 0; 0];
    MkOper 3 125 0 [149; 153; 157; 161; 165; 0; 0; 0; 0; 0; 0; 0; 0];
    MkOper 4 116 1 [36; 44; 0; 0; 0; 0; 0; 0; 0; 0; 0; 0; 0];
    MkOper 5 119 1 [52; 60; 0; 0; 0; 0; 0; 0; 0; 0; 0; 0; 0];
    MkOper 6 126 1 [149; 157; 0; 0; 0; 0; 0; 0; 0; 0; 0; 0; 0];
    MkOper 7 81 0 [1; 2; 3; 4; 5; 6; 7; 8; 9; 10; 11; 12; 13];
    MkOper 8 83 0 [1; 2; 3; 4; 5; 6; 7; 8; 9; 0; 0; 0; 0];
    MkOper 9 84 1 [5; 6; 7; 8; 9; 10; 11; 12; 13; 0; 0; 0; 0];
    MkOper 128 128 2 [42; 58; 106; 122; 138; 155; 0; 0; 0; 0; 0; 0; 0];
    MkOper 129 129 3 [50; 114; 0; 0; 0; 0; 0; 0; 0; 0; 0; 0; 0];
    MkOper 130 130 2 [42; 58; 106; 122; 138; 155; 0; 0; 0; 0; 0; 0; 0]].

Definition eu_country_code_table : list (list Z) := lit <$> [
   "AL"; "AD"; "AT"; "AU"; "BY"; "BE"; "BA"; "BG"; "HR"; "CY"; "CZ"; "DK"; "EE"; "FI"; "FR"; "MK"; "DE";
   "GR"; "HU"; "IS"; "IE"; "IT"; "KR"; "LV"; "LI"; "LT"; "LU"; "MT"; "MD"; "MC"; "ME"; "NL"; "NO"; "PL";
   "RO"; "RU"; "SM"; "RS"; "SI"; "SK"; "ES"; "SE"; "CH"; "TR"; "UA"; "UK"; "GB"; "NZ"]%string.

(** ** Channels of the 2.4 GHz band *)
Definition channel_freq_power_US_BG : list chan_freq_power_t := [
   cfp 1 2412 WLAN_TX_PWR_US_DEFAULT false; cfp 2 2417 WLAN_TX_PWR_US_DEFAULT false;
   cfp 3 2422 WLAN_TX_PWR_US_DEFAULT false; cfp 4 2427 WLAN_TX_PWR_US_DEFAULT false;
   cfp 5 2432 WLAN_TX_PWR_US_DEFAULT false; cfp 6 2437 WLAN_TX_PWR_US_DEFAULT false;
   cfp 7 2442 WLAN_TX_PWR_US_DEFAULT false; cfp 8 2447 WLAN_TX_PWR_US_DEFAULT false;
   cfp 9 2452 WLAN_TX_PWR_US_DEFAULT false; cfp 10 2457 WLAN_TX_PWR_US_DEFAULT false;
   cfp 11 2462 WLAN_TX_PWR_US_DEFAULT false].

Definition channel_freq_power_EU_BG : list chan_freq_power_t := [
   cfp 1 2412 WLAN_TX_PWR_EMEA_DEFAULT false; cfp 2 2417 WLAN_TX_PWR_EMEA_DEFAULT false;
   cfp 3 2422 WLAN_TX_PWR_EMEA_DEFAULT false; cfp 4 2427 WLAN_TX_PWR_EMEA_DEFAULT false;
   cfp 5 2432 WLAN_TX_PWR_EMEA_DEFAULT false; cfp 6 2437 WLAN_TX_PWR_EMEA_DEFAULT false;
   cfp 7 2442 WLAN_TX_PWR_EMEA_DEFAULT false; cfp 8 2447 WLAN_TX_PWR_EMEA_DEFAULT false;
   cfp 9 2452 WLAN_TX_PWR_EMEA_DEFAULT false; cfp 10 2457 WLAN_TX_PWR_EMEA_DEFAULT false;
   cfp 11 2462 WLAN_TX_PWR_EMEA_DEFAULT false; cfp 12 2467 WLAN_TX_PWR_EMEA_DEFAULT false;
   cfp 13 2472 WLAN_TX_PWR_EMEA_DEFAULT false].

Definition channel_freq_power_FR_BG : list chan_freq_power_t := [
   cfp 1 2412 WLAN_TX_PWR_FR_100MW false; cfp 2 2417 WLAN_TX_PWR_FR_100MW false;
   cfp 3 2422 WLAN_TX_PWR_FR_100MW false; cfp 4 2427 WLAN_TX_PWR_FR_100MW false;
   cfp 5 2432 WLAN_TX_PWR_FR_100MW false; cfp 6 2437 WLAN_TX_PWR_FR_100MW false;
   cfp 7 2442 WLAN_TX_PWR_FR_100MW false; cfp 8 2447 WLAN_TX_PWR_FR_100MW false;
   cfp 9 2452 WLAN_TX_PWR_FR_100MW false; cfp 10 2457 WLAN_TX_PWR_FR_10MW false;
   cfp 11 2462 WLAN_TX_PWR_FR_10MW false; cfp 12 2467 WLAN_TX_PWR_FR_10MW false;
   cfp 13 2472 WLAN_TX_PWR_FR_10MW false].

Definition channel_freq_power_JPN40_BG : list chan_freq_power_t := [
   cfp 14 2484 WLAN_TX_PWR_JP_BG_DEFAULT false].

Definition channel_freq_power_SPECIAL_BG : list chan_freq_power_t := [
   cfp 1 2412 WLAN_TX_PWR_JP_BG_DEFAULT false; cfp 2 2417 WLAN_TX_PWR_JP_BG_DEFAULT false;
   cfp 3 2422 WLAN_TX_PWR_JP_BG_DEFAULT false; cfp 4 2427 WLAN_TX_PWR_JP_BG_DEFAULT false;
   cfp 5 2432 WLAN_TX_PWR_JP_BG_DEFAULT false; cfp 6 2437 WLAN_TX_PWR_JP_BG_DEFAULT false;
   cfp 7 2442 WLAN_TX_PWR_JP_BG_DEFAULT false; cfp 8 2447 WLAN_TX_PWR_JP_BG_DEFAULT false;
   cfp 9 2452 WLAN_TX_PWR_JP_BG_DEFAULT false; cfp 10 2457 WLAN_TX_PWR_JP_BG_DEFAULT false;
   cfp 11 2462 WLAN_TX_PWR_JP_BG_DEFAULT false; cfp 12 2467 WLAN_TX_PWR_JP_BG_DEFAULT false;
   cfp 13 2472 WLAN_TX_PWR_JP_BG_DEFAULT false; cfp 14 2484 WLAN_TX_PWR_JP_BG_DEFAULT false].

Definition channel_freq_power_WW_BG : list chan_freq_power_t := [
   cfp 1 2412 WLAN_TX_PWR_WW_DEFAULT false; cfp 2 2417 WLAN_TX_PWR_WW_DEFAULT false;
   cfp 3 2422 WLAN_TX_PWR_WW_DEFAULT false; cfp 4 2427 WLAN_TX_PWR_WW_DEFAULT false;
   cfp 5 2432 WLAN_TX_PWR_WW_DEFAULT false; cfp 6 2437 WLAN_TX_PWR_WW_DEFAULT false;
   cfp 7 2442 WLAN_TX_PWR_WW_DEFAULT false; cfp 8 2447 WLAN_TX_PWR_WW_DEFAULT false;
   cfp 9 2452 WLAN_TX_PWR_WW_DEFAULT false; cfp 10 2457 WLAN_TX_PWR_WW_DEFAULT false;
   cfp 11 2462 WLAN_TX_PWR_WW_DEFAULT false; cfp 12 2467 WLAN_TX_PWR_WW_DEFAULT true;
   cfp 13 2472 WLAN_TX_PWR_WW_DEFAULT true; cfp 14 2484 WLAN_TX_PWR_WW_DEFAULT true].

Definition channel_freq_power_Custom_BG : list chan_freq_power_t := [
   cfp 0 0 WLAN_TX_PWR_WW_DEFAULT false; cfp 0 0 WLAN_TX_PWR_WW_DEFAULT false;
   cfp 0 0 WLAN_TX_PWR_WW_DEFAULT false; cfp 0 0 WLAN_TX_PWR_WW_DEFAULT false;
   cfp 0 0 WLAN_TX_PWR_WW_DEFAULT false; cfp 0 0 WLAN_TX_PWR_WW_DEFAULT false;
   cfp 0 0 WLAN_TX_PWR_WW_DEFAULT false; cfp 0 0 WLAN_TX_PWR_WW_DEFAULT false;
   cfp 0 0 WLAN_TX_PWR_WW_DEFAULT false; cfp 0 0 WLAN_TX_PWR_WW_DEFAULT false;
   cfp 0 0 WLAN_TX_PWR_WW_DEFAULT false; cfp 0 0 WLAN_TX_PWR_WW_DEFAULT false;
   cfp 0 0 WLAN_TX_PWR_WW_DEFAULT false; cfp 0 0 WLAN_TX_PWR_WW_DEFAULT false].

Definition rf_radio_modes_group : list Z := [
   0; 3; 11].

Definition cfp_table_BG : list cfp_table_t := [
    MkTable 0xAA channel_freq_power_WW_BG;
    MkTable 0x10 channel_freq_power_US_BG;
    MkTable 0x20 channel_freq_power_US_BG;
    MkTable 0x30 channel_freq_power_EU_BG;
    MkTable 0x32 channel_freq_power_FR_BG;
    MkTable 0x40 channel_freq_power_JPN40_BG;
    MkTable 0x50 channel_freq_power_EU_BG;
    MkTable 0xff channel_freq_power_SPECIAL_BG].

(** ** Channels of the 5 GHz band *)
Definition channel_freq_power_A : list chan_freq_power_t := [
   cfp 36 5180 WLAN_TX_PWR_US_DEFAULT false; cfp 40 5200 WLAN_TX_PWR_US_DEFAULT false;
   cfp 44 5220 WLAN_TX_PWR_US_DEFAULT false; cfp 48 5240 WLAN_TX_PWR_US_DEFAULT false;
   cfp 52 5260 WLAN_TX_PWR_US_DEFAULT true; cfp 56 5280 WLAN_TX_PWR_US_DEFAULT true;
   cfp 60 5300 WLAN_TX_PWR_US_DEFAULT true; cfp 64 5320 WLAN_TX_PWR_US_DEFAULT true;
   cfp 100 5500 WLAN_TX_PWR_US_DEFAULT true; cfp 104 5520 WLAN_TX_PWR_US_DEFAULT true;
   cfp 108 5540 WLAN_TX_PWR_US_DEFAULT true; cfp 112 5560 WLAN_TX_PWR_US_DEFAULT true;
   cfp 116 5580 WLAN_TX_PWR_US_DEFAULT true; cfp 120 5600 WLAN_TX_PWR_US_DEFAULT true;
   cfp 124 5620 WLAN_TX_PWR_US_DEFAULT true; cfp 128 5640 WLAN_TX_PWR_US_DEFAULT true;
   cfp 132 5660 WLAN_TX_PWR_US_DEFAULT true; cfp 136 5680 WLAN_TX_PWR_US_DEFAULT true;
   cfp 140 5700 WLAN_TX_PWR_US_DEFAULT true; cfp 144 5720 WLAN_TX_PWR_US_DEFAULT true;
   cfp 149 5745 WLAN_TX_PWR_US_DEFAULT false; cfp 153 5765 WLAN_TX_PWR_US_DEFAULT false;
   cfp 157 5785 WLAN_TX_PWR_US_DEFAULT false; cfp 161 5805 WLAN_TX_PWR_US_DEFAULT false;
   cfp 165 5825 WLAN_TX_PWR_US_DEFAULT false].

Definition channel_freq_power_CAN_A : list chan_freq_power_t := [
   cfp 36 5180 WLAN_TX_PWR_US_DEFAULT false; cfp 40 5200 WLAN_TX_PWR_US_DEFAULT false;
   cfp 44 5220 WLAN_TX_PWR_US_DEFAULT false; cfp 48 5240 WLAN_TX_PWR_US_DEFAULT false;
   cfp 52 5260 WLAN_TX_PWR_US_DEFAULT true; cfp 56 5280 WLAN_TX_PWR_US_DEFAULT true;
   cfp 60 5300 WLAN_TX_PWR_US_DEFAULT true; cfp 64 5320 WLAN_TX_PWR_US_DEFAULT true;
   cfp 100 5500 WLAN_TX_PWR_US_DEFAULT true; cfp 104 5520 WLAN_TX_PWR_US_DEFAULT true;
   cfp 108 5540 WLAN_TX_PWR_US_DEFAULT true; cfp 112 5560 WLAN_TX_PWR_US_DEFAULT true;
   cfp 116 5580 WLAN_TX_PWR_US_DEFAULT true; cfp 132 5660 WLAN_TX_PWR_US_DEFAULT true;
   cfp 136 5680 WLAN_TX_PWR_US_DEFAULT true; cfp 140 5700 WLAN_TX_PWR_US_DEFAULT true;
   cfp 149 5745 WLAN_TX_PWR_US_DEFAULT false; cfp 153 5765 WLAN_TX_PWR_US_DEFAULT false;
   cfp 157 5785 WLAN_TX_PWR_US_DEFAULT false; cfp 161 5805 WLAN_TX_PWR_US_DEFAULT false;
   cfp 165 5825 WLAN_TX_PWR_US_DEFAULT false].

Definition channel_freq_power_EU_A : list chan_freq_power_t := [
   cfp 36 5180 WLAN_TX_PWR_EMEA_DEFAULT false; cfp 40 5200 WLAN_TX_PWR_EMEA_DEFAULT false;
   cfp 44 5220 WLAN_TX_PWR_EMEA_DEFAULT false; cfp 48 5240 WLAN_TX_PWR_EMEA_DEFAULT false;
   cfp 52 5260 WLAN_TX_PWR_EMEA_DEFAULT true; cfp 56 5280 WLAN_TX_PWR_EMEA_DEFAULT true;
   cfp 60 5300 WLAN_TX_PWR_EMEA_DEFAULT true; cfp 64 5320 WLAN_TX_PWR_EMEA_DEFAULT true;
   cfp 100 5500 WLAN_TX_PWR_EMEA_DEFAULT true; cfp 104 5520 WLAN_TX_PWR_EMEA_DEFAULT true;
   cfp 108 5540 WLAN_TX_PWR_EMEA_DEFAULT true; cfp 112 5560 WLAN_TX_PWR_EMEA_DEFAULT true;
   cfp 116 5580 WLAN_TX_PWR_EMEA_DEFAULT true; cfp 120 5600 WLAN_TX_PWR_EMEA_DEFAULT true;
   cfp 124 5620 WLAN_TX_PWR_EMEA_DEFAULT true; cfp 128 5640 WLAN_TX_PWR_EMEA_DEFAULT true;
   cfp 132 5660 WLAN_TX_PWR_EMEA_DEFAULT true; cfp 136 5680 WLAN_TX_PWR_EMEA_DEFAULT true;
   cfp 140 5700 WLAN_TX_PWR_EMEA_DEFAULT true].

Definition channel_freq_power_JPN_A : list chan_freq_power_t := [
   cfp 8 5040 WLAN_TX_PWR_JP_A_DEFAULT false; cfp 12 5060 WLAN_TX_PWR_JP_A_DEFAULT false;
   cfp 16 5080 WLAN_TX_PWR_JP_A_DEFAULT false; cfp 36 5180 WLAN_TX_PWR_JP_A_DEFAULT false;
   cfp 40 5200 WLAN_TX_PWR_JP_A_DEFAULT false; cfp 44 5220 WLAN_TX_PWR_JP_A_DEFAULT false;
   cfp 48 5240 WLAN_TX_PWR_JP_A_DEFAULT false; cfp 52 5260 WLAN_TX_PWR_JP_A_DEFAULT true;
   cfp 56 5280 WLAN_TX_PWR_JP_A_DEFAULT true; cfp 60 5300 WLAN_TX_PWR_JP_A_DEFAULT true;
   cfp 64 5320 WLAN_TX_PWR_JP_A_DEFAULT true; cfp 100 5500 WLAN_TX_PWR_JP_A_DEFAULT true;
   cfp 104 5520 WLAN_TX_PWR_JP_A_DEFAULT true; cfp 108 5540 WLAN_TX_PWR_JP_A_DEFAULT true;
   cfp 112 5560 WLAN_TX_PWR_JP_A_DEFAULT true; cfp 116 5580 WLAN_TX_PWR_JP_A_DEFAULT true;
   cfp 120 5600 WLAN_TX_PWR_JP_A_DEFAULT true; cfp 124 5620 WLAN_TX_PWR_JP_A_DEFAULT true;
   cfp 128 5640 WLAN_TX_PWR_JP_A_DEFAULT true; cfp 132 5660 WLAN_TX_PWR_JP_A_DEFAULT true;
   cfp 136 5680 WLAN_TX_PWR_JP_A_DEFAULT true; cfp 140 5700 WLAN_TX_PWR_JP_A_DEFAULT true].

Definition channel_freq_power_CN_A : list chan_freq_power_t := [
   cfp 149 5745 WLAN_TX_PWR_CN_2000MW false; cfp 153 5765 WLAN_TX_PWR_CN_2000MW false;
   cfp 157 5785 WLAN_TX_PWR_CN_2000MW false; cfp 161 5805 WLAN_TX_PWR_CN_2000MW false;
   cfp 165 5825 WLAN_TX_PWR_CN_2000MW false].

Definition channel_freq_power_WW_A : list chan_freq_power_t := [
   cfp 36 5180 WLAN_TX_PWR_WW_DEFAULT false; cfp 40 5200 WLAN_TX_PWR_WW_DEFAULT false;
   cfp 44 5220 WLAN_TX_PWR_WW_DEFAULT false; cfp 48 5240 WLAN_TX_PWR_WW_DEFAULT false;
   cfp 52 5260 WLAN_TX_PWR_WW_DEFAULT true; cfp 56 5280 WLAN_TX_PWR_WW_DEFAULT true;
   cfp 60 5300 WLAN_TX_PWR_WW_DEFAULT true; cfp 64 5320 WLAN_TX_PWR_WW_DEFAULT true;
   cfp 100 5500 WLAN_TX_PWR_WW_DEFAULT true; cfp 104 5520 WLAN_TX_PWR_WW_DEFAULT true;
   cfp 108 5540 WLAN_TX_PWR_WW_DEFAULT true; cfp 112 5560 WLAN_TX_PWR_WW_DEFAULT true;
   cfp 116 5580 WLAN_TX_PWR_WW_DEFAULT true; cfp 120 5600 WLAN_TX_PWR_WW_DEFAULT true;
   cfp 124 5620 WLAN_TX_PWR_WW_DEFAULT true; cfp 128 5640 WLAN_TX_PWR_WW_DEFAULT true;
   cfp 132 5660 WLAN_TX_PWR_WW_DEFAULT true; cfp 136 5680 WLAN_TX_PWR_WW_DEFAULT true;
   cfp 140 5700 WLAN_TX_PWR_WW_DEFAULT true; cfp 144 5720 WLAN_TX_PWR_WW_DEFAULT true;
   cfp 149 5745 WLAN_TX_PWR_WW_DEFAULT false; cfp 153 5765 WLAN_TX_PWR_WW_DEFAULT false;
   cfp 157 5785 WLAN_TX_PWR_WW_DEFAULT false; cfp 161 5805 WLAN_TX_PWR_WW_DEFAULT false;
   cfp 165 5825 WLAN_TX_PWR_WW_DEFAULT false].

Definition channel_freq_power_Custom_A : list chan_freq_power_t := [
   cfp 0 0 WLAN_TX_PWR_WW_DEFAULT false; cfp 0 0 WLAN_TX_PWR_WW_DEFAULT false;
   cfp 0 0 WLAN_TX_PWR_WW_DEFAULT false; cfp 0 0 WLAN_TX_PWR_WW_DEFAULT false;
   cfp 0 0 WLAN_TX_PWR_WW_DEFAULT false; cfp 0 0 WLAN_TX_PWR_WW_DEFAULT false;
   cfp 0 0 WLAN_TX_PWR_WW_DEFAULT false; cfp 0 0 WLAN_TX_PWR_WW_DEFAULT false;
   cfp 0 0 WLAN_TX_PWR_WW_DEFAULT false; cfp 0 0 WLAN_TX_PWR_WW_DEFAULT false;
   cfp 0 0 WLAN_TX_PWR_WW_DEFAULT false; cfp 0 0 WLAN_TX_PWR_WW_DEFAULT false;
   cfp 0 0 WLAN_TX_PWR_WW_DEFAULT false; cfp 0 0 WLAN_TX_PWR_WW_DEFAULT false;
   cfp 0 0 WLAN_TX_PWR_WW_DEFAULT false; cfp 0 0 WLAN_TX_PWR_WW_DEFAULT false;
   cfp 0 0 WLAN_TX_PWR_WW_DEFAULT false; cfp 0 0 WLAN_TX_PWR_WW_DEFAULT false;
   cfp 0 0 WLAN_TX_PWR_WW_DEFAULT false; cfp 0 0 WLAN_TX_PWR_WW_DEFAULT false;
   cfp 0 0 WLAN_TX_PWR_WW_DEFAULT false; cfp 0 0 WLAN_TX_PWR_WW_DEFAULT false;
   cfp 0 0 WLAN_TX_PWR_WW_DEFAULT false; cfp 0 0 WLAN_TX_PWR_WW_DEFAULT false;
   cfp 0 0 WLAN_TX_PWR_WW_DEFAULT false].

Definition channel_freq_power_low_band : list chan_freq_power_t := [
   cfp 36 5180 WLAN_TX_PWR_DEFAULT false; cfp 40 5200 WLAN_TX_PWR_DEFAULT false;
   cfp 44 5220 WLAN_TX_PWR_DEFAULT false; cfp 48 5240 WLAN_TX_PWR_DEFAULT false].

Definition channel_freq_power_lower_middle_band : list chan_freq_power_t := [
   cfp 52 5260 WLAN_TX_PWR_DEFAULT true; cfp 56 5280 WLAN_TX_PWR_DEFAULT true;
   cfp 60 5300 WLAN_TX_PWR_DEFAULT true; cfp 64 5320 WLAN_TX_PWR_DEFAULT true].

Definition channel_freq_power_upper_middle_band : list chan_freq_power_t := [
   cfp 100 5500 WLAN_TX_PWR_DEFAULT true; cfp 104 5520 WLAN_TX_PWR_DEFAULT true;
   cfp 108 5540 WLAN_TX_PWR_DEFAULT true; cfp 112 5560 WLAN_TX_PWR_DEFAULT true;
   cfp 116 5580 WLAN_TX_PWR_DEFAULT true; cfp 120 5600 WLAN_TX_PWR_DEFAULT true;
   cfp 124 5620 WLAN_TX_PWR_DEFAULT true; cfp 128 5640 WLAN_TX_PWR_DEFAULT true;
   cfp 132 5660 WLAN_TX_PWR_DEFAULT true; cfp 136 5680 WLAN_TX_PWR_DEFAULT true;
   cfp 140 5700 WLAN_TX_PWR_DEFAULT true].

Definition channel_freq_power_high_band : list chan_freq_power_t := [
   cfp 149 5745 WLAN_TX_PWR_DEFAULT false; cfp 153 5765 WLAN_TX_PWR_DEFAULT false;
   cfp 157 5785 WLAN_TX_PWR_DEFAULT false; cfp 161 5805 WLAN_TX_PWR_DEFAULT false;
   cfp 165 5825 WLAN_TX_PWR_DEFAULT false].

Definition channel_freq_power_low_high_band : list chan_freq_power_t := [
   cfp 36 5180 WLAN_TX_PWR_DEFAULT false; cfp 40 5200 WLAN_TX_PWR_DEFAULT false;
   cfp 44 5220 WLAN_TX_PWR_DEFAULT false; cfp 48 5240 WLAN_TX_PWR_DEFAULT false;
   cfp 149 5745 WLAN_TX_PWR_DEFAULT false; cfp 153 5765 WLAN_TX_PWR_DEFAULT false;
   cfp 157 5785 WLAN_TX_PWR_DEFAULT false; cfp 161 5805 WLAN_TX_PWR_DEFAULT false;
   cfp 165 5825 WLAN_TX_PWR_DEFAULT false].

Definition cfp_table_A : list cfp_table_t := [
    MkTable 0xAA channel_freq_power_WW_A;
    MkTable 0x10 channel_freq_power_A;
    MkTable 0x20 channel_freq_power_CAN_A;
    MkTable 0x30 channel_freq_power_EU_A;
    MkTable 0x32 channel_freq_power_A;
    MkTable 0x40 channel_freq_power_JPN_A;
    MkTable 0x50 channel_freq_power_CN_A;
    MkTable 0xff channel_freq_power_JPN_A;
    MkTable 0x1 channel_freq_power_low_band;
    MkTable 0x2 channel_freq_power_lower_middle_band;
    MkTable 0x3 channel_freq_power_upper_middle_band;
    MkTable 0x4 channel_freq_power_high_band;
    MkTable 0x5 channel_freq_power_low_high_band].

(** ** Codes and rates *)
Definition region_code_index : list Z := [
   0xAA; 0x10; 0x20; 0x30; 0x32; 0x40; 0x41; 0x50; 0xfe; 0xff].

Definition cfp_code_index_a : list Z := [
   0x1; 0x2; 0x3; 0x4; 0x5].

Definition AdhocRates_B : list Z := [
   0x82; 0x84; 0x8b; 0x96; 0].

Definition AdhocRates_G : list Z := [
   0x8c; 0x12; 0x98; 0x24; 0xb0; 0x48; 0x60; 0x6c; 0].

Definition AdhocRates_BG : list Z := [
   0x82; 0x84; 0x8b; 0x96; 0x0c; 0x12; 0x18; 0x24; 0x30; 0x48; 0x60; 0x6c; 0].

Definition AdhocRates_A : list Z := [
   0x8c; 0x12; 0x98; 0x24; 0xb0; 0x48; 0x60; 0x6c; 0].

Definition SupportedRates_A : list Z := [
   0x0c; 0x12; 0x18; 0x24; 0xb0; 0x48; 0x60; 0x6c; 0].

Definition WlanDataRates : list Z := [
   0x02; 0x04; 0x0B; 0x16; 0; 0x0C; 0x12; 0x18; 0x24; 0x30; 0x48; 0x60; 0x6C; 0x90; 0x0D; 0x1A; 0x27;
   0x34; 0x4E; 0x68; 0x75; 0x82; 0x0C; 0x1B; 0x36; 0x51; 0x6C; 0xA2; 0xD8; 0xF3; 0x10E; 0; 0; 0;
   0; 0; 0; 0; 0; 0; 0; 0; 0; 0; 0; 0; 0; 0; 0; 0; 0;
   0; 0; 0; 0; 0; 0; 0; 0; 0].

Definition SupportedRates_B : list Z := [
   0x02; 0x04; 0x0b; 0x16; 0].

Definition SupportedRates_G : list Z := [
   0x0c; 0x12; 0x18; 0x24; 0x30; 0x48; 0x60; 0x6c; 0].

Definition SupportedRates_BG : list Z := [
   0x02; 0x04; 0x0b; 0x0c; 0x12; 0x16; 0x18; 0x24; 0x30; 0x48; 0x60; 0x6c; 0].

Definition SupportedRates_N : list Z := [
   0x02; 0x04; 0].
