(* ===== verification/Cfp.v ===== *)
(** * Channels, rates and regulatory tables

    Models the functions of [wifidriver/mlan_cfp.c] on those tables: the table
    of a region, the lookup of a channel or a frequency, transmit powers,
    rates, custom channel lists and operating classes; with
    [wlan_copy_rates] of [mlan_main.h] and [wlan_get_center_freq_idx] of
    [mlan_11ac.c]. *)
From S2P Require Import Prelude CString CfpTables.

(** ** Constants and data *)
Definition BAND_B : Z := 1.
Definition BAND_G : Z := 2.
Definition BAND_A : Z := 4.
Definition BAND_GN : Z := 8.
Definition BAND_AN : Z := 16.
Definition BAND_GAC : Z := 32.
Definition BAND_AAC : Z := 64.
Definition MAX_REGION_CHANNEL_NUM : nat := 2.
Definition FIRST_VALID_CHANNEL : Z := 0xff.
Definition MAX_CHANNELS_BG : Z := 14.
Definition MLAN_RATE_BITMAP_MCS0 : Z := 32.
Definition WLAN_SUPPORTED_RATES_EXT : Z := 60.
Definition WLAN_SUPPORTED_RATES : Z := 14.
Definition MLAN_RATE_FORMAT_HT : Z := 1.
Definition MLAN_RATE_FORMAT_VHT : Z := 2.
Definition CHANNEL_BW_80MHZ : Z := 4.
Definition CHANNEL_BW_160MHZ : Z := 5.
Definition BW_80MHZ : Z := 2.
Definition REGULATORY_CLASS : Z := 59.

(** [(band & mask) != 0]. *)
Definition has_band (band mask : Z) : bool := negb (Z.land band mask =? 0).
Definition bands (l : list Z) : Z := foldr Z.lor 0 l.

(** Where a channel table is: a constant one, one of the two writable ones, or
    one received from the firmware. *)
Inductive cfp_pointer := StaticCfp (t : list chan_freq_power_t) | CustomBG | CustomA.

Record region_chan_t := MkRegionChan {
  valid : bool;
  region : Z;
  band : Z;
  num_cfp : Z;                      (* t_u8 *)
  pcfp : option cfp_pointer
}.
Definition no_region_chan : region_chan_t := MkRegionChan false 0 0 0 None.

Record otp_region_info_t := MkOtpRegion { otp_region_code : Z; force_reg : bool }.

(** The fields of [mlan_adapter] used here, and the two writable tables. *)
Record cfp_adapter := MkCfpAdapter {
  region_channel : list region_chan_t;         (* [MAX_REGION_CHANNEL_NUM] *)
  universal_channel : list region_chan_t;      (* [MAX_REGION_CHANNEL_NUM] *)
  adapter_cfp_code_bg : Z;
  adapter_cfp_code_a : Z;
  otp_region : option otp_region_info_t;
  cfp_otp_bg : option (list chan_freq_power_t);
  cfp_otp_a : option (list chan_freq_power_t);
  tx_power_table_bg_rows : Z;
  tx_power_table_a_rows : Z;
  adapter_country_code : list Z;
  stations_11d : Z;                            (* interfaces with 11d enabled *)
  custom_bg : list chan_freq_power_t;
  custom_a : list chan_freq_power_t
}.
Definition set_region_channel (l : list region_chan_t) (a : cfp_adapter) : cfp_adapter :=
  MkCfpAdapter l (universal_channel a) (adapter_cfp_code_bg a) (adapter_cfp_code_a a) (otp_region a) (cfp_otp_bg a)
    (cfp_otp_a a) (tx_power_table_bg_rows a) (tx_power_table_a_rows a) (adapter_country_code a) (stations_11d a)
    (custom_bg a) (custom_a a).
Definition set_custom (bg al : list chan_freq_power_t) (a : cfp_adapter) : cfp_adapter :=
  MkCfpAdapter (region_channel a) (universal_channel a) (adapter_cfp_code_bg a) (adapter_cfp_code_a a) (otp_region a)
    (cfp_otp_bg a) (cfp_otp_a a) (tx_power_table_bg_rows a) (tx_power_table_a_rows a) (adapter_country_code a)
    (stations_11d a) bg al.

Definition deref (a : cfp_adapter) (p : cfp_pointer) : list chan_freq_power_t :=
  match p with StaticCfp t => t | CustomBG => custom_bg a | CustomA => custom_a a end.

(** ** The table of a region *)
Fixpoint find_table (l : list cfp_table_t) (c : Z) : option (list chan_freq_power_t) :=
  match l with
  | [] => None
  | t :: l' => if code t =? c then Some (table t) else find_table l' c
  end.

(** The firmware's table, when it is there and meant for this region. *)
Definition otp_table (a : cfp_adapter) (t : option (list chan_freq_power_t)) (c : Z) : option (list chan_freq_power_t) :=
  match otp_region a, t with
  | Some r, Some tbl => if force_reg r || (c =? u8 (otp_region_code r)) then Some tbl else None
  | _, _ => None
  end.

(** [wlan_get_region_cfp_table]: the table and its number of entries. *)
Definition wlan_get_region_cfp_table (a : cfp_adapter) (rg bd : Z) : option (list chan_freq_power_t * Z) :=
  let cfp_bg := if rg =? 0 then adapter_cfp_code_bg a else rg in
  let cfp_a := if rg =? 0 then adapter_cfp_code_a a else rg in
  let bg :=
    if has_band bd (bands [BAND_B; BAND_G; BAND_GN; BAND_GAC]) then
      match otp_table a (cfp_otp_bg a) cfp_bg with
      | Some t => Some (t, tx_power_table_bg_rows a)
      | None => match find_table cfp_table_BG cfp_bg with Some t => Some (t, Z.of_nat (length t)) | None => None end
      end
    else None in
  match bg with
  | Some r => Some r
  | None =>
      if has_band bd (bands [BAND_A; BAND_AN; BAND_AAC]) then
        match otp_table a (cfp_otp_a a) cfp_a with
        | Some t => Some (t, tx_power_table_a_rows a)
        | None => match find_table cfp_table_A cfp_a with Some t => Some (t, Z.of_nat (length t)) | None => None end
        end
      else None
  end.

(** [wlan_misc_country_2_cfp_table_code]: the codes of a country. *)
Fixpoint country_loop (l : list country_code_mapping_t) (c : list Z) : option (Z * Z) :=
  match l with
  | [] => None
  | m :: l' => if bool_decide (country_code m = take 2 c) then Some (cfp_code_bg m, cfp_code_a m) else country_loop l' c
  end.
Definition wlan_misc_country_2_cfp_table_code (c : list Z) : option (Z * Z) := country_loop country_code_mapping c.

(** [wlan_set_regiontable] fills the region's entries from the first; a failure
    leaves what was written so far after the table was cleared. *)
Definition bg_entry (rg bd : Z) (t : list chan_freq_power_t) (n : Z) : region_chan_t :=
  MkRegionChan true rg (if has_band bd BAND_GN then BAND_G else if has_band bd BAND_G then BAND_G else BAND_B)
    (u8 n) (Some (StaticCfp t)).
Definition wlan_set_regiontable (a : cfp_adapter) (rg bd : Z) : outcome (bool * cfp_adapter) :=
  let cleared := replicate MAX_REGION_CHANNEL_NUM no_region_chan in
  r ← (if has_band bd (bands [BAND_B; BAND_G; BAND_GN]) then
         match wlan_get_region_cfp_table a rg (bands [BAND_G; BAND_B; BAND_GN]) with
         | None => Ret (false, cleared, 0)
         | Some (t, n) => l ← arr_set cleared 0 (bg_entry rg bd t n); Ret (true, l, 1)
         end
       else Ret (true, cleared, 0));
  let '(ok, l, i) := r in
  if negb ok then Ret (false, set_region_channel l a)
  else if has_band bd (bands [BAND_A; BAND_AN; BAND_AAC]) then
    match wlan_get_region_cfp_table a rg BAND_A with
    | None => Ret (false, set_region_channel l a)
    | Some (t, n) =>
        l1 ← arr_set l i (MkRegionChan true rg BAND_A (u8 n) (Some (StaticCfp t)));
        Ret (true, set_region_channel l1 a)
    end
  else Ret (true, set_region_channel l a).

(** ** Finding a channel *)

(** The first of [n] entries with the property. *)
Fixpoint scan_cfp (f : chan_freq_power_t -> bool) (t : list chan_freq_power_t) (n : nat) : outcome (option chan_freq_power_t) :=
  match n with
  | O => Ret None
  | S n' => match t with
            | [] => Fault OutOfBounds
            | e :: t' => if f e then Ret (Some e) else scan_cfp f t' n'
            end
  end.

(** The two nested switches on the entry's band and the band asked for. *)
Definition band_matches (rc_band bd : Z) : bool :=
  if rc_band =? BAND_A then
    existsb (Z.eqb bd) [BAND_AN; bands [BAND_A; BAND_AN]; bands [BAND_A; BAND_AN; BAND_AAC]; BAND_A]
  else if (rc_band =? BAND_B) || (rc_band =? BAND_G) then
    existsb (Z.eqb bd)
      [BAND_GN; bands [BAND_B; BAND_G; BAND_GN]; bands [BAND_G; BAND_GN]; bands [BAND_GN; BAND_GAC];
       bands [BAND_B; BAND_G; BAND_GN; BAND_GAC]; bands [BAND_G; BAND_GN; BAND_GAC]; bands [BAND_B; BAND_G]; BAND_B; BAND_G]
  else false.

(** The loop over the region's entries, until [pick] finds something. *)
Fixpoint region_loop (a : cfp_adapter) (rcs : list region_chan_t) (bd : Z)
    (pick : region_chan_t -> list chan_freq_power_t -> outcome (option chan_freq_power_t)) : outcome (option chan_freq_power_t) :=
  match rcs with
  | [] => Ret None
  | rc :: rcs' =>
      match pcfp rc with
      | Some p =>
          if valid rc && band_matches (band rc) bd then
            r ← pick rc (deref a p);
            match r with Some c => Ret (Some c) | None => region_loop a rcs' bd pick end
          else region_loop a rcs' bd pick
      | None => region_loop a rcs' bd pick
      end
  end.

Definition pick_channel (ch : Z) (rc : region_chan_t) (t : list chan_freq_power_t) : outcome (option chan_freq_power_t) :=
  if ch =? FIRST_VALID_CHANNEL then c ← arr_get t 0; Ret (Some c)
  else scan_cfp (fun c => channel c =? ch) t (Z.to_nat (num_cfp rc)).
Definition pick_freq (f : Z) (rc : region_chan_t) (t : list chan_freq_power_t) : outcome (option chan_freq_power_t) :=
  scan_cfp (fun c => freq c =? f) t (Z.to_nat (num_cfp rc)).

Definition wlan_get_cfp_by_band_and_channel (a : cfp_adapter) (bd ch : Z) (rcs : list region_chan_t) :=
  region_loop a (take MAX_REGION_CHANNEL_NUM rcs) bd (pick_channel ch).
Definition wlan_find_cfp_by_band_and_channel (a : cfp_adapter) (bd ch : Z) : outcome (option chan_freq_power_t) :=
  wlan_get_cfp_by_band_and_channel a bd ch (if stations_11d a >? 0 then universal_channel a else region_channel a).
Definition wlan_find_cfp_by_band_and_freq (a : cfp_adapter) (bd f : Z) : outcome (option chan_freq_power_t) :=
  region_loop a (take MAX_REGION_CHANNEL_NUM (if stations_11d a >? 0 then universal_channel a else region_channel a)) bd (pick_freq f).

(** The flag of a channel in the first entry of a band. *)
Fixpoint first_entry (f : region_chan_t -> bool) (rcs : list region_chan_t) : option region_chan_t :=
  match rcs with
  | [] => None
  | rc :: rcs' => if f rc then Some rc else first_entry f rcs'
  end.
Definition channel_flag (a : cfp_adapter) (f : region_chan_t -> bool) (chnl : Z) : outcome bool :=
  match first_entry f (take MAX_REGION_CHANNEL_NUM (region_channel a)) with
  | None => Ret false
  | Some rc =>
      match pcfp rc with
      | None => Ret false
      | Some p =>
          c ← scan_cfp (fun c => channel c =? chnl) (deref a p) (Z.to_nat (num_cfp rc));
          Ret (match c with Some c => passive_scan_or_radar_detect c | None => false end)
      end
  end.
Definition wlan_get_cfp_radar_detect (a : cfp_adapter) (chnl : Z) : outcome bool :=
  channel_flag a (fun rc => band rc =? BAND_A) chnl.
Definition wlan_bg_scan_type_is_passive (a : cfp_adapter) (chnl : Z) : outcome bool :=
  channel_flag a (fun rc => has_band (band rc) (bands [BAND_B; BAND_G])) chnl.

(** ** Transmit power *)
Fixpoint channel_entry (t : list chan_freq_power_t) (ch : Z) : option chan_freq_power_t :=
  match t with
  | [] => None
  | c :: t' => if channel c =? ch then Some c else channel_entry t' ch
  end.
Fixpoint txpwr_loop (l : list cfp_table_t) (ch tx_power : Z) : Z :=
  match l with
  | [] => tx_power
  | t :: l' =>
      txpwr_loop l' ch
        (match channel_entry (table t) ch with
         | Some c => if negb (tx_power =? 0) then Z.min tx_power (u8 (max_tx_power c)) else u8 (max_tx_power c)
         | None => tx_power
         end)
  end.
Definition wlan_get_txpwr_of_chan_from_cfp (ch : Z) : Z := txpwr_loop cfp_table_A ch (txpwr_loop cfp_table_BG ch 0).

(** ** Rates *)
Definition mcs_rate : list (list Z) := [
    [0x1b; 0x36; 0x51; 0x6c; 0xa2; 0xd8; 0xf3; 0x10e];
    [0x1e; 0x3c; 0x5a; 0x78; 0xb4; 0xf0; 0x10e; 0x12c];
    [0x0d; 0x1a; 0x27; 0x34; 0x4e; 0x68; 0x75; 0x82];
    [0x0e; 0x1c; 0x2b; 0x39; 0x56; 0x73; 0x82; 0x90]].
Definition ac_mcs_rate_nss1 : list (list Z) := [
    [0x75; 0xEA; 0x15F; 0x1D4; 0x2BE; 0x3A8; 0x41D; 0x492; 0x57C; 0x618];
    [0x82; 0x104; 0x186; 0x208; 0x30C; 0x410; 0x492; 0x514; 0x618; 0x6C6];
    [0x3B; 0x75; 0xB0; 0xEA; 0x15F; 0x1D4; 0x20F; 0x249; 0x2BE; 0x30C];
    [0x41; 0x82; 0xC3; 0x104; 0x186; 0x208; 0x249; 0x28A; 0x30C; 0x363];
    [0x1B; 0x36; 0x51; 0x6C; 0xA2; 0xD8; 0xF3; 0x10E; 0x144; 0x168];
    [0x1E; 0x3C; 0x5A; 0x78; 0xB4; 0xF0; 0x10E; 0x12C; 0x168; 0x190];
    [0xD; 0x1A; 0x27; 0x34; 0x4E; 0x68; 0x75; 0x82; 0x9C; 0x00];
    [0xF; 0x1D; 0x2C; 0x3A; 0x57; 0x74; 0x82; 0x91; 0xAE; 0x00]].

Definition arr_get2 (t : list (list Z)) (i j : Z) : outcome Z := r ← arr_get t i; arr_get r j.

(** [wlan_index_to_data_rate], in units of 500 kb/s. *)
Definition wlan_index_to_data_rate (index tx_rate_info : Z) : outcome Z :=
  let format := Z.land tx_rate_info 0x3 in
  let bw := Z.shiftr (Z.land tx_rate_info 0xC) 2 in
  let gi := Z.shiftr (Z.land tx_rate_info 0x10) 4 in
  if format =? MLAN_RATE_FORMAT_VHT then
    let mcs_index := Z.land index 0xF in
    arr_get2 ac_mcs_rate_nss1 (2 * (3 - bw) + gi) (if mcs_index >? 9 then 9 else mcs_index)
  else if format =? MLAN_RATE_FORMAT_HT then
    if index =? MLAN_RATE_BITMAP_MCS0 then Ret (if gi =? 1 then 0x0D else 0x0C)
    else if index <? 8 then
      if bw <=? 1 then arr_get2 mcs_rate (2 * (1 - bw) + gi) index else arr_get WlanDataRates 0
    else arr_get WlanDataRates 0
  else arr_get WlanDataRates (if index >=? WLAN_SUPPORTED_RATES_EXT then 0 else index).

(** [wlan_convert_v14_rate_ht_info]: bandwidth and guard interval move up one
    bit. *)
Definition wlan_convert_v14_rate_ht_info (ht_info : Z) : Z :=
  u8 (Z.lor (Z.lor (Z.land ht_info 1) (Z.shiftl (Z.land ht_info 2) 1)) (Z.shiftl (Z.land ht_info 4) 1)).

Definition wlan_convert_config_bands (config_bands : Z) : Z :=
  Z.lor (Z.lor (if has_band config_bands BAND_B then BAND_B else 0)
               (if has_band config_bands BAND_G || has_band config_bands BAND_GN then BAND_G else 0))
        (if has_band config_bands BAND_A || has_band config_bands BAND_AN then BAND_A else 0).

(** [wlan_copy_rates]: up to the first 0, at most fourteen in all; the array
    and the next position. *)
Fixpoint wlan_copy_rates (dest : list Z) (pos : Z) (src : list Z) : outcome (list Z * Z) :=
  match src with
  | [] => Ret (dest, pos)
  | r :: src' =>
      if r =? 0 then Ret (dest, pos)
      else if pos >=? WLAN_SUPPORTED_RATES then Ret (dest, pos)
      else d ← arr_set dest pos r; wlan_copy_rates d (pos + 1) src'
  end.

Definition supported_rates_table (infra : bool) (bd : Z) : list Z :=
  if infra then
    if bd =? BAND_B then SupportedRates_B
    else if bd =? BAND_G then SupportedRates_G
    else if has_band bd (bands [BAND_B; BAND_G]) then SupportedRates_BG
    else if has_band bd BAND_A then SupportedRates_A
    else []
  else
    if bd =? BAND_B then AdhocRates_B
    else if bd =? BAND_G then AdhocRates_G
    else if has_band bd BAND_A then AdhocRates_A
    else AdhocRates_BG.
Definition wlan_get_supported_rates (infra : bool) (config_bands : Z) (rates : list Z) : outcome (list Z * Z) :=
  wlan_copy_rates rates 0 (supported_rates_table infra (wlan_convert_config_bands config_bands)).
(** A connected interface copies the rates of its network. *)
Definition wlan_get_active_data_rates (connected : bool) (data_rates : list Z) (num_of_rates : Z) (infra : bool)
    (config_bands : Z) (rates : list Z) : outcome (list Z * Z) :=
  if negb connected then wlan_get_supported_rates infra config_bands rates
  else src ← mem_read data_rates 0 num_of_rates; wlan_copy_rates rates 0 src.

(** [wlan_is_rate_auto] counts the entries that are not 0. *)
Definition wlan_is_rate_auto (bitmap_rates : list Z) : bool :=
  Z.of_nat (length (filter (fun b => b <> 0) bitmap_rates)) >? 1.

(** [wlan_get_rate_index] on an array of 16-bit words, for [size] bytes. *)
Fixpoint rate_index_loop (n : nat) (bitmap : list Z) (i : Z) : outcome Z :=
  match n with
  | O => Ret (-1)
  | S n' => w ← arr_get bitmap (i / 16);
            if Z.testbit w (i mod 16) then Ret i else rate_index_loop n' bitmap (i + 1)
  end.
Definition wlan_get_rate_index (bitmap : list Z) (size : Z) : outcome Z := rate_index_loop (Z.to_nat (size * 8)) bitmap 0.

(** ** World-wide safe channels *)
Definition wwsm_channel (t : list chan_freq_power_t) (chan_num : Z) : bool :=
  negb (chan_num =? 0) && match channel_entry t chan_num with Some _ => true | None => false end.
Definition wlan_is_channel_valid (chan_num : Z) : bool :=
  wwsm_channel channel_freq_power_WW_BG chan_num || wwsm_channel channel_freq_power_WW_A chan_num.
Definition wwsm_channel_freq (t : list chan_freq_power_t) (chan_num chan_freq : Z) : bool :=
  negb (chan_num =? 0) && match channel_entry t chan_num with Some c => chan_freq =? freq c | None => false end.
Definition wlan_is_channel_and_freq_valid (chan_num chan_freq : Z) : bool :=
  wwsm_channel_freq channel_freq_power_WW_BG chan_num chan_freq || wwsm_channel_freq channel_freq_power_WW_A chan_num chan_freq.
Definition wlan_is_radio_mode_valid (mode : Z) : bool := existsb (Z.eqb mode) rf_radio_modes_group.

(** ** Custom channel lists *)
Record wifi_chan_info_t := MkChanInfo { chan_num : Z; chan_freq : Z; chan_passive : bool }.

(** One entry of a writable table: the power is kept. *)
Definition put_custom (t : list chan_freq_power_t) (i : Z) (c : wifi_chan_info_t) : outcome (list chan_freq_power_t) :=
  old ← arr_get t i;
  arr_set t i (MkCfp (chan_num c) (chan_freq c) (max_tx_power old) (chan_passive c) (flags old)).

Fixpoint custom_loop (l : list wifi_chan_info_t) (bg al : list chan_freq_power_t) (idx_bg idx_a : Z) :
    outcome (bool * list chan_freq_power_t * list chan_freq_power_t * Z * Z) :=
  match l with
  | [] => Ret (true, bg, al, idx_bg, idx_a)
  | c :: l' =>
      if (chan_num c <=? MAX_CHANNELS_BG) && (idx_bg <? Z.of_nat (length bg)) then
        bg' ← put_custom bg idx_bg c; custom_loop l' bg' al (idx_bg + 1) idx_a
      else if (chan_num c >? MAX_CHANNELS_BG) && (idx_a <? Z.of_nat (length al)) then
        al' ← put_custom al idx_a c; custom_loop l' bg al' idx_bg (idx_a + 1)
      else Ret (false, bg, al, idx_bg, idx_a)
  end.
(** [wlan_set_custom_cfp_table]: success, the state, and the two counts. *)
Definition wlan_set_custom_cfp_table (a : cfp_adapter) (chan_info : list wifi_chan_info_t) (num_chans : Z) :
    outcome (bool * cfp_adapter * Z * Z) :=
  l ← mem_read chan_info 0 num_chans;
  '(ok, bg, al, n_bg, n_a) ← custom_loop l (custom_bg a) (custom_a a) 0 0;
  Ret (ok, set_custom bg al a, n_bg, n_a).

Definition with_table (n : Z) (p : cfp_pointer) (rc : region_chan_t) : region_chan_t :=
  MkRegionChan (valid rc) (region rc) (band rc) (u8 n) (Some p).
Definition wlan_set_custom_regiontable (a : cfp_adapter) (cfp_no_bg cfp_no_a : Z) : outcome cfp_adapter :=
  l1 ← (if cfp_no_bg =? 0 then Ret (region_channel a)
        else rc ← arr_get (region_channel a) 0; arr_set (region_channel a) 0 (with_table cfp_no_bg CustomBG rc));
  l2 ← (if cfp_no_a =? 0 then Ret l1
        else rc ← arr_get l1 1; arr_set l1 1 (with_table cfp_no_a CustomA rc));
  Ret (set_region_channel l2 a).

(** [wlan_get_active_channel_list]: the channels with neither radar nor passive
    scanning, of the first entry or the second. *)
Definition active_channels (a : cfp_adapter) (i : Z) : outcome (list Z) :=
  rc ← arr_get (region_channel a) i;
  if num_cfp rc <=? 0 then Ret []
  else match pcfp rc with
       | None => Fault NullPointer
       | Some p => t ← mem_read (deref a p) 0 (num_cfp rc);
                   Ret ((fun c => u8 (channel c)) <$> filter (fun c => passive_scan_or_radar_detect c = false) t)
       end.
Definition wlan_get_active_channel_list (a : cfp_adapter) (acs_band : Z) : outcome (list Z * Z) :=
  l ← (if acs_band =? 0 then active_channels a 0 else if acs_band =? 1 then active_channels a 1 else Ret []);
  Ret (l, u8 (Z.of_nat (length l))).

(** ** Operating classes *)
Definition wlan_is_etsi_country (c : list Z) : bool := existsb (fun e => bool_decide (e = take 2 c)) eu_country_code_table.

Inductive country_id := COUNTRY_ID_US | COUNTRY_ID_JP | COUNTRY_ID_CN | COUNTRY_ID_EU.
Definition find_country (c : list Z) : country_id :=
  if wlan_is_etsi_country c then COUNTRY_ID_EU
  else if bool_decide (take 2 c = lit "US") then COUNTRY_ID_US
  else if bool_decide (take 2 c = lit "JP") then COUNTRY_ID_JP
  else if bool_decide (take 2 c = lit "CN") then COUNTRY_ID_CN
  else COUNTRY_ID_US.
Definition wlan_get_nonglobal_operclass_table (a : cfp_adapter) : list oper_bw_chan :=
  match find_country (adapter_country_code a) with
  | COUNTRY_ID_US => oper_bw_chan_us
  | COUNTRY_ID_JP => oper_bw_chan_jp
  | COUNTRY_ID_CN => oper_bw_chan_cn
  | COUNTRY_ID_EU => oper_bw_chan_eu
  end.

Definition wlan_get_center_freq_idx (bd pri_chan chan_bw : Z) : Z :=
  let is80 := chan_bw =? CHANNEL_BW_80MHZ in
  let is160 := chan_bw =? CHANNEL_BW_160MHZ in
  let among l := existsb (Z.eqb pri_chan) l in
  if negb (has_band bd BAND_AAC) then 0
  else if among [36; 40; 44; 48] then if is80 then 42 else 0
  else if among [52; 56; 60; 64] then if is80 then 58 else if is160 then 50 else 0
  else if among [100; 104; 108; 112] then if is80 then 106 else 0
  else if among [116; 120; 124; 128] then if is80 then 122 else if is160 then 114 else 0
  else if among [132; 136; 140; 144] then if is80 then 138 else 0
  else if among [149; 153; 157; 161] then if is80 then 155 else 0
  else if among [165; 169; 173; 177] then if is80 then 171 else 0
  else if among [184; 188; 192; 196] then if is80 then 190 else 0
  else 42.

Definition center_freqs : list Z := [42; 50; 58; 106; 114; 122; 138; 155].
Definition lists_channel (o : oper_bw_chan) (ch : Z) : bool := existsb (fun c => negb (c =? 0) && (c =? ch)) (channel_list o).
Fixpoint oper_class_loop (l : list oper_bw_chan) (ch bw : Z) : option (Z * Z) :=
  match l with
  | [] => None
  | o :: l' => if (bandwidth o =? bw) && lists_channel o ch then Some (oper_class o, global_oper_class o) else oper_class_loop l' ch bw
  end.
(** The operating class of the country and the global one; [None] is a failure. *)
Definition wlan_get_global_nonglobal_oper_class (a : cfp_adapter) (ch bw : Z) : option (Z * Z) :=
  let t := wlan_get_nonglobal_operclass_table a in
  if existsb (Z.eqb ch) center_freqs then None
  else
    let ch' := if bw =? BW_80MHZ then wlan_get_center_freq_idx BAND_AAC ch CHANNEL_BW_80MHZ else ch in
    oper_class_loop t ch' bw.

(** The classes [wlan_add_supported_oper_class_ie] lists. *)
Definition oper_class_us : list Z := [115; 118; 124; 121; 125; 81; 116; 119; 122; 126; 126; 117; 120; 123; 127; 127; 83; 84; 128; 129; 130].
Definition oper_class_eu : list Z := [115; 118; 121; 81; 116; 119; 122; 117; 120; 123; 83; 84; 125; 128; 129; 130].
Definition oper_class_jp : list Z := [115; 81; 82; 118; 118; 121; 121; 116; 119; 119; 122; 122; 117; 120; 120; 123; 123; 83; 84; 121; 128; 129; 130].
Definition oper_class_cn : list Z := [115; 118; 125; 116; 119; 126; 81; 83; 84; 128; 129; 130].

(** The element written at the output pointer, and the value returned. *)
Definition wlan_add_supported_oper_class_ie (a : cfp_adapter) (curr_oper_class : Z) : list Z * Z :=
  let classes := match find_country (adapter_country_code a) with
                 | COUNTRY_ID_US => oper_class_us
                 | COUNTRY_ID_JP => oper_class_jp
                 | COUNTRY_ID_CN => oper_class_cn
                 | COUNTRY_ID_EU => oper_class_eu
                 end in
  let len := Z.of_nat (length classes) + 1 in
  (le16 REGULATORY_CLASS ++ le16 len ++ [curr_oper_class] ++ classes, 4 + len).
