(* ===== verification/CfpTheorems.v ===== *)
(** * Theorems about channels, powers, rates and operating classes

    Channel and frequency lookups agree on every region table; the power of a
    channel is the least of all regions; custom channel lists are what the
    channel selection then sees; rate conversions are total; operating-class
    elements match the tables. *)
From S2P Require Import Prelude CString CfpTables Cfp.

(** ** The static tables *)

(** No channel and no frequency twice, entries the driver's types hold. *)
Definition good_table (t : list chan_freq_power_t) : Prop :=
  NoDup (channel <$> t) /\ NoDup (freq <$> t) /\ (0 < length t < 256)%nat /\
  Forall (fun c => 0 < channel c < 255 /\ 0 < max_tx_power c < 256) t.
#[export] Instance good_table_dec t : Decision (good_table t).
Proof. unfold good_table. apply _. Defined.

Lemma static_tables_good : Forall good_table (table <$> cfp_table_BG ++ cfp_table_A).
Proof. apply (bool_decide_unpack (Forall good_table (table <$> cfp_table_BG ++ cfp_table_A))). vm_compute. exact I. Qed.

Lemma find_table_good l c t : find_table l c = Some t -> Forall good_table (table <$> l) -> good_table t.
Proof.
  induction l as [| x l IH]; simpl; [done |]. intros E [Hx Hl]%List.Forall_cons_iff.
  destruct (code x =? c); [by injection E as <- | by apply IH].
Qed.

(** ** Scanning a table *)
Lemma scan_cfp_none f t n : scan_cfp f t n = Ret None -> forall c, c ∈ take n t -> f c = false.
Proof.
  revert n. induction t as [| e t IH]; intros [| n] E c Hc; simpl in *; try done; [by apply not_elem_of_nil in Hc.. |].
  destruct (f e) eqn:Ef; [done |]. apply elem_of_cons in Hc as [-> | Hc]; [done | by eapply IH].
Qed.

Lemma scan_cfp_some f t n c : scan_cfp f t n = Ret (Some c) -> c ∈ t /\ f c = true.
Proof.
  revert n. induction t as [| e t IH]; intros [| n] E; simpl in *; try done.
  destruct (f e) eqn:Ef; [injection E as <-; split; [left | done] |].
  destruct (IH n E) as [? ?]. split; [by right | done].
Qed.

Lemma scan_cfp_total f t : exists r, scan_cfp f t (length t) = Ret r.
Proof. induction t as [| e t IH]; simpl; [by eexists |]. destruct (f e); [by eexists | exact IH]. Qed.

(** A key that occurs once finds its entry. *)
Lemma scan_cfp_key (key : chan_freq_power_t -> Z) t c k : NoDup (key <$> t) ->
  scan_cfp (fun x => key x =? k) t (length t) = Ret (Some c) <-> c ∈ t /\ key c = k.
Proof.
  intros Hnd. split.
  - intros [Hc Hk]%scan_cfp_some. split; [done | by apply Z.eqb_eq].
  - intros [Hc Hk]. destruct (scan_cfp_total (fun x => key x =? k) t) as [[d |] E].
    + rewrite E. destruct (scan_cfp_some _ _ _ _ E) as [Hd Hkd]. apply Z.eqb_eq in Hkd.
      apply list_elem_of_lookup in Hc as [i Hi], Hd as [j Hj].
      assert (i = j) as ->; [| congruence].
      apply (NoDup_lookup (key <$> t) i j k Hnd); rewrite list_lookup_fmap; [rewrite Hi | rewrite Hj]; simpl; congruence.
    + pose proof (scan_cfp_none _ _ _ E c) as Hn. rewrite take_ge in Hn by done. specialize (Hn Hc).
      apply Z.eqb_neq in Hn. lia.
Qed.

(** ** The region's entries *)

(** An entry that [wlan_set_regiontable] makes for the bands of [g]. *)
Definition entry_for (g : Z -> Prop) (rc : region_chan_t) : Prop :=
  exists t, good_table t /\ valid rc = true /\ num_cfp rc = Z.of_nat (length t) /\ pcfp rc = Some (StaticCfp t) /\ g (band rc).
Definition bg_band (b : Z) : Prop := b = BAND_G \/ b = BAND_B.
Definition a_band (b : Z) : Prop := b = BAND_A.
Definition region_entries (l : list region_chan_t) : Prop :=
  l = [no_region_chan; no_region_chan] \/
  (exists x, l = [x; no_region_chan] /\ (entry_for bg_band x \/ entry_for a_band x)) \/
  (exists x y, l = [x; y] /\ entry_for bg_band x /\ entry_for a_band y).

Lemma region_table_good a rg bd t n : cfp_otp_bg a = None -> cfp_otp_a a = None ->
  wlan_get_region_cfp_table a rg bd = Some (t, n) -> good_table t /\ n = Z.of_nat (length t).
Proof.
  intros H1 H2. unfold wlan_get_region_cfp_table, otp_table. rewrite H1, H2.
  pose proof static_tables_good as Hg. rewrite fmap_app in Hg. apply Forall_app in Hg as [Hg1 Hg2].
  assert (Hno : match otp_region a with Some _ => None | None => @None (list chan_freq_power_t) end = None) by (by destruct (otp_region a)).
  rewrite !Hno.
  destruct (has_band bd (bands [BAND_B; BAND_G; BAND_GN; BAND_GAC])).
  - destruct (find_table cfp_table_BG _) as [t0 |] eqn:E; [intros [= <- <-]; split; [by eapply find_table_good | done] |].
    destruct (has_band bd _); [| done]. destruct (find_table cfp_table_A _) as [t0 |] eqn:E2; [| done].
    intros [= <- <-]. split; [by eapply find_table_good | done].
  - destruct (has_band bd _); [| done]. destruct (find_table cfp_table_A _) as [t0 |] eqn:E2; [| done].
    intros [= <- <-]. split; [by eapply find_table_good | done].
Qed.

Lemma set_regiontable_entries a rg bd r a' : cfp_otp_bg a = None -> cfp_otp_a a = None ->
  wlan_set_regiontable a rg bd = Ret (r, a') -> region_entries (region_channel a') /\ a' = set_region_channel (region_channel a') a.
Proof.
  intros H1 H2. unfold wlan_set_regiontable. change (replicate MAX_REGION_CHANNEL_NUM no_region_chan) with [no_region_chan; no_region_chan].
  assert (Hu8 : forall t, good_table t -> u8 (Z.of_nat (length t)) = Z.of_nat (length t))
    by (intros t (_ & _ & Hl & _); apply wrap_small; lia).
  assert (Hbg : forall t n, good_table t -> n = Z.of_nat (length t) -> entry_for bg_band (bg_entry rg bd t n)).
  { intros t n Ht ->. exists t. unfold bg_entry, bg_band. simpl. rewrite Hu8 by done. split; [done |]. split; [done |]. split; [done |].
    split; [done |]. destruct (has_band bd BAND_GN), (has_band bd BAND_G); tauto. }
  assert (Ha : forall t n, good_table t -> n = Z.of_nat (length t) -> entry_for a_band (MkRegionChan true rg BAND_A (u8 n) (Some (StaticCfp t)))).
  { intros t n Ht ->. exists t. simpl. by rewrite Hu8. }
  destruct (has_band bd (bands [BAND_B; BAND_G; BAND_GN])).
  - destruct (wlan_get_region_cfp_table a rg (bands _)) as [[t n] |] eqn:E1.
    2:{ rewrite bind_ret. intros [= <- <-]. split; [by left | done]. }
    destruct (region_table_good _ _ _ _ _ H1 H2 E1) as [Ht Hn].
    change (arr_set [no_region_chan; no_region_chan] 0 (bg_entry rg bd t n)) with (Ret [bg_entry rg bd t n; no_region_chan]).
    rewrite !bind_ret. cbv beta iota. cbn [negb].
    destruct (has_band bd _).
    + destruct (wlan_get_region_cfp_table a rg BAND_A) as [[t2 n2] |] eqn:E2; simpl; intros [= <- <-]; (split; [| done]).
      * destruct (region_table_good _ _ _ _ _ H1 H2 E2) as [Ht2 Hn2]. right; right. eexists _, _. split; [reflexivity |].
        split; [by apply Hbg | by apply Ha].
      * right; left. eexists. split; [reflexivity |]. left. by apply Hbg.
    + simpl. intros [= <- <-]. split; [| done]. right; left. eexists. split; [reflexivity |]. left. by apply Hbg.
  - rewrite bind_ret. cbv beta iota. cbn [negb]. destruct (has_band bd _).
    + destruct (wlan_get_region_cfp_table a rg BAND_A) as [[t2 n2] |] eqn:E2; simpl; intros [= <- <-]; (split; [| done]).
      * destruct (region_table_good _ _ _ _ _ H1 H2 E2) as [Ht2 Hn2]. right; left. eexists. split; [reflexivity |]. right. by apply Ha.
      * by left.
    + intros [= <- <-]. split; [by left | done].
Qed.

(** ** Lookups *)
Lemma band_matches_exclusive g bd : bg_band g -> band_matches g bd = true -> band_matches BAND_A bd = false.
Proof.
  intros Hg. unfold band_matches. assert (Hgb : (g =? BAND_A) = false /\ (g =? BAND_B) || (g =? BAND_G) = true) by (destruct Hg as [-> | ->]; done).
  destruct Hgb as [-> ->]. change (BAND_A =? BAND_A) with true. cbv iota.
  intros (x & Hx & Hb)%existsb_exists. apply Z.eqb_eq in Hb as ->. simpl in Hx.
  repeat destruct Hx as [<- | Hx]; try reflexivity. done.
Qed.

(** The lookup in a table found by the band. *)
Lemma region_loop_entries a l bd (key : chan_freq_power_t -> Z) k pick :
  region_entries l ->
  (forall rc t, pick rc t = scan_cfp (fun x => key x =? k) t (Z.to_nat (num_cfp rc))) ->
  (forall t, good_table t -> NoDup (key <$> t)) ->
  forall c, region_loop a l bd pick = Ret (Some c) <->
    exists rc t, rc ∈ l /\ pcfp rc = Some (StaticCfp t) /\ good_table t /\ valid rc = true /\ band_matches (band rc) bd = true /\
      num_cfp rc = Z.of_nat (length t) /\ c ∈ t /\ key c = k.
Proof.
  intros Hl Hpick Hnd c.
  assert (Hone : forall g x, entry_for g x -> exists t, good_table t /\ pcfp x = Some (StaticCfp t) /\ valid x = true /\
      num_cfp x = Z.of_nat (length t) /\ (forall d, pick x (deref a (StaticCfp t)) = Ret (Some d) <-> d ∈ t /\ key d = k) /\
      (exists r, pick x (deref a (StaticCfp t)) = Ret r)).
  { intros g x (t & Ht & Hv & Hn & Hp & _). exists t. split; [done |]. split; [done |]. split; [done |]. split; [done |].
    rewrite Hpick. cbn [deref]. rewrite Hn, Nat2Z.id. split; [intros d; apply scan_cfp_key, Hnd, Ht | apply scan_cfp_total]. }
  destruct Hl as [-> | [(x & -> & Hx) | (x & y & -> & Hx & Hy)]].
  - split; [done |]. intros (rc & t & Hin & Hp & _).
    repeat (apply elem_of_cons in Hin as [-> | Hin]; [done |]). by apply not_elem_of_nil in Hin.
  - assert (Hx' : exists g, entry_for g x) by (destruct Hx; by eexists). destruct Hx' as [g Hg].
    destruct (Hone g x Hg) as (t & Ht & Hp & Hv & Hn & Hk & [r Hr]). simpl. rewrite Hp, Hv. cbn [andb].
    split.
    + destruct (band_matches (band x) bd) eqn:Eb; [| done]. rewrite Hr, bind_ret. destruct r as [d |]; [| done].
      intros [= <-]. apply Hk in Hr as [Hd1 Hd2]. exists x, t. split; [left | done].
    + intros (rc & t' & Hin & Hp' & _ & _ & Hb & _ & Hc & Hkc).
      apply elem_of_cons in Hin as [-> | Hin].
      * rewrite Hp in Hp'. injection Hp' as <-. rewrite Hb. by rewrite (proj2 (Hk c) (conj Hc Hkc)).
      * apply elem_of_cons in Hin as [-> | Hin]; [done | by apply not_elem_of_nil in Hin].
  - destruct (Hone _ _ Hx) as (t & Ht & Hp & Hv & Hn & Hk & [r Hr]).
    destruct (Hone _ _ Hy) as (t2 & Ht2 & Hp2 & Hv2 & Hn2 & Hk2 & [r2 Hr2]).
    destruct Hx as (_ & _ & _ & _ & _ & Hbx). destruct Hy as (_ & _ & _ & _ & _ & Hby). unfold a_band in Hby.
    simpl. rewrite Hp, Hv, Hp2, Hv2, Hby. cbn [andb]. split.
    + destruct (band_matches (band x) bd) eqn:Eb.
      * rewrite (band_matches_exclusive _ _ Hbx Eb), Hr, bind_ret. destruct r as [d |]; [| done].
        intros [= <-]. apply Hk in Hr as [Hd1 Hd2]. exists x, t. split; [left | done].
      * destruct (band_matches BAND_A bd) eqn:Eb2; [| done]. rewrite Hr2, bind_ret. destruct r2 as [d |]; [| done].
        intros [= <-]. apply Hk2 in Hr2 as [Hd1 Hd2]. exists y, t2. rewrite Hby. split; [right; left | done].
    + intros (rc & t' & Hin & Hp' & _ & _ & Hb & _ & Hc & Hkc).
      apply elem_of_cons in Hin as [-> | Hin].
      * rewrite Hp in Hp'. injection Hp' as <-. rewrite Hb. by rewrite (proj2 (Hk c) (conj Hc Hkc)).
      * apply elem_of_cons in Hin as [-> | Hin]; [| by apply not_elem_of_nil in Hin].
        rewrite Hp2 in Hp'. injection Hp' as <-. rewrite Hby in Hb. rewrite Hb.
        destruct (band_matches (band x) bd) eqn:Eb; [by rewrite (band_matches_exclusive _ _ Hbx Eb) in Hb |].
        by rewrite (proj2 (Hk2 c) (conj Hc Hkc)).
Qed.

(** On every region table the driver sets up (any region code, any bands),
    looking a channel up and looking its frequency up are inverse: the entry
    found for a channel is the entry found for its frequency, and conversely,
    whatever band the caller asks with. *)
Theorem region_channel_freq_agree a rg bd a' bd' ch c :
  cfp_otp_bg a = None -> cfp_otp_a a = None -> stations_11d a <= 0 ->
  wlan_set_regiontable a rg bd = Ret (true, a') -> ch <> FIRST_VALID_CHANNEL ->
  wlan_find_cfp_by_band_and_channel a' bd' ch = Ret (Some c) <->
  wlan_find_cfp_by_band_and_freq a' bd' (freq c) = Ret (Some c) /\ channel c = ch.
Proof.
  intros H1 H2 Hst E Hch. destruct (set_regiontable_entries _ _ _ _ _ H1 H2 E) as [Hl Ha'].
  unfold wlan_find_cfp_by_band_and_channel, wlan_get_cfp_by_band_and_channel, wlan_find_cfp_by_band_and_freq.
  assert (Hs : (stations_11d a' >? 0) = false) by (rewrite Ha'; simpl; lia). rewrite Hs.
  assert (Ht : take MAX_REGION_CHANNEL_NUM (region_channel a') = region_channel a').
  { apply take_ge. unfold MAX_REGION_CHANNEL_NUM. by destruct Hl as [-> | [(x & -> & _) | (x & y & -> & _)]]. }
  rewrite Ht. apply Z.eqb_neq in Hch.
  rewrite (region_loop_entries a' _ bd' channel ch (pick_channel ch) Hl); [| | by intros t []].
  2:{ intros rc t. unfold pick_channel. by rewrite Hch. }
  rewrite (region_loop_entries a' _ bd' freq (freq c) (pick_freq (freq c)) Hl); [| done | by intros t (_ & ? & _)].
  split.
  - intros (rc & t & Hin & Hp & Hg & Hv & Hb & Hn & Hc & Hk). split; [| done]. by exists rc, t.
  - intros [(rc & t & Hin & Hp & Hg & Hv & Hb & Hn & Hc & _) Hk]. by exists rc, t.
Qed.

Definition ex_adapter (country : list Z) : cfp_adapter :=
  MkCfpAdapter [no_region_chan; no_region_chan] [no_region_chan; no_region_chan] 0 0 None None None 0 0 country 0
    channel_freq_power_Custom_BG channel_freq_power_Custom_A.

Lemma region_channel_freq_agree_witness :
  match wlan_set_regiontable (ex_adapter (lit "US")) 0x10 (bands [BAND_B; BAND_G; BAND_GN; BAND_A; BAND_AN]) with
  | Ret (true, a') => wlan_find_cfp_by_band_and_freq a' BAND_AN 5500 = Ret (Some (cfp 100 5500 20 true))
  | _ => False
  end.
Proof.
  pose proof (region_channel_freq_agree (ex_adapter (lit "US")) 0x10 (bands [BAND_B; BAND_G; BAND_GN; BAND_A; BAND_AN])) as Ht.
  assert (Hf : match wlan_set_regiontable (ex_adapter (lit "US")) 0x10 (bands [BAND_B; BAND_G; BAND_GN; BAND_A; BAND_AN]) with
    | Ret (true, a') => wlan_find_cfp_by_band_and_channel a' BAND_AN 100 = Ret (Some (cfp 100 5500 20 true))
    | _ => False end) by (vm_compute; reflexivity).
  destruct (wlan_set_regiontable _ _ _) as [[[|] a'] |]; try done.
  apply (Ht a' BAND_AN 100 (cfp 100 5500 20 true)); done.
Defined.

(** ** Transmit power *)

(** The powers of a channel, one for each table that has it. *)
Definition powers (ch : Z) : list Z := omap (fun t => max_tx_power <$> channel_entry (table t) ch) (cfp_table_BG ++ cfp_table_A).

Lemma channel_entry_in t ch c : channel_entry t ch = Some c -> c ∈ t /\ channel c = ch.
Proof.
  induction t as [| x t IH]; simpl; [done |]. destruct (Z.eqb_spec (channel x) ch) as [Hx | Hx].
  - intros [= <-]. split; [left | done].
  - intros [? ?]%IH. split; [by right | done].
Qed.

Lemma txpwr_loop_spec l ch tx : Forall good_table (table <$> l) -> 0 <= tx ->
  let ps := omap (fun t => max_tx_power <$> channel_entry (table t) ch) l in
  (tx = 0 /\ ps = [] /\ txpwr_loop l ch tx = 0) \/
  (0 < txpwr_loop l ch tx /\ (tx <> 0 -> txpwr_loop l ch tx <= tx) /\ Forall (fun p => txpwr_loop l ch tx <= p) ps /\
   (txpwr_loop l ch tx = tx \/ txpwr_loop l ch tx ∈ ps)).
Proof.
  revert tx. induction l as [| t l IH]; intros tx Hl Htx.
  - cbn [omap list_omap txpwr_loop]. destruct (Z.eq_dec tx 0) as [-> | Hn]; [left; done |].
    right. split; [lia |]. split; [lia |]. split; [constructor | by left].
  - rewrite fmap_cons in Hl. apply List.Forall_cons_iff in Hl as [Ht Hl]. cbn [omap list_omap txpwr_loop].
    destruct (channel_entry (table t) ch) as [c |] eqn:E; cbn [fmap option_fmap option_map].
    2:{ apply (IH tx Hl Htx). }
    apply channel_entry_in in E as [Hc _]. destruct Ht as (_ & _ & _ & Hr). eapply list.Forall_forall in Hr; [| exact Hc].
    cbv beta in Hr. rewrite wrap_small by lia.
    set (tx' := if negb (tx =? 0) then Z.min tx (max_tx_power c) else max_tx_power c).
    assert (Htx' : 0 < tx' /\ (tx <> 0 -> tx' <= tx) /\ tx' <= max_tx_power c /\ (tx' = tx \/ tx' = max_tx_power c)).
    { unfold tx'. destruct (Z.eqb_spec tx 0); simpl; lia. }
    destruct (IH tx' Hl ltac:(lia)) as [(Hz & _) | (Hp & Hle & Hall & Hat)]; [lia |].
    right. split; [done |]. specialize (Hle ltac:(lia)). split; [intros; lia |]. split; [constructor; [lia | done] |].
    destruct Hat as [-> | Hat]; [| right; by right]. destruct Htx' as (_ & _ & _ & [-> | ->]); [by left | right; left].
Qed.

(** The power reported for a channel is the least maximum power of that
    channel over the tables of all regions, and 0 exactly when no region has
    the channel. *)
Theorem txpwr_is_least_of_regions ch :
  (powers ch = [] /\ wlan_get_txpwr_of_chan_from_cfp ch = 0) \/
  (0 < wlan_get_txpwr_of_chan_from_cfp ch /\ wlan_get_txpwr_of_chan_from_cfp ch ∈ powers ch /\
   Forall (fun p => wlan_get_txpwr_of_chan_from_cfp ch <= p) (powers ch)).
Proof.
  unfold wlan_get_txpwr_of_chan_from_cfp, powers. rewrite omap_app.
  pose proof static_tables_good as Hg. rewrite fmap_app in Hg. apply Forall_app in Hg as [Hg1 Hg2].
  destruct (txpwr_loop_spec cfp_table_BG ch 0 Hg1 ltac:(lia)) as [(_ & -> & E1) | (Hp1 & _ & Hall1 & Hat1)].
  - rewrite E1, app_nil_l.
    destruct (txpwr_loop_spec cfp_table_A ch 0 Hg2 ltac:(lia)) as [(_ & -> & E2) | (Hp2 & _ & Hall2 & Hat2)]; [by left |].
    right. split; [done |]. split; [| done]. destruct Hat2 as [? | ?]; [lia | done].
  - set (t1 := txpwr_loop cfp_table_BG ch 0) in *.
    destruct (txpwr_loop_spec cfp_table_A ch t1 Hg2 ltac:(lia)) as [(? & _ & _) | (Hp2 & Hle & Hall2 & Hat2)]; [lia |].
    right. split; [done |]. specialize (Hle ltac:(lia)). split.
    + apply elem_of_app. destruct Hat2 as [-> | ?]; [left | by right]. destruct Hat1 as [? | ?]; [lia | done].
    + apply Forall_app_2; [| done]. eapply list.Forall_impl; [exact Hall1 |]. cbv beta. intros. lia.
Qed.

(** ** Rates *)

(** The conversion of a rate index and rate information to a data rate
    stays inside its tables for every pair of bytes the firmware can report,
    and gives at most 867 Mb/s (in units of 500 kb/s). *)
Theorem data_rate_total index tx_rate_info :
  0 <= index < 256 -> 0 <= tx_rate_info < 256 ->
  exists r, wlan_index_to_data_rate index tx_rate_info = Ret r /\ 0 <= r <= 0x6C6.
Proof.
  intros Hi Ht.
  assert (Hall : forallb (fun i => forallb (fun t =>
      match wlan_index_to_data_rate (Z.of_nat i) (Z.of_nat t) with Ret r => (0 <=? r) && (r <=? 0x6C6) | Fault _ => false end)
      (seq 0 256)) (seq 0 256) = true) by (vm_compute; reflexivity).
  rewrite forallb_forall in Hall. specialize (Hall (Z.to_nat index) ltac:(apply in_seq; lia)).
  rewrite forallb_forall in Hall. specialize (Hall (Z.to_nat tx_rate_info) ltac:(apply in_seq; lia)).
  rewrite !Z2Nat.id in Hall by lia. destruct (wlan_index_to_data_rate index tx_rate_info) as [r |]; [| done].
  exists r. split; [done |]. lia.
Qed.

Lemma data_rate_total_witness : exists r, wlan_index_to_data_rate 9 0x1E = Ret r /\ 0 <= r <= 0x6C6.
Proof. apply data_rate_total; lia. Defined.

(** The bits of an array of 16-bit words. *)
Definition rate_bit (bitmap : list Z) (i : Z) : bool :=
  match bitmap !! Z.to_nat (i / 16) with Some w => Z.testbit w (i mod 16) | None => false end.

Lemma rate_index_spec n bitmap : forall i, 0 <= i -> i + Z.of_nat n <= 16 * Z.of_nat (length bitmap) ->
  exists r, rate_index_loop n bitmap i = Ret r /\
    ((r = -1 /\ forall j, i <= j < i + Z.of_nat n -> rate_bit bitmap j = false) \/
     (i <= r < i + Z.of_nat n /\ rate_bit bitmap r = true /\ forall j, i <= j < r -> rate_bit bitmap j = false)).
Proof.
  induction n as [| n IH]; intros i Hi Hn; simpl; [exists (-1); split; [done |]; left; split; [done | lia] |].
  assert (Hq : 0 <= i / 16 < Z.of_nat (length bitmap)) by (split; [apply Z.div_pos; lia | apply Z.div_lt_upper_bound; lia]).
  destruct (arr_get_total bitmap (i / 16) Hq) as (w & -> & Hw). rewrite bind_ret.
  assert (Hb : rate_bit bitmap i = Z.testbit w (i mod 16)) by (unfold rate_bit; by rewrite Hw).
  destruct (Z.testbit w (i mod 16)) eqn:E.
  - exists i. split; [done |]. right. split; [lia |]. split; [done | lia].
  - destruct (IH (i + 1) ltac:(lia) ltac:(lia)) as (r & -> & Hr). exists r. split; [done |].
    destruct Hr as [[-> Hall] | (Hr & Ht & Hall)].
    + left. split; [done |]. intros j Hj. destruct (Z.eq_dec j i) as [-> |]; [done | apply Hall; lia].
    + right. split; [lia |]. split; [done |]. intros j Hj. destruct (Z.eq_dec j i) as [-> |]; [done | apply Hall; lia].
Qed.

(** The rate index is the number of the lowest set bit of the bitmap, or -1
    when the words that were asked for are all 0. *)
Theorem rate_index_is_lowest_bit bitmap size :
  0 <= size <= 2 * Z.of_nat (length bitmap) ->
  exists r, wlan_get_rate_index bitmap size = Ret r /\
    ((r = -1 /\ forall j, 0 <= j < 8 * size -> rate_bit bitmap j = false) \/
     (0 <= r < 8 * size /\ rate_bit bitmap r = true /\ forall j, 0 <= j < r -> rate_bit bitmap j = false)).
Proof.
  intros Hs. unfold wlan_get_rate_index.
  destruct (rate_index_spec (Z.to_nat (size * 8)) bitmap 0) as (r & E & Hr); [lia | lia |].
  exists r. split; [done |]. replace (8 * size) with (0 + Z.of_nat (Z.to_nat (size * 8))) by lia. exact Hr.
Qed.

Lemma rate_index_is_lowest_bit_witness : exists r, wlan_get_rate_index [0; 0x8000; 1] 6 = Ret r /\ 0 <= r < 48.
Proof.
  destruct (rate_index_is_lowest_bit [0; 0x8000; 1] 6 ltac:(simpl; lia)) as (r & E & [[-> Hall] | (Hr & _)]).
  - specialize (Hall 31 ltac:(lia)). discriminate Hall.
  - exists r. split; [exact E | lia].
Defined.

(** ** Operating classes *)

(** The supported-operating-classes element lists, for any country string,
    exactly the global classes of the table the driver looks operating classes
    up in, in its order, and its length field and the returned size count
    every byte that was written. *)
Theorem supported_oper_class_ie_matches_table a curr :
  let '(bytes, ret) := wlan_add_supported_oper_class_ie a curr in
  let classes := global_oper_class <$> wlan_get_nonglobal_operclass_table a in
  bytes = le16 REGULATORY_CLASS ++ le16 (1 + Z.of_nat (length classes)) ++ [curr] ++ classes /\
  ret = Z.of_nat (length bytes).
Proof.
  unfold wlan_add_supported_oper_class_ie, wlan_get_nonglobal_operclass_table.
  destruct (find_country (adapter_country_code a)); split; reflexivity.
Qed.

Lemma oper_class_loop_sound l ch bw o g : oper_class_loop l ch bw = Some (o, g) ->
  exists r, r ∈ l /\ oper_class r = o /\ global_oper_class r = g /\ bandwidth r = bw /\ ch ∈ channel_list r /\ ch <> 0.
Proof.
  induction l as [| r l IH]; simpl; [done |]. destruct ((bandwidth r =? bw) && lists_channel r ch) eqn:E.
  - apply andb_prop in E as [Eb (x & Hx & Hc)%existsb_exists]. intros [= <- <-]. exists r. split; [left |].
    apply andb_prop in Hc as [Hn Hc]. apply Z.eqb_eq in Eb, Hc. subst x. apply negb_true_iff, Z.eqb_neq in Hn.
    split; [done |]. split; [done |]. split; [done |]. split; [by apply list_elem_of_In | done].
  - intros (r' & Hr' & ?)%IH. exists r'. split; [by right | done].
Qed.

(** The operating class found for a channel of 20 or 40 MHz is a row of the
    country's table with that bandwidth that lists the channel; it is
    announced in the supported-operating-classes element. *)
Theorem oper_class_lookup_sound a ch bw o g curr :
  bw <> BW_80MHZ -> wlan_get_global_nonglobal_oper_class a ch bw = Some (o, g) ->
  (exists r, r ∈ wlan_get_nonglobal_operclass_table a /\ oper_class r = o /\ global_oper_class r = g /\
     bandwidth r = bw /\ ch ∈ channel_list r) /\
  g ∈ drop 5 (fst (wlan_add_supported_oper_class_ie a curr)).
Proof.
  intros Hbw. unfold wlan_get_global_nonglobal_oper_class. destruct (existsb (Z.eqb ch) center_freqs); [done |].
  apply Z.eqb_neq in Hbw as ->. intros (r & Hr & Ho & Hg & Hb & Hc & _)%oper_class_loop_sound.
  split; [by exists r |].
  unfold wlan_add_supported_oper_class_ie. cbn [fst].
  change (drop 5 (le16 REGULATORY_CLASS ++ le16 ?n ++ [curr] ++ ?l)) with l. rewrite <- Hg.
  apply (list_elem_of_fmap_2 global_oper_class) in Hr. revert Hr. unfold wlan_get_nonglobal_operclass_table.
  by destruct (find_country (adapter_country_code a)).
Qed.

Lemma oper_class_lookup_sound_witness :
  (exists r, r ∈ oper_bw_chan_us /\ oper_class r = 1 /\ global_oper_class r = 115 /\ bandwidth r = 0 /\ 36 ∈ channel_list r) /\
  115 ∈ drop 5 (fst (wlan_add_supported_oper_class_ie (ex_adapter (lit "US")) 1)).
Proof. exact (oper_class_lookup_sound (ex_adapter (lit "US")) 36 0 1 115 1 ltac:(discriminate) eq_refl). Defined.

(** With a bandwidth of 80 MHz every 2.4 GHz channel is given class 128, a
    5 GHz class: the centre-frequency function answers 42 for a channel it does
    not know. *)
Theorem oper_class_80mhz_accepts_2_4_ghz a ch :
  1 <= ch <= 14 -> wlan_get_global_nonglobal_oper_class a ch BW_80MHZ = Some (128, 128).
Proof.
  intros Hch. unfold wlan_get_global_nonglobal_oper_class.
  assert (Hc : existsb (Z.eqb ch) center_freqs = false /\ wlan_get_center_freq_idx BAND_AAC ch CHANNEL_BW_80MHZ = 42).
  { assert (ch = 1 \/ ch = 2 \/ ch = 3 \/ ch = 4 \/ ch = 5 \/ ch = 6 \/ ch = 7 \/ ch = 8 \/ ch = 9 \/ ch = 10 \/ ch = 11 \/
      ch = 12 \/ ch = 13 \/ ch = 14) as H by lia. repeat (destruct H as [-> | H]; [split; reflexivity |]). subst ch. split; reflexivity. }
  destruct Hc as [-> ->]. change (BW_80MHZ =? BW_80MHZ) with true. cbv iota.
  unfold wlan_get_nonglobal_operclass_table. by destruct (find_country (adapter_country_code a)).
Qed.

Lemma oper_class_80mhz_accepts_2_4_ghz_witness :
  wlan_get_global_nonglobal_oper_class (ex_adapter (lit "US")) 6 BW_80MHZ = Some (128, 128).
Proof. apply oper_class_80mhz_accepts_2_4_ghz. lia. Defined.

(** In China class 83, the 40 MHz class of channels 1 to 9 with the
    secondary channel above, is entered with a bandwidth of 20 MHz, so that
    channels 1 to 4 have no 40 MHz class there, unlike in every other table. *)
Theorem china_class_83_is_20_mhz :
  wlan_get_global_nonglobal_oper_class (ex_adapter (lit "CN")) 1 1 = None /\
  wlan_get_global_nonglobal_oper_class (ex_adapter (lit "US")) 1 1 = Some (32, 83) /\
  wlan_get_global_nonglobal_oper_class (ex_adapter (lit "JP")) 1 1 = Some (56, 83) /\
  wlan_get_global_nonglobal_oper_class (ex_adapter (lit "DE")) 1 1 = Some (11, 83).
Proof. vm_compute. repeat split; reflexivity. Qed.

(** The centre of a 160 MHz channel is known for the upper half of its
    primary channels only: channels 36 to 48 and 100 to 112 give 0. *)
Theorem center_160mhz_half_missing :
  (fun ch => wlan_get_center_freq_idx BAND_AAC ch CHANNEL_BW_160MHZ) <$> [36; 48; 52; 64; 100; 112; 116; 128] =
    [0; 0; 50; 50; 0; 0; 114; 114].
Proof. reflexivity. Qed.

(** A region code that has no table (0x41 and 0xfe are listed as valid
    codes) makes setting the region fail after the channel table was cleared:
    no channel is usable any more. *)
Theorem unknown_region_clears_channels a :
  cfp_otp_bg a = None -> cfp_otp_a a = None -> stations_11d a <= 0 ->
  exists a', wlan_set_regiontable a 0x41 (bands [BAND_B; BAND_G; BAND_A]) = Ret (false, a') /\
    0x41 ∈ region_code_index /\ forall bd ch, wlan_find_cfp_by_band_and_channel a' bd ch = Ret None.
Proof.
  intros H1 H2 Hs. unfold wlan_set_regiontable.
  assert (E : wlan_get_region_cfp_table a 0x41 (bands [BAND_G; BAND_B; BAND_GN]) = None).
  { unfold wlan_get_region_cfp_table, otp_table. rewrite H1. by destruct (otp_region a). }
  rewrite E. change (has_band _ (bands [BAND_B; BAND_G; BAND_GN])) with true. cbv iota. rewrite bind_ret.
  eexists. split; [reflexivity |]. split; [by apply (bool_decide_unpack (0x41 ∈ region_code_index)); vm_compute |].
  intros bd ch. unfold wlan_find_cfp_by_band_and_channel, wlan_get_cfp_by_band_and_channel. cbn [stations_11d set_region_channel].
  assert (Hs' : (stations_11d a >? 0) = false) by lia. by rewrite Hs'.
Qed.

Lemma unknown_region_clears_channels_witness :
  exists a', wlan_set_regiontable (ex_adapter (lit "JP")) 0x41 (bands [BAND_B; BAND_G; BAND_A]) = Ret (false, a') /\
    0x41 ∈ region_code_index /\ wlan_find_cfp_by_band_and_channel a' BAND_G 1 = Ret None.
Proof.
  destruct (unknown_region_clears_channels (ex_adapter (lit "JP")) eq_refl eq_refl ltac:(simpl; lia)) as (a' & E & Hin & Hf).
  exists a'. split; [exact E |]. split; [exact Hin | apply Hf].
Defined.

(** ** Custom channel lists *)

(** The entry a custom channel makes, the power of the slot kept. *)
Definition is_bg (c : wifi_chan_info_t) : Prop := chan_num c <= MAX_CHANNELS_BG.
#[export] Instance is_bg_dec c : Decision (is_bg c).
Proof. unfold is_bg. apply _. Defined.
Definition same_channel (e : chan_freq_power_t) (c : wifi_chan_info_t) : Prop :=
  channel e = chan_num c /\ freq e = chan_freq c /\ passive_scan_or_radar_detect e = chan_passive c.

Lemma put_custom_app pre e post i c : i = Z.of_nat (length pre) ->
  exists e', put_custom (pre ++ e :: post) i c = Ret (pre ++ e' :: post) /\ same_channel e' c.
Proof.
  intros ->. unfold put_custom. rewrite arr_get_app, bind_ret by done. rewrite arr_set_app by done. by eexists.
Qed.

Lemma custom_loop_spec l : forall pre_bg bg pre_a al,
  (length (filter is_bg l) <= length bg)%nat -> (length (filter (fun c => ~ is_bg c) l) <= length al)%nat ->
  exists new_bg new_a,
    custom_loop l (pre_bg ++ bg) (pre_a ++ al) (Z.of_nat (length pre_bg)) (Z.of_nat (length pre_a)) =
      Ret (true, pre_bg ++ new_bg ++ drop (length new_bg) bg, pre_a ++ new_a ++ drop (length new_a) al,
           Z.of_nat (length pre_bg + length new_bg), Z.of_nat (length pre_a + length new_a)) /\
    Forall2 same_channel new_bg (filter is_bg l) /\ Forall2 same_channel new_a (filter (fun c => ~ is_bg c) l).
Proof.
  induction l as [| c l IH]; intros pre_bg bg pre_a al Hb Ha.
  - exists [], []. simpl. rewrite !Nat.add_0_r. split; [done |]. split; constructor.
  - cbn [custom_loop].
    destruct (decide (is_bg c)) as [Hc | Hc].
    + assert (Hcn : ~ ~ is_bg c) by tauto. rewrite (filter_cons_True is_bg) in Hb by done. rewrite filter_cons_False in Ha by done.
      rewrite (filter_cons_True is_bg), filter_cons_False by done. destruct bg as [| e bg]; [simpl in Hb; lia |]. simpl in Hb.
      unfold is_bg in Hc. destruct (Z.leb_spec (chan_num c) MAX_CHANNELS_BG); [| lia].
      rewrite length_app. destruct (Z.ltb_spec (Z.of_nat (length pre_bg)) (Z.of_nat (length pre_bg + length (e :: bg)))); [| simpl in *; lia].
      cbn [andb]. destruct (put_custom_app pre_bg e bg _ c eq_refl) as (e' & -> & He'). rewrite bind_ret.
      destruct (IH (pre_bg ++ [e']) bg pre_a al ltac:(lia) Ha) as (nb & na & E & F1 & F2).
      rewrite length_app, <- (assoc_L (++)) in E. cbn [length app] in E.
      replace (Z.of_nat (length pre_bg) + 1) with (Z.of_nat (length pre_bg + 1)) by lia. rewrite E.
      exists (e' :: nb), na. split; [| split; [by constructor | done]].
      rewrite <- (assoc_L (++) pre_bg). cbn [app length drop].
      by replace (length pre_bg + 1 + length nb)%nat with (length pre_bg + S (length nb))%nat by lia.
    + rewrite (filter_cons_False is_bg) in Hb by done. rewrite filter_cons_True in Ha by done.
      rewrite (filter_cons_False is_bg), filter_cons_True by done. destruct al as [| e al]; [simpl in Ha; lia |]. simpl in Ha.
      unfold is_bg in Hc. destruct (Z.leb_spec (chan_num c) MAX_CHANNELS_BG); [done |]. cbn [andb].
      rewrite Z.gtb_ltb. destruct (Z.ltb_spec MAX_CHANNELS_BG (chan_num c)); [| lia].
      rewrite length_app. destruct (Z.ltb_spec (Z.of_nat (length pre_a)) (Z.of_nat (length pre_a + length (e :: al)))); [| simpl in *; lia].
      cbn [andb]. destruct (put_custom_app pre_a e al _ c eq_refl) as (e' & -> & He'). rewrite bind_ret.
      destruct (IH pre_bg bg (pre_a ++ [e']) al Hb ltac:(lia)) as (nb & na & E & F1 & F2).
      rewrite length_app, <- (assoc_L (++)) in E. cbn [length app] in E.
      replace (Z.of_nat (length pre_a) + 1) with (Z.of_nat (length pre_a + 1)) by lia. rewrite E.
      exists nb, (e' :: na). split; [| split; [done | by constructor]].
      rewrite <- (assoc_L (++) pre_a). cbn [app length drop].
      by replace (length pre_a + 1 + length na)%nat with (length pre_a + S (length na))%nat by lia.
Qed.

(** The channels of a list a client may transmit on at once. *)
Definition open_channels (l : list wifi_chan_info_t) : list Z := chan_num <$> filter (fun c => chan_passive c = false) l.

Lemma same_channels_open es cs : Forall2 same_channel es cs -> Forall (fun c => 0 <= chan_num c < 256) cs ->
  (fun c => u8 (channel c)) <$> filter (fun c => passive_scan_or_radar_detect c = false) es = open_channels cs.
Proof.
  unfold open_channels. induction 1 as [| e c es cs (Hch & _ & Hp) _ IH]; intros Hr; [done |].
  apply List.Forall_cons_iff in Hr as [Hc Hr]. rewrite !filter_cons, Hp.
  destruct (decide (chan_passive c = false)); [| by apply IH].
  rewrite !fmap_cons, IH, Hch, wrap_small by done. done.
Qed.

(** Entry [i] of the region table points to a filled custom table. *)
Lemma active_channels_spec a i rc es cs rest p : arr_get (region_channel a) i = Ret rc -> pcfp rc = Some p ->
  deref a p = es ++ rest -> num_cfp rc = Z.of_nat (length cs) -> Forall2 same_channel es cs ->
  Forall (fun c => 0 <= chan_num c < 256) cs -> active_channels a i = Ret (open_channels cs).
Proof.
  intros Hrc Hp Hd Hn Hs Hr. pose proof (Forall2_length _ _ _ Hs) as Hl. unfold active_channels. rewrite Hrc, bind_ret, Hn.
  destruct (Z.leb_spec (Z.of_nat (length cs)) 0).
  - destruct cs; [done | simpl in *; lia].
  - rewrite Hp, Hd, <- Hl, mem_read_head by done. rewrite bind_ret. f_equal. by apply same_channels_open.
Qed.

Lemma Forall_filter_of {A} (P Q : A -> Prop) `{!forall x, Decision (Q x)} l : Forall P l -> Forall P (filter Q l).
Proof. rewrite !list.Forall_forall. intros HP x [_ Hx]%list_elem_of_filter. by apply HP. Qed.

(** A channel list with its 8-bit length. *)
Definition counted (l : list Z) : list Z * Z := (l, Z.of_nat (length l)).
Lemma open_channels_counted l : (length l < 256)%nat ->
  (open_channels l, u8 (Z.of_nat (length (open_channels l)))) = counted (open_channels l).
Proof.
  intros Hl. unfold counted. rewrite wrap_small; [done |]. unfold open_channels. rewrite length_fmap.
  pose proof (length_filter (fun c => chan_passive c = false) l). lia.
Qed.

(** After a custom channel list that fits the two tables (14 and 25
    entries) is set, the active channel lists of both bands are exactly the
    given channels that need neither passive scanning nor radar detection, in
    the order given. *)
Theorem custom_channels_are_active a chan_info num l rc0 rc1 :
  region_channel a = [rc0; rc1] -> length (custom_bg a) = 14%nat -> length (custom_a a) = 25%nat ->
  mem_read chan_info 0 num = Ret l -> Forall (fun c => 0 <= chan_num c < 256) l ->
  (0 < length (filter is_bg l) <= 14)%nat -> (0 < length (filter (fun c => ~ is_bg c) l) <= 25)%nat ->
  exists a1 nb na a2,
    wlan_set_custom_cfp_table a chan_info num = Ret (true, a1, nb, na) /\
    wlan_set_custom_regiontable a1 nb na = Ret a2 /\
    wlan_get_active_channel_list a2 0 = Ret (counted (open_channels (filter is_bg l))) /\
    wlan_get_active_channel_list a2 1 = Ret (counted (open_channels (filter (fun c => ~ is_bg c) l))).
Proof.
  intros Hrc Hlb Hla Hl Hr Hb Ha. unfold wlan_set_custom_cfp_table. rewrite Hl, bind_ret.
  destruct (custom_loop_spec l [] (custom_bg a) [] (custom_a a)) as (nb & na & E & F1 & F2); [lia | lia |].
  cbn [app length plus] in E. change (Z.of_nat 0) with 0 in E. rewrite E, bind_ret. eexists _, _, _.
  pose proof (Forall2_length _ _ _ F1) as L1. pose proof (Forall2_length _ _ _ F2) as L2.
  set (a1 := set_custom _ _ a).
  set (r0 := with_table (Z.of_nat (length nb)) CustomBG rc0). set (r1 := with_table (Z.of_nat (length na)) CustomA rc1).
  exists (set_region_channel [r0; r1] a1). split; [reflexivity |].
  assert (Hreg : wlan_set_custom_regiontable a1 (Z.of_nat (length nb)) (Z.of_nat (length na)) = Ret (set_region_channel [r0; r1] a1)).
  { unfold wlan_set_custom_regiontable. change (region_channel a1) with (region_channel a). rewrite Hrc.
    destruct (Z.eqb_spec (Z.of_nat (length nb)) 0); [lia |]. destruct (Z.eqb_spec (Z.of_nat (length na)) 0); [lia |]. reflexivity. }
  split; [exact Hreg |].
  assert (Hn0 : num_cfp r0 = Z.of_nat (length (filter is_bg l))) by (simpl; rewrite wrap_small; lia).
  assert (Hn1 : num_cfp r1 = Z.of_nat (length (filter (fun c => ~ is_bg c) l))) by (simpl; rewrite wrap_small; lia).
  unfold wlan_get_active_channel_list. change (0 =? 0) with true. change (1 =? 0) with false. change (1 =? 1) with true. cbv iota.
  split.
  - rewrite (active_channels_spec _ 0 r0 nb (filter is_bg l) (drop (length nb) (custom_bg a)) CustomBG);
      [rewrite bind_ret, open_channels_counted by lia | ..]; try done. by apply Forall_filter_of.
  - rewrite (active_channels_spec _ 1 r1 na (filter (fun c => ~ is_bg c) l) (drop (length na) (custom_a a)) CustomA);
      [rewrite bind_ret, open_channels_counted by lia | ..]; try done. by apply Forall_filter_of.
Qed.
Lemma custom_channels_are_active_witness :
  exists a1 nb na a2,
    wlan_set_custom_cfp_table (set_region_channel [no_region_chan; no_region_chan] (ex_adapter (lit "US")))
      [MkChanInfo 6 2437 false; MkChanInfo 36 5180 false; MkChanInfo 13 2472 true; MkChanInfo 44 5220 false] 4
      = Ret (true, a1, nb, na) /\
    wlan_set_custom_regiontable a1 nb na = Ret a2 /\
    wlan_get_active_channel_list a2 0 = Ret ([6], 1) /\
    wlan_get_active_channel_list a2 1 = Ret ([36; 44], 2).
Proof.
  apply (custom_channels_are_active (set_region_channel [no_region_chan; no_region_chan] (ex_adapter (lit "US")))
    [MkChanInfo 6 2437 false; MkChanInfo 36 5180 false; MkChanInfo 13 2472 true; MkChanInfo 44 5220 false] 4
    [MkChanInfo 6 2437 false; MkChanInfo 36 5180 false; MkChanInfo 13 2472 true; MkChanInfo 44 5220 false]
    no_region_chan no_region_chan); [reflexivity.. | | |].
  - repeat constructor; simpl; lia.
  - vm_compute. lia.
  - vm_compute. lia.
Defined.
