(* ===== verification/WlcmData.v ===== *)
(** * The connection manager: data

    The data of [wlcmgr/wlan.c] in the configuration with the supplicant of the
    firmware ([CONFIG_WPA_SUPP] and the features built on it, IPv6, host sleep
    wake locks, 802.11k/v/r and OWE are off; 5 GHz and 802.11ac are on): states,
    networks, messages, the global [wlan], and the monad its handlers run in. *)
From S2P Require Import Prelude CString.

(** ** States and events *)
Inductive cm_sta_state :=
  | CM_STA_INITIALIZING | CM_STA_IDLE | CM_STA_SCANNING | CM_STA_SCANNING_USER | CM_STA_ASSOCIATING
  | CM_STA_ASSOCIATED | CM_STA_REQUESTING_ADDRESS | CM_STA_OBTAINING_ADDRESS | CM_STA_CONNECTED.
#[export] Instance cm_sta_state_eq_dec : EqDecision cm_sta_state.
Proof. solve_decision. Defined.
Definition sta_num (s : cm_sta_state) : Z :=
  match s with
  | CM_STA_INITIALIZING => 0 | CM_STA_IDLE => 1 | CM_STA_SCANNING => 2 | CM_STA_SCANNING_USER => 3 |
    CM_STA_ASSOCIATING => 4
  | CM_STA_ASSOCIATED => 5 | CM_STA_REQUESTING_ADDRESS => 6 | CM_STA_OBTAINING_ADDRESS => 7 | CM_STA_CONNECTED => 8
  end.
Inductive cm_uap_state := CM_UAP_INITIALIZING | CM_UAP_CONFIGURED | CM_UAP_STARTED | CM_UAP_IP_UP.
#[export] Instance cm_uap_state_eq_dec : EqDecision cm_uap_state.
Proof. solve_decision. Defined.

Inductive wlan_ps_state := PS_STATE_AWAKE | PS_STATE_PRE_SLEEP | PS_STATE_SLEEP_CFM | PS_STATE_SLEEP.
Inductive wlan_ieeeps_event :=
  | IEEEPS_EVENT_ENTER | IEEEPS_EVENT_ENABLE | IEEEPS_EVENT_ENABLE_DONE | IEEEPS_EVENT_AWAKE | IEEEPS_EVENT_SLEEP
  | IEEEPS_EVENT_SLP_CFM | IEEEPS_EVENT_DISABLE | IEEEPS_EVENT_DISABLE_DONE.
Inductive wlan_ieeeps_state :=
  | IEEEPS_INIT | IEEEPS_CONFIGURING | IEEEPS_AWAKE | IEEEPS_PRE_SLEEP | IEEEPS_SLEEP | IEEEPS_PRE_DISABLE |
    IEEEPS_DISABLING.
Inductive wlan_deepsleepps_state :=
  | DEEPSLEEPPS_INIT | DEEPSLEEPPS_CONFIGURING | DEEPSLEEPPS_AWAKE | DEEPSLEEPPS_PRE_SLEEP | DEEPSLEEPPS_SLEEP
  | DEEPSLEEPPS_PRE_DISABLE | DEEPSLEEPPS_DISABLING.
Inductive wlan_deepsleepps_event :=
  | DEEPSLEEPPS_EVENT_ENTER | DEEPSLEEPPS_EVENT_ENABLE | DEEPSLEEPPS_EVENT_ENABLE_DONE | DEEPSLEEPPS_EVENT_AWAKE
  | DEEPSLEEPPS_EVENT_SLEEP | DEEPSLEEPPS_EVENT_SLP_CFM | DEEPSLEEPPS_EVENT_DISABLE | DEEPSLEEPPS_EVENT_DISABLE_DONE.
#[export] Instance wlan_ieeeps_event_eq_dec : EqDecision wlan_ieeeps_event.
Proof. solve_decision. Defined.
#[export] Instance wlan_ieeeps_state_eq_dec : EqDecision wlan_ieeeps_state.
Proof. solve_decision. Defined.
#[export] Instance wlan_deepsleepps_state_eq_dec : EqDecision wlan_deepsleepps_state.
Proof. solve_decision. Defined.
#[export] Instance wlan_deepsleepps_event_eq_dec : EqDecision wlan_deepsleepps_event.
Proof. solve_decision. Defined.

Inductive wlan_security_type :=
  | WLAN_SECURITY_NONE | WLAN_SECURITY_WEP_OPEN | WLAN_SECURITY_WEP_SHARED | WLAN_SECURITY_WPA | WLAN_SECURITY_WPA2
  | WLAN_SECURITY_WPA2_SHA256 | WLAN_SECURITY_WPA_WPA2_MIXED | WLAN_SECURITY_WILDCARD | WLAN_SECURITY_WPA3_SAE
  | WLAN_SECURITY_WPA2_WPA3_SAE_MIXED.
#[export] Instance wlan_security_type_eq_dec : EqDecision wlan_security_type.
Proof. solve_decision. Defined.

(** The reasons given to the user's callback. *)
Inductive wlan_event_reason :=
  | WLAN_REASON_SUCCESS | WLAN_REASON_AUTH_SUCCESS | WLAN_REASON_CONNECT_FAILED | WLAN_REASON_NETWORK_NOT_FOUND
  | WLAN_REASON_BGSCAN_NETWORK_NOT_FOUND | WLAN_REASON_NETWORK_AUTH_FAILED | WLAN_REASON_ADDRESS_SUCCESS
  | WLAN_REASON_ADDRESS_FAILED | WLAN_REASON_LINK_LOST | WLAN_REASON_CHAN_SWITCH | WLAN_REASON_USER_DISCONNECT
  | WLAN_REASON_INITIALIZED | WLAN_REASON_INITIALIZATION_FAILED | WLAN_REASON_PS_ENTER | WLAN_REASON_PS_EXIT
  | WLAN_REASON_UAP_SUCCESS | WLAN_REASON_UAP_CLIENT_ASSOC | WLAN_REASON_UAP_CLIENT_CONN |
    WLAN_REASON_UAP_CLIENT_DISSOC
  | WLAN_REASON_UAP_START_FAILED | WLAN_REASON_UAP_STOP_FAILED | WLAN_REASON_UAP_STOPPED | WLAN_REASON_RSSI_LOW.
#[export] Instance wlan_event_reason_eq_dec : EqDecision wlan_event_reason.
Proof. solve_decision. Defined.

(** ** Constants *)
Definition WLAN_RESCAN_LIMIT : Z := 5.
Definition WLAN_RECONNECT_LIMIT : Z := 5.
Definition WLAN_NETWORK_NAME_MIN_LENGTH : Z := 1.
Definition WLAN_NETWORK_NAME_MAX_LENGTH : Z := 32.
Definition WLAN_PSK_MIN_LENGTH : Z := 8.
Definition WLAN_PSK_MAX_LENGTH : Z := 65.
Definition WLAN_PASSWORD_MIN_LENGTH : Z := 8.
Definition WLAN_PASSWORD_MAX_LENGTH : Z := 255.
Definition IEEEtypes_SSID_SIZE : Z := 32.
Definition WLAN_BSS_TYPE_STA : Z := 0.
Definition WLAN_BSS_TYPE_UAP : Z := 1.
Definition WLAN_BSS_TYPE_ANY : Z := 0xff.
Definition WLAN_BSS_ROLE_STA : Z := 0.
Definition WLAN_BSS_ROLE_UAP : Z := 1.
Definition ADDR_TYPE_STATIC : Z := 0.
Definition ADDR_TYPE_DHCP : Z := 1.
Definition ADDR_TYPE_LLA : Z := 2.
Definition WLAN_IEEE : Z := 1.
Definition WLAN_DEEP_SLEEP : Z := 2.
Definition DIS_AUTO_PS : Z := 0xfe.
Definition SLEEP_CONFIRM : Z := 5.
Definition MAX_EVENTS : nat := 20.
Definition BG_SCAN_LIMIT : Z := 3.
Definition MAX_SCAN_CHANNELS : Z := 40.       (* of [chan_list] in [handle_scan_results] *)
Definition UAP_DEFAULT_CHANNEL : Z := 0.
Definition BSS_CHANNELS_BG : Z := 14.
Definition IEEEtypes_REASON_MIC_FAILURE : Z := 14.
Definition IEEEtypes_REASON_4WAY_HANDSHK_TIMEOUT : Z := 15.
Definition HOST_SLEEP_CFG_CANCEL : Z := 0xffffffff.

(** ** Networks *)

(** The record [r] with [v] in the field [p]; [eta] rebuilds a record. *)
Ltac set_field eta p v r :=
  let e := eval cbv beta delta [eta] in (eta r) in
  let e := eval pattern (p r) in e in
  lazymatch e with ?f _ => let t := eval cbv beta in (f v) in exact t end.

(** A cipher's bits that are used are [tkip] and [ccmp]. *)
Record wlan_network_security := MkSecurity {
  sec_type : wlan_security_type;
  mcst_tkip : bool;
  mcst_ccmp : bool;
  ucst_tkip : bool;
  ucst_ccmp : bool;
  is_pmf_required : bool;
  psk : list Z;
  psk_len : Z;
  password : list Z;
  password_len : Z;
  pmk : list Z;
  pmk_valid : bool;
  mfpc : bool;
  mfpr : bool
}.
Definition wlan_network_security_eta (r : wlan_network_security) : wlan_network_security :=
  MkSecurity (sec_type r) (mcst_tkip r) (mcst_ccmp r) (ucst_tkip r) (ucst_ccmp r) (is_pmf_required r) (psk r) (psk_len
    r) (password r) (password_len r) (pmk r) (pmk_valid r) (mfpc r) (mfpr r).
Definition set_sec_type (v : wlan_security_type) (r : wlan_network_security) : wlan_network_security :=
  ltac:(set_field wlan_network_security_eta sec_type v r).
Definition set_mcst_tkip (v : bool) (r : wlan_network_security) : wlan_network_security :=
  ltac:(set_field wlan_network_security_eta mcst_tkip v r).
Definition set_mcst_ccmp (v : bool) (r : wlan_network_security) : wlan_network_security :=
  ltac:(set_field wlan_network_security_eta mcst_ccmp v r).
Definition set_ucst_tkip (v : bool) (r : wlan_network_security) : wlan_network_security :=
  ltac:(set_field wlan_network_security_eta ucst_tkip v r).
Definition set_ucst_ccmp (v : bool) (r : wlan_network_security) : wlan_network_security :=
  ltac:(set_field wlan_network_security_eta ucst_ccmp v r).
Definition set_is_pmf_required (v : bool) (r : wlan_network_security) : wlan_network_security :=
  ltac:(set_field wlan_network_security_eta is_pmf_required v r).
Definition set_psk (v : list Z) (r : wlan_network_security) : wlan_network_security :=
  ltac:(set_field wlan_network_security_eta psk v r).
Definition set_psk_len (v : Z) (r : wlan_network_security) : wlan_network_security :=
  ltac:(set_field wlan_network_security_eta psk_len v r).
Definition set_password (v : list Z) (r : wlan_network_security) : wlan_network_security :=
  ltac:(set_field wlan_network_security_eta password v r).
Definition set_password_len (v : Z) (r : wlan_network_security) : wlan_network_security :=
  ltac:(set_field wlan_network_security_eta password_len v r).
Definition set_pmk (v : list Z) (r : wlan_network_security) : wlan_network_security :=
  ltac:(set_field wlan_network_security_eta pmk v r).
Definition set_pmk_valid (v : bool) (r : wlan_network_security) : wlan_network_security :=
  ltac:(set_field wlan_network_security_eta pmk_valid v r).
Definition set_mfpc (v : bool) (r : wlan_network_security) : wlan_network_security :=
  ltac:(set_field wlan_network_security_eta mfpc v r).
Definition set_mfpr (v : bool) (r : wlan_network_security) : wlan_network_security :=
  ltac:(set_field wlan_network_security_eta mfpr v r).

Record ipv4_config := MkIp {
  addr_type : Z;
  address : Z;
  gw : Z;
  netmask : Z;
  dns1 : Z;
  dns2 : Z
}.

(** The name is its characters; the SSID is its buffer of 33 bytes. *)
Record wlan_network := MkNetwork {
  name : list Z;
  ssid : list Z;
  bssid : list Z;
  channel : Z;
  acs_band : Z;
  bss_type : Z;
  role : Z;
  security : wlan_network_security;
  ipv4 : ipv4_config;
  ssid_specific : bool;
  bssid_specific : bool;
  channel_specific : bool;
  security_specific : bool;
  dot11n : bool;
  dot11ac : bool;
  beacon_period : Z;
  dtim_period : Z
}.
Definition wlan_network_eta (r : wlan_network) : wlan_network :=
  MkNetwork (name r) (ssid r) (bssid r) (channel r) (acs_band r) (bss_type r) (role r) (security r) (ipv4 r)
    (ssid_specific r) (bssid_specific r) (channel_specific r) (security_specific r) (dot11n r) (dot11ac r)
    (beacon_period r) (dtim_period r).
Definition set_name (v : list Z) (r : wlan_network) : wlan_network :=
  ltac:(set_field wlan_network_eta name v r).
Definition set_ssid (v : list Z) (r : wlan_network) : wlan_network :=
  ltac:(set_field wlan_network_eta ssid v r).
Definition set_bssid (v : list Z) (r : wlan_network) : wlan_network :=
  ltac:(set_field wlan_network_eta bssid v r).
Definition set_channel (v : Z) (r : wlan_network) : wlan_network :=
  ltac:(set_field wlan_network_eta channel v r).
Definition set_acs_band (v : Z) (r : wlan_network) : wlan_network :=
  ltac:(set_field wlan_network_eta acs_band v r).
Definition set_bss_type (v : Z) (r : wlan_network) : wlan_network :=
  ltac:(set_field wlan_network_eta bss_type v r).
Definition set_role (v : Z) (r : wlan_network) : wlan_network :=
  ltac:(set_field wlan_network_eta role v r).
Definition set_security (v : wlan_network_security) (r : wlan_network) : wlan_network :=
  ltac:(set_field wlan_network_eta security v r).
Definition set_ipv4 (v : ipv4_config) (r : wlan_network) : wlan_network :=
  ltac:(set_field wlan_network_eta ipv4 v r).
Definition set_ssid_specific (v : bool) (r : wlan_network) : wlan_network :=
  ltac:(set_field wlan_network_eta ssid_specific v r).
Definition set_bssid_specific (v : bool) (r : wlan_network) : wlan_network :=
  ltac:(set_field wlan_network_eta bssid_specific v r).
Definition set_channel_specific (v : bool) (r : wlan_network) : wlan_network :=
  ltac:(set_field wlan_network_eta channel_specific v r).
Definition set_security_specific (v : bool) (r : wlan_network) : wlan_network :=
  ltac:(set_field wlan_network_eta security_specific v r).
Definition set_dot11n (v : bool) (r : wlan_network) : wlan_network :=
  ltac:(set_field wlan_network_eta dot11n v r).
Definition set_dot11ac (v : bool) (r : wlan_network) : wlan_network :=
  ltac:(set_field wlan_network_eta dot11ac v r).
Definition set_beacon_period (v : Z) (r : wlan_network) : wlan_network :=
  ltac:(set_field wlan_network_eta beacon_period v r).
Definition set_dtim_period (v : Z) (r : wlan_network) : wlan_network :=
  ltac:(set_field wlan_network_eta dtim_period v r).

(** [(network)->security.f = v]. *)
Definition upd_security (f : wlan_network_security -> wlan_network_security) (n : wlan_network) : wlan_network :=
  set_security (f (security n)) n.

Definition no_security : wlan_network_security :=
  MkSecurity WLAN_SECURITY_NONE false false false false false (replicate 65 0) 0 (replicate 255 0) 0 (replicate 32 0)
    false
    false false.
(** A slot after [memset(&wlan.networks[i], 0, ...)]. *)
Definition no_network : wlan_network :=
  MkNetwork [] (replicate 33 0) (replicate 6 0) 0 0 0 0 no_security (MkIp 0 0 0 0 0 0) false false false false false
    false 0 0.

(** ** Scan results *)
Record security_mode := MkMode {
  wepStatic : bool; wpa : bool; wpa2 : bool; wpa2_sha256 : bool; wpa3_sae : bool
}.
Record wifi_scan_result2 := MkResult {
  res_bssid : list Z;
  res_ssid : list Z;                      (* [MLAN_MAX_SSID_LENGTH] *)
  res_ssid_len : Z;
  res_Channel : Z;                        (* uint8_t *)
  res_RSSI : Z;                           (* uint8_t *)
  res_beacon_period : Z;
  res_dtim_period : Z;
  WPA_WPA2_WEP : security_mode;
  wpa_mcst_tkip : bool; wpa_mcst_ccmp : bool; wpa_ucst_tkip : bool; wpa_ucst_ccmp : bool;
  rsn_mcst_tkip : bool; rsn_mcst_ccmp : bool; rsn_ucst_tkip : bool; rsn_ucst_ccmp : bool;
  res_is_pmf_required : bool;
  phtcap_ie_present : bool;
  pvhtcap_ie_present : bool
}.

(** ** Messages and actions *)

(** A user's scan request: its callback, and whether an SSID is given. *)
Record wlan_scan_params_v2_t := MkScanParams { scan_params_cb : nat; scan_params_bssid : list Z; scan_params_ssid :
    list Z }.

(** [struct wifi_message]: the event with its reason (whether it is
    [WIFI_EVENT_REASON_SUCCESS]) and its data. *)
Inductive wifi_message :=
  | CM_STA_USER_REQUEST_CONNECT (i : Z)
  | CM_STA_USER_REQUEST_DISCONNECT
  | CM_STA_USER_REQUEST_SCAN (p : option wlan_scan_params_v2_t)
  | CM_STA_USER_REQUEST_HS (cond : Z)
  | CM_STA_USER_REQUEST_PS_ENTER (mode : Z)
  | CM_STA_USER_REQUEST_PS_EXIT (mode : Z)
  | CM_UAP_USER_REQUEST_START (i : Z)
  | CM_UAP_USER_REQUEST_STOP (i : Z)
  | WIFI_EVENT_UAP_STARTED (ok : bool)
  | WIFI_EVENT_UAP_CLIENT_ASSOC
  | WIFI_EVENT_UAP_CLIENT_CONN
  | WIFI_EVENT_UAP_CLIENT_DEAUTH
  | WIFI_EVENT_UAP_NET_ADDR_CONFIG (ok : bool)
  | WIFI_EVENT_UAP_STOPPED
  | WIFI_EVENT_SCAN_RESULT (ok : bool)
  | WIFI_EVENT_GET_HW_SPEC
  | WIFI_EVENT_ASSOCIATION (ok : bool)
  | WIFI_EVENT_PMK (data : option (list Z))
  | WIFI_EVENT_AUTHENTICATION (ok : bool) (code : Z)
  | WIFI_EVENT_DISASSOCIATION
  | WIFI_EVENT_DEAUTHENTICATION
  | WIFI_EVENT_LINK_LOSS (code : Z)
  | WIFI_EVENT_RSSI_LOW
  | WIFI_EVENT_NET_STA_ADDR_CONFIG (ok : bool)
  | WIFI_EVENT_NET_INTERFACE_CONFIG (ok : bool)
  | WIFI_EVENT_STA_MAC_ADDR_CONFIG (data : option (list Z))
  | WIFI_EVENT_UAP_MAC_ADDR_CONFIG (data : option (list Z))
  | WIFI_EVENT_NET_DHCP_CONFIG (ok : bool)
  | WIFI_EVENT_SLEEP
  | WIFI_EVENT_AWAKE
  | WIFI_EVENT_IEEE_PS (ok : bool) (mode : Z)
  | WIFI_EVENT_DEEP_SLEEP (ok : bool) (mode : Z)
  | WIFI_EVENT_HS_CONFIG
  | WIFI_EVENT_11N_ADDBA
  | WIFI_EVENT_11N_BA_STREAM_TIMEOUT
  | WIFI_EVENT_11N_DELBA
  | WIFI_EVENT_11N_AGGR_CTRL
  | WIFI_EVENT_CHAN_SWITCH_ANN
  | WIFI_EVENT_CHAN_SWITCH (data : option Z)
  | WIFI_EVENT_BG_SCAN_REPORT
  | WIFI_EVENT_BG_SCAN_STOPPED
  | WIFI_EVENT_MGMT_FRAME
  | WIFI_EVENT_OTHER.

(** The calls of the connection manager that leave it, in the order made: to the
    user's callbacks, to the driver and to the network stack. *)
Inductive action :=
  | ConnectionEvent (r : wlan_event_reason)
  | ScanCallback (callback : nat)
  | SendScan (bssid ssid channels : list Z)
  | Associate (bssid : list Z) (security : wlan_security_type)
  | Deauthenticate (bssid : list Z)
  | AddKey (security : wlan_security_type)
  | ClearPsk
  | SetPmf (mfpc mfpr : bool)
  | EnterPs (mode : Z)
  | ExitPs (mode : Z)
  | SleepConfirm (bss : Z)
  | HostSleep (bss ip cond : Z)
  | ConfigureAddress (bss : Z) (ip : ipv4_config)
  | ConfigureDns (bss : Z)
  | InterfaceDown
  | InterfaceUp
  | StopDhcpTimer
  | UapStart (channel : Z)
  | UapStop
  | BlockAck (event : wifi_message)
  | SetBssChannel (channel : Z)
  | ScanQuery
  | ProcessMgmtFrame
  | StartAssocTimer
  | InitInterface.

(** ** The global [wlan], with the other globals of the file

    [scan_lock] is the binary semaphore (true when free); [log] records the
    calls that leave the connection manager, the oldest first. *)
Record wlan := MkWlan {
  scan_lock : bool;
  is_scan_lock : bool;
  events : list wifi_message;
  sta_state : cm_sta_state;
  sta_ipv4_state : cm_sta_state;
  sta_return_to : cm_sta_state;
  uap_state : cm_uap_state;
  sta_mac : list Z;
  uap_mac : list Z;
  cb : bool;
  scan_cb : option nat;
  networks : list wlan_network;
  cur_network_idx : Z;
  cur_uap_network_idx : Z;
  num_networks : Z;
  scan_count : Z;
  running : bool;
  cm_ps_state : wlan_ps_state;
  ieeeps_state : wlan_ieeeps_state;
  ieeeps_prev_state : wlan_ieeeps_state;
  deepsleepps_state : wlan_deepsleepps_state;
  skip_ds_exit_cb : bool;
  cm_ieeeps_configured : bool;
  cm_deepsleepps_configured : bool;
  assoc_paused : bool;
  pending_assoc_request : bool;
  reassoc_control : bool;
  reassoc_request : bool;
  reassoc_count : Z;
  hs_configured : bool;
  hs_wakeup_condition : Z;
  hidden_scan_on : bool;
  same_ess : bool;
  bgscan_attempt : Z;
  roam_reassoc : bool;
  connect_wakelock_taken : bool;
  g_req_sl_confirm : bool;
  ieee_ps_sleep_cb_sent : bool;
  wlan_uap_scan_chan_list_set : bool;
  uap_scan_chan_list : list Z;
  log : list action
}.
Definition wlan_eta (r : wlan) : wlan :=
  MkWlan (scan_lock r) (is_scan_lock r) (events r) (sta_state r) (sta_ipv4_state r) (sta_return_to r) (uap_state r)
    (sta_mac r) (uap_mac r) (cb r) (scan_cb r) (networks r) (cur_network_idx r) (cur_uap_network_idx r) (num_networks
    r) (scan_count r) (running r) (cm_ps_state r) (ieeeps_state r) (ieeeps_prev_state r) (deepsleepps_state r)
    (skip_ds_exit_cb r) (cm_ieeeps_configured r) (cm_deepsleepps_configured r) (assoc_paused r) (pending_assoc_request
    r) (reassoc_control r) (reassoc_request r) (reassoc_count r) (hs_configured r) (hs_wakeup_condition r)
    (hidden_scan_on r) (same_ess r) (bgscan_attempt r) (roam_reassoc r) (connect_wakelock_taken r) (g_req_sl_confirm
    r) (ieee_ps_sleep_cb_sent r) (wlan_uap_scan_chan_list_set r) (uap_scan_chan_list r) (log r).
Definition set_scan_lock (v : bool) (r : wlan) : wlan :=
  ltac:(set_field wlan_eta scan_lock v r).
Definition set_is_scan_lock (v : bool) (r : wlan) : wlan :=
  ltac:(set_field wlan_eta is_scan_lock v r).
Definition set_events (v : list wifi_message) (r : wlan) : wlan :=
  ltac:(set_field wlan_eta events v r).
Definition set_sta_state (v : cm_sta_state) (r : wlan) : wlan :=
  ltac:(set_field wlan_eta sta_state v r).
Definition set_sta_ipv4_state (v : cm_sta_state) (r : wlan) : wlan :=
  ltac:(set_field wlan_eta sta_ipv4_state v r).
Definition set_sta_return_to (v : cm_sta_state) (r : wlan) : wlan :=
  ltac:(set_field wlan_eta sta_return_to v r).
Definition set_uap_state (v : cm_uap_state) (r : wlan) : wlan :=
  ltac:(set_field wlan_eta uap_state v r).
Definition set_sta_mac (v : list Z) (r : wlan) : wlan :=
  ltac:(set_field wlan_eta sta_mac v r).
Definition set_uap_mac (v : list Z) (r : wlan) : wlan :=
  ltac:(set_field wlan_eta uap_mac v r).
Definition set_cb (v : bool) (r : wlan) : wlan :=
  ltac:(set_field wlan_eta cb v r).
Definition set_scan_cb (v : option nat) (r : wlan) : wlan :=
  ltac:(set_field wlan_eta scan_cb v r).
Definition set_networks (v : list wlan_network) (r : wlan) : wlan :=
  ltac:(set_field wlan_eta networks v r).
Definition set_cur_network_idx (v : Z) (r : wlan) : wlan :=
  ltac:(set_field wlan_eta cur_network_idx v r).
Definition set_cur_uap_network_idx (v : Z) (r : wlan) : wlan :=
  ltac:(set_field wlan_eta cur_uap_network_idx v r).
Definition set_num_networks (v : Z) (r : wlan) : wlan :=
  ltac:(set_field wlan_eta num_networks v r).
Definition set_scan_count (v : Z) (r : wlan) : wlan :=
  ltac:(set_field wlan_eta scan_count v r).
Definition set_running (v : bool) (r : wlan) : wlan :=
  ltac:(set_field wlan_eta running v r).
Definition set_cm_ps_state (v : wlan_ps_state) (r : wlan) : wlan :=
  ltac:(set_field wlan_eta cm_ps_state v r).
Definition set_ieeeps_state (v : wlan_ieeeps_state) (r : wlan) : wlan :=
  ltac:(set_field wlan_eta ieeeps_state v r).
Definition set_ieeeps_prev_state (v : wlan_ieeeps_state) (r : wlan) : wlan :=
  ltac:(set_field wlan_eta ieeeps_prev_state v r).
Definition set_deepsleepps_state (v : wlan_deepsleepps_state) (r : wlan) : wlan :=
  ltac:(set_field wlan_eta deepsleepps_state v r).
Definition set_skip_ds_exit_cb (v : bool) (r : wlan) : wlan :=
  ltac:(set_field wlan_eta skip_ds_exit_cb v r).
Definition set_cm_ieeeps_configured (v : bool) (r : wlan) : wlan :=
  ltac:(set_field wlan_eta cm_ieeeps_configured v r).
Definition set_cm_deepsleepps_configured (v : bool) (r : wlan) : wlan :=
  ltac:(set_field wlan_eta cm_deepsleepps_configured v r).
Definition set_assoc_paused (v : bool) (r : wlan) : wlan :=
  ltac:(set_field wlan_eta assoc_paused v r).
Definition set_pending_assoc_request (v : bool) (r : wlan) : wlan :=
  ltac:(set_field wlan_eta pending_assoc_request v r).
Definition set_reassoc_control (v : bool) (r : wlan) : wlan :=
  ltac:(set_field wlan_eta reassoc_control v r).
Definition set_reassoc_request (v : bool) (r : wlan) : wlan :=
  ltac:(set_field wlan_eta reassoc_request v r).
Definition set_reassoc_count (v : Z) (r : wlan) : wlan :=
  ltac:(set_field wlan_eta reassoc_count v r).
Definition set_hs_configured (v : bool) (r : wlan) : wlan :=
  ltac:(set_field wlan_eta hs_configured v r).
Definition set_hs_wakeup_condition (v : Z) (r : wlan) : wlan :=
  ltac:(set_field wlan_eta hs_wakeup_condition v r).
Definition set_hidden_scan_on (v : bool) (r : wlan) : wlan :=
  ltac:(set_field wlan_eta hidden_scan_on v r).
Definition set_same_ess (v : bool) (r : wlan) : wlan :=
  ltac:(set_field wlan_eta same_ess v r).
Definition set_bgscan_attempt (v : Z) (r : wlan) : wlan :=
  ltac:(set_field wlan_eta bgscan_attempt v r).
Definition set_roam_reassoc (v : bool) (r : wlan) : wlan :=
  ltac:(set_field wlan_eta roam_reassoc v r).
Definition set_connect_wakelock_taken (v : bool) (r : wlan) : wlan :=
  ltac:(set_field wlan_eta connect_wakelock_taken v r).
Definition set_g_req_sl_confirm (v : bool) (r : wlan) : wlan :=
  ltac:(set_field wlan_eta g_req_sl_confirm v r).
Definition set_ieee_ps_sleep_cb_sent (v : bool) (r : wlan) : wlan :=
  ltac:(set_field wlan_eta ieee_ps_sleep_cb_sent v r).
Definition set_wlan_uap_scan_chan_list_set (v : bool) (r : wlan) : wlan :=
  ltac:(set_field wlan_eta wlan_uap_scan_chan_list_set v r).
Definition set_uap_scan_chan_list (v : list Z) (r : wlan) : wlan :=
  ltac:(set_field wlan_eta uap_scan_chan_list v r).
Definition set_log (v : list action) (r : wlan) : wlan :=
  ltac:(set_field wlan_eta log v r).

(** What the API functions return. *)
Inductive result := WM_SUCCESS | WM_FAIL | WM_E_INVAL | WM_E_NOMEM | WLAN_ERROR_STATE | WLAN_ERROR_ACTION.

(** ** The monad of the handlers: they read and write [wlan] and may fault. *)
Definition CM (A : Type) : Type := wlan -> outcome (A * wlan).
#[export] Instance cm_ret : MRet CM := fun A a w => Ret (a, w).
#[export] Instance cm_bind : MBind CM := fun A B k m w => '(a, w1) ← m w; k a w1.

Definition get {A} (f : wlan -> A) : CM A := fun w => Ret (f w, w).
Definition upd (f : wlan -> wlan) : CM unit := fun w => Ret (tt, f w).
Definition lift {A} (m : outcome A) : CM A := fun w => a ← m; Ret (a, w).
Definition skip : CM unit := mret tt.
Definition when (b : bool) (m : CM unit) : CM unit := if b then m else skip.
Definition emit (a : action) : CM unit := upd (fun w => set_log (log w ++ [a]) w).

(** [wlan.networks[i]]. *)
Definition get_network (i : Z) : CM wlan_network := l ← get networks; lift (arr_get l i).
Definition put_network (i : Z) (n : wlan_network) : CM unit :=
  l ← get networks; l' ← lift (arr_set l i n); upd (set_networks l').
Definition upd_network (i : Z) (f : wlan_network -> wlan_network) : CM unit := n ← get_network i; put_network i (f n).
