(* ===== verification/Wlcm.v ===== *)
(** * The connection manager: operations

    The functions of [wlcmgr/wlan.c] on the data of [WlcmData]. A pointer to a
    network is its position in [wlan.networks]; [*next] is an argument and the
    result of a handler. The lower layers (driver, network stack, allocator) are
    the record [calls] of their answers during one message. *)
From S2P Require Import Prelude CString WlcmData.

Record calls := MkCalls {
  mem_ok : bool;                                        (* [os_mem_alloc] succeeds *)
  scan_cmd_ok : bool;                                   (* [wifi_send_scan_cmd] *)
  scan_results : option (list (option wifi_scan_result2));  (* [wifi_get_scan_result_count], [wifi_get_scan_result] *)
  channel_allowed : Z -> bool;                          (* [wifi_11d_is_channel_allowed] *)
  pmfcfg : bool * bool;                                 (* [wlan_get_pmfcfg] *)
  add_pmk_ok : bool; add_psk_ok : bool; add_password_ok : bool; set_key_ok : bool; clear_psk_ok : bool;
  assoc_ok : bool;                                      (* [wrapper_wifi_assoc] *)
  net_address_ok : bool;                                (* [net_configure_address] *)
  mlan_handle : bool;                                   (* [net_get_mlan_handle() != NULL] *)
  if_addr : ipv4_config -> ipv4_config;                 (* [net_get_if_addr] *)
  active_channel_list : Z -> list Z;                    (* [wifi_get_active_channel_list] *)
  uap_start_ok : bool; uap_stop_ok : bool;
  ecsa_enabled : bool; xfer_pending : bool; hs_cfg_ok : bool
}.

Section ConnectionManager.
Context (env : calls).

(** ** Queue, lock and callbacks *)
Definition connection_event (r : wlan_event_reason) : CM unit := b ← get cb; when b (emit (ConnectionEvent r)).

(** [os_queue_send(&wlan.events, msg, OS_NO_WAIT)]. *)
Definition wlan_wlcmgr_send_msg (m : wifi_message) : CM bool :=
  q ← get events;
  if bool_decide (length q < MAX_EVENTS)%nat then upd (set_events (q ++ [m]));; mret true else mret false.
Definition send_user_request (m : wifi_message) : CM bool := wlan_wlcmgr_send_msg m.

Definition release_scan_lock : CM unit := upd (set_scan_lock true);; upd (set_is_scan_lock false).

(** ** Queries of the state *)
Definition is_user_scanning (w : wlan) : bool := bool_decide (sta_state w = CM_STA_SCANNING_USER).
Definition is_state (s : cm_sta_state) (w : wlan) : bool :=
  if is_user_scanning w then bool_decide (sta_return_to w = s) else bool_decide (sta_state w = s).
Definition is_uap_state (s : cm_uap_state) (w : wlan) : bool := bool_decide (uap_state w = s).
Definition is_uap_started (w : wlan) : bool := is_uap_state CM_UAP_IP_UP w.
Definition is_sta_connected (w : wlan) : bool := bool_decide (sta_state w = CM_STA_CONNECTED).
Definition is_sta_ipv4_connected (w : wlan) : bool := bool_decide (sta_ipv4_state w = CM_STA_CONNECTED).
Definition is_running (w : wlan) : bool := running w && (sta_num (sta_state w) >=? sta_num CM_STA_IDLE).
Definition is_sta_connecting (w : wlan) : bool :=
  (sta_num (sta_state w) >? sta_num CM_STA_ASSOCIATING) && (sta_num (sta_state w) <=? sta_num CM_STA_CONNECTED).
Definition is_scanning_allowed (w : wlan) : bool := is_state CM_STA_IDLE w || is_state CM_STA_CONNECTED w.

Definition wlan_get_current_sta_network : CM (option wlan_network) :=
  b ← get (fun w => running w && (is_state CM_STA_CONNECTED w || is_state CM_STA_ASSOCIATED w));
  if b : bool then i ← get cur_network_idx; n ← get_network i; mret (Some n) else mret None.
Definition wlan_get_ipv4_addr : CM (option Z) :=
  n ← wlan_get_current_sta_network; mret (match n with Some n => Some (address (ipv4 n)) | None => None end).

(** ** Host sleep *)
Definition wlan_map_to_wifi_wakeup_condtions (c : Z) : Z :=
  foldr Z.lor 0 ((fun bit => if Z.land c bit =? 0 then 0 else bit) <$> [2; 1; 8; 16; 4; 64]).
Definition wlan_send_host_sleep_int (cond : Z) : CM bool :=
  upd (set_hs_configured false);;
  configured ← get hs_configured; old ← get hs_wakeup_condition;
  conflict ←
    (if configured : bool then
       if cond =? HOST_SLEEP_CFG_CANCEL then upd (set_hs_configured false);; upd (set_hs_wakeup_condition cond);; mret false
       else mret (negb (old =? wlan_map_to_wifi_wakeup_condtions cond))
     else
       upd (set_hs_configured true);; upd (set_hs_wakeup_condition (wlan_map_to_wifi_wakeup_condtions cond));; mret false);
  if conflict : bool then mret false
  else
    a ← wlan_get_ipv4_addr;
    match a with
    | None => mret false
    | Some ip =>
        t ← get (fun w => if is_uap_started w then WLAN_BSS_TYPE_UAP else WLAN_BSS_TYPE_STA);
        c ← get hs_wakeup_condition; emit (HostSleep t ip c);; mret (hs_cfg_ok env)
    end.
Definition wlan_host_sleep_and_sleep_confirm : CM unit :=
  if xfer_pending env then upd (set_g_req_sl_confirm true)
  else
    b ← get hs_configured; c ← get hs_wakeup_condition;
    stop ← (if b : bool then
              ok ← wlan_send_host_sleep_int c;
              up ← get (fun w => is_uap_started w || is_state CM_STA_CONNECTED w); mret (negb ok || negb up)
            else mret false);
    if stop : bool then upd (set_g_req_sl_confirm true)
    else upd (set_cm_ps_state PS_STATE_SLEEP_CFM);; emit (SleepConfirm WLAN_BSS_TYPE_STA);; upd (set_g_req_sl_confirm false).
Definition wlan_send_sleep_confirm : CM unit :=
  t ← get (fun w => if is_uap_started w then WLAN_BSS_TYPE_UAP else WLAN_BSS_TYPE_STA);
  upd (set_cm_ps_state PS_STATE_SLEEP_CFM);; emit (SleepConfirm t).

(** ** The power-save state machines *)
Definition ieeeps_switch (event : wlan_ieeeps_event) : CM wlan_ieeeps_state :=
  s ← get ieeeps_state; prev ← get ieeeps_prev_state; connected ← get (is_state CM_STA_CONNECTED);
  match s, event with
  | IEEEPS_INIT, IEEEPS_EVENT_ENABLE => emit (EnterPs WLAN_IEEE);; mret s
  | IEEEPS_INIT, IEEEPS_EVENT_ENABLE_DONE => mret IEEEPS_CONFIGURING
  | IEEEPS_CONFIGURING, IEEEPS_EVENT_AWAKE => mret IEEEPS_AWAKE
  | IEEEPS_CONFIGURING, IEEEPS_EVENT_SLEEP => mret IEEEPS_PRE_SLEEP
  | IEEEPS_CONFIGURING, IEEEPS_EVENT_DISABLE => mret IEEEPS_DISABLING
  | IEEEPS_AWAKE, IEEEPS_EVENT_ENTER => upd (set_cm_ps_state PS_STATE_AWAKE);; mret s
  | IEEEPS_AWAKE, IEEEPS_EVENT_SLEEP => mret IEEEPS_PRE_SLEEP
  | IEEEPS_AWAKE, IEEEPS_EVENT_DISABLE => mret IEEEPS_DISABLING
  | IEEEPS_PRE_SLEEP, (IEEEPS_EVENT_ENTER | IEEEPS_EVENT_SLEEP) => wlan_host_sleep_and_sleep_confirm;; mret s
  | IEEEPS_PRE_SLEEP, IEEEPS_EVENT_SLP_CFM => mret IEEEPS_SLEEP
  | IEEEPS_PRE_SLEEP, IEEEPS_EVENT_DISABLE => upd (set_g_req_sl_confirm false);; mret IEEEPS_DISABLING
  | IEEEPS_SLEEP, IEEEPS_EVENT_ENTER => upd (set_g_req_sl_confirm false);; mret s
  | IEEEPS_SLEEP, IEEEPS_EVENT_AWAKE => mret IEEEPS_AWAKE
  | IEEEPS_SLEEP, IEEEPS_EVENT_SLEEP => mret IEEEPS_PRE_SLEEP
  | IEEEPS_SLEEP, IEEEPS_EVENT_DISABLE => mret (if connected : bool then IEEEPS_PRE_DISABLE else IEEEPS_DISABLING)
  | IEEEPS_PRE_DISABLE, IEEEPS_EVENT_ENTER => mret IEEEPS_DISABLING
  | IEEEPS_DISABLING, IEEEPS_EVENT_ENTER =>
      when (bool_decide (prev = IEEEPS_CONFIGURING \/ prev = IEEEPS_AWAKE \/ prev = IEEEPS_SLEEP \/ prev = IEEEPS_PRE_DISABLE))
        (emit (ExitPs WLAN_IEEE));; mret s
  | IEEEPS_DISABLING, IEEEPS_EVENT_AWAKE => when (bool_decide (prev = IEEEPS_PRE_SLEEP)) (emit (ExitPs WLAN_IEEE));; mret s
  | IEEEPS_DISABLING, IEEEPS_EVENT_DISABLE_DONE => mret IEEEPS_INIT
  | _, _ => mret s
  end.
Fixpoint ieeeps_loop (fuel : nat) (event : wlan_ieeeps_event) : CM unit :=
  match fuel with
  | O => lift (Fault OutOfFuel)
  | S fuel' =>
      next ← ieeeps_switch event; s ← get ieeeps_state;
      if bool_decide (s = next) then skip
      else upd (set_ieeeps_prev_state s);; upd (set_ieeeps_state next);; ieeeps_loop fuel' IEEEPS_EVENT_ENTER
  end.
Definition wlan_ieeeps_sm (event : wlan_ieeeps_event) : CM unit := ieeeps_loop 4 event.

Definition deepsleepps_switch (event : wlan_deepsleepps_event) : CM wlan_deepsleepps_state :=
  s ← get deepsleepps_state;
  match s, event with
  | DEEPSLEEPPS_INIT, DEEPSLEEPPS_EVENT_ENABLE => emit (EnterPs WLAN_DEEP_SLEEP);; mret s
  | DEEPSLEEPPS_INIT, DEEPSLEEPPS_EVENT_ENABLE_DONE => mret DEEPSLEEPPS_CONFIGURING
  | DEEPSLEEPPS_CONFIGURING, DEEPSLEEPPS_EVENT_SLEEP => mret DEEPSLEEPPS_PRE_SLEEP
  | DEEPSLEEPPS_AWAKE, DEEPSLEEPPS_EVENT_ENTER => upd (set_cm_ps_state PS_STATE_AWAKE);; mret s
  | DEEPSLEEPPS_AWAKE, DEEPSLEEPPS_EVENT_SLEEP => mret DEEPSLEEPPS_PRE_SLEEP
  | DEEPSLEEPPS_PRE_SLEEP, DEEPSLEEPPS_EVENT_ENTER => wlan_send_sleep_confirm;; mret s
  | DEEPSLEEPPS_PRE_SLEEP, DEEPSLEEPPS_EVENT_SLP_CFM => upd (set_g_req_sl_confirm false);; mret DEEPSLEEPPS_SLEEP
  | DEEPSLEEPPS_SLEEP, DEEPSLEEPPS_EVENT_AWAKE => mret DEEPSLEEPPS_AWAKE
  | DEEPSLEEPPS_SLEEP, DEEPSLEEPPS_EVENT_DISABLE => mret DEEPSLEEPPS_PRE_DISABLE
  | DEEPSLEEPPS_PRE_DISABLE, DEEPSLEEPPS_EVENT_ENTER => mret DEEPSLEEPPS_DISABLING
  | DEEPSLEEPPS_DISABLING, DEEPSLEEPPS_EVENT_ENTER => emit (ExitPs WLAN_DEEP_SLEEP);; mret s
  | DEEPSLEEPPS_DISABLING, DEEPSLEEPPS_EVENT_DISABLE_DONE => mret DEEPSLEEPPS_INIT
  | _, _ => mret s
  end.
Fixpoint deepsleepps_loop (fuel : nat) (event : wlan_deepsleepps_event) : CM unit :=
  match fuel with
  | O => lift (Fault OutOfFuel)
  | S fuel' =>
      next ← deepsleepps_switch event; s ← get deepsleepps_state;
      if bool_decide (s = next) then skip
      else upd (set_deepsleepps_state next);; deepsleepps_loop fuel' DEEPSLEEPPS_EVENT_ENTER
  end.
Definition wlan_deepsleepps_sm (event : wlan_deepsleepps_event) : CM unit := deepsleepps_loop 4 event.

(** ** Matching scan results *)

(** [strncmp(a, b, n) == 0] on two buffers. *)
Fixpoint strncmp_buf (a b : list Z) (n : nat) : outcome bool :=
  match n, a, b with
  | O, _, _ => Ret true
  | S n', x :: a', y :: b' => if x =? y then if x =? 0 then Ret true else strncmp_buf a' b' n' else Ret false
  | _, _, _ => Fault OutOfBounds
  end.

(** [is_bssid_any] reads six bytes. *)
Definition is_bssid_any (b : list Z) : bool := forallb (Z.eqb 0) b.

Definition security_profile_matches (s : wlan_network_security) (r : wifi_scan_result2) : bool :=
  let m := WPA_WPA2_WEP r in
  match sec_type s with
  | WLAN_SECURITY_NONE => negb (wepStatic m || wpa2 m || wpa m)
  | WLAN_SECURITY_WEP_OPEN | WLAN_SECURITY_WEP_SHARED => negb (phtcap_ie_present r) && wepStatic m
  | WLAN_SECURITY_WPA_WPA2_MIXED => wpa m || wpa2 m
  | WLAN_SECURITY_WPA2 => wpa2 m || wpa2_sha256 m
  | WLAN_SECURITY_WPA => negb (wpa_ucst_tkip r) && wpa m
  | WLAN_SECURITY_WPA3_SAE => (fst (pmfcfg env) || snd (pmfcfg env)) && wpa3_sae m
  | WLAN_SECURITY_WPA2_WPA3_SAE_MIXED => (fst (pmfcfg env) || snd (pmfcfg env)) && (wpa3_sae m || wpa2 m)
  | WLAN_SECURITY_WPA2_SHA256 | WLAN_SECURITY_WILDCARD => false
  end.

(** The SSID test: the new channel list, and whether the SSID is the network's. *)
Definition ssid_matches (hidden_on : bool) (n : wlan_network) (r : wifi_scan_result2) (chans : list Z) : outcome (bool * list Z) :=
  hidden ← (if hidden_on then Ret false
            else z ← mem_read (replicate 32 0) 0 (res_ssid_len r); a ← mem_read (res_ssid r) 0 (res_ssid_len r);
                 Ret (bool_decide (z = a)));
  chans' ← (if hidden : bool then
              if Z.of_nat (length chans) <? MAX_SCAN_CHANNELS then Ret (chans ++ [res_Channel r]) else Fault OutOfBounds
            else Ret chans);
  if res_ssid_len r =? 0 then Ret (false, chans')
  else
    len ← strlen_list (ssid n);
    eq ← strncmp_buf (ssid n) (res_ssid r) (Z.to_nat (Z.max len (res_ssid_len r)));
    Ret (eq, chans').

Definition network_matches_scan_result (hidden_on : bool) (n : wlan_network) (r : wifi_scan_result2) (chans : list Z) :
    outcome (bool * list Z) :=
  if channel_specific n && negb (channel n =? res_Channel r) then Ret (false, chans)
  else if bssid_specific n && bool_decide (bssid n <> res_bssid r) then Ret (false, chans)
  else
    '(ok, chans') ← (if ssid_specific n then ssid_matches hidden_on n r chans else Ret (true, chans));
    let m := WPA_WPA2_WEP r in
    if negb ok then Ret (false, chans')
    else if security_specific n && negb (security_profile_matches (security n) r) then Ret (false, chans')
    else if negb (wepStatic m || wpa3_sae m || wpa2 m || wpa m || wpa2_sha256 m) &&
            (negb (psk_len (security n) =? 0) || negb (password_len (security n) =? 0)) then Ret (false, chans')
    else Ret (channel_allowed env (res_Channel r), chans').

(** The loop over the results: the best access point so far and the channels of
    hidden networks. [RSSI] is the magnitude of a negative power, so that the
    least is the best. *)
Fixpoint select_ap (hidden_on : bool) (n : wlan_network) (rs : list (option wifi_scan_result2))
    (best : option wifi_scan_result2) (chans : list Z) : outcome (option wifi_scan_result2 * list Z) :=
  match rs with
  | [] => Ret (best, chans)
  | None :: rs' => select_ap hidden_on n rs' best chans
  | Some r :: rs' =>
      '(ok, chans') ← network_matches_scan_result hidden_on n r chans;
      let best' := if ok : bool then
                     match best with
                     | None => Some r
                     | Some b => if res_RSSI b >? res_RSSI r then Some r else Some b
                     end
                   else best in
      select_ap hidden_on n rs' best' chans'
  end.

(** What a scan result adds to a network. *)
Definition wildcard_type (m : security_mode) : wlan_security_type :=
  if wpa3_sae m && wpa2 m then WLAN_SECURITY_WPA2_WPA3_SAE_MIXED
  else if wpa3_sae m then WLAN_SECURITY_WPA3_SAE
  else if wpa2 m then WLAN_SECURITY_WPA2
  else if wpa m then WLAN_SECURITY_WPA_WPA2_MIXED
  else if wepStatic m then WLAN_SECURITY_WEP_OPEN
  else WLAN_SECURITY_NONE.
Definition copy_wpa_ciphers (r : wifi_scan_result2) (s : wlan_network_security) : wlan_network_security :=
  let s := set_ucst_ccmp (wpa_ucst_ccmp r) (set_mcst_ccmp (wpa_mcst_ccmp r) s) in
  let s := if wpa_mcst_ccmp r then s else set_mcst_tkip (wpa_mcst_tkip r) s in
  if wpa_ucst_ccmp r then s else set_ucst_tkip (wpa_ucst_tkip r) s.
Definition copy_rsn_ciphers (r : wifi_scan_result2) (s : wlan_network_security) : wlan_network_security :=
  let s := set_ucst_ccmp (rsn_ucst_ccmp r) (set_mcst_ccmp (rsn_mcst_ccmp r) s) in
  let s := if rsn_mcst_ccmp r then s else set_mcst_tkip (rsn_mcst_tkip r) s in
  if rsn_ucst_ccmp r then s else set_ucst_tkip (rsn_ucst_tkip r) s.
Definition copy_ciphers (r : wifi_scan_result2) (s : wlan_network_security) : wlan_network_security :=
  match sec_type s with
  | WLAN_SECURITY_WPA =>
      set_ucst_ccmp (wpa_ucst_ccmp r) (set_mcst_ccmp (wpa_mcst_ccmp r)
        (set_ucst_tkip (wpa_ucst_tkip r) (set_mcst_tkip (wpa_mcst_tkip r) s)))
  | WLAN_SECURITY_WPA2 | WLAN_SECURITY_WPA_WPA2_MIXED =>
      let s := copy_rsn_ciphers r s in
      if rsn_mcst_tkip r || rsn_ucst_tkip r || rsn_mcst_ccmp r || rsn_ucst_ccmp r then s else copy_wpa_ciphers r s
  | _ => s
  end.
Definition update_network_params (i : Z) (r : wifi_scan_result2) : CM unit :=
  n ← get_network i;
  when (negb (security_specific n))
    (let t := wildcard_type (WPA_WPA2_WEP r) in
     upd_network i (upd_security (set_sec_type t));;
     when (bool_decide (t = WLAN_SECURITY_WPA2))
       (upd_network i (upd_security (set_mfpr false));; emit (SetPmf (mfpc (security n)) false)));;
  upd_network i (fun n => set_dot11ac (pvhtcap_ie_present r) (set_dot11n (phtcap_ie_present r) n));;
  when (negb (channel_specific n)) (upd_network i (set_channel (res_Channel r)));;
  when (negb (bssid_specific n)) (upd_network i (set_bssid (res_bssid r)));;
  when (negb (ssid_specific n))
    (a ← lift (mem_read (res_ssid r) 0 (res_ssid_len r));
     b ← lift (mem_write (ssid n) 0 a); upd_network i (set_ssid b));;
  upd_network i (fun n => upd_security (fun s => copy_ciphers r (set_is_pmf_required (res_is_pmf_required r) s))
    (set_dtim_period (u8 (res_dtim_period r)) (set_beacon_period (res_beacon_period r) n))).

(** ** Keys *)
Definition toupper (c : Z) : Z := if (97 <=? c) && (c <=? 122) then c - 32 else c.
Definition hex_digit (c : Z) : option Z :=
  if (48 <=? c) && (c <=? 57) then Some (c - 48)
  else if (65 <=? c) && (c <=? 70) then Some (c - 65 + 10)
  else None.
(** [hex2bin] in place, over the characters [s] of the input: its result (0 when
    a character is not a digit) and the buffer. *)
Fixpoint hex2bin_loop (s : list Z) (i j by_ : Z) (obuf : list Z) (max_olen : Z) : outcome (Z * list Z) :=
  match s with
  | [] => Ret (j + 1, obuf)
  | c :: s' =>
      if i =? 2 * max_olen then Ret (j + 1, obuf)
      else match hex_digit (toupper c) with
           | None => Ret (0, obuf)
           | Some d =>
               let b := u32 (by_ * 16 + d) in
               if i mod 2 =? 1 then
                 let j' := (i + 1) / 2 - 1 in
                 o ← arr_set obuf j' (u8 b); hex2bin_loop s' (i + 1) j' b o max_olen
               else hex2bin_loop s' (i + 1) j b obuf max_olen
           end
  end.
Definition hex2bin (buf : list Z) (max_olen : Z) : outcome (Z * list Z) :=
  len ← strlen_list buf; s ← mem_read buf 0 len; hex2bin_loop s 0 0 0 buf max_olen.
(** [load_wep_key] on [psk] itself: success, the buffer and the length. *)
Definition load_wep_key (buf : list Z) (len : Z) : outcome (bool * list Z * Z) :=
  let max_len := Z.of_nat (length buf) in
  if (len =? 10) || (len =? 26) then
    '(r, o) ← hex2bin buf max_len;
    if r =? 0 then Ret (false, o, len) else Ret (true, o, len / 2)
  else if (len =? 5) || (len =? 13) then if len >? max_len then Ret (false, buf, len) else Ret (true, buf, len)
  else Ret (false, buf, len).

Definition configure_security (i : Z) (r : wifi_scan_result2) : CM bool :=
  n ← get_network i;
  let s := security n in
  match sec_type s with
  | WLAN_SECURITY_WPA | WLAN_SECURITY_WPA2 | WLAN_SECURITY_WPA_WPA2_MIXED =>
      emit (AddKey (sec_type s));; mret (if pmk_valid s then add_pmk_ok env else add_psk_ok env)
  | WLAN_SECURITY_WPA3_SAE | WLAN_SECURITY_WPA2_WPA3_SAE_MIXED =>
      if wpa3_sae (WPA_WPA2_WEP r) then emit (AddKey (sec_type s));; mret (add_password_ok env)
      else if wpa2 (WPA_WPA2_WEP r) then emit (AddKey (sec_type s));; mret (add_psk_ok env)
      else mret true
  | WLAN_SECURITY_WEP_OPEN | WLAN_SECURITY_WEP_SHARED =>
      '(ok, p, l) ← lift (load_wep_key (psk s) (psk_len s));
      upd_network i (upd_security (fun s => set_psk_len l (set_psk p s)));;
      if ok : bool then emit (AddKey (sec_type s));; mret (set_key_ok env) else mret false
  | WLAN_SECURITY_NONE | WLAN_SECURITY_WPA2_SHA256 | WLAN_SECURITY_WILDCARD => mret true
  end.

(** ** Scanning and connecting *)
Definition scan_bssid (n : wlan_network) : list Z := if bssid_specific n then bssid n else [].
Definition scan_ssid (n : wlan_network) : list Z := if ssid_specific n then ssid n else [].
Definition do_scan (i : Z) : CM unit :=
  n ← get_network i;
  let channel := if channel_specific n then channel n else 0 in
  upd (set_sta_state CM_STA_SCANNING);;
  emit (SendScan (scan_bssid n) (scan_ssid n) (if channel =? 0 then [] else [u8 channel]));;
  if scan_cmd_ok env then c ← get scan_count; upd (set_scan_count (u32 (c + 1)))
  else _ ← wlan_wlcmgr_send_msg (WIFI_EVENT_SCAN_RESULT false); skip.
Definition do_hidden_scan (i : Z) (chans : list Z) : CM unit :=
  n ← get_network i;
  upd (set_sta_state CM_STA_SCANNING);;
  emit (SendScan (scan_bssid n) (scan_ssid n) chans);;
  if scan_cmd_ok env then skip else _ ← wlan_wlcmgr_send_msg (WIFI_EVENT_SCAN_RESULT false); skip.
Definition do_connect (i : Z) : CM bool :=
  n ← get_network i;
  if negb (role n =? WLAN_BSS_ROLE_STA) then mret false
  else upd (set_cur_network_idx i);; upd (set_scan_count 0);; do_scan i;; mret true.
Definition do_connect_failed (reason : wlan_event_reason) : CM unit :=
  b ← get is_user_scanning;
  when b (upd (set_sta_return_to CM_STA_IDLE));;
  upd (set_sta_state CM_STA_IDLE);; connection_event reason.
Definition report_scan_results : CM unit :=
  k ← get scan_cb;
  match k with None => skip | Some k => emit (ScanCallback k);; upd (set_scan_cb None) end.
Definition start_association (i : Z) (r : wifi_scan_result2) : CM bool :=
  upd (set_roam_reassoc false);;
  ok ← configure_security i r;
  if negb ok then do_connect_failed WLAN_REASON_NETWORK_NOT_FOUND;; mret false
  else
    n ← get_network i;
    emit (Associate (res_bssid r) (sec_type (security n)));;
    if assoc_ok env then mret true else do_connect_failed WLAN_REASON_NETWORK_NOT_FOUND;; mret false.

Definition wlan_disconnect : CM result :=
  b ← get running;
  if negb b then mret WLAN_ERROR_STATE else _ ← send_user_request CM_STA_USER_REQUEST_DISCONNECT; mret WM_SUCCESS.

(** [network] is the network of the message, [i] the one asked for. *)
Definition wlcm_request_connect (i network : Z) : CM cm_sta_state :=
  n ← get_network i;
  emit (SetPmf (mfpc (security n)) (mfpr (security n)));;
  associated ← get (fun w => negb (roam_reassoc w) && (sta_num (sta_state w) >=? sta_num CM_STA_ASSOCIATING));
  when (associated && (role n =? WLAN_BSS_ROLE_STA)) (old ← get_network network; emit (Deauthenticate (bssid old)));;
  ok ← do_connect i;
  when (negb ok)
    (l ← get is_scan_lock; when l release_scan_lock;; connection_event WLAN_REASON_CONNECT_FAILED);;
  get sta_state.
Definition wlcm_request_reconnect (next : cm_sta_state) (network : Z) : CM cm_sta_state :=
  upd (set_reassoc_request true);;
  c ← get reassoc_count;
  if c <? WLAN_RECONNECT_LIMIT then
    upd (set_reassoc_count (u32 (c + 1)));; i ← get cur_network_idx; wlcm_request_connect i network
  else
    upd (set_reassoc_request false);; upd (set_reassoc_count 0);;
    connection_event WLAN_REASON_CONNECT_FAILED;; _ ← wlan_disconnect; mret next.
(** [if (wlan.reassoc_control) wlcm_request_reconnect(next, network);] *)
Definition maybe_reconnect (next : cm_sta_state) (network : Z) : CM cm_sta_state :=
  b ← get reassoc_control; if b : bool then wlcm_request_reconnect next network else mret next.

(** The end of [handle_scan_results], when no association was started. *)
Definition scan_again (network : Z) : CM unit :=
  roam ← get roam_reassoc;
  if roam : bool then upd (set_sta_state CM_STA_CONNECTED);; upd (set_roam_reassoc false)
  else
    c ← get scan_count;
    if c <? WLAN_RESCAN_LIMIT then upd (set_hidden_scan_on false);; do_scan network
    else
      do_connect_failed WLAN_REASON_NETWORK_NOT_FOUND;;
      s ← get sta_state; _ ← maybe_reconnect s network; skip.
Definition handle_scan_results : CM unit :=
  network ← get cur_network_idx;
  if negb (mem_ok env) then skip
  else
    upd (set_sta_state CM_STA_ASSOCIATING);;
    n ← get_network network;
    hidden_on ← get hidden_scan_on;
    '(best, chans) ← lift (select_ap hidden_on n (default [] (scan_results env)) None []);
    match best with
    | Some r =>
        roam ← get roam_reassoc;
        if roam && bool_decide (bssid n = res_bssid r) then
          upd (set_sta_state CM_STA_CONNECTED);; upd (set_roam_reassoc false)
        else
          upd (set_same_ess false);;
          update_network_params network r;;
          ok ← start_association network r;
          if ok : bool then skip else scan_again network
    | None =>
        if bool_decide (chans <> []) then upd (set_hidden_scan_on true);; do_hidden_scan network chans
        else scan_again network
    end.

(** ** Power save requests and events *)
Definition wlan_disable_power_save (action : Z) : CM unit :=
  if action =? WLAN_DEEP_SLEEP then emit (ExitPs WLAN_DEEP_SLEEP)
  else if action =? WLAN_IEEE then emit (ExitPs WLAN_IEEE)
  else skip.
Definition wlan_enable_power_save (action : Z) : CM unit :=
  if action =? WLAN_DEEP_SLEEP then upd (set_cm_deepsleepps_configured true);; emit (EnterPs WLAN_DEEP_SLEEP)
  else if action =? WLAN_IEEE then upd (set_cm_ieeeps_configured true);; emit (EnterPs WLAN_IEEE)
  else skip.
Definition wlcm_process_awake_event : CM unit :=
  upd (set_cm_ps_state PS_STATE_AWAKE);; wlan_ieeeps_sm IEEEPS_EVENT_AWAKE;; wlan_deepsleepps_sm DEEPSLEEPPS_EVENT_AWAKE.
Definition wlcm_process_ieeeps_event (ok : bool) (action : Z) : CM unit :=
  if negb ok then skip
  else if action =? DIS_AUTO_PS then
    upd (set_cm_ieeeps_configured false);; upd (set_ieee_ps_sleep_cb_sent false);; connection_event WLAN_REASON_PS_EXIT
  else if action =? SLEEP_CONFIRM then
    sent ← get ieee_ps_sleep_cb_sent;
    when (negb sent) (connection_event WLAN_REASON_PS_ENTER;; upd (set_ieee_ps_sleep_cb_sent true))
  else skip.
Definition wlcm_process_deepsleep_event (ok : bool) (action : Z) : CM unit :=
  if negb ok then skip
  else if action =? DIS_AUTO_PS then
    upd (set_cm_deepsleepps_configured false);;
    b ← get skip_ds_exit_cb;
    if b : bool then upd (set_skip_ds_exit_cb false) else connection_event WLAN_REASON_PS_EXIT
  else if action =? SLEEP_CONFIRM then connection_event WLAN_REASON_PS_ENTER
  else skip.
Definition wlcm_process_hs_config_event : CM unit :=
  a ← wlan_get_ipv4_addr;
  match a with
  | None => skip
  | Some ip => t ← get (fun w => if is_uap_started w then WLAN_BSS_TYPE_UAP else WLAN_BSS_TYPE_STA); emit (HostSleep t ip 0)
  end.

(** ** Station events *)
Definition wlcm_process_scan_result_event (ok : bool) (next : cm_sta_state) : CM cm_sta_state :=
  s ← get sta_state; roam ← get roam_reassoc;
  match s with
  | CM_STA_SCANNING => handle_scan_results;; n ← get sta_state; release_scan_lock;; mret n
  | CM_STA_SCANNING_USER => report_scan_results;; n ← get sta_return_to; release_scan_lock;; mret n
  | CM_STA_CONNECTED => if roam : bool then handle_scan_results;; get sta_state else release_scan_lock;; mret next
  | _ => release_scan_lock;; mret next
  end.

(** The reconnect counters are reset once the station is connected. *)
Definition connected_at_last : CM unit :=
  b ← get (fun w => reassoc_control w && reassoc_request w);
  when b (upd (set_reassoc_count 0);; upd (set_reassoc_request false));; connection_event WLAN_REASON_SUCCESS.
Definition update_address (i : Z) : CM unit := upd_network i (fun n => set_ipv4 (if_addr env (ipv4 n)) n).

Definition wlcm_process_sta_addr_config_event (ok : bool) (next : cm_sta_state) (network : Z) : CM cm_sta_state :=
  requesting ← get (is_state CM_STA_REQUESTING_ADDRESS);
  if negb requesting then upd (set_connect_wakelock_taken false);; mret next
  else if negb ok then do_connect_failed WLAN_REASON_ADDRESS_FAILED;; get sta_state
  else
    n ← get_network network;
    if addr_type (ipv4 n) =? ADDR_TYPE_STATIC then
      emit (ConfigureDns (role n));; update_address network;;
      upd (set_sta_state CM_STA_CONNECTED);; upd (set_connect_wakelock_taken false);;
      upd (set_sta_ipv4_state CM_STA_CONNECTED);; connected_at_last;; mret CM_STA_CONNECTED
    else if (addr_type (ipv4 n) =? ADDR_TYPE_DHCP) || (addr_type (ipv4 n) =? ADDR_TYPE_LLA) then
      upd (set_sta_ipv4_state CM_STA_OBTAINING_ADDRESS);; mret CM_STA_OBTAINING_ADDRESS
    else mret next.

Definition wlcm_process_channel_switch_ann (next : cm_sta_state) (network : Z) : CM cm_sta_state :=
  connected ← get (is_state CM_STA_CONNECTED);
  if negb (ecsa_enabled env) && connected then
    n ← get_network network;
    emit (Deauthenticate (bssid n));; upd (set_sta_state CM_STA_IDLE);; connection_event WLAN_REASON_CHAN_SWITCH;;
    mret CM_STA_IDLE
  else mret next.
Definition wlcm_process_channel_switch (data : option Z) : CM unit :=
  match data with
  | Some ch =>
      if ecsa_enabled env then
        uap ← get is_uap_started;
        when uap (i ← get cur_uap_network_idx; upd_network i (set_channel ch));;
        sta ← get is_sta_connected;
        when sta (i ← get cur_network_idx; upd_network i (set_channel ch);; emit (SetBssChannel ch))
      else skip
  | None => skip
  end.

(** The three block-ack messages are passed on while there is a link. *)
Definition process_block_ack (m : wifi_message) : CM unit :=
  b ← get (fun w => is_state CM_STA_ASSOCIATED w || is_state CM_STA_REQUESTING_ADDRESS w ||
                    is_state CM_STA_OBTAINING_ADDRESS w || is_state CM_STA_CONNECTED w || is_uap_started w);
  when b (emit (BlockAck m)).

Definition wlcm_process_association_event (ok : bool) (next : cm_sta_state) : CM cm_sta_state :=
  associating ← get (is_state CM_STA_ASSOCIATING);
  if negb associating then mret next
  else if ok then upd (set_sta_state CM_STA_ASSOCIATED);; upd (set_scan_count 0);; mret CM_STA_ASSOCIATED
  else
    c ← get scan_count;
    if c <? WLAN_RESCAN_LIMIT then i ← get cur_network_idx; do_scan i;; mret CM_STA_SCANNING
    else
      do_connect_failed WLAN_REASON_NETWORK_NOT_FOUND;;
      i ← get cur_network_idx; _ ← maybe_reconnect next i; get sta_state.

Definition wlcm_process_pmk_event (data : option (list Z)) (network : Z) : CM unit :=
  match data with
  | None => skip
  | Some k =>
      upd_network network (upd_security (fun s => set_pmk k (set_pmk_valid true s)));;
      n ← get_network network; when (role n =? WLAN_BSS_ROLE_STA) (emit (AddKey (sec_type (security n))))
  end.

Definition wlcm_process_authentication_event (ok : bool) (code : Z) (next : cm_sta_state) (network : Z) : CM cm_sta_state :=
  relevant ← get (fun w => is_state CM_STA_ASSOCIATING w || is_state CM_STA_ASSOCIATED w ||
                           is_state CM_STA_REQUESTING_ADDRESS w || is_state CM_STA_OBTAINING_ADDRESS w ||
                           is_state CM_STA_CONNECTED w);
  if negb relevant then upd (set_connect_wakelock_taken false);; mret next
  else if ok then
    n ← get_network network;
    connection_event WLAN_REASON_AUTH_SUCCESS;; upd (set_bgscan_attempt 0);;
    same ← get same_ess;
    if same : bool then
      update_address network;;
      upd (set_sta_state CM_STA_CONNECTED);; upd (set_sta_ipv4_state CM_STA_CONNECTED);; connected_at_last;;
      mret CM_STA_CONNECTED
    else
      emit (ConfigureAddress (bss_type n) (ipv4 n));;
      if net_address_ok env then upd (set_sta_ipv4_state CM_STA_REQUESTING_ADDRESS);; mret CM_STA_REQUESTING_ADDRESS
      else do_connect_failed WLAN_REASON_ADDRESS_FAILED;; get sta_state
  else
    when (code =? IEEEtypes_REASON_MIC_FAILURE) (upd (set_assoc_paused true);; emit StartAssocTimer);;
    addressing ← get (fun w => is_state CM_STA_REQUESTING_ADDRESS w || is_state CM_STA_OBTAINING_ADDRESS w);
    when addressing (n ← get_network network; when ((bss_type n =? WLAN_BSS_TYPE_STA) && mlan_handle env) (emit InterfaceDown));;
    associated ← get (is_state CM_STA_ASSOCIATED);
    when associated (n ← get_network network; emit (Deauthenticate (bssid n)));;
    upd (set_sta_state CM_STA_IDLE);; upd (set_sta_ipv4_state CM_STA_IDLE);;
    do_connect_failed WLAN_REASON_NETWORK_AUTH_FAILED;; maybe_reconnect CM_STA_IDLE network.

Definition wlcm_process_link_loss_event (code : Z) (next : cm_sta_state) (network : Z) : CM cm_sta_state :=
  idle ← get (is_state CM_STA_IDLE);
  if idle : bool then mret next
  else
    n ← get_network network;
    when ((bss_type n =? WLAN_BSS_TYPE_STA) && mlan_handle env) (emit InterfaceDown);;
    connected ← get (is_state CM_STA_CONNECTED);
    next' ←
      (if connected : bool then
         upd (set_sta_state CM_STA_IDLE);; upd (set_sta_ipv4_state CM_STA_IDLE);;
         next1 ← (if code =? IEEEtypes_REASON_MIC_FAILURE then _ ← wlan_disconnect; mret CM_STA_IDLE else mret next);
         connection_event WLAN_REASON_LINK_LOST;;
         user ← get is_user_scanning;
         if user : bool then upd (set_sta_return_to CM_STA_IDLE);; mret next1 else mret CM_STA_IDLE
       else
         emit StopDhcpTimer;;
         do_connect_failed (if code =? IEEEtypes_REASON_4WAY_HANDSHK_TIMEOUT then WLAN_REASON_NETWORK_AUTH_FAILED
                            else WLAN_REASON_NETWORK_NOT_FOUND);;
         get sta_state);
    maybe_reconnect next' network.

Definition wlcm_process_disassoc_event (network : Z) : CM cm_sta_state :=
  upd (set_sta_state CM_STA_IDLE);;
  user ← get is_user_scanning; when user (upd (set_sta_return_to CM_STA_IDLE));;
  do_connect_failed WLAN_REASON_NETWORK_AUTH_FAILED;; maybe_reconnect CM_STA_IDLE network.

Definition wlcm_process_net_dhcp_config (ok : bool) (next : cm_sta_state) (network : Z) : CM cm_sta_state :=
  ipv4_state ← get sta_ipv4_state;
  if bool_decide (ipv4_state = CM_STA_OBTAINING_ADDRESS) then
    upd (set_connect_wakelock_taken false);;
    if negb ok then do_connect_failed WLAN_REASON_ADDRESS_FAILED;; _ ← maybe_reconnect next network; get sta_state
    else
      n ← get_network network;
      emit StopDhcpTimer;; emit (ConfigureDns (role n));; update_address network;;
      upd (set_sta_state CM_STA_CONNECTED);; upd (set_sta_ipv4_state CM_STA_CONNECTED);; connected_at_last;;
      mret CM_STA_CONNECTED
  else if negb ok then
    if bool_decide (ipv4_state = CM_STA_CONNECTED) then
      do_connect_failed WLAN_REASON_ADDRESS_FAILED;; _ ← maybe_reconnect next network; get sta_state
    else mret next
  else update_address network;; connection_event WLAN_REASON_ADDRESS_SUCCESS;; mret next.

Definition wlcm_process_net_if_config_event (ok : bool) (next : cm_sta_state) : CM cm_sta_state :=
  s ← get sta_state;
  if bool_decide (s <> CM_STA_INITIALIZING) then mret next
  else if negb ok then connection_event WLAN_REASON_INITIALIZATION_FAILED;; mret CM_STA_INITIALIZING
  else upd (set_sta_state CM_STA_IDLE);; emit InitInterface;; mret CM_STA_IDLE.

(** ** User requests of the station *)
Definition wlcm_request_scan (p : option wlan_scan_params_v2_t) (next : cm_sta_state) : CM cm_sta_state :=
  match p with
  | None => release_scan_lock;; mret next
  | Some p =>
      allowed ← get is_scanning_allowed;
      if negb allowed then release_scan_lock;; mret next
      else
        emit (SendScan (scan_params_bssid p) (scan_params_ssid p) []);;
        if scan_cmd_ok env then
          upd (set_scan_cb (Some (scan_params_cb p)));; s ← get sta_state; upd (set_sta_return_to s);;
          mret CM_STA_SCANNING_USER
        else s ← get sta_state; release_scan_lock;; mret s
  end.

Definition wlcm_request_disconnect (next : cm_sta_state) (network : Z) : CM cm_sta_state :=
  n ← get_network network;
  if negb ((bss_type n =? WLAN_BSS_TYPE_STA) && mlan_handle env) then mret next
  else
    emit StopDhcpTimer;; emit InterfaceDown;;
    down ← get (fun w => (sta_num (sta_state w) <? sta_num CM_STA_IDLE) || is_state CM_STA_IDLE w);
    if down : bool then mret next
    else
      user ← get (fun w => is_user_scanning w && bool_decide (sta_return_to w <> CM_STA_IDLE));
      ret ← get sta_return_to; s ← get sta_state;
      next' ←
        (if user : bool then
           if sta_num ret >=? sta_num CM_STA_ASSOCIATING then
             emit (Deauthenticate (bssid n));; upd (set_sta_return_to CM_STA_IDLE);; upd (set_sta_ipv4_state CM_STA_IDLE);;
             mret CM_STA_IDLE
           else mret next
         else if sta_num s >=? sta_num CM_STA_ASSOCIATING then
           emit (Deauthenticate (bssid n));;
           l ← get is_scan_lock; when l release_scan_lock;;
           upd (set_sta_state CM_STA_IDLE);; upd (set_sta_ipv4_state CM_STA_IDLE);; mret CM_STA_IDLE
         else if bool_decide (s = CM_STA_SCANNING) then
           upd (set_sta_state CM_STA_IDLE);; upd (set_sta_ipv4_state CM_STA_IDLE);; mret CM_STA_IDLE
         else mret next);
      connection_event WLAN_REASON_USER_DISCONNECT;;
      b ← get (fun w => reassoc_control w && reassoc_request w);
      when b (upd (set_scan_count WLAN_RESCAN_LIMIT);; upd (set_reassoc_count WLAN_RECONNECT_LIMIT);;
              upd (set_reassoc_request false));;
      upd (set_connect_wakelock_taken false);; mret next'.

(** The end of a background scan asks for another round of roaming. *)
Definition wifi_process_bg_scan_stopped : CM unit :=
  b ← get (fun w => roam_reassoc w && (bgscan_attempt w <? BG_SCAN_LIMIT));
  if b : bool then
    upd (fun w => set_bgscan_attempt (bgscan_attempt w + 1) w);; upd (set_roam_reassoc false);;
    _ ← wlan_wlcmgr_send_msg WIFI_EVENT_RSSI_LOW; skip
  else
    upd (set_bgscan_attempt 0);; upd (set_roam_reassoc false);; connection_event WLAN_REASON_BGSCAN_NETWORK_NOT_FOUND.

(** ** The access point *)
Definition wlan_uap_set_scan_chan_list (l : list Z) : CM unit :=
  upd (set_wlan_uap_scan_chan_list_set true);; upd (set_uap_scan_chan_list l).
Definition do_start (i : Z) : CM bool :=
  n ← get_network i;
  if negb (role n =? WLAN_BSS_ROLE_UAP) then mret true
  else
    u ← get cur_uap_network_idx; un ← get_network u;
    let active := active_channel_list env (acs_band un) in
    allowed ←
      (if negb (channel_specific n) then
         upd_network i (set_channel UAP_DEFAULT_CHANNEL);;
         sta ← get (fun w => running w && (is_state CM_STA_CONNECTED w || is_state CM_STA_ASSOCIATED w));
         given ← get wlan_uap_scan_chan_list_set;
         (if sta : bool then c ← get cur_network_idx; cn ← get_network c; upd_network i (set_channel (channel cn))
          else when (negb given && bool_decide (active <> [])) (wlan_uap_set_scan_chan_list active));;
         mret true
       else
         if existsb (Z.eqb (channel n)) active then mret true
         else connection_event WLAN_REASON_UAP_START_FAILED;; mret false);
    if negb allowed then mret false
    else
      n' ← get_network i;
      emit (UapStart (channel n'));;
      if uap_start_ok env then upd (set_uap_state CM_UAP_CONFIGURED);; mret true
      else connection_event WLAN_REASON_UAP_START_FAILED;; mret false.
Definition do_stop (i : Z) : CM bool :=
  n ← get_network i;
  if negb (role n =? WLAN_BSS_ROLE_UAP) then mret true
  else
    emit UapStop;;
    if uap_stop_ok env then upd (set_uap_state CM_UAP_INITIALIZING);; mret true
    else connection_event WLAN_REASON_UAP_STOP_FAILED;; mret false.

Definition uap_num (s : cm_uap_state) : Z :=
  match s with CM_UAP_INITIALIZING => 0 | CM_UAP_CONFIGURED => 1 | CM_UAP_STARTED => 2 | CM_UAP_IP_UP => 3 end.
Definition uap_state_machine (m : wifi_message) : CM cm_uap_state :=
  network ← get cur_uap_network_idx; next ← get uap_state;
  match m with
  | CM_UAP_USER_REQUEST_START i =>
      upd (set_cur_uap_network_idx i);; upd (set_scan_count 0);; _ ← do_start i; get uap_state
  | CM_UAP_USER_REQUEST_STOP _ =>
      if uap_num next <? uap_num CM_UAP_CONFIGURED then mret next else _ ← do_stop network; get uap_state
  | WIFI_EVENT_UAP_STARTED ok =>
      if bool_decide (next <> CM_UAP_CONFIGURED) then mret next
      else if ok then
        mac ← get uap_mac; n ← get_network network;
        when (bss_type n =? WLAN_BSS_TYPE_UAP) (upd_network network (set_bssid mac));;
        emit (ConfigureAddress (bss_type n) (ipv4 n));;
        if net_address_ok env then mret CM_UAP_STARTED
        else connection_event WLAN_REASON_ADDRESS_FAILED;; mret next
      else connection_event WLAN_REASON_UAP_START_FAILED;; mret next
  | WIFI_EVENT_UAP_CLIENT_ASSOC => connection_event WLAN_REASON_UAP_CLIENT_ASSOC;; mret next
  | WIFI_EVENT_UAP_CLIENT_CONN => connection_event WLAN_REASON_UAP_CLIENT_CONN;; mret next
  | WIFI_EVENT_UAP_CLIENT_DEAUTH => connection_event WLAN_REASON_UAP_CLIENT_DISSOC;; mret next
  | WIFI_EVENT_UAP_STOPPED => connection_event WLAN_REASON_UAP_STOPPED;; mret next
  | WIFI_EVENT_UAP_NET_ADDR_CONFIG ok =>
      if bool_decide (next <> CM_UAP_STARTED) then mret next
      else
        n ← get_network network;
        if ok && (addr_type (ipv4 n) =? ADDR_TYPE_STATIC) then
          update_address network;; connection_event WLAN_REASON_UAP_SUCCESS;; mret CM_UAP_IP_UP
        else connection_event WLAN_REASON_ADDRESS_FAILED;; mret CM_UAP_INITIALIZING
  | _ => mret next
  end.

(** ** The main thread *)
Definition handle_message (m : wifi_message) : CM cm_sta_state :=
  network ← get cur_network_idx; next ← get sta_state;
  match m with
  | CM_STA_USER_REQUEST_CONNECT i =>
      upd (set_pending_assoc_request false);;
      paused ← get assoc_paused;
      if negb paused then wlcm_request_connect i network else upd (set_pending_assoc_request true);; mret next
  | CM_STA_USER_REQUEST_DISCONNECT => wlcm_request_disconnect next network
  | CM_STA_USER_REQUEST_SCAN p => wlcm_request_scan p next
  | CM_STA_USER_REQUEST_HS c => _ ← wlan_send_host_sleep_int c; mret next
  | CM_STA_USER_REQUEST_PS_ENTER mode =>
      busy ← get (fun w => (sta_num (sta_state w) >=? sta_num CM_STA_SCANNING) &&
                           (sta_num (sta_state w) <=? sta_num CM_STA_OBTAINING_ADDRESS));
      (if busy || (mode =? 0) then skip else wlan_enable_power_save mode);; mret next
  | CM_STA_USER_REQUEST_PS_EXIT mode => (if mode =? 0 then skip else wlan_disable_power_save mode);; mret next
  | WIFI_EVENT_SCAN_RESULT ok => wlcm_process_scan_result_event ok next
  | WIFI_EVENT_ASSOCIATION ok => wlcm_process_association_event ok next
  | WIFI_EVENT_PMK data => wlcm_process_pmk_event data network;; mret next
  | WIFI_EVENT_AUTHENTICATION ok code => wlcm_process_authentication_event ok code next network
  | WIFI_EVENT_LINK_LOSS code => wlcm_process_link_loss_event code next network
  | WIFI_EVENT_RSSI_LOW => connection_event WLAN_REASON_RSSI_LOW;; mret next
  | WIFI_EVENT_DISASSOCIATION => wlcm_process_disassoc_event network
  | WIFI_EVENT_DEAUTHENTICATION => mret next
  | WIFI_EVENT_NET_STA_ADDR_CONFIG ok => wlcm_process_sta_addr_config_event ok next network
  | WIFI_EVENT_GET_HW_SPEC => connection_event WLAN_REASON_INITIALIZED;; mret next
  | WIFI_EVENT_NET_INTERFACE_CONFIG ok => wlcm_process_net_if_config_event ok next
  | WIFI_EVENT_NET_DHCP_CONFIG ok => wlcm_process_net_dhcp_config ok next network
  | WIFI_EVENT_CHAN_SWITCH_ANN => wlcm_process_channel_switch_ann next network
  | WIFI_EVENT_CHAN_SWITCH data => wlcm_process_channel_switch data;; mret next
  | WIFI_EVENT_SLEEP => emit (SleepConfirm WLAN_BSS_TYPE_STA);; mret next
  | WIFI_EVENT_AWAKE => wlcm_process_awake_event;; mret next
  | WIFI_EVENT_IEEE_PS ok mode => wlcm_process_ieeeps_event ok mode;; mret next
  | WIFI_EVENT_DEEP_SLEEP ok mode => wlcm_process_deepsleep_event ok mode;; mret next
  | WIFI_EVENT_HS_CONFIG => b ← get hs_configured; when b wlcm_process_hs_config_event;; mret next
  | WIFI_EVENT_11N_ADDBA | WIFI_EVENT_11N_DELBA | WIFI_EVENT_11N_BA_STREAM_TIMEOUT => process_block_ack m;; mret next
  | WIFI_EVENT_STA_MAC_ADDR_CONFIG (Some a) => upd (set_sta_mac a);; mret next
  | WIFI_EVENT_UAP_MAC_ADDR_CONFIG (Some a) => upd (set_uap_mac a);; mret next
  | WIFI_EVENT_BG_SCAN_STOPPED => wifi_process_bg_scan_stopped;; mret next
  | WIFI_EVENT_BG_SCAN_REPORT => emit ScanQuery;; mret next
  | WIFI_EVENT_MGMT_FRAME => emit ProcessMgmtFrame;; get sta_state
  | _ => mret next
  end.

Definition is_uap_msg (m : wifi_message) : bool :=
  match m with
  | CM_UAP_USER_REQUEST_START _ | CM_UAP_USER_REQUEST_STOP _ | WIFI_EVENT_UAP_STARTED _ | WIFI_EVENT_UAP_CLIENT_ASSOC
  | WIFI_EVENT_UAP_CLIENT_CONN | WIFI_EVENT_UAP_CLIENT_DEAUTH | WIFI_EVENT_UAP_NET_ADDR_CONFIG _
  | WIFI_EVENT_UAP_STOPPED => true
  | _ => false
  end.

(** One turn of the loop of [cm_main]: with a message, and without one after the
    delay for the sleep confirmation. *)
Definition cm_main_message (m : wifi_message) : CM unit :=
  if is_uap_msg m then next ← uap_state_machine m; upd (set_uap_state next)
  else next ← handle_message m; upd (set_sta_state next).
Definition cm_main_timeout : CM unit :=
  connected ← get (is_state CM_STA_CONNECTED);
  if negb connected then skip else b ← get g_req_sl_confirm; when b (wlan_ieeeps_sm IEEEPS_EVENT_SLEEP).

(** The expiry of the timer started after a failed message integrity check. *)
Definition assoc_timer_cb : CM unit :=
  upd (set_assoc_paused false);;
  b ← get pending_assoc_request;
  when b (_ ← send_user_request (CM_STA_USER_REQUEST_CONNECT 0); skip).

(** ** The API: networks *)
Definition isHexNumber (s : list Z) (len : Z) : outcome bool :=
  c ← mem_read s 0 len;
  Ret (forallb (fun c => ((48 <=? c) && (c <=? 57)) || ((65 <=? c) && (c <=? 70)) || ((97 <=? c) && (c <=? 102))) c).
Definition psk_valid (s : wlan_network_security) : outcome bool :=
  if (psk_len s <? WLAN_PSK_MIN_LENGTH) || (psk_len s >=? WLAN_PSK_MAX_LENGTH) then Ret false
  else if psk_len s =? WLAN_PSK_MAX_LENGTH - 1 then isHexNumber (psk s) (psk_len s)
  else Ret true.
Definition password_valid (s : wlan_network_security) : bool :=
  (WLAN_PASSWORD_MIN_LENGTH <=? password_len s) && (password_len s <=? WLAN_PASSWORD_MAX_LENGTH).
Definition wlan_is_key_valid (s : wlan_network_security) : outcome bool :=
  match sec_type s with
  | WLAN_SECURITY_WPA | WLAN_SECURITY_WPA2 | WLAN_SECURITY_WPA_WPA2_MIXED | WLAN_SECURITY_WPA2_SHA256 => psk_valid s
  | WLAN_SECURITY_WPA2_WPA3_SAE_MIXED => b ← psk_valid s; Ret (b && password_valid s)
  | WLAN_SECURITY_WPA3_SAE => Ret (password_valid s)
  | WLAN_SECURITY_NONE | WLAN_SECURITY_WILDCARD => Ret true
  | WLAN_SECURITY_WEP_OPEN | WLAN_SECURITY_WEP_SHARED => Ret false
  end.

Definition used (n : wlan_network) : bool := bool_decide (name n <> []).
Definition named (s : list Z) (n : wlan_network) : bool := used n && bool_decide (name n = s).
(** The first network for which [f] holds. *)
Fixpoint find_network (f : wlan_network -> bool) (l : list wlan_network) (i : Z) : option Z :=
  match l with
  | [] => None
  | n :: l' => if f n then Some i else find_network f l' (i + 1)
  end.
Definition find_in_table (f : wlan_network -> bool) : CM (option Z) := get (fun w => find_network f (networks w) 0).

Definition first_char (l : list Z) : Z := default 0 (head l).
(** The tests of [wlan_add_network] on its argument. *)
Definition network_acceptable (n : wlan_network) : outcome bool :=
  let len := Z.of_nat (length (name n)) in
  let s := security n in
  let sta_or_uap := (role n =? WLAN_BSS_ROLE_UAP) || (role n =? WLAN_BSS_ROLE_STA) in
  if (len <? WLAN_NETWORK_NAME_MIN_LENGTH) || (len >=? WLAN_NETWORK_NAME_MAX_LENGTH) then Ret false
  else if (first_char (ssid n) =? 0) && is_bssid_any (bssid n) then Ret false
  else if (role n =? WLAN_BSS_ROLE_UAP) && negb (gw (ipv4 n) =? address (ipv4 n)) then Ret false
  else if sta_or_uap &&
          bool_decide (sec_type s = WLAN_SECURITY_WPA2_SHA256 \/ sec_type s = WLAN_SECURITY_WPA2_WPA3_SAE_MIXED) && negb (mfpc s)
       then Ret false
  else if sta_or_uap && bool_decide (sec_type s = WLAN_SECURITY_WPA3_SAE) && (negb (mfpc s) || negb (mfpr s)) then Ret false
  else wlan_is_key_valid s.
Definition corrected_type (n : wlan_network) : Z :=
  if (bss_type n =? WLAN_BSS_TYPE_STA) || (bss_type n =? WLAN_BSS_TYPE_ANY) then
    if role n =? WLAN_BSS_ROLE_UAP then WLAN_BSS_TYPE_UAP
    else if role n =? WLAN_BSS_ROLE_STA then WLAN_BSS_TYPE_STA
    else bss_type n
  else bss_type n.
(** What is stored for the network [n]. *)
Definition stored_network (n : wlan_network) : wlan_network :=
  let n := set_bss_type (corrected_type n) n in
  let n := if role n =? WLAN_BSS_ROLE_UAP then set_dot11n true (set_dot11ac true n) else n in
  let n := set_ssid_specific (negb (first_char (ssid n) =? 0)) n in
  let n := set_bssid_specific (negb (is_bssid_any (bssid n))) n in
  let n := set_channel_specific (negb (channel n =? 0)) n in
  let n := if channel n =? 0 then n else set_acs_band (if channel n >? BSS_CHANNELS_BG then 1 else 0) n in
  if bool_decide (sec_type (security n) = WLAN_SECURITY_WILDCARD) then n else set_security_specific true n.

Definition wlan_add_network (n : wlan_network) : CM result :=
  busy ← get (fun w => is_running w && negb (is_state CM_STA_IDLE w) && negb (is_state CM_STA_ASSOCIATED w) &&
                       negb (is_state CM_STA_CONNECTED w));
  if (role n =? WLAN_BSS_ROLE_STA) && busy then mret WLAN_ERROR_STATE
  else
    ok ← lift (network_acceptable n);
    if negb ok then mret WM_E_INVAL
    else
      dup ← find_in_table (named (name n)); pos ← find_in_table (fun n => negb (used n));
      match dup, pos with
      | Some _, _ => mret WM_E_INVAL
      | None, None => mret WM_E_NOMEM
      | None, Some pos =>
          put_network pos (stored_network n);;
          failed ← (if (role n =? WLAN_BSS_ROLE_STA) &&
                       bool_decide (sec_type (security n) <> WLAN_SECURITY_NONE /\ sec_type (security n) <> WLAN_SECURITY_WEP_OPEN)
                    then emit ClearPsk;; mret (negb (clear_psk_ok env)) else mret false);
          if failed : bool then mret WLAN_ERROR_ACTION
          else upd (fun w => set_num_networks (u32 (num_networks w + 1)) w);; mret WM_SUCCESS
      end.

Definition wlan_remove_network (s : list Z) : CM result :=
  run ← get is_running;
  if negb run then mret WLAN_ERROR_STATE
  else
    o ← find_in_table (named s);
    match o with
    | None => mret WM_E_INVAL
    | Some i =>
        in_use ← get (fun w => (running w && (cur_network_idx w =? i) && is_state CM_STA_CONNECTED w) ||
                               ((cur_uap_network_idx w =? i) && is_uap_state CM_UAP_IP_UP w));
        if in_use : bool then mret WLAN_ERROR_STATE
        else put_network i no_network;; upd (fun w => set_num_networks (u32 (num_networks w - 1)) w);; mret WM_SUCCESS
    end.

(** [copy_network]: what the driver learned is left out. *)
Definition copy_network (n : wlan_network) : outcome wlan_network :=
  let n1 := if bssid_specific n then n else set_bssid (replicate 6 0) n in
  n2 ← (if ssid_specific n then Ret n1 else b ← mem_write (ssid n1) 0 (replicate 32 0); Ret (set_ssid b n1));
  let n3 := if channel_specific n then n2 else set_channel 0 n2 in
  Ret (if addr_type (ipv4 n) =? 0 then n3 else set_ipv4 (MkIp (addr_type (ipv4 n)) 0 0 0 0 0) n3).
Definition wlan_get_network_count : CM Z := get num_networks.
Definition wlan_get_network (index : Z) : CM (option wlan_network) :=
  l ← get networks;
  if index >? Z.of_nat (length l) then mret None
  else match l !! Z.to_nat index with
       | Some n => if used n then c ← lift (copy_network n); mret (Some c) else mret None
       | None => mret None
       end.
Definition wlan_get_network_byname (s : list Z) : CM (option wlan_network) :=
  o ← find_in_table (named s);
  match o with
  | None => mret None
  | Some i => n ← get_network i; c ← lift (copy_network n); mret (Some c)
  end.

(** ** The API: requests *)

(** A request made with the scan lock; while another thread has it the call
    does not return. *)
Definition request_with_lock (m : wifi_message) : CM bool :=
  free ← get scan_lock;
  if negb free then lift (Fault Hang)
  else upd (set_scan_lock false);; upd (set_is_scan_lock true);; send_user_request m.

(** [wlan_connect] and [wlan_reassociate] once they wait for the lock. *)
Definition wlan_connect_locked (i : Z) : CM result :=
  free ← get scan_lock;
  if negb free then lift (Fault Hang)
  else
    upd (set_scan_lock false);; upd (set_is_scan_lock true);; upd (set_reassoc_count 0);;
    ok ← send_user_request (CM_STA_USER_REQUEST_CONNECT i); mret (if ok : bool then WM_SUCCESS else WM_FAIL).
Definition wlan_connect (s : list Z) : CM result :=
  r ← get running; n ← get num_networks;
  if negb r then mret WLAN_ERROR_STATE
  else if (n =? 0) || bool_decide (s = []) then mret WM_E_INVAL
  else
    upd (set_roam_reassoc false);;
    o ← find_in_table (named s);
    match o with None => mret WM_E_INVAL | Some i => wlan_connect_locked i end.
Definition wlan_reassociate_locked : CM result :=
  free ← get scan_lock;
  if negb free then lift (Fault Hang)
  else
    upd (set_scan_lock false);; upd (set_is_scan_lock true);; upd (set_roam_reassoc true);;
    i ← get cur_network_idx; ok ← send_user_request (CM_STA_USER_REQUEST_CONNECT i);
    if ok : bool then mret WM_SUCCESS else upd (set_roam_reassoc false);; release_scan_lock;; mret WM_FAIL.
Definition wlan_reassociate : CM result :=
  r ← get running; n ← get num_networks; c ← get is_sta_connected;
  if negb r then mret WLAN_ERROR_STATE
  else if n =? 0 then mret WM_E_INVAL
  else if negb c then mret WLAN_ERROR_STATE
  else wlan_reassociate_locked.
Definition wlan_scan_with_opt (p : wlan_scan_params_v2_t) : CM result :=
  allowed ← get (fun w => is_running w && is_scanning_allowed w);
  if negb allowed then mret WLAN_ERROR_STATE
  else if negb (mem_ok env) then mret WM_E_NOMEM
  else ok ← request_with_lock (CM_STA_USER_REQUEST_SCAN (Some p)); mret (if ok : bool then WM_SUCCESS else WM_FAIL).

Definition wlan_start_network (s : list Z) : CM result :=
  n ← get num_networks; up ← get is_uap_started; sta ← get is_sta_connecting;
  if bool_decide (s = []) || (n =? 0) then mret WM_E_INVAL
  else if up : bool then mret WLAN_ERROR_STATE
  else
    o ← find_in_table (fun n => named s n && (role n =? WLAN_BSS_ROLE_UAP) && ssid_specific n);
    match o with
    | None => mret WM_E_INVAL
    | Some i =>
        n ← get_network i;
        if channel_specific n && sta then mret WM_E_INVAL
        else ok ← send_user_request (CM_UAP_USER_REQUEST_START i); mret (if ok : bool then WM_SUCCESS else WM_FAIL)
    end.
Definition wlan_stop_network (s : list Z) : CM result :=
  n ← get num_networks;
  if bool_decide (s = []) || (n =? 0) then mret WM_E_INVAL
  else
    upd (set_wlan_uap_scan_chan_list_set false);;
    o ← find_in_table (fun n => named s n && (role n =? WLAN_BSS_ROLE_UAP) && ssid_specific n);
    match o with
    | None => mret WM_E_INVAL
    | Some i =>
        emit InterfaceDown;;
        ok ← send_user_request (CM_UAP_USER_REQUEST_STOP i); mret (if ok : bool then WM_SUCCESS else WM_FAIL)
    end.

Inductive wlan_connection_state :=
  | WLAN_DISCONNECTED | WLAN_CONNECTING | WLAN_ASSOCIATED | WLAN_CONNECTED | WLAN_SCANNING | WLAN_ASSOCIATING.
Definition wlan_get_connection_state (w : wlan) : option wlan_connection_state :=
  if negb (is_running w) then None
  else Some match (if is_user_scanning w then sta_return_to w else sta_state w) with
            | CM_STA_SCANNING => WLAN_SCANNING
            | CM_STA_ASSOCIATING => WLAN_ASSOCIATING
            | CM_STA_ASSOCIATED => WLAN_ASSOCIATED
            | CM_STA_REQUESTING_ADDRESS | CM_STA_OBTAINING_ADDRESS => WLAN_CONNECTING
            | CM_STA_CONNECTED => WLAN_CONNECTED
            | CM_STA_IDLE | CM_STA_INITIALIZING | CM_STA_SCANNING_USER => WLAN_DISCONNECTED
            end.
Definition wlan_set_reassoc_control (b : bool) : CM unit := upd (set_reassoc_control b).
End ConnectionManager.

(** [wlan_start], when the queue, the thread, the lock and the timer are created:
    the fields it sets; the others keep what they had. *)
Definition wlan_start (n : nat) (w : wlan) : wlan :=
  let w := set_sta_return_to CM_STA_IDLE (set_sta_state CM_STA_INITIALIZING w) in
  let w := set_hidden_scan_on false (set_reassoc_control true (set_uap_state CM_UAP_INITIALIZING w)) in
  let w := set_cm_deepsleepps_configured false (set_cm_ieeeps_configured false (set_cm_ps_state PS_STATE_AWAKE w)) in
  let w := set_cur_uap_network_idx (-1) (set_cur_network_idx (-1) (set_bgscan_attempt 0 w)) in
  let w := set_networks (replicate n no_network) (set_num_networks 0 w) in
  let w := set_scan_cb None (set_cb true (set_scan_count 0 (set_uap_scan_chan_list [] w))) in
  set_running true (set_scan_lock true (set_events [] w)).
(** The globals before the first call. *)
Definition wlan_zero : wlan :=
  MkWlan false false [] CM_STA_INITIALIZING CM_STA_INITIALIZING CM_STA_INITIALIZING CM_UAP_INITIALIZING (replicate 6 0)
    (replicate 6 0) false None [] 0 0 0 0 false PS_STATE_AWAKE IEEEPS_INIT IEEEPS_INIT DEEPSLEEPPS_INIT false false false
    false false false false 0 false 0 false false 0 false false false false false [] [].
