(* ===== verification/WlcmProps.v ===== *)
(** * The connection manager: invariant and reachable states

    The invariant of [wlan] while the connection manager runs, the rules that
    carry a predicate through the monad, and the preservation of the invariant
    by every handler, API function and interleaving of them. *)
From stdpp Require Import relations.
From S2P Require Import Prelude CString WlcmData Wlcm.
Open Scope Z_scope.

(** ** Rules of the monad *)
Definition ok {A} (Q : A -> wlan -> Prop) (r : outcome (A * wlan)) : Prop :=
  match r with Ret (a, w) => Q a w | Fault _ => False end.

Lemma ok_bind {A B} (Q1 : A -> wlan -> Prop) (Q : B -> wlan -> Prop) (m : CM A) (k : A -> CM B) w :
  ok Q1 (m w) -> (forall a w', Q1 a w' -> ok Q (k a w')) -> ok Q ((m ≫= k) w).
Proof. unfold ok. intros H Hk. change ((m ≫= k) w) with ('(a, w1) ← m w; k a w1). destruct (m w) as [[a w1] |]; [by apply Hk | done]. Qed.
Lemma ok_lift {A B} (x : outcome A) (Q : B -> wlan -> Prop) (k : A -> CM B) w a :
  x = Ret a -> ok Q (k a w) -> ok Q ((lift x ≫= k) w).
Proof. by intros ->. Qed.
Lemma ok_weaken {A} (Q1 Q : A -> wlan -> Prop) r : ok Q1 r -> (forall a w, Q1 a w -> Q a w) -> ok Q r.
Proof. destruct r as [[a w] |]; simpl; eauto. Qed.
Lemma ok_ret {A} (Q : A -> wlan -> Prop) r : ok Q r <-> exists a w, r = Ret (a, w) /\ Q a w.
Proof. destruct r as [[a w] |]; simpl; split; [eauto | by intros (? & ? & [= -> ->] & ?) | done | by intros (? & ? & [=] & ?)]. Qed.

Section Steps.
Context {A B : Type} (Q : B -> wlan -> Prop) (w : wlan).
Lemma ok_get_bind (f : wlan -> A) (k : A -> CM B) : ok Q (k (f w) w) -> ok Q ((get f ≫= k) w).
Proof. done. Qed.
Lemma ok_get (f : wlan -> B) : Q (f w) w -> ok Q (get f w).
Proof. done. Qed.
Lemma ok_upd_bind f (k : unit -> CM B) : ok Q (k tt (f w)) -> ok Q ((upd f ≫= k) w).
Proof. done. Qed.
Lemma ok_emit_bind a (k : unit -> CM B) : ok Q (k tt (set_log (log w ++ [a]) w)) -> ok Q ((emit a ≫= k) w).
Proof. done. Qed.
Lemma ok_ret_bind (a : A) (k : A -> CM B) : ok Q (k a w) -> ok Q ((mret a ≫= k) w).
Proof. done. Qed.
Lemma ok_mret (b : B) : Q b w -> ok Q (mret (M := CM) b w).
Proof. done. Qed.
Lemma ok_skip_bind (k : unit -> CM B) : ok Q (k tt w) -> ok Q ((skip ≫= k) w).
Proof. done. Qed.
End Steps.
Lemma ok_upd (Q : unit -> wlan -> Prop) f w : Q tt (f w) -> ok Q (upd f w).
Proof. done. Qed.
Lemma ok_emit (Q : unit -> wlan -> Prop) a w : Q tt (set_log (log w ++ [a]) w) -> ok Q (emit a w).
Proof. done. Qed.
Lemma ok_skip (Q : unit -> wlan -> Prop) w : Q tt w -> ok Q (skip w).
Proof. done. Qed.

(** One step of symbolic execution; the calls of other operations are left to
    the hint database [cm]. *)
Create HintDb cm discriminated.
Ltac cm_step :=
  lazymatch goal with
  | |- ok _ ((get ?f ≫= ?k) ?w) => refine (ok_get_bind _ w f k _); cbv beta
  | |- ok _ (get ?f ?w) => refine (ok_get _ w f _); cbv beta
  | |- ok _ ((upd ?f ≫= ?k) ?w) => refine (ok_upd_bind _ w f k _); cbv beta
  | |- ok _ (upd ?f ?w) => refine (ok_upd _ f w _); cbv beta
  | |- ok _ ((emit ?a ≫= ?k) ?w) => refine (ok_emit_bind _ w a k _); cbv beta
  | |- ok _ (emit ?a ?w) => refine (ok_emit _ a w _); cbv beta
  | |- ok _ ((mret ?a ≫= ?k) ?w) => refine (ok_ret_bind _ w a k _); cbv beta
  | |- ok _ (mret ?a ?w) => refine (ok_mret _ w a _); cbv beta
  | |- ok _ ((skip ≫= ?k) ?w) => refine (ok_skip_bind _ w k _); cbv beta
  | |- ok _ (skip ?w) => refine (ok_skip _ w _); cbv beta
  | |- ok ?Q ((if true then ?m else _) ?w) => change (ok Q (m w))
  | |- ok ?Q ((if false then _ else ?m) ?w) => change (ok Q (m w))
  | |- ok ?Q ((if ?b then ?m1 else ?m2) ?w) => destruct b eqn:?
  | |- ok ?Q (when ?b ?m ?w) => change (ok Q ((if b then m else skip) w))
  | |- ok ?Q (((if true then ?m else _) ≫= ?k) ?w) => change (ok Q ((m ≫= k) w))
  | |- ok ?Q (((if false then _ else ?m) ≫= ?k) ?w) => change (ok Q ((m ≫= k) w))
  | |- ok ?Q (((if ?b then ?m1 else ?m2) ≫= ?k) ?w) => destruct b eqn:?
  end.
(** Both sides of a [when] that is followed by more. *)
Ltac cm_split :=
  first [cm_step | lazymatch goal with |- ok ?Q ((when ?b ?m ≫= ?k) ?w) => change (ok Q (((if b then m else skip) ≫= k) w)) end].

Lemma ok_network {B} (Q : B -> wlan -> Prop) i k w n :
  arr_get (networks w) i = Ret n -> ok Q (k n w) -> ok Q ((get_network i ≫= k) w).
Proof.
  intros E Hk. change (ok Q ('(a, w1) ← ('(l, w0) ← Ret (networks w, w); a ← arr_get l i; Ret (a, w0)); k a w1)).
  rewrite bind_ret, E, bind_ret. exact Hk.
Qed.

(** ** The invariant *)
Definition network_wf (n : wlan_network) : Prop :=
  length (ssid n) = 33%nat /\ ssid n !! 32%nat = Some 0 /\ length (psk (security n)) = 65%nat /\ 0 ∈ psk (security n).
Definition message_ok (N : nat) (m : wifi_message) : Prop :=
  match m with
  | CM_STA_USER_REQUEST_CONNECT i | CM_UAP_USER_REQUEST_START i => 0 <= i < Z.of_nat N
  | _ => True
  end.

Record inv (N : nat) (w : wlan) : Prop := MkInv {
  inv_length : length (networks w) = N;
  inv_networks : Forall network_wf (networks w);
  inv_current : 0 <= cur_network_idx w < Z.of_nat N;
  inv_uap : uap_state w <> CM_UAP_INITIALIZING -> 0 <= cur_uap_network_idx w < Z.of_nat N;
  inv_queue : Forall (message_ok N) (events w);
  inv_queue_length : (length (events w) <= MAX_EVENTS)%nat;
  inv_scan_count : 0 <= scan_count w <= WLAN_RESCAN_LIMIT;
  inv_reassoc_count : 0 <= reassoc_count w <= WLAN_RECONNECT_LIMIT;
  inv_ps : ieeeps_state w = IEEEPS_INIT /\ deepsleepps_state w = DEEPSLEEPPS_INIT /\ g_req_sl_confirm w = false
}.

(** What the lower layers answer: scan results with SSIDs of at most 32 bytes,
    no more of them than channels of hidden networks are kept. *)
Definition result_ok (r : wifi_scan_result2) : Prop := length (res_ssid r) = 32%nat /\ 0 <= res_ssid_len r <= 32.
Definition env_ok (env : calls) : Prop :=
  let l := default [] (scan_results env) in
  Z.of_nat (length l) <= MAX_SCAN_CHANNELS /\ Forall (fun r => match r with Some r => result_ok r | None => True end) l.

Section Preservation.
Context (N : nat).
Abbreviation keeps := (ok (fun _ => inv N)).

Lemma inv_get_network w i : inv N w -> 0 <= i < Z.of_nat N ->
  exists n, arr_get (networks w) i = Ret n /\ networks w !! Z.to_nat i = Some n /\ network_wf n.
Proof.
  intros [Hl Hn _ _ _ _ _ _ _] Hi. destruct (arr_get_total (networks w) i) as (n & E & Hk); [lia |].
  exists n. split; [done |]. split; [done |]. by eapply list.Forall_lookup_1 in Hn.
Qed.
Lemma ok_get_network {B} (Q : B -> wlan -> Prop) i k w : inv N w -> 0 <= i < Z.of_nat N ->
  (forall n, networks w !! Z.to_nat i = Some n -> network_wf n -> ok Q (k n w)) -> ok Q ((get_network i ≫= k) w).
Proof.
  intros Hw Hi Hk. destruct (inv_get_network w i Hw Hi) as (n & E & Hn & Hwf).
  change (ok Q ('(a, w1) ← ('(l, w0) ← Ret (networks w, w); a ← arr_get l i; Ret (a, w0)); k a w1)).
  rewrite bind_ret, E, bind_ret. by apply Hk.
Qed.
Lemma inv_set_networks w l : inv N w -> length l = N -> Forall network_wf l -> inv N (set_networks l w).
Proof. intros [] Hl Hf. by constructor. Qed.
Lemma inv_put_network w i n : inv N w -> 0 <= i < Z.of_nat N -> network_wf n -> keeps (put_network i n w).
Proof.
  intros Hw Hi Hn. unfold put_network. cm_step. eapply ok_lift.
  - apply arr_set_ret. rewrite (inv_length _ _ Hw). exact Hi.
  - cm_step. apply inv_set_networks; [done | by rewrite length_insert, (inv_length _ _ Hw) |].
    apply list.Forall_insert; [apply (inv_networks _ _ Hw) | done].
Qed.
Lemma inv_upd_network w i f : inv N w -> 0 <= i < Z.of_nat N -> (forall n, network_wf n -> network_wf (f n)) ->
  keeps (upd_network i f w).
Proof.
  intros Hw Hi Hf. unfold upd_network. apply ok_get_network; [done | done |]. intros n _ Hn. apply inv_put_network; auto.
Qed.

(** A field that the invariant does not mention. *)
Ltac frame := match goal with H : inv N ?w |- inv N _ => first [exact H | destruct H; constructor; first [assumption | done]] end.

Lemma inv_send w m : inv N w -> message_ok N m -> keeps (wlan_wlcmgr_send_msg m w).
Proof.
  intros Hw Hm. unfold wlan_wlcmgr_send_msg. cm_step. case_bool_decide; repeat cm_step; [| done].
  destruct Hw. constructor; try done; simpl.
  - by apply Forall_app_2; [| constructor].
  - rewrite length_app. unfold MAX_EVENTS in *. simpl. lia.
Qed.
Lemma inv_event w r : inv N w -> keeps (connection_event r w).
Proof. intros Hw. unfold connection_event. repeat cm_step; frame. Qed.
Lemma inv_set_scan_count w c : inv N w -> 0 <= c <= WLAN_RESCAN_LIMIT -> inv N (set_scan_count c w).
Proof. intros [] Hc. by constructor. Qed.
Lemma inv_set_reassoc_count w c : inv N w -> 0 <= c <= WLAN_RECONNECT_LIMIT -> inv N (set_reassoc_count c w).
Proof. intros [] Hc. by constructor. Qed.
Lemma inv_set_current w i : inv N w -> 0 <= i < Z.of_nat N -> inv N (set_cur_network_idx i w).
Proof. intros [] Hi. by constructor. Qed.
Lemma inv_set_uap w s : inv N w -> 0 <= cur_uap_network_idx w < Z.of_nat N -> inv N (set_uap_state s w).
Proof. intros [] Hi. by constructor. Qed.

Context (env : calls) (Henv : env_ok env).

(** ** Matching does not fault *)
Lemma strlen_list_total l : 0 ∈ l -> exists n, strlen_list l = Ret n.
Proof.
  induction l as [| c l IH]; intros Hin; [by apply not_elem_of_nil in Hin |]. simpl. destruct (Z.eqb_spec c 0); [by exists 0 |].
  apply elem_of_cons in Hin as [? | Hin]; [congruence |]. destruct (IH Hin) as (n' & ->). by eexists.
Qed.
Lemma strncmp_buf_total a : forall b n, (n <= length a)%nat -> (n <= length b)%nat -> exists r, strncmp_buf a b n = Ret r.
Proof.
  induction a as [| x a IH]; intros b n Ha Hb; destruct n as [| n]; simpl in *; try (by eexists); [lia |].
  destruct b as [| y b]; simpl in *; [lia |]. destruct (x =? y); [| by eexists]. destruct (x =? 0); [by eexists | apply IH; lia].
Qed.
Lemma network_wf_strlen n : network_wf n -> exists k, strlen_list (ssid n) = Ret k /\ 0 <= k <= 32.
Proof.
  intros (Hl & H0 & _). destruct (strlen_list_total (ssid n)) as (k & E); [by eapply list_elem_of_lookup_2 |].
  exists k. split; [done |]. apply strlen_list_bound in E as [? _]. lia.
Qed.
Lemma mem_read_total {A} (m : list A) n : 0 <= n <= Z.of_nat (length m) -> mem_read m 0 n = Ret (take (Z.to_nat n) m).
Proof. intros Hn. unfold mem_read. zbool; try lia. done. Qed.

Lemma ssid_matches_total on n r chans : network_wf n -> result_ok r -> Z.of_nat (length chans) < MAX_SCAN_CHANNELS ->
  exists b chans', ssid_matches on n r chans = Ret (b, chans') /\ (length chans' <= S (length chans))%nat.
Proof.
  intros Hn [Hr Hl] Hc. unfold ssid_matches. destruct (network_wf_strlen n Hn) as (k & Ek & Hk).
  destruct (strncmp_buf_total (ssid n) (res_ssid r) (Z.to_nat (Z.max k (res_ssid_len r)))) as (eq & Eeq);
    [destruct Hn as [-> _]; lia | rewrite Hr; lia |].
  assert (Hh : exists h, (if on then Ret false
            else z ← mem_read (replicate 32 0) 0 (res_ssid_len r); a ← mem_read (res_ssid r) 0 (res_ssid_len r);
                 Ret (bool_decide (z = a))) = Ret h).
  { destruct on; [by eexists |]. rewrite !mem_read_total by (rewrite ?length_replicate, ?Hr; lia). by eexists. }
  destruct Hh as (h & ->). rewrite bind_ret.
  assert (Hch : exists c, (if h then if Z.of_nat (length chans) <? MAX_SCAN_CHANNELS then Ret (chans ++ [res_Channel r]) else Fault OutOfBounds
      else Ret chans) = Ret c /\ (length c <= S (length chans))%nat).
  { destruct h; [| exists chans; split; [done | lia]]. destruct (Z.ltb_spec (Z.of_nat (length chans)) MAX_SCAN_CHANNELS); [| lia].
    eexists. split; [done |]. rewrite length_app. simpl. lia. }
  destruct Hch as (c & -> & Hcl). rewrite bind_ret. destruct (res_ssid_len r =? 0); [by eexists _, _ |].
  rewrite Ek, bind_ret, Eeq, bind_ret. by eexists _, _.
Qed.

Lemma network_matches_total on n r chans : network_wf n -> result_ok r -> Z.of_nat (length chans) < MAX_SCAN_CHANNELS ->
  exists b chans', network_matches_scan_result env on n r chans = Ret (b, chans') /\ (length chans' <= S (length chans))%nat.
Proof.
  intros Hn Hr Hc. unfold network_matches_scan_result.
  destruct (channel_specific n && _); [eexists _, _; split; [done | lia] |].
  destruct (bssid_specific n && _); [eexists _, _; split; [done | lia] |].
  assert (Hs : exists b c, (if ssid_specific n then ssid_matches on n r chans else Ret (true, chans)) = Ret (b, c) /\
     (length c <= S (length chans))%nat).
  { destruct (ssid_specific n); [by apply ssid_matches_total | eexists _, _; split; [done | lia]]. }
  destruct Hs as (b & c & -> & Hcl). rewrite bind_ret. destruct b; cbn [negb]; [| by eexists _, _].
  destruct (security_specific n && _); [by eexists _, _ |]. destruct (_ && (_ || _)); by eexists _, _.
Qed.

Lemma select_ap_total on n rs : forall best chans, network_wf n ->
  Forall (fun r => match r with Some r => result_ok r | None => True end) rs ->
  (match best with Some b => result_ok b | None => True end) ->
  Z.of_nat (length chans + length rs) <= MAX_SCAN_CHANNELS ->
  exists best' chans', select_ap env on n rs best chans = Ret (best', chans') /\
    match best' with Some b => result_ok b | None => True end.
Proof.
  induction rs as [| r rs IH]; intros best chans Hn Hrs Hb Hl; simpl in *; [by eexists _, _ |].
  apply List.Forall_cons_iff in Hrs as [Hr Hrs]. destruct r as [r |]; [| apply IH; try done; lia].
  destruct (network_matches_total on n r chans Hn Hr ltac:(lia)) as (b & c & -> & Hc). rewrite bind_ret.
  apply IH; try done; [| lia]. destruct b; [| done]. destruct best as [b |]; [| done]. by destruct (_ >? _).
Qed.

(** ** Preservation: scanning and connecting *)
Lemma keeps_do_scan w i : inv N w -> scan_count w < WLAN_RESCAN_LIMIT -> 0 <= i < Z.of_nat N -> keeps (do_scan env i w).
Proof.
  intros Hw Hc Hi. unfold do_scan. apply ok_get_network; [done | done |]. intros n _ Hn.
  repeat cm_step.
  - apply inv_set_scan_count; [frame |]. pose proof (inv_scan_count _ _ Hw). cbn. rewrite wrap_small; unfold WLAN_RESCAN_LIMIT in *; lia.
  - eapply ok_bind; [apply inv_send; [frame | done] |]. intros a w' Hw'. by repeat cm_step.
Qed.
Lemma keeps_do_hidden_scan w i chans : inv N w -> 0 <= i < Z.of_nat N -> keeps (do_hidden_scan env i chans w).
Proof.
  intros Hw Hi. unfold do_hidden_scan. apply ok_get_network; [done | done |]. intros n _ Hn. repeat cm_step; [frame |].
  eapply ok_bind; [apply inv_send; [frame | done] |]. intros a w' Hw'. by repeat cm_step.
Qed.
Lemma keeps_do_connect w i : inv N w -> 0 <= i < Z.of_nat N -> keeps (do_connect env i w).
Proof.
  intros Hw Hi. unfold do_connect. apply ok_get_network; [done | done |]. intros n _ Hn. repeat cm_step; [done |].
  eapply ok_bind.
  - apply keeps_do_scan; [| done | done]. apply inv_set_scan_count; [by apply inv_set_current | done].
  - intros ? w' Hw'. by repeat cm_step.
Qed.
Lemma keeps_do_connect_failed w r : inv N w -> keeps (do_connect_failed r w).
Proof. intros Hw. unfold do_connect_failed. repeat cm_split; apply inv_event; frame. Qed.

Lemma keeps_when w b m : inv N w -> (b = true -> keeps (m w)) -> keeps (when b m w).
Proof. intros Hw Hm. destruct b; [by apply Hm | done]. Qed.
(** [m] keeps the invariant, then the rest goes on from any such state. *)
Lemma keeps_then {A B} (Q : B -> wlan -> Prop) (m : CM A) (k : A -> CM B) w :
  keeps (m w) -> (forall a w', inv N w' -> ok Q (k a w')) -> ok Q ((m ≫= k) w).
Proof. intros Hm Hk. eapply ok_bind; [exact Hm | done]. Qed.

Lemma keeps_release w : inv N w -> keeps (release_scan_lock w).
Proof. intros Hw. unfold release_scan_lock. repeat cm_step. frame. Qed.

(** ** Preservation: association *)
Lemma mem_write_head {A} (l a : list A) : (length a <= length l)%nat -> mem_write l 0 a = Ret (a ++ drop (length a) l).
Proof. intros Hl. pose proof (mem_write_next [] l [] a 0 eq_refl Hl) as E. by rewrite !app_nil_r in E. Qed.

Lemma keeps_update_network_params w i r : inv N w -> 0 <= i < Z.of_nat N -> result_ok r -> keeps (update_network_params i r w).
Proof.
  intros Hw Hi [Hr Hlen]. unfold update_network_params. apply ok_get_network; [done | done |]. intros n _ Hn.
  apply keeps_then; [apply keeps_when; [done |]; intros _ |].
  { apply keeps_then; [by apply inv_upd_network |]. intros _ w1 Hw1. apply keeps_when; [done |]. intros _.
    apply keeps_then; [by apply inv_upd_network |]. intros _ w2 Hw2. repeat cm_step. frame. }
  intros _ w1 Hw1. apply keeps_then; [by apply inv_upd_network |].
  intros _ w2 Hw2. apply keeps_then; [apply keeps_when; [done |]; intros _; by apply inv_upd_network |].
  intros _ w3 Hw3. apply keeps_then; [apply keeps_when; [done |]; intros _; by apply inv_upd_network |].
  intros _ w4 Hw4. apply keeps_then; [apply keeps_when; [done |]; intros _ |].
  { destruct Hn as (Hl & H0 & _). eapply ok_lift; [apply mem_read_total; lia |].
    eapply ok_lift; [apply mem_write_head; rewrite length_take; lia |].
    apply inv_upd_network; [done | done |]. intros m (Hl' & _ & Hp). split; [| split; [| exact Hp]]; cbn [ssid set_ssid].
    - rewrite length_app, length_drop, !length_take. lia.
    - rewrite lookup_app_r by (rewrite length_take; lia). rewrite lookup_drop, length_take.
      by replace (Z.to_nat (res_ssid_len r) `min` length (res_ssid r) + (32 - Z.to_nat (res_ssid_len r) `min` length (res_ssid r)))%nat with 32%nat by lia. }
  intros _ w5 Hw5. apply inv_upd_network; [done | done |]. intros m (Hl & H0 & Hp & Hz).
  assert (Hpsk : forall s, psk (copy_ciphers r s) = psk s).
  { intros s. unfold copy_ciphers, copy_rsn_ciphers, copy_wpa_ciphers.
    destruct (sec_type s); try done; destruct (_ || _); destruct (rsn_mcst_ccmp r), (rsn_ucst_ccmp r);
      try destruct (wpa_mcst_ccmp r), (wpa_ucst_ccmp r); done. }
  unfold network_wf. cbn [upd_security set_security ssid security set_dtim_period set_beacon_period].
  rewrite Hpsk. done.
Qed.

(** The conversion of a key keeps the NUL that ends its text. *)
Lemma hex2bin_loop_total s max : forall i j b buf, 0 <= i -> i + Z.of_nat (length s) < Z.of_nat (length buf) ->
  (length buf = 65)%nat ->
  exists r buf', hex2bin_loop s i j b buf max = Ret (r, buf') /\ length buf' = 65%nat /\
    forall k, i + Z.of_nat (length s) <= Z.of_nat k -> buf' !! k = buf !! k.
Proof.
  induction s as [| c s IH]; intros i j b buf Hi Hlen Hb; cbn [hex2bin_loop length] in *; [by eexists _, _ |].
  destruct (i =? 2 * max); [by eexists _, _ |]. destruct (hex_digit (toupper c)); [| by eexists _, _].
  destruct (i mod 2 =? 1) eqn:Eo.
  - assert (Hj : 0 <= (i + 1) / 2 - 1 < i + 1).
    { apply Z.eqb_eq in Eo. pose proof (Z.div_mod i 2 ltac:(lia)). pose proof (Z.div_mod (i + 1) 2 ltac:(lia)).
      pose proof (Z.mod_pos_bound (i + 1) 2 ltac:(lia)). lia. }
    rewrite arr_set_ret by lia. rewrite bind_ret.
    destruct (IH (i + 1) ((i + 1) / 2 - 1) (u32 (b * 16 + z)) (<[Z.to_nat ((i + 1) / 2 - 1) := u8 (u32 (b * 16 + z))]> buf))
      as (r & buf' & -> & Hl & Hk); [lia | rewrite length_insert; lia | by rewrite length_insert |].
    eexists _, _. split; [done |]. split; [done |]. intros k Hkk. rewrite Hk by lia. apply list_lookup_insert_ne. lia.
  - destruct (IH (i + 1) j (u32 (b * 16 + z)) buf) as (r & buf' & -> & Hl & Hk); [lia | lia | done |].
    eexists _, _. split; [done |]. split; [done |]. intros k Hkk. apply Hk. lia.
Qed.
Lemma load_wep_key_total buf len : length buf = 65%nat -> 0 ∈ buf ->
  exists b buf' l, load_wep_key buf len = Ret (b, buf', l) /\ length buf' = 65%nat /\ 0 ∈ buf'.
Proof.
  intros Hb H0. unfold load_wep_key. destruct (_ || _).
  - unfold hex2bin. destruct (strlen_list_total buf H0) as (k & Ek). rewrite Ek, bind_ret.
    apply strlen_list_bound in Ek as [Hk Hz]. rewrite mem_read_total, bind_ret by lia.
    destruct (hex2bin_loop_total (take (Z.to_nat k) buf) (Z.of_nat (length buf)) 0 0 0 buf) as (r & buf' & -> & Hl & Hkk);
      [lia | rewrite length_take; lia | done |]. rewrite bind_ret.
    assert (0 ∈ buf').
    { eapply list_elem_of_lookup_2. rewrite Hkk; [exact Hz | rewrite length_take; lia]. }
    destruct (r =? 0); by eexists _, _, _.
  - destruct (_ || _); [| by eexists _, _, _]. destruct (_ >? _); by eexists _, _, _.
Qed.
Lemma keeps_configure_security w i r : inv N w -> 0 <= i < Z.of_nat N -> keeps (configure_security env i r w).
Proof.
  intros Hw Hi. unfold configure_security. apply ok_get_network; [done | done |]. intros n _ (Hs & Hs0 & Hp & Hp0). cbv zeta.
  destruct (load_wep_key_total (psk (security n)) (psk_len (security n)) Hp Hp0) as (b & buf & l & E & Hl & H0).
  destruct (sec_type (security n)); repeat cm_step; try frame.
  all: eapply ok_lift; [exact E |]; cbv beta iota.
  all: apply keeps_then; [apply inv_upd_network; [done | done |]; intros m (? & ? & ? & ?); done |].
  all: intros _ w1 Hw1; repeat cm_step; frame.
Qed.
Lemma keeps_start_association w i r : inv N w -> 0 <= i < Z.of_nat N -> keeps (start_association env i r w).
Proof.
  intros Hw Hi. unfold start_association. repeat cm_step. apply keeps_then; [apply keeps_configure_security; [frame | done] |].
  intros b w1 Hw1. repeat cm_step.
  - apply keeps_then; [by apply keeps_do_connect_failed |]. intros _ w2 Hw2. by repeat cm_step.
  - apply ok_get_network; [done | done |]. intros n _ _. repeat cm_step; [frame |].
    apply keeps_then; [apply keeps_do_connect_failed; frame |]. intros _ w2 Hw2. by repeat cm_step.
Qed.
Lemma keeps_disconnect w : inv N w -> keeps (wlan_disconnect w).
Proof.
  intros Hw. unfold wlan_disconnect. repeat cm_step; [done |]. apply keeps_then; [by apply inv_send |].
  intros _ w1 Hw1. by repeat cm_step.
Qed.
Lemma keeps_request_connect w i network : inv N w -> 0 <= i < Z.of_nat N -> 0 <= network < Z.of_nat N ->
  keeps (wlcm_request_connect env i network w).
Proof.
  intros Hw Hi Hn. unfold wlcm_request_connect. apply ok_get_network; [done | done |]. intros n _ _. repeat cm_step.
  apply keeps_then.
  { apply keeps_when; [frame |]. intros _. apply ok_get_network; [frame | done |]. intros m _ _. repeat cm_step. frame. }
  intros _ w1 Hw1. apply keeps_then; [by apply keeps_do_connect |]. intros b w2 Hw2. apply keeps_then.
  { apply keeps_when; [done |]. intros _. repeat cm_step.
    apply keeps_then; [apply keeps_when; [done |]; intros _; by apply keeps_release |]. intros _ ? ?. by apply inv_event. }
  intros _ w3 Hw3. by repeat cm_step.
Qed.
Lemma keeps_reconnect w next network : inv N w -> 0 <= network < Z.of_nat N ->
  keeps (wlcm_request_reconnect env next network w).
Proof.
  intros Hw Hn. unfold wlcm_request_reconnect. pose proof (inv_reassoc_count _ _ Hw) as Hc. repeat cm_step.
  - apply keeps_request_connect; [| apply (inv_current _ _ Hw) | done].
    apply inv_set_reassoc_count; [frame |]. cbn in *. rewrite wrap_small; unfold WLAN_RECONNECT_LIMIT in *; lia.
  - apply keeps_then; [apply inv_event; apply inv_set_reassoc_count; [frame | done] |]. intros _ w1 Hw1.
    apply keeps_then; [by apply keeps_disconnect |]. intros _ w2 Hw2. by repeat cm_step.
Qed.
Lemma keeps_maybe_reconnect w next network : inv N w -> 0 <= network < Z.of_nat N ->
  keeps (maybe_reconnect env next network w).
Proof. intros Hw Hn. unfold maybe_reconnect. repeat cm_step; [by apply keeps_reconnect | done]. Qed.

(** ** Preservation: the handlers *)
Hint Resolve inv_event inv_send inv_upd_network keeps_do_scan keeps_do_hidden_scan keeps_do_connect keeps_do_connect_failed
  keeps_release keeps_update_network_params keeps_start_association keeps_disconnect keeps_request_connect keeps_reconnect
  keeps_maybe_reconnect : cm.
Hint Extern 1 (inv N _) => frame : cm.
Hint Extern 1 (0 <= _ < _) => first [assumption | eapply inv_current; eassumption] : cm.
Hint Extern 1 (message_ok N _) => first [exact I | assumption] : cm.
Hint Extern 2 (forall n, network_wf n -> network_wf _) => (intros ? (? & ? & ? & ?); done) : cm.
Ltac cm_auto := solve [eauto with cm].
Ltac cm_go :=
  repeat lazymatch goal with
  | |- inv N _ => frame
  | |- ok _ ((get_network _ ≫= _) _) => apply ok_get_network; [cm_auto | cm_auto | intros ? ? ?]
  | |- ok _ ((when _ _ ≫= _) _) => apply keeps_then; [apply keeps_when; [frame | intros ?] | intros ? ? ?]
  | |- ok _ (((_ ≫= _) ≫= _) _) => apply keeps_then; [| intros ? ? ?]
  | |- ok _ ((_ ≫= _) _) => first [cm_step | apply keeps_then; [cm_auto | intros ? ? ?]]
  | |- _ => first [cm_step | cm_auto]
  end.

Lemma keeps_scan_again w network : inv N w -> 0 <= network < Z.of_nat N -> keeps (scan_again env network w).
Proof.
  intros Hw Hn. unfold scan_again. cm_go. apply keeps_do_scan; [frame | cbn in *; lia | done].
Qed.
Hint Resolve keeps_scan_again : cm.

Lemma keeps_handle_scan_results w : inv N w -> keeps (handle_scan_results env w).
Proof.
  intros Hw. unfold handle_scan_results. pose proof (inv_current _ _ Hw) as Hcur. cm_step. cm_step; [by cm_step |]. cm_step.
  apply ok_get_network; [frame | done |]. intros n Hn Hwf. cm_step.
  destruct Henv as [Hlen Hres].
  destruct (select_ap_total (hidden_scan_on w) n (default [] (scan_results env)) None []) as (best & chans & E & Hbest); [done.. |].
  eapply ok_lift; [exact E |]. cbv beta iota. destruct best as [r |]; cm_go.
Qed.
Hint Resolve keeps_handle_scan_results : cm.

Lemma keeps_report_scan_results w : inv N w -> keeps (report_scan_results w).
Proof. intros Hw. unfold report_scan_results. cm_step. destruct (scan_cb w); cm_go. Qed.
Hint Resolve keeps_report_scan_results : cm.
Lemma keeps_scan_result w b next : inv N w -> keeps (wlcm_process_scan_result_event env b next w).
Proof. intros Hw. unfold wlcm_process_scan_result_event. cm_step. cm_step. destruct (sta_state w); cm_go. Qed.
Lemma keeps_connected_at_last w : inv N w -> keeps (connected_at_last w).
Proof. intros Hw. unfold connected_at_last. cm_step. apply keeps_then; [apply keeps_when; [frame |]; intros _ |].
  - repeat cm_step. apply (inv_set_reassoc_count (set_reassoc_request false w) 0); [frame | done].
  - intros. cm_auto.
Qed.
Hint Resolve keeps_connected_at_last : cm.
Lemma keeps_update_address w i : inv N w -> 0 <= i < Z.of_nat N -> keeps (update_address env i w).
Proof. intros. unfold update_address. cm_auto. Qed.
Hint Resolve keeps_update_address : cm.
Lemma keeps_sta_addr w b next network : inv N w -> 0 <= network < Z.of_nat N ->
  keeps (wlcm_process_sta_addr_config_event env b next network w).
Proof. intros Hw Hn. unfold wlcm_process_sta_addr_config_event. cm_go. Qed.
Lemma keeps_channel_switch_ann w next network : inv N w -> 0 <= network < Z.of_nat N ->
  keeps (wlcm_process_channel_switch_ann env next network w).
Proof. intros Hw Hn. unfold wlcm_process_channel_switch_ann. cm_go. Qed.
Lemma keeps_association w b next : inv N w -> keeps (wlcm_process_association_event env b next w).
Proof.
  intros Hw. unfold wlcm_process_association_event. cm_go.
  apply keeps_then; [apply keeps_do_scan; [done | cbn in *; lia | cm_auto] |]. intros. by cm_go.
Qed.
Lemma keeps_pmk w data network : inv N w -> 0 <= network < Z.of_nat N -> keeps (wlcm_process_pmk_event data network w).
Proof. intros Hw Hn. unfold wlcm_process_pmk_event. destruct data; cm_go. Qed.
Lemma keeps_authentication w b code next network : inv N w -> 0 <= network < Z.of_nat N ->
  keeps (wlcm_process_authentication_event env b code next network w).
Proof. intros Hw Hn. unfold wlcm_process_authentication_event. cm_go. Qed.
Lemma keeps_link_loss w code next network : inv N w -> 0 <= network < Z.of_nat N ->
  keeps (wlcm_process_link_loss_event env code next network w).
Proof. intros Hw Hn. unfold wlcm_process_link_loss_event. cm_go. Qed.
Lemma keeps_disassoc w network : inv N w -> 0 <= network < Z.of_nat N -> keeps (wlcm_process_disassoc_event env network w).
Proof. intros Hw Hn. unfold wlcm_process_disassoc_event. cm_go. Qed.
Lemma keeps_dhcp w b next network : inv N w -> 0 <= network < Z.of_nat N ->
  keeps (wlcm_process_net_dhcp_config env b next network w).
Proof. intros Hw Hn. unfold wlcm_process_net_dhcp_config. cm_go. Qed.
Lemma keeps_request_scan w p next : inv N w -> keeps (wlcm_request_scan env p next w).
Proof. intros Hw. unfold wlcm_request_scan. destruct p; cm_go. Qed.
Lemma keeps_request_disconnect w next network : inv N w -> 0 <= network < Z.of_nat N ->
  keeps (wlcm_request_disconnect env next network w).
Proof. intros Hw Hn. unfold wlcm_request_disconnect. cm_go. Qed.

(** ** Preservation: power save and host sleep *)
Lemma keeps_ieeeps_sm w e : inv N w -> e = IEEEPS_EVENT_AWAKE \/ e = IEEEPS_EVENT_SLEEP -> keeps (wlan_ieeeps_sm env e w).
Proof.
  intros Hw He. destruct (inv_ps _ _ Hw) as (Hs & _). unfold wlan_ieeeps_sm. cbn [ieeeps_loop].
  apply (ok_bind (fun s w' => s = IEEEPS_INIT /\ w' = w)).
  - unfold ieeeps_switch. do 3 cm_step. rewrite Hs. by destruct He as [-> | ->]; cm_step.
  - intros s w' [-> ->]. cm_step. rewrite Hs. by cm_step.
Qed.
Lemma keeps_deepsleepps_sm w : inv N w -> keeps (wlan_deepsleepps_sm DEEPSLEEPPS_EVENT_AWAKE w).
Proof.
  intros Hw. destruct (inv_ps _ _ Hw) as (_ & Hs & _). unfold wlan_deepsleepps_sm. cbn [deepsleepps_loop].
  apply (ok_bind (fun s w' => s = DEEPSLEEPPS_INIT /\ w' = w)).
  - unfold deepsleepps_switch. cm_step. rewrite Hs. by cm_step.
  - intros s w' [-> ->]. cm_step. rewrite Hs. by cm_step.
Qed.
Lemma keeps_awake w : inv N w -> keeps (wlcm_process_awake_event env w).
Proof.
  intros Hw. unfold wlcm_process_awake_event. cm_step. apply keeps_then; [apply keeps_ieeeps_sm; [frame | by left] |].
  intros _ w1 Hw1. by apply keeps_deepsleepps_sm.
Qed.
Lemma keeps_ipv4_addr w : inv N w -> ok (fun _ w' => w' = w) (wlan_get_ipv4_addr w).
Proof.
  intros Hw. unfold wlan_get_ipv4_addr. apply (ok_bind (fun _ w' => w' = w)); [| intros ? ? ->; by cm_step].
  unfold wlan_get_current_sta_network. repeat cm_step; [| done].
  apply ok_get_network; [done | apply (inv_current _ _ Hw) |]. intros. by cm_step.
Qed.
Lemma keeps_host_sleep_int w c : inv N w -> keeps (wlan_send_host_sleep_int env c w).
Proof.
  intros Hw. unfold wlan_send_host_sleep_int. do 3 cm_step. apply keeps_then.
  { repeat cm_step; frame. }
  intros conflict w1 Hw1. repeat cm_step; [done |].
  eapply ok_bind; [by apply keeps_ipv4_addr |]. intros a w2 ->. destruct a; repeat cm_step; frame.
Qed.
Lemma keeps_hs_config w : inv N w -> keeps (wlcm_process_hs_config_event w).
Proof.
  intros Hw. unfold wlcm_process_hs_config_event. eapply ok_bind; [by apply keeps_ipv4_addr |]. intros a w2 ->.
  destruct a; repeat cm_step; frame.
Qed.
Lemma keeps_ieeeps_event w b a : inv N w -> keeps (wlcm_process_ieeeps_event b a w).
Proof. intros Hw. unfold wlcm_process_ieeeps_event. cm_go. Qed.
Lemma keeps_deepsleep_event w b a : inv N w -> keeps (wlcm_process_deepsleep_event b a w).
Proof. intros Hw. unfold wlcm_process_deepsleep_event. cm_go. Qed.
Lemma keeps_bg_scan_stopped w : inv N w -> keeps (wifi_process_bg_scan_stopped w).
Proof. intros Hw. unfold wifi_process_bg_scan_stopped. cm_go. Qed.
Lemma keeps_net_if_config w b next : inv N w -> keeps (wlcm_process_net_if_config_event b next w).
Proof. intros Hw. unfold wlcm_process_net_if_config_event. cm_go. Qed.
Lemma keeps_channel_switch w data : inv N w -> keeps (wlcm_process_channel_switch env data w).
Proof.
  intros Hw. unfold wlcm_process_channel_switch. destruct data; [| by cm_step]. repeat cm_step; [| done].
  apply keeps_then.
  - apply keeps_when; [done |]. intros Hup. repeat cm_step. apply inv_upd_network; [done | | auto].
    apply (inv_uap _ _ Hw). unfold is_uap_started, is_uap_state in Hup. apply bool_decide_eq_true in Hup as ->. done.
  - intros _ w1 Hw1. cm_go.
Qed.
Hint Resolve keeps_scan_result keeps_sta_addr keeps_channel_switch_ann keeps_association keeps_pmk keeps_authentication
  keeps_link_loss keeps_disassoc keeps_dhcp keeps_request_scan keeps_request_disconnect keeps_awake keeps_host_sleep_int
  keeps_hs_config keeps_ieeeps_event keeps_deepsleep_event keeps_bg_scan_stopped keeps_net_if_config keeps_channel_switch : cm.

Lemma keeps_handle_message w m : inv N w -> message_ok N m -> keeps (handle_message env m w).
Proof.
  intros Hw Hm. pose proof (inv_current _ _ Hw) as Hc. unfold handle_message. do 2 cm_step.
  destruct m; cbn [message_ok] in Hm; unfold process_block_ack, wlan_enable_power_save, wlan_disable_power_save;
    try (destruct data); cm_go.
Qed.

(** ** Preservation: the access point *)

(** The access point's network is known. *)
Definition inv_up (w : wlan) : Prop := inv N w /\ 0 <= cur_uap_network_idx w < Z.of_nat N.
Abbreviation keeps_up := (ok (fun _ => inv_up)).
Lemma up_upd_network w i f : inv_up w -> 0 <= i < Z.of_nat N -> (forall n, network_wf n -> network_wf (f n)) ->
  keeps_up (upd_network i f w).
Proof.
  intros [Hw Hu] Hi Hf. unfold upd_network. apply ok_get_network; [done | done |]. intros n _ Hn. unfold put_network. cm_step.
  eapply ok_lift; [apply arr_set_ret; by rewrite (inv_length _ _ Hw) |]. cm_step. split; [| done].
  apply inv_set_networks; [done | by rewrite length_insert, (inv_length _ _ Hw) |].
  apply list.Forall_insert; [apply (inv_networks _ _ Hw) | auto].
Qed.
Lemma up_event w r : inv_up w -> keeps_up (connection_event r w).
Proof. intros [Hw Hu]. unfold connection_event. repeat cm_step; split; try done; frame. Qed.
Lemma up_then {A B} (Q : B -> wlan -> Prop) (m : CM A) (k : A -> CM B) w :
  keeps_up (m w) -> (forall a w', inv_up w' -> ok Q (k a w')) -> ok Q ((m ≫= k) w).
Proof. intros Hm Hk. eapply ok_bind; [exact Hm | done]. Qed.
Lemma up_set_state w s : inv_up w -> inv_up (set_uap_state s w).
Proof. intros [Hw Hu]. split; [by apply inv_set_uap | done]. Qed.

Lemma up_do_start w i : inv_up w -> 0 <= i < Z.of_nat N -> keeps_up (do_start env i w).
Proof.
  intros Hw Hi. unfold do_start. apply ok_get_network; [apply Hw | done |]. intros n _ Hn. repeat cm_step; [done |].
  apply ok_get_network; [apply Hw.. |]. intros un _ _. cbv zeta. apply up_then.
  - repeat cm_step; [| done | apply up_then; [by apply up_event | intros; by cm_step]].
    apply up_then; [apply up_upd_network; auto |]. intros _ w1 Hw1. repeat cm_step.
    + apply up_then; [| intros; by cm_step]. cm_step.
      apply ok_get_network; [apply Hw1 | apply (inv_current _ _ (proj1 Hw1)) |]. intros cn _ _. apply up_upd_network; auto.
    + apply up_then; [| intros; by cm_step]. unfold wlan_uap_set_scan_chan_list. repeat cm_step; [| done].
      destruct Hw1. split; [frame | done].
  - intros allowed w1 Hw1. repeat cm_step; [done |]. apply ok_get_network; [apply Hw1 | done |]. intros n' _ _. repeat cm_step.
    + apply up_set_state. destruct Hw1. split; [frame | done].
    + apply up_then; [apply up_event; destruct Hw1; split; [frame | done] |]. intros. by cm_step.
Qed.
Lemma up_do_stop w i : inv_up w -> 0 <= i < Z.of_nat N -> keeps_up (do_stop env i w).
Proof.
  intros Hw Hi. unfold do_stop. apply ok_get_network; [apply Hw | done |]. intros n _ Hn. repeat cm_step; [done | |].
  - apply up_set_state. destruct Hw. split; [frame | done].
  - apply up_then; [apply up_event; destruct Hw; split; [frame | done] |]. intros. by cm_step.
Qed.

(** After a message of the access point, its new state may be stored. *)
Definition uap_next (s : cm_uap_state) (w : wlan) : Prop := inv N (set_uap_state s w).
Lemma up_uap_next w s : inv_up w -> uap_next s w.
Proof. intros H. apply up_set_state, H. Qed.
Lemma keeps_uap_state_machine w m : inv N w -> message_ok N m -> is_uap_msg m = true ->
  ok uap_next (uap_state_machine env m w).
Proof.
  intros Hw Hm Hu.
  assert (Hsame : uap_next (uap_state w) w) by (destruct Hw; by constructor).
  assert (Hev : forall r, ok uap_next ((connection_event r;; mret (uap_state w)) w)).
  { intros r. apply (ok_bind (fun _ w' => inv N w' /\ uap_state w' = uap_state w)).
    - unfold connection_event. repeat cm_step; split; try done; frame.
    - intros ? w' [Hw' E]. cm_step. unfold uap_next. rewrite <- E. destruct Hw'. by constructor. }
  assert (Hrange : uap_state w <> CM_UAP_INITIALIZING -> inv_up w) by (intros; split; [done | by apply (inv_uap _ _ Hw)]).
  unfold uap_state_machine. do 2 cm_step. destruct m; try discriminate Hu; cbn [message_ok] in Hm; try apply Hev.
  - repeat cm_step. apply up_then.
    + apply up_do_start; [| done]. split; [| exact Hm]. destruct Hw. by constructor.
    + intros ? w1 Hw1. cm_step. apply up_uap_next, Hw1.
  - repeat cm_step; [done |]. assert (Hup : inv_up w) by (apply Hrange; intros E; by rewrite E in *). apply up_then; [apply up_do_stop; apply Hup |].
    intros ? w1 Hw1. cm_step. apply up_uap_next, Hw1.
  - case_bool_decide as Hc; repeat cm_step; try done; try apply Hev.
    assert (Hup : inv_up w) by (apply Hrange; by rewrite Hc).
    apply ok_get_network; [done | apply Hup |]. intros n _ _. apply up_then.
    + cm_step. cm_step; [apply up_upd_network; [done | apply Hup | auto] | done].
    + intros _ w1 Hw1. repeat cm_step; [apply up_uap_next; destruct Hw1; split; [frame | done] |].
      apply up_then; [apply up_event; destruct Hw1; split; [frame | done] |]. intros. cm_step. by apply up_uap_next.
  - case_bool_decide as Hc; repeat cm_step; try done.
    assert (Hup : inv_up w) by (apply Hrange; by rewrite Hc).
    apply ok_get_network; [done | apply Hup |]. intros n _ _. repeat cm_step.
    + apply up_then; [apply up_upd_network; [done | apply Hup | auto] |]. intros _ w1 Hw1.
      apply up_then; [by apply up_event |]. intros. cm_step. by apply up_uap_next.
    + apply up_then; [by apply up_event |]. intros. cm_step. by apply up_uap_next.
Qed.

(** ** The main thread *)
Lemma keeps_main_message w m : inv N w -> message_ok N m -> keeps (cm_main_message env m w).
Proof.
  intros Hw Hm. unfold cm_main_message. destruct (is_uap_msg m) eqn:Hu.
  - eapply ok_bind; [by apply keeps_uap_state_machine |]. intros s w1 Hw1. by cm_step.
  - apply keeps_then; [by apply keeps_handle_message |]. intros s w1 Hw1. cm_step. frame.
Qed.
Lemma keeps_main_timeout w : inv N w -> keeps (cm_main_timeout env w).
Proof.
  intros Hw. unfold cm_main_timeout. repeat cm_step; try done. apply keeps_ieeeps_sm; [done | by right].
Qed.
Lemma keeps_assoc_timer w : (0 < N)%nat -> inv N w -> keeps (assoc_timer_cb w).
Proof.
  intros HN Hw. unfold assoc_timer_cb. repeat cm_step; [| frame].
  apply keeps_then; [apply inv_send; [frame |] |]; [cbn; lia |]. intros. by cm_step.
Qed.

(** ** The API

    A call returns with the invariant, or waits for the scan lock. *)
Definition returns_or_waits {A} (w : wlan) (r : outcome (A * wlan)) : Prop :=
  match r with Ret (_, w') => inv N w' | Fault Hang => scan_lock w = false | Fault _ => False end.
Lemma returns_keeps {A} w (r : outcome (A * wlan)) : keeps r -> returns_or_waits w r.
Proof. by destruct r as [[a w'] |]. Qed.

Lemma find_network_range f l : forall j i, find_network f l j = Some i -> j <= i < j + Z.of_nat (length l).
Proof.
  induction l as [| n l IH]; intros j i E; simpl in *; [done |]. destruct (f n); [injection E as <-; lia |]. apply IH in E. lia.
Qed.
Lemma find_network_inv w f i : inv N w -> find_network f (networks w) 0 = Some i -> 0 <= i < Z.of_nat N.
Proof. intros Hw E. apply find_network_range in E. rewrite (inv_length _ _ Hw) in E. lia. Qed.

Lemma network_acceptable_total n : network_wf n -> exists b, network_acceptable n = Ret b.
Proof.
  intros Hn.
  destruct Hn as (_ & _ & Hp & _). unfold network_acceptable, wlan_is_key_valid, psk_valid, isHexNumber. cbv zeta.
  repeat match goal with |- exists b, (if ?c then _ else _) = _ => destruct c; [by eexists |] end.
  assert (Hpsk : exists b, (if (psk_len (security n) <? WLAN_PSK_MIN_LENGTH) || (psk_len (security n) >=? WLAN_PSK_MAX_LENGTH)
     then Ret false else if psk_len (security n) =? WLAN_PSK_MAX_LENGTH - 1
     then c ← mem_read (psk (security n)) 0 (psk_len (security n));
          Ret (forallb (fun c => ((48 <=? c) && (c <=? 57)) || ((65 <=? c) && (c <=? 70)) || ((97 <=? c) && (c <=? 102))) c)
     else Ret true) = Ret b).
  { destruct (_ || _); [by eexists |]. destruct (Z.eqb_spec (psk_len (security n)) (WLAN_PSK_MAX_LENGTH - 1)) as [-> |];
      [| by eexists]. rewrite mem_read_total; [by eexists | rewrite Hp; unfold WLAN_PSK_MAX_LENGTH; lia]. }
  destruct Hpsk as (b & Eb). destruct (sec_type (security n)); try (by eexists); rewrite Eb; by eexists.
Qed.
Lemma keeps_add_network w n : inv N w -> network_wf n -> keeps (wlan_add_network env n w).
Proof.
  intros Hw Hn. unfold wlan_add_network. cm_step. cm_step; [by cm_step |].
  destruct (network_acceptable_total n Hn) as (b & E). eapply ok_lift; [exact E |]. cm_step; [by cm_step |].
  unfold find_in_table. cm_step. cm_step. destruct (find_network (named (name n)) (networks w) 0); [by cm_step |].
  destruct (find_network _ (networks w) 0) as [pos |] eqn:Ef; [| by cm_step].
  apply keeps_then; [apply inv_put_network; [done | by eapply find_network_inv |] |].
  { destruct Hn as (? & ? & ? & ?). unfold stored_network. cbv zeta. destruct (_ =? WLAN_BSS_ROLE_UAP), (_ =? 0), (bool_decide _); done. }
  intros _ w1 Hw1. apply keeps_then; [repeat cm_step; frame |]. intros fl w2 Hw2. repeat cm_step; frame.
Qed.
Lemma keeps_remove_network w s : inv N w -> keeps (wlan_remove_network s w).
Proof.
  intros Hw. unfold wlan_remove_network, find_in_table. cm_step. cm_step; [by cm_step |]. cm_step.
  destruct (find_network _ (networks w) 0) as [i |] eqn:Ef; [| by cm_step]. cm_step. cm_step; [by cm_step |].
  apply keeps_then; [apply inv_put_network; [done | by eapply find_network_inv |] |].
  - unfold network_wf. split; [done |]. split; [done |]. split; [done |]. cbn. by left.
  - intros _ w1 Hw1. repeat cm_step. frame.
Qed.
Ltac waits_step :=
  lazymatch goal with
  | |- returns_or_waits ?v ((get ?f ≫= ?k) ?w) => change (returns_or_waits v (k (f w) w)); cbv beta
  | |- returns_or_waits ?v ((upd ?f ≫= ?k) ?w) => change (returns_or_waits v (k tt (f w))); cbv beta
  | |- returns_or_waits ?v (mret ?a ?w) => apply returns_keeps; cm_step
  | |- returns_or_waits ?v ((if ?b then ?m1 else ?m2) ?w) => destruct b eqn:?
  end.
Lemma waits_request w m : inv N w -> message_ok N m -> returns_or_waits w (request_with_lock m w).
Proof.
  intros Hw Hm. unfold request_with_lock. do 2 waits_step; [by apply negb_true_iff |]. apply returns_keeps. do 2 cm_step.
  apply inv_send; [frame | done].
Qed.
Lemma waits_connect_locked w i : inv N w -> 0 <= i < Z.of_nat N -> returns_or_waits w (wlan_connect_locked i w).
Proof.
  intros Hw Hi. unfold wlan_connect_locked. do 2 waits_step; [by apply negb_true_iff |]. apply returns_keeps. do 3 cm_step.
  apply keeps_then; [| intros; by repeat cm_step]. apply inv_send; [| done]. apply inv_set_reassoc_count; [frame | done].
Qed.
Lemma waits_connect w s : inv N w -> returns_or_waits w (wlan_connect s w).
Proof.
  intros Hw. unfold wlan_connect, find_in_table. do 4 (waits_step; try by waits_step). do 2 waits_step. cbn [networks set_roam_reassoc].
  destruct (find_network _ _ _) as [i |] eqn:Ef; [| waits_step; frame].
  assert (H : returns_or_waits (set_roam_reassoc false w) (wlan_connect_locked i (set_roam_reassoc false w))); [| exact H].
  apply waits_connect_locked; [frame | by eapply find_network_inv].
Qed.
Lemma waits_reassociate_locked w : inv N w -> returns_or_waits w (wlan_reassociate_locked w).
Proof.
  intros Hw. unfold wlan_reassociate_locked. do 2 waits_step; [by apply negb_true_iff |]. apply returns_keeps. do 4 cm_step.
  apply keeps_then; [apply inv_send; [frame | apply (inv_current _ _ Hw)] |].
  intros. unfold release_scan_lock. cm_step; [by cm_step |]. cm_step. apply keeps_then; [repeat cm_step; frame |].
  intros. by cm_step.
Qed.
Lemma waits_reassociate w : inv N w -> returns_or_waits w (wlan_reassociate w).
Proof.
  intros Hw. unfold wlan_reassociate. do 6 (waits_step; try by waits_step). by apply waits_reassociate_locked.
Qed.
Lemma waits_scan w p : inv N w -> returns_or_waits w (wlan_scan_with_opt env p w).
Proof.
  intros Hw. unfold wlan_scan_with_opt. do 3 (waits_step; try by waits_step).
  pose proof (waits_request w (CM_STA_USER_REQUEST_SCAN (Some p)) Hw I) as H. unfold returns_or_waits in *.
  change ((request_with_lock ?m ≫= ?k) w) with ('(a, w1) ← request_with_lock m w; k a w1).
  destruct (request_with_lock _ w) as [[[] w1] | []]; exact H.
Qed.
Lemma keeps_start_network w s : inv N w -> keeps (wlan_start_network s w).
Proof.
  intros Hw. unfold wlan_start_network, find_in_table. do 3 cm_step. cm_step; [by cm_step |]. cm_step; [by cm_step |]. cm_step.
  destruct (find_network _ _ _) as [i |] eqn:Ef; [| by cm_step]. pose proof (find_network_inv _ _ _ Hw Ef) as Hi.
  apply ok_get_network; [done | done |]. intros n _ _. cm_step; [by cm_step |].
  apply keeps_then; [by apply inv_send |]. intros. by cm_step.
Qed.
Lemma keeps_stop_network w s : inv N w -> keeps (wlan_stop_network s w).
Proof.
  intros Hw. unfold wlan_stop_network, find_in_table. cm_step. cm_step; [by cm_step |]. do 2 cm_step.
  destruct (find_network _ _ _) as [i |] eqn:Ef; [| cm_step; frame]. cm_step.
  apply keeps_then; [apply inv_send; [frame | done] |]. intros. by cm_step.
Qed.

(** The API functions that change the state. *)
Inductive api :=
  | ApiAdd (n : wlan_network) | ApiRemove (s : list Z) | ApiConnect (s : list Z) | ApiConnectLocked (i : Z)
  | ApiReassociate | ApiReassociateLocked | ApiDisconnect | ApiScan (p : wlan_scan_params_v2_t)
  | ApiScanLocked (p : wlan_scan_params_v2_t) | ApiStart (s : list Z) | ApiStop (s : list Z) | ApiReassocControl (b : bool).
Definition api_ok (a : api) : Prop :=
  match a with ApiAdd n => network_wf n | ApiConnectLocked i => 0 <= i < Z.of_nat N | _ => True end.
Definition api_run (a : api) : CM unit :=
  match a with
  | ApiAdd n => _ ← wlan_add_network env n; skip
  | ApiRemove s => _ ← wlan_remove_network s; skip
  | ApiConnect s => _ ← wlan_connect s; skip
  | ApiConnectLocked i => _ ← wlan_connect_locked i; skip
  | ApiReassociate => _ ← wlan_reassociate; skip
  | ApiReassociateLocked => _ ← wlan_reassociate_locked; skip
  | ApiDisconnect => _ ← wlan_disconnect; skip
  | ApiScan p => _ ← wlan_scan_with_opt env p; skip
  | ApiScanLocked p => _ ← request_with_lock (CM_STA_USER_REQUEST_SCAN (Some p)); skip
  | ApiStart s => _ ← wlan_start_network s; skip
  | ApiStop s => _ ← wlan_stop_network s; skip
  | ApiReassocControl b => wlan_set_reassoc_control b
  end.
Lemma waits_skip {A} w (m : CM A) : returns_or_waits w (m w) -> returns_or_waits w ((_ ← m; skip) w).
Proof.
  unfold returns_or_waits. change ((m ≫= ?k) w) with ('(a, w1) ← m w; k a w1). by destruct (m w) as [[a w1] | []].
Qed.
Lemma waits_api w a : inv N w -> api_ok a -> returns_or_waits w (api_run a w).
Proof.
  intros Hw Ha. destruct a; cbn [api_run api_ok] in *; try apply waits_skip.
  - by apply returns_keeps, keeps_add_network.
  - by apply returns_keeps, keeps_remove_network.
  - by apply waits_connect.
  - by apply waits_connect_locked.
  - by apply waits_reassociate.
  - by apply waits_reassociate_locked.
  - by apply returns_keeps, keeps_disconnect.
  - by apply waits_scan.
  - by apply waits_request.
  - by apply returns_keeps, keeps_start_network.
  - by apply returns_keeps, keeps_stop_network.
  - apply returns_keeps. unfold wlan_set_reassoc_control. cm_step. frame.
Qed.
End Preservation.

(** ** Reachable states

    The main thread takes a message or waits in vain for one; another thread
    puts a message in the queue, runs a call, gets the lock it waited for, or
    starts to wait in [wlan_connect]; the timer expires. *)
Inductive step (N : nat) (w w' : wlan) : Prop :=
  | step_message env m q : env_ok env -> events w = m :: q -> cm_main_message env m (set_events q w) = Ret (tt, w') ->
      step N w w'
  | step_timeout env : env_ok env -> cm_main_timeout env w = Ret (tt, w') -> step N w w'
  | step_send m b : message_ok N m -> wlan_wlcmgr_send_msg m w = Ret (b, w') -> step N w w'
  | step_timer : assoc_timer_cb w = Ret (tt, w') -> step N w w'
  | step_api env a : api_ok N a -> api_run env a w = Ret (tt, w') -> step N w w'
  | step_wait : w' = set_roam_reassoc false w -> step N w w'.

Lemma inv_next_message N w m q : inv N w -> events w = m :: q -> inv N (set_events q w) /\ message_ok N m.
Proof.
  intros Hw E. destruct Hw. rewrite E in *. apply List.Forall_cons_iff in inv_queue0 as [Hm Hq]. simpl in *.
  split; [| done]. constructor; try done. simpl. lia.
Qed.
Lemma inv_step N w w' : inv N w -> step N w w' -> inv N w'.
Proof.
  intros Hw. assert (Hu : forall A (r : outcome (A * wlan)) a, ok (fun _ => inv N) r -> r = Ret (a, w') -> inv N w').
  { intros A r a Hr ->. exact Hr. }
  assert (HN : (0 < N)%nat) by (pose proof (inv_current _ _ Hw); lia).
  intros [env m q Henv Eq E | env Henv E | m b Hm E | E | env a Ha E | ->].
  - destruct (inv_next_message _ _ _ _ Hw Eq) as [Hw1 Hm]. eapply Hu; [| exact E]. by apply keeps_main_message.
  - eapply Hu; [| exact E]. by apply keeps_main_timeout.
  - eapply Hu; [| exact E]. by apply inv_send.
  - eapply Hu; [| exact E]. by apply keeps_assoc_timer.
  - pose proof (waits_api N env w a Hw Ha) as H. by rewrite E in H.
  - destruct Hw. by constructor.
Qed.
Lemma inv_steps N w w' : inv N w -> rtc (step N) w w' -> inv N w'.
Proof. intros Hw H. induction H as [| w w1 w2 Hs _ IH]; [done |]. by apply IH, (inv_step N w). Qed.

(** ** Inputs of the witnesses *)
Definition good_calls (rs : list (option wifi_scan_result2)) : calls :=
  MkCalls true true (Some rs) (fun _ => true) (false, false) true true true true true true true true (fun ip => ip)
    (fun _ => [1; 6; 11]) true true true false true.
Definition home : wlan_network :=
  set_name (lit "home") (set_ssid (lit "HomeNet" ++ replicate 26 0) (set_ipv4 (MkIp ADDR_TYPE_DHCP 0 0 0 0 0) no_network)).
Definition home_ap (rssi b : Z) : wifi_scan_result2 :=
  MkResult (replicate 5 2 ++ [b]) (lit "HomeNet" ++ replicate 25 0) 7 6 rssi 100 1 (MkMode false false false false false)
    false false false false false false false false false true true.
Definition home_scan : list (option wifi_scan_result2) := [Some (home_ap 70 1); None; Some (home_ap 50 2); Some (home_ap 60 3)].
(** The state after a computation. *)
Definition after {A} (m : CM A) (w : wlan) : wlan := match m w with Ret (_, w') => w' | Fault _ => w end.
Definition initialized : wlan :=
  after (cm_main_message (good_calls []) (WIFI_EVENT_NET_INTERFACE_CONFIG true)) (wlan_start 5 wlan_zero).
Lemma no_network_wf : network_wf no_network.
Proof. split; [done |]. split; [done |]. split; [done |]. by left. Defined.
Lemma home_wf : network_wf home.
Proof. split; [done |]. split; [done |]. split; [done |]. by left. Defined.
