(* ===== verification/WlcmTheorems.v ===== *)
(** * The connection manager: theorems

    Safety of every reachable state, what an attempt to connect leads to, the
    choice of the access point, the table of networks, the errors. *)
From stdpp Require Import relations.
From S2P Require Import Prelude CString WlcmData Wlcm WlcmProps.
Open Scope Z_scope.

(** ** Inputs of the witnesses *)

(** A network was added and a connection asked for. *)
Definition asked : wlan := after (_ ← wlan_add_network (good_calls []) home; wlan_connect (lit "home")) initialized.
Definition connecting : wlan :=
  after (upd (set_events []);; cm_main_message (good_calls []) (CM_STA_USER_REQUEST_CONNECT 0)) asked.

Lemma connecting_inv : inv 5 connecting.
Proof.
  vm_compute connecting. constructor; try done; try (cbn; unfold WLAN_RESCAN_LIMIT, WLAN_RECONNECT_LIMIT; lia).
  - cbn. constructor; [exact home_wf |]. repeat constructor; exact no_network_wf.
  - apply Nat.leb_le. by vm_compute.
Defined.
Lemma home_scan_ok : env_ok (good_calls home_scan).
Proof. split; [done |]. cbn. repeat constructor; done. Defined.

(** ** Safety *)

(** The first request to connect selects a network: after [wlan_start] the index
    of the current network is -1, everything else is as the invariant says, and
    in the turn that takes the request it gets in range. Until then a request to
    disconnect reads past the table
    ([WlcmErrors.disconnect_before_connect_reads_outside]). *)
Lemma first_connection_selects N env i n w : inv N (set_cur_network_idx 0 w) ->
  0 <= i -> networks w !! Z.to_nat i = Some n -> role n = WLAN_BSS_ROLE_STA ->
  assoc_paused w = false -> sta_num (sta_state w) < sta_num CM_STA_ASSOCIATING ->
  exists w', cm_main_message env (CM_STA_USER_REQUEST_CONNECT i) w = Ret (tt, w') /\ inv N w'.
Proof.
  intros Hw Hi Hn Hrole Hp Hs.
  assert (Hr : 0 <= i < Z.of_nat N) by (apply lookup_lt_Some in Hn; pose proof (inv_length _ _ Hw) as Hl; cbn [networks set_cur_network_idx] in Hl; lia).
  assert (Ea : arr_get (networks w) i = Ret n) by (apply arr_get_ret; by split).
  enough (H : ok (fun _ => inv N) (cm_main_message env (CM_STA_USER_REQUEST_CONNECT i) w))
    by (apply ok_ret in H as ([] & w' & E & Hw'); by exists w').
  unfold cm_main_message. cbn [is_uap_msg]. unfold handle_message. eapply (ok_bind (fun _ => inv N)).
  2: { intros s w1 Hw1. cm_step. by destruct Hw1. }
  do 4 cm_step. cbn [assoc_paused set_pending_assoc_request] in *. rewrite Hp in *. cbn [negb]. unfold wlcm_request_connect.
  eapply ok_network; [exact Ea |]. cm_step. cm_step. rewrite Z.geb_leb. cbn [roam_reassoc sta_state set_log set_pending_assoc_request].
  destruct (Z.leb_spec (sta_num CM_STA_ASSOCIATING) (sta_num (sta_state w))); [lia |]. rewrite andb_false_r. cbn [andb when]. cm_step.
  eapply (ok_bind (fun b w' => b = true /\ inv N w')).
  - unfold do_connect. eapply ok_network; [exact Ea |]. rewrite Hrole. cbn [Z.eqb negb WLAN_BSS_ROLE_STA]. do 2 cm_step.
    eapply ok_bind.
    + apply (keeps_do_scan N); [| done | done]. apply inv_set_scan_count; [| done]. destruct Hw. by constructor.
    + intros ? w1 Hw1. by cm_step.
  - intros b w1 [-> Hw1]. cbn [negb when]. by repeat cm_step.
Qed.
Lemma first_connection_selects_witness :
  exists w', cm_main_message (good_calls home_scan) (CM_STA_USER_REQUEST_CONNECT 0) (set_events [] asked) = Ret (tt, w') /\ inv 5 w'.
Proof.
  apply (first_connection_selects 5 (good_calls home_scan) 0 (default no_network (head (networks asked))));
    [| lia | vm_compute; reflexivity..].
  vm_compute asked. constructor; try done; try (cbn; unfold WLAN_RESCAN_LIMIT, WLAN_RECONNECT_LIMIT; lia).
  cbn. constructor; [exact home_wf |]. repeat constructor; exact no_network_wf.
Defined.

(** C2: From a state in which the invariant [inv] holds, which it does from the
    first request to connect on ([first_connection_selects]: before it the index
    of the current network is -1), in every state that the messages of the
    driver and the users, their calls from any thread, the timer and the timeouts
    lead to, in any order and whatever the lower layers answer that [env_ok]
    allows (scan results with SSIDs of at most 32 bytes): the indexes of
    the current networks are in range, the queue has at most 20 messages, the
    counters of scans and reconnections are at most 5, the power-save machines
    are in their first state; the next message, whatever it is, is handled
    without an access out of bounds; and a call returns or waits for the lock. *)
Theorem wlcm_reachable_safe N w0 w : inv N w0 -> rtc (step N) w0 w ->
  inv N w /\
  (forall env m q, env_ok env -> events w = m :: q -> exists w', cm_main_message env m (set_events q w) = Ret (tt, w')) /\
  (forall env a, api_ok N a ->
    (exists w', api_run env a w = Ret (tt, w')) \/ (api_run env a w = Fault Hang /\ scan_lock w = false)).
Proof.
  intros H0 Hs. pose proof (inv_steps _ _ _ H0 Hs) as Hw. split; [done |]. split.
  - intros env m q Henv Eq. destruct (inv_next_message _ _ _ _ Hw Eq) as [Hw1 Hm].
    pose proof (keeps_main_message N env Henv _ m Hw1 Hm) as H. apply ok_ret in H as ([] & w' & E & _). by exists w'.
  - intros env a Ha. pose proof (waits_api N env w a Hw Ha) as H. unfold returns_or_waits in H.
    destruct (api_run env a w) as [[[] w'] | []]; try done; [left; by eexists | by right].
Qed.
Lemma wlcm_reachable_safe_witness :
  exists w', cm_main_message (good_calls home_scan) (WIFI_EVENT_SCAN_RESULT true) (set_events [] (set_events [WIFI_EVENT_SCAN_RESULT true] connecting)) = Ret (tt, w').
Proof.
  assert (Hs : rtc (step 5) connecting (set_events [WIFI_EVENT_SCAN_RESULT true] connecting)).
  { eapply rtc_l; [| apply rtc_refl]. by eapply (step_send 5 _ _ (WIFI_EVENT_SCAN_RESULT true) true). }
  destruct (wlcm_reachable_safe 5 connecting _ connecting_inv Hs) as (_ & H & _).
  by apply (H (good_calls home_scan) (WIFI_EVENT_SCAN_RESULT true) [] home_scan_ok).
Defined.

(** ** The choice of the access point *)

(** The result [r] fits the network [n]. *)
Definition fits (env : calls) (hidden_on : bool) (n : wlan_network) (r : wifi_scan_result2) : Prop :=
  exists chans, network_matches_scan_result env hidden_on n r [] = Ret (true, chans).
(** The strongest of the results that fit, the first of them when several are. *)
Definition strongest (env : calls) (hidden_on : bool) (n : wlan_network) (rs : list (option wifi_scan_result2))
    (best : option wifi_scan_result2) : Prop :=
  match best with
  | None => forall r, Some r ∈ rs -> ~ fits env hidden_on n r
  | Some b => exists l1 l2, rs = l1 ++ Some b :: l2 /\ fits env hidden_on n b /\
      (forall r, Some r ∈ l1 -> fits env hidden_on n r -> res_RSSI b < res_RSSI r) /\
      (forall r, Some r ∈ l2 -> fits env hidden_on n r -> res_RSSI b <= res_RSSI r)
  end.

Lemma ssid_matches_channels on n r chans b c :
  ssid_matches on n r chans = Ret (b, c) -> exists c0, ssid_matches on n r [] = Ret (b, c0).
Proof.
  unfold ssid_matches. intros E. apply bind_inv in E as (h & -> & E). rewrite bind_ret. cbv beta in E.
  apply bind_inv in E as (c1 & _ & E). cbv beta in E.
  assert (H : exists c2, (if h then if Z.of_nat (length (A:=Z) []) <? MAX_SCAN_CHANNELS then Ret ([] ++ [res_Channel r]) else Fault OutOfBounds
                      else Ret []) = Ret c2) by (destruct h; by eexists).
  destruct H as (c2 & ->). rewrite bind_ret. destruct (res_ssid_len r =? 0); [injection E as <- <-; by eexists |].
  apply bind_inv in E as (len & -> & E). cbv beta in E. rewrite bind_ret. apply bind_inv in E as (eq & -> & E). cbv beta in E.
  rewrite bind_ret. injection E as <- <-. by eexists.
Qed.
Lemma matches_channels env on n r chans b c : network_matches_scan_result env on n r chans = Ret (b, c) ->
  exists c0, network_matches_scan_result env on n r [] = Ret (b, c0).
Proof.
  unfold network_matches_scan_result. destruct (channel_specific n && _); [intros [= <- <-]; by eexists |].
  destruct (bssid_specific n && _); [intros [= <- <-]; by eexists |]. intros E. apply bind_inv in E as ([k c1] & E1 & E). cbv beta in E.
  assert (H : exists c2, (if ssid_specific n then ssid_matches on n r [] else Ret (true, [])) = Ret (k, c2)).
  { destruct (ssid_specific n); [by eapply ssid_matches_channels |]. injection E1 as <- <-. by eexists. }
  destruct H as (c2 & ->). rewrite bind_ret. destruct k; cbn [negb] in *; [| injection E as <- <-; by eexists].
  destruct (security_specific n && _); [injection E as <- <-; by eexists |].
  destruct (_ && (_ || _)); injection E as <- <-; by eexists.
Qed.
Lemma fits_matches env on n r chans b c : network_matches_scan_result env on n r chans = Ret (b, c) ->
  (b = true <-> fits env on n r).
Proof.
  intros E. apply matches_channels in E as (c0 & E). unfold fits. rewrite E. split; [intros ->; by eexists | by intros (? & [= -> _])].
Qed.

Lemma strongest_snoc env on n rs best r b :
  (b = true <-> fits env on n r) -> strongest env on n rs best ->
  strongest env on n (rs ++ [Some r])
    (if b then match best with None => Some r | Some b => if res_RSSI b >? res_RSSI r then Some r else Some b end else best).
Proof.
  intros Hb Hs. destruct b.
  - assert (Hr : fits env on n r) by by apply Hb. destruct best as [x |]; cbn [strongest] in Hs.
    + destruct Hs as (l1 & l2 & -> & Hx & H1 & H2). rewrite Z.gtb_ltb. destruct (Z.ltb_spec (res_RSSI r) (res_RSSI x)).
      * exists (l1 ++ Some x :: l2), []. split; [done |]. split; [done |]. split; [| intros ? Hin; by apply not_elem_of_nil in Hin].
        intros y [Hin | [[= ->] | Hin]%elem_of_cons]%elem_of_app Hy; [specialize (H1 y Hin Hy) | | specialize (H2 y Hin Hy)]; lia.
      * exists l1, (l2 ++ [Some r]). rewrite <- app_assoc. split; [done |]. split; [done |]. split; [done |].
        intros y [Hin | [[= ->] | Hin]%elem_of_cons]%elem_of_app Hy; [by apply H2 | lia | by apply not_elem_of_nil in Hin].
    + exists rs, []. split; [done |]. split; [done |]. split; [| intros ? Hin; by apply not_elem_of_nil in Hin].
      intros y Hin Hy. by destruct (Hs y Hin).
  - assert (Hr : ~ fits env on n r) by (intros H; by apply Hb in H). destruct best as [x |]; cbn [strongest] in *.
    + destruct Hs as (l1 & l2 & -> & Hx & H1 & H2). exists l1, (l2 ++ [Some r]). rewrite <- app_assoc.
      split; [done |]. split; [done |]. split; [done |].
      intros y [Hin | [[= ->] | Hin]%elem_of_cons]%elem_of_app Hy; [by apply H2 | done | by apply not_elem_of_nil in Hin].
    + intros y [Hin | [[= ->] | Hin]%elem_of_cons]%elem_of_app; [by apply Hs | done | by apply not_elem_of_nil in Hin].
Qed.
Lemma strongest_none env on n rs best : strongest env on n rs best -> strongest env on n (rs ++ [None]) best.
Proof.
  destruct best as [x |]; cbn [strongest].
  - intros (l1 & l2 & -> & Hx & H1 & H2). exists l1, (l2 ++ [None]). rewrite <- app_assoc. split; [done |]. split; [done |].
    split; [done |]. intros y [Hin | [[=] | Hin]%elem_of_cons]%elem_of_app; [by apply H2 | by apply not_elem_of_nil in Hin].
  - intros H y [Hin | [[=] | Hin]%elem_of_cons]%elem_of_app; [by apply H | by apply not_elem_of_nil in Hin].
Qed.
Lemma select_ap_strongest env on n rs : forall pre best chans best' chans',
  strongest env on n pre best -> select_ap env on n rs best chans = Ret (best', chans') -> strongest env on n (pre ++ rs) best'.
Proof.
  induction rs as [| [r |] rs IH]; intros pre best chans best' chans' Hs E; cbn [select_ap] in E.
  - injection E as <- <-. by rewrite app_nil_r.
  - apply bind_inv in E as ([b c] & Em & E). cbv beta iota in E. apply fits_matches in Em.
    rewrite cons_middle, app_assoc. eapply IH; [| exact E]. by apply strongest_snoc.
  - rewrite cons_middle, app_assoc. eapply IH; [| exact E]. by apply strongest_none.
Qed.

(** Of the results of a scan, any of which may be missing, the connection manager
    takes one that fits the network whose signal is the strongest ([RSSI] is the
    magnitude of a negative power), the first of those when several have it; it
    takes none only when none fits. *)
Theorem select_ap_takes_strongest env on n rs : network_wf n -> Z.of_nat (length rs) <= MAX_SCAN_CHANNELS ->
  Forall (fun r => match r with Some r => result_ok r | None => True end) rs ->
  exists best chans, select_ap env on n rs None [] = Ret (best, chans) /\ strongest env on n rs best.
Proof.
  intros Hn Hl Hrs. destruct (select_ap_total env on n rs None [] Hn Hrs) as (best & chans & E & _); [done | done |].
  exists best, chans. split; [done |]. apply (select_ap_strongest env on n rs [] None [] best chans); [| done].
  intros r Hin. by apply not_elem_of_nil in Hin.
Qed.
Lemma select_ap_takes_strongest_witness :
  exists best chans, select_ap (good_calls home_scan) false (stored_network home) home_scan None [] = Ret (best, chans) /\
    best = Some (home_ap 50 2).
Proof.
  destruct (select_ap_takes_strongest (good_calls home_scan) false (stored_network home) home_scan) as (best & chans & E & _);
    [exact home_wf | done | exact (proj2 home_scan_ok) |].
  exists best, chans. split; [exact E |]. vm_compute in E. by injection E as <- _.
Defined.

(** ** A network that is not there *)

(** The reasons reported to the user, and the scans sent to the driver. *)
Definition reasons (l : list action) : list wlan_event_reason :=
  omap (fun a => match a with ConnectionEvent r => Some r | _ => None end) l.
Definition scans (l : list action) : nat :=
  length (List.filter (fun a => match a with SendScan _ _ _ => true | _ => false end) l).
Arguments reasons : simpl never.
Arguments scans : simpl never.
Lemma reasons_app l1 l2 : reasons (l1 ++ l2) = reasons l1 ++ reasons l2.
Proof. apply omap_app. Qed.
Lemma scans_app l1 l2 : scans (l1 ++ l2) = (scans l1 + scans l2)%nat.
Proof. unfold scans. by rewrite List.filter_app, length_app. Qed.

(** The connection manager looks for network [i], which is [n]: it has sent [c]
    scans in this round, and [r] rounds have failed. *)
Record searching (i : Z) (n : wlan_network) (c r : Z) (w : wlan) : Prop := MkSearching {
  searching_state : sta_state w = CM_STA_SCANNING;
  searching_index : cur_network_idx w = i;
  searching_network : arr_get (networks w) i = Ret n;
  searching_role : role n = WLAN_BSS_ROLE_STA;
  searching_scan : scan_count w = c;
  searching_reassoc : reassoc_count w = r;
  searching_control : reassoc_control w = true;
  searching_roam : roam_reassoc w = false;
  searching_running : running w = true;
  searching_cb : cb w = true
}.
(** No result of the scan fits it, nor may be it with its SSID hidden. *)
Definition absent (env : calls) (n : wlan_network) : Prop :=
  mem_ok env = true /\ scan_cmd_ok env = true /\
  forall on, select_ap env on n (default [] (scan_results env)) None [] = Ret (None, []).

Lemma do_scan_spec (Q : unit -> wlan -> Prop) env i w n : scan_cmd_ok env = true -> arr_get (networks w) i = Ret n ->
  (forall act, act = SendScan (scan_bssid n) (scan_ssid n)
     (if (if channel_specific n then channel n else 0) =? 0 then [] else [u8 (if channel_specific n then channel n else 0)]) ->
   Q tt (set_scan_count (u32 (scan_count w + 1)) (set_log (log w ++ [act]) (set_sta_state CM_STA_SCANNING w)))) ->
  ok Q (do_scan env i w).
Proof. intros Hs E HQ. unfold do_scan. eapply ok_network; [exact E |]. do 2 cm_step. rewrite Hs. repeat cm_step. by apply HQ. Qed.

(** What a fruitless scan result adds to the log. *)
Definition fruitless (w w' : wlan) (rs : list wlan_event_reason) (k : nat) : Prop :=
  events w' = events w /\ networks w' = networks w /\
  reasons (log w') = reasons (log w) ++ rs /\ scans (log w') = (scans (log w) + k)%nat.

Lemma searching_handle (Q : cm_sta_state -> wlan -> Prop) env i n c r w : searching i n c r w -> absent env n ->
  (ok (fun _ w' => Q (sta_state w') (set_is_scan_lock false (set_scan_lock true w')))
     (scan_again env i (set_sta_state CM_STA_ASSOCIATING w))) ->
  ok Q (wlcm_process_scan_result_event env true (sta_state w) w).
Proof.
  intros [] (Hm & Hs & Hap) HQ. unfold wlcm_process_scan_result_event. do 2 cm_step. rewrite searching_state0.
  eapply ok_bind.
  - unfold handle_scan_results. cm_step. rewrite Hm. cbn [negb]. cm_step. eapply ok_network; [by rewrite searching_index0 |].
    cm_step. eapply ok_lift; [apply Hap |]. cbv beta iota. cbn [bool_decide decide]. rewrite searching_index0.
    rewrite bool_decide_eq_false_2 by congruence. exact HQ.
  - intros ? w' HQ'. cm_step. unfold release_scan_lock. exact HQ'.
Qed.
Lemma searching_again env i n c r w : searching i n c r w -> absent env n -> 0 <= c < WLAN_RESCAN_LIMIT ->
  ok (fun _ w' => searching i n (c + 1) r w' /\ fruitless w w' [] 1)
    (cm_main_message env (WIFI_EVENT_SCAN_RESULT true) w).
Proof.
  intros Hw Ha Hc. unfold cm_main_message. cbn [is_uap_msg]. unfold handle_message. eapply ok_bind.
  - do 2 cm_step. eapply (searching_handle (fun s w' => searching i n (c + 1) r (set_sta_state s w') /\ fruitless w w' [] 1));
      [done | done |]. destruct Hw. unfold scan_again. cm_step. cbn [roam_reassoc set_sta_state]. rewrite searching_roam0. cm_step.
    cbn [scan_count set_sta_state]. rewrite searching_scan0. replace (c <? WLAN_RESCAN_LIMIT) with true by (symmetry; apply Z.ltb_lt; lia).
    cm_step. eapply do_scan_spec; [apply Ha | done |]. intros act ->. split.
    + constructor; try done. cbn. rewrite searching_scan0, wrap_small; [done | unfold WLAN_RESCAN_LIMIT in *; lia].
    + split; [done |]. split; [done |]. cbn. rewrite reasons_app, scans_app. done.
  - intros s w' [H1 H2]. by cm_step.
Qed.
Lemma request_connect_spec (Q : cm_sta_state -> wlan -> Prop) env i network w n : scan_cmd_ok env = true ->
  arr_get (networks w) i = Ret n -> role n = WLAN_BSS_ROLE_STA -> sta_num (sta_state w) < sta_num CM_STA_ASSOCIATING ->
  (forall acts w', reasons acts = [] -> scans acts = 1%nat ->
    w' = set_scan_count 1 (set_log (log w ++ acts) (set_sta_state CM_STA_SCANNING (set_scan_count 0 (set_cur_network_idx i w)))) ->
    Q CM_STA_SCANNING w') ->
  ok Q (wlcm_request_connect env i network w).
Proof.
  intros Hs En Hr Hst HQ. unfold wlcm_request_connect. eapply ok_network; [exact En |]. cm_step. cm_step.
  rewrite Z.geb_leb. cbn [roam_reassoc sta_state set_log].
  destruct (Z.leb_spec (sta_num CM_STA_ASSOCIATING) (sta_num (sta_state w))); [lia |]. rewrite andb_false_r. cbn [andb when]. cm_step.
  apply (ok_bind (fun b w' => b = true /\ Q CM_STA_SCANNING w' /\ sta_state w' = CM_STA_SCANNING)).
  - unfold do_connect. eapply ok_network; [exact En |]. rewrite Hr. cbn [Z.eqb negb WLAN_BSS_ROLE_STA]. do 2 cm_step. eapply ok_bind.
    + eapply (do_scan_spec (fun _ w' => Q CM_STA_SCANNING w' /\ sta_state w' = CM_STA_SCANNING)); [done | exact En |].
      intros act Ea. split; [| done]. cbn [log set_log set_scan_count set_cur_network_idx]. apply (HQ [SetPmf (mfpc (security n)) (mfpr (security n)); act]);
        [by rewrite Ea | by rewrite Ea |]. cbn [log set_log set_scan_count set_cur_network_idx]. by rewrite <- app_assoc.
    + intros [] w' H'. by cm_step.
  - intros b w' (-> & HQ' & Hst'). cbn [negb when]. do 2 cm_step. by rewrite Hst'.
Qed.
Lemma event_spec (Q : unit -> wlan -> Prop) r w : cb w = true -> Q tt (set_log (log w ++ [ConnectionEvent r]) w) ->
  ok Q (connection_event r w).
Proof. intros Hcb HQ. unfold connection_event. cm_step. rewrite Hcb. exact HQ. Qed.
Lemma do_connect_failed_spec (Q : unit -> wlan -> Prop) r w : sta_state w <> CM_STA_SCANNING_USER -> cb w = true ->
  Q tt (set_log (log w ++ [ConnectionEvent r]) (set_sta_state CM_STA_IDLE w)) -> ok Q (do_connect_failed r w).
Proof.
  intros Hu Hcb HQ. unfold do_connect_failed. cm_step. unfold is_user_scanning. rewrite bool_decide_eq_false_2 by done. cbn [when].
  do 2 cm_step. by apply event_spec.
Qed.
Lemma searching_round_fails env i n r w : searching i n WLAN_RESCAN_LIMIT r w -> absent env n -> 0 <= r < WLAN_RECONNECT_LIMIT ->
  ok (fun _ w' => searching i n 1 (r + 1) w' /\ fruitless w w' [WLAN_REASON_NETWORK_NOT_FOUND] 1)
    (cm_main_message env (WIFI_EVENT_SCAN_RESULT true) w).
Proof.
  intros Hw Ha Hc. unfold cm_main_message. cbn [is_uap_msg]. unfold handle_message. eapply ok_bind.
  - do 2 cm_step. eapply (searching_handle (fun s w' => searching i n 1 (r + 1) (set_sta_state s w') /\
      fruitless w w' [WLAN_REASON_NETWORK_NOT_FOUND] 1)); [done | done |].
    destruct Hw, Ha as (_ & Hs & _). unfold scan_again. cm_step. cbn [roam_reassoc set_sta_state]. rewrite searching_roam0. cm_step.
    cbn [scan_count set_sta_state]. rewrite searching_scan0. cbn [Z.ltb Z.compare Pos.compare Pos.compare_cont WLAN_RESCAN_LIMIT].
    eapply (ok_bind (fun _ w' => w' = set_log (log w ++ [ConnectionEvent WLAN_REASON_NETWORK_NOT_FOUND])
       (set_sta_state CM_STA_IDLE (set_sta_state CM_STA_ASSOCIATING w)))).
    { by apply do_connect_failed_spec. }
    intros [] w1 ->. cm_step. eapply ok_bind.
    { unfold maybe_reconnect. cm_step. cbn [reassoc_control set_log set_sta_state]. rewrite searching_control0.
      unfold wlcm_request_reconnect. do 2 cm_step. cbn [reassoc_count set_log set_sta_state set_reassoc_request].
      rewrite searching_reassoc0. replace (r <? WLAN_RECONNECT_LIMIT) with true by (symmetry; apply Z.ltb_lt; lia). do 2 cm_step.
      cbn [cur_network_idx set_log set_sta_state set_reassoc_request set_reassoc_count]. rewrite searching_index0.
      eapply (request_connect_spec (fun _ w' => searching i n 1 (r + 1) (set_sta_state (sta_state w')
         (set_is_scan_lock false (set_scan_lock true w'))) /\
         fruitless w (set_is_scan_lock false (set_scan_lock true w')) [WLAN_REASON_NETWORK_NOT_FOUND] 1));
        [done | done | done | done |]. intros acts w' Hr1 Hs1 ->. split.
      - constructor; try done. cbn. rewrite wrap_small; [done | unfold WLAN_RECONNECT_LIMIT in *; lia].
      - split; [done |]. split; [done |]. cbn. rewrite !reasons_app, !scans_app, Hr1, Hs1, app_nil_r. cbn.
        split; [done |]. unfold scans. cbn. lia. }
    intros s w' H. cm_step. exact H.
  - intros s w' [H1 H2]. by cm_step.
Qed.
(** The last round has failed: the attempt is over. *)
Definition gave_up (w w' : wlan) (rs : list wlan_event_reason) (k : nat) : Prop :=
  sta_state w' = CM_STA_IDLE /\ reassoc_count w' = 0 /\ reassoc_request w' = false /\ scan_lock w' = true /\
  networks w' = networks w /\
  events w' = events w ++ (if bool_decide (length (events w) < MAX_EVENTS)%nat then [CM_STA_USER_REQUEST_DISCONNECT] else []) /\
  reasons (log w') = reasons (log w) ++ rs /\ scans (log w') = (scans (log w) + k)%nat.
Lemma searching_gives_up env i n w : searching i n WLAN_RESCAN_LIMIT WLAN_RECONNECT_LIMIT w -> absent env n ->
  ok (fun _ w' => gave_up w w' [WLAN_REASON_NETWORK_NOT_FOUND; WLAN_REASON_CONNECT_FAILED] 0)
    (cm_main_message env (WIFI_EVENT_SCAN_RESULT true) w).
Proof.
  intros Hw Ha. unfold cm_main_message. cbn [is_uap_msg]. unfold handle_message. eapply ok_bind.
  - do 2 cm_step. eapply (searching_handle (fun s w' => gave_up w (set_sta_state s w')
      [WLAN_REASON_NETWORK_NOT_FOUND; WLAN_REASON_CONNECT_FAILED] 0)); [done | done |].
    destruct Hw, Ha as (_ & Hs & _). unfold scan_again. cm_step. cbn [roam_reassoc set_sta_state]. rewrite searching_roam0. cm_step.
    cbn [scan_count set_sta_state]. rewrite searching_scan0. cbn [Z.ltb Z.compare Pos.compare Pos.compare_cont WLAN_RESCAN_LIMIT].
    eapply (ok_bind (fun _ w' => w' = set_log (log w ++ [ConnectionEvent WLAN_REASON_NETWORK_NOT_FOUND])
       (set_sta_state CM_STA_IDLE (set_sta_state CM_STA_ASSOCIATING w)))); [by apply do_connect_failed_spec |].
    intros [] w1 ->. cm_step. apply (ok_bind (fun _ w' => gave_up w (set_sta_state (sta_state w')
      (set_is_scan_lock false (set_scan_lock true w'))) [WLAN_REASON_NETWORK_NOT_FOUND; WLAN_REASON_CONNECT_FAILED] 0)).
    { unfold maybe_reconnect. cm_step. cbn [reassoc_control set_log set_sta_state]. rewrite searching_control0.
      unfold wlcm_request_reconnect. do 2 cm_step. cbn [reassoc_count set_log set_sta_state set_reassoc_request].
      rewrite searching_reassoc0. replace (WLAN_RECONNECT_LIMIT <? WLAN_RECONNECT_LIMIT) with false by done. do 2 cm_step.
      eapply ok_bind; [apply (event_spec (fun _ w' => w' = set_log ((log w ++ [ConnectionEvent WLAN_REASON_NETWORK_NOT_FOUND]) ++
        [ConnectionEvent WLAN_REASON_CONNECT_FAILED]) (set_reassoc_count 0 (set_reassoc_request false (set_reassoc_request true
        (set_log (log w ++ [ConnectionEvent WLAN_REASON_NETWORK_NOT_FOUND]) (set_sta_state CM_STA_IDLE
        (set_sta_state CM_STA_ASSOCIATING w)))))))); [done | done] |]. intros [] w1 ->.
      eapply (ok_bind (fun _ w' => gave_up w (set_sta_state (sta_state w') (set_is_scan_lock false (set_scan_lock true w')))
         [WLAN_REASON_NETWORK_NOT_FOUND; WLAN_REASON_CONNECT_FAILED] 0)).
      2: { intros ? w1 H. cm_step. exact H. }
      unfold wlan_disconnect. cm_step. cbn [running set_log set_sta_state set_reassoc_request set_reassoc_count].
      rewrite searching_running0. cbn [negb]. unfold send_user_request, wlan_wlcmgr_send_msg.
      eapply ok_bind; [| intros ? w1 H; cm_step; exact H]. cm_step.
      cbn [events set_log set_sta_state set_reassoc_request set_reassoc_count]. unfold gave_up.
      destruct (bool_decide _); repeat cm_step; (do 5 (split; [reflexivity |])); (split; [by rewrite ?app_nil_r |]);
        cbn [log set_events set_log set_sta_state set_reassoc_request set_reassoc_count set_scan_lock set_is_scan_lock];
        rewrite !reasons_app, !scans_app, <- !app_assoc; (split; [reflexivity |]); rewrite <- !Nat.add_assoc; reflexivity. }
    intros s w' H. cm_step. exact H.
  - intros s w' H. by cm_step.
Qed.

(** Scans are answered as long as results arrive. *)
Fixpoint scans_answered (env : calls) (k : nat) : CM unit :=
  match k with O => skip | S k' => cm_main_message env (WIFI_EVENT_SCAN_RESULT true);; scans_answered env k' end.
Lemma fruitless_then w w1 w2 rs1 rs2 k1 k2 : fruitless w w1 rs1 k1 -> gave_up w1 w2 rs2 k2 -> gave_up w w2 (rs1 ++ rs2) (k1 + k2).
Proof.
  intros (E1 & E2 & E3 & E4) (? & ? & ? & ? & F1 & F2 & F3 & F4). unfold gave_up.
  rewrite F1, F2, F3, F4, E1, E2, E3, E4, <- app_assoc, Nat.add_assoc. tauto.
Qed.
Lemma answered_step env k w w1 Q : cm_main_message env (WIFI_EVENT_SCAN_RESULT true) w = Ret (tt, w1) ->
  (exists w', scans_answered env k w1 = Ret (tt, w') /\ Q w') -> exists w', scans_answered env (S k) w = Ret (tt, w') /\ Q w'.
Proof.
  intros E (w' & E' & HQ). exists w'. split; [| done].
  change (scans_answered env (S k) w) with ('(_, w1) ← cm_main_message env (WIFI_EVENT_SCAN_RESULT true) w; scans_answered env k w1).
  by rewrite E, bind_ret.
Qed.
Lemma absent_gives_up env i n : absent env n -> forall k c r w, searching i n c r w -> 1 <= c <= WLAN_RESCAN_LIMIT ->
  0 <= r <= WLAN_RECONNECT_LIMIT -> Z.of_nat k = (WLAN_RESCAN_LIMIT - c) + WLAN_RESCAN_LIMIT * (WLAN_RECONNECT_LIMIT - r) ->
  exists w', scans_answered env (S k) w = Ret (tt, w') /\
    gave_up w w' (replicate (Z.to_nat (WLAN_RECONNECT_LIMIT - r + 1)) WLAN_REASON_NETWORK_NOT_FOUND ++ [WLAN_REASON_CONNECT_FAILED]) k.
Proof.
  intros Ha k. induction k as [| k IH]; intros c r w Hw Hc Hr Hk; unfold WLAN_RESCAN_LIMIT, WLAN_RECONNECT_LIMIT in *.
  - assert (c = 5) as -> by lia. assert (r = 5) as -> by lia.
    pose proof (searching_gives_up env i n w Hw Ha) as ([] & w' & E & H)%ok_ret.
    eapply answered_step; [exact E |]. by exists w'.
  - destruct (Z.eq_dec c 5) as [-> |].
    + pose proof (searching_round_fails env i n r w Hw Ha) as H0. unfold WLAN_RECONNECT_LIMIT in H0.
      destruct (proj1 (ok_ret _ _) (H0 ltac:(lia))) as ([] & w1 & E & Hw1 & Hf). eapply answered_step; [exact E |].
      destruct (IH 1 (r + 1) w1 Hw1) as (w' & E' & H'); [lia.. |]. exists w'. split; [done |].
      replace (Z.to_nat (5 - r + 1)) with (S (Z.to_nat (5 - (r + 1) + 1))) by lia. by apply (fruitless_then w w1 w' [_] _ 1 k).
    + pose proof (searching_again env i n c r w Hw Ha) as H0. unfold WLAN_RESCAN_LIMIT in H0.
      destruct (proj1 (ok_ret _ _) (H0 ltac:(lia))) as ([] & w1 & E & Hw1 & Hf). eapply answered_step; [exact E |].
      destruct (IH (c + 1) r w1 Hw1) as (w' & E' & H'); [lia.. |]. exists w'. split; [done |].
      by apply (fruitless_then w w1 w' [] _ 1 k).
Qed.

(** C20: Looking for a network that no scan finds comes to an end, when there is
    memory for the results and every scan command is accepted ([scan_cmd_ok], in
    [absent]; when they are refused it does not,
    [WlcmErrors.refused_scans_never_end]): with [c] scans sent
    in this round and [r] rounds failed, after the results of [k] more scans
    ([k] at most 29) and one more, the station is idle, the scan lock is free,
    each failed round was reported as a network not found and the last also as a
    failed connection, the networks are as before and a disconnection is asked for. *)
Theorem absent_network_gives_up env i n c r w k : searching i n c r w -> absent env n -> 1 <= c <= WLAN_RESCAN_LIMIT ->
  0 <= r <= WLAN_RECONNECT_LIMIT -> Z.of_nat k = (WLAN_RESCAN_LIMIT - c) + WLAN_RESCAN_LIMIT * (WLAN_RECONNECT_LIMIT - r) ->
  exists w', scans_answered env (S k) w = Ret (tt, w') /\
    gave_up w w' (replicate (Z.to_nat (WLAN_RECONNECT_LIMIT - r + 1)) WLAN_REASON_NETWORK_NOT_FOUND ++ [WLAN_REASON_CONNECT_FAILED]) k.
Proof. intros Hw Ha. by apply (absent_gives_up env i n Ha). Qed.
Lemma absent_network_gives_up_witness : exists w', scans_answered (good_calls []) 30 connecting = Ret (tt, w') /\
  gave_up connecting w' (replicate 6 WLAN_REASON_NETWORK_NOT_FOUND ++ [WLAN_REASON_CONNECT_FAILED]) 29.
Proof.
  apply (absent_network_gives_up (good_calls []) 0 (stored_network home) 1 0 connecting 29); [by constructor | by split | | |];
    cbn; unfold WLAN_RESCAN_LIMIT, WLAN_RECONNECT_LIMIT; lia.
Defined.

(** ** A connection that succeeds *)

(** [w] is [w0] with network [i] replaced by [n] and the actions [acts] done. *)
Definition changed (i : Z) (w0 : wlan) (acts : list action) (n : wlan_network) (w : wlan) : Prop :=
  0 <= i < Z.of_nat (length (networks w0)) /\
  w = set_log (log w0 ++ acts) (set_networks (<[Z.to_nat i := n]> (networks w0)) w0).
Lemma changed_network i w0 acts n w : changed i w0 acts n w -> arr_get (networks w) i = Ret n.
Proof.
  intros [Hi ->]. cbn [networks set_log set_networks]. unfold arr_get. destruct (Z.ltb_spec i 0); [lia |].
  by rewrite list_lookup_insert_eq by lia.
Qed.
Lemma changed_refl i w n : arr_get (networks w) i = Ret n -> changed i w [] n w.
Proof.
  intros E. apply arr_get_ret in E as [Hi E]. pose proof (lookup_lt_Some _ _ _ E). split; [lia |]. rewrite app_nil_r, list_insert_id by done. by destruct w.
Qed.
Lemma changed_upd (Q : unit -> wlan -> Prop) i w0 acts n w f : changed i w0 acts n w ->
  (forall w', changed i w0 acts (f n) w' -> Q tt w') -> ok Q (upd_network i f w).
Proof.
  intros Hc HQ. unfold upd_network. eapply ok_network; [by eapply changed_network |]. unfold put_network. cm_step.
  destruct Hc as [Hi ->]. cbn [networks set_log set_networks]. eapply ok_lift; [apply arr_set_ret; by rewrite length_insert |].
  cm_step. apply HQ. split; [done |]. rewrite list_insert_insert_eq. by destruct w0.
Qed.
Lemma changed_emit (Q : unit -> wlan -> Prop) i w0 acts n w a : changed i w0 acts n w ->
  (forall w', changed i w0 (acts ++ [a]) n w' -> Q tt w') -> ok Q (emit a w).
Proof. intros [Hi ->] HQ. cm_step. apply HQ. split; [done |]. cbn. by rewrite app_assoc. Qed.

(** What a scan result leaves of a network. *)
Definition same (n n' : wlan_network) : Prop :=
  name n' = name n /\ role n' = role n /\ bss_type n' = bss_type n /\ ipv4 n' = ipv4 n.
(** The security type it is connected with. *)
Definition final_type (n : wlan_network) (r : wifi_scan_result2) : wlan_security_type :=
  if security_specific n then sec_type (security n) else wildcard_type (WPA_WPA2_WEP r).
Lemma sec_type_copy r s : sec_type (copy_ciphers r s) = sec_type s.
Proof.
  unfold copy_ciphers, copy_rsn_ciphers, copy_wpa_ciphers. destruct (sec_type s) eqn:E; try done; destruct (_ || _);
    destruct (rsn_mcst_ccmp r), (rsn_ucst_ccmp r); try destruct (wpa_mcst_ccmp r), (wpa_ucst_ccmp r); cbn; done.
Qed.
(** A setting of [update_network_params] that keeps the identity and the type. *)
Lemma changed_when i w0 acts n r b f m w : changed i w0 acts m w -> same n m /\ sec_type (security m) = final_type n r ->
  (forall m, same m (f m) /\ sec_type (security (f m)) = sec_type (security m)) ->
  ok (fun _ w' => exists m, changed i w0 acts m w' /\ same n m /\ sec_type (security m) = final_type n r)
     (when b (upd_network i f) w).
Proof.
  intros Hm [(M1 & M2 & M3 & M4) Tm] Hf. destruct b; cbn [when]; [| cm_step; by exists m].
  eapply changed_upd; [exact Hm |]. intros w' H'. exists (f m). split; [done |]. destruct (Hf m) as [(F1 & F2 & F3 & F4) F5].
  unfold same. by rewrite F1, F2, F3, F4, F5.
Qed.
Lemma update_spec (Q : unit -> wlan -> Prop) i w n r : arr_get (networks w) i = Ret n -> network_wf n -> result_ok r ->
  (forall acts n' w', changed i w acts n' w' -> same n n' -> sec_type (security n') = final_type n r -> reasons acts = [] -> Q tt w') ->
  ok Q (update_network_params i r w).
Proof.
  intros En (Hl & _) [Hr Hlen] HQ. pose proof (changed_refl i w n En) as H0. unfold update_network_params.
  eapply ok_network; [exact En |].
  eapply (ok_bind (fun _ w' => exists acts n', changed i w acts n' w' /\
    (same n n' /\ sec_type (security n') = final_type n r) /\ reasons acts = [])).
  { unfold final_type. destruct (security_specific n); cbn [negb when]; [cm_step; by eexists _, n |]. cbv zeta.
    eapply ok_bind; [eapply (changed_upd (fun _ w' => changed i w [] _ w')); [exact H0 | done] |]. intros ? w1 H1.
    destruct (bool_decide _); cbn [when]; [| cm_step; eexists [], _; split; [exact H1 | done]].
    eapply ok_bind; [eapply (changed_upd (fun _ w' => changed i w [] _ w')); [exact H1 | done] |]. intros ? w2 H2.
    eapply changed_emit; [exact H2 |]. intros w3 H3. eexists _, _. split; [exact H3 | done]. }
  intros ? w1 (acts & n1 & H1 & P1 & R1).
  eapply ok_bind; [apply (changed_when i w acts n r true _ n1); [exact H1 | exact P1 | done] |]. intros ? w2 (n2 & H2 & P2).
  eapply ok_bind; [eapply changed_when; [exact H2 | exact P2 | done] |]. intros ? w3 (n3 & H3 & P3).
  eapply ok_bind; [eapply changed_when; [exact H3 | exact P3 | done] |]. intros ? w4 (n4 & H4 & P4).
  eapply (ok_bind (fun _ w' => exists m, changed i w acts m w' /\ same n m /\ sec_type (security m) = final_type n r)).
  { destruct (ssid_specific n); cbn [negb when]; [cm_step; by exists n4 |].
    eapply ok_lift; [apply mem_read_total; lia |]. eapply ok_lift; [apply mem_write_head; rewrite length_take; lia |].
    apply (changed_when i w acts n r true _ n4); [exact H4 | exact P4 | done]. }
  intros ? w5 (n5 & H5 & P5 & T5). eapply changed_upd; [exact H5 |]. intros w6 H6. eapply HQ; [exact H6 | done | | done].
  unfold upd_security. cbn [security set_security]. rewrite sec_type_copy. exact T5.
Qed.

(** The lower layers accept what the connection needs; a WEP key is not needed. *)
Definition accepting (env : calls) : Prop :=
  mem_ok env = true /\ add_pmk_ok env = true /\ add_psk_ok env = true /\ add_password_ok env = true /\ assoc_ok env = true /\
  net_address_ok env = true.
Definition no_wep (t : wlan_security_type) : Prop := t <> WLAN_SECURITY_WEP_OPEN /\ t <> WLAN_SECURITY_WEP_SHARED.
Lemma configure_spec (Q : bool -> wlan -> Prop) env i w n r : accepting env -> arr_get (networks w) i = Ret n ->
  no_wep (sec_type (security n)) -> (forall acts, reasons acts = [] -> Q true (set_log (log w ++ acts) w)) ->
  ok Q (configure_security env i r w).
Proof.
  intros (_ & Hpmk & Hpsk & Hpass & _) En [Hw1 Hw2] HQ. unfold configure_security. eapply ok_network; [exact En |]. cbv zeta.
  rewrite Hpmk, Hpsk, Hpass. assert (Hnil : Q true w) by (specialize (HQ [] eq_refl); rewrite app_nil_r in HQ; by destruct w).
  destruct (sec_type (security n)); try done; repeat cm_step; try done; try destruct (pmk_valid _); by apply HQ.
Qed.

(** The station's progress on network [i] towards a connection with [r]. *)
Record linked (i : Z) (n : wlan_network) (r : wifi_scan_result2) (st : cm_sta_state) (rs : list wlan_event_reason) (w0 w : wlan) :
    Prop := MkLinked {
  linked_state : sta_state w = st;
  linked_index : cur_network_idx w = i;
  linked_network : exists n', arr_get (networks w) i = Ret n' /\ same n n';
  linked_flags : cb w = true /\ same_ess w = false /\ roam_reassoc w = false;
  linked_lock : scan_lock w = true /\ is_scan_lock w = false;
  linked_events : events w = events w0;
  linked_reasons : reasons (log w) = reasons (log w0) ++ rs;
  linked_to : Associate (res_bssid r) (final_type n r) ∈ log w
}.
Lemma start_spec (Q : bool -> wlan -> Prop) env i w n r : accepting env -> arr_get (networks w) i = Ret n ->
  no_wep (sec_type (security n)) ->
  (forall acts, reasons acts = [] -> Q true (set_log (log w ++ acts ++ [Associate (res_bssid r) (sec_type (security n))]) (set_roam_reassoc false w))) ->
  ok Q (start_association env i r w).
Proof.
  intros Ha En Hwep HQ. unfold start_association. cm_step.
  eapply ok_bind; [apply (configure_spec (fun b w' => b = true /\ exists acts, reasons acts = [] /\
    w' = set_log (log w ++ acts) (set_roam_reassoc false w)) env i (set_roam_reassoc false w) n r); [done | done | done |]; intros acts Hr |].
  - split; [done |]. by exists acts.
  - intros b w1 [-> (acts & Hr & ->)]. cbn [negb]. eapply ok_network; [exact En |]. cm_step.
    destruct Ha as (_ & _ & _ & _ & -> & _). repeat cm_step. specialize (HQ acts Hr). by rewrite app_assoc in HQ.
Qed.

Lemma connect_scan_result env i n r chans w c k : searching i n c k w -> network_wf n -> result_ok r -> accepting env ->
  no_wep (final_type n r) -> select_ap env (hidden_scan_on w) n (default [] (scan_results env)) None [] = Ret (Some r, chans) ->
  ok (fun _ w' => linked i n r CM_STA_ASSOCIATING [] w w') (cm_main_message env (WIFI_EVENT_SCAN_RESULT true) w).
Proof.
  intros [] Hn Hr Ha Hwep Hsel. unfold cm_main_message. cbn [is_uap_msg]. unfold handle_message.
  eapply (ok_bind (fun s w' => linked i n r CM_STA_ASSOCIATING [] w (set_sta_state s w'))); [| intros s w' H; by cm_step].
  do 2 cm_step. unfold wlcm_process_scan_result_event. do 2 cm_step. rewrite searching_state0.
  eapply (ok_bind (fun _ w' => linked i n r CM_STA_ASSOCIATING [] w (set_is_scan_lock false (set_scan_lock true w')))).
  - unfold handle_scan_results. cm_step. rewrite (proj1 Ha). cbn [negb]. cm_step.
    eapply ok_network; [by rewrite searching_index0 |]. cm_step. eapply ok_lift; [exact Hsel |]. cbv beta iota. cm_step.
    cbn [roam_reassoc set_sta_state]. rewrite searching_roam0. cbn [andb]. cm_step. rewrite searching_index0.
    eapply ok_bind; [apply (update_spec (fun _ w' => exists acts n', changed i (set_same_ess false (set_sta_state CM_STA_ASSOCIATING w)) acts n' w' /\
      same n n' /\ sec_type (security n') = final_type n r /\ reasons acts = []) i _ n r); [done.. |]; intros; by eexists _, _ |].
    intros ? w1 (acts & n' & Hch & Hs & Ht & Hre). eapply ok_bind.
    + apply (start_spec (fun b w' => b = true /\ linked i n r CM_STA_ASSOCIATING [] w (set_is_scan_lock false (set_scan_lock true w')))
        env i w1 n' r Ha (changed_network _ _ _ _ _ Hch)); [by rewrite Ht |]. intros acts' Hre'. split; [done |].
      pose proof (changed_network _ _ _ _ _ Hch) as En. destruct Hch as [_ ->]. constructor; try done.
      * exists n'. by split.
      * cbn. rewrite !reasons_app, Hre, Hre'. by rewrite !app_nil_r.
      * cbn. rewrite Ht. apply elem_of_app. right. apply elem_of_app. right. by left.
    + intros b w2 [-> H]. by cm_step.
  - intros ? w1 H. cm_step.
    assert (H' : linked i n r CM_STA_ASSOCIATING [] w (set_sta_state (sta_state w1) (set_is_scan_lock false (set_scan_lock true w1)))).
    { destruct H; by constructor. }
    exact H'.
Qed.
(** A message of the station that ends in [st]. *)
Lemma station_message (Q : wlan -> Prop) env m w : is_uap_msg m = false ->
  ok (fun s w' => Q (set_sta_state s w')) (handle_message env m w) -> ok (fun _ w' => Q w') (cm_main_message env m w).
Proof. intros Hm H. unfold cm_main_message. rewrite Hm. eapply ok_bind; [exact H |]. intros s w' H'. by cm_step. Qed.
Lemma is_state_other s w st : sta_state w = st -> st <> CM_STA_SCANNING_USER -> is_state s w = bool_decide (st = s).
Proof. intros <- H. unfold is_state, is_user_scanning. by rewrite bool_decide_eq_false_2. Qed.

(** Decides the tests of known states. *)
Ltac cm_states :=
  repeat match goal with
  | |- context [bool_decide (?a = ?b :> cm_sta_state)] =>
      let r := eval vm_compute in (bool_decide (a = b)) in change (bool_decide (a = b)) with r
  end; cbn [orb andb negb].
Lemma connect_associated env i n r rs w0 w : linked i n r CM_STA_ASSOCIATING rs w0 w ->
  ok (fun _ w' => linked i n r CM_STA_ASSOCIATED rs w0 w') (cm_main_message env (WIFI_EVENT_ASSOCIATION true) w).
Proof.
  intros Hw. apply station_message; [done |]. unfold handle_message. do 2 cm_step. unfold wlcm_process_association_event. cm_step.
  rewrite (is_state_other _ _ _ (linked_state _ _ _ _ _ _ _ Hw)) by done. cm_states. repeat cm_step.
  destruct Hw. by constructor.
Qed.
Lemma event_then {B} (Q : B -> wlan -> Prop) e k w : cb w = true -> ok Q (k tt (set_log (log w ++ [ConnectionEvent e]) w)) ->
  ok Q ((connection_event e ≫= k) w).
Proof. intros Hcb HQ. eapply ok_bind; [apply (event_spec (fun _ w' => ok Q (k tt w'))); [done | exact HQ] |]. by intros []. Qed.
Lemma linked_event i n r st st' rs w0 w e s4 : linked i n r st rs w0 w ->
  linked i n r st' (rs ++ [e]) w0 (set_sta_ipv4_state s4 (set_sta_state st' (set_log (log w ++ [ConnectionEvent e]) w))).
Proof.
  intros []. constructor; try done; cbn.
  - by rewrite reasons_app, linked_reasons0, app_assoc.
  - apply elem_of_app. by left.
Qed.
Lemma connect_authenticated env i n r rs w0 w c : linked i n r CM_STA_ASSOCIATED rs w0 w -> accepting env ->
  ok (fun _ w' => linked i n r CM_STA_REQUESTING_ADDRESS (rs ++ [WLAN_REASON_AUTH_SUCCESS]) w0 w')
    (cm_main_message env (WIFI_EVENT_AUTHENTICATION true c) w).
Proof.
  intros Hw Ha. apply station_message; [done |]. unfold handle_message. do 2 cm_step. unfold wlcm_process_authentication_event. cm_step.
  rewrite !(is_state_other _ _ _ (linked_state _ _ _ _ _ _ _ Hw)) by done. cm_states.
  destruct (linked_network _ _ _ _ _ _ _ Hw) as (n' & En & Hs). destruct (linked_flags _ _ _ _ _ _ _ Hw) as (Hcb & Hess & _).
  eapply ok_network; [by rewrite (linked_index _ _ _ _ _ _ _ Hw) |]. apply event_then; [done |]. do 2 cm_step.
  cbn [same_ess set_bgscan_attempt set_log]. rewrite Hess. destruct Ha as (_ & _ & _ & _ & _ & ->). repeat cm_step.
  pose proof (linked_event i n r _ CM_STA_REQUESTING_ADDRESS rs w0 w WLAN_REASON_AUTH_SUCCESS CM_STA_REQUESTING_ADDRESS Hw) as [].
  constructor; try done; cbn in *; [by rewrite reasons_app, linked_reasons0, app_nil_r | apply elem_of_app; by left].
Qed.
(** The address of network [i] is known; nothing is said of the station's state. *)
Record addressed (env : calls) (i : Z) (n : wlan_network) (r : wifi_scan_result2) (rs : list wlan_event_reason) (w0 w : wlan) :
    Prop := MkAddressed {
  addressed_index : cur_network_idx w = i;
  addressed_network : exists n', arr_get (networks w) i = Ret n' /\ ipv4 n' = if_addr env (ipv4 n);
  addressed_cb : cb w = true;
  addressed_lock : scan_lock w = true /\ is_scan_lock w = false;
  addressed_events : events w = events w0;
  addressed_reasons : reasons (log w) = reasons (log w0) ++ rs;
  addressed_to : Associate (res_bssid r) (final_type n r) ∈ log w
}.
(** The station is connected through network [i] to the access point [r]. *)
Definition connected (env : calls) (i : Z) (n : wlan_network) (r : wifi_scan_result2) (rs : list wlan_event_reason) (w0 w : wlan) : Prop :=
  addressed env i n r rs w0 w /\ sta_state w = CM_STA_CONNECTED /\ sta_ipv4_state w = CM_STA_CONNECTED.

Lemma linked_address env i n r st rs w0 w acts (Q : unit -> wlan -> Prop) : linked i n r st rs w0 w -> reasons acts = [] ->
  (forall w', addressed env i n r rs w0 w' -> Q tt w') -> ok Q (update_address env i (set_log (log w ++ acts) w)).
Proof.
  intros Hw Hacts HQ. destruct (linked_network _ _ _ _ _ _ _ Hw) as (n' & En & Hs). unfold update_address.
  eapply changed_upd; [apply changed_refl; exact En |]. intros w' Hc. apply HQ.
  pose proof (changed_network _ _ _ _ _ Hc) as En'. destruct Hc as [_ ->]. destruct Hw. constructor; try done.
  - eexists. split; [exact En' |]. cbn. by rewrite (proj2 (proj2 (proj2 Hs))).
  - by apply linked_flags0.
  - cbn. by rewrite app_nil_r, reasons_app, linked_reasons0, Hacts, app_nil_r.
  - cbn. rewrite app_nil_r. apply elem_of_app. by left.
Qed.
Lemma success_spec env i n r rs w0 w : addressed env i n r rs w0 w ->
  ok (fun _ w' => addressed env i n r (rs ++ [WLAN_REASON_SUCCESS]) w0 w' /\ sta_ipv4_state w' = sta_ipv4_state w)
    (connected_at_last w).
Proof.
  intros Hw. unfold connected_at_last. cm_step.
  eapply (ok_bind (fun _ w' => addressed env i n r rs w0 w' /\ sta_ipv4_state w' = sta_ipv4_state w)).
  - destruct (_ && _); repeat cm_step; split; try done. destruct Hw; by constructor.
  - intros ? w1 [Hw1 E]. apply event_spec; [by destruct Hw1 |]. split; [| exact E]. destruct Hw1. constructor; try done; cbn.
    + by rewrite reasons_app, addressed_reasons0, app_assoc.
    + apply elem_of_app. by left.
Qed.
(** The last steps of a connection, once the address is known. *)
Lemma connected_spec (Q : cm_sta_state -> wlan -> Prop) env i n r rs w0 w : addressed env i n r rs w0 w ->
  sta_ipv4_state w = CM_STA_CONNECTED ->
  (forall w', connected env i n r (rs ++ [WLAN_REASON_SUCCESS]) w0 (set_sta_state CM_STA_CONNECTED w') -> Q CM_STA_CONNECTED w') ->
  ok Q ((connected_at_last;; mret CM_STA_CONNECTED) w).
Proof.
  intros Hw Hs HQ. eapply ok_bind; [by apply (success_spec env i n r rs w0) |]. intros ? w1 [Hw1 E]. cm_step. apply HQ.
  split; [destruct Hw1; by constructor |]. split; [done |]. cbn. by rewrite E.
Qed.
Lemma connect_static_address env i n r rs w0 w : linked i n r CM_STA_REQUESTING_ADDRESS rs w0 w ->
  addr_type (ipv4 n) = ADDR_TYPE_STATIC ->
  ok (fun _ w' => connected env i n r (rs ++ [WLAN_REASON_SUCCESS]) w0 w') (cm_main_message env (WIFI_EVENT_NET_STA_ADDR_CONFIG true) w).
Proof.
  intros Hw Hst. apply station_message; [done |]. unfold handle_message. do 2 cm_step. unfold wlcm_process_sta_addr_config_event. cm_step.
  rewrite !(is_state_other _ _ _ (linked_state _ _ _ _ _ _ _ Hw)) by done. cm_states.
  destruct (linked_network _ _ _ _ _ _ _ Hw) as (n' & En & Hs). rewrite (linked_index _ _ _ _ _ _ _ Hw).
  eapply ok_network; [exact En |]. rewrite (proj2 (proj2 (proj2 Hs))), Hst. change (ADDR_TYPE_STATIC =? ADDR_TYPE_STATIC) with true. do 2 cm_step.
  eapply ok_bind; [by apply (linked_address env i n r _ rs w0 w _ (fun _ => addressed env i n r rs w0) Hw) |].
  intros ? w1 Hw1. do 3 cm_step. eapply (connected_spec _ env i n r rs w0); [destruct Hw1; by constructor | done |]. by intros w'.
Qed.
Lemma connect_requests_dhcp env i n r rs w0 w : linked i n r CM_STA_REQUESTING_ADDRESS rs w0 w ->
  addr_type (ipv4 n) = ADDR_TYPE_DHCP ->
  ok (fun _ w' => linked i n r CM_STA_OBTAINING_ADDRESS rs w0 w' /\ sta_ipv4_state w' = CM_STA_OBTAINING_ADDRESS)
    (cm_main_message env (WIFI_EVENT_NET_STA_ADDR_CONFIG true) w).
Proof.
  intros Hw Hst. apply station_message; [done |]. unfold handle_message. do 2 cm_step. unfold wlcm_process_sta_addr_config_event. cm_step.
  rewrite !(is_state_other _ _ _ (linked_state _ _ _ _ _ _ _ Hw)) by done. cm_states.
  destruct (linked_network _ _ _ _ _ _ _ Hw) as (n' & En & Hs). rewrite (linked_index _ _ _ _ _ _ _ Hw).
  eapply ok_network; [exact En |]. rewrite (proj2 (proj2 (proj2 Hs))), Hst. change (ADDR_TYPE_DHCP =? ADDR_TYPE_STATIC) with false.
  change (ADDR_TYPE_DHCP =? ADDR_TYPE_DHCP) with true. cbn [orb].
  repeat cm_step. split; [| done]. destruct Hw. by constructor.
Qed.
Lemma connect_dhcp_address env i n r rs w0 w : linked i n r CM_STA_OBTAINING_ADDRESS rs w0 w ->
  sta_ipv4_state w = CM_STA_OBTAINING_ADDRESS ->
  ok (fun _ w' => connected env i n r (rs ++ [WLAN_REASON_SUCCESS]) w0 w') (cm_main_message env (WIFI_EVENT_NET_DHCP_CONFIG true) w).
Proof.
  intros Hw Hst. apply station_message; [done |]. unfold handle_message. do 2 cm_step. unfold wlcm_process_net_dhcp_config. cm_step.
  rewrite Hst. cm_states. cm_step.
  assert (Hw1 : linked i n r CM_STA_OBTAINING_ADDRESS rs w0 (set_connect_wakelock_taken false w)) by (destruct Hw; by constructor).
  destruct (linked_network _ _ _ _ _ _ _ Hw) as (n' & En & Hs). rewrite (linked_index _ _ _ _ _ _ _ Hw).
  eapply ok_network; [exact En |]. do 2 cm_step.
  eapply ok_bind.
  - pose proof (linked_address env i n r _ rs w0 _ [StopDhcpTimer; ConfigureDns (role n')] (fun _ => addressed env i n r rs w0) Hw1
      eq_refl) as H. lazymatch goal with |- ok ?Q (_ _ _ (set_log (_ ++ [?y]) (set_log (_ ++ [?x]) ?v))) =>
      change (ok Q (update_address env i (set_log ((log v ++ [x]) ++ [y]) v))) end. rewrite <- app_assoc. by apply H.
  - intros ? w2 Hw2. do 2 cm_step. eapply (connected_spec _ env i n r rs w0); [destruct Hw2; by constructor | done |]. by intros w'.
Qed.

(** Messages handled one after the other. *)
Fixpoint handled (env : calls) (ms : list wifi_message) : CM unit :=
  match ms with [] => skip | m :: ms' => cm_main_message env m;; handled env ms' end.
Lemma handled_step env m ms (Q1 Q : unit -> wlan -> Prop) w : ok Q1 (cm_main_message env m w) ->
  (forall w', Q1 tt w' -> ok Q (handled env ms w')) -> ok Q (handled env (m :: ms) w).
Proof. intros H1 H2. cbn [handled]. eapply ok_bind; [exact H1 |]. intros []. apply H2. Qed.
(** The driver's and the network stack's messages of a connection that succeeds. *)
Definition good_answers (n : wlan_network) : list wifi_message :=
  [WIFI_EVENT_SCAN_RESULT true; WIFI_EVENT_ASSOCIATION true; WIFI_EVENT_AUTHENTICATION true 0; WIFI_EVENT_NET_STA_ADDR_CONFIG true] ++
  (if addr_type (ipv4 n) =? ADDR_TYPE_DHCP then [WIFI_EVENT_NET_DHCP_CONFIG true] else []).

(** C3: When a scan finds an access point for the network looked for and the driver
    and the network stack answer well, the station is connected: it has associated
    with the access point chosen, with the network's security type or, for a
    network without one, with that of the access point; it has its address (a
    static one without DHCP), the user was told of the authentication and of the
    success and of nothing else, and the scan lock is free. *)
Theorem connection_succeeds env i n r chans w c k : searching i n c k w -> network_wf n -> result_ok r -> accepting env ->
  no_wep (final_type n r) -> select_ap env (hidden_scan_on w) n (default [] (scan_results env)) None [] = Ret (Some r, chans) ->
  addr_type (ipv4 n) = ADDR_TYPE_STATIC \/ addr_type (ipv4 n) = ADDR_TYPE_DHCP ->
  exists w', handled env (good_answers n) w = Ret (tt, w') /\
    connected env i n r [WLAN_REASON_AUTH_SUCCESS; WLAN_REASON_SUCCESS] w w'.
Proof.
  intros Hw Hn Hr Ha Hwep Hsel Hst.
  assert (H : ok (fun _ => connected env i n r [WLAN_REASON_AUTH_SUCCESS; WLAN_REASON_SUCCESS] w) (handled env (good_answers n) w)).
  - unfold good_answers. cbn [app]. eapply handled_step; [apply (connect_scan_result env i n r chans w c k); assumption |]. intros w1 H1.
    eapply handled_step; [apply connect_associated; exact H1 |]. intros w2 H2.
    eapply handled_step; [apply connect_authenticated; [exact H2 | exact Ha] |]. intros w3 H3. destruct Hst as [Hst | Hst]; rewrite Hst.
    + eapply handled_step; [by apply (connect_static_address env i n r [WLAN_REASON_AUTH_SUCCESS] w) |]. intros w4 H4. exact H4.
    + eapply handled_step; [by apply (connect_requests_dhcp env i n r [WLAN_REASON_AUTH_SUCCESS] w) |]. intros w4 [H4 H4'].
      eapply handled_step; [by apply (connect_dhcp_address env i n r [WLAN_REASON_AUTH_SUCCESS] w) |]. intros w5 H5. exact H5.
  - apply ok_ret in H as ([] & w' & H). by exists w'.
Qed.
Lemma connection_succeeds_witness :
  exists w', handled (good_calls home_scan) (good_answers (stored_network home)) connecting = Ret (tt, w') /\
    sta_state w' = CM_STA_CONNECTED.
Proof.
  destruct (connection_succeeds (good_calls home_scan) 0 (stored_network home) (home_ap 50 2) [] connecting 1 0) as (w' & E & _ & H & _);
    [by constructor | exact home_wf | by split | by repeat split | by split | by vm_compute | by right |].
  by exists w'.
Defined.
