(* ===== verification/WlcmTable.v ===== *)
(** * The connection manager: the table of networks

    [wlan.networks] is a partial map from names to networks: the functions that
    add, remove and look up a network refine the operations of a finite map. *)
From stdpp Require Import gmap.
From S2P Require Import Prelude CString WlcmData Wlcm WlcmProps.
Open Scope Z_scope.

(** ** The abstract table *)
Definition entries (l : list wlan_network) : list (list Z * wlan_network) := (fun n => (name n, n)) <$> List.filter used l.
Definition table (l : list wlan_network) : gmap (list Z) wlan_network := list_to_map (entries l).
Record table_ok (w : wlan) : Prop := MkTable {
  table_names : NoDup (entries (networks w)).*1;
  table_count : num_networks w = Z.of_nat (length (entries (networks w)));
  table_width : Z.of_nat (length (networks w)) < 2 ^ 32;
  table_ssids : Forall (fun n => length (ssid n) = 33%nat) (networks w)
}.

Lemma entries_app l1 l2 : entries (l1 ++ l2) = entries l1 ++ entries l2.
Proof. unfold entries. by rewrite List.filter_app, fmap_app. Qed.
Lemma entries_slot l1 n l2 : entries (l1 ++ n :: l2) ≡ₚ (if used n then [(name n, n)] else []) ++ entries (l1 ++ l2).
Proof.
  rewrite !entries_app. change (n :: l2) with ([n] ++ l2). rewrite entries_app. unfold entries at 2. cbn [List.filter].
  destruct (used n); [| done]. cbn [fmap list_fmap app]. by rewrite Permutation_middle.
Qed.
Lemma entries_length l : (length (entries l) <= length l)%nat.
Proof. unfold entries. rewrite length_fmap. induction l as [| n l IH]; simpl; [done |]. destruct (used n); simpl; lia. Qed.

(** ** The search *)
Lemma find_network_some f l : forall j i, find_network f l j = Some i ->
  exists l1 n l2, l = l1 ++ n :: l2 /\ i = j + Z.of_nat (length l1) /\ f n = true.
Proof.
  induction l as [| n l IH]; intros j i E; simpl in *; [done |]. destruct (f n) eqn:Ef.
  - injection E as <-. exists [], n, l. split; [done |]. split; [simpl; lia | done].
  - apply IH in E as (l1 & m & l2 & -> & -> & Hm). exists (n :: l1), m, l2. split; [done |]. split; [simpl; lia | done].
Qed.
Lemma find_network_none f l : forall j, find_network f l j = None -> forall n, n ∈ l -> f n = false.
Proof.
  induction l as [| n l IH]; intros j E m Hm; simpl in *; [by apply not_elem_of_nil in Hm |].
  destruct (f n) eqn:Ef; [done |]. apply elem_of_cons in Hm as [-> | Hm]; [done | by eapply IH].
Qed.
Lemma slot_lookup {A} (l1 : list A) n l2 : (l1 ++ n :: l2) !! Z.to_nat (Z.of_nat (length l1)) = Some n.
Proof. by rewrite Nat2Z.id, list_lookup_middle. Qed.
Lemma put_slot w l1 n l2 m : networks w = l1 ++ n :: l2 ->
  put_network (0 + Z.of_nat (length l1)) m w = Ret (tt, set_networks (l1 ++ m :: l2) w).
Proof.
  intros E. change (put_network (0 + Z.of_nat (length l1)) m w)
    with ('(l', w1) ← ('(a) ← arr_set (networks w) (0 + Z.of_nat (length l1)) m; Ret (a, w)); Ret (tt, set_networks l' w1)).
  rewrite E, arr_set_ret by (rewrite length_app; simpl; lia). cbn [mbind outcome_bind].
  by rewrite Z.add_0_l, Nat2Z.id, insert_app_r_alt, Nat.sub_diag by lia.
Qed.

Lemma table_lookup_some l n : NoDup (entries l).*1 -> n ∈ l -> used n = true -> table l !! name n = Some n.
Proof.
  intros Hnd Hin Hu. apply elem_of_list_to_map; [done |]. unfold entries. apply list_elem_of_fmap. exists n. split; [done |].
  apply list_elem_of_In, List.filter_In. split; [by apply list_elem_of_In | done].
Qed.
Lemma table_lookup_none l s : (forall n, n ∈ l -> named s n = false) -> table l !! s = None.
Proof.
  intros H. apply not_elem_of_list_to_map. unfold entries. rewrite <- list_fmap_compose. intros (n & E & Hin)%list_elem_of_fmap.
  apply list_elem_of_In, List.filter_In in Hin as [Hin Hu]. apply list_elem_of_In in Hin. simpl in E. subst s.
  specialize (H n Hin). unfold named in H. rewrite Hu, bool_decide_eq_true_2 in H; done.
Qed.

(** ** The operations *)
Lemma stored_fields n : name (stored_network n) = name n /\ ssid (stored_network n) = ssid n.
Proof. unfold stored_network. cbv zeta. by destruct (_ =? WLAN_BSS_ROLE_UAP), (_ =? 0), (bool_decide _). Qed.
Lemma used_name n m : name n = name m -> used n = used m.
Proof. unfold used. by intros ->. Qed.

(** A free slot takes a network whose name is new. *)
Lemma table_take l1 u l2 m : used u = false -> used m = true -> NoDup (entries (l1 ++ u :: l2)).*1 ->
  (forall n, n ∈ l1 ++ u :: l2 -> named (name m) n = false) ->
  NoDup (entries (l1 ++ m :: l2)).*1 /\ table (l1 ++ m :: l2) = <[name m := m]> (table (l1 ++ u :: l2)) /\
  length (entries (l1 ++ m :: l2)) = S (length (entries (l1 ++ u :: l2))).
Proof.
  intros Hu Hm Hnd Hnew. pose proof (entries_slot l1 u l2) as Pu. pose proof (entries_slot l1 m l2) as Pm.
  rewrite Hu in Pu. rewrite Hm in Pm. cbn [app] in Pu, Pm.
  assert (Hnot : name m ∉ (entries (l1 ++ l2)).*1).
  { intros (e & Ee & (n & -> & Hin)%list_elem_of_fmap)%list_elem_of_fmap. cbn in Ee.
    apply list_elem_of_In, List.filter_In in Hin as [Hin Hun]. apply list_elem_of_In in Hin.
    assert (n ∈ l1 ++ u :: l2) as Hin' by (apply elem_of_app in Hin as [?|?]; apply elem_of_app; [by left | right; by right]).
    specialize (Hnew n Hin'). unfold named in Hnew. rewrite Hun, bool_decide_eq_true_2 in Hnew; done. }
  assert (Hnd' : NoDup (entries (l1 ++ m :: l2)).*1).
  { rewrite Pm. cbn. apply NoDup_cons_2; [done |]. by rewrite <- Pu. }
  split; [done |]. split; [| rewrite Pm, Pu; done].
  unfold table. rewrite (list_to_map_proper _ _ Hnd' Pm), (list_to_map_proper _ _ Hnd Pu). done.
Qed.
(** The removal of a used slot. *)
Lemma table_free l1 n l2 u : used n = true -> used u = false -> NoDup (entries (l1 ++ n :: l2)).*1 ->
  NoDup (entries (l1 ++ u :: l2)).*1 /\ table (l1 ++ u :: l2) = delete (name n) (table (l1 ++ n :: l2)) /\
  length (entries (l1 ++ n :: l2)) = S (length (entries (l1 ++ u :: l2))).
Proof.
  intros Hn Hu Hnd. pose proof (entries_slot l1 u l2) as Pu. pose proof (entries_slot l1 n l2) as Pn.
  rewrite Hu in Pu. rewrite Hn in Pn. cbn [app] in Pu, Pn.
  assert (Hnd' : NoDup ((name n, n) :: entries (l1 ++ l2)).*1) by by rewrite <- Pn.
  apply NoDup_cons in Hnd' as [Hnot Hnd'].
  assert (Hnd'' : NoDup (entries (l1 ++ u :: l2)).*1) by by rewrite Pu.
  split; [done |]. split; [| rewrite Pn, Pu; done].
  unfold table. rewrite (list_to_map_proper _ _ Hnd Pn), (list_to_map_proper _ _ Hnd'' Pu). cbn [list_to_map foldr].
  rewrite delete_insert_id; [done |]. by apply not_elem_of_list_to_map.
Qed.

(** The result of an operation on the table. *)
Definition added (n : wlan_network) (r : result) (w w' : wlan) : Prop :=
  match r with
  | WM_SUCCESS => table (networks w) !! name n = None /\ table (networks w') = <[name n := stored_network n]> (table (networks w))
  | _ => networks w' = networks w
  end.
Definition removed (s : list Z) (r : result) (w w' : wlan) : Prop :=
  match r with
  | WM_SUCCESS => is_Some (table (networks w) !! s) /\ table (networks w') = delete s (table (networks w))
  | _ => networks w' = networks w
  end.
Lemma cm_bind_ret {A B} (m : CM A) (k : A -> CM B) w a w1 : m w = Ret (a, w1) -> (m ≫= k) w = k a w1.
Proof. intros E. change ((m ≫= k) w) with ('(a, w1) ← m w; k a w1). by rewrite E. Qed.
Lemma table_add env n w : clear_psk_ok env = true -> table_ok w -> network_wf n ->
  ok (fun r w' => table_ok w' /\ added n r w w') (wlan_add_network env n w).
Proof.
  intros Hc Hw Hn. destruct (network_acceptable_total n Hn) as (b & Eacc). destruct Hn as [Hs _].
  unfold wlan_add_network. cm_step. cm_step; [by cm_step |]. eapply ok_lift; [exact Eacc |]. destruct b; cbn [negb]; [| by repeat cm_step].
  unfold find_in_table. do 2 cm_step. destruct (find_network (named (name n)) (networks w) 0) as [d |] eqn:Ed; [by cm_step |].
  destruct (find_network (fun n => negb (used n)) (networks w) 0) as [pos |] eqn:Ep; [| by cm_step].
  apply find_network_some in Ep as (l1 & u & l2 & El & -> & Hu). apply negb_true_iff in Hu.
  assert (Hnew := find_network_none _ _ _ Ed). destruct (stored_fields n) as [Hname Hssid].
  assert (Hused : used (stored_network n) = true).
  { unfold network_acceptable in Eacc. cbv zeta in Eacc. destruct (_ || _) eqn:Elen; [done |]. apply bool_decide_eq_true.
    rewrite Hname. intros E0. rewrite E0 in Elen. done. }
  destruct (table_take l1 u l2 (stored_network n)) as (T1 & T2 & T3); [done | done | rewrite <- El; apply Hw | by rewrite Hname, <- El |].
  eapply ok_bind; [rewrite (put_slot _ _ _ _ _ El); exact (eq_refl : (fun _ w' => w' = set_networks (l1 ++ stored_network n :: l2) w) tt _) |].
  intros ? w1 ->. rewrite Hname in T2.
  eapply (ok_bind (fun b w' => b = false /\ exists acts, w' = set_log (log w ++ acts) (set_networks (l1 ++ stored_network n :: l2) w))).
  { cm_step; repeat cm_step; (split; [by rewrite ?Hc |]); [by eexists | exists []; rewrite app_nil_r; by destruct w]. }
  intros b w2 [-> [acts ->]]. repeat cm_step. split; [| split; [rewrite <- El in *; by apply table_lookup_none | by rewrite El]].
  assert (Hlen : (length (entries (l1 ++ u :: l2)) < length (l1 ++ u :: l2))%nat).
  { rewrite (Permutation_length (entries_slot l1 u l2)), Hu. cbn [app]. pose proof (entries_length (l1 ++ l2)).
    rewrite length_app in *. simpl. lia. }
  destruct Hw as [_ Hcount Hwidth Hssids]. rewrite El in Hcount, Hwidth, Hssids. constructor; cbn [networks num_networks set_log set_networks set_num_networks].
  - done.
  - rewrite T3, Hcount, wrap_small; lia.
  - rewrite length_app in *. simpl in *. lia.
  - apply Forall_app in Hssids as [? [? ?]%List.Forall_cons_iff]. apply Forall_app_2; [done |]. constructor; [by rewrite Hssid | done].
Qed.
Lemma table_remove s w : table_ok w -> ok (fun r w' => table_ok w' /\ removed s r w w') (wlan_remove_network s w).
Proof.
  intros Hw. unfold wlan_remove_network, find_in_table. cm_step. cm_step; [by cm_step |]. cm_step.
  destruct (find_network _ (networks w) 0) as [i |] eqn:Ei; [| by cm_step]. cm_step. cm_step; [by cm_step |].
  apply find_network_some in Ei as (l1 & n & l2 & El & -> & Hn). unfold named in Hn. apply andb_true_iff in Hn as [Hu Hs%bool_decide_eq_true].
  destruct (table_free l1 n l2 no_network) as (T1 & T2 & T3); [done | done | rewrite <- El; apply Hw |].
  eapply ok_bind; [rewrite (put_slot _ _ _ _ _ El); exact (eq_refl : (fun _ w' => w' = set_networks (l1 ++ no_network :: l2) w) tt _) |].
  intros ? w1 ->. repeat cm_step. pose proof (entries_length (networks w)) as Hlen. destruct Hw as [Hnd Hcount Hwidth Hssids].
  split; [constructor; cbn [networks num_networks set_networks set_num_networks] |].
  - done.
  - rewrite Hcount, El, T3, wrap_small; rewrite ?El, ?T3 in *; lia.
  - rewrite El, length_app in *. simpl in *. lia.
  - rewrite El in Hssids. apply Forall_app in Hssids as [? [? ?]%List.Forall_cons_iff]. apply Forall_app_2; [done |]. by constructor.
  - split; [| by rewrite El, <- Hs].
    exists n. rewrite <- Hs. apply table_lookup_some; [done | rewrite El; apply elem_of_app; right; by left | done].
Qed.
Lemma table_get s w : table_ok w ->
  exists o, wlan_get_network_byname s w = Ret (o, w) /\
    match table (networks w) !! s with None => o = None | Some n => exists c, copy_network n = Ret c /\ o = Some c end.
Proof.
  intros [Hnd _ _ Hssids]. unfold wlan_get_network_byname, find_in_table.
  rewrite (cm_bind_ret (get _) _ w (find_network (named s) (networks w) 0) w) by done.
  destruct (find_network (named s) (networks w) 0) as [i |] eqn:Ei.
  - apply find_network_some in Ei as (l1 & n & l2 & El & -> & Hn). unfold named in Hn. apply andb_true_iff in Hn as [Hu Hs%bool_decide_eq_true].
    subst s. assert (Hin : n ∈ networks w) by (rewrite El; apply elem_of_app; right; by left).
    rewrite (table_lookup_some _ _ Hnd Hin Hu).
    assert (Hget : get_network (0 + Z.of_nat (length l1)) w = Ret (n, w)).
    { change (get_network (0 + Z.of_nat (length l1)) w) with ('a ← arr_get (networks w) (0 + Z.of_nat (length l1)); Ret (a, w)).
      by rewrite El, Z.add_0_l, (arr_get_lookup _ (length l1) n) by (by rewrite list_lookup_middle). }
    rewrite (cm_bind_ret _ _ _ _ _ Hget). rewrite List.Forall_forall in Hssids.
    assert (Hl : length (ssid n) = 33%nat) by (by apply Hssids, list_elem_of_In).
    assert (Hc : exists c, copy_network n = Ret c).
    { unfold copy_network. cbv zeta. destruct (ssid_specific n); [by eexists |].
      destruct (bssid_specific n); cbn [ssid set_bssid]; (rewrite mem_write_head by (rewrite length_replicate; lia)); by eexists. }
    destruct Hc as (c & Ec). exists (Some c). split; [| by exists c].
    change ((lift (copy_network n) ≫= fun c => mret (Some c)) w) with ('(a, w1) ← ('a ← copy_network n; Ret (a, w)); (mret (M := CM) (Some a)) w1).
    by rewrite Ec.
  - exists None. split; [done |]. rewrite table_lookup_none; [done |]. by apply (find_network_none _ _ 0).
Qed.

(** ** Theorems *)

(** C16: The table of networks behaves as a finite map from names to networks: adding
    inserts what is stored for the network under a new name or changes nothing,
    removing deletes a name that is there or changes nothing, a look-up by name
    gives the copy of what the map holds, the count is the size of the map; no two
    networks ever have the same name. The key of an added network can be cleared in
    the firmware ([clear_psk_ok]): when it cannot, adding the network
    reports an error with the network stored and not counted
    ([WlcmErrors.failed_add_stores_uncounted]). *)
Theorem networks_refine_map env w : clear_psk_ok env = true -> table_ok w ->
  (forall n, network_wf n -> exists r w', wlan_add_network env n w = Ret (r, w') /\ table_ok w' /\ added n r w w') /\
  (forall s, exists r w', wlan_remove_network s w = Ret (r, w') /\ table_ok w' /\ removed s r w w') /\
  (forall s, exists o, wlan_get_network_byname s w = Ret (o, w) /\
     match table (networks w) !! s with None => o = None | Some n => exists c, copy_network n = Ret c /\ o = Some c end) /\
  wlan_get_network_count w = Ret (Z.of_nat (size (table (networks w))), w).
Proof.
  intros Hc Hw. split; [| split; [| split]].
  - intros n Hn. apply ok_ret. by apply table_add.
  - intros s. apply ok_ret. by apply table_remove.
  - intros s. by apply table_get.
  - unfold table. rewrite map_size_list_to_map by apply Hw. rewrite <- (table_count _ Hw). done.
Qed.

(** The state after [wlan_start] and the network interface's message. *)
Definition idle : wlan := set_sta_state CM_STA_IDLE (wlan_start 5 wlan_zero).
Definition cafe : wlan_network :=
  set_name (lit "cafe") (set_ssid (lit "Cafe" ++ replicate 29 0) no_network).
Lemma cafe_wf : network_wf cafe.
Proof. split; [done |]. split; [done |]. split; [done |]. by left. Defined.
Lemma idle_table : table_ok idle.
Proof. constructor; [constructor | done | done |]. repeat constructor. Defined.
Lemma networks_refine_map_witness : exists r w', wlan_add_network (good_calls []) cafe idle = Ret (r, w') /\ table_ok w' /\ added cafe r idle w'.
Proof. exact (proj1 (networks_refine_map (good_calls []) idle eq_refl idle_table) cafe cafe_wf). Defined.

(** A network that is acceptable and new is added when a slot is free and the
    station is idle; the look-up then gives it back as it is stored, and removing
    it leaves the table as it was. *)
Theorem add_remove_roundtrip env w n : clear_psk_ok env = true -> table_ok w -> network_wf n -> network_acceptable n = Ret true ->
  is_running w = true -> is_state CM_STA_IDLE w = true -> uap_state w <> CM_UAP_IP_UP ->
  table (networks w) !! name n = None -> (size (table (networks w)) < length (networks w))%nat ->
  exists w1 w2 c, wlan_add_network env n w = Ret (WM_SUCCESS, w1) /\
    wlan_get_network_byname (name n) w1 = Ret (Some c, w1) /\ copy_network (stored_network n) = Ret c /\
    wlan_remove_network (name n) w1 = Ret (WM_SUCCESS, w2) /\ table (networks w2) = table (networks w).
Proof.
  intros Hc Hw Hn Hacc Hrun Hidle Huap Hnew Hfree.
  assert (Hdup : find_network (named (name n)) (networks w) 0 = None).
  { destruct (find_network _ _ 0) as [d |] eqn:Ed; [| done]. apply find_network_some in Ed as (l1 & m & l2 & El & _ & Hm).
    unfold named in Hm. apply andb_true_iff in Hm as [Hu Hs%bool_decide_eq_true].
    assert (Hin : m ∈ networks w) by (rewrite El; apply elem_of_app; right; by left).
    pose proof (table_lookup_some _ _ (table_names _ Hw) Hin Hu) as Hl. rewrite Hs, Hnew in Hl. done. }
  assert (Hslot : exists pos, find_network (fun n => negb (used n)) (networks w) 0 = Some pos).
  { destruct (find_network (fun n => negb (used n)) (networks w) 0) as [pos |] eqn:Ep; [by exists pos |]. exfalso.
    pose proof (find_network_none _ _ _ Ep) as Hall. unfold table in Hfree. rewrite map_size_list_to_map in Hfree by apply Hw.
    unfold entries in Hfree. rewrite length_fmap in Hfree.
    assert (E : List.filter used (networks w) = networks w).
    { clear -Hall. induction (networks w) as [| m l IH]; [done |]. simpl. rewrite (proj1 (negb_false_iff _) (Hall m ltac:(by left))).
      f_equal. apply IH. intros k Hk. apply Hall. by right. }
    rewrite E in Hfree. lia. }
  destruct Hslot as (pos & Hpos).
  assert (H1 : ok (fun r w1 => r = WM_SUCCESS /\ is_running w1 = true /\ is_state CM_STA_CONNECTED w1 = false /\ uap_state w1 = uap_state w)
    (wlan_add_network env n w)).
  { unfold wlan_add_network. cm_step. rewrite Hidle. cbn [negb]. rewrite andb_false_r. cbn [andb].
    rewrite andb_false_r. eapply ok_lift; [exact Hacc |]. cbn [negb].
    unfold find_in_table. do 2 cm_step. rewrite Hdup, Hpos. apply find_network_some in Hpos as (l1 & u & l2 & El & -> & _).
    eapply ok_bind; [rewrite (put_slot _ _ _ _ _ El); exact (eq_refl : (fun _ w' => w' = set_networks (l1 ++ stored_network n :: l2) w) tt _) |].
    intros ? w1 ->. eapply (ok_bind (fun b w' => b = false /\ exists acts, w' = set_log acts (set_networks (l1 ++ stored_network n :: l2) w))).
    { cm_step; repeat cm_step; (split; [by rewrite ?Hc | by eexists || (exists (log w); by destruct w)]). }
    intros b w2 [-> [acts ->]]. repeat cm_step. split; [done |]. split; [exact Hrun |]. split; [| done].
    unfold is_state in *. cbn. change (is_user_scanning _) with (is_user_scanning w). destruct (is_user_scanning w);
      apply bool_decide_eq_true in Hidle; cbn; by rewrite Hidle. }
  pose proof (table_add env n w Hc Hw Hn) as H2. apply ok_ret in H1 as (r & w1 & E1 & -> & Hrun1 & Hst1 & Hu1).
  rewrite E1 in H2. destruct H2 as [Hw1 [_ Htab]]. destruct (table_get (name n) w1 Hw1) as (o & Eo & Ho).
  rewrite Htab, lookup_insert_eq in Ho. destruct Ho as (c & Ec & ->).
  assert (Hin1 : exists i, find_network (named (name n)) (networks w1) 0 = Some i).
  { destruct (find_network (named (name n)) (networks w1) 0) as [i |] eqn:Ei; [by exists i |]. exfalso.
    pose proof (table_lookup_none _ _ (find_network_none _ _ _ Ei)) as E. by rewrite Htab, lookup_insert_eq in E. }
  pose proof (table_remove (name n) w1 Hw1) as H3.
  assert (H4 : ok (fun r _ => r = WM_SUCCESS) (wlan_remove_network (name n) w1)).
  { unfold wlan_remove_network, find_in_table. cm_step. rewrite Hrun1. cbn [negb]. cm_step. destruct Hin1 as (i & Ei). rewrite Ei. cm_step.
    rewrite Hst1, andb_false_r. unfold is_uap_state. rewrite Hu1, (bool_decide_eq_false_2 (uap_state w = _)), andb_false_r by done. cbn [orb].
    apply find_network_some in Ei as (l1 & u & l2 & El & -> & _).
    apply (ok_bind (fun _ _ => True)); [by rewrite (put_slot _ _ _ _ _ El) |]. intros. by repeat cm_step. }
  apply ok_ret in H4 as (r & w2 & E2 & ->). rewrite E2 in H3. destruct H3 as [_ [_ Htab2]].
  exists w1, w2, c. split; [done |]. split; [done |]. split; [done |]. split; [done |].
  by rewrite Htab2, Htab, delete_insert_id.
Qed.
Lemma add_remove_roundtrip_witness : exists w1 w2 c, wlan_add_network (good_calls []) cafe idle = Ret (WM_SUCCESS, w1) /\
    wlan_get_network_byname (lit "cafe") w1 = Ret (Some c, w1) /\ copy_network (stored_network cafe) = Ret c /\
    wlan_remove_network (lit "cafe") w1 = Ret (WM_SUCCESS, w2) /\ table (networks w2) = table (networks idle).
Proof. apply (add_remove_roundtrip (good_calls []) idle cafe); try done; [exact idle_table | exact cafe_wf | vm_compute; lia]. Defined.
