(* ===== verification/WlcmErrors.v ===== *)
(** * The connection manager: errors

    What the connection manager does when a lower layer fails, a request comes at
    a bad time or an argument is at the edge of what is documented. *)
From S2P Require Import Prelude CString WlcmData Wlcm WlcmProps.
Open Scope Z_scope.

(** ** A scan command that fails *)

(** The driver refuses scans, and what is left of earlier scans has no access
    point for the network. *)
Definition refusing (env : calls) (n : wlan_network) : Prop :=
  mem_ok env = true /\ scan_cmd_ok env = false /\
  forall on, select_ap env on n (default [] (scan_results env)) None [] = Ret (None, []).
(** The connection manager looks for network [i] with [c] scans counted. *)
Definition retrying (i : Z) (n : wlan_network) (c : Z) (w : wlan) : Prop :=
  sta_state w = CM_STA_SCANNING /\ cur_network_idx w = i /\ arr_get (networks w) i = Ret n /\ scan_count w = c /\
  roam_reassoc w = false /\ events w = [WIFI_EVENT_SCAN_RESULT false].
(** The main thread takes the first message of the queue. *)
Definition take_message (env : calls) : CM unit :=
  q ← get events; match q with [] => skip | m :: q' => upd (set_events q');; cm_main_message env m end.
Fixpoint take_messages (env : calls) (k : nat) : CM unit :=
  match k with O => skip | S k' => take_message env;; take_messages env k' end.

Lemma retrying_turn env i n c w : refusing env n -> c < WLAN_RESCAN_LIMIT -> retrying i n c w ->
  ok (fun _ w' => retrying i n c w') (take_message env w).
Proof.
  intros (Hm & Hs & Hap) Hc (Hst & Hi & En & Hcount & Hroam & Hev). unfold take_message. cm_step. rewrite Hev. cm_step.
  unfold cm_main_message. cbn [is_uap_msg]. unfold handle_message.
  eapply (ok_bind (fun s w' => retrying i n c (set_sta_state s w'))); [| intros s w' H; by cm_step].
  do 2 cm_step. unfold wlcm_process_scan_result_event. do 2 cm_step. cbn [sta_state set_events]. rewrite Hst.
  eapply (ok_bind (fun _ w' => retrying i n c (set_is_scan_lock false (set_scan_lock true w')))).
  - unfold handle_scan_results. cm_step. rewrite Hm. cbn [negb]. cm_step. cbn [cur_network_idx set_events]. rewrite Hi.
    eapply ok_network; [exact En |]. cm_step. eapply ok_lift; [apply Hap |]. cbv beta iota.
    rewrite bool_decide_eq_false_2 by congruence. unfold scan_again. cm_step. cbn [roam_reassoc set_events set_sta_state]. rewrite Hroam.
    cm_step. cbn [scan_count set_events set_sta_state]. rewrite Hcount, (proj2 (Z.ltb_lt _ _) Hc). cm_step.
    unfold do_scan. eapply ok_network; [exact En |]. do 2 cm_step. rewrite Hs.
    eapply (ok_bind (fun _ w' => retrying i n c (set_is_scan_lock false (set_scan_lock true w')))); [| intros; by cm_step].
    unfold wlan_wlcmgr_send_msg. by repeat cm_step.
  - intros ? w1 (? & ? & ? & ? & ? & ?). cm_step.
    assert (H' : retrying i n c (set_sta_state (sta_state w1) (set_is_scan_lock false (set_scan_lock true w1)))) by done. exact H'.
Qed.
(** When the driver refuses a scan the failure is answered by another scan, and
    the scan is not counted: the attempt to connect never ends, the limit on
    scans notwithstanding, and the main thread is never without a message. *)
Theorem refused_scans_never_end env i n c w : refusing env n -> c < WLAN_RESCAN_LIMIT -> retrying i n c w ->
  forall k, exists w', take_messages env k w = Ret (tt, w') /\ retrying i n c w'.
Proof.
  intros Hr Hc Hw k. revert w Hw. induction k as [| k IH]; intros w Hw; [by exists w |].
  pose proof (retrying_turn env i n c w Hr Hc Hw) as ([] & w1 & E & H1)%ok_ret.
  destruct (IH w1 H1) as (w' & E' & H'). exists w'. split; [| done].
  change (take_messages env (S k) w) with ('(_, w1) ← take_message env w; take_messages env k w1). by rewrite E, bind_ret.
Qed.
Definition refusing_calls : calls :=
  MkCalls true false None (fun _ => true) (false, false) true true true true true true true true (fun ip => ip)
    (fun _ => []) true true true false true.
Definition refused : wlan :=
  after (_ ← wlan_add_network (good_calls []) home; _ ← wlan_connect (lit "home"); take_message refusing_calls) initialized.
Lemma refused_scans_never_end_witness :
  exists w', take_messages refusing_calls 1000 refused = Ret (tt, w') /\ retrying 0 (stored_network home) 0 w'.
Proof.
  apply (refused_scans_never_end refusing_calls 0 (stored_network home) 0); [by split | done | by vm_compute].
Defined.

(** ** Requests at a bad time *)

(** A request to connect that comes while association is paused (after a failed
    integrity check) is only noted; when the pause ends the request put in the
    queue is for the first network, whatever network was asked for. *)
Theorem paused_request_forgets_network env i w : assoc_paused w = true -> (length (events w) < MAX_EVENTS)%nat ->
  exists w1, cm_main_message env (CM_STA_USER_REQUEST_CONNECT i) w = Ret (tt, w1) /\ sta_state w1 = sta_state w /\
    exists w2, assoc_timer_cb w1 = Ret (tt, w2) /\ events w2 = events w ++ [CM_STA_USER_REQUEST_CONNECT 0].
Proof.
  intros Hp Hl. exists (set_sta_state (sta_state w) (set_pending_assoc_request true (set_pending_assoc_request false w))).
  split; [| split; [done |]].
  - change (cm_main_message env (CM_STA_USER_REQUEST_CONNECT i) w) with
      ('(next, w1) ← ((if negb (assoc_paused w) then wlcm_request_connect env i (cur_network_idx w)
         else upd (set_pending_assoc_request true);; mret (sta_state w)) (set_pending_assoc_request false w));
       Ret (tt, set_sta_state next w1)). by rewrite Hp.
  - assert (H : forall v, events v = events w -> pending_assoc_request v = true ->
      ok (fun _ v' => events v' = events w ++ [CM_STA_USER_REQUEST_CONNECT 0]) (assoc_timer_cb v)).
    { intros v Ev Hv. unfold assoc_timer_cb. do 2 cm_step. cbn [pending_assoc_request set_assoc_paused]. rewrite Hv. cbn [when].
      unfold send_user_request, wlan_wlcmgr_send_msg. eapply ok_bind; [| intros ? w' H'; cm_step; exact H'].
      cm_step. cbn [events set_assoc_paused]. rewrite Ev, bool_decide_eq_true_2 by done. by repeat cm_step. }
    pose proof (H (set_sta_state (sta_state w) (set_pending_assoc_request true (set_pending_assoc_request false w))) eq_refl eq_refl)
      as ([] & w2 & E & H2)%ok_ret. by exists w2.
Qed.
Lemma paused_request_forgets_network_witness :
  exists w1, cm_main_message (good_calls []) (CM_STA_USER_REQUEST_CONNECT 3) (set_assoc_paused true initialized) = Ret (tt, w1) /\
    sta_state w1 = CM_STA_IDLE /\ exists w2, assoc_timer_cb w1 = Ret (tt, w2) /\ events w2 = [CM_STA_USER_REQUEST_CONNECT 0].
Proof. apply (paused_request_forgets_network (good_calls []) 3 (set_assoc_paused true initialized)); [done | vm_compute; lia]. Defined.

(** When the queue is full [wlan_connect] fails and keeps the scan lock, so that
    the next call that needs it waits; [wlan_reassociate] gives the lock back. *)
Theorem full_queue_keeps_lock i w : scan_lock w = true -> length (events w) = MAX_EVENTS ->
  (exists w', wlan_connect_locked i w = Ret (WM_FAIL, w') /\ scan_lock w' = false /\ events w' = events w /\
     forall j, wlan_connect_locked j w' = Fault Hang) /\
  (exists w', wlan_reassociate_locked w = Ret (WM_FAIL, w') /\ scan_lock w' = true /\ events w' = events w).
Proof.
  intros Hlock Hl. assert (Hfull : bool_decide (length (events w) < MAX_EVENTS)%nat = false) by (apply bool_decide_eq_false; lia). split.
  - assert (H : ok (fun r w' => r = WM_FAIL /\ scan_lock w' = false /\ events w' = events w) (wlan_connect_locked i w)).
    { unfold wlan_connect_locked, send_user_request. cm_step. rewrite Hlock. cbn [negb]. do 3 cm_step.
      eapply (ok_bind (fun b w' => b = false /\ scan_lock w' = false /\ events w' = events w)).
      - unfold wlan_wlcmgr_send_msg. cm_step. cbn [events set_scan_lock set_is_scan_lock set_reassoc_count]. rewrite Hfull. by repeat cm_step.
      - intros b w1 [-> H1]. by cm_step. }
    apply ok_ret in H as (r & w' & E & -> & H1 & H2). exists w'. split; [done |]. split; [done |]. split; [done |].
    intros j. change (wlan_connect_locked j w') with ((if negb (scan_lock w') then lift (Fault Hang) else
      upd (set_scan_lock false);; upd (set_is_scan_lock true);; upd (set_reassoc_count 0);;
      ok ← send_user_request (CM_STA_USER_REQUEST_CONNECT j); mret (if ok : bool then WM_SUCCESS else WM_FAIL)) w'). by rewrite H1.
  - assert (H : ok (fun r w' => r = WM_FAIL /\ scan_lock w' = true /\ events w' = events w) (wlan_reassociate_locked w)).
    { unfold wlan_reassociate_locked, send_user_request. cm_step. rewrite Hlock. cbn [negb]. do 4 cm_step.
      eapply (ok_bind (fun b w' => b = false /\ events w' = events w)).
      - unfold wlan_wlcmgr_send_msg. cm_step. cbn [events set_scan_lock set_is_scan_lock set_roam_reassoc]. rewrite Hfull. by repeat cm_step.
      - intros b w1 [-> H1]. cm_step. eapply (ok_bind (fun _ w' => scan_lock w' = true /\ events w' = events w));
          [unfold release_scan_lock; by repeat cm_step |]. intros ? w2 [H2 H3]. by cm_step. }
    apply ok_ret in H as (r & w' & E & -> & H1 & H2). by exists w'.
Qed.
Definition full_queue : wlan := set_events (replicate 20 WIFI_EVENT_OTHER) initialized.
Lemma full_queue_keeps_lock_witness : exists w', wlan_connect_locked 0 full_queue = Ret (WM_FAIL, w') /\ scan_lock w' = false.
Proof.
  destruct (full_queue_keeps_lock 0 full_queue) as [(w' & E & H & _) _]; [by vm_compute | by vm_compute |]. by exists w'.
Defined.

(** Before a network was selected [cur_network_idx] is -1, and a request to
    disconnect reads the network before the first. *)
Theorem disconnect_before_connect_reads_outside env w : cur_network_idx w = -1 ->
  cm_main_message env CM_STA_USER_REQUEST_DISCONNECT w = Fault OutOfBounds.
Proof.
  intros Hi. change (cm_main_message env CM_STA_USER_REQUEST_DISCONNECT w) with
    ('(next, w1) ← wlcm_request_disconnect env (sta_state w) (cur_network_idx w) w; Ret (tt, set_sta_state next w1)).
  rewrite Hi. done.
Qed.
Lemma disconnect_before_connect_reads_outside_witness :
  cm_main_message (good_calls []) CM_STA_USER_REQUEST_DISCONNECT initialized = Fault OutOfBounds.
Proof. by apply (disconnect_before_connect_reads_outside (good_calls []) initialized). Defined.

(** ** Two scans of users *)

Definition two_scans : CM unit :=
  let env := good_calls [] in
  _ ← wlan_scan_with_opt env (MkScanParams 1 [] []);
  cm_main_message env (WIFI_EVENT_SCAN_RESULT true);;
  _ ← wlan_scan_with_opt env (MkScanParams 2 [] []);
  take_message env;; take_message env;; cm_main_message env (WIFI_EVENT_SCAN_RESULT true).
(** The result of a scan that nobody waits for gives back a lock that a call
    holds: two user scans are then accepted, the second returns to the state of
    the first, and the station waits in [CM_STA_SCANNING_USER] for ever: neither
    scan results nor a disconnection change its state. *)
Theorem stale_result_wedges_user_scan : exists w, two_scans initialized = Ret (tt, w) /\
  sta_state w = CM_STA_SCANNING_USER /\ sta_return_to w = CM_STA_SCANNING_USER /\
  (exists w', cm_main_message (good_calls []) (WIFI_EVENT_SCAN_RESULT true) w = Ret (tt, w') /\ sta_state w' = CM_STA_SCANNING_USER).
Proof. eexists. split; [by vm_compute |]. split; [by vm_compute |]. split; [by vm_compute |]. eexists. split; by vm_compute. Qed.

Definition connect_home : CM unit :=
  let env := good_calls home_scan in
  _ ← wlan_add_network env home; _ ← wlan_connect (lit "home"); take_message env;;
  cm_main_message env (WIFI_EVENT_SCAN_RESULT true);; cm_main_message env (WIFI_EVENT_ASSOCIATION true);;
  cm_main_message env (WIFI_EVENT_AUTHENTICATION true 0);; cm_main_message env (WIFI_EVENT_NET_STA_ADDR_CONFIG true);;
  cm_main_message env (WIFI_EVENT_NET_DHCP_CONFIG true).
Definition scan_connected : CM unit :=
  connect_home;; _ ← wlan_scan_with_opt (good_calls []) (MkScanParams 7 [] []); take_message (good_calls []).
(** A disconnection during a scan of a connected station makes it idle at once,
    not when the scan is complete; the results of the scan come to an idle station
    and the user's callback is not called. *)
Theorem disconnect_drops_scan_callback : exists w1 w2 w3, scan_connected initialized = Ret (tt, w1) /\
  sta_state w1 = CM_STA_SCANNING_USER /\ sta_return_to w1 = CM_STA_CONNECTED /\ scan_cb w1 = Some 7%nat /\
  cm_main_message (good_calls []) CM_STA_USER_REQUEST_DISCONNECT w1 = Ret (tt, w2) /\ sta_state w2 = CM_STA_IDLE /\
  cm_main_message (good_calls []) (WIFI_EVENT_SCAN_RESULT true) w2 = Ret (tt, w3) /\ log w3 = log w2 /\ scan_cb w3 = Some 7%nat.
Proof. eexists _, _, _. repeat (split; [by vm_compute |]). by vm_compute. Qed.

(** ** A failed addition *)

Definition secured : wlan_network :=
  set_security (set_psk_len 8 (set_psk (lit "12345678" ++ replicate 57 0) (set_sec_type WLAN_SECURITY_WPA2 no_security))) home.
Definition no_clear_calls : calls :=
  MkCalls true true None (fun _ => true) (false, false) true true true true false true true true (fun ip => ip)
    (fun _ => []) true true true false true.
(** A network with a key whose old key cannot be cleared is stored though the
    call reports an error, and it is not counted; its removal then takes the
    count below zero. *)
Theorem failed_add_stores_uncounted : exists w1 w2, wlan_add_network no_clear_calls secured initialized = Ret (WLAN_ERROR_ACTION, w1) /\
  num_networks w1 = 0 /\ networks w1 !! 0%nat = Some (stored_network secured) /\
  wlan_remove_network (lit "home") w1 = Ret (WM_SUCCESS, w2) /\ num_networks w2 = 2 ^ 32 - 1.
Proof. eexists _, _. repeat (split; [by vm_compute |]). by vm_compute. Qed.

(** ** Arguments at the edge *)

(** A name of 32 characters, the documented maximum, is refused. *)
Lemma longest_name_refused n : length (name n) = 32%nat -> network_acceptable n = Ret false.
Proof. intros E. unfold network_acceptable. cbv zeta. by rewrite E. Qed.
(** A WPA2 network with a valid PMK and no passphrase is refused. *)
Lemma pmk_only_refused s : sec_type s = WLAN_SECURITY_WPA2 -> psk_len s = 0 -> pmk_valid s = true -> wlan_is_key_valid s = Ret false.
Proof. intros Et El _. unfold wlan_is_key_valid, psk_valid. by rewrite Et, El. Qed.
