(* ===== verification/OsRwlock.v ===== *)
(** * Reader-writer locks

    The locks of [port/os/os.c] as the threads that use them see them: each
    operation of the FreeRTOS semaphore or mutex that can wait is one step, and
    what a thread does up to the next is part of it; so the last reader gives
    [rw_lock] in the step in which it takes [reader_mutex], which it keeps while
    it does. The instance of the driver,
    [sleep_rwlock], has the callback [wifi_wakeup_card_cb] of [wlcmgr/wlan.c]. *)
From stdpp Require Import relations list.
From S2P Require Import Prelude.
Open Scope Z_scope.

(** ** The lock and the threads *)

(** [os_rw_lock_t]: who has the mutex, whether the binary semaphore is given,
    the number of readers, and whether there is a callback. *)
Record os_rw_lock_t := MkLock {
  reader_mutex : option nat;
  rw_lock : bool;
  reader_count : Z;
  reader_cb : bool;
  wakeups : nat      (* calls of [wlan_wake_up_card] *)
}.
Definition os_rwlock_create_with_cb (cb : bool) : os_rw_lock_t := MkLock None true 0 cb 0.
Definition os_rwlock_create : os_rw_lock_t := os_rwlock_create_with_cb false.

(** Where a thread is: outside, or before the operation named. *)
Inductive pc :=
  | Outside
  | ReadMutex                (* [os_rwlock_read_lock]: to take [reader_mutex] *)
  | ReadCallback             (* in the callback: to try [rw_lock] *)
  | ReadSemaphore            (* to take [rw_lock] *)
  | ReadPut (ok : bool)      (* to give [reader_mutex] back and return *)
  | Reading
  | UnreadMutex              (* [os_rwlock_read_unlock]: to take [reader_mutex] *)
  | UnreadPut                (* to give it back *)
  | WriteSemaphore           (* [os_rwlock_write_lock]: to take [rw_lock] *)
  | Writing.
#[export] Instance pc_eq_dec : EqDecision pc.
Proof. solve_decision. Defined.

(** What a thread does next: it makes a call, goes on in it, or its wait ends
    without success. *)
Inductive move := CallRead | CallWrite | CallUnread | CallUnwrite | Go | Expire.

Definition set_mutex (m : option nat) (l : os_rw_lock_t) : os_rw_lock_t := MkLock m (rw_lock l) (reader_count l) (reader_cb l) (wakeups l).
Definition set_rw (b : bool) (l : os_rw_lock_t) : os_rw_lock_t := MkLock (reader_mutex l) b (reader_count l) (reader_cb l) (wakeups l).
Definition set_count (c : Z) (l : os_rw_lock_t) : os_rw_lock_t := MkLock (reader_mutex l) (rw_lock l) c (reader_cb l) (wakeups l).
Definition wake_card (l : os_rw_lock_t) : os_rw_lock_t := MkLock (reader_mutex l) (rw_lock l) (reader_count l) (reader_cb l) (S (wakeups l)).

(** [os_rwlock_read_lock] *)
Definition os_rwlock_read_lock (t : nat) (p : pc) (m : move) (l : os_rw_lock_t) : option (pc * os_rw_lock_t) :=
  match p, m with
  | Outside, CallRead => Some (ReadMutex, l)
  | ReadMutex, Go =>
      match reader_mutex l with
      | Some _ => None
      | None =>
          let c := u32 (reader_count l + 1) in
          Some (if c =? 1 then if reader_cb l then ReadCallback else ReadSemaphore else ReadPut true,
                set_count c (set_mutex (Some t) l))
      end
  | ReadCallback, Go => Some (if rw_lock l then (ReadPut true, set_rw false l) else (ReadSemaphore, wake_card l))
  | ReadSemaphore, Go => if rw_lock l then Some (ReadPut true, set_rw false l) else None
  | ReadSemaphore, Expire => Some (ReadPut false, set_count (u32 (reader_count l - 1)) l)
  | ReadPut ok, Go => Some (if ok : bool then Reading else Outside, set_mutex None l)
  | _, _ => None
  end.
(** [os_rwlock_read_unlock] *)
Definition os_rwlock_read_unlock (t : nat) (p : pc) (m : move) (l : os_rw_lock_t) : option (pc * os_rw_lock_t) :=
  match p, m with
  | Reading, CallUnread => Some (UnreadMutex, l)
  | UnreadMutex, Go =>
      match reader_mutex l with
      | Some _ => None
      | None =>
          let c := u32 (reader_count l - 1) in
          let l' := set_count c (set_mutex (Some t) l) in
          Some (UnreadPut, if c =? 0 then set_rw true l' else l')
      end
  | UnreadPut, Go => Some (Outside, set_mutex None l)
  | _, _ => None
  end.
(** [os_rwlock_write_lock] and [os_rwlock_write_unlock] *)
Definition os_rwlock_write (p : pc) (m : move) (l : os_rw_lock_t) : option (pc * os_rw_lock_t) :=
  match p, m with
  | Outside, CallWrite => Some (WriteSemaphore, l)
  | WriteSemaphore, Go => if rw_lock l then Some (Writing, set_rw false l) else None
  | WriteSemaphore, Expire => Some (Outside, l)
  | Writing, CallUnwrite => Some (Outside, set_rw true l)
  | _, _ => None
  end.
Definition os_rwlock_move (t : nat) (p : pc) (m : move) (l : os_rw_lock_t) : option (pc * os_rw_lock_t) :=
  match os_rwlock_read_lock t p m l with
  | Some r => Some r
  | None => match os_rwlock_read_unlock t p m l with Some r => Some r | None => os_rwlock_write p m l end
  end.

(** All threads and the lock they share. *)
Record system := MkSystem { lock : os_rw_lock_t; threads : list pc }.
Definition system_move (t : nat) (m : move) (s : system) : option system :=
  p ← threads s !! t;
  '(p', l') ← os_rwlock_move t p m (lock s);
  Some (MkSystem l' (<[t := p']> (threads s))).
Inductive step (s s' : system) : Prop := step_move t m : system_move t m s = Some s' -> step s s'.
Definition start (cb : bool) (n : nat) : system := MkSystem (os_rwlock_create_with_cb cb) (replicate n Outside).

(** ** Counting threads *)
Definition number (f : pc -> bool) (l : list pc) : Z := Z.of_nat (length (List.filter f l)).
Definition one (b : bool) : Z := if b then 1 else 0.
Definition has_mutex (p : pc) : bool :=
  match p with ReadCallback | ReadSemaphore | ReadPut _ | UnreadPut => true | _ => false end.
(** Counted in [reader_count]. *)
Definition counted (p : pc) : bool :=
  match p with ReadCallback | ReadSemaphore | ReadPut true | Reading | UnreadMutex => true | _ => false end.
(** The first reader, that has not got [rw_lock] yet. *)
Definition entering (p : pc) : bool := match p with ReadCallback | ReadSemaphore => true | _ => false end.
Definition writes (p : pc) : bool := match p with Writing => true | _ => false end.
(** Inside the lock as a reader. *)
Definition reads (p : pc) : bool := counted p && negb (entering p).

Lemma number_nonneg f l : 0 <= number f l.
Proof. unfold number. lia. Qed.
Lemma number_insert f (l : list pc) t p p' : l !! t = Some p -> number f (<[t := p']> l) = number f l - one (f p) + one (f p').
Proof.
  unfold number, one. revert t. induction l as [| q l IH]; intros [| t] E; simpl in *; try done.
  - injection E as ->. destruct (f p), (f p'); simpl; lia.
  - specialize (IH t E). destruct (f q); simpl; lia.
Qed.
Lemma number_bound f l : number f l <= Z.of_nat (length l).
Proof. unfold number. pose proof (List.filter_length_le f l). lia. Qed.
Lemma number_pos f (l : list pc) t p : l !! t = Some p -> f p = true -> 0 < number f l.
Proof.
  unfold number. intros E Hf. assert (Hin : p ∈ l) by (by eapply list_elem_of_lookup_2).
  apply list_elem_of_In in Hin. assert (H : List.In p (List.filter f l)) by (by apply List.filter_In).
  destruct (List.filter f l); [done | simpl; lia].
Qed.
Lemma number_pos_inv f l : 0 < number f l -> exists t p, l !! t = Some p /\ f p = true.
Proof.
  unfold number. intros H. destruct (List.filter f l) as [| p l'] eqn:E; [simpl in H; lia |].
  assert (Hin : List.In p (List.filter f l)) by (rewrite E; by left). apply List.filter_In in Hin as [Hin Hf].
  apply list_elem_of_In, list_elem_of_lookup in Hin as (t & Ht). by exists t, p.
Qed.
Lemma number_split l : number counted l = number entering l + number reads l.
Proof. unfold number, reads. induction l as [| p l IH]; [done |]. destruct p as [| | | | [] | | | | |]; simpl in *; lia. Qed.

(** ** The invariant *)
Record good (s : system) : Prop := MkGood {
  good_threads : Z.of_nat (length (threads s)) < 2 ^ 32;
  good_owner : forall t p, threads s !! t = Some p -> has_mutex p = true -> reader_mutex (lock s) = Some t;
  good_owned : forall t, reader_mutex (lock s) = Some t -> exists p, threads s !! t = Some p /\ has_mutex p = true;
  good_count : reader_count (lock s) = number counted (threads s);
  good_entering : 0 < number entering (threads s) -> number counted (threads s) = 1;
  good_rw : one (rw_lock (lock s)) + number writes (threads s) + one (0 <? number reads (threads s)) = 1
}.

(** The two clauses about the owner of the mutex, after thread [t] moved to [p']. *)
Lemma owner_insert (l : list pc) t p p' (m m' : option nat) : l !! t = Some p ->
  (forall u q, l !! u = Some q -> has_mutex q = true -> m = Some u) ->
  (forall u, m = Some u -> exists q, l !! u = Some q /\ has_mutex q = true) ->
  (m' = if has_mutex p' then Some t else if has_mutex p then None else m) ->
  (has_mutex p' = true -> m = None \/ has_mutex p = true) ->
  (forall u q, <[t := p']> l !! u = Some q -> has_mutex q = true -> m' = Some u) /\
  (forall u, m' = Some u -> exists q, <[t := p']> l !! u = Some q /\ has_mutex q = true).
Proof.
  intros Et H1 H2 -> Hfree. pose proof (lookup_lt_Some _ _ _ Et) as Hlt. split.
  - intros u q Eu Hq. destruct (decide (u = t)) as [-> | Hne].
    + rewrite list_lookup_insert_eq in Eu by done. injection Eu as <-. by rewrite Hq.
    + rewrite list_lookup_insert_ne in Eu by done. pose proof (H1 u q Eu Hq) as Em.
      destruct (has_mutex p') eqn:Ep'.
      * destruct (Hfree eq_refl) as [E | E]; [congruence |]. pose proof (H1 t p Et E). congruence.
      * destruct (has_mutex p) eqn:Ep; [| done]. pose proof (H1 t p Et Ep). congruence.
  - intros u Eu. destruct (has_mutex p') eqn:Ep'.
    + injection Eu as <-. exists p'. split; [by apply list_lookup_insert_eq | done].
    + destruct (has_mutex p) eqn:Ep; [done |]. destruct (H2 u Eu) as (q & Hq & Hm). exists q. split; [| done].
      rewrite list_lookup_insert_ne; [done |]. intros ->. rewrite Et in Hq. injection Hq as ->. congruence.
Qed.

(** What a move must respect to keep the invariant, as arithmetic on the counts. *)
Lemma good_insert s t p p' l' : good s -> threads s !! t = Some p ->
  (reader_mutex l' = if has_mutex p' then Some t else if has_mutex p then None else reader_mutex (lock s)) ->
  (has_mutex p' = true -> reader_mutex (lock s) = None \/ has_mutex p = true) ->
  reader_count l' = number counted (threads s) - one (counted p) + one (counted p') ->
  (0 < number entering (threads s) - one (entering p) + one (entering p') ->
     number counted (threads s) - one (counted p) + one (counted p') = 1) ->
  one (rw_lock l') + (number writes (threads s) - one (writes p) + one (writes p')) +
    one (0 <? number reads (threads s) - one (reads p) + one (reads p')) = 1 ->
  good (MkSystem l' (<[t := p']> (threads s))).
Proof.
  intros [Hn H1 H2 _ _ _] Et Hm Hfree Hc He Hr.
  destruct (owner_insert _ t p p' _ _ Et H1 H2 Hm Hfree) as [H1' H2'].
  constructor; cbn [lock threads]; rewrite ?length_insert; try done; by rewrite ?(number_insert _ _ _ _ _ Et).
Qed.

Lemma count_width s p t : good s -> threads s !! t = Some p -> counted p = false -> 0 <= reader_count (lock s) < 2 ^ 32 - 1.
Proof.
  intros [Hn _ _ Hc _ _] Et Hp. rewrite Hc. pose proof (number_nonneg counted (threads s)). split; [done |].
  pose proof (number_insert counted (threads s) t p Reading Et) as E. rewrite Hp in E. cbn [one counted] in E.
  pose proof (number_bound counted (<[t := Reading]> (threads s))) as Hb. rewrite length_insert in Hb. lia.
Qed.
Lemma free_not_entering s : good s -> reader_mutex (lock s) = None -> number entering (threads s) = 0.
Proof.
  intros Hg Hm. pose proof (number_nonneg entering (threads s)). destruct (Z.eq_dec (number entering (threads s)) 0); [done |].
  destruct (number_pos_inv entering (threads s)) as (t & p & Et & Hp); [lia |].
  pose proof (good_owner _ Hg t p Et ltac:(by destruct p)). congruence.
Qed.

(** The counts of a good system, for [lia]. *)
Lemma good_counts s : good s ->
  number counted (threads s) = number entering (threads s) + number reads (threads s) /\
  reader_count (lock s) = number counted (threads s) /\
  (number entering (threads s) = 0 \/ number counted (threads s) = 1) /\
  0 <= number entering (threads s) /\ 0 <= number reads (threads s) /\ 0 <= number writes (threads s) /\
  (rw_lock (lock s) = true /\ number writes (threads s) = 0 /\ number reads (threads s) = 0 \/
   rw_lock (lock s) = false /\ (number writes (threads s) = 1 /\ number reads (threads s) = 0 \/
     number writes (threads s) = 0 /\ 0 < number reads (threads s))).
Proof.
  intros Hg. pose proof (number_split (threads s)). pose proof (number_nonneg entering (threads s)).
  pose proof (number_nonneg reads (threads s)). pose proof (number_nonneg writes (threads s)).
  pose proof (good_entering _ Hg) as He. pose proof (good_rw _ Hg) as Hr. pose proof (good_count _ Hg).
  assert (number entering (threads s) = 0 \/ number counted (threads s) = 1) by lia.
  destruct (rw_lock (lock s)), (Z.ltb_spec 0 (number reads (threads s))); cbn [one] in Hr; intuition lia.
Qed.
Ltac settle :=
  cbn [one counted entering writes reads has_mutex andb negb rw_lock reader_mutex reader_count set_mutex set_rw set_count wake_card];
  try match goal with H : rw_lock _ = _ |- _ => rewrite H end;
  try done; try (intros; lia); try (by left); try (by right);
  try match goal with |- context [0 <? ?x] => destruct (Z.ltb_spec 0 x) end; cbn [one]; lia.

Ltac by_counts Hrw := destruct Hrw as [(? & ? & ?) | (? & ?)]; try discriminate; settle.

Lemma good_read_lock s t p m p' l' : good s -> threads s !! t = Some p -> os_rwlock_read_lock t p m (lock s) = Some (p', l') ->
  good (MkSystem l' (<[t := p']> (threads s))).
Proof.
  intros Hg Et E. pose proof (good_counts s Hg) as (Hs & Hc & He & He0 & Hr0 & Hw0 & Hrw).
  assert (Hown : has_mutex p = true -> reader_mutex (lock s) = Some t) by (by apply (good_owner _ Hg t p)).
  assert (Hpos : entering p = true -> 0 < number entering (threads s)) by (by apply (number_pos entering _ t p)).
  destruct p as [| | | | ok | | | | |], m; try done; cbn [os_rwlock_read_lock] in E; cbn [has_mutex entering] in Hown, Hpos.
  - injection E as <- <-. apply (good_insert s t Outside); try done; by_counts Hrw.
  - destruct (reader_mutex (lock s)) eqn:Em; [done |]. pose proof (count_width s ReadMutex t Hg Et eq_refl) as Hw.
    pose proof (free_not_entering s Hg Em) as Hz. injection E as <- <-. rewrite wrap_small by lia.
    destruct (Z.eqb_spec (reader_count (lock s) + 1) 1) as [E1 | E1]; [destruct (reader_cb (lock s)) |];
      apply (good_insert s t ReadMutex); try done; by_counts Hrw.
  - specialize (Hpos eq_refl). destruct (rw_lock (lock s)) eqn:Erw; injection E as <- <-; apply (good_insert s t ReadCallback); try done;
      try (by apply Hown); by_counts Hrw.
  - specialize (Hpos eq_refl). destruct (rw_lock (lock s)) eqn:Erw; [| done]. injection E as <- <-.
    apply (good_insert s t ReadSemaphore); try done; try (by apply Hown); by_counts Hrw.
  - specialize (Hpos eq_refl). injection E as <- <-. apply (good_insert s t ReadSemaphore); try done; try (by apply Hown);
      rewrite ?wrap_small by lia; by_counts Hrw.
  - injection E as <- <-. destruct ok; [apply (good_insert s t (ReadPut true)) | apply (good_insert s t (ReadPut false))]; try done;
      by_counts Hrw.
Qed.
Lemma good_read_unlock s t p m p' l' : good s -> threads s !! t = Some p -> os_rwlock_read_unlock t p m (lock s) = Some (p', l') ->
  good (MkSystem l' (<[t := p']> (threads s))).
Proof.
  intros Hg Et E. pose proof (good_counts s Hg) as (Hs & Hc & He & He0 & Hr0 & Hw0 & Hrw).
  assert (Hown : has_mutex p = true -> reader_mutex (lock s) = Some t) by (by apply (good_owner _ Hg t p)).
  assert (Hpos : counted p = true -> 0 < number counted (threads s)) by (by apply (number_pos counted _ t p)).
  assert (Hb : number counted (threads s) < 2 ^ 32) by (pose proof (number_bound counted (threads s)); pose proof (good_threads _ Hg); lia).
  destruct p, m; try done; cbn [os_rwlock_read_unlock] in E; cbn [has_mutex counted] in Hown, Hpos.
  - injection E as <- <-. apply (good_insert s t Reading); try done; by_counts Hrw.
  - destruct (reader_mutex (lock s)) eqn:Em; [done |]. pose proof (free_not_entering s Hg Em) as Hz. specialize (Hpos eq_refl).
    injection E as <- <-. rewrite wrap_small by lia.
    destruct (Z.eqb_spec (reader_count (lock s) - 1) 0); apply (good_insert s t UnreadMutex); try done; by_counts Hrw.
  - injection E as <- <-. apply (good_insert s t UnreadPut); try done; by_counts Hrw.
Qed.
Lemma good_write s t p m p' l' : good s -> threads s !! t = Some p -> os_rwlock_write p m (lock s) = Some (p', l') ->
  good (MkSystem l' (<[t := p']> (threads s))).
Proof.
  intros Hg Et E. pose proof (good_counts s Hg) as (Hs & Hc & He & He0 & Hr0 & Hw0 & Hrw).
  assert (Hpos : writes p = true -> 0 < number writes (threads s)) by (by apply (number_pos writes _ t p)).
  destruct p, m; try done; cbn [os_rwlock_write] in E; cbn [writes] in Hpos.
  - injection E as <- <-. apply (good_insert s t Outside); try done; by_counts Hrw.
  - destruct (rw_lock (lock s)) eqn:Erw; [| done]. injection E as <- <-. apply (good_insert s t WriteSemaphore); try done; by_counts Hrw.
  - injection E as <- <-. apply (good_insert s t WriteSemaphore); try done; by_counts Hrw.
  - specialize (Hpos eq_refl). injection E as <- <-. apply (good_insert s t Writing); try done; by_counts Hrw.
Qed.
Lemma good_step s s' : good s -> step s s' -> good s'.
Proof.
  intros Hg [t m E]. unfold system_move in E. destruct (threads s !! t) as [p |] eqn:Et; [| done]. simpl in E.
  destruct (os_rwlock_move t p m (lock s)) as [[p' l'] |] eqn:Em; [| done]. injection E as <-. unfold os_rwlock_move in Em.
  destruct (os_rwlock_read_lock t p m (lock s)) eqn:E1; [injection Em as ->; by eapply good_read_lock |].
  destruct (os_rwlock_read_unlock t p m (lock s)) eqn:E2; [injection Em as ->; by eapply good_read_unlock |].
  by eapply good_write.
Qed.
Lemma number_replicate f n : f Outside = false -> number f (replicate n Outside) = 0.
Proof. intros Hf. unfold number. induction n as [| n IH]; [done |]. simpl. rewrite Hf. exact IH. Qed.
Lemma good_start cb n : Z.of_nat n < 2 ^ 32 -> good (start cb n).
Proof.
  intros Hn. constructor; cbn [lock threads start]; rewrite ?number_replicate, ?length_replicate by done; try done.
  intros t p [-> _]%lookup_replicate. done.
Qed.
Lemma good_reachable cb n s : Z.of_nat n < 2 ^ 32 -> rtc step (start cb n) s -> good s.
Proof.
  intros Hn H. assert (Hg := good_start cb n Hn). induction H as [| s1 s2 s3 Hs _ IH]; [done |]. by apply IH, (good_step s1).
Qed.

(** ** Theorems *)

(** C18: Whatever the order in which threads take, wait for, give up and release the
    lock, never are two writers inside, nor a writer and a reader; the count
    kept is the number of readers inside or about to be, and the semaphore is
    free exactly when nobody is inside. *)
Theorem rwlock_excludes cb n s : Z.of_nat n < 2 ^ 32 -> rtc step (start cb n) s ->
  number writes (threads s) <= 1 /\ (0 < number writes (threads s) -> number reads (threads s) = 0) /\
  reader_count (lock s) = number counted (threads s) /\
  (rw_lock (lock s) = true <-> number writes (threads s) = 0 /\ number reads (threads s) = 0).
Proof.
  intros Hn H. pose proof (good_counts s (good_reachable cb n s Hn H)) as (Hs & Hc & He & He0 & Hr0 & Hw0 & Hrw).
  destruct Hrw as [(-> & ? & ?) | (-> & [? | ?])]; repeat split; try lia; done.
Qed.

(** A schedule: which thread makes which move, in order. *)
Fixpoint run (sched : list (nat * move)) (s : system) : option system :=
  match sched with [] => Some s | (t, m) :: sched' => s' ← system_move t m s; run sched' s' end.
Lemma run_steps sched : forall s s', run sched s = Some s' -> rtc step s s'.
Proof.
  induction sched as [| [t m] sched IH]; intros s s' E; simpl in E; [injection E as ->; apply rtc_refl |].
  destruct (system_move t m s) as [s1 |] eqn:E1; [| done]. eapply rtc_l; [by eapply step_move | by apply IH].
Qed.
(** Two readers come in while a writer waits. *)
Definition two_readers : list (nat * move) :=
  [(0, CallRead); (0, Go); (2, CallWrite); (0, Go); (0, Go); (1, CallRead); (1, Go); (1, Go)]%nat.
Lemma rwlock_excludes_witness : exists s, run two_readers (start true 3) = Some s /\ threads s = [Reading; Reading; WriteSemaphore] /\
  number writes (threads s) <= 1 /\ reader_count (lock s) = 2.
Proof.
  destruct (run two_readers (start true 3)) as [s |] eqn:E; [| by vm_compute in E]. exists s. split; [done |].
  destruct (rwlock_excludes true 3 s ltac:(lia) (run_steps _ _ _ E)) as (H1 & _ & H2 & _).
  split; [vm_compute in E; by injection E as <- |]. split; [exact H1 |]. rewrite H2. vm_compute in E. by injection E as <-.
Defined.

(** The moves that end a call or release the lock. *)
Definition finishing (m : move) : Prop := m = Go \/ m = CallUnread \/ m = CallUnwrite.
Lemma writer_moves s : 0 < number writes (threads s) -> exists t m s', finishing m /\ system_move t m s = Some s'.
Proof.
  intros H. destruct (number_pos_inv writes (threads s) H) as (t & p & Et & Hp). destruct p; try done.
  exists t, CallUnwrite. eexists. split; [by right; right |]. unfold system_move. by rewrite Et.
Qed.
Lemma mutex_moves s t p : good s -> threads s !! t = Some p -> has_mutex p = true ->
  exists t m s', finishing m /\ system_move t m s = Some s'.
Proof.
  intros Hg Et Hp. destruct (entering p && negb (rw_lock (lock s))) eqn:Ew.
  - apply andb_true_iff in Ew as [He Hrw%negb_true_iff]. apply writer_moves.
    pose proof (good_counts s Hg) as (Hs & Hc & [?|He1] & He0 & Hr0 & Hw0 & [(E & _) | (_ & Hrw')]); try congruence;
      pose proof (number_pos entering _ t p Et He); lia.
  - exists t, Go. unfold system_move. rewrite Et. cbn [mbind option_bind]. unfold os_rwlock_move.
    destruct p; try done; cbn [os_rwlock_read_lock os_rwlock_read_unlock entering andb] in *; try (eexists; split; [by left | done]).
    + destruct (rw_lock (lock s)); eexists; (split; [by left | done]).
    + apply negb_false_iff in Ew. rewrite Ew. eexists. split; [by left | done].
Qed.
Lemma reader_moves s : good s -> reader_mutex (lock s) = None -> 0 < number reads (threads s) ->
  exists t m s', finishing m /\ system_move t m s = Some s'.
Proof.
  intros Hg Hm H. destruct (number_pos_inv reads (threads s) H) as (t & p & Et & Hp).
  destruct (has_mutex p) eqn:Eh; [by eapply mutex_moves |].
  unfold reads in Hp. destruct p as [| | | | [] | | | | |]; try done.
  - exists t, CallUnread. eexists. split; [by right; left |]. unfold system_move. by rewrite Et.
  - exists t, Go. unfold system_move. rewrite Et. unfold os_rwlock_move. cbn. rewrite Hm. eexists. split; [by left | done].
Qed.
(** While some thread is not outside, some thread has a finishing move: nobody
    needs a wait to end without success. *)
Lemma some_thread_moves s t p : good s -> threads s !! t = Some p -> p <> Outside ->
  exists t' m s', finishing m /\ system_move t' m s = Some s'.
Proof.
  intros Hg Et Hp. destruct (reader_mutex (lock s)) as [u |] eqn:Em.
  { destruct (good_owned _ Hg u Em) as (q & Eu & Hq). by eapply mutex_moves. }
  destruct (has_mutex p) eqn:Eh; [by eapply mutex_moves |].
  pose proof (good_counts s Hg) as (_ & _ & _ & _ & _ & _ & Hrw).
  destruct p as [| | | | | | | | |]; try done.
  - exists t, Go. unfold system_move. rewrite Et. unfold os_rwlock_move. cbn. rewrite Em. eexists. split; [by left | done].
  - exists t, CallUnread. eexists. split; [by right; left |]. unfold system_move. by rewrite Et.
  - exists t, Go. unfold system_move. rewrite Et. unfold os_rwlock_move. cbn. rewrite Em. eexists. split; [by left | done].
  - destruct Hrw as [(Erw & _) | (_ & [[Hw _] | [_ Hr]])].
    + exists t, Go. unfold system_move. rewrite Et. unfold os_rwlock_move. cbn. rewrite Erw. eexists. split; [by left | done].
    + apply writer_moves. lia.
    + by apply reader_moves.
  - exists t, CallUnwrite. eexists. split; [by right; right |]. unfold system_move. by rewrite Et.
Qed.

(** *** Finishing moves come to an end *)

(** How many moves are left to a thread until it is outside, at most. *)
Definition rank (p : pc) : nat :=
  match p with
  | Outside => 0 | UnreadPut => 1 | UnreadMutex => 2 | Reading => 3 | ReadPut _ => 4 | ReadSemaphore => 5
  | ReadCallback => 6 | ReadMutex => 7 | Writing => 1 | WriteSemaphore => 2
  end.
Definition moves_left (s : system) : nat := sum_list_with rank (threads s).
Inductive finish (s s' : system) : Prop := finish_move t m : finishing m -> system_move t m s = Some s' -> finish s s'.

Lemma rank_move t p m l p' l' : finishing m -> os_rwlock_move t p m l = Some (p', l') -> (rank p' < rank p)%nat.
Proof.
  intros Hm E. unfold os_rwlock_move in E.
  destruct p as [| | | | [] | | | | |], Hm as [-> | [-> | ->]]; cbn in E; try done;
    repeat case_match; simplify_eq; cbn; lia.
Qed.
Lemma sum_rank_insert (l : list pc) t p p' : l !! t = Some p ->
  (sum_list_with rank (<[t := p']> l) + rank p = sum_list_with rank l + rank p')%nat.
Proof.
  revert t. induction l as [| q l IH]; intros [| t] E; simpl in *; try done.
  - injection E as ->. lia.
  - specialize (IH t E). lia.
Qed.
Lemma finish_step s s' : finish s s' -> step s s'.
Proof. intros [t m _ E]. by eapply step_move. Qed.
Lemma finish_moves_left s s' : finish s s' -> (moves_left s' < moves_left s)%nat.
Proof.
  intros [t m Hm E]. unfold system_move in E. destruct (threads s !! t) as [p |] eqn:Et; [| done]. simpl in E.
  destruct (os_rwlock_move t p m (lock s)) as [[p' l'] |] eqn:Eo; [| done]. injection E as <-.
  pose proof (rank_move t p m _ p' l' Hm Eo). pose proof (sum_rank_insert _ t p p' Et). unfold moves_left. cbn [threads]. lia.
Qed.
Lemma finish_sn s : sn finish s.
Proof.
  induction s as [s IH] using (well_founded_induction (well_founded_ltof system moves_left)).
  constructor. intros s' H. apply IH. by apply finish_moves_left.
Qed.
Lemma finish_good s s' : good s -> rtc finish s s' -> good s' /\ length (threads s') = length (threads s).
Proof.
  intros Hg H. induction H as [| s1 s2 s3 H12 _ IH]; [done |]. destruct IH as [H1 H2]; [by eapply good_step, finish_step |].
  split; [done |]. rewrite H2. destruct H12 as [t m _ E]. unfold system_move in E.
  destruct (threads s1 !! t) as [p |]; [| done]. simpl in E. destruct (os_rwlock_move t p m (lock s1)) as [[p' l'] |]; [| done].
  injection E as <-. apply length_insert.
Qed.
(** Where no finishing move is left nobody is inside and the lock is free. *)
Definition idle (s : system) : Prop :=
  Forall (eq Outside) (threads s) /\ reader_mutex (lock s) = None /\ rw_lock (lock s) = true /\ reader_count (lock s) = 0.
Lemma finish_nf s : good s -> nf finish s -> idle s.
Proof.
  intros Hg Hnf. assert (Hout : Forall (eq Outside) (threads s)).
  { apply Forall_lookup. intros t p Et. destruct (decide (p = Outside)) as [-> | Hp]; [done |]. destruct Hnf.
    destruct (some_thread_moves s t p Hg Et Hp) as (t' & m & s' & Hm & E). exists s'. by eapply finish_move. }
  assert (Hz : forall f, f Outside = false -> number f (threads s) = 0).
  { intros f Hf. pose proof (number_nonneg f (threads s)). destruct (Z.eq_dec (number f (threads s)) 0); [done |].
    destruct (number_pos_inv f (threads s)) as (t & p & Et & Hp); [lia |]. rewrite Forall_lookup in Hout.
    rewrite <- (Hout t p Et), Hf in Hp. done. }
  split; [exact Hout |]. pose proof (good_rw _ Hg) as Hr. rewrite !Hz in Hr by done. split; [| split].
  - destruct (reader_mutex (lock s)) as [u |] eqn:Em; [| done]. destruct (good_owned _ Hg u Em) as (q & Eu & Hq).
    rewrite Forall_lookup in Hout. by rewrite <- (Hout u q Eu) in Hq.
  - by destruct (rw_lock (lock s)).
  - rewrite (good_count _ Hg). by apply Hz.
Qed.
Lemma finish_ends s : good s -> exists s', rtc finish s s' /\ idle s'.
Proof.
  induction (finish_sn s) as [s _ IH]. intros Hg.
  destruct (decide (Forall (eq Outside) (threads s))) as [Hout | Hin].
  - exists s. split; [apply rtc_refl |]. apply finish_nf; [done |]. intros [s' H]. pose proof (finish_moves_left s s' H) as Hl.
    unfold moves_left in Hl. replace (sum_list_with rank (threads s)) with 0%nat in Hl; [lia |].
    clear -Hout. induction Hout as [| p l <- _ IHl]; [done | simpl; lia].
  - apply not_Forall_Exists in Hin; [| intros ?; solve_decision]. apply List.Exists_exists in Hin as (p & (t & Et)%list_elem_of_In%list_elem_of_lookup & Hp).
    destruct (some_thread_moves s t p Hg Et ltac:(by intros ->)) as (t' & m & s1 & Hm & E).
    assert (H1 : finish s s1) by (by eapply finish_move).
    destruct (IH s1 H1 (good_step _ _ Hg (finish_step _ _ H1))) as (s' & Hr & Hi). exists s'. split; [by eapply rtc_l | done].
Qed.

(** C29: From every state that threads can reach by taking, waiting for, giving up and
    releasing the lock, let them only go on in their calls and release what they
    hold, with nobody making a new call to take the lock and no wait ending
    without success. In whatever order they do so, this comes to an end, after
    at most [moves_left] moves; and where it ends every thread has returned from
    its calls, the mutex and the semaphore are free and the count of readers is
    zero. So no call waits for ever on the others, and such an end is there. *)
Theorem rwlock_never_deadlocks cb n s : Z.of_nat n < 2 ^ 32 -> rtc step (start cb n) s ->
  (forall k s', nsteps finish k s s' -> (k <= moves_left s)%nat) /\
  (forall s', rtc finish s s' -> nf finish s' -> idle s') /\
  (exists s', rtc finish s s' /\ idle s').
Proof.
  intros Hn H. pose proof (good_reachable cb n s Hn H) as Hg. split; [| split].
  - intros k s' Hk. enough ((k + moves_left s' <= moves_left s)%nat) by lia. clear -Hk.
    induction Hk as [| k s s1 s' H1 _ IH]; [lia |]. apply finish_moves_left in H1. lia.
  - intros s' Hr Hnf. by apply finish_nf; [apply (finish_good s) |].
  - by apply finish_ends.
Qed.
(** From two readers inside and a writer that waits. *)
Lemma rwlock_never_deadlocks_witness : exists s, run two_readers (start true 3) = Some s /\ moves_left s = 8%nat /\
  (forall k s', nsteps finish k s s' -> (k <= 8)%nat) /\ exists s', rtc finish s s' /\ idle s'.
Proof.
  destruct (run two_readers (start true 3)) as [s |] eqn:E; [| by vm_compute in E]. exists s.
  destruct (rwlock_never_deadlocks true 3 s ltac:(lia) (run_steps _ _ _ E)) as (H1 & _ & H3).
  assert (Hl : moves_left s = 8%nat) by (vm_compute in E; by injection E as <-). rewrite Hl in H1. done.
Defined.
