(* ===== verification/OsEvents.v ===== *)
(** * Event flags

    Models the event groups of [port/os/os.c]. The waiting threads of a group
    are a doubly linked list of nodes on a heap; a block of code that runs with
    the group's mutex is one operation, and a thread that waits on its node's
    semaphore is between two of them. *)
From stdpp Require Import list gmap.
From S2P Require Import Prelude.
Open Scope Z_scope.

(** ** Event groups *)
Record event_wait_t := MkWait { thread_mask : Z; sem : bool; next : option nat; prev : option nat }.
Record event_group_t := MkGroup {
  flags : Z;
  delete_group : bool;
  head_node : option nat;             (* [list] *)
  nodes : gmap nat event_wait_t       (* the allocated nodes *)
}.
Inductive flag_rtrv_option_t := EF_AND | EF_AND_CLEAR | EF_OR | EF_OR_CLEAR.
Definition os_event_flags_create : event_group_t := MkGroup 0 false None ∅.

Definition set_flags (v : Z) (g : event_group_t) : event_group_t := MkGroup v (delete_group g) (head_node g) (nodes g).
Definition set_delete (g : event_group_t) : event_group_t := MkGroup (flags g) true (head_node g) (nodes g).
Definition set_head (h : option nat) (g : event_group_t) : event_group_t := MkGroup (flags g) (delete_group g) h (nodes g).
Definition set_nodes (m : gmap nat event_wait_t) (g : event_group_t) : event_group_t := MkGroup (flags g) (delete_group g) (head_node g) m.
Definition set_next (o : option nat) (n : event_wait_t) : event_wait_t := MkWait (thread_mask n) (sem n) o (prev n).
Definition set_prev (o : option nat) (n : event_wait_t) : event_wait_t := MkWait (thread_mask n) (sem n) (next n) o.
Definition set_sem (b : bool) (n : event_wait_t) : event_wait_t := MkWait (thread_mask n) b (next n) (prev n).

(** A node that was freed is not there. *)
Definition deref (m : gmap nat event_wait_t) (k : nat) : outcome event_wait_t :=
  match m !! k with Some n => Ret n | None => Fault NullPointer end.
Definition write (m : gmap nat event_wait_t) (k : nat) (f : event_wait_t -> event_wait_t) : outcome (gmap nat event_wait_t) :=
  n ← deref m k; Ret (<[k := f n]> m).

Definition os_event_flags_remove_node (k : nat) (g : event_group_t) : outcome event_group_t :=
  node ← deref (nodes g) k;
  m1 ← match prev node with Some p => write (nodes g) p (set_next (next node)) | None => Ret (nodes g) end;
  m2 ← match next node with Some q => write m1 q (set_prev (prev node)) | None => Ret m1 end;
  let h := match next node, prev node with None, None => None | _, _ => head_node g end in
  Ret (set_head h (set_nodes (delete k m2) g)).

(** The test of the flags: none when the option is not one of the four. *)
Definition flags_status (option : flag_rtrv_option_t) (requested : Z) (g : event_group_t) : Z :=
  match option with
  | EF_AND | EF_AND_CLEAR => if Z.land (flags g) requested =? requested then flags g else 0
  | EF_OR | EF_OR_CLEAR => Z.land requested (flags g)
  end.
Definition clears (option : flag_rtrv_option_t) : bool := match option with EF_AND_CLEAR | EF_OR_CLEAR => true | _ => false end.
Definition take_flags (option : flag_rtrv_option_t) (status : Z) (g : event_group_t) : event_group_t :=
  if clears option then set_flags (Z.ldiff (flags g) status) g else g.

(** The last node of the list that starts at [k]. *)
Fixpoint last_node (fuel : nat) (m : gmap nat event_wait_t) (k : nat) : outcome nat :=
  match fuel with
  | O => Fault OutOfFuel
  | S fuel' => n ← deref m k; match next n with None => Ret k | Some q => last_node fuel' m q end
  end.
Definition list_fuel (g : event_group_t) : nat := S (size (nodes g)).

(** What a call of [os_event_flags_get] comes to at the end of a block: it
    returns, or waits on the semaphore of its node. *)
Inductive get_result := GetFail | GetNoEvents | GetFlags (status : Z) | GetWaits (k : nat).
(** The first block; [k] is the address of the new node, which is allocated when
    [mem] and has its semaphore already taken. *)
Definition os_event_flags_get (mem : bool) (k : nat) (requested : Z) (option : flag_rtrv_option_t) (wait : Z) (g : event_group_t) :
    outcome (get_result * event_group_t) :=
  if requested =? 0 then Ret (GetFail, g)
  else
    let status := flags_status option requested g in
    if negb (status =? 0) then Ret (GetFlags status, take_flags option status g)
    else if wait =? 0 then Ret (GetNoEvents, g)
    else if negb mem then Ret (GetFail, g)
    else
      let node := MkWait requested false None None in
      match head_node g with
      | None => Ret (GetWaits k, set_head (Some k) (set_nodes (<[k := node]> (nodes g)) g))
      | Some h =>
          last ← last_node (list_fuel g) (nodes g) h;
          m ← write (<[k := node]> (nodes g)) last (set_next (Some k));
          Ret (GetWaits k, set_nodes (<[k := set_prev (Some last) node]> m) g)
      end.
(** The thread of node [k] has got its semaphore. *)
Definition get_woken (k : nat) (requested : Z) (option : flag_rtrv_option_t) (g : event_group_t) : outcome (get_result * event_group_t) :=
  n ← deref (nodes g) k;
  if negb (sem n) then Fault Hang
  else
    m ← write (nodes g) k (set_sem false);
    let g := set_nodes m g in
    if delete_group g then g' ← os_event_flags_remove_node k g; Ret (GetFail, g')
    else
      let status := flags_status option requested g in
      if negb (status =? 0) then g' ← os_event_flags_remove_node k (take_flags option status g); Ret (GetFlags status, g')
      else Ret (GetWaits k, g).
(** Its wait has ended without. *)
Definition get_expired (k : nat) (g : event_group_t) : outcome (get_result * event_group_t) :=
  g' ← os_event_flags_remove_node k g; Ret (GetNoEvents, g').

(** The walk that gives the semaphores of the nodes for which [f] holds. *)
Fixpoint give_semaphores (fuel : nat) (f : event_wait_t -> bool) (k : option nat) (m : gmap nat event_wait_t) :
    outcome (gmap nat event_wait_t) :=
  match k with
  | None => Ret m
  | Some k =>
      match fuel with
      | O => Fault OutOfFuel
      | S fuel' => n ← deref m k; give_semaphores fuel' f (next n) (if f n then <[k := set_sem true n]> m else m)
      end
  end.
Definition os_event_flags_set (v : Z) (option : flag_rtrv_option_t) (g : event_group_t) : outcome (bool * event_group_t) :=
  let new := match option with EF_OR => Some (Z.lor (flags g) v) | EF_AND => Some (Z.land (flags g) v) | _ => None end in
  match new with
  | Some fl =>
      if v =? 0 then Ret (false, g)
      else
        m ← give_semaphores (list_fuel g) (fun n => negb (Z.land (thread_mask n) fl =? 0)) (head_node g) (nodes g);
        Ret (true, set_nodes m (set_flags fl g))
  | None => Ret (false, g)
  end.
(** [os_event_flags_delete]: the request, and the test that ends it; the group is
    freed when its list is empty. *)
Definition os_event_flags_delete (g : event_group_t) : outcome event_group_t :=
  m ← give_semaphores (list_fuel g) (fun _ => true) (head_node g) (nodes g); Ret (set_nodes m (set_delete g)).
Definition delete_succeeds (g : event_group_t) : bool := bool_decide (head_node g = None).

(** ** The list of waiting threads *)

(** The nodes [l], from the one before to the one after, are linked in [m]. *)
Fixpoint linked (m : gmap nat event_wait_t) (before : option nat) (l : list nat) : Prop :=
  match l with
  | [] => True
  | k :: l' => (exists n, m !! k = Some n /\ prev n = before /\ next n = head l') /\ linked m (Some k) l'
  end.
(** The threads [l] wait, in this order. *)
Record waiting (g : event_group_t) (l : list nat) : Prop := MkWaiting {
  waiting_head : head_node g = head l;
  waiting_nodup : NoDup l;
  waiting_linked : linked (nodes g) None l;
  waiting_nodes : dom (nodes g) = list_to_set l
}.

Lemma linked_insert m before l k n : k ∉ l -> linked m before l -> linked (<[k := n]> m) before l.
Proof.
  revert before. induction l as [| j l IH]; intros before Hk Hl; simpl in *; [done |].
  apply not_elem_of_cons in Hk as [Hne Hk]. destruct Hl as [(x & Ex & Hx) Hl]. split; [| by apply IH].
  exists x. by rewrite lookup_insert_ne.
Qed.
Lemma linked_delete m before l k : k ∉ l -> linked m before l -> linked (delete k m) before l.
Proof.
  revert before. induction l as [| j l IH]; intros before Hk Hl; simpl in *; [done |].
  apply not_elem_of_cons in Hk as [Hne Hk]. destruct Hl as [(x & Ex & Hx) Hl]. split; [| by apply IH].
  exists x. by rewrite lookup_delete_ne.
Qed.
(** The links are kept when the nodes' masks and semaphores change. *)
Lemma linked_same m m' l : forall before, (forall k, k ∈ l -> forall n, m !! k = Some n ->
    exists n', m' !! k = Some n' /\ next n' = next n /\ prev n' = prev n) -> linked m before l -> linked m' before l.
Proof.
  induction l as [| j l IH]; intros before Hm Hl; simpl in *; [done |]. destruct Hl as [(x & Ex & Hp & Hx) Hl]. split.
  - destruct (Hm j ltac:(by left) x Ex) as (x' & Ex' & En & Ep). exists x'. by rewrite En, Ep.
  - apply IH; [| done]. intros k Hk. apply Hm. by right.
Qed.
Lemma waiting_size g l : waiting g l -> size (nodes g) = length l.
Proof.
  intros [_ Hnd _ Hd]. rewrite <- size_dom, Hd. by apply size_list_to_set.
Qed.

(** ** The walks *)
Lemma give_semaphores_spec f l : forall fuel m before, (length l <= fuel)%nat -> NoDup l -> linked m before l ->
  exists m', give_semaphores fuel f (head l) m = Ret m' /\
    (forall k, k ∉ l -> m' !! k = m !! k) /\
    (forall k n, k ∈ l -> m !! k = Some n -> m' !! k = Some (if f n then set_sem true n else n)).
Proof.
  induction l as [| j l IH]; intros fuel m before Hf Hnd Hl; simpl in *.
  - exists m. split; [by destruct fuel |]. split; [done |]. intros k n Hk. by apply not_elem_of_nil in Hk.
  - destruct Hl as [(x & Ex & Hp & Hx) Hl]. apply list.NoDup_cons in Hnd as [Hj Hnd]. destruct fuel as [| fuel]; [lia |].
    cbn [give_semaphores]. unfold deref. rewrite Ex, bind_ret, Hx.
    set (m1 := if f x then <[j := set_sem true x]> m else m).
    assert (Hl1 : linked m1 (Some j) l) by (subst m1; destruct (f x); [by apply linked_insert | done]).
    destruct (IH fuel m1 (Some j) ltac:(lia) Hnd Hl1) as (m' & E & Hout & Hin). exists m'. split; [done |]. split.
    + intros k [Hne Hk]%not_elem_of_cons. rewrite Hout by done. subst m1. destruct (f x); [by rewrite lookup_insert_ne | done].
    + intros k n [-> | Hk]%elem_of_cons En.
      * rewrite Hout by done. subst m1. rewrite Ex in En. injection En as <-. destruct (f x); [by rewrite lookup_insert_eq | done].
      * apply Hin; [done |]. subst m1. destruct (f x); [| done]. rewrite lookup_insert_ne; [done |]. by intros ->.
Qed.
Lemma last_node_spec l : forall fuel m before k, (length l < fuel)%nat -> linked m before (k :: l) ->
  exists j, last_node fuel m k = Ret j /\ list.last (k :: l) = Some j.
Proof.
  induction l as [| q l IH]; intros fuel m before k Hf [(x & Ex & Hp & Hx) Hl]; (destruct fuel as [| fuel]; [simpl in Hf; lia |]);
    cbn [last_node]; unfold deref; rewrite Ex, bind_ret, Hx; cbn [head].
  - by exists k.
  - simpl in Hf. destruct (IH fuel m (Some k) q ltac:(lia) Hl) as (j & E & Hj). exists j. by rewrite E.
Qed.

(** ** The operations on the list of waiting threads *)
Lemma linked_lookup m l1 : forall before k l2, linked m before (l1 ++ k :: l2) ->
  exists n, m !! k = Some n /\ next n = head l2 /\ prev n = match list.last l1 with Some p => Some p | None => before end.
Proof.
  induction l1 as [| j l1 IH]; intros before k l2 Hl; simpl in *.
  - destruct Hl as [(n & En & Hp & Hn) _]. by exists n.
  - destruct Hl as [_ Hl]. destruct (IH _ _ _ Hl) as (n & En & Hn & Hp). exists n. split; [done |]. split; [done |]. rewrite Hp.
    destruct l1 as [| i l1]; [done |]. cbn [list.last]. by destruct (list.last (i :: l1)) eqn:E; [| apply list.last_None in E].
Qed.
Lemma linked_snoc m l : forall before k n, linked m before l -> k ∉ l -> NoDup l ->
  prev n = match list.last l with Some p => Some p | None => before end -> next n = None ->
  linked (<[k := n]> (match list.last l with Some p => alter (set_next (Some k)) p m | None => m end)) before (l ++ [k]).
Proof.
  induction l as [| j l IH]; intros before k n Hl Hk Hnd Hp Hn; simpl in *.
  - split; [| done]. exists n. by rewrite lookup_insert_eq.
  - destruct Hl as [(x & Ex & Hxp & Hxn) Hl]. apply not_elem_of_cons in Hk as [Hne Hk]. apply list.NoDup_cons in Hnd as [Hj Hnd].
    destruct l as [| i l].
    + split; [| split; [| done]].
      * exists (set_next (Some k) x). cbn [list.last]. rewrite lookup_insert_ne by done. rewrite lookup_alter_eq, Ex. done.
      * exists n. by rewrite lookup_insert_eq.
    + change (list.last (j :: i :: l)) with (list.last (i :: l)) in *.
      destruct (list.last (i :: l)) as [p |] eqn:El; [| by apply list.last_None in El].
      assert (Hpin : p ∈ i :: l) by (by apply list.last_Some_elem_of).
      split; [| by apply (IH (Some j) k n)]. exists x. rewrite lookup_insert_ne by done.
      rewrite lookup_alter_ne by (intros ->; done). split; [done |]. split; [done |]. rewrite Hxn. done.
Qed.

(** ** Removing a node *)
Lemma remove_middle m l1 : forall before p k l2 n np, linked m before (l1 ++ p :: k :: l2) -> NoDup (l1 ++ p :: k :: l2) ->
  m !! k = Some n -> m !! p = Some np ->
  linked (delete k (match head l2 with Some q => alter (set_prev (Some p)) q (<[p := set_next (head l2) np]> m)
                    | None => <[p := set_next (head l2) np]> m end)) before (l1 ++ p :: l2).
Proof.
  induction l1 as [| j l1 IH]; intros before p k l2 n np Hl Hnd Ek Ep; cbn [app] in *.
  - destruct Hl as [(x & Ex & Hxp & Hxn) [(y & Ey & Hyp & Hyn) Hl]]. rewrite Ep in Ex. injection Ex as <-.
    apply list.NoDup_cons in Hnd as [Hp Hnd]. apply list.NoDup_cons in Hnd as [Hk Hnd]. apply not_elem_of_cons in Hp as [Hpk Hp].
    split.
    + exists (set_next (head l2) np). rewrite lookup_delete_ne by done. split; [| done].
      destruct l2 as [| q l2]; cbn [head]; [by rewrite lookup_insert_eq |].
      rewrite lookup_alter_ne; [by rewrite lookup_insert_eq |]. intros ->. apply Hp. by left.
    + apply linked_delete; [done |]. destruct l2 as [| q l2]; [done |]. cbn [head].
      destruct Hl as [(z & Ez & Hzp & Hzn) Hl]. apply list.NoDup_cons in Hnd as [Hq Hnd]. apply not_elem_of_cons in Hp as [Hpq Hp]. split.
      * exists (set_prev (Some p) z). rewrite lookup_alter_eq, lookup_insert_ne, Ez by done. done.
      * eapply linked_same; [| exact Hl]. intros i Hi w Ew. exists w.
        rewrite lookup_alter_ne, lookup_insert_ne by (intros ->; done). done.
  - destruct Hl as [(x & Ex & Hxp & Hxn) Hl]. apply list.NoDup_cons in Hnd as [Hj Hnd].
    split; [| by eapply IH]. exists x. assert (Hjk : j <> k) by (intros ->; apply Hj, elem_of_app; right; right; by left).
    assert (Hjp : j <> p) by (intros ->; apply Hj, elem_of_app; right; by left).
    rewrite lookup_delete_ne by done. split; [| split; [done |]].
    + destruct l2 as [| q l2]; cbn [head]; [by rewrite lookup_insert_ne |].
      rewrite lookup_alter_ne, lookup_insert_ne; [done | done |]. intros ->. apply Hj, elem_of_app. right. right. right. by left.
    + rewrite Hxn. destruct l1; done.
Qed.

(** ** Specification: the threads wait in a queue

    Each with the flags it asked for and whether its semaphore was given. *)
Record queue_group := MkQueue { q_flags : Z; q_delete : bool; queue : list (nat * (Z * bool)) }.
Definition requests (m : gmap nat event_wait_t) (q : list (nat * (Z * bool))) : Prop :=
  Forall (fun e => exists n, m !! e.1 = Some n /\ thread_mask n = e.2.1 /\ sem n = e.2.2) q.
Record represents (g : event_group_t) (a : queue_group) : Prop := MkRepresents {
  rep_flags : flags g = q_flags a;
  rep_delete : delete_group g = q_delete a;
  rep_waiting : waiting g (queue a).*1;
  rep_requests : requests (nodes g) (queue a)
}.
Definition q_status (option : flag_rtrv_option_t) (requested : Z) (a : queue_group) : Z :=
  match option with
  | EF_AND | EF_AND_CLEAR => if Z.land (q_flags a) requested =? requested then q_flags a else 0
  | EF_OR | EF_OR_CLEAR => Z.land requested (q_flags a)
  end.
Definition q_take (option : flag_rtrv_option_t) (status : Z) (a : queue_group) : queue_group :=
  if clears option then MkQueue (Z.ldiff (q_flags a) status) (q_delete a) (queue a) else a.
Definition q_get (k : nat) (requested : Z) (option : flag_rtrv_option_t) (wait : Z) (a : queue_group) : get_result * queue_group :=
  if requested =? 0 then (GetFail, a)
  else if negb (q_status option requested a =? 0) then
    (GetFlags (q_status option requested a), q_take option (q_status option requested a) a)
  else if wait =? 0 then (GetNoEvents, a)
  else (GetWaits k, MkQueue (q_flags a) (q_delete a) (queue a ++ [(k, (requested, false))])).
Definition q_set (v : Z) (a : queue_group) : queue_group :=
  let fl := Z.lor (q_flags a) v in
  MkQueue fl (q_delete a) ((fun e => (e.1, (e.2.1, e.2.2 || negb (Z.land e.2.1 fl =? 0)))) <$> queue a).
Definition q_leave (k : nat) (a : queue_group) : queue_group :=
  MkQueue (q_flags a) (q_delete a) (filter (fun e => e.1 <> k) (queue a)).
(** The queue after thread [k] has taken its semaphore. *)
Definition q_taken (k : nat) (a : queue_group) : queue_group :=
  MkQueue (q_flags a) (q_delete a) ((fun e => if decide (e.1 = k) then (e.1, (e.2.1, false)) else e) <$> queue a).
Definition q_woken (k : nat) (requested : Z) (option : flag_rtrv_option_t) (a : queue_group) : get_result * queue_group :=
  let a := q_taken k a in
  if q_delete a then (GetFail, q_leave k a)
  else if negb (q_status option requested a =? 0) then
    (GetFlags (q_status option requested a), q_leave k (q_take option (q_status option requested a) a))
  else (GetWaits k, a).

(** The thread is not the first of several. *)
Definition may_leave (k : nat) (a : queue_group) : Prop :=
  match queue a with e :: _ :: _ => e.1 <> k | _ => True end.

Lemma requests_same m m' q : requests m q -> (forall k n, k ∈ q.*1 -> m !! k = Some n ->
    exists n', m' !! k = Some n' /\ thread_mask n' = thread_mask n /\ sem n' = sem n) -> requests m' q.
Proof.
  unfold requests. intros Hq Hm. apply list.Forall_forall. intros e He.
  rewrite list.Forall_forall in Hq. destruct (Hq e He) as (n & En & Et & Es).
  destruct (Hm e.1 n) as (n' & En' & Et' & Es'); [by apply list_elem_of_fmap_2 | done |].
  exists n'. by rewrite Et', Es'.
Qed.

Lemma rep_get_waits g a k requested mem_nodes : represents g a -> k ∉ (queue a).*1 ->
  mem_nodes = <[k := MkWait requested false None (match list.last (queue a).*1 with Some p => Some p | None => None end)]>
    (match list.last (queue a).*1 with Some p => alter (set_next (Some k)) p (nodes g) | None => nodes g end) ->
  represents (set_head (head ((queue a).*1 ++ [k])) (set_nodes mem_nodes g))
    (MkQueue (q_flags a) (q_delete a) (queue a ++ [(k, (requested, false))])).
Proof.
  intros [Hf Hd [Hh Hnd Hl Hdom] Hr] Hk ->. constructor; cbn [flags delete_group q_flags q_delete queue set_head set_nodes nodes]; try done.
  - rewrite fmap_app. cbn [fmap list_fmap fst]. constructor; cbn [head_node nodes set_head set_nodes].
    + done.
    + apply list.NoDup_app. split; [done |]. split; [| apply list.NoDup_singleton]. intros j Hj ->%list_elem_of_singleton. done.
    + apply linked_snoc; done.
    + rewrite dom_insert_L, list_to_set_app_L. cbn. destruct (list.last (queue a).*1); rewrite ?dom_alter_L, Hdom, (right_id_L ∅ union), (comm_L union); done.
  - apply list.Forall_app. split; [| constructor; [| done]].
    + eapply requests_same; [exact Hr |]. intros j n Hj En. assert (j <> k) by (by intros ->). rewrite lookup_insert_ne by done.
      destruct (list.last (queue a).*1) as [p |]; [| by exists n]. destruct (decide (p = j)) as [-> |].
      * rewrite lookup_alter_eq, En. by eexists.
      * rewrite lookup_alter_ne by done. by exists n.
    + cbn. rewrite lookup_insert_eq. by eexists.
Qed.

(** ** The operations refine the queue's *)
Lemma write_alter (m : gmap nat event_wait_t) k n f : m !! k = Some n -> write m k f = Ret (alter f k m).
Proof.
  intros E. unfold write, deref. rewrite E, bind_ret. f_equal. apply map_eq. intros i. destruct (decide (i = k)) as [-> |].
  - by rewrite lookup_insert_eq, lookup_alter_eq, E.
  - by rewrite lookup_insert_ne, lookup_alter_ne.
Qed.
Lemma alter_insert_same (m : gmap nat event_wait_t) k n f : m !! k = Some n -> alter f k m = <[k := f n]> m.
Proof.
  intros E. pose proof (write_alter m k n f E) as H. unfold write, deref in H. rewrite E, bind_ret in H. by injection H.
Qed.
Lemma filter_id {A} (P : A -> Prop) `{!forall x, Decision (P x)} (l : list A) : (forall x, x ∈ l -> P x) -> filter P l = l.
Proof.
  induction l as [| x l IH]; intros Hl; [done |]. rewrite filter_cons_True by (apply Hl; by left). f_equal. apply IH. intros y Hy. apply Hl. by right.
Qed.
Lemma leave_ids k a : NoDup (queue a).*1 -> forall l1 l2, (queue a).*1 = l1 ++ k :: l2 -> (queue (q_leave k a)).*1 = l1 ++ l2.
Proof.
  cbn [q_leave queue]. generalize (queue a). clear a. induction l as [| e q IH]; intros Hnd l1 l2 E; [by destruct l1 |].
  cbn [fmap list_fmap] in *. apply list.NoDup_cons in Hnd as [He Hnd]. destruct l1 as [| j l1]; cbn [app] in E; injection E as E1 E2.
  - rewrite filter_cons_False by (by intros ?). rewrite filter_id; [done |]. intros x Hx E3.
    apply He. rewrite E1, <- E3. by apply list_elem_of_fmap_2.
  - rewrite filter_cons_True; [cbn [fmap list_fmap app]; rewrite E1; f_equal; by apply IH |].
    intros H. apply He. rewrite E2, H. apply elem_of_app. right. by left.
Qed.
Lemma requests_alter m k f q : (forall n, thread_mask (f n) = thread_mask n /\ sem (f n) = sem n) -> requests m q -> requests (alter f k m) q.
Proof.
  intros Hf Hq. eapply requests_same; [exact Hq |]. intros j n _ En. destruct (decide (k = j)) as [-> |].
  - rewrite lookup_alter_eq, En. eexists. split; [done |]. apply Hf.
  - rewrite lookup_alter_ne by done. by exists n.
Qed.
Lemma requests_leave m k a : requests m (queue a) -> requests (delete k m) (queue (q_leave k a)).
Proof.
  unfold requests. cbn [q_leave queue]. rewrite !list.Forall_forall. intros Hq e [Hne He]%list_elem_of_filter.
  destruct (Hq e He) as (n & En & Hn). exists n. by rewrite lookup_delete_ne.
Qed.
Lemma dom_leave (m : gmap nat event_wait_t) l1 k l2 : dom m = list_to_set (l1 ++ k :: l2) -> NoDup (l1 ++ k :: l2) ->
  dom (delete k m) = list_to_set (l1 ++ l2).
Proof.
  intros Hd Hnd. rewrite dom_delete_L, Hd, !list_to_set_app_L, list_to_set_cons.
  apply list.NoDup_app in Hnd as (_ & H1 & Hnd). apply list.NoDup_cons in Hnd as [H2 _]. apply set_eq. intros j.
  rewrite elem_of_difference, !elem_of_union, !elem_of_list_to_set, elem_of_singleton. split; [tauto |].
  intros Hj. split; [tauto |]. intros ->. destruct Hj as [Hj | Hj]; [| done]. apply (H1 k Hj). by left.
Qed.

Lemma remove_node_represents g a k : represents g a -> k ∈ (queue a).*1 -> may_leave k a ->
  exists g', os_event_flags_remove_node k g = Ret g' /\ represents g' (q_leave k a).
Proof.
  intros [Hf Hd [Hh Hnd Hl Hdom] Hr] Hk Hm. apply list_elem_of_split in Hk as (l1 & l2 & El).
  pose proof (leave_ids k a Hnd l1 l2 El) as Eq. rewrite El in Hh, Hnd, Hl, Hdom.
  destruct (linked_lookup _ _ _ _ _ Hl) as (n & En & Hn & Hp). unfold os_event_flags_remove_node, deref at 1. rewrite En, bind_ret.
  destruct (list.last l1) as [p |] eqn:Elast.
  - apply list.last_Some in Elast as [l1' ->]. rewrite <- app_assoc in Hh, Hnd, Hl, Hdom. cbn [app] in *.
    destruct (linked_lookup _ _ _ _ _ Hl) as (np & Enp & _ & _). rewrite Hp, (write_alter _ _ _ _ Enp), bind_ret.
    pose proof (remove_middle _ _ _ _ _ _ _ _ Hl Hnd En Enp) as Hlk. rewrite <- Hn in Hlk.
    rewrite <- (alter_insert_same _ _ _ (set_next (next n)) Enp) in Hlk.
    set (m1 := alter (set_next (next n)) p (nodes g)) in *.
    assert (E2 : exists m2, (match next n with Some q => write m1 q (set_prev (Some p)) | None => Ret m1 end) = Ret m2 /\
       m2 = match next n with Some q => alter (set_prev (Some p)) q m1 | None => m1 end).
    { destruct (next n) as [q |] eqn:Eq2; [| by eexists]. destruct l2 as [| q' l2]; [done |]. injection Hn as ->.
      assert (Hq : exists nq, m1 !! q' = Some nq).
      { subst m1. assert (is_Some (alter (set_next (Some q')) p (nodes g) !! q')) as [? ?]; [| by eexists].
        apply elem_of_dom. rewrite dom_alter_L, Hdom, elem_of_list_to_set. apply elem_of_app. right. right. right. by left. }
      destruct Hq as [nq Enq]. rewrite (write_alter _ _ _ _ Enq). by eexists. }
    destruct E2 as (m2 & E2 & Hm2). rewrite E2, bind_ret. eexists. split; [reflexivity |].
    assert (Ednd : dom m2 = dom (nodes g)) by (rewrite Hm2; destruct (next n); unfold m1; by rewrite ?dom_alter_L).
    constructor; cbn [flags delete_group set_head set_nodes q_flags q_delete q_leave]; try done.
    + rewrite Eq, <- app_assoc. constructor; cbn [head_node nodes set_head set_nodes].
      * assert (E : match next n, Some p with None, None => None | _, _ => head_node g end = head_node g) by (by destruct (next n)).
        rewrite E, Hh. by destruct l1'.
      * apply (sublist_NoDup _ (l1' ++ p :: k :: l2)); [done |]. apply sublist_app; [done |]. by constructor; constructor.
      * by rewrite Hm2.
      * cbn [app]. replace (l1' ++ p :: l2) with ((l1' ++ [p]) ++ l2) by (by rewrite <- app_assoc).
        apply dom_leave; rewrite <- app_assoc; [| done]. by rewrite Ednd.
    + cbn [nodes set_head set_nodes]. apply requests_leave. rewrite Hm2. destruct (next n); unfold m1; repeat apply requests_alter; done.
  - apply list.last_None in Elast as ->. cbn [app] in *. unfold may_leave in Hm. destruct l2 as [| q l2].
    + rewrite Hp, Hn. cbn [head]. rewrite !bind_ret. eexists. split; [reflexivity |].
      constructor; cbn [flags delete_group set_head set_nodes q_flags q_delete q_leave]; try done.
      * rewrite Eq. constructor; cbn [head_node nodes set_head set_nodes]; [done | constructor | done |]. by apply (dom_leave _ []).
      * cbn [nodes set_head set_nodes]. by apply requests_leave.
    + destruct (queue a) as [| e [| e2 qs]]; [done | by destruct e |]. cbn in El. injection El as E1 _ _. done.
Qed.
Lemma status_same option requested g a : flags g = q_flags a -> flags_status option requested g = q_status option requested a.
Proof. intros H. unfold flags_status, q_status. by rewrite H. Qed.
Lemma rep_flags_change g a v : represents g a -> represents (set_flags v g) (MkQueue v (q_delete a) (queue a)).
Proof. intros [Hf Hd [Hh Hnd Hl Hdom] Hr]. by constructor. Qed.
Lemma rep_take g a option status : represents g a -> represents (take_flags option status g) (q_take option status a).
Proof.
  intros Hr. unfold take_flags, q_take. destruct (clears option); [| done]. rewrite (rep_flags _ _ Hr). by apply rep_flags_change.
Qed.

Lemma get_represents g a k requested option wait : represents g a -> k ∉ (queue a).*1 ->
  exists g', os_event_flags_get true k requested option wait g = Ret ((q_get k requested option wait a).1, g') /\
    represents g' (q_get k requested option wait a).2.
Proof.
  intros Hr Hk. unfold os_event_flags_get, q_get. destruct (requested =? 0); [by exists g |].
  rewrite (status_same _ _ _ _ (rep_flags _ _ Hr)). destruct (negb (q_status option requested a =? 0)).
  { eexists. split; [reflexivity |]. by apply rep_take. }
  destruct (wait =? 0); [by exists g |]. cbn [negb fst snd].
  destruct (queue a).*1 as [| h l] eqn:El.
  - pose proof (waiting_head _ _ (rep_waiting _ _ Hr)) as Hh. rewrite El in Hh. rewrite Hh. eexists. split; [reflexivity |].
    pose proof (rep_get_waits g a k requested _ Hr ltac:(by rewrite El) eq_refl) as H. rewrite El in H. exact H.
  - pose proof (rep_get_waits g a k requested _ Hr ltac:(by rewrite El) eq_refl) as H. pose proof (waiting_size _ _ (rep_waiting _ _ Hr)) as Hs.
    destruct (rep_waiting _ _ Hr) as [Hh Hnd Hl Hdom]. rewrite El in *. rewrite Hh. cbn [list.head] in Hh |- *.
    destruct (last_node_spec l (list_fuel g) (nodes g) None h) as (j & Ej & Hj); [unfold list_fuel; rewrite Hs; simpl; lia | done |].
    rewrite Ej, bind_ret. assert (Hjl : j ∈ h :: l) by (by apply list.last_Some_elem_of).
    assert (Hjk : k <> j) by (by intros ->).
    assert (exists n, nodes g !! j = Some n) as [n En] by (apply elem_of_dom; rewrite Hdom; by apply elem_of_list_to_set).
    rewrite (write_alter _ _ n); [| by rewrite lookup_insert_ne]. rewrite bind_ret. eexists. split; [reflexivity |].
    rewrite Hj in H. cbn [list.head app] in H. unfold set_prev. cbn [thread_mask sem next].
    replace (<[k:=MkWait requested false None (Some j)]> (alter (set_next (Some k)) j (<[k:=MkWait requested false None None]> (nodes g))))
      with (<[k:=MkWait requested false None (Some j)]> (alter (set_next (Some k)) j (nodes g))).
    + unfold set_head, set_nodes in H |- *. rewrite Hh. exact H.
    + rewrite alter_insert_ne by done. by rewrite insert_insert_eq.
Qed.

Lemma expired_represents g a k : represents g a -> k ∈ (queue a).*1 -> may_leave k a ->
  exists g', get_expired k g = Ret (GetNoEvents, g') /\ represents g' (q_leave k a).
Proof.
  intros Hr Hk Hm. destruct (remove_node_represents g a k Hr Hk Hm) as (g' & E & H). exists g'.
  unfold get_expired. by rewrite E.
Qed.

Definition q_give (f : Z -> bool) (a : queue_group) : queue_group :=
  MkQueue (q_flags a) (q_delete a) ((fun e => (e.1, (e.2.1, e.2.2 || f e.2.1))) <$> queue a).
Lemma give_ids f a : (queue (q_give f a)).*1 = (queue a).*1.
Proof. cbn [q_give queue]. rewrite <- list_fmap_compose. by apply list_fmap_ext. Qed.
Lemma give_represents g a f : represents g a ->
  exists m, give_semaphores (list_fuel g) (fun n => f (thread_mask n)) (head_node g) (nodes g) = Ret m /\
    represents (set_nodes m g) (q_give f a).
Proof.
  intros Hr. pose proof (waiting_size _ _ (rep_waiting _ _ Hr)) as Hs. destruct Hr as [Hf Hd [Hh Hnd Hl Hdom] Hr].
  destruct (give_semaphores_spec (fun n => f (thread_mask n)) (queue a).*1 (list_fuel g) (nodes g) None) as (m & E & Hout & Hin);
    [unfold list_fuel; lia | done | done |].
  exists m. rewrite Hh. split; [done |]. constructor; cbn [flags delete_group set_nodes q_flags q_delete q_give]; try done.
  - rewrite give_ids. constructor; cbn [head_node nodes set_nodes]; [done | done | |].
    + eapply linked_same; [| exact Hl]. intros k Hk n En. rewrite (Hin k n Hk En). eexists. split; [done |]. by destruct (f (thread_mask n)).
    + rewrite <- Hdom. apply set_eq. intros k. rewrite !elem_of_dom. destruct (decide (k ∈ (queue a).*1)) as [Hk |]; [| by rewrite Hout].
      assert (exists n, nodes g !! k = Some n) as [n En] by (apply elem_of_dom; rewrite Hdom; by apply elem_of_list_to_set).
      by rewrite (Hin k n Hk En), En.
  - unfold requests in *. cbn [nodes set_nodes queue]. rewrite list.Forall_forall in *. intros e He.
    apply list_elem_of_fmap in He as (e0 & -> & He). destruct (Hr e0 He) as (n & En & Et & Es).
    cbn [fst snd]. rewrite (Hin e0.1 n); [| by apply list_elem_of_fmap_2 | done]. eexists. split; [done |].
    rewrite <- Et. destruct (f (thread_mask n)); by rewrite ?orb_true_r, ?orb_false_r.
Qed.
Lemma set_represents g a v : represents g a -> v <> 0 ->
  exists g', os_event_flags_set v EF_OR g = Ret (true, g') /\ represents g' (q_set v a).
Proof.
  intros Hr Hv. unfold os_event_flags_set. apply Z.eqb_neq in Hv as ->. rewrite (rep_flags _ _ Hr).
  pose proof (rep_flags_change g a (Z.lor (q_flags a) v) Hr) as H1.
  destruct (give_represents _ _ (fun mask => negb (Z.land mask (Z.lor (q_flags a) v) =? 0)) H1) as (m & E & H2).
  cbn [nodes head_node set_flags list_fuel] in E. unfold list_fuel in *. cbn [nodes set_flags] in E. rewrite E, bind_ret.
  eexists. split; [reflexivity |]. exact H2.
Qed.
Lemma delete_represents g a : represents g a ->
  exists g', os_event_flags_delete g = Ret g' /\
    represents g' (let b := q_give (fun _ => true) a in MkQueue (q_flags b) true (queue b)).
Proof.
  intros Hr. destruct (give_represents g a (fun _ => true) Hr) as (m & E & [Hf Hd [Hh Hnd Hl Hdom] Hq]).
  unfold os_event_flags_delete. rewrite E, bind_ret. eexists. split; [reflexivity |]. by constructor.
Qed.

Lemma taken_ids k a : (queue (q_taken k a)).*1 = (queue a).*1.
Proof. cbn [q_taken queue]. rewrite <- list_fmap_compose. apply list_fmap_ext. intros i e _. cbn. by destruct (decide (e.1 = k)). Qed.
Lemma taken_represents g a k : represents g a ->
  represents (set_nodes (alter (set_sem false) k (nodes g)) g) (q_taken k a).
Proof.
  intros [Hf Hd [Hh Hnd Hl Hdom] Hr]. constructor; cbn [flags delete_group set_nodes q_flags q_delete q_taken]; try done.
  - rewrite taken_ids. constructor; cbn [head_node nodes set_nodes]; [done | done | |].
    + eapply linked_same; [| exact Hl]. intros j Hj n En. destruct (decide (k = j)) as [-> |].
      * rewrite lookup_alter_eq, En. by eexists.
      * rewrite lookup_alter_ne by done. by exists n.
    + by rewrite dom_alter_L.
  - unfold requests in *. cbn [nodes set_nodes queue]. rewrite list.Forall_forall in *. intros e He.
    apply list_elem_of_fmap in He as (e0 & -> & He). destruct (Hr e0 He) as (n & En & Et & Es). destruct (decide (e0.1 = k)) as [<- |]; cbn [fst snd].
    + rewrite lookup_alter_eq, En. by eexists.
    + rewrite lookup_alter_ne by done. by exists n.
Qed.
Lemma may_leave_ids k a b : (queue a).*1 = (queue b).*1 -> may_leave k a -> may_leave k b.
Proof.
  unfold may_leave. destruct (queue a) as [| [i x] [| [j y] q]], (queue b) as [| [i' x'] [| [j' y'] q']]; try done.
  cbn. intros E. by injection E as -> -> _.
Qed.
(** The semaphore of thread [k] was given. *)
Definition woken (k : nat) (a : queue_group) : Prop := exists mask, (k, (mask, true)) ∈ queue a.
Lemma woken_represents g a k requested option : represents g a -> woken k a -> may_leave k a ->
  exists g', get_woken k requested option g = Ret ((q_woken k requested option a).1, g') /\
    represents g' (q_woken k requested option a).2.
Proof.
  intros Hr [mask Hk] Hm. pose proof (rep_requests _ _ Hr) as Hq. unfold requests in Hq. rewrite list.Forall_forall in Hq.
  destruct (Hq _ Hk) as (n & En & _ & Es). cbn [fst snd] in *. unfold get_woken, q_woken, deref at 1. rewrite En, bind_ret, Es. cbn [negb].
  rewrite (write_alter _ _ n _ En), bind_ret. pose proof (taken_represents g a k Hr) as Ht.
  assert (Hin : k ∈ (queue (q_taken k a)).*1) by (rewrite taken_ids; by apply (list_elem_of_fmap_2 fst _ _ Hk)).
  apply (may_leave_ids k a (q_taken k a)) in Hm; [| by rewrite taken_ids].
  set (g1 := set_nodes _ g) in *. rewrite (rep_delete _ _ Ht), (status_same option requested _ _ (rep_flags _ _ Ht)).
  destruct (q_delete (q_taken k a)).
  - destruct (remove_node_represents _ _ k Ht Hin Hm) as (g' & E & H). exists g'. by rewrite E.
  - destruct (negb (q_status option requested (q_taken k a) =? 0)); [| by exists g1].
    pose proof (rep_take g1 _ option (q_status option requested (q_taken k a)) Ht) as Ht2.
    destruct (remove_node_represents _ _ k Ht2) as (g' & E & H); [by unfold q_take; destruct (clears option) | by unfold q_take, may_leave in *; destruct (clears option) |].
    exists g'. by rewrite E.
Qed.

(** ** Theorems on event groups *)

(** C30: The event groups of [os.c] implement a queue of waiting threads. On the
    linked list that represents the queue, [os_event_flags_get] answers from
    the flags or appends its thread; [os_event_flags_set] and
    [os_event_flags_delete] give the semaphores of the right threads, in one
    pass that ends; a thread that wakes takes its flags or waits on; and a
    thread that leaves, when it is not the first of several, is unlinked and
    freed. None touches a node that is not allocated. *)
Theorem event_flags_refine_queue g a k requested option wait v :
  represents g a -> v <> 0 ->
  (k ∉ (queue a).*1 -> exists g', os_event_flags_get true k requested option wait g = Ret ((q_get k requested option wait a).1, g') /\
    represents g' (q_get k requested option wait a).2) /\
  (exists g', os_event_flags_set v EF_OR g = Ret (true, g') /\ represents g' (q_set v a)) /\
  (exists g', os_event_flags_delete g = Ret g' /\
    represents g' (let b := q_give (fun _ => true) a in MkQueue (q_flags b) true (queue b))) /\
  (woken k a -> may_leave k a -> exists g', get_woken k requested option g = Ret ((q_woken k requested option a).1, g') /\
    represents g' (q_woken k requested option a).2) /\
  (k ∈ (queue a).*1 -> may_leave k a -> exists g', get_expired k g = Ret (GetNoEvents, g') /\ represents g' (q_leave k a)).
Proof.
  intros Hr Hv. split; [by apply get_represents |]. split; [by apply set_represents |]. split; [by apply delete_represents |].
  split; [by apply woken_represents | by apply expired_represents].
Qed.

Lemma create_represents : represents os_event_flags_create (MkQueue 0 false []).
Proof. by repeat constructor. Qed.
(** Two threads wait: for 1 or 2, and for 4 and 8. *)
Definition two_waiters : outcome event_group_t :=
  '(_, g) ← os_event_flags_get true 10 3 EF_OR_CLEAR 5 os_event_flags_create;
  '(_, g) ← os_event_flags_get true 20 12 EF_AND 5 g; Ret g.
Definition two_waiters_queue : queue_group := MkQueue 0 false [(10%nat, (3, false)); (20%nat, (12, false))].
Lemma two_waiters_represents : exists g, two_waiters = Ret g /\ represents g two_waiters_queue.
Proof.
  destruct (get_represents _ _ 10 3 EF_OR_CLEAR 5 create_represents) as (g1 & E1 & H1); [by intros ?%not_elem_of_nil |].
  destruct (get_represents _ _ 20 12 EF_AND 5 H1) as (g2 & E2 & H2); [by intros [=]%list_elem_of_singleton |].
  unfold two_waiters. rewrite E1. cbn [fst mbind outcome_bind]. rewrite E2. by exists g2.
Qed.
Lemma event_flags_refine_queue_witness : exists g, two_waiters = Ret g /\
  exists g', os_event_flags_set 2 EF_OR g = Ret (true, g') /\
    represents g' (MkQueue 2 false [(10%nat, (3, true)); (20%nat, (12, false))]).
Proof.
  destruct two_waiters_represents as (g & E & H). exists g. split; [exact E |].
  exact (proj1 (proj2 (event_flags_refine_queue g two_waiters_queue 10 1 EF_OR 0 2 H ltac:(lia)))).
Defined.

(** A thread that waits for one of several flags is answered: when another
    thread sets one of them, its semaphore is given, and when it runs again it
    returns the flags it asked for that are set, clears them, and its node is
    unlinked and freed, whoever else waits. *)
Theorem wait_is_answered g a k requested wait v :
  represents g a -> q_delete a = false -> k ∉ (queue a).*1 -> wait <> 0 ->
  Z.land requested (flags g) = 0 -> Z.land requested v <> 0 ->
  exists g1 g2 g3, os_event_flags_get true k requested EF_OR_CLEAR wait g = Ret (GetWaits k, g1) /\
    os_event_flags_set v EF_OR g1 = Ret (true, g2) /\
    get_woken k requested EF_OR_CLEAR g2 = Ret (GetFlags (Z.land requested v), g3) /\
    flags g3 = Z.ldiff (Z.lor (flags g) v) (Z.land requested v) /\ nodes g3 !! k = None.
Proof.
  intros Hr Hd Hk Hw Hf Hv. assert (Hrq : requested <> 0) by (intros ->; by rewrite Z.land_0_l in Hv).
  assert (Hvz : v <> 0) by (intros ->; by rewrite Z.land_0_r in Hv).
  rewrite (rep_flags _ _ Hr) in *. destruct (get_represents g a k requested EF_OR_CLEAR wait Hr Hk) as (g1 & E1 & H1).
  unfold q_get, q_status in E1, H1. apply Z.eqb_neq in Hrq, Hw. rewrite Hf, Hrq, Hw in E1, H1. cbn [negb Z.eqb fst snd] in E1, H1.
  destruct (set_represents g1 _ v H1 Hvz) as (g2 & E2 & H2). exists g1, g2.
  assert (Hlor : Z.land requested (Z.lor (q_flags a) v) = Z.land requested v) by (by rewrite Z.land_lor_distr_r, Hf).
  assert (Hnv : negb (Z.land requested v =? 0) = true) by (by apply negb_true_iff, Z.eqb_neq).
  destruct (woken_represents g2 _ k requested EF_OR_CLEAR H2) as (g3 & E3 & H3).
  { exists requested. cbn [q_set queue q_flags]. rewrite fmap_app. apply elem_of_app. right. cbn. rewrite Hlor, Hnv. apply list_elem_of_singleton. done. }
  { unfold may_leave. cbn [q_set queue q_flags]. destruct (queue a) as [| e q]; [done |]. cbn.
    destruct (q ++ _); [done |]. cbn. intros E. apply Hk. rewrite <- E. by left. }
  unfold q_woken in E3, H3. cbn [q_taken q_set q_delete q_flags] in E3, H3. rewrite Hd in E3, H3.
  unfold q_status in E3, H3. cbn [q_flags q_taken q_set] in E3, H3. rewrite Hlor, Hnv in E3, H3. cbn [fst snd] in E3, H3. exists g3.
  split; [done |]. split; [done |]. split; [done |]. split; [exact (rep_flags _ _ H3) |].
  apply not_elem_of_dom. rewrite (waiting_nodes _ _ (rep_waiting _ _ H3)), elem_of_list_to_set. cbn [q_take clears q_leave queue].
  intros (e & Ee & [Hne _]%list_elem_of_filter)%list_elem_of_fmap. by apply Hne.
Qed.
Lemma wait_is_answered_witness : exists g g1 g2 g3, two_waiters = Ret g /\
  os_event_flags_get true 30 6 EF_OR_CLEAR 5 g = Ret (GetWaits 30, g1) /\
  os_event_flags_set 4 EF_OR g1 = Ret (true, g2) /\
  get_woken 30 6 EF_OR_CLEAR g2 = Ret (GetFlags 4, g3) /\ flags g3 = 0 /\ nodes g3 !! 30%nat = None.
Proof.
  destruct two_waiters_represents as (g & E & H). exists g.
  destruct (wait_is_answered g two_waiters_queue 30 6 5 4 H eq_refl) as (g1 & g2 & g3 & E1 & E2 & E3 & E4 & E5);
    [by intros [[=] | [=]%list_elem_of_singleton]%elem_of_cons | done | by rewrite (rep_flags _ _ H) | done |].
  exists g1, g2, g3. rewrite (rep_flags _ _ H) in E4. done.
Defined.

(** When the first of several waiting threads gives up, its node is freed
    while the group still points to it, and the next [os_event_flags_set] reads
    the freed node. *)
Theorem first_waiter_leaves_dangling_list g a e1 e2 q v : represents g a -> queue a = e1 :: e2 :: q -> v <> 0 ->
  exists g', get_expired e1.1 g = Ret (GetNoEvents, g') /\ os_event_flags_set v EF_OR g' = Fault NullPointer.
Proof.
  intros [Hf Hd [Hh Hnd Hl Hdom] Hr] Eq Hv. rewrite Eq in Hh, Hl, Hnd. cbn in Hh, Hl, Hnd.
  destruct Hl as [(n & En & Hp & Hn) [(n2 & En2 & _) _]]. cbn [list.head] in Hn. unfold get_expired, os_event_flags_remove_node, deref at 1.
  rewrite En, bind_ret, Hp, Hn, bind_ret, (write_alter _ _ _ _ En2), !bind_ret. eexists. split; [reflexivity |].
  unfold os_event_flags_set. apply Z.eqb_neq in Hv as ->. cbn [head_node set_head set_nodes nodes list_fuel]. rewrite Hh. unfold list_fuel.
  cbn [give_semaphores]. unfold deref. by rewrite lookup_delete_eq.
Qed.
Lemma first_waiter_leaves_dangling_list_witness : exists g g', two_waiters = Ret g /\
  get_expired 10 g = Ret (GetNoEvents, g') /\ os_event_flags_set 1 EF_OR g' = Fault NullPointer.
Proof.
  destruct two_waiters_represents as (g & E & H). exists g.
  destruct (first_waiter_leaves_dangling_list g two_waiters_queue _ _ _ 1 H eq_refl ltac:(lia)) as (g' & E1 & E2). by exists g'.
Defined.

(** With [EF_AND_CLEAR] every flag of the group is cleared, the ones that were
    not requested too. *)
Lemma and_clear_clears_every_flag g a k requested wait :
  requested <> 0 -> flags g <> 0 -> Z.land (flags g) requested = requested ->
  os_event_flags_get a k requested EF_AND_CLEAR wait g = Ret (GetFlags (flags g), set_flags 0 g).
Proof.
  intros Hr Hf Hl. unfold os_event_flags_get, flags_status. apply Z.eqb_neq in Hr as ->. rewrite Hl, Z.eqb_refl.
  pose proof Hf as Hn. apply Z.eqb_neq in Hn as ->. cbn [negb]. unfold take_flags. cbn [clears]. by rewrite Z.ldiff_diag.
Qed.
