(* ===== verification/OsMisc.v ===== *)
(** * Hooks and random numbers

    Models the tick and idle hooks of [port/os/os.c] and the generator of
    [incl/port/os/wm_os.h]. *)
From stdpp Require Import list.
From S2P Require Import Prelude.
Open Scope Z_scope.

(** ** Hooks

    The functions that run at each tick and when no thread runs. *)
Definition MAX_CUSTOM_HOOKS : nat := 4.
Definition hooks := list (option nat).
Definition g_os_tick_hooks : hooks := replicate MAX_CUSTOM_HOOKS None.
Definition vApplicationTickHook (h : hooks) : list nat := omap id h.
Fixpoint store_first (f : option nat) (h : hooks) : bool * hooks :=
  match h with
  | [] => (false, [])
  | None :: h' => (true, f :: h')
  | x :: h' => let (ok, h'') := store_first f h' in (ok, x :: h'')
  end.
(** [os_setup_idle_function] and [os_setup_tick_function]. *)
Definition os_setup_hook (f : option nat) (h : hooks) : bool * hooks :=
  if existsb (fun x => bool_decide (x <> None) && bool_decide (x = f)) h then (true, h) else store_first f h.
(** [os_remove_idle_function] and [os_remove_tick_function]. *)
Fixpoint os_remove_hook (f : option nat) (h : hooks) : bool * hooks :=
  match h with
  | [] => (false, [])
  | x :: h' => if bool_decide (x = f) then (true, None :: h') else let (ok, h'') := os_remove_hook f h' in (ok, x :: h'')
  end.

Lemma hooks_run h : vApplicationTickHook (None :: h) = vApplicationTickHook h.
Proof. done. Qed.
Lemma store_first_spec f h : match store_first (Some f) h with
  | (true, h') => vApplicationTickHook h' ≡ₚ f :: vApplicationTickHook h /\ length h' = length h
  | (false, h') => h' = h /\ length (vApplicationTickHook h) = length h
  end.
Proof.
  induction h as [| [x |] h IH]; cbn [store_first]; [done | | done].
  destruct (store_first (Some f) h) as [[|] h']; cbn in *.
  - destruct IH as [H1 H2]. split; [| by rewrite H2]. rewrite H1. constructor.
  - destruct IH as [-> H2]. split; [done |]. f_equal. exact H2.
Qed.
Lemma hook_found f h : existsb (fun x => bool_decide (x <> None) && bool_decide (x = Some f)) h = bool_decide (f ∈ vApplicationTickHook h).
Proof.
  apply eq_true_iff_eq. rewrite bool_decide_eq_true, existsb_exists. unfold vApplicationTickHook. rewrite list_elem_of_omap. split.
  - intros (x & Hx & [_ ->%bool_decide_eq_true]%andb_true_iff). exists (Some f). split; [by apply list_elem_of_In | done].
  - intros (x & Hx & E). exists x. split; [by apply list_elem_of_In |]. cbn in E. by subst x; rewrite !bool_decide_true.
Qed.
Lemma remove_hook_spec f h : match os_remove_hook (Some f) h with
  | (true, h') => vApplicationTickHook h ≡ₚ f :: vApplicationTickHook h' /\ length h' = length h
  | (false, h') => h' = h /\ f ∉ vApplicationTickHook h
  end.
Proof.
  induction h as [| x h IH]; cbn [os_remove_hook]; [split; [done | apply not_elem_of_nil] |].
  destruct (decide (x = Some f)) as [-> | Hne].
  - rewrite bool_decide_true by done. done.
  - rewrite bool_decide_false by done. destruct (os_remove_hook (Some f) h) as [[|] h'].
    + destruct IH as [H1 H2]. split; [| by simpl; rewrite H2]. destruct x as [x |]; cbn in *; [| done]. rewrite H1. constructor.
    + destruct IH as [-> H2]. split; [done |]. destruct x as [x |]; cbn in *; [| done]. intros [-> | ?]%elem_of_cons; done.
Qed.

(** The hooks are a set of at most four functions: setting a function up
    adds it once, and fails only when four others are set up; removing it takes
    it out, and fails only when it is not there. *)
Theorem hooks_are_a_set f h : NoDup (vApplicationTickHook h) -> length h = MAX_CUSTOM_HOOKS ->
  (let (ok, h') := os_setup_hook (Some f) h in
   NoDup (vApplicationTickHook h') /\ length h' = MAX_CUSTOM_HOOKS /\
   (ok = true -> forall g, g ∈ vApplicationTickHook h' <-> g = f \/ g ∈ vApplicationTickHook h) /\
   (ok = false -> h' = h /\ (f ∉ vApplicationTickHook h) /\ length (vApplicationTickHook h) = MAX_CUSTOM_HOOKS)) /\
  (let (ok, h') := os_remove_hook (Some f) h in
   NoDup (vApplicationTickHook h') /\ length h' = MAX_CUSTOM_HOOKS /\
   (ok = true -> forall g, g ∈ vApplicationTickHook h' <-> g <> f /\ g ∈ vApplicationTickHook h) /\
   (ok = false -> h' = h /\ f ∉ vApplicationTickHook h)).
Proof.
  intros Hnd Hl. split.
  - unfold os_setup_hook. rewrite hook_found. destruct (bool_decide_reflect (f ∈ vApplicationTickHook h)) as [Hin | Hin].
    + split; [done |]. split; [done |]. split; [| done]. intros _ g. split; [by right |]. by intros [-> | ?].
    + pose proof (store_first_spec f h) as H. destruct (store_first (Some f) h) as [[|] h']; destruct H as [H1 H2].
      * rewrite H1, H2. split; [by apply list.NoDup_cons |]. split; [done |]. split; [| done]. intros _ g. rewrite H1. apply elem_of_cons.
      * subst h'. split; [done |]. split; [done |]. split; [done |]. by rewrite H2.
  - pose proof (remove_hook_spec f h) as H. destruct (os_remove_hook (Some f) h) as [[|] h']; destruct H as [H1 H2].
    + rewrite H1 in Hnd. apply list.NoDup_cons in Hnd as [Hf Hnd]. rewrite H2. split; [done |]. split; [done |]. split; [| done].
      intros _ g. rewrite H1, elem_of_cons. split; [| tauto]. intros Hg. split; [by intros -> | by right].
    + subst h'. done.
Qed.
Lemma hooks_are_a_set_witness : NoDup [1; 2]%nat /\
  os_setup_hook (Some 3%nat) [Some 1%nat; None; Some 2%nat; None] = (true, [Some 1; Some 3; Some 2; None]%nat) /\ NoDup [1; 3; 2]%nat.
Proof.
  assert (H : NoDup [1; 2]%nat) by (repeat constructor; by rewrite ?elem_of_cons, ?elem_of_nil; intuition).
  split; [exact H |]. split; [reflexivity |].
  exact (proj1 (proj1 (hooks_are_a_set 3 [Some 1%nat; None; Some 2%nat; None] H eq_refl))).
Defined.

(** ** Random numbers *)
Definition os_srand (seed : Z) : Z := seed.
(** The new [wm_rand_seed], which is also the result. *)
Definition os_rand (ticks wm_rand_seed : Z) : Z :=
  let wm_rand_seed := if wm_rand_seed =? 4294967295 then os_srand ticks else wm_rand_seed in
  u32 (Z.land (u64 (wm_rand_seed * 279470273) mod 4294967291) 4294967295).
(** The result, and the new seed. *)
Definition os_rand_range (ticks wm_rand_seed low high : Z) : Z * Z :=
  if low =? high then (low, wm_rand_seed)
  else
    let (low, high) := if high <? low then (high, low) else (low, high) in
    let r := os_rand ticks wm_rand_seed in (u32 (low + r mod u32 (high - low)), r).

Lemma os_rand_step ticks seed : 0 <= ticks < 2 ^ 32 -> 0 <= seed < 2 ^ 32 ->
  os_rand ticks seed = ((if seed =? 4294967295 then ticks else seed) * 279470273) mod 4294967291.
Proof.
  intros Ht Hs. unfold os_rand, os_srand. set (s := if seed =? 4294967295 then ticks else seed).
  assert (0 <= s < 2 ^ 32) by (subst s; destruct (seed =? 4294967295); lia). rewrite (wrap_small 64) by lia.
  set (r := (s * 279470273) mod 4294967291). assert (0 <= r < 4294967291) by (apply Z.mod_pos_bound; lia).
  change 4294967295 with (Z.ones 32). rewrite Z.land_ones by lia. rewrite Z.mod_small by lia. apply wrap_small. lia.
Qed.
(** The factor has an inverse modulo 4294967291. *)
Lemma os_rand_zero s : (s * 279470273) mod 4294967291 = 0 -> s mod 4294967291 = 0.
Proof.
  intros H. apply Z.mod_divide in H as [q Hq]; [| lia]. apply Z.mod_divide; [lia |].
  exists (1815976680 * q - s * 118164229). lia.
Qed.

(** A random number of a range is never below its lower end and never
    reaches its upper end (a range of one number gives that number), and the
    generator never falls on 0, where it would stay, except from a seed that is
    a multiple of its modulus. *)
Theorem random_range_is_half_open ticks seed low high :
  0 <= ticks < 2 ^ 32 -> 0 <= seed < 2 ^ 32 -> 0 <= low < 2 ^ 32 -> 0 <= high < 2 ^ 32 ->
  (let r := (os_rand_range ticks seed low high).1 in
   if low =? high then r = low else Z.min low high <= r < Z.max low high) /\
  (seed <> 4294967295 -> seed mod 4294967291 <> 0 -> let s := os_rand ticks seed in 0 < s < 4294967291).
Proof.
  intros Ht Hs Hl Hh. split.
  - unfold os_rand_range. destruct (Z.eqb_spec low high); [done |].
    assert (H : forall l h r, 0 <= l < h -> h < 2 ^ 32 -> l <= u32 (l + r mod u32 (h - l)) < h).
    { intros l h r H1 H2. rewrite (wrap_small 32 (h - l)) by lia. pose proof (Z.mod_pos_bound r (h - l) ltac:(lia)).
      rewrite wrap_small by lia. lia. }
    destruct (Z.ltb_spec high low); cbn [fst].
    + rewrite Z.min_r, Z.max_l by lia. apply H; lia.
    + rewrite Z.min_l, Z.max_r by lia. apply H; lia.
  - intros Hne Hz s. subst s. rewrite os_rand_step by done. apply Z.eqb_neq in Hne as ->.
    pose proof (Z.mod_pos_bound (seed * 279470273) 4294967291 ltac:(lia)).
    pose proof (os_rand_zero seed). lia.
Qed.
Lemma random_range_is_half_open_witness :
  os_rand_range 7 4294967295 10 6 = (9, 1956291911) /\ 6 <= (os_rand_range 7 4294967295 10 6).1 < 10 /\ 0 < os_rand 7 5 < 4294967291.
Proof.
  split; [vm_compute; reflexivity |].
  split; [exact (proj1 (random_range_is_half_open 7 4294967295 10 6 ltac:(lia) ltac:(lia) ltac:(lia) ltac:(lia)))
    | exact (proj2 (random_range_is_half_open 7 5 10 6 ltac:(lia) ltac:(lia) ltac:(lia) ltac:(lia)) ltac:(lia) ltac:(discriminate))].
Defined.
