(* ===== verification/ScanData.v ===== *)
(** * Access points found by a scan

    The descriptor of an access point ([BSSDescriptor_t] of [mlan_ieee.h]) and
    the constants of its information elements. *)
From stdpp Require Import list.
From S2P Require Import Prelude Cfp.
Open Scope Z_scope.

(** ** Constants *)
Definition MLAN_MAC_ADDR_LENGTH : Z := 6.
Definition MLAN_MAX_SSID_LENGTH : Z := 32.
Definition MRVDRV_MAX_BSSID_LIST : Z := 20.
Definition MLAN_WMSDK_MAX_WPA_IE_LEN : Z := 64.
Definition COUNTRY_CODE_LEN : Z := 3.
Definition sizeof_CountryInfoFullSet : Z := 254.
Definition sizeof_FIXED_IEs : Z := 12.

(** The two that are returned here; and the modes, where [MLAN_BSS_MODE_UNSET]
    is the zero of a cleared descriptor. *)
Inductive mlan_status := MLAN_STATUS_SUCCESS | MLAN_STATUS_FAILURE.
Inductive mlan_bss_mode := MLAN_BSS_MODE_UNSET | MLAN_BSS_MODE_INFRA | MLAN_BSS_MODE_IBSS | MLAN_BSS_MODE_AUTO.
Inductive WLAN_802_11_NETWORK_TYPE := Wlan802_11FH | Wlan802_11DS.
#[export] Instance mlan_status_eq_dec : EqDecision mlan_status.
Proof. solve_decision. Defined.
#[export] Instance mlan_bss_mode_eq_dec : EqDecision mlan_bss_mode.
Proof. solve_decision. Defined.

(** Elements, by number. *)
Inductive IEEEtypes_ElementId_e :=
  | SSID | SUPPORTED_RATES | FH_PARAM_SET | DS_PARAM_SET | CF_PARAM_SET | DTIM_PARAM_SET | IBSS_PARAM_SET
  | COUNTRY_INFO | EXTENDED_SUPPORTED_RATES | VENDOR_SPECIFIC_221 | RSN_IE | HT_CAPABILITY | HT_OPERATION
  | BSSCO_2040 | VHT_CAPABILITY | VHT_OPERATION | VHT_TX_POWER_ENV | OPER_MODE_NTF | EXT_CAPABILITY | RSNX_IE.
Definition element_number (e : IEEEtypes_ElementId_e) : Z :=
  match e with
  | SSID => 0 | SUPPORTED_RATES => 1 | FH_PARAM_SET => 2 | DS_PARAM_SET => 3 | CF_PARAM_SET => 4
  | DTIM_PARAM_SET => 5 | IBSS_PARAM_SET => 6 | COUNTRY_INFO => 7 | EXTENDED_SUPPORTED_RATES => 50
  | VENDOR_SPECIFIC_221 => 221 | RSN_IE => 48 | HT_CAPABILITY => 45 | HT_OPERATION => 61 | BSSCO_2040 => 72
  | VHT_CAPABILITY => 191 | VHT_OPERATION => 192 | VHT_TX_POWER_ENV => 195 | OPER_MODE_NTF => 199
  | EXT_CAPABILITY => 127 | RSNX_IE => 244
  end.
Definition elements : list IEEEtypes_ElementId_e :=
  [SSID; SUPPORTED_RATES; FH_PARAM_SET; DS_PARAM_SET; CF_PARAM_SET; DTIM_PARAM_SET; IBSS_PARAM_SET; COUNTRY_INFO;
   EXTENDED_SUPPORTED_RATES; VENDOR_SPECIFIC_221; RSN_IE; HT_CAPABILITY; HT_OPERATION; BSSCO_2040; VHT_CAPABILITY;
   VHT_OPERATION; VHT_TX_POWER_ENV; OPER_MODE_NTF; EXT_CAPABILITY; RSNX_IE].
(** None: an element that the parser passes over. *)
Definition element_of (n : Z) : option IEEEtypes_ElementId_e := List.find (fun e => element_number e =? n) elements.

(** ** The saved elements

    The descriptor keeps a copy of some elements and a pointer to it, null when
    the element was absent. A pointer leads into the descriptor that is being
    filled or into an entry of the table. *)
Inductive ie_kind := HtCap | HtInfo | BssCo2040 | VhtCap | VhtOprat | VhtTxPower | OperMode | ExtCap | WpaIe | RsnIe | RsnxIe.
Definition ie_index (k : ie_kind) : nat :=
  match k with
  | HtCap => 0 | HtInfo => 1 | BssCo2040 => 2 | VhtCap => 3 | VhtOprat => 4 | VhtTxPower => 5 | OperMode => 6
  | ExtCap => 7 | WpaIe => 8 | RsnIe => 9 | RsnxIe => 10
  end%nat.
(** The size of the copy. *)
Definition ie_size (k : ie_kind) : Z :=
  match k with
  | HtCap => 28 | HtInfo => 24 | BssCo2040 => 3 | VhtCap => 14 | VhtOprat => 7 | VhtTxPower => 5 | OperMode => 3
  | ExtCap => 12 | WpaIe | RsnIe => MLAN_WMSDK_MAX_WPA_IE_LEN | RsnxIe => 3
  end.
Definition ie_kinds : list ie_kind := [HtCap; HtInfo; BssCo2040; VhtCap; VhtOprat; VhtTxPower; OperMode; ExtCap; WpaIe; RsnIe; RsnxIe].
Inductive place := NewEntry | Entry (i : nat).
Record ie_slot := MkSlot { saved : list Z; pointer : option place }.

(** ** The descriptor *)
Record BSSDescriptor_t := MkBss {
  mac_address : list Z;
  ssid : list Z;   (* [MLAN_MAX_SSID_LENGTH] bytes *)
  ssid_len : Z;
  privacy : bool;   (* [Wlan802_11PrivFilter8021xWEP] *)
  rssi : Z;   (* t_s32 *)
  chan_load : Z;
  chan_noise : Z;
  channel : Z;
  freq : Z;
  beacon_period : Z;
  dtim_period : Z;
  atim_window : Z;
  network_type_use : WLAN_802_11_NETWORK_TYPE;
  bss_mode : mlan_bss_mode;
  supported_rates : list Z;   (* [WLAN_SUPPORTED_RATES] bytes *)
  data_rates : list Z;   (* [WLAN_SUPPORTED_RATES] bytes *)
  bss_band : Z;
  network_tsf : Z;
  time_stamp : list Z;   (* 8 bytes *)
  phy_param_set : list Z;   (* the union *)
  ss_param_set : list Z;   (* the union *)
  cap_info : list Z;   (* 2 bytes *)
  wmm_ie : list Z;
  disable_11n : bool;
  country_info : list Z;
  pbeacon_buf : Z;   (* an offset in the response *)
  beacon_buf_size : Z;
  slots : list ie_slot;   (* by [ie_kind] *)
  wpa_ie_buff_len : Z;
  rsn_ie_buff_len : Z;
  wpa2_entp_IE_exist : bool
}.
Definition set_mac_address (v : list Z) (e : BSSDescriptor_t) : BSSDescriptor_t :=
  MkBss v (ssid e) (ssid_len e) (privacy e) (rssi e) (chan_load e) (chan_noise e) (channel e) (freq e)
    (beacon_period e) (dtim_period e) (atim_window e) (network_type_use e) (bss_mode e) (supported_rates e)
    (data_rates e) (bss_band e) (network_tsf e) (time_stamp e) (phy_param_set e) (ss_param_set e) (cap_info e)
    (wmm_ie e) (disable_11n e) (country_info e) (pbeacon_buf e) (beacon_buf_size e) (slots e)
    (wpa_ie_buff_len e) (rsn_ie_buff_len e) (wpa2_entp_IE_exist e).
Definition set_ssid (v : list Z) (e : BSSDescriptor_t) : BSSDescriptor_t :=
  MkBss (mac_address e) v (ssid_len e) (privacy e) (rssi e) (chan_load e) (chan_noise e) (channel e) (freq e)
    (beacon_period e) (dtim_period e) (atim_window e) (network_type_use e) (bss_mode e) (supported_rates e)
    (data_rates e) (bss_band e) (network_tsf e) (time_stamp e) (phy_param_set e) (ss_param_set e) (cap_info e)
    (wmm_ie e) (disable_11n e) (country_info e) (pbeacon_buf e) (beacon_buf_size e) (slots e)
    (wpa_ie_buff_len e) (rsn_ie_buff_len e) (wpa2_entp_IE_exist e).
Definition set_ssid_len (v : Z) (e : BSSDescriptor_t) : BSSDescriptor_t :=
  MkBss (mac_address e) (ssid e) v (privacy e) (rssi e) (chan_load e) (chan_noise e) (channel e) (freq e)
    (beacon_period e) (dtim_period e) (atim_window e) (network_type_use e) (bss_mode e) (supported_rates e)
    (data_rates e) (bss_band e) (network_tsf e) (time_stamp e) (phy_param_set e) (ss_param_set e) (cap_info e)
    (wmm_ie e) (disable_11n e) (country_info e) (pbeacon_buf e) (beacon_buf_size e) (slots e)
    (wpa_ie_buff_len e) (rsn_ie_buff_len e) (wpa2_entp_IE_exist e).
Definition set_privacy (v : bool) (e : BSSDescriptor_t) : BSSDescriptor_t :=
  MkBss (mac_address e) (ssid e) (ssid_len e) v (rssi e) (chan_load e) (chan_noise e) (channel e) (freq e)
    (beacon_period e) (dtim_period e) (atim_window e) (network_type_use e) (bss_mode e) (supported_rates e)
    (data_rates e) (bss_band e) (network_tsf e) (time_stamp e) (phy_param_set e) (ss_param_set e) (cap_info e)
    (wmm_ie e) (disable_11n e) (country_info e) (pbeacon_buf e) (beacon_buf_size e) (slots e)
    (wpa_ie_buff_len e) (rsn_ie_buff_len e) (wpa2_entp_IE_exist e).
Definition set_rssi (v : Z) (e : BSSDescriptor_t) : BSSDescriptor_t :=
  MkBss (mac_address e) (ssid e) (ssid_len e) (privacy e) v (chan_load e) (chan_noise e) (channel e) (freq e)
    (beacon_period e) (dtim_period e) (atim_window e) (network_type_use e) (bss_mode e) (supported_rates e)
    (data_rates e) (bss_band e) (network_tsf e) (time_stamp e) (phy_param_set e) (ss_param_set e) (cap_info e)
    (wmm_ie e) (disable_11n e) (country_info e) (pbeacon_buf e) (beacon_buf_size e) (slots e)
    (wpa_ie_buff_len e) (rsn_ie_buff_len e) (wpa2_entp_IE_exist e).
Definition set_chan_load (v : Z) (e : BSSDescriptor_t) : BSSDescriptor_t :=
  MkBss (mac_address e) (ssid e) (ssid_len e) (privacy e) (rssi e) v (chan_noise e) (channel e) (freq e)
    (beacon_period e) (dtim_period e) (atim_window e) (network_type_use e) (bss_mode e) (supported_rates e)
    (data_rates e) (bss_band e) (network_tsf e) (time_stamp e) (phy_param_set e) (ss_param_set e) (cap_info e)
    (wmm_ie e) (disable_11n e) (country_info e) (pbeacon_buf e) (beacon_buf_size e) (slots e)
    (wpa_ie_buff_len e) (rsn_ie_buff_len e) (wpa2_entp_IE_exist e).
Definition set_chan_noise (v : Z) (e : BSSDescriptor_t) : BSSDescriptor_t :=
  MkBss (mac_address e) (ssid e) (ssid_len e) (privacy e) (rssi e) (chan_load e) v (channel e) (freq e)
    (beacon_period e) (dtim_period e) (atim_window e) (network_type_use e) (bss_mode e) (supported_rates e)
    (data_rates e) (bss_band e) (network_tsf e) (time_stamp e) (phy_param_set e) (ss_param_set e) (cap_info e)
    (wmm_ie e) (disable_11n e) (country_info e) (pbeacon_buf e) (beacon_buf_size e) (slots e)
    (wpa_ie_buff_len e) (rsn_ie_buff_len e) (wpa2_entp_IE_exist e).
Definition set_channel (v : Z) (e : BSSDescriptor_t) : BSSDescriptor_t :=
  MkBss (mac_address e) (ssid e) (ssid_len e) (privacy e) (rssi e) (chan_load e) (chan_noise e) v (freq e)
    (beacon_period e) (dtim_period e) (atim_window e) (network_type_use e) (bss_mode e) (supported_rates e)
    (data_rates e) (bss_band e) (network_tsf e) (time_stamp e) (phy_param_set e) (ss_param_set e) (cap_info e)
    (wmm_ie e) (disable_11n e) (country_info e) (pbeacon_buf e) (beacon_buf_size e) (slots e)
    (wpa_ie_buff_len e) (rsn_ie_buff_len e) (wpa2_entp_IE_exist e).
Definition set_freq (v : Z) (e : BSSDescriptor_t) : BSSDescriptor_t :=
  MkBss (mac_address e) (ssid e) (ssid_len e) (privacy e) (rssi e) (chan_load e) (chan_noise e) (channel e) v
    (beacon_period e) (dtim_period e) (atim_window e) (network_type_use e) (bss_mode e) (supported_rates e)
    (data_rates e) (bss_band e) (network_tsf e) (time_stamp e) (phy_param_set e) (ss_param_set e) (cap_info e)
    (wmm_ie e) (disable_11n e) (country_info e) (pbeacon_buf e) (beacon_buf_size e) (slots e)
    (wpa_ie_buff_len e) (rsn_ie_buff_len e) (wpa2_entp_IE_exist e).
Definition set_beacon_period (v : Z) (e : BSSDescriptor_t) : BSSDescriptor_t :=
  MkBss (mac_address e) (ssid e) (ssid_len e) (privacy e) (rssi e) (chan_load e) (chan_noise e) (channel e)
    (freq e) v (dtim_period e) (atim_window e) (network_type_use e) (bss_mode e) (supported_rates e)
    (data_rates e) (bss_band e) (network_tsf e) (time_stamp e) (phy_param_set e) (ss_param_set e) (cap_info e)
    (wmm_ie e) (disable_11n e) (country_info e) (pbeacon_buf e) (beacon_buf_size e) (slots e)
    (wpa_ie_buff_len e) (rsn_ie_buff_len e) (wpa2_entp_IE_exist e).
Definition set_dtim_period (v : Z) (e : BSSDescriptor_t) : BSSDescriptor_t :=
  MkBss (mac_address e) (ssid e) (ssid_len e) (privacy e) (rssi e) (chan_load e) (chan_noise e) (channel e)
    (freq e) (beacon_period e) v (atim_window e) (network_type_use e) (bss_mode e) (supported_rates e)
    (data_rates e) (bss_band e) (network_tsf e) (time_stamp e) (phy_param_set e) (ss_param_set e) (cap_info e)
    (wmm_ie e) (disable_11n e) (country_info e) (pbeacon_buf e) (beacon_buf_size e) (slots e)
    (wpa_ie_buff_len e) (rsn_ie_buff_len e) (wpa2_entp_IE_exist e).
Definition set_atim_window (v : Z) (e : BSSDescriptor_t) : BSSDescriptor_t :=
  MkBss (mac_address e) (ssid e) (ssid_len e) (privacy e) (rssi e) (chan_load e) (chan_noise e) (channel e)
    (freq e) (beacon_period e) (dtim_period e) v (network_type_use e) (bss_mode e) (supported_rates e)
    (data_rates e) (bss_band e) (network_tsf e) (time_stamp e) (phy_param_set e) (ss_param_set e) (cap_info e)
    (wmm_ie e) (disable_11n e) (country_info e) (pbeacon_buf e) (beacon_buf_size e) (slots e)
    (wpa_ie_buff_len e) (rsn_ie_buff_len e) (wpa2_entp_IE_exist e).
Definition set_network_type_use (v : WLAN_802_11_NETWORK_TYPE) (e : BSSDescriptor_t) : BSSDescriptor_t :=
  MkBss (mac_address e) (ssid e) (ssid_len e) (privacy e) (rssi e) (chan_load e) (chan_noise e) (channel e)
    (freq e) (beacon_period e) (dtim_period e) (atim_window e) v (bss_mode e) (supported_rates e) (data_rates e)
    (bss_band e) (network_tsf e) (time_stamp e) (phy_param_set e) (ss_param_set e) (cap_info e) (wmm_ie e)
    (disable_11n e) (country_info e) (pbeacon_buf e) (beacon_buf_size e) (slots e) (wpa_ie_buff_len e)
    (rsn_ie_buff_len e) (wpa2_entp_IE_exist e).
Definition set_bss_mode (v : mlan_bss_mode) (e : BSSDescriptor_t) : BSSDescriptor_t :=
  MkBss (mac_address e) (ssid e) (ssid_len e) (privacy e) (rssi e) (chan_load e) (chan_noise e) (channel e)
    (freq e) (beacon_period e) (dtim_period e) (atim_window e) (network_type_use e) v (supported_rates e)
    (data_rates e) (bss_band e) (network_tsf e) (time_stamp e) (phy_param_set e) (ss_param_set e) (cap_info e)
    (wmm_ie e) (disable_11n e) (country_info e) (pbeacon_buf e) (beacon_buf_size e) (slots e)
    (wpa_ie_buff_len e) (rsn_ie_buff_len e) (wpa2_entp_IE_exist e).
Definition set_supported_rates (v : list Z) (e : BSSDescriptor_t) : BSSDescriptor_t :=
  MkBss (mac_address e) (ssid e) (ssid_len e) (privacy e) (rssi e) (chan_load e) (chan_noise e) (channel e)
    (freq e) (beacon_period e) (dtim_period e) (atim_window e) (network_type_use e) (bss_mode e) v
    (data_rates e) (bss_band e) (network_tsf e) (time_stamp e) (phy_param_set e) (ss_param_set e) (cap_info e)
    (wmm_ie e) (disable_11n e) (country_info e) (pbeacon_buf e) (beacon_buf_size e) (slots e)
    (wpa_ie_buff_len e) (rsn_ie_buff_len e) (wpa2_entp_IE_exist e).
Definition set_data_rates (v : list Z) (e : BSSDescriptor_t) : BSSDescriptor_t :=
  MkBss (mac_address e) (ssid e) (ssid_len e) (privacy e) (rssi e) (chan_load e) (chan_noise e) (channel e)
    (freq e) (beacon_period e) (dtim_period e) (atim_window e) (network_type_use e) (bss_mode e)
    (supported_rates e) v (bss_band e) (network_tsf e) (time_stamp e) (phy_param_set e) (ss_param_set e)
    (cap_info e) (wmm_ie e) (disable_11n e) (country_info e) (pbeacon_buf e) (beacon_buf_size e) (slots e)
    (wpa_ie_buff_len e) (rsn_ie_buff_len e) (wpa2_entp_IE_exist e).
Definition set_bss_band (v : Z) (e : BSSDescriptor_t) : BSSDescriptor_t :=
  MkBss (mac_address e) (ssid e) (ssid_len e) (privacy e) (rssi e) (chan_load e) (chan_noise e) (channel e)
    (freq e) (beacon_period e) (dtim_period e) (atim_window e) (network_type_use e) (bss_mode e)
    (supported_rates e) (data_rates e) v (network_tsf e) (time_stamp e) (phy_param_set e) (ss_param_set e)
    (cap_info e) (wmm_ie e) (disable_11n e) (country_info e) (pbeacon_buf e) (beacon_buf_size e) (slots e)
    (wpa_ie_buff_len e) (rsn_ie_buff_len e) (wpa2_entp_IE_exist e).
Definition set_network_tsf (v : Z) (e : BSSDescriptor_t) : BSSDescriptor_t :=
  MkBss (mac_address e) (ssid e) (ssid_len e) (privacy e) (rssi e) (chan_load e) (chan_noise e) (channel e)
    (freq e) (beacon_period e) (dtim_period e) (atim_window e) (network_type_use e) (bss_mode e)
    (supported_rates e) (data_rates e) (bss_band e) v (time_stamp e) (phy_param_set e) (ss_param_set e)
    (cap_info e) (wmm_ie e) (disable_11n e) (country_info e) (pbeacon_buf e) (beacon_buf_size e) (slots e)
    (wpa_ie_buff_len e) (rsn_ie_buff_len e) (wpa2_entp_IE_exist e).
Definition set_time_stamp (v : list Z) (e : BSSDescriptor_t) : BSSDescriptor_t :=
  MkBss (mac_address e) (ssid e) (ssid_len e) (privacy e) (rssi e) (chan_load e) (chan_noise e) (channel e)
    (freq e) (beacon_period e) (dtim_period e) (atim_window e) (network_type_use e) (bss_mode e)
    (supported_rates e) (data_rates e) (bss_band e) (network_tsf e) v (phy_param_set e) (ss_param_set e)
    (cap_info e) (wmm_ie e) (disable_11n e) (country_info e) (pbeacon_buf e) (beacon_buf_size e) (slots e)
    (wpa_ie_buff_len e) (rsn_ie_buff_len e) (wpa2_entp_IE_exist e).
Definition set_phy_param_set (v : list Z) (e : BSSDescriptor_t) : BSSDescriptor_t :=
  MkBss (mac_address e) (ssid e) (ssid_len e) (privacy e) (rssi e) (chan_load e) (chan_noise e) (channel e)
    (freq e) (beacon_period e) (dtim_period e) (atim_window e) (network_type_use e) (bss_mode e)
    (supported_rates e) (data_rates e) (bss_band e) (network_tsf e) (time_stamp e) v (ss_param_set e)
    (cap_info e) (wmm_ie e) (disable_11n e) (country_info e) (pbeacon_buf e) (beacon_buf_size e) (slots e)
    (wpa_ie_buff_len e) (rsn_ie_buff_len e) (wpa2_entp_IE_exist e).
Definition set_ss_param_set (v : list Z) (e : BSSDescriptor_t) : BSSDescriptor_t :=
  MkBss (mac_address e) (ssid e) (ssid_len e) (privacy e) (rssi e) (chan_load e) (chan_noise e) (channel e)
    (freq e) (beacon_period e) (dtim_period e) (atim_window e) (network_type_use e) (bss_mode e)
    (supported_rates e) (data_rates e) (bss_band e) (network_tsf e) (time_stamp e) (phy_param_set e) v
    (cap_info e) (wmm_ie e) (disable_11n e) (country_info e) (pbeacon_buf e) (beacon_buf_size e) (slots e)
    (wpa_ie_buff_len e) (rsn_ie_buff_len e) (wpa2_entp_IE_exist e).
Definition set_cap_info (v : list Z) (e : BSSDescriptor_t) : BSSDescriptor_t :=
  MkBss (mac_address e) (ssid e) (ssid_len e) (privacy e) (rssi e) (chan_load e) (chan_noise e) (channel e)
    (freq e) (beacon_period e) (dtim_period e) (atim_window e) (network_type_use e) (bss_mode e)
    (supported_rates e) (data_rates e) (bss_band e) (network_tsf e) (time_stamp e) (phy_param_set e)
    (ss_param_set e) v (wmm_ie e) (disable_11n e) (country_info e) (pbeacon_buf e) (beacon_buf_size e) (slots e)
    (wpa_ie_buff_len e) (rsn_ie_buff_len e) (wpa2_entp_IE_exist e).
Definition set_wmm_ie (v : list Z) (e : BSSDescriptor_t) : BSSDescriptor_t :=
  MkBss (mac_address e) (ssid e) (ssid_len e) (privacy e) (rssi e) (chan_load e) (chan_noise e) (channel e)
    (freq e) (beacon_period e) (dtim_period e) (atim_window e) (network_type_use e) (bss_mode e)
    (supported_rates e) (data_rates e) (bss_band e) (network_tsf e) (time_stamp e) (phy_param_set e)
    (ss_param_set e) (cap_info e) v (disable_11n e) (country_info e) (pbeacon_buf e) (beacon_buf_size e)
    (slots e) (wpa_ie_buff_len e) (rsn_ie_buff_len e) (wpa2_entp_IE_exist e).
Definition set_disable_11n (v : bool) (e : BSSDescriptor_t) : BSSDescriptor_t :=
  MkBss (mac_address e) (ssid e) (ssid_len e) (privacy e) (rssi e) (chan_load e) (chan_noise e) (channel e)
    (freq e) (beacon_period e) (dtim_period e) (atim_window e) (network_type_use e) (bss_mode e)
    (supported_rates e) (data_rates e) (bss_band e) (network_tsf e) (time_stamp e) (phy_param_set e)
    (ss_param_set e) (cap_info e) (wmm_ie e) v (country_info e) (pbeacon_buf e) (beacon_buf_size e) (slots e)
    (wpa_ie_buff_len e) (rsn_ie_buff_len e) (wpa2_entp_IE_exist e).
Definition set_country_info (v : list Z) (e : BSSDescriptor_t) : BSSDescriptor_t :=
  MkBss (mac_address e) (ssid e) (ssid_len e) (privacy e) (rssi e) (chan_load e) (chan_noise e) (channel e)
    (freq e) (beacon_period e) (dtim_period e) (atim_window e) (network_type_use e) (bss_mode e)
    (supported_rates e) (data_rates e) (bss_band e) (network_tsf e) (time_stamp e) (phy_param_set e)
    (ss_param_set e) (cap_info e) (wmm_ie e) (disable_11n e) v (pbeacon_buf e) (beacon_buf_size e) (slots e)
    (wpa_ie_buff_len e) (rsn_ie_buff_len e) (wpa2_entp_IE_exist e).
Definition set_pbeacon_buf (v : Z) (e : BSSDescriptor_t) : BSSDescriptor_t :=
  MkBss (mac_address e) (ssid e) (ssid_len e) (privacy e) (rssi e) (chan_load e) (chan_noise e) (channel e)
    (freq e) (beacon_period e) (dtim_period e) (atim_window e) (network_type_use e) (bss_mode e)
    (supported_rates e) (data_rates e) (bss_band e) (network_tsf e) (time_stamp e) (phy_param_set e)
    (ss_param_set e) (cap_info e) (wmm_ie e) (disable_11n e) (country_info e) v (beacon_buf_size e) (slots e)
    (wpa_ie_buff_len e) (rsn_ie_buff_len e) (wpa2_entp_IE_exist e).
Definition set_beacon_buf_size (v : Z) (e : BSSDescriptor_t) : BSSDescriptor_t :=
  MkBss (mac_address e) (ssid e) (ssid_len e) (privacy e) (rssi e) (chan_load e) (chan_noise e) (channel e)
    (freq e) (beacon_period e) (dtim_period e) (atim_window e) (network_type_use e) (bss_mode e)
    (supported_rates e) (data_rates e) (bss_band e) (network_tsf e) (time_stamp e) (phy_param_set e)
    (ss_param_set e) (cap_info e) (wmm_ie e) (disable_11n e) (country_info e) (pbeacon_buf e) v (slots e)
    (wpa_ie_buff_len e) (rsn_ie_buff_len e) (wpa2_entp_IE_exist e).
Definition set_slots (v : list ie_slot) (e : BSSDescriptor_t) : BSSDescriptor_t :=
  MkBss (mac_address e) (ssid e) (ssid_len e) (privacy e) (rssi e) (chan_load e) (chan_noise e) (channel e)
    (freq e) (beacon_period e) (dtim_period e) (atim_window e) (network_type_use e) (bss_mode e)
    (supported_rates e) (data_rates e) (bss_band e) (network_tsf e) (time_stamp e) (phy_param_set e)
    (ss_param_set e) (cap_info e) (wmm_ie e) (disable_11n e) (country_info e) (pbeacon_buf e)
    (beacon_buf_size e) v (wpa_ie_buff_len e) (rsn_ie_buff_len e) (wpa2_entp_IE_exist e).
Definition set_wpa_ie_buff_len (v : Z) (e : BSSDescriptor_t) : BSSDescriptor_t :=
  MkBss (mac_address e) (ssid e) (ssid_len e) (privacy e) (rssi e) (chan_load e) (chan_noise e) (channel e)
    (freq e) (beacon_period e) (dtim_period e) (atim_window e) (network_type_use e) (bss_mode e)
    (supported_rates e) (data_rates e) (bss_band e) (network_tsf e) (time_stamp e) (phy_param_set e)
    (ss_param_set e) (cap_info e) (wmm_ie e) (disable_11n e) (country_info e) (pbeacon_buf e)
    (beacon_buf_size e) (slots e) v (rsn_ie_buff_len e) (wpa2_entp_IE_exist e).
Definition set_rsn_ie_buff_len (v : Z) (e : BSSDescriptor_t) : BSSDescriptor_t :=
  MkBss (mac_address e) (ssid e) (ssid_len e) (privacy e) (rssi e) (chan_load e) (chan_noise e) (channel e)
    (freq e) (beacon_period e) (dtim_period e) (atim_window e) (network_type_use e) (bss_mode e)
    (supported_rates e) (data_rates e) (bss_band e) (network_tsf e) (time_stamp e) (phy_param_set e)
    (ss_param_set e) (cap_info e) (wmm_ie e) (disable_11n e) (country_info e) (pbeacon_buf e)
    (beacon_buf_size e) (slots e) (wpa_ie_buff_len e) v (wpa2_entp_IE_exist e).
Definition set_wpa2_entp_IE_exist (v : bool) (e : BSSDescriptor_t) : BSSDescriptor_t :=
  MkBss (mac_address e) (ssid e) (ssid_len e) (privacy e) (rssi e) (chan_load e) (chan_noise e) (channel e)
    (freq e) (beacon_period e) (dtim_period e) (atim_window e) (network_type_use e) (bss_mode e)
    (supported_rates e) (data_rates e) (bss_band e) (network_tsf e) (time_stamp e) (phy_param_set e)
    (ss_param_set e) (cap_info e) (wmm_ie e) (disable_11n e) (country_info e) (pbeacon_buf e)
    (beacon_buf_size e) (slots e) (wpa_ie_buff_len e) (rsn_ie_buff_len e) v.

(** The memory of a new descriptor is cleared. *)
Definition no_bytes (n : Z) : list Z := replicate (Z.to_nat n) 0.
Definition cleared_slots : list ie_slot := map (fun k => MkSlot (no_bytes (ie_size k)) None) ie_kinds.
Definition cleared_bss : BSSDescriptor_t :=
  MkBss (no_bytes 6) (no_bytes 32) 0 false 0 0 0 0 0 0 0 0 Wlan802_11FH MLAN_BSS_MODE_UNSET (no_bytes 14) (no_bytes 14)
    0 0 (no_bytes 8) (no_bytes 7) (no_bytes 8) (no_bytes 2) (no_bytes 26) false (no_bytes 254) 0 0 cleared_slots 0 0 false.

Definition slot (e : BSSDescriptor_t) (k : ie_kind) : ie_slot := nth (ie_index k) (slots e) (MkSlot [] None).
Definition set_slot (k : ie_kind) (s : ie_slot) (e : BSSDescriptor_t) : BSSDescriptor_t := set_slots (<[ie_index k := s]> (slots e)) e.
