(* ===== verification/ScanParse.v ===== *)
(** * Parsing of beacons and probe responses

    [wlan_interpret_bss_desc_with_ie] of [mlan_scan.c]: one record of a scan
    response is a 16-bit length and a beacon, which is an address, for the
    legacy scan a signal strength, twelve bytes of fixed fields and information
    elements. The response is a buffer in memory, and the parser's pointers are
    offsets in it. *)
From stdpp Require Import list.
From S2P Require Import Prelude Cfp ScanData.
Open Scope Z_scope.

Definition same_bytes (a b : list Z) : bool := bool_decide (a = b).

(** ** The network keys that need a server *)
Definition wpa2_akmp_oui : list Z := [0; 15; 172; 1].
(** [check_for_wpa2_entp_ie]: the element is at offset [p] of [buff]. *)
Definition check_for_wpa2_entp_ie (exist : bool) (buff : list Z) (p element_len : Z) : outcome bool :=
  len ← mem_read_le16 buff p;
  if len * 4 >=? element_len then Ret exist
  else
    wpa2_ent_IE ← mem_read buff (p + len * 4 + 2 * 2) 4;
    Ret (if same_bytes wpa2_ent_IE wpa2_akmp_oui then true else exist).
Definition wifi_check_bss_entry_wpa2_entp_only (e : BSSDescriptor_t) (id : IEEEtypes_ElementId_e) : outcome BSSDescriptor_t :=
  match id with
  | RSN_IE =>
      x ← check_for_wpa2_entp_ie (wpa2_entp_IE_exist e) (saved (slot e RsnIe)) 8 (u32 (rsn_ie_buff_len e - 10));
      Ret (set_wpa2_entp_IE_exist x e)
  | _ => Ret e
  end.

(** ** The elements *)

(** The variables of the loop: the descriptor, the number of rates stored and
    whether there were any. *)
Record ie_state := MkIe { bss : BSSDescriptor_t; rate_size : Z; found_data_rate_ie : bool }.
Definition set_bss (e : BSSDescriptor_t) (s : ie_state) : ie_state := MkIe e (rate_size s) (found_data_rate_ie s).
(** What an element makes of the loop: on with the next, to its end, or out of
    the function with a failure. *)
Inductive ie_result := NextIe (s : ie_state) | StopIe (s : ie_state) | FailIe (s : ie_state).

(** A parameter set of [size] bytes: as much of the element as fits, and its
    length. *)
Definition copy_param_set (m : list Z) (p element_len size : Z) (dst : list Z) : outcome (list Z) :=
  bs ← mem_read m p (Z.min (element_len + 2) size);
  dst ← mem_write dst 0 bs;
  arr_set dst 1 (Z.min element_len (size - 2)).
(** A copy of the size of its structure. *)
Definition save_ie (k : ie_kind) (m : list Z) (p : Z) (e : BSSDescriptor_t) : outcome BSSDescriptor_t :=
  bs ← mem_read m p (ie_size k); Ret (set_slot k (MkSlot bs (Some NewEntry)) e).
(** A copy of the whole element, when it fits. *)
Definition save_security_ie (k : ie_kind) (m : list Z) (p element_len : Z) (e : BSSDescriptor_t) : outcome BSSDescriptor_t :=
  bs ← mem_read m p (element_len + 2);
  b ← mem_write (saved (slot e k)) 0 bs;
  Ret (set_slot k (MkSlot b (Some NewEntry)) e).

Definition ssid_ie (m : list Z) (p element_len : Z) (s : ie_state) : outcome ie_result :=
  if element_len >? MLAN_MAX_SSID_LENGTH then Ret (StopIe s)
  else
    bs ← mem_read m (p + 2) element_len;
    b ← mem_write (ssid (bss s)) 0 bs;
    Ret (NextIe (set_bss (set_ssid b (set_ssid_len element_len (bss s))) s)).
(** Into both arrays of rates, from position [pos]. *)
Definition copy_rates (m : list Z) (p n pos : Z) (e : BSSDescriptor_t) : outcome BSSDescriptor_t :=
  bs ← mem_read m (p + 2) n;
  d ← mem_write (data_rates e) pos bs;
  r ← mem_write (supported_rates e) pos bs;
  Ret (set_data_rates d (set_supported_rates r e)).
Definition supported_rates_ie (m : list Z) (p element_len : Z) (s : ie_state) : outcome ie_result :=
  if element_len >? WLAN_SUPPORTED_RATES then Ret (StopIe s)
  else e ← copy_rates m p element_len 0 (bss s); Ret (NextIe (MkIe e element_len true)).
Definition extended_rates_ie (m : list Z) (p element_len : Z) (s : ie_state) : outcome ie_result :=
  if found_data_rate_ie s then
    let bytes_to_copy := if element_len + rate_size s >? WLAN_SUPPORTED_RATES then WLAN_SUPPORTED_RATES - rate_size s else element_len in
    e ← copy_rates m p bytes_to_copy (rate_size s) (bss s); Ret (NextIe (set_bss e s))
  else Ret (NextIe s).
Definition country_ie (m : list Z) (p element_len : Z) (s : ie_state) : outcome ie_result :=
  if (element_len <? COUNTRY_CODE_LEN) || (element_len + 2 >? sizeof_CountryInfoFullSet) then Ret (FailIe s)
  else
    bs ← mem_read m p (element_len + 2);
    b ← mem_write (country_info (bss s)) 0 bs;
    Ret (NextIe (set_bss (set_country_info b (bss s)) s)).
Definition wpa_oui : list Z := [0; 80; 242].
Definition wpa_type : Z := 1.
Definition wmm_oui : list Z := [0; 80; 242].
Definition wmm_type : Z := 2.
Definition sizeof_WmmParameter : Z := 26.
Definition sizeof_WmmInfo : Z := 9.
Definition vendor_ie (m : list Z) (p element_len : Z) (s : ie_state) : outcome ie_result :=
  oui ← mem_read m (p + 2) 3;
  oui_type ← (if same_bytes oui wpa_oui then arr_get m (p + 5) else Ret 0);
  if same_bytes oui wpa_oui && (oui_type =? wpa_type) then
    if element_len <=? MLAN_WMSDK_MAX_WPA_IE_LEN - 2 then
      e ← save_security_ie WpaIe m p element_len (bss s);
      e ← wifi_check_bss_entry_wpa2_entp_only (set_wpa_ie_buff_len (element_len + 2) e) VENDOR_SPECIFIC_221;
      Ret (NextIe (set_bss e s))
    else Ret (NextIe s)
  else if same_bytes oui wmm_oui && (oui_type =? wmm_type) then
    if (element_len + 2 =? sizeof_WmmParameter) || (element_len + 2 =? sizeof_WmmInfo) then
      bs ← mem_read m p (element_len + 2);
      b ← mem_write (wmm_ie (bss s)) 0 bs;
      Ret (NextIe (set_bss (set_wmm_ie b (bss s)) s))
    else Ret (NextIe s)
  else Ret (NextIe s).
Definition rsn_ie (m : list Z) (p element_len : Z) (s : ie_state) : outcome ie_result :=
  if element_len <=? MLAN_WMSDK_MAX_WPA_IE_LEN - 2 then
    e ← save_security_ie RsnIe m p element_len (bss s);
    e ← wifi_check_bss_entry_wpa2_entp_only (set_rsn_ie_buff_len (element_len + 2) e) RSN_IE;
    Ret (NextIe (set_bss e s))
  else Ret (NextIe s).

(** The [switch] on the element at [p]. *)
Definition process_ie (id : IEEEtypes_ElementId_e) (m : list Z) (p element_len : Z) (s : ie_state) : outcome ie_result :=
  let e := bss s in
  let save k := (e' ← save_ie k m p e; Ret (NextIe (set_bss e' s))) in
  match id with
  | SSID => ssid_ie m p element_len s
  | SUPPORTED_RATES => supported_rates_ie m p element_len s
  | FH_PARAM_SET =>
      b ← copy_param_set m p element_len 7 (phy_param_set e);
      Ret (NextIe (set_bss (set_phy_param_set b (set_network_type_use Wlan802_11FH e)) s))
  | DS_PARAM_SET =>
      current_chan ← arr_get m (p + 2);
      b ← copy_param_set m p element_len 3 (phy_param_set e);
      Ret (NextIe (set_bss (set_phy_param_set b (set_channel current_chan (set_network_type_use Wlan802_11DS e))) s))
  | CF_PARAM_SET =>
      b ← copy_param_set m p element_len 8 (ss_param_set e); Ret (NextIe (set_bss (set_ss_param_set b e) s))
  | DTIM_PARAM_SET => x ← arr_get m (p + 3); Ret (NextIe (set_bss (set_dtim_period x e) s))
  | IBSS_PARAM_SET =>
      x ← mem_read_le16 m (p + 2);
      b ← copy_param_set m p element_len 4 (ss_param_set e);
      Ret (NextIe (set_bss (set_ss_param_set b (set_atim_window x e)) s))
  | COUNTRY_INFO => country_ie m p element_len s
  | EXTENDED_SUPPORTED_RATES => extended_rates_ie m p element_len s
  | VENDOR_SPECIFIC_221 => vendor_ie m p element_len s
  | RSN_IE => rsn_ie m p element_len s
  | HT_CAPABILITY => save HtCap
  | HT_OPERATION => save HtInfo
  | BSSCO_2040 => save BssCo2040
  | VHT_CAPABILITY => save VhtCap
  | VHT_OPERATION => save VhtOprat
  | VHT_TX_POWER_ENV => save VhtTxPower
  | OPER_MODE_NTF => save OperMode
  | EXT_CAPABILITY => save ExtCap
  | RSNX_IE => save RsnxIe
  end.

(** The loop over the elements from [p] on. *)
Fixpoint ie_loop (fuel : nat) (m : list Z) (p bytes_left : Z) (s : ie_state) : outcome (mlan_status * BSSDescriptor_t) :=
  match fuel with
  | O => Fault OutOfFuel
  | S fuel' =>
      if bytes_left <? 2 then
        e ← wifi_check_bss_entry_wpa2_entp_only (bss s) SSID; Ret (MLAN_STATUS_SUCCESS, e)
      else
        id ← arr_get m p;
        element_len ← arr_get m (p + 1);
        if bytes_left <? element_len + 2 then ie_loop fuel' m p 0 s
        else
          r ← match element_of id with Some e => process_ie e m p element_len s | None => Ret (NextIe s) end;
          match r with
          | NextIe s' => ie_loop fuel' m (p + element_len + 2) (bytes_left - (element_len + 2)) s'
          | StopIe s' => ie_loop fuel' m p 0 s'
          | FailIe s' => Ret (MLAN_STATUS_FAILURE, bss s')
          end
  end.
Definition ie_fuel (bytes_left : Z) : nat := S (S (Z.to_nat bytes_left)).

(** ** The record *)
Definition bit (n : Z) (bs : list Z) : bool := Z.testbit (of_le16 bs) n.

(** The fixed fields at [p], with [bytes_left] bytes from there on. *)
Definition fixed_fields (m : list Z) (ext_scan : bool) (p bytes_left : Z) (e : BSSDescriptor_t) : outcome (BSSDescriptor_t * Z * Z) :=
  mac ← mem_read m p MLAN_MAC_ADDR_LENGTH;
  let p := p + MLAN_MAC_ADDR_LENGTH in let bytes_left := bytes_left - MLAN_MAC_ADDR_LENGTH in
  r ← (if ext_scan then Ret None else x ← arr_get m p; Ret (Some x));
  let p := if ext_scan then p else p + 1 in let bytes_left := if ext_scan then bytes_left else bytes_left - 1 in
  let e := set_mac_address mac e in
  let e := match r with Some x => set_rssi x e | None => e end in
  let e := set_beacon_buf_size bytes_left (set_pbeacon_buf p e) in
  time_stamp ← mem_read m p 8;
  beacon_interval ← mem_read_le16 m (p + 8);
  capabilities ← mem_read m (p + 10) 2;
  let e := set_cap_info capabilities (set_beacon_period beacon_interval (set_time_stamp time_stamp e)) in
  let e := set_privacy (bit 4 capabilities) e in
  let e := set_bss_mode (if bit 1 capabilities then MLAN_BSS_MODE_IBSS else MLAN_BSS_MODE_INFRA) e in
  Ret (e, p + 12, bytes_left - 12).

(** The status, the descriptor, and the position and number of the bytes after
    the record. *)
Definition wlan_interpret_bss_desc_with_ie (m : list Z) (ext_scan : bool) (pbeacon_info bytes_left : Z) (e : BSSDescriptor_t) :
    outcome (mlan_status * BSSDescriptor_t * Z * Z) :=
  beacon_size ← (if bytes_left >=? 2 then mem_read_le16 m pbeacon_info else Ret 0);
  let (pbeacon_info, bytes_left) := if bytes_left >=? 2 then (pbeacon_info + 2, bytes_left - 2) else (pbeacon_info, bytes_left) in
  if (beacon_size =? 0) || (beacon_size >? bytes_left) then Ret (MLAN_STATUS_FAILURE, e, pbeacon_info + bytes_left, 0)
  else
    let next := pbeacon_info + beacon_size in
    let left := bytes_left - beacon_size in
    if beacon_size <? MLAN_MAC_ADDR_LENGTH + 1 + sizeof_FIXED_IEs then Ret (MLAN_STATUS_FAILURE, e, next, left)
    else
      '(e, p, n) ← fixed_fields m ext_scan pbeacon_info beacon_size e;
      '(status, e) ← ie_loop (ie_fuel n) m p n (MkIe e 0 false);
      Ret (status, e, next, left).
