(* ===== verification/ScanParseProps.v ===== *)
(** * The parser of beacons: lemmas

    A record as a list of elements: what the parser does of each depends on the
    element alone when it is complete, and stays in bounds in any case when
    there is memory after it. *)
From stdpp Require Import list.
From S2P Require Import Prelude Cfp ScanData ScanParse.
Open Scope Z_scope.

(** ** Descriptors *)
Record bss_ok (e : BSSDescriptor_t) : Prop := MkBssOk {
  ok_mac : length (mac_address e) = 6%nat;
  ok_ssid : length (ssid e) = 32%nat;
  ok_ssid_len : 0 <= ssid_len e <= 32;
  ok_supported_rates : length (supported_rates e) = 14%nat;
  ok_data_rates : length (data_rates e) = 14%nat;
  ok_phy : length (phy_param_set e) = 7%nat;
  ok_ss : length (ss_param_set e) = 8%nat;
  ok_wmm : length (wmm_ie e) = 26%nat;
  ok_country : length (country_info e) = 254%nat;
  ok_slots : map (fun s => Z.of_nat (length (saved s))) (slots e) = map ie_size ie_kinds
}.
Definition state_ok (s : ie_state) : Prop := bss_ok (bss s) /\ 0 <= rate_size s <= 14.
Ltac bss_same H :=
  let a := fresh in let b := fresh in let c := fresh in let d := fresh in let e := fresh in
  let f := fresh in let g := fresh in let h := fresh in let i := fresh in let j := fresh in
  destruct H as [a b c d e f g h i j]; constructor;
  [try exact a | try exact b | try exact c | try exact d | try exact e | try exact f | try exact g | try exact h | try exact i | try exact j];
  try assumption.

Lemma cleared_ok : bss_ok cleared_bss.
Proof. by constructor. Qed.

Lemma slots_length e : bss_ok e -> length (slots e) = 11%nat.
Proof. intros H. rewrite <- (length_map (fun s => Z.of_nat (length (saved s)))), (ok_slots _ H). done. Qed.
Lemma slot_saved e k : bss_ok e -> Z.of_nat (length (saved (slot e k))) = ie_size k.
Proof.
  intros H. unfold slot. rewrite <- (map_nth (fun s => Z.of_nat (length (saved s))) (slots e) (MkSlot [] None)), (ok_slots _ H).
  by destruct k.
Qed.
Lemma set_slot_ok k s e : bss_ok e -> Z.of_nat (length (saved s)) = ie_size k -> bss_ok (set_slot k s e).
Proof.
  intros H Hs. pose proof (slots_length e H) as Hl. pose proof (ok_slots e H) as Hsl. bss_same H.
  clear - Hl Hsl Hs. change (slots (set_slot k s e)) with (<[ie_index k := s]> (slots e)). revert Hl Hsl. generalize (slots e).
  intros l Hl Hsl. destruct l as [| ? [| ? [| ? [| ? [| ? [| ? [| ? [| ? [| ? [| ? [| ? []]]]]]]]]]]]; try done.
  cbn in Hsl. injection Hsl. intros. destruct k; cbn in *; congruence.
Qed.

(** ** Reads and writes in bounds *)
Lemma bytes_check l : forallb (fun b => (0 <=? b) && (b <? 256)) l = true -> bytes l.
Proof.
  intros H. apply list.Forall_forall. intros b Hb. rewrite forallb_forall in H. apply list_elem_of_In in Hb.
  apply H, andb_true_iff in Hb as [?%Z.leb_le ?%Z.ltb_lt]. done.
Qed.
(** The next read or write of the goal succeeds. *)
Ltac reads_next :=
  match goal with
  | |- context [mem_read ?m ?p ?n ≫= _] =>
      let bs := fresh "bs" in let E := fresh "E" in let L := fresh "L" in
      destruct (mem_read_fits m p n) as (bs & E & L); [lia.. |]; rewrite E, bind_ret
  | |- context [mem_write ?m ?p ?bs ≫= _] =>
      let b := fresh "b" in let E := fresh "E" in let L := fresh "L" in
      destruct (mem_write_total m bs p) as (b & E & L); [lia.. |]; rewrite E, bind_ret
  end.
Definition result_state (r : ie_result) : ie_state := match r with NextIe s | StopIe s | FailIe s => s end.
Definition result_ok (r : ie_result) : Prop := state_ok (result_state r).
Lemma next_ok e s : bss_ok e -> state_ok s -> result_ok (NextIe (set_bss e s)).
Proof. by intros He [_ Hs]. Qed.

Lemma copy_param_set_total m p el size dst : 0 <= p -> 0 <= el -> p + (el + 2) <= Z.of_nat (length m) -> 2 <= size -> size <= Z.of_nat (length dst) ->
  exists b, copy_param_set m p el size dst = Ret b /\ length b = length dst.
Proof.
  intros. unfold copy_param_set. reads_next. reads_next. rewrite arr_set_ret by lia. eexists. split; [done |]. by rewrite length_insert.
Qed.
Lemma copy_rates_total m p n pos e : bss_ok e -> 0 <= p -> 0 <= n -> p + 2 + n <= Z.of_nat (length m) -> 0 <= pos -> pos + n <= 14 ->
  exists e', copy_rates m p n pos e = Ret e' /\ bss_ok e'.
Proof.
  intros H. intros. pose proof (ok_data_rates e H). pose proof (ok_supported_rates e H). unfold copy_rates. reads_next. reads_next. reads_next.
  eexists. split; [done |]. bss_same H; by etransitivity.
Qed.
Lemma save_ie_total k m p e : bss_ok e -> 0 <= p -> p + ie_size k <= Z.of_nat (length m) ->
  exists e', save_ie k m p e = Ret e' /\ bss_ok e'.
Proof.
  intros H. intros. assert (0 <= ie_size k) by (by destruct k). unfold save_ie. reads_next. eexists. split; [done |]. by apply set_slot_ok.
Qed.
Lemma save_security_ie_total k m p el e : bss_ok e -> 0 <= p -> 0 <= el -> p + (el + 2) <= Z.of_nat (length m) -> el + 2 <= ie_size k ->
  exists b, save_security_ie k m p el e = Ret (set_slot k (MkSlot b (Some NewEntry)) e) /\ Z.of_nat (length b) = ie_size k /\
    exists bs, mem_read m p (el + 2) = Ret bs /\ mem_write (saved (slot e k)) 0 bs = Ret b.
Proof.
  intros H. intros. pose proof (slot_saved e k H) as Hs. unfold save_security_ie. reads_next. reads_next. eexists. split; [done |].
  split; [by rewrite L0 |]. by exists bs.
Qed.
(** Part of what was copied from [p] to the start of a buffer. *)
Lemma read_copied {A} (m old b bs : list A) p n q k : mem_read m p n = Ret bs -> mem_write old 0 bs = Ret b ->
  0 <= q -> 0 <= k -> q + k <= n -> mem_read b q k = mem_read m (p + q) k.
Proof.
  intros Hr Hw Hq Hk Hn. pose proof (mem_read_len _ _ _ _ Hr) as Hl. unfold mem_write in Hw.
  destruct (Z.leb_spec 0 0); [| lia]. destruct (Z.leb_spec (0 + Z.of_nat (length bs)) (Z.of_nat (length old))) as [Hle |]; [| done].
  cbn [andb] in Hw. injection Hw as <-. unfold mem_read in Hr.
  destruct (Z.leb_spec 0 p), (Z.leb_spec 0 n), (Z.leb_spec (p + n) (Z.of_nat (length m))); try done. cbn [andb] in Hr. injection Hr as <-.
  unfold mem_read. cbn [Z.to_nat take app]. rewrite length_app, length_drop, length_take, length_drop.
  rewrite !(proj2 (Z.leb_le _ _)) by lia. cbn [andb]. f_equal.
  rewrite drop_app_le by (rewrite length_take, length_drop; lia). rewrite take_app_le by (rewrite length_drop, length_take, length_drop; lia).
  rewrite skipn_firstn_comm, drop_drop, take_take. f_equal; [lia |]. f_equal. lia.
Qed.

(** ** Key management elements

    An element that is checked within its copy: it has a count of pairwise
    ciphers, and the bytes after them are in the copy when they are looked at. *)
Definition rsn_sane (m : list Z) (p el : Z) : Prop :=
  el <= 62 -> 8 <= el /\ exists c, mem_read_le16 m (p + 8) = Ret c /\ (el - 8 <= 4 * c \/ 4 * c <= 48).
Lemma check_total x b n c : mem_read_le16 b 8 = Ret c -> 0 <= c -> Z.of_nat (length b) = 64 -> n <= 4 * c \/ 4 * c <= 48 ->
  exists y, check_for_wpa2_entp_ie x b 8 n = Ret y.
Proof.
  intros Ec H0 Hl Hc. unfold check_for_wpa2_entp_ie. rewrite Ec, bind_ret. rewrite Z.geb_leb. destruct (Z.leb_spec n (c * 4)); [by eexists |].
  reads_next. by eexists.
Qed.
Lemma rsn_ie_total m p el s : bytes m -> state_ok s -> 0 <= p -> 0 <= el -> p + (el + 2) <= Z.of_nat (length m) -> rsn_sane m p el ->
  exists r, rsn_ie m p el s = Ret r /\ result_ok r.
Proof.
  intros Hm [He Hs] Hp Hel Hl Hsane. unfold rsn_ie. change (MLAN_WMSDK_MAX_WPA_IE_LEN - 2) with 62.
  destruct (Z.leb_spec el 62); [| by eexists]. destruct (Hsane ltac:(lia)) as (H8 & c & Ec & Hc).
  destruct (save_security_ie_total RsnIe m p el (bss s)) as (b & E & Hb & bs & Er & Ew); [done | lia | lia | lia | cbn; unfold MLAN_WMSDK_MAX_WPA_IE_LEN; lia |].
  rewrite E, bind_ret. unfold wifi_check_bss_entry_wpa2_entp_only.
  set (e := set_rsn_ie_buff_len (el + 2) (set_slot RsnIe (MkSlot b (Some NewEntry)) (bss s))).
  assert (He1 : bss_ok (set_slot RsnIe (MkSlot b (Some NewEntry)) (bss s))) by (by apply set_slot_ok).
  assert (Hse : saved (slot e RsnIe) = b).
  { unfold slot. change (slots e) with (<[9%nat := MkSlot b (Some NewEntry)]> (slots (bss s))). cbn [ie_index].
    rewrite nth_lookup, list_lookup_insert_eq; [done |]. rewrite slots_length by done. lia. }
  rewrite Hse. change (rsn_ie_buff_len e) with (el + 2). rewrite wrap_small by lia.
  assert (Ecb : mem_read_le16 b 8 = Ret c).
  { rewrite <- Ec. unfold mem_read_le16. by rewrite (read_copied m (saved (slot (bss s) RsnIe)) b bs p (el + 2) 8 2) by (done || lia). }
  assert (0 <= c).
  { destruct (mem_read_le16_total m (p + 8) Hm) as (x & Ex & Hx); [lia.. |]. rewrite Ec in Ex. injection Ex as ->. lia. }
  destruct (check_total (wpa2_entp_IE_exist e) b (el + 2 - 10) c) as (y & Ey); [done | done | done | lia |].
  rewrite Ey, bind_ret. eexists. split; [done |]. apply next_ok; [| done]. subst e. bss_same He1.
Qed.
Lemma vendor_ie_total m p el s : state_ok s -> 0 <= p -> 0 <= el -> p + (el + 2) <= Z.of_nat (length m) -> p + 6 <= Z.of_nat (length m) ->
  exists r, vendor_ie m p el s = Ret r /\ result_ok r.
Proof.
  intros [He Hs] Hp Hel Hl Hl6. unfold vendor_ie. reads_next.
  assert (exists t, (if same_bytes bs wpa_oui then arr_get m (p + 5) else Ret 0) = Ret t) as [t Et].
  { destruct (same_bytes bs wpa_oui); [| by eexists]. destruct (arr_get_total m (p + 5)) as (t & Et & _); [lia | by exists t]. }
  rewrite Et, bind_ret. change (MLAN_WMSDK_MAX_WPA_IE_LEN - 2) with 62. unfold sizeof_WmmParameter, sizeof_WmmInfo. destruct (_ && _).
  - destruct (Z.leb_spec el 62); [| by eexists].
    destruct (save_security_ie_total WpaIe m p el (bss s)) as (b & Es & Hb & _); [done | lia | lia | lia | cbn; unfold MLAN_WMSDK_MAX_WPA_IE_LEN; lia |].
    rewrite Es, bind_ret. cbn [wifi_check_bss_entry_wpa2_entp_only]. rewrite bind_ret. eexists. split; [done |]. apply next_ok; [| done].
    pose proof (set_slot_ok WpaIe (MkSlot b (Some NewEntry)) (bss s) He Hb) as H1. bss_same H1.
  - destruct (_ && _); [| by eexists]. destruct ((el + 2 =? 26) || (el + 2 =? 9)) eqn:Esz; [| by eexists].
    pose proof (ok_wmm _ He). apply orb_true_iff in Esz. rewrite !Z.eqb_eq in Esz. reads_next. reads_next.
    eexists. split; [done |]. apply next_ok; [| done]. bss_same He. by etransitivity.
Qed.
Lemma process_ie_total id m p el s : bytes m -> state_ok s -> 0 <= p -> 0 <= el -> p + (el + 2) <= Z.of_nat (length m) ->
  p + 28 <= Z.of_nat (length m) -> (id = RSN_IE -> rsn_sane m p el) -> exists r, process_ie id m p el s = Ret r /\ result_ok r.
Proof.
  intros Hm Hs Hp Hel Hl H28 Hrsn. pose proof Hs as [He Hsz].
  assert (Hsave : forall k, ie_size k <= 28 ->
    exists r, (e' ← save_ie k m p (bss s); Ret (NextIe (set_bss e' s))) = Ret r /\ result_ok r).
  { intros k Hk. destruct (save_ie_total k m p (bss s)) as (e' & E & He'); [done | done | lia |]. rewrite E, bind_ret. eexists. split; [done |]. by apply next_ok. }
  destruct id; cbn [process_ie]; try (apply Hsave; cbn; lia).
  - unfold ssid_ie, MLAN_MAX_SSID_LENGTH. rewrite Z.gtb_ltb. destruct (Z.ltb_spec 32 el); [by eexists |]. pose proof (ok_ssid _ He). reads_next. reads_next.
    eexists. split; [done |]. apply next_ok; [| done]. bss_same He; [by etransitivity | cbn; lia].
  - unfold supported_rates_ie, WLAN_SUPPORTED_RATES. rewrite Z.gtb_ltb. destruct (Z.ltb_spec 14 el); [by eexists |].
    destruct (copy_rates_total m p el 0 (bss s)) as (e' & E & He'); [done | lia.. |]. rewrite E, bind_ret. eexists. split; [done |].
    split; [done | cbn; lia].
  - pose proof (ok_phy _ He). destruct (copy_param_set_total m p el 7 (phy_param_set (bss s))) as (b & E & Hb); [lia.. |].
    rewrite E, bind_ret. eexists. split; [done |]. apply next_ok; [| done]. bss_same He. by etransitivity.
  - pose proof (ok_phy _ He). destruct (arr_get_total m (p + 2)) as (x & Ex & _); [lia |]. rewrite Ex, bind_ret.
    destruct (copy_param_set_total m p el 3 (phy_param_set (bss s))) as (b & E & Hb); [lia.. |].
    rewrite E, bind_ret. eexists. split; [done |]. apply next_ok; [| done]. bss_same He. by etransitivity.
  - pose proof (ok_ss _ He). destruct (copy_param_set_total m p el 8 (ss_param_set (bss s))) as (b & E & Hb); [lia.. |].
    rewrite E, bind_ret. eexists. split; [done |]. apply next_ok; [| done]. bss_same He. by etransitivity.
  - destruct (arr_get_total m (p + 3)) as (x & Ex & _); [lia |]. rewrite Ex, bind_ret. eexists. split; [done |]. apply next_ok; [| done]. bss_same He.
  - pose proof (ok_ss _ He). destruct (mem_read_le16_total m (p + 2) Hm) as (x & Ex & _); [lia.. |]. rewrite Ex, bind_ret.
    destruct (copy_param_set_total m p el 4 (ss_param_set (bss s))) as (b & E & Hb); [lia.. |].
    rewrite E, bind_ret. eexists. split; [done |]. apply next_ok; [| done]. bss_same He. by etransitivity.
  - unfold country_ie, COUNTRY_CODE_LEN, sizeof_CountryInfoFullSet. rewrite Z.gtb_ltb.
    destruct (Z.ltb_spec el 3), (Z.ltb_spec 254 (el + 2)); cbn [orb]; try by eexists. pose proof (ok_country _ He). reads_next. reads_next.
    eexists. split; [done |]. apply next_ok; [| done]. bss_same He. by etransitivity.
  - unfold extended_rates_ie, WLAN_SUPPORTED_RATES. destruct (found_data_rate_ie s); [| by eexists].
    set (n := if el + rate_size s >? 14 then 14 - rate_size s else el).
    assert (0 <= n /\ n <= el /\ rate_size s + n <= 14) as (? & ? & ?) by (subst n; rewrite Z.gtb_ltb; destruct (Z.ltb_spec 14 (el + rate_size s)); lia).
    destruct (copy_rates_total m p n (rate_size s) (bss s)) as (e' & E & He'); [done | lia.. |]. rewrite E, bind_ret. eexists. split; [done |].
    by apply next_ok.
  - apply vendor_ie_total; [done | lia..].
  - apply rsn_ie_total; [done | done | lia.. | by apply Hrsn].
Qed.

(** ** Elements *)
Definition element : Type := Z * list Z.
Definition encode_element (x : element) : list Z := x.1 :: Z.of_nat (length x.2) :: x.2.
Definition encode (l : list element) : list Z := concat (map encode_element l).
Definition valid_element (x : element) : Prop := is_byte x.1 /\ bytes x.2 /\ (length x.2 <= 255)%nat.
(** What is left after the last whole element. *)
Definition truncated (junk : list Z) : Prop :=
  match junk with id :: len :: rest => Z.of_nat (length rest) < len | _ => True end.
Lemma decompose bs : bytes bs -> exists l junk, bs = encode l ++ junk /\ Forall valid_element l /\ truncated junk.
Proof.
  remember (length bs) as n eqn:En. revert bs En. induction n as [n IH] using (well_founded_induction lt_wf). intros bs -> Hb.
  destruct bs as [| id [| len rest]]; [by exists [], [] | by exists [], [id] |].
  apply list.Forall_cons in Hb as [Hid Hb]. apply list.Forall_cons in Hb as [Hlen Hb]. destruct (Z.ltb_spec (Z.of_nat (length rest)) len).
  - by exists [], (id :: len :: rest).
  - destruct (IH (length (drop (Z.to_nat len) rest))) with (bs := drop (Z.to_nat len) rest) as (l & junk & E & Hl & Hj);
      [rewrite length_drop; cbn; lia | done | by apply Forall_drop |].
    exists ((id, take (Z.to_nat len) rest) :: l), junk. unfold is_byte in *. split; [| split; [| done]].
    + cbn. rewrite length_take_le by lia. rewrite Z2Nat.id by lia. f_equal. f_equal. fold (encode l). rewrite <- app_assoc, <- E.
      by rewrite take_drop.
    + constructor; [| done]. split; [done |]. split; [by apply Forall_take |]. cbn [snd]. rewrite length_take_le; lia.
Qed.
Definition rsn_element_sane (x : element) : Prop :=
  x.1 = element_number RSN_IE -> (length x.2 <= 62)%nat ->
  (8 <= length x.2)%nat /\ forall c, mem_read_le16 x.2 6 = Ret c -> Z.of_nat (length x.2) - 8 <= 4 * c \/ 4 * c <= 48.

Lemma mem_read_in {A} (pre m post : list A) p q n : p = Z.of_nat (length pre) + q -> 0 <= q -> 0 <= n -> q + n <= Z.of_nat (length m) ->
  mem_read (pre ++ m ++ post) p n = mem_read m q n.
Proof.
  intros -> Hq Hn Hl. unfold mem_read. rewrite !length_app, !(proj2 (Z.leb_le _ _)) by lia. cbn [andb]. f_equal.
  rewrite drop_app_ge by lia. rewrite drop_app_le by lia. rewrite take_app_le by (rewrite length_drop; lia). do 2 f_equal. lia.
Qed.
Lemma arr_get_in {A} (pre m post : list A) p q : p = Z.of_nat (length pre) + q -> 0 <= q < Z.of_nat (length m) ->
  arr_get (pre ++ m ++ post) p = arr_get m q.
Proof.
  intros -> Hq. unfold arr_get. rewrite !(proj2 (Z.ltb_ge _ _)) by lia. rewrite lookup_app_r by lia. rewrite lookup_app_l by lia.
  by replace (Z.to_nat (Z.of_nat (length pre) + q) - length pre)%nat with (Z.to_nat q) by lia.
Qed.
Lemma element_of_rsn n : element_of n = Some RSN_IE -> n = element_number RSN_IE.
Proof. intros H. apply find_some in H as [_ H]. by apply Z.eqb_eq in H. Qed.
Lemma sane_in_memory pre x post : rsn_element_sane x -> bytes x.2 -> x.1 = element_number RSN_IE ->
  rsn_sane (pre ++ encode_element x ++ post) (Z.of_nat (length pre)) (Z.of_nat (length x.2)).
Proof.
  intros H Hb E Hl. destruct (H E ltac:(lia)) as [H8 Hc]. split; [lia |].
  destruct (mem_read_le16_total x.2 6 Hb) as (c & Ec & _); [lia.. |]. exists c. split; [| by apply Hc].
  rewrite <- Ec. unfold mem_read_le16. rewrite (mem_read_in pre (encode_element x) post _ 8); [| lia.. | cbn; lia].
  rewrite <- (mem_read_in [x.1; Z.of_nat (length x.2)] x.2 [] 8 6 2); [by rewrite app_nil_r | cbn; lia | lia.. ].
Qed.

(** ** The loop *)
Lemma encode_cons x l : encode (x :: l) = encode_element x ++ encode l.
Proof. done. Qed.
Lemma encode_element_length x : Z.of_nat (length (encode_element x)) = Z.of_nat (length x.2) + 2.
Proof. cbn. lia. Qed.
Lemma ie_loop_end fuel m p n s : n < 2 -> ie_loop (S fuel) m p n s = Ret (MLAN_STATUS_SUCCESS, bss s).
Proof. intros. cbn [ie_loop]. by rewrite (proj2 (Z.ltb_lt _ _)). Qed.
(** The step of the loop at an element. *)
Lemma ie_loop_element fuel pre x rest n s : Z.of_nat (length x.2) + 2 <= n ->
  ie_loop (S fuel) (pre ++ encode_element x ++ rest) (Z.of_nat (length pre)) n s =
  (r ← match element_of x.1 with
       | Some e => process_ie e (pre ++ encode_element x ++ rest) (Z.of_nat (length pre)) (Z.of_nat (length x.2)) s
       | None => Ret (NextIe s) end;
   match r with
   | NextIe s' => ie_loop fuel (pre ++ encode_element x ++ rest) (Z.of_nat (length (pre ++ encode_element x))) (n - (Z.of_nat (length x.2) + 2)) s'
   | StopIe s' => ie_loop fuel (pre ++ encode_element x ++ rest) (Z.of_nat (length pre)) 0 s'
   | FailIe s' => Ret (MLAN_STATUS_FAILURE, bss s')
   end).
Proof.
  intros Hn. pose proof (encode_element_length x). cbn [ie_loop]. rewrite (proj2 (Z.ltb_ge _ _)) by lia.
  rewrite (arr_get_in pre (encode_element x) rest (Z.of_nat (length pre)) 0) by lia.
  rewrite (arr_get_in pre (encode_element x) rest (Z.of_nat (length pre) + 1) 1) by lia.
  change (arr_get (encode_element x) 0) with (Ret x.1). change (arr_get (encode_element x) 1) with (Ret (Z.of_nat (length x.2))).
  rewrite !bind_ret, (proj2 (Z.ltb_ge _ _)) by lia.
  replace (Z.of_nat (length (pre ++ encode_element x))) with (Z.of_nat (length pre) + Z.of_nat (length x.2) + 2); [done |].
  rewrite length_app. pose proof (encode_element_length x). lia.
Qed.
(** What is left of the record when no whole element is left ends the loop. *)
Lemma ie_loop_junk fuel pre junk post s : truncated junk ->
  ie_loop (S (S fuel)) (pre ++ junk ++ post) (Z.of_nat (length pre)) (Z.of_nat (length junk)) s = Ret (MLAN_STATUS_SUCCESS, bss s).
Proof.
  intros Hj. destruct junk as [| id [| len rest]]; try by apply ie_loop_end.
  remember (S fuel) as f. cbn [ie_loop]. rewrite (proj2 (Z.ltb_ge _ _)) by (cbn; lia).
  rewrite (arr_get_in pre (id :: len :: rest) post (Z.of_nat (length pre)) 0) by (cbn; lia).
  rewrite (arr_get_in pre (id :: len :: rest) post (Z.of_nat (length pre) + 1) 1) by (cbn; lia).
  change (arr_get (id :: len :: rest) 0) with (Ret id). change (arr_get (id :: len :: rest) 1) with (Ret len). rewrite !bind_ret.
  rewrite (proj2 (Z.ltb_lt _ _)) by (cbn in *; lia). subst f. by apply ie_loop_end.
Qed.

Lemma ie_loop_total post junk l : (28 <= length post)%nat -> truncated junk -> Forall valid_element l -> Forall rsn_element_sane l ->
  forall fuel pre s, bytes (pre ++ encode l ++ junk ++ post) -> state_ok s -> (length l + 2 <= fuel)%nat ->
  exists status e, ie_loop fuel (pre ++ (encode l ++ junk) ++ post) (Z.of_nat (length pre)) (Z.of_nat (length (encode l ++ junk))) s =
    Ret (status, e) /\ bss_ok e.
Proof.
  intros Hpost Hj Hv Hr. induction l as [| x l IH]; intros fuel pre s Hm Hs Hf.
  - destruct fuel as [| [| fuel]]; cbn [length] in Hf; [lia.. |]. cbn [encode map concat app]. rewrite ie_loop_junk by done.
    eexists _, _. split; [done |]. apply Hs.
  - apply list.Forall_cons in Hv as [(Hid & Hd & Hlen) Hv]. apply list.Forall_cons in Hr as [Hx Hr]. destruct fuel as [| fuel]; [simpl in Hf; lia |].
    rewrite encode_cons in *. rewrite <- !app_assoc in *. pose proof (encode_element_length x) as Hxl.
    rewrite ie_loop_element by (rewrite length_app; lia).
    assert (exists r, match element_of x.1 with Some e => process_ie e (pre ++ encode_element x ++ encode l ++ junk ++ post) (Z.of_nat (length pre)) (Z.of_nat (length x.2)) s
       | None => Ret (NextIe s) end = Ret r /\ result_ok r) as (r & E & Hok).
    { destruct (element_of x.1) as [id |] eqn:Eid; [| by exists (NextIe s)]. apply process_ie_total; try done; try lia.
      - rewrite !length_app. lia.
      - rewrite !length_app. lia.
      - intros ->. apply sane_in_memory; [done | done |]. by apply element_of_rsn. }
    rewrite E, bind_ret. destruct r as [s' | s' | s'].
    + destruct (IH Hv Hr fuel (pre ++ encode_element x) s') as (st & e & Ee & He); [by rewrite <- app_assoc | done | cbn in Hf; lia |].
      exists st, e. split; [| done]. rewrite <- Ee, <- !app_assoc. f_equal. rewrite !length_app. lia.
    + destruct fuel as [| fuel]; [simpl in Hf; lia |]. rewrite ie_loop_end by lia. eexists _, _. split; [done |]. apply Hok.
    + eexists _, _. split; [done |]. apply Hok.
Qed.

(** ** Complete elements *)

(** The bytes of data that the parser takes for granted. *)
Definition needed (id : IEEEtypes_ElementId_e) : Z :=
  match id with
  | DS_PARAM_SET => 1 | DTIM_PARAM_SET | IBSS_PARAM_SET => 2 | VENDOR_SPECIFIC_221 => 4
  | HT_CAPABILITY => ie_size HtCap - 2 | HT_OPERATION => ie_size HtInfo - 2 | BSSCO_2040 => ie_size BssCo2040 - 2
  | VHT_CAPABILITY => ie_size VhtCap - 2 | VHT_OPERATION => ie_size VhtOprat - 2 | VHT_TX_POWER_ENV => ie_size VhtTxPower - 2
  | OPER_MODE_NTF => ie_size OperMode - 2 | EXT_CAPABILITY => ie_size ExtCap - 2 | RSNX_IE => ie_size RsnxIe - 2
  | _ => 0
  end.
Definition complete (x : element) : Prop := forall id, element_of x.1 = Some id -> needed id <= Z.of_nat (length x.2).

Section Local.
Context (pre m post : list Z).
Lemma read_base n : 0 <= n <= Z.of_nat (length m) -> mem_read (pre ++ m ++ post) (Z.of_nat (length pre)) n = mem_read m 0 n.
Proof. intros. apply mem_read_in; lia. Qed.
Lemma read_shift q n : 0 <= q -> 0 <= n -> q + n <= Z.of_nat (length m) ->
  mem_read (pre ++ m ++ post) (Z.of_nat (length pre) + q) n = mem_read m (0 + q) n.
Proof. intros. apply mem_read_in; lia. Qed.
Lemma get_shift q : 0 <= q < Z.of_nat (length m) -> arr_get (pre ++ m ++ post) (Z.of_nat (length pre) + q) = arr_get m (0 + q).
Proof. intros. apply arr_get_in; lia. Qed.
End Local.

Lemma process_ie_local pre x post id s : needed id <= Z.of_nat (length x.2) -> state_ok s ->
  process_ie id (pre ++ encode_element x ++ post) (Z.of_nat (length pre)) (Z.of_nat (length x.2)) s =
  process_ie id (encode_element x) 0 (Z.of_nat (length x.2)) s.
Proof.
  intros Hn [_ Hs]. pose proof (encode_element_length x) as Hl. set (m := encode_element x) in *. set (el := Z.of_nat (length x.2)) in *.
  assert (0 <= el) by (subst el; lia).
  assert (Hsave : forall k, ie_size k - 2 <= el -> save_ie k (pre ++ m ++ post) (Z.of_nat (length pre)) (bss s) = save_ie k m 0 (bss s)).
  { intros k Hk. unfold save_ie. rewrite read_base; [done |]. assert (0 <= ie_size k) by (by destruct k). lia. }
  assert (Hsec : forall k, save_security_ie k (pre ++ m ++ post) (Z.of_nat (length pre)) el (bss s) = save_security_ie k m 0 el (bss s)).
  { intros k. unfold save_security_ie. rewrite read_base; [done | lia]. }
  assert (Hpar : forall size dst, 0 <= size -> copy_param_set (pre ++ m ++ post) (Z.of_nat (length pre)) el size dst = copy_param_set m 0 el size dst).
  { intros size dst Hsz. unfold copy_param_set. rewrite read_base; [done | lia]. }
  assert (Hrates : forall n pos, 0 <= n <= el -> copy_rates (pre ++ m ++ post) (Z.of_nat (length pre)) n pos (bss s) = copy_rates m 0 n pos (bss s)).
  { intros n pos ?. unfold copy_rates. rewrite read_shift; [done | lia..]. }
  destruct id; cbn [process_ie needed] in *; rewrite ?Hpar by lia; try (rewrite Hsave; [done | lia]); try done.
  - unfold ssid_ie. destruct (el >? MLAN_MAX_SSID_LENGTH); [done |]. rewrite read_shift by lia. done.
  - unfold supported_rates_ie. rewrite Hrates by lia. done.
  - by rewrite get_shift by lia.
  - rewrite get_shift by lia. done.
  - unfold mem_read_le16. by rewrite read_shift by lia.
  - unfold country_ie. destruct (_ || _); [done |]. by rewrite read_base by lia.
  - unfold extended_rates_ie, WLAN_SUPPORTED_RATES. destruct (found_data_rate_ie s); [| done]. rewrite Z.gtb_ltb. rewrite Hrates; [done |].
    destruct (Z.ltb_spec 14 (el + rate_size s)); lia.
  - unfold vendor_ie. rewrite read_shift, get_shift by lia. destruct (mem_read m (0 + 2) 3); [| done]. cbn [mbind outcome_bind].
    destruct (if same_bytes a wpa_oui then arr_get m (0 + 5) else Ret 0); [| done]. cbn [mbind outcome_bind]. rewrite Hsec, read_base by lia. done.
  - unfold rsn_ie. rewrite Hsec. done.
Qed.

(** The elements one after the other, each on its own. *)
Fixpoint run_elements (l : list element) (s : ie_state) : outcome (mlan_status * BSSDescriptor_t) :=
  match l with
  | [] => Ret (MLAN_STATUS_SUCCESS, bss s)
  | x :: l' =>
      r ← match element_of x.1 with
          | Some id => process_ie id (encode_element x) 0 (Z.of_nat (length x.2)) s
          | None => Ret (NextIe s)
          end;
      match r with
      | NextIe s' => run_elements l' s'
      | StopIe s' => Ret (MLAN_STATUS_SUCCESS, bss s')
      | FailIe s' => Ret (MLAN_STATUS_FAILURE, bss s')
      end
  end.
Lemma valid_bytes x : valid_element x -> bytes (encode_element x).
Proof. intros (H1 & H2 & H3). constructor; [done |]. constructor; [unfold is_byte; lia | done]. Qed.
Lemma process_element_ok x id s : valid_element x -> complete x -> rsn_element_sane x -> element_of x.1 = Some id -> state_ok s ->
  exists r, process_ie id (encode_element x) 0 (Z.of_nat (length x.2)) s = Ret r /\ result_ok r.
Proof.
  intros Hv Hc Hr Hid Hs. pose proof (encode_element_length x).
  destruct (process_ie_total id (encode_element x ++ replicate 28 0) 0 (Z.of_nat (length x.2)) s) as (r & E & Hok); [| done | lia | lia | | | |].
  - apply list.Forall_app. split; [by apply valid_bytes |]. by apply Forall_replicate.
  - rewrite length_app. lia.
  - rewrite length_app, length_replicate. lia.
  - intros ->. apply (sane_in_memory [] x (replicate 28 0)); [done | apply Hv |]. by apply element_of_rsn.
  - exists r. split; [| done]. rewrite <- E. symmetry. apply (process_ie_local [] x (replicate 28 0)); [by apply Hc | done].
Qed.
Lemma ie_loop_run post junk l : truncated junk -> Forall valid_element l -> Forall complete l -> Forall rsn_element_sane l ->
  forall fuel pre s, state_ok s -> (length l + 2 <= fuel)%nat ->
  ie_loop fuel (pre ++ (encode l ++ junk) ++ post) (Z.of_nat (length pre)) (Z.of_nat (length (encode l ++ junk))) s = run_elements l s.
Proof.
  intros Hj. induction l as [| x l IH]; intros Hv Hc Hr fuel pre s Hs Hf.
  - destruct fuel as [| [| fuel]]; cbn [length] in Hf; [lia.. |]. by apply ie_loop_junk.
  - apply list.Forall_cons in Hv as [Hvx Hv]. apply list.Forall_cons in Hc as [Hcx Hc]. apply list.Forall_cons in Hr as [Hrx Hr].
    destruct fuel as [| fuel]; [simpl in Hf; lia |]. rewrite encode_cons. rewrite <- !app_assoc. pose proof (encode_element_length x).
    rewrite ie_loop_element by (rewrite length_app; lia). cbn [run_elements].
    assert (Hnext : forall s', state_ok s' ->
      ie_loop fuel (pre ++ encode_element x ++ encode l ++ junk ++ post) (Z.of_nat (length (pre ++ encode_element x)))
        (Z.of_nat (length (encode_element x ++ encode l ++ junk)) - (Z.of_nat (length x.2) + 2)) s' = run_elements l s').
    { intros s' Hs'. rewrite <- (IH Hv Hc Hr fuel (pre ++ encode_element x) s' Hs') by (cbn in Hf; lia).
      rewrite <- !app_assoc. f_equal. rewrite !length_app. lia. }
    destruct (element_of x.1) as [id |] eqn:Eid; [| by apply Hnext].
    rewrite process_ie_local by (by apply Hcx || done). destruct (process_element_ok x id s) as (r & E & Hok); [done.. |].
    rewrite E, !bind_ret. destruct r as [s' | s' | s']; [by apply Hnext | | done].
    destruct fuel as [| fuel]; [simpl in Hf; lia |]. by rewrite ie_loop_end by lia.
Qed.
