(* ===== verification/ScanParseTheorems.v ===== *)
(** * The parser of beacons: theorems

    Bounds for every response, the meaning of complete records, and what
    truncated and crafted elements do. *)
From stdpp Require Import list.
From S2P Require Import Prelude Cfp ScanData ScanParse ScanParseProps.
Open Scope Z_scope.

(** ** Records in memory *)
Definition header_size (ext_scan : bool) : Z := if ext_scan then 18 else 19.
(** The elements of the record at [p], as bytes. *)
Definition record_content (m : list Z) (ext_scan : bool) (p : Z) : list Z :=
  match mem_read_le16 m p with
  | Ret size => take (Z.to_nat (size - header_size ext_scan)) (drop (Z.to_nat (p + 2 + header_size ext_scan)) m)
  | Fault _ => []
  end.
Lemma encode_length_ge l : (length l <= length (encode l))%nat.
Proof. induction l as [| x l IH]; [done |]. rewrite encode_cons, length_app. pose proof (encode_element_length x). cbn [length]. lia. Qed.
Lemma fixed_fields_total m ext p n e : bytes m -> bss_ok e -> 0 <= p -> 19 <= n -> p + n <= Z.of_nat (length m) ->
  exists e', fixed_fields m ext p n e = Ret (e', p + header_size ext, n - header_size ext) /\ bss_ok e'.
Proof.
  intros Hm He Hp Hn Hl. unfold fixed_fields, MLAN_MAC_ADDR_LENGTH. reads_next.
  destruct (arr_get_total m (p + 6)) as (r & Er & _); [lia |].
  assert (E0 : exists o, (if ext then Ret None else x ← arr_get m (p + 6); Ret (Some x)) = Ret o).
  { destruct ext; [by eexists |]. rewrite Er, bind_ret. by eexists. }
  destruct E0 as [o E0]. rewrite E0, bind_ret. set (q := if ext then p + 6 else p + 6 + 1).
  assert (p + 6 <= q <= p + 7) by (subst q; destruct ext; lia). reads_next.
  destruct (mem_read_le16_total m (q + 8) Hm) as (i & Ei & _); [lia.. |]. rewrite Ei, bind_ret. reads_next.
  eexists. split; [| ].
  - f_equal. f_equal; [f_equal |]; subst q; unfold header_size; destruct ext; lia.
  - destruct o; bss_same He; (change (length bs = 6%nat); lia).
Qed.

(** The key-management elements of the record count their ciphers within the copy. *)
Definition record_sane (m : list Z) (ext_scan : bool) (p : Z) : Prop :=
  forall l junk, record_content m ext_scan p = encode l ++ junk -> truncated junk -> Forall valid_element l -> Forall rsn_element_sane l.
Lemma record_total m ext p left e :
  bytes m -> bss_ok e -> 0 <= p -> 0 <= left -> p + left + 28 <= Z.of_nat (length m) ->
  record_sane m ext p ->
  exists status e' next left', wlan_interpret_bss_desc_with_ie m ext p left e = Ret (status, e', next, left') /\
    bss_ok e' /\ next + left' = p + left /\ 0 <= left' /\ (0 < left -> left' < left).
Proof.
  intros Hm He Hp Hleft Hl Hrsn. unfold record_sane in Hrsn. unfold wlan_interpret_bss_desc_with_ie. rewrite Z.geb_leb. destruct (Z.leb_spec 2 left).
  - destruct (mem_read_le16_total m p Hm) as (size & Es & Hsize); [lia.. |]. rewrite Es, bind_ret. cbn [orb].
    destruct (Z.eqb_spec size 0); cbn [orb]; [eexists _, _, _, _; split; [done |]; split; [done | lia] |]. rewrite Z.gtb_ltb.
    destruct (Z.ltb_spec (left - 2) size); [eexists _, _, _, _; split; [done |]; split; [done | lia] |].
    change (MLAN_MAC_ADDR_LENGTH + 1 + sizeof_FIXED_IEs) with 19. destruct (Z.ltb_spec size 19); [eexists _, _, _, _; split; [done |]; split; [done | lia] |].
    destruct (fixed_fields_total m ext (p + 2) size e) as (e1 & Ef & He1); [done | done | lia.. |]. rewrite Ef, bind_ret.
    pose proof (eq_refl : header_size ext = if ext then 18 else 19) as Hh. assert (18 <= header_size ext <= 19) by (destruct ext; lia).
    set (hs := header_size ext) in *. set (q := p + 2 + hs).
    unfold record_content in Hrsn. rewrite Es in Hrsn. fold hs q in Hrsn. set (content := take (Z.to_nat (size - hs)) (drop (Z.to_nat q) m)) in *.
    assert (Hcl : Z.of_nat (length content) = size - hs) by (subst content; rewrite length_take, length_drop; subst q; lia).
    destruct (decompose content) as (l & junk & Ec & Hv & Hj); [by apply Forall_take, Forall_drop |].
    set (post := drop (Z.to_nat (q + (size - hs))) m). set (pre := take (Z.to_nat q) m).
    assert (Em : m = pre ++ content ++ post).
    { subst pre content post. rewrite <- (take_drop (Z.to_nat q) m) at 1. f_equal.
      rewrite <- (take_drop (Z.to_nat (size - hs)) (drop (Z.to_nat q) m)) at 1. f_equal. rewrite drop_drop. f_equal. lia. }
    assert (Hpre : Z.of_nat (length pre) = q) by (subst pre; rewrite length_take_le; lia).
    assert (Hpost : (28 <= length post)%nat) by (subst post; rewrite length_drop; lia).
    destruct (ie_loop_total post junk l Hpost Hj Hv (Hrsn l junk Ec Hj Hv) (ie_fuel (size - hs)) pre (MkIe e1 0 false)) as (st & e2 & El & He2).
    { rewrite (app_assoc (encode l)), <- Ec, <- Em. done. }
    { by split. }
    { unfold ie_fuel. pose proof (encode_length_ge l). rewrite Ec, length_app in Hcl. lia. }
    rewrite <- Ec, Hcl, Hpre, <- Em in El. rewrite El, bind_ret. eexists _, _, _, _. split; [done |]. split; [done |]. lia.
  - rewrite bind_ret. cbn [Z.eqb orb]. eexists _, _, _, _. split; [done |]. split; [done | lia].
Qed.

(** C28: A record of a scan response is parsed to its end when 28 bytes of memory
    follow the response and the RSN elements of the record have at least 8 bytes
    and at most 12 pairwise ciphers unless these reach the end of the element
    ([record_sane]): the parser terminates, keeps every field of the descriptor within its array,
    and leaves the position exactly after the record, so that a sequence of
    records ends. All other bytes of the record are arbitrary. *)
Theorem record_is_parsed_in_bounds m ext p left e :
  bytes m -> bss_ok e -> 0 <= p -> 0 <= left -> p + left + 28 <= Z.of_nat (length m) ->
  record_sane m ext p ->
  exists status e' next left', wlan_interpret_bss_desc_with_ie m ext p left e = Ret (status, e', next, left') /\
    bss_ok e' /\ next + left' = p + left /\ 0 <= left' /\ (0 < left -> left' < left).
Proof. apply record_total. Qed.

(** ** The meaning of a record *)
Record header := MkHeader { h_mac : list Z; h_rssi : Z; h_time : list Z; h_interval : list Z; h_cap : list Z }.
Definition header_ok (h : header) : Prop :=
  length (h_mac h) = 6%nat /\ length (h_time h) = 8%nat /\ length (h_interval h) = 2%nat /\ length (h_cap h) = 2%nat.
Definition encode_header (ext : bool) (h : header) : list Z :=
  h_mac h ++ (if ext then [] else [h_rssi h]) ++ h_time h ++ h_interval h ++ h_cap h.
Definition encode_record (ext : bool) (h : header) (content : list Z) : list Z :=
  le16 (header_size ext + Z.of_nat (length content)) ++ encode_header ext h ++ content.
(** The descriptor before the elements, of a record at [p] with [n] bytes of elements. *)
Definition header_entry (ext : bool) (h : header) (p n : Z) (e : BSSDescriptor_t) : BSSDescriptor_t :=
  let e := set_mac_address (h_mac h) e in
  let e := if ext then e else set_rssi (h_rssi h) e in
  let e := set_beacon_buf_size (n + 12) (set_pbeacon_buf (p + header_size ext - 10) e) in
  let e := set_cap_info (h_cap h) (set_beacon_period (of_le16 (h_interval h)) (set_time_stamp (h_time h) e)) in
  let e := set_privacy (bit 4 (h_cap h)) e in
  set_bss_mode (if bit 1 (h_cap h) then MLAN_BSS_MODE_IBSS else MLAN_BSS_MODE_INFRA) e.
Lemma read_part {A} (pre bs post : list A) p n : p = Z.of_nat (length pre) -> n = Z.of_nat (length bs) -> mem_read (pre ++ bs ++ post) p n = Ret bs.
Proof. apply mem_read_app. Qed.
Lemma encode_header_length ext h : header_ok h -> Z.of_nat (length (encode_header ext h)) = header_size ext.
Proof. intros (H1 & H2 & H3 & H4). unfold encode_header, header_size. destruct ext; rewrite !length_app, H1, H2, H3, H4; done. Qed.

Lemma fixed_fields_header pre ext h rest n e : header_ok h ->
  fixed_fields (pre ++ encode_header ext h ++ rest) ext (Z.of_nat (length pre)) (header_size ext + n) e =
  Ret (header_entry ext h (Z.of_nat (length pre) - 2) n e, Z.of_nat (length pre) + header_size ext, n).
Proof.
  intros (H1 & H2 & H3 & H4). unfold fixed_fields, encode_header, MLAN_MAC_ADDR_LENGTH, header_entry, header_size, mem_read_le16.
  rewrite <- !app_assoc. rewrite (read_part pre (h_mac h) _ (Z.of_nat (length pre)) 6) by (rewrite ?H1; lia). rewrite bind_ret. destruct ext; cbn [app].
  - rewrite bind_ret. rewrite (app_assoc pre (h_mac h)). set (p1 := pre ++ h_mac h).
    assert (E1 : Z.of_nat (length pre) + 6 = Z.of_nat (length p1)) by (subst p1; rewrite length_app, H1; lia). rewrite E1.
    rewrite (read_part p1 (h_time h) _ (Z.of_nat (length p1)) 8) by (rewrite ?H2; lia). rewrite bind_ret. rewrite (app_assoc p1).
    rewrite (read_part (p1 ++ h_time h) (h_interval h) _ (Z.of_nat (length p1) + 8) 2) by (rewrite ?length_app, ?H2, ?H3; lia). rewrite !bind_ret.
    rewrite (app_assoc (p1 ++ h_time h)).
    rewrite (read_part ((p1 ++ h_time h) ++ h_interval h) (h_cap h) _ (Z.of_nat (length p1) + 10) 2) by (rewrite ?length_app, ?H2, ?H3, ?H4; lia). rewrite bind_ret.
    rewrite <- E1. replace (Z.of_nat (length pre) + 6 + 12) with (Z.of_nat (length pre) + 18) by lia.
    replace (18 + n - 6 - 12) with n by lia. replace (18 + n - 6) with (n + 12) by lia.
    by replace (Z.of_nat (length pre) - 2 + 18 - 10) with (Z.of_nat (length pre) + 6) by lia.
  - rewrite (app_assoc pre (h_mac h)). set (p1 := pre ++ h_mac h).
    assert (E1 : Z.of_nat (length pre) + 6 = Z.of_nat (length p1)) by (subst p1; rewrite length_app, H1; lia). rewrite E1.
    rewrite arr_get_app by done. rewrite !bind_ret. change (?x :: ?l) with ([x] ++ l). rewrite (app_assoc p1). set (p2 := p1 ++ [h_rssi h]).
    assert (E2 : Z.of_nat (length p1) + 1 = Z.of_nat (length p2)) by (subst p2; rewrite length_app; cbn; lia). rewrite E2.
    rewrite (read_part p2 (h_time h) _ (Z.of_nat (length p2)) 8) by (rewrite ?H2; lia). rewrite bind_ret. rewrite (app_assoc p2).
    rewrite (read_part (p2 ++ h_time h) (h_interval h) _ (Z.of_nat (length p2) + 8) 2) by (rewrite ?length_app, ?H2, ?H3; lia). rewrite !bind_ret.
    rewrite (app_assoc (p2 ++ h_time h)).
    rewrite (read_part ((p2 ++ h_time h) ++ h_interval h) (h_cap h) _ (Z.of_nat (length p2) + 10) 2) by (rewrite ?length_app, ?H2, ?H3, ?H4; lia). rewrite bind_ret.
    rewrite <- E2, <- E1. replace (Z.of_nat (length pre) + 6 + 1 + 12) with (Z.of_nat (length pre) + 19) by lia.
    replace (19 + n - 6 - 1 - 12) with n by lia. replace (19 + n - 6 - 1) with (n + 12) by lia.
    by replace (Z.of_nat (length pre) - 2 + 19 - 10) with (Z.of_nat (length pre) + 6 + 1) by lia.
Qed.
Lemma header_entry_ok ext h p n e : header_ok h -> bss_ok e -> bss_ok (header_entry ext h p n e).
Proof. intros (H1 & _) He. unfold header_entry. destruct ext; bss_same He. Qed.

(** A record is its header, then the loop over its elements. *)
Definition before_elements (pre : list Z) (ext : bool) (h : header) (content : list Z) : list Z :=
  (pre ++ le16 (header_size ext + Z.of_nat (length content))) ++ encode_header ext h.
Definition first_state (ext : bool) (h : header) (p : Z) (content : list Z) : ie_state :=
  MkIe (header_entry ext h p (Z.of_nat (length content)) cleared_bss) 0 false.
Lemma record_enters_loop pre post ext h content rest : header_ok h -> 1 <= Z.of_nat (length content) < 60000 -> 0 <= rest ->
  let n := Z.of_nat (length (encode_record ext h content)) in let pre' := before_elements pre ext h content in
  wlan_interpret_bss_desc_with_ie (pre ++ encode_record ext h content ++ post) ext (Z.of_nat (length pre)) (n + rest) cleared_bss =
  ('(status, e) ← ie_loop (ie_fuel (Z.of_nat (length content))) (pre' ++ content ++ post) (Z.of_nat (length pre')) (Z.of_nat (length content))
     (first_state ext h (Z.of_nat (length pre)) content);
   Ret (status, e, Z.of_nat (length pre) + n, rest)).
Proof.
  intros Hh Hsz Hrest n pre'. set (p := Z.of_nat (length pre)). pose proof (encode_header_length ext h Hh) as Hhl.
  assert (Hhs : 18 <= header_size ext <= 19) by (destruct ext; cbn; lia). set (size := header_size ext + Z.of_nat (length content)).
  assert (Hn : n = size + 2) by (subst n; unfold encode_record; rewrite !length_app; unfold size, le16; cbn [length]; lia).
  unfold wlan_interpret_bss_desc_with_ie. rewrite Z.geb_leb, (proj2 (Z.leb_le _ _)) by lia.
  assert (Es : mem_read_le16 (pre ++ encode_record ext h content ++ post) p = Ret size).
  { unfold mem_read_le16, encode_record. fold size. rewrite <- app_assoc. rewrite (read_part pre (le16 size)) by done.
    rewrite bind_ret, of_le16_le16; [done |]. lia. }
  rewrite Es, bind_ret. rewrite (proj2 (Z.eqb_neq _ _)) by lia. rewrite Z.gtb_ltb, (proj2 (Z.ltb_ge _ _)) by lia. cbn [orb].
  change (MLAN_MAC_ADDR_LENGTH + 1 + sizeof_FIXED_IEs) with 19. rewrite (proj2 (Z.ltb_ge _ _)) by lia.
  unfold encode_record. fold size. rewrite <- !app_assoc, (app_assoc pre).
  assert (Ep : p + 2 = Z.of_nat (length (pre ++ le16 size))) by (rewrite length_app; cbn; lia). rewrite Ep.
  unfold pre', before_elements. fold size. set (pre2 := pre ++ le16 size) in *.
  pose proof (fixed_fields_header pre2 ext h (content ++ post) (Z.of_nat (length content)) cleared_bss Hh) as Ef.
  fold size in Ef. rewrite Ef, bind_ret, <- Ep. replace (p + 2 - 2) with p by lia. rewrite (app_assoc pre2).
  replace (p + 2 + header_size ext) with (Z.of_nat (length (pre2 ++ encode_header ext h))) by (rewrite length_app; lia).
  unfold first_state. destruct (ie_loop _ _ _ _ _) as [[st e] |]; [| done]. cbn [mbind outcome_bind]. do 2 f_equal; lia || (f_equal; lia).
Qed.
Lemma first_state_ok ext h p content : header_ok h -> state_ok (first_state ext h p content).
Proof. intros Hh. split; [by apply header_entry_ok, cleared_ok | cbn; lia]. Qed.
(** A record whose elements are complete means what its own bytes say: the
    parser gives its status and descriptor as one pass over the elements, each
    interpreted alone, whatever bytes stand before and after the record and
    whatever incomplete element ends it. *)
Lemma parser_reads_the_record_alone pre post ext h l junk rest :
  header_ok h -> Forall valid_element l -> Forall complete l -> Forall rsn_element_sane l -> truncated junk -> 0 <= rest ->
  1 <= Z.of_nat (length (encode l ++ junk)) < 60000 ->
  let n := Z.of_nat (length (encode_record ext h (encode l ++ junk))) in
  wlan_interpret_bss_desc_with_ie (pre ++ encode_record ext h (encode l ++ junk) ++ post) ext (Z.of_nat (length pre)) (n + rest) cleared_bss =
  ('(status, e) ← run_elements l (first_state ext h (Z.of_nat (length pre)) (encode l ++ junk)); Ret (status, e, Z.of_nat (length pre) + n, rest)).
Proof.
  intros Hh Hv Hc Hr Hj Hrest Hsz n. subst n. rewrite record_enters_loop by done.
  rewrite (ie_loop_run post junk l Hj Hv Hc Hr); [done | by apply first_state_ok |].
  unfold ie_fuel. pose proof (encode_length_ge l). rewrite length_app. lia.
Qed.

(** ** A beacon of an access point *)
Lemma read_data x : mem_read (encode_element x) (0 + 2) (Z.of_nat (length x.2)) = Ret x.2.
Proof. rewrite <- (app_nil_r (encode_element x)). apply (read_part [x.1; Z.of_nat (length x.2)] x.2 []); done. Qed.
Lemma read_data_prefix x k : 0 <= k <= Z.of_nat (length x.2) -> mem_read (encode_element x) (0 + 2) k = Ret (take (Z.to_nat k) x.2).
Proof.
  intros Hk. pose proof (encode_element_length x). unfold mem_read. by rewrite !(proj2 (Z.leb_le _ _)) by lia.
Qed.
Lemma write_start {A} (old bs : list A) : (length bs <= length old)%nat -> mem_write old 0 bs = Ret (bs ++ drop (length bs) old).
Proof. intros. unfold mem_write. rewrite !(proj2 (Z.leb_le _ _)) by lia. done. Qed.

Lemma run_ssid d l s : (length d <= 32)%nat -> bss_ok (bss s) -> exists b,
  run_elements ((0, d) :: l) s = run_elements l (set_bss (set_ssid b (set_ssid_len (Z.of_nat (length d)) (bss s))) s) /\
  take (length d) b = d /\ bss_ok (set_ssid b (set_ssid_len (Z.of_nat (length d)) (bss s))).
Proof.
  intros Hd He. pose proof (ok_ssid _ He). cbn [run_elements fst]. change (element_of 0) with (Some SSID). cbn [process_ie snd].
  unfold ssid_ie, MLAN_MAX_SSID_LENGTH. rewrite Z.gtb_ltb, (proj2 (Z.ltb_ge _ _)) by lia. pose proof (read_data (0, d)) as E. cbn [snd] in E.
  rewrite E, bind_ret, write_start by lia. rewrite !bind_ret. eexists. split; [done |]. split; [by rewrite take_app_length |].
  bss_same He; [| cbn; lia]. change (length (d ++ drop (length d) (ssid (bss s))) = 32%nat). rewrite length_app, length_drop. lia.
Qed.
Lemma run_rates d l s : (length d <= 14)%nat -> bss_ok (bss s) -> exists r1 r2,
  run_elements ((1, d) :: l) s = run_elements l (MkIe (set_data_rates r1 (set_supported_rates r2 (bss s))) (Z.of_nat (length d)) true) /\
  take (length d) r1 = d /\ take (length d) r2 = d /\ bss_ok (set_data_rates r1 (set_supported_rates r2 (bss s))).
Proof.
  intros Hd He. pose proof (ok_data_rates _ He). pose proof (ok_supported_rates _ He). cbn [run_elements fst].
  change (element_of 1) with (Some SUPPORTED_RATES). cbn [process_ie snd].
  unfold supported_rates_ie, WLAN_SUPPORTED_RATES, copy_rates. rewrite Z.gtb_ltb, (proj2 (Z.ltb_ge _ _)) by lia. pose proof (read_data (1, d)) as E. cbn [snd] in E.
  rewrite E, bind_ret, !write_start by lia. rewrite !bind_ret. eexists _, _. split; [done |]. rewrite !take_app_length.
  split; [done |]. split; [done |]. bss_same He; [change (length (d ++ drop (length d) (supported_rates (bss s))) = 14%nat)
    | change (length (d ++ drop (length d) (data_rates (bss s))) = 14%nat)]; rewrite length_app, length_drop; lia.
Qed.
Lemma run_ds c l s : bss_ok (bss s) -> exists b,
  run_elements ((3, [c]) :: l) s = run_elements l (set_bss (set_phy_param_set b (set_channel c (set_network_type_use Wlan802_11DS (bss s)))) s) /\
  bss_ok (set_phy_param_set b (set_channel c (set_network_type_use Wlan802_11DS (bss s)))).
Proof.
  intros He. pose proof (ok_phy _ He) as Hp. cbn [run_elements fst]. change (element_of 3) with (Some DS_PARAM_SET). cbn [process_ie snd length].
  change (arr_get (encode_element (3, [c])) (0 + 2)) with (Ret c). rewrite bind_ret.
  destruct (copy_param_set_total (encode_element (3, [c])) 0 (Z.of_nat 1) 3 (phy_param_set (bss s))) as (b & E & Hb); [done.. | lia |].
  rewrite E, !bind_ret. exists b. split; [done |]. bss_same He. change (length b = 7%nat). lia.
Qed.
(** The rates after those of the first element. *)
Lemma write_after {A} (old r bs : list A) : take (length r) old = r -> (length r + length bs <= length old)%nat ->
  exists b, mem_write old (Z.of_nat (length r)) bs = Ret b /\ take (length r + length bs) b = r ++ bs /\ length b = length old.
Proof.
  intros Hr Hl. unfold mem_write. rewrite !(proj2 (Z.leb_le _ _)) by lia. cbn [andb]. rewrite Nat2Z.id, Hr. eexists. split; [done |]. split.
  - rewrite app_assoc. rewrite take_app_le by (rewrite length_app; lia). apply take_ge. rewrite length_app. lia.
  - rewrite !length_app, length_drop. lia.
Qed.
Lemma run_ext_rates r d l s : bss_ok (bss s) -> found_data_rate_ie s = true -> rate_size s = Z.of_nat (length r) -> (length r <= 14)%nat ->
  take (length r) (supported_rates (bss s)) = r -> take (length r) (data_rates (bss s)) = r ->
  exists r1 r2, run_elements ((50, d) :: l) s = run_elements l (set_bss (set_data_rates r1 (set_supported_rates r2 (bss s))) s) /\
    take (min 14 (length r + length d)) r2 = take 14 (r ++ d) /\ bss_ok (set_data_rates r1 (set_supported_rates r2 (bss s))).
Proof.
  intros He Hf Hsz Hr E2 E1. pose proof (ok_data_rates _ He) as L1. pose proof (ok_supported_rates _ He) as L2. cbn [run_elements fst].
  change (element_of 50) with (Some EXTENDED_SUPPORTED_RATES). cbn [process_ie snd]. unfold extended_rates_ie, WLAN_SUPPORTED_RATES, copy_rates.
  rewrite Hf, Hsz, Z.gtb_ltb. set (n := if _ <? _ then _ else _).
  assert (Hn : n = Z.min (Z.of_nat (length d)) (14 - Z.of_nat (length r))) by (subst n; destruct (Z.ltb_spec 14 (Z.of_nat (length d) + Z.of_nat (length r))); lia).
  rewrite (read_data_prefix (50, d)) by (cbn; lia). cbn [snd]. rewrite bind_ret. set (bs := take (Z.to_nat n) d).
  assert (Hbs : length bs = Z.to_nat n) by (subst bs; rewrite length_take_le; lia).
  destruct (write_after (data_rates (bss s)) r bs E1) as (r1 & W1 & _ & Hr1); [lia |].
  destruct (write_after (supported_rates (bss s)) r bs E2) as (r2 & W2 & T2 & Hr2); [lia |].
  rewrite W1, bind_ret, W2, !bind_ret. exists r1, r2. split; [done |]. split.
  2: { bss_same He; [change (length r2 = 14%nat) | change (length r1 = 14%nat)]; lia. }
  replace (min 14 (length r + length d))%nat with (length r + length bs)%nat by lia. rewrite T2. rewrite take_app_ge by lia. f_equal. subst bs.
  destruct (Nat.le_ge_cases (length d) (14 - length r)); [rewrite !take_ge by lia; done | f_equal; lia].
Qed.
Lemma run_ht d l s : length d = 26%nat -> run_elements ((45, d) :: l) s =
  run_elements l (set_bss (set_slot HtCap (MkSlot (45 :: 26 :: d) (Some NewEntry)) (bss s)) s).
Proof.
  intros Hd. cbn [run_elements fst]. change (element_of 45) with (Some HT_CAPABILITY). cbn [process_ie snd]. unfold save_ie.
  assert (E : encode_element (45, d) = 45 :: 26 :: d) by (unfold encode_element; cbn [fst snd]; by rewrite Hd). rewrite E.
  rewrite <- (app_nil_r (45 :: 26 :: d)) at 1. rewrite mem_read_head by (cbn; rewrite Hd; done). by rewrite !bind_ret.
Qed.

Record access_point := MkAp { ap_ssid : list Z; ap_rates : list Z; ap_channel : Z; ap_ext_rates : list Z; ap_ht : list Z }.
Definition ap_elements (a : access_point) : list element :=
  [(0, ap_ssid a); (1, ap_rates a); (3, [ap_channel a]); (50, ap_ext_rates a); (45, ap_ht a)].
Definition ap_ok (a : access_point) : Prop :=
  (length (ap_ssid a) <= 32)%nat /\ (length (ap_rates a) <= 14)%nat /\ (length (ap_ext_rates a) <= 255)%nat /\ length (ap_ht a) = 26%nat /\
  bytes (ap_ssid a) /\ bytes (ap_rates a) /\ is_byte (ap_channel a) /\ bytes (ap_ext_rates a) /\ bytes (ap_ht a).
Lemma run_access_point a e : ap_ok a -> bss_ok e -> exists e',
  run_elements (ap_elements a) (MkIe e 0 false) = Ret (MLAN_STATUS_SUCCESS, e') /\
  ssid_len e' = Z.of_nat (length (ap_ssid a)) /\ take (length (ap_ssid a)) (ssid e') = ap_ssid a /\ channel e' = ap_channel a /\
  take (min 14 (length (ap_rates a) + length (ap_ext_rates a))) (supported_rates e') = take 14 (ap_rates a ++ ap_ext_rates a) /\
  slot e' HtCap = MkSlot (45 :: 26 :: ap_ht a) (Some NewEntry) /\ network_type_use e' = Wlan802_11DS /\
  mac_address e' = mac_address e /\ rssi e' = rssi e /\ beacon_period e' = beacon_period e /\ privacy e' = privacy e /\ bss_mode e' = bss_mode e /\
  time_stamp e' = time_stamp e.
Proof.
  intros (H1 & H2 & H3 & H4 & _) He. unfold ap_elements.
  destruct (run_ssid (ap_ssid a) [(1, ap_rates a); (3, [ap_channel a]); (50, ap_ext_rates a); (45, ap_ht a)] (MkIe e 0 false)) as (b & -> & Hb & He1); [done.. |].
  set (s1 := set_bss _ _). change (bss_ok (bss s1)) in He1.
  destruct (run_rates (ap_rates a) [(3, [ap_channel a]); (50, ap_ext_rates a); (45, ap_ht a)] s1) as (r1 & r2 & -> & T1 & T2 & He2); [done.. |].
  set (s2 := MkIe _ _ _). change (bss_ok (bss s2)) in He2.
  destruct (run_ds (ap_channel a) [(50, ap_ext_rates a); (45, ap_ht a)] s2) as (b3 & -> & He3); [done |].
  set (s3 := set_bss _ _). change (bss_ok (bss s3)) in He3.
  destruct (run_ext_rates (ap_rates a) (ap_ext_rates a) [(45, ap_ht a)] s3) as (q1 & q2 & -> & Tq & He4); [done.. |].
  set (s4 := set_bss _ _). change (bss_ok (bss s4)) in He4.
  rewrite run_ht by done. cbn [run_elements]. set (s5 := set_bss _ _). exists (bss s5). split; [done |].
  split; [done |]. split; [exact Hb |]. split; [done |]. split; [exact Tq |]. split; [| done].
  unfold slot. change (slots (bss s5)) with (<[0%nat := MkSlot (45 :: 26 :: ap_ht a) (Some NewEntry)]> (slots (bss s4))). cbn [ie_index].
  rewrite nth_lookup, list_lookup_insert_eq; [done |]. rewrite slots_length by done. lia.
Qed.
Lemma ap_elements_fine a : ap_ok a -> Forall valid_element (ap_elements a) /\ Forall complete (ap_elements a) /\ Forall rsn_element_sane (ap_elements a) /\
  1 <= Z.of_nat (length (encode (ap_elements a))) < 60000.
Proof.
  intros (H1 & H2 & H3 & H4 & B1 & B2 & B3 & B4 & B5). unfold ap_elements. split; [| split; [| split]].
  - assert (V : forall id d, 0 <= id < 256 -> bytes d -> (length d <= 255)%nat -> valid_element (id, d)) by done.
    rewrite !list.Forall_cons. repeat split; try done; cbn; unfold is_byte in *; try lia. by apply list.Forall_singleton.
  - rewrite !list.Forall_cons. repeat split; try done; intros id Hid; cbn in Hid; injection Hid as <-; cbn; lia.
  - rewrite !list.Forall_cons. by repeat split.
  - unfold encode. cbn [map concat]. rewrite !length_app. repeat match goal with |- context [encode_element ?x] => pose proof (encode_element_length x); set (encode_element x) in * end.
    cbn [snd length] in *. lia.
Qed.

(** C27: A beacon is parsed into what it announces, wherever it stands in the
    response: the address, the signal strength, the interval and the
    capabilities of its header, the name, the channel, the supported rates
    followed by the extended ones (fourteen in all) and the high-throughput
    capabilities with the pointer to them; the position is after the record. *)
Theorem beacon_roundtrip pre post ext h a rest : header_ok h -> ap_ok a -> 0 <= rest ->
  let record := encode_record ext h (encode (ap_elements a)) in
  exists e, wlan_interpret_bss_desc_with_ie (pre ++ record ++ post) ext (Z.of_nat (length pre)) (Z.of_nat (length record) + rest) cleared_bss =
      Ret (MLAN_STATUS_SUCCESS, e, Z.of_nat (length pre) + Z.of_nat (length record), rest) /\
    mac_address e = h_mac h /\ (ext = false -> rssi e = h_rssi h) /\ time_stamp e = h_time h /\ beacon_period e = of_le16 (h_interval h) /\
    privacy e = bit 4 (h_cap h) /\ bss_mode e = (if bit 1 (h_cap h) then MLAN_BSS_MODE_IBSS else MLAN_BSS_MODE_INFRA) /\
    ssid_len e = Z.of_nat (length (ap_ssid a)) /\ take (length (ap_ssid a)) (ssid e) = ap_ssid a /\ channel e = ap_channel a /\
    take (min 14 (length (ap_rates a) + length (ap_ext_rates a))) (supported_rates e) = take 14 (ap_rates a ++ ap_ext_rates a) /\
    slot e HtCap = MkSlot (45 :: 26 :: ap_ht a) (Some NewEntry).
Proof.
  intros Hh Ha Hrest record. destruct (ap_elements_fine a Ha) as (Hv & Hc & Hr & Hsz).
  pose proof (parser_reads_the_record_alone pre post ext h (ap_elements a) [] rest Hh Hv Hc Hr I Hrest) as H.
  rewrite app_nil_r in H. specialize (H Hsz). fold record in H. cbn beta zeta in H. rewrite H. unfold first_state. set (e0 := header_entry _ _ _ _ _).
  destruct (run_access_point a e0 Ha) as (e & E & H1 & H2 & H3 & H4 & H5 & _ & M & R & B & P & S & T); [by apply header_entry_ok, cleared_ok |].
  rewrite E, bind_ret. exists e. split; [done |]. rewrite M, R, B, P, S, T. repeat split; try done; try (subst e0; by destruct ext).
Qed.
Definition home_header : header := MkHeader [2; 0; 0; 0; 0; 1] 60 [1; 2; 3; 4; 5; 6; 7; 8] [100; 0] [17; 4].
Definition home_ap : access_point := MkAp [72; 111; 109; 101] [130; 132; 139; 150; 12; 18; 24; 36] 6 [48; 72; 96; 108] (replicate 26 7).
Lemma home_header_ok : header_ok home_header.
Proof. done. Qed.
Lemma home_ap_ok : ap_ok home_ap.
Proof. repeat split; try (cbn; lia); repeat constructor; unfold is_byte; cbn; lia. Qed.
Lemma beacon_roundtrip_witness : exists e,
  wlan_interpret_bss_desc_with_ie ([9; 9] ++ encode_record false home_header (encode (ap_elements home_ap)) ++ [1; 2; 3]) false 2 75 cleared_bss =
    Ret (MLAN_STATUS_SUCCESS, e, 76, 1) /\
  take 4 (ssid e) = [72; 111; 109; 101] /\ channel e = 6 /\ privacy e = true.
Proof.
  destruct (beacon_roundtrip [9; 9] [1; 2; 3] false home_header home_ap 1 home_header_ok home_ap_ok ltac:(lia))
    as (e & E & _ & _ & _ & _ & P & _ & _ & S & C & _). exists e. by rewrite P, C.
Defined.

Lemma no_rsn_sane bs : element_number RSN_IE ∉ bs -> forall l junk, bs = encode l ++ junk -> Forall rsn_element_sane l.
Proof.
  intros Hb l junk ->. apply list.Forall_forall. intros x Hx Ex. destruct Hb. apply elem_of_app. left. rewrite <- Ex. clear -Hx.
  induction l as [| y l IH]; [by apply not_elem_of_nil in Hx |]. rewrite encode_cons, elem_of_app. apply elem_of_cons in Hx as [<- | Hx]; [left; by left | right; auto].
Qed.
(** A name, then the start of an element that is cut off. *)
Definition cut_record : list Z := encode_record false home_header [0; 1; 65; 45; 30; 7].
Lemma record_is_parsed_in_bounds_witness :
  exists status e' next left', wlan_interpret_bss_desc_with_ie (cut_record ++ replicate 28 0) false 0 27 cleared_bss = Ret (status, e', next, left') /\
    bss_ok e' /\ next + left' = 27 /\ left' < 27.
Proof.
  destruct (record_is_parsed_in_bounds (cut_record ++ replicate 28 0) false 0 27 cleared_bss) as (st & e & next & left & E & He & H1 & _ & H2).
  - by apply bytes_check.
  - exact cleared_ok.
  - lia.
  - lia.
  - cbn. lia.
  - intros l junk Hc _ _. apply (no_rsn_sane [0; 1; 65; 45; 30; 7]) with (junk := junk); [by apply (bool_decide_unpack (48 ∉ [0; 1; 65; 45; 30; 7])) | exact Hc].
  - exists st, e, next, left. split; [exact E |]. split; [exact He |]. lia.
Defined.

(** ** Elements that are not complete *)
Lemma one_element_loop pre post x s : 1 <= Z.of_nat (length x.2) + 2 ->
  ie_loop (ie_fuel (Z.of_nat (length (encode [x])))) (pre ++ encode [x] ++ post) (Z.of_nat (length pre)) (Z.of_nat (length (encode [x]))) s =
  (r ← match element_of x.1 with
       | Some e => process_ie e (pre ++ encode_element x ++ post) (Z.of_nat (length pre)) (Z.of_nat (length x.2)) s
       | None => Ret (NextIe s) end;
   Ret (match r with NextIe s' | StopIe s' => MLAN_STATUS_SUCCESS | FailIe s' => MLAN_STATUS_FAILURE end, bss (result_state r))).
Proof.
  intros _. unfold encode. cbn [map concat]. rewrite app_nil_r. pose proof (encode_element_length x) as Hl. unfold ie_fuel.
  rewrite ie_loop_element by lia. set (o := match element_of x.1 with Some _ => _ | None => _ end). destruct o as [[s' | s' | s'] |]; cbn [mbind outcome_bind]; try done;
    by rewrite ie_loop_end by lia.
Qed.

(** A high-throughput capability element is copied at the size of its
    structure, whatever its length says: when it is empty and ends its record,
    the descriptor gets the 26 bytes that follow the record in memory, which
    belong to another access point, and where memory ends there the parser
    reads outside it. *)
Theorem truncated_capabilities_read_on pre post ext h rest : header_ok h -> 0 <= rest ->
  let record := encode_record ext h (encode [(45, [])]) in
  let parsed := wlan_interpret_bss_desc_with_ie (pre ++ record ++ post) ext (Z.of_nat (length pre)) (Z.of_nat (length record) + rest) cleared_bss in
  (if (26 <=? length post)%nat
   then exists e, parsed = Ret (MLAN_STATUS_SUCCESS, e, Z.of_nat (length pre) + Z.of_nat (length record), rest) /\
     slot e HtCap = MkSlot (45 :: 0 :: take 26 post) (Some NewEntry)
   else parsed = Fault OutOfBounds).
Proof.
  intros Hh Hrest record parsed. unfold parsed, record. rewrite record_enters_loop by (done || cbn; lia).
  set (pre' := before_elements _ _ _ _). rewrite one_element_loop by (cbn; lia). change (element_of (45, @nil Z).1) with (Some HT_CAPABILITY).
  cbn [process_ie snd]. unfold save_ie. change (ie_size HtCap) with 28. change (encode_element (45, [])) with [45; 0].
  set (s0 := first_state _ _ _ _). assert (Hs0 : state_ok s0) by (by apply first_state_ok). destruct (Nat.leb_spec 26 (length post)).
  - assert (E : mem_read (pre' ++ [45; 0] ++ post) (Z.of_nat (length pre')) 28 = Ret (45 :: 0 :: take 26 post)).
    { rewrite <- (take_drop 26 post) at 1. rewrite (app_assoc [45; 0]). apply mem_read_app; [done |].
      cbn [length]. rewrite length_take_le by lia. done. }
    rewrite E, !bind_ret. eexists. split; [done |]. unfold slot. cbn [result_state bss set_bss ie_index].
    change (slots (set_slot ?k ?v ?e)) with (<[ie_index k := v]> (slots e)). cbn [ie_index].
    rewrite nth_lookup, list_lookup_insert_eq; [done |]. rewrite slots_length by apply Hs0. lia.
  - unfold mem_read. rewrite !length_app. cbn [length]. destruct (Z.leb_spec (Z.of_nat (length pre') + 28) (Z.of_nat (length pre' + (2 + length post)))); [lia |].
    by rewrite andb_false_r.
Qed.
Lemma truncated_capabilities_read_on_witness : exists e,
  wlan_interpret_bss_desc_with_ie (encode_record false home_header [45; 0] ++ replicate 30 77) false 0 23 cleared_bss =
    Ret (MLAN_STATUS_SUCCESS, e, 23, 0) /\ saved (slot e HtCap) = [45; 0] ++ replicate 26 77.
Proof.
  destruct (truncated_capabilities_read_on [] (replicate 30 77) false home_header 0 home_header_ok ltac:(lia)) as (e & E & S).
  exists e. split; [exact E |]. by rewrite S.
Defined.

(** One beacon makes the driver read outside its copy of an element: a key-management
    element of seven bytes ends in the middle of the count of pairwise ciphers,
    the length left for it wraps round, and the count (more than twelve) takes
    the check for enterprise keys beyond the copy of 64 bytes. *)
Theorem short_rsn_element_reads_outside pre post ext h d c rest :
  header_ok h -> 0 <= rest -> length d = 6%nat -> 13 <= c < 256 ->
  let record := encode_record ext h (encode [(48, d ++ [c])]) in
  wlan_interpret_bss_desc_with_ie (pre ++ record ++ post) ext (Z.of_nat (length pre)) (Z.of_nat (length record) + rest) cleared_bss = Fault OutOfBounds.
Proof.
  intros Hh Hrest Hd Hc record. unfold record. destruct d as [| d0 [| d1 [| d2 [| d3 [| d4 [| d5 []]]]]]]; try done. cbn [app].
  rewrite record_enters_loop by (done || cbn; lia). set (pre' := before_elements _ _ _ _). rewrite one_element_loop by (cbn; lia).
  change (element_of (48, _).1) with (Some RSN_IE). set (s0 := first_state _ _ _ _). assert (Hs0 : state_ok s0) by (by apply first_state_ok).
  cbv beta iota. rewrite process_ie_local by done. cbn [process_ie snd]. unfold rsn_ie.
  change (Z.of_nat (length [d0; d1; d2; d3; d4; d5; c])) with 7. change (7 <=? MLAN_WMSDK_MAX_WPA_IE_LEN - 2) with true. cbv beta iota.
  unfold save_security_ie. change (mem_read (encode_element (48, [d0; d1; d2; d3; d4; d5; c])) 0 (7 + 2)) with (Ret [48; 7; d0; d1; d2; d3; d4; d5; c]).
  rewrite bind_ret. assert (Es : saved (slot (bss s0) RsnIe) = no_bytes 64) by (unfold s0, first_state, header_entry; by destruct ext).
  rewrite Es. change (mem_write (no_bytes 64) 0 [48; 7; d0; d1; d2; d3; d4; d5; c]) with (Ret ([48; 7; d0; d1; d2; d3; d4; d5; c] ++ replicate 55 0)).
  rewrite !bind_ret. set (b := _ ++ replicate 55 0). unfold wifi_check_bss_entry_wpa2_entp_only.
  set (e := set_rsn_ie_buff_len _ _). assert (Hb : saved (slot e RsnIe) = b).
  { unfold slot. change (slots e) with (<[9%nat := MkSlot b (Some NewEntry)]> (slots (bss s0))). cbn [ie_index].
    rewrite nth_lookup, list_lookup_insert_eq; [done |]. rewrite slots_length by apply Hs0. lia. }
  rewrite Hb. change (rsn_ie_buff_len e) with 9. unfold check_for_wpa2_entp_ie.
  change (mem_read_le16 b 8) with (Ret (c + 256 * 0)). rewrite bind_ret. change (u32 (9 - 10)) with 4294967295. rewrite Z.geb_leb, (proj2 (Z.leb_gt _ _)) by lia.
  unfold mem_read. change (Z.of_nat (length b)) with 64. rewrite (proj2 (Z.leb_gt _ 64)) by lia. by rewrite andb_false_r.
Qed.
Lemma short_rsn_element_reads_outside_witness :
  wlan_interpret_bss_desc_with_ie (encode_record false home_header [48; 7; 1; 0; 0; 15; 172; 4; 200] ++ replicate 300 0) false 0 30 cleared_bss = Fault OutOfBounds.
Proof. exact (short_rsn_element_reads_outside [] (replicate 300 0) false home_header [1; 0; 0; 15; 172; 4] 200 0 home_header_ok ltac:(lia) eq_refl ltac:(lia)). Defined.
