(* ===== verification/ScanTable.v ===== *)
(** * The table of access points

    [mlan_scan.c]: how the answers of the firmware fill the table of the
    adapter ([pscan_table]), with the response of the scan command
    ([wlan_ret_802_11_scan]) or in events ([wlan_parse_ext_scan_result]), and
    what is computed when the scan is complete. *)
From stdpp Require Import list.
From S2P Require Import Prelude Cfp ScanData ScanParse.
Open Scope Z_scope.

(** ** The adapter *)
Record ChanStatistics_t := MkStats {
  st_chan_num : Z; bandcfg : Z; st_flags : Z; noise : Z;      (* [noise] is signed *)
  total_networks : Z; cca_scan_duration : Z; cca_busy_duration : Z; min_rss : Z; max_rss : Z
}.
Definition sizeof_chan_statistics : Z := 10.
Record scan_adapter := MkAdapter {
  pscan_table : list BSSDescriptor_t;      (* [MRVDRV_MAX_BSSID_LIST] *)
  num_in_scan_table : Z;
  pchan_stats : list ChanStatistics_t;     (* [num_in_chan_stats] *)
  idx_chan_stats : Z;
  channels : cfp_adapter
}.
Definition num_in_chan_stats (a : scan_adapter) : Z := Z.of_nat (length (pchan_stats a)).
Definition set_table (t : list BSSDescriptor_t) (n : Z) (a : scan_adapter) : scan_adapter :=
  MkAdapter t n (pchan_stats a) (idx_chan_stats a) (channels a).
Definition set_stats (l : list ChanStatistics_t) (i : Z) (a : scan_adapter) : scan_adapter :=
  MkAdapter (pscan_table a) (num_in_scan_table a) l i (channels a).

Definition s8 (z : Z) : Z := let r := u8 z in if r <? 128 then r else r - 256.

(** ** Channel statistics *)

(** The statistics in ten bytes; the two fields after them are kept. *)
Definition read_stats (bs : list Z) (old : ChanStatistics_t) : ChanStatistics_t :=
  match bs with
  | [c; b; f; n; t0; t1; d0; d1; y0; y1] =>
      MkStats c b f (s8 n) (of_le16 [t0; t1]) (of_le16 [d0; d1]) (of_le16 [y0; y1]) (min_rss old) (max_rss old)
  | _ => old
  end.
Fixpoint stats_loop (n : nat) (m : list Z) (p : Z) (a : scan_adapter) : outcome scan_adapter :=
  match n with
  | O => Ret a
  | S n' =>
      chan ← arr_get m p;
      if chan =? 0 then Ret a
      else if idx_chan_stats a >=? num_in_chan_stats a then Ret a
      else
        bs ← mem_read m p sizeof_chan_statistics;
        old ← arr_get (pchan_stats a) (idx_chan_stats a);
        l ← arr_set (pchan_stats a) (idx_chan_stats a) (read_stats bs old);
        stats_loop n' m (p + sizeof_chan_statistics) (set_stats l (u32 (idx_chan_stats a + 1)) a)
  end.
Definition wlan_update_chan_statistics (m : list Z) (tlv : Z) (a : scan_adapter) : outcome scan_adapter :=
  len ← mem_read_le16 m (tlv + 2);
  stats_loop (Z.to_nat (u8 (len / sizeof_chan_statistics))) m (tlv + 4) a.

(** ** Storing a descriptor *)
Definition adjust_pointers_to_internal_buffers (i : nat) (e : BSSDescriptor_t) : BSSDescriptor_t :=
  set_slots (map (fun s => MkSlot (saved s) (match pointer s with Some _ => Some (Entry i) | None => None end)) (slots e)) e.
Definition wlan_find_worst_network_in_list (t : list BSSDescriptor_t) (n : Z) : outcome Z :=
  e0 ← arr_get t 0;
  let fix loop (k : nat) (i worst worst_rssi : Z) : outcome Z :=
    match k with
    | O => Ret worst
    | S k' => e ← arr_get t i; if rssi e >? worst_rssi then loop k' (i + 1) i (rssi e) else loop k' (i + 1) worst worst_rssi
    end in
  loop (Z.to_nat (n - 1)) 1 0 (rssi e0).

(** The entry of the same access point: same address, and the same name or no
    name. *)
Definition same_network (e x : BSSDescriptor_t) : bool :=
  same_bytes (mac_address e) (mac_address x) &&
  (((ssid_len e =? ssid_len x) && same_bytes (take (Z.to_nat (ssid_len e)) (ssid e)) (take (Z.to_nat (ssid_len e)) (ssid x)))
   || forallb (Z.eqb 0) (take (Z.to_nat (ssid_len x)) (ssid x))).
(** The first entry from [i] on, of [n]; the index after them when there is none. *)
Fixpoint find_duplicate (n : nat) (t : list BSSDescriptor_t) (i : Z) (e : BSSDescriptor_t) : outcome Z :=
  match n with
  | O => Ret i
  | S n' => x ← arr_get t i; if same_network e x then Ret i else find_duplicate n' t (i + 1) e
  end.

(** Where the descriptor goes: the index in the table, which is beyond it when
    the table is full, the entry to replace then, and the number of entries;
    none when it is skipped. *)
Definition choose_entry (t : list BSSDescriptor_t) (num : Z) (e : BSSDescriptor_t) : outcome (option (Z * Z * Z)) :=
  bss_idx ← find_duplicate (Z.to_nat num) t 0 e;
  if bss_idx =? num then
    if bss_idx =? MRVDRV_MAX_BSSID_LIST then
      lowest ← wlan_find_worst_network_in_list t MRVDRV_MAX_BSSID_LIST; Ret (Some (bss_idx, lowest, num))
    else Ret (Some (bss_idx, 0, num + 1))
  else
    x ← arr_get t bss_idx;
    Ret (if negb (channel e =? channel x) && (rssi e >? rssi x) then None else Some (bss_idx, 0, num)).
Definition put_entry (t : list BSSDescriptor_t) (i : Z) (e : BSSDescriptor_t) : outcome (list BSSDescriptor_t) :=
  arr_set t i (adjust_pointers_to_internal_buffers (Z.to_nat i) e).
Definition store_entry (t : list BSSDescriptor_t) (bss_idx lowest : Z) (e : BSSDescriptor_t) : outcome (list BSSDescriptor_t) :=
  if bss_idx =? MRVDRV_MAX_BSSID_LIST then
    x ← arr_get t lowest; if rssi x >? rssi e then put_entry t lowest e else Ret t
  else put_entry t bss_idx e.

Definition radio_type_to_band (radio_type : Z) : Z := if radio_type =? 1 then BAND_A else BAND_G.
(** The band and the frequency of the channel. *)
Definition set_band_freq (c : cfp_adapter) (bd : Z) (e : BSSDescriptor_t) : outcome BSSDescriptor_t :=
  f ← wlan_find_cfp_by_band_and_channel c bd (channel e);
  Ret (set_freq (match f with Some x => CfpTables.freq x | None => 0 end) (set_bss_band bd e)).

(** ** The response of the scan command *)
Definition TLV_TYPE_TSFTIMESTAMP : Z := 0x113.
Definition TLV_TYPE_CHANNELBANDLIST : Z := 0x12a.
Definition TLV_TYPE_CHANNEL_STATS : Z := 0x1c6.
Definition TLV_TYPE_BSS_SCAN_RSP : Z := 0x156.
Definition TLV_TYPE_BSS_SCAN_INFO : Z := 0x157.
Definition sizeof_TlvHeader : Z := 4.
Definition S_DS_GEN : Z := 8.

(** The positions of the last TLV of each kind. *)
Record found_tlvs := MkTlvs { ptsf_tlv : option Z; pchan_band_tlv : option Z; pchanstats_tlv : option Z }.
Fixpoint tlv_loop (fuel : nat) (m : list Z) (p left : Z) (f : found_tlvs) : outcome found_tlvs :=
  match fuel with
  | O => Fault OutOfFuel
  | S fuel' =>
      if left <? sizeof_TlvHeader then Ret f
      else
        tlv_type ← mem_read_le16 m p;
        tlv_len ← mem_read_le16 m (p + 2);
        if sizeof_TlvHeader + tlv_len >? left then Ret f
        else
          tlv_loop fuel' m (p + sizeof_TlvHeader + tlv_len) (left - (sizeof_TlvHeader + tlv_len))
            (if tlv_type =? TLV_TYPE_TSFTIMESTAMP then MkTlvs (Some p) (pchan_band_tlv f) (pchanstats_tlv f)
             else if tlv_type =? TLV_TYPE_CHANNELBANDLIST then MkTlvs (ptsf_tlv f) (Some p) (pchanstats_tlv f)
             else if tlv_type =? TLV_TYPE_CHANNEL_STATS then MkTlvs (ptsf_tlv f) (pchan_band_tlv f) (Some p)
             else f)
  end.

Definition of_le64 (bs : list Z) : Z := foldr (fun b acc => b + 256 * acc) 0 bs.
(** What the TLVs say of record [idx]. *)
Definition add_tlv_info (m : list Z) (c : cfp_adapter) (f : found_tlvs) (idx : Z) (e : BSSDescriptor_t) : outcome BSSDescriptor_t :=
  e ← match ptsf_tlv f with
      | Some p => bs ← mem_read m (p + 4 + idx * 8) 8; Ret (set_network_tsf (of_le64 bs) e)
      | None => Ret e
      end;
  match pchan_band_tlv f with
  | Some p =>
      chan ← (if channel e =? 0 then arr_get m (p + 4 + idx * 2 + 1) else Ret (channel e));
      radio_type ← arr_get m (p + 4 + idx * 2);
      set_band_freq c (radio_type_to_band (Z.land radio_type 3)) (set_channel chan e)
  | None => set_band_freq c BAND_G e
  end.

(** The variables of the loop over the records. *)
Record scan_loop := MkLoop { table : list BSSDescriptor_t; num_in_table : Z; pbss_info : Z; bytes_left : Z; idx : Z }.
Definition scan_record (m : list Z) (c : cfp_adapter) (f : found_tlvs) (bgscan_roaming : bool) (s : scan_loop) : outcome scan_loop :=
  '(status, e, p, rest) ← wlan_interpret_bss_desc_with_ie m false (pbss_info s) (bytes_left s) cleared_bss;
  match status with
  | MLAN_STATUS_FAILURE => Ret (MkLoop (table s) (num_in_table s) p rest (idx s + 1))
  | MLAN_STATUS_SUCCESS =>
      o ← choose_entry (table s) (num_in_table s) e;
      match o with
      | None => Ret (MkLoop (table s) (num_in_table s) p rest (idx s))
      | Some (bss_idx, lowest, num) =>
          e ← add_tlv_info m c f (idx s) e;
          if bgscan_roaming && (num =? 2) then
            x ← arr_get (table s) 0;
            t ← (if rssi x >? rssi e then put_entry (table s) 0 e else Ret (table s));
            Ret (MkLoop t (num - 1) p rest (idx s))
          else t ← store_entry (table s) bss_idx lowest e; Ret (MkLoop t num p rest (idx s + 1))
      end
  end.
Fixpoint records_loop (fuel : nat) (m : list Z) (c : cfp_adapter) (f : found_tlvs) (bgscan_roaming : bool) (number_of_sets : Z) (s : scan_loop) :
    outcome scan_loop :=
  match fuel with
  | O => Fault OutOfFuel
  | S fuel' =>
      if (idx s <? number_of_sets) && negb (bytes_left s =? 0) then
        s' ← scan_record m c f bgscan_roaming s; records_loop fuel' m c f bgscan_roaming number_of_sets s'
      else Ret s
  end.
Definition records_fuel (left : Z) : nat := S (Z.to_nat left).

(** [resp] is the offset of the response in memory, and [size] the size it
    claims; [mem]: there is memory for a descriptor. *)
Definition wlan_ret_802_11_scan (m : list Z) (resp size : Z) (is_bgscan_resp roaming_enabled mem : bool) (a : scan_adapter) :
    outcome (mlan_status * scan_adapter) :=
  let pscan_rsp := resp + S_DS_GEN + (if is_bgscan_resp then 4 else 0) in
  left ← mem_read_le16 m pscan_rsp;
  number_of_sets ← arr_get m (pscan_rsp + 2);
  if (number_of_sets =? 0) && (left =? 0) then Ret (MLAN_STATUS_SUCCESS, a)
  else
    let tlv_buf_size := u32 (size - (left + 2 + 1 + S_DS_GEN)) in
    let tlv_buf_size := if is_bgscan_resp && (tlv_buf_size >? 4) then tlv_buf_size - 4 else tlv_buf_size in
    let buffer := pscan_rsp + 3 in
    f ← tlv_loop (S (length m)) m (buffer + left) tlv_buf_size (MkTlvs None None None);
    a ← match pchanstats_tlv f with Some p => wlan_update_chan_statistics m p a | None => Ret a end;
    if negb mem then Ret (MLAN_STATUS_FAILURE, a)
    else
      s ← records_loop (records_fuel left) m (channels a) f (is_bgscan_resp && roaming_enabled) number_of_sets
            (MkLoop (pscan_table a) (num_in_scan_table a) buffer left 0);
      Ret (MLAN_STATUS_SUCCESS, set_table (table s) (num_in_table s) a).

(** ** Scan results in events *)

(** The TLVs that belong to one record: the position of the information and of
    what follows, and the bytes left; [Some] of the last component says that
    the record counts. *)
Fixpoint info_loop (fuel : nat) (m : list Z) (p left left_tlv : Z) (info : option Z) : outcome (option Z * Z * Z * bool) :=
  match fuel with
  | O => Fault OutOfFuel
  | S fuel' =>
      if left_tlv <? sizeof_TlvHeader then Ret (info, p, left, true)
      else
        tlv_type ← mem_read_le16 m p;
        if tlv_type =? TLV_TYPE_BSS_SCAN_RSP then Ret (info, p, left, true)
        else
          tlv_len ← mem_read_le16 m (p + 2);
          if left_tlv <? sizeof_TlvHeader + tlv_len then Ret (info, p, left, false)
          else if (tlv_type =? TLV_TYPE_BSS_SCAN_INFO) && negb (tlv_len =? 16) then Ret (Some p, p, left, true)
          else
            info_loop fuel' m (p + sizeof_TlvHeader + tlv_len) (u32 (left - (tlv_len + sizeof_TlvHeader)))
              (left_tlv - (tlv_len + sizeof_TlvHeader)) (if tlv_type =? TLV_TYPE_BSS_SCAN_INFO then Some p else info)
  end.
Definition s16_of (bs : list Z) : Z := s16 (of_le16 bs).
(** What the information TLV says. *)
Definition add_scan_info (m : list Z) (c : cfp_adapter) (info : option Z) (e : BSSDescriptor_t) : outcome BSSDescriptor_t :=
  match info with
  | None => set_band_freq c BAND_G e
  | Some p =>
      r ← mem_read m (p + 4) 2;
      tsf ← mem_read m (p + 12) 8;
      bd ← arr_get m (p + 9);
      chan ← (if channel e =? 0 then arr_get m (p + 10) else Ret (channel e));
      set_band_freq c (radio_type_to_band bd) (set_channel chan (set_network_tsf (of_le64 tsf) (set_rssi (- s16_of r) e)))
  end.
(** A descriptor put in the table, with what [info] adds when it has a place. *)
Definition offer (info : BSSDescriptor_t -> outcome BSSDescriptor_t) (e : BSSDescriptor_t) (t : list BSSDescriptor_t) (num : Z) :
    outcome (list BSSDescriptor_t * Z) :=
  o ← choose_entry t num e;
  match o with
  | None => Ret (t, num)
  | Some (bss_idx, lowest, num) => e ← info e; t ← store_entry t bss_idx lowest e; Ret (t, num)
  end.
(** One record; [false]: the loop ends. *)
Definition ext_record (m : list Z) (c : cfp_adapter) (s : scan_loop) : outcome (bool * scan_loop) :=
  tlv_type ← mem_read_le16 m (pbss_info s);
  tlv_len ← mem_read_le16 m (pbss_info s + 2);
  if bytes_left s <? sizeof_TlvHeader + tlv_len then Ret (false, s)
  else if negb (tlv_type =? TLV_TYPE_BSS_SCAN_RSP) then Ret (false, s)
  else
    '(info, ptlv, rest, counts) ← info_loop (S (length m)) m (pbss_info s + sizeof_TlvHeader + tlv_len) (bytes_left s)
                                    (bytes_left s - (tlv_len + sizeof_TlvHeader)) None;
    if negb counts then Ret (false, MkLoop (table s) (num_in_table s) ptlv rest (idx s))
    else
      '(status, e, _, rest) ← wlan_interpret_bss_desc_with_ie m true (pbss_info s + 2) (u32 (rest - 2)) cleared_bss;
      match status with
      | MLAN_STATUS_FAILURE => Ret (true, MkLoop (table s) (num_in_table s) ptlv rest (idx s + 1))
      | MLAN_STATUS_SUCCESS =>
          '(t, num) ← offer (add_scan_info m c info) e (table s) (num_in_table s);
          Ret (true, MkLoop t num ptlv rest (idx s + 1))
      end.
Fixpoint ext_loop (fuel : nat) (m : list Z) (c : cfp_adapter) (number_of_sets : Z) (s : scan_loop) : outcome scan_loop :=
  match fuel with
  | O => Fault OutOfFuel
  | S fuel' =>
      if (idx s <? number_of_sets) && (bytes_left s >? sizeof_TlvHeader) then
        '(more, s') ← ext_record m c s; if more : bool then ext_loop fuel' m c number_of_sets s' else Ret s'
      else Ret s
  end.
Definition wlan_parse_ext_scan_result (m : list Z) (number_of_sets pscan_resp scan_resp_size : Z) (mem : bool) (a : scan_adapter) :
    outcome (mlan_status * scan_adapter) :=
  if (number_of_sets =? 0) && (scan_resp_size =? 0) then Ret (MLAN_STATUS_SUCCESS, a)
  else if negb mem then Ret (MLAN_STATUS_FAILURE, a)
  else
    s ← ext_loop (S (Z.to_nat number_of_sets)) m (channels a) number_of_sets
          (MkLoop (pscan_table a) (num_in_scan_table a) pscan_resp scan_resp_size 0);
    Ret (MLAN_STATUS_SUCCESS, set_table (table s) (num_in_table s) a).
Definition wlan_handle_event_ext_scan_report (m : list Z) (pmbuf : Z) (mem : bool) (a : scan_adapter) : outcome (mlan_status * scan_adapter) :=
  buf_size ← mem_read_le16 m (pmbuf + 8);
  num_of_set ← arr_get m (pmbuf + 10);
  wlan_parse_ext_scan_result m num_of_set (pmbuf + 11) buf_size mem a.

(** ** When the scan is complete *)
Fixpoint first_stats (f : ChanStatistics_t -> bool) (l : list ChanStatistics_t) : option ChanStatistics_t :=
  match l with [] => None | s :: l' => if f s then Some s else first_stats f l' end.
Definition wlan_get_chan_load (a : scan_adapter) (ch : Z) : Z :=
  match first_stats (fun s => (st_chan_num s =? ch) && negb (cca_scan_duration s =? 0)) (pchan_stats a) with
  | Some s => u16 (cca_busy_duration s * 100 / cca_scan_duration s)
  | None => 0
  end.
Definition wlan_get_chan_noise (a : scan_adapter) (ch : Z) : Z :=
  match first_stats (fun s => (st_chan_num s =? ch) && negb (noise s =? 0)) (pchan_stats a) with
  | Some s => u16 (noise s)
  | None => 0
  end.
(** The least or the greatest signal strength of a channel. *)
Definition wlan_get_chan_rssi (a : scan_adapter) (ch : Z) (min_flag : bool) : Z :=
  foldl (fun r e => if channel e =? ch then if r =? 0 then u8 (rssi e) else u8 (if min_flag then Z.min r (rssi e) else Z.max r (rssi e)) else r)
    0 (take (Z.to_nat (num_in_scan_table a)) (pscan_table a)).
Definition update_rss (a : scan_adapter) (s : ChanStatistics_t) : ChanStatistics_t :=
  if negb (st_chan_num s =? 0) && negb (cca_scan_duration s =? 0) then
    let min_rssi := s8 (- wlan_get_chan_rssi a (st_chan_num s) false) in
    let max_rssi := s8 (- wlan_get_chan_rssi a (st_chan_num s) true) in
    let low := s8 (min_rssi - noise s) in
    let high := s8 (max_rssi - noise s) in
    MkStats (st_chan_num s) (bandcfg s) (st_flags s) (noise s) (total_networks s) (cca_scan_duration s) (cca_busy_duration s)
      (if low >? 0 then low else 0) (if high >? 0 then high else 0)
  else s.
Definition wlan_update_chan_rssi (a : scan_adapter) : scan_adapter := set_stats (map (update_rss a) (pchan_stats a)) (idx_chan_stats a) a.
(** The loop of [wlan_scan_process_results]. *)
Definition update_results (a : scan_adapter) : scan_adapter :=
  let n := Z.to_nat (num_in_scan_table a) in
  let update e := set_chan_noise (wlan_get_chan_noise a (channel e)) (set_chan_load (wlan_get_chan_load a (channel e)) e) in
  wlan_update_chan_rssi (set_table (map update (take n (pscan_table a)) ++ drop n (pscan_table a)) (num_in_scan_table a) a).
