(* ===== verification/ScanTableProps.v ===== *)
(** * The table of access points: lemmas

    What keeps the table well formed, and what an offered descriptor does to it. *)
From stdpp Require Import list.
From S2P Require Import Prelude Cfp ScanData ScanParse ScanParseProps ScanTable.
Open Scope Z_scope.

(** ** The channels of the region *)
Definition channels_ok (c : cfp_adapter) : Prop :=
  Forall (fun rc => forall p, pcfp rc = Some p -> (0 < length (deref c p))%nat /\ num_cfp rc <= Z.of_nat (length (deref c p)))
    (region_channel c ++ universal_channel c).
Lemma scan_cfp_ret f t n : (n <= length t)%nat -> exists r, scan_cfp f t n = Ret r.
Proof.
  revert t. induction n as [| n IH]; intros t Hn; [destruct t; by eexists |]. destruct t as [| e t]; [simpl in Hn; lia |]. cbn [scan_cfp].
  destruct (f e); [by eexists |]. apply IH. simpl in Hn. lia.
Qed.
Lemma region_loop_ret c rcs bd ch : (forall rc, rc ∈ rcs -> forall p, pcfp rc = Some p -> (0 < length (deref c p))%nat /\ num_cfp rc <= Z.of_nat (length (deref c p))) ->
  exists r, region_loop c rcs bd (pick_channel ch) = Ret r.
Proof.
  induction rcs as [| rc rcs IH]; intros H; [by eexists |]. cbn [region_loop]. assert (Hrcs := IH ltac:(intros ? ?; apply H; by right)).
  destruct (pcfp rc) as [p |] eqn:Ep; [| done]. destruct (_ && _); [| done]. destruct (H rc ltac:(by left) p Ep) as [H0 Hn].
  assert (exists r, pick_channel ch rc (deref c p) = Ret r) as [r Er].
  { unfold pick_channel. destruct (ch =? FIRST_VALID_CHANNEL); [| apply scan_cfp_ret; lia].
    destruct (arr_get_total (deref c p) 0) as (x & Ex & _); [lia |]. rewrite Ex, bind_ret. by eexists. }
  rewrite Er, bind_ret. destruct r; [by eexists | done].
Qed.
Lemma find_cfp_ret c bd ch : channels_ok c -> exists r, wlan_find_cfp_by_band_and_channel c bd ch = Ret r.
Proof.
  intros H. unfold channels_ok in H. rewrite list.Forall_forall in H. apply region_loop_ret. intros rc Hrc. apply H.
  apply elem_of_app. destruct (stations_11d c >? 0); [right | left]; apply elem_of_take in Hrc as (i & Hi & _); by eapply list_elem_of_lookup_2.
Qed.
Lemma set_band_freq_ret c bd e : channels_ok c -> bss_ok e -> exists e', set_band_freq c bd e = Ret e' /\ bss_ok e' /\ slots e' = slots e /\
  rssi e' = rssi e /\ channel e' = channel e /\ mac_address e' = mac_address e /\ ssid e' = ssid e /\ ssid_len e' = ssid_len e.
Proof.
  intros Hc He. unfold set_band_freq. destruct (find_cfp_ret c bd (channel e) Hc) as [r Er]. rewrite Er, bind_ret.
  eexists. split; [done |]. split; [by bss_same He | done].
Qed.

(** ** The table *)
Definition own_pointers (i : nat) (e : BSSDescriptor_t) : Prop :=
  Forall (fun s => pointer s = None \/ pointer s = Some (Entry i)) (slots e).
Record table_ok (t : list BSSDescriptor_t) (num : Z) : Prop := MkTableOk {
  tbl_length : length t = 20%nat;
  tbl_num : 0 <= num <= MRVDRV_MAX_BSSID_LIST;
  tbl_entries : Forall bss_ok t;
  tbl_own : forall i e, t !! i = Some e -> own_pointers i e
}.
Lemma adjust_own i e : own_pointers i (adjust_pointers_to_internal_buffers i e).
Proof. unfold own_pointers. apply list.Forall_fmap, list.Forall_true. intros s. cbn. destruct (pointer s); auto. Qed.
Lemma adjust_ok i e : bss_ok e -> bss_ok (adjust_pointers_to_internal_buffers i e).
Proof.
  intros He. bss_same He. cbn [slots adjust_pointers_to_internal_buffers set_slots]. by rewrite map_map.
Qed.
Lemma entry_at t num i : table_ok t num -> 0 <= i < 20 -> exists e, arr_get t i = Ret e /\ t !! Z.to_nat i = Some e /\ bss_ok e.
Proof.
  intros H Hi. destruct (arr_get_total t i) as (e & E & El); [rewrite (tbl_length _ _ H); lia |]. exists e. split; [done |]. split; [done |].
  eapply Forall_lookup_1; [apply (tbl_entries _ _ H) | done].
Qed.
Lemma put_entry_ok t num i e : table_ok t num -> bss_ok e -> 0 <= i < 20 ->
  put_entry t i e = Ret (<[Z.to_nat i := adjust_pointers_to_internal_buffers (Z.to_nat i) e]> t) /\
  table_ok (<[Z.to_nat i := adjust_pointers_to_internal_buffers (Z.to_nat i) e]> t) num.
Proof.
  intros H He Hi. pose proof (tbl_length _ _ H) as Hl. split; [apply arr_set_ret; lia |]. constructor.
  - by rewrite length_insert.
  - apply H.
  - apply Forall_insert; [apply H | by apply adjust_ok].
  - intros j x Hj. destruct (decide (j = Z.to_nat i)) as [-> | Hne].
    + rewrite list_lookup_insert_eq in Hj by lia. injection Hj as <-. apply adjust_own.
    + rewrite list_lookup_insert_ne in Hj by done. by apply (tbl_own _ _ H).
Qed.

(** ** The worst entry and the duplicates *)
Definition worst_loop (t : list BSSDescriptor_t) : nat -> Z -> Z -> Z -> outcome Z :=
  fix loop (k : nat) (i worst worst_rssi : Z) : outcome Z :=
    match k with
    | O => Ret worst
    | S k' => e ← arr_get t i; if rssi e >? worst_rssi then loop k' (i + 1) i (rssi e) else loop k' (i + 1) worst worst_rssi
    end.
Lemma worst_loop_spec t k : forall i w ew, t !! Z.to_nat w = Some ew -> 0 <= w < i -> (Z.to_nat i + k = length t)%nat ->
  (forall j e, (j < Z.to_nat i)%nat -> t !! j = Some e -> rssi e <= rssi ew) ->
  exists r er, worst_loop t k i w (rssi ew) = Ret r /\ t !! Z.to_nat r = Some er /\ 0 <= r < Z.of_nat (length t) /\
    (forall j e, t !! j = Some e -> rssi e <= rssi er).
Proof.
  induction k as [| k IH]; intros i w ew Ew Hw Hk Hmax.
  - exists w, ew. split; [done |]. split; [done |]. split; [lia |]. intros j e Hj. apply (Hmax j); [| done]. apply lookup_lt_Some in Hj. lia.
  - cbn [worst_loop]. destruct (arr_get_total t i) as (e & E & Ee); [lia |]. rewrite E, bind_ret. rewrite Z.gtb_ltb. destruct (Z.ltb_spec (rssi ew) (rssi e)).
    + apply IH; [done | lia | lia |]. intros j x Hj Hx. destruct (decide (j = Z.to_nat i)) as [-> |].
      * rewrite Ee in Hx. injection Hx as ->. lia.
      * assert (rssi x <= rssi ew) by (apply (Hmax j); [lia | done]). lia.
    + apply IH; [done | lia | lia |]. intros j x Hj Hx. destruct (decide (j = Z.to_nat i)) as [-> |].
      * rewrite Ee in Hx. injection Hx as ->. lia.
      * apply (Hmax j); [lia | done].
Qed.
Lemma worst_spec t num : table_ok t num -> exists r er, wlan_find_worst_network_in_list t MRVDRV_MAX_BSSID_LIST = Ret r /\
  t !! Z.to_nat r = Some er /\ 0 <= r < 20 /\ (forall j e, t !! j = Some e -> rssi e <= rssi er).
Proof.
  intros H. pose proof (tbl_length _ _ H) as Hl. unfold wlan_find_worst_network_in_list. destruct (arr_get_total t 0) as (e0 & E0 & L0); [lia |].
  rewrite E0, bind_ret. destruct (worst_loop_spec t 19 1 0 e0) as (r & er & Er & Hr); [done | lia | rewrite Hl; done | |].
  - intros j e Hj Ej. assert (j = Z.to_nat 0) as -> by lia. rewrite L0 in Ej. injection Ej as ->. lia.
  - exists r, er. rewrite Hl in Hr. split; [exact Er |]. exact Hr.
Qed.
Lemma find_duplicate_spec n t e : forall i, 0 <= i -> (Z.to_nat i + n <= length t)%nat ->
  exists r, find_duplicate n t i e = Ret r /\ i <= r <= i + Z.of_nat n /\
    (forall j x, (Z.to_nat i <= j < Z.to_nat r)%nat -> t !! j = Some x -> same_network e x = false) /\
    (r < i + Z.of_nat n -> exists x, t !! Z.to_nat r = Some x /\ same_network e x = true).
Proof.
  induction n as [| n IH]; intros i Hi Hl; cbn [find_duplicate].
  - exists i. split; [done |]. split; [lia |]. split; [lia |]. lia.
  - destruct (arr_get_total t i) as (x & E & Ex); [lia |]. rewrite E, bind_ret. destruct (same_network e x) eqn:Es.
    + exists i. split; [done |]. split; [lia |]. split; [lia |]. intros _. by exists x.
    + destruct (IH (i + 1) ltac:(lia) ltac:(lia)) as (r & Er & Hr & Hno & Hyes). exists r. split; [done |]. split; [lia |]. split.
      * intros j y Hj Hy. destruct (decide (j = Z.to_nat i)) as [-> |]; [rewrite Ex in Hy; by injection Hy as <- |]. apply (Hno j); [lia | done].
      * intros Hlt. apply Hyes. lia.
Qed.

(** ** Choosing and storing *)
Definition new_network (t : list BSSDescriptor_t) (num : Z) (e : BSSDescriptor_t) : Prop :=
  forall j x, (j < Z.to_nat num)%nat -> t !! j = Some x -> same_network e x = false.
(** The three places of a descriptor that is not skipped. *)
Inductive chosen (t : list BSSDescriptor_t) (num : Z) (e : BSSDescriptor_t) : Z * Z * Z -> Prop :=
  | ChosenDuplicate i x : 0 <= i < num -> t !! Z.to_nat i = Some x -> same_network e x = true ->
      (forall j y, (j < Z.to_nat i)%nat -> t !! j = Some y -> same_network e y = false) ->
      (channel e <> channel x -> rssi e <= rssi x) -> chosen t num e (i, 0, num)
  | ChosenAppend : num < MRVDRV_MAX_BSSID_LIST -> new_network t num e -> chosen t num e (num, 0, num + 1)
  | ChosenFull lowest x : num = MRVDRV_MAX_BSSID_LIST -> new_network t num e -> 0 <= lowest < 20 -> t !! Z.to_nat lowest = Some x ->
      (forall j y, t !! j = Some y -> rssi y <= rssi x) -> chosen t num e (MRVDRV_MAX_BSSID_LIST, lowest, num).
Lemma choose_spec t num e : table_ok t num ->
  (exists r, choose_entry t num e = Ret (Some r) /\ chosen t num e r) \/
  (exists i x, choose_entry t num e = Ret None /\ 0 <= i < num /\ t !! Z.to_nat i = Some x /\ same_network e x = true /\
     channel e <> channel x /\ rssi x < rssi e).
Proof.
  intros H. pose proof (tbl_num _ _ H) as Hn. pose proof (tbl_length _ _ H) as Hl. unfold MRVDRV_MAX_BSSID_LIST in Hn.
  destruct (find_duplicate_spec (Z.to_nat num) t e 0) as (r & Er & Hr & Hno & Hyes); [done | lia |].
  unfold choose_entry. rewrite Er, bind_ret. destruct (Z.eqb_spec r num) as [-> |].
  - assert (Hnew : new_network t num e) by (intros j x Hj; apply Hno; lia). left. destruct (Z.eqb_spec num MRVDRV_MAX_BSSID_LIST) as [-> |].
    + destruct (worst_spec t _ H) as (w & ew & Ew & Lw & Hw & Hmax). rewrite Ew, bind_ret. eexists. split; [done |]. by eapply ChosenFull.
    + eexists. split; [done |]. constructor; [unfold MRVDRV_MAX_BSSID_LIST in *; lia | done].
  - destruct Hyes as (x & Ex & Es); [lia |].
    assert (Eg : arr_get t r = Ret x) by (apply arr_get_ret; split; [lia | done]). rewrite Eg, bind_ret.
    rewrite Z.gtb_ltb. destruct (Z.eqb_spec (channel e) (channel x)), (Z.ltb_spec (rssi x) (rssi e)); cbn [negb andb].
    1, 2, 4: left; eexists; split; [done |]; eapply ChosenDuplicate; [lia | done | done | intros j y Hj; apply Hno; lia | lia].
    right. exists r, x. split; [done |]. split; [lia | done].
Qed.
Lemma store_ok t num e e' r : table_ok t num -> chosen t num e r -> bss_ok e' ->
  exists t', store_entry t r.1.1 r.1.2 e' = Ret t' /\ table_ok t' r.2.
Proof.
  intros H Hc He. pose proof (tbl_num _ _ H) as Hn. pose proof (tbl_length _ _ H) as Hl. unfold MRVDRV_MAX_BSSID_LIST in Hn.
  destruct Hc as [i x Hi Ex | Hlt Hnew | lowest x -> Hnew Hlow Ex Hmax]; cbn [fst snd]; unfold store_entry, MRVDRV_MAX_BSSID_LIST in *.
  - rewrite (proj2 (Z.eqb_neq _ _)) by lia. destruct (put_entry_ok t num i e' H He ltac:(lia)) as [E Ht]. rewrite E. by eexists.
  - rewrite (proj2 (Z.eqb_neq _ _)) by lia. destruct (put_entry_ok t num num e' H He ltac:(lia)) as [E Ht]. rewrite E. eexists. split; [done |].
    destruct Ht as [A B C D]. constructor; [done | unfold MRVDRV_MAX_BSSID_LIST; lia | done | done].
  - cbn [Z.eqb Pos.eqb]. rewrite (proj2 (arr_get_ret t lowest x)) by (split; [lia | done]). rewrite bind_ret. destruct (rssi x >? rssi e').
    + destruct (put_entry_ok t 20 lowest e' H He ltac:(lia)) as [E Ht]. rewrite E. by eexists.
    + by eexists.
Qed.

(** ** One record *)

(** The TLVs have an entry for each of [n] records. *)
Definition tlvs_cover (m : list Z) (f : found_tlvs) (n : Z) : Prop :=
  (forall p, ptsf_tlv f = Some p -> 0 <= p /\ p + 4 + 8 * n <= Z.of_nat (length m)) /\
  (forall p, pchan_band_tlv f = Some p -> 0 <= p /\ p + 4 + 2 * n <= Z.of_nat (length m)).
Lemma add_tlv_info_ok m c f n i e : channels_ok c -> tlvs_cover m f n -> 0 <= i < n -> bss_ok e ->
  exists e', add_tlv_info m c f i e = Ret e' /\ bss_ok e' /\ rssi e' = rssi e /\ mac_address e' = mac_address e /\ ssid e' = ssid e /\ ssid_len e' = ssid_len e.
Proof.
  intros Hc [Ht Hb] Hi He. unfold add_tlv_info.
  assert (exists e1, match ptsf_tlv f with Some p => bs ← mem_read m (p + 4 + i * 8) 8; Ret (set_network_tsf (of_le64 bs) e) | None => Ret e end = Ret e1 /\
    bss_ok e1 /\ rssi e1 = rssi e /\ mac_address e1 = mac_address e /\ ssid e1 = ssid e /\ ssid_len e1 = ssid_len e /\ channel e1 = channel e) as (e1 & E1 & He1 & H1 & H2 & H3 & H4 & H5).
  { destruct (ptsf_tlv f) as [p |]; [| by exists e]. destruct (Ht p eq_refl). reads_next. eexists. split; [done |]. split; [by bss_same He | done]. }
  rewrite E1, bind_ret. destruct (pchan_band_tlv f) as [p |].
  - destruct (Hb p eq_refl). destruct (arr_get_total m (p + 4 + i * 2 + 1)) as (ch & Ech & _); [lia |].
    destruct (arr_get_total m (p + 4 + i * 2)) as (rt & Ert & _); [lia |].
    assert (exists ch', (if channel e1 =? 0 then arr_get m (p + 4 + i * 2 + 1) else Ret (channel e1)) = Ret ch') as [ch' E]
      by (destruct (channel e1 =? 0); [by exists ch | by eexists]).
    rewrite E, bind_ret, Ert, bind_ret.
    destruct (set_band_freq_ret c (radio_type_to_band (Z.land rt 3)) (set_channel ch' e1) Hc) as (e2 & E2 & He2 & _ & F1 & _ & F2 & F3 & F4); [by bss_same He1 |].
    exists e2. split; [done |]. split; [done |]. rewrite F1, F2, F3, F4. done.
  - destruct (set_band_freq_ret c BAND_G e1 Hc He1) as (e2 & E2 & He2 & _ & F1 & _ & F2 & F3 & F4). exists e2. split; [done |]. split; [done |].
    by rewrite F1, F2, F3, F4.
Qed.
Record loop_ok (m : list Z) (s : scan_loop) : Prop := MkLoopOk {
  lp_table : table_ok (table s) (num_in_table s);
  lp_position : 0 <= pbss_info s;
  lp_left : 0 <= bytes_left s;
  lp_room : pbss_info s + bytes_left s + 28 <= Z.of_nat (length m);
  lp_idx : 0 <= idx s
}.
(** What the parser makes of a record, and of the elements in it. *)
Definition record_good (m : list Z) (ext : bool) (p left : Z) : Prop :=
  exists status e next rest, wlan_interpret_bss_desc_with_ie m ext p left cleared_bss = Ret (status, e, next, rest) /\
    bss_ok e /\ next + rest = p + left /\ 0 <= rest /\ (0 < left -> rest < left).
Lemma scan_record_ok m c f br n s : loop_ok m s -> channels_ok c -> tlvs_cover m f n -> idx s < n -> 0 < bytes_left s ->
  record_good m false (pbss_info s) (bytes_left s) ->
  exists s', scan_record m c f br s = Ret s' /\ loop_ok m s' /\ bytes_left s' < bytes_left s /\
    (exists st e, wlan_interpret_bss_desc_with_ie m false (pbss_info s) (bytes_left s) cleared_bss = Ret (st, e, pbss_info s', bytes_left s')).
Proof.
  intros [Ht Hp Hl Hroom Hi] Hc Hcov Hidx Hpos (st & e & next & rest & E & He & Hsum & H0 & Hdec). unfold scan_record. rewrite E, bind_ret.
  assert (Hok : forall t num i, table_ok t num -> 0 <= i -> loop_ok m (MkLoop t num next rest i))
    by (intros; constructor; cbn; [done | lia | done | lia | done]).
  assert (Hfin : forall t num i, table_ok t num -> 0 <= i -> exists s', Ret (MkLoop t num next rest i) = Ret s' /\ loop_ok m s' /\ bytes_left s' < bytes_left s /\
    exists st' e', @Ret (mlan_status * BSSDescriptor_t * Z * Z) (st, e, next, rest) = Ret (st', e', pbss_info s', bytes_left s')).
  { intros. eexists. split; [done |]. split; [by apply Hok |]. split; [cbn; lia |]. by exists st, e. }
  destruct st; [| apply Hfin; [done | lia]].
  destruct (choose_spec _ _ e Ht) as [(r & Er & Hr) | (i & x & Er & _)]; rewrite Er, bind_ret; [| by apply Hfin].
  destruct (add_tlv_info_ok m c f n (idx s) e Hc Hcov ltac:(lia) He) as (e' & Ee & He' & _). destruct r as [[bss_idx lowest] num].
  rewrite Ee, bind_ret. destruct (store_ok _ _ _ e' _ Ht Hr He') as (t' & Es & Ht'). cbn [fst snd] in Es, Ht'.
  destruct (br && (num =? 2)) eqn:Eb.
  - apply andb_true_iff in Eb as [_ ->%Z.eqb_eq]. destruct (entry_at _ _ 0 Ht) as (x & Ex & _); [lia |]. rewrite Ex, bind_ret.
    assert (Ht1 : table_ok (table s) (2 - 1)) by (destruct Ht as [A B C D]; constructor; [done | unfold MRVDRV_MAX_BSSID_LIST; lia | done | done]).
    destruct (put_entry_ok _ _ 0 e' Ht1 He' ltac:(lia)) as [Ep Hp1].
    destruct (rssi x >? rssi e'); [rewrite Ep |]; rewrite bind_ret; by apply Hfin.
  - rewrite Es, bind_ret. apply Hfin; [done | lia].
Qed.

(** The records of a response, one after the other. *)
Inductive record_at (m : list Z) (ext : bool) : Z -> Z -> Z -> Z -> Prop :=
  | RecordHere p left : record_at m ext p left p left
  | RecordNext p left st e next rest q n : wlan_interpret_bss_desc_with_ie m ext p left cleared_bss = Ret (st, e, next, rest) ->
      record_at m ext next rest q n -> record_at m ext p left q n.
Lemma records_loop_ok m c f br n fuel : forall s, loop_ok m s -> channels_ok c -> tlvs_cover m f n -> (Z.to_nat (bytes_left s) < fuel)%nat ->
  (forall q left, record_at m false (pbss_info s) (bytes_left s) q left -> 0 <= q -> 0 <= left -> q + left + 28 <= Z.of_nat (length m) -> record_good m false q left) ->
  exists s', records_loop fuel m c f br n s = Ret s' /\ loop_ok m s'.
Proof.
  induction fuel as [| fuel IH]; intros s Hs Hc Hcov Hf Hgood; [lia |]. cbn [records_loop]. pose proof Hs as [Ht Hp Hl Hroom Hi].
  destruct (Z.ltb_spec (idx s) n); cbn [andb]; [| by exists s]. destruct (Z.eqb_spec (bytes_left s) 0); cbn [negb]; [by exists s |].
  destruct (scan_record_ok m c f br n s Hs Hc Hcov) as (s1 & E1 & Hs1 & Hdec & st & e & E); [done | lia | by apply Hgood; [constructor | ..] |].
  rewrite E1, bind_ret. apply IH; [done | done | done | destruct Hs1; lia |]. intros q left Hq. apply Hgood. by eapply RecordNext.
Qed.
