(* ===== verification/ScanTableTheorems.v ===== *)
(** * The table of access points: theorems

    Bounds for every response, the best networks kept, and what a skipped
    duplicate does to the records after it. *)
From stdpp Require Import list sorting.
From S2P Require Import Prelude Cfp ScanData ScanParse ScanParseProps ScanParseTheorems ScanTable ScanTableProps.
Open Scope Z_scope.

(** ** The TLVs after the records *)

(** A TLV at [p], complete before [bound]. *)
Definition tlv_within (m : list Z) (bound p : Z) : Prop :=
  0 <= p /\ exists len, mem_read_le16 m (p + 2) = Ret len /\ 0 <= len /\ p + 4 + len <= bound.
Definition found_within (m : list Z) (bound : Z) (f : found_tlvs) : Prop :=
  (forall p, ptsf_tlv f = Some p -> tlv_within m bound p) /\ (forall p, pchan_band_tlv f = Some p -> tlv_within m bound p) /\
  (forall p, pchanstats_tlv f = Some p -> tlv_within m bound p).
Lemma tlv_loop_total m bound fuel : bytes m -> bound <= Z.of_nat (length m) -> forall p left f,
  0 <= p -> p + left = bound -> (Z.to_nat left < fuel)%nat -> found_within m bound f ->
  exists f', tlv_loop fuel m p left f = Ret f' /\ found_within m bound f'.
Proof.
  intros Hm Hb. induction fuel as [| fuel IH]; intros p left f Hp Hsum Hf Hw; [lia |]. cbn [tlv_loop]. unfold sizeof_TlvHeader.
  destruct (Z.ltb_spec left 4); [by exists f |].
  destruct (mem_read_le16_total m p Hm) as (t & Et & _); [lia.. |]. rewrite Et, bind_ret.
  destruct (mem_read_le16_total m (p + 2) Hm) as (n & En & Hn); [lia.. |]. rewrite En, bind_ret. rewrite Z.gtb_ltb.
  destruct (Z.ltb_spec left (4 + n)); [by exists f |]. apply IH; [lia.. |].
  assert (Hh : tlv_within m bound p) by (split; [done |]; exists n; split; [done | lia]). destruct Hw as (A & B & C).
  destruct (t =? TLV_TYPE_TSFTIMESTAMP); [| destruct (t =? TLV_TYPE_CHANNELBANDLIST); [| destruct (t =? TLV_TYPE_CHANNEL_STATS)]];
    (split; [| split]); cbn; intros q Hq; try injection Hq as <-; auto.
Qed.
Lemma stats_loop_total m n : bytes m -> forall p a, 0 <= p -> p + 10 * Z.of_nat n <= Z.of_nat (length m) -> 0 <= idx_chan_stats a ->
  exists a', stats_loop n m p a = Ret a' /\ pscan_table a' = pscan_table a /\ num_in_scan_table a' = num_in_scan_table a /\ channels a' = channels a /\
    length (pchan_stats a') = length (pchan_stats a) /\ 0 <= idx_chan_stats a'.
Proof.
  intros Hm. induction n as [| n IH]; intros p a Hp Hl Hi; [by exists a |]. cbn [stats_loop].
  destruct (arr_get_total m p) as (ch & Ec & _); [lia |]. rewrite Ec, bind_ret. destruct (ch =? 0); [by exists a |].
  rewrite Z.geb_leb. unfold num_in_chan_stats. destruct (Z.leb_spec (Z.of_nat (length (pchan_stats a))) (idx_chan_stats a)); [by exists a |].
  unfold sizeof_chan_statistics. reads_next. destruct (arr_get_total (pchan_stats a) (idx_chan_stats a)) as (old & Eo & _); [lia |].
  rewrite Eo, bind_ret, arr_set_ret, bind_ret by lia. set (l := <[_ := _]> (pchan_stats a)).
  destruct (IH (p + 10) (set_stats l (u32 (idx_chan_stats a + 1)) a)) as (a' & Ea & H1 & H2 & H3 & H4 & H5); [lia | lia | |].
  { cbn [idx_chan_stats set_stats]. apply Z.mod_pos_bound. lia. }
  exists a'. split; [exact Ea |]. rewrite H1, H2, H3, H4. cbn [pchan_stats set_stats]. subst l. by rewrite length_insert.
Qed.
Lemma chan_statistics_total m p bound a : bytes m -> bound <= Z.of_nat (length m) -> tlv_within m bound p -> 0 <= idx_chan_stats a ->
  exists a', wlan_update_chan_statistics m p a = Ret a' /\ pscan_table a' = pscan_table a /\ num_in_scan_table a' = num_in_scan_table a /\ channels a' = channels a.
Proof.
  intros Hm Hb (Hp & n & En & Hn & Hsz) Hi. unfold wlan_update_chan_statistics. rewrite En, bind_ret. unfold sizeof_chan_statistics.
  assert (0 <= wrap 8 (n / 10) <= n / 10) by (split; [apply Z.mod_pos_bound; lia | apply Z.mod_le; [apply Z.div_pos; lia | lia]]).
  pose proof (Z.mul_div_le n 10).
  destruct (stats_loop_total m (Z.to_nat (wrap 8 (n / 10))) Hm (p + 4) a) as (a' & E & H1 & H2 & H3 & _); [lia.. |]. by exists a'.
Qed.

(** ** Bounds *)

(** The buffer of a response, and the bytes of its TLVs. *)
Definition response_buffer (resp : Z) (is_bgscan_resp : bool) : Z := resp + S_DS_GEN + (if is_bgscan_resp then 4 else 0) + 3.
Definition tlv_bytes (size left : Z) (is_bgscan_resp : bool) : Z :=
  let n := u32 (size - (left + 2 + 1 + S_DS_GEN)) in if is_bgscan_resp && (n >? 4) then n - 4 else n.

(** C7: A response of the scan command is taken in without a read or a write
    outside its memory, and the loop over its records ends; the table is well
    formed after it: at most twenty entries, every field within its array, and
    the pointers of an entry lead into that entry, never into the released
    buffer the record was parsed in. This holds when the records and TLVs are
    within the response and 32 bytes of memory are behind it, when the two TLVs
    with an item for each record hold as many as there are records
    ([tlvs_cover]), and when the RSN elements of every record have at least 8
    bytes and at most 12 pairwise ciphers unless these reach the end of the element
    ([record_sane]). It fails only without memory for a descriptor, and then the
    table is as it was. *)
Theorem scan_response_keeps_table m resp size bg roaming mem a left n :
  bytes m -> table_ok (pscan_table a) (num_in_scan_table a) -> channels_ok (channels a) -> 0 <= idx_chan_stats a ->
  0 <= resp -> resp + size + 32 <= Z.of_nat (length m) -> left + 11 <= size < 2 ^ 32 ->
  mem_read_le16 m (response_buffer resp bg - 3) = Ret left -> arr_get m (response_buffer resp bg - 1) = Ret n ->
  (forall q k, record_at m false (response_buffer resp bg) left q k -> record_sane m false q) ->
  (forall f, tlv_loop (S (length m)) m (response_buffer resp bg + left) (tlv_bytes size left bg) (MkTlvs None None None) = Ret f -> tlvs_cover m f n) ->
  exists status a', wlan_ret_802_11_scan m resp size bg roaming mem a = Ret (status, a') /\
    table_ok (pscan_table a') (num_in_scan_table a') /\ channels a' = channels a /\
    (status = MLAN_STATUS_FAILURE -> mem = false /\ pscan_table a' = pscan_table a /\ num_in_scan_table a' = num_in_scan_table a).
Proof.
  intros Hm Ht Hc Hi Hp Hlen Hsize Eleft En Hsane Hcov. unfold wlan_ret_802_11_scan. fold (tlv_bytes size left bg).
  set (buffer := response_buffer resp bg) in *. assert (Hb : buffer = resp + S_DS_GEN + (if bg then 4 else 0) + 3) by done.
  clearbody buffer.
  assert (Hx : resp + 11 <= buffer <= resp + 15) by (rewrite Hb; unfold S_DS_GEN; destruct bg; lia).
  pose proof (proj1 (arr_get_ret _ _ _) En) as [_ Hn%lookup_lt_Some].
  assert (0 <= left) by (destruct (mem_read_le16_total m (buffer - 3) Hm) as (x & Ex & ?); [lia.. |]; rewrite Eleft in Ex; injection Ex as ->; lia).
  replace (resp + S_DS_GEN + (if bg then 4 else 0)) with (buffer - 3) by lia. rewrite Eleft, bind_ret.
  replace (buffer - 3 + 2) with (buffer - 1) by lia. rewrite En, bind_ret. replace (buffer - 3 + 3) with buffer by lia.
  destruct (_ && (left =? 0)); [by exists MLAN_STATUS_SUCCESS, a |]. fold (tlv_bytes size left bg).
  assert (Htlv : 0 <= tlv_bytes size left bg /\ buffer + left + tlv_bytes size left bg <= resp + size + 4).
  { unfold tlv_bytes, S_DS_GEN. unfold wrap. rewrite Z.mod_small by lia. rewrite Z.gtb_ltb.
    unfold S_DS_GEN in Hb. destruct bg; cbn [andb]; [destruct (Z.ltb_spec 4 (size - (left + 2 + 1 + 8))) |]; lia. }
  destruct (tlv_loop_total m (buffer + left + tlv_bytes size left bg) (S (length m)) Hm ltac:(lia) (buffer + left) (tlv_bytes size left bg) (MkTlvs None None None))
    as (f & Ef & Hf); [lia.. | done |]. rewrite Ef, bind_ret. specialize (Hcov f Ef).
  assert (exists a1, match pchanstats_tlv f with Some p => wlan_update_chan_statistics m p a | None => Ret a end = Ret a1 /\
    pscan_table a1 = pscan_table a /\ num_in_scan_table a1 = num_in_scan_table a /\ channels a1 = channels a) as (a1 & -> & E1 & E2 & E3).
  { destruct Hf as (_ & _ & Hf). destruct (pchanstats_tlv f) as [p |]; [| by exists a].
    eapply chan_statistics_total; [done | | by apply Hf | done]. lia. }
  rewrite bind_ret. destruct mem; cbn [negb]; [| exists MLAN_STATUS_FAILURE, a1; by rewrite E1, E2, E3]. rewrite E1, E2, E3.
  destruct (records_loop_ok m (channels a) f (bg && roaming) n (records_fuel left) (MkLoop (pscan_table a) (num_in_scan_table a) buffer left 0)) as (s' & Es & Hs').
  - constructor; cbn; [done | lia.. ].
  - done.
  - done.
  - unfold records_fuel. cbn. lia.
  - cbn. intros q k Hq Hq0 Hk Hroom. destruct (record_total m false q k cleared_bss Hm cleared_ok Hq0 Hk Hroom (Hsane q k Hq)) as (st & e & nx & rest & H1 & H2 & H3 & H4 & H5).
    exists st, e, nx, rest. done.
  - rewrite Es, bind_ret. eexists MLAN_STATUS_SUCCESS, _. split; [done |]. cbn [pscan_table num_in_scan_table set_table channels]. split; [apply Hs' | done].
Qed.

(** ** The networks kept *)

(** What makes an access point the same one, and its strength. *)
Definition identity (e : BSSDescriptor_t) : list Z * Z * list Z * Z := (mac_address e, ssid_len e, ssid e, rssi e).
Lemma same_network_identity e x x' : identity x = identity x' -> same_network e x = same_network e x'.
Proof. unfold identity, same_network. by intros [= -> -> -> _]. Qed.
Fixpoint offer_all (info : BSSDescriptor_t -> outcome BSSDescriptor_t) (es : list BSSDescriptor_t) (t : list BSSDescriptor_t) (num : Z) :
    outcome (list BSSDescriptor_t * Z) :=
  match es with
  | [] => Ret (t, num)
  | e :: es' => '(t, num) ← offer info e t num; offer_all info es' t num
  end.
Lemma offer_all_snoc info es e : forall t num,
  offer_all info (es ++ [e]) t num = ('(t, num) ← offer_all info es t num; offer info e t num).
Proof.
  induction es as [| e' es IH]; intros t num; cbn [offer_all app].
  - rewrite bind_ret. destruct (offer info e t num) as [[t' n'] |]; done.
  - destruct (offer info e' t num) as [[t' n'] |]; [rewrite !bind_ret; apply IH | done].
Qed.
(** No descriptor is that of an access point offered before. *)
Fixpoint distinct (earlier es : list BSSDescriptor_t) : Prop :=
  match es with
  | [] => True
  | e :: es' => (forall x, x ∈ earlier -> same_network e x = false) /\ distinct (earlier ++ [e]) es'
  end.
Lemma distinct_snoc es e : forall earlier, distinct earlier (es ++ [e]) -> distinct earlier es /\ forall x, x ∈ earlier ++ es -> same_network e x = false.
Proof.
  induction es as [| e' es IH]; intros earlier; cbn [app distinct]; [intros [H _]; rewrite app_nil_r; done |].
  intros [H1 H2]. destruct (IH _ H2) as [H3 H4]. rewrite <- app_assoc in H4. done.
Qed.
Lemma permutation_map_cons {A B} (f : A -> B) x l l' : x :: l ≡ₚ map f l' -> exists k l1, l' ≡ₚ k :: l1 /\ x = f k /\ l ≡ₚ map f l1.
Proof.
  intros H. assert (Hx : x ∈ map f l') by (rewrite <- H; by left). apply list_elem_of_fmap in Hx as (k & -> & Hk).
  apply list_elem_of_split in Hk as (l1 & l2 & ->). exists k, (l1 ++ l2). split; [by rewrite Permutation_middle |]. split; [done |].
  rewrite map_app in *. cbn [map] in H. rewrite <- Permutation_middle in H. by apply Permutation_cons_inv in H.
Qed.
Lemma insert_permutation {A} (l : list A) i x y : l !! i = Some x -> exists l1, l ≡ₚ x :: l1 /\ <[i := y]> l ≡ₚ y :: l1.
Proof.
  intros H. exists (take i l ++ drop (S i) l). split.
  - rewrite <- (take_drop_middle l i x H) at 1. by rewrite Permutation_middle.
  - rewrite insert_take_drop by (by eapply lookup_lt_Some). by rewrite Permutation_middle.
Qed.

(** The table and what was offered: the descriptors kept and those dropped. *)
Definition kept_strongest (g : BSSDescriptor_t -> BSSDescriptor_t) (es t : list BSSDescriptor_t) (num : Z) : Prop :=
  exists kept dropped, es ≡ₚ kept ++ dropped /\ map identity (take (Z.to_nat num) t) ≡ₚ map identity (map g kept) /\
    forall x d, x ∈ take (Z.to_nat num) t -> d ∈ dropped -> rssi x <= rssi (g d).
Section Offers.
Variables (info : BSSDescriptor_t -> outcome BSSDescriptor_t) (g : BSSDescriptor_t -> BSSDescriptor_t).
Definition info_is (e : BSSDescriptor_t) : Prop :=
  info e = Ret (g e) /\ bss_ok (g e) /\ mac_address (g e) = mac_address e /\ ssid_len (g e) = ssid_len e /\ ssid (g e) = ssid e.
Lemma entries_are_offered es t num x : kept_strongest g es t num -> x ∈ take (Z.to_nat num) t -> exists e, e ∈ es /\ identity x = identity (g e).
Proof.
  intros (kept & dropped & He & Hk & _) Hx. assert (Hi : identity x ∈ map identity (map g kept)) by (rewrite <- Hk; apply list_elem_of_fmap; by exists x).
  apply list_elem_of_fmap in Hi as (y & Hy & Hin). apply list_elem_of_fmap in Hin as (e & -> & Hin). exists e. split; [| done].
  rewrite He. apply elem_of_app. by left.
Qed.
Lemma offered_is_new es t num e : kept_strongest g es t num -> Forall info_is es -> (forall x, x ∈ es -> same_network e x = false) ->
  table_ok t num -> new_network t num e.
Proof.
  intros Hk Hinfo Hd Ht j x Hj Hx. destruct (entries_are_offered es t num x Hk) as (k & Hin & Hid).
  { apply elem_of_take. by exists j. }
  rewrite list.Forall_forall in Hinfo. destruct (Hinfo k Hin) as (_ & _ & H1 & H2 & H3). rewrite <- (Hd k Hin).
  unfold identity in Hid. unfold same_network. injection Hid as -> -> -> _. by rewrite H1, H2, H3.
Qed.

Lemma offer_appends es t num e : table_ok t num -> num = Z.of_nat (length es) -> num < 20 -> kept_strongest g es t num -> info_is e ->
  new_network t num e -> exists t', offer info e t num = Ret (t', num + 1) /\ table_ok t' (num + 1) /\ kept_strongest g (es ++ [e]) t' (num + 1).
Proof.
  intros Ht Hnum Hlt (kept & dropped & He & Hk & Hd) (Ei & Hg & _) Hnew. unfold offer. pose proof (tbl_length _ _ Ht) as Hl. pose proof (tbl_num _ _ Ht) as Hn.
  destruct (choose_spec t num e Ht) as [(r & -> & Hr) | (i & x & _ & Hi & Hx & Hs & _)].
  2: { rewrite (Hnew (Z.to_nat i) x ltac:(lia) Hx) in Hs. done. }
  destruct (store_ok t num e (g e) r Ht Hr Hg) as (t' & Es & Ht'). rewrite bind_ret. inversion Hr as [i x Hi Hx Hs | |]; subst; cbn [fst snd] in *.
  - rewrite (Hnew (Z.to_nat i) x ltac:(lia) Hx) in Hs. done.
  - rewrite Ei, bind_ret, Es, bind_ret. exists t'. split; [done |]. split; [done |].
    unfold store_entry in Es. rewrite (proj2 (Z.eqb_neq _ _)) in Es by (unfold MRVDRV_MAX_BSSID_LIST; lia).
    destruct (put_entry_ok _ _ (Z.of_nat (length es)) (g e) Ht Hg ltac:(lia)) as [Ep _]. rewrite Ep in Es. injection Es as <-. rewrite Nat2Z.id.
    assert (Hdr : dropped = []).
    { assert (Hlk : length (map identity (take (Z.to_nat (Z.of_nat (length es))) t)) = length kept) by (rewrite Hk; by rewrite !length_map).
      assert (Hle : length es = (length kept + length dropped)%nat) by (rewrite He; apply length_app).
      rewrite length_map, length_take_le in Hlk by lia. destruct dropped; [done | cbn in *; lia]. }
    subst dropped. rewrite app_nil_r in He. exists (kept ++ [e]), []. rewrite app_nil_r. split; [by rewrite He |]. split.
    + replace (Z.to_nat (Z.of_nat (length es) + 1)) with (S (length es)) by lia. erewrite take_S_r by (apply list_lookup_insert_eq; lia).
      rewrite take_insert_ge by lia. rewrite !map_app. rewrite Nat2Z.id in Hk. by rewrite Hk.
    + intros x d _ Hin. by apply not_elem_of_nil in Hin.
  - unfold MRVDRV_MAX_BSSID_LIST in *. lia.
Qed.
Lemma offer_full es t e : table_ok t 20 -> kept_strongest g es t 20 -> info_is e -> new_network t 20 e ->
  exists t', offer info e t 20 = Ret (t', 20) /\ table_ok t' 20 /\ kept_strongest g (es ++ [e]) t' 20.
Proof.
  intros Ht (kept & dropped & He & Hk & Hd) (Ei & Hg & _) Hnew. unfold offer. pose proof (tbl_length _ _ Ht) as Hl.
  destruct (choose_spec t 20 e Ht) as [(r & -> & Hr) | (i & x & _ & Hi & Hx & Hs & _)].
  2: { rewrite (Hnew (Z.to_nat i) x ltac:(lia) Hx) in Hs. done. }
  destruct (store_ok t 20 e (g e) r Ht Hr Hg) as (t' & Es & Ht'). rewrite bind_ret. inversion Hr as [i x Hi Hx Hs | | w x _ _ Hw Hx Hmax]; subst; cbn [fst snd] in *.
  - rewrite (Hnew (Z.to_nat i) x ltac:(lia) Hx) in Hs. done.
  - unfold MRVDRV_MAX_BSSID_LIST in *. lia.
  - rewrite Ei, bind_ret, Es, bind_ret. exists t'. split; [done |]. split; [done |]. unfold kept_strongest in *.
    change (Z.to_nat 20) with 20%nat in *. rewrite take_ge in Hk, Hd by lia. rewrite take_ge by (rewrite (tbl_length _ _ Ht'); lia).
    unfold store_entry, MRVDRV_MAX_BSSID_LIST in Es. cbn [Z.eqb Pos.eqb] in Es. rewrite (proj2 (arr_get_ret t w x)) in Es by (split; [lia | done]).
    rewrite bind_ret in Es. rewrite Z.gtb_ltb in Es. destruct (Z.ltb_spec (rssi (g e)) (rssi x)).
    + destruct (put_entry_ok _ _ w (g e) Ht Hg ltac:(lia)) as [Ep _]. rewrite Ep in Es. injection Es as <-.
      set (y := adjust_pointers_to_internal_buffers (Z.to_nat w) (g e)). destruct (insert_permutation t (Z.to_nat w) x y Hx) as (t1 & P1 & P2).
      rewrite P1 in Hk. cbn [map] in Hk. rewrite map_map in Hk.
      destruct (permutation_map_cons (fun a => identity (g a)) _ _ _ Hk) as (k & k1 & Q1 & Q2 & Q3).
      assert (Hrk : rssi x = rssi (g k)) by (unfold identity in Q2; by injection Q2).
      exists (e :: k1), (k :: dropped). split; [| split].
      * rewrite He, Q1, (Permutation_app_comm _ [e]). cbn [app]. constructor. apply Permutation_middle.
      * rewrite P2. cbn [map]. by rewrite Q3, map_map.
      * intros z d Hz Hdd. rewrite P2 in Hz. assert (Hzx : rssi z <= rssi x).
        { apply elem_of_cons in Hz as [-> | Hz]; [change (rssi (g e) <= rssi x); lia |].
          assert (z ∈ t) as [j Hj]%list_elem_of_lookup by (rewrite P1; by right). by apply (Hmax j). }
        apply elem_of_cons in Hdd as [-> | Hdd]; [lia |]. assert (rssi x <= rssi (g d)) by (apply Hd; [rewrite P1; by left | done]). lia.
    + injection Es as <-. exists kept, (e :: dropped). split; [| split; [done |]].
      * rewrite He. rewrite (Permutation_app_comm _ [e]). cbn [app]. by rewrite <- Permutation_middle.
      * intros z d Hz Hdd. apply elem_of_cons in Hdd as [-> | Hdd]; [| by apply Hd].
        apply list_elem_of_lookup in Hz as [j Hj]. specialize (Hmax j z Hj). lia.
Qed.

(** C25: The table keeps the strongest access points. When distinct access
    points are offered, in any number and order, to an empty table, it ends with all
    of them when they are at most twenty and with twenty of them otherwise,
    and no access point left out is stronger than one in the table (a strength is the
    amount by which the signal is below a milliwatt). *)
Theorem table_keeps_the_strongest es t0 : length t0 = 20%nat -> Forall bss_ok t0 -> (forall i e, t0 !! i = Some e -> own_pointers i e) ->
  Forall info_is es -> distinct [] es ->
  exists t num, offer_all info es t0 0 = Ret (t, num) /\ table_ok t num /\ num = Z.min 20 (Z.of_nat (length es)) /\ kept_strongest g es t num.
Proof.
  intros H1 H2 H3. induction es as [| e es IH] using rev_ind; intros Hi Hd.
  - exists t0, 0. split; [done |]. split; [constructor; unfold MRVDRV_MAX_BSSID_LIST; done || lia |]. split; [done |].
    exists [], []. split; [done |]. split; [done |]. intros x d _ Hin. by apply not_elem_of_nil in Hin.
  - apply distinct_snoc in Hd as [Hd Hnew]. cbn [app] in Hnew. apply list.Forall_app in Hi as [Hi He]. rewrite list.Forall_singleton in He.
    destruct (IH Hi Hd) as (t & num & E & Ht & Hnum & Hk). rewrite offer_all_snoc, E, bind_ret. rewrite length_app. cbn [length].
    assert (Hn : new_network t num e) by (by eapply offered_is_new).
    destruct (Z.lt_ge_cases (Z.of_nat (length es)) 20).
    + destruct (offer_appends es t num e) as (t' & E' & Ht' & Hk'); [done | lia | lia | done | done | done |].
      exists t', (num + 1). split; [done |]. split; [done |]. split; [lia | done].
    + assert (num = 20) as -> by lia. destruct (offer_full es t e) as (t' & E' & Ht' & Hk'); [done.. |].
      exists t', 20. split; [done |]. split; [done |]. split; [lia | done].
Qed.
End Offers.

(** ** Scan reports in events *)
Lemma info_loop_total m bound fuel : bytes m -> bound <= Z.of_nat (length m) -> forall p left left_tlv info,
  0 <= p -> 0 <= left_tlv -> p + left_tlv = bound -> left_tlv <= left < 65536 -> (Z.to_nat left_tlv < fuel)%nat ->
  (forall q, info = Some q -> 0 <= q /\ q + 4 <= bound) ->
  exists info' p' left' counts, info_loop fuel m p left left_tlv info = Ret (info', p', left', counts) /\
    p' + left' = p + left /\ p <= p' <= bound /\ (forall q, info' = Some q -> 0 <= q /\ q + 4 <= bound).
Proof.
  intros Hm Hb. induction fuel as [| fuel IH]; intros p left left_tlv info Hp Hl0 Hsum Hleft Hf Hi; [lia |]. cbn [info_loop]. unfold sizeof_TlvHeader.
  assert (Hfin : forall (c : bool) i, (forall q, i = Some q -> 0 <= q /\ q + 4 <= bound) ->
    exists info' p' left' (counts : bool), Ret (i, p, left, c) = Ret (info', p', left', counts) /\ p' + left' = p + left /\ p <= p' <= bound /\
      (forall q, info' = Some q -> 0 <= q /\ q + 4 <= bound)) by (intros c i H; exists i, p, left, c; split; [done |]; split; [done |]; split; [lia | exact H]).
  destruct (Z.ltb_spec left_tlv 4); [by apply Hfin |].
  destruct (mem_read_le16_total m p Hm) as (t & Et & _); [lia.. |]. rewrite Et, bind_ret. destruct (t =? TLV_TYPE_BSS_SCAN_RSP); [by apply Hfin |].
  destruct (mem_read_le16_total m (p + 2) Hm) as (n & En & Hn); [lia.. |]. rewrite En, bind_ret.
  destruct (Z.ltb_spec left_tlv (4 + n)); [by apply Hfin |].
  assert (Hhere : forall q, Some p = Some q -> 0 <= q /\ q + 4 <= bound) by (intros q [= <-]; lia).
  destruct (_ && _); [by apply Hfin |]. assert (Eu : u32 (left - (n + 4)) = left - (n + 4)) by (apply Z.mod_small; lia). rewrite Eu.
  destruct (IH (p + 4 + n) (left - (n + 4)) (left_tlv - (n + 4)) (if t =? TLV_TYPE_BSS_SCAN_INFO then Some p else info)) as (i' & p' & l' & c & E & H1 & H2 & H3);
    [lia.. | destruct (t =? _); auto |]. exists i', p', l', c. split; [exact E |]. split; [lia |]. split; [lia | exact H3].
Qed.
Lemma add_scan_info_ok m c info e : channels_ok c -> bss_ok e -> (forall q, info = Some q -> 0 <= q /\ q + 20 <= Z.of_nat (length m)) ->
  exists e', add_scan_info m c info e = Ret e' /\ bss_ok e'.
Proof.
  intros Hc He Hi. unfold add_scan_info. destruct info as [q |].
  - destruct (Hi q eq_refl). reads_next. reads_next. destruct (arr_get_total m (q + 9)) as (b & Eb & _); [lia |]. rewrite Eb, bind_ret.
    destruct (arr_get_total m (q + 10)) as (ch & Ech & _); [lia |].
    assert (exists ch', (if channel e =? 0 then arr_get m (q + 10) else Ret (channel e)) = Ret ch') as [ch' ->]
      by (destruct (channel e =? 0); [by exists ch | by eexists]). rewrite bind_ret. unfold s16_of.
    set (e1 := set_channel ch' _). destruct (set_band_freq_ret c (radio_type_to_band b) e1 Hc) as (e2 & E2 & He2 & _); [subst e1; by bss_same He |]. by exists e2.
  - destruct (set_band_freq_ret c BAND_G e Hc He) as (e2 & E2 & He2 & _). by exists e2.
Qed.
Lemma offer_ok info e t num : table_ok t num -> (exists e', info e = Ret e' /\ bss_ok e') ->
  exists t' num', offer info e t num = Ret (t', num') /\ table_ok t' num'.
Proof.
  intros Ht (e' & Ee & He). unfold offer. destruct (choose_spec t num e Ht) as [([[b l] n] & Er & Hr) | (i & x & Er & _)]; rewrite Er, bind_ret; [| by exists t, num].
  destruct (store_ok _ _ _ e' _ Ht Hr He) as (t' & Es & Ht'). cbn [fst snd] in *. rewrite Ee, bind_ret, Es, bind_ret. by exists t', n.
Qed.
(** Every record among the TLVs of memory has sane key-management elements. *)
Definition records_sane (m : list Z) : Prop := forall q, mem_read_le16 m q = Ret TLV_TYPE_BSS_SCAN_RSP -> record_sane m true (q + 2).
Lemma interpret_rest m ext p left e st e' next rest n : wlan_interpret_bss_desc_with_ie m ext p left e = Ret (st, e', next, rest) ->
  mem_read_le16 m p = Ret n -> 2 <= left -> rest = 0 \/ rest = left - 2 - n.
Proof.
  intros H En Hl. unfold wlan_interpret_bss_desc_with_ie in H. rewrite Z.geb_leb, (proj2 (Z.leb_le _ _)), En, bind_ret in H by done.
  destruct ((n =? 0) || _); [injection H as <- <- <- <-; by left |]. right. destruct (n <? _); [by injection H as <- <- <- <- |].
  destruct (fixed_fields _ _ _ _ _) as [[[e1 q] k] |]; [| done]. rewrite bind_ret in H. destruct (ie_loop _ _ _ _ _) as [[st2 e2] |]; [| done].
  rewrite bind_ret in H. by injection H as <- <- <- <-.
Qed.
Lemma ext_record_ok m c s : bytes m -> loop_ok m s -> channels_ok c -> records_sane m -> 4 < bytes_left s < 65536 ->
  exists (more : bool) s', ext_record m c s = Ret (more, s') /\ table_ok (table s') (num_in_table s') /\
    (more = true -> loop_ok m s' /\ bytes_left s' <= bytes_left s /\ idx s' = idx s + 1).
Proof.
  intros Hm [Ht Hp Hl Hroom Hi] Hc Hsane Hleft. unfold ext_record, sizeof_TlvHeader.
  destruct (mem_read_le16_total m (pbss_info s) Hm) as (ty & Ety & _); [lia.. |]. rewrite Ety, bind_ret.
  destruct (mem_read_le16_total m (pbss_info s + 2) Hm) as (n & En & Hn); [lia.. |]. rewrite En, bind_ret.
  destruct (Z.ltb_spec (bytes_left s) (4 + n)); [by exists false, s |]. destruct (Z.eqb_spec ty TLV_TYPE_BSS_SCAN_RSP) as [-> |]; [cbn [negb] | by exists false, s].
  destruct (info_loop_total m (pbss_info s + bytes_left s) (S (length m)) Hm ltac:(lia) (pbss_info s + 4 + n) (bytes_left s) (bytes_left s - (n + 4)) None)
    as (info & p' & rest & counts & E & Hsum & Hpos & Hinfo); [lia.. | done |].
  replace (pbss_info s + (4 + n)) with (pbss_info s + 4 + n) by lia. rewrite E, bind_ret.
  destruct counts; cbn [negb]; [| by exists false, (MkLoop (table s) (num_in_table s) p' rest (idx s))].
  assert (Eu : u32 (rest - 2) = rest - 2) by (apply Z.mod_small; lia). rewrite Eu.
  destruct (record_total m true (pbss_info s + 2) (rest - 2) cleared_bss Hm cleared_ok) as (st & e & nx & r & Er & He & _ & Hr0 & _); [lia | lia | lia | by apply Hsane |].
  rewrite Er, bind_ret. assert (Hr : r <= rest - 4 - n) by (destruct (interpret_rest _ _ _ _ _ _ _ _ _ n Er En); lia).
  assert (Hok : forall t num, table_ok t num -> exists (more : bool) s', Ret (true, MkLoop t num p' r (idx s + 1)) = Ret (more, s') /\
    table_ok (table s') (num_in_table s') /\ (more = true -> loop_ok m s' /\ bytes_left s' <= bytes_left s /\ idx s' = idx s + 1)).
  { intros t num H1. exists true, (MkLoop t num p' r (idx s + 1)). split; [done |]. split; [done |]. intros _.
    split; [constructor; cbn; [done | lia..] | cbn; lia]. }
  destruct st; [| by apply Hok].
  destruct (offer_ok (add_scan_info m c info) e (table s) (num_in_table s) Ht) as (t' & num' & Eo & Ht').
  { apply add_scan_info_ok; [done | done |]. intros q Hq. destruct (Hinfo q Hq). lia. }
  rewrite Eo, bind_ret. by apply Hok.
Qed.
Lemma ext_loop_ok m c n fuel : bytes m -> channels_ok c -> records_sane m -> forall s, loop_ok m s -> bytes_left s < 65536 -> (Z.to_nat (n - idx s) < fuel)%nat ->
  exists s', ext_loop fuel m c n s = Ret s' /\ table_ok (table s') (num_in_table s').
Proof.
  intros Hm Hc Hsane. induction fuel as [| fuel IH]; intros s Hs Hlt Hf; [lia |]. cbn [ext_loop]. unfold sizeof_TlvHeader. rewrite Z.gtb_ltb.
  destruct (Z.ltb_spec (idx s) n), (Z.ltb_spec 4 (bytes_left s)); cbn [andb]; try (exists s; split; [done | apply Hs]).
  destruct (ext_record_ok m c s Hm Hs Hc Hsane) as (more & s' & E & Ht & Hmore); [lia |]. rewrite E, bind_ret.
  destruct more; [| by exists s']. destruct (Hmore eq_refl) as (H1 & H2 & H3). apply IH; [done | lia | lia].
Qed.

(** Every report of scan results in an event is taken in without a read
    outside its memory, whatever its TLVs say of their lengths: the loop over
    the records ends, the lengths left never wrap round, and the table stays
    well formed, with the pointers of an entry into that entry. Only the
    key-management elements must count their ciphers within the copy. *)
Theorem scan_event_keeps_table m pmbuf size n a :
  bytes m -> table_ok (pscan_table a) (num_in_scan_table a) -> channels_ok (channels a) -> 0 <= pmbuf ->
  mem_read_le16 m (pmbuf + 8) = Ret size -> arr_get m (pmbuf + 10) = Ret n -> pmbuf + 11 + size + 28 <= Z.of_nat (length m) -> records_sane m ->
  exists a', wlan_handle_event_ext_scan_report m pmbuf true a = Ret (MLAN_STATUS_SUCCESS, a') /\
    table_ok (pscan_table a') (num_in_scan_table a') /\ channels a' = channels a.
Proof.
  intros Hm Ht Hc Hp Esize En Hlen Hsane. unfold wlan_handle_event_ext_scan_report. rewrite Esize, bind_ret, En, bind_ret.
  pose proof (proj1 (arr_get_ret _ _ _) En) as [_ Hn%lookup_lt_Some].
  assert (0 <= size < 65536) by (destruct (mem_read_le16_total m (pmbuf + 8) Hm) as (x & Ex & ?); [lia.. |]; rewrite Esize in Ex; injection Ex as ->; lia).
  unfold wlan_parse_ext_scan_result. destruct (_ && _); [by exists a |]. cbn [negb].
  destruct (ext_loop_ok m (channels a) n (S (Z.to_nat n)) Hm Hc Hsane (MkLoop (pscan_table a) (num_in_scan_table a) (pmbuf + 11) size 0)) as (s' & Es & Hs').
  - constructor; cbn; [done | lia.. ].
  - cbn. lia.
  - cbn. lia.
  - rewrite Es, bind_ret. by eexists.
Qed.

(** ** Duplicates *)

(** Follow the successful branches of a definition of the parser. *)
Ltac follow := repeat first
  [ progress outcome_inv | match goal with H : (if ?b then _ else _) = Ret _ |- _ => destruct b | H : (let x := ?b in _) = Ret _ |- _ => cbv zeta in H end ].
Lemma save_rssi k m p e e' : save_ie k m p e = Ret e' -> rssi e' = rssi e.
Proof. unfold save_ie. intros H. by follow. Qed.
Lemma save_security_rssi k m p n e e' : save_security_ie k m p n e = Ret e' -> rssi e' = rssi e.
Proof. unfold save_security_ie. intros H. by follow. Qed.
Lemma copy_rates_rssi m p n q e e' : copy_rates m p n q e = Ret e' -> rssi e' = rssi e.
Proof. unfold copy_rates. intros H. by follow. Qed.
Lemma wpa2_entp_rssi e id e' : wifi_check_bss_entry_wpa2_entp_only e id = Ret e' -> rssi e' = rssi e.
Proof. unfold wifi_check_bss_entry_wpa2_entp_only. destruct id; intros H; by follow. Qed.
Lemma process_ie_rssi id m p n s r : process_ie id m p n s = Ret r -> rssi (bss (result_state r)) = rssi (bss s).
Proof.
  destruct id; cbn [process_ie]; unfold ssid_ie, supported_rates_ie, extended_rates_ie, country_ie, vendor_ie, rsn_ie; intros H; follow; cbn [result_state bss set_bss];
    try done; repeat match goal with
    | E : save_ie _ _ _ _ = Ret _ |- _ => apply save_rssi in E
    | E : save_security_ie _ _ _ _ _ = Ret _ |- _ => apply save_security_rssi in E
    | E : copy_rates _ _ _ _ _ = Ret _ |- _ => apply copy_rates_rssi in E
    | E : wifi_check_bss_entry_wpa2_entp_only _ _ = Ret _ |- _ => apply wpa2_entp_rssi in E end; try done; match goal with A : rssi ?y = _, B : _ |- rssi ?y = _ => exact (eq_trans A B) end.
Qed.
Lemma ie_loop_rssi fuel m : forall p n s st e, ie_loop fuel m p n s = Ret (st, e) -> rssi e = rssi (bss s).
Proof.
  induction fuel as [| fuel IH]; intros p n s st e H; [done |]. cbn [ie_loop] in H. destruct (n <? 2).
  - outcome_inv. by apply (wpa2_entp_rssi _ SSID).
  - apply bind_inv in H as (id & _ & H). apply bind_inv in H as (len & _ & H). destruct (n <? len + 2); [by apply IH in H |].
    apply bind_inv in H as (r & Er & H). assert (Hr : rssi (bss (result_state r)) = rssi (bss s)).
    { destruct (element_of id); [by apply process_ie_rssi in Er | by injection Er as <-]. }
    rewrite <- Hr. destruct r; [by apply IH in H | by apply IH in H | by injection H as <- <-].
Qed.
Lemma ext_record_has_no_rssi m p left e st e' next rest : wlan_interpret_bss_desc_with_ie m true p left e = Ret (st, e', next, rest) -> rssi e' = rssi e.
Proof.
  unfold wlan_interpret_bss_desc_with_ie. intros H. apply bind_inv in H as (size & _ & H). destruct (if left >=? 2 then _ else _) as [p1 n1].
  destruct ((size =? 0) || _); [by injection H as <- <- <- <- |]. destruct (size <? _); [by injection H as <- <- <- <- |].
  apply bind_inv in H as ([[e1 q] k] & Ef & H). apply bind_inv in H as ([st2 e2] & El & H). injection H as <- <- <- <-.
  rewrite (ie_loop_rssi _ _ _ _ _ _ _ El). cbn [bss]. unfold fixed_fields in Ef. cbn [mbind outcome_bind] in Ef. follow. done.
Qed.

(** In the reports of the event a duplicate is never skipped for its weaker
    signal: the signal is set from the information TLV after the comparison, which sees the
    zero of the cleared descriptor. So the entry of the access point is
    replaced by a copy heard on another channel, however weak, where the
    response of the scan command keeps the stronger one. *)
Theorem weaker_report_replaces m p left c info st e next rest t num i x e' :
  wlan_interpret_bss_desc_with_ie m true p left cleared_bss = Ret (st, e, next, rest) ->
  table_ok t num -> 0 <= i < num -> t !! Z.to_nat i = Some x -> same_network e x = true ->
  (forall j y, (j < Z.to_nat i)%nat -> t !! j = Some y -> same_network e y = false) -> 0 <= rssi x ->
  add_scan_info m c info e = Ret e' -> bss_ok e' ->
  offer (add_scan_info m c info) e t num = Ret (<[Z.to_nat i := adjust_pointers_to_internal_buffers (Z.to_nat i) e']> t, num).
Proof.
  intros Hp Ht Hi Hx Hs Hfirst Hr He He'. apply ext_record_has_no_rssi in Hp. change (rssi cleared_bss) with 0 in Hp. unfold offer, choose_entry.
  pose proof (tbl_num _ _ Ht) as Hn. pose proof (tbl_length _ _ Ht) as Hl. unfold MRVDRV_MAX_BSSID_LIST in Hn.
  destruct (find_duplicate_spec (Z.to_nat num) t e 0) as (r & Er & Hrr & Hno & Hyes); [done | lia |]. rewrite Er, bind_ret.
  assert (r = i) as ->.
  { destruct (Z.lt_trichotomy r i) as [| [-> |]]; [| done |].
    - destruct Hyes as (y & Hy & Hsy); [lia |]. rewrite (Hfirst (Z.to_nat r) y ltac:(lia) Hy) in Hsy. done.
    - rewrite (Hno (Z.to_nat i) x ltac:(lia) Hx) in Hs. done. }
  rewrite (proj2 (Z.eqb_neq _ _)) by lia. rewrite (proj2 (arr_get_ret t i x)) by (split; [lia | done]). rewrite bind_ret.
  rewrite Z.gtb_ltb, Hp, (proj2 (Z.ltb_ge _ _)) by lia. rewrite andb_false_r, bind_ret, He, bind_ret. unfold store_entry, MRVDRV_MAX_BSSID_LIST.
  rewrite (proj2 (Z.eqb_neq _ _)) by lia. destruct (put_entry_ok t num i e' Ht He' ltac:(lia)) as [Ep _]. by rewrite Ep.
Qed.

(** A skipped duplicate shifts what the TLVs say: the loop over the response goes
    on without counting it, so the next record gets the time stamp and the
    channel meant for the skipped one. *)
Theorem skipped_duplicate_shifts_tlvs m c f n s e1 next1 rest1 i x e2 next2 rest2 :
  table_ok (table s) (num_in_table s) -> channels_ok c -> tlvs_cover m f n -> 0 <= idx s < n ->
  wlan_interpret_bss_desc_with_ie m false (pbss_info s) (bytes_left s) cleared_bss = Ret (MLAN_STATUS_SUCCESS, e1, next1, rest1) ->
  0 <= i < num_in_table s -> table s !! Z.to_nat i = Some x -> same_network e1 x = true ->
  (forall j y, (j < Z.to_nat i)%nat -> table s !! j = Some y -> same_network e1 y = false) -> channel e1 <> channel x -> rssi x < rssi e1 ->
  wlan_interpret_bss_desc_with_ie m false next1 rest1 cleared_bss = Ret (MLAN_STATUS_SUCCESS, e2, next2, rest2) -> bss_ok e2 ->
  new_network (table s) (num_in_table s) e2 -> num_in_table s < 20 ->
  exists e2' s', (s1 ← scan_record m c f false s; scan_record m c f false s1) = Ret s' /\
    add_tlv_info m c f (idx s) e2 = Ret e2' /\ num_in_table s' = num_in_table s + 1 /\
    table s' = <[Z.to_nat (num_in_table s) := adjust_pointers_to_internal_buffers (Z.to_nat (num_in_table s)) e2']> (table s).
Proof.
  intros Ht Hc Hcov Hidx E1 Hi Hx Hs Hfirst Hch Hr E2 He2 Hnew Hlt.
  assert (S1 : scan_record m c f false s = Ret (MkLoop (table s) (num_in_table s) next1 rest1 (idx s))).
  { unfold scan_record. rewrite E1, bind_ret. destruct (choose_spec _ _ e1 Ht) as [(r & _ & Hcr) | (i' & x' & Er & _)]; [| by rewrite Er, bind_ret].
    exfalso. inversion Hcr as [i' x' Hi' Hx' Hs' Hf' Hw | Hlt' Hn' | w y Hfull Hn']; subst.
    2, 3: rewrite (Hn' (Z.to_nat i) x ltac:(lia) Hx) in Hs; done.
    destruct (Z.lt_trichotomy i' i) as [| [-> |]].
    - rewrite (Hfirst (Z.to_nat i') x' ltac:(lia) Hx') in Hs'. done.
    - rewrite Hx in Hx'. injection Hx' as <-. specialize (Hw Hch). lia.
    - rewrite (Hf' (Z.to_nat i) x ltac:(lia) Hx) in Hs. done. }
  destruct (add_tlv_info_ok m c f n (idx s) e2 Hc Hcov Hidx He2) as (e2' & Ee & He' & _). rewrite S1, bind_ret. unfold scan_record.
  cbn [table num_in_table pbss_info bytes_left idx]. rewrite E2, bind_ret.
  pose proof (tbl_num _ _ Ht) as Hn. pose proof (tbl_length _ _ Ht) as Hl.
  destruct (choose_spec _ _ e2 Ht) as [(r & Er2 & Hcr) | (j & y & _ & Hj & Hy & Hsy & _)].
  2: { rewrite (Hnew (Z.to_nat j) y ltac:(lia) Hy) in Hsy. done. }
  rewrite Er2, bind_ret. inversion Hcr as [j y Hj Hy Hsy | Hlt' Hn' | w y Hfull Hn']; subst.
  + rewrite (Hnew (Z.to_nat j) y ltac:(lia) Hy) in Hsy. done.
  + rewrite Ee, bind_ret. cbn [andb]. unfold store_entry, MRVDRV_MAX_BSSID_LIST. rewrite (proj2 (Z.eqb_neq _ _)) by lia.
    destruct (put_entry_ok _ _ (num_in_table s) e2' Ht He' ltac:(lia)) as [Ep _]. rewrite Ep, bind_ret.
    eexists _, _. split; [done |]. split; [done |]. done.
  + unfold MRVDRV_MAX_BSSID_LIST in *. lia.
Qed.

(** ** Examples *)
Lemma no_key_management_sane m ext p : element_number RSN_IE ∉ m -> record_sane m ext p.
Proof.
  intros H l junk Hc _ _. apply (no_rsn_sane (record_content m ext p)) with (junk := junk); [| done]. unfold record_content.
  destruct (mem_read_le16 m p); [| apply not_elem_of_nil]. intros Hin. apply H. apply elem_of_take in Hin as (i & Hi & _).
  rewrite lookup_drop in Hi. by eapply list_elem_of_lookup_2.
Qed.
Definition town_channels : cfp_adapter :=
  MkCfpAdapter [MkRegionChan true 0x10 BAND_G 11 (Some (StaticCfp CfpTables.channel_freq_power_US_BG))] [] 0 0 None None None 0 0 [] 0 [] [].
Lemma town_channels_ok : channels_ok town_channels.
Proof. apply list.Forall_singleton. intros p [= <-]. cbn. lia. Qed.
Definition no_table : list BSSDescriptor_t := replicate 20 cleared_bss.
Lemma cleared_own i : own_pointers i cleared_bss.
Proof. unfold own_pointers. repeat constructor. Qed.
Lemma no_table_ok : table_ok no_table 0.
Proof.
  constructor; [done | unfold MRVDRV_MAX_BSSID_LIST; lia | by apply Forall_replicate, cleared_ok |].
  intros i e He. unfold no_table in He. apply lookup_replicate in He as [-> _]. apply cleared_own.
Qed.
Definition town_adapter (t : list BSSDescriptor_t) (n : Z) : scan_adapter := MkAdapter t n [] 0 town_channels.
(** A beacon of the access point numbered [k] on channel [ch]. *)
Definition town_record (ext : bool) (k signal ch : Z) : list Z :=
  encode_record ext (MkHeader [2; 0; 0; 0; 0; k] signal [1; 0; 0; 0; 0; 0; 0; 0] [100; 0] [17; 4]) (encode [(0, [65]); (3, [ch])]).
(** Two beacons and the time stamps of both. *)
Definition town_response : list Z :=
  replicate 8 0 ++ [54; 0; 2] ++ town_record false 1 60 6 ++ town_record false 2 70 11 ++ [19; 1; 16; 0] ++ replicate 8 7 ++ replicate 8 9 ++ replicate 32 0.
Lemma scan_response_keeps_table_witness : exists a',
  wlan_ret_802_11_scan town_response 0 85 false false true (town_adapter no_table 0) = Ret (MLAN_STATUS_SUCCESS, a') /\
  table_ok (pscan_table a') (num_in_scan_table a') /\ num_in_scan_table a' = 2 /\ map (fun e => (channel e, freq e)) (take 2 (pscan_table a')) = [(6, 2437); (11, 2462)].
Proof.
  destruct (scan_response_keeps_table town_response 0 85 false false true (town_adapter no_table 0) 54 2) as (status & a' & E & H & _ & Hs).
  - by apply bytes_check.
  - exact no_table_ok.
  - exact town_channels_ok.
  - done.
  - done.
  - by vm_compute.
  - lia.
  - done.
  - done.
  - intros q k _. apply no_key_management_sane. by apply (bool_decide_unpack (48 ∉ town_response)).
  - intros f Hf. vm_compute in Hf. injection Hf as <-. split; intros p Hp; [injection Hp as <- | done]. by vm_compute.
  - assert (Est : status = MLAN_STATUS_SUCCESS) by (destruct status; [reflexivity | by destruct (Hs eq_refl) as [Hmem _]]).
    rewrite Est in E. exists a'. split; [exact E |]. split; [exact H |]. vm_compute in E. injection E as <-. by vm_compute.
Defined.

(** Twenty-two access points, the last ones the strongest. *)
Definition town_aps : list BSSDescriptor_t :=
  map (fun k => set_rssi (80 - k) (set_mac_address [2; 0; 0; 0; 0; k] cleared_bss)) (seqZ 1 22).
Lemma town_aps_distinct : distinct [] town_aps.
Proof.
  assert (H : forall es earlier, forallb (fun p => negb (same_network p.1 p.2)) (flat_map (fun p => map (pair p.2) (take p.1 (earlier ++ es))) (imap (fun i e => ((length earlier + i)%nat, e)) es)) = true ->
    distinct earlier es).
  { induction es as [| e es IH]; intros earlier Hb; [done |]. cbn [imap flat_map] in Hb. rewrite forallb_app in Hb. apply andb_true_iff in Hb as [H1 H2]. split.
    - cbn [fst snd] in H1. rewrite Nat.add_0_r, take_app_length in H1. intros x Hx. rewrite forallb_forall in H1.
      specialize (H1 (e, x)). cbn [fst snd] in H1. apply negb_true_iff, H1, in_map, list_elem_of_In, Hx.
    - apply IH. rewrite <- app_assoc. cbn [app]. rewrite length_app. cbn [length]. rewrite <- H2. do 2 f_equal. apply imap_ext. intros i x _. cbn. f_equal. lia. }
  apply H. by vm_compute.
Qed.
Lemma table_keeps_the_strongest_witness :
  match offer_all Ret town_aps no_table 0 with
  | Ret (t, num) => num = 20 /\ kept_strongest id town_aps t num /\ map rssi t = 59 :: 58 :: map (fun k => 80 - k) (seqZ 3 18)
  | Fault _ => False
  end.
Proof.
  destruct (table_keeps_the_strongest Ret id town_aps no_table) as (t & num & E & _ & Hn & Hk).
  - done.
  - apply no_table_ok.
  - intros i e He. apply lookup_replicate in He as [-> _]. apply cleared_own.
  - apply list.Forall_forall. intros e He. unfold town_aps in He. apply list_elem_of_fmap in He as (k & -> & _).
    split; [done |]. split; [| done]. by bss_same cleared_ok.
  - exact town_aps_distinct.
  - rewrite E. split; [exact Hn |]. split; [exact Hk |]. vm_compute in E. injection E as <- _. by vm_compute.
Defined.

(** An event with one record and its information. *)
Definition town_info (signal ch : Z) : list Z := [87; 1; 16; 0; signal; 255; 0; 0; 0; 0; ch; 0] ++ [8; 0; 0; 0; 0; 0; 0; 0].
Definition town_tlv (k ch : Z) : list Z := [86; 1] ++ town_record true k 0 ch.
Definition town_event : list Z := replicate 8 0 ++ [52; 0; 1] ++ town_tlv 1 6 ++ town_info 196 6 ++ [9; 1; 0; 0] ++ replicate 40 0.
Lemma scan_event_keeps_table_witness : exists a',
  wlan_handle_event_ext_scan_report town_event 0 true (town_adapter no_table 0) = Ret (MLAN_STATUS_SUCCESS, a') /\
  table_ok (pscan_table a') (num_in_scan_table a') /\ map (fun e => (rssi e, channel e, freq e, network_tsf e)) (take 1 (pscan_table a')) = [(60, 6, 2437, 8)].
Proof.
  destruct (scan_event_keeps_table town_event 0 52 1 (town_adapter no_table 0)) as (a' & E & H & _).
  - by apply bytes_check.
  - exact no_table_ok.
  - exact town_channels_ok.
  - done.
  - done.
  - done.
  - by vm_compute.
  - intros q _. apply no_key_management_sane. by apply (bool_decide_unpack (48 ∉ town_event)).
  - exists a'. split; [exact E |]. split; [exact H |]. vm_compute in E. injection E as <-. by vm_compute.
Defined.

(** The access point of the table heard again, weaker, on another channel. *)
Definition heard (ch signal : Z) : BSSDescriptor_t :=
  match wlan_interpret_bss_desc_with_ie (town_record false 1 signal ch) false 0 27 cleared_bss with Ret (_, e, _, _) => e | Fault _ => cleared_bss end.
Definition town_table : list BSSDescriptor_t := <[0%nat := adjust_pointers_to_internal_buffers 0 (heard 6 60)]> no_table.
Lemma heard_ok ch signal : bss_ok (heard ch signal).
Proof.
  unfold heard. destruct (wlan_interpret_bss_desc_with_ie _ _ _ _ _) as [[[[st e] nx] r] |] eqn:E; [| exact cleared_ok]. vm_compute in E. injection E as <- <- <- <-.
  by constructor.
Qed.
Lemma town_table_ok : table_ok town_table 1.
Proof.
  destruct (put_entry_ok no_table 0 0 (heard 6 60) no_table_ok (heard_ok 6 60) ltac:(lia)) as [_ [A B C D]].
  constructor; [done | unfold MRVDRV_MAX_BSSID_LIST; lia | done | done].
Qed.
Definition parsed (ext : bool) (m : list Z) (p left : Z) : BSSDescriptor_t :=
  match wlan_interpret_bss_desc_with_ie m ext p left cleared_bss with Ret (_, e, _, _) => e | Fault _ => cleared_bss end.
Definition weaker_report : list Z := town_tlv 1 11 ++ town_info 176 11 ++ replicate 40 0.
Lemma weaker_report_replaces_witness :
  map rssi (take 1 town_table) = [60] /\
  exists t, offer (add_scan_info weaker_report town_channels (Some 28)) (parsed true weaker_report 2 46) town_table 1 = Ret (t, 1) /\
    map (fun e => (rssi e, channel e)) (take 1 t) = [(80, 11)].
Proof.
  split; [by vm_compute |]. set (e := parsed true weaker_report 2 46).
  destruct (add_scan_info weaker_report town_channels (Some 28) e) as [e' |] eqn:Ee; [| by vm_compute in Ee].
  assert (He' : bss_ok e') by (vm_compute in Ee; injection Ee as <-; by constructor).
  assert (Ex : exists x, town_table !! 0%nat = Some x) by (by eexists). destruct Ex as [x Ex]. assert (Ex' := Ex). vm_compute in Ex'.
  eexists. split.
  - apply (weaker_report_replaces weaker_report 2 46 town_channels (Some 28) MLAN_STATUS_SUCCESS e 28 20 town_table 1 0 x e').
    + by vm_compute.
    + exact town_table_ok.
    + lia.
    + exact Ex.
    + injection Ex' as <-. by vm_compute.
    + intros j y Hj. cbn in Hj. lia.
    + injection Ex' as <-. by vm_compute.
    + exact Ee.
    + exact He'.
  - vm_compute in Ee. injection Ee as <-. by vm_compute.
Defined.
Definition shifted_response : list Z :=
  town_record false 1 70 11 ++ town_record false 2 50 3 ++ [19; 1; 16; 0] ++ [7; 0; 0; 0; 0; 0; 0; 0] ++ [9; 0; 0; 0; 0; 0; 0; 0] ++ replicate 32 0.
Definition shifted_start : scan_loop := MkLoop town_table 1 0 54 0.
Lemma skipped_duplicate_shifts_tlvs_witness : exists s',
  (s1 ← scan_record shifted_response town_channels (MkTlvs (Some 54) None None) false shifted_start;
   scan_record shifted_response town_channels (MkTlvs (Some 54) None None) false s1) = Ret s' /\
  num_in_table s' = 2 /\ map (fun e => (mac_address e, network_tsf e)) (drop 1 (take 2 (table s'))) = [([2; 0; 0; 0; 0; 2], 7)].
Proof.
  assert (Ex : exists x, town_table !! 0%nat = Some x) by (by eexists). destruct Ex as [x Ex]. assert (Ex' := Ex). vm_compute in Ex'.
  destruct (skipped_duplicate_shifts_tlvs shifted_response town_channels (MkTlvs (Some 54) None None) 2 shifted_start
    (parsed false shifted_response 0 54) 27 27 0 x (parsed false shifted_response 27 27) 54 0) as (e2' & s' & E & _ & Hn & _).
  - exact town_table_ok.
  - exact town_channels_ok.
  - split; intros p Hp; [injection Hp as <-; by vm_compute | done].
  - cbn. lia.
  - by vm_compute.
  - cbn. lia.
  - exact Ex.
  - injection Ex' as <-. by vm_compute.
  - intros j y Hj. cbn in Hj. lia.
  - injection Ex' as <-. by vm_compute.
  - injection Ex' as <-. by vm_compute.
  - by vm_compute.
  - by constructor.
  - intros j y Hj Hy. assert (j = 0%nat) as -> by (cbn in Hj; lia). change (table shifted_start) with town_table in Hy. rewrite Ex in Hy.
    injection Hy as <-. injection Ex' as <-. by vm_compute.
  - cbn. lia.
  - exists s'. split; [exact E |]. split; [exact Hn |]. vm_compute in E. injection E as <-. by vm_compute.
Defined.
