(* ===== verification/Domain.v ===== *)
(** * Country information (802.11d)

    [mlan_11d.c]: the channels and powers that access points announce in their
    country elements, the table of them in the adapter, and the domain
    information for the firmware that is generated from the table. *)
From stdpp Require Import list.
From S2P Require Import Prelude CString CfpTables Cfp ScanData ScanParse ScanTable.
Open Scope Z_scope.

(** ** Regions *)
Record region_code_mapping_t := MkRegionMap { map_region : list Z; map_code : Z }.
Definition region_code_mapping : list region_code_mapping_t :=
  [MkRegionMap (lit "WW ") 0xaa; MkRegionMap (lit "US ") 0x10; MkRegionMap (lit "CA ") 0x20; MkRegionMap (lit "SG ") 0x10;
   MkRegionMap (lit "EU ") 0x30; MkRegionMap (lit "AU ") 0x30; MkRegionMap (lit "KR ") 0x30; MkRegionMap (lit "FR ") 0x32;
   MkRegionMap (lit "JP ") 0x40; MkRegionMap (lit "CN ") 0x50; MkRegionMap (lit "JP ") 0xFF].
Definition default_region : list Z := lit "WW ".
Definition wlan_11d_region_2_code (region : list Z) : option Z :=
  map_code <$> List.find (fun r => same_bytes (map_region r) region) region_code_mapping.
Definition wlan_11d_country_index_2_string (country : Z) : outcome (list Z) :=
  if (country <? 1) || (country >? 9) then Ret default_region
  else r ← arr_get region_code_mapping (country - 1); Ret (map_region r).
Definition wlan_11d_code_2_region (c : Z) : list Z :=
  match List.find (fun r => map_code r =? c) region_code_mapping with Some r => map_region r | None => default_region end.

(** ** The channels of the standard *)
Definition TX_PWR_DEFAULT : Z := 10.
Definition un_bg : list (Z * Z) :=
  [(1, 2412); (2, 2417); (3, 2422); (4, 2427); (5, 2432); (6, 2437); (7, 2442); (8, 2447); (9, 2452); (10, 2457); (11, 2462);
   (12, 2467); (13, 2472); (14, 2484)].
Definition un_aj : list (Z * Z) :=
  [(8, 5040); (12, 5060); (16, 5080); (34, 5170); (38, 5190); (42, 5210); (46, 5230); (36, 5180); (40, 5200); (44, 5220); (48, 5240);
   (52, 5260); (56, 5280); (60, 5300); (64, 5320); (100, 5500); (104, 5520); (108, 5540); (112, 5560); (116, 5580); (120, 5600);
   (124, 5620); (128, 5640); (132, 5660); (136, 5680); (140, 5700); (149, 5745); (153, 5765); (157, 5785); (161, 5805); (165, 5825)].
Definition channel_freq_power_UN_BG : list chan_freq_power_t := map (fun p => cfp p.1 p.2 TX_PWR_DEFAULT false) un_bg.
Definition channel_freq_power_UN_AJ : list chan_freq_power_t := map (fun p => cfp p.1 p.2 TX_PWR_DEFAULT false) un_aj.

(** The index of the first entry with the channel. *)
Fixpoint channel_index (t : list chan_freq_power_t) (chan : Z) : option Z :=
  match t with
  | [] => None
  | c :: t' => if CfpTables.channel c =? chan then Some 0 else (fun i => i + 1) <$> channel_index t' chan
  end.
(** The [no_of_chan]-th channel after the first. *)
Definition nth_channel (t : list chan_freq_power_t) (first_chan no_of_chan : Z) : outcome (option Z) :=
  match channel_index t first_chan with
  | Some i => if i + no_of_chan <? Z.of_nat (length t) then c ← arr_get t (i + no_of_chan); Ret (Some (u8 (CfpTables.channel c))) else Ret None
  | None => Ret None
  end.
Definition wlan_11d_get_chan (bd first_chan no_of_chan : Z) : outcome (option Z) :=
  if has_band bd (bands [BAND_B; BAND_G; BAND_GN]) then nth_channel channel_freq_power_UN_BG first_chan no_of_chan
  else if has_band bd (bands [BAND_A; BAND_AN]) then nth_channel channel_freq_power_UN_AJ first_chan no_of_chan
  else Ret None.
(** The last entry with the channel. *)
Definition wlan_11d_chan_2_freq (chan bd : Z) : Z :=
  foldl (fun f c => if chan =? CfpTables.channel c then CfpTables.freq c else f) 0
    (if has_band bd (bands [BAND_A; BAND_AN]) then channel_freq_power_UN_AJ else channel_freq_power_UN_BG).

(** ** The table of channels and the domain information *)
Definition MAX_NO_OF_CHAN : Z := 40.
Definition MRVDRV_MAX_SUBBAND_802_11D : Z := 83.
Record chan_power_11d_t := MkCp { cp_chan : Z; cp_band : Z; cp_pwr : Z; ap_seen : bool }.
Definition no_chan_power : chan_power_11d_t := MkCp 0 0 0 false.
Record parsed_region_chan_11d_t := MkParsed { chan_pwr : list chan_power_11d_t; no_of_chan : Z }.
Definition no_parsed : parsed_region_chan_11d_t := MkParsed (replicate 40 no_chan_power) 0.
Record IEEEtypes_SubbandSet_t := MkSub { first_chan : Z; sb_no_of_chan : Z; max_tx_pwr : Z }.
Definition no_sub_band : IEEEtypes_SubbandSet_t := MkSub 0 0 0.
Record wlan_802_11d_domain_reg_t := MkDomain { domain_country : list Z; domain_band : Z; no_of_sub_band : Z; sub_band : list IEEEtypes_SubbandSet_t }.
Definition no_domain : wlan_802_11d_domain_reg_t := MkDomain (replicate 3 0) 0 0 (replicate 83 no_sub_band).

(** [wlan_cmd_802_11d_domain_info]: the size of the command, and when domain
    information is set the length, the country and the sub-bands. *)
Record domain_cmd := MkDomainCmd { cmd_size : Z; cmd_domain : option (Z * list Z * list IEEEtypes_SubbandSet_t) }.
Definition wlan_cmd_802_11d_domain_info (set : bool) (d : wlan_802_11d_domain_reg_t) : domain_cmd :=
  if negb set then MkDomainCmd (2 + S_DS_GEN) None
  else
    let len := u16 (no_of_sub_band d * 3 + COUNTRY_CODE_LEN) in
    if negb (no_of_sub_band d =? 0) then
      MkDomainCmd (2 + len + 4 + S_DS_GEN)
        (Some (len, domain_country d, take (Z.to_nat (Z.min MRVDRV_MAX_SUBBAND_802_11D (no_of_sub_band d))) (sub_band d)))
    else MkDomainCmd (2 + S_DS_GEN) (Some (len, domain_country d, [])).

(** The part of adapter and interface used here; [domain_cmds] are the commands
    sent, the last one first, and [cmd_ok] the answer of [wlan_prepare_cmd]. *)
Record domain_state := MkDs {
  parsed_region_chan : parsed_region_chan_11d_t;
  domain_reg : wlan_802_11d_domain_reg_t;
  region_code : Z;
  fw_bands : Z;
  ds_channels : cfp_adapter;
  enable_11d : bool;
  media_connected : bool;
  curr_bss : BSSDescriptor_t;
  domain_cmds : list domain_cmd
}.
Definition set_parsed (p : parsed_region_chan_11d_t) (s : domain_state) : domain_state :=
  MkDs p (domain_reg s) (region_code s) (fw_bands s) (ds_channels s) (enable_11d s) (media_connected s) (curr_bss s) (domain_cmds s).
Definition set_domain (d : wlan_802_11d_domain_reg_t) (s : domain_state) : domain_state :=
  MkDs (parsed_region_chan s) d (region_code s) (fw_bands s) (ds_channels s) (enable_11d s) (media_connected s) (curr_bss s) (domain_cmds s).
Definition set_region (r : Z) (c : cfp_adapter) (s : domain_state) : domain_state :=
  MkDs (parsed_region_chan s) (domain_reg s) r (fw_bands s) c (enable_11d s) (media_connected s) (curr_bss s) (domain_cmds s).
Definition add_cmd (c : domain_cmd) (s : domain_state) : domain_state :=
  MkDs (parsed_region_chan s) (domain_reg s) (region_code s) (fw_bands s) (ds_channels s) (enable_11d s) (media_connected s) (curr_bss s) (c :: domain_cmds s).
Definition status_of (ok : bool) : mlan_status := if ok then MLAN_STATUS_SUCCESS else MLAN_STATUS_FAILURE.
Definition wlan_11d_send_domain_info (cmd_ok : bool) (s : domain_state) : mlan_status * domain_state :=
  (status_of cmd_ok, add_cmd (wlan_cmd_802_11d_domain_info true (domain_reg s)) s).

(** ** Known channels *)
Definition wlan_11h_radar_detect_required (s : domain_state) (chan : Z) : outcome bool :=
  required ← wlan_get_cfp_radar_detect (ds_channels s) chan;
  Ret (required && negb (media_connected s && (channel (curr_bss s) =? chan))).
Fixpoint find_chan_power (n : nat) (l : list chan_power_11d_t) (i : Z) (chan bd : Z) : outcome Z :=
  match n with
  | O => Ret i
  | S n' => c ← arr_get l i; if (chan =? cp_chan c) && (bd =? cp_band c) then Ret i else find_chan_power n' l (i + 1) chan bd
  end.
Definition wlan_11d_channel_known (s : domain_state) (bd chan : Z) (p : parsed_region_chan_11d_t) : outcome bool :=
  i ← find_chan_power (Z.to_nat (no_of_chan p)) (chan_pwr p) 0 chan bd;
  if i <? no_of_chan p then
    if has_band bd BAND_A then
      r ← wlan_11h_radar_detect_required s chan;
      c ← arr_get (chan_pwr p) i;
      Ret (if r : bool then ap_seen c else true)
    else Ret true
  else Ret false.
Inductive mlan_scan_type := MLAN_SCAN_TYPE_UNCHANGED | MLAN_SCAN_TYPE_ACTIVE | MLAN_SCAN_TYPE_PASSIVE.
Definition wlan_11d_get_scan_type (s : domain_state) (bd chan : Z) (p : parsed_region_chan_11d_t) : outcome mlan_scan_type :=
  known ← wlan_11d_channel_known s bd chan p; Ret (if known : bool then MLAN_SCAN_TYPE_ACTIVE else MLAN_SCAN_TYPE_PASSIVE).

(** ** From a table to domain information *)
Fixpoint parsed_loop (bd : Z) (t : list chan_freq_power_t) (n : nat) (i : Z) (l : list chan_power_11d_t) : outcome (list chan_power_11d_t) :=
  match n with
  | O => Ret l
  | S n' =>
      match t with
      | [] => Fault OutOfBounds
      | c :: t' =>
          old ← arr_get l i;
          l ← arr_set l i (MkCp (u8 (CfpTables.channel c)) (u8 bd) (u8 (max_tx_power c)) (ap_seen old));
          parsed_loop bd t' n' (i + 1) l
      end
  end.
Definition wlan_11d_generate_parsed_region_chan (a : cfp_adapter) (rc : region_chan_t) (p : parsed_region_chan_11d_t) : outcome parsed_region_chan_11d_t :=
  match pcfp rc with
  | None => Ret p
  | Some t => l ← parsed_loop (band rc) (deref a t) (Z.to_nat (num_cfp rc)) 0 (chan_pwr p); Ret (MkParsed l (num_cfp rc))
  end.

(** A sub-band is a run of consecutive channels of the same power. The variables
    of the loop: the sub-bands, their number, and the current run. *)
Record run := MkRun { run_first : Z; run_next : Z; run_count : Z; run_pwr : Z }.
Definition put_sub_band (r : run) (subs : list IEEEtypes_SubbandSet_t) (n : Z) : outcome (list IEEEtypes_SubbandSet_t) :=
  arr_set subs n (MkSub (run_first r) (run_count r) (run_pwr r)).
Fixpoint domain_loop (k : nat) (l : list chan_power_11d_t) (i : Z) (r : option run) (subs : list IEEEtypes_SubbandSet_t) (n : Z) :
    outcome (option run * list IEEEtypes_SubbandSet_t * Z) :=
  match k with
  | O => Ret (r, subs, n)
  | S k' =>
      c ← arr_get l i;
      let fresh := MkRun (cp_chan c) (cp_chan c) 1 (cp_pwr c) in
      match r with
      | None => domain_loop k' l (i + 1) (Some fresh) subs n
      | Some r =>
          if (cp_chan c =? run_next r + 1) && (cp_pwr c =? run_pwr r) then
            domain_loop k' l (i + 1) (Some (MkRun (run_first r) (u8 (run_next r + 1)) (u8 (run_count r + 1)) (run_pwr r))) subs n
          else subs ← put_sub_band r subs n; domain_loop k' l (i + 1) (Some fresh) subs (u8 (n + 1))
      end
  end.
(** The band of the domain information is cleared, and not set. *)
Definition wlan_11d_generate_domain_info (region : Z) (p : parsed_region_chan_11d_t) : outcome wlan_802_11d_domain_reg_t :=
  '(r, subs, n) ← domain_loop (Z.to_nat (no_of_chan p)) (chan_pwr p) 0 None (sub_band no_domain) 0;
  '(subs, n) ← match r with Some r => subs ← put_sub_band r subs n; Ret (subs, u8 (n + 1)) | None => Ret (subs, n) end;
  Ret (MkDomain (wlan_11d_code_2_region (u8 region)) 0 n subs).

(** ** From a country element to a table *)

(** The channels of a sub-band: the next index, the last channel and the table. *)
Fixpoint sub_band_loop (k : nat) (bd first i pwr idx last : Z) (l : list chan_power_11d_t) : outcome (Z * Z * list chan_power_11d_t) :=
  match k with
  | O => Ret (idx, last, l)
  | S k' =>
      if idx <? MAX_NO_OF_CHAN then
        c ← wlan_11d_get_chan bd first i;
        match c with
        | None => Ret (idx, last, l)
        | Some cur =>
            old ← arr_get l idx;
            l ← arr_set l idx (MkCp cur (u8 bd) pwr (ap_seen old));
            sub_band_loop k' bd first (i + 1) pwr (idx + 1) cur l
        end
      else Ret (idx, last, l)
  end.
(** The country element is [country_info]: its number, its length, the country and
    the sub-bands of three bytes. *)
Fixpoint sub_bands_loop (n : nat) (country_info : list Z) (j bd idx last : Z) (l : list chan_power_11d_t) : outcome (Z * list chan_power_11d_t) :=
  match n with
  | O => Ret (idx, l)
  | S n' =>
      first ← arr_get country_info (5 + 3 * j);
      if first <=? last then sub_bands_loop n' country_info (j + 1) bd idx last l
      else
        no ← arr_get country_info (5 + 3 * j + 1);
        pwr ← arr_get country_info (5 + 3 * j + 2);
        '(idx, last, l) ← sub_band_loop (Z.to_nat no) bd first 0 pwr idx last l;
        sub_bands_loop n' country_info (j + 1) bd idx last l
  end.
Definition wlan_11d_parse_domain_info (country_info : list Z) (bd : Z) (p : parsed_region_chan_11d_t) : outcome (mlan_status * parsed_region_chan_11d_t) :=
  code ← arr_get country_info 2;
  len ← arr_get country_info 1;
  if (code =? 0) || (len <=? COUNTRY_CODE_LEN) then Ret (MLAN_STATUS_FAILURE, p)
  else
    '(idx, l) ← sub_bands_loop (Z.to_nat ((len - COUNTRY_CODE_LEN) / 3)) country_info 0 bd 0 0 (chan_pwr p);
    Ret (MLAN_STATUS_SUCCESS, MkParsed l idx).

(** ** The table of the adapter *)
Definition put_chan_power (l : list chan_power_11d_t) (i : Z) (f : chan_power_11d_t -> chan_power_11d_t) : outcome (list chan_power_11d_t) :=
  c ← arr_get l i; arr_set l i (f c).
Definition set_pwr (p : Z) (c : chan_power_11d_t) : chan_power_11d_t := MkCp (cp_chan c) (cp_band c) p (ap_seen c).

(** A channel an access point was seen on. *)
Definition wlan_11d_update_chan_pwr_table (e : BSSDescriptor_t) (p : parsed_region_chan_11d_t) : outcome (mlan_status * parsed_region_chan_11d_t) :=
  chan ← arr_get (phy_param_set e) 2;
  let tx_power := wlan_get_txpwr_of_chan_from_cfp chan in
  if tx_power =? 0 then Ret (MLAN_STATUS_FAILURE, p)
  else
    i ← find_chan_power (Z.to_nat (Z.min (no_of_chan p) MAX_NO_OF_CHAN)) (chan_pwr p) 0 chan (bss_band e);
    if i <? Z.min (no_of_chan p) MAX_NO_OF_CHAN then
      l ← put_chan_power (chan_pwr p) i (fun c => MkCp (cp_chan c) (cp_band c) (Z.min (cp_pwr c) tx_power) true);
      Ret (MLAN_STATUS_SUCCESS, MkParsed l (no_of_chan p))
    else if (i =? no_of_chan p) && (i <? MAX_NO_OF_CHAN) then
      l ← arr_set (chan_pwr p) i (MkCp chan (u8 (bss_band e)) tx_power true);
      Ret (MLAN_STATUS_SUCCESS, MkParsed l (u8 (no_of_chan p + 1)))
    else Ret (MLAN_STATUS_SUCCESS, p).

(** The channels of a country element, from [i] on of [k], in the table [l] of
    [no] channels, with [added] new ones behind them. *)
Fixpoint merge_loop (k : nat) (i : Z) (new l : list chan_power_11d_t) (no added : Z) : outcome (list chan_power_11d_t * Z) :=
  match k with
  | O => Ret (l, added)
  | S k' =>
      x ← arr_get new i;
      j ← find_chan_power (Z.to_nat (Z.min no MAX_NO_OF_CHAN)) l 0 (cp_chan x) (cp_band x);
      if j <? Z.min no MAX_NO_OF_CHAN then
        l ← put_chan_power l j (set_pwr (cp_pwr x)); merge_loop k' (i + 1) new l no added
      else if (j =? no) && (j <? MAX_NO_OF_CHAN) then
        l ← arr_set l (no + added) (MkCp (cp_chan x) (cp_band x) (cp_pwr x) false); merge_loop k' (i + 1) new l no (added + 1)
      else merge_loop k' (i + 1) new l no added
  end.
Definition wlan_11d_process_country_info (e : BSSDescriptor_t) (p : parsed_region_chan_11d_t) : outcome (mlan_status * parsed_region_chan_11d_t) :=
  '(st, new) ← wlan_11d_parse_domain_info (country_info e) (bss_band e) no_parsed;
  match st with
  | MLAN_STATUS_FAILURE => Ret (MLAN_STATUS_FAILURE, p)
  | MLAN_STATUS_SUCCESS =>
      if negb (no_of_chan p =? 0) then
        '(l, added) ← merge_loop (Z.to_nat (Z.min (no_of_chan new) MAX_NO_OF_CHAN)) 0 (chan_pwr new) (chan_pwr p) (no_of_chan p) 0;
        Ret (MLAN_STATUS_SUCCESS, MkParsed l (u8 (no_of_chan p + u8 added)))
      else Ret (MLAN_STATUS_SUCCESS, new)
  end.

(** Insertion sort by channel. *)
Fixpoint insert_down (j : nat) (temp : chan_power_11d_t) (l : list chan_power_11d_t) : outcome (list chan_power_11d_t) :=
  match j with
  | O => arr_set l 0 temp
  | S j' =>
      c ← arr_get l (Z.of_nat j');
      if cp_chan c >? cp_chan temp then l ← arr_set l (Z.of_nat j) c; insert_down j' temp l else arr_set l (Z.of_nat j) temp
  end.
Fixpoint sort_loop (k i : nat) (l : list chan_power_11d_t) : outcome (list chan_power_11d_t) :=
  match k with
  | O => Ret l
  | S k' => temp ← arr_get l (Z.of_nat i); l ← insert_down i temp l; sort_loop k' (S i) l
  end.
Definition wlan_11d_sort_parsed_region_chan (p : parsed_region_chan_11d_t) : outcome parsed_region_chan_11d_t :=
  l ← sort_loop (Z.to_nat (no_of_chan p) - 1) 1 (chan_pwr p); Ret (MkParsed l (no_of_chan p)).

(** ** The domain information for the firmware *)

(** The loops over the channels of the country element [bss], from [i] on, and of
    the table [l]. *)
Fixpoint lower_inner (k : nat) (i j : Z) (bss l : list chan_power_11d_t) : outcome (list chan_power_11d_t) :=
  match k with
  | O => Ret l
  | S k' =>
      x ← arr_get l i; y ← arr_get bss j;
      if (cp_chan x =? cp_chan y) && (cp_band x =? cp_band y) then
        z ← arr_get bss i; put_chan_power l j (fun c => set_pwr (Z.min (cp_pwr c) (cp_pwr z)) c)
      else lower_inner k' i (j + 1) bss l
  end.
Fixpoint lower_loop (k : nat) (i : Z) (bss l : list chan_power_11d_t) (no : Z) : outcome (list chan_power_11d_t) :=
  match k with
  | O => Ret l
  | S k' => l ← lower_inner (Z.to_nat (Z.min no MAX_NO_OF_CHAN)) i 0 bss l; lower_loop k' (i + 1) bss l no
  end.
Definition wlan_11d_parse_dnld_countryinfo (cmd_ok : bool) (e : option BSSDescriptor_t) (s : domain_state) : outcome (mlan_status * domain_state) :=
  if enable_11d s then
    let region_chan := parsed_region_chan s in
    region_chan ← match e with
                  | None => Ret region_chan
                  | Some e =>
                      '(st, bss) ← wlan_11d_parse_domain_info (country_info e) (bss_band e) no_parsed;
                      match st with
                      | MLAN_STATUS_FAILURE => Ret region_chan
                      | MLAN_STATUS_SUCCESS =>
                          l ← lower_loop (Z.to_nat (Z.min (no_of_chan bss) MAX_NO_OF_CHAN)) 0 (chan_pwr bss) (chan_pwr region_chan) (no_of_chan region_chan);
                          Ret (MkParsed l (no_of_chan region_chan))
                      end
                  end;
    d ← wlan_11d_generate_domain_info (region_code s) region_chan;
    Ret (wlan_11d_send_domain_info cmd_ok (set_domain d s))
  else Ret (MLAN_STATUS_SUCCESS, s).

(** Every access point of the table: its channel, then its country element. *)
Fixpoint prepare_loop (t : list BSSDescriptor_t) (n : nat) (p : parsed_region_chan_11d_t) : outcome parsed_region_chan_11d_t :=
  match n with
  | O => Ret p
  | S n' =>
      match t with
      | [] => Fault OutOfBounds
      | e :: t' =>
          '(_, p) ← wlan_11d_update_chan_pwr_table e p;
          code ← arr_get (country_info e) 2;
          len ← arr_get (country_info e) 1;
          p ← (if negb (code =? 0) && (len >? COUNTRY_CODE_LEN) then '(_, p) ← wlan_11d_process_country_info e p; Ret p else Ret p);
          prepare_loop t' n' p
      end
  end.
Definition wlan_11d_prepare_dnld_domain_info_cmd (cmd_ok : bool) (t : list BSSDescriptor_t) (num : Z) (s : domain_state) : outcome (mlan_status * domain_state) :=
  if enable_11d s && negb (num =? 0) then
    p ← prepare_loop t (Z.to_nat num) (parsed_region_chan s);
    p ← wlan_11d_sort_parsed_region_chan p;
    let s := set_parsed p s in
    wlan_11d_parse_dnld_countryinfo cmd_ok (if media_connected s then Some (curr_bss s) else None) s
  else Ret (MLAN_STATUS_SUCCESS, s).

(** [support]: the interface supports 802.11d. *)
Definition wlan_scan_process_results (cmd_ok support : bool) (a : scan_adapter) (s : domain_state) : outcome (scan_adapter * domain_state) :=
  let a := update_results a in
  if support then '(_, s) ← wlan_11d_prepare_dnld_domain_info_cmd cmd_ok (pscan_table a) (num_in_scan_table a) s; Ret (a, s)
  else Ret (a, s).

(** The region's table for a band. *)
Definition region_fits (rc : region_chan_t) (bd : Z) : bool :=
  valid rc && match pcfp rc with Some _ => true | None => false end &&
  (if band rc =? BAND_A then existsb (Z.eqb bd) [BAND_A; BAND_AN; bands [BAND_A; BAND_AN]; bands [BAND_A; BAND_AN; BAND_AAC]]
   else if (band rc =? BAND_B) || (band rc =? BAND_G) then
     existsb (Z.eqb bd) [BAND_B; BAND_G; bands [BAND_G; BAND_B]; BAND_GN; bands [BAND_G; BAND_GN]; bands [BAND_B; BAND_G; BAND_GN];
                         bands [BAND_B; BAND_G; BAND_GN; BAND_GAC]]
   else false).
Definition wlan_11d_create_dnld_countryinfo (cmd_ok : bool) (bd : Z) (s : domain_state) : outcome (mlan_status * domain_state) :=
  if enable_11d s then
    match List.find (fun rc => region_fits rc bd) (take MAX_REGION_CHANNEL_NUM (region_channel (ds_channels s))) with
    | None => Ret (MLAN_STATUS_FAILURE, s)
    | Some rc =>
        p ← wlan_11d_generate_parsed_region_chan (ds_channels s) rc no_parsed;
        d ← wlan_11d_generate_domain_info (region_code s) p;
        Ret (wlan_11d_send_domain_info cmd_ok (set_domain d s))
    end
  else Ret (MLAN_STATUS_SUCCESS, s).
Definition wlan_11d_clear_parsedtable (s : domain_state) : mlan_status * domain_state :=
  if enable_11d s then (MLAN_STATUS_SUCCESS, set_parsed no_parsed s) else (MLAN_STATUS_FAILURE, s).

(** [sub_band_list] has at least the smaller of [num] and 83 items. *)
Definition wlan_11d_set_domain_info (bd : Z) (country : list Z) (num : Z) (sub_band_list : list IEEEtypes_SubbandSet_t) (s : domain_state) :
    outcome domain_state :=
  subs ← mem_read sub_band_list 0 (Z.min MRVDRV_MAX_SUBBAND_802_11D num);
  l ← mem_write (sub_band no_domain) 0 subs;
  Ret (set_domain (MkDomain country bd num l) s).
(** The region and its tables follow the country, when it is a known one. *)
Definition follow_country (country : list Z) (s : domain_state) : outcome (mlan_status * domain_state) :=
  match wlan_11d_region_2_code country with
  | None => Ret (MLAN_STATUS_SUCCESS, s)
  | Some c => '(ok, a) ← wlan_set_regiontable (ds_channels s) c (fw_bands s); Ret (status_of ok, set_region c a s)
  end.
Inductive cfg_result := CfgPending | CfgFailed.
Definition wlan_11d_cfg_domain_info (cmd_ok : bool) (country : list Z) (bd num : Z) (subs : list IEEEtypes_SubbandSet_t) (s : domain_state) :
    outcome (cfg_result * domain_state) :=
  if match otp_region (ds_channels s) with Some o => force_reg o | None => false end then Ret (CfgFailed, s)
  else
    '(st, s) ← follow_country country s;
    match st with
    | MLAN_STATUS_FAILURE => Ret (CfgFailed, s)
    | MLAN_STATUS_SUCCESS =>
        s ← wlan_11d_set_domain_info bd country num subs s;
        let (st, s) := wlan_11d_send_domain_info cmd_ok s in
        Ret (if decide (st = MLAN_STATUS_SUCCESS) then CfgPending else CfgFailed, s)
    end.
Fixpoint sub_bands_of (bs : list Z) : list IEEEtypes_SubbandSet_t :=
  match bs with f :: n :: p :: bs' => MkSub f n p :: sub_bands_of bs' | _ => [] end.
(** [domain_tlv]: type and length, the country, and the sub-bands of three bytes.
    [cmd_ok] is the answer of [wifi_uap_prepare_and_send_cmd], which sends the
    domain information too. *)
Definition wlan_11d_handle_uap_domain_info (cmd_ok : bool) (bd : Z) (domain_tlv : list Z) (s : domain_state) : outcome (mlan_status * domain_state) :=
  country ← mem_read domain_tlv 4 3;
  '(st, s) ← follow_country country s;
  len ← mem_read_le16 domain_tlv 2;
  let num := u8 (u32 (len - COUNTRY_CODE_LEN) / 3) in
  bs ← mem_read domain_tlv 7 (3 * Z.min MRVDRV_MAX_SUBBAND_802_11D num);
  s ← wlan_11d_set_domain_info bd country num (sub_bands_of bs) s;
  let s := add_cmd (wlan_cmd_802_11d_domain_info true (domain_reg s)) s in
  Ret (if cmd_ok then st else MLAN_STATUS_FAILURE, s).

(** ** The table of all channels *)
Definition UNIVERSAL_REGION_CODE : Z := 0xff.
Definition set_universal_channel (l : list region_chan_t) (a : cfp_adapter) : cfp_adapter :=
  MkCfpAdapter (region_channel a) l (adapter_cfp_code_bg a) (adapter_cfp_code_a a) (otp_region a) (cfp_otp_bg a) (cfp_otp_a a)
    (tx_power_table_bg_rows a) (tx_power_table_a_rows a) (adapter_country_code a) (stations_11d a) (custom_bg a) (custom_a a).
Definition wlan_11d_set_universaltable (bd : Z) (a : cfp_adapter) : outcome cfp_adapter :=
  let cleared := replicate MAX_REGION_CHANNEL_NUM no_region_chan in
  let entry b t := MkRegionChan true UNIVERSAL_REGION_CODE b (u8 (Z.of_nat (length t))) (Some (StaticCfp t)) in
  '(l, i) ← (if has_band bd (bands [BAND_B; BAND_G; BAND_GN]) then
               l ← arr_set cleared 0 (entry (if has_band bd BAND_GN then BAND_G else if has_band bd BAND_G then BAND_G else BAND_B) channel_freq_power_UN_BG);
               Ret (l, 1)
             else Ret (cleared, 0));
  l ← (if has_band bd (bands [BAND_A; BAND_AN; BAND_AAC]) then arr_set l i (entry BAND_A channel_freq_power_UN_AJ) else Ret l);
  Ret (set_universal_channel l a).
(** Only the first entry of the table is cleared. *)
Definition wlan_11d_init (s : domain_state) : outcome domain_state :=
  l ← arr_set (universal_channel (ds_channels s)) 0 no_region_chan;
  Ret (set_region (region_code s) (set_universal_channel l (ds_channels s)) (set_domain no_domain (set_parsed no_parsed s))).
