(* ===== verification/DomainTheorems.v ===== *)
(** * Country information: theorems

    The table is sorted, the domain information says what the table says, its
    country element is read back to the same table, and where the code loses
    or misplaces channels. *)
From stdpp Require Import list sorting.
From S2P Require Import Prelude CString CfpTables Cfp ScanData ScanParse ScanTable Domain.
Open Scope Z_scope.

(** ** The sort *)
Definition chan_le (a b : chan_power_11d_t) : Prop := cp_chan a <= cp_chan b.
Lemma insert_down_spec temp : forall pre x post, StronglySorted chan_le pre -> exists q,
  insert_down (length pre) temp (pre ++ x :: post) = Ret (q ++ post) /\ q ≡ₚ temp :: pre /\ StronglySorted chan_le q.
Proof.
  induction pre as [| c pre IH] using rev_ind; intros x post Hs.
  - exists [temp]. split; [done |]. split; [done |]. by repeat constructor.
  - rewrite length_app. cbn [length]. replace (length pre + 1)%nat with (S (length pre)) by lia. cbn [insert_down].
    apply StronglySorted_app in Hs as (Hc & Hs & _). rewrite <- app_assoc. cbn [app]. rewrite arr_get_app, bind_ret by done.
    assert (El : Z.of_nat (S (length pre)) = Z.of_nat (length (pre ++ [c]))) by (rewrite length_app; cbn; lia).
    rewrite El. change (pre ++ c :: x :: post) with (pre ++ [c] ++ x :: post). rewrite (app_assoc pre).
    rewrite !arr_set_app by done. rewrite Z.gtb_ltb. destruct (Z.ltb_spec (cp_chan temp) (cp_chan c)).
    + rewrite bind_ret, <- app_assoc. cbn [app]. destruct (IH c (c :: post) Hs) as (q & E & P & S). rewrite E. exists (q ++ [c]). rewrite <- app_assoc.
      split; [done |]. split; [by rewrite P |]. apply StronglySorted_app. split; [| split; [done | by repeat constructor]].
      intros y z Hy ->%list_elem_of_singleton. rewrite P in Hy. apply elem_of_cons in Hy as [-> | Hy]; [unfold chan_le; lia |].
      apply Hc; [done | by left].
    + exists ((pre ++ [c]) ++ [temp]). rewrite <- !app_assoc. split; [done |]. split; [by rewrite app_assoc, Permutation_app_comm |].
      rewrite app_assoc. apply StronglySorted_app. split; [| split; [apply StronglySorted_app; split; [done |]; split; [done |] |]; by repeat constructor].
      intros y z Hy ->%list_elem_of_singleton. assert (cp_chan y <= cp_chan c); [| unfold chan_le; lia].
      apply elem_of_app in Hy as [Hy | ->%list_elem_of_singleton]; [apply Hc; [done | by left] | lia].
Qed.
Lemma sort_loop_spec k : forall pre l post, length l = k -> StronglySorted chan_le pre -> exists q,
  sort_loop k (length pre) (pre ++ l ++ post) = Ret (q ++ post) /\ q ≡ₚ pre ++ l /\ StronglySorted chan_le q.
Proof.
  induction k as [| k IH]; intros pre l post Hl Hs.
  - destruct l; [| done]. exists pre. rewrite app_nil_r. done.
  - destruct l as [| x l]; [done |]. cbn [sort_loop app]. rewrite arr_get_app, bind_ret by done.
    destruct (insert_down_spec x pre x (l ++ post) Hs) as (q & E & P & S). rewrite E, bind_ret.
    assert (Hq : length q = Datatypes.S (length pre)) by (rewrite P; done). rewrite <- Hq.
    destruct (IH q l post ltac:(by injection Hl) S) as (q' & E' & P' & S'). exists q'. split; [done |]. split; [| done].
    rewrite P', P. cbn [app]. apply Permutation_middle.
Qed.
Record parsed_ok (p : parsed_region_chan_11d_t) : Prop := MkParsedOk { pk_length : length (chan_pwr p) = 40%nat; pk_number : 0 <= no_of_chan p <= 40 }.
Definition channels_of (p : parsed_region_chan_11d_t) : list chan_power_11d_t := take (Z.to_nat (no_of_chan p)) (chan_pwr p).
Lemma sort_spec p : parsed_ok p -> exists q, wlan_11d_sort_parsed_region_chan p = Ret q /\ parsed_ok q /\
  channels_of q ≡ₚ channels_of p /\ StronglySorted chan_le (channels_of q) /\ no_of_chan q = no_of_chan p.
Proof.
  intros [Hl Hn]. unfold wlan_11d_sort_parsed_region_chan, channels_of. set (n := Z.to_nat (no_of_chan p)).
  rewrite <- (take_drop n (chan_pwr p)). set (l := take n (chan_pwr p)). set (post := drop n (chan_pwr p)).
  assert (Hlen : length l = n) by (subst l; rewrite length_take_le; lia).
  assert (exists q, sort_loop (n - 1) 1 (l ++ post) = Ret (q ++ post) /\ q ≡ₚ l /\ StronglySorted chan_le q) as (q & E & P & S).
  { destruct l as [| x l]; [exists []; rewrite <- Hlen; split; [done |]; split; [done | constructor] |].
    destruct (sort_loop_spec (n - 1) [x] l post) as (q & E & P & S); [cbn in Hlen; lia | by repeat constructor | by exists q]. }
  rewrite E, bind_ret. eexists. split; [done |]. cbn [chan_pwr no_of_chan]. assert (Hq : length q = n) by (rewrite P; done).
  split; [constructor; cbn; [rewrite length_app, Hq; subst post; rewrite length_drop; lia | done] |].
  fold n. rewrite <- Hq at 1 3. rewrite take_app_length. rewrite <- Hlen at 1. rewrite take_app_length. done.
Qed.

(** ** Sub-bands *)

(** The channels of a sub-band, with their power. *)
Definition expand (s : IEEEtypes_SubbandSet_t) : list (Z * Z) := map (fun k => (first_chan s + k, max_tx_pwr s)) (seqZ 0 (sb_no_of_chan s)).
Definition announced (l : list chan_power_11d_t) : list (Z * Z) := map (fun c => (cp_chan c, cp_pwr c)) l.
Definition pad {A} (n : nat) (l : list A) (x : A) : list A := l ++ replicate (n - length l) x.
Definition sub_of (r : run) : IEEEtypes_SubbandSet_t := MkSub (run_first r) (run_count r) (run_pwr r).
Definition run_ok (r : run) : Prop := 1 <= run_count r <= 40 /\ run_next r = run_first r + run_count r - 1 /\ 0 <= run_next r < 256.
Definition count_ok (s : IEEEtypes_SubbandSet_t) : Prop := 1 <= sb_no_of_chan s <= 40.
Lemma pad_length {A} n (l : list A) x : (length l <= n)%nat -> length (pad n l x) = n.
Proof. intros. unfold pad. rewrite length_app, length_replicate. lia. Qed.
Lemma pad_set {A} n (l : list A) x y : (length l < n)%nat -> arr_set (pad n l x) (Z.of_nat (length l)) y = Ret (pad n (l ++ [y]) x).
Proof.
  intros. unfold pad. destruct (n - length l)%nat as [| k] eqn:E; [lia |]. cbn [replicate]. rewrite arr_set_app by done.
  rewrite <- app_assoc, length_app. cbn [length app]. by replace (n - (length l + 1))%nat with k by lia.
Qed.
Lemma expand_first c p : expand (MkSub c 1 p) = [(c, p)].
Proof. unfold expand. cbn [sb_no_of_chan first_chan max_tx_pwr]. change (seqZ 0 1) with [0]. cbn [map]. by rewrite Z.add_0_r. Qed.
Lemma expand_next f n p : 0 <= n -> expand (MkSub f (n + 1) p) = expand (MkSub f n p) ++ [(f + n, p)].
Proof.
  intros. unfold expand. cbn [sb_no_of_chan first_chan max_tx_pwr]. replace (n + 1) with (Z.of_nat (S (Z.to_nat n))) by lia.
  rewrite seqZ_S, map_app. cbn [map]. by rewrite Z2Nat.id.
Qed.
Lemma expand_length s : 0 <= sb_no_of_chan s -> Z.of_nat (length (expand s)) = sb_no_of_chan s.
Proof. intros. unfold expand. rewrite length_map, length_seqZ. lia. Qed.
Definition chan_byte (c : chan_power_11d_t) : Prop := 0 <= cp_chan c < 256.
Lemma domain_loop_spec post : forall l pre r S, Forall chan_byte l -> run_ok r -> Forall count_ok S -> (length S + length l < 83)%nat -> run_count r + Z.of_nat (length l) <= 40 ->
  exists r' S', domain_loop (length l) (pre ++ l ++ post) (Z.of_nat (length pre)) (Some r) (pad 83 S no_sub_band) (Z.of_nat (length S)) =
      Ret (Some r', pad 83 S' no_sub_band, Z.of_nat (length S')) /\ run_ok r' /\ Forall count_ok S' /\ (length S' <= length S + length l)%nat /\
    concat (map expand S') ++ expand (sub_of r') = (concat (map expand S) ++ expand (sub_of r)) ++ announced l.
Proof.
  induction l as [| c l IH]; intros pre r S Hl Hr HS Hn Hc.
  - exists r, S. rewrite app_nil_r. split; [done |]. split; [done |]. split; [done |]. split; [lia | done].
  - apply list.Forall_cons in Hl as [Hcb Hl]. unfold chan_byte in Hcb. cbn [domain_loop length app]. rewrite arr_get_app, bind_ret by done. cbn zeta iota beta.
    replace (pre ++ c :: l ++ post) with ((pre ++ [c]) ++ l ++ post) by (by rewrite <- app_assoc).
    replace (Z.of_nat (length pre) + 1) with (Z.of_nat (length (pre ++ [c]))) by (rewrite length_app; cbn; lia). cbn [length] in Hn, Hc.
    destruct Hr as (Hr1 & Hr2 & Hr3).
    destruct ((cp_chan c =? run_next r + 1) && (cp_pwr c =? run_pwr r)) eqn:Eb.
    + apply andb_true_iff in Eb as [Ec%Z.eqb_eq Ep%Z.eqb_eq]. assert (E1 : u8 (run_next r + 1) = run_next r + 1) by (apply Z.mod_small; lia). assert (E2 : u8 (run_count r + 1) = run_count r + 1) by (apply Z.mod_small; lia).
      rewrite E1, E2. destruct (IH (pre ++ [c]) (MkRun (run_first r) (run_next r + 1) (run_count r + 1) (run_pwr r)) S) as (r' & S' & E & H1 & H2 & H3 & H4);
        [done | split; cbn; lia | done | lia | cbn; lia |].
      exists r', S'. split; [exact E |]. split; [done |]. split; [done |]. split; [lia |]. rewrite H4. unfold sub_of. cbn [run_first run_count run_pwr].
      rewrite expand_next by lia. unfold announced. cbn [map]. rewrite <- !app_assoc. cbn [app]. rewrite Ep. by replace (cp_chan c) with (run_first r + run_count r) by lia.
    + unfold put_sub_band. fold (sub_of r). rewrite pad_set, bind_ret by lia.
      assert (E1 : u8 (Z.of_nat (length S) + 1) = Z.of_nat (length (S ++ [sub_of r]))) by (rewrite length_app; cbn [length]; unfold wrap; rewrite Z.mod_small; lia).
      rewrite E1. destruct (IH (pre ++ [c]) (MkRun (cp_chan c) (cp_chan c) 1 (cp_pwr c)) (S ++ [sub_of r])) as (r' & S' & E & H1 & H2 & H3 & H4);
        [done | split; cbn; lia | apply list.Forall_app; split; [done | by apply list.Forall_singleton] | rewrite length_app; cbn; lia | cbn; lia |].
      exists r', S'. split; [exact E |]. split; [done |]. split; [done |]. split; [rewrite length_app in H3; cbn in H3; lia |].
      rewrite H4, map_app, concat_app. cbn [map concat]. rewrite app_nil_r. unfold sub_of at 2. cbn [run_first run_count run_pwr]. rewrite expand_first.
      unfold announced. cbn [map]. by rewrite <- !app_assoc.
Qed.
(** The domain information says what the table says. *)
Lemma generate_spec region p : parsed_ok p -> Forall chan_byte (channels_of p) -> exists S,
  wlan_11d_generate_domain_info region p = Ret (MkDomain (wlan_11d_code_2_region (u8 region)) 0 (Z.of_nat (length S)) (pad 83 S no_sub_band)) /\
  Forall count_ok S /\ (length S <= 40)%nat /\ concat (map expand S) = announced (channels_of p).
Proof.
  intros [Hl Hn] Hb. unfold wlan_11d_generate_domain_info, channels_of in *. set (n := Z.to_nat (no_of_chan p)) in *.
  replace (domain_loop n (chan_pwr p)) with (domain_loop n (take n (chan_pwr p) ++ drop n (chan_pwr p))) by (by rewrite take_drop).
  set (l := take n (chan_pwr p)) in *. assert (Hlen : length l = n) by (subst l; rewrite length_take_le; lia).
  set (post := drop n (chan_pwr p)). clearbody post. rewrite <- Hlen.
  change (sub_band no_domain) with (pad 83 [] no_sub_band). destruct l as [| c l].
  - exists []. split; [done |]. split; [done |]. split; [cbn; lia | done].
  - apply list.Forall_cons in Hb as [Hcb Hb]. unfold chan_byte in Hcb. cbn [domain_loop length app].
    pose proof (arr_get_app [] (l ++ post) c 0 eq_refl) as E0. cbn [app] in E0.
    rewrite E0, bind_ret. cbn zeta iota.
    destruct (domain_loop_spec post l [c] (MkRun (cp_chan c) (cp_chan c) 1 (cp_pwr c)) []) as (r & S & E & Hr & HS & Hc & Hx);
      [done | split; cbn; lia | done | cbn in *; lia | cbn in *; lia |].
    change (0 + 1) with (Z.of_nat (length [c])). change 0 with (Z.of_nat (length (@nil IEEEtypes_SubbandSet_t))) at 2. cbn [app] in E |- *. rewrite E, !bind_ret.
    unfold put_sub_band. fold (sub_of r). cbn [length] in Hc, Hlen. rewrite pad_set, !bind_ret by lia. exists (S ++ [sub_of r]). split.
    + do 2 f_equal. rewrite length_app. cbn [length]. unfold wrap. rewrite Z.mod_small; lia.
    + split; [apply list.Forall_app; split; [done | apply list.Forall_singleton; apply Hr] |]. split; [rewrite length_app; cbn [length]; lia |].
      rewrite map_app, concat_app. cbn [map concat]. rewrite app_nil_r, Hx. unfold sub_of. cbn [run_first run_count run_pwr]. by rewrite expand_first.
Qed.

(** C26: The domain information sent to the firmware covers the table of channels.
    With 802.11d on, for a station that is not connected, and access points whose
    channels fit the table of 40 ([prepare_loop] takes them in and leaves a table that is
    [parsed_ok]; it does not check that they fit), the command holds, in
    ascending order of channels, sub-bands whose channels and powers are exactly
    those of the table after the access points were taken in, and their number. *)
Theorem domain_info_covers_table cmd_ok t num s p :
  enable_11d s = true -> media_connected s = false -> num <> 0 ->
  prepare_loop t (Z.to_nat num) (parsed_region_chan s) = Ret p -> parsed_ok p -> Forall chan_byte (channels_of p) -> channels_of p <> [] ->
  exists s' subs cmds, wlan_11d_prepare_dnld_domain_info_cmd cmd_ok t num s = Ret (status_of cmd_ok, s') /\
    channels_of (parsed_region_chan s') ≡ₚ channels_of p /\ StronglySorted chan_le (channels_of (parsed_region_chan s')) /\
    domain_cmds s' = MkDomainCmd (17 + 3 * Z.of_nat (length subs)) (Some (3 + 3 * Z.of_nat (length subs), wlan_11d_code_2_region (u8 (region_code s)), subs)) :: cmds /\
    concat (map expand subs) = announced (channels_of (parsed_region_chan s')).
Proof.
  intros He Hm Hnum Hp Hok Hb Hne. unfold wlan_11d_prepare_dnld_domain_info_cmd. rewrite He, (proj2 (Z.eqb_neq _ _)), Hp, bind_ret by done. cbn [andb negb].
  destruct (sort_spec p Hok) as (q & Eq & Hq & P & S & _). rewrite Eq, bind_ret. cbn [media_connected set_parsed]. rewrite Hm. unfold wlan_11d_parse_dnld_countryinfo. cbn [enable_11d set_parsed parsed_region_chan region_code]. rewrite He.
  assert (Hbq : Forall chan_byte (channels_of q)) by (by rewrite P). rewrite bind_ret.
  destruct (generate_spec (region_code s) q Hq Hbq) as (subs & E & Hc & Hn & Hx). rewrite E, bind_ret.
  assert (Hs0 : (0 < length subs)%nat).
  { destruct subs; [| cbn; lia]. cbn in Hx. destruct (channels_of q) eqn:Eq0; [| done]. apply Permutation_nil_l in P. by rewrite P in Hne. }
  eexists _, subs, (domain_cmds s). split; [done |]. cbn [parsed_region_chan set_domain set_parsed add_cmd domain_cmds domain_reg]. split; [done |]. split; [done |]. split; [| done].
  unfold wlan_cmd_802_11d_domain_info. cbn [negb no_of_sub_band domain_country sub_band]. unfold COUNTRY_CODE_LEN, S_DS_GEN, MRVDRV_MAX_SUBBAND_802_11D.
  rewrite (proj2 (Z.eqb_neq _ _)) by lia. cbn [negb]. assert (Eu : u16 (Z.of_nat (length subs) * 3 + 3) = 3 + 3 * Z.of_nat (length subs)) by (unfold wrap; rewrite Z.mod_small; lia).
  rewrite Eu. f_equal. f_equal; [lia |]. do 2 f_equal. unfold pad. rewrite Z.min_r, Nat2Z.id by lia. by rewrite take_app_length.
Qed.

(** ** Country elements *)
Definition known (bd : Z) : list Z :=
  if has_band bd (bands [BAND_B; BAND_G; BAND_GN]) then map fst un_bg
  else if has_band bd (bands [BAND_A; BAND_AN]) then map fst un_aj else [].
Definition consecutive_ok (t : list chan_freq_power_t) (known : list Z) : bool :=
  forallb (fun f => forallb (fun i => implb (forallb (fun k => bool_decide (f + k ∈ known)) (seqZ 0 (i + 1)))
    match nth_channel t f i with Ret (Some c) => c =? f + i | _ => false end) (seqZ 0 40)) known.
Lemma nth_channel_run t chans f i : consecutive_ok t chans = true -> 0 <= i < 40 -> (forall k, 0 <= k <= i -> f + k ∈ chans) ->
  nth_channel t f i = Ret (Some (f + i)).
Proof.
  intros Hc Hi Hk. unfold consecutive_ok in Hc. rewrite forallb_forall in Hc. specialize (Hc f). rewrite forallb_forall in Hc.
  assert (Hf : f ∈ chans) by (rewrite <- (Z.add_0_r f); apply Hk; lia).
  specialize (Hc (proj1 (list_elem_of_In _ _) Hf) i). assert (Hin : i ∈ seqZ 0 40) by (apply elem_of_seqZ; lia).
  specialize (Hc (proj1 (list_elem_of_In _ _) Hin)). rewrite (proj2 (forallb_forall _ _)) in Hc.
  - cbn [implb] in Hc. destruct (nth_channel t f i) as [[c |] |]; [| done | done]. apply Z.eqb_eq in Hc as ->. done.
  - intros k Hk'. apply list_elem_of_In, elem_of_seqZ in Hk'. apply bool_decide_eq_true, Hk. lia.
Qed.
Lemma get_chan_run bd f i : 0 <= i < 40 -> (forall k, 0 <= k <= i -> f + k ∈ known bd) -> wlan_11d_get_chan bd f i = Ret (Some (f + i)).
Proof.
  intros Hi Hk. unfold wlan_11d_get_chan, known in *. destruct (has_band bd (bands [BAND_B; BAND_G; BAND_GN])).
  - apply (nth_channel_run _ (map fst un_bg)); [by vm_compute | done | done].
  - destruct (has_band bd (bands [BAND_A; BAND_AN])); [apply (nth_channel_run _ (map fst un_aj)); [by vm_compute | done | done] |].
    exfalso. specialize (Hk 0 ltac:(lia)). by apply not_elem_of_nil in Hk.
Qed.

(** The table of a list of channels with powers. *)
Definition table_of (bd : Z) (l : list (Z * Z)) : list chan_power_11d_t := map (fun p => MkCp p.1 (u8 bd) p.2 false) l.
Lemma sub_band_loop_spec bd f p : forall k i done last, (0 <= i) -> (k + length done <= 40)%nat -> i + Z.of_nat k <= 40 ->
  (forall j, 0 <= j < i + Z.of_nat k -> f + j ∈ known bd) ->
  sub_band_loop k bd f i p (Z.of_nat (length done)) last (pad 40 (table_of bd done) no_chan_power) =
  Ret (Z.of_nat (length done + k), if decide (k = 0%nat) then last else f + i + Z.of_nat k - 1,
       pad 40 (table_of bd (done ++ map (fun j => (f + j, p)) (seqZ i (Z.of_nat k)))) no_chan_power).
Proof.
  induction k as [| k IH]; intros i l last Hi Hl Hk Hin; [cbn; by rewrite app_nil_r, Nat.add_0_r |].
  cbn [sub_band_loop]. unfold MAX_NO_OF_CHAN. rewrite (proj2 (Z.ltb_lt _ _)) by lia. rewrite get_chan_run, bind_ret by (try intros; try apply Hin; lia).
  assert (El : length (table_of bd l) = length l) by apply length_map.
  assert (Eg : arr_get (pad 40 (table_of bd l) no_chan_power) (Z.of_nat (length l)) = Ret no_chan_power).
  { unfold pad. rewrite El. destruct (40 - length l)%nat as [| m] eqn:Em; [lia |]. cbn [replicate]. apply arr_get_app. by rewrite El. }
  rewrite Eg, bind_ret. rewrite <- El at 1. rewrite pad_set, bind_ret by (rewrite El; lia). cbn [ap_seen no_chan_power].
  change (table_of bd l ++ [MkCp (f + i) (u8 bd) p false]) with (table_of bd l ++ table_of bd [(f + i, p)]). unfold table_of at 1 2. rewrite <- map_app.
  fold (table_of bd (l ++ [(f + i, p)])). replace (Z.of_nat (length l) + 1) with (Z.of_nat (length (l ++ [(f + i, p)]))) by (rewrite length_app; cbn; lia).
  rewrite IH; [| lia | rewrite length_app; cbn; lia | lia | intros; apply Hin; lia].
  rewrite length_app. cbn [length]. f_equal. f_equal; [f_equal; [lia |] |].
  - destruct (decide (S k = 0%nat)); [done |]. destruct (decide (k = 0%nat)); lia.
  - rewrite (seqZ_cons i) by lia. cbn [map]. rewrite <- app_assoc. cbn [app]. by replace (Z.pred (Z.of_nat (S k))) with (Z.of_nat k) by lia.
Qed.
Definition encode_sub (s : IEEEtypes_SubbandSet_t) : list Z := [first_chan s; sb_no_of_chan s; max_tx_pwr s].
Definition encode_subs (l : list IEEEtypes_SubbandSet_t) : list Z := concat (map encode_sub l).
Lemma encode_subs_length l : length (encode_subs l) = (3 * length l)%nat.
Proof. induction l as [| s l IH]; [done |]. unfold encode_subs in *. cbn [map concat length app encode_sub]. rewrite IH. lia. Qed.
Lemma read_sub (hdr : list Z) pre s l junk : length hdr = 5%nat -> forall k, 0 <= k < 3 ->
  arr_get (hdr ++ encode_subs pre ++ encode_subs (s :: l) ++ junk) (5 + 3 * Z.of_nat (length pre) + k) = arr_get (encode_sub s) k.
Proof.
  intros Hh k Hk. unfold encode_subs at 2. cbn [map concat]. fold (encode_subs l). rewrite <- app_assoc, (app_assoc hdr).
  assert (Hl : length (hdr ++ encode_subs pre) = (5 + 3 * length pre)%nat) by (rewrite length_app, encode_subs_length; lia).
  set (q := hdr ++ encode_subs pre) in *. assert (k = 0 \/ k = 1 \/ k = 2) as [-> | [-> | ->]] by lia.
  - change (encode_sub s ++ encode_subs l ++ junk) with (first_chan s :: ([sb_no_of_chan s; max_tx_pwr s] ++ encode_subs l ++ junk)). apply arr_get_app. lia.
  - change (encode_sub s ++ encode_subs l ++ junk) with ([first_chan s] ++ sb_no_of_chan s :: ([max_tx_pwr s] ++ encode_subs l ++ junk)).
    rewrite app_assoc. apply arr_get_app. rewrite length_app. cbn. lia.
  - change (encode_sub s ++ encode_subs l ++ junk) with ([first_chan s; sb_no_of_chan s] ++ max_tx_pwr s :: (encode_subs l ++ junk)).
    rewrite app_assoc. apply arr_get_app. rewrite length_app. cbn. lia.
Qed.
Lemma expand_cons s : 0 < sb_no_of_chan s -> exists l, expand s = (first_chan s, max_tx_pwr s) :: l.
Proof. intros. unfold expand. rewrite seqZ_cons by lia. cbn [map]. rewrite Z.add_0_r. by eexists. Qed.
Lemma expand_last s : 0 < sb_no_of_chan s -> first_chan s + sb_no_of_chan s - 1 ∈ map fst (expand s).
Proof.
  intros. unfold expand. rewrite map_map. cbn [fst]. apply list_elem_of_fmap. exists (sb_no_of_chan s - 1). split; [lia |]. apply elem_of_seqZ. lia.
Qed.
Lemma sub_bands_loop_spec hdr junk bd : length hdr = 5%nat -> forall l pre done last, Forall count_ok l ->
  StronglySorted Z.lt (last :: map fst (concat (map expand l))) -> Forall (fun c => c ∈ known bd) (map fst (concat (map expand l))) ->
  (length done + length (concat (map expand l)) <= 40)%nat ->
  sub_bands_loop (length l) (hdr ++ encode_subs pre ++ encode_subs l ++ junk) (Z.of_nat (length pre)) bd (Z.of_nat (length done)) last (pad 40 (table_of bd done) no_chan_power) =
  Ret (Z.of_nat (length done + length (concat (map expand l))), pad 40 (table_of bd (done ++ concat (map expand l))) no_chan_power).
Proof.
  intros Hh. induction l as [| s l IH]; intros pre dn last Hc Hs Hk Hn; [cbn; by rewrite app_nil_r, Nat.add_0_r |].
  apply list.Forall_cons in Hc as [Hcs Hc]. unfold count_ok in Hcs. cbn [map concat] in *. rewrite map_app in Hs, Hk. rewrite length_app in Hn.
  pose proof (expand_length s ltac:(lia)) as Hel. destruct (expand_cons s ltac:(lia)) as [es Ees].
  assert (Hfirst : last < first_chan s).
  { apply StronglySorted_inv in Hs as [_ Hs]. rewrite Ees in Hs. cbn [map app fst] in Hs. by apply list.Forall_cons in Hs as [? _]. }
  cbn [sub_bands_loop length]. pose proof (read_sub hdr pre s l junk Hh) as Hr. pose proof (Hr 0 ltac:(lia)) as R0. rewrite Z.add_0_r in R0.
  rewrite R0. change (arr_get (encode_sub s) 0) with (Ret (first_chan s)). rewrite bind_ret, (proj2 (Z.leb_gt _ _)) by done.
  rewrite (Hr 1), (Hr 2) by lia. change (arr_get (encode_sub s) 1) with (Ret (sb_no_of_chan s)). change (arr_get (encode_sub s) 2) with (Ret (max_tx_pwr s)). rewrite !bind_ret.
  rewrite sub_band_loop_spec; [| lia.. |].
  2: { intros j Hj. apply list.Forall_app in Hk as [Hk _]. rewrite list.Forall_forall in Hk. apply Hk. unfold expand. rewrite map_map. cbn [fst].
       apply list_elem_of_fmap. exists j. split; [done |]. apply elem_of_seqZ. lia. }
  rewrite bind_ret, decide_False by lia. rewrite !Z2Nat.id by lia. fold (expand s). rewrite Z.add_0_r.
  replace (encode_subs pre ++ encode_subs (s :: l) ++ junk) with (encode_subs (pre ++ [s]) ++ encode_subs l ++ junk)
    by (unfold encode_subs; rewrite map_app, concat_app; cbn [map concat]; rewrite app_nil_r, <- !app_assoc; done).
  replace (Z.of_nat (length pre) + 1) with (Z.of_nat (length (pre ++ [s]))) by (rewrite length_app; cbn; lia).
  replace (length dn + Z.to_nat (sb_no_of_chan s))%nat with (length (dn ++ expand s)) by (rewrite length_app; lia).
  rewrite IH; [| done | | by apply list.Forall_app in Hk as [_ Hk] | rewrite length_app; lia].
  - rewrite !length_app, <- app_assoc. do 2 f_equal. lia.
  - apply StronglySorted_inv in Hs as [Hs _]. apply StronglySorted_app in Hs as (Hlt & _ & Hs). constructor; [done |].
    apply list.Forall_forall. intros c Hin. apply Hlt; [apply expand_last; lia | done].
Qed.
Lemma known_byte bd c : c ∈ known bd -> 0 < c < 256.
Proof.
  unfold known. assert (H : forall l, forallb (fun c => (0 <? c) && (c <? 256)) l = true -> c ∈ l -> 0 < c < 256).
  { intros l Hl Hc. rewrite forallb_forall in Hl. apply list_elem_of_In in Hc. apply Hl in Hc. lia. }
  destruct (has_band _ _); [by apply H |]. destruct (has_band _ _); [by apply H |]. intros Hc. by apply not_elem_of_nil in Hc.
Qed.
Lemma region_three c : exists x y z, wlan_11d_code_2_region c = [x; y; z] /\ x <> 0.
Proof.
  assert (H : Forall (fun r => exists x y z, map_region r = [x; y; z] /\ x <> 0) region_code_mapping).
  { repeat (apply list.Forall_cons; split; [by eexists _, _, _ |]). by apply list.Forall_nil. }
  unfold wlan_11d_code_2_region. destruct (List.find _ _) as [r |] eqn:E; [| by eexists _, _, _].
  apply List.find_some in E as [E _]. rewrite list.Forall_forall in H. by apply H, list_elem_of_In.
Qed.

(** The domain information generated from a table is read back to the same table: when
    its channels ascend and are known in their band, a country element with
    the country and the sub-bands of the domain information is parsed to the same
    channels, powers and number, whatever follows the element. *)
Theorem domain_info_roundtrip region bd p l :
  parsed_ok p -> channels_of p = table_of bd l -> l <> [] -> StronglySorted Z.lt (map fst l) -> Forall (fun c => c ∈ known bd) (map fst l) ->
  exists d, wlan_11d_generate_domain_info region p = Ret d /\ forall junk,
    wlan_11d_parse_domain_info ([7; 3 + 3 * no_of_sub_band d] ++ domain_country d ++ encode_subs (take (Z.to_nat (no_of_sub_band d)) (sub_band d)) ++ junk) bd no_parsed =
    Ret (MLAN_STATUS_SUCCESS, MkParsed (pad 40 (channels_of p) no_chan_power) (no_of_chan p)).
Proof.
  intros Hp Hl Hne Hs Hk. pose proof Hp as [Hlen Hno].
  destruct (generate_spec region p Hp) as (subs & E & Hc & Hn & Hx).
  { rewrite Hl. apply list.Forall_forall. intros c Hc. apply list_elem_of_fmap in Hc as (x & -> & Hx). unfold chan_byte. cbn.
    rewrite list.Forall_forall in Hk. destruct (known_byte bd x.1); [apply Hk, list_elem_of_fmap; by exists x | lia]. }
  assert (Ha : announced (channels_of p) = l).
  { rewrite Hl. unfold announced, table_of. rewrite map_map. cbn. clear. induction l as [| [c q] l IH]; [done |]. cbn. by rewrite IH. }
  rewrite Ha in Hx. assert (Hll : length l = Z.to_nat (no_of_chan p)).
  { rewrite <- Ha. unfold announced, channels_of. rewrite length_map, length_take_le; lia. }
  eexists. split; [exact E |]. intros junk. cbn [no_of_sub_band domain_country sub_band]. rewrite Nat2Z.id. unfold pad at 1. rewrite take_app_length.
  destruct (region_three (u8 region)) as (x & y & z & -> & Hx0). unfold wlan_11d_parse_domain_info.
  change (arr_get ([7; 3 + 3 * Z.of_nat (length subs)] ++ [x; y; z] ++ encode_subs subs ++ junk) 2) with (Ret x).
  change (arr_get ([7; 3 + 3 * Z.of_nat (length subs)] ++ [x; y; z] ++ encode_subs subs ++ junk) 1) with (Ret (3 + 3 * Z.of_nat (length subs))).
  rewrite !bind_ret. rewrite (proj2 (Z.eqb_neq _ _)) by done. unfold COUNTRY_CODE_LEN.
  assert (Hs0 : (0 < length subs)%nat) by (destruct subs; [cbn in Hx; congruence | cbn; lia]).
  rewrite (proj2 (Z.leb_gt _ _)) by lia. cbn [orb].
  replace ((3 + 3 * Z.of_nat (length subs) - 3) / 3) with (Z.of_nat (length subs)) by (replace (3 + 3 * Z.of_nat (length subs) - 3) with (Z.of_nat (length subs) * 3) by lia; by rewrite Z.div_mul).
  rewrite Nat2Z.id. pose proof (sub_bands_loop_spec [7; 3 + 3 * Z.of_nat (length subs); x; y; z] junk bd eq_refl subs [] [] 0 Hc) as H. rewrite Hx in H.
  cbn [encode_subs map concat length app] in H |- *. change (pad 40 (table_of bd []) no_chan_power) with (chan_pwr no_parsed) in H.
  change (Z.of_nat 0) with 0 in H. rewrite H; [| | done | lia].
  - rewrite bind_ret, Hl. do 3 f_equal. lia.
  - constructor; [done |]. apply list.Forall_forall. intros c Hin. rewrite list.Forall_forall in Hk. by destruct (known_byte bd c (Hk c Hin)).
Qed.

(** ** Bounds *)
Lemma channel_index_range t c i : channel_index t c = Some i -> 0 <= i < Z.of_nat (length t).
Proof.
  revert i. induction t as [| x t IH]; intros i H; [done |]. cbn [channel_index] in H. destruct (_ =? c); [injection H as <-; cbn; lia |].
  destruct (channel_index t c) as [j |]; [| done]. injection H as <-. specialize (IH j eq_refl). cbn. lia.
Qed.
Lemma get_chan_total bd f i : 0 <= i -> exists o, wlan_11d_get_chan bd f i = Ret o.
Proof.
  intros Hi. assert (H : forall t, exists o, nth_channel t f i = Ret o).
  { intros t. unfold nth_channel. destruct (channel_index t f) as [j |] eqn:E; [| by eexists]. apply channel_index_range in E.
    destruct (Z.ltb_spec (j + i) (Z.of_nat (length t))); [| by eexists]. destruct (arr_get_total t (j + i)) as (c & Ec & _); [lia |]. rewrite Ec, bind_ret. by eexists. }
  unfold wlan_11d_get_chan. destruct (has_band _ _); [apply H |]. destruct (has_band _ _); [apply H | by eexists].
Qed.
Lemma sub_band_loop_total bd f p k : forall i idx last l, 0 <= i -> length l = 40%nat -> 0 <= idx <= 40 -> exists idx' last' l',
  sub_band_loop k bd f i p idx last l = Ret (idx', last', l') /\ length l' = 40%nat /\ idx <= idx' <= 40.
Proof.
  induction k as [| k IH]; intros i idx last l Hi Hl Hx; [exists idx, last, l; split; [done | lia] |]. cbn [sub_band_loop]. unfold MAX_NO_OF_CHAN.
  destruct (Z.ltb_spec idx 40); [| exists idx, last, l; split; [done | lia]]. destruct (get_chan_total bd f i Hi) as [o Eo]. rewrite Eo, bind_ret.
  destruct o as [c |]; [| exists idx, last, l; split; [done | lia]]. destruct (arr_get_total l idx) as (old & Eold & _); [lia |].
  rewrite Eold, bind_ret, arr_set_ret, bind_ret by lia. set (l1 := <[_ := _]> l).
  destruct (IH (i + 1) (idx + 1) c l1) as (idx' & last' & l' & E & H1 & H2); [lia | subst l1; by rewrite length_insert | lia |].
  exists idx', last', l'. split; [exact E |]. split; [done | lia].
Qed.
Lemma sub_bands_loop_total ci bd n : bytes ci -> forall j idx last l, 0 <= j -> 5 + 3 * (j + Z.of_nat n) <= Z.of_nat (length ci) -> length l = 40%nat -> 0 <= idx <= 40 ->
  exists idx' l', sub_bands_loop n ci j bd idx last l = Ret (idx', l') /\ length l' = 40%nat /\ 0 <= idx' <= 40.
Proof.
  intros Hci. induction n as [| n IH]; intros j idx last l Hj Hlen Hl Hx; [by exists idx, l |]. cbn [sub_bands_loop].
  destruct (arr_get_total ci (5 + 3 * j)) as (f & Ef & _); [lia |]. rewrite Ef, bind_ret. destruct (f <=? last); [apply IH; [lia.. | done | done] |].
  destruct (arr_get_total ci (5 + 3 * j + 1)) as (no & Eno & _); [lia |]. rewrite Eno, bind_ret.
  destruct (arr_get_total ci (5 + 3 * j + 2)) as (p & Ep & _); [lia |]. rewrite Ep, bind_ret.
  destruct (sub_band_loop_total bd f p (Z.to_nat no) 0 idx last l) as (idx' & last' & l' & E & H1 & H2); [lia | done | done |].
  rewrite E, bind_ret. apply IH; [lia | lia | done | lia].
Qed.

(** A country element, whatever its bytes, is parsed within the array of the descriptor
    it was saved in and within the table of forty channels: the number of
    channels is at most forty and the parser always returns. *)
Theorem country_element_parsed_in_bounds ci bd : bytes ci -> length ci = 254%nat -> (forall len, arr_get ci 1 = Ret len -> len <= 252) ->
  exists st p, wlan_11d_parse_domain_info ci bd no_parsed = Ret (st, p) /\ parsed_ok p.
Proof.
  intros Hci Hlen Hmax. unfold wlan_11d_parse_domain_info. destruct (arr_get_total ci 2) as (c & Ec & _); [lia |]. rewrite Ec, bind_ret.
  destruct (arr_get_total ci 1) as (len & El & _); [lia |]. specialize (Hmax len El). rewrite El, bind_ret. unfold COUNTRY_CODE_LEN.
  destruct ((c =? 0) || _) eqn:Eb; [by exists MLAN_STATUS_FAILURE, no_parsed |]. apply orb_false_iff in Eb as [_ Hl%Z.leb_gt].
  destruct (sub_bands_loop_total ci bd (Z.to_nat ((len - 3) / 3)) Hci 0 0 0 (chan_pwr no_parsed)) as (idx & l & E & H1 & H2); [lia | | done | lia |].
  { pose proof (Z.mul_div_le (len - 3) 3). assert (0 <= (len - 3) / 3) by (apply Z.div_pos; lia). lia. }
  rewrite E, bind_ret. eexists _, _. split; [done |]. by constructor.
Qed.

(** ** Channels that do not fit *)
Definition fresh (p : parsed_region_chan_11d_t) (c : chan_power_11d_t) : Prop :=
  forall x, x ∈ channels_of p -> cp_chan c = cp_chan x -> cp_band c = cp_band x -> False.
Definition unseen (c : chan_power_11d_t) : chan_power_11d_t := MkCp (cp_chan c) (cp_band c) (cp_pwr c) false.
Lemma find_chan_none chan bd : forall l pre post, (forall x, x ∈ l -> chan = cp_chan x -> bd = cp_band x -> False) ->
  find_chan_power (length l) (pre ++ l ++ post) (Z.of_nat (length pre)) chan bd = Ret (Z.of_nat (length pre + length l)).
Proof.
  induction l as [| x l IH]; intros pre post H; [cbn; by rewrite Nat.add_0_r |]. cbn [find_chan_power length app]. rewrite arr_get_app, bind_ret by done.
  destruct (Z.eqb_spec chan (cp_chan x)) as [E1 |]; [destruct (Z.eqb_spec bd (cp_band x)) as [E2 |]; [exfalso; apply (H x); [by left | done | done] |] |]; cbn [andb].
  all: change (pre ++ x :: l ++ post) with (pre ++ [x] ++ l ++ post); rewrite app_assoc;
    replace (Z.of_nat (length pre) + 1) with (Z.of_nat (length (pre ++ [x]))) by (rewrite length_app; cbn; lia);
    rewrite IH by (intros y Hy; apply H; by right); rewrite length_app; cbn [length]; f_equal; lia.
Qed.
Lemma merge_loop_spec no old : length old = no -> (0 < no < 40)%nat -> forall l pre post added rest,
  (forall c, c ∈ l -> forall x, x ∈ old -> cp_chan c = cp_chan x -> cp_band c = cp_band x -> False) -> (no + length added + length rest = 40)%nat ->
  merge_loop (length l) (Z.of_nat (length pre)) (pre ++ l ++ post) (old ++ added ++ rest) (Z.of_nat no) (Z.of_nat (length added)) =
  if decide (length l <= length rest)%nat then Ret (old ++ (added ++ map unseen l) ++ drop (length l) rest, Z.of_nat (length added + length l)) else Fault OutOfBounds.
Proof.
  intros Hold Hno. induction l as [| c l IH]; intros pre post added rest Hf Hlen.
  - cbn. rewrite decide_True by lia. by rewrite app_nil_r, drop_0, Nat.add_0_r.
  - cbn [merge_loop length app]. rewrite arr_get_app, bind_ret by done. unfold MAX_NO_OF_CHAN. rewrite Z.min_l, Nat2Z.id by lia.
    pose proof (find_chan_none (cp_chan c) (cp_band c) old [] (added ++ rest)) as Hfind. cbn [app length] in Hfind. rewrite Hold in Hfind.
    change (Z.of_nat 0) with 0 in Hfind. rewrite Hfind by (intros x Hx; apply (Hf c); [by left | done]). rewrite bind_ret, Nat.add_0_l.
    rewrite Z.ltb_irrefl, Z.eqb_refl, (proj2 (Z.ltb_lt _ 40)) by lia. cbn [andb].
    replace (Z.of_nat no + Z.of_nat (length added)) with (Z.of_nat (length (old ++ added))) by (rewrite length_app; lia). rewrite app_assoc.
    destruct rest as [| r rest].
    + rewrite app_nil_r. cbn [length]. rewrite decide_False by lia. rewrite arr_set_oob; [done |]. lia.
    + rewrite arr_set_app, bind_ret by done. fold (unseen c). rewrite <- app_assoc. change (unseen c :: rest) with ([unseen c] ++ rest). rewrite (app_assoc added).
      change (pre ++ c :: l ++ post) with (pre ++ [c] ++ l ++ post). rewrite (app_assoc pre).
      replace (Z.of_nat (length pre) + 1) with (Z.of_nat (length (pre ++ [c]))) by (rewrite length_app; cbn; lia).
      replace (Z.of_nat (length added) + 1) with (Z.of_nat (length (added ++ [unseen c]))) by (rewrite length_app; cbn; lia).
      rewrite IH; [| intros x Hx; apply Hf; by right | rewrite length_app; cbn in *; lia]. cbn [length drop map].
      destruct (decide (length l <= length rest)%nat); [rewrite decide_True by lia | by rewrite decide_False by lia].
      rewrite <- !app_assoc. cbn [app]. rewrite length_app. cbn [length]. do 2 f_equal. lia.
Qed.

(** The table of forty channels overflows: a country element whose channels are new is
    appended to the table when they fit; when they do not, and there is still a free
    entry, the code writes past the table, over the number of channels and
    what follows it. The check compares the number before the element was
    taken in, not the entry written. *)
Theorem country_channels_overflow_table e p new :
  wlan_11d_parse_domain_info (country_info e) (bss_band e) no_parsed = Ret (MLAN_STATUS_SUCCESS, new) -> parsed_ok p -> parsed_ok new ->
  0 < no_of_chan p < 40 -> Forall (fresh p) (channels_of new) ->
  if decide (no_of_chan p + no_of_chan new <= 40) then
    exists q, wlan_11d_process_country_info e p = Ret (MLAN_STATUS_SUCCESS, q) /\ parsed_ok q /\ channels_of q = channels_of p ++ map unseen (channels_of new)
  else wlan_11d_process_country_info e p = Fault OutOfBounds.
Proof.
  intros Hnew [Hl Hn] [Hl' Hn'] Hno Hf. unfold wlan_11d_process_country_info. rewrite Hnew, bind_ret, (proj2 (Z.eqb_neq _ _)) by lia. cbn [negb].
  unfold fresh, channels_of in Hf |- *. rewrite list.Forall_forall in Hf. set (n := Z.to_nat (no_of_chan p)) in *. set (k := Z.to_nat (no_of_chan new)) in *.
  set (old := take n (chan_pwr p)) in *. set (l := take k (chan_pwr new)) in *.
  assert (Ho : length old = n) by (subst old; rewrite length_take_le; lia). assert (Hk : length l = k) by (subst l; rewrite length_take_le; lia).
  pose proof (merge_loop_spec n old Ho ltac:(lia) l [] (drop k (chan_pwr new)) [] (drop n (chan_pwr p))) as H. cbn [app length] in H.
  assert (T1 : l ++ drop k (chan_pwr new) = chan_pwr new) by apply take_drop. assert (T2 : old ++ drop n (chan_pwr p) = chan_pwr p) by apply take_drop.
  rewrite T1, T2 in H. replace (Z.of_nat n) with (no_of_chan p) in H by lia. change (Z.of_nat 0) with 0 in H.
  unfold MAX_NO_OF_CHAN. rewrite (Z.min_l (no_of_chan new)) by lia. fold k. rewrite <- Hk.
  rewrite H; [| intros c Hc; apply Hf, Hc | rewrite length_drop; lia]. rewrite length_drop.
  destruct (decide (no_of_chan p + no_of_chan new <= 40)); [rewrite decide_True by lia | by rewrite decide_False by lia].
  rewrite bind_ret. assert (E1 : u8 (Z.of_nat (0 + length l)) = no_of_chan new) by (unfold wrap; rewrite Z.mod_small; lia). rewrite E1.
  assert (E2 : u8 (no_of_chan p + no_of_chan new) = no_of_chan p + no_of_chan new) by (apply Z.mod_small; lia). rewrite E2.
  eexists. split; [done |]. cbn [chan_pwr no_of_chan]. split.
  - constructor; cbn; [| lia]. rewrite !length_app, length_map, !length_drop. lia.
  - rewrite app_assoc. replace (Z.to_nat (no_of_chan p + no_of_chan new)) with (length (old ++ map unseen l)) by (rewrite length_app, length_map; lia).
    by rewrite take_app_length.
Qed.

(** ** Power limits *)
Lemma lower_inner_none bss l i k : forall j, (forall x y m, l !! Z.to_nat i = Some x -> (Z.to_nat j <= m < Z.to_nat j + k)%nat -> bss !! m = Some y ->
    cp_chan x = cp_chan y -> cp_band x = cp_band y -> False) ->
  0 <= i < Z.of_nat (length l) -> 0 <= j -> j + Z.of_nat k <= Z.of_nat (length bss) -> lower_inner k i j bss l = Ret l.
Proof.
  induction k as [| k IH]; intros j H Hi Hj Hl; [done |]. cbn [lower_inner]. destruct (arr_get_total l i Hi) as (x & Ex & Lx). rewrite Ex, bind_ret.
  destruct (arr_get_total bss j) as (y & Ey & Ly); [lia |]. rewrite Ey, bind_ret.
  destruct (Z.eqb_spec (cp_chan x) (cp_chan y)); [destruct (Z.eqb_spec (cp_band x) (cp_band y)); [exfalso; apply (H x y (Z.to_nat j)); [done | lia | done | done | done] |] |];
    cbn [andb]; apply IH; try lia; intros x' y' m Hx Hm; apply H; try done; lia.
Qed.
Lemma lower_loop_none bss l no k : forall i, (forall n m x y, (Z.to_nat i <= n < Z.to_nat i + k)%nat -> (m < Z.to_nat (Z.min no 40))%nat -> l !! n = Some x -> bss !! m = Some y ->
    cp_chan x = cp_chan y -> cp_band x = cp_band y -> False) ->
  0 <= i -> i + Z.of_nat k <= Z.of_nat (length l) -> (Z.to_nat (Z.min no 40) <= length bss)%nat -> lower_loop k i bss l no = Ret l.
Proof.
  induction k as [| k IH]; intros i H Hi Hk Hb; [done |]. cbn [lower_loop]. unfold MAX_NO_OF_CHAN. rewrite lower_inner_none; [rewrite bind_ret; apply IH; [| lia..] | | lia.. ].
  - intros n m x y Hn. apply H. lia.
  - intros x y m Hx Hm Hy. apply (H (Z.to_nat i) m x y); [lia | lia | done | done].
Qed.

(** The limits of the country element of the current access point miss the
    channels they are meant for: the loops compare the channel at the index of the
    element in the table with the channel at the index of the table in the
    element. Unless such crossed positions agree the domain information sent keeps the
    powers of the table, whatever lower limits the element gives. *)
Theorem crossed_indexes_miss_limits cmd_ok e s new :
  enable_11d s = true -> wlan_11d_parse_domain_info (country_info e) (bss_band e) no_parsed = Ret (MLAN_STATUS_SUCCESS, new) ->
  parsed_ok new -> parsed_ok (parsed_region_chan s) -> Forall chan_byte (channels_of (parsed_region_chan s)) ->
  (forall i j x y, (i < Z.to_nat (no_of_chan new))%nat -> (j < Z.to_nat (no_of_chan (parsed_region_chan s)))%nat ->
     chan_pwr (parsed_region_chan s) !! i = Some x -> chan_pwr new !! j = Some y -> cp_chan x = cp_chan y -> cp_band x = cp_band y -> False) ->
  exists s', wlan_11d_parse_dnld_countryinfo cmd_ok (Some e) s = Ret (status_of cmd_ok, s') /\
    exists subs, take (Z.to_nat (no_of_sub_band (domain_reg s'))) (sub_band (domain_reg s')) = subs /\
      concat (map expand subs) = announced (channels_of (parsed_region_chan s)).
Proof.
  intros He Hnew [Hl Hn] Hok Hb Hx. pose proof Hok as [Hl' Hn']. unfold wlan_11d_parse_dnld_countryinfo. rewrite He, Hnew, bind_ret. unfold MAX_NO_OF_CHAN.
  rewrite (Z.min_l (no_of_chan new)), (lower_loop_none (chan_pwr new)) by (try (intros n m x y ? ?; apply (Hx n m)); lia). rewrite !bind_ret.
  destruct (generate_spec (region_code s) (MkParsed (chan_pwr (parsed_region_chan s)) (no_of_chan (parsed_region_chan s))) ltac:(by constructor) Hb) as (subs & E & _ & _ & Ha).
  rewrite E, bind_ret. eexists. split; [done |]. exists subs. cbn [domain_reg set_domain add_cmd no_of_sub_band sub_band]. split; [| exact Ha].
  unfold pad. by rewrite Nat2Z.id, take_app_length.
Qed.

(** ** Examples *)
Definition town_state (p : parsed_region_chan_11d_t) : domain_state :=
  MkDs p no_domain 0x10 BAND_G (MkCfpAdapter [] [] 0 0 None None None 0 0 [] 1 [] []) true false cleared_bss [].
Definition ap_on (chan bd : Z) (country : list Z) : BSSDescriptor_t :=
  set_country_info (pad 254 country 0) (set_bss_band bd (set_phy_param_set (pad 7 [3; 1; chan] 0) cleared_bss)).
Definition us_element (subs : list IEEEtypes_SubbandSet_t) : list Z := [7; 3 + 3 * Z.of_nat (length subs)] ++ lit "US " ++ encode_subs subs.
(** Two access points: channel 6, and channel 1 with a country element. *)
Definition two_aps : list BSSDescriptor_t := [ap_on 6 BAND_G []; ap_on 1 BAND_G (us_element [MkSub 1 11 17])].
Definition two_aps_table : parsed_region_chan_11d_t :=
  match prepare_loop two_aps 2 no_parsed with Ret p => p | Fault _ => no_parsed end.
Lemma domain_info_covers_table_witness : exists s' subs cmds,
  wlan_11d_prepare_dnld_domain_info_cmd true two_aps 2 (town_state no_parsed) = Ret (MLAN_STATUS_SUCCESS, s') /\
  domain_cmds s' = MkDomainCmd (17 + 3 * Z.of_nat (length subs)) (Some (3 + 3 * Z.of_nat (length subs), lit "US ", subs)) :: cmds /\
  concat (map expand subs) = map (fun c => (c, 17)) (seqZ 1 11).
Proof.
  destruct (domain_info_covers_table true two_aps 2 (town_state no_parsed) two_aps_table) as (s' & subs & cmds & E & P & S & Hc & Hx).
  - done.
  - done.
  - done.
  - by vm_compute.
  - by constructor.
  - vm_compute. repeat constructor; done.
  - done.
  - exists s', subs, cmds. split; [exact E |]. split; [exact Hc |]. rewrite Hx. vm_compute in E. injection E as <-. by vm_compute.
Defined.
Definition five_channels : list (Z * Z) := [(1, 20); (2, 20); (3, 17); (11, 17); (12, 17)].
Definition five_table : parsed_region_chan_11d_t := MkParsed (pad 40 (table_of BAND_G five_channels) no_chan_power) 5.
Lemma domain_info_roundtrip_witness : exists d, wlan_11d_generate_domain_info 0x10 five_table = Ret d /\
  take 3 (sub_band d) = [MkSub 1 2 20; MkSub 3 1 17; MkSub 11 2 17] /\
  wlan_11d_parse_domain_info ([7; 3 + 3 * no_of_sub_band d] ++ domain_country d ++ encode_subs (take (Z.to_nat (no_of_sub_band d)) (sub_band d)) ++ [9; 9]) BAND_G no_parsed =
    Ret (MLAN_STATUS_SUCCESS, five_table).
Proof.
  destruct (domain_info_roundtrip 0x10 BAND_G five_table five_channels) as (d & E & H).
  - by constructor.
  - done.
  - done.
  - apply Sorted_StronglySorted; [intros a b c; lia |]. by repeat constructor.
  - apply list.Forall_forall. intros c Hc. apply (bool_decide_unpack _). revert c Hc. apply list.Forall_forall. by vm_compute; repeat constructor.
  - exists d. split; [exact E |]. split; [vm_compute in E; injection E as <-; done | apply (H [9; 9])].
Defined.
(** An element of maximal length, full of sub-bands of 255 channels. *)
Definition long_element : list Z := [7; 252; 85; 83; 32] ++ concat (replicate 83 [1; 255; 20]).
Lemma country_element_parsed_in_bounds_witness : exists p,
  wlan_11d_parse_domain_info long_element BAND_G no_parsed = Ret (MLAN_STATUS_SUCCESS, p) /\ parsed_ok p /\ no_of_chan p = 14.
Proof.
  destruct (country_element_parsed_in_bounds long_element BAND_G) as (st & p & E & Hp).
  - apply list.Forall_forall. intros b Hb. assert (H : forallb (fun b => (0 <=? b) && (b <? 256)) long_element = true) by (by vm_compute).
    rewrite forallb_forall in H. apply list_elem_of_In in Hb. apply H, andb_true_iff in Hb as [?%Z.leb_le ?%Z.ltb_lt]. done.
  - done.
  - intros len [= <-]. lia.
  - exists p. assert (E' := E). vm_compute in E'. injection E' as <- <-. split; [exact E |]. split; [exact Hp | done].
Defined.
(** All channels of one band, then an access point of the other announces all of its own. *)
Definition all_5ghz : parsed_region_chan_11d_t := MkParsed (pad 40 (table_of BAND_A (map (fun p => (p.1, 20)) un_aj)) no_chan_power) 31.
Lemma country_channels_overflow_table_witness : wlan_11d_process_country_info (ap_on 1 BAND_G (us_element [MkSub 1 13 20])) all_5ghz = Fault OutOfBounds.
Proof.
  pose proof (country_channels_overflow_table (ap_on 1 BAND_G (us_element [MkSub 1 13 20])) all_5ghz
    (MkParsed (pad 40 (table_of BAND_G (map (fun c => (c, 20)) (seqZ 1 13))) no_chan_power) 13)) as H.
  rewrite decide_False in H by (cbn; lia). apply H.
  - by vm_compute.
  - by constructor.
  - by constructor.
  - cbn. lia.
  - apply list.Forall_forall. intros c Hc x Hx Ec Eb. assert (Hb : Forall (fun x => cp_band x = BAND_A) (channels_of all_5ghz)) by (vm_compute; repeat constructor).
    assert (Hg : Forall (fun x => cp_band x = BAND_G) (channels_of (MkParsed (pad 40 (table_of BAND_G (map (fun c => (c, 20)) (seqZ 1 13))) no_chan_power) 13)))
      by (vm_compute; repeat constructor). rewrite list.Forall_forall in Hb, Hg. rewrite (Hb x Hx), (Hg c Hc) in Eb. done.
Defined.
(** The table allows 20 on channels 1 and 6; the access point limits channel 6 to 5. *)
Definition two_channels : parsed_region_chan_11d_t := MkParsed (pad 40 (table_of BAND_G [(1, 20); (6, 20)]) no_chan_power) 2.
Lemma crossed_indexes_miss_limits_witness : exists s',
  wlan_11d_parse_dnld_countryinfo true (Some (ap_on 6 BAND_G (us_element [MkSub 6 1 5]))) (town_state two_channels) = Ret (MLAN_STATUS_SUCCESS, s') /\
  take 2 (sub_band (domain_reg s')) = [MkSub 1 1 20; MkSub 6 1 20].
Proof.
  destruct (crossed_indexes_miss_limits true (ap_on 6 BAND_G (us_element [MkSub 6 1 5])) (town_state two_channels)
    (MkParsed (pad 40 (table_of BAND_G [(6, 5)]) no_chan_power) 1)) as (s' & E & subs & Hs & _).
  - done.
  - by vm_compute.
  - by constructor.
  - by constructor.
  - by repeat constructor.
  - intros i j x y Hi Hj Hx Hy Ec _. cbn in Hi, Hj. assert (i = 0%nat) as -> by lia. injection Hx as <-. cbn in Ec.
    destruct j as [| [| j]]; [injection Hy as <-; cbn in Ec; lia | injection Hy as <-; cbn in Ec; lia | lia].
  - exists s'. split; [exact E |]. vm_compute in E. injection E as <-. done.
Defined.
