(* ===== verification/ScanFind.v ===== *)
(** * Looking for a network in the table

    The end of [mlan_scan.c]: whether an access point of the table fits the
    settings of the interface, and the search for a name or an address. The
    branch for WAPI is left out: no descriptor gets its element, and no setting
    enables it. *)
From stdpp Require Import list.
From S2P Require Import Prelude Cfp ScanData ScanParse ScanTable.
Open Scope Z_scope.

(** ** The settings of the interface *)
Inductive WLAN_802_11_WEP_STATUS := Wlan802_11WEPEnabled | Wlan802_11WEPDisabled | Wlan802_11WEPKeyAbsent | Wlan802_11WEPNotSupported.
#[export] Instance wep_status_eq_dec : EqDecision WLAN_802_11_WEP_STATUS.
Proof. solve_decision. Defined.
Record sec_info_t := MkSec {
  wep_status : WLAN_802_11_WEP_STATUS; wpa_enabled : bool; wpa2_enabled : bool; ewpa_enabled : bool;
  encryption_mode : Z   (* [MLAN_ENCRYPTION_MODE_NONE] is 0 *)
}.
(** Fields of [mlan_private], and the last two of [mlan_adapter]. *)
Record net_private := MkNet {
  net_connected : bool;                     (* [media_connected] *)
  net_bss_mode : mlan_bss_mode;             (* [bss_mode] *)
  sec_info : sec_info_t;
  adhoc_aes_enabled : bool;
  net_config_bands : Z;                     (* [config_bands] of the interface *)
  adapter_config_bands : Z;
  net_channels : cfp_adapter
}.
(** [WLAN_SSID] of the interface's caller: length and 32 bytes. *)
Record mlan_802_11_ssid := MkSsid { ssid_length : Z; ssid_bytes : list Z }.

(** ** Cipher suites in the saved elements *)
Inductive cipher_suite := CIPHER_SUITE_TKIP | CIPHER_SUITE_CCMP.
Definition wpa_cipher_oui (c : cipher_suite) : list Z := match c with CIPHER_SUITE_TKIP => [0; 80; 242; 2] | CIPHER_SUITE_CCMP => [0; 80; 242; 4] end.
Definition rsn_cipher_oui (c : cipher_suite) : list Z := match c with CIPHER_SUITE_TKIP => [0; 15; 172; 2] | CIPHER_SUITE_CCMP => [0; 15; 172; 4] end.
(** The bytes a pointer of a descriptor leads to: those of an entry of the table. *)
Definition pointed (t : list BSSDescriptor_t) (k : ie_kind) (e : BSSDescriptor_t) : outcome (option (list Z)) :=
  match pointer (slot e k) with
  | None => Ret None
  | Some NewEntry => Fault NullPointer
  | Some (Entry i) => x ← arr_get t (Z.of_nat i); Ret (Some (saved (slot x k)))
  end.
(** The body at [p]: four bytes of the group cipher, the count, and the suites. *)
Fixpoint search_loop (count : nat) (b : list Z) (p : Z) (oui : list Z) : outcome bool :=
  match count with
  | O => Ret false
  | S n => body ← mem_read b (p + 6) 4; if same_bytes body oui then Ret true else search_loop n b (p + 4) oui
  end.
Definition search_oui_in_ie (b : list Z) (p : Z) (oui : list Z) : outcome bool :=
  count ← arr_get b (p + 4); search_loop (Z.to_nat count) b p oui.
Definition oui_present (t : list BSSDescriptor_t) (e : BSSDescriptor_t) (k : ie_kind) (id p : Z) (oui : list Z) : outcome bool :=
  o ← pointed t k e;
  match o with
  | None => Ret false
  | Some b => x ← arr_get b 0; if x =? id then search_oui_in_ie b p oui else Ret false
  end.
Definition RSN_GTK_OUI_OFFSET : Z := 2.
Definition is_rsn_oui_present (t : list BSSDescriptor_t) (e : BSSDescriptor_t) (c : cipher_suite) : outcome bool :=
  oui_present t e RsnIe (element_number RSN_IE) (2 + RSN_GTK_OUI_OFFSET) (rsn_cipher_oui c).
Definition is_wpa_oui_present (t : list BSSDescriptor_t) (e : BSSDescriptor_t) (c : cipher_suite) : outcome bool :=
  oui_present t e WpaIe (element_number VENDOR_SPECIFIC_221) 8 (wpa_cipher_oui c).
(** The element is there and has its number. *)
Definition has_ie (t : list BSSDescriptor_t) (e : BSSDescriptor_t) (k : ie_kind) (id : Z) : outcome bool :=
  o ← pointed t k e; match o with None => Ret false | Some b => x ← arr_get b 0; Ret (x =? id) end.

(** ** Compatibility *)
Definition wlan_is_band_compatible (cfg_band scan_band : Z) : bool :=
  has_band cfg_band (if scan_band =? BAND_A then bands [BAND_A; BAND_AN; BAND_AAC] else bands [BAND_B; BAND_G; BAND_GN; BAND_GAC]).
(** An access point with high throughput needs CCMP, or TKIP without high throughput. *)
Definition cipher_check (c : net_private) (e : BSSDescriptor_t) (d : bool) (ccmp tkip : outcome bool) : outcome (bool * bool) :=
  if has_band (adapter_config_bands c) (bands [BAND_GN; BAND_AN]) && match pointer (slot e HtCap) with Some _ => true | None => false end &&
     bool_decide (net_bss_mode c = MLAN_BSS_MODE_INFRA) then
    x ← ccmp;
    if x : bool then Ret (true, d) else y ← tkip; Ret (if y : bool then (true, true) else (false, d))
  else Ret (true, d).
Definition or_else (a b : outcome bool) : outcome bool := x ← a; if x : bool then Ret true else b.
(** Accepted, and 11n disabled. *)
Definition check_network (c : net_private) (t : list BSSDescriptor_t) (e : BSSDescriptor_t) (mode : mlan_bss_mode) : outcome (bool * bool) :=
  let sec := sec_info c in
  if net_connected c && bool_decide (net_bss_mode c = MLAN_BSS_MODE_INFRA) && bool_decide (bss_mode e = MLAN_BSS_MODE_INFRA) then Ret (true, false)
  else
    let d := match pointer (slot e VhtCap), pointer (slot e HtCap) with Some _, None => true | _, _ => false end in
    if negb (bool_decide (bss_mode e = mode)) then Ret (false, d)
    else if ewpa_enabled sec then
      wpa_or_rsn ← or_else (has_ie t e WpaIe (element_number VENDOR_SPECIFIC_221)) (has_ie t e RsnIe (element_number RSN_IE));
      if wpa_or_rsn : bool then
        cipher_check c e d (or_else (is_wpa_oui_present t e CIPHER_SUITE_CCMP) (is_rsn_oui_present t e CIPHER_SUITE_CCMP))
          (or_else (is_wpa_oui_present t e CIPHER_SUITE_TKIP) (is_rsn_oui_present t e CIPHER_SUITE_TKIP))
      else Ret (false, d)
    else
      let wep_on := bool_decide (wep_status sec = Wlan802_11WEPEnabled) in
      let wep_off := bool_decide (wep_status sec = Wlan802_11WEPDisabled) in
      wpa ← has_ie t e WpaIe (element_number VENDOR_SPECIFIC_221);
      rsn ← has_ie t e RsnIe (element_number RSN_IE);
      let no_enc := encryption_mode sec =? 0 in
      if wep_off && negb (wpa_enabled sec) && negb (wpa2_enabled sec) && negb wpa && negb rsn && negb (adhoc_aes_enabled c) && no_enc && negb (privacy e) then
        Ret (true, d)
      else if wep_on && negb (wpa_enabled sec) && negb (wpa2_enabled sec) && negb (adhoc_aes_enabled c) && privacy e then Ret (true, true)
      else if wep_off && wpa_enabled sec && negb (wpa2_enabled sec) && wpa && negb (adhoc_aes_enabled c) then
        cipher_check c e d (is_wpa_oui_present t e CIPHER_SUITE_CCMP) (is_wpa_oui_present t e CIPHER_SUITE_TKIP)
      else if wep_off && negb (wpa_enabled sec) && wpa2_enabled sec && rsn && negb (adhoc_aes_enabled c) then
        cipher_check c e d (is_rsn_oui_present t e CIPHER_SUITE_CCMP) (is_rsn_oui_present t e CIPHER_SUITE_TKIP)
      else if wep_off && negb (wpa_enabled sec) && negb (wpa2_enabled sec) && negb wpa && negb rsn && adhoc_aes_enabled c && no_enc && privacy e then Ret (true, d)
      else Ret (wep_off && negb (wpa_enabled sec) && negb (wpa2_enabled sec) && negb wpa && negb rsn && negb (adhoc_aes_enabled c) && negb no_enc && privacy e, d).
(** The index, or none for -1. *)
Definition wlan_is_network_compatible (c : net_private) (t : list BSSDescriptor_t) (index : Z) (mode : mlan_bss_mode) :
    outcome (option Z * list BSSDescriptor_t) :=
  e ← arr_get t index;
  '(ok, d) ← check_network c t e mode;
  t ← arr_set t index (set_disable_11n d e);
  Ret (if ok : bool then Some index else None, t).

(** ** The search *)
Definition wlan_ssid_cmp (e : BSSDescriptor_t) (s : mlan_802_11_ssid) : bool :=
  (ssid_len e =? ssid_length s) && same_bytes (take (Z.to_nat (ssid_len e)) (ssid e)) (take (Z.to_nat (ssid_len e)) (ssid_bytes s)).
Definition SCAN_RSSI (r : Z) : Z := 0x100 - u8 r.
(** The band and the channel of an entry can be used. *)
Definition usable (c : net_private) (e : BSSDescriptor_t) (mode : mlan_bss_mode) : outcome bool :=
  if bool_decide (mode = MLAN_BSS_MODE_INFRA) && negb (wlan_is_band_compatible (net_config_bands c) (bss_band e)) then Ret false
  else f ← wlan_find_cfp_by_band_and_channel (net_channels c) (bss_band e) (u16 (channel e)); Ret (match f with Some _ => true | None => false end).
(** [net] is the index found, none for -1. *)
Fixpoint find_ssid_loop (n : nat) (c : net_private) (s : mlan_802_11_ssid) (bssid : option (list Z)) (mode : mlan_bss_mode) (i : Z)
    (t : list BSSDescriptor_t) (net : option Z) (best_rssi : Z) : outcome (option Z * list BSSDescriptor_t) :=
  match n with
  | O => Ret (net, t)
  | S n' =>
      if match bssid, net with Some _, Some _ => true | _, _ => false end then Ret (net, t)
      else
        e ← arr_get t i;
        if wlan_ssid_cmp e s && match bssid with None => true | Some b => same_bytes (mac_address e) b end then
          u ← usable c e mode;
          if negb u then find_ssid_loop n' c s bssid mode (i + 1) t net best_rssi
          else
            '(j, t) ← match mode with
                      | MLAN_BSS_MODE_INFRA | MLAN_BSS_MODE_IBSS => wlan_is_network_compatible c t i mode
                      | _ => Ret (Some i, t)
                      end;
            match j with
            | Some _ =>
                if SCAN_RSSI (rssi e) >? best_rssi then find_ssid_loop n' c s bssid mode (i + 1) t (Some i) (u8 (SCAN_RSSI (rssi e)))
                else find_ssid_loop n' c s bssid mode (i + 1) t net best_rssi
            | None => find_ssid_loop n' c s bssid mode (i + 1) t net best_rssi
            end
        else find_ssid_loop n' c s bssid mode (i + 1) t net best_rssi
  end.
Definition wlan_find_ssid_in_list (c : net_private) (t : list BSSDescriptor_t) (num : Z) (s : mlan_802_11_ssid) (bssid : option (list Z)) (mode : mlan_bss_mode) :
    outcome (option Z * list BSSDescriptor_t) :=
  find_ssid_loop (Z.to_nat num) c s bssid mode 0 t None 0.
(** In the two known modes the entry found is passed over. *)
Fixpoint find_bssid_loop (n : nat) (c : net_private) (bssid : list Z) (mode : mlan_bss_mode) (i : Z) (t : list BSSDescriptor_t) : outcome (option Z) :=
  match n with
  | O => Ret None
  | S n' =>
      e ← arr_get t i;
      if same_bytes (mac_address e) bssid then
        u ← usable c e mode;
        if u && negb (bool_decide (mode = MLAN_BSS_MODE_INFRA)) && negb (bool_decide (mode = MLAN_BSS_MODE_IBSS)) then Ret (Some i)
        else find_bssid_loop n' c bssid mode (i + 1) t
      else find_bssid_loop n' c bssid mode (i + 1) t
  end.
Definition wlan_find_bssid_in_list (c : net_private) (t : list BSSDescriptor_t) (num : Z) (bssid : option (list Z)) (mode : mlan_bss_mode) : outcome (option Z) :=
  match bssid with None => Ret None | Some b => find_bssid_loop (Z.to_nat num) c b mode 0 t end.
