(* ===== verification/ScanFindTheorems.v ===== *)
(** * Looking for a network: theorems *)
From stdpp Require Import list.
From S2P Require Import Prelude Cfp ScanData ScanParse ScanParseProps ScanTable ScanTableProps ScanFind ScanTableTheorems.
Open Scope Z_scope.

(** ** Entries up to their flag *)
Definition forget (e : BSSDescriptor_t) : BSSDescriptor_t := set_disable_11n false e.
Definition same_table (t t' : list BSSDescriptor_t) : Prop := map forget t = map forget t'.
Lemma forget_set d e : forget (set_disable_11n d e) = forget e.
Proof. done. Qed.
Lemma same_lookup t t' i : same_table t t' -> forget <$> t !! i = forget <$> t' !! i.
Proof. intros H. pose proof (f_equal (fun l => l !! i) H) as Hi. cbn beta in Hi. by rewrite !list_lookup_fmap in Hi. Qed.
Lemma same_get t t' i : same_table t t' -> (x ← arr_get t i; Ret (forget x)) = (x ← arr_get t' i; Ret (forget x)).
Proof.
  intros H. unfold arr_get. destruct (i <? 0); [done |]. pose proof (same_lookup t t' (Z.to_nat i) H) as Hl.
  destruct (t !! Z.to_nat i), (t' !! Z.to_nat i); cbn in *; congruence.
Qed.
Lemma same_pointed t t' k e e' : same_table t t' -> forget e = forget e' -> pointed t k e = pointed t' k e'.
Proof.
  intros H He. unfold pointed. assert (Hs : slots e = slots e') by (by apply (f_equal slots) in He). unfold slot. rewrite Hs.
  destruct (pointer _) as [[| i] |]; [done | | done]. pose proof (same_get t t' (Z.of_nat i) H) as Hg.
  destruct (arr_get t (Z.of_nat i)) as [x |], (arr_get t' (Z.of_nat i)) as [y |]; cbn in *; try congruence.
  assert (Hf : forget x = forget y) by (exact (f_equal (fun o => match o with Ret v => v | Fault _ => forget x end) Hg)). clear Hg. rename Hf into Hg. apply (f_equal slots) in Hg. change (slots (forget x)) with (slots x) in Hg. change (slots (forget y)) with (slots y) in Hg. unfold slot. by rewrite Hg.
Qed.
Lemma same_check c t t' e e' mode : same_table t t' -> forget e = forget e' -> check_network c t e mode = check_network c t' e' mode.
Proof.
  intros H He. unfold check_network, cipher_check, is_wpa_oui_present, is_rsn_oui_present, oui_present, has_ie.
  rewrite !(same_pointed t t' _ e e' H He).
  assert (Hs : slots e = slots e') by (by apply (f_equal slots) in He). assert (Hm : bss_mode e = bss_mode e') by (by apply (f_equal bss_mode) in He).
  assert (Hp : privacy e = privacy e') by (by apply (f_equal privacy) in He). unfold slot. by rewrite Hs, Hm, Hp.
Qed.

(** ** The search for a name *)

(** The entry has the name, can be used and is accepted. *)
Definition candidate (c : net_private) (s : mlan_802_11_ssid) (mode : mlan_bss_mode) (t : list BSSDescriptor_t) (e : BSSDescriptor_t) : Prop :=
  wlan_ssid_cmp e s = true /\ usable c e mode = Ret true /\ (mode = MLAN_BSS_MODE_INFRA \/ mode = MLAN_BSS_MODE_IBSS -> exists d, check_network c t e mode = Ret (true, d)).
(** Every entry can be decided, and has a signal strength. *)
Definition decidable (c : net_private) (mode : mlan_bss_mode) (t : list BSSDescriptor_t) (e : BSSDescriptor_t) : Prop :=
  (exists u, usable c e mode = Ret u) /\ (exists r, check_network c t e mode = Ret r) /\ 0 < u8 (rssi e).
Definition strongest_until (c : net_private) (s : mlan_802_11_ssid) (mode : mlan_bss_mode) (t : list BSSDescriptor_t) (n : nat) (net : option Z) (best : Z) : Prop :=
  match net with
  | None => best = 0 /\ forall j y, (j < n)%nat -> t !! j = Some y -> candidate c s mode t y -> False
  | Some i => exists e, 0 <= i /\ (Z.to_nat i < n)%nat /\ t !! Z.to_nat i = Some e /\ candidate c s mode t e /\ best = SCAN_RSSI (rssi e) /\
      forall j y, (j < n)%nat -> t !! j = Some y -> candidate c s mode t y ->
        SCAN_RSSI (rssi y) <= SCAN_RSSI (rssi e) /\ ((j < Z.to_nat i)%nat -> SCAN_RSSI (rssi y) < SCAN_RSSI (rssi e))
  end.
Lemma strongest_skip c s mode t n net best e : strongest_until c s mode t n net best -> t !! n = Some e -> (candidate c s mode t e -> match net with Some _ => SCAN_RSSI (rssi e) <= best | None => False end) ->
  strongest_until c s mode t (S n) net best.
Proof.
  intros H He Hno. unfold strongest_until in *. destruct net as [i |].
  - destruct H as (x & H0 & H1 & H2 & H3 & H4 & H5). exists x. split; [done |]. split; [lia |]. split; [done |]. split; [done |]. split; [done |].
    intros j y Hj Hy Hc. destruct (decide (j = n)) as [-> |]; [| apply (H5 j); [lia | done | done]]. rewrite He in Hy. injection Hy as <-.
    specialize (Hno Hc). split; [lia |]. lia.
  - destruct H as [H0 H]. split; [done |]. intros j y Hj Hy Hc. destruct (decide (j = n)) as [-> |]; [| apply (H j y); [lia | done | done]].
    rewrite He in Hy. injection Hy as <-. by apply Hno.
Qed.
Lemma strongest_take c s mode t n net best e : strongest_until c s mode t n net best -> t !! n = Some e -> candidate c s mode t e -> best < SCAN_RSSI (rssi e) ->
  strongest_until c s mode t (S n) (Some (Z.of_nat n)) (SCAN_RSSI (rssi e)).
Proof.
  intros H He Hc Hlt. exists e. rewrite Nat2Z.id. split; [lia |]. split; [lia |]. split; [done |]. split; [done |]. split; [done |].
  intros j y Hj Hy Hcy. destruct (decide (j = n)) as [-> |]; [rewrite He in Hy; injection Hy as <-; lia |]. unfold strongest_until in H.
  destruct net as [i |]; [| exfalso; apply (proj2 H j y); [lia | done | done]]. destruct H as (x & _ & _ & _ & _ & -> & H). destruct (H j y) as [H1 _]; [lia | done | done |]. lia.
Qed.
(** What the search reads of an entry but its flag. *)
Lemma forget_reads c s mode e e' : forget e' = forget e -> wlan_ssid_cmp e s = wlan_ssid_cmp e' s /\ usable c e mode = usable c e' mode /\ rssi e = rssi e'.
Proof.
  intros H. split; [| split].
  - unfold wlan_ssid_cmp. change (ssid_len e) with (ssid_len (forget e)). change (ssid e) with (ssid (forget e)). by rewrite <- H.
  - unfold usable. change (bss_band e) with (bss_band (forget e)). change (channel e) with (channel (forget e)). by rewrite <- H.
  - change (rssi e) with (rssi (forget e)). by rewrite <- H.
Qed.
Lemma same_insert t0 t k e d : same_table t0 t -> t !! k = Some e -> same_table t0 (<[k := set_disable_11n d e]> t).
Proof.
  intros H He. unfold same_table. rewrite H. symmetry. apply list_eq. intros j. rewrite !list_lookup_fmap. destruct (decide (j = k)) as [-> |].
  - rewrite list_lookup_insert_eq by (by eapply lookup_lt_Some). by rewrite He.
  - by rewrite list_lookup_insert_ne.
Qed.
Lemma scan_rssi_byte e : 0 < u8 (rssi e) -> u8 (SCAN_RSSI (rssi e)) = SCAN_RSSI (rssi e) /\ 0 < SCAN_RSSI (rssi e).
Proof. intros H. unfold SCAN_RSSI in *. pose proof (wrap_range 8 (rssi e)). split; [apply Z.mod_small; lia | lia]. Qed.
Lemma find_ssid_loop_spec c s mode t0 N : (forall j y, (j < N)%nat -> t0 !! j = Some y -> decidable c mode t0 y) -> (N <= length t0)%nat ->
  forall n k t net best, (k + n <= N)%nat -> same_table t0 t ->
  strongest_until c s mode t0 k net best -> exists net' t' best', find_ssid_loop n c s None mode (Z.of_nat k) t net best = Ret (net', t') /\
    same_table t0 t' /\ strongest_until c s mode t0 (k + n) net' best'.
Proof.
  intros Hd HN. induction n as [| n IH]; intros k t net best Hk Hsame Hst; [exists net, t, best; rewrite Nat.add_0_r; done |].
  cbn [find_ssid_loop]. assert (Hlt : length t0 = length t) by (rewrite <- (length_map forget t0), Hsame, length_map; done).
  destruct (arr_get_total t (Z.of_nat k)) as (e & Ee & Le); [lia |]. rewrite Nat2Z.id in Le. rewrite Ee, bind_ret.
  pose proof (same_lookup t0 t k Hsame) as Hl. rewrite Le in Hl. destruct (t0 !! k) as [e0 |] eqn:E0; [| done]. cbn [fmap option_fmap option_map] in Hl. assert (Hf : forget e0 = forget e) by (exact (f_equal (fun o => match o with Some v => v | None => forget e0 end) Hl)). clear Hl.
  assert (He0 : decidable c mode t0 e0) by (apply (Hd k); [lia | done]). destruct He0 as ([u Eu] & [[ok d] Ec] & Hrssi).
  destruct (forget_reads c s mode e e0 Hf) as (Hcmp & Hus & Hrs). rewrite Eu in Hus. destruct (scan_rssi_byte e0 Hrssi) as [Hsc Hpos].
  assert (Hck : check_network c t e mode = Ret (ok, d)) by (rewrite <- Ec; by apply same_check).
  replace (Z.of_nat k + 1) with (Z.of_nat (S k)) by lia. replace (k + S n)%nat with (S k + n)%nat by lia. rewrite Hcmp. rewrite andb_true_r.
  assert (Hnext : forall t' net' best', same_table t0 t' -> strongest_until c s mode t0 (S k) net' best' -> exists net'' t'' best'',
    find_ssid_loop n c s None mode (Z.of_nat (S k)) t' net' best' = Ret (net'', t'') /\ same_table t0 t'' /\ strongest_until c s mode t0 (S k + n) net'' best'')
    by (intros; apply IH; [lia | done | done]).
  destruct (wlan_ssid_cmp e0 s) eqn:Es; [| apply Hnext; [done |]; eapply strongest_skip; [done | done | intros (H & _); congruence]].
  rewrite Hus, bind_ret. destruct u; cbn [negb]; [| apply Hnext; [done |]; eapply strongest_skip; [done | done | intros (_ & H & _); congruence]].
  pose proof (same_insert t0 t k e d Hsame Le) as Hset. rewrite Hrs, Hsc.
  assert (Hacc : forall t', same_table t0 t' -> candidate c s mode t0 e0 -> exists net'' t'' best'',
    (if SCAN_RSSI (rssi e0) >? best then find_ssid_loop n c s None mode (Z.of_nat (S k)) t' (Some (Z.of_nat k)) (SCAN_RSSI (rssi e0))
     else find_ssid_loop n c s None mode (Z.of_nat (S k)) t' net best) = Ret (net'', t'') /\ same_table t0 t'' /\ strongest_until c s mode t0 (S k + n) net'' best'').
  { intros t' Ht' Hc. rewrite Z.gtb_ltb. destruct (Z.ltb_spec best (SCAN_RSSI (rssi e0))); apply Hnext; try done.
    - by eapply strongest_take.
    - eapply strongest_skip; [done | done |]. intros _. destruct net; [lia |]. destruct Hst as [-> _]. lia. }
  assert (Hmode : forall b, (b = true <-> (mode = MLAN_BSS_MODE_INFRA \/ mode = MLAN_BSS_MODE_IBSS)) -> exists net'' t'' best'',
    ('(j, t) ← (if b : bool then wlan_is_network_compatible c t (Z.of_nat k) mode else Ret (Some (Z.of_nat k), t));
     match j with
     | Some _ => if SCAN_RSSI (rssi e0) >? best then find_ssid_loop n c s None mode (Z.of_nat (S k)) t (Some (Z.of_nat k)) (SCAN_RSSI (rssi e0))
                 else find_ssid_loop n c s None mode (Z.of_nat (S k)) t net best
     | None => find_ssid_loop n c s None mode (Z.of_nat (S k)) t net best end) = Ret (net'', t'') /\ same_table t0 t'' /\ strongest_until c s mode t0 (S k + n) net'' best'').
  { intros b Hb. destruct b.
    - unfold wlan_is_network_compatible. rewrite Ee, bind_ret, Hck, bind_ret, arr_set_ret by lia. rewrite Nat2Z.id, !bind_ret. destruct ok.
      + apply Hacc; [done |]. split; [done |]. split; [done |]. intros _. by exists d.
      + apply Hnext; [done |]. eapply strongest_skip; [done | done |]. intros (_ & _ & H). destruct (H (proj1 Hb eq_refl)) as [d' Hd']. congruence.
    - rewrite bind_ret. apply Hacc; [done |]. split; [done |]. split; [done |]. intros H. apply Hb in H. done. }
  destruct mode; [apply (Hmode false) | apply (Hmode true) | apply (Hmode true) | apply (Hmode false)]; split; try done; try (by left); try (by right); by intros [? | ?].
Qed.

(** ** Every entry of a table can be decided *)

(** The counts of cipher suites stay in the copies of the elements. *)
Definition suites_sane (e : BSSDescriptor_t) : Prop :=
  (forall x, arr_get (saved (slot e RsnIe)) 8 = Ret x -> x <= 13) /\ (forall x, arr_get (saved (slot e WpaIe)) 12 = Ret x -> x <= 12).
Lemma search_loop_total oui b : forall count p, 0 <= p -> p + 6 + 4 * Z.of_nat count <= Z.of_nat (length b) -> exists r, search_loop count b p oui = Ret r.
Proof.
  induction count as [| n IH]; intros p Hp Hl; [by eexists |]. cbn [search_loop]. destruct (mem_read_fits b (p + 6) 4) as (bs & E & _); [lia | lia | lia |].
  rewrite E, bind_ret. destruct (same_bytes bs oui); [by eexists |]. apply IH; lia.
Qed.
Section Entry.
Context (t : list BSSDescriptor_t) (num : Z) (i : nat) (e : BSSDescriptor_t).
Context (Ht : table_ok t num) (He : t !! i = Some e) (Hs : suites_sane e).
Lemma entry_ok : bss_ok e.
Proof. eapply Forall_lookup_1; [apply (tbl_entries _ _ Ht) | done]. Qed.
Lemma pointed_total k : exists o, pointed t k e = Ret o /\ (o = None \/ o = Some (saved (slot e k))).
Proof.
  unfold pointed. pose proof (tbl_own _ _ Ht i e He) as Ho. unfold own_pointers in Ho. rewrite list.Forall_forall in Ho.
  assert (Hp : pointer (slot e k) = None \/ pointer (slot e k) = Some (Entry i)).
  { unfold slot. destruct (nth_in_or_default (ie_index k) (slots e) (MkSlot [] None)) as [Hin | ->]; [| by left]. apply Ho. by apply list_elem_of_In. }
  destruct Hp as [-> | ->]; [by exists None; auto |]. assert (Ei : arr_get t (Z.of_nat i) = Ret e) by (by apply arr_get_lookup). rewrite Ei, bind_ret. eauto.
Qed.
Lemma has_ie_total k id : exists r, has_ie t e k id = Ret r.
Proof.
  unfold has_ie. destruct (pointed_total k) as (o & E & [-> | ->]); rewrite E, bind_ret; [by eexists |].
  destruct (arr_get_total (saved (slot e k)) 0) as (x & Ex & _); [pose proof (slot_saved e k entry_ok); destruct k; cbn in *; unfold MLAN_WMSDK_MAX_WPA_IE_LEN in *; lia |].
  rewrite Ex, bind_ret. by eexists.
Qed.
Lemma oui_present_total k id p oui : 0 <= p -> p + 5 <= ie_size k -> (forall x, arr_get (saved (slot e k)) (p + 4) = Ret x -> p + 6 + 4 * x <= ie_size k) ->
  exists r, oui_present t e k id p oui = Ret r.
Proof.
  intros Hp Hk Hx. unfold oui_present. pose proof (slot_saved e k entry_ok) as Hl. destruct (pointed_total k) as (o & E & [-> | ->]); rewrite E, bind_ret; [by eexists |].
  destruct (arr_get_total (saved (slot e k)) 0) as (x & Ex & _); [lia |]. rewrite Ex, bind_ret. destruct (x =? id); [| by eexists].
  unfold search_oui_in_ie. destruct (arr_get_total (saved (slot e k)) (p + 4)) as (n & En & _); [lia |]. rewrite En, bind_ret. specialize (Hx n En).
  destruct (decide (0 <= n)); [apply search_loop_total; lia | replace (Z.to_nat n) with 0%nat by lia; by eexists].
Qed.
Lemma rsn_oui_total cs : exists r, is_rsn_oui_present t e cs = Ret r.
Proof. apply oui_present_total; unfold RSN_GTK_OUI_OFFSET, ie_size, MLAN_WMSDK_MAX_WPA_IE_LEN; [lia | lia |]. intros x Hx. apply Hs in Hx. lia. Qed.
Lemma wpa_oui_total cs : exists r, is_wpa_oui_present t e cs = Ret r.
Proof. apply oui_present_total; unfold RSN_GTK_OUI_OFFSET, ie_size, MLAN_WMSDK_MAX_WPA_IE_LEN; [lia | lia |]. intros x Hx. apply Hs in Hx. lia. Qed.
Lemma or_else_total a b : (exists r, a = Ret r) -> (exists r, b = Ret r) -> exists r, or_else a b = Ret r.
Proof. intros [ra ->] [rb ->]. unfold or_else. rewrite bind_ret. destruct ra; by eexists. Qed.
Lemma cipher_check_total c d a b : (exists r, a = Ret r) -> (exists r, b = Ret r) -> exists r, cipher_check c e d a b = Ret r.
Proof.
  intros [ra ->] [rb ->]. unfold cipher_check. destruct (_ && _); [| by eexists]. rewrite bind_ret. destruct ra; [by eexists |]. rewrite bind_ret. by eexists.
Qed.
Lemma check_network_total c mode : exists r, check_network c t e mode = Ret r.
Proof.
  unfold check_network. destruct (_ && _); [by eexists |]. destruct (negb _); [by eexists |].
  destruct (has_ie_total WpaIe (element_number VENDOR_SPECIFIC_221)) as [w Ew], (has_ie_total RsnIe (element_number RSN_IE)) as [r Er].
  pose proof rsn_oui_total. pose proof wpa_oui_total. rewrite Ew, Er. destruct (ewpa_enabled _).
  - destruct (or_else_total (Ret w) (Ret r)) as [q ->]; [by eexists | by eexists |]. rewrite bind_ret. destruct q; [| by eexists].
    by apply cipher_check_total; apply or_else_total.
  - rewrite !bind_ret. repeat match goal with |- exists r, (if ?b then _ else _) = _ => destruct b end; (by eexists) || by apply cipher_check_total.
Qed.
Lemma entry_decidable c mode : channels_ok (net_channels c) -> 0 < u8 (rssi e) -> decidable c mode t e.
Proof.
  intros Hc Hr. split; [| split; [apply check_network_total | done]]. unfold usable. destruct (_ && _); [by eexists |].
  destruct (find_cfp_ret (net_channels c) (bss_band e) (u16 (channel e)) Hc) as [f ->]. rewrite bind_ret. by eexists.
Qed.
End Entry.

(** C19: In a well-formed table whose access points announce no more cipher suites
    than their elements hold and whose signals are not 0 as bytes, the search for
    a name always returns. It finds the
    access point with the strongest signal of those that have the name, that can
    be used on their band and channel and that fit the security settings, the
    first of equal ones, and none only when there is none; it changes nothing in
    the table but the flags that disable 802.11n. *)
Theorem search_finds_strongest_network c t num s mode : table_ok t num -> channels_ok (net_channels c) ->
  (forall j y, (j < Z.to_nat num)%nat -> t !! j = Some y -> suites_sane y /\ 0 < u8 (rssi y)) ->
  exists net t', wlan_find_ssid_in_list c t num s None mode = Ret (net, t') /\ map forget t' = map forget t /\
    match net with
    | None => forall j y, (j < Z.to_nat num)%nat -> t !! j = Some y -> candidate c s mode t y -> False
    | Some i => exists e, 0 <= i < num /\ t !! Z.to_nat i = Some e /\ candidate c s mode t e /\
        forall j y, (j < Z.to_nat num)%nat -> t !! j = Some y -> candidate c s mode t y -> u8 (rssi e) <= u8 (rssi y) /\ ((j < Z.to_nat i)%nat -> u8 (rssi e) < u8 (rssi y))
    end.
Proof.
  intros Ht Hc Hs. destruct (find_ssid_loop_spec c s mode t (Z.to_nat num)) with (n := Z.to_nat num) (k := 0%nat) (t := t) (net := @None Z) (best := 0)
    as (net & t' & best & E & Hsame & Hst).
  - intros j y Hj Hy. destruct (Hs j y Hj Hy). by eapply entry_decidable.
  - rewrite (tbl_length _ _ Ht). pose proof (tbl_num _ _ Ht). unfold MRVDRV_MAX_BSSID_LIST in *. lia.
  - lia.
  - done.
  - split; [done | lia].
  - exists net, t'. split; [exact E |]. split; [done |]. cbn [Nat.add] in Hst. destruct net as [i |]; [| apply Hst].
    destruct Hst as (e & H0 & H1 & H2 & H3 & _ & H4). exists e. split; [lia |]. split; [done |]. split; [done |]. intros j y Hj Hy Hcy.
    destruct (H4 j y Hj Hy Hcy) as [Ha Hb]. unfold SCAN_RSSI in *. split; [lia |]. intros Hji. specialize (Hb Hji). lia.
Qed.

(** Two access points of the same network, the second one the stronger. *)
Definition twin (ch signal : Z) : BSSDescriptor_t := set_bss_band BAND_G (heard ch signal).
Lemma set_bss_band_ok b e : bss_ok e -> bss_ok (set_bss_band b e).
Proof. intros H. bss_same H. Qed.
Lemma twin_ok ch signal : bss_ok (twin ch signal).
Proof. apply set_bss_band_ok, heard_ok. Qed.
Definition twin_table : list BSSDescriptor_t :=
  <[1%nat := adjust_pointers_to_internal_buffers 1 (twin 11 40)]> (<[0%nat := adjust_pointers_to_internal_buffers 0 (twin 6 60)]> no_table).
Lemma twin_table_ok : table_ok twin_table 2.
Proof.
  destruct (put_entry_ok no_table 0 0 (twin 6 60) no_table_ok (twin_ok 6 60) ltac:(lia)) as [_ H1].
  destruct (put_entry_ok _ 0 1 (twin 11 40) H1 (twin_ok 11 40) ltac:(lia)) as [_ [A B C D]].
  constructor; [done | unfold MRVDRV_MAX_BSSID_LIST; lia | done | done].
Qed.
Definition wep_station : net_private :=
  MkNet false MLAN_BSS_MODE_INFRA (MkSec Wlan802_11WEPEnabled false false false 0) false (bands [BAND_B; BAND_G]) (bands [BAND_B; BAND_G]) town_channels.
Lemma search_finds_strongest_network_witness : exists t', wlan_find_ssid_in_list wep_station twin_table 2 (MkSsid 1 [65]) None MLAN_BSS_MODE_INFRA = Ret (Some 1, t') /\
  map forget t' = map forget twin_table.
Proof.
  destruct (search_finds_strongest_network wep_station twin_table 2 (MkSsid 1 [65]) MLAN_BSS_MODE_INFRA) as (net & t' & E & H & _).
  - exact twin_table_ok.
  - exact town_channels_ok.
  - intros j y Hj Hy. assert (Hc : j = 0%nat \/ j = 1%nat) by lia. destruct Hc as [-> | ->]; vm_compute in Hy; injection Hy as <-;
      (split; [split; intros x Hx; vm_compute in Hx; injection Hx as <-; lia | vm_compute; reflexivity]).
  - exists t'. split; [| exact H]. rewrite E. assert (E' := E). vm_compute in E'. injection E' as <- _. reflexivity.
Defined.

(** ** The search for an address *)

(** With a known mode the search for an address never finds an entry, whatever
    the table holds: its call of the compatibility check is commented out. A
    connection to an access point named by its address only, which asks for the
    infrastructure mode, can not find it, while the lookup with any other mode
    returns the first usable entry with the address. *)
Theorem address_search_needs_no_mode c t num b : channels_ok (net_channels c) -> 0 <= num <= Z.of_nat (length t) ->
  wlan_find_bssid_in_list c t num (Some b) MLAN_BSS_MODE_INFRA = Ret None /\ wlan_find_bssid_in_list c t num (Some b) MLAN_BSS_MODE_IBSS = Ret None /\
  exists r, wlan_find_bssid_in_list c t num (Some b) MLAN_BSS_MODE_AUTO = Ret r /\
    let matches j e := t !! j = Some e /\ same_bytes (mac_address e) b = true /\ usable c e MLAN_BSS_MODE_AUTO = Ret true in
    match r with
    | Some i => 0 <= i < num /\ (exists e, matches (Z.to_nat i) e) /\ forall j e, matches j e -> i <= Z.of_nat j
    | None => forall j e, Z.of_nat j < num -> matches j e -> False
    end.
Proof.
  intros Hc Hn. unfold wlan_find_bssid_in_list. replace (Z.of_nat (length t)) with (Z.of_nat (length t)) in Hn by done.
  assert (Hu : forall e mode, exists u, usable c e mode = Ret u).
  { intros e mode. unfold usable. destruct (_ && _); [by eexists |]. destruct (find_cfp_ret (net_channels c) (bss_band e) (u16 (channel e)) Hc) as [f ->].
    rewrite bind_ret. by eexists. }
  assert (Hno : forall mode, mode = MLAN_BSS_MODE_INFRA \/ mode = MLAN_BSS_MODE_IBSS -> forall n i, 0 <= i -> i + Z.of_nat n <= Z.of_nat (length t) ->
    find_bssid_loop n c b mode i t = Ret None).
  { intros mode Hm. induction n as [| n IH]; intros i Hi Hl; [done |]. cbn [find_bssid_loop]. destruct (arr_get_total t i) as (e & E & _); [lia |].
    rewrite E, bind_ret. destruct (same_bytes _ _); [| apply IH; lia]. destruct (Hu e mode) as [u ->]. rewrite bind_ret.
    destruct Hm as [-> | ->]; cbn; rewrite ?andb_false_r; cbn; apply IH; lia. }
  split; [apply Hno; [by left | lia | lia] |]. split; [apply Hno; [by right | lia | lia] |].
  assert (Hyes : forall n i, 0 <= i -> i + Z.of_nat n = num -> (forall j e, Z.of_nat j < i -> t !! j = Some e -> same_bytes (mac_address e) b = true -> usable c e MLAN_BSS_MODE_AUTO = Ret true -> False) ->
    exists r, find_bssid_loop n c b MLAN_BSS_MODE_AUTO i t = Ret r /\
    let matches j e := t !! j = Some e /\ same_bytes (mac_address e) b = true /\ usable c e MLAN_BSS_MODE_AUTO = Ret true in
    match r with
    | Some i => 0 <= i < num /\ (exists e, matches (Z.to_nat i) e) /\ forall j e, matches j e -> i <= Z.of_nat j
    | None => forall j e, Z.of_nat j < num -> matches j e -> False
    end).
  { induction n as [| n IH]; intros i Hi Hl Hb.
    - exists None. split; [done |]. intros m j e Hj (H1 & H2 & H3). apply (Hb j e); [lia | done | done | done].
    - cbn [find_bssid_loop]. destruct (arr_get_total t i) as (e & E & El); [lia |]. rewrite E, bind_ret.
      assert (Hnext : (same_bytes (mac_address e) b = true -> usable c e MLAN_BSS_MODE_AUTO = Ret true -> False) -> forall j y, Z.of_nat j < i + 1 -> t !! j = Some y -> same_bytes (mac_address y) b = true -> usable c y MLAN_BSS_MODE_AUTO = Ret true -> False).
      { intros H j y Hj Hy. destruct (decide (Z.of_nat j = i)) as [<- |]; [| apply (Hb j y); [lia | done]]. rewrite Nat2Z.id in El. assert (e = y) as -> by congruence. done. }
      destruct (same_bytes (mac_address e) b) eqn:Es; [| apply IH; [lia | lia | apply Hnext; done]]. destruct (Hu e MLAN_BSS_MODE_AUTO) as [u Eu]. rewrite Eu, bind_ret.
      destruct u; cbn [negb andb bool_decide]; [| apply IH; [lia | lia | apply Hnext; congruence]]. cbn. exists (Some i). split; [done |]. split; [lia |]. split; [by exists e |].
      intros j y (H1 & H2 & H3). destruct (decide (i <= Z.of_nat j)); [done |]. exfalso. apply (Hb j y); [lia | done | done | done]. }
  apply Hyes; [lia | lia |]. intros j e Hj. lia.
Qed.
Lemma address_search_needs_no_mode_witness :
  wlan_find_bssid_in_list wep_station twin_table 2 (Some [2; 0; 0; 0; 0; 1]) MLAN_BSS_MODE_INFRA = Ret None /\
  wlan_find_bssid_in_list wep_station twin_table 2 (Some [2; 0; 0; 0; 0; 1]) MLAN_BSS_MODE_AUTO = Ret (Some 0).
Proof.
  destruct (address_search_needs_no_mode wep_station twin_table 2 [2; 0; 0; 0; 0; 1]) as (H & _); [exact town_channels_ok | by vm_compute |].
  split; [exact H | vm_compute; reflexivity].
Defined.
