(* ===== verification/ScanCmd.v ===== *)
(** * The scan commands

    The first part of [mlan_scan.c]: the list of channels to scan, the
    configuration of a scan from the user's request, and the commands that carry
    the channels to the firmware, with the flags of a scan in parts. The
    configuration has the extended scan and no supplicant on the host. *)
From stdpp Require Import list.
From S2P Require Import Prelude CString CfpTables Cfp ScanData ScanParse ScanTable Domain ScanFind.
Open Scope Z_scope.

(** ** Data *)
Definition WLAN_USER_SCAN_CHAN_MAX : Z := 50.
Definition MRVDRV_MAX_CHANNELS_PER_SPECIFIC_SCAN : Z := 3.
Definition MRVDRV_CHANNELS_PER_SCAN_CMD : Z := 4.
Definition MRVDRV_MAX_TOTAL_SCAN_TIME : Z := 30000.
Definition MRVDRV_ACTIVE_SCAN_CHAN_TIME : Z := 100.
Definition BAND_SPECIFIED : Z := 0x80.
Definition NXP_CHANNEL_DISABLED : Z := 0x80.
Definition HostCmd_SCAN_RADIO_TYPE_BG : Z := 0.
Definition HostCmd_SCAN_RADIO_TYPE_A : Z := 1.
#[export] Instance scan_type_eq_dec : EqDecision mlan_scan_type.
Proof. solve_decision. Defined.

(** The bits of the mode that the code sets. *)
Record ChanScanMode_t := MkMode { passive_scan : bool; disable_chan_filt : bool; hidden_ssid_report : bool }.
Record ChanScanParamSet_t := MkParam { radio_type : Z; chan_number : Z; chan_scan_mode : ChanScanMode_t; min_scan_time : Z; max_scan_time : Z }.
Definition no_param : ChanScanParamSet_t := MkParam 0 0 (MkMode false false false) 0 0.
Record wlan_user_scan_ssid := MkUserSsid { us_ssid : list Z; us_max_len : Z }.   (* [MLAN_MAX_SSID_LENGTH + 1] bytes *)
Record wlan_user_scan_chan := MkUserChan { uc_number : Z; uc_radio_type : Z; uc_scan_type : mlan_scan_type; uc_scan_time : Z }.
Definition no_user_chan : wlan_user_scan_chan := MkUserChan 0 0 MLAN_SCAN_TYPE_UNCHANGED 0.
Record wlan_user_scan_cfg := MkUserCfg {
  keep_previous_scan : bool; us_bss_mode : Z; us_num_probes : Z; us_specific_bssid : list Z;
  ssid_list : list wlan_user_scan_ssid;    (* [MRVDRV_MAX_SSID_LIST_LENGTH] *)
  chan_list : list wlan_user_scan_chan;    (* [WLAN_USER_SCAN_CHAN_MAX] *)
  us_scan_chan_gap : Z
}.

(** The parts of a command, and their sizes with the header of four bytes. The
    contents of the capabilities are filled by [wlan_fill_ht_cap_tlv] and
    [wlan_fill_vht_cap_tlv] from the bands; only their places are modelled. *)
Inductive scan_tlv :=
  | TlvBssid (bssid : list Z)
  | TlvWildCardSsid (max_ssid_length : Z) (ssid : list Z)
  | TlvScanChanGap (gap : Z)
  | TlvNumProbes (num_probes : Z)
  | TlvHtCap (bands : Z)
  | TlvVhtCap (bands : Z)
  | TlvRates (rates : list Z)
  | TlvChanList (params : list ChanScanParamSet_t).
Definition sizeof_ChanScanParamSet : Z := 7.
Definition tlv_size (t : scan_tlv) : Z :=
  4 + match t with
      | TlvBssid _ => 6
      | TlvWildCardSsid _ s => Z.of_nat (length s) + 1
      | TlvScanChanGap _ | TlvNumProbes _ => 2
      | TlvHtCap _ => 26
      | TlvVhtCap _ => 12
      | TlvRates r => Z.of_nat (length r)
      | TlvChanList l => sizeof_ChanScanParamSet * Z.of_nat (length l)
      end.
Definition tlvs_size (l : list scan_tlv) : Z := foldr (fun t n => tlv_size t + n) 0 l.
Record wlan_scan_cmd_config := MkScanCfg { sc_bss_mode : Z; specific_bssid : list Z; tlv_buf : list scan_tlv }.
(** [MAX_SCAN_CFG_ALLOC], and the bytes of it before [tlv_buf]. *)
Definition MAX_SCAN_CFG_ALLOC : Z := 12 + 6 + 30 + (4 + MRVDRV_MAX_CHANNELS_PER_SPECIFIC_SCAN * 7) + (18 + 14) + 2 * (6 + 32) + (500 + 2).
Definition config_header : Z := 11.

(** ** State
    What the requests read of the adapter and the interface. *)
Record scan_env := MkEnv {
  domain : domain_state;                    (* 802.11d, channels, firmware bands, current network *)
  support_11d : bool;                       (* [wlan_11d_support_is_enabled] *)
  config_bands : Z;
  infra : bool;                             (* [bss_mode == MLAN_BSS_MODE_INFRA] *)
  adhoc_start_band : Z;
  scan_type : mlan_scan_type; scan_mode : Z; scan_probes : Z;
  passive_scan_time : Z; specific_scan_time : Z; active_scan_time : Z;
  scan_chan_gap : Z;
  ext_scan : bool;
  ht_on : bool;                             (* 11n of firmware and driver *)
  vht_on : bool                             (* 11ac of the firmware *)
}.
Inductive scan_event :=
  | SleepConfirm
  | ScanCommand (ext : bool) (cfg : wlan_scan_cmd_config).
(** What they change; [events] are the commands sent, the first one first. *)
Record scan_state := MkScan {
  split_scan_in_progress : bool;
  abort_split_scan : bool;
  active_scan_triggered : bool;
  ssid_filter : bool;
  pscan_channels : option Z;                (* index in the list of channels *)
  events : list scan_event
}.
Definition set_progress (b : bool) (s : scan_state) : scan_state :=
  MkScan b (abort_split_scan s) (active_scan_triggered s) (ssid_filter s) (pscan_channels s) (events s).
Definition set_abort (b : bool) (s : scan_state) : scan_state :=
  MkScan (split_scan_in_progress s) b (active_scan_triggered s) (ssid_filter s) (pscan_channels s) (events s).
Definition set_triggered (b : bool) (s : scan_state) : scan_state :=
  MkScan (split_scan_in_progress s) (abort_split_scan s) b (ssid_filter s) (pscan_channels s) (events s).
Definition set_filter (b : bool) (s : scan_state) : scan_state :=
  MkScan (split_scan_in_progress s) (abort_split_scan s) (active_scan_triggered s) b (pscan_channels s) (events s).
Definition set_channels (p : Z) (s : scan_state) : scan_state :=
  MkScan (split_scan_in_progress s) (abort_split_scan s) (active_scan_triggered s) (ssid_filter s) (Some p) (events s).
Definition add_event (e : scan_event) (s : scan_state) : scan_state :=
  MkScan (split_scan_in_progress s) (abort_split_scan s) (active_scan_triggered s) (ssid_filter s) (pscan_channels s) (events s ++ [e]).
Definition is_split_scan_complete (s : scan_state) : bool := negb (split_scan_in_progress s).
Definition wlan_abort_split_scan (s : scan_state) : scan_state := if split_scan_in_progress s then set_abort true s else s.

(** ** The channels of the region *)
Definition channel_scan_type (v : scan_env) (bd ch : Z) : outcome mlan_scan_type :=
  st ← if bool_decide (scan_type v = MLAN_SCAN_TYPE_ACTIVE) && support_11d v then
         wlan_11d_get_scan_type (domain v) bd ch (parsed_region_chan (domain v))
       else Ret (scan_type v);
  if bd =? BAND_A then
    r ← wlan_11h_radar_detect_required (domain v) ch; Ret (if r : bool then MLAN_SCAN_TYPE_PASSIVE else st)
  else if (bd =? BAND_B) || (bd =? BAND_G) then
    p ← wlan_bg_scan_type_is_passive (ds_channels (domain v)) ch; Ret (if p : bool then MLAN_SCAN_TYPE_PASSIVE else st)
  else Ret st.
Definition is_passive (st : mlan_scan_type) : bool := bool_decide (st = MLAN_SCAN_TYPE_PASSIVE).
Definition default_time (v : scan_env) (st : mlan_scan_type) (filtered : bool) : Z :=
  if is_passive st then passive_scan_time v else if filtered then specific_scan_time v else active_scan_time v.
(** The bits of the mode that are written; the others stay. *)
Definition scan_mode_of (st : mlan_scan_type) (m : ChanScanMode_t) : ChanScanMode_t :=
  if is_passive st then MkMode true (disable_chan_filt m) true else MkMode false (disable_chan_filt m) (hidden_ssid_report m).
Definition disable_filter (x : ChanScanParamSet_t) : ChanScanParamSet_t :=
  MkParam (radio_type x) (chan_number x) (MkMode (passive_scan (chan_scan_mode x)) true (hidden_ssid_report (chan_scan_mode x))) (min_scan_time x) (max_scan_time x).
(** [user_time] is the time of the first entry of the request, 0 without one. *)
Fixpoint region_chan_loop (n : nat) (v : scan_env) (user_time : Z) (filtered : bool) (bd : Z) (t : list chan_freq_power_t)
    (l : list ChanScanParamSet_t) (chan_idx : Z) : outcome (list ChanScanParamSet_t * Z) :=
  match n with
  | O => Ret (l, chan_idx)
  | S n' =>
      match t with
      | [] => Fault OutOfBounds
      | c :: t' =>
          if has_band (flags c) NXP_CHANNEL_DISABLED then region_chan_loop n' v user_time filtered bd t' l chan_idx
          else
            st ← channel_scan_type v bd (u8 (CfpTables.channel c));
            x ← arr_get l chan_idx;
            l ← arr_set l chan_idx
                  (MkParam (if bd =? BAND_A then HostCmd_SCAN_RADIO_TYPE_A else HostCmd_SCAN_RADIO_TYPE_BG) (u8 (CfpTables.channel c))
                     (scan_mode_of st (chan_scan_mode x)) (min_scan_time x)
                     (if negb (user_time =? 0) then u16 user_time else default_time v st filtered));
            l ← (if filtered then y ← arr_get l (chan_idx + 1); arr_set l (chan_idx + 1) (disable_filter y) else Ret l);
            region_chan_loop n' v user_time filtered bd t' l (chan_idx + 1)
      end
  end.
(** The request names a band only. *)
Definition band_excluded (u : option wlan_user_scan_cfg) (bd : Z) : outcome bool :=
  match u with
  | None => Ret false
  | Some u =>
      c ← arr_get (chan_list u) 0;
      if (uc_number c =? 0) && has_band (uc_radio_type c) BAND_SPECIFIED then
        if Z.land (uc_radio_type c) 0x7F =? 0 then Ret (negb (bd =? BAND_B) && negb (bd =? BAND_G)) else Ret (negb (bd =? BAND_A))
      else Ret false
  end.
Definition first_time (u : option wlan_user_scan_cfg) : outcome Z :=
  match u with None => Ret 0 | Some u => c ← arr_get (chan_list u) 0; Ret (uc_scan_time c) end.
Fixpoint region_list_loop (rcs : list region_chan_t) (v : scan_env) (u : option wlan_user_scan_cfg) (filtered : bool)
    (l : list ChanScanParamSet_t) (chan_idx : Z) : outcome (list ChanScanParamSet_t * Z) :=
  match rcs with
  | [] => Ret (l, chan_idx)
  | rc :: rcs' =>
      if negb (valid rc) then region_list_loop rcs' v u filtered l chan_idx
      else
        out ← band_excluded u (band rc);
        if out || negb (wlan_is_band_compatible (config_bands v) (band rc)) then region_list_loop rcs' v u filtered l chan_idx
        else
          tm ← first_time u;
          '(l, chan_idx) ← match pcfp rc with
                           | None => if num_cfp rc =? 0 then Ret (l, chan_idx) else Fault NullPointer
                           | Some p => region_chan_loop (Z.to_nat (num_cfp rc)) v tm filtered (band rc) (deref (ds_channels (domain v)) p) l chan_idx
                           end;
          region_list_loop rcs' v u filtered l chan_idx
  end.
(** Before a connection with 802.11d the table is the universal one. *)
Definition scan_regions (v : scan_env) : list region_chan_t :=
  let c := ds_channels (domain v) in
  take MAX_REGION_CHANNEL_NUM
    (if support_11d v && enable_11d (domain v) && negb (media_connected (domain v)) then universal_channel c else region_channel c).
Definition wlan_scan_create_channel_list (v : scan_env) (u : option wlan_user_scan_cfg) (l : list ChanScanParamSet_t) (filtered : bool) :
    outcome (list ChanScanParamSet_t) :=
  '(l, _) ← region_list_loop (scan_regions v) v u filtered l 0; Ret l.

(** ** The configuration of a scan *)
Definition zero_mac : list Z := replicate 6 0.
(** The names of the request, up to the first empty one: their parts of the
    command, and whether one of them is a real name. *)
Fixpoint ssid_list_loop (l : list wlan_user_scan_ssid) : outcome (list scan_tlv * bool) :=
  match l with
  | [] => Ret ([], false)
  | s :: l' =>
      c ← arr_get (us_ssid s) 0;
      if (c =? 0) && (us_max_len s =? 0) then Ret ([], false)
      else
        n ← c_strlen (us_ssid s) 0;
        let name := if (n >? 0) && (n <=? 32) then take (Z.to_nat n) (us_ssid s) else replicate (Z.to_nat n) 0 in
        '(tlvs, f) ← ssid_list_loop l';
        Ret (TlvWildCardSsid (us_max_len s) name :: tlvs, f || negb (n =? 0))
  end.
(** The channels of the request: the entry of an incompatible band is left as it
    was; none when a channel of the firmware's missing band is asked for. *)
Fixpoint user_chan_loop (n : nat) (v : scan_env) (u : wlan_user_scan_cfg) (triggered filtered : bool) (l : list ChanScanParamSet_t) (chan_idx : Z) :
    outcome (option (list ChanScanParamSet_t * Z)) :=
  match n with
  | O => Ret (Some (l, chan_idx))
  | S n' =>
      c ← arr_get (chan_list u) chan_idx;
      if uc_number c =? 0 then Ret (Some (l, chan_idx))
      else if negb (wlan_is_band_compatible (config_bands v) (radio_type_to_band (uc_radio_type c))) then
        user_chan_loop n' v u triggered filtered l (chan_idx + 1)
      else if (uc_radio_type c =? HostCmd_SCAN_RADIO_TYPE_A) && negb (has_band (fw_bands (domain v)) BAND_A) then Ret None
      else
        let st := if bool_decide (uc_scan_type c = MLAN_SCAN_TYPE_UNCHANGED) then scan_type v else uc_scan_type c in
        st ← (if triggered then Ret st
              else if uc_radio_type c =? HostCmd_SCAN_RADIO_TYPE_A then
                r ← wlan_11h_radar_detect_required (domain v) (uc_number c); Ret (if r : bool then MLAN_SCAN_TYPE_PASSIVE else st)
              else if uc_radio_type c =? HostCmd_SCAN_RADIO_TYPE_BG then
                p ← wlan_bg_scan_type_is_passive (ds_channels (domain v)) (uc_number c); Ret (if p : bool then MLAN_SCAN_TYPE_PASSIVE else st)
              else Ret st);
        let dur := if negb (uc_scan_time c =? 0) then u16 (uc_scan_time c) else default_time v st filtered in
        x ← arr_get l chan_idx;
        l ← arr_set l chan_idx (MkParam (uc_radio_type c) (uc_number c) (scan_mode_of st (chan_scan_mode x)) dur dur);
        user_chan_loop n' v u triggered filtered l (chan_idx + 1)
  end.
Record scan_setup := MkSetup {
  su_config : wlan_scan_cmd_config; su_channels : list ChanScanParamSet_t; max_chan_per_scan : Z; filtered_scan : bool; scan_current_only : bool
}.
Definition gap_tlv (gap : Z) : list scan_tlv := if gap =? 0 then [] else [TlvScanChanGap (u16 gap)].
Definition wlan_scan_setup_scan_config (v : scan_env) (u : option wlan_user_scan_cfg) (l : list ChanScanParamSet_t) (s : scan_state) :
    outcome (option scan_setup * scan_state) :=
  let s := set_filter false s in
  '(mode, num_probes, bssid, tlvs, filtered, s) ←
    match u with
    | None => Ret (scan_mode v, scan_probes v, zero_mac, [], false, s)
    | Some u =>
        let bssid := us_specific_bssid u in
        let given := negb (same_bytes bssid zero_mac) in
        '(names, f) ← ssid_list_loop (ssid_list u);
        Ret (if us_bss_mode u =? 0 then scan_mode v else us_bss_mode u, if us_num_probes u =? 0 then scan_probes v else us_num_probes u, bssid,
             (if ext_scan v && given then [TlvBssid bssid] else []) ++ names, f || given, if f : bool then set_filter true s else s)
    end;
  let gap := match u with Some u => us_scan_chan_gap u | None => scan_chan_gap v end in
  let max := if filtered || negb (gap =? 0) then MRVDRV_MAX_CHANNELS_PER_SPECIFIC_SCAN else MRVDRV_CHANNELS_PER_SCAN_CMD in
  let tlvs := tlvs ++ gap_tlv gap ++ (if num_probes =? 0 then [] else [TlvNumProbes (u16 num_probes)])
    ++ (if ht_on v && has_band (config_bands v) (bands [BAND_GN; BAND_AN]) then [TlvHtCap (config_bands v)] else [])
    ++ (if vht_on v && has_band (config_bands v) BAND_AAC then [TlvVhtCap (config_bands v)] else []) in
  listed ← match u with Some u => c ← arr_get (chan_list u) 0; Ret (negb (uc_number c =? 0)) | None => Ret false end;
  r ← match u with
      | Some u =>
          if listed : bool then
            o ← user_chan_loop (Z.to_nat WLAN_USER_SCAN_CHAN_MAX) v u (active_scan_triggered s) filtered l 0;
            c ← arr_get (chan_list u) 0;
            Ret (match o with Some (l, n) => Some (l, (n =? 1) && (uc_number c =? channel (curr_bss (domain v)))) | None => None end)
          else l ← wlan_scan_create_channel_list v (Some u) l filtered; Ret (Some (l, false))
      | None => l ← wlan_scan_create_channel_list v None l filtered; Ret (Some (l, false))
      end;
  match r with
  | None => Ret (None, s)
  | Some (l, current) => Ret (Some (MkSetup (MkScanCfg mode bssid tlvs) l max filtered current), s)
  end.

(** ** The commands *)
Definition is_1_6_11 (x : ChanScanParamSet_t) : bool := (chan_number x =? 1) || (chan_number x =? 6) || (chan_number x =? 11).
(** The channels of one command: those taken, the next index, the total time. *)
Fixpoint fill_loop (n : nat) (filtered : bool) (l : list ChanScanParamSet_t) (i : Z) (taken : list ChanScanParamSet_t) (total : Z) :
    outcome (list ChanScanParamSet_t * Z * Z) :=
  match n with
  | O => Ret (taken, i, total)
  | S n' =>
      c ← arr_get l i;
      if chan_number c =? 0 then Ret (taken, i, total)
      else
        let total := u32 (total + max_scan_time c) in
        next ← arr_get l (i + 1);
        if (negb filtered && (is_1_6_11 c || is_1_6_11 next)) || (chan_number next =? 36) then Ret (taken ++ [c], i + 1, total)
        else fill_loop n' filtered l (i + 1) (taken ++ [c]) total
  end.
(** Without the bands of 2.4 GHz for a channel of 5 GHz. *)
Definition command_bands (v : scan_env) (c : ChanScanParamSet_t) : Z :=
  if negb (infra v) then adhoc_start_band v
  else if chan_number c >? MAX_CHANNELS_BG then Z.land (config_bands v) (Z.lnot (bands [BAND_B; BAND_G; BAND_GN; BAND_GAC])) else config_bands v.

Section Commands.
(** What happens during the command with a number: the answer of
    [wlan_prepare_cmd], whether the firmware is about to sleep, and whether another
    task asks to abort during the pause after the command. *)
Context (prepare_ok pre_sleep abort_asked : nat -> bool).
Context (v : scan_env) (max : Z) (filtered : bool) (cfg : wlan_scan_cmd_config) (l : list ChanScanParamSet_t).
Fixpoint commands_loop (n : nat) (k : nat) (i : Z) (s : scan_state) : outcome (mlan_status * scan_state) :=
  match n with
  | O => Fault OutOfFuel
  | S n' =>
      c ← arr_get l i;
      if chan_number c =? 0 then Ret (MLAN_STATUS_SUCCESS, s)
      else
        '(rates, size) ← wlan_get_supported_rates (infra v) (command_bands v c) (no_bytes 14);
        '(chans, i', total) ← fill_loop (Z.to_nat max) filtered l i [] 0;
        if total >? MRVDRV_MAX_TOTAL_SCAN_TIME then Ret (MLAN_STATUS_FAILURE, s)
        else
          let s := set_channels i s in
          let s := if pre_sleep k && split_scan_in_progress s then add_event SleepConfirm s else s in
          next ← arr_get l i';
          let s := if chan_number next =? 0 then set_progress false s else s in
          let tlvs := tlv_buf cfg ++ [TlvRates (take (Z.to_nat size) rates); TlvChanList chans] in
          let s := add_event (ScanCommand (ext_scan v) (MkScanCfg (sc_bss_mode cfg) (specific_bssid cfg) tlvs)) s in
          if negb (prepare_ok k) then Ret (MLAN_STATUS_FAILURE, s)
          else
            let s := if abort_asked k then wlan_abort_split_scan s else s in
            if abort_split_scan s then Ret (MLAN_STATUS_SUCCESS, set_progress false (set_abort false s))
            else commands_loop n' (S k) i' s
  end.
Definition wlan_scan_channel_list (s : scan_state) : outcome (mlan_status * scan_state) :=
  c ← arr_get l 0;
  if chan_number c =? 0 then Ret (MLAN_STATUS_FAILURE, s) else commands_loop (S (length l)) 0 0 s.
End Commands.

(** ** The request *)
Section Networks.
Context (prepare_ok pre_sleep abort_asked : nat -> bool) (v : scan_env).
(** The two buffers of the request, if they can be allocated, are cleared. *)
Definition wlan_scan_networks (config_allocated list_allocated : bool) (u : option wlan_user_scan_cfg) (a : scan_adapter) (s : scan_state) :
    outcome (mlan_status * scan_adapter * scan_state) :=
  if negb config_allocated || negb list_allocated then Ret (MLAN_STATUS_FAILURE, a, s)
  else
    '(o, s) ← wlan_scan_setup_scan_config v u (replicate (Z.to_nat WLAN_USER_SCAN_CHAN_MAX) no_param) s;
    match o with
    | None => Ret (MLAN_STATUS_FAILURE, a, s)
    | Some w =>
        let keep := match u with Some u => keep_previous_scan u | None => false end in
        let a := if keep then a else set_table (replicate (Z.to_nat MRVDRV_MAX_BSSID_LIST) cleared_bss) 0 a in
        let a := set_stats (pchan_stats a) 0 a in
        '(r, s) ← wlan_scan_channel_list prepare_ok pre_sleep abort_asked v (max_chan_per_scan w) (filtered_scan w) (su_config w) (su_channels w) (set_progress true s);
        Ret (r, a, s)
    end.

(** ** Hidden networks of passive channels *)
Fixpoint user_entry (n : nat) (l : list wlan_user_scan_chan) (i : Z) (ch : Z) : outcome (option wlan_user_scan_chan) :=
  match n with
  | O => Ret None
  | S n' =>
      c ← arr_get l i;
      if uc_number c =? 0 then Ret None else if uc_number c =? ch then Ret (Some c) else user_entry n' l (i + 1) ch
  end.
(** An entry without a name on a channel that was scanned passively. *)
Definition active_scan_reqd (u : option wlan_user_scan_cfg) (e : BSSDescriptor_t) : outcome bool :=
  if negb (same_bytes (take (Z.to_nat (ssid_len e)) (ssid e)) (no_bytes (ssid_len e))) then Ret false
  else
    listed ← match u with Some u => c ← arr_get (chan_list u) 0; Ret (negb (uc_number c =? 0)) | None => Ret false end;
    match u, listed : bool with
    | Some u, true =>
        c ← user_entry (Z.to_nat WLAN_USER_SCAN_CHAN_MAX) (chan_list u) 0 (channel e);
        Ret (match c with Some c => is_passive (uc_scan_type c) | None => false end)
    | _, _ =>
        if is_passive (scan_type v) then Ret true
        else
          a ← (if has_band (bss_band e) BAND_A then wlan_11h_radar_detect_required (domain v) (u8 (channel e)) else Ret false);
          b ← (if has_band (bss_band e) (bands [BAND_B; BAND_G]) then wlan_bg_scan_type_is_passive (ds_channels (domain v)) (u8 (channel e)) else Ret false);
          Ret (a || b)
    end.
Definition chan_listed (l : list wlan_user_scan_chan) (e : BSSDescriptor_t) : bool :=
  existsb (fun c => (uc_number c =? channel e) && has_band (bss_band e) (radio_type_to_band (uc_radio_type c))) l.
(** The request is made of the first [id] entries of the list. *)
Fixpoint passive_loop (n : nat) (u : option wlan_user_scan_cfg) (t : list BSSDescriptor_t) (bss_idx : Z) (l : list wlan_user_scan_chan) (id : Z) :
    outcome (list wlan_user_scan_chan * Z) :=
  match n with
  | O => Ret (l, id)
  | S n' =>
      e ← arr_get t bss_idx;
      reqd ← active_scan_reqd u e;
      if negb reqd || chan_listed (take (Z.to_nat id) l) e then passive_loop n' u t (bss_idx + 1) l id
      else
        x ← arr_get l id;
        let radio := if has_band (bss_band e) (bands [BAND_B; BAND_G]) then HostCmd_SCAN_RADIO_TYPE_BG else uc_radio_type x in
        let radio := if has_band (bss_band e) BAND_A then HostCmd_SCAN_RADIO_TYPE_A else radio in
        l ← arr_set l id (MkUserChan (u8 (channel e)) radio MLAN_SCAN_TYPE_ACTIVE MRVDRV_ACTIVE_SCAN_CHAN_TIME);
        if id + 1 >=? WLAN_USER_SCAN_CHAN_MAX then Ret (l, id + 1) else passive_loop n' u t (bss_idx + 1) l (id + 1)
  end.
Definition wlan_active_scan_req_for_passive_chan (allocated config_allocated list_allocated : bool) (u : option wlan_user_scan_cfg) (a : scan_adapter) (s : scan_state) :
    outcome (bool * scan_adapter * scan_state) :=
  if negb (ssid_filter s) then Ret (false, a, set_progress false s)
  else if active_scan_triggered s then Ret (false, a, set_progress false (set_triggered false s))
  else if negb allocated then Ret (false, a, set_progress false s)
  else
    '(l, id) ← passive_loop (Z.to_nat (num_in_scan_table a)) u (pscan_table a) 0 (replicate (Z.to_nat WLAN_USER_SCAN_CHAN_MAX) no_user_chan) 0;
    if id =? 0 then Ret (false, a, set_progress false s)
    else
      match u with
      | None => Fault NullPointer
      | Some u =>
          '(r, a, s) ← wlan_scan_networks config_allocated list_allocated (Some (MkUserCfg true 0 0 zero_mac (ssid_list u) l 0)) a (set_triggered true s);
          Ret (match r with MLAN_STATUS_SUCCESS => true | MLAN_STATUS_FAILURE => false end, a, set_progress false s)
      end.
End Networks.

(** ** The request of the connection manager
    [wifi_send_scan_cmd] in [mlan_api.c]: names are strings without their end. *)
Inductive scan_cmd_status := SCAN_WM_SUCCESS | SCAN_WM_E_INVAL | SCAN_WM_E_NOMEM.
Record wifi_scan_channel_list_t := MkWifiChan { wc_number : Z; wc_scan_type : mlan_scan_type; wc_scan_time : Z }.
Definition MAX_PROBES : Z := 4.
Definition too_long (ssid : option (list Z)) : bool := match ssid with Some s => Z.of_nat (length s) >? 32 | None => false end.
Definition ssid_field (ssid : option (list Z)) : list Z := match ssid with Some s => s ++ replicate (33 - length s) 0 | None => replicate 33 0 end.
(** [strncmp] with one character. *)
Definition wildcard (s : wlan_user_scan_ssid) : wlan_user_scan_ssid :=
  match us_ssid s with c :: _ => if c =? 42 then MkUserSsid (replicate 33 0) 40 else s | [] => s end.
Fixpoint wildcard_loop (l : list wlan_user_scan_ssid) : list wlan_user_scan_ssid :=
  match l with
  | [] => []
  | s :: l' => match us_ssid s with c :: _ => if c =? 0 then l else wildcard s :: wildcard_loop l' | [] => l end
  end.
Fixpoint copy_channels (n : nat) (i : Z) (src : list wifi_scan_channel_list_t) (l : list wlan_user_scan_chan) : outcome (list wlan_user_scan_chan) :=
  match n with
  | O => Ret l
  | S n' =>
      c ← arr_get src i;
      x ← arr_get l i;
      l ← arr_set l i (MkUserChan (wc_number c) (if wc_number c >? 14 then 1 else uc_radio_type x) (wc_scan_type c) (wc_scan_time c));
      copy_channels n' (i + 1) src l
  end.
(** [pending] is [wm_wifi.g_user_scan_cfg]: a request is dropped when the one
    before it was not taken yet, and the answer is success. *)
Definition wifi_send_scan_cmd (allocated : bool) (bss_mode : Z) (bssid ssid ssid2 : option (list Z)) (num_channels : Z) (chans : option (list wifi_scan_channel_list_t))
    (num_probes gap : Z) (keep triggered : bool) (pending : option wlan_user_scan_cfg) (s : scan_state) : outcome (scan_cmd_status * option wlan_user_scan_cfg * scan_state) :=
  let s := set_triggered false s in
  if too_long ssid || too_long ssid2 then Ret (SCAN_WM_E_INVAL, pending, s)
  else if negb allocated then Ret (SCAN_WM_E_NOMEM, pending, s)
  else
    let names := wildcard_loop [MkUserSsid (ssid_field ssid) 0; MkUserSsid (ssid_field ssid2) 0] in
    let none := replicate (Z.to_nat WLAN_USER_SCAN_CHAN_MAX) no_user_chan in
    l ← match chans with
        | Some src => if (num_channels >? 0) && (num_channels <=? WLAN_USER_SCAN_CHAN_MAX) then copy_channels (Z.to_nat num_channels) 0 src none else Ret none
        | None => Ret none
        end;
    let probes := if (num_probes >? 0) && (num_probes <=? MAX_PROBES) then num_probes else 0 in
    let cfg := MkUserCfg keep bss_mode probes (match bssid with Some b => b | None => zero_mac end) names l gap in
    let s := if triggered then set_triggered true s else s in
    Ret (SCAN_WM_SUCCESS, match pending with Some p => Some p | None => Some cfg end, s).
