(* ===== verification/ScanCmdTheorems.v ===== *)
(** * The scan commands: theorems *)
From stdpp Require Import list.
From S2P Require Import Prelude CString CfpTables Cfp ScanData ScanParse ScanParseProps ScanTable ScanTableProps Domain ScanFind ScanCmd.
Open Scope Z_scope.

(** ** One command *)
Definition in_use (c : ChanScanParamSet_t) : Prop := chan_number c <> 0.
(** A channel that two parts of a scan may not share with others. *)
Definition alone (filtered : bool) (x : ChanScanParamSet_t) : bool := negb filtered && is_1_6_11 x.
Definition times_ok (l : list ChanScanParamSet_t) : Prop := Forall (fun c => 0 <= max_scan_time c <= 7500) l.
(** What one command may hold. *)
Definition command_ok (max : Z) (filtered : bool) (c : list ChanScanParamSet_t) : Prop :=
  c <> [] /\ Z.of_nat (length c) <= max /\
  forall j x, c !! j = Some x -> (alone filtered x = true -> length c = 1%nat) /\ (chan_number x = 36 -> j = 0%nat).
Lemma take_total_time c : 0 <= max_scan_time c <= 7500 -> forall total n, 0 <= total -> total + 7500 * Z.of_nat (S n) <= 30000 ->
  0 <= u32 (total + max_scan_time c) /\ u32 (total + max_scan_time c) + 7500 * Z.of_nat n <= 30000.
Proof. intros Hc total n H0 H. unfold u32, wrap. rewrite Z.mod_small; lia. Qed.
Lemma get_mid {A} (pre : list A) x post i : i = Z.of_nat (length pre) -> arr_get (pre ++ x :: post) i = Ret x.
Proof. intros ->. apply arr_get_app. done. Qed.
Lemma fill_spec filtered z post : chan_number z = 0 -> forall n cs pre taken total, Forall in_use cs ->
  exists m total', fill_loop n filtered (pre ++ cs ++ z :: post) (Z.of_nat (length pre)) taken total = Ret (taken ++ take m cs, Z.of_nat (length pre + m), total') /\
    (m <= n)%nat /\ (m <= length cs)%nat /\ (n <> 0%nat -> cs <> [] -> m <> 0%nat) /\
    (forall j x, (j < m)%nat -> cs !! j = Some x -> (alone filtered x = true -> j = 0%nat -> m = 1%nat) /\ (j <> 0%nat -> alone filtered x = false /\ chan_number x <> 36)) /\
    (times_ok cs -> 0 <= total -> total + 7500 * Z.of_nat n <= 30000 -> total' <= 30000).
Proof.
  intros Hz. induction n as [| n IH]; intros cs pre taken total Hcs.
  - exists 0%nat, total. cbn [fill_loop]. rewrite take_0, app_nil_r, Nat.add_0_r. repeat split; try done; try lia.
  - destruct cs as [| c cs].
    + exists 0%nat, total. cbn [fill_loop app]. rewrite (get_mid pre z post _ eq_refl), bind_ret, Hz. cbn. rewrite app_nil_r, Nat.add_0_r. repeat split; try done; try lia.
    + apply list.Forall_cons in Hcs as [Hc Hcs]. cbn [fill_loop]. rewrite <- app_comm_cons, (get_mid pre c _ _ eq_refl), bind_ret. rewrite (proj2 (Z.eqb_neq _ _)) by done.
      set (next := match cs with x :: _ => x | [] => z end).
      assert (En : arr_get (pre ++ c :: cs ++ z :: post) (Z.of_nat (length pre) + 1) = Ret next).
      { rewrite cons_middle, app_assoc. unfold next. destruct cs; [| rewrite <- app_comm_cons]; apply get_mid; rewrite length_app; cbn; lia. }
      rewrite En, bind_ret. destruct ((negb filtered && (is_1_6_11 c || is_1_6_11 next)) || (chan_number next =? 36)) eqn:Early.
      * exists 1%nat, (u32 (total + max_scan_time c)). cbn [take]. rewrite take_0. split; [repeat f_equal; lia |]. split; [lia |]. split; [simpl; lia |]. split; [done |].
        split; [intros j x Hj; lia |]. intros Ht H0 Hn. apply list.Forall_cons in Ht as [Ht _]. pose proof (take_total_time c Ht total n H0 Hn). lia.
      * apply orb_false_iff in Early as [E1 E2]. apply Z.eqb_neq in E2.
        destruct (IH cs (pre ++ [c]) (taken ++ [c]) (u32 (total + max_scan_time c)) Hcs) as (m & t' & E & H1 & H2 & H3 & H4 & H5).
        exists (S m), t'. replace (Z.of_nat (length pre) + 1) with (Z.of_nat (length (pre ++ [c]))) by (rewrite length_app; cbn; lia).
        rewrite <- app_assoc in E. cbn [app] in E. rewrite E. split; [cbn [take]; rewrite <- app_assoc, length_app; cbn [app length]; by replace (length pre + 1 + m)%nat with (length pre + S m)%nat by lia |].
        split; [lia |]. split; [cbn; lia |]. split; [done |]. split.
        -- intros [| j] x Hj Hx.
           ++ injection Hx as <-. split; [| done]. intros Ha _. unfold alone in Ha. destruct filtered; [done |]. cbn in *. rewrite Ha in E1. done.
           ++ split; [done |]. intros _. destruct j as [| j]; [| apply (H4 (S j) x); [lia | done | done]].
              destruct cs as [| c' cs]; [done |]. injection Hx as <-. cbn in next. subst next. split; [| done]. unfold alone. destruct filtered; [done |]. cbn in *.
              by apply orb_false_iff in E1 as [_ ?].
        -- intros Ht H0 Hn. apply list.Forall_cons in Ht as [Ht Hts]. destruct (take_total_time c Ht total n H0 Hn). by apply H5.
Qed.

(** ** All commands of a scan *)
Definition channels_of (e : scan_event) : list (list ChanScanParamSet_t) :=
  match e with
  | ScanCommand _ c => match last (tlv_buf c) with Some (TlvChanList l) => [l] | _ => [] end
  | SleepConfirm => []
  end.
Definition scanned (es : list scan_event) : list (list ChanScanParamSet_t) := concat (map channels_of es).
Definition event_of (v : scan_env) (max : Z) (cfg : wlan_scan_cmd_config) (e : scan_event) : Prop :=
  match e with
  | SleepConfirm => True
  | ScanCommand ext c => ext = ext_scan v /\ sc_bss_mode c = sc_bss_mode cfg /\ specific_bssid c = specific_bssid cfg /\
      exists rates chans, tlv_buf c = tlv_buf cfg ++ [TlvRates rates; TlvChanList chans] /\ (length rates <= 14)%nat /\ Z.of_nat (length chans) <= max
  end.
Lemma scanned_app a b : scanned (a ++ b) = scanned a ++ scanned b.
Proof. unfold scanned. by rewrite map_app, concat_app. Qed.
Lemma copy_rates_ret src : forall dest pos, length dest = 14%nat -> 0 <= pos <= 14 -> exists r n, wlan_copy_rates dest pos src = Ret (r, n) /\ length r = 14%nat /\ 0 <= n <= 14.
Proof.
  induction src as [| x src IH]; intros dest pos Hl Hp; cbn [wlan_copy_rates]; [by eauto |]. destruct (x =? 0); [by eauto |].
  unfold WLAN_SUPPORTED_RATES. destruct (pos >=? 14) eqn:E; [by eauto |]. rewrite Z.geb_leb in E. apply Z.leb_gt in E.
  rewrite arr_set_ret by lia. rewrite bind_ret. apply IH; [by rewrite length_insert | lia].
Qed.
Lemma rates_ret inf bd : exists r n, wlan_get_supported_rates inf bd (no_bytes 14) = Ret (r, n) /\ length r = 14%nat /\ 0 <= n <= 14.
Proof. apply copy_rates_ret; [done | lia]. Qed.
Lemma chunk_ok filtered max (m : nat) cs : (m <= Z.to_nat max)%nat -> (m <= length cs)%nat -> m <> 0%nat ->
  (forall j x, (j < m)%nat -> cs !! j = Some x -> (alone filtered x = true -> j = 0%nat -> m = 1%nat) /\ (j <> 0%nat -> alone filtered x = false /\ chan_number x <> 36)) ->
  command_ok max filtered (take m cs).
Proof.
  intros Hm Hl H0 H. split; [destruct m, cs; cbn in *; congruence || lia |]. split; [rewrite length_take; lia |]. intros j x Hx.
  assert (Hj : (j < m)%nat) by (apply lookup_lt_Some in Hx; rewrite length_take in Hx; lia). rewrite lookup_take in Hx. rewrite decide_True in Hx by done.
  destruct (H j x Hj Hx) as [H1 H2]. rewrite length_take. split.
  - intros Ha. destruct (decide (j = 0%nat)) as [Hj0 |]; [specialize (H1 Ha Hj0); lia |]. destruct H2 as [H2 _]; [done | congruence].
  - intros Hx36. destruct (decide (j = 0%nat)); [done |]. by destruct H2 as [_ H2].
Qed.

Section Sent.
Context (prepare_ok pre_sleep abort_asked : nat -> bool) (v : scan_env) (max : Z) (filtered : bool) (cfg : wlan_scan_cmd_config).
Context (z : ChanScanParamSet_t) (post : list ChanScanParamSet_t) (Hz : chan_number z = 0) (Hmax : 1 <= max).
(** Nothing stands in the way: every command is taken, no one aborts, and the
    times fit in a command. *)
Definition smooth (s : scan_state) (cs : list ChanScanParamSet_t) : Prop :=
  (forall k, prepare_ok k = true) /\ (forall k, abort_asked k = false) /\ abort_split_scan s = false /\ max <= 4 /\ times_ok cs.
Definition sends (cs : list ChanScanParamSet_t) (s : scan_state) (o : outcome (mlan_status * scan_state)) : Prop :=
  exists r s' new rest, o = Ret (r, s') /\ events s' = events s ++ new /\ concat (scanned new) ++ rest = cs /\ Forall (command_ok max filtered) (scanned new) /\
    Forall (event_of v max cfg) new /\ (smooth s cs -> r = MLAN_STATUS_SUCCESS /\ rest = [] /\ (cs <> [] -> split_scan_in_progress s' = false)).
Lemma sends_nothing r s s' cs : events s' = events s -> (smooth s cs -> r = MLAN_STATUS_SUCCESS /\ cs = []) -> sends cs s (Ret (r, s')).
Proof.
  intros He Hs. exists r, s', [], cs. rewrite app_nil_r. repeat split; try done.
  - by destruct (Hs H).
  - by destruct (Hs H).
  - intros Hne. by destruct (Hs H) as [_ ->].
Qed.
Definition command_event (rates : list Z) (chans : list ChanScanParamSet_t) : scan_event :=
  ScanCommand (ext_scan v) (MkScanCfg (sc_bss_mode cfg) (specific_bssid cfg) (tlv_buf cfg ++ [TlvRates rates; TlvChanList chans])).
Definition after_command (k : nat) (i : Z) (next : ChanScanParamSet_t) (cmd : scan_event) (s : scan_state) : scan_state :=
  let s := set_channels i s in
  let s := if pre_sleep k && split_scan_in_progress s then add_event SleepConfirm s else s in
  add_event cmd (if chan_number next =? 0 then set_progress false s else s).
Lemma after_command_spec k i next rates chans s : (length rates <= 14)%nat -> Z.of_nat (length chans) <= max ->
  abort_split_scan (after_command k i next (command_event rates chans) s) = abort_split_scan s /\
  exists new, events (after_command k i next (command_event rates chans) s) = events s ++ new /\ scanned new = [chans] /\ Forall (event_of v max cfg) new.
Proof.
  intros Hr Hc. split; [unfold after_command; cbn; by destruct (_ && _), (_ =? 0) |].
  exists ((if pre_sleep k && split_scan_in_progress s then [SleepConfirm] else []) ++ [command_event rates chans]). split; [| split].
  - unfold after_command. cbn [split_scan_in_progress set_channels]. destruct (pre_sleep k && _), (_ =? 0); cbn; rewrite <- ?app_assoc; done.
  - rewrite scanned_app. assert (scanned [command_event rates chans] = [chans]) as ->.
    { unfold scanned, command_event. cbn [map concat channels_of tlv_buf]. rewrite app_nil_r. change [TlvRates rates; TlvChanList chans] with ([TlvRates rates] ++ [TlvChanList chans]).
      by rewrite app_assoc, last_snoc. }
    by destruct (_ && _).
  - assert (event_of v max cfg (command_event rates chans)) by (repeat (split; [done |]); eauto). apply list.Forall_app. split; [by destruct (_ && _); repeat constructor | by constructor].
Qed.
Lemma commands_spec : forall n pre cs k s, (length cs < n)%nat -> Forall in_use cs ->
  sends cs s (commands_loop prepare_ok pre_sleep abort_asked v max filtered cfg (pre ++ cs ++ z :: post) n k (Z.of_nat (length pre)) s).
Proof.
  induction n as [| n IH]; intros pre cs k s Hn Hcs; [lia |]. cbn [commands_loop]. destruct cs as [| c cs].
  { cbn [app]. rewrite (get_mid pre z post _ eq_refl), bind_ret, Hz. cbn. by apply sends_nothing. }
  assert (Hc : in_use c) by (by apply list.Forall_cons in Hcs as [? _]). rewrite <- app_comm_cons, (get_mid pre c _ _ eq_refl), bind_ret, (proj2 (Z.eqb_neq _ _) Hc).
  destruct (rates_ret (infra v) (command_bands v c)) as (rates & size & -> & Hr & Hsz). rewrite bind_ret.
  destruct (fill_spec filtered z post Hz (Z.to_nat max) (c :: cs) pre [] 0 Hcs) as (m & total & E & Hm1 & Hm2 & Hm3 & Hm4 & Hm5).
  specialize (Hm3 ltac:(lia) ltac:(done)). rewrite app_comm_cons, E, bind_ret, app_nil_l. set (ch := take m (c :: cs)) in *. set (cs' := drop m (c :: cs)).
  assert (Hsplit : ch ++ cs' = c :: cs) by apply take_drop. assert (Hlen : length ch = m) by (unfold ch; rewrite length_take; lia).
  assert (Hl : pre ++ (c :: cs) ++ z :: post = (pre ++ ch) ++ cs' ++ z :: post) by (rewrite <- Hsplit; by rewrite <- !app_assoc).
  destruct (total >? MRVDRV_MAX_TOTAL_SCAN_TIME) eqn:Et.
  { apply sends_nothing; [done |]. intros (_ & _ & _ & Hm & Ht). rewrite Z.gtb_ltb in Et. apply Z.ltb_lt in Et. unfold MRVDRV_MAX_TOTAL_SCAN_TIME in Et. specialize (Hm5 Ht). lia. }
  assert (Hcs' : Forall in_use cs') by (unfold cs'; by apply list.Forall_drop). replace (Z.of_nat (length pre + m)) with (Z.of_nat (length (pre ++ ch))) by (rewrite length_app; lia).
  set (next := match cs' with x :: _ => x | [] => z end). assert (En : arr_get ((pre ++ ch) ++ cs' ++ z :: post) (Z.of_nat (length (pre ++ ch))) = Ret next).
  { unfold next. destruct cs'; [| rewrite <- app_comm_cons]; by apply get_mid. }
  rewrite Hl, En, bind_ret.
  change (ScanCommand _ _) with (command_event (take (Z.to_nat size) rates) ch). set (s4 := after_command k (Z.of_nat (length pre)) next (command_event (take (Z.to_nat size) rates) ch) s).
  change (add_event _ _) with s4. destruct (after_command_spec k (Z.of_nat (length pre)) next (take (Z.to_nat size) rates) ch s) as (Hab & new1 & He & Hs1 & Hf1).
  { rewrite length_take. lia. }
  { lia. }
  fold s4 in Hab, He.
  assert (Hchunk : command_ok max filtered ch) by (apply chunk_ok; [lia | lia | done | exact Hm4]).
  assert (Hstop : forall r s', events s' = events s4 -> (smooth s (c :: cs) -> False) -> sends (c :: cs) s (Ret (r, s'))).
  { intros r s' Hes Hno. exists r, s', new1, cs'. rewrite Hes, Hs1. cbn [concat]. rewrite app_nil_r. repeat split; try done; [by constructor | by destruct (Hno H).. ]. }
  destruct (prepare_ok k) eqn:Ep; cbn [negb]; [| apply Hstop; [done |]; intros (H & _); by rewrite H in Ep].
  set (s5 := if abort_asked k then _ else s4). assert (He5 : events s5 = events s4).
  { unfold s5, wlan_abort_split_scan. destruct (abort_asked k); [| done]. by destruct (split_scan_in_progress s4). }
  destruct (abort_split_scan s5) eqn:E5.
  { apply Hstop; [done |]. intros (_ & H & H' & _). unfold s5 in E5. rewrite H in E5. congruence. }
  destruct (IH (pre ++ ch) cs' (S k) s5) as (r & s' & new2 & rest & E2 & Hes & Hcat & Hok & Hev & Hsm).
  { unfold cs'. rewrite length_drop. cbn in *. lia. }
  { done. }
  exists r, s', (new1 ++ new2), rest. rewrite E2. split; [done |]. split; [rewrite Hes, He5, He; by rewrite app_assoc |].
  rewrite scanned_app, Hs1, concat_app. cbn [concat]. rewrite app_nil_r, <- app_assoc, Hcat. split; [done |]. split; [by constructor |]. split; [by apply list.Forall_app |].
  intros (H1 & H2 & H3 & H4 & H5). destruct Hsm as (Hr1 & Hr2 & Hr3).
  { split; [done |]. split; [done |]. split; [done |]. split; [done |]. unfold cs'. by apply list.Forall_drop. }
  split; [done |]. split; [done |]. intros _. destruct (decide (cs' = [])) as [Hnil |]; [| by apply Hr3]. rewrite Hnil in E2. revert E2.
  destruct n as [| n']; [cbn in *; lia |]. cbn [commands_loop app]. rewrite (get_mid (pre ++ ch) z post _ eq_refl), bind_ret, Hz. cbn. intros [= <- <-].
  unfold s5, s4, after_command, next. rewrite H2, Hnil, Hz. done.
Qed.
End Sent.
