(* ===== verification/ScanReqTheorems.v ===== *)
(** * Scan requests: theorems

    From the tables of channels and from the request of a user to the commands. *)
From stdpp Require Import list.
From S2P Require Import Prelude CString CfpTables Cfp ScanData ScanParse ScanParseProps ScanTable ScanTableProps Domain ScanFind ScanCmd ScanCmdTheorems.
Open Scope Z_scope.

(** ** A list of channels with nothing in the way *)
Definition unused (x : ChanScanParamSet_t) : Prop := chan_number x = 0.
Lemma channel_list_smooth prepare_ok pre_sleep abort_asked v max filtered cfg es z back s : unused z -> Forall in_use es -> es <> [] -> times_ok es -> 1 <= max <= 4 ->
  (forall k, prepare_ok k = true) -> (forall k, abort_asked k = false) -> abort_split_scan s = false ->
  exists s' new, wlan_scan_channel_list prepare_ok pre_sleep abort_asked v max filtered cfg (es ++ z :: back) s = Ret (MLAN_STATUS_SUCCESS, s') /\
    is_split_scan_complete s' = true /\ events s' = events s ++ new /\ concat (scanned new) = es /\ Forall (command_ok max filtered) (scanned new).
Proof.
  intros Hz Hin Hne Ht Hm Hp Ha Hs. unfold wlan_scan_channel_list. destruct es as [| x es]; [done |]. cbn [app]. assert (Hx : in_use x) by (by apply list.Forall_cons in Hin as [? _]).
  rewrite (get_mid [] x (es ++ z :: back) 0 eq_refl : arr_get (x :: es ++ z :: back) 0 = Ret x), bind_ret, (proj2 (Z.eqb_neq _ _) Hx).
  destruct (commands_spec prepare_ok pre_sleep abort_asked v max filtered cfg z back Hz ltac:(lia) (S (length (x :: es ++ z :: back))) [] (x :: es) 0 s)
    as (r & s' & new & rest & E & Hev & Hcat & Hok & _ & Hsm); [cbn; rewrite length_app; lia | done |].
  cbn [app] in E. change (Z.of_nat (length [])) with 0 in E. destruct Hsm as (-> & -> & Hprog); [repeat split; try done; lia |].
  exists s', new. rewrite E. rewrite app_nil_r in Hcat. repeat split; try done. unfold is_split_scan_complete. by rewrite Hprog.
Qed.

(** ** Whether a channel is scanned passively is always known *)
Record env_ok (v : scan_env) : Prop := MkEnvOk {
  env_channels : channels_ok (ds_channels (domain v));
  env_parsed : no_of_chan (parsed_region_chan (domain v)) <= Z.of_nat (length (chan_pwr (parsed_region_chan (domain v))));
  env_null : forall rc, rc ∈ region_channel (ds_channels (domain v)) ++ universal_channel (ds_channels (domain v)) -> pcfp rc = None -> num_cfp rc = 0;
  env_passive : 0 <= passive_scan_time v <= 7500;
  env_specific : 0 <= specific_scan_time v <= 7500;
  env_active : 0 <= active_scan_time v <= 7500
}.
Lemma channel_flag_ret c f ch : channels_ok c -> exists r, channel_flag c f ch = Ret r.
Proof.
  intros H. unfold channel_flag. destruct (first_entry f _) as [rc |] eqn:E; [| by eexists]. destruct (pcfp rc) as [p |] eqn:Ep; [| by eexists].
  assert (Hrc : rc ∈ region_channel c).
  { assert (Hin : forall l, first_entry f l = Some rc -> rc ∈ l).
    { induction l as [| x l IH]; [done |]. cbn. destruct (f x); [intros [= ->]; left | intros Hx; right; by apply IH]. }
    apply Hin, elem_of_take in E as (i & Hi & _). by eapply list_elem_of_lookup_2. }
  unfold channels_ok in H. rewrite list.Forall_forall in H. destruct (H rc) with (p := p) as [_ Hn]; [apply elem_of_app; by left | done |].
  destruct (scan_cfp_ret (fun x => CfpTables.channel x =? ch) (deref c p) (Z.to_nat (num_cfp rc))) as [r ->]; [lia |]. by eexists.
Qed.
Lemma radar_ret v ch : env_ok v -> exists r, wlan_11h_radar_detect_required (domain v) ch = Ret r.
Proof.
  intros H. unfold wlan_11h_radar_detect_required, wlan_get_cfp_radar_detect.
  destruct (channel_flag_ret (ds_channels (domain v)) (fun rc => band rc =? BAND_A) ch (env_channels v H)) as [r ->]. rewrite bind_ret. by eexists.
Qed.
Lemma passive_ret v ch : env_ok v -> exists r, wlan_bg_scan_type_is_passive (ds_channels (domain v)) ch = Ret r.
Proof. intros H. apply channel_flag_ret, H. Qed.
Lemma find_power_ret l ch bd : forall n i, 0 <= i -> i + Z.of_nat n <= Z.of_nat (length l) -> exists r, find_chan_power n l i ch bd = Ret r /\ i <= r <= i + Z.of_nat n.
Proof.
  induction n as [| n IH]; intros i Hi Hn; cbn [find_chan_power]; [exists i; split; [done | lia] |]. destruct (arr_get_total l i) as (x & -> & _); [lia |].
  rewrite bind_ret. destruct (_ && _); [exists i; split; [done | lia] |]. destruct (IH (i + 1)) as (r & -> & Hr); [lia | lia |]. exists r. split; [done | lia].
Qed.
Lemma scan_type_ret v bd ch : env_ok v -> exists st, channel_scan_type v bd ch = Ret st.
Proof.
  intros H. unfold channel_scan_type. destruct (radar_ret v ch H) as [r Er], (passive_ret v ch H) as [p Ep].
  assert (Hst : exists st, (if bool_decide (scan_type v = MLAN_SCAN_TYPE_ACTIVE) && support_11d v then
    wlan_11d_get_scan_type (domain v) bd ch (parsed_region_chan (domain v)) else Ret (scan_type v)) = Ret st).
  { destruct (_ && _); [| by eexists]. unfold wlan_11d_get_scan_type, wlan_11d_channel_known. pose proof (env_parsed v H) as Hp. set (l := parsed_region_chan (domain v)) in *.
    destruct (find_power_ret (chan_pwr l) ch bd (Z.to_nat (no_of_chan l)) 0) as (i & Ei & Hi); [lia | lia |]. rewrite Ei, bind_ret. destruct (i <? no_of_chan l) eqn:El; [| by eexists].
    apply Z.ltb_lt in El. destruct (has_band bd BAND_A); [| by eexists]. rewrite Er, bind_ret. destruct (arr_get_total (chan_pwr l) i) as (x & -> & _); [lia |].
    rewrite !bind_ret. by eexists. }
  destruct Hst as [st ->]. rewrite bind_ret, Er, Ep, !bind_ret. destruct (bd =? BAND_A); [by eexists |]. destruct (_ || _); by eexists.
Qed.

(** ** The channels of the region *)
Definition enabled (v : scan_env) (rc : region_chan_t) : list (Z * chan_freq_power_t) :=
  match pcfp rc with
  | Some p =>
      if valid rc && wlan_is_band_compatible (config_bands v) (band rc) then
        map (pair (band rc)) (List.filter (fun c => negb (has_band (flags c) NXP_CHANNEL_DISABLED)) (take (Z.to_nat (num_cfp rc)) (deref (ds_channels (domain v)) p)))
      else []
  | None => []
  end.
(** The channels of the valid tables of compatible bands that are not disabled. *)
Definition wanted (v : scan_env) : list (Z * chan_freq_power_t) := concat (map (enabled v) (scan_regions v)).
Definition entry_for (v : scan_env) (w : Z * chan_freq_power_t) (x : ChanScanParamSet_t) : Prop :=
  radio_type x = (if w.1 =? BAND_A then HostCmd_SCAN_RADIO_TYPE_A else HostCmd_SCAN_RADIO_TYPE_BG) /\ chan_number x = u8 (CfpTables.channel w.2) /\
  exists st, channel_scan_type v w.1 (u8 (CfpTables.channel w.2)) = Ret st /\ passive_scan (chan_scan_mode x) = is_passive st /\ max_scan_time x = default_time v st false.
(** The list with [k] entries filled. *)
Definition filled (v : scan_env) (ws : list (Z * chan_freq_power_t)) (front back : list ChanScanParamSet_t) (o : outcome (list ChanScanParamSet_t * Z)) : Prop :=
  exists es back', o = Ret (front ++ es ++ back', Z.of_nat (length (front ++ es))) /\ Forall2 (entry_for v) ws es /\ Forall unused back' /\ (length es + length back' = length back)%nat.
Lemma filled_trans v ws1 ws2 front back o1 k : filled v ws1 front back o1 ->
  (forall es back', (length es + length back' = length back)%nat -> Forall2 (entry_for v) ws1 es -> Forall unused back' ->
    filled v ws2 (front ++ es) back' (k ((front ++ es) ++ back', Z.of_nat (length (front ++ es))))) ->
  filled v (ws1 ++ ws2) front back (o1 ≫= k).
Proof.
  intros (es & back' & -> & He & Hu & Hl) H. rewrite bind_ret. destruct (H es back' Hl He Hu) as (es2 & back2 & E & He2 & Hu2 & Hl2).
  exists (es ++ es2), back2. rewrite app_assoc, E. split; [by rewrite <- !app_assoc |]. split; [by apply Forall2_app |]. split; [done |]. rewrite length_app. lia.
Qed.
Section Region.
Context (v : scan_env) (Hv : env_ok v).
Lemma region_chan_spec bd : forall n t front back, (n <= length t)%nat -> Forall unused back ->
  (length (List.filter (fun c => negb (has_band (flags c) NXP_CHANNEL_DISABLED)) (take n t)) <= length back)%nat ->
  filled v (map (pair bd) (List.filter (fun c => negb (has_band (flags c) NXP_CHANNEL_DISABLED)) (take n t))) front back
    (region_chan_loop n v 0 false bd t (front ++ back) (Z.of_nat (length front))).
Proof.
  induction n as [| n IH]; intros t front back Hn Hu Hl.
  - cbn [region_chan_loop]. exists [], back. rewrite take_0, app_nil_r. by repeat split.
  - destruct t as [| c t]; [cbn in Hn; lia |]. cbn [region_chan_loop]. cbn [take List.filter] in Hl |- *. destruct (has_band (flags c) NXP_CHANNEL_DISABLED); cbn [negb] in Hl |- *.
    + apply IH; [cbn in Hn; lia | done | done].
    + destruct (scan_type_ret v bd (u8 (CfpTables.channel c)) Hv) as [st Est]. rewrite Est, bind_ret. destruct back as [| x back]; [cbn in Hl; lia |].
      rewrite (get_mid front x back _ eq_refl), bind_ret, (arr_set_app front back _ x _ eq_refl), !bind_ret. set (y := MkParam _ _ _ _ _).
      apply list.Forall_cons in Hu as [_ Hu]. destruct (IH t (front ++ [y]) back) as (es & back' & E & He & Hu' & Hl'); [cbn in Hn; lia | done | cbn in Hl; lia |].
      replace (Z.of_nat (length front) + 1) with (Z.of_nat (length (front ++ [y]))) by (rewrite length_app; cbn; lia). rewrite <- !app_assoc in E. cbn [app] in E.
      exists (y :: es), back'. rewrite E. split; [done |]. split; [| split; [done | cbn; lia]]. constructor; [| done]. split; [done |]. split; [done |].
      exists st. split; [exact Est |]. split; [| done]. cbn. unfold scan_mode_of. by destruct (is_passive st).
Qed.
Lemma region_list_spec : forall rcs front back, (forall rc, rc ∈ rcs -> rc ∈ region_channel (ds_channels (domain v)) ++ universal_channel (ds_channels (domain v))) ->
  Forall unused back -> (length (concat (map (enabled v) rcs)) <= length back)%nat ->
  filled v (concat (map (enabled v) rcs)) front back (region_list_loop rcs v None false (front ++ back) (Z.of_nat (length front))).
Proof.
  induction rcs as [| rc rcs IH]; intros front back Hin Hu Hl; [exists [], back; cbn; rewrite app_nil_r; by repeat split |].
  assert (Hnext : forall front back, Forall unused back -> (length (concat (map (enabled v) rcs)) <= length back)%nat ->
    filled v (concat (map (enabled v) rcs)) front back (region_list_loop rcs v None false (front ++ back) (Z.of_nat (length front)))).
  { intros. apply IH; try done. intros. apply Hin. by right. }
  cbn [region_list_loop map concat band_excluded first_time] in *. unfold enabled at 1. unfold enabled in Hl at 1. destruct (valid rc); cbn [negb andb] in *; [| by destruct (pcfp rc); apply Hnext].
  rewrite bind_ret. cbn [orb]. destruct (wlan_is_band_compatible _ _); cbn [negb] in *; [| by destruct (pcfp rc); apply Hnext].
  rewrite bind_ret. destruct (pcfp rc) as [p |] eqn:Ep.
  - apply (filled_trans v _ _ front back _ (fun '(l, i) => region_list_loop rcs v None false l i)).
    + rewrite length_app, length_map in Hl. apply region_chan_spec; [| done | lia]. pose proof (env_channels v Hv) as Hc. unfold channels_ok in Hc. rewrite list.Forall_forall in Hc.
      destruct (Hc rc (Hin rc ltac:(left)) p Ep). lia.
    + intros es back' Hlen He Hu'. apply Hnext; [done |]. apply Forall2_length in He. rewrite length_app in Hl. lia.
  - rewrite (env_null v Hv rc (Hin rc ltac:(left)) Ep). cbn. by apply Hnext.
Qed.
Lemma create_list_spec : (length (wanted v) < 50)%nat -> exists es z back,
  wlan_scan_create_channel_list v None (replicate 50 no_param) false = Ret (es ++ z :: back) /\ Forall2 (entry_for v) (wanted v) es /\ unused z.
Proof.
  intros Hl. unfold wlan_scan_create_channel_list. destruct (region_list_spec (scan_regions v) [] (replicate 50 no_param)) as (es & back & E & He & Hu & Hlen).
  - intros rc Hrc. apply elem_of_app. unfold scan_regions in Hrc. destruct (_ && _); [right | left]; apply elem_of_take in Hrc as (i & Hi & _); by eapply list_elem_of_lookup_2.
  - by apply Forall_replicate.
  - rewrite length_replicate. unfold wanted in Hl. lia.
  - cbn [app length] in E. change (Z.of_nat 0) with 0 in E. rewrite E, bind_ret. rewrite length_replicate in Hlen. pose proof (Forall2_length _ _ _ He). unfold wanted in Hl.
    destruct back as [| z back]; [cbn in Hlen; lia |]. apply list.Forall_cons in Hu as [Hu _]. by exists es, z, back.
Qed.
Lemma entries_times ws es : Forall2 (entry_for v) ws es -> times_ok es.
Proof.
  intros H. unfold times_ok. induction H as [| w x ws es (_ & _ & st & _ & _ & Hx) H IH]; [done |]. constructor; [| done]. rewrite Hx. pose proof (env_passive v Hv). pose proof (env_active v Hv).
  unfold default_time. by destruct (is_passive st).
Qed.
Lemma entries_used ws es : Forall2 (entry_for v) ws es -> Forall (fun w => u8 (CfpTables.channel w.2) <> 0) ws -> Forall in_use es.
Proof. intros H. induction H as [| w x ws es (_ & Hx & _) H IH]; [done |]. intros [Hw Hws]%list.Forall_cons. constructor; [unfold in_use; congruence | by apply IH]. Qed.
End Region.

(** ** A scan without a request *)
Definition region_max (v : scan_env) : Z := if scan_chan_gap v =? 0 then MRVDRV_CHANNELS_PER_SCAN_CMD else MRVDRV_MAX_CHANNELS_PER_SPECIFIC_SCAN.

(** C8: A scan without a request, when its commands are accepted and nobody aborts
    it, ends with success, with an empty table of access points and with the flag
    of a scan in parts cleared, and its commands hold, each once and in the order
    of the tables, exactly the channels of the valid tables of compatible bands
    that are not disabled, passively where the channel asks for it. Each command
    holds at most four channels, or three with a gap; 1, 6 and 11 are alone in
    theirs, and 36 begins one. *)
Theorem region_scan_covers_enabled_channels prepare_ok pre_sleep abort_asked v a s :
  env_ok v -> wanted v <> [] -> (length (wanted v) < 50)%nat -> Forall (fun w => u8 (CfpTables.channel w.2) <> 0) (wanted v) ->
  (forall k, prepare_ok k = true) -> (forall k, abort_asked k = false) -> abort_split_scan s = false ->
  exists a' s' new, wlan_scan_networks prepare_ok pre_sleep abort_asked v true true None a s = Ret (MLAN_STATUS_SUCCESS, a', s') /\
    is_split_scan_complete s' = true /\ num_in_scan_table a' = 0 /\ events s' = events s ++ new /\
    Forall2 (entry_for v) (wanted v) (concat (scanned new)) /\ Forall (command_ok (region_max v) false) (scanned new).
Proof.
  intros Hv Hne Hlt Hnum Hp Ha Hs. destruct (create_list_spec v Hv Hlt) as (es & z & back & E & He & Hz). unfold wlan_scan_networks, wlan_scan_setup_scan_config.
  cbn [negb orb]. rewrite !bind_ret. change (Z.to_nat WLAN_USER_SCAN_CHAN_MAX) with 50%nat. rewrite E, !bind_ret. cbn [max_chan_per_scan filtered_scan su_config su_channels].
  assert (Hes : es <> []) by (intros ->; by apply Forall2_nil_inv_r in He). pose proof (entries_used v _ _ He Hnum) as Huse.
  set (m := if false || negb (scan_chan_gap v =? 0) then _ else _). assert (Hm : m = region_max v) by (unfold m, region_max; by destruct (scan_chan_gap v =? 0)).
  assert (Hmr : 1 <= m <= 4) by (rewrite Hm; unfold region_max, MRVDRV_CHANNELS_PER_SCAN_CMD, MRVDRV_MAX_CHANNELS_PER_SPECIFIC_SCAN; destruct (_ =? 0); lia).
  set (cfg := MkScanCfg _ _ _). set (s0 := set_progress true _).
  destruct (channel_list_smooth prepare_ok pre_sleep abort_asked v m false cfg es z back s0) as (s' & new & E2 & Hc & Hev & Hcat & Hok); try done; [by eapply entries_times |].
  rewrite E2, bind_ret. eexists _, s', new. split; [done |]. split; [done |]. split; [done |]. split; [by rewrite Hev |]. rewrite Hcat. split; [done | by rewrite <- Hm].
Qed.

(** ** The channels of a request *)
Definition compatible (v : scan_env) (c : wlan_user_scan_chan) : bool := wlan_is_band_compatible (config_bands v) (radio_type_to_band (uc_radio_type c)).
Definition user_entry_for (v : scan_env) (c : wlan_user_scan_chan) (x : ChanScanParamSet_t) : Prop :=
  if compatible v c then radio_type x = uc_radio_type c /\ chan_number x = uc_number c /\
    exists st f, max_scan_time x = (if negb (uc_scan_time c =? 0) then u16 (uc_scan_time c) else default_time v st f)
  else x = no_param.
Section UserList.
Context (v : scan_env) (Hv : env_ok v) (Ha : has_band (fw_bands (domain v)) BAND_A = true) (u : wlan_user_scan_cfg) (triggered filtered : bool).
Lemma user_list_spec tail : (forall c rest, tail = c :: rest -> uc_number c = 0) -> forall cs pre front, chan_list u = pre ++ cs ++ tail -> length front = length pre ->
  Forall (fun c => uc_number c <> 0) cs ->
  exists es, user_chan_loop (length (cs ++ tail)) v u triggered filtered (front ++ replicate (length (cs ++ tail)) no_param) (Z.of_nat (length pre)) =
    Ret (Some (front ++ es ++ replicate (length tail) no_param, Z.of_nat (length (pre ++ cs)))) /\ Forall2 (user_entry_for v) cs es.
Proof.
  intros Htail. induction cs as [| c cs IH]; intros pre front Hu Hf Hcs.
  - exists []. cbn [app]. rewrite app_nil_r. split; [| done]. destruct tail as [| c rest]; [done |]. cbn [length user_chan_loop]. rewrite Hu. cbn [app].
    rewrite (get_mid pre c rest _ eq_refl), bind_ret, (Htail c rest eq_refl). done.
  - apply list.Forall_cons in Hcs as [Hc Hcs]. cbn [app length user_chan_loop]. rewrite Hu. cbn [app]. rewrite (get_mid pre c (cs ++ tail) _ eq_refl), bind_ret, (proj2 (Z.eqb_neq _ _) Hc).
    cbn [replicate]. set (n := length (cs ++ tail)) in *.
    assert (Hnext : forall x, user_entry_for v c x -> exists es,
      user_chan_loop n v u triggered filtered (front ++ x :: replicate n no_param) (Z.of_nat (length pre) + 1) =
        Ret (Some (front ++ es ++ replicate (length tail) no_param, Z.of_nat (length (pre ++ c :: cs)))) /\ Forall2 (user_entry_for v) (c :: cs) es).
    { intros x Hx. destruct (IH (pre ++ [c]) (front ++ [x])) as (es & E & He); [by rewrite <- app_assoc | rewrite !length_app; cbn; lia | done |].
      exists (x :: es). split; [| by constructor]. rewrite <- !app_assoc in E. cbn [app] in E |- *.
      rewrite <- E. f_equal. rewrite length_app. cbn. lia. }
    fold (compatible v c). destruct (compatible v c) eqn:Ec; cbn [negb]; [| apply Hnext; unfold user_entry_for; by rewrite Ec].
    rewrite Ha, andb_false_r. destruct (radar_ret v (uc_number c) Hv) as [r Er], (passive_ret v (uc_number c) Hv) as [p Ep]. rewrite Er, Ep, !bind_ret.
    set (st := if bool_decide _ then _ else _). set (k := fun st' : mlan_scan_type => _). assert (Hk : forall st', exists es, k st' =
        Ret (Some (front ++ es ++ replicate (length tail) no_param, Z.of_nat (length (pre ++ c :: cs)))) /\ Forall2 (user_entry_for v) (c :: cs) es).
    { intros st'. unfold k. cbn beta zeta. assert (Hlen : Z.of_nat (length pre) = Z.of_nat (length front)) by lia. rewrite !Hlen, (get_mid front no_param _ _ eq_refl), bind_ret, (arr_set_app front _ _ _ _ eq_refl), bind_ret.
      rewrite <- !Hlen. apply Hnext. unfold user_entry_for. rewrite Ec. cbn. eauto. }
    destruct triggered; [rewrite bind_ret; apply Hk |]. destruct (uc_radio_type c =? HostCmd_SCAN_RADIO_TYPE_A); [rewrite bind_ret; apply Hk |].
    destruct (uc_radio_type c =? HostCmd_SCAN_RADIO_TYPE_BG); rewrite bind_ret; apply Hk.
Qed.
End UserList.

(** ** From the call to the commands *)
Definition user_of (c : wifi_scan_channel_list_t) : wlan_user_scan_chan := MkUserChan (wc_number c) (if wc_number c >? 14 then 1 else 0) (wc_scan_type c) (wc_scan_time c).
Lemma copy_channels_spec : forall src pre front, length front = length pre ->
  copy_channels (length src) (Z.of_nat (length pre)) (pre ++ src) (front ++ replicate (50 - length front) no_user_chan) =
    (if decide (length src <= 50 - length front)%nat then Ret (front ++ map user_of src ++ replicate (50 - length front - length src) no_user_chan) else Fault OutOfBounds).
Proof.
  induction src as [| c src IH]; intros pre front Hf.
  - cbn. by rewrite Nat.sub_0_r.
  - cbn [length copy_channels]. rewrite (get_mid pre c src _ eq_refl), bind_ret. destruct (50 - length front)%nat as [| n] eqn:En.
    + rewrite decide_False by lia. cbn [replicate]. rewrite app_nil_r. unfold arr_get. rewrite (proj2 (Z.ltb_ge _ _)) by lia. rewrite lookup_ge_None_2 by lia. done.
    + cbn [replicate]. assert (Hlen : Z.of_nat (length pre) = Z.of_nat (length front)) by lia. rewrite Hlen, (get_mid front no_user_chan _ _ eq_refl), bind_ret, (arr_set_app front _ _ _ _ eq_refl), bind_ret.
      change (MkUserChan _ _ _ _) with (user_of c). specialize (IH (pre ++ [c]) (front ++ [user_of c])). rewrite !length_app in IH. cbn [length] in IH. specialize (IH ltac:(lia)).
      replace (50 - (length front + 1))%nat with n in IH by lia. rewrite <- !app_assoc in IH. cbn [app] in IH. replace (Z.of_nat (length front) + 1) with (Z.of_nat (length pre + 1)) by lia.
      rewrite IH. destruct (decide (length src <= n)%nat); [rewrite decide_True by lia | by rewrite decide_False by lia]. done.
Qed.
Fixpoint until_incompatible (v : scan_env) (cs : list wlan_user_scan_chan) : list wlan_user_scan_chan :=
  match cs with
  | [] => []
  | c :: cs' => if compatible v c then c :: until_incompatible v cs' else []
  end.
Lemma strlen_ret l : 0 ∈ l -> exists n, strlen_list l = Ret n.
Proof.
  induction l as [| c l IH]; intros H; [by apply elem_of_nil in H |]. cbn [strlen_list]. destruct (c =? 0) eqn:E; [by eexists |]. apply Z.eqb_neq in E.
  apply elem_of_cons in H as [H | H]; [congruence |]. destruct (IH H) as [n ->]. by eexists.
Qed.
Lemma names_ret l : Forall (fun s => 0 ∈ us_ssid s) l -> exists r, ssid_list_loop l = Ret r.
Proof.
  induction l as [| s l IH]; intros H; [by eexists |]. apply list.Forall_cons in H as [Hs H]. cbn [ssid_list_loop]. destruct (arr_get_total (us_ssid s) 0) as (c & -> & _).
  { destruct (us_ssid s); [by apply elem_of_nil in Hs | cbn; lia]. }
  rewrite bind_ret. destruct (_ && _); [by eexists |]. destruct (strlen_ret (us_ssid s) Hs) as [n En]. unfold c_strlen. change (drop (Z.to_nat 0) (us_ssid s)) with (us_ssid s). rewrite En, bind_ret.
  destruct (IH H) as [[tlvs f] ->]. rewrite bind_ret. by eexists.
Qed.
Lemma wildcard_nul s : 0 ∈ us_ssid s -> 0 ∈ us_ssid (wildcard s).
Proof. intros H. unfold wildcard. destruct (us_ssid s) as [| c l] eqn:E; [by rewrite E |]. destruct (c =? 42); [by left | by rewrite E]. Qed.
Lemma wildcard_loop_nul l : Forall (fun s => 0 ∈ us_ssid s) l -> Forall (fun s => 0 ∈ us_ssid s) (wildcard_loop l).
Proof.
  induction l as [| s l IH]; intros H; [done |]. cbn [wildcard_loop]. destruct (us_ssid s) as [| c t] eqn:E; [done |]. destruct (c =? 0); [done |].
  apply list.Forall_cons in H as [Hs H]. constructor; [by apply wildcard_nul | by apply IH].
Qed.
Lemma ssid_field_nul o : too_long o = false -> 0 ∈ ssid_field o.
Proof.
  intros H. destruct o as [s |]; [| by left]. cbn in *. rewrite Z.gtb_ltb in H. apply Z.ltb_ge in H. apply elem_of_app. right.
  destruct (33 - length s)%nat as [| n] eqn:E; [lia | by left].
Qed.
Lemma setup_listed v u l s P c0 cs : Forall (fun s => 0 ∈ us_ssid s) (ssid_list u) -> chan_list u = c0 :: cs -> uc_number c0 <> 0 ->
  (forall t f, exists l' n, user_chan_loop 50 v u t f l 0 = Ret (Some (l', n)) /\ P l') ->
  exists w s1, wlan_scan_setup_scan_config v (Some u) l s = Ret (Some w, s1) /\ P (su_channels w) /\ 1 <= max_chan_per_scan w <= 4 /\
    events s1 = events s /\ abort_split_scan s1 = abort_split_scan s.
Proof.
  intros Hn Hc Hc0 HP. unfold wlan_scan_setup_scan_config. destruct (names_ret _ Hn) as [[names f] ->]. rewrite !bind_ret, Hc.
  change (arr_get (c0 :: cs) 0) with (Ret c0). rewrite !bind_ret, (proj2 (Z.eqb_neq _ _) Hc0). cbn [negb].
  set (s1 := if f then _ else _). set (filt := f || _). change (Z.to_nat WLAN_USER_SCAN_CHAN_MAX) with 50%nat. destruct (HP (active_scan_triggered s1) filt) as (l' & n & -> & Hl').
  rewrite !bind_ret. eexists _, s1. split; [reflexivity |]. split; [exact Hl' |].
  split; [cbn [max_chan_per_scan]; unfold MRVDRV_MAX_CHANNELS_PER_SPECIFIC_SCAN, MRVDRV_CHANNELS_PER_SCAN_CMD; by case_match |]. unfold s1. by destruct f.
Qed.
(** The list stops at the first entry that was passed over. *)
Lemma entries_split v cs es back : Forall2 (user_entry_for v) cs es -> Forall (fun c => uc_number c <> 0) cs -> back <> [] -> Forall unused back ->
  exists es1 z post, es ++ back = es1 ++ z :: post /\ unused z /\ Forall in_use es1 /\ Forall2 (user_entry_for v) (until_incompatible v cs) es1.
Proof.
  intros H. induction H as [| c x cs es Hx H IH]; intros Hc Hne Hu.
  - destruct back as [| z post]; [done |]. exists [], z, post. by apply list.Forall_cons in Hu as [Hz _].
  - apply list.Forall_cons in Hc as [Hc0 Hc]. cbn [until_incompatible]. destruct (compatible v c) eqn:Ec.
    + destruct (IH Hc Hne Hu) as (es1 & z & post & E & Hz & Hin & He). exists (x :: es1), z, post. cbn [app]. rewrite E. split; [done |]. split; [done |].
      split; [| by constructor]. constructor; [| done]. unfold user_entry_for in Hx. rewrite Ec in Hx. unfold in_use. destruct Hx as (_ & -> & _). done.
    + exists [], x, (es ++ back). split; [done |]. split; [| done]. unfold user_entry_for in Hx. rewrite Ec in Hx. by subst x.
Qed.
Lemma user_entries_ok v cs es : env_ok v -> Forall2 (user_entry_for v) (until_incompatible v cs) es -> Forall (fun c => 0 <= uc_scan_time c <= 7500) cs ->
  times_ok es /\ map chan_number es = map uc_number (until_incompatible v cs).
Proof.
  intros Hv. revert es. induction cs as [| c cs IH]; intros es H Ht; cbn [until_incompatible] in *; [apply Forall2_nil_inv_l in H as ->; split; [constructor | done] |].
  destruct (compatible v c) eqn:Ec; [| apply Forall2_nil_inv_l in H as ->; split; [constructor | done]].
  apply Forall2_cons_inv_l in H as (x & es' & Hx & H & ->). apply list.Forall_cons in Ht as [Hc Ht]. destruct (IH es' H Ht) as [H1 H2].
  unfold user_entry_for in Hx. rewrite Ec in Hx. destruct Hx as (_ & Hn & st & f & Htm). split; [| cbn; congruence]. constructor; [| done]. rewrite Htm.
  destruct (negb _); [unfold u16, wrap; rewrite Z.mod_small; lia |]. pose proof (env_passive v Hv). pose proof (env_specific v Hv). pose proof (env_active v Hv).
  unfold default_time. by destruct (is_passive st), f.
Qed.

(** A call that asks for up to forty-nine channels, when the commands are
    accepted and nobody aborts, is scanned with success, and the commands hold
    the channels in the order of the call, each once, but only those before the
    first one of a band that the interface does not use: its entry stays empty and
    ends the list, whatever follows. *)
Theorem request_scanned_until_incompatible prepare_ok pre_sleep abort_asked v a s mode bssid ssid ssid2 src probes gap keep trig :
  env_ok v -> has_band (fw_bands (domain v)) BAND_A = true -> too_long ssid = false -> too_long ssid2 = false -> (length src < 50)%nat ->
  Forall (fun c => wc_number c <> 0 /\ 0 <= wc_scan_time c <= 7500) src -> until_incompatible v (map user_of src) <> [] ->
  (forall k, prepare_ok k = true) -> (forall k, abort_asked k = false) -> abort_split_scan s = false ->
  exists u s0 a' s' new, wifi_send_scan_cmd true mode bssid ssid ssid2 (Z.of_nat (length src)) (Some src) probes gap keep trig None s = Ret (SCAN_WM_SUCCESS, Some u, s0) /\
    wlan_scan_networks prepare_ok pre_sleep abort_asked v true true (Some u) a s0 = Ret (MLAN_STATUS_SUCCESS, a', s') /\ is_split_scan_complete s' = true /\
    events s' = events s ++ new /\ map chan_number (concat (scanned new)) = map uc_number (until_incompatible v (map user_of src)).
Proof.
  intros Hv Ha H1 H2 Hlen Hsrc Hne Hp Hab Hs. assert (Hpos : (0 < length src)%nat) by (destruct src; [done | cbn; lia]). set (cs := map user_of src) in *.
  assert (Hcs : Forall (fun c => uc_number c <> 0) cs /\ Forall (fun c => 0 <= uc_scan_time c <= 7500) cs).
  { unfold cs. rewrite !list.Forall_fmap. split; eapply list.Forall_impl; try exact Hsrc; by intros ? []. }
  destruct Hcs as [Hnz Htm]. unfold wifi_send_scan_cmd. rewrite H1, H2. cbn [orb negb].
  assert (Hcond : (Z.of_nat (length src) >? 0) && (Z.of_nat (length src) <=? WLAN_USER_SCAN_CHAN_MAX) = true).
  { apply andb_true_iff. split; [apply Z.gtb_lt; lia | apply Z.leb_le; unfold WLAN_USER_SCAN_CHAN_MAX; lia]. }
  rewrite Hcond, Nat2Z.id. pose proof (copy_channels_spec src [] [] eq_refl) as Hcopy. cbn [app length] in Hcopy. rewrite decide_True in Hcopy by lia. fold cs in Hcopy.
  change (Z.to_nat WLAN_USER_SCAN_CHAN_MAX) with (50 - 0)%nat. change (Z.of_nat 0) with 0 in Hcopy. rewrite Hcopy, bind_ret. set (u := MkUserCfg _ _ _ _ _ _ _). set (s0 := if trig then _ else _).
  exists u, s0. set (rest := replicate (50 - 0 - length src) no_user_chan). assert (Hlc : length (cs ++ rest) = 50%nat) by (unfold cs, rest; rewrite length_app, length_map, length_replicate; lia).
  assert (Hhead : exists c t, cs ++ rest = c :: t /\ uc_number c <> 0).
  { clearbody cs. destruct cs as [| x t]; [done |]. exists x, (t ++ rest). apply list.Forall_cons in Hnz as [? _]. done. }
  destruct Hhead as (c1 & t1 & Ec1 & Hc1).
  destruct (setup_listed v u (replicate 50 no_param) s0 (fun l' => exists es, l' = es ++ replicate (length rest) no_param /\ Forall2 (user_entry_for v) cs es) c1 t1)
    as (w & s1 & Ew & (es & Ees & He) & Hmax & Hev1 & Hab1).
  - apply wildcard_loop_nul. constructor; [by apply ssid_field_nul |]. constructor; [by apply ssid_field_nul | done].
  - exact Ec1.
  - done.
  - intros t f. destruct (user_list_spec v Hv Ha u t f rest) with (cs := cs) (pre := @nil wlan_user_scan_chan) (front := @nil ChanScanParamSet_t) as (es & E & He); try done.
    { intros c r Hr. unfold rest in Hr. destruct (50 - 0 - length src)%nat; [done |]. by injection Hr as <- _. }
    rewrite Hlc in E. cbn [app length] in E. change (Z.of_nat 0) with 0 in E. eexists _, _. split; [exact E |]. by exists es.
  - destruct (entries_split v cs es (replicate (length rest) no_param)) as (es1 & z & post & Esp & Hz & Hin & He1); [done | done | | by apply Forall_replicate |].
    { unfold rest. rewrite length_replicate. destruct (50 - 0 - length src)%nat eqn:E; [lia | done]. }
    destruct (user_entries_ok v cs es1 Hv He1 Htm) as [Hti Hnum]. unfold wlan_scan_networks. cbn [negb orb]. change (Z.to_nat WLAN_USER_SCAN_CHAN_MAX) with 50%nat.
    rewrite Ew, bind_ret, Ees, Esp. set (s2 := set_progress true s1). assert (Hs0 : events s0 = events s /\ abort_split_scan s0 = abort_split_scan s) by (by unfold s0; destruct trig).
    destruct Hs0 as [Hev0 Hab0].
    destruct (channel_list_smooth prepare_ok pre_sleep abort_asked v (max_chan_per_scan w) (filtered_scan w) (su_config w) es1 z post s2) as (s' & new & E2 & Hc & Hev & Hcat & _);
      try done; [by intros ->; apply Forall2_nil_inv_r in He1 | cbn; congruence |].
    rewrite E2, bind_ret. eexists _, s', new. split; [done |]. split; [done |]. split; [done |]. split; [rewrite Hev; cbn; congruence | by rewrite Hcat].
Qed.

(** ** Examples *)
(** The tables of the United States: 11 channels of 2.4 GHz and those of 5 GHz. *)
Definition us_channels : cfp_adapter :=
  MkCfpAdapter [MkRegionChan true 0x10 BAND_G 11 (Some (StaticCfp CfpTables.channel_freq_power_US_BG));
                MkRegionChan true 0x10 BAND_A (Z.of_nat (length CfpTables.channel_freq_power_A)) (Some (StaticCfp CfpTables.channel_freq_power_A))]
    [] 0 0 None None None 0 0 [] 0 [] [].
Definition us_env (bands : Z) : scan_env :=
  MkEnv (MkDs no_parsed no_domain 0x10 7 us_channels false false cleared_bss []) false bands true 0 MLAN_SCAN_TYPE_ACTIVE 3 4 100 110 100 0 true false false.
Lemma us_env_ok b : env_ok (us_env b).
Proof.
  constructor; try (cbn; lia).
  - apply list.Forall_cons. split; [| apply list.Forall_singleton]; intros p [= <-]; cbn; lia.
  - intros rc Hrc. cbn in Hrc. apply elem_of_cons in Hrc as [-> | Hrc]; [done |]. apply list_elem_of_singleton in Hrc as ->. done.
Qed.
Definition still : scan_state := MkScan false false false false None [].
Definition quiet (k : nat) : bool := false.
Definition taken (k : nat) : bool := true.
Lemma us_channels_numbered : Forall (fun w => u8 (CfpTables.channel w.2) <> 0) (wanted (us_env 7)).
Proof. apply (bool_decide_unpack _). by vm_compute. Qed.
Lemma region_scan_covers_enabled_channels_witness : exists a' s' new,
  wlan_scan_networks taken quiet quiet (us_env 7) true true None (MkAdapter [] 5 [] 0 us_channels) still = Ret (MLAN_STATUS_SUCCESS, a', s') /\
  is_split_scan_complete s' = true /\ events s' = new /\ length (concat (scanned new)) = 36%nat.
Proof.
  destruct (region_scan_covers_enabled_channels taken quiet quiet (us_env 7) (MkAdapter [] 5 [] 0 us_channels) still) as (a' & s' & new & E & H1 & _ & H2 & H3 & _).
  - apply us_env_ok.
  - by vm_compute.
  - apply (bool_decide_unpack _). by vm_compute.
  - exact us_channels_numbered.
  - done.
  - done.
  - done.
  - exists a', s', new. split; [exact E |]. split; [exact H1 |]. split; [exact H2 |]. apply Forall2_length in H3. rewrite <- H3. by vm_compute.
Defined.
(** Channels 1, 6 and 11 around one of 5 GHz, on an interface of 2.4 GHz: the
    list ends after 6. *)
Definition mixed_request : list wifi_scan_channel_list_t := map (fun n => MkWifiChan n MLAN_SCAN_TYPE_ACTIVE 0) [1; 6; 36; 11].
Lemma request_scanned_until_incompatible_witness : exists u s0 a' s',
  wifi_send_scan_cmd true 0 None None None 4 (Some mixed_request) 0 0 false false None still = Ret (SCAN_WM_SUCCESS, Some u, s0) /\
  wlan_scan_networks taken quiet quiet (us_env 3) true true (Some u) (MkAdapter [] 0 [] 0 us_channels) s0 = Ret (MLAN_STATUS_SUCCESS, a', s') /\
  map chan_number (concat (scanned (events s'))) = [1; 6].
Proof.
  destruct (request_scanned_until_incompatible taken quiet quiet (us_env 3) (MkAdapter [] 0 [] 0 us_channels) still 0 None None None mixed_request 0 0 false false)
    as (u & s0 & a' & s' & new & E1 & E2 & _ & H1 & H2).
  - apply us_env_ok.
  - by vm_compute.
  - done.
  - done.
  - cbn. lia.
  - repeat constructor; cbn; lia.
  - by vm_compute.
  - done.
  - done.
  - done.
  - exists u, s0, a', s'. split; [exact E1 |]. split; [exact E2 |]. rewrite H1. cbn [events still app]. rewrite H2. by vm_compute.
Defined.

(** A request of fifty channels, which [wifi_send_scan_cmd] takes, leaves no entry
    to end the list: it is read past its end. *)
Example fifty_channels_read_past_list :
  match wifi_send_scan_cmd true 0 None None None 50 (Some (replicate 50 (MkWifiChan 2 MLAN_SCAN_TYPE_ACTIVE 0))) 0 0 false false None still with
  | Ret (_, Some u, s0) => wlan_scan_networks taken quiet quiet (us_env 3) true true (Some u) (MkAdapter [] 0 [] 0 us_channels) s0 = Fault OutOfBounds
  | _ => False
  end.
Proof. vm_compute. reflexivity. Qed.
(** With a name in the request the first channel of the region keeps the channel
    filter of the firmware, and the entry after the last one does not. *)
Example first_channel_keeps_filter :
  match wlan_scan_create_channel_list (us_env 3) None (replicate 50 no_param) true with
  | Ret l => map (fun x => (chan_number x, disable_chan_filt (chan_scan_mode x))) (take 2 l) = [(1, false); (2, true)] /\
      map (fun x => (chan_number x, disable_chan_filt (chan_scan_mode x))) (take 2 (drop 10 l)) = [(11, true); (0, true)]
  | Fault _ => False
  end.
Proof. vm_compute. done. Qed.
(** A network whose name begins with a star is looked for with any name. *)
Example star_name_becomes_wildcard : map (fun s => (take 5 (us_ssid s), us_max_len s)) (wildcard_loop [MkUserSsid (ssid_field (Some (lit "*home"))) 0]) = [(replicate 5 0, 40)].
Proof. reflexivity. Qed.
