(* ===== verification/TxBus.v ===== *)
(** * The interface of the transmit bus

    What the transmit queues ([wifidriver/wifi.c], [wifidriver/mlan_wmm.c]) ask
    of the transport: take one more packet for the next write, and write.  The
    SDIO transport is one implementation; a bus over any other has to keep the
    same promises. *)
From S2P Require Import Prelude Aggr.

(** Packets per write ([SDIO_PAYLOAD_SIZE]) and the longest packet: interface
    header, descriptor and data. *)
Definition SDIO_PAYLOAD_SIZE : Z := 8.
Definition BUS_MAX_LEN : Z := 1606.

Class TxBus (B : Type) := {
  wlan_xmit : Z -> Z -> list Z -> B -> outcome (mlan_status * B);
  wlan_flush : Z -> B -> outcome (mlan_status * B);
  (** The writes so far, oldest first, with whether each arrived, and the
      packets taken since the last one. *)
  bus_rep : B -> list (bool * list (list Z)) -> list (list Z) -> Prop;
  (** The bus takes at least so many packets before it refuses one. *)
  bus_room : B -> nat -> Prop
}.

Class TxBusLaws (B : Type) `{TxBus B} := {
  (** A packet is taken as it is, or refused and nothing changes. *)
  xmit_law b sent pend i n buf :
    bus_rep b sent pend -> Z.of_nat (length pend) < SDIO_PAYLOAD_SIZE ->
    0 < n <= BUS_MAX_LEN -> n <= Z.of_nat (length buf) ->
    exists r b', wlan_xmit i n buf b = Ret (r, b') /\
      (r = MLAN_STATUS_RESOURCE /\ bus_rep b' sent pend /\ ~ bus_room b 1 /\ (forall k, bus_room b k -> bus_room b' k) \/
       r = MLAN_STATUS_SUCCESS /\ bus_rep b' sent (pend ++ [take (Z.to_nat n) buf]) /\
       (forall k, bus_room b (S k) -> bus_room b' k));
  (** A write is of all the packets taken; none stays behind. *)
  flush_law b sent pend :
    bus_rep b sent pend ->
    exists (ok : bool) b', wlan_flush (Z.of_nat (length pend)) b =
        Ret (if ok then MLAN_STATUS_SUCCESS else MLAN_STATUS_RESOURCE, b') /\
      bus_rep b' (if bool_decide (pend = []) then sent else sent ++ [(ok, pend)]) [] /\
      (forall k, bus_room b k -> bus_room b' k);
  room_mono b k : bus_room b (S k) -> bus_room b k
}.
