(* ===== verification/Sdio.v ===== *)
(** * The transport over SDIO

    [wifidriver/wifi-sdio.c] and the transfers of [wifidriver/mlan_sdio.c] it
    uses: the interrupt registers, the read side (which ports have a packet,
    aggregated reads, the packets handed up) and the write side (one port per
    packet, the aggregated write of the WMM queues, commands).

    The card and the operating system are the class [SdioEnv].  The chip is of
    the family with 32 data ports and a port for commands (SD8978 and later),
    aggregation is on in both directions.  Printing is left out. *)
From S2P Require Import Prelude Aggr.

(** ** Constants *)
Definition MAX_PORT : Z := 32.
Definition SDIO_MP_AGGR_DEF_PKT_LIMIT : Z := 4.
Definition SDIO_MP_AGGR_DEF_PKT_LIMIT_MAX : Z := 16.
Definition MAX_MP_REGS : Z := 196.
Definition HOST_INT_STATUS_REG : Z := 0x0C.
Definition RD_BITMAP_L : Z := 0x10.
Definition WR_BITMAP_L : Z := 0x14.
Definition RD_LEN_P0_L : Z := 0x18.
Definition RD_LEN_P0_U : Z := 0x19.
Definition CMD_RD_LEN_0 : Z := 0xC0.
Definition CMD_RD_LEN_1 : Z := 0xC1.
Definition CMD_PORT_SLCT : Z := 0x8000.
Definition UP_LD_HOST_INT_STATUS : Z := 0x1.
Definition DN_LD_HOST_INT_STATUS : Z := 0x2.
Definition UP_LD_CMD_PORT_HOST_INT_STATUS : Z := 0x40.
Definition DN_LD_CMD_PORT_HOST_INT_STATUS : Z := 0x80.
Definition DATA_PORT_MASK : Z := 0xffffffff.
Definition MLAN_SDIO_BLOCK_SIZE : Z := 256.
Definition SDIO_MPA_ADDR_BASE : Z := 0x1000.
Definition MEM_PORT : Z := 0x10000.
Definition REG_PORT : Z := 0.
Definition MLAN_SDIO_BYTE_MODE_MASK : Z := 0x80000000.
Definition HOST_TO_CARD_EVENT_REG : Z := 0x00.
Definition HOST_TERM_CMD53 : Z := 4.
Definition MAX_READ_IOMEM_RETRY : Z := 2.
Definition INTF_HEADER_LEN : Z := 4.
Definition SDIO_OUTBUF_LEN : Z := 2048.
Definition HUGE_BUF_SIZE : Z := 2000.
Definition MLAN_TYPE_DATA : Z := 0.
Definition MLAN_TYPE_CMD : Z := 1.
Definition MLAN_TYPE_EVENT : Z := 3.
Definition EVENT_TX_DATA_PAUSE : Z := 0x55.

(** ** The environment

    Reads and writes of the card by function, address, count and flags (block
    mode or not), the result and the bytes that arrive; memory, the queue of the
    driver's thread and the lock that keeps the card awake.  The block size of
    the SDK, which sizes the buffers, is one of its constants. *)
Class SdioEnv (W : Type) := {
  FSL_SDMMC_DEFAULT_BLOCK_SIZE : Z;
  SDIO_IO_Read_Extended : Z -> Z -> Z -> bool -> W -> bool * list Z * W;
  SDIO_IO_Write_Extended : Z -> Z -> list Z -> bool -> W -> bool * W;
  SDIO_IO_Write_Direct : Z -> Z -> Z -> W -> bool * W;
  os_mem_alloc : Z -> W -> bool * W;
  os_queue_send : W -> bool * W;
  os_rwlock_read_lock : W -> bool * W
}.

Definition DATA_BUFFER_SIZE `{SdioEnv W} : Z := FSL_SDMMC_DEFAULT_BLOCK_SIZE * 4.
Definition INBUF_SIZE `{SdioEnv W} : Z := SDIO_MP_AGGR_DEF_PKT_LIMIT * 2 * DATA_BUFFER_SIZE.

(** ** The state *)
Record sdio_adapter := MkAdapter {
  mp_rd_bitmap : Z;     (* u32 *)
  curr_rd_port : Z;     (* u8 *)
  mp_wr_bitmap : Z;     (* u32 *)
  mp_end_port : Z;      (* u16 *)
  ioport : Z;           (* u32 *)
  mp_regs : list Z;     (* 196 bytes *)
  sdio_ireg : Z;        (* u8 *)
  cmd_sent : bool
}.
(** The static variables of the write side. *)
Record tx_statics := MkTx {
  txportno : Z;         (* u8 *)
  buf_block_len : Z;    (* u32 *)
  start_port : Z;       (* u8 *)
  ports : Z;            (* u8 *)
  pkt_cnt : Z           (* u8 *)
}.
(** What leaves this layer, in order. *)
Inductive sdio_event :=
  | LowLevelInput (interface : Z) (packet : list Z)  (* bus.wifi_low_level_input *)
  | QueueMsg (event : Z) (data : list Z)             (* a message on bus.event_queue *)
  | DataPause (data : list Z)                        (* wifi_handle_event_data_pause *)
  | CmdResp (packet : list Z)                        (* wlan_handle_cmd_resp_packet *)
  | EventPacket (event : Z) (data : list Z)          (* wlan_handle_event_packet *)
  | Sent (addr : Z) (data : list Z).                 (* a write the card took *)
Record bus_config := MkBus {
  has_event_queue : bool;
  has_low_level_input : bool;
  fw_init_cfg : Z
}.
Record sdio (W : Type) := MkSdio {
  adap : sdio_adapter;
  tx : tx_statics;
  bus : bus_config;
  inbuf : list Z;
  outbuf : list Z;
  last_cmd_sent : Z;
  env : W;
  events : list sdio_event
}.
Arguments MkSdio {W}.
Arguments adap {W}.
Arguments tx {W}.
Arguments bus {W}.
Arguments inbuf {W}.
Arguments outbuf {W}.
Arguments last_cmd_sent {W}.
Arguments env {W}.
Arguments events {W}.

Definition set_rd (m c : Z) (a : sdio_adapter) : sdio_adapter :=
  MkAdapter m c (mp_wr_bitmap a) (mp_end_port a) (ioport a) (mp_regs a) (sdio_ireg a) (cmd_sent a).
Definition set_wr_bitmap (m : Z) (a : sdio_adapter) : sdio_adapter :=
  MkAdapter (mp_rd_bitmap a) (curr_rd_port a) m (mp_end_port a) (ioport a) (mp_regs a) (sdio_ireg a) (cmd_sent a).
Definition set_regs (r : list Z) (i : Z) (a : sdio_adapter) : sdio_adapter :=
  MkAdapter (mp_rd_bitmap a) (curr_rd_port a) (mp_wr_bitmap a) (mp_end_port a) (ioport a) r i (cmd_sent a).
Definition set_cmd_sent (b : bool) (a : sdio_adapter) : sdio_adapter :=
  MkAdapter (mp_rd_bitmap a) (curr_rd_port a) (mp_wr_bitmap a) (mp_end_port a) (ioport a) (mp_regs a) (sdio_ireg a) b.

Section setters.
Context {W : Type}.
Definition set_adap (a : sdio_adapter) (s : sdio W) : sdio W :=
  MkSdio a (tx s) (bus s) (inbuf s) (outbuf s) (last_cmd_sent s) (env s) (events s).
Definition set_tx (t : tx_statics) (s : sdio W) : sdio W :=
  MkSdio (adap s) t (bus s) (inbuf s) (outbuf s) (last_cmd_sent s) (env s) (events s).
Definition set_inbuf (m : list Z) (s : sdio W) : sdio W :=
  MkSdio (adap s) (tx s) (bus s) m (outbuf s) (last_cmd_sent s) (env s) (events s).
Definition set_outbuf (m : list Z) (s : sdio W) : sdio W :=
  MkSdio (adap s) (tx s) (bus s) (inbuf s) m (last_cmd_sent s) (env s) (events s).
Definition set_last_cmd (c : Z) (s : sdio W) : sdio W :=
  MkSdio (adap s) (tx s) (bus s) (inbuf s) (outbuf s) c (env s) (events s).
Definition set_env (w : W) (s : sdio W) : sdio W :=
  MkSdio (adap s) (tx s) (bus s) (inbuf s) (outbuf s) (last_cmd_sent s) w (events s).
Definition emit (e : sdio_event) (s : sdio W) : sdio W :=
  MkSdio (adap s) (tx s) (bus s) (inbuf s) (outbuf s) (last_cmd_sent s) (env s) (events s ++ [e]).
End setters.

(** [1U << n]: undefined in C from 32 on. *)
Definition port_bit (n : Z) : outcome Z :=
  if (0 <=? n) && (n <? 32) then Ret (Z.shiftl 1 n) else Fault ShiftTooWide.

(** A bitmap of four registers. *)
Definition read_bitmap (regs : list Z) (r : Z) : outcome Z :=
  b0 ← arr_get regs r; b1 ← arr_get regs (r + 1); b2 ← arr_get regs (r + 2); b3 ← arr_get regs (r + 3);
  Ret (Z.lor (Z.lor (Z.lor b0 (Z.shiftl b1 8)) (Z.shiftl b2 16)) (Z.shiftl b3 24)).

(** A length in two registers. *)
Definition read_len (regs : list Z) (lo hi : Z) : outcome Z :=
  u ← arr_get regs hi; l ← arr_get regs lo; Ret (Z.lor (Z.shiftl u 8) l).

(** The blocks that hold [n] bytes. *)
Definition blocks_of (n : Z) : Z := u32 (n + MLAN_SDIO_BLOCK_SIZE - 1) / MLAN_SDIO_BLOCK_SIZE.


(** Where [wlan_get_rd_port] stands: [*pport], [*rxlen], [*rxblocks],
    [pkt_cnt], [ports] and [start_port]. *)
Record rd_scan := MkScan {
  rs_pport : Z; rs_rxlen : Z; rs_rxblocks : Z; rs_pkt_cnt : Z; rs_ports : Z; rs_start : Z
}.
Definition NO_PORT : Z := 0xffffffff.

Section driver.
Context {W : Type} `{SdioEnv W}.

(** ** Transfers ([mlan_sdio.c])

    More than one block is a transfer in block mode; one or none is a transfer
    of [bsize] bytes.  The lock is taken without a limit of time. *)
Definition sdio_drv_read (addr fn bcnt bsize : Z) (buf : list Z) (s : sdio W) : outcome (bool * list Z * sdio W) :=
  let '(ok, bytes, w) :=
    if 1 <? bcnt then SDIO_IO_Read_Extended fn addr bcnt true (env s)
    else SDIO_IO_Read_Extended fn addr bsize false (env s) in
  buf ← mem_write buf 0 bytes;
  Ret (ok, buf, set_env w s).

Definition sdio_drv_write (addr fn bcnt bsize : Z) (buf : list Z) (s : sdio W) : outcome (bool * sdio W) :=
  let n := if 1 <? bcnt then bcnt * bsize else bsize in
  bytes ← mem_read buf 0 n;
  let '(ok, w) := SDIO_IO_Write_Extended fn addr bytes (1 <? bcnt) (env s) in
  Ret (ok, (if ok then emit (Sent addr bytes) else id) (set_env w s)).

Definition sdio_drv_creg_write (addr fn data : Z) (s : sdio W) : bool * sdio W :=
  let '(ok, w) := SDIO_IO_Write_Direct fn addr data (env s) in (ok, set_env w s).

(** ** The read side *)

Fixpoint rd_port_loop (fuel : nat) (a : sdio_adapter) (r : rd_scan) : outcome (sdio_adapter * rd_scan) :=
  match fuel with
  | O => Fault OutOfFuel
  | S fuel =>
      b ← port_bit (curr_rd_port a);
      if Z.land (mp_rd_bitmap a) b =? 0 then Ret (a, r)
      else
        let pport := curr_rd_port a in
        len ← read_len (mp_regs a) (RD_LEN_P0_L + Z.shiftl pport 1) (RD_LEN_P0_U + Z.shiftl pport 1);
        let rx_blocks := blocks_of len in
        let rx_len := u16 (rx_blocks * MLAN_SDIO_BLOCK_SIZE) in
        if u32 (rs_rxlen r + rx_len) >? INBUF_SIZE
        then Ret (a, MkScan pport (rs_rxlen r) (rs_rxblocks r) (rs_pkt_cnt r) (rs_ports r) (rs_start r))
        else
          let start := if rs_start r =? NO_PORT then pport else rs_start r in
          let next := u8 (curr_rd_port a + 1) in
          let next := if next =? MAX_PORT then 0 else next in
          let a := set_rd (Z.ldiff (mp_rd_bitmap a) b) next a in
          let r := MkScan pport (u32 (rs_rxlen r + rx_len)) (u32 (rs_rxblocks r + rx_blocks))
                          (u16 (rs_pkt_cnt r + 1)) (u16 (rs_ports r + 1)) start in
          if rs_pkt_cnt r =? SDIO_MP_AGGR_DEF_PKT_LIMIT_MAX then Ret (a, r)
          else if ((next <? start) && (u32 (MAX_PORT - start + next) >=? Z.shiftr (mp_end_port a) 1))
                  || (u32 (next - start) >=? Z.shiftr (mp_end_port a) 1)
          then Ret (a, r)
          else rd_port_loop fuel a r
  end.

(** The status, the address to read from, the length, the blocks, and whether
    it is an aggregated read. *)
Definition wlan_get_rd_port (a : sdio_adapter) : outcome (option (Z * Z * Z * bool) * sdio_adapter) :=
  if Z.land (mp_rd_bitmap a) DATA_PORT_MASK =? 0 then Ret (None, a)
  else
    '(a, r) ← rd_port_loop 17 a (MkScan NO_PORT 0 0 0 0 NO_PORT);
    if rs_pport r =? NO_PORT then Ret (None, a)
    else if 1 <? rs_ports r then
      let port_count := rs_ports r - 1 in
      let cmd53_port := u32 (Z.lor (Z.lor (ioport a) SDIO_MPA_ADDR_BASE) (Z.shiftl port_count 8) + rs_start r) in
      Ret (Some (cmd53_port, rs_rxlen r, rs_rxblocks r, true), a)
    else Ret (Some (u32 (ioport a + rs_pport r), rs_rxlen r, rs_rxblocks r, false), a).

(** [wlan_read_rcv_packet]: [Some type] when the packet is in [inbuf].  [i]
    counts the failed reads of an aggregate; [n] is what is left of them. *)
Fixpoint read_retry (n : nat) (port rx_blocks : Z) (aggr : bool) (s : sdio W) : outcome (bool * sdio W) :=
  '(ok, m, s) ← sdio_drv_read port 1 rx_blocks MLAN_SDIO_BLOCK_SIZE (inbuf s) s;
  let s := set_inbuf m s in
  if aggr && negb ok then
    let '(_, s) := sdio_drv_creg_write HOST_TO_CARD_EVENT_REG 1 HOST_TERM_CMD53 s in
    match n with
    | O => Ret (false, s)
    | S n => read_retry n port rx_blocks aggr s
    end
  else Ret (true, s).

Definition wlan_read_rcv_packet (port rxlen rx_blocks : Z) (aggr : bool) (s : sdio W) : outcome (option Z * sdio W) :=
  '(got, s) ← read_retry (Z.to_nat MAX_READ_IOMEM_RETRY) port rx_blocks aggr s;
  if negb got then Ret (None, s)
  else type ← mem_read_le16 (inbuf s) 2; Ret (Some type, s).

(** Not a data packet: a message to the driver's thread, or handled here while
    the firmware is set up. *)
Definition wlan_decode_rx_packet (upld_type : Z) (s : sdio W) : outcome (mlan_status * sdio W) :=
  if upld_type =? MLAN_TYPE_DATA then Ret (MLAN_STATUS_FAILURE, s)
  else
    size ← mem_read_le16 (inbuf s) 0;
    if (fw_init_cfg (bus s) =? 0) && has_event_queue (bus s) then
      (* the buffer of a command response is static *)
      let '(got, room, s) :=
        if upld_type =? MLAN_TYPE_CMD then (true, HUGE_BUF_SIZE, s)
        else let '(ok, w) := os_mem_alloc size (env s) in (ok, size, set_env w s) in
      if negb got then Ret (MLAN_STATUS_FAILURE, s)
      else
        data ← mem_read (inbuf s) 0 size;
        if room <? size then Fault OutOfBounds
        else
          command ← mem_read_le16 (inbuf s) 4;
          if (upld_type =? MLAN_TYPE_EVENT) && (command =? EVENT_TX_DATA_PAUSE)
          then Ret (MLAN_STATUS_SUCCESS, emit (DataPause data) s)
          else
            let '(ok, w) := os_queue_send (env s) in
            let s := set_env w s in
            if ok then Ret (MLAN_STATUS_SUCCESS, emit (QueueMsg upld_type data) s) else Ret (MLAN_STATUS_FAILURE, s)
    else if upld_type =? MLAN_TYPE_CMD then Ret (MLAN_STATUS_SUCCESS, emit (CmdResp (inbuf s)) s)
    else
      let '(ok, w) := os_mem_alloc size (env s) in
      let s := set_env w s in
      if negb ok then Ret (MLAN_STATUS_FAILURE, s)
      else
        data ← mem_read (inbuf s) INTF_HEADER_LEN (u32 (size - INTF_HEADER_LEN));
        Ret (MLAN_STATUS_SUCCESS, emit (EventPacket upld_type data) s).

Definition _handle_sdio_packet_read (s : sdio W) : outcome (option (Z * Z) * sdio W) :=
  '(p, a) ← wlan_get_rd_port (adap s);
  let s := set_adap a s in
  match p with
  | None => Ret (None, s)
  | Some (port, rx_len, rx_blocks, aggr) =>
      '(type, s) ← wlan_read_rcv_packet port rx_len rx_blocks aggr s;
      match type with
      | None => Ret (None, s)
      | Some type => Ret (Some (rx_len, type), s)
      end
  end.

(** The packets of an aggregate, in [inbuf] from [packet] on. *)
Fixpoint split_loop (fuel : nat) (packet total_size datalen : Z) (s : sdio W) : outcome (sdio W) :=
  if total_size <? datalen then
    match fuel with
    | O => Fault OutOfFuel
    | S fuel =>
        size ← mem_read_le16 (inbuf s) packet;
        let size := u16 (blocks_of size * MLAN_SDIO_BLOCK_SIZE) in
        interface ← arr_get (inbuf s) (packet + INTF_HEADER_LEN);
        if size =? 0 then Ret s
        else
          s ← (if has_low_level_input (bus s)
               then data ← mem_read (inbuf s) packet size; Ret (emit (LowLevelInput interface data) s)
               else Ret s);
          split_loop fuel (packet + size) (u32 (total_size + size)) datalen s
    end
  else Ret s.

Fixpoint packet_read_loop (fuel : nat) (s : sdio W) : outcome (sdio W) :=
  match fuel with
  | O => Fault OutOfFuel
  | S fuel =>
      '(p, s) ← _handle_sdio_packet_read s;
      match p with
      | None => Ret s
      | Some (datalen, pkt_type) =>
          s ← (if pkt_type =? MLAN_TYPE_DATA then split_loop (Z.to_nat datalen) 0 0 datalen s
               else '(_, s) ← wlan_decode_rx_packet pkt_type s; Ret s);
          packet_read_loop fuel s
      end
  end.

Definition handle_sdio_packet_read (fuel : nat) (s : sdio W) : outcome (sdio W) :=
  m ← read_bitmap (mp_regs (adap s)) RD_BITMAP_L;
  packet_read_loop fuel (set_adap (set_rd m (curr_rd_port (adap s)) (adap s)) s).

(** The command port; the packet is decoded whether it was read or not. *)
Definition _handle_sdio_cmd_read (rx_len rx_blocks : Z) (s : sdio W) : outcome (option Z * sdio W) :=
  wlan_read_rcv_packet (Z.lor (ioport (adap s)) CMD_PORT_SLCT) rx_len rx_blocks false s.

Definition handle_sdio_cmd_read (rx_len rx_blocks : Z) (s : sdio W) : outcome (sdio W) :=
  '(type, s) ← _handle_sdio_cmd_read rx_len rx_blocks s;
  let pkt_type := default 0 type in
  if (pkt_type =? MLAN_TYPE_CMD) || (pkt_type =? MLAN_TYPE_EVENT)
  then '(_, s) ← wlan_decode_rx_packet pkt_type s; Ret s
  else Ret s.

Definition wlan_interrupt (s : sdio W) : outcome (sdio W) :=
  '(ok, regs, s) ← sdio_drv_read (Z.lor REG_PORT MLAN_SDIO_BYTE_MODE_MASK) 1 1 MAX_MP_REGS (mp_regs (adap s)) s;
  let s := set_adap (set_regs regs (sdio_ireg (adap s)) (adap s)) s in
  if negb ok then Ret s
  else
    ireg ← arr_get regs HOST_INT_STATUS_REG;
    if ireg =? 0 then Ret s
    else Ret (set_adap (set_regs regs (Z.lor (sdio_ireg (adap s)) ireg) (adap s)) s).

(** The length of a packet on the command port, in bytes and in blocks. *)
Definition cmd_port_len (s : sdio W) : outcome (Z * Z) :=
  len ← read_len (mp_regs (adap s)) CMD_RD_LEN_0 CMD_RD_LEN_1;
  let rx_blocks := blocks_of len in
  Ret (u32 (rx_blocks * MLAN_SDIO_BLOCK_SIZE), rx_blocks).

Definition wlan_process_int_status (fuel : nat) (s : sdio W) : outcome (sdio W) :=
  s ← wlan_interrupt s;
  let ireg := sdio_ireg (adap s) in
  let s := set_adap (set_regs (mp_regs (adap s)) 0 (adap s)) s in
  if ireg =? 0 then Ret s
  else
    let s := if negb (Z.land ireg DN_LD_CMD_PORT_HOST_INT_STATUS =? 0)
             then set_adap (set_cmd_sent false (adap s)) s else s in
    s ← (if negb (Z.land ireg UP_LD_CMD_PORT_HOST_INT_STATUS =? 0)
         then '(rx_len, rx_blocks) ← cmd_port_len s; handle_sdio_cmd_read rx_len rx_blocks s
         else Ret s);
    (* written again, to the same value, when the firmware took packets *)
    m ← read_bitmap (mp_regs (adap s)) WR_BITMAP_L;
    let s := set_adap (set_wr_bitmap m (adap s)) s in
    if negb (Z.land ireg UP_LD_HOST_INT_STATUS =? 0) then handle_sdio_packet_read fuel s else Ret s.

(** [wifi_raw_packet_recv], from the interrupt on: the packet's type. *)
Definition wifi_raw_packet_recv (s : sdio W) : outcome (option Z * sdio W) :=
  s ← wlan_interrupt s;
  let ireg := sdio_ireg (adap s) in
  let s := set_adap (set_regs (mp_regs (adap s)) 0 (adap s)) s in
  if Z.land ireg UP_LD_CMD_PORT_HOST_INT_STATUS =? 0 then Ret (None, s)
  else
    m ← read_bitmap (mp_regs (adap s)) RD_BITMAP_L;
    let s := set_adap (set_rd m (curr_rd_port (adap s)) (adap s)) s in
    '(rx_len, rx_blocks) ← cmd_port_len s;
    _handle_sdio_cmd_read rx_len rx_blocks s.

(** ** The write side *)

(** The blocks and the block size of a write ([sdio.c]). *)
Definition calculate_sdio_write_params (txlen : Z) : Z * Z := (u32 (txlen + 256 - 1) / 256, 256).

Definition wlan_get_wr_port_data (s : sdio W) : outcome (option Z * sdio W) :=
  let t := tx s in
  b ← port_bit (txportno t);
  if Z.land b (mp_wr_bitmap (adap s)) =? 0 then Ret (None, s)
  else
    let next := u8 (txportno t + 1) in
    let next := if next =? mp_end_port (adap s) then 0 else next in
    Ret (Some (txportno t),
         set_tx (MkTx next (buf_block_len t) (start_port t) (ports t) (pkt_cnt t))
           (set_adap (set_wr_bitmap (Z.ldiff (mp_wr_bitmap (adap s)) b) (adap s)) s)).

Definition wifi_tx_data (start ports cnt txlen : Z) (s : sdio W) : outcome (mlan_status * sdio W) :=
  let '(tx_blocks, buflen) := calculate_sdio_write_params txlen in
  let cmd53_port :=
    if cnt =? 1 then u32 (ioport (adap s) + start)
    else u32 (Z.lor (Z.lor (ioport (adap s)) SDIO_MPA_ADDR_BASE) (u32 (Z.shiftl (u32 (ports - 1)) 8)) + start) in
  '(ok, s) ← sdio_drv_write cmd53_port 1 tx_blocks buflen (outbuf s) s;
  Ret (if (ok : bool) then MLAN_STATUS_SUCCESS else MLAN_STATUS_RESOURCE, s).

(** The next packet of an aggregate, copied behind the ones before it. *)
Definition wlan_xmit_wmm_pkt (interface txlen : Z) (tx_buf : list Z) (s : sdio W) : outcome (mlan_status * sdio W) :=
  let t := tx s in
  let t := if buf_block_len t =? 0 then MkTx (txportno t) 0 255 0 0 else t in
  let '(tx_blocks, buflen) := calculate_sdio_write_params txlen in
  '(port, s) ← wlan_get_wr_port_data (set_tx t s);
  match port with
  | None => Ret (MLAN_STATUS_RESOURCE, s)
  | Some port =>
      let t := tx s in
      let start := if buf_block_len t =? 0 then port else start_port t in
      data ← mem_read tx_buf 0 txlen;
      m ← mem_write (outbuf s) (buf_block_len t) data;
      Ret (MLAN_STATUS_SUCCESS,
           set_outbuf m
             (set_tx (MkTx (txportno t) (u32 (buf_block_len t + u32 (tx_blocks * buflen))) start
                           (u8 (ports t + 1)) (u8 (pkt_cnt t + 1))) s))
  end.

Definition wlan_flush_wmm_pkt (pkt_count : Z) (s : sdio W) : outcome (mlan_status * sdio W) :=
  if pkt_count =? 0 then Ret (MLAN_STATUS_SUCCESS, s)
  else
    let '(ok, w) := os_rwlock_read_lock (env s) in
    let s := set_env w s in
    if negb ok then Fault Hang (* assert(0) *)
    else
      let t := tx s in
      '(ret, s) ← wifi_tx_data (start_port t) (ports t) pkt_count (buf_block_len t) s;
      Ret (ret, set_tx (MkTx (txportno t) 0 (start_port t) (ports t) (pkt_cnt t)) s).

(** The interface header and the descriptor in front of a packet. *)
Definition process_pkt_hdrs (bss_num : Z) (pbuf : list Z) (payloadlen interface tid : Z) : outcome (list Z) :=
  type ← mem_read_le16 pbuf (INTF_HEADER_LEN + 6);
  let offset := if type =? 0xe5 then 0x14 else 0x16 in
  m ← mem_write pbuf INTF_HEADER_LEN ([u8 interface; u8 bss_num] ++ le16 (payloadlen - 0x16 - INTF_HEADER_LEN) ++ le16 offset);
  m ← mem_write m (INTF_HEADER_LEN + 8) [0; 0; 0; 0; u8 tid; 0; 0];
  mem_write m 0 (le16 payloadlen).

(** A packet by itself; the buffer is the caller's. *)
Definition wlan_xmit_pkt (bss_num : Z) (buffer : list Z) (txlen interface : Z) (s : sdio W) :
  outcome (mlan_status * list Z * sdio W) :=
  let '(tx_blocks, buflen) := calculate_sdio_write_params txlen in
  let t := tx s in
  b ← port_bit (txportno t);
  if Z.land b (mp_wr_bitmap (adap s)) =? 0 then Ret (MLAN_STATUS_RESOURCE, buffer, s)
  else
    let s := set_adap (set_wr_bitmap (Z.ldiff (mp_wr_bitmap (adap s)) b) (adap s)) s in
    buffer ← process_pkt_hdrs bss_num buffer txlen interface 0;
    '(ok, s) ← sdio_drv_write (u32 (ioport (adap s) + txportno t)) 1 tx_blocks buflen buffer s;
    let next := u8 (txportno t + 1) in
    let next := if next =? mp_end_port (adap s) then 0 else next in
    Ret (if (ok : bool) then MLAN_STATUS_SUCCESS else MLAN_STATUS_RESOURCE, buffer,
         set_tx (MkTx next (buf_block_len t) (start_port t) (ports t) (pkt_cnt t)) s).

(** A command: the type and the length are filled in from its own header. *)
Definition wlan_send_sdio_cmd (buf : list Z) (tx_blocks buflen : Z) (s : sdio W) : outcome (sdio W) :=
  data ← mem_read buf 0 (u32 (tx_blocks * buflen));
  m ← mem_write (outbuf s) 0 data;
  m ← mem_write m 2 (le16 MLAN_TYPE_CMD);
  size ← mem_read_le16 m 6;
  m ← mem_write m 0 (le16 (size + INTF_HEADER_LEN));
  '(_, s) ← sdio_drv_write (Z.lor (ioport (adap s)) CMD_PORT_SLCT) 1 tx_blocks buflen m (set_outbuf m s);
  command ← mem_read_le16 m 4;
  Ret (set_last_cmd command s).

(** [Some] the status, or [None] for what is refused. *)
Definition wifi_raw_packet_send (packet : list Z) (length : Z) (s : sdio W) : outcome (bool * sdio W) :=
  if length =? 0 then Ret (false, s)
  else if SDIO_OUTBUF_LEN <? length then Ret (false, s)
  else
    let '(tx_blocks, buflen) := calculate_sdio_write_params length in
    data ← mem_read packet 0 length;
    m ← mem_write (outbuf s) 0 data;
    '(_, s) ← sdio_drv_write (Z.lor (ioport (adap s)) CMD_PORT_SLCT) 1 tx_blocks buflen m (set_outbuf m s);
    Ret (true, s).
End driver.
