(* ===== verification/SdioProps.v ===== *)
(** * Lemmas about the transport

    Port bits, blocks and buffers; one step of the write side; the read of one
    packet or of one aggregate. *)
From S2P Require Import Prelude Aggr Sdio.

(** What the SDK documents: its block size. *)
Class SdioEnvLaws (W : Type) `{SdioEnv W} := block_size_512 : FSL_SDMMC_DEFAULT_BLOCK_SIZE = 512.

(** ** Blocks and ports *)

(** [n] bytes in whole blocks. *)
Definition padded (n : Z) : Z := (n + 255) / 256 * 256.

Lemma padded_bounds n : 0 <= n -> n <= padded n < n + 256 /\ 0 <= padded n.
Proof. unfold padded. intros. pose proof (Z.div_mod (n + 255) 256). pose proof (Z.mod_pos_bound (n + 255) 256). lia. Qed.

Lemma blocks_of_small n : 0 <= n < 65536 -> blocks_of n = (n + 255) / 256 /\ blocks_of n * 256 = padded n.
Proof.
  intros. unfold blocks_of, padded, MLAN_SDIO_BLOCK_SIZE. rewrite wrap_small by (change (2 ^ 32) with 4294967296; lia).
  replace (n + 256 - 1) with (n + 255) by lia. done.
Qed.

Lemma write_params_small n : 0 <= n < 65536 -> calculate_sdio_write_params n = ((n + 255) / 256, 256).
Proof.
  intros. unfold calculate_sdio_write_params. rewrite wrap_small by (change (2 ^ 32) with 4294967296; lia).
  do 3 f_equal. lia.
Qed.

Lemma port_bit_ret n : 0 <= n < 32 -> port_bit n = Ret (2 ^ n).
Proof. intros. unfold port_bit. rewrite Z.shiftl_1_l. zbool; lia || done. Qed.

Lemma land_pow2 m n : 0 <= n -> (Z.land m (2 ^ n) =? 0) = negb (Z.testbit m n).
Proof.
  intros. destruct (Z.testbit m n) eqn:E.
  - apply Z.eqb_neq. intros H0. apply (f_equal (fun z => Z.testbit z n)) in H0.
    rewrite Z.land_spec, E, Z.pow2_bits_true, Z.bits_0 in H0 by lia. done.
  - apply Z.eqb_eq, Z.bits_inj'. intros i Hi. rewrite Z.land_spec, Z.bits_0, Z.pow2_bits_eqb by lia.
    destruct (Z.eqb_spec n i); [subst; by rewrite E | by rewrite andb_false_r].
Qed.

Lemma ldiff_pow2 m n i : 0 <= n -> Z.testbit (Z.ldiff m (2 ^ n)) i = Z.testbit m i && negb (i =? n).
Proof. intros. rewrite Z.ldiff_spec, Z.pow2_bits_eqb by lia. by rewrite (Z.eqb_sym n i). Qed.

(** The port after [p] among [e]. *)
Definition next_port (e p : Z) : Z := if u8 (p + 1) =? e then 0 else u8 (p + 1).

Lemma next_port_mod e p : 0 <= p < e -> e <= 32 -> next_port e p = (p + 1) mod e.
Proof.
  intros. unfold next_port. rewrite wrap_small by (change (2 ^ 8) with 256; lia).
  zbool; [| by rewrite Z.mod_small by lia].
  subst. by rewrite Z.mod_same by lia.
Qed.

Lemma next_port_range e p : 0 <= p < e -> e <= 32 -> 0 <= next_port e p < e.
Proof. intros. rewrite next_port_mod by lia. apply Z.mod_pos_bound. lia. Qed.

(** ** Packets in blocks *)

(** [data] is the packets one after the other, each filled up to whole blocks. *)
Inductive framed : list Z -> list (list Z) -> Prop :=
  | framed_nil : framed [] []
  | framed_cons pkt fill data pkts :
      Z.of_nat (length (pkt ++ fill)) = padded (Z.of_nat (length pkt)) ->
      framed data pkts -> framed (pkt ++ fill ++ data) (pkt :: pkts).

Definition frames_len (pkts : list (list Z)) : Z :=
  foldr (fun p n => padded (Z.of_nat (length p)) + n) 0 pkts.

Lemma frames_len_app a b : frames_len (a ++ b) = frames_len a + frames_len b.
Proof. induction a as [| p a IH]; [done |]. simpl. fold (frames_len (a ++ b)) (frames_len a). lia. Qed.

Lemma frames_len_pos pkts : 0 <= frames_len pkts.
Proof.
  induction pkts as [| p pkts IH]; simpl; [lia |]. fold (frames_len pkts).
  pose proof (padded_bounds (Z.of_nat (length p))). lia.
Qed.

Lemma framed_length data pkts : framed data pkts -> Z.of_nat (length data) = frames_len pkts.
Proof.
  induction 1 as [| pkt fill data pkts Hl _ IH]; [done |].
  simpl. fold (frames_len pkts). rewrite !length_app in *. lia.
Qed.

Lemma framed_snoc data pkts pkt fill :
  framed data pkts -> Z.of_nat (length (pkt ++ fill)) = padded (Z.of_nat (length pkt)) ->
  framed (data ++ pkt ++ fill) (pkts ++ [pkt]).
Proof.
  induction 1 as [| p f d ps Hl Hd IH]; intros H0.
  - simpl. rewrite <- (app_nil_r fill). apply framed_cons; [done | constructor].
  - simpl. rewrite <- !(assoc_L (++)). by apply framed_cons, IH.
Qed.

(** ** The write side *)

(** The packets of the WMM queues: never empty, with their headers. *)
Definition MAX_TX_LEN : Z := 1606.
Definition tx_sizes (pend : list (list Z)) : Prop :=
  Forall (fun p => 0 < Z.of_nat (length p) <= MAX_TX_LEN) pend.

Lemma frames_len_bound pend : tx_sizes pend -> frames_len pend <= 1792 * Z.of_nat (length pend).
Proof.
  unfold tx_sizes, MAX_TX_LEN. induction 1 as [| p pend Hp _ IH]; simpl; [lia |]. fold (frames_len pend).
  assert (padded (Z.of_nat (length p)) <= 1792); [| lia].
  unfold padded. assert ((Z.of_nat (length p) + 255) / 256 < 8); [apply Z.div_lt_upper_bound |]; lia.
Qed.

Lemma frames_len_zero pend : tx_sizes pend -> frames_len pend = 0 -> pend = [].
Proof.
  intros Hs. destruct Hs as [| p pend Hp Hs]; [done |]. simpl. fold (frames_len pend).
  pose proof (padded_bounds (Z.of_nat (length p))). pose proof (frames_len_pos pend). lia.
Qed.

(** The write side with the packets [pend] copied and not yet written. *)
Record tx_inv {W} `{SdioEnv W} (s : sdio W) (pend : list (list Z)) : Prop := {
  ti_port : 0 <= txportno (tx s) < mp_end_port (adap s);
  ti_end : mp_end_port (adap s) <= 32;
  ti_ioport : ioport (adap s) = MEM_PORT;
  ti_outbuf : Z.of_nat (length (outbuf s)) = INBUF_SIZE;
  ti_len : buf_block_len (tx s) = frames_len pend;
  ti_data : framed (take (Z.to_nat (frames_len pend)) (outbuf s)) pend;
  ti_sizes : tx_sizes pend;
  ti_count : (length pend <= 8)%nat;
  ti_run : pend <> [] ->
    ports (tx s) = Z.of_nat (length pend) /\ pkt_cnt (tx s) = Z.of_nat (length pend) /\
    0 <= start_port (tx s) < mp_end_port (adap s) /\
    txportno (tx s) = (start_port (tx s) + Z.of_nat (length pend)) mod mp_end_port (adap s)
}.

Section write_side.
Context {W : Type} `{SdioEnvLaws W}.
Implicit Types (s : sdio W) (pend : list (list Z)).

Lemma INBUF_SIZE_eq : INBUF_SIZE = 16384.
Proof. unfold INBUF_SIZE, DATA_BUFFER_SIZE, SDIO_MP_AGGR_DEF_PKT_LIMIT. by rewrite block_size_512. Qed.

Lemma get_wr_port_spec s : 0 <= txportno (tx s) < 32 ->
  wlan_get_wr_port_data s =
    if Z.testbit (mp_wr_bitmap (adap s)) (txportno (tx s)) then
      Ret (Some (txportno (tx s)),
           set_tx (MkTx (next_port (mp_end_port (adap s)) (txportno (tx s))) (buf_block_len (tx s)) (start_port (tx s))
                        (ports (tx s)) (pkt_cnt (tx s)))
             (set_adap (set_wr_bitmap (Z.ldiff (mp_wr_bitmap (adap s)) (2 ^ txportno (tx s))) (adap s)) s))
    else Ret (None, s).
Proof.
  intros Hp. unfold wlan_get_wr_port_data. rewrite port_bit_ret, bind_ret, Z.land_comm, land_pow2 by lia.
  by destruct (Z.testbit _ _).
Qed.

Lemma outbuf_append (m : list Z) pend pkt :
  framed (take (Z.to_nat (frames_len pend)) m) pend ->
  frames_len (pend ++ [pkt]) <= Z.of_nat (length m) ->
  exists m', mem_write m (frames_len pend) pkt = Ret m' /\ length m' = length m /\
    framed (take (Z.to_nat (frames_len (pend ++ [pkt]))) m') (pend ++ [pkt]).
Proof.
  intros Hf Hl. pose proof (frames_len_pos pend) as Hp. pose proof (framed_length _ _ Hf) as Hfl.
  rewrite frames_len_app in *. cbn [frames_len foldr] in *. rewrite Z.add_0_r in *.
  set (n := Z.to_nat (frames_len pend)) in *. set (k := Z.to_nat (padded (Z.of_nat (length pkt)))).
  pose proof (padded_bounds (Z.of_nat (length pkt))) as Hpad.
  rewrite length_take in Hfl.
  destruct (split_block m n) as (a & r & -> & Ha & Hr); [lia |].
  destruct (split_block r k) as (c & d & -> & Hc & Hd); [rewrite length_app in *; lia |].
  destruct (split_block c (length pkt)) as (x & fill & -> & Hx & Hfill); [rewrite !length_app in *; lia |].
  rewrite take_app_length' in Hf by done.
  exists (a ++ pkt ++ (fill ++ d)). split; [| split].
  - rewrite <- (assoc_L (++)). apply mem_write_app; [lia | done].
  - rewrite !length_app in *. lia.
  - replace (Z.to_nat (frames_len pend + padded (Z.of_nat (length pkt)))) with (length (a ++ pkt ++ fill)).
    + rewrite !(assoc_L (++)), take_app_length, <- !(assoc_L (++)). apply framed_snoc; [done |].
      rewrite !length_app in *. lia.
    + rewrite !length_app in *. lia.
Qed.

(** The statics at the start of [wlan_xmit_wmm_pkt]. *)
Definition tx_start (t : tx_statics) : tx_statics := if buf_block_len t =? 0 then MkTx (txportno t) 0 255 0 0 else t.

Lemma tx_start_inv s pend : tx_inv s pend ->
  tx_inv (set_tx (tx_start (tx s)) s) pend /\ txportno (tx_start (tx s)) = txportno (tx s) /\
  (ports (tx_start (tx s)) = Z.of_nat (length pend) /\ pkt_cnt (tx_start (tx s)) = Z.of_nat (length pend)) /\
  (buf_block_len (tx_start (tx s)) =? 0) = bool_decide (pend = []) /\
  (pend <> [] -> tx_start (tx s) = tx s).
Proof.
  intros I. unfold tx_start. rewrite (ti_len _ _ I). destruct (Z.eqb_spec (frames_len pend) 0) as [E | E].
  - pose proof (frames_len_zero _ (ti_sizes _ _ I) E) as ->.
    split; [| by rewrite (bool_decide_eq_true_2 ([] = []))].
    split; apply I || done.
  - assert (pend <> []) as Hne by (intros ->; done).
    rewrite (ti_len _ _ I), bool_decide_eq_false_2 by done. destruct (Z.eqb_spec (frames_len pend) 0); [done |].
    destruct (ti_run _ _ I Hne) as (? & ? & _). split_and!; [| done..]. by destruct s.
Qed.

Lemma tx_inv_snoc s pend pkt s' :
  tx_inv s pend -> (length pend < 8)%nat -> 0 < Z.of_nat (length pkt) <= MAX_TX_LEN ->
  txportno (tx s') = next_port (mp_end_port (adap s)) (txportno (tx s)) ->
  mp_end_port (adap s') = mp_end_port (adap s) -> ioport (adap s') = ioport (adap s) ->
  length (outbuf s') = length (outbuf s) ->
  buf_block_len (tx s') = frames_len (pend ++ [pkt]) ->
  framed (take (Z.to_nat (frames_len (pend ++ [pkt]))) (outbuf s')) (pend ++ [pkt]) ->
  ports (tx s') = Z.of_nat (length pend) + 1 -> pkt_cnt (tx s') = Z.of_nat (length pend) + 1 ->
  start_port (tx s') = (if decide (pend = []) then txportno (tx s) else start_port (tx s)) ->
  tx_inv s' (pend ++ [pkt]).
Proof.
  intros [? ? ? Hout ? ? ? ? Hrun] Hlt Hpkt Hport He Hio Hl Hlen Hf Hp Hc Hstart.
  assert (Hn : length (pend ++ [pkt]) = S (length pend)) by (rewrite length_app; simpl; lia).
  split; rewrite ?Hport, ?He, ?Hio, ?Hl, ?Hn, ?Hlen, ?Hp, ?Hc, ?Hstart; try done.
  - apply next_port_range; lia.
  - apply Forall_app; split; [done | by apply list.Forall_singleton].
  - intros _. split; [lia | split; [lia |]].
    rewrite next_port_mod by lia. destruct (decide (pend = [])) as [-> | Hne].
    + split; [lia |]. done.
    + destruct (Hrun Hne) as (_ & _ & ? & ->). split; [lia |].
      rewrite Zplus_mod_idemp_l. f_equal. lia.
Qed.

(** One packet of the aggregate. *)
Lemma xmit_step s pend i n buf :
  tx_inv s pend -> (length pend < 8)%nat -> 0 < n <= MAX_TX_LEN -> n <= Z.of_nat (length buf) ->
  exists r s', wlan_xmit_wmm_pkt i n buf s = Ret (r, s') /\ events s' = events s /\
    mp_end_port (adap s') = mp_end_port (adap s) /\
    if Z.testbit (mp_wr_bitmap (adap s)) (txportno (tx s)) then
      r = MLAN_STATUS_SUCCESS /\ tx_inv s' (pend ++ [take (Z.to_nat n) buf]) /\
      mp_wr_bitmap (adap s') = Z.ldiff (mp_wr_bitmap (adap s)) (2 ^ txportno (tx s)) /\
      txportno (tx s') = next_port (mp_end_port (adap s)) (txportno (tx s)) /\
      start_port (tx s') = (if decide (pend = []) then txportno (tx s) else start_port (tx s))
    else r = MLAN_STATUS_RESOURCE /\ tx_inv s' pend /\ adap s' = adap s /\ txportno (tx s') = txportno (tx s).
Proof.
  intros I Hlt Hn Hbuf. destruct (tx_start_inv s pend I) as (I0 & Htx & (Hports & Hcnt) & Hzero & Hsame).
  unfold wlan_xmit_wmm_pkt. fold (tx_start (tx s)).
  assert (Hn' : 0 <= n < 65536) by (unfold MAX_TX_LEN in *; lia).
  rewrite write_params_small by done.
  set (s0 := set_tx (tx_start (tx s)) s) in *. change (adap s) with (adap s0). change (events s) with (events s0).
  rewrite get_wr_port_spec by (pose proof (ti_port _ _ I0); pose proof (ti_end _ _ I0); lia).
  assert (Hp0 : txportno (tx s0) = txportno (tx s)) by exact Htx. rewrite Hp0.
  destruct (Z.testbit _ _) eqn:Ebit; rewrite bind_ret; [| exists MLAN_STATUS_RESOURCE, s0; by split_and!].
  cbn [tx set_tx buf_block_len start_port ports pkt_cnt txportno adap set_adap].
  unfold mem_read. replace (_ && _ && _) with true by (zbool; done || lia). rewrite bind_ret. change (drop (Z.to_nat 0) buf) with buf.
  set (pkt := take (Z.to_nat n) buf).
  assert (Hpkt : Z.of_nat (length pkt) = n) by (unfold pkt; rewrite length_take; lia).
  pose proof (frames_len_bound (pend ++ [pkt])) as Hb.
  rewrite frames_len_app in Hb. cbn [frames_len foldr] in Hb. rewrite Hpkt, Z.add_0_r in Hb.
  assert (Hs : tx_sizes (pend ++ [pkt])) by (apply Forall_app; split; [apply I | apply list.Forall_singleton; lia]).
  specialize (Hb Hs). rewrite length_app in Hb. cbn [length] in Hb.
  pose proof (frames_len_pos pend). pose proof (padded_bounds n).
  destruct (outbuf_append (outbuf s0) pend pkt) as (m' & Em & Hm' & Hf); [apply I0 | |].
  { rewrite frames_len_app. cbn [frames_len foldr]. rewrite Hpkt, (ti_outbuf _ _ I0), INBUF_SIZE_eq. lia. }
  cbn [outbuf set_adap set_tx]. change (buf_block_len (tx s0)) with (buf_block_len (tx_start (tx s))).
  assert (Hlen0 : buf_block_len (tx_start (tx s)) = frames_len pend) by apply (ti_len _ _ I0).
  rewrite Hlen0. change (outbuf s0) with (outbuf s) in *. rewrite Em, bind_ret. eexists _, _. split; [reflexivity |]. split; [reflexivity |]. split; [reflexivity |].
  split; [reflexivity |]. split; [| split; [reflexivity | split; [reflexivity |]]].
  - apply (tx_inv_snoc s0); try done.
    + lia.
    + by rewrite Hp0.
    + cbn. rewrite frames_len_app. cbn [frames_len foldr]. rewrite Hpkt, Z.add_0_r.
      fold (padded n). rewrite (wrap_small 32 (padded n)) by (change (2 ^ 32) with 4294967296; lia).
      apply wrap_small. change (2 ^ 32) with 4294967296. lia.
    + cbn. rewrite Hports. apply wrap_small. change (2 ^ 8) with 256. lia.
    + cbn. rewrite Hcnt. apply wrap_small. change (2 ^ 8) with 256. lia.
    + cbn. rewrite <- Hlen0, Hzero, ?Htx. case_bool_decide; by case_decide.
  - cbn. rewrite <- Hlen0, Hzero. case_bool_decide; case_decide; try done. by rewrite Hsame.
Qed.

(** The address of a transfer of [n] packets from port [start] on. *)
Definition port_addr (start n : Z) : Z :=
  if n =? 1 then MEM_PORT + start else MEM_PORT + SDIO_MPA_ADDR_BASE + 256 * (n - 1) + start.

Lemma mpa_addr n start : 1 < n <= 16 -> 0 <= start < 32 ->
  u32 (Z.lor (Z.lor MEM_PORT SDIO_MPA_ADDR_BASE) (Z.shiftl (n - 1) 8) + start) = port_addr start n.
Proof.
  intros Hn Hs. unfold port_addr. destruct (Z.eqb_spec n 1); [lia |].
  assert (Z.lor (Z.lor MEM_PORT SDIO_MPA_ADDR_BASE) (Z.shiftl (n - 1) 8) = MEM_PORT + SDIO_MPA_ADDR_BASE + 256 * (n - 1)) as ->.
  - assert (n - 1 ∈ seqZ 1 15) as Hin by (apply elem_of_seqZ; lia). revert Hin. generalize (n - 1). apply list.Forall_forall.
    repeat (apply list.Forall_cons; split; [reflexivity |]). by apply list.Forall_nil.
  - apply wrap_small. unfold MEM_PORT, SDIO_MPA_ADDR_BASE. change (2 ^ 32) with 4294967296. lia.
Qed.

Lemma frames_len_blocks pend : exists k, frames_len pend = 256 * k.
Proof.
  induction pend as [| p pend [k IH]]; [by exists 0 |]. simpl. fold (frames_len pend). rewrite IH. unfold padded.
  exists ((Z.of_nat (length p) + 255) / 256 + k). lia.
Qed.

(** A write of whole blocks. *)
Lemma write_blocks addr n buf s : 0 < n < 65536 -> (exists k, n = 256 * k) -> n <= Z.of_nat (length buf) ->
  exists (ok : bool) s', sdio_drv_write addr 1 ((n + 255) / 256) 256 buf s = Ret (ok, s') /\
    adap s' = adap s /\ tx s' = tx s /\ outbuf s' = outbuf s /\
    events s' = events s ++ (if ok then [Sent addr (take (Z.to_nat n) buf)] else []).
Proof.
  intros Hn (k & Hk) Hl. unfold sdio_drv_write.
  assert ((n + 255) / 256 = k) as -> by (subst n; replace (256 * k + 255) with (255 + k * 256) by lia; rewrite Z.div_add by lia; reflexivity).
  assert ((if 1 <? k then k * 256 else 256) = n) as -> by (zbool; lia).
  unfold mem_read. replace (_ && _ && _) with true by (zbool; done || lia). rewrite bind_ret.
  change (drop (Z.to_nat 0) buf) with buf.
  destruct (SDIO_IO_Write_Extended _ _ _ _ _) as [ok w]. exists ok. eexists. split; [reflexivity |].
  destruct ok; simpl; by rewrite ?app_nil_r.
Qed.

Lemma tx_inv_written s s' pend :
  tx_inv s pend -> adap s' = adap s -> outbuf s' = outbuf s -> txportno (tx s') = txportno (tx s) ->
  buf_block_len (tx s') = 0 -> tx_inv s' [].
Proof.
  intros [] Ha Ho Ht Hb. split; rewrite ?Ha, ?Ho, ?Ht; try done.
  - constructor.
  - apply list.Forall_nil_2.
  - simpl. lia.
Qed.

Lemma flush_step s pend :
  tx_inv s pend -> fst (os_rwlock_read_lock (env s)) = true ->
  exists (ok : bool) s', wlan_flush_wmm_pkt (Z.of_nat (length pend)) s = Ret (if ok then MLAN_STATUS_SUCCESS else MLAN_STATUS_RESOURCE, s') /\
    tx_inv s' [] /\ adap s' = adap s /\ txportno (tx s') = txportno (tx s) /\
    events s' = events s ++
      (if ok && negb (bool_decide (pend = []))
       then [Sent (port_addr (start_port (tx s)) (Z.of_nat (length pend))) (take (Z.to_nat (frames_len pend)) (outbuf s))] else []).
Proof.
  intros I Hlock. unfold wlan_flush_wmm_pkt. destruct (decide (pend = [])) as [-> | Hne].
  { exists true, s. simpl. rewrite app_nil_r. by split_and!. }
  rewrite (bool_decide_eq_false_2 _ Hne). cbn [negb]. destruct (ti_run _ _ I Hne) as (Hports & _ & Hstart & _).
  pose proof (ti_count _ _ I). pose proof (frames_len_bound _ (ti_sizes _ _ I)) as Hb. pose proof (ti_end _ _ I).
  assert (0 < length pend)%nat by (destruct pend; simpl; [done | lia]).
  destruct (Z.eqb_spec (Z.of_nat (length pend)) 0); [lia |].
  destruct (os_rwlock_read_lock (env s)) as [ok w]. simpl in Hlock. subst ok. cbn [negb].
  unfold wifi_tx_data. cbn [tx adap outbuf set_env]. rewrite (ti_len _ _ I), Hports, (ti_ioport _ _ I).
  assert (0 < frames_len pend).
  { pose proof (frames_len_pos pend). destruct (Z.eq_dec (frames_len pend) 0) as [E | ?]; [| lia].
    by apply frames_len_zero in E; [| apply I]. }
  rewrite write_params_small by lia.
  replace (if Z.of_nat (length pend) =? 1 then _ else _) with (port_addr (start_port (tx s)) (Z.of_nat (length pend))).
  2: { destruct (Z.eqb_spec (Z.of_nat (length pend)) 1) as [E | E].
       - unfold port_addr. rewrite E, wrap_small; [done |]. unfold MEM_PORT. change (2 ^ 32) with 4294967296. lia.
       - rewrite <- mpa_addr by lia. rewrite (wrap_small 32 (Z.of_nat (length pend) - 1)) by (change (2 ^ 32) with 4294967296; lia).
         rewrite (wrap_small 32 (Z.shiftl _ _)); [done |]. rewrite Z.shiftl_mul_pow2 by lia. change (2 ^ 8) with 256.
         change (2 ^ 32) with 4294967296. lia. }
  destruct (write_blocks (port_addr (start_port (tx s)) (Z.of_nat (length pend))) (frames_len pend) (outbuf s) (set_env w s))
    as (ok & s' & -> & Ea & Et & Eo & Ee); [lia | apply frames_len_blocks | rewrite (ti_outbuf _ _ I), INBUF_SIZE_eq; lia |].
  rewrite !bind_ret. exists ok. eexists. split; [reflexivity |]. cbn [set_env adap tx outbuf events] in *.
  split; [apply (tx_inv_written s _ pend); done |]. cbn [set_tx adap tx txportno events]. split_and!; [done | done |].
  rewrite Ee, andb_true_r. done.
Qed.
End write_side.
