(* ===== verification/SdioReadProps.v ===== *)
(** * Lemmas about the read side of the transport

    The ring of ports, the ports one call of [wlan_get_rd_port] takes, and the
    packets of one transfer. *)
From S2P Require Import Prelude Aggr Sdio SdioProps.

(** ** The ring of ports *)

(** [n] ports from [p] on, in the order they are used. *)
Fixpoint ring (e p : Z) (n : nat) : list Z :=
  match n with O => [] | S n => p :: ring e (next_port e p) n end.

Lemma ring_length e p n : length (ring e p n) = n.
Proof. revert p. induction n; intros; simpl; [done | by rewrite IHn]. Qed.

Lemma ring_elem e p n i : 0 <= p < e -> e <= 32 ->
  i ∈ ring e p n <-> exists k, 0 <= k < Z.of_nat n /\ i = (p + k) mod e.
Proof.
  intros Hp He. revert p Hp. induction n as [| n IH]; intros p Hp; simpl.
  - split; [by intros ?%elem_of_nil | intros (k & ? & _); lia].
  - rewrite elem_of_cons, IH by (by apply next_port_range). rewrite next_port_mod by done. split.
    + intros [-> | (k & Hk & ->)]; [exists 0; rewrite Z.add_0_r, Z.mod_small by lia; split; [lia | done] |].
      exists (k + 1). split; [lia |]. rewrite Zplus_mod_idemp_l. f_equal. lia.
    + intros (k & Hk & ->). destruct (decide (k = 0)) as [-> | ?].
      * left. by rewrite Z.add_0_r, Z.mod_small by lia.
      * right. exists (k - 1). split; [lia |]. rewrite Zplus_mod_idemp_l. f_equal. lia.
Qed.

Lemma ring_range e p n : 0 <= p < e -> e <= 32 -> Forall (fun i => 0 <= i < e) (ring e p n).
Proof.
  intros Hp He. apply list.Forall_forall. intros i (k & _ & ->)%ring_elem; [| done..].
  apply Z.mod_pos_bound. lia.
Qed.

Lemma mod_inj p j k e : 0 <= j < e -> 0 <= k < e -> (p + j) mod e = (p + k) mod e -> j = k.
Proof.
  intros Hj Hk E. pose proof (Z.div_mod (p + j) e). pose proof (Z.div_mod (p + k) e).
  assert (j - k = e * ((p + j) / e - (p + k) / e)) as D by lia.
  assert ((p + j) / e - (p + k) / e = 0); [| lia]. nia.
Qed.

(** The first port is not among the next [n < e]. *)
Lemma ring_head_fresh e p n : 0 <= p < e -> e <= 32 -> Z.of_nat n < e -> p ∉ ring e (next_port e p) n.
Proof.
  intros Hp He Hn. rewrite ring_elem by (by try apply next_port_range). intros (k & Hk & E).
  rewrite next_port_mod, Zplus_mod_idemp_l in E by done.
  rewrite <- (Z.mod_small p e) in E at 1 by done. rewrite <- (Z.add_0_r p) in E at 1.
  rewrite <- Z.add_assoc in E. apply mod_inj in E; lia.
Qed.

Lemma ring_app e p n m : 0 <= p < e -> e <= 32 ->
  ring e p (n + m) = ring e p n ++ ring e ((p + Z.of_nat n) mod e) m.
Proof.
  intros Hp He. revert p Hp. induction n as [| n IH]; intros p Hp.
  - simpl. by rewrite Z.add_0_r, Z.mod_small by done.
  - change (S n + m)%nat with (S (n + m)). cbn [ring]. rewrite IH by (by apply next_port_range).
    cbn [app]. do 3 f_equal. rewrite next_port_mod, Zplus_mod_idemp_l by done. f_equal. lia.
Qed.

Lemma ring_straight p n : 0 <= p -> p + Z.of_nat n <= 32 -> ring 32 p n = seqZ p (Z.of_nat n).
Proof.
  revert p. induction n as [| n IH]; intros p Hp Hn; [done |].
  rewrite seqZ_cons by lia. cbn [ring]. f_equal.
  rewrite Nat2Z.inj_succ, Z.pred_succ.
  destruct n as [| n]; [done |]. rewrite next_port_mod, Z.mod_small by lia. apply IH; lia.
Qed.

(** ** Bits *)

(** [m'] is [m] without the bits of [l]. *)
Definition cleared (m : Z) (l : list Z) (m' : Z) : Prop :=
  forall i, Z.testbit m' i = Z.testbit m i && negb (bool_decide (i ∈ l)).

Lemma cleared_nil m : cleared m [] m.
Proof. intros i. rewrite bool_decide_eq_false_2 by apply not_elem_of_nil. by rewrite andb_true_r. Qed.

Lemma cleared_cons m p l m' : 0 <= p -> cleared (Z.ldiff m (2 ^ p)) l m' -> cleared m (p :: l) m'.
Proof.
  intros Hp Hc i. rewrite Hc, ldiff_pow2 by done. destruct (Z.eqb_spec i p) as [-> | Hne]; simpl.
  - rewrite (bool_decide_eq_true_2 (p ∈ p :: l)) by set_solver. by rewrite !andb_false_r.
  - rewrite andb_true_r. do 2 f_equal. apply bool_decide_ext. rewrite elem_of_cons. split; [by right | by intros [?|?]].
Qed.

Lemma cleared_app m a m1 b m2 : cleared m a m1 -> cleared m1 b m2 -> cleared m (a ++ b) m2.
Proof.
  intros Ha Hb i. rewrite Hb, Ha, <- andb_assoc, <- negb_orb, <- bool_decide_or.
  do 2 f_equal. apply bool_decide_ext. rewrite elem_of_app. tauto.
Qed.

(** ** One call of [wlan_get_rd_port] *)
Definition total (f : Z -> Z) (l : list Z) : Z := foldr (fun p n => f p + n) 0 l.

Lemma total_cons f p l : total f (p :: l) = f p + total f l.
Proof. done. Qed.

Lemma total_app f a b : total f (a ++ b) = total f a + total f b.
Proof. induction a as [| p a IH]; [done |]. simpl. fold (total f (a ++ b)) (total f a). lia. Qed.

(** The registers announce [len p] bytes on port [p], and no packet takes more
    than half of the buffer. *)
Definition MAX_RX_LEN : Z := 8192.
Definition announced (regs : list Z) (len : Z -> Z) : Prop :=
  forall p, 0 <= p < 32 ->
    read_len regs (RD_LEN_P0_L + Z.shiftl p 1) (RD_LEN_P0_U + Z.shiftl p 1) = Ret (len p) /\
    0 <= len p /\ padded (len p) <= MAX_RX_LEN.

Definition nblocks (n : Z) : Z := (n + 255) / 256.

(** The scan after [k] ports from [c] on. *)
Definition scan_at (len : Z -> Z) (c k pport : Z) : rd_scan :=
  MkScan pport (total (fun p => padded (len p)) (seqZ c k)) (total (fun p => nblocks (len p)) (seqZ c k)) k k
         (if k =? 0 then NO_PORT else c).

Section read_side.
Context {W : Type} `{HE : SdioEnv W, HL : !SdioEnvLaws W}.
Context (regs : list Z) (len : Z -> Z) (Hlen : announced regs len).

Lemma seqZ_snoc c k : 0 <= k -> seqZ c (k + 1) = seqZ c k ++ [c + k].
Proof. intros. rewrite seqZ_app by lia. f_equal. Qed.

Lemma total_bound (f : Z -> Z) b c k : (forall p, c <= p < c + k -> 0 <= f p <= b) -> 0 <= k -> 0 <= total f (seqZ c k) <= b * k.
Proof.
  intros Hf Hk. revert Hf. pattern k. apply natlike_ind; [| | done].
  - intros _. rewrite seqZ_nil by lia. simpl. lia.
  - intros x Hx IH Hf. rewrite <- Z.add_1_r, seqZ_snoc, total_app by done. simpl.
    specialize (Hf (c + x) ltac:(lia)) as Hl. assert (0 <= total f (seqZ c x) <= b * x); [apply IH; intros; apply Hf; lia | lia].
Qed.

Lemma padded_range p : 0 <= p < 32 -> 0 <= padded (len p) <= MAX_RX_LEN /\ 0 <= nblocks (len p) <= 32 /\ len p < 65536 /\
  blocks_of (len p) = nblocks (len p) /\ u16 (nblocks (len p) * 256) = padded (len p).
Proof.
  intros Hp. destruct (Hlen p Hp) as (_ & Hpos & Hb). pose proof (padded_bounds _ Hpos). unfold MAX_RX_LEN in *.
  assert (len p < 65536) by lia. destruct (blocks_of_small (len p)) as [Eb Ep]; [lia |].
  unfold nblocks. split; [lia |]. unfold padded in *.
  split; [split; [apply Z.div_pos; lia |]; lia |]. split; [done |]. split; [done |].
  apply wrap_small. change (2 ^ 16) with 65536. lia.
Qed.

Lemma scan_bounds c k : 0 <= c -> 0 <= k -> c + k <= 32 ->
  0 <= total (fun p => padded (len p)) (seqZ c k) <= MAX_RX_LEN * k /\
  0 <= total (fun p => nblocks (len p)) (seqZ c k) <= 32 * k.
Proof. intros. split; apply total_bound; try done; intros p Hp; apply padded_range; lia. Qed.

(** One more port taken, or none left. *)
Lemma rd_port_loop_step fuel a c k pport :
  mp_regs a = regs -> 0 <= mp_end_port a < 65536 -> 0 <= c -> 0 <= k < 16 -> c + k < 32 -> curr_rd_port a = c + k ->
  rd_port_loop (S fuel) a (scan_at len c k pport) =
    if negb (Z.testbit (mp_rd_bitmap a) (c + k)) then Ret (a, scan_at len c k pport)
    else if total (fun p => padded (len p)) (seqZ c k) + padded (len (c + k)) >? INBUF_SIZE
    then Ret (a, scan_at len c k (c + k))
    else
      let a' := set_rd (Z.ldiff (mp_rd_bitmap a) (2 ^ (c + k))) ((c + k + 1) mod 32) a in
      let r' := scan_at len c (k + 1) (c + k) in
      if (k + 1 =? 16) || (c + k + 1 =? 32) || (k + 1 >=? Z.shiftr (mp_end_port a) 1) then Ret (a', r')
      else rd_port_loop fuel a' r'.
Proof.
  intros Hregs Hend Hc Hk Hck Hcurr. destruct (scan_bounds c k) as [HL1 HB1]; [lia.. |].
  destruct (padded_range (c + k)) as (HL2 & HB2 & Hl & Eb & Ep); [lia |]. unfold MAX_RX_LEN in *.
  assert (Hs : 0 <= Z.shiftr (mp_end_port a) 1 < 32768).
  { rewrite Z.shiftr_div_pow2 by lia. change (2 ^ 1) with 2. split; [apply Z.div_pos; lia | apply Z.div_lt_upper_bound; lia]. }
  cbn [rd_port_loop]. rewrite Hcurr, port_bit_ret, bind_ret, land_pow2, Hregs by lia.
  destruct (Z.testbit _ _); cbn [negb]; [| done].
  destruct (Hlen (c + k)) as (-> & _ & _); [lia |]. rewrite bind_ret, Eb. unfold MLAN_SDIO_BLOCK_SIZE. rewrite Ep.
  cbn [rs_rxlen rs_rxblocks rs_pkt_cnt rs_ports rs_start scan_at].
  rewrite (wrap_small 32 (_ + _)) by (change (2 ^ 32) with 4294967296; lia).
  destruct (_ >? _); [done |].
  change ((if u8 (c + k + 1) =? MAX_PORT then 0 else u8 (c + k + 1))) with (next_port 32 (c + k)).
  rewrite next_port_mod by lia. cbn zeta.
  rewrite !(wrap_small 16) by (change (2 ^ 16) with 65536; lia).
  rewrite (wrap_small 32 (_ + _)) by (change (2 ^ 32) with 4294967296; lia).
  assert (Hstart : (if (if k =? 0 then NO_PORT else c) =? NO_PORT then c + k else if k =? 0 then NO_PORT else c) = c).
  { unfold NO_PORT. destruct (Z.eqb_spec k 0); [simpl; lia |]. destruct (Z.eqb_spec c 0xffffffff); lia. }
  rewrite Hstart.
  replace (MkScan _ _ _ _ _ _) with (scan_at len c (k + 1) (c + k)).
  2: { unfold scan_at. rewrite seqZ_snoc, !total_app by lia. simpl. rewrite !Z.add_0_r.
       destruct (Z.eqb_spec (k + 1) 0); [lia | done]. }
  unfold SDIO_MP_AGGR_DEF_PKT_LIMIT_MAX. change (rs_pkt_cnt (scan_at len c (k + 1) (c + k))) with (k + 1).
  destruct (Z.eqb_spec (k + 1) 16); [done |]. cbn [orb].
  change (mp_end_port (set_rd _ _ a)) with (mp_end_port a).
  destruct (Z.eqb_spec (c + k + 1) 32) as [E | E]; cbn [orb].
  - rewrite E. change (32 mod 32) with 0. assert (Hw : u32 (0 - c) = 4294967296 - c).
    { unfold wrap. change (2 ^ 32) with 4294967296. rewrite mod_add_once by lia. lia. }
    rewrite Hw. replace (4294967296 - c >=? _) with true by (zbool; done || lia). by rewrite orb_true_r.
  - rewrite (Z.mod_small (c + k + 1) 32) by lia. replace (c + k + 1 <? c) with false by (zbool; done || lia). cbn [andb orb].
    rewrite wrap_small by (change (2 ^ 32) with 4294967296; lia). replace (c + k + 1 - c) with (k + 1) by lia. done.
Qed.

(** The ports one call takes: a straight run of at most sixteen. *)
Record scan_result (a : sdio_adapter) (c k n pport m : Z) : Prop := {
  sr_count : k <= n <= 16;
  sr_straight : c + n <= 32;
  sr_none : n = 0 -> pport = NO_PORT;
  sr_one : n = 1 -> pport = c;
  sr_some : 1 <= n -> pport <> NO_PORT;
  sr_set : Forall (fun p => Z.testbit (mp_rd_bitmap a) p = true) (seqZ (c + k) (n - k));
  sr_cleared : cleared (mp_rd_bitmap a) (seqZ (c + k) (n - k)) m;
  sr_first : k = 0 -> Z.testbit (mp_rd_bitmap a) c = true -> 1 <= n;
  sr_fits : total (fun p => padded (len p)) (seqZ c n) <= INBUF_SIZE
}.

Lemma scan_result_stop a c k pport :
  0 <= k <= 16 -> c + k <= 32 -> (k = 0 -> pport = NO_PORT) -> (k = 1 -> pport = c) -> (1 <= k -> pport <> NO_PORT) ->
  (k = 0 -> Z.testbit (mp_rd_bitmap a) c = false) ->
  total (fun p => padded (len p)) (seqZ c k) <= INBUF_SIZE ->
  scan_result a c k k pport (mp_rd_bitmap a).
Proof.
  intros ? ? ? ? ? Hunset ?. split; rewrite ?Z.sub_diag, ?seqZ_nil by lia; try done; try lia.
  - apply cleared_nil.
  - intros E Ht. by rewrite Hunset in Ht.
Qed.

Lemma rd_port_loop_run fuel a c k pport :
  mp_regs a = regs -> 0 <= mp_end_port a < 65536 -> 0 <= c -> 0 <= k < 16 -> c + k < 32 -> curr_rd_port a = c + k ->
  17 <= Z.of_nat fuel + k ->
  (k = 0 -> pport = NO_PORT) -> (k = 1 -> pport = c) -> (1 <= k -> pport <> NO_PORT) ->
  total (fun p => padded (len p)) (seqZ c k) <= INBUF_SIZE ->
  exists n pport' m', scan_result a c k n pport' m' /\
    rd_port_loop fuel a (scan_at len c k pport) = Ret (set_rd m' ((c + n) mod 32) a, scan_at len c n pport').
Proof.
  revert a k pport. induction fuel as [| fuel IH]; intros a k pport Hregs Hend Hc Hk Hck Hcurr Hfuel Hp0 Hp1 Hps Hfit; [lia |].
  destruct (scan_bounds c k) as [HL1 HB1]; [lia.. |]. destruct (padded_range (c + k)) as (HL2 & _); [lia |].
  assert (Ha : a = set_rd (mp_rd_bitmap a) ((c + k) mod 32) a) by (rewrite Z.mod_small, <- Hcurr by lia; by destruct a).
  assert (Hno : c + k <> NO_PORT) by (unfold NO_PORT; lia).
  rewrite rd_port_loop_step by done. destruct (Z.testbit _ _) eqn:Ebit; cbn [negb].
  2: { exists k, pport, (mp_rd_bitmap a). rewrite <- Ha. split; [| done].
       apply scan_result_stop; try done; [lia.. |]. intros ->. by rewrite Z.add_0_r in Ebit. }
  pose proof INBUF_SIZE_eq as Hin. unfold MAX_RX_LEN in *.
  destruct (Z.gtb_spec (total (fun p => padded (len p)) (seqZ c k) + padded (len (c + k))) INBUF_SIZE) as [Hbig | Hsmall].
  { exists k, (c + k), (mp_rd_bitmap a). rewrite <- Ha. split; [| done]. apply scan_result_stop; try done; lia. }
  cbn zeta. set (a' := set_rd (Z.ldiff _ _) _ _).
  assert (Hfit' : total (fun p => padded (len p)) (seqZ c (k + 1)) <= INBUF_SIZE).
  { rewrite seqZ_snoc, total_app by lia. simpl. lia. }
  assert (Hone : forall n' pp m', 1 <= n' -> scan_result a' c (k + 1) n' pp m' -> scan_result a c k n' pp m').
  { intros n' pp m' Hn1 [? ? ? ? ? Hs Hcl ? ?]. subst a'. cbn in Hs, Hcl.
    assert (Hcons : seqZ (c + k) (n' - k) = (c + k) :: seqZ (c + (k + 1)) (n' - (k + 1))).
    { rewrite seqZ_cons by lia. f_equal. f_equal; lia. }
    split; rewrite ?Hcons; try done; try lia.
    - constructor; [done |]. eapply list.Forall_impl; [exact Hs |]. intros p. cbn. rewrite ldiff_pow2 by lia. by intros [? _]%andb_prop.
    - by apply cleared_cons; [lia |]. }
  destruct ((k + 1 =? 16) || _ || _) eqn:Estop.
  - exists (k + 1), (c + k), (mp_rd_bitmap a'). split.
    + apply Hone; [lia |]. apply scan_result_stop; try done; lia.
    + rewrite Z.add_assoc. subst a'. by destruct a.
  - apply orb_false_iff in Estop as [[E1%Z.eqb_neq E2%Z.eqb_neq]%orb_false_iff _].
    destruct (IH a' (k + 1) (c + k)) as (n' & pp & m' & Hr & ->); try done; try lia.
    { subst a'. cbn. rewrite Z.mod_small; lia. }
    exists n', pp, m'. split; [apply Hone; [destruct Hr; lia | done] |]. subst a'. by destruct a.
Qed.

(** ** Packets *)

(** A data packet of the firmware in whole blocks: its size and its type in
    front, then the interface. *)
Definition data_packet (len : Z) (bs : list Z) : Prop :=
  0 < len /\ Z.of_nat (length bs) = padded len /\
  exists lo hi t0 t1 rest, bs = lo :: hi :: t0 :: t1 :: rest /\ rest <> [] /\
    of_le16 [t0; t1] = MLAN_TYPE_DATA /\ 0 <= of_le16 [lo; hi] < 65536 /\ padded (of_le16 [lo; hi]) = padded len.

Definition interface_of (bs : list Z) : Z := default 0 (bs !! 4%nat).
Definition deliver (bs : list Z) : sdio_event := LowLevelInput (interface_of bs) bs.
Definition add_events (es : list sdio_event) (s : sdio W) : sdio W :=
  MkSdio (adap s) (tx s) (bus s) (inbuf s) (outbuf s) (last_cmd_sent s) (env s) (events s ++ es).

Lemma add_events_nil s : add_events [] s = s.
Proof. destruct s. unfold add_events. simpl. by rewrite app_nil_r. Qed.

Lemma data_packet_size len' bs pre post : data_packet len' bs -> padded len' <= MAX_RX_LEN ->
  exists sz, mem_read_le16 (pre ++ bs ++ post) (Z.of_nat (length pre)) = Ret sz /\
    u16 (blocks_of sz * MLAN_SDIO_BLOCK_SIZE) = Z.of_nat (length bs) /\ 0 < Z.of_nat (length bs) <= MAX_RX_LEN /\
    arr_get (pre ++ bs ++ post) (Z.of_nat (length pre) + INTF_HEADER_LEN) = Ret (interface_of bs).
Proof.
  intros (Hpos & Hl & lo & hi & t0 & t1 & rest & -> & Hrest & _ & Hsz & Hp) Hb. exists (of_le16 [lo; hi]).
  destruct (blocks_of_small _ Hsz) as [_ E]. pose proof (padded_bounds len' ltac:(lia)). unfold MAX_RX_LEN in *.
  split; [| split; [| split; [lia |]]].
  - unfold mem_read_le16. change (lo :: hi :: t0 :: t1 :: rest) with ([lo; hi] ++ t0 :: t1 :: rest).
    rewrite <- (assoc_L (++)). by rewrite (mem_read_app pre [lo; hi]).
  - unfold MLAN_SDIO_BLOCK_SIZE. rewrite E, Hp, Hl. apply wrap_small. change (2 ^ 16) with 65536. lia.
  - destruct rest as [| i rest]; [done |].
    replace (pre ++ (lo :: hi :: t0 :: t1 :: i :: rest) ++ post) with ((pre ++ [lo; hi; t0; t1]) ++ i :: rest ++ post)
      by (by rewrite <- (assoc_L (++))).
    apply arr_get_app. rewrite length_app. cbn [length]. unfold INTF_HEADER_LEN. lia.
Qed.

Definition all_packets (l : list (list Z)) : Prop :=
  Forall (fun bs => exists n, data_packet n bs /\ padded n <= MAX_RX_LEN) l.

Lemma split_loop_all fuel pre pkts post s :
  inbuf s = pre ++ concat pkts ++ post -> all_packets pkts -> (length pkts <= fuel)%nat ->
  has_low_level_input (bus s) = true -> Z.of_nat (length pre + length (concat pkts)) < 4294967296 ->
  split_loop fuel (Z.of_nat (length pre)) (Z.of_nat (length pre)) (Z.of_nat (length pre + length (concat pkts))) s =
    Ret (add_events (deliver <$> pkts) s).
Proof.
  intros Hin Hp. revert fuel pre s Hin. induction Hp as [| bs pkts (n & Hd & Hn) Hp IH]; intros fuel pre s Hin Hf Hlow Hlt.
  - cbn [concat length]. rewrite Nat.add_0_r, add_events_nil. destruct fuel; cbn [split_loop]; by rewrite Z.ltb_irrefl.
  - cbn [concat] in *. rewrite length_app in *. cbn [length] in Hf. rewrite <- (assoc_L (++)) in Hin.
    destruct (data_packet_size n bs pre (concat pkts ++ post) Hd Hn) as (sz & E1 & E2 & Hlen' & E3).
    destruct fuel as [| fuel]; [lia |]. cbn [split_loop].
    replace (Z.of_nat (length pre) <? _) with true by (zbool; done || lia).
    rewrite Hin, E1, bind_ret, E2, E3, bind_ret. replace (Z.of_nat (length bs) =? 0) with false by (zbool; done || lia).
    rewrite Hlow, mem_read_app by done. rewrite !bind_ret.
    rewrite wrap_small by (change (2 ^ 32) with 4294967296; lia).
    replace (Z.of_nat (length pre) + Z.of_nat (length bs)) with (Z.of_nat (length (pre ++ bs))) by (rewrite length_app; lia).
    replace (Z.of_nat (length pre + (length bs + length (concat pkts)))) with (Z.of_nat (length (pre ++ bs) + length (concat pkts)))
      by (rewrite length_app; lia).
    rewrite IH; cbn [emit inbuf bus]; try done; try lia.
    + unfold add_events. cbn [emit adap tx bus inbuf outbuf last_cmd_sent env events fmap list_fmap].
      by rewrite <- (assoc_L (++)).
    + by rewrite <- (assoc_L (++)).
    + rewrite length_app. lia.
Qed.

(** ** One transfer and the whole interrupt *)
Context (pkt : Z -> list Z) (Hpkt : forall p, 0 <= p < 32 -> data_packet (len p) (pkt p)).

Definition payload (c n : Z) : list Z := concat (pkt <$> seqZ c n).

(** The card gives the packets of the ports that are asked for. *)
Definition card_serves : Prop := forall w c n, 0 <= c -> 1 <= n <= 16 -> c + n <= 32 ->
  let b := Z.of_nat (length (payload c n)) / 256 in
  exists w', SDIO_IO_Read_Extended 1 (port_addr c n) (if 1 <? b then b else 256) (1 <? b) w = (true, payload c n, w').

Context (Hcard : card_serves).

Lemma payload_length c n : 0 <= c -> 0 <= n -> c + n <= 32 ->
  Z.of_nat (length (payload c n)) = total (fun p => padded (len p)) (seqZ c n) /\
  Z.of_nat (length (payload c n)) = 256 * total (fun p => nblocks (len p)) (seqZ c n).
Proof.
  unfold payload. intros Hc Hn Hcn. assert (Hr : Forall (fun p => 0 <= p < 32) (seqZ c n)).
  { apply list.Forall_forall. intros p ?%elem_of_seqZ. lia. }
  induction Hr as [| p l Hp _ IH]; [done |]. rewrite !total_cons. cbn [fmap list_fmap concat] in *. rewrite length_app.
  destruct (Hpkt p Hp) as (_ & Hl & _). unfold padded, nblocks in *. lia.
Qed.

(** The state of the read side between two transfers. *)
Record rx_inv (s : sdio W) : Prop := {
  ri_regs : mp_regs (adap s) = regs;
  ri_end : 0 <= mp_end_port (adap s) < 65536;
  ri_ioport : ioport (adap s) = MEM_PORT;
  ri_inbuf : Z.of_nat (length (inbuf s)) = INBUF_SIZE;
  ri_low : has_low_level_input (bus s) = true;
  ri_port : 0 <= curr_rd_port (adap s) < 32
}.

Definition has_packet (s : sdio W) (p : Z) : bool := Z.testbit (mp_rd_bitmap (adap s)) p.

Lemma land_data_mask m i : 0 <= i < 32 -> Z.testbit m i = true -> (Z.land m DATA_PORT_MASK =? 0) = false.
Proof.
  intros Hi Hb. apply Z.eqb_neq. intros E. apply (f_equal (fun z => Z.testbit z i)) in E.
  change DATA_PORT_MASK with (Z.ones 32) in E. rewrite Z.land_spec, Hb, Z.ones_spec_low, Z.bits_0 in E by lia. done.
Qed.

Lemma scan_at_0 c : scan_at len c 0 NO_PORT = MkScan NO_PORT 0 0 0 0 NO_PORT.
Proof. done. Qed.

Lemma get_rd_port_none s : rx_inv s -> has_packet s (curr_rd_port (adap s)) = false ->
  _handle_sdio_packet_read s = Ret (None, s).
Proof.
  intros [Hr He _ _ _ Hp] Hb. unfold _handle_sdio_packet_read, wlan_get_rd_port.
  assert (Hs : set_adap (adap s) s = s) by (by destruct s). destruct (_ =? 0); [cbn; by rewrite Hs |].
  rewrite <- (scan_at_0 (curr_rd_port (adap s))).
  change 17%nat with (S 16). rewrite rd_port_loop_step by (done || lia).
  unfold has_packet in Hb. rewrite Z.add_0_r, Hb. cbn. by rewrite Hs.
Qed.

(** The ports of one transfer. *)
Lemma get_rd_port_some s : let c := curr_rd_port (adap s) in rx_inv s -> has_packet s c = true ->
  exists n m, 1 <= n <= 16 /\ c + n <= 32 /\ Forall (fun p => has_packet s p = true) (seqZ c n) /\
    cleared (mp_rd_bitmap (adap s)) (seqZ c n) m /\ Z.of_nat (length (payload c n)) <= INBUF_SIZE /\
    wlan_get_rd_port (adap s) =
      Ret (Some (port_addr c n, Z.of_nat (length (payload c n)), Z.of_nat (length (payload c n)) / 256, 1 <? n),
           set_rd m ((c + n) mod 32) (adap s)).
Proof.
  intros c [Hr He Hio _ _ Hp] Hb. unfold wlan_get_rd_port. unfold has_packet in *. rewrite (land_data_mask _ _ Hp Hb).
  rewrite <- (scan_at_0 c).
  destruct (rd_port_loop_run 17 (adap s) c 0 NO_PORT) as (n & pp & m & [Hn Hst _ Hone Hsome Hset Hcl Hfirst Hfit] & ->);
    try done; try lia; [rewrite INBUF_SIZE_eq; simpl; lia |].
  rewrite Z.add_0_r, Z.sub_0_r in *. specialize (Hfirst eq_refl Hb).
  destruct (payload_length c n) as [EL EB]; [lia.. |].
  exists n, m. split; [lia |]. split; [done |]. split; [done |]. split; [done |]. split; [by rewrite EL |].
  rewrite bind_ret. unfold scan_at. cbn [rs_pport rs_ports rs_rxlen rs_rxblocks rs_start].
  destruct (Z.eqb_spec pp NO_PORT) as [E | _]; [by destruct (Hsome Hfirst) |].
  replace (Z.of_nat (length (payload c n)) / 256) with (total (fun p => nblocks (len p)) (seqZ c n))
    by (rewrite EB, Z.mul_comm, Z.div_mul by lia; reflexivity).
  rewrite EL.
  destruct (Z.ltb_spec 1 n).
  - destruct (Z.eqb_spec n 0); [lia |]. cbn [ioport set_rd]. rewrite Hio, mpa_addr by lia. done.
  - assert (n = 1) as -> by lia. rewrite (Hone eq_refl). cbn [ioport set_rd]. rewrite Hio. unfold port_addr. cbn [Z.eqb].
    rewrite wrap_small; [done |]. unfold MEM_PORT. change (2 ^ 32) with 4294967296. lia.
Qed.

Lemma read_retry_ok k port b aggr s w' bs :
  (if 1 <? b then SDIO_IO_Read_Extended 1 port b true (env s) else SDIO_IO_Read_Extended 1 port 256 false (env s)) = (true, bs, w') ->
  (length bs <= length (inbuf s))%nat ->
  read_retry k port b aggr s = Ret (true, set_inbuf (bs ++ drop (length bs) (inbuf s)) (set_env w' s)).
Proof.
  intros E Hl. destruct k; cbn [read_retry]; unfold sdio_drv_read, MLAN_SDIO_BLOCK_SIZE; rewrite E;
    (unfold mem_write; replace (_ && _) with true by (zbool; done || lia)); rewrite !bind_ret; cbn [negb]; by rewrite andb_false_r.
Qed.

Lemma packet_read_some s : let c := curr_rd_port (adap s) in rx_inv s -> has_packet s c = true ->
  exists n m w' rest, 1 <= n <= 16 /\ c + n <= 32 /\ Forall (fun p => has_packet s p = true) (seqZ c n) /\
    cleared (mp_rd_bitmap (adap s)) (seqZ c n) m /\ Z.of_nat (length (payload c n ++ rest)) = INBUF_SIZE /\
    _handle_sdio_packet_read s = Ret (Some (Z.of_nat (length (payload c n)), MLAN_TYPE_DATA),
      set_inbuf (payload c n ++ rest) (set_env w' (set_adap (set_rd m ((c + n) mod 32) (adap s)) s))).
Proof.
  intros c Hinv Hb. destruct (get_rd_port_some s Hinv Hb) as (n & m & Hn & Hst & Hset & Hcl & Hfit & E).
  change (curr_rd_port (adap s)) with c in Hst, Hset, Hcl, Hfit, E. destruct Hinv as [_ _ _ Hin _ Hp]. assert (Hc : c = curr_rd_port (adap s)) by done.
  destruct (Hcard (env s) c n) as (w' & Ew); [lia.. |].
  exists n, m, w', (drop (length (payload c n)) (inbuf s)).
  split; [lia |]. split; [done |]. split; [done |]. split; [done |].
  split. { rewrite length_app, length_drop. lia. }
  unfold _handle_sdio_packet_read. rewrite E, bind_ret. unfold wlan_read_rcv_packet.
  rewrite (read_retry_ok _ _ _ _ _ w' (payload c n)).
  - rewrite bind_ret. cbn [negb]. destruct (Hpkt c) as (_ & _ & lo & hi & t0 & t1 & rest & Ep & _ & Et & _); [lia |].
    cbn [inbuf set_inbuf set_env set_adap]. set (tail := drop _ _).
    assert (Epay : payload c n = [lo; hi] ++ [t0; t1] ++ (rest ++ payload (c + 1) (n - 1))).
    { unfold payload. rewrite (seqZ_cons c n) by lia. cbn [fmap list_fmap concat]. rewrite Ep.
      rewrite Z.add_1_r, <- Z.sub_1_r. done. }
    unfold mem_read_le16. rewrite Epay, <- (assoc_L (++)), <- (assoc_L (++)).
    rewrite (mem_read_app [lo; hi] [t0; t1]) by done. rewrite !bind_ret. rewrite Et. done.
  - cbn [env set_adap]. revert Ew. cbv zeta. by destruct (1 <? Z.of_nat (length (payload c n)) / 256).
  - cbn [inbuf set_adap]. lia.
Qed.

Lemma all_packets_run c n : 0 <= c -> c + n <= 32 -> all_packets (pkt <$> seqZ c n).
Proof.
  intros Hc Hn. apply list.Forall_forall. intros bs (p & -> & Hp%elem_of_seqZ)%list_elem_of_fmap.
  exists (len p). split; [apply Hpkt; lia | apply Hlen; lia].
Qed.

Lemma concat_length_ge (l : list (list Z)) : all_packets l -> (length l <= length (concat l))%nat.
Proof.
  induction 1 as [| bs l (n & (Hpos & Hl & _) & _) _ IH]; [done |]. cbn [concat length]. rewrite length_app.
  pose proof (padded_bounds n). lia.
Qed.

(** The state after one transfer of the ports [c], ..., [c + n - 1]. *)
Definition after_transfer (c n m : Z) (w' : W) (rest : list Z) (s : sdio W) : sdio W :=
  add_events (deliver <$> (pkt <$> seqZ c n))
    (set_inbuf (payload c n ++ rest) (set_env w' (set_adap (set_rd m ((c + n) mod 32) (adap s)) s))).

Lemma packet_loop_step s fuel : let c := curr_rd_port (adap s) in rx_inv s -> has_packet s c = true ->
  exists n m w' rest, 1 <= n <= 16 /\ c + n <= 32 /\ Forall (fun p => has_packet s p = true) (seqZ c n) /\
    cleared (mp_rd_bitmap (adap s)) (seqZ c n) m /\ rx_inv (after_transfer c n m w' rest s) /\
    packet_read_loop (S fuel) s = packet_read_loop fuel (after_transfer c n m w' rest s).
Proof.
  intros c Hinv Hb. destruct (packet_read_some s Hinv Hb) as (n & m & w' & rest & Hn & Hst & Hset & Hcl & Hl & E).
  change (curr_rd_port (adap s)) with c in Hst, Hset, Hcl, Hl, E.
  exists n, m, w', rest. split; [done |]. split; [done |]. split; [done |]. split; [done |]. split.
  { destruct Hinv. split; try done. cbn. apply Z.mod_pos_bound. lia. }
  assert (Hc : 0 <= c) by apply Hinv. pose proof (all_packets_run c n Hc Hst) as Hall.
  cbn [packet_read_loop]. rewrite E, bind_ret. cbn [Z.eqb MLAN_TYPE_DATA].
  pose proof (split_loop_all (Z.to_nat (Z.of_nat (length (payload c n)))) [] (pkt <$> seqZ c n) rest) as Hs.
  cbn [length Nat.add app] in Hs. change (concat (pkt <$> seqZ c n)) with (payload c n) in Hs.
  rewrite Hs; [by rewrite bind_ret | done | done | | by destruct Hinv |].
  - rewrite Nat2Z.id. by apply concat_length_ge.
  - rewrite length_app, INBUF_SIZE_eq in Hl. lia.
Qed.

Lemma ring_nodup c R : 0 <= c < 32 -> (R <= 32)%nat -> NoDup (ring 32 c R).
Proof.
  revert c. induction R as [| R IH]; intros c Hc HR; simpl; constructor.
  - apply ring_head_fresh; lia.
  - apply IH; [by apply next_port_range | lia].
Qed.

(** Every packet of the run from the current port on is delivered, once and in
    the order of the ports. *)
Lemma drain (R fuel : nat) s : let c := curr_rd_port (adap s) in
  rx_inv s -> (R <= 32)%nat -> Forall (fun p => has_packet s p = true) (ring 32 c R) ->
  R = 32%nat \/ has_packet s ((c + Z.of_nat R) mod 32) = false -> (R < fuel)%nat ->
  exists s', packet_read_loop fuel s = Ret s' /\ rx_inv s' /\
    events s' = events s ++ ((fun p => deliver (pkt p)) <$> ring 32 c R) /\
    curr_rd_port (adap s') = (c + Z.of_nat R) mod 32 /\
    cleared (mp_rd_bitmap (adap s)) (ring 32 c R) (mp_rd_bitmap (adap s')).
Proof.
  revert s fuel. induction (lt_wf R) as [R _ IH]. intros s fuel c Hinv HR Hset Hend Hf.
  assert (Hc : 0 <= c < 32) by apply Hinv. destruct fuel as [| fuel]; [lia |].
  destruct (decide (R = 0%nat)) as [-> | HR0].
  { rewrite Z.add_0_r, Z.mod_small in * by done. destruct Hend as [? | Hb]; [lia |].
    exists s. cbn [packet_read_loop]. rewrite (get_rd_port_none s Hinv Hb), bind_ret.
    split_and!; [done | done | by rewrite app_nil_r | done | apply cleared_nil]. }
  assert (Hb : has_packet s c = true) by (destruct R; [lia |]; by inversion Hset).
  destruct (packet_loop_step s fuel Hinv Hb) as (n & m & w' & rest & Hn & Hst & Hsn & Hcl & Hinv' & ->).
  change (curr_rd_port (adap s)) with c in Hst, Hsn, Hcl, Hinv'.
  assert (HnR : n <= Z.of_nat R).
  { destruct (Z.le_gt_cases n (Z.of_nat R)); [done |]. destruct Hend as [? | Hno]; [lia |].
    rewrite Z.mod_small in Hno by lia. rewrite list.Forall_forall in Hsn.
    rewrite (Hsn (c + Z.of_nat R)) in Hno; [done |]. apply elem_of_seqZ. lia. }
  set (s2 := after_transfer c n m w' rest s) in *. set (R2 := (R - Z.to_nat n)%nat).
  assert (Hring : ring 32 c R = seqZ c n ++ ring 32 ((c + n) mod 32) R2).
  { replace R with (Z.to_nat n + R2)%nat by lia. rewrite ring_app, ring_straight by lia.
    by rewrite !Z2Nat.id by lia. }
  assert (Hc2 : curr_rd_port (adap s2) = (c + n) mod 32) by done.
  assert (Hend2 : ((c + n) mod 32 + Z.of_nat R2) mod 32 = (c + Z.of_nat R) mod 32).
  { rewrite Zplus_mod_idemp_l. f_equal. lia. }
  pose proof (ring_nodup c R Hc HR) as Hnd. rewrite Hring in Hset, Hnd |- *.
  apply list.NoDup_app in Hnd as (_ & Hdisj & _). apply list.Forall_app in Hset as [_ Hset2].
  destruct (IH R2 ltac:(lia) s2 fuel Hinv') as (s' & E & Hi & Ee & Ec & Hcl2); rewrite ?Hc2, ?Hend2 in *; [lia | | | lia |].
  - rewrite list.Forall_forall in *. intros p Hp. unfold has_packet in *. change (mp_rd_bitmap (adap s2)) with m.
    rewrite Hcl, (Hset2 p Hp), bool_decide_eq_false_2; [done |]. intros Hin. by apply (Hdisj p).
  - right. unfold has_packet in *. change (mp_rd_bitmap (adap s2)) with m. rewrite Hcl.
    destruct Hend as [-> | ->]; [| done]. rewrite bool_decide_eq_true_2; [by rewrite andb_false_r |].
    apply elem_of_seqZ. change (Z.of_nat 32) with (1 * 32). rewrite Z.mod_add, Z.mod_small by lia. lia.
  - exists s'. split; [done |]. split; [done |]. split; [| split; [done |]].
    + rewrite Ee. cbn. by rewrite fmap_app, <- (assoc_L (++)), <- list_fmap_compose.
    + by apply (cleared_app _ _ m).
Qed.
End read_side.
