(* ===== verification/SdioTheorems.v ===== *)
(** * Theorems about the transport

    The SDIO transport keeps the promises of [TxBus]; an aggregated write; the
    packets of an interrupt; and what happens to packets the code does not
    expect. *)
From S2P Require Import Prelude Aggr Sdio SdioProps SdioReadProps TxBus.

(** ** The write side implements the interface *)

(** The card is awake within the time the driver gives it. *)
Class SdioAwake (W : Type) `{SdioEnv W} := card_wakes (w : W) : fst (os_rwlock_read_lock w) = true.

(** The writes to data ports. *)
Definition data_writes (es : list sdio_event) : list (list Z) :=
  omap (fun e => match e with Sent addr d => if Z.testbit addr 15 then None else Some d | _ => None end) es.
Definition arrived (sent : list (bool * list (list Z))) : list (list (list Z)) :=
  omap (fun w : bool * list (list Z) => if fst w then Some (snd w) else None) sent.

Lemma port_addr_data start n : 0 <= start < 32 -> 1 <= n <= 16 -> Z.testbit (port_addr start n) 15 = false.
Proof.
  intros. rewrite Z.testbit_eqb by lia. unfold port_addr, MEM_PORT, SDIO_MPA_ADDR_BASE. change (2 ^ 15) with 32768.
  apply Z.eqb_neq. case_match; Z.div_mod_to_equations; lia.
Qed.

(** The next [n] ports are free. *)
Definition ports_free {W} (s : sdio W) (n : nat) : Prop :=
  Z.of_nat n <= mp_end_port (adap s) /\
  Forall (fun p => Z.testbit (mp_wr_bitmap (adap s)) p = true) (ring (mp_end_port (adap s)) (txportno (tx s)) n).

#[export] Instance sdio_bus {W} `{SdioEnv W} : TxBus (sdio W) := {
  wlan_xmit := wlan_xmit_wmm_pkt;
  wlan_flush := wlan_flush_wmm_pkt;
  bus_rep s sent pend := tx_inv s pend /\ Forall2 framed (data_writes (events s)) (arrived sent);
  bus_room := ports_free
}.

Lemma ports_free_next {W} (s s' : sdio W) k :
  0 <= txportno (tx s) < mp_end_port (adap s) -> mp_end_port (adap s) <= 32 ->
  mp_end_port (adap s') = mp_end_port (adap s) -> mp_wr_bitmap (adap s') = Z.ldiff (mp_wr_bitmap (adap s)) (2 ^ txportno (tx s)) ->
  txportno (tx s') = next_port (mp_end_port (adap s)) (txportno (tx s)) -> ports_free s (S k) -> ports_free s' k.
Proof.
  unfold ports_free. intros Hp He Ee Eb Et [Hk Hf]. rewrite Ee, Eb, Et. split; [lia |].
  cbn [ring] in Hf. apply list.Forall_cons in Hf as [_ Hf]. rewrite list.Forall_forall in *. intros i Hi.
  rewrite ldiff_pow2, (Hf i Hi) by lia. destruct (Z.eqb_spec i (txportno (tx s))) as [-> |]; [| done].
  exfalso. revert Hi. apply ring_head_fresh; lia.
Qed.

Lemma ring_shorter (P : Z -> Prop) e p n : Forall P (ring e p (S n)) -> Forall P (ring e p n).
Proof.
  revert p. induction n as [| n IH]; intros p H; [by apply list.Forall_nil |]. cbn [ring] in *.
  apply list.Forall_cons in H as [Hp H]. apply list.Forall_cons. split; [done | by apply IH].
Qed.

#[export] Instance sdio_bus_laws {W} `{SdioEnvLaws W} `{!SdioAwake W} : TxBusLaws (sdio W).
Proof.
  split; cbn [bus_rep sdio_bus wlan_xmit wlan_flush bus_room]; unfold SDIO_PAYLOAD_SIZE, BUS_MAX_LEN.
  - intros s sent pend i n buf [I Hf] Hl Hn Hb.
    destruct (xmit_step s pend i n buf I) as (r & s' & E & Ee & Eend & Hr); [lia | unfold MAX_TX_LEN; lia | lia |].
    exists r, s'. split; [done |]. rewrite Ee. destruct (Z.testbit _ _) eqn:Ebit.
    + destruct Hr as (-> & I' & Hbm & Ht & _). right. split; [done |]. split; [done |].
      intros k. apply ports_free_next; try done; apply I.
    + destruct Hr as (-> & I' & Ea & Et). left. split; [done |]. split; [done |].
      split; [| unfold ports_free; by rewrite Ea, Et]. intros [_ Hfree].
      cbn [ring] in Hfree. apply list.Forall_cons in Hfree as [Hbit _]. by rewrite Ebit in Hbit.
  - intros s sent pend [I Hf].
    destruct (flush_step s pend I (card_wakes _)) as (ok & s' & E & I' & Ea & Et & Ee).
    exists ok, s'. split; [done |]. split; [split; [done |] | unfold ports_free; by rewrite Ea, Et].
    rewrite Ee. unfold data_writes. rewrite omap_app.
    destruct (decide (pend = [])) as [-> | Hne].
    { rewrite bool_decide_eq_true_2 by done. rewrite andb_false_r. simpl. by rewrite app_nil_r. }
    rewrite bool_decide_eq_false_2 by done. unfold arrived. rewrite omap_app, andb_true_r.
    apply Forall2_app; [exact Hf |]. destruct ok; [| constructor]. cbn -[Z.testbit port_addr].
    pose proof (ti_run _ _ I Hne) as (_ & _ & ? & _). pose proof (ti_end _ _ I). pose proof (ti_count _ _ I).
    rewrite port_addr_data; [| lia |].
    + constructor; [apply I | constructor].
    + destruct pend; [done | simpl in *; lia].
  - intros s k [Hk Hf]. split; [lia | by apply ring_shorter].
Qed.

(** ** An aggregated write *)

(** Packets taken one after the other; [false] when one is refused. *)
Fixpoint xmit_all {W} `{SdioEnv W} (pkts : list (list Z)) (s : sdio W) : outcome (bool * sdio W) :=
  match pkts with
  | [] => Ret (true, s)
  | p :: pkts =>
      '(r, s) ← wlan_xmit_wmm_pkt 0 (Z.of_nat (length p)) p s;
      if decide (r = MLAN_STATUS_SUCCESS) then xmit_all pkts s else Ret (false, s)
  end.

Lemma xmit_all_spec {W} `{SdioEnvLaws W} (s : sdio W) pend pkts :
  tx_inv s pend -> tx_sizes pkts -> (length pend + length pkts <= 8)%nat ->
  let run := ring (mp_end_port (adap s)) (txportno (tx s)) (length pkts) in
  Z.of_nat (length pkts) <= mp_end_port (adap s) ->
  Forall (fun p => Z.testbit (mp_wr_bitmap (adap s)) p = true) run ->
  exists s', xmit_all pkts s = Ret (true, s') /\ tx_inv s' (pend ++ pkts) /\ events s' = events s /\
    cleared (mp_wr_bitmap (adap s)) run (mp_wr_bitmap (adap s')) /\
    mp_end_port (adap s') = mp_end_port (adap s) /\
    (pend <> [] -> start_port (tx s') = start_port (tx s)) /\
    (pend = [] -> pkts <> [] -> start_port (tx s') = txportno (tx s)).
Proof.
  revert s pend. induction pkts as [| p pkts IH]; intros s pend I Hsz Hl run He Hrun.
  { exists s. rewrite app_nil_r. split_and!; try done. apply cleared_nil. }
  apply list.Forall_cons in Hsz as [Hp Hsz]. cbn [length] in Hl, He.
  pose proof (ti_port _ _ I) as Hport. pose proof (ti_end _ _ I) as Hend.
  destruct (xmit_step s pend 0 (Z.of_nat (length p)) p I) as (r & s1 & E & Ee & Eend & Hr); [lia | done | lia |].
  subst run. cbn [ring length] in Hrun |- *. apply list.Forall_cons in Hrun as [Hbit Hrun]. rewrite Hbit in Hr.
  destruct Hr as (-> & I1 & Hbm & Htx & Hst). rewrite Nat2Z.id, firstn_all in I1.
  destruct (IH s1 (pend ++ [p]) I1 Hsz) as (s' & E' & I' & Ee' & Hcl & Eend' & Hst' & _).
  - rewrite length_app. simpl. lia.
  - rewrite Eend. lia.
  - rewrite Eend, Htx, Hbm. rewrite list.Forall_forall in *. intros i Hi. rewrite ldiff_pow2, (Hrun i Hi) by lia.
    destruct (Z.eqb_spec i (txportno (tx s))) as [-> |]; [| done].
    exfalso. revert Hi. apply ring_head_fresh; lia.
  - exists s'. cbn [xmit_all]. rewrite E, bind_ret, decide_True by done. rewrite <- (assoc_L (++)) in I'.
    split; [done |]. split; [done |]. split; [congruence |]. rewrite Eend, Htx, Hbm in *. split; [by apply cleared_cons; [lia |] |].
    split; [done |]. assert (pend ++ [p] <> []) as Hne by (by destruct pend). rewrite (Hst' Hne), Hst.
    split; [by intros; rewrite decide_False | by intros; rewrite decide_True].
Qed.

(** Up to eight packets for consecutive free ports leave in one write: its
    address names the first of the ports and their number, its data is the
    packets in order, each in whole blocks, and the ports, and no others, are
    no longer free. *)
Theorem aggregate_written_to_free_ports {W} `{SdioEnvLaws W} (s : sdio W) pkts :
  tx_inv s [] -> tx_sizes pkts -> (0 < length pkts <= 8)%nat -> Z.of_nat (length pkts) <= mp_end_port (adap s) ->
  let run := ring (mp_end_port (adap s)) (txportno (tx s)) (length pkts) in
  Forall (fun p => Z.testbit (mp_wr_bitmap (adap s)) p = true) run ->
  exists s1, xmit_all pkts s = Ret (true, s1) /\ events s1 = events s /\
    (fst (os_rwlock_read_lock (env s1)) = true ->
     exists (ok : bool) s2 data,
       wlan_flush_wmm_pkt (Z.of_nat (length pkts)) s1 = Ret (if ok then MLAN_STATUS_SUCCESS else MLAN_STATUS_RESOURCE, s2) /\
       framed data pkts /\
       events s2 = events s ++ (if ok then [Sent (port_addr (txportno (tx s)) (Z.of_nat (length pkts))) data] else []) /\
       cleared (mp_wr_bitmap (adap s)) run (mp_wr_bitmap (adap s2)) /\
       txportno (tx s2) = (txportno (tx s) + Z.of_nat (length pkts)) mod mp_end_port (adap s) /\
       tx_inv s2 []).
Proof.
  intros I Hsz Hl He run Hrun. assert (Hne : pkts <> []) by (intros ->; simpl in Hl; lia).
  destruct (xmit_all_spec s [] pkts I Hsz ltac:(simpl; lia) He Hrun) as (s1 & E & I1 & Ee & Hcl & Eend & _ & Hst).
  exists s1. split; [done |]. split; [done |]. intros Hlock. simpl in I1.
  destruct (flush_step s1 pkts I1 Hlock) as (ok & s2 & E2 & I2 & Ea & Et & Ee2).
  exists ok, s2, (take (Z.to_nat (frames_len pkts)) (outbuf s1)).
  destruct (ti_run _ _ I1 Hne) as (_ & _ & _ & Hport).
  split; [done |]. split; [apply I1 |]. split.
  { rewrite Ee2, Ee, bool_decide_eq_false_2 by done. by rewrite andb_true_r, Hst. }
  rewrite Ea. split; [done |]. rewrite Et, Hport, Eend, Hst by done. done.
Qed.

(** ** The packets of an interrupt *)

(** The ports with a packet, from [c] on without a gap. *)
Fixpoint run_length (m c : Z) (n : nat) : nat :=
  match n with
  | O => 0
  | S n => if Z.testbit m c then S (run_length m (next_port 32 c) n) else 0
  end.

Lemma run_length_spec m c n : 0 <= c < 32 -> let R := run_length m c n in
  (R <= n)%nat /\ Forall (fun p => Z.testbit m p = true) (ring 32 c R) /\
  (R = n \/ Z.testbit m ((c + Z.of_nat R) mod 32) = false).
Proof.
  revert c. induction n as [| n IH]; intros c Hc; [split_and!; [done | by apply list.Forall_nil | by left] |].
  cbn [run_length]. destruct (Z.testbit m c) eqn:E.
  - destruct (IH (next_port 32 c)) as (Hl & Hf & Hr); [by apply next_port_range |].
    split; [lia |]. split; [by apply list.Forall_cons |].
    rewrite next_port_mod, Zplus_mod_idemp_l in Hr by lia.
    replace (c + 1 + Z.of_nat (run_length m ((c + 1) mod 32) n)) with
      (c + Z.of_nat (S (run_length m ((c + 1) mod 32) n))) in Hr by lia.
    rewrite next_port_mod by lia. destruct Hr as [-> | Hr]; [by left | by right].
  - split; [lia |]. split; [by apply list.Forall_nil |]. right. by rewrite Z.add_0_r, Z.mod_small.
Qed.

(** C13: When the card announces packets, every packet of the ports without a
    gap from the current one is delivered exactly once, in the order of the
    ports and across the end of the ring, whatever aggregates they are read in;
    the next interrupt goes on at the port behind them. *)
Theorem interrupt_drains_ports {W} `{HE : SdioEnv W, HL : !SdioEnvLaws W} (regs : list Z) (len : Z -> Z) (pkt : Z -> list Z)
    (s : sdio W) (m : Z) :
  announced regs len -> (forall p, 0 <= p < 32 -> data_packet (len p) (pkt p)) -> card_serves pkt ->
  rx_inv regs s -> read_bitmap regs RD_BITMAP_L = Ret m ->
  let c := curr_rd_port (adap s) in
  let run := ring 32 c (run_length m c 32) in
  exists s', handle_sdio_packet_read 33 s = Ret s' /\
    events s' = events s ++ ((fun p => LowLevelInput (interface_of (pkt p)) (pkt p)) <$> run) /\
    curr_rd_port (adap s') = (c + Z.of_nat (length run)) mod 32 /\
    cleared m run (mp_rd_bitmap (adap s')) /\ rx_inv regs s'.
Proof.
  intros Hlen Hpkt Hcard Hinv Hm c run. unfold handle_sdio_packet_read. rewrite (ri_regs _ _ Hinv), Hm, bind_ret.
  assert (Hc : 0 <= c < 32) by apply Hinv. destruct (run_length_spec m c 32 Hc) as (HR & Hset & Hend).
  set (s0 := set_adap _ s). assert (Hinv0 : rx_inv regs s0) by (destruct Hinv; split; done).
  destruct (drain regs len Hlen pkt Hpkt Hcard (run_length m c 32) 33 s0 Hinv0 HR Hset Hend ltac:(lia))
    as (s' & E & Hi & Ee & Ec & Hcl).
  exists s'. unfold run at 2. rewrite ring_length. done.
Qed.

(** ** Packets the code does not expect *)

Lemma mem_write_nil {A} (m : list A) : mem_write m 0 [] = Ret m.
Proof. unfold mem_write. cbn [length]. zbool; done || lia. Qed.

(** A read of one packet that fails, as a card that does not answer does: no
    bytes arrive. *)
Definition read_fails {W} `{SdioEnv W} : Prop :=
  forall fn addr n blocks w, exists w', SDIO_IO_Read_Extended fn addr n blocks w = (false, [], w').

(** A failed read of a single packet is not noticed: whatever packet the
    buffer holds from before is taken for the one that was announced. *)
Theorem failed_read_redelivers {W} `{HE : SdioEnv W} (port rx_len rx_blocks : Z) (s : sdio W) (old rest : list Z) n :
  read_fails -> inbuf s = old ++ rest -> data_packet n old ->
  exists s', wlan_read_rcv_packet port rx_len rx_blocks false s = Ret (Some MLAN_TYPE_DATA, s') /\
    inbuf s' = old ++ rest /\ events s' = events s.
Proof.
  intros Hf Hin (_ & _ & lo & hi & t0 & t1 & r & -> & _ & Et & _).
  unfold wlan_read_rcv_packet. change (Z.to_nat MAX_READ_IOMEM_RETRY) with 2%nat.
  assert (E : exists w', read_retry 2 port rx_blocks false s = Ret (true, set_inbuf (inbuf s) (set_env w' s))).
  { cbn [read_retry]. unfold sdio_drv_read. destruct (1 <? rx_blocks).
    - destruct (Hf 1 port rx_blocks true (env s)) as (w' & ->). rewrite mem_write_nil. by exists w'.
    - destruct (Hf 1 port MLAN_SDIO_BLOCK_SIZE false (env s)) as (w' & ->). rewrite mem_write_nil. by exists w'. }
  destruct E as (w' & E). rewrite E, bind_ret. cbn [negb inbuf set_inbuf set_env].
  rewrite Hin. change ((lo :: hi :: t0 :: t1 :: r) ++ rest) with ([lo; hi] ++ [t0; t1] ++ r ++ rest).
  unfold mem_read_le16. rewrite (mem_read_app [lo; hi] [t0; t1]) by done. rewrite !bind_ret, Et.
  eexists. split; [done |]. by split.
Qed.

(** A card whose answer to a read of 256 bytes is a data packet, however often
    it is asked. *)
Definition always_data {W} `{SdioEnv W} : Prop :=
  forall addr w, exists b0 b1 rest w', SDIO_IO_Read_Extended 1 addr 256 false w = (true, [b0; b1; 0; 0] ++ rest, w') /\
    (length rest = 252)%nat.

(** What one call does with a first packet that does not fit: it reports a
    packet of no bytes, and the port still has it. *)
Lemma oversized_get_rd_port {W} `{HE : SdioEnv W} a c n :
  curr_rd_port a = c -> 0 <= c < 32 -> Z.testbit (mp_rd_bitmap a) c = true ->
  read_len (mp_regs a) (RD_LEN_P0_L + Z.shiftl c 1) (RD_LEN_P0_U + Z.shiftl c 1) = Ret n ->
  0 <= n <= 65280 -> INBUF_SIZE < padded n ->
  wlan_get_rd_port a = Ret (Some (u32 (ioport a + c), 0, 0, false), a).
Proof.
  intros Hc Hr Hb Hl Hn Hbig. unfold wlan_get_rd_port. rewrite (land_data_mask _ c Hr Hb).
  change 17%nat with (S 16). generalize 16%nat. intros fuel. cbn [rd_port_loop]. rewrite Hc, port_bit_ret, bind_ret, land_pow2, Hb, Hl by lia. cbn [negb]. rewrite bind_ret.
  destruct (blocks_of_small n) as [_ Ep]; [lia |]. unfold MLAN_SDIO_BLOCK_SIZE. rewrite Ep.
  assert (Hp : 0 <= padded n < 65536) by (unfold padded in *; Z.div_mod_to_equations; lia).
  cbn [rs_rxlen]. rewrite (wrap_small 16) by (change (2 ^ 16) with 65536; lia).
  rewrite Z.add_0_l, wrap_small by (change (2 ^ 32) with 4294967296; lia).
  destruct (Z.gtb_spec (padded n) INBUF_SIZE); [| lia]. rewrite bind_ret. cbn [rs_pport rs_ports rs_rxlen rs_rxblocks].
  replace (c =? NO_PORT) with false by (unfold NO_PORT; zbool; done || lia). done.
Qed.

(** A packet announced with a length that exceeds the buffer is never taken
    off its port: the loop over the packets does not end. *)
Theorem oversized_packet_never_ends {W} `{HE : SdioEnv W} (s : sdio W) n (fuel : nat) :
  always_data ->
  0 <= curr_rd_port (adap s) < 32 -> Z.testbit (mp_rd_bitmap (adap s)) (curr_rd_port (adap s)) = true ->
  read_len (mp_regs (adap s)) (RD_LEN_P0_L + Z.shiftl (curr_rd_port (adap s)) 1)
           (RD_LEN_P0_U + Z.shiftl (curr_rd_port (adap s)) 1) = Ret n ->
  0 <= n <= 65280 -> INBUF_SIZE < padded n -> (256 <= length (inbuf s))%nat ->
  packet_read_loop fuel s = Fault OutOfFuel.
Proof.
  intros Hd Hc Hb Hl Hn Hbig. revert s Hc Hb Hl. induction fuel as [| fuel IH]; intros s Hc Hb Hl Hin; [done |].
  cbn [packet_read_loop]. unfold _handle_sdio_packet_read.
  rewrite (oversized_get_rd_port _ _ n eq_refl Hc Hb Hl Hn Hbig), bind_ret.
  unfold wlan_read_rcv_packet. set (k := Z.to_nat MAX_READ_IOMEM_RETRY).
  destruct (Hd (u32 (ioport (adap s) + curr_rd_port (adap s))) (env s)) as (b0 & b1 & rest & w' & Er & Hrest).
  rewrite (read_retry_ok _ _ _ _ _ w' ([b0; b1; 0; 0] ++ rest)); [| done | rewrite length_app; simpl; lia].
  rewrite bind_ret. cbn [negb inbuf set_inbuf]. unfold mem_read_le16.
  rewrite <- (assoc_L (++)). change ([b0; b1; 0; 0] ++ ?x) with ([b0; b1] ++ [0; 0] ++ x).
  rewrite (mem_read_app [b0; b1] [0; 0]) by done. rewrite !bind_ret. cbn [of_le16]. change (0 + 256 * 0 =? MLAN_TYPE_DATA) with true.
  match goal with |- context [split_loop ?f 0 0 0 ?x] => change (split_loop f 0 0 0 x) with (@Ret (sdio W) x) end.
  cbv iota. rewrite bind_ret. apply IH; try done.
  change (256 <= length (([b0; b1; 0%Z; 0%Z] ++ rest) ++ drop (length ([b0; b1; 0%Z; 0%Z] ++ rest)) (inbuf s)))%nat.
  rewrite (length_app _ (drop _ _)), length_drop. lia.
Qed.

(** ** Concrete cards *)

(** A card that answers reads with [rd] and takes every write. *)
Definition card_with (rd : Z -> Z -> Z -> bool -> bool * list Z) : SdioEnv unit := {|
  FSL_SDMMC_DEFAULT_BLOCK_SIZE := 512;
  SDIO_IO_Read_Extended fn addr n blocks w := (rd fn addr n blocks, w);
  SDIO_IO_Write_Extended fn addr bytes blocks w := (true, w);
  SDIO_IO_Write_Direct fn addr data w := (true, w);
  os_mem_alloc n w := (true, w);
  os_queue_send w := (true, w);
  os_rwlock_read_lock w := (true, w)
|}.

(** A packet of ten bytes on every port; the last byte names the port. *)
Definition demo_pkt (p : Z) : list Z := [10; 0; 0; 0; 0; p] ++ replicate 250 0.
Definition demo_ports (addr : Z) : Z * Z :=
  let k := addr - MEM_PORT in
  if k <? SDIO_MPA_ADDR_BASE then (k, 1) else ((k - SDIO_MPA_ADDR_BASE) mod 256, (k - SDIO_MPA_ADDR_BASE) / 256 + 1).
Definition demo_read (fn addr n : Z) (blocks : bool) : bool * list Z :=
  let '(c, k) := demo_ports addr in
  let bs := payload demo_pkt c k in
  if Z.of_nat (length bs) =? (if blocks then n * 256 else n) then (true, bs) else (false, []).
Definition demo_card : SdioEnv unit := card_with demo_read.

Lemma demo_ports_addr c n : 0 <= c -> 1 <= n <= 16 -> c + n <= 32 -> demo_ports (port_addr c n) = (c, n).
Proof.
  intros. unfold demo_ports, port_addr, MEM_PORT, SDIO_MPA_ADDR_BASE. destruct (Z.eqb_spec n 1) as [-> | ?].
  - replace (65536 + c - 65536) with c by lia. zbool; [done | lia].
  - replace (65536 + 4096 + 256 * (n - 1) + c - 65536) with (4096 + 256 * (n - 1) + c) by lia.
    zbool; [lia |]. f_equal; Z.div_mod_to_equations; lia.
Qed.

Lemma demo_packet p : data_packet 10 (demo_pkt p).
Proof.
  split; [lia |]. split; [done |]. exists 10, 0, 0, 0. eexists. split; [reflexivity |]. by split_and!.
Qed.

Lemma demo_length l : (length (concat (demo_pkt <$> l)) = 256 * length l)%nat.
Proof.
  induction l as [| p l IH]; [done |]. cbn [fmap list_fmap concat length]. rewrite length_app, IH.
  change (length (demo_pkt p)) with 256%nat. lia.
Qed.

Lemma demo_serves : @card_serves unit demo_card demo_pkt.
Proof.
  intros [] c n Hc Hn Hcn. exists tt. cbn -[demo_read Z.div Z.ltb].
  assert (Hl : Z.of_nat (length (payload demo_pkt c n)) = 256 * n).
  { unfold payload. rewrite demo_length, length_seqZ. lia. }
  rewrite Hl, Z.mul_comm, Z.div_mul by lia. unfold demo_read. rewrite demo_ports_addr, Hl by done.
  destruct (Z.ltb_spec 1 n).
  - by rewrite (Z.mul_comm n), Z.eqb_refl.
  - assert (n = 1) as -> by lia. done.
Qed.

(** Registers that announce ten bytes on every port, and packets on the ports
    31, 0 and 1. *)
Definition demo_regs : list Z :=
  replicate 16 0 ++ [3; 0; 0; 0x80; 0; 0; 0; 0] ++ concat (replicate 32 [10; 0]) ++ replicate 108 0.
Definition demo_state (m c : Z) : sdio unit :=
  MkSdio (MkAdapter m c 0xffffffff 32 MEM_PORT demo_regs 0 false) (MkTx 30 0 255 0 0) (MkBus true true 0)
         (replicate (Z.to_nat 16384) 0) (replicate (Z.to_nat 16384) 0) 0 tt [].

Lemma demo_announced : announced demo_regs (fun _ => 10).
Proof.
  intros p Hp. assert (p ∈ seqZ 0 32) as Hin by (apply elem_of_seqZ; lia). revert p Hp Hin.
  assert (H : Forall (fun p => read_len demo_regs (RD_LEN_P0_L + Z.shiftl p 1) (RD_LEN_P0_U + Z.shiftl p 1) = Ret 10) (seqZ 0 32)).
  { repeat (apply list.Forall_cons; split; [vm_compute; reflexivity |]). by apply list.Forall_nil. }
  intros p _ Hin. rewrite list.Forall_forall in H. split; [by apply H | done].
Qed.

Lemma interrupt_drains_ports_witness :
  let s := demo_state 0 31 in
  exists s', @handle_sdio_packet_read unit demo_card 33 s = Ret s' /\
    events s' = (fun p => LowLevelInput (interface_of (demo_pkt p)) (demo_pkt p)) <$> [31; 0; 1] /\
    curr_rd_port (adap s') = 2.
Proof.
  destruct (@interrupt_drains_ports unit demo_card eq_refl demo_regs (fun _ => 10) demo_pkt (demo_state 0 31) 0x80000003)
    as (s' & E & Ee & Ec & _).
  - exact demo_announced.
  - intros p _. apply demo_packet.
  - exact demo_serves.
  - split; (vm_compute; split; congruence) || (vm_compute; reflexivity).
  - vm_compute. reflexivity.
  - exists s'. split; [exact E |]. split; [exact Ee | exact Ec].
Defined.

Lemma demo_tx_inv : @tx_inv unit demo_card (demo_state 0 31) [].
Proof.
  split; first [done | vm_compute; split; congruence | vm_compute; congruence | vm_compute; reflexivity | apply framed_nil | apply list.Forall_nil_2 | simpl; lia].
Qed.

Lemma aggregate_written_to_free_ports_witness :
  let s := demo_state 0 31 in let pkts := [demo_pkt 1; demo_pkt 2; demo_pkt 3] in
  exists s1, @xmit_all unit demo_card pkts s = Ret (true, s1) /\ events s1 = [] /\
    (fst (@os_rwlock_read_lock unit demo_card (env s1)) = true -> exists (ok : bool) s2 data,
       @wlan_flush_wmm_pkt unit demo_card 3 s1 = Ret (if ok then MLAN_STATUS_SUCCESS else MLAN_STATUS_RESOURCE, s2) /\
       framed data pkts /\ events s2 = (if ok then [Sent (port_addr 30 3) data] else []) /\ txportno (tx s2) = 1).
Proof.
  destruct (@aggregate_written_to_free_ports unit demo_card eq_refl (demo_state 0 31) [demo_pkt 1; demo_pkt 2; demo_pkt 3])
    as (s1 & E1 & Ee & H).
  - exact demo_tx_inv.
  - unfold tx_sizes. apply (bool_decide_unpack _). vm_compute. exact I.
  - simpl. lia.
  - vm_compute. congruence.
  - apply (bool_decide_unpack _). vm_compute. exact I.
  - exists s1. split; [exact E1 |]. split; [exact Ee |]. intros Hl.
    destruct (H Hl) as (ok & s2 & data & E2 & Hf & He & _ & Ht & _). exists ok, s2, data.
    split; [exact E2 |]. split; [exact Hf |]. split; [exact He | exact Ht].
Defined.

(** A card that no longer answers, and one that always has the same packet. *)
Definition dead_card : SdioEnv unit := card_with (fun _ _ _ _ => (false, [])).
Definition stuck_card : SdioEnv unit := card_with (fun _ _ n blocks => (true, demo_pkt 7)).

(** A buffer that still holds the packet of port 5. *)
Definition demo_rest : list Z := replicate (Z.to_nat 16128) 0.
Definition demo_old : sdio unit := set_inbuf (demo_pkt 5 ++ demo_rest) (demo_state 0 31).

Lemma failed_read_redelivers_witness :
  exists s', @wlan_read_rcv_packet unit dead_card (port_addr 31 1) 256 1 false demo_old = Ret (Some MLAN_TYPE_DATA, s') /\
    inbuf s' = demo_pkt 5 ++ demo_rest /\ events s' = [].
Proof.
  apply (@failed_read_redelivers unit dead_card (port_addr 31 1) 256 1 demo_old (demo_pkt 5) demo_rest 10).
  - intros fn addr n b w. exists tt. destruct w. reflexivity.
  - reflexivity.
  - apply demo_packet.
Defined.

(** Port 0 announces 20000 bytes; the buffer has 16384. *)
Definition big_state : sdio unit :=
  set_adap (MkAdapter 1 0 0 32 MEM_PORT (replicate 24 0 ++ [0x20; 0x4E] ++ replicate 170 0) 0 false) (demo_state 0 0).

Lemma oversized_packet_never_ends_witness : @packet_read_loop unit stuck_card 1000 big_state = Fault OutOfFuel.
Proof.
  apply (@oversized_packet_never_ends unit stuck_card big_state 20000).
  - intros addr w. exists 10, 0, ([0; 7] ++ replicate 250 0), tt. destruct w. by split.
  - vm_compute. split; congruence.
  - reflexivity.
  - reflexivity.
  - lia.
  - vm_compute. reflexivity.
  - apply (bool_decide_unpack _). vm_compute. exact I.
Defined.

(** Two packets of 12000 bytes: the first is taken off the bitmap, its length is
    reported, and the address is that of the second. *)
Definition two_regs : list Z := replicate 24 0 ++ [0xE0; 0x2E; 0xE0; 0x2E] ++ replicate 168 0.
Example second_port_read_for_first :
  @wlan_get_rd_port unit demo_card (MkAdapter 3 0 0 32 MEM_PORT two_regs 0 false) =
    Ret (Some (MEM_PORT + 1, 12032, 47, false), MkAdapter 2 1 0 32 MEM_PORT two_regs 0 false).
Proof. vm_compute. reflexivity. Qed.

(** A length above 65280 comes out as no bytes in 256 blocks. *)
Definition wide_regs : list Z := replicate 24 0 ++ [0xFF; 0xFF] ++ replicate 170 0.
Example wide_length_wraps :
  @wlan_get_rd_port unit demo_card (MkAdapter 1 0 0 32 MEM_PORT wide_regs 0 false) =
    Ret (Some (MEM_PORT, 0, 256, false), MkAdapter 0 1 0 32 MEM_PORT wide_regs 0 false).
Proof. vm_compute. reflexivity. Qed.

(** A command response of 2048 bytes is copied into a buffer of 2000. *)
Example long_response_overflows :
  @wlan_decode_rx_packet unit demo_card MLAN_TYPE_CMD (set_inbuf ([0; 8; 1; 0] ++ replicate (Z.to_nat 16380) 0) (demo_state 0 0)) =
    Fault OutOfBounds.
Proof. vm_compute. reflexivity. Qed.
