(* ===== verification/Wmm.v ===== *)
(** * The transmit queues

    [wifidriver/mlan_wmm.c] (WMM part), the transmit side of
    [wifidriver/wifi.c] and the pause events of [wifidriver/mlan_glue.c].  A
    packet of the network stack gets one of sixteen buffers, waits in the list
    of its receiver within its access category, and leaves by the bus.

    A buffer is its number in the pool; a linked list is the list of the numbers
    or records in it.  The two interfaces are numbered as in the code, 0 the
    station and 1 the access point.  Each function that the code runs under the
    lock of its lists is one step here.  A-MSDU in A-MPDU is off.
    [tid_tbl_ptr[].ra_list_curr] is written and never read, and left out. *)
From S2P Require Import Prelude Aggr Sdio TxBus.

(** ** Constants and data *)
Definition MAX_WMM_BUF_NUM : Z := 16.
Definition WMM_DATA_LEN : Z := 1580.
Definition sizeof_TxPD : Z := 22.
Definition sizeof_mlan_linked_list : Z := 8.
Definition OUTBUF_BYTES : Z := INTF_HEADER_LEN + sizeof_TxPD + WMM_DATA_LEN.
Definition WMM_AC_BK : Z := 0.
Definition WMM_AC_BE : Z := 1.
Definition WMM_AC_VI : Z := 2.
Definition WMM_AC_VO : Z := 3.
Definition MAX_AC_QUEUES : list Z := [0; 1; 2; 3].
Definition MAX_NUM_TID : nat := 8.
Definition MLAN_BSS_TYPE_STA : Z := 0.
Definition MLAN_BSS_TYPE_UAP : Z := 1.
Definition TLV_TYPE_TX_PAUSE : Z := 0x194.
Definition WM_E_BUSY : Z := 17.

(** The packets for one receiver. *)
Record raListTbl := MkRa {
  ra : list Z;
  total_pkts : Z;       (* u16 *)
  buf_head : list Z;    (* buffers, oldest first *)
  ra_tx_pause : bool;
  drop_count : Z        (* u16 *)
}.
(** [driver_error_cnt], what the queues write of it. *)
Record pkt_stat := MkStat {
  tx_no_media : Z;
  tx_wmm_retried_drop : Z;
  tx_wmm_pause_drop : Z;
  tx_wmm_pause_replaced : Z
}.
(** What the queues use of [mlan_private]. *)
Record wmm_priv := MkPriv {
  bss_role_uap : bool;
  bss_num : Z;
  media_connected : bool;
  priv_tx_pause : bool;
  curr_addr : list Z;
  bssid : list Z;
  tid_tbl : list (list raListTbl);   (* per access category *)
  pkts_queued : list Z;              (* u32 each *)
  driver_error_cnt : pkt_stat
}.
(** [outbuf_pool]. *)
Record outbuf_pool := MkPool { free_list : list Z; free_cnt : Z }.

Definition set_ra_bufs (n : Z) (l : list Z) (drop : Z) (r : raListTbl) : raListTbl := MkRa (ra r) n l (ra_tx_pause r) drop.
Definition set_ra_pause (b : bool) (r : raListTbl) : raListTbl := MkRa (ra r) (total_pkts r) (buf_head r) b (drop_count r).
Definition set_ra_addr (a : list Z) (r : raListTbl) : raListTbl := MkRa a (total_pkts r) (buf_head r) (ra_tx_pause r) (drop_count r).

Definition set_queues (t : list (list raListTbl)) (q : list Z) (p : wmm_priv) : wmm_priv :=
  MkPriv (bss_role_uap p) (bss_num p) (media_connected p) (priv_tx_pause p) (curr_addr p) (bssid p) t q (driver_error_cnt p).
Definition set_stat (c : pkt_stat) (p : wmm_priv) : wmm_priv :=
  MkPriv (bss_role_uap p) (bss_num p) (media_connected p) (priv_tx_pause p) (curr_addr p) (bssid p) (tid_tbl p) (pkts_queued p) c.
Definition set_priv_pause (b : bool) (p : wmm_priv) : wmm_priv :=
  MkPriv (bss_role_uap p) (bss_num p) (media_connected p) b (curr_addr p) (bssid p) (tid_tbl p) (pkts_queued p) (driver_error_cnt p).
Definition set_media (b : bool) (p : wmm_priv) : wmm_priv :=
  MkPriv (bss_role_uap p) (bss_num p) b (priv_tx_pause p) (curr_addr p) (bssid p) (tid_tbl p) (pkts_queued p) (driver_error_cnt p).

(** ** Statistics *)
Definition stat_no_media (c : pkt_stat) : pkt_stat :=
  MkStat (u16 (tx_no_media c + 1)) (tx_wmm_retried_drop c) (tx_wmm_pause_drop c) (tx_wmm_pause_replaced c).
Definition stat_retried_drop (c : pkt_stat) : pkt_stat :=
  MkStat (tx_no_media c) (u16 (tx_wmm_retried_drop c + 1)) (tx_wmm_pause_drop c) (tx_wmm_pause_replaced c).
Definition stat_pause_drop (c : pkt_stat) : pkt_stat :=
  MkStat (tx_no_media c) (tx_wmm_retried_drop c) (u16 (tx_wmm_pause_drop c + 1)) (tx_wmm_pause_replaced c).
Definition stat_pause_replaced (c : pkt_stat) : pkt_stat :=
  MkStat (tx_no_media c) (tx_wmm_retried_drop c) (tx_wmm_pause_drop c) (u16 (tx_wmm_pause_replaced c + 1)).
Definition count_drop (f : pkt_stat -> pkt_stat) (p : wmm_priv) : wmm_priv := set_stat (f (driver_error_cnt p)) p.
(** The functions of the code, for the interface they are called with. *)
Definition wifi_wmm_drop_no_media : wmm_priv -> wmm_priv := count_drop stat_no_media.
Definition wifi_wmm_drop_retried_drop : wmm_priv -> wmm_priv := count_drop stat_retried_drop.
Definition wifi_wmm_drop_pause_drop : wmm_priv -> wmm_priv := count_drop stat_pause_drop.
Definition wifi_wmm_drop_pause_replaced : wmm_priv -> wmm_priv := count_drop stat_pause_replaced.

(** ** The pool *)

(** [None]: no buffer is free.  The assertions end the program. *)
Definition wifi_wmm_buf_get (pool : outbuf_pool) : outcome (option Z * outbuf_pool) :=
  if free_cnt pool <? 0 then Fault Hang
  else if free_cnt pool =? 0 then Ret (None, pool)
  else match free_list pool with
       | [] => Fault Hang
       | b :: l => Ret (Some b, MkPool l (free_cnt pool - 1))
       end.

Definition wifi_wmm_buf_put (b : Z) (pool : outbuf_pool) : outcome outbuf_pool :=
  if negb (free_cnt pool <? MAX_WMM_BUF_NUM) then Fault Hang
  else Ret (MkPool (free_list pool ++ [b]) (free_cnt pool + 1)).

Definition wifi_wmm_buf_pool_init : outbuf_pool := MkPool (seqZ 0 MAX_WMM_BUF_NUM) MAX_WMM_BUF_NUM.

(** ** The lists of one interface *)

(** The position of the receiver in the list. *)
Fixpoint ralist_node (l : list raListTbl) (addr : list Z) (k : Z) : option Z :=
  match l with
  | [] => None
  | r :: l => if bool_decide (ra r = addr) then Some k else ralist_node l addr (k + 1)
  end.
Definition wlan_wmm_get_ralist_node (p : wmm_priv) (ac : Z) (addr : list Z) : outcome (option Z) :=
  l ← arr_get (tid_tbl p) ac; Ret (ralist_node l addr 0).

Definition wifi_wmm_da_to_ra (da : list Z) : outcome (list Z) :=
  d0 ← arr_get da 0;
  if Z.land d0 1 =? 1 then Ret (replicate 6 0xff) else mem_read da 0 6.

Definition get_ra (p : wmm_priv) (ac k : Z) : outcome raListTbl := l ← arr_get (tid_tbl p) ac; arr_get l k.
(** The record at a position replaced, and [d] added to the count of the
    category. *)
Definition put_ra (p : wmm_priv) (ac k : Z) (r : raListTbl) (d : Z) : outcome wmm_priv :=
  l ← arr_get (tid_tbl p) ac;
  l ← arr_set l k r;
  t ← arr_set (tid_tbl p) ac l;
  q ← arr_get (pkts_queued p) ac;
  q ← arr_set (pkts_queued p) ac (u32 (q + d));
  Ret (set_queues t q p).

(** Packets of a receiver given back to the pool; [l] is what is still queued. *)
Fixpoint pkts_free_loop (l : list Z) (ac k : Z) (p : wmm_priv) (pool : outbuf_pool) : outcome (wmm_priv * outbuf_pool) :=
  r ← get_ra p ac k;
  match l with
  | [] => p ← put_ra p ac k (set_ra_bufs 0 [] (drop_count r) r) 0; Ret (p, pool)
  | b :: l =>
      pool ← wifi_wmm_buf_put b pool;
      p ← put_ra p ac k (set_ra_bufs (total_pkts r) l (u16 (drop_count r + 1)) r) (-1);
      pkts_free_loop l ac k (wifi_wmm_drop_no_media p) pool
  end.
Definition wlan_ralist_pkts_free_enh (p : wmm_priv) (ac k : Z) (pool : outbuf_pool) : outcome (wmm_priv * outbuf_pool) :=
  r ← get_ra p ac k; pkts_free_loop (buf_head r) ac k p pool.

(** Memory: the answers of [moal_malloc], in order; it succeeds once they are
    used up. *)
Definition next_malloc (m : list bool) : bool * list bool :=
  match m with [] => (true, []) | b :: m => (b, m) end.

Definition wlan_ralist_alloc_enh (addr : list Z) (m : list bool) : option raListTbl * list bool :=
  let '(ok, m) := next_malloc m in ((if ok then Some (MkRa addr 0 [] false 0) else None), m).

Fixpoint ralist_add_loop (acs : list Z) (addr : list Z) (p : wmm_priv) (m : list bool) : outcome (wmm_priv * list bool) :=
  match acs with
  | [] => Ret (p, m)
  | i :: acs =>
      k ← wlan_wmm_get_ralist_node p i addr;
      match k with
      | Some _ => ralist_add_loop acs addr p m
      | None =>
          match wlan_ralist_alloc_enh addr m with
          | (None, m) => Ret (p, m)
          | (Some r, m) =>
              l ← arr_get (tid_tbl p) i;
              t ← arr_set (tid_tbl p) i (l ++ [r]);
              ralist_add_loop acs addr (set_queues t (pkts_queued p) p) m
          end
      end
  end.
Definition wlan_ralist_add_enh (p : wmm_priv) (addr : list Z) (m : list bool) : outcome (wmm_priv * list bool) :=
  ralist_add_loop MAX_AC_QUEUES addr p m.

(** The receiver gets another address; its packets are dropped. *)
Fixpoint ralist_update_loop (acs : list Z) (old_ra new_ra : list Z) (p : wmm_priv) (pool : outbuf_pool) (n : Z) :
  outcome (Z * wmm_priv * outbuf_pool) :=
  match acs with
  | [] => Ret (n, p, pool)
  | i :: acs =>
      k ← wlan_wmm_get_ralist_node p i old_ra;
      match k with
      | None => ralist_update_loop acs old_ra new_ra p pool n
      | Some k =>
          '(p, pool) ← wlan_ralist_pkts_free_enh p i k pool;
          r ← get_ra p i k;
          p ← put_ra p i k (set_ra_addr new_ra (set_ra_pause false r)) 0;
          ralist_update_loop acs old_ra new_ra p pool (n + 1)
      end
  end.
Definition wlan_ralist_update_enh (p : wmm_priv) (old_ra new_ra : list Z) (pool : outbuf_pool) : outcome (Z * wmm_priv * outbuf_pool) :=
  ralist_update_loop MAX_AC_QUEUES old_ra new_ra p pool 0.

(** The record at position [k] unlinked and its memory released. *)
Definition unlink_ra (p : wmm_priv) (ac k : Z) : outcome wmm_priv :=
  l ← arr_get (tid_tbl p) ac;
  t ← arr_set (tid_tbl p) ac (take (Z.to_nat k) l ++ drop (S (Z.to_nat k)) l);
  Ret (set_queues t (pkts_queued p) p).

Fixpoint ralist_del_loop (acs : list Z) (addr : list Z) (p : wmm_priv) (pool : outbuf_pool) : outcome (wmm_priv * outbuf_pool) :=
  match acs with
  | [] => Ret (p, pool)
  | i :: acs =>
      k ← wlan_wmm_get_ralist_node p i addr;
      match k with
      | None => ralist_del_loop acs addr p pool
      | Some k =>
          '(p, pool) ← wlan_ralist_pkts_free_enh p i k pool;
          p ← unlink_ra p i k;
          ralist_del_loop acs addr p pool
      end
  end.
Definition wlan_ralist_del_enh (p : wmm_priv) (addr : list Z) (pool : outbuf_pool) : outcome (wmm_priv * outbuf_pool) :=
  ralist_del_loop MAX_AC_QUEUES addr p pool.

(** The first record freed until there is none; [n] bounds their number.  The
    code unlinks the record before it frees the packets. *)
Fixpoint del_first_loop (n : nat) (ac : Z) (p : wmm_priv) (pool : outbuf_pool) : outcome (wmm_priv * outbuf_pool) :=
  l ← arr_get (tid_tbl p) ac;
  match l with
  | [] => Ret (p, pool)
  | _ :: _ =>
      match n with
      | O => Fault OutOfFuel
      | S n =>
          '(p, pool) ← wlan_ralist_pkts_free_enh p ac 0 pool;
          p ← unlink_ra p ac 0;
          del_first_loop n ac p pool
      end
  end.
Fixpoint ralist_del_all_loop (acs : list Z) (p : wmm_priv) (pool : outbuf_pool) : outcome (wmm_priv * outbuf_pool) :=
  match acs with
  | [] => Ret (p, pool)
  | i :: acs =>
      l ← arr_get (tid_tbl p) i;
      '(p, pool) ← del_first_loop (length l) i p pool;
      t ← arr_set (tid_tbl p) i [];
      q ← arr_set (pkts_queued p) i 0;
      ralist_del_all_loop acs (set_queues t q p) pool
  end.
Definition wlan_ralist_del_all_enh (p : wmm_priv) (pool : outbuf_pool) : outcome (wmm_priv * outbuf_pool) :=
  ralist_del_all_loop MAX_AC_QUEUES p pool.

(** ** Pause events ([mlan_glue.c]) *)

(** The flag of a receiver in every category. *)
Fixpoint pause_loop (acs : list Z) (addr : list Z) (b : bool) (p : wmm_priv) : outcome wmm_priv :=
  match acs with
  | [] => Ret p
  | i :: acs =>
      k ← wlan_wmm_get_ralist_node p i addr;
      match k with
      | None => pause_loop acs addr b p
      | Some k => r ← get_ra p i k; p ← put_ra p i k (set_ra_pause b r) 0; pause_loop acs addr b p
      end
  end.

(** The new state of the interface, and whether the transmit thread is woken. *)
Definition wifi_sta_handle_event_data_pause (p : wmm_priv) (peermac : list Z) (tx_pause : Z) : outcome (wmm_priv * bool) :=
  if negb (media_connected p) then Ret (p, false)
  else if bool_decide (bssid p = replicate 6 0) then Ret (p, false)
  else
    let b := negb (tx_pause =? 0) in
    p ← (if bool_decide (bssid p = peermac) then pause_loop MAX_AC_QUEUES peermac b (set_priv_pause b p) else Ret p);
    Ret (p, tx_pause =? 0).
Definition wifi_uap_handle_event_data_pause (p : wmm_priv) (peermac : list Z) (tx_pause : Z) : outcome (wmm_priv * bool) :=
  let b := negb (tx_pause =? 0) in
  p ← (if bool_decide (curr_addr p = peermac) then Ret (set_priv_pause b p) else pause_loop MAX_AC_QUEUES peermac b p);
  Ret (p, tx_pause =? 0).

(** ** The state *)
Record wmm (B : Type) := MkWmm {
  w_privs : list wmm_priv;       (* mlan_adap->priv[] *)
  w_bufs : list (list Z);        (* outbuf_arr: header, descriptor and data of each buffer *)
  w_pool : outbuf_pool;
  w_malloc : list bool;
  w_bus : B;
  w_notified : bool              (* the transmit thread has a notification *)
}.
Arguments MkWmm {B}.
Arguments w_privs {B}.
Arguments w_bufs {B}.
Arguments w_pool {B}.
Arguments w_malloc {B}.
Arguments w_bus {B}.
Arguments w_notified {B}.

Section queues.
Context {B : Type} `{TxBus B}.

Definition set_privs (l : list wmm_priv) (pool : outbuf_pool) (s : wmm B) : wmm B :=
  MkWmm l (w_bufs s) pool (w_malloc s) (w_bus s) (w_notified s).
Definition set_pool (pool : outbuf_pool) (s : wmm B) : wmm B := set_privs (w_privs s) pool s.
Definition set_bufs (m : list (list Z)) (s : wmm B) : wmm B :=
  MkWmm (w_privs s) m (w_pool s) (w_malloc s) (w_bus s) (w_notified s).
Definition set_malloc (m : list bool) (s : wmm B) : wmm B :=
  MkWmm (w_privs s) (w_bufs s) (w_pool s) m (w_bus s) (w_notified s).
Definition set_bus (b : B) (s : wmm B) : wmm B :=
  MkWmm (w_privs s) (w_bufs s) (w_pool s) (w_malloc s) b (w_notified s).
Definition set_notified (n : bool) (s : wmm B) : wmm B :=
  MkWmm (w_privs s) (w_bufs s) (w_pool s) (w_malloc s) (w_bus s) n.

Definition get_priv (i : Z) (s : wmm B) : outcome wmm_priv := arr_get (w_privs s) i.
Definition put_priv (i : Z) (p : wmm_priv) (pool : outbuf_pool) (s : wmm B) : outcome (wmm B) :=
  l ← arr_set (w_privs s) i p; Ret (set_privs l pool s).

Definition send_wifi_driver_tx_data_event (s : wmm B) : wmm B := set_notified true s.

(** The pause records of an event, in the order they come. *)
Fixpoint data_pause_loop (fuel : nat) (m : list Z) (bss_type tlv left : Z) (s : wmm B) : outcome (wmm B) :=
  if left <? 4 then Ret s
  else
    match fuel with
    | O => Fault OutOfFuel
    | S fuel =>
        tlv_type ← mem_read_le16 m tlv;
        tlv_len ← mem_read_le16 m (tlv + 2);
        if left <? 4 + tlv_len then Ret s
        else
          s ← (if (tlv_type =? TLV_TYPE_TX_PAUSE) && ((bss_type =? MLAN_BSS_TYPE_STA) || (bss_type =? MLAN_BSS_TYPE_UAP)) then
                 peermac ← mem_read m (tlv + 4) 6;
                 tx_pause ← arr_get m (tlv + 10);
                 p ← get_priv bss_type s;
                 '(p, wake) ← (if bss_type =? MLAN_BSS_TYPE_STA then wifi_sta_handle_event_data_pause p peermac tx_pause
                               else wifi_uap_handle_event_data_pause p peermac tx_pause);
                 s ← put_priv bss_type p (w_pool s) s;
                 Ret (if (wake : bool) then send_wifi_driver_tx_data_event s else s)
               else Ret s);
          data_pause_loop fuel m bss_type (tlv + 4 + tlv_len) (left - (4 + tlv_len)) s
    end.
Definition wifi_handle_event_data_pause (evt : list Z) (s : wmm B) : outcome (wmm B) :=
  len ← mem_read_le16 evt 0;
  bss_type ← arr_get evt 7;
  data_pause_loop (length evt) evt bss_type 8 (len - 8) s.

(** ** A buffer for a packet *)

(** The access category and the traffic identifier, by the header of IPv4 or
    IPv6. *)
Definition wifi_wmm_get_pkt_prio (buf : list Z) (tid : Z) : outcome (Z * Z) :=
  b12 ← arr_get buf 0xc;
  b13 ← arr_get buf 0xd;
  let is4 := (b12 =? 0x8) && (b13 =? 0x0) in
  if is4 || ((b12 =? 0x86) && (b13 =? 0xdd)) then
    tid ← (if is4 then b ← arr_get buf 0xf; Ret (b / 0x20)
           else b1 ← arr_get buf 0xe; b2 ← arr_get buf 0xf;
                Ret (u8 (Z.shiftr (Z.land (Z.lor (Z.shiftl b1 8) b2) 0x0ff0) 4 / 0x20)));
    Ret (if tid =? 0 then WMM_AC_BE
         else if (tid =? 1) || (tid =? 2) then WMM_AC_BK
         else if tid =? 3 then WMM_AC_BE
         else if (tid =? 4) || (tid =? 5) then WMM_AC_VI
         else if (tid =? 6) || (tid =? 7) then WMM_AC_VO
         else WMM_AC_BE, tid)
  else Ret (WMM_AC_BE, tid).

Definition wifi_wmm_is_tx_pause (interface queue : Z) (addr : list Z) (s : wmm B) : outcome bool :=
  if interface =? MLAN_BSS_TYPE_STA then p ← get_priv 0 s; Ret (priv_tx_pause p)
  else if interface =? MLAN_BSS_TYPE_UAP then
    p ← get_priv 1 s;
    if priv_tx_pause p then Ret true
    else
      k ← wlan_wmm_get_ralist_node p queue addr;
      match k with None => Ret false | Some k => r ← get_ra p queue k; Ret (ra_tx_pause r) end
  else Ret false.

(** The receivers whose oldest packet may be replaced. *)
Definition can_replace (priv_pause tx_pause : bool) (addr : list Z) (r : raListTbl) : bool :=
  negb (total_pkts r =? 0) &&
  (if priv_pause then true
   else if tx_pause then bool_decide (addr = ra r)
   else negb (bool_decide (addr = ra r)) && ra_tx_pause r).
Fixpoint find_replace (f : raListTbl -> bool) (l : list raListTbl) (k : Z) : option (Z * raListTbl * Z * list Z) :=
  match l with
  | [] => None
  | r :: l =>
      match f r, buf_head r with
      | true, b :: bs => Some (k, r, b, bs)
      | _, _ => find_replace f l (k + 1)
      end
  end.
Definition wifi_wmm_get_alter_buf_from_txqueue (interface : Z) (addr : list Z) (queue : Z) (tx_pause : bool) (s : wmm B) :
  outcome (option Z * wmm B) :=
  p ← get_priv interface s;
  q ← arr_get (pkts_queued p) queue;
  if q =? 0 then Ret (None, s)
  else
    l ← arr_get (tid_tbl p) queue;
    match find_replace (can_replace (priv_tx_pause p) tx_pause addr) l 0 with
    | None => Ret (None, s)
    | Some (k, r, b, bs) =>
        p ← put_ra p queue k (set_ra_bufs (u16 (total_pkts r - 1)) bs (u16 (drop_count r + 1)) r) (-1);
        s ← put_priv interface (wifi_wmm_drop_pause_replaced p) (w_pool s) s;
        Ret (Some b, s)
    end.
Fixpoint alter_loop (acs : list Z) (interface : Z) (addr : list Z) (tx_pause : bool) (s : wmm B) : outcome (option Z * wmm B) :=
  match acs with
  | [] => Ret (None, s)
  | i :: acs =>
      '(b, s) ← wifi_wmm_get_alter_buf_from_txqueue interface addr i tx_pause s;
      match b with Some b => Ret (Some b, s) | None => alter_loop acs interface addr tx_pause s end
  end.

(** The buffer and whether the receiver is paused. *)
Definition wifi_wmm_get_outbuf_enh (queue interface : Z) (addr : list Z) (s : wmm B) : outcome (option Z * bool * wmm B) :=
  tx_pause ← wifi_wmm_is_tx_pause interface queue addr s;
  if tx_pause : bool then Ret (None, true, s)
  else
    '(b, pool) ← wifi_wmm_buf_get (w_pool s);
    let s := set_pool pool s in
    match b with
    | Some b => Ret (Some b, false, s)
    | None => '(b, s) ← alter_loop MAX_AC_QUEUES interface addr tx_pause s; Ret (b, false, s)
    end.

(** ** A packet into its queue *)
Definition wlan_wmm_get_queue_raptr_enh (p : wmm_priv) (ac : Z) (addr : list Z) (m : list bool) :
  outcome (option Z * wmm_priv * list bool) :=
  k ← wlan_wmm_get_ralist_node p ac addr;
  match k with
  | Some k => Ret (Some k, p, m)
  | None =>
      if bss_role_uap p && negb (bool_decide (addr = replicate 6 0xff)) then Ret (None, p, m)
      else
        '(p, m) ← wlan_ralist_add_enh p addr m;
        k ← wlan_wmm_get_ralist_node p ac addr;
        Ret (k, p, m)
  end.

Definition wlan_wmm_add_buf_txqueue_enh (interface b pkt_prio : Z) (s : wmm B) : outcome (mlan_status * wmm B) :=
  let i := if interface =? MLAN_BSS_TYPE_STA then 0 else 1 in
  p ← get_priv i s;
  buf ← arr_get (w_bufs s) b;
  da ← mem_read buf (INTF_HEADER_LEN + sizeof_TxPD) 6;
  addr ← wifi_wmm_da_to_ra da;
  '(k, p, m) ← wlan_wmm_get_queue_raptr_enh p pkt_prio addr (w_malloc s);
  let s := set_malloc m s in
  match k with
  | None =>
      pool ← wifi_wmm_buf_put b (w_pool s);
      s ← put_priv i p pool s;
      Ret (MLAN_STATUS_FAILURE, s)
  | Some k =>
      r ← get_ra p pkt_prio k;
      p ← put_ra p pkt_prio k (set_ra_bufs (u16 (total_pkts r + 1)) (buf_head r ++ [b]) (drop_count r) r) 1;
      s ← put_priv i p (w_pool s) s;
      Ret (MLAN_STATUS_SUCCESS, s)
  end.

(** From the network stack, up to the request to set up an A-MPDU session.
    [awake]: the lock that keeps the card awake was taken. *)
Definition wifi_low_level_output (awake : bool) (interface b len pkt_prio tid : Z) (s : wmm B) : outcome (Z * wmm B) :=
  if negb awake then Fault Hang (* assert(0) *)
  else
    p ← get_priv interface s;
    if negb (media_connected p) then
      pool ← wifi_wmm_buf_put b (w_pool s);
      s ← put_priv interface (wifi_wmm_drop_no_media p) pool s;
      Ret (- WM_E_BUSY, s)
    else
      buf ← arr_get (w_bufs s) b;
      buf ← process_pkt_hdrs (bss_num p) buf (u32 (len - sizeof_mlan_linked_list)) interface tid;
      m ← arr_set (w_bufs s) b buf;
      '(r, s) ← wlan_wmm_add_buf_txqueue_enh interface b pkt_prio (set_bufs m s);
      if decide (r = MLAN_STATUS_SUCCESS) then Ret (0, send_wifi_driver_tx_data_event s)
      else
        p ← get_priv interface s;
        s ← put_priv interface (wifi_wmm_drop_no_media p) (w_pool s) s;
        Ret (- WM_E_BUSY, s).

(** ** Packets out of their queues *)

(** One packet to the bus; back to the front of its list when it is refused. *)
Definition wifi_xmit_pkts (i ac k : Z) (s : wmm B) : outcome (mlan_status * wmm B) :=
  p ← get_priv i s;
  r ← get_ra p ac k;
  match buf_head r with
  | [] => Fault Hang (* the assertion *)
  | b :: bs =>
      let total := u16 (total_pkts r - 1) in
      p ← put_ra p ac k (set_ra_bufs total bs (drop_count r) r) 0;
      buf ← arr_get (w_bufs s) b;
      tx_pkt_length ← mem_read_le16 buf (INTF_HEADER_LEN + 2);
      '(ret, bus) ← wlan_xmit i (tx_pkt_length + sizeof_TxPD + INTF_HEADER_LEN) buf (w_bus s);
      let s := set_bus bus s in
      if decide (ret = MLAN_STATUS_SUCCESS) then
        pool ← wifi_wmm_buf_put b (w_pool s);
        r ← get_ra p ac k;
        p ← put_ra p ac k r (-1);
        s ← put_priv i p pool s;
        Ret (MLAN_STATUS_SUCCESS, s)
      else
        p ← put_ra p ac k (set_ra_bufs (u16 (total + 1)) (b :: bs) (drop_count r) r) 0;
        s ← put_priv i p (w_pool s) s;
        Ret (MLAN_STATUS_RESOURCE, s)
  end.

(** The packets of one receiver; [n] bounds their number.  [pkt_cnt] is the
    number of packets taken by the bus since the last write. *)
Fixpoint xmit_ralist_loop (n : nat) (i ac k pkt_cnt : Z) (s : wmm B) : outcome (mlan_status * Z * wmm B) :=
  p ← get_priv i s;
  r ← get_ra p ac k;
  if 0 <? total_pkts r then
    match n with
    | O => Fault OutOfFuel
    | S n =>
        '(ret, s) ← wifi_xmit_pkts i ac k s;
        if decide (ret = MLAN_STATUS_SUCCESS) then
          let pkt_cnt := u8 (pkt_cnt + 1) in
          if SDIO_PAYLOAD_SIZE <=? pkt_cnt then
            '(_, bus) ← wlan_flush pkt_cnt (w_bus s);
            xmit_ralist_loop n i ac k 0 (set_bus bus s)
          else xmit_ralist_loop n i ac k pkt_cnt s
        else Ret (ret, pkt_cnt, s)
    end
  else Ret (MLAN_STATUS_SUCCESS, pkt_cnt, s).
Definition wifi_xmit_ralist_pkts (i ac k pkt_cnt : Z) (s : wmm B) : outcome (mlan_status * Z * wmm B) :=
  p ← get_priv i s;
  r ← get_ra p ac k;
  if ra_tx_pause r then Ret (MLAN_STATUS_SUCCESS, pkt_cnt, s)
  else xmit_ralist_loop (Z.to_nat (total_pkts r)) i ac k pkt_cnt s.

(** The receivers from position [k] on, [n] of them. *)
Fixpoint xmit_receivers (n : nat) (i ac k pkt_cnt : Z) (s : wmm B) : outcome (mlan_status * Z * wmm B) :=
  match n with
  | O => Ret (MLAN_STATUS_SUCCESS, pkt_cnt, s)
  | S n =>
      '(ret, pkt_cnt, s) ← wifi_xmit_ralist_pkts i ac k pkt_cnt s;
      if decide (ret = MLAN_STATUS_SUCCESS) then xmit_receivers n i ac (k + 1) pkt_cnt s
      else Ret (ret, pkt_cnt, s)
  end.
Fixpoint xmit_categories (acs : list Z) (i pkt_cnt : Z) (s : wmm B) : outcome (mlan_status * Z * wmm B) :=
  match acs with
  | [] => Ret (MLAN_STATUS_SUCCESS, pkt_cnt, s)
  | ac :: acs =>
      p ← get_priv i s;
      q ← arr_get (pkts_queued p) ac;
      if q =? 0 then xmit_categories acs i pkt_cnt s
      else
        l ← arr_get (tid_tbl p) ac;
        '(ret, pkt_cnt, s) ← xmit_receivers (length l) i ac 0 pkt_cnt s;
        if decide (ret = MLAN_STATUS_SUCCESS) then xmit_categories acs i pkt_cnt s
        else Ret (ret, pkt_cnt, s)
  end.
Fixpoint xmit_interfaces (ifs : list Z) (pkt_cnt : Z) (s : wmm B) : outcome (Z * wmm B) :=
  match ifs with
  | [] => Ret (pkt_cnt, s)
  | i :: ifs =>
      p ← get_priv i s;
      if negb (media_connected p) || priv_tx_pause p then xmit_interfaces ifs pkt_cnt s
      else
        '(ret, pkt_cnt, s) ← xmit_categories [WMM_AC_VO; WMM_AC_VI; WMM_AC_BE; WMM_AC_BK] i pkt_cnt s;
        if decide (ret = MLAN_STATUS_SUCCESS) then xmit_interfaces ifs pkt_cnt s else Ret (pkt_cnt, s)
  end.
Definition wifi_xmit_wmm_ac_pkts_enh (s : wmm B) : outcome (wmm B) :=
  '(pkt_cnt, s) ← xmit_interfaces [0; 1] 0 s;
  '(_, bus) ← wlan_flush pkt_cnt (w_bus s);
  Ret (set_bus bus s).

Definition wifi_wmm_get_packet_cnt (s : wmm B) : Z := u8 (MAX_WMM_BUF_NUM - free_cnt (w_pool s)).

(** One turn of the transmit thread after a notification for data; [awake] as
    above, and nothing is sent without the lock. *)
Definition wifi_driver_tx (awake : bool) (s : wmm B) : outcome (wmm B) :=
  if negb (w_notified s) then Ret s
  else
    let s := set_notified false s in
    if negb awake then Ret s
    else if 0 <? wifi_wmm_get_packet_cnt s then wifi_xmit_wmm_ac_pkts_enh s else Ret s.

(** ** From the network stack ([port/lwip/wifi_netif.c]) *)
Inductive err_t := ERR_OK | ERR_MEM | ERR_TIMEOUT.

Definition interface_drop (f : pkt_stat -> pkt_stat) (interface : Z) (s : wmm B) : outcome (wmm B) :=
  if (interface =? MLAN_BSS_TYPE_STA) || (interface =? MLAN_BSS_TYPE_UAP)
  then p ← get_priv interface s; put_priv interface (count_drop f p) (w_pool s) s
  else Ret s.

(** More attempts at a buffer, one per element of [yields]: the transmit thread
    is woken, and before the next attempt it runs, with the card awake or not,
    or does not run ([None]). *)
Fixpoint outbuf_retry (yields : list (option bool)) (queue interface : Z) (addr : list Z) (s : wmm B) : outcome (option Z * bool * wmm B) :=
  match yields with
  | [] => Ret (None, false, s)
  | y :: yields =>
      let s := send_wifi_driver_tx_data_event s in
      s ← (match y with Some awake => wifi_driver_tx awake s | None => Ret s end);
      '(b, paused, s) ← wifi_wmm_get_outbuf_enh queue interface addr s;
      match b, paused with
      | None, false => outbuf_retry yields queue interface addr s
      | _, _ => Ret (b, paused, s)
      end
  end.

(** [low_level_output] for the bytes of a packet.  [awake]: the card is awake in
    time when the packet is handed over.  [blocked]: the user stopped the
    traffic.  The first attempt is always made. *)
Definition low_level_output (awake blocked : bool) (yields : list (option bool)) (interface : Z) (payload : list Z) (s : wmm B) :
  outcome (err_t * wmm B) :=
  '(prio, tid) ← wifi_wmm_get_pkt_prio payload 0;
  if MLAN_BSS_TYPE_UAP <? interface then s ← interface_drop stat_no_media interface s; Ret (ERR_MEM, s)
  else if blocked then Ret (ERR_OK, s)
  else
    addr ← wifi_wmm_da_to_ra payload;
    '(b, paused, s) ← wifi_wmm_get_outbuf_enh prio interface addr s;
    '(b, paused, s) ← (match b, paused with
                       | None, false => outbuf_retry yields prio interface addr s
                       | _, _ => Ret (b, paused, s)
                       end);
    if paused : bool then s ← interface_drop stat_pause_drop interface s; Ret (ERR_MEM, s)
    else
      match b with
      | None => s ← interface_drop stat_retried_drop interface s; Ret (ERR_MEM, s)
      | Some b =>
          buf ← arr_get (w_bufs s) b;
          buf ← mem_write buf 0 (replicate (Z.to_nat (INTF_HEADER_LEN + sizeof_TxPD)) 0);
          buf ← mem_write buf (INTF_HEADER_LEN + sizeof_TxPD) payload;
          m ← arr_set (w_bufs s) b buf;
          let pkt_len := sizeof_mlan_linked_list + sizeof_TxPD + INTF_HEADER_LEN + Z.of_nat (length payload) in
          '(ret, s) ← wifi_low_level_output awake interface b (u16 pkt_len) prio tid (set_bufs m s);
          Ret (if ret =? 0 then ERR_OK else if ret =? - WM_E_BUSY then ERR_TIMEOUT else ERR_MEM, s)
      end.

(** ** Where the lists of receivers are made and dropped *)

(** Connected ([mlan_join.c]): the list of the old access point is given to the
    new one, or a new one is made. *)
Definition join_receivers (was_connected : bool) (old_bssid new_bssid : list Z) (s : wmm B) : outcome (wmm B) :=
  p ← get_priv 0 s;
  '(n, p, pool) ← (if was_connected then wlan_ralist_update_enh p old_bssid new_bssid (w_pool s) else Ret (0, p, w_pool s));
  '(p, m) ← (if n =? 0 then wlan_ralist_add_enh p new_bssid (w_malloc s) else Ret (p, w_malloc s));
  s ← put_priv 0 p pool s;
  Ret (set_malloc m s).

(** A station of the access point came ([EVENT_MICRO_AP_STA_ASSOC]) or went. *)
Definition uap_client_assoc (addr : list Z) (s : wmm B) : outcome (wmm B) :=
  p ← get_priv 1 s;
  '(p, pool) ← wlan_ralist_del_enh p addr (w_pool s);
  '(p, m) ← wlan_ralist_add_enh p addr (w_malloc s);
  s ← put_priv 1 p pool s;
  Ret (set_malloc m s).
Definition uap_client_deauth (addr : list Z) (s : wmm B) : outcome (wmm B) :=
  p ← get_priv 1 s;
  '(p, pool) ← wlan_ralist_del_enh p addr (w_pool s);
  put_priv 1 p pool s.
Definition clean_receivers (i : Z) (s : wmm B) : outcome (wmm B) :=
  p ← get_priv i s;
  '(p, pool) ← wlan_ralist_del_all_enh p (w_pool s);
  put_priv i p pool s.
End queues.
