(* ===== verification/WmmProps.v ===== *)
(** * Invariant of the transmit queues

    Every buffer is in one place: free, in the list of one receiver, or in the
    hands of a caller; and every count is the length of what it counts.  Each
    operation of the queues keeps this. *)
From S2P Require Import Prelude Aggr Sdio TxBus Wmm.

(** ** Lists *)
Lemma concat_insert_perm {A} (L : list (list A)) (i : nat) (x y : list A) :
  L !! i = Some x -> concat (<[i := y]> L) ++ x ≡ₚ concat L ++ y.
Proof.
  revert i. induction L as [| z L IH]; intros [| i] Hi; simplify_eq/=.
  - rewrite <- !(assoc_L (++)), (Permutation_app_comm (concat L) x), (Permutation_app_comm (concat L) y), !(assoc_L (++)).
    by rewrite (Permutation_app_comm y x).
  - rewrite <- !(assoc_L (++)). by rewrite (IH i Hi).
Qed.

Lemma concat_elem_sub {A} (L : list (list A)) (i : nat) (x : list A) : L !! i = Some x -> (length x <= length (concat L))%nat.
Proof.
  revert i. induction L as [| z L IH]; intros [| i] Hi; simplify_eq/=; rewrite length_app; [lia |].
  specialize (IH i Hi). lia.
Qed.

(** ** Counts of one interface *)
Definition ra_ok (r : raListTbl) : Prop := total_pkts r = Z.of_nat (length (buf_head r)).
Definition cat_bufs (l : list raListTbl) : list Z := concat (buf_head <$> l).
Definition priv_bufs (p : wmm_priv) : list Z := concat (cat_bufs <$> tid_tbl p).
Definition cat_count (l : list raListTbl) : Z := Z.of_nat (length (cat_bufs l)).

Record priv_ok (p : wmm_priv) : Prop := {
  po_length : length (tid_tbl p) = MAX_NUM_TID;
  po_totals : Forall (Forall ra_ok) (tid_tbl p);
  po_queued : pkts_queued p = cat_count <$> tid_tbl p;
  po_few : Z.of_nat (length (priv_bufs p)) <= MAX_WMM_BUF_NUM
}.
Definition pool_ok (pool : outbuf_pool) : Prop := free_cnt pool = Z.of_nat (length (free_list pool)).

(** A category and a receiver of it. *)
Definition has_cat (p : wmm_priv) (ac : Z) (l : list raListTbl) : Prop := 0 <= ac /\ tid_tbl p !! Z.to_nat ac = Some l.
Definition has_ra (p : wmm_priv) (ac k : Z) (r : raListTbl) : Prop :=
  exists l, has_cat p ac l /\ 0 <= k /\ l !! Z.to_nat k = Some r.

Lemma arr_set_lookup {A} (l : list A) i x y : 0 <= i -> l !! Z.to_nat i = Some x -> arr_set l i y = Ret (<[Z.to_nat i := y]> l).
Proof. intros Hi Hx. apply arr_set_ret. apply lookup_lt_Some in Hx. lia. Qed.

Lemma get_ra_has p ac k r : has_ra p ac k r -> get_ra p ac k = Ret r.
Proof.
  intros (l & [Hac Hl] & Hk & Hr). unfold get_ra. rewrite (proj2 (arr_get_ret _ _ _) (conj Hac Hl)), bind_ret.
  by apply arr_get_ret.
Qed.

Lemma has_ra_facts p ac k r : priv_ok p -> has_ra p ac k r ->
  ra_ok r /\ (length (buf_head r) <= length (priv_bufs p))%nat.
Proof.
  intros Hp (l & [Hac Hl] & Hk & Hr). destruct Hp as [_ Ht _ _]. split.
  - rewrite list.Forall_lookup in Ht. specialize (Ht _ _ Hl). rewrite list.Forall_lookup in Ht. by apply (Ht _ _ Hr).
  - transitivity (length (cat_bufs l)).
    + apply concat_elem_sub with (i := Z.to_nat k). by rewrite list_lookup_fmap, Hr.
    + apply concat_elem_sub with (i := Z.to_nat ac). by rewrite list_lookup_fmap, Hl.
Qed.

(** The interface with the receivers of category [ac] replaced and counted. *)
Definition with_cat (ac : Z) (l : list raListTbl) (p : wmm_priv) : wmm_priv :=
  set_queues (<[Z.to_nat ac := l]> (tid_tbl p)) (<[Z.to_nat ac := cat_count l]> (pkts_queued p)) p.

Lemma with_cat_bufs p ac l l' : has_cat p ac l -> priv_bufs (with_cat ac l' p) ++ cat_bufs l ≡ₚ priv_bufs p ++ cat_bufs l'.
Proof.
  intros [Hac Hl]. unfold priv_bufs, with_cat. cbn [tid_tbl set_queues]. rewrite list_fmap_insert.
  apply concat_insert_perm. by rewrite list_lookup_fmap, Hl.
Qed.

Lemma insert_bufs (l : list raListTbl) k r r' :
  l !! k = Some r -> cat_bufs (<[k := r']> l) ++ buf_head r ≡ₚ cat_bufs l ++ buf_head r'.
Proof. intros Hr. unfold cat_bufs. rewrite list_fmap_insert. apply concat_insert_perm. by rewrite list_lookup_fmap, Hr. Qed.

Lemma with_cat_ok p ac l l' : priv_ok p -> has_cat p ac l -> Forall ra_ok l' ->
  Z.of_nat (length (priv_bufs (with_cat ac l' p))) <= MAX_WMM_BUF_NUM -> priv_ok (with_cat ac l' p).
Proof.
  intros [Hlen Ht Hq _] [Hac Hl] Hok Hfew. split; cbn [tid_tbl pkts_queued set_queues with_cat].
  - by rewrite length_insert.
  - by apply Forall_insert.
  - by rewrite list_fmap_insert, Hq.
  - exact Hfew.
Qed.

(** A category with its count. *)
Definition cat_at (p : wmm_priv) (ac : Z) (l : list raListTbl) : Prop :=
  has_cat p ac l /\ pkts_queued p !! Z.to_nat ac = Some (cat_count l).

Lemma cat_at_ok p ac l : priv_ok p -> has_cat p ac l -> cat_at p ac l /\ cat_count l <= MAX_WMM_BUF_NUM.
Proof.
  intros Hp [Hac Hl]. split; [split; [done | by rewrite (po_queued _ Hp), list_lookup_fmap, Hl] |].
  transitivity (Z.of_nat (length (priv_bufs p))); [| apply Hp]. apply inj_le, concat_elem_sub with (i := Z.to_nat ac).
  by rewrite list_lookup_fmap, Hl.
Qed.

Lemma cat_at_with_cat p ac l l' : cat_at p ac l -> cat_at (with_cat ac l' p) ac l'.
Proof.
  intros [[Hac Hl] Hq]. apply lookup_lt_Some in Hl, Hq.
  split; [split; [done |] |]; cbn [tid_tbl pkts_queued set_queues with_cat]; by apply list_lookup_insert_eq.
Qed.

Lemma with_cat_twice p ac l l' : with_cat ac l' (with_cat ac l p) = with_cat ac l' p.
Proof. unfold with_cat, set_queues. cbn. by rewrite !list_insert_insert_eq. Qed.

Lemma cat_count_insert (l : list raListTbl) k r r' : l !! k = Some r ->
  cat_count (<[k := r']> l) = cat_count l + (Z.of_nat (length (buf_head r')) - Z.of_nat (length (buf_head r))).
Proof.
  intros Hr. pose proof (Permutation_length (insert_bufs l k r r' Hr)) as Hl. rewrite !length_app in Hl. unfold cat_count. lia.
Qed.

Lemma put_ra_ret p ac k l r r' d : cat_at p ac l -> 0 <= k -> l !! Z.to_nat k = Some r ->
  d = Z.of_nat (length (buf_head r')) - Z.of_nat (length (buf_head r)) -> cat_count l + d < 4294967296 ->
  put_ra p ac k r' d = Ret (with_cat ac (<[Z.to_nat k := r']> l) p).
Proof.
  intros [[Hac Hl] Hq] Hk Hr Hd Hb. unfold put_ra.
  rewrite (proj2 (arr_get_ret _ _ _) (conj Hac Hl)), bind_ret, (arr_set_lookup _ _ r) by done.
  rewrite bind_ret, (arr_set_lookup _ _ l), bind_ret by done.
  rewrite (proj2 (arr_get_ret _ _ _) (conj Hac Hq)), bind_ret, (arr_set_lookup _ _ _ _ Hac Hq), bind_ret.
  unfold with_cat. rewrite (cat_count_insert l _ r r' Hr), <- Hd. rewrite wrap_small; [done |]. change (2 ^ 32) with 4294967296.
  pose proof (cat_count_insert l _ r r' Hr). unfold cat_count in *. lia.
Qed.

(** [put_ra] with a record that is counted right. *)
Lemma put_ra_spec p ac k l r r' d : priv_ok p -> has_cat p ac l -> 0 <= k -> l !! Z.to_nat k = Some r -> ra_ok r' ->
  d = Z.of_nat (length (buf_head r')) - Z.of_nat (length (buf_head r)) ->
  Z.of_nat (length (priv_bufs p)) + d <= MAX_WMM_BUF_NUM ->
  let p' := with_cat ac (<[Z.to_nat k := r']> l) p in
  put_ra p ac k r' d = Ret p' /\ priv_ok p' /\ priv_bufs p' ++ buf_head r ≡ₚ priv_bufs p ++ buf_head r'.
Proof.
  intros Hp Hl Hk Hr Hok Hd Hfew p'. destruct (cat_at_ok p ac l Hp Hl) as [Hcat Hcc].
  pose proof (insert_bufs l _ r r' Hr) as Hperm.
  pose proof (with_cat_bufs p ac l (<[Z.to_nat k := r']> l) Hl) as Hperm2.
  assert (Hall : priv_bufs p' ++ buf_head r ≡ₚ priv_bufs p ++ buf_head r').
  { apply (Permutation_app_inv_r (cat_bufs l)). rewrite <- !(assoc_L (++)), (Permutation_app_comm (buf_head r)), (assoc_L (++)).
    unfold p'. rewrite Hperm2, <- (assoc_L (++)), Hperm. by rewrite (Permutation_app_comm (buf_head r')). }
  pose proof (Permutation_length Hall) as Hla. rewrite !length_app in Hla. pose proof (po_few _ Hp). unfold MAX_WMM_BUF_NUM in *.
  split; [| split; [| done]].
  - apply put_ra_ret with r; try done. lia.
  - apply with_cat_ok with l; try done; [| unfold MAX_WMM_BUF_NUM; unfold p' in Hla; lia].
    apply Forall_insert; [| done]. destruct Hp as [_ Ht _ _]. rewrite list.Forall_lookup in Ht. destruct Hl. by apply (Ht (Z.to_nat ac)).
Qed.

(** ** Freeing the packets of a receiver *)
Definition drops (n : nat) (p : wmm_priv) : wmm_priv := Nat.iter n wifi_wmm_drop_no_media p.
Definition drop_counts (n : nat) (c : Z) : Z := Nat.iter n (fun c => u16 (c + 1)) c.

Lemma drops_queues n p : tid_tbl (drops n p) = tid_tbl p /\ pkts_queued (drops n p) = pkts_queued p.
Proof. induction n as [| n [IH1 IH2]]; simpl; done. Qed.

Lemma drops_shift n p : drops n (wifi_wmm_drop_no_media p) = wifi_wmm_drop_no_media (drops n p).
Proof. induction n as [| n IH]; [done |]. simpl. by rewrite IH. Qed.

Lemma with_cat_drop ac l p : with_cat ac l (wifi_wmm_drop_no_media p) = wifi_wmm_drop_no_media (with_cat ac l p).
Proof. done. Qed.

Lemma with_cat_drops n ac l p : with_cat ac l (drops n p) = drops n (with_cat ac l p).
Proof. induction n as [| n IH]; [done |]. simpl. by rewrite with_cat_drop, IH. Qed.

Definition freed_ra (r : raListTbl) : raListTbl := set_ra_bufs 0 [] (drop_counts (length (buf_head r)) (drop_count r)) r.

Lemma drop_counts_shift n c : drop_counts n (u16 (c + 1)) = u16 (drop_counts n c + 1).
Proof. induction n as [| n IH]; [done |]. simpl. by rewrite IH. Qed.

Lemma buf_put_ret b pool : pool_ok pool -> (length (free_list pool) < 16)%nat ->
  wifi_wmm_buf_put b pool = Ret (MkPool (free_list pool ++ [b]) (free_cnt pool + 1)) /\
  pool_ok (MkPool (free_list pool ++ [b]) (free_cnt pool + 1)).
Proof.
  unfold pool_ok, wifi_wmm_buf_put, MAX_WMM_BUF_NUM. intros -> Hl. cbn [free_cnt free_list]. rewrite length_app. cbn [length].
  zbool; [split; [done | lia] | lia].
Qed.

Lemma pkts_free_ret bs p ac k l r pool : cat_at p ac l -> 0 <= k -> l !! Z.to_nat k = Some r -> buf_head r = bs ->
  pool_ok pool -> (length (free_list pool) + length bs <= 16)%nat -> cat_count l < 4294967296 ->
  exists pool', pkts_free_loop bs ac k p pool = Ret (with_cat ac (<[Z.to_nat k := freed_ra r]> l) (drops (length bs) p), pool') /\
    pool_ok pool' /\ free_list pool' = free_list pool ++ bs.
Proof.
  revert p l r pool. induction bs as [| b bs IH]; intros p l r pool Hcat Hk Hr Hb Hpool Hlen Hc.
  - exists pool. rewrite app_nil_r. split; [| done]. cbn [pkts_free_loop].
    rewrite (get_ra_has p ac k r) by (exists l; destruct Hcat; done). rewrite bind_ret.
    rewrite (put_ra_ret p ac k l r) by (try done; rewrite ?Hb; simpl; lia). rewrite bind_ret.
    unfold freed_ra. by rewrite Hb.
  - cbn [pkts_free_loop length] in *. rewrite (get_ra_has p ac k r) by (exists l; destruct Hcat; done). rewrite bind_ret.
    destruct (buf_put_ret b pool Hpool) as [-> Hpool1]; [lia |]. rewrite bind_ret.
    set (r1 := set_ra_bufs (total_pkts r) bs (u16 (drop_count r + 1)) r).
    rewrite (put_ra_ret p ac k l r r1) by (try done; rewrite ?Hb; simpl; lia). rewrite bind_ret.
    set (l1 := <[Z.to_nat k := r1]> l).
    assert (Hcat1 : cat_at (wifi_wmm_drop_no_media (with_cat ac l1 p)) ac l1) by (rewrite <- with_cat_drop; by apply cat_at_with_cat with l).
    assert (Hr1 : l1 !! Z.to_nat k = Some r1) by (apply list_lookup_insert_eq, (lookup_lt_Some _ _ _ Hr)).
    destruct (IH _ l1 r1 _ Hcat1 Hk Hr1 eq_refl Hpool1) as (pool' & E & Hp' & Hf).
    + cbn [free_list]. rewrite length_app. simpl. lia.
    + unfold l1. rewrite (cat_count_insert l _ r r1 Hr). cbn [r1 set_ra_bufs buf_head]. rewrite Hb. simpl. lia.
    + exists pool'. rewrite E. split; [| split; [done |]].
      * do 2 f_equal. unfold l1. rewrite list_insert_insert_eq, drops_shift, with_cat_drop, !with_cat_drops, with_cat_twice.
        unfold freed_ra. cbn [r1 set_ra_bufs buf_head drop_count]. rewrite Hb. cbn [length]. rewrite drop_counts_shift. done.
      * rewrite Hf. cbn [free_list]. by rewrite <- (assoc_L (++)).
Qed.

(** ** What the operations on one interface keep *)
Definition fits (p : wmm_priv) (pool : outbuf_pool) : Prop := (length (priv_bufs p) + length (free_list pool) <= 16)%nat.

(** The buffers of the interface and of the pool are the same as before. *)
Record conserved (p : wmm_priv) (pool : outbuf_pool) (p' : wmm_priv) (pool' : outbuf_pool) : Prop := {
  cv_priv : priv_ok p';
  cv_pool : pool_ok pool';
  cv_bufs : priv_bufs p' ++ free_list pool' ≡ₚ priv_bufs p ++ free_list pool;
  cv_sub : priv_bufs p' ⊆+ priv_bufs p
}.

Lemma conserved_refl p pool : priv_ok p -> pool_ok pool -> conserved p pool p pool.
Proof. done. Qed.

Lemma conserved_trans p1 o1 p2 o2 p3 o3 : conserved p1 o1 p2 o2 -> conserved p2 o2 p3 o3 -> conserved p1 o1 p3 o3.
Proof. intros [_ _ H1 S1] [? ? H2 S2]. split; [done | done | by rewrite H2 | by etrans]. Qed.

Lemma conserved_fits p o p' o' : conserved p o p' o' -> fits p o -> fits p' o'.
Proof. intros [_ _ H _] Hf. apply Permutation_length in H. rewrite !length_app in H. unfold fits in *. lia. Qed.

Lemma conserved_stat f p o p' o' : conserved p o p' o' -> conserved p o (count_drop f p') o'.
Proof. intros [[] ? ? ?]. split; [split; done | done..]. Qed.

Lemma drops_ok n p : priv_ok p -> priv_ok (drops n p) /\ priv_bufs (drops n p) = priv_bufs p.
Proof.
  intros [H1 H2 H3 H4]. destruct (drops_queues n p) as [E1 E2].
  assert (E : priv_bufs (drops n p) = priv_bufs p) by (unfold priv_bufs; by rewrite E1).
  split; [split; rewrite ?E, ?E1, ?E2; done | done].
Qed.

(** A category replaced by one with the same packets. *)
Lemma with_cat_conserved p pool ac l l' : priv_ok p -> pool_ok pool -> has_cat p ac l -> Forall ra_ok l' ->
  cat_bufs l' ≡ₚ cat_bufs l -> conserved p pool (with_cat ac l' p) pool.
Proof.
  intros Hp Hpool Hl Hok Hperm. pose proof (with_cat_bufs p ac l l' Hl) as Hb. rewrite Hperm in Hb.
  apply Permutation_app_inv_r in Hb. split; [| done | by rewrite Hb | by rewrite Hb].
  apply with_cat_ok with l; try done. rewrite (Permutation_length Hb). apply Hp.
Qed.

(** The other categories are as they were. *)
Definition other_cats (ac : Z) (p p' : wmm_priv) : Prop :=
  forall ac' l', ac' <> ac -> has_cat p ac' l' -> has_cat p' ac' l'.

Lemma with_cat_others ac l p : 0 <= ac -> other_cats ac p (with_cat ac l p).
Proof. intros Hac ac' l' Hne [Hac' Hl']. split; [done |]. cbn. by rewrite list_lookup_insert_ne by lia. Qed.

Lemma cat_ok p ac l : priv_ok p -> has_cat p ac l -> Forall ra_ok l.
Proof. intros [_ Ht _ _] [_ Hl]. rewrite list.Forall_lookup in Ht. by apply (Ht _ _ Hl). Qed.

Lemma pkts_free_spec p ac k l r pool : priv_ok p -> has_cat p ac l -> 0 <= k -> l !! Z.to_nat k = Some r -> pool_ok pool -> fits p pool ->
  exists p' pool', wlan_ralist_pkts_free_enh p ac k pool = Ret (p', pool') /\ conserved p pool p' pool' /\
    has_cat p' ac (<[Z.to_nat k := freed_ra r]> l) /\ free_list pool' = free_list pool ++ buf_head r /\
    other_cats ac p p'.
Proof.
  intros Hp Hl Hk Hr Hpool Hf. destruct (cat_at_ok p ac l Hp Hl) as [Hcat Hc].
  assert (Hra : has_ra p ac k r) by (by exists l). destruct (has_ra_facts p ac k r Hp Hra) as [_ Hlen].
  unfold wlan_ralist_pkts_free_enh. rewrite (get_ra_has p ac k r Hra), bind_ret.
  destruct (pkts_free_ret (buf_head r) p ac k l r pool Hcat Hk Hr eq_refl Hpool) as (pool' & E & Hp' & Hfl).
  { unfold fits in Hf. lia. }
  { unfold MAX_WMM_BUF_NUM in *. lia. }
  set (n := length (buf_head r)) in *. destruct (drops_ok n p Hp) as [Hd Hdb]. destruct (drops_queues n p) as [Et _].
  assert (Hl' : has_cat (drops n p) ac l) by (destruct Hl; split; [done | by rewrite Et]).
  eexists _, pool'. split; [exact E |]. pose proof (insert_bufs l (Z.to_nat k) r (freed_ra r) Hr) as Hperm.
  cbn [freed_ra set_ra_bufs buf_head] in Hperm. rewrite app_nil_r in Hperm.
  pose proof (with_cat_bufs (drops n p) ac l (<[Z.to_nat k := freed_ra r]> l) Hl') as Hb. rewrite Hdb, <- Hperm in Hb.
  assert (Hpb : priv_bufs (with_cat ac (<[Z.to_nat k := freed_ra r]> l) (drops n p)) ++ buf_head r ≡ₚ priv_bufs p).
  { apply (Permutation_app_inv_r (cat_bufs (<[Z.to_nat k := freed_ra r]> l))).
    rewrite <- (assoc_L (++)), (Permutation_app_comm (buf_head r)). done. }
  split; [split; [| done | |] | split; [| split; [done |]]].
  - apply with_cat_ok with l; try done.
    + apply Forall_insert; [by apply (cat_ok p ac) | done].
    + apply Permutation_length in Hpb. rewrite length_app in Hpb. pose proof (po_few _ Hp). lia.
  - rewrite Hfl, (Permutation_app_comm (free_list pool)), (assoc_L (++)), Hpb. done.
  - rewrite <- Hpb. by apply submseteq_inserts_r.
  - destruct Hl' as [Hac Hl']. split; [done |]. cbn. apply list_lookup_insert_eq, (lookup_lt_Some _ _ _ Hl').
  - intros ac' l1 Hne [Hac' Hl1]. apply with_cat_others; [by destruct Hl | done | split; [done | by rewrite Et]].
Qed.

Lemma ralist_node_some l addr j k : ralist_node l addr j = Some k -> 0 <= j ->
  j <= k /\ exists r, l !! Z.to_nat (k - j) = Some r /\ ra r = addr.
Proof.
  revert j. induction l as [| r l IH]; intros j; simpl; [done |]. case_bool_decide as E.
  - intros [= <-] Hj. split; [lia |]. exists r. by rewrite Z.sub_diag.
  - intros H Hj. apply IH in H as (Hk & r' & Hr' & Ha); [| lia]. split; [lia |]. exists r'. split; [| done].
    replace (Z.to_nat (k - j)) with (S (Z.to_nat (k - (j + 1)))) by lia. done.
Qed.

Lemma node_spec p ac addr : priv_ok p -> 0 <= ac < 8 ->
  exists l, has_cat p ac l /\ wlan_wmm_get_ralist_node p ac addr = Ret (ralist_node l addr 0) /\
    (forall k, ralist_node l addr 0 = Some k -> 0 <= k /\ exists r, l !! Z.to_nat k = Some r /\ ra r = addr).
Proof.
  intros Hp Hac. destruct (lookup_lt_is_Some_2 (tid_tbl p) (Z.to_nat ac)) as [l Hl].
  { rewrite (po_length _ Hp). unfold MAX_NUM_TID. lia. }
  exists l. split; [split; [lia | done] |]. split.
  - unfold wlan_wmm_get_ralist_node. by rewrite (proj2 (arr_get_ret _ _ _) (conj (proj1 Hac) Hl)), bind_ret.
  - intros k Hk. apply ralist_node_some in Hk as (? & r & Hr & Ha); [| done]. rewrite Z.sub_0_r in Hr. eauto.
Qed.

(** Categories [0] to [3]. *)
Definition cats_ok (acs : list Z) : Prop := Forall (fun ac => 0 <= ac < 8) acs.
Lemma all_cats_ok : cats_ok MAX_AC_QUEUES.
Proof. unfold cats_ok, MAX_AC_QUEUES. repeat (apply list.Forall_cons; split; [lia |]). by apply list.Forall_nil. Qed.

Lemma middle (l : list raListTbl) k r : l !! k = Some r -> l = take k l ++ r :: drop (S k) l.
Proof. intros H. by rewrite take_drop_middle. Qed.

Lemma unlink_spec p pool ac k l r : priv_ok p -> pool_ok pool -> has_cat p ac l -> l !! Z.to_nat k = Some r -> buf_head r = [] ->
  exists p', unlink_ra p ac k = Ret p' /\ conserved p pool p' pool /\
    has_cat p' ac (take (Z.to_nat k) l ++ drop (S (Z.to_nat k)) l) /\ other_cats ac p p'.
Proof.
  intros Hp Hpool Hl Hr Hb. destruct (cat_at_ok p ac l Hp Hl) as [[[Hac Hl'] Hq] _].
  set (l' := take (Z.to_nat k) l ++ drop (S (Z.to_nat k)) l).
  assert (Hbufs : cat_bufs l' = cat_bufs l).
  { rewrite (f_equal cat_bufs (middle l _ _ Hr)). unfold l', cat_bufs. rewrite !fmap_app, !concat_app. simpl. by rewrite Hb. }
  exists (with_cat ac l' p). split; [| split; [| split]].
  - unfold unlink_ra. rewrite (proj2 (arr_get_ret _ _ _) (conj Hac Hl')), bind_ret, (arr_set_lookup _ _ _ _ Hac Hl'), bind_ret.
    unfold with_cat. do 2 f_equal. symmetry. apply list_insert_id. rewrite Hq. unfold cat_count. by rewrite Hbufs.
  - apply with_cat_conserved with l; try done; [| by rewrite Hbufs].
    pose proof (cat_ok p ac l Hp Hl) as Hok. rewrite (middle l _ _ Hr) in Hok.
    apply list.Forall_app in Hok as [H1 H2]. apply list.Forall_cons in H2 as [_ H2]. by apply list.Forall_app.
  - split; [done |]. cbn. apply list_lookup_insert_eq, (lookup_lt_Some _ _ _ Hl').
  - by apply with_cat_others.
Qed.

(** Nothing was changed. *)
Ltac same_state := repeat eapply ex_intro; split; [reflexivity | by apply conserved_refl].

(** Freed and unlinked. *)
Lemma free_unlink_spec p ac k l r pool : priv_ok p -> has_cat p ac l -> 0 <= k -> l !! Z.to_nat k = Some r -> pool_ok pool -> fits p pool ->
  exists p1 p' pool', wlan_ralist_pkts_free_enh p ac k pool = Ret (p1, pool') /\ unlink_ra p1 ac k = Ret p' /\
    conserved p pool p' pool' /\ has_cat p' ac (take (Z.to_nat k) l ++ drop (S (Z.to_nat k)) l) /\
    free_list pool' = free_list pool ++ buf_head r /\ other_cats ac p p'.
Proof.
  intros Hp Hl Hk Hr Hpool Hf.
  destruct (pkts_free_spec p ac k l r pool Hp Hl Hk Hr Hpool Hf) as (p1 & pool' & E1 & C1 & Hl1 & Hfree & Ho1).
  assert (Hlt : (Z.to_nat k < length l)%nat) by (by apply lookup_lt_Some in Hr).
  destruct (unlink_spec p1 pool' ac k _ (freed_ra r) (cv_priv _ _ _ _ C1) (cv_pool _ _ _ _ C1) Hl1) as (p' & E2 & C2 & Hl2 & Ho2);
    [by apply list_lookup_insert_eq | done |].
  exists p1, p', pool'. split; [done |]. split; [done |]. split; [by apply conserved_trans with p1 pool' |].
  split; [| split; [done | intros ac' l' Hne Hl'; by apply Ho2, Ho1]].
  replace (take (Z.to_nat k) l ++ drop (S (Z.to_nat k)) l) with
    (take (Z.to_nat k) (<[Z.to_nat k := freed_ra r]> l) ++ drop (S (Z.to_nat k)) (<[Z.to_nat k := freed_ra r]> l)); [done |].
  rewrite take_insert_ge, drop_insert_lt by lia. done.
Qed.

Lemma del_loop_spec acs addr p pool : cats_ok acs -> priv_ok p -> pool_ok pool -> fits p pool ->
  exists p' pool', ralist_del_loop acs addr p pool = Ret (p', pool') /\ conserved p pool p' pool'.
Proof.
  intros Hacs. revert p pool. induction Hacs as [| i acs Hi _ IH]; intros p pool Hp Hpool Hf; cbn [ralist_del_loop]; [by same_state |].
  destruct (node_spec p i addr Hp Hi) as (l & Hl & -> & Hk). rewrite bind_ret.
  destruct (ralist_node l addr 0) as [k |] eqn:Ek; [| by apply IH].
  destruct (Hk k eq_refl) as (Hk0 & r & Hr & _).
  destruct (free_unlink_spec p i k l r pool Hp Hl Hk0 Hr Hpool Hf) as (p1 & p2 & pool2 & -> & E2 & C & _).
  rewrite bind_ret, E2, bind_ret. pose proof (conserved_fits _ _ _ _ C Hf).
  destruct (IH p2 pool2) as (p3 & pool3 & -> & C3); [apply C | apply C | done |].
  exists p3, pool3. split; [done |]. by apply conserved_trans with p2 pool2.
Qed.

Lemma add_loop_spec acs addr p pool m : cats_ok acs -> priv_ok p -> pool_ok pool ->
  exists p' m', ralist_add_loop acs addr p m = Ret (p', m') /\ conserved p pool p' pool.
Proof.
  intros Hacs. revert p m. induction Hacs as [| i acs Hi _ IH]; intros p m Hp Hpool; cbn [ralist_add_loop]; [by same_state |].
  destruct (node_spec p i addr Hp Hi) as (l & Hl & -> & _). rewrite bind_ret.
  destruct (ralist_node l addr 0); [by apply IH |]. unfold wlan_ralist_alloc_enh.
  destruct (next_malloc m) as [[] m']; [| by same_state]. destruct (cat_at_ok p i l Hp Hl) as [[[Hac Hl'] Hq] _].
  set (r := MkRa addr 0 [] false 0).
  assert (Hb : cat_bufs (l ++ [r]) = cat_bufs l) by (unfold cat_bufs; rewrite fmap_app, concat_app; simpl; by rewrite app_nil_r).
  rewrite (proj2 (arr_get_ret _ _ _) (conj Hac Hl')), bind_ret, (arr_set_lookup _ _ _ _ Hac Hl'), bind_ret.
  assert (Ew : set_queues (<[Z.to_nat i := l ++ [r]]> (tid_tbl p)) (pkts_queued p) p = with_cat i (l ++ [r]) p).
  { unfold with_cat. f_equal. symmetry. apply list_insert_id. unfold cat_count. by rewrite Hb. }
  rewrite Ew. assert (C : conserved p pool (with_cat i (l ++ [r]) p) pool).
  { apply with_cat_conserved with l; try done; [| by rewrite Hb].
    apply list.Forall_app. split; [by apply (cat_ok p i) | by apply list.Forall_singleton]. }
  destruct (IH (with_cat i (l ++ [r]) p) m') as (p3 & m3 & -> & C3); [apply C | done |].
  exists p3, m3. split; [done |]. by apply conserved_trans with (with_cat i (l ++ [r]) p) pool.
Qed.

(** A change of a record that leaves its packets. *)
Lemma put_ra_same p ac k l r r' pool : priv_ok p -> pool_ok pool -> has_cat p ac l -> 0 <= k -> l !! Z.to_nat k = Some r ->
  ra_ok r' -> buf_head r' = buf_head r ->
  exists p', put_ra p ac k r' 0 = Ret p' /\ conserved p pool p' pool.
Proof.
  intros Hp Hpool Hl Hk Hr Hok Hb. pose proof (po_few _ Hp).
  destruct (put_ra_spec p ac k l r r' 0 Hp Hl Hk Hr Hok) as (E & Hp' & Hperm); [rewrite Hb; lia | lia |].
  rewrite Hb in Hperm. apply Permutation_app_inv_r in Hperm. eexists. split; [exact E |]. split; [done | done | by rewrite Hperm | by rewrite Hperm].
Qed.

Lemma update_loop_spec acs old_ra new_ra p pool n : cats_ok acs -> priv_ok p -> pool_ok pool -> fits p pool ->
  exists n' p' pool', ralist_update_loop acs old_ra new_ra p pool n = Ret (n', p', pool') /\ conserved p pool p' pool'.
Proof.
  intros Hacs. revert p pool n. induction Hacs as [| i acs Hi _ IH]; intros p pool n Hp Hpool Hf; cbn [ralist_update_loop]; [by same_state |].
  destruct (node_spec p i old_ra Hp Hi) as (l & Hl & -> & Hk). rewrite bind_ret.
  destruct (ralist_node l old_ra 0) as [k |] eqn:Ek; [| by apply IH].
  destruct (Hk k eq_refl) as (Hk0 & r & Hr & _).
  destruct (pkts_free_spec p i k l r pool Hp Hl Hk0 Hr Hpool Hf) as (p1 & pool1 & -> & C1 & Hl1 & _). rewrite bind_ret.
  assert (Hr1 : <[Z.to_nat k := freed_ra r]> l !! Z.to_nat k = Some (freed_ra r)) by (by apply list_lookup_insert_eq, (lookup_lt_Some l _ r)).
  rewrite (get_ra_has p1 i k (freed_ra r)) by (eexists; done). rewrite bind_ret.
  destruct (put_ra_same p1 i k _ (freed_ra r) (set_ra_addr new_ra (set_ra_pause false (freed_ra r))) pool1
              (cv_priv _ _ _ _ C1) (cv_pool _ _ _ _ C1) Hl1 Hk0 Hr1) as (p2 & -> & C2); [done | done |].
  rewrite bind_ret. pose proof (conserved_trans _ _ _ _ _ _ C1 C2) as C. pose proof (conserved_fits _ _ _ _ C Hf).
  destruct (IH p2 pool1 (n + 1)) as (n3 & p3 & pool3 & -> & C3); [apply C | apply C | done |].
  exists n3, p3, pool3. split; [done |]. by apply conserved_trans with p2 pool1.
Qed.

Lemma pause_loop_spec acs addr b p pool : cats_ok acs -> priv_ok p -> pool_ok pool ->
  exists p', pause_loop acs addr b p = Ret p' /\ conserved p pool p' pool.
Proof.
  intros Hacs. revert p. induction Hacs as [| i acs Hi _ IH]; intros p Hp Hpool; cbn [pause_loop]; [by same_state |].
  destruct (node_spec p i addr Hp Hi) as (l & Hl & -> & Hk). rewrite bind_ret.
  destruct (ralist_node l addr 0) as [k |] eqn:Ek; [| by apply IH].
  destruct (Hk k eq_refl) as (Hk0 & r & Hr & _). rewrite (get_ra_has p i k r) by (eexists; done). rewrite bind_ret.
  assert (Hok : ra_ok r) by (pose proof (cat_ok p i l Hp Hl) as Hall; rewrite list.Forall_lookup in Hall; by apply (Hall _ _ Hr)).
  destruct (put_ra_same p i k l r (set_ra_pause b r) pool Hp Hpool Hl Hk0 Hr) as (p2 & -> & C2); [done | done |].
  rewrite bind_ret. destruct (IH p2) as (p3 & -> & C3); [apply C2 | done |].
  exists p3. split; [done |]. by apply conserved_trans with p2 pool.
Qed.

Lemma del_first_spec n ac l p pool : priv_ok p -> pool_ok pool -> fits p pool -> has_cat p ac l -> (length l <= n)%nat ->
  exists p' pool', del_first_loop n ac p pool = Ret (p', pool') /\ conserved p pool p' pool' /\ has_cat p' ac [] /\ other_cats ac p p'.
Proof.
  revert l p pool. induction n as [| n IH]; intros l p pool Hp Hpool Hf Hl Hn; cbn [del_first_loop];
    rewrite (proj2 (arr_get_ret _ _ _) Hl), bind_ret; (destruct l as [| r l];
      [exists p, pool; split; [done |]; split; [by apply conserved_refl | split; [done | by intros ?]] |]); [simpl in Hn; lia |].
  destruct (free_unlink_spec p ac 0 (r :: l) r pool Hp Hl ltac:(lia) eq_refl Hpool Hf) as (p1 & p2 & pool2 & -> & E2 & C & Hl2 & _ & Ho).
  rewrite bind_ret, E2, bind_ret. pose proof (conserved_fits _ _ _ _ C Hf).
  destruct (IH l p2 pool2) as (p3 & pool3 & -> & C3 & Hl3 & Ho3); [apply C | apply C | done | done | simpl in Hn; lia |].
  exists p3, pool3. split; [done |]. split; [by apply conserved_trans with p2 pool2 |]. split; [done |].
  intros ac' l' Hne Hl'. by apply Ho3, Ho.
Qed.

Lemma del_all_spec acs p pool : cats_ok acs -> NoDup acs -> priv_ok p -> pool_ok pool -> fits p pool ->
  exists p' pool', ralist_del_all_loop acs p pool = Ret (p', pool') /\ conserved p pool p' pool' /\
    Forall (fun ac => has_cat p' ac []) acs /\ (forall ac l, ac ∉ acs -> has_cat p ac l -> has_cat p' ac l).
Proof.
  intros Hacs. revert p pool. induction Hacs as [| i acs Hi _ IH]; intros p pool Hnd Hp Hpool Hf; cbn [ralist_del_all_loop].
  { exists p, pool. split; [done |]. split; [by apply conserved_refl |]. split; [by apply list.Forall_nil | done]. }
  apply list.NoDup_cons in Hnd as [Hni Hnd]. destruct (node_spec p i [] Hp Hi) as (l & Hl & _).
  rewrite (proj2 (arr_get_ret _ _ _) Hl), bind_ret.
  destruct (del_first_spec (length l) i l p pool Hp Hpool Hf Hl ltac:(done)) as (p1 & pool1 & -> & C1 & Hl1 & Ho1).
  rewrite bind_ret. destruct (cat_at_ok p1 i [] (cv_priv _ _ _ _ C1) Hl1) as [[[Hac Hl1'] Hq1] _].
  rewrite (arr_set_lookup _ _ _ _ Hac Hl1'), bind_ret, (arr_set_lookup _ _ _ _ Hac Hq1), bind_ret.
  change (set_queues _ _ p1) with (with_cat i [] p1).
  assert (C2 : conserved p1 pool1 (with_cat i [] p1) pool1) by (apply with_cat_conserved with []; try done; apply C1).
  pose proof (conserved_trans _ _ _ _ _ _ C1 C2) as C. pose proof (conserved_fits _ _ _ _ C Hf).
  destruct (IH (with_cat i [] p1) pool1 Hnd) as (p3 & pool3 & -> & C3 & Hall & Ho3); [apply C | apply C | done |].
  assert (Hi2 : has_cat (with_cat i [] p1) i []) by (split; [done |]; apply list_lookup_insert_eq, (lookup_lt_Some _ _ _ Hl1')).
  exists p3, pool3. split; [done |]. split; [by apply conserved_trans with (with_cat i [] p1) pool1 |]. split.
  - apply list.Forall_cons. split; [by apply Ho3 | done].
  - intros ac l' [Hne Hni']%not_elem_of_cons Hl'. apply Ho3; [done |]. apply with_cat_others; [done | done | by apply Ho1].
Qed.
