(* ===== verification/WmmState.v ===== *)
(** * The transmit queues as a whole

    The invariant of the queues, the pool, the buffers and the bus, and what
    each call does to it. *)
From S2P Require Import Prelude Aggr Sdio TxBus Wmm WmmProps.

(** ** Packet headers *)
Definition OUTBUF_LEN : nat := 1606.

Lemma u8_byte z : is_byte (u8 z).
Proof. apply (wrap_range 8 z). lia. Qed.
Lemma le16_bytes z : bytes (le16 z).
Proof. unfold le16. repeat (apply list.Forall_cons; split; [apply u8_byte |]). by apply list.Forall_nil. Qed.

Lemma mem_write_front {A} (old post bs : list A) : length old = length bs -> mem_write (old ++ post) 0 bs = Ret (bs ++ post).
Proof. exact (mem_write_app [] old post bs 0 eq_refl). Qed.

(** What [process_pkt_hdrs] makes of a buffer: the length in both headers, and
    the data as it was. *)
Lemma process_pkt_hdrs_spec bss m len i tid : length m = OUTBUF_LEN -> bytes m -> 26 <= len <= 1606 ->
  exists m', process_pkt_hdrs bss m len i tid = Ret m' /\ length m' = OUTBUF_LEN /\ bytes m' /\
    mem_read_le16 m' (INTF_HEADER_LEN + 2) = Ret (len - 26) /\ drop 26 m' = drop 26 m /\
    mem_read_le16 m' 0 = Ret len.
Proof.
  unfold OUTBUF_LEN. intros Hl Hb Hlen.
  destruct (split_block m 2) as (A & m0 & -> & HA & H0); [lia |]. rewrite length_app in Hl.
  destruct (split_block m0 2) as (A2 & m1 & -> & HA2 & H1); [lia |]. rewrite length_app in *.
  destruct (split_block m1 6) as (B & m2 & -> & HB & H2); [lia |]. rewrite length_app in *.
  destruct (split_block m2 2) as (T & m3 & -> & HT & H3); [lia |]. rewrite length_app in *.
  destruct (split_block m3 7) as (D & E & -> & HD & H4); [lia |]. rewrite length_app in *.
  apply list.Forall_app in Hb as [HbA Hb]. apply list.Forall_app in Hb as [HbA2 Hb]. apply list.Forall_app in Hb as [HbB Hb].
  apply list.Forall_app in Hb as [HbT Hb]. apply list.Forall_app in Hb as [HbD HbE].
  unfold process_pkt_hdrs, mem_read_le16, INTF_HEADER_LEN.
  rewrite (assoc_L (++) A A2), (assoc_L (++) (A ++ A2) B), (mem_read_app ((A ++ A2) ++ B) T) by (rewrite ?length_app; lia). rewrite !bind_ret, <- !(assoc_L (++)).
  set (off := le16 (if of_le16 T =? 0xe5 then 20 else 22)). set (lenf := le16 (len - 0x16 - 4)).
  set (B' := [u8 i; u8 bss] ++ lenf ++ off). set (D' := [0; 0; 0; 0; u8 tid; 0; 0]).
  rewrite (assoc_L (++) A A2), (mem_write_app (A ++ A2) B _ B') by (rewrite ?length_app; done || lia). rewrite bind_ret.
  assert (E1 : (A ++ A2) ++ B' ++ T ++ D ++ E = (A ++ A2 ++ B' ++ T) ++ D ++ E) by (by rewrite <- !(assoc_L (++))).
  rewrite E1, (mem_write_app (A ++ A2 ++ B' ++ T) D E D') by (rewrite ?length_app, ?HD, ?HA, ?HA2, ?HT; done). rewrite bind_ret.
  assert (bytes B').
  { apply list.Forall_app_2; [| apply list.Forall_app_2; apply le16_bytes].
    repeat (apply list.Forall_cons; split; [apply u8_byte |]). by apply list.Forall_nil. }
  assert (bytes D').
  { unfold D', is_byte. repeat (apply list.Forall_cons; split; [first [apply u8_byte | lia] |]). by apply list.Forall_nil. }
  pose proof (le16_bytes len) as HF. set (F := le16 len) in *. rewrite <- !(assoc_L (++)), (mem_write_front A) by done.
  cbn [app]. eexists. split; [reflexivity |]. split; [| split; [| split; [| split]]].
  - rewrite !length_app, HA2, HT, H4. simpl. lia.
  - repeat (apply list.Forall_app_2; [done |]). done.
  - unfold B'. rewrite <- !(assoc_L (++)). rewrite (assoc_L (++) F), (assoc_L (++) (F ++ A2)).
    rewrite (mem_read_app ((F ++ A2) ++ [u8 i; u8 bss]) lenf) by (rewrite ?length_app, ?HA2; done).
    rewrite bind_ret. unfold lenf. rewrite of_le16_le16 by lia. f_equal. lia.
  - change 26%nat with (19 + 7)%nat. rewrite <- !drop_drop, !(assoc_L (++)), !drop_app_length'; [done | |];
      rewrite !length_app, ?HA, ?HA2, ?HB, ?HT, ?HD; reflexivity.
  - rewrite (mem_read_head F) by done. rewrite bind_ret. unfold F. by rewrite of_le16_le16 by lia.
Qed.

(** ** The invariant *)
Section state.
Context {B : Type} `{HB : TxBus B}.
(** The packets the bus has taken and not yet written. *)
Context (pend : list (list Z)).
Implicit Types (s : wmm B) (held : list Z) (pool : outbuf_pool).

Definition queued s : list Z := concat (priv_bufs <$> w_privs s).

(** A buffer with a packet ready to go: its descriptor has a length that fits. *)
Definition buf_ready (bufs : list (list Z)) (b : Z) : Prop :=
  exists m n, bufs !! Z.to_nat b = Some m /\ mem_read_le16 m (INTF_HEADER_LEN + 2) = Ret n /\ 0 <= n <= WMM_DATA_LEN.

(** [held] are the buffers in the hands of the network stack. *)
Record wmm_ok s held : Prop := {
  wo_two : length (w_privs s) = 2%nat;
  wo_privs : Forall priv_ok (w_privs s);
  wo_pool : pool_ok (w_pool s);
  wo_owned : free_list (w_pool s) ++ queued s ++ held ≡ₚ seqZ 0 MAX_WMM_BUF_NUM;
  wo_count : length (w_bufs s) = 16%nat;
  wo_bufs : Forall (fun m => length m = OUTBUF_LEN /\ bytes m) (w_bufs s);
  wo_ready : Forall (buf_ready (w_bufs s)) (queued s);
  wo_bus : exists sent, bus_rep (w_bus s) sent pend
}.

Lemma owned_length s held : wmm_ok s held -> (length (free_list (w_pool s)) + length (queued s) + length held = 16)%nat.
Proof. intros I. pose proof (Permutation_length (wo_owned _ _ I)) as Hl. rewrite !length_app in Hl. rewrite length_seqZ in Hl. change (Z.to_nat MAX_WMM_BUF_NUM) with 16%nat in Hl. lia. Qed.

Lemma get_priv_spec s held i : wmm_ok s held -> 0 <= i <= 1 ->
  exists p, get_priv i s = Ret p /\ w_privs s !! Z.to_nat i = Some p /\ priv_ok p /\ fits p (w_pool s).
Proof.
  intros I Hi. destruct (arr_get_total (w_privs s) i) as (p & E & Hp); [rewrite (wo_two _ _ I); lia |].
  exists p. split; [done |]. split; [done |]. pose proof (wo_privs _ _ I) as Hps. rewrite list.Forall_lookup in Hps.
  split; [by apply (Hps _ _ Hp) |]. unfold fits. pose proof (owned_length s held I).
  assert (length (priv_bufs p) <= length (queued s))%nat; [| lia].
  apply concat_elem_sub with (i := Z.to_nat i). by rewrite list_lookup_fmap, Hp.
Qed.

Lemma put_priv_ret s i p p' pool : 0 <= i -> w_privs s !! Z.to_nat i = Some p ->
  put_priv i p' pool s = Ret (set_privs (<[Z.to_nat i := p']> (w_privs s)) pool s).
Proof. intros Hi Hp. unfold put_priv. by rewrite (arr_set_lookup _ _ _ _ Hi Hp), bind_ret. Qed.

(** The interface at [i] replaced: what has to be shown of it. *)
Lemma put_priv_ok s held held' i p p' pool :
  wmm_ok s held -> w_privs s !! i = Some p -> priv_ok p' -> pool_ok pool ->
  priv_bufs p' ++ free_list pool ++ held' ≡ₚ priv_bufs p ++ free_list (w_pool s) ++ held ->
  (forall b, b ∈ priv_bufs p' -> b ∈ priv_bufs p \/ buf_ready (w_bufs s) b) ->
  wmm_ok (set_privs (<[i := p']> (w_privs s)) pool s) held'.
Proof.
  intros [H1 H2 H3 H4 H5 H6 H7 H8] Hp Hok Hpool Hperm Hr.
  assert (Hq : queued (set_privs (<[i := p']> (w_privs s)) pool s) ++ priv_bufs p ≡ₚ queued s ++ priv_bufs p').
  { unfold queued. cbn. rewrite list_fmap_insert. apply concat_insert_perm. by rewrite list_lookup_fmap, Hp. }
  split; try done.
  - cbn. by rewrite length_insert.
  - cbn. by apply Forall_insert.
  - rewrite <- H4. apply (Permutation_app_inv_r (priv_bufs p)). cbn [set_privs w_pool].
    rewrite (Permutation_app_comm (free_list pool)), <- !(assoc_L (++)).
    rewrite (assoc_L (++) held'), (Permutation_app_comm (held' ++ free_list pool)), (assoc_L (++)), Hq.
    rewrite <- (assoc_L (++)), (Permutation_app_comm held'), Hperm.
    rewrite (assoc_L (++) (free_list (w_pool s))), (Permutation_app_comm (free_list (w_pool s)) (queued s)).
    rewrite <- !(assoc_L (++)). f_equiv. rewrite Permutation_app_comm. by rewrite <- (assoc_L (++)).
  - rewrite list.Forall_forall in *. intros b Hb. cbn [set_privs w_bufs] in *.
    assert (Hin : b ∈ queued s ++ priv_bufs p') by (rewrite <- Hq; apply elem_of_app; by left).
    apply elem_of_app in Hin as [Hin | Hin]; [by apply H7 |]. destruct (Hr b Hin) as [Hold |]; [| done].
    apply H7. unfold queued. apply list_elem_of_In, in_concat. exists (priv_bufs p).
    split; apply list_elem_of_In; [apply list_elem_of_fmap; exists p; split; [done | by apply list_elem_of_lookup_2 in Hp] | done].
Qed.

Lemma put_priv_conserved s held i p p' pool :
  wmm_ok s held -> 0 <= i -> w_privs s !! Z.to_nat i = Some p -> conserved p (w_pool s) p' pool ->
  exists s', put_priv i p' pool s = Ret s' /\ wmm_ok s' held /\ w_bufs s' = w_bufs s /\ w_bus s' = w_bus s /\ w_malloc s' = w_malloc s.
Proof.
  intros I Hi Hp [Hok Hpool Hb Hs]. rewrite (put_priv_ret s i p) by done. eexists. split; [done |]. split; [| done].
  apply put_priv_ok with held p; try done.
  - by rewrite (assoc_L (++)), Hb, <- (assoc_L (++)).
  - intros b Hb'. left. by apply (elem_of_submseteq _ _ b) in Hs.
Qed.

(** ** A buffer for a packet *)
Lemma set_pool_ok s held held' pool : wmm_ok s held -> pool_ok pool ->
  free_list pool ++ held' ≡ₚ free_list (w_pool s) ++ held -> wmm_ok (set_pool pool s) held'.
Proof.
  intros [H1 H2 H3 H4 H5 H6 H7 H8] Hpool Hperm. split; try done.
  change (queued (set_pool pool s)) with (queued s). cbn [w_pool set_pool set_privs]. rewrite <- H4.
  rewrite (Permutation_app_comm (queued s)), (assoc_L (++)), Hperm, <- (assoc_L (++)). by rewrite (Permutation_app_comm held).
Qed.

Lemma is_tx_pause_ret s held interface queue addr : wmm_ok s held -> 0 <= interface <= 1 -> 0 <= queue < 8 ->
  exists b, wifi_wmm_is_tx_pause interface queue addr s = Ret b.
Proof.
  intros I Hi Hq. unfold wifi_wmm_is_tx_pause. destruct (get_priv_spec s held 0 I) as (p0 & -> & _); [lia |].
  destruct (get_priv_spec s held 1 I) as (p1 & -> & _ & Hp1 & _); [lia |]. rewrite !bind_ret.
  destruct (_ =? MLAN_BSS_TYPE_STA); [by eauto |]. destruct (_ =? MLAN_BSS_TYPE_UAP); [| by eauto].
  destruct (priv_tx_pause p1); [by eauto |].
  destruct (node_spec p1 queue addr Hp1 Hq) as (l & Hl & -> & Hk). rewrite bind_ret.
  destruct (ralist_node l addr 0) as [k |]; [| by eauto]. destruct (Hk k eq_refl) as (Hk0 & r & Hr & _).
  rewrite (get_ra_has p1 queue k r) by (by exists l). rewrite bind_ret. by eauto.
Qed.

Lemma find_replace_some f l j k r b bs : find_replace f l j = Some (k, r, b, bs) -> 0 <= j ->
  j <= k /\ l !! Z.to_nat (k - j) = Some r /\ buf_head r = b :: bs /\ f r = true.
Proof.
  revert j. induction l as [| r' l IH]; intros j; simpl; [done |]. intros H Hj.
  assert (Hnext : find_replace f l (j + 1) = Some (k, r, b, bs) ->
            j <= k /\ (r' :: l) !! Z.to_nat (k - j) = Some r /\ buf_head r = b :: bs /\ f r = true).
  { intros H'. apply IH in H' as (? & Hl & ? & ?); [| lia]. split; [lia |]. split; [| done].
    replace (Z.to_nat (k - j)) with (S (Z.to_nat (k - (j + 1)))) by lia. done. }
  destruct (f r') eqn:Ef; [| by apply Hnext]. destruct (buf_head r') eqn:Eb; [by apply Hnext |].
  simplify_eq. rewrite Z.sub_diag. by split_and!.
Qed.

(** The oldest packet of a receiver taken out of its list. *)
Lemma take_oldest p ac k l r b bs drop : priv_ok p -> has_cat p ac l -> 0 <= k -> l !! Z.to_nat k = Some r -> buf_head r = b :: bs ->
  let r' := set_ra_bufs (u16 (total_pkts r - 1)) bs drop r in
  let p' := with_cat ac (<[Z.to_nat k := r']> l) p in
  put_ra p ac k r' (-1) = Ret p' /\ priv_ok p' /\ b :: priv_bufs p' ≡ₚ priv_bufs p /\ ra_ok r'.
Proof.
  intros Hp Hl Hk Hr Hb r' p'. destruct (has_ra_facts p ac k r Hp) as [Hok Hlen]; [by exists l |].
  unfold ra_ok in Hok. pose proof (po_few _ Hp) as Hfew. unfold MAX_WMM_BUF_NUM in Hfew. rewrite Hb in Hok, Hlen. simpl in Hok, Hlen.
  assert (Hok' : ra_ok r') by (unfold ra_ok, r'; cbn; rewrite wrap_small; [lia | change (2 ^ 16) with 65536; lia]).
  destruct (put_ra_spec p ac k l r r' (-1) Hp Hl Hk Hr Hok') as (E & Hp' & Hperm); [cbn; rewrite Hb; simpl; lia | unfold MAX_WMM_BUF_NUM; lia |].
  split; [done |]. split; [done |]. split; [| done].
  cbn [r' set_ra_bufs buf_head] in Hperm. rewrite Hb in Hperm. apply (Permutation_app_inv_r bs). rewrite <- Hperm.
  cbn. by rewrite Permutation_middle.
Qed.

Lemma alter_buf_ok s held interface addr queue tx_pause : wmm_ok s held -> 0 <= interface <= 1 -> 0 <= queue < 8 ->
  exists b s', wifi_wmm_get_alter_buf_from_txqueue interface addr queue tx_pause s = Ret (b, s') /\
    wmm_ok s' (option_list b ++ held).
Proof.
  intros I Hi Hq. unfold wifi_wmm_get_alter_buf_from_txqueue.
  destruct (get_priv_spec s held interface I Hi) as (p & -> & Hp & Hok & _). rewrite bind_ret.
  destruct (node_spec p queue addr Hok Hq) as (l & Hl & _). destruct (cat_at_ok p queue l Hok Hl) as [[[Hac Hl'] Hqq] _].
  rewrite (proj2 (arr_get_ret _ _ _) (conj Hac Hqq)), bind_ret. destruct (_ =? 0); [by exists None, s |].
  rewrite (proj2 (arr_get_ret _ _ _) (conj Hac Hl')), bind_ret.
  destruct (find_replace _ l 0) as [[[[k r] b] bs] |] eqn:Ef; [| by exists None, s].
  apply find_replace_some in Ef as (Hk & Hr & Hb & _); [| done]. rewrite Z.sub_0_r in Hr.
  destruct (take_oldest p queue k l r b bs (u16 (drop_count r + 1)) Hok Hl Hk Hr Hb) as (-> & Hok' & Hperm & _). rewrite bind_ret.
  rewrite (put_priv_ret s interface p) by (done || lia). rewrite bind_ret. eexists (Some b), _. split; [done |].
  apply put_priv_ok with held p; try done.
  - destruct Hok'. split; done.
  - apply I.
  - change (priv_bufs (wifi_wmm_drop_pause_replaced ?x)) with (priv_bufs x). rewrite <- Hperm. cbn [option_list app].
    change (option_list (Some b) ++ held) with (b :: held). rewrite <- !Permutation_middle. done.
  - intros b' Hb'. left. rewrite <- Hperm. apply elem_of_cons. by right.
Qed.

Lemma alter_loop_ok s held acs interface addr tx_pause : cats_ok acs -> wmm_ok s held -> 0 <= interface <= 1 ->
  exists b s', alter_loop acs interface addr tx_pause s = Ret (b, s') /\ wmm_ok s' (option_list b ++ held).
Proof.
  intros Hacs. revert s. induction Hacs as [| i acs Hi _ IH]; intros s I Hif; cbn [alter_loop]; [by exists None, s |].
  destruct (alter_buf_ok s held interface addr i tx_pause I Hif Hi) as (b & s1 & -> & I1). rewrite bind_ret.
  destruct b as [b |]; [by exists (Some b), s1 | by apply IH].
Qed.

(** A buffer that is given out was free, or held the oldest packet of a paused
    receiver. *)
Lemma get_outbuf_ok s held queue interface addr : wmm_ok s held -> 0 <= interface <= 1 -> 0 <= queue < 8 ->
  exists b paused s', wifi_wmm_get_outbuf_enh queue interface addr s = Ret (b, paused, s') /\
    wmm_ok s' (option_list b ++ held) /\ (paused = true -> b = None /\ s' = s).
Proof.
  intros I Hi Hq. unfold wifi_wmm_get_outbuf_enh.
  destruct (is_tx_pause_ret s held interface queue addr I Hi Hq) as (paused & ->). rewrite bind_ret.
  destruct paused; [by exists None, true, s |]. unfold wifi_wmm_buf_get. pose proof (wo_pool _ _ I) as Hpool. unfold pool_ok in Hpool.
  rewrite Hpool. destruct (Z.ltb_spec (Z.of_nat (length (free_list (w_pool s)))) 0); [lia |].
  destruct (Z.eqb_spec (Z.of_nat (length (free_list (w_pool s)))) 0) as [E | E].
  - rewrite bind_ret. assert (Hs : set_pool (w_pool s) s = s) by (by destruct s). rewrite Hs.
    destruct (alter_loop_ok s held MAX_AC_QUEUES interface addr false all_cats_ok I Hi) as (b & s' & -> & I'). rewrite bind_ret.
    by exists b, false, s'.
  - destruct (free_list (w_pool s)) as [| b l] eqn:El; [done |]. rewrite bind_ret.
    eexists (Some b), false, _. split; [done |]. split; [| done]. apply set_pool_ok with held; try done.
    + unfold pool_ok. cbn [free_cnt free_list length]. lia.
    + rewrite El. cbn. by rewrite Permutation_middle.
Qed.

(** ** A packet into its queue *)
Lemma da_to_ra_ret da : 6 <= Z.of_nat (length da) -> exists addr, wifi_wmm_da_to_ra da = Ret addr.
Proof.
  intros Hl. unfold wifi_wmm_da_to_ra. destruct (arr_get_total da 0) as (d & -> & _); [lia |]. rewrite bind_ret.
  destruct (_ =? 1); [by eauto |]. destruct (mem_read_fits da 0 6) as (bs & -> & _); [lia.. |]. by eauto.
Qed.

Lemma queue_raptr_spec p ac addr m pool : priv_ok p -> pool_ok pool -> 0 <= ac < 8 ->
  exists k p' m', wlan_wmm_get_queue_raptr_enh p ac addr m = Ret (k, p', m') /\ conserved p pool p' pool /\
    (forall k', k = Some k' -> exists l r, has_cat p' ac l /\ 0 <= k' /\ l !! Z.to_nat k' = Some r /\ ra r = addr).
Proof.
  intros Hp Hpool Hac. unfold wlan_wmm_get_queue_raptr_enh.
  destruct (node_spec p ac addr Hp Hac) as (l & Hl & -> & Hk). rewrite bind_ret.
  destruct (ralist_node l addr 0) as [k |].
  { destruct (Hk k eq_refl) as (? & r & ? & ?). exists (Some k), p, m. split; [done |]. split; [by apply conserved_refl |].
    intros k' [= <-]. by exists l, r. }
  destruct (_ && _); [exists None, p, m; split; [done |]; split; [by apply conserved_refl | done] |].
  destruct (add_loop_spec MAX_AC_QUEUES addr p pool m all_cats_ok Hp Hpool) as (p1 & m1 & E & C).
  unfold wlan_ralist_add_enh. rewrite E, bind_ret.
  destruct (node_spec p1 ac addr (cv_priv _ _ _ _ C) Hac) as (l1 & Hl1 & -> & Hk1). rewrite bind_ret.
  exists (ralist_node l1 addr 0), p1, m1. split; [done |]. split; [done |]. intros k' Ek.
  destruct (Hk1 k' Ek) as (? & r & ? & ?). by exists l1, r.
Qed.

(** A packet put behind the others of its receiver. *)
Lemma put_last p ac k l r b : priv_ok p -> has_cat p ac l -> 0 <= k -> l !! Z.to_nat k = Some r ->
  Z.of_nat (length (priv_bufs p)) < MAX_WMM_BUF_NUM ->
  let r' := set_ra_bufs (u16 (total_pkts r + 1)) (buf_head r ++ [b]) (drop_count r) r in
  exists p', put_ra p ac k r' 1 = Ret p' /\ priv_ok p' /\ priv_bufs p' ≡ₚ b :: priv_bufs p /\ has_ra p' ac k r'.
Proof.
  intros Hp Hl Hk Hr Hfew r'. destruct (has_ra_facts p ac k r Hp) as [Hok Hlen]; [by exists l |].
  unfold ra_ok, MAX_WMM_BUF_NUM in *.
  assert (Hok' : ra_ok r').
  { unfold ra_ok, r'. cbn. rewrite length_app, wrap_small; [simpl; lia | change (2 ^ 16) with 65536; lia]. }
  destruct (put_ra_spec p ac k l r r' 1 Hp Hl Hk Hr Hok') as (E & Hp' & Hperm);
    [cbn; rewrite length_app; simpl; lia | unfold MAX_WMM_BUF_NUM; lia |].
  eexists. split; [exact E |]. split; [done |]. split.
  - cbn [r' set_ra_bufs buf_head] in Hperm.
    rewrite (Permutation_app_comm (buf_head r) [b]) in Hperm. apply (Permutation_app_inv_r (buf_head r)). rewrite Hperm.
    cbn. by rewrite <- Permutation_middle.
  - destruct Hl as [Hac Hl]. eexists. split; [split; [done |]; by apply list_lookup_insert_eq, (lookup_lt_Some _ _ _ Hl) |].
    split; [done |]. by apply list_lookup_insert_eq, (lookup_lt_Some _ _ _ Hr).
Qed.

(** Buffer [b] is the newest in the list of a receiver. *)
Definition newest s (i ac : Z) (addr : list Z) (b : Z) : Prop :=
  exists p k r bs, w_privs s !! Z.to_nat i = Some p /\ has_ra p ac k r /\ ra r = addr /\ buf_head r = bs ++ [b].

Lemma owned_range s held b : wmm_ok s held -> b ∈ held -> 0 <= b < 16.
Proof.
  intros I Hb. assert (Hin : b ∈ seqZ 0 MAX_WMM_BUF_NUM) by (rewrite <- (wo_owned _ _ I), !elem_of_app; tauto).
  apply elem_of_seqZ in Hin. unfold MAX_WMM_BUF_NUM in Hin. lia.
Qed.

Lemma buf_spec s held b : wmm_ok s held -> 0 <= b < 16 ->
  exists m, arr_get (w_bufs s) b = Ret m /\ w_bufs s !! Z.to_nat b = Some m /\ length m = OUTBUF_LEN /\ bytes m.
Proof.
  intros I Hb. destruct (arr_get_total (w_bufs s) b) as (m & E & Hm); [rewrite (wo_count _ _ I); lia |].
  exists m. pose proof (wo_bufs _ _ I) as Hall. rewrite list.Forall_lookup in Hall. by destruct (Hall _ _ Hm).
Qed.

Lemma set_malloc_ok s held m : wmm_ok s held -> wmm_ok (set_malloc m s) held.
Proof. intros []. by split. Qed.
Lemma set_notified_ok s held n : wmm_ok s held -> wmm_ok (set_notified n s) held.
Proof. intros []. by split. Qed.

Lemma put_held_ok s held i p p' b : wmm_ok s (b :: held) -> 0 <= i -> w_privs s !! Z.to_nat i = Some p ->
  conserved p (w_pool s) p' (w_pool s) -> exists pool s', wifi_wmm_buf_put b (w_pool s) = Ret pool /\
    put_priv i p' pool s = Ret s' /\ wmm_ok s' held.
Proof.
  intros I Hi Hp [Hok Hpool Hb Hs]. pose proof (owned_length _ _ I) as Hl. simpl in Hl.
  destruct (buf_put_ret b (w_pool s) Hpool) as [-> Hpool']; [lia |].
  eexists _, _. split; [done |]. split; [by apply (put_priv_ret s i p) |].
  apply put_priv_ok with (b :: held) p; try done; cbn [free_list].
  - apply Permutation_app_inv_r in Hb. rewrite Hb. by rewrite <- (assoc_L (++)).
  - intros b' Hb'. left. by apply (elem_of_submseteq _ _ b') in Hs.
Qed.

Lemma add_buf_ok s held b interface prio : wmm_ok s (b :: held) -> buf_ready (w_bufs s) b -> 0 <= interface <= 1 -> 0 <= prio < 8 ->
  exists r s', wlan_wmm_add_buf_txqueue_enh interface b prio s = Ret (r, s') /\ wmm_ok s' held /\ w_bufs s' = w_bufs s /\
    (r = MLAN_STATUS_SUCCESS -> exists m da addr, w_bufs s !! Z.to_nat b = Some m /\ mem_read m (INTF_HEADER_LEN + sizeof_TxPD) 6 = Ret da /\
       wifi_wmm_da_to_ra da = Ret addr /\ newest s' interface prio addr b).
Proof.
  intros I Hready Hi Hprio. unfold wlan_wmm_add_buf_txqueue_enh.
  assert (Ei : (if interface =? MLAN_BSS_TYPE_STA then 0 else 1) = interface) by (unfold MLAN_BSS_TYPE_STA; zbool; lia). rewrite Ei.
  destruct (get_priv_spec s _ interface I Hi) as (p & -> & Hp & Hok & _). rewrite bind_ret.
  destruct (buf_spec s (b :: held) b I) as (m & -> & Hmb & Hm & _); [by apply (owned_range s (b :: held)); [| apply elem_of_cons; left] |].
  rewrite bind_ret. unfold INTF_HEADER_LEN, sizeof_TxPD, OUTBUF_LEN in *.
  destruct (mem_read_fits m (4 + 22) 6) as (da & Eda & Hda); [lia.. |]. rewrite Eda, bind_ret.
  destruct (da_to_ra_ret da) as (addr & Eaddr); [lia |]. rewrite Eaddr, bind_ret.
  destruct (queue_raptr_spec p prio addr (w_malloc s) (w_pool s) Hok (wo_pool _ _ I) Hprio) as (k & p1 & m1 & -> & C & Hk).
  rewrite bind_ret. pose proof (set_malloc_ok _ _ m1 I) as I1. destruct k as [k |].
  - destruct (Hk k eq_refl) as (l & r & Hl & Hk0 & Hr & Hra). rewrite (get_ra_has p1 prio k r) by (by exists l). rewrite bind_ret.
    pose proof (owned_length _ _ I) as Hlen. simpl in Hlen.
    assert (Hfew : Z.of_nat (length (priv_bufs p1)) < MAX_WMM_BUF_NUM).
    { destruct C as [_ _ _ Hs]. apply submseteq_length in Hs. unfold MAX_WMM_BUF_NUM.
      assert (length (priv_bufs p) <= length (queued s))%nat; [| lia].
      apply concat_elem_sub with (i := Z.to_nat interface). by rewrite list_lookup_fmap, Hp. }
    destruct (put_last p1 prio k l r b (cv_priv _ _ _ _ C) Hl Hk0 Hr Hfew) as (p2 & -> & Hok2 & Hperm & Hnew). rewrite bind_ret.
    rewrite (put_priv_ret (set_malloc m1 s) interface p) by (done || lia). rewrite bind_ret.
    eexists _, _. split; [done |]. split; [apply put_priv_ok with (b :: held) p; try done; [apply I | |] | split; [done |]].
    + rewrite Hperm. destruct C as [_ _ Hb _]. apply Permutation_app_inv_r in Hb. rewrite Hb.
      cbn [app]. rewrite <- !Permutation_middle. done.
    + intros b'. rewrite Hperm, elem_of_cons. intros [-> | Hin]; [by right | left].
      destruct C as [_ _ _ Hs]. by apply (elem_of_submseteq _ _ b') in Hs.
    + intros _. exists m, da, addr. split; [done |]. split; [done |]. split; [done |]. eexists p2, k, _, _.
      split; [| split; [exact Hnew | split; [exact Hra | done]]]. cbn. by apply list_lookup_insert_eq, (lookup_lt_Some _ _ p).
  - destruct (put_held_ok (set_malloc m1 s) held interface p p1 b I1 ltac:(lia) Hp C) as (pool & s' & E1 & E2 & I').
    cbn [w_pool set_malloc] in E1. change (w_pool (set_malloc m1 s)) with (w_pool s). rewrite E1, bind_ret, E2, bind_ret. eexists _, s'.
    split; [done |]. split; [done |]. split; [| done]. unfold put_priv in E2. destruct (arr_set _ _ _); [| done]. by injection E2 as <-.
Qed.

Lemma set_buf_ok s held b m : wmm_ok s (b :: held) -> length m = OUTBUF_LEN -> bytes m ->
  wmm_ok (set_bufs (<[Z.to_nat b := m]> (w_bufs s)) s) (b :: held).
Proof.
  intros I Hl Hb. pose proof (owned_range s (b :: held) b I) as Hr. specialize (Hr ltac:(apply elem_of_cons; by left)).
  assert (Hn : b ∉ queued s).
  { intros Hin. pose proof (NoDup_seqZ 0 MAX_WMM_BUF_NUM) as Hnd. rewrite <- (wo_owned _ _ I) in Hnd.
    apply list.NoDup_app in Hnd as (_ & _ & Hnd). apply list.NoDup_app in Hnd as (_ & Hd & _). apply (Hd b Hin), elem_of_cons. by left. }
  destruct I as [H1 H2 H3 H4 H5 H6 H7 H8]. split; try done.
  - cbn. by rewrite length_insert.
  - cbn. by apply Forall_insert.
  - change (queued (set_bufs _ s)) with (queued s). rewrite list.Forall_forall in *. intros b' Hb'.
    destruct (H7 b' Hb') as (m' & n & Hm' & Hrest). exists m', n. split; [| done]. cbn.
    rewrite list_lookup_insert_ne; [done |]. intros Heq. assert (b' = b) as ->; [| done].
    assert (Hin : b' ∈ seqZ 0 MAX_WMM_BUF_NUM) by (rewrite <- H4, !elem_of_app; tauto). apply elem_of_seqZ in Hin. lia.
Qed.

(** Every buffer that is handed over ends in a queue or in the pool. *)
Lemma low_level_output_ok s held b interface len prio tid : wmm_ok s (b :: held) -> 0 <= interface <= 1 -> 0 <= prio < 8 ->
  34 <= len <= 8 + 1606 ->
  exists r s', wifi_low_level_output true interface b len prio tid s = Ret (r, s') /\ wmm_ok s' held /\
    (r = 0 -> exists m m' da addr, w_bufs s !! Z.to_nat b = Some m /\ w_bufs s' !! Z.to_nat b = Some m' /\ length m' = length m /\
       drop 26 m' = drop 26 m /\ mem_read_le16 m' (INTF_HEADER_LEN + 2) = Ret (len - 34) /\
       mem_read m' 26 6 = Ret da /\ wifi_wmm_da_to_ra da = Ret addr /\ newest s' interface prio addr b /\ w_notified s' = true).
Proof.
  intros I Hi Hprio Hlen. unfold wifi_low_level_output. cbn [negb].
  destruct (get_priv_spec s _ interface I Hi) as (p & -> & Hp & Hok & _). rewrite bind_ret.
  destruct (media_connected p); cbn [negb].
  - assert (Hb : 0 <= b < 16) by (apply (owned_range s (b :: held)); [done | apply elem_of_cons; by left]).
    destruct (buf_spec s _ b I Hb) as (m & -> & Hm & Hml & Hmb). rewrite bind_ret. unfold sizeof_mlan_linked_list.
    rewrite wrap_small by (change (2 ^ 32) with 4294967296; lia).
    destruct (process_pkt_hdrs_spec (bss_num p) m (len - 8) interface tid Hml Hmb) as (m' & -> & Hl' & Hb' & Hr & Hd & _); [lia |].
    rewrite bind_ret, (arr_set_lookup _ _ m) by (done || lia). rewrite bind_ret.
    pose proof (set_buf_ok s held b m' I Hl' Hb') as I1.
    destruct (add_buf_ok _ held b interface prio I1) as (r & s2 & E & I2 & Eb & Hnew); [| done | done |].
    { exists m', (len - 8 - 26). split; [| split; [done | unfold WMM_DATA_LEN; lia]].
      apply list_lookup_insert_eq. by apply lookup_lt_Some in Hm. }
    rewrite E, bind_ret. destruct (decide (r = MLAN_STATUS_SUCCESS)) as [Hs |].
    { eexists _, _. split; [done |]. split; [by apply set_notified_ok |]. intros _.
      destruct (Hnew Hs) as (m2 & da & addr & Hm2 & Hda & Ha & Hn). exists m, m', da, addr.
      assert (Hmm : <[Z.to_nat b := m']> (w_bufs s) !! Z.to_nat b = Some m') by (by apply list_lookup_insert_eq, (lookup_lt_Some _ _ m)).
      cbn in Hm2. rewrite Hmm in Hm2. injection Hm2 as <-.
      split; [done |]. split; [cbn; by rewrite Eb |]. split; [by rewrite Hml |]. split; [done |].
      split; [rewrite Hr; f_equal; lia |]. by split. }
    destruct (get_priv_spec s2 _ interface I2 Hi) as (p2 & -> & Hp2 & Hok2 & _). rewrite bind_ret.
    destruct (put_priv_conserved s2 held interface p2 (wifi_wmm_drop_no_media p2) (w_pool s2) I2 ltac:(lia) Hp2) as (s3 & -> & I3 & _).
    { apply conserved_stat, conserved_refl; [done | apply I2]. }
    rewrite bind_ret. eexists _, s3. split; [done |]. split; [done |]. intros Hbusy. by vm_compute in Hbusy.
  - destruct (put_held_ok s held interface p (wifi_wmm_drop_no_media p) b I ltac:(lia) Hp) as (pool & s' & -> & E & I').
    { apply conserved_stat, conserved_refl; [done | apply I]. }
    rewrite bind_ret, E, bind_ret. eexists _, s'. split; [done |]. split; [done |]. intros Hbusy. by vm_compute in Hbusy.
Qed.
End state.
