(* ===== verification/WmmRound.v ===== *)
(** * One round of the transmit thread

    The reference: the packets that may go, in the order they are to go, and
    what is left of the queues when the first [n] of them went.  The loops of
    [wifi_xmit_wmm_ac_pkts_enh] implement it. *)
From S2P Require Import Prelude Aggr Sdio TxBus Wmm WmmProps WmmState.

(** ** The reference *)
Definition ready_bufs (r : raListTbl) : list Z := if ra_tx_pause r then [] else buf_head r.
Definition drain_ra (n : nat) (r : raListTbl) : raListTbl :=
  if ra_tx_pause r then r
  else set_ra_bufs (Z.of_nat (length (drop n (buf_head r)))) (drop n (buf_head r)) (drop_count r) r.

(** The receivers of a category, in order. *)
Definition cat_sched (l : list raListTbl) : list Z := concat (ready_bufs <$> l).
Fixpoint drain_cat (n : nat) (l : list raListTbl) : list raListTbl :=
  match l with [] => [] | r :: l => drain_ra n r :: drain_cat (n - length (ready_bufs r)) l end.

(** The categories of an interface: voice, video, best effort, background. *)
Definition AC_ORDER : list Z := [WMM_AC_VO; WMM_AC_VI; WMM_AC_BE; WMM_AC_BK].
Definition cat_of (p : wmm_priv) (ac : Z) : list raListTbl := default [] (tid_tbl p !! Z.to_nat ac).
Definition cats_sched (acs : list Z) (p : wmm_priv) : list Z := concat ((fun ac => cat_sched (cat_of p ac)) <$> acs).
Fixpoint drain_cats (n : nat) (acs : list Z) (p : wmm_priv) : wmm_priv :=
  match acs with
  | [] => p
  | ac :: acs => drain_cats (n - length (cat_sched (cat_of p ac))) acs (with_cat ac (drain_cat n (cat_of p ac)) p)
  end.

(** The interfaces: one that is not connected or is paused sends nothing. *)
Definition may_send (p : wmm_priv) : bool := media_connected p && negb (priv_tx_pause p).
Definition priv_sched (p : wmm_priv) : list Z := if may_send p then cats_sched AC_ORDER p else [].
Definition drain_priv (n : nat) (p : wmm_priv) : wmm_priv := if may_send p then drain_cats n AC_ORDER p else p.
Fixpoint drain_privs (n : nat) (ps : list wmm_priv) : list wmm_priv :=
  match ps with [] => [] | p :: ps => drain_priv n p :: drain_privs (n - length (priv_sched p)) ps end.

Definition schedule {B} (s : wmm B) : list Z := concat (priv_sched <$> w_privs s).

(** The bytes the bus gets for a buffer. *)
Definition packet_of (bufs : list (list Z)) (b : Z) : list Z :=
  match bufs !! Z.to_nat b with
  | Some m => match mem_read_le16 m (INTF_HEADER_LEN + 2) with Ret n => take (Z.to_nat (n + sizeof_TxPD + INTF_HEADER_LEN)) m | Fault _ => [] end
  | None => []
  end.

(** ** The reference takes from the front *)
Lemma drain_ra_ready n r : ready_bufs (drain_ra n r) = drop n (ready_bufs r).
Proof. unfold ready_bufs, drain_ra. destruct (ra_tx_pause r) eqn:E; [rewrite E; by destruct n |]. cbn. by rewrite E. Qed.

Lemma drop_app' {A} (n : nat) (a b : list A) : drop n (a ++ b) = drop n a ++ drop (n - length a) b.
Proof. apply skipn_app. Qed.

Lemma drain_cat_sched n l : cat_sched (drain_cat n l) = drop n (cat_sched l).
Proof.
  revert n. induction l as [| r l IH]; intros n; [by destruct n |].
  cbn [drain_cat]. unfold cat_sched in *. cbn [fmap list_fmap concat]. by rewrite drop_app', IH, drain_ra_ready.
Qed.

Lemma drain_ra_0 r : ra_ok r -> drain_ra 0 r = r.
Proof. unfold ra_ok, drain_ra. intros E. destruct (ra_tx_pause r); [done |]. rewrite drop_0, <- E. by destruct r. Qed.

Lemma drain_cat_0 l : Forall ra_ok l -> drain_cat 0 l = l.
Proof. induction 1 as [| r l Hr _ IH]; [done |]. cbn [drain_cat]. by rewrite Nat.sub_0_l, drain_ra_0, IH. Qed.

Lemma with_cat_id p ac l : priv_ok p -> has_cat p ac l -> with_cat ac l p = p.
Proof.
  intros Hp Hl. destruct (cat_at_ok p ac l Hp Hl) as [[[_ Hl'] Hq] _]. unfold with_cat.
  rewrite !list_insert_id by done. by destruct p.
Qed.

Lemma cat_of_has p ac l : has_cat p ac l -> cat_of p ac = l.
Proof. intros [_ Hl]. unfold cat_of. by rewrite Hl. Qed.

Lemma drain_cats_0 acs p : cats_ok acs -> priv_ok p -> drain_cats 0 acs p = p.
Proof.
  intros Hacs Hp. induction Hacs as [| ac acs Hac _ IH]; [done |]. cbn [drain_cats].
  destruct (node_spec p ac [] Hp Hac) as (l & Hl & _). rewrite (cat_of_has p ac l Hl), drain_cat_0 by (by apply (cat_ok p ac)).
  by rewrite Nat.sub_0_l, with_cat_id.
Qed.

Lemma drain_priv_0 p : priv_ok p -> drain_priv 0 p = p.
Proof. intros Hp. unfold drain_priv. destruct (may_send p); [| done]. apply drain_cats_0; [| done].
  unfold cats_ok, AC_ORDER, WMM_AC_VO, WMM_AC_VI, WMM_AC_BE, WMM_AC_BK. repeat (apply list.Forall_cons; split; [lia |]). by apply list.Forall_nil. Qed.

Lemma drain_privs_0 ps : Forall priv_ok ps -> drain_privs 0 ps = ps.
Proof. induction 1 as [| p ps Hp _ IH]; [done |]. cbn [drain_privs]. by rewrite Nat.sub_0_l, drain_priv_0, IH. Qed.

Lemma cats_sched_with_cat acs ac l p : ac ∉ acs -> 0 <= ac -> cats_ok acs -> cats_sched acs (with_cat ac l p) = cats_sched acs p.
Proof.
  intros Hni Hac Hacs. unfold cats_sched. f_equal. apply list_fmap_ext. intros i ac' Hi. unfold cat_of, with_cat. cbn [tid_tbl set_queues].
  apply list_elem_of_lookup_2 in Hi. unfold cats_ok in Hacs. rewrite list.Forall_forall in Hacs. specialize (Hacs _ Hi).
  rewrite list_lookup_insert_ne; [done |]. intros Heq. assert (ac = ac') by lia. by subst.
Qed.

Lemma drain_cats_others n acs p : cats_ok acs -> forall ac, 0 <= ac -> ac ∉ acs -> cat_of (drain_cats n acs p) ac = cat_of p ac.
Proof.
  intros Hacs. revert n p. induction Hacs as [| i acs Hi _ IH]; intros n p ac Hac Hni; [done |]. cbn [drain_cats].
  apply not_elem_of_cons in Hni as [Hne Hni]. rewrite IH by done. unfold cat_of, with_cat. cbn. by rewrite list_lookup_insert_ne by lia.
Qed.

Lemma drain_cats_shape n acs p : length (tid_tbl (drain_cats n acs p)) = length (tid_tbl p) /\ may_send (drain_cats n acs p) = may_send p.
Proof.
  revert n p. induction acs as [| i acs IH]; intros n p; [done |]. cbn [drain_cats].
  destruct (IH (n - length (cat_sched (cat_of p i)))%nat (with_cat i (drain_cat n (cat_of p i)) p)) as [-> ->].
  split; [cbn; by rewrite length_insert | done].
Qed.

Lemma drain_cats_sched n acs p : cats_ok acs -> NoDup acs -> length (tid_tbl p) = MAX_NUM_TID ->
  cats_sched acs (drain_cats n acs p) = drop n (cats_sched acs p).
Proof.
  intros Hacs. revert n p. induction Hacs as [| ac acs Hac Hacs IH]; intros n p Hnd Hlen; [by destruct n |].
  apply list.NoDup_cons in Hnd as [Hni Hnd]. cbn [drain_cats].
  set (p1 := with_cat ac (drain_cat n (cat_of p ac)) p).
  assert (Hlen1 : length (tid_tbl p1) = MAX_NUM_TID) by (cbn; by rewrite length_insert).
  unfold cats_sched at 1 2. cbn [fmap list_fmap concat]. fold (cats_sched acs p). fold (cats_sched acs (drain_cats (n - length (cat_sched (cat_of p ac))) acs p1)).
  rewrite IH, drop_app', drain_cats_others by (done || lia). f_equal.
  - rewrite <- drain_cat_sched. f_equal. unfold cat_of at 1, p1. cbn. unfold MAX_NUM_TID in *. by rewrite list_lookup_insert_eq by lia.
  - unfold p1. by rewrite cats_sched_with_cat by (done || lia).
Qed.

Lemma order_ok : cats_ok AC_ORDER /\ NoDup AC_ORDER.
Proof.
  split; [| by apply (bool_decide_unpack _)].
  unfold cats_ok, AC_ORDER, WMM_AC_VO, WMM_AC_VI, WMM_AC_BE, WMM_AC_BK. repeat (apply list.Forall_cons; split; [lia |]). by apply list.Forall_nil.
Qed.

Lemma drain_priv_sched n p : priv_ok p -> priv_sched (drain_priv n p) = drop n (priv_sched p).
Proof.
  intros Hp. unfold priv_sched, drain_priv. destruct (may_send p) eqn:E; [| by rewrite E, drop_nil].
  destruct (drain_cats_shape n AC_ORDER p) as [_ ->]. rewrite E. apply drain_cats_sched; try apply order_ok. apply Hp.
Qed.

Lemma drain_privs_sched n ps : Forall priv_ok ps -> concat (priv_sched <$> drain_privs n ps) = drop n (concat (priv_sched <$> ps)).
Proof.
  intros Hps. revert n. induction Hps as [| p ps Hp _ IH]; intros n; [by destruct n |].
  cbn [drain_privs fmap list_fmap concat]. by rewrite drop_app', IH, drain_priv_sched.
Qed.

(** ** The loops implement the reference *)
Section round.
Context {B : Type} `{HB : TxBus B} `{HL : !TxBusLaws B}.
Implicit Types (s : wmm B) (held : list Z) (pend : list (list Z)).

(** From [s] to [s'] the buffers [acc] were taken out and their packets given to
    the bus; [pend] and [pend'] wait for the next write. *)
Record progress (s : wmm B) (pend : list (list Z)) (acc : list Z) (s' : wmm B) (pend' : list (list Z)) : Prop := {
  pr_free : free_list (w_pool s') = free_list (w_pool s) ++ acc;
  pr_bufs : w_bufs s' = w_bufs s;
  pr_other : w_malloc s' = w_malloc s /\ w_notified s' = w_notified s;
  pr_bus sent : bus_rep (w_bus s) sent pend ->
    exists writes, bus_rep (w_bus s') (sent ++ writes) pend' /\
      pend ++ (packet_of (w_bufs s) <$> acc) = concat (snd <$> writes) ++ pend' /\
      Forall (fun w => (length (snd w) <= 8)%nat) writes;
  pr_room k : bus_room (w_bus s) (length acc + k) -> bus_room (w_bus s') k
}.

Lemma progress_refl s pend : progress s pend [] s pend.
Proof.
  split; try done; [by rewrite app_nil_r |]. intros sent Hr. exists []. rewrite !app_nil_r. split; [done |]. by split.
Qed.

Lemma progress_trans s1 p1 a1 s2 p2 a2 s3 p3 :
  progress s1 p1 a1 s2 p2 -> progress s2 p2 a2 s3 p3 -> progress s1 p1 (a1 ++ a2) s3 p3.
Proof.
  intros [F1 U1 [M1 N1] B1 R1] [F2 U2 [M2 N2] B2 R2]. split.
  - by rewrite F2, F1, <- (assoc_L (++)).
  - congruence.
  - split; congruence.
  - intros sent Hr. destruct (B1 sent Hr) as (w1 & Hr1 & E1 & L1). destruct (B2 _ Hr1) as (w2 & Hr2 & E2 & L2).
    exists (w1 ++ w2). rewrite (assoc_L (++)). split; [done |]. split; [| by apply list.Forall_app].
    rewrite U1 in E2. rewrite !fmap_app, concat_app, (assoc_L (++) p1), E1, <- !(assoc_L (++)). by rewrite E2.
  - intros k Hk. apply R2, R1. rewrite length_app in Hk. by rewrite Nat.add_assoc.
Qed.

(** The same with other queues: [progress] does not look at them. *)
Lemma put_ra_raw p ac k l q r' d : has_cat p ac l -> pkts_queued p !! Z.to_nat ac = Some q -> 0 <= k -> (Z.to_nat k < length l)%nat ->
  put_ra p ac k r' d = Ret (set_queues (<[Z.to_nat ac := <[Z.to_nat k := r']> l]> (tid_tbl p))
                                       (<[Z.to_nat ac := u32 (q + d)]> (pkts_queued p)) p).
Proof.
  intros [Hac Hl] Hq Hk Hlt. unfold put_ra. destruct (lookup_lt_is_Some_2 l _ Hlt) as [r Hr].
  rewrite (proj2 (arr_get_ret _ _ _) (conj Hac Hl)), bind_ret, (arr_set_lookup _ _ r) by done.
  rewrite bind_ret, (arr_set_lookup _ _ l), bind_ret by done.
  by rewrite (proj2 (arr_get_ret _ _ _) (conj Hac Hq)), bind_ret, (arr_set_lookup _ _ _ _ Hac Hq), bind_ret.
Qed.

Lemma packet_of_ready bufs b m : bufs !! Z.to_nat b = Some m -> length m = OUTBUF_LEN -> buf_ready bufs b ->
  exists n, mem_read_le16 m (INTF_HEADER_LEN + 2) = Ret n /\ 0 < n + sizeof_TxPD + INTF_HEADER_LEN <= BUS_MAX_LEN /\
    n + sizeof_TxPD + INTF_HEADER_LEN <= Z.of_nat (length m) /\
    packet_of bufs b = take (Z.to_nat (n + sizeof_TxPD + INTF_HEADER_LEN)) m.
Proof.
  intros Hm Hl (m' & n & Hm' & Hn & Hrange). rewrite Hm in Hm'. injection Hm' as <-.
  exists n. unfold packet_of, BUS_MAX_LEN, WMM_DATA_LEN, sizeof_TxPD, INTF_HEADER_LEN, OUTBUF_LEN in *. rewrite Hm, Hn.
  split_and!; done || lia.
Qed.

(** The interface after one packet of receiver [k] went. *)
Definition sent_one (p : wmm_priv) (ac k : Z) (l : list raListTbl) (r : raListTbl) : wmm_priv :=
  with_cat ac (<[Z.to_nat k := drain_ra 1 r]> l) p.

Lemma xmit_pkts_spec s held pend i ac k p l r b bs :
  wmm_ok pend s held -> 0 <= i <= 1 -> w_privs s !! Z.to_nat i = Some p -> has_cat p ac l -> 0 <= k -> l !! Z.to_nat k = Some r ->
  ra_tx_pause r = false -> buf_head r = b :: bs -> (length pend < 8)%nat ->
  exists s', (wifi_xmit_pkts i ac k s = Ret (MLAN_STATUS_SUCCESS, s') /\
     w_privs s' = <[Z.to_nat i := sent_one p ac k l r]> (w_privs s) /\
     progress s pend [b] s' (pend ++ [packet_of (w_bufs s) b]) /\ wmm_ok (pend ++ [packet_of (w_bufs s) b]) s' held) \/
   (wifi_xmit_pkts i ac k s = Ret (MLAN_STATUS_RESOURCE, s') /\ w_privs s' = w_privs s /\
     progress s pend [] s' pend /\ wmm_ok pend s' held /\ ~ bus_room (w_bus s) 1).
Proof.
  intros I Hi Hp Hl Hk Hr Hpause Hb Hpend.
  assert (Hok : priv_ok p) by (pose proof (wo_privs _ _ _ I) as Hall; rewrite list.Forall_lookup in Hall; by apply (Hall _ _ Hp)).
  destruct (cat_at_ok p ac l Hok Hl) as [Hcat Hcc]. pose proof Hcat as [[Hac Hl'] Hq].
  assert (Hra : has_ra p ac k r) by (by exists l). destruct (has_ra_facts p ac k r Hok Hra) as [Htot Hsmall].
  unfold ra_ok in Htot. pose proof (po_few _ Hok) as Hfew. unfold MAX_WMM_BUF_NUM in *. rewrite Hb in Htot, Hsmall. simpl in Htot, Hsmall.
  assert (Hlt : (Z.to_nat k < length l)%nat) by (by apply lookup_lt_Some in Hr).
  assert (Hbq : b ∈ queued s).
  { unfold queued. apply list_elem_of_In, in_concat. exists (priv_bufs p). split; apply list_elem_of_In.
    - apply list_elem_of_fmap. exists p. split; [done | by apply list_elem_of_lookup_2 in Hp].
    - unfold priv_bufs. apply list_elem_of_In, in_concat. exists (cat_bufs l). split; apply list_elem_of_In.
      + apply list_elem_of_fmap. exists l. split; [done | by apply list_elem_of_lookup_2 in Hl'].
      + unfold cat_bufs. apply list_elem_of_In, in_concat. exists (buf_head r). split; apply list_elem_of_In.
        * apply list_elem_of_fmap. exists r. split; [done | by apply list_elem_of_lookup_2 in Hr].
        * rewrite Hb. apply elem_of_cons. by left. }
  assert (Hrange : 0 <= b < 16).
  { assert (Hin : b ∈ seqZ 0 MAX_WMM_BUF_NUM) by (rewrite <- (wo_owned _ _ _ I), !elem_of_app; tauto).
    apply elem_of_seqZ in Hin. unfold MAX_WMM_BUF_NUM in Hin. lia. }
  pose proof (wo_ready _ _ _ I) as Hready. rewrite list.Forall_forall in Hready. specialize (Hready b Hbq).
  destruct (buf_spec pend s held b I Hrange) as (m & Em & Hm & Hml & _).
  destruct (packet_of_ready (w_bufs s) b m Hm Hml Hready) as (n & En & Hn & Hnl & Hpkt).
  unfold wifi_xmit_pkts, get_priv. rewrite (proj2 (arr_get_ret _ _ _) (conj (proj1 Hi) Hp)), bind_ret.
  rewrite (get_ra_has p ac k r Hra), bind_ret, Hb. set (r1 := set_ra_bufs (u16 (total_pkts r - 1)) bs (drop_count r) r).
  rewrite (put_ra_raw p ac k l _ r1 0 Hl Hq Hk Hlt), bind_ret, Em, bind_ret, En, bind_ret, Z.add_0_r.
  rewrite (wrap_small 32 (cat_count l)) by (change (2 ^ 32) with 4294967296; unfold cat_count in *; lia).
  set (p1 := set_queues _ _ p).
  assert (Hcat1 : has_cat p1 ac (<[Z.to_nat k := r1]> l)) by (split; [done |]; apply list_lookup_insert_eq, (lookup_lt_Some _ _ _ Hl')).
  assert (Hq1 : pkts_queued p1 !! Z.to_nat ac = Some (cat_count l)) by (apply list_lookup_insert_eq, (lookup_lt_Some _ _ _ Hq)).
  assert (Hra1 : has_ra p1 ac k r1) by (eexists; split; [exact Hcat1 |]; split; [done |]; by apply list_lookup_insert_eq).
  assert (Hw : u16 (total_pkts r - 1) = Z.of_nat (length bs)) by (rewrite wrap_small; [lia | change (2 ^ 16) with 65536; lia]).
  destruct (wo_bus _ _ _ I) as (sent & Hrep).
  assert (Hp8 : Z.of_nat (length pend) < SDIO_PAYLOAD_SIZE) by (unfold SDIO_PAYLOAD_SIZE; lia).
  set (len := n + sizeof_TxPD + INTF_HEADER_LEN) in *.
  destruct (xmit_law (w_bus s) sent pend i len m Hrep Hp8 Hn Hnl) as (ret & b' & E & Hcases).
  assert (Hall : forall sent', bus_rep (w_bus s) sent' pend ->
            (ret = MLAN_STATUS_RESOURCE /\ bus_rep b' sent' pend /\ ~ bus_room (w_bus s) 1 /\ (forall k, bus_room (w_bus s) k -> bus_room b' k) \/
             ret = MLAN_STATUS_SUCCESS /\ bus_rep b' sent' (pend ++ [packet_of (w_bufs s) b]) /\
               (forall k, bus_room (w_bus s) (S k) -> bus_room b' k))).
  { intros sent' Hrep'. destruct (xmit_law (w_bus s) sent' pend i len m Hrep' Hp8 Hn Hnl) as (ret' & b'' & E' & Hc).
    rewrite E in E'. injection E' as <- <-. by rewrite Hpkt. }
  rewrite E, bind_ret. destruct (wo_pool _ _ _ I). pose proof (owned_length _ _ _ I) as Hown.
  assert (Hsub : (length (priv_bufs p) <= length (queued s))%nat).
  { apply concat_elem_sub with (i := Z.to_nat i). by rewrite list_lookup_fmap, Hp. }
  assert (HI' : forall pd, (exists sent, bus_rep b' sent pd) -> wmm_ok pd (set_bus b' s) held) by (intros pd Hpd; destruct I; by split).
  destruct (Hall sent Hrep) as [(-> & Hrep1 & Hno & Hroom) | (-> & Hrep1 & Hroom)].
  - assert (Er : set_ra_bufs (u16 (u16 (total_pkts r - 1) + 1)) (b :: bs) (drop_count r) r = r).
    { rewrite Hw, wrap_small by (change (2 ^ 16) with 65536; lia). destruct r. unfold set_ra_bufs. simpl in *. subst. f_equal. lia. }
    exists (set_privs (w_privs s) (w_pool s) (set_bus b' s)). right.
    split; [| split; [done | split; [| split; [destruct I; by apply HI'; eauto | done]]]].
    + rewrite decide_False by done. rewrite Er, (put_ra_raw p1 ac k _ (cat_count l) r 0 Hcat1 Hq1 Hk) by (by rewrite length_insert).
      rewrite bind_ret. cbn [tid_tbl pkts_queued set_queues p1]. rewrite !list_insert_insert_eq, (list_insert_id l) by done.
      rewrite Z.add_0_r, (wrap_small 32 (cat_count l)) by (change (2 ^ 32) with 4294967296; unfold cat_count in *; lia).
      rewrite !list_insert_id by done. replace (set_queues _ _ _) with p by (by destruct p).
      rewrite (put_priv_ret (set_bus b' s) i p) by (done || lia). rewrite bind_ret. cbn [w_privs set_bus w_pool].
      by rewrite list_insert_id.
    + split; try done; [by rewrite app_nil_r |].
      intros sent' Hs'. destruct (Hall sent' Hs') as [(_ & ? & _) | (? & _)]; [| done].
      exists []. rewrite !app_nil_r. split; [done |]. by split.
  - destruct (buf_put_ret b (w_pool s)) as [Eput Hpool']; [apply I | lia |].
    assert (Ed : drain_ra 1 r = r1) by (unfold drain_ra, r1; rewrite Hpause, Hb, Hw; done).
    set (pd := pend ++ [packet_of (w_bufs s) b]) in *.
    destruct (take_oldest p ac k l r b bs (drop_count r) Hok Hl Hk Hr Hb) as (_ & Hok' & Hperm & _). fold r1 in Hok', Hperm.
    set (pool' := MkPool _ _) in *.
    exists (set_privs (<[Z.to_nat i := sent_one p ac k l r]> (w_privs s)) pool' (set_bus b' s)). left.
    split; [| split; [done | split]].
    + rewrite decide_True by done. cbn [w_pool set_bus]. rewrite Eput, bind_ret, (get_ra_has p1 ac k r1 Hra1), bind_ret.
      rewrite (put_ra_raw p1 ac k _ (cat_count l) r1 (-1) Hcat1 Hq1 Hk) by (by rewrite length_insert). rewrite bind_ret.
      cbn [tid_tbl pkts_queued set_queues p1]. rewrite !list_insert_insert_eq.
      replace (set_queues _ _ _) with (sent_one p ac k l r).
      2: { assert (Hc : cat_count (<[Z.to_nat k := r1]> l) = cat_count l + -1).
           { rewrite (cat_count_insert l _ r r1 Hr), Hb. change (buf_head r1) with bs. change (length (b :: bs)) with (S (length bs)). lia. }
           unfold sent_one, with_cat. rewrite Ed, wrap_small, <- Hc; [done |]. change (2 ^ 32) with 4294967296.
           rewrite <- Hc. unfold cat_count in *. lia. }
      by rewrite (put_priv_ret (set_bus b' s) i p) by (done || lia).
    + split; try done. intros sent' Hs'. destruct (Hall sent' Hs') as [(? & _) | (_ & ? & _)]; [done |].
      exists []. rewrite !app_nil_r. split; [done |]. by split.
    + unfold sent_one. rewrite Ed. apply (put_priv_ok pd (set_bus b' s) held held (Z.to_nat i) p); try done.
      * apply HI'. by exists sent.
      * cbn [w_pool set_bus free_list pool']. rewrite <- Hperm. cbn [app]. rewrite <- !(assoc_L (++)). cbn [app].
        by rewrite <- !Permutation_middle.
      * intros b0 Hb0. left. rewrite <- Hperm. apply elem_of_cons. by right.
Qed.

(** A write of what is waiting. *)
Lemma flush_spec s held pend : wmm_ok pend s held -> (length pend <= 8)%nat ->
  exists r bus, wlan_flush (Z.of_nat (length pend)) (w_bus s) = Ret (r, bus) /\
    progress s pend [] (set_bus bus s) [] /\ wmm_ok [] (set_bus bus s) held.
Proof.
  intros I Hl. destruct (wo_bus _ _ _ I) as (sent & Hrep).
  destruct (flush_law (w_bus s) sent pend Hrep) as (ok & bus & E & Hrep' & Hroom).
  eexists _, bus. split; [exact E |]. split; [| destruct I; split; try done; by eexists].
  split; [by rewrite app_nil_r | done | done | | exact Hroom].
  intros sent' Hs'. destruct (flush_law (w_bus s) sent' pend Hs') as (ok' & bus' & E' & Hrep2 & _).
  rewrite E in E'. assert (Hb : bus' = bus) by (by injection E'). subst bus'.
  case_bool_decide as Hp.
  - subst pend. exists []. rewrite !app_nil_r. split; [done |]. by split.
  - exists [(ok', pend)]. cbn. rewrite !app_nil_r. split; [done |]. split; [done |]. by apply list.Forall_singleton.
Qed.

(** A part of the round that is to send [l] sent the first [n] of it, all
    unless the bus refused one; [D n] is what then is left in the queues. *)
Definition sent_upto (l : list Z) (D : nat -> list wmm_priv) held s pend (o : outcome (mlan_status * Z * wmm B)) : Prop :=
  exists ret n pend' s', o = Ret (ret, Z.of_nat (length pend'), s') /\ (n <= length l)%nat /\ w_privs s' = D n /\
    progress s pend (take n l) s' pend' /\ wmm_ok pend' s' held /\ (length pend' < 8)%nat /\
    ((ret = MLAN_STATUS_SUCCESS /\ n = length l) \/
     (ret = MLAN_STATUS_RESOURCE /\ (n < length l)%nat /\ ~ bus_room (w_bus s) (S n))).

Lemma sent_none D held s pend : w_privs s = D 0%nat -> wmm_ok pend s held -> (length pend < 8)%nat ->
  sent_upto [] D held s pend (Ret (MLAN_STATUS_SUCCESS, Z.of_nat (length pend), s)).
Proof. intros HD I Hl. exists MLAN_STATUS_SUCCESS, 0%nat, pend, s. split_and!; try done; [apply progress_refl | by left]. Qed.

Lemma sent_ext l D D' held s pend o : (forall n, (n <= length l)%nat -> D n = D' n) -> sent_upto l D held s pend o -> sent_upto l D' held s pend o.
Proof. intros HD (ret & n & pend' & s' & E & Hn & Hp & Hrest). exists ret, n, pend', s'. by rewrite <- HD. Qed.

(** One part after the other. *)
Lemma sent_app l1 l2 D1 D held s pend o k :
  sent_upto l1 D1 held s pend o ->
  (forall n s1 pend1, (n <= length l1)%nat -> w_privs s1 = D1 n -> wmm_ok pend1 s1 held -> D1 n = D n) ->
  (forall s1 pend1, w_privs s1 = D1 (length l1) -> wmm_ok pend1 s1 held -> (length pend1 < 8)%nat ->
     sent_upto l2 (fun n => D (length l1 + n)%nat) held s1 pend1 (k (Z.of_nat (length pend1)) s1)) ->
  sent_upto (l1 ++ l2) D held s pend
    ('(ret, pkt_cnt, s) ← o; if decide (ret = MLAN_STATUS_SUCCESS) then k pkt_cnt s else Ret (ret, pkt_cnt, s)).
Proof.
  intros (ret & n & pend1 & s1 & -> & Hn & Hp & Hpr & I1 & Hl1 & Hcase) HD Hk. rewrite bind_ret.
  destruct Hcase as [[-> ->] | (-> & Hlt & Hroom)].
  - rewrite decide_True by done.
    destruct (Hk s1 pend1 Hp I1 Hl1) as (ret2 & n2 & pend2 & s2 & -> & Hn2 & Hp2 & Hpr2 & I2 & Hl2 & Hcase2).
    exists ret2, (length l1 + n2)%nat, pend2, s2. rewrite length_app, take_app_add.
    split; [done |]. split; [lia |]. split; [done |]. rewrite firstn_all in Hpr.
    split; [by apply progress_trans with s1 pend1 |]. split; [done |]. split; [done |].
    destruct Hcase2 as [[-> ->] | (-> & Hlt2 & Hroom2)]; [by left | right]. split; [done |]. split; [lia |].
    intros Hroom. apply Hroom2, (pr_room _ _ _ _ _ Hpr). by rewrite <- plus_n_Sm.
  - rewrite decide_False by done. exists MLAN_STATUS_RESOURCE, n, pend1, s1. rewrite length_app, take_app_le by lia.
    split; [done |]. split; [lia |]. split; [by rewrite Hp; apply HD with s1 pend1 |].
    split; [done |]. split; [done |]. split; [done |]. right. split; [done |]. split; [lia | done].
Qed.


(** ** The packets of one receiver *)
Lemma drain_ra_drain m n r : drain_ra m (drain_ra n r) = drain_ra (n + m) r.
Proof.
  unfold drain_ra. destruct (ra_tx_pause r) eqn:E; [by rewrite E |]. cbn. by rewrite E, drop_drop.
Qed.

Lemma put_cat_twice s i ac k (l : list raListTbl) p r1 r2 :
  <[Z.to_nat i := with_cat ac (<[Z.to_nat k := r2]> (<[Z.to_nat k := r1]> l)) (with_cat ac (<[Z.to_nat k := r1]> l) p)]>
    (<[Z.to_nat i := with_cat ac (<[Z.to_nat k := r1]> l) p]> (w_privs s)) =
  <[Z.to_nat i := with_cat ac (<[Z.to_nat k := r2]> l) p]> (w_privs s).
Proof. by rewrite with_cat_twice, !list_insert_insert_eq. Qed.

Lemma ralist_loop_spec n i ac k s held pend p l r :
  wmm_ok pend s held -> 0 <= i <= 1 -> w_privs s !! Z.to_nat i = Some p -> has_cat p ac l -> 0 <= k -> l !! Z.to_nat k = Some r ->
  ra_tx_pause r = false -> (length (buf_head r) <= n)%nat -> (length pend < 8)%nat ->
  sent_upto (buf_head r) (fun m => <[Z.to_nat i := with_cat ac (<[Z.to_nat k := drain_ra m r]> l) p]> (w_privs s)) held s pend
    (xmit_ralist_loop n i ac k (Z.of_nat (length pend)) s).
Proof.
  revert s pend p l r. induction n as [| n IH]; intros s pend p l r I Hi Hp Hl Hk Hr Hpause Hn Hpend;
    pose proof (wo_privs _ _ _ I) as Hall; rewrite list.Forall_lookup in Hall; pose proof (Hall _ _ Hp) as Hok;
    destruct (has_ra_facts p ac k r Hok) as [Htot Hfew]; try (by exists l); unfold ra_ok in Htot;
    cbn [xmit_ralist_loop]; unfold get_priv; rewrite (proj2 (arr_get_ret _ _ _) (conj (proj1 Hi) Hp)), bind_ret,
      (get_ra_has p ac k r) by (by exists l); rewrite bind_ret, Htot.
  all: destruct (buf_head r) as [| b bs] eqn:Eb.
  1, 3: apply sent_none; [| done | done]; rewrite drain_ra_0, (list_insert_id l), with_cat_id, list_insert_id by (done || (unfold ra_ok; by rewrite Eb)); done.
  { simpl in Hn. lia. }
  change (0 <? Z.of_nat (length (b :: bs))) with true. cbn match.
  assert (Hlt : (Z.to_nat k < length l)%nat) by (by apply lookup_lt_Some in Hr).
  assert (Hlti : (Z.to_nat i < length (w_privs s))%nat) by (by apply lookup_lt_Some in Hp).
  destruct (xmit_pkts_spec s held pend i ac k p l r b bs I Hi Hp Hl Hk Hr Hpause Eb Hpend)
    as (s1 & [(E & Hp1 & Hpr & I1) | (E & Hp1 & Hpr & I1 & Hroom)]); rewrite E, bind_ret.
  2: { rewrite decide_False by done. exists MLAN_STATUS_RESOURCE, 0%nat, pend, s1.
       split; [done |]. split; [lia |]. split; [| split_and!; try done].
       - by rewrite drain_ra_0, (list_insert_id l), with_cat_id, list_insert_id by (done || (unfold ra_ok; by rewrite Eb)).
       - right. split; [done |]. split; [simpl; lia | done]. }
  rewrite decide_True by done. set (pd := pend ++ [packet_of (w_bufs s) b]) in *.
  assert (Hpd : Z.of_nat (length pend) + 1 = Z.of_nat (length pd)) by (unfold pd; rewrite length_app; simpl; lia).
  rewrite (wrap_small 8) by (change (2 ^ 8) with 256; lia). rewrite Hpd. unfold sent_one in Hp1.
  set (p1 := with_cat ac (<[Z.to_nat k := drain_ra 1 r]> l) p) in *.
  assert (Hp1' : w_privs s1 !! Z.to_nat i = Some p1) by (rewrite Hp1; by apply list_lookup_insert_eq).
  assert (Hl1 : has_cat p1 ac (<[Z.to_nat k := drain_ra 1 r]> l)).
  { destruct Hl as [Hac Hl]. split; [done |]. apply list_lookup_insert_eq, (lookup_lt_Some _ _ _ Hl). }
  assert (Hr1 : <[Z.to_nat k := drain_ra 1 r]> l !! Z.to_nat k = Some (drain_ra 1 r)) by (by apply list_lookup_insert_eq).
  assert (Eb1 : buf_head (drain_ra 1 r) = bs) by (unfold drain_ra; rewrite Hpause; cbn; by rewrite Eb).
  assert (Hpause1 : ra_tx_pause (drain_ra 1 r) = false) by (unfold drain_ra; by rewrite Hpause).
  assert (Hlen1 : (length (buf_head (drain_ra 1 r)) <= n)%nat) by (rewrite Eb1; simpl in Hn; lia).
  (* the rest, after [s2] with the same queues *)
  assert (Hrest : forall s2 pend2, progress s pend [b] s2 pend2 -> wmm_ok pend2 s2 held -> w_privs s2 = w_privs s1 -> (length pend2 < 8)%nat ->
    sent_upto (b :: bs) (fun m => <[Z.to_nat i := with_cat ac (<[Z.to_nat k := drain_ra m r]> l) p]> (w_privs s)) held s pend
      (xmit_ralist_loop n i ac k (Z.of_nat (length pend2)) s2)).
  { intros s2 pend2 Hpr2 I2 Ep2 Hl2. assert (Hp2 : w_privs s2 !! Z.to_nat i = Some p1) by (by rewrite Ep2).
    destruct (IH s2 pend2 p1 _ _ I2 Hi Hp2 Hl1 Hk Hr1 Hpause1 Hlen1 Hl2) as (ret & m & pend3 & s3 & E3 & Hm & Hp3 & Hpr3 & I3 & Hl3 & Hcase).
    rewrite Eb1 in *. exists ret, (S m), pend3, s3. split; [done |]. split; [simpl; lia |]. split; [| split; [| split; [done | split; [done |]]]].
    - rewrite Hp3, Ep2, Hp1. unfold p1. rewrite put_cat_twice, drain_ra_drain. done.
    - by apply (progress_trans s pend [b] s2 pend2 (take m bs)).
    - destruct Hcase as [[-> ->] | (-> & ? & Hroom)]; [by left | right]. split; [done |]. split; [simpl; lia |].
      intros Hr'. by apply Hroom, (pr_room _ _ _ _ _ Hpr2). }
  unfold SDIO_PAYLOAD_SIZE. destruct (Z.leb_spec 8 (Z.of_nat (length pd))) as [H8 | H8]; [| by apply Hrest; [..| lia]].
  destruct (flush_spec s1 held pd I1) as (rf & bus & Ef & Hprf & If); [lia |].
  rewrite Ef, bind_ret. apply (Hrest (set_bus bus s1) []); [| done | done | simpl; lia].
  by apply (progress_trans s pend [b] s1 pd []).
Qed.

(** ** The receivers of a category *)
Lemma drain_ra_over n r : drain_ra (length (ready_bufs r) + n) r = drain_ra (length (ready_bufs r)) r.
Proof.
  unfold drain_ra, ready_bufs. destruct (ra_tx_pause r); [done |]. by rewrite !drop_ge by lia.
Qed.

Lemma drain_cat_over n l : drain_cat (length (cat_sched l) + n) l = drain_cat (length (cat_sched l)) l.
Proof.
  revert n. induction l as [| r l IH]; intros n; [done |]. cbn [drain_cat].
  change (cat_sched (r :: l)) with (ready_bufs r ++ cat_sched l). rewrite length_app, <- Nat.add_assoc, !drain_ra_over.
  rewrite !(Nat.add_comm (length (ready_bufs r))), !Nat.add_sub. by rewrite IH.
Qed.

Lemma ralist_spec i ac k s held pend p l r :
  wmm_ok pend s held -> 0 <= i <= 1 -> w_privs s !! Z.to_nat i = Some p -> has_cat p ac l -> 0 <= k -> l !! Z.to_nat k = Some r ->
  (length pend < 8)%nat ->
  sent_upto (ready_bufs r) (fun m => <[Z.to_nat i := with_cat ac (<[Z.to_nat k := drain_ra m r]> l) p]> (w_privs s)) held s pend
    (wifi_xmit_ralist_pkts i ac k (Z.of_nat (length pend)) s).
Proof.
  intros I Hi Hp Hl Hk Hr Hpend. pose proof (wo_privs _ _ _ I) as Hall. rewrite list.Forall_lookup in Hall. pose proof (Hall _ _ Hp) as Hok.
  assert (Hra : has_ra p ac k r) by (by exists l). destruct (has_ra_facts p ac k r Hok Hra) as [Htot _].
  unfold wifi_xmit_ralist_pkts, get_priv, ready_bufs.
  rewrite (proj2 (arr_get_ret _ _ _) (conj (proj1 Hi) Hp)), bind_ret, (get_ra_has p ac k r Hra), bind_ret.
  destruct (ra_tx_pause r) eqn:Epause.
  - apply sent_none; [| done | done]. rewrite drain_ra_0, (list_insert_id l), with_cat_id, list_insert_id by done. done.
  - apply ralist_loop_spec; try done. rewrite Htot. lia.
Qed.

Lemma receivers_spec post : forall pre i ac s held pend p,
  wmm_ok pend s held -> 0 <= i <= 1 -> w_privs s !! Z.to_nat i = Some p -> has_cat p ac (pre ++ post) -> (length pend < 8)%nat ->
  sent_upto (cat_sched post) (fun n => <[Z.to_nat i := with_cat ac (pre ++ drain_cat n post) p]> (w_privs s)) held s pend
    (xmit_receivers (length post) i ac (Z.of_nat (length pre)) (Z.of_nat (length pend)) s).
Proof.
  induction post as [| r post IH]; intros pre i ac s held pend p I Hi Hp Hl Hpend;
    pose proof (wo_privs _ _ _ I) as Hall; rewrite list.Forall_lookup in Hall; pose proof (Hall _ _ Hp) as Hok; cbn [xmit_receivers length].
  { apply sent_none; [| done | done]. cbn [drain_cat]. rewrite with_cat_id, list_insert_id by done. done. }
  assert (Hr : (pre ++ r :: post) !! Z.to_nat (Z.of_nat (length pre)) = Some r) by (rewrite Nat2Z.id; by apply list_lookup_middle).
  pose proof (ralist_spec i ac (Z.of_nat (length pre)) s held pend p _ r I Hi Hp Hl ltac:(lia) Hr Hpend) as H1.
  assert (Hlti : (Z.to_nat i < length (w_privs s))%nat) by (by apply lookup_lt_Some in Hp).
  assert (Hins : forall m, <[Z.to_nat (Z.of_nat (length pre)) := drain_ra m r]> (pre ++ r :: post) = pre ++ drain_ra m r :: post).
  { intros m. rewrite Nat2Z.id. rewrite insert_app_r_alt, Nat.sub_diag by lia. done. }
  assert (Hpost : Forall ra_ok post).
  { pose proof (cat_ok p ac _ Hok Hl) as Hf. apply list.Forall_app in Hf as [_ Hf]. by apply list.Forall_cons in Hf as [_ Hf]. }
  change (cat_sched (r :: post)) with (ready_bufs r ++ cat_sched post).
  apply (sent_app (ready_bufs r) (cat_sched post) _ _ held s pend _ (fun c s => xmit_receivers (length post) i ac (Z.of_nat (length pre) + 1) c s) H1).
  - intros n s1 pend1 Hn _ _. cbn [drain_cat]. rewrite Hins. replace (n - length (ready_bufs r))%nat with 0%nat by lia.
    by rewrite drain_cat_0.
  - intros s1 pend1 Hp1 I1 Hl1. cbn beta in Hp1. rewrite Hins in Hp1. set (r1 := drain_ra (length (ready_bufs r)) r) in *.
    set (p1 := with_cat ac (pre ++ r1 :: post) p) in *.
    assert (Hp1' : w_privs s1 !! Z.to_nat i = Some p1) by (rewrite Hp1; by apply list_lookup_insert_eq).
    assert (Hc1 : has_cat p1 ac ((pre ++ [r1]) ++ post)).
    { rewrite <- (assoc_L (++)). destruct Hl as [Hac Hl]. split; [done |]. apply list_lookup_insert_eq, (lookup_lt_Some _ _ _ Hl). }
    pose proof (IH (pre ++ [r1]) i ac s1 held pend1 p1 I1 Hi Hp1' Hc1 Hl1) as H2.
    replace (Z.of_nat (length (pre ++ [r1]))) with (Z.of_nat (length pre) + 1) in H2 by (rewrite length_app; simpl; lia).
    apply sent_ext with (2 := H2). intros n _. rewrite Hp1. unfold p1. rewrite with_cat_twice, list_insert_insert_eq, <- (assoc_L (++)).
    cbn [drain_cat]. by rewrite drain_ra_over, (Nat.add_comm _ n), Nat.add_sub.
Qed.

(** ** The categories of an interface *)
Lemma cat_sched_queued l : cat_count l = 0 -> cat_bufs l = [] /\ cat_sched l = [].
Proof.
  unfold cat_count. intros H. assert (Hn : cat_bufs l = []) by (apply length_zero_iff_nil; lia). split; [done |]. clear H.
  induction l as [| r l IH]; [done |]. change (cat_bufs (r :: l)) with (buf_head r ++ cat_bufs l) in Hn. apply app_eq_nil in Hn as [Hr Hn].
  change (cat_sched (r :: l)) with (ready_bufs r ++ cat_sched l). rewrite IH by done. unfold ready_bufs. rewrite Hr. by destruct (ra_tx_pause r).
Qed.

Lemma drain_cat_idle n l : Forall ra_ok l -> cat_bufs l = [] -> drain_cat n l = l.
Proof.
  intros Hok. revert n. induction Hok as [| r l Hr _ IH]; intros n Hn; [done |].
  change (cat_bufs (r :: l)) with (buf_head r ++ cat_bufs l) in Hn. apply app_eq_nil in Hn as [Hb Hn].
  cbn [drain_cat]. rewrite IH by done. f_equal. unfold ra_ok in Hr. unfold drain_ra. destruct (ra_tx_pause r) eqn:E; [done |].
  rewrite Hb in *. rewrite drop_nil. destruct r. simpl in *. by subst.
Qed.

Lemma cats_spec acs : cats_ok acs -> NoDup acs -> forall i s held pend p,
  wmm_ok pend s held -> 0 <= i <= 1 -> w_privs s !! Z.to_nat i = Some p -> (length pend < 8)%nat ->
  sent_upto (cats_sched acs p) (fun n => <[Z.to_nat i := drain_cats n acs p]> (w_privs s)) held s pend
    (xmit_categories acs i (Z.of_nat (length pend)) s).
Proof.
  induction 1 as [| ac acs Hac Hacs IH]; intros Hnd i s held pend p I Hi Hp Hpend; cbn [xmit_categories];
    pose proof (wo_privs _ _ _ I) as Hall; rewrite list.Forall_lookup in Hall; pose proof (Hall _ _ Hp) as Hok.
  { apply sent_none; [| done | done]. cbn [drain_cats]. by rewrite list_insert_id. }
  apply list.NoDup_cons in Hnd as [Hni Hnd]. destruct (node_spec p ac [] Hok Hac) as (l & Hl & _).
  destruct (cat_at_ok p ac l Hok Hl) as [[[Hac0 Hl'] Hq] _]. pose proof (cat_of_has p ac l Hl) as Hof.
  pose proof (cat_ok p ac l Hok Hl) as Hlok. assert (Hlti : (Z.to_nat i < length (w_privs s))%nat) by (by apply lookup_lt_Some in Hp).
  unfold get_priv. rewrite (proj2 (arr_get_ret _ _ _) (conj (proj1 Hi) Hp)), bind_ret, (proj2 (arr_get_ret _ _ _) (conj Hac0 Hq)), bind_ret.
  change (cats_sched (ac :: acs) p) with (cat_sched (cat_of p ac) ++ cats_sched acs p). rewrite Hof.
  destruct (Z.eqb_spec (cat_count l) 0) as [E0 | E0].
  - destruct (cat_sched_queued l E0) as [Hb Hs]. rewrite Hs. cbn [app].
    apply sent_ext with (2 := IH Hnd i s held pend p I Hi Hp Hpend). intros n _. cbn [drain_cats].
    rewrite Hof, Hs, Nat.sub_0_r, drain_cat_idle, with_cat_id by done. done.
  - rewrite (proj2 (arr_get_ret _ _ _) (conj Hac0 Hl')), bind_ret.
    pose proof (receivers_spec l [] i ac s held pend p I Hi Hp Hl Hpend) as H1.
    refine (sent_app (cat_sched l) (cats_sched acs p) _ _ held s pend _ (fun c s => xmit_categories acs i c s) H1 _ _).
    + intros n s1 pend1 Hn Hp1 I1. cbn beta in Hp1. cbn [app] in *. cbn [drain_cats]. rewrite Hof.
      replace (n - length (cat_sched l))%nat with 0%nat by lia. rewrite drain_cats_0; [done | done |].
      pose proof (wo_privs _ _ _ I1) as Hall1. rewrite list.Forall_lookup in Hall1. apply (Hall1 (Z.to_nat i)). rewrite Hp1. by apply list_lookup_insert_eq.
    + intros s1 pend1 Hp1 I1 Hl1. cbn beta in Hp1. cbn [app] in Hp1. set (p1 := with_cat ac (drain_cat (length (cat_sched l)) l) p) in *.
      assert (Hp1' : w_privs s1 !! Z.to_nat i = Some p1) by (rewrite Hp1; by apply list_lookup_insert_eq).
      pose proof (IH Hnd i s1 held pend1 p1 I1 Hi Hp1' Hl1) as H2. unfold p1 in H2 at 1. rewrite cats_sched_with_cat in H2 by (done || lia).
      apply sent_ext with (2 := H2). intros n _. rewrite Hp1, list_insert_insert_eq. cbn [drain_cats]. rewrite Hof.
      by rewrite drain_cat_over, (Nat.add_comm _ n), Nat.add_sub.
Qed.

(** ** The interfaces *)

(** [xmit_interfaces] with the status it does not report. *)
Fixpoint xmit_ifs (ifs : list Z) (pkt_cnt : Z) (s : wmm B) : outcome (mlan_status * Z * wmm B) :=
  match ifs with
  | [] => Ret (MLAN_STATUS_SUCCESS, pkt_cnt, s)
  | i :: ifs =>
      '(ret, pkt_cnt, s) ← (p ← get_priv i s;
                            if negb (media_connected p) || priv_tx_pause p then Ret (MLAN_STATUS_SUCCESS, pkt_cnt, s)
                            else xmit_categories AC_ORDER i pkt_cnt s);
      if decide (ret = MLAN_STATUS_SUCCESS) then xmit_ifs ifs pkt_cnt s else Ret (ret, pkt_cnt, s)
  end.

Lemma xmit_interfaces_status ifs pkt_cnt s : xmit_interfaces ifs pkt_cnt s = ('(_, pkt_cnt, s) ← xmit_ifs ifs pkt_cnt s; Ret (pkt_cnt, s)).
Proof.
  revert pkt_cnt s. induction ifs as [| i ifs IH]; intros pkt_cnt s; [done |]. cbn [xmit_interfaces xmit_ifs].
  destruct (get_priv i s) as [p | f]; [rewrite !bind_ret | done]. destruct (_ || _).
  - rewrite bind_ret, decide_True by done. apply IH.
  - change [WMM_AC_VO; WMM_AC_VI; WMM_AC_BE; WMM_AC_BK] with AC_ORDER.
    destruct (xmit_categories AC_ORDER i pkt_cnt s) as [[[ret cnt] s'] | f]; [rewrite !bind_ret | done].
    destruct (decide _); [apply IH | done].
Qed.

Lemma drain_cats_over acs n p : cats_ok acs -> NoDup acs ->
  drain_cats (length (cats_sched acs p) + n) acs p = drain_cats (length (cats_sched acs p)) acs p.
Proof.
  intros Hacs. revert n p. induction Hacs as [| ac acs Hac Hacs IH]; intros n p Hnd; [done |].
  apply list.NoDup_cons in Hnd as [Hni Hnd]. cbn [drain_cats].
  change (cats_sched (ac :: acs) p) with (cat_sched (cat_of p ac) ++ cats_sched acs p).
  rewrite length_app, <- Nat.add_assoc, !drain_cat_over, !(Nat.add_comm (length (cat_sched _))), !Nat.add_sub.
  rewrite <- (cats_sched_with_cat acs ac (drain_cat (length (cat_sched (cat_of p ac))) (cat_of p ac)) p) by (done || lia).
  by apply IH.
Qed.

Lemma drain_priv_over n p : drain_priv (length (priv_sched p) + n) p = drain_priv (length (priv_sched p)) p.
Proof. unfold drain_priv, priv_sched. destruct (may_send p); [| done]. by apply drain_cats_over; apply order_ok. Qed.

Lemma ifs_spec post : forall pre s held pend,
  wmm_ok pend s held -> w_privs s = pre ++ post -> (length pend < 8)%nat ->
  sent_upto (concat (priv_sched <$> post)) (fun n => pre ++ drain_privs n post) held s pend
    (xmit_ifs (Z.of_nat <$> seq (length pre) (length post)) (Z.of_nat (length pend)) s).
Proof.
  induction post as [| p post IH]; intros pre s held pend I Hs Hpend; cbn [length seq fmap list_fmap xmit_ifs]; [by apply sent_none |].
  pose proof (wo_privs _ _ _ I) as Hall. rewrite Hs in Hall. apply list.Forall_app in Hall as [_ Hall].
  apply list.Forall_cons in Hall as [Hok Hpost].
  assert (Hi : 0 <= Z.of_nat (length pre) <= 1).
  { pose proof (wo_two _ _ _ I) as H2. rewrite Hs, length_app in H2. simpl in H2. lia. }
  assert (Hp : w_privs s !! Z.to_nat (Z.of_nat (length pre)) = Some p) by (rewrite Hs, Nat2Z.id; by apply list_lookup_middle).
  assert (Hins : forall q, <[Z.to_nat (Z.of_nat (length pre)) := q]> (w_privs s) = pre ++ q :: post).
  { intros q. rewrite Hs, Nat2Z.id, insert_app_r_alt, Nat.sub_diag by lia. done. }
  cbn [concat]. refine (sent_app (priv_sched p) _ (fun n => pre ++ drain_priv n p :: post) _ held s pend _
    (fun c s => xmit_ifs (Z.of_nat <$> seq (S (length pre)) (length post)) c s) _ _ _).
  - unfold get_priv. rewrite (proj2 (arr_get_ret _ _ _) (conj (proj1 Hi) Hp)), bind_ret. unfold priv_sched.
    replace (negb (media_connected p) || priv_tx_pause p) with (negb (may_send p))
      by (unfold may_send; by destruct (media_connected p), (priv_tx_pause p)).
    destruct (may_send p) eqn:Ems; cbn [negb].
    + destruct order_ok as [Ho Hnd]. apply sent_ext with (2 := cats_spec AC_ORDER Ho Hnd _ s held pend p I Hi Hp Hpend).
      intros n _. unfold drain_priv. rewrite Ems. apply Hins.
    + apply sent_none; [| done | done]. by rewrite drain_priv_0.
  - intros n s1 pend1 Hn _ _. cbn [drain_privs]. replace (n - length (priv_sched p))%nat with 0%nat by lia. by rewrite drain_privs_0.
  - intros s1 pend1 Hp1 I1 Hl1. pose proof (IH (pre ++ [drain_priv (length (priv_sched p)) p]) s1 held pend1 I1) as H2.
    rewrite <- (assoc_L (++)), length_app, Nat.add_1_r in H2. specialize (H2 Hp1 Hl1). apply sent_ext with (2 := H2). intros n _.
    cbn [drain_privs]. by rewrite drain_priv_over, (Nat.add_comm _ n), Nat.add_sub, <- (assoc_L (++)).
Qed.

(** ** The round *)
Lemma room_le (b : B) n m : (n <= m)%nat -> bus_room b m -> bus_room b n.
Proof. induction 1 as [| m _ IH]; [done |]. intros Hr. by apply IH, room_mono. Qed.

Lemma round_spec s held : wmm_ok [] s held ->
  exists n s', wifi_xmit_wmm_ac_pkts_enh s = Ret s' /\ (n <= length (schedule s))%nat /\
    w_privs s' = drain_privs n (w_privs s) /\ progress s [] (take n (schedule s)) s' [] /\ wmm_ok [] s' held /\
    (bus_room (w_bus s) (length (schedule s)) -> n = length (schedule s)).
Proof.
  intros I. pose proof (wo_two _ _ _ I) as H2.
  destruct (ifs_spec (w_privs s) [] s held [] I eq_refl ltac:(simpl; lia)) as (ret & n & pend & s1 & E & Hn & Hp & Hpr & I1 & Hl & Hcase).
  rewrite H2 in E. change (Z.of_nat <$> seq (@length wmm_priv []) 2) with [0; 1] in E. change (Z.of_nat (@length (list Z) [])) with 0 in E.
  destruct (flush_spec s1 held pend I1 ltac:(lia)) as (rf & bus & Ef & Hprf & If).
  exists n, (set_bus bus s1). unfold wifi_xmit_wmm_ac_pkts_enh. rewrite xmit_interfaces_status, E, !bind_ret, Ef, bind_ret.
  split; [done |]. split; [done |]. split; [exact Hp |]. split; [| split; [done |]].
  - pose proof (progress_trans _ _ _ _ _ _ _ _ Hpr Hprf) as Hall. by rewrite app_nil_r in Hall.
  - intros Hroom. destruct Hcase as [[_ ->] | (_ & Hlt & Hno)]; [done |]. exfalso. by apply Hno, (room_le _ _ _ Hlt).
Qed.
End round.
