(* ===== verification/WmmCalls.v ===== *)
(** * The calls that use the transmit queues

    What the network stack, the transmit thread and the events of the firmware
    do to the queues, one call at a time and in any order; every call returns
    and keeps the invariant. *)
From S2P Require Import Prelude Aggr Sdio TxBus Wmm WmmProps WmmState WmmRound.

Section calls.
Context {B : Type} `{HB : TxBus B} `{HL : !TxBusLaws B}.
Implicit Types (s : wmm B) (held : list Z).

(** ** The transmit thread *)
Lemma schedule_none s : queued s = [] -> schedule s = [].
Proof.
  unfold queued, schedule. induction (w_privs s) as [| p ps IH]; [done |]. intros H.
  cbn [fmap list_fmap concat] in *. apply app_eq_nil in H as [Hp H]. rewrite IH by done. rewrite app_nil_r.
  unfold priv_sched. destruct (may_send p); [| done]. unfold cats_sched, AC_ORDER.
  assert (Hcat : forall ac, cat_sched (cat_of p ac) = []).
  { intros ac. unfold cat_of. destruct (tid_tbl p !! Z.to_nat ac) as [l |] eqn:El; [| done]. apply cat_sched_queued.
    assert (Hl : (length (cat_bufs l) <= length (priv_bufs p))%nat)
      by (apply concat_elem_sub with (i := Z.to_nat ac); by rewrite list_lookup_fmap, El).
    unfold cat_count. rewrite Hp in Hl. simpl in *. lia. }
  cbn [fmap list_fmap concat]. by rewrite !Hcat.
Qed.

Lemma driver_tx_spec s held : wmm_ok [] s held -> w_notified s = true ->
  exists n s', wifi_driver_tx true s = Ret s' /\ (n <= length (schedule s))%nat /\
    w_privs s' = drain_privs n (w_privs s) /\ progress (set_notified false s) [] (take n (schedule s)) s' [] /\ wmm_ok [] s' held /\
    (bus_room (w_bus s) (length (schedule s)) -> n = length (schedule s)).
Proof.
  intros I Hn. unfold wifi_driver_tx. rewrite Hn. cbn [negb]. set (s0 := set_notified false s).
  assert (I0 : wmm_ok [] s0 held) by (by apply set_notified_ok).
  pose proof (wo_pool _ _ _ I0) as Hpool. unfold pool_ok in Hpool. pose proof (owned_length _ _ _ I0) as Hlen.
  unfold wifi_wmm_get_packet_cnt, MAX_WMM_BUF_NUM. rewrite Hpool, wrap_small by (change (2 ^ 8) with 256; lia).
  destruct (Z.ltb_spec 0 (16 - Z.of_nat (length (free_list (w_pool s0))))) as [Hlt | Hge].
  - destruct (round_spec s0 held I0) as (n & s' & E & Hrest). exists n, s'. by split.
  - assert (Hq : queued s = []) by (apply length_zero_iff_nil; change (queued s) with (queued s0); lia).
    exists 0%nat, s0. rewrite (schedule_none s Hq). split; [done |]. split; [simpl; lia |].
    split; [by rewrite drain_privs_0 by apply I0 |]. split; [apply progress_refl |]. by split.
Qed.

Lemma driver_tx_ok awake s held : wmm_ok [] s held -> exists s', wifi_driver_tx awake s = Ret s' /\ wmm_ok [] s' held.
Proof.
  intros I. destruct (w_notified s) eqn:En; [| exists s; unfold wifi_driver_tx; by rewrite En].
  destruct awake.
  - destruct (driver_tx_spec s held I En) as (n & s' & E & _ & _ & _ & I' & _). by exists s'.
  - exists (set_notified false s). unfold wifi_driver_tx. rewrite En. split; [done | by apply set_notified_ok].
Qed.

(** ** The network stack *)
Lemma retry_ok yields s held queue interface addr : wmm_ok [] s held -> 0 <= interface <= 1 -> 0 <= queue < 8 ->
  exists b paused s', outbuf_retry yields queue interface addr s = Ret (b, paused, s') /\ wmm_ok [] s' (option_list b ++ held) /\
    (paused = true -> b = None).
Proof.
  revert s. induction yields as [| y yields IH]; intros s I Hi Hq; cbn [outbuf_retry]; [by exists None, false, s |].
  assert (Hy : exists s1, match y with Some awake => wifi_driver_tx awake (send_wifi_driver_tx_data_event s) | None => Ret (send_wifi_driver_tx_data_event s) end = Ret s1 /\ wmm_ok [] s1 held).
  { pose proof (set_notified_ok [] s held true I) as I0. destruct y; [| by eexists]. by apply driver_tx_ok. }
  destruct Hy as (s1 & -> & I1). rewrite bind_ret.
  destruct (get_outbuf_ok [] s1 held queue interface addr I1 Hi Hq) as (b & paused & s2 & -> & I2 & Hp). rewrite bind_ret.
  destruct b as [b |]; [exists (Some b), paused, s2; split; [done |]; split; [done |]; intros Hpt; by destruct (Hp Hpt) |].
  destruct paused; [by exists None, true, s2 | by apply IH].
Qed.

Lemma interface_drop_ok f interface s held : wmm_ok [] s held -> exists s', interface_drop f interface s = Ret s' /\ wmm_ok [] s' held.
Proof.
  intros I. unfold interface_drop, MLAN_BSS_TYPE_STA, MLAN_BSS_TYPE_UAP. destruct (_ || _) eqn:E; [| by exists s].
  assert (Hi : 0 <= interface <= 1) by (apply orb_true_iff in E as [E | E]; apply Z.eqb_eq in E; lia).
  destruct (get_priv_spec [] s held interface I Hi) as (p & -> & Hp & Hok & _). rewrite bind_ret.
  destruct (put_priv_conserved [] s held interface p (count_drop f p) (w_pool s) I ltac:(lia) Hp) as (s' & -> & I' & _); [| by exists s'].
  apply conserved_stat, conserved_refl; [done | apply I].
Qed.

Lemma get_prio_ok buf tid : 16 <= Z.of_nat (length buf) -> exists prio tid', wifi_wmm_get_pkt_prio buf tid = Ret (prio, tid') /\ 0 <= prio < 4.
Proof.
  intros Hl. unfold wifi_wmm_get_pkt_prio.
  destruct (arr_get_total buf 0xc) as (b12 & -> & _); [lia |]. destruct (arr_get_total buf 0xd) as (b13 & -> & _); [lia |].
  destruct (arr_get_total buf 0xe) as (b14 & -> & _); [lia |]. destruct (arr_get_total buf 0xf) as (b15 & -> & _); [lia |].
  rewrite !bind_ret. destruct (_ || _); [| eexists _, _; split; [done | unfold WMM_AC_BE; lia]].
  destruct (_ && _); rewrite !bind_ret; (eexists _, _; split; [done |]; unfold WMM_AC_BE, WMM_AC_BK, WMM_AC_VI, WMM_AC_VO; repeat case_match; lia).
Qed.

(** The buffer filled: an empty header and descriptor, and the packet. *)
Lemma fill_buf_spec (m payload : list Z) : length m = OUTBUF_LEN -> bytes m -> bytes payload -> (length payload <= 1580)%nat ->
  exists m1 m2, mem_write m 0 (replicate (Z.to_nat (INTF_HEADER_LEN + sizeof_TxPD)) 0) = Ret m1 /\
    mem_write m1 (INTF_HEADER_LEN + sizeof_TxPD) payload = Ret m2 /\ length m2 = OUTBUF_LEN /\ bytes m2 /\
    take (length payload) (drop 26 m2) = payload.
Proof.
  unfold OUTBUF_LEN, INTF_HEADER_LEN, sizeof_TxPD. intros Hl Hb Hbp Hp. change (Z.to_nat (4 + 22)) with 26%nat. change (4 + 22) with 26.
  destruct (split_block m 26) as (A & m0 & -> & HA & H0); [lia |]. rewrite length_app in Hl.
  destruct (split_block m0 (length payload)) as (D & E & -> & HD & HE); [lia |]. rewrite length_app in *.
  apply list.Forall_app in Hb as [_ Hb]. apply list.Forall_app in Hb as [_ Hb].
  set (Z26 := replicate 26 0). exists (Z26 ++ D ++ E), (Z26 ++ payload ++ E).
  split; [by apply mem_write_front; rewrite HA |]. split; [by apply (mem_write_app Z26 D E payload) |].
  split; [rewrite !length_app; simpl; lia |]. split.
  - repeat (apply list.Forall_app; split; [| done]). apply list.Forall_app. split; [| by apply list.Forall_app].
    apply list.Forall_replicate. unfold is_byte. lia.
  - rewrite drop_app_length' by done. by rewrite take_app_length.
Qed.

(** The receiver is in the first bytes. *)
Lemma mem_read_take (m bs : list Z) off n : mem_read m off n = Ret bs -> bs = take (Z.to_nat n) (drop (Z.to_nat off) m).
Proof. unfold mem_read. destruct (_ && _); [by intros [= <-] | done]. Qed.

Lemma da_to_ra_take m : (6 <= length m)%nat -> wifi_wmm_da_to_ra (take 6 m) = wifi_wmm_da_to_ra m.
Proof.
  intros Hl. destruct (split_block m 6 Hl) as (A & E & -> & HA & _). rewrite <- HA at 1. rewrite take_app_length.
  unfold wifi_wmm_da_to_ra, mem_read. rewrite length_app, HA.
  do 6 (destruct A as [| ? A]; [done |]). destruct A; [| done].
  assert (E0 : forall x (l : list Z), arr_get (x :: l) 0 = Ret x) by done. cbn [app]. rewrite !E0, !bind_ret.
  destruct (Z.land z 1 =? 1); [done |]. replace (0 + 6 <=? Z.of_nat (6 + length E)) with true by (symmetry; apply Z.leb_le; lia). done.
Qed.

(** What comes of a packet of the network stack; the assertion fails only where
    the card was not awake in time. *)
Lemma output_spec awake blocked yields interface payload s held :
  wmm_ok [] s held -> 0 <= interface <= 1 -> bytes payload -> (16 <= length payload <= 1580)%nat ->
  (low_level_output awake blocked yields interface payload s = Fault Hang /\ awake = false /\ blocked = false) \/
  exists r s', low_level_output awake blocked yields interface payload s = Ret (r, s') /\ wmm_ok [] s' held /\
    (r = ERR_OK -> blocked = false ->
     exists prio tid addr b, wifi_wmm_get_pkt_prio payload 0 = Ret (prio, tid) /\ wifi_wmm_da_to_ra payload = Ret addr /\
       newest s' interface prio addr b /\ drop 26 (packet_of (w_bufs s') b) = payload /\ w_notified s' = true).
Proof.
  intros I Hi Hb Hl. unfold low_level_output.
  destruct (get_prio_ok payload 0) as (prio & tid & Eprio & Hprio); [lia |]. rewrite Eprio, bind_ret.
  unfold MLAN_BSS_TYPE_UAP. destruct (Z.ltb_spec 1 interface) as [|_]; [lia |].
  destruct blocked; [right; eexists ERR_OK, s; split; [done |]; by split |].
  destruct (da_to_ra_ret payload) as (addr & Eaddr); [lia |]. rewrite Eaddr, bind_ret.
  assert (Hout : exists b0 paused0 s0 b paused s1, wifi_wmm_get_outbuf_enh prio interface addr s = Ret (b0, paused0, s0) /\
      match b0, paused0 with None, false => outbuf_retry yields prio interface addr s0 | _, _ => Ret (b0, paused0, s0) end = Ret (b, paused, s1) /\
      wmm_ok [] s1 (option_list b ++ held) /\ (paused = true -> b = None)).
  { destruct (get_outbuf_ok [] s held prio interface addr I Hi ltac:(lia)) as (b & paused & s1 & -> & I1 & Hp).
    exists b, paused, s1.
    destruct b as [b |]; [exists (Some b), paused, s1; split_and!; [done.. |]; intros Ht; by destruct (Hp Ht) |].
    destruct paused; [by exists None, true, s1 |].
    destruct (retry_ok yields s1 held prio interface addr I1 Hi ltac:(lia)) as (b & paused & s2 & -> & I2 & Hp2). by exists b, paused, s2. }
  destruct Hout as (b0 & paused0 & s0 & b & paused & s1 & E0 & Eout & I1 & Hpaused).
  rewrite E0, bind_ret. cbn zeta. rewrite Eout, bind_ret. destruct paused.
  { rewrite (Hpaused eq_refl) in I1. destruct (interface_drop_ok stat_pause_drop interface s1 held I1) as (s2 & -> & I2). rewrite bind_ret.
    right. by eexists ERR_MEM, s2. }
  destruct b as [b |].
  2: { destruct (interface_drop_ok stat_retried_drop interface s1 held I1) as (s2 & -> & I2). rewrite bind_ret. right. by eexists ERR_MEM, s2. }
  change (option_list (Some b) ++ held) with (b :: held) in I1.
  assert (Hrange : 0 <= b < 16) by (apply (owned_range [] s1 (b :: held)); [done | apply elem_of_cons; by left]).
  destruct (buf_spec [] s1 (b :: held) b I1 Hrange) as (m & Em & Hm & Hml & Hmb). rewrite Em, bind_ret.
  destruct (fill_buf_spec m payload Hml Hmb Hb) as (m1 & m2 & E1 & E2 & Hl2 & Hb2 & Hd2); [lia |]. rewrite E1, bind_ret, E2, bind_ret.
  rewrite (arr_set_lookup _ _ m) by (done || lia). rewrite bind_ret.
  unfold sizeof_mlan_linked_list, INTF_HEADER_LEN, sizeof_TxPD in *. rewrite wrap_small by (change (2 ^ 16) with 65536; lia).
  set (len := 8 + 22 + 4 + Z.of_nat (length payload)).
  destruct awake; [right | by left].
  pose proof (set_buf_ok [] s1 held b m2 I1 Hl2 Hb2) as I2.
  destruct (low_level_output_ok [] _ held b interface len prio tid I2 Hi ltac:(lia)) as (r & s3 & E3 & I3 & Hr); [lia |].
  rewrite E3, bind_ret. eexists _, s3. split; [done |]. split; [done |]. destruct (Z.eqb_spec r 0) as [-> | Hne]; [| intros Hc; exfalso; revert Hc; by destruct (r =? _)].
  intros _ _. destruct (Hr eq_refl) as (m' & m3 & da & addr' & Hm' & Hm3 & Hl3 & Hd3 & En & Eda & Ea & Hnew & Hnot).
  cbn [w_bufs set_bufs] in Hm'. rewrite list_lookup_insert_eq in Hm' by (by apply lookup_lt_Some in Hm). injection Hm' as <-.
  exists prio, tid, addr', b. split; [done |].
  assert (Hx : take (length payload) (drop 26 m3) = payload) by (by rewrite Hd3).
  split; [| split; [done | split; [| done]]].
  - rewrite <- Eaddr, <- (da_to_ra_take payload), <- Ea by lia. f_equal. apply mem_read_take in Eda as ->.
    rewrite <- Hx at 1. rewrite take_take. f_equal. change (Z.to_nat 6) with 6%nat. lia.
  - unfold packet_of. rewrite Hm3, En. unfold INTF_HEADER_LEN, sizeof_TxPD.
    replace (Z.to_nat (len - 34 + 22 + 4)) with (26 + length payload)%nat by lia. rewrite skipn_firstn_comm.
    replace (26 + length payload - 26)%nat with (length payload) by lia. exact Hx.
Qed.

(** ** Pause events *)
Lemma sta_pause_ok p pool mac b : priv_ok p -> pool_ok pool ->
  exists p' w, wifi_sta_handle_event_data_pause p mac b = Ret (p', w) /\ conserved p pool p' pool.
Proof.
  intros Hp Hpool. unfold wifi_sta_handle_event_data_pause. destruct (negb _); [eexists _, _; split; [done | by apply conserved_refl] |].
  case_bool_decide; [eexists _, _; split; [done | by apply conserved_refl] |].
  case_bool_decide; [| rewrite bind_ret; eexists _, _; split; [done | by apply conserved_refl]].
  set (p0 := set_priv_pause _ p). assert (Hp0 : priv_ok p0) by (destruct Hp; by split).
  destruct (pause_loop_spec MAX_AC_QUEUES mac (negb (b =? 0)) p0 pool all_cats_ok Hp0 Hpool) as (p' & -> & C). rewrite bind_ret.
  eexists _, _. split; [done |]. destruct C. by split.
Qed.

Lemma uap_pause_ok p pool mac b : priv_ok p -> pool_ok pool ->
  exists p' w, wifi_uap_handle_event_data_pause p mac b = Ret (p', w) /\ conserved p pool p' pool.
Proof.
  intros Hp Hpool. unfold wifi_uap_handle_event_data_pause. case_bool_decide.
  - rewrite bind_ret. eexists _, _. split; [done |]. destruct Hp. by repeat split.
  - destruct (pause_loop_spec MAX_AC_QUEUES mac (negb (b =? 0)) p pool all_cats_ok Hp Hpool) as (p' & -> & C). rewrite bind_ret. by eexists _, _.
Qed.

Lemma data_pause_ok fuel m bss_type tlv left s held : bytes m -> 0 <= tlv -> tlv + left + 7 <= Z.of_nat (length m) ->
  left <= 4 * Z.of_nat fuel + 3 -> wmm_ok [] s held ->
  exists s', data_pause_loop fuel m bss_type tlv left s = Ret s' /\ wmm_ok [] s' held.
Proof.
  intros Hb. revert tlv left s. induction fuel as [| fuel IH]; intros tlv left s H0 Hl Hf I; cbn [data_pause_loop];
    (destruct (Z.ltb_spec left 4) as [| H4]; [by exists s |]); [lia |].
  destruct (mem_read_le16_total m tlv Hb) as (ty & -> & _); [lia.. |]. rewrite bind_ret.
  destruct (mem_read_le16_total m (tlv + 2) Hb) as (len & -> & Hlen & _); [lia.. |]. rewrite bind_ret.
  destruct (Z.ltb_spec left (4 + len)) as [| H5]; [by exists s |].
  match goal with |- exists s', (?o ≫= _) = _ /\ _ => assert (Ho : exists s1, o = Ret s1 /\ wmm_ok [] s1 held) end.
  2: { destruct Ho as (s1 & -> & I1). rewrite bind_ret. apply IH; try done; lia. }
  destruct (_ && _) eqn:E; [| by exists s]. apply andb_true_iff in E as [_ E].
  assert (Hi : 0 <= bss_type <= 1).
  { unfold MLAN_BSS_TYPE_STA, MLAN_BSS_TYPE_UAP in E. apply orb_true_iff in E as [E | E]; apply Z.eqb_eq in E; lia. }
  destruct (mem_read_fits m (tlv + 4) 6) as (mac & -> & _); [lia.. |]. rewrite bind_ret.
  destruct (arr_get_total m (tlv + 10)) as (b & -> & _); [lia |]. rewrite bind_ret.
  destruct (get_priv_spec [] s held bss_type I Hi) as (p & -> & Hp & Hok & _). rewrite bind_ret.
  assert (Hev : exists p' w, (if bss_type =? MLAN_BSS_TYPE_STA then wifi_sta_handle_event_data_pause p mac b
      else wifi_uap_handle_event_data_pause p mac b) = Ret (p', w) /\ conserved p (w_pool s) p' (w_pool s))
    by (destruct (_ =? _); [apply sta_pause_ok | apply uap_pause_ok]; done || apply I).
  destruct Hev as (p' & w & -> & C). rewrite bind_ret.
  destruct (put_priv_conserved [] s held bss_type p p' (w_pool s) I ltac:(lia) Hp C) as (s1 & -> & I1 & _). rewrite bind_ret.
  eexists. split; [done |]. destruct w; [by apply set_notified_ok | done].
Qed.

Definition event_fits (evt : list Z) : Prop :=
  bytes evt /\ 8 <= Z.of_nat (length evt) /\ forall n, mem_read_le16 evt 0 = Ret n -> n + 7 <= Z.of_nat (length evt).

Lemma pause_event_ok evt s held : event_fits evt -> wmm_ok [] s held ->
  exists s', wifi_handle_event_data_pause evt s = Ret s' /\ wmm_ok [] s' held.
Proof.
  intros (Hb & Hl & Hfit) I. unfold wifi_handle_event_data_pause.
  destruct (mem_read_le16_total evt 0 Hb) as (n & E & Hn); [lia.. |]. specialize (Hfit n E). rewrite E, bind_ret.
  destruct (arr_get_total evt 7) as (b & -> & _); [lia |]. rewrite bind_ret. by apply data_pause_ok; try done; lia.
Qed.

(** ** Lists of receivers made and dropped *)
Lemma wmm_ok_perm s held held' : held ≡ₚ held' -> wmm_ok [] s held -> wmm_ok [] s held'.
Proof. intros Hp []. split; try done. by rewrite <- Hp. Qed.

Lemma join_ok was old_bssid new_bssid s held : wmm_ok [] s held ->
  exists s', join_receivers was old_bssid new_bssid s = Ret s' /\ wmm_ok [] s' held.
Proof.
  intros I. unfold join_receivers. destruct (get_priv_spec [] s held 0 I ltac:(lia)) as (p & -> & Hp & Hok & Hfits). rewrite bind_ret.
  assert (Hu : exists n p1 pool1, (if was then wlan_ralist_update_enh p old_bssid new_bssid (w_pool s) else Ret (0, p, w_pool s)) = Ret (n, p1, pool1) /\
      conserved p (w_pool s) p1 pool1).
  { destruct was; [apply update_loop_spec; try done; [apply all_cats_ok | apply I] |].
    eexists _, _, _. split; [done |]. apply conserved_refl; [done | apply I]. }
  destruct Hu as (n & p1 & pool1 & -> & C1). rewrite bind_ret.
  assert (Ha : exists p2 m, (if n =? 0 then wlan_ralist_add_enh p1 new_bssid (w_malloc s) else Ret (p1, w_malloc s)) = Ret (p2, m) /\
      conserved p1 pool1 p2 pool1).
  { destruct (n =? 0); [apply add_loop_spec; [apply all_cats_ok | apply C1 | apply C1] |].
    eexists _, _. split; [done |]. apply conserved_refl; apply C1. }
  destruct Ha as (p2 & m & -> & C2). rewrite bind_ret. pose proof (conserved_trans _ _ _ _ _ _ C1 C2) as C.
  destruct (put_priv_conserved [] s held 0 p p2 pool1 I ltac:(lia) Hp C) as (s1 & -> & I1 & _). rewrite bind_ret.
  eexists. split; [done | by apply set_malloc_ok].
Qed.

Lemma assoc_ok addr s held : wmm_ok [] s held -> exists s', uap_client_assoc addr s = Ret s' /\ wmm_ok [] s' held.
Proof.
  intros I. unfold uap_client_assoc. destruct (get_priv_spec [] s held 1 I ltac:(lia)) as (p & -> & Hp & Hok & Hfits). rewrite bind_ret.
  unfold wlan_ralist_del_enh, wlan_ralist_add_enh.
  destruct (del_loop_spec MAX_AC_QUEUES addr p (w_pool s) all_cats_ok Hok (wo_pool _ _ _ I) Hfits) as (p1 & pool1 & -> & C1). rewrite bind_ret.
  destruct (add_loop_spec MAX_AC_QUEUES addr p1 pool1 (w_malloc s) all_cats_ok (cv_priv _ _ _ _ C1) (cv_pool _ _ _ _ C1)) as (p2 & m & -> & C2).
  rewrite bind_ret. pose proof (conserved_trans _ _ _ _ _ _ C1 C2) as C.
  destruct (put_priv_conserved [] s held 1 p p2 pool1 I ltac:(lia) Hp C) as (s1 & -> & I1 & _). rewrite bind_ret.
  eexists. split; [done | by apply set_malloc_ok].
Qed.

Lemma deauth_ok addr s held : wmm_ok [] s held -> exists s', uap_client_deauth addr s = Ret s' /\ wmm_ok [] s' held.
Proof.
  intros I. unfold uap_client_deauth. destruct (get_priv_spec [] s held 1 I ltac:(lia)) as (p & -> & Hp & Hok & Hfits). rewrite bind_ret.
  unfold wlan_ralist_del_enh.
  destruct (del_loop_spec MAX_AC_QUEUES addr p (w_pool s) all_cats_ok Hok (wo_pool _ _ _ I) Hfits) as (p1 & pool1 & -> & C1). rewrite bind_ret.
  destruct (put_priv_conserved [] s held 1 p p1 pool1 I ltac:(lia) Hp C1) as (s1 & -> & I1 & _). by exists s1.
Qed.

(** After the clean-up the four categories have no receiver. *)
Lemma clean_ok i s held : wmm_ok [] s held -> 0 <= i <= 1 -> exists s' p', clean_receivers i s = Ret s' /\ wmm_ok [] s' held /\
  w_privs s' !! Z.to_nat i = Some p' /\ Forall (fun ac => has_cat p' ac []) MAX_AC_QUEUES /\
  (forall p, w_privs s !! Z.to_nat i = Some p -> (forall ac l, ac ∉ MAX_AC_QUEUES -> has_cat p ac l -> has_cat p' ac l) /\
     priv_bufs p' ++ free_list (w_pool s') ≡ₚ priv_bufs p ++ free_list (w_pool s)).
Proof.
  intros I Hi. unfold clean_receivers. destruct (get_priv_spec [] s held i I Hi) as (p & -> & Hp & Hok & Hfits). rewrite bind_ret.
  unfold wlan_ralist_del_all_enh.
  destruct (del_all_spec MAX_AC_QUEUES p (w_pool s) all_cats_ok) as (p1 & pool1 & -> & C1 & Hall & Ho); try done;
    [by apply (bool_decide_unpack _) | apply I |]. rewrite bind_ret.
  assert (Hl : (Z.to_nat i < length (w_privs s))%nat) by (by apply lookup_lt_Some in Hp).
  destruct (put_priv_conserved [] s held i p p1 pool1 I ltac:(lia) Hp C1) as (s1 & E & I1 & _). exists s1, p1. split; [done |]. split; [done |].
  rewrite (put_priv_ret s i p p1 pool1) in E by (done || lia). injection E as <-. split; [cbn; by apply list_lookup_insert_eq |].
  split; [done |]. intros p0 Hp0. rewrite Hp in Hp0. injection Hp0 as <-.
  split; [done | apply C1].
Qed.

(** ** Any sequence of calls *)
Inductive wmm_call :=
  | CallSend (awake blocked : bool) (yields : list (option bool)) (interface : Z) (payload : list Z)  (* low_level_output *)
  | CallTx (awake : bool)                                  (* a turn of the transmit thread *)
  | CallPause (evt : list Z)                               (* a pause event *)
  | CallMedia (i : Z) (b : bool)                           (* connected or not *)
  | CallJoin (was_connected : bool) (old_bssid new_bssid : list Z)
  | CallAssoc (addr : list Z)
  | CallDeauth (addr : list Z)
  | CallClean (i : Z)
  | CallHold (interface queue : Z) (addr : list Z)         (* a buffer taken and not yet handed over *)
  | CallFill (m : list Z)                                  (* the buffer held longest gets its bytes *)
  | CallOutput (awake : bool) (interface len prio tid : Z).  (* and is handed over *)

Definition run_call (c : wmm_call) (st : wmm B * list Z) : outcome (wmm B * list Z) :=
  let '(s, held) := st in
  match c with
  | CallSend awake blocked yields interface payload => '(_, s) ← low_level_output awake blocked yields interface payload s; Ret (s, held)
  | CallTx awake => s ← wifi_driver_tx awake s; Ret (s, held)
  | CallPause evt => s ← wifi_handle_event_data_pause evt s; Ret (s, held)
  | CallMedia i b => p ← get_priv i s; s ← put_priv i (set_media b p) (w_pool s) s; Ret (s, held)
  | CallJoin was old_bssid new_bssid => s ← join_receivers was old_bssid new_bssid s; Ret (s, held)
  | CallAssoc addr => s ← uap_client_assoc addr s; Ret (s, held)
  | CallDeauth addr => s ← uap_client_deauth addr s; Ret (s, held)
  | CallClean i => s ← clean_receivers i s; Ret (s, held)
  | CallHold interface queue addr =>
      '(b, _, s) ← wifi_wmm_get_outbuf_enh queue interface addr s; Ret (s, held ++ option_list b)
  | CallFill m =>
      match held with
      | [] => Ret (s, held)
      | b :: _ => l ← arr_set (w_bufs s) b m; Ret (set_bufs l s, held)
      end
  | CallOutput awake interface len prio tid =>
      match held with
      | [] => Ret (s, held)
      | b :: held => '(_, s) ← wifi_low_level_output awake interface b len prio tid s; Ret (s, held)
      end
  end.
Fixpoint run_calls (cs : list wmm_call) (st : wmm B * list Z) : outcome (wmm B * list Z) :=
  match cs with [] => Ret st | c :: cs => st ← run_call c st; run_calls cs st end.

(** The card is not awake in time when the call hands a packet over. *)
Definition asleep (c : wmm_call) : bool :=
  match c with CallSend awake blocked _ _ _ => negb awake && negb blocked | CallOutput awake _ _ _ _ => negb awake | _ => false end.

(** What the callers see to. *)
Definition call_fits (c : wmm_call) : Prop :=
  match c with
  | CallSend _ _ _ interface payload => 0 <= interface <= 1 /\ bytes payload /\ (16 <= length payload <= 1580)%nat
  | CallPause evt => event_fits evt
  | CallMedia i _ | CallClean i => 0 <= i <= 1
  | CallHold interface queue _ => 0 <= interface <= 1 /\ 0 <= queue < 4
  | CallFill m => length m = OUTBUF_LEN /\ bytes m
  | CallOutput _ interface len prio _ => 0 <= interface <= 1 /\ 34 <= len <= 8 + 1606 /\ 0 <= prio < 4
  | _ => True
  end.

(** A call returns, or its assertion about the card fails. *)
Lemma run_call_ok c s held : call_fits c -> wmm_ok [] s held ->
  (run_call c (s, held) = Fault Hang /\ asleep c = true) \/
  exists s' held', run_call c (s, held) = Ret (s', held') /\ wmm_ok [] s' held'.
Proof.
  intros Hc I. destruct c as [awake blocked yields interface payload | awake | evt | i b | was_connected old_bssid new_bssid | addr | addr | i | interface queue addr | m |
    awake interface len prio tid]; cbn [run_call call_fits] in *.
  - destruct Hc as (? & ? & ?).
    destruct (output_spec awake blocked yields interface payload s held) as [(-> & -> & ->) | (r & s' & -> & I' & _)]; try done; [by left |].
    right. rewrite bind_ret. by eexists _, _.
  - right. destruct (driver_tx_ok awake s held I) as (s' & -> & I'). rewrite bind_ret. by eexists _, _.
  - right. destruct (pause_event_ok evt s held Hc I) as (s' & -> & I'). rewrite bind_ret. by eexists _, _.
  - right. destruct (get_priv_spec [] s held i I Hc) as (p & -> & Hp & Hok & _). rewrite bind_ret.
    destruct (put_priv_conserved [] s held i p (set_media b p) (w_pool s) I ltac:(lia) Hp) as (s' & -> & I' & _).
    { destruct Hok. split; [by split | apply I | done | done]. }
    rewrite bind_ret. by eexists _, _.
  - right. destruct (join_ok was_connected old_bssid new_bssid s held I) as (s' & -> & I'). rewrite bind_ret. by eexists _, _.
  - right. destruct (assoc_ok addr s held I) as (s' & -> & I'). rewrite bind_ret. by eexists _, _.
  - right. destruct (deauth_ok addr s held I) as (s' & -> & I'). rewrite bind_ret. by eexists _, _.
  - right. destruct (clean_ok i s held I Hc) as (s' & p' & -> & I' & _). rewrite bind_ret. by eexists _, _.
  - right. destruct Hc as [? ?]. destruct (get_outbuf_ok [] s held queue interface addr I) as (b & paused & s' & -> & I' & _); [lia.. |].
    rewrite bind_ret. eexists _, _. split; [done |]. revert I'. apply wmm_ok_perm. apply Permutation_app_comm.
  - right. destruct held as [| b held]; [by eexists _, _ |]. destruct Hc as [Hl Hb].
    assert (Hr : 0 <= b < 16) by (apply (owned_range [] s (b :: held)); [done | apply elem_of_cons; by left]).
    rewrite arr_set_ret by (rewrite (wo_count _ _ _ I); lia). rewrite bind_ret. eexists _, _. split; [done |]. by apply set_buf_ok.
  - destruct held as [| b held]; [by right; eexists _, _ |]. destruct Hc as (? & ? & ?). destruct awake; [right | by left].
    destruct (low_level_output_ok [] s held b interface len prio tid I) as (r & s' & -> & I' & _); [lia.. |].
    rewrite bind_ret. by eexists _, _.
Qed.
End calls.
