(* ===== verification/WmmTheorems.v ===== *)
(** * Theorems about the transmit queues

    Every buffer always has one owner; a turn of the transmit thread sends what
    the reference schedule says; a packet that was accepted reaches the bus; and
    all of it over the SDIO transport. *)
From S2P Require Import Prelude Aggr Sdio SdioProps TxBus SdioReadProps SdioTheorems Wmm WmmProps WmmState WmmRound WmmCalls.

(** ** The start *)
Definition no_receivers (p : wmm_priv) : Prop := tid_tbl p = replicate MAX_NUM_TID [] /\ pkts_queued p = replicate MAX_NUM_TID 0.
Definition wmm_start {B} (ps : list wmm_priv) (bufs : list (list Z)) (m : list bool) (b : B) : wmm B :=
  MkWmm ps bufs wifi_wmm_buf_pool_init m b false.

Lemma no_receivers_ok p : no_receivers p -> priv_ok p /\ priv_bufs p = [].
Proof.
  intros [Ht Hq]. assert (E : priv_bufs p = []) by (unfold priv_bufs; by rewrite Ht). split; [| done].
  split; rewrite ?Ht, ?Hq, ?E; try done. apply list.Forall_replicate. by apply list.Forall_nil.
Qed.

Section theorems.
Context {B : Type} `{HB : TxBus B} `{HL : !TxBusLaws B}.
Implicit Types (s : wmm B) (held : list Z).

Lemma start_ok ps bufs m (b : B) sent : length ps = 2%nat -> Forall no_receivers ps -> length bufs = 16%nat ->
  Forall (fun m => length m = OUTBUF_LEN /\ bytes m) bufs -> bus_rep b sent [] -> wmm_ok [] (wmm_start ps bufs m b) [].
Proof.
  intros H2 Hps Hl Hb Hr. assert (Hq : queued (wmm_start ps bufs m b) = []).
  { unfold queued. cbn [w_privs wmm_start]. clear H2. induction Hps as [| p ps Hp _ IH]; [done |].
    cbn [fmap list_fmap concat]. destruct (no_receivers_ok p Hp) as [_ ->]. exact IH. }
  split; try done.
  - eapply list.Forall_impl; [exact Hps |]. intros p Hp. by apply no_receivers_ok.
  - rewrite Hq. done.
  - rewrite Hq. by apply list.Forall_nil.
  - by exists sent.
Qed.

(** A run returns with every buffer in its place, or stops in a call that found
    the card not awake. *)
Definition run_ends (cs : list wmm_call) (st : wmm B * list Z) (o : outcome (wmm B * list Z)) : Prop :=
  match o with
  | Ret (s, held) => wmm_ok [] s held
  | Fault f => f = Hang /\ exists cs1 c cs2 s held, cs = cs1 ++ c :: cs2 /\ asleep c = true /\
      run_calls cs1 st = Ret (s, held) /\ wmm_ok [] s held /\ run_call c (s, held) = Fault Hang
  end.
Lemma run_calls_end cs s held : Forall call_fits cs -> wmm_ok [] s held -> run_ends cs (s, held) (run_calls cs (s, held)).
Proof.
  intros Hcs. revert s held. induction Hcs as [| c cs Hc _ IH]; intros s held I; cbn [run_calls]; [exact I |].
  destruct (run_call_ok c s held Hc I) as [[E Ha] | (s1 & held1 & E & I1)]; rewrite E; cbn [mbind outcome_bind].
  - split; [done |]. exists [], c, cs, s, held. by rewrite E.
  - specialize (IH s1 held1 I1). destruct (run_calls cs (s1, held1)) as [[s2 held2] | f]; [exact IH |].
    destruct IH as (-> & cs1 & d & cs2 & s2 & held2 & -> & Hd & E1 & I2 & E2). split; [done |].
    exists (c :: cs1), d, cs2, s2, held2. cbn [run_calls]. by rewrite E.
Qed.
Lemma run_calls_ok cs s held : Forall call_fits cs -> Forall (fun c => asleep c = false) cs -> wmm_ok [] s held ->
  exists s' held', run_calls cs (s, held) = Ret (s', held') /\ wmm_ok [] s' held'.
Proof.
  intros Hcs Ha I. pose proof (run_calls_end cs s held Hcs I) as H. destruct (run_calls cs (s, held)) as [[s' held'] | f]; [by exists s', held' |].
  destruct H as (_ & cs1 & c & cs2 & _ & _ & -> & Hc & _). apply list.Forall_app in Ha as [_ Ha].
  apply list.Forall_cons in Ha as [Ha _]. congruence.
Qed.

(** C4: Whatever packets the network stack hands over, whatever turns the
    transmit thread takes, and whatever receivers come, go and pause, in any
    order, with the lock that keeps the card awake got in time or not at each
    attempt: after the calls each of the sixteen buffers is in one place, free,
    in the list of one receiver or in the hands of a caller, with every count
    equal to the length of its list. Only one assertion can stop the calls
    short: a packet is handed over ([asleep]) and the lock is not got in time,
    and then every buffer was in its place before. The calls are given what
    [call_fits] says: packets of 16 to 1580 bytes, a pause event whose length is
    that of its bytes. *)
Theorem every_buffer_has_one_owner ps bufs m (b : B) sent cs :
  length ps = 2%nat -> Forall no_receivers ps -> length bufs = 16%nat ->
  Forall (fun m => length m = OUTBUF_LEN /\ bytes m) bufs -> bus_rep b sent [] -> Forall call_fits cs ->
  match run_calls cs (wmm_start ps bufs m b, []) with
  | Ret (s, held) =>
    free_list (w_pool s) ++ queued s ++ held ≡ₚ seqZ 0 16 /\
    free_cnt (w_pool s) = Z.of_nat (length (free_list (w_pool s))) /\
    Forall (fun p => Forall (Forall (fun r => total_pkts r = Z.of_nat (length (buf_head r)))) (tid_tbl p) /\
                     pkts_queued p = cat_count <$> tid_tbl p) (w_privs s) /\
    wmm_ok [] s held
  | Fault f =>
    f = Hang /\ exists cs1 c cs2 s held, cs = cs1 ++ c :: cs2 /\ asleep c = true /\
      run_calls cs1 (wmm_start ps bufs m b, []) = Ret (s, held) /\
      free_list (w_pool s) ++ queued s ++ held ≡ₚ seqZ 0 16 /\ run_call c (s, held) = Fault Hang
  end.
Proof.
  intros H2 Hps Hl Hb Hr Hcs. pose proof (run_calls_end cs _ [] Hcs (start_ok ps bufs m b sent H2 Hps Hl Hb Hr)) as H.
  destruct (run_calls cs _) as [[s held] | f].
  - split; [apply H |]. split; [apply H |]. split; [| done].
    eapply list.Forall_impl; [apply H |]. intros p Hp. split; apply Hp.
  - destruct H as (-> & cs1 & c & cs2 & s & held & -> & Hc & E1 & I & E2). split; [done |].
    exists cs1, c, cs2, s, held. split_and!; [done.. | apply I | done].
Qed.

(** C5: A turn of the transmit thread gives the bus the ready packets in the
    order of the schedule: the station before the access point, voice before
    video, best effort and background, receivers in the order they came and
    their packets oldest first.  It stops at the first the bus refuses, and
    that one and all after it stay where they were; none is left when the bus
    has room.  At most eight packets go in a write, and their buffers go back to
    the pool in the same order. *)
Theorem transmit_turn_sends_schedule s held :
  wmm_ok [] s held -> w_notified s = true ->
  exists n s', wifi_driver_tx true s = Ret s' /\ (n <= length (schedule s))%nat /\
    (bus_room (w_bus s) (length (schedule s)) -> n = length (schedule s)) /\
    w_privs s' = drain_privs n (w_privs s) /\ schedule s' = drop n (schedule s) /\
    free_list (w_pool s') = free_list (w_pool s) ++ take n (schedule s) /\
    (forall sent, bus_rep (w_bus s) sent [] ->
       exists writes, bus_rep (w_bus s') (sent ++ writes) [] /\
         concat (snd <$> writes) = packet_of (w_bufs s) <$> take n (schedule s) /\
         Forall (fun w => (length (snd w) <= 8)%nat) writes) /\
    w_notified s' = false /\ wmm_ok [] s' held.
Proof.
  intros I Hn. destruct (driver_tx_spec s held I Hn) as (n & s' & E & Hlen & Hp & Hpr & I' & Hroom).
  exists n, s'. split; [done |]. split; [done |]. split; [done |]. split; [done |].
  split; [unfold schedule; rewrite Hp; apply drain_privs_sched, I |]. destruct Hpr as [Hf Hb [_ Hnot] Hbus _].
  split; [done |]. split; [| by split]. intros sent Hr. destruct (Hbus sent Hr) as (writes & Hr' & Hw & Hl).
  exists writes. split; [done |]. split; [| done]. rewrite app_nil_r in Hw. by symmetry.
Qed.

(** A ready packet of a receiver is on the schedule. *)
Lemma newest_scheduled s i ac addr b : 0 <= i -> 0 <= ac < 4 -> newest s i ac addr b ->
  (forall p, w_privs s !! Z.to_nat i = Some p ->
     may_send p = true /\ forall ac k r, has_ra p ac k r -> ra r = addr -> ra_tx_pause r = false) ->
  b ∈ schedule s.
Proof.
  intros Hi Hac (p & k & r & bs & Hp & Hra & Hr & Hb) Hsend. destruct (Hsend p Hp) as [Hms Hpause].
  pose proof (Hpause ac k r Hra Hr) as Hpr. destruct Hra as (l & Hl & Hk & Hlk).
  assert (Hcat : b ∈ cat_sched (cat_of p ac)).
  { rewrite (cat_of_has p ac l Hl). unfold cat_sched. apply list_elem_of_In, in_concat. exists (ready_bufs r). split; apply list_elem_of_In.
    - apply list_elem_of_fmap. exists r. split; [done | by apply list_elem_of_lookup_2 in Hlk].
    - unfold ready_bufs. rewrite Hpr, Hb. apply elem_of_app. right. by apply list_elem_of_singleton. }
  unfold schedule. apply list_elem_of_In, in_concat. exists (priv_sched p). split; apply list_elem_of_In.
  - apply list_elem_of_fmap. exists p. split; [done | by apply list_elem_of_lookup_2 in Hp].
  - unfold priv_sched. rewrite Hms. unfold cats_sched. apply list_elem_of_In, in_concat. exists (cat_sched (cat_of p ac)).
    split; apply list_elem_of_In; [| done]. apply list_elem_of_fmap. exists ac. split; [done |].
    unfold AC_ORDER, WMM_AC_VO, WMM_AC_VI, WMM_AC_BE, WMM_AC_BK. rewrite !elem_of_cons. lia.
Qed.

(** C14: A packet that [low_level_output] accepts is written to the bus, its
    bytes as they were behind the twenty-six of header and descriptor, in the
    next turn of the transmit thread in which its interface and its receiver are
    not paused and the bus has room. *)
Theorem accepted_packet_reaches_bus s held awake yields interface payload s1 :
  wmm_ok [] s held -> 0 <= interface <= 1 -> bytes payload -> (16 <= length payload <= 1580)%nat ->
  low_level_output awake false yields interface payload s = Ret (ERR_OK, s1) ->
  (forall p, w_privs s1 !! Z.to_nat interface = Some p -> may_send p = true /\
     forall ac k r, has_ra p ac k r -> Ret (ra r) = wifi_wmm_da_to_ra payload -> ra_tx_pause r = false) ->
  bus_room (w_bus s1) (length (schedule s1)) ->
  exists s2, wifi_driver_tx true s1 = Ret s2 /\ forall sent, bus_rep (w_bus s1) sent [] ->
    exists writes w pkt, bus_rep (w_bus s2) (sent ++ writes) [] /\ w ∈ writes /\ pkt ∈ snd w /\ drop 26 pkt = payload.
Proof.
  intros I Hi Hb Hl E Hsend Hroom.
  destruct (output_spec awake false yields interface payload s held I Hi Hb Hl) as [[E' _] | (r & s1' & E' & I1 & Hq)]; [congruence |].
  rewrite E in E'. assert (ERR_OK = r /\ s1 = s1') as [<- <-] by (split; congruence). clear E'.
  destruct (Hq eq_refl eq_refl) as (prio & tid & addr & b & Eprio & Eaddr & Hnew & Hpkt & Hnot).
  destruct (get_prio_ok payload 0) as (prio' & tid' & Eprio' & Hprio); [lia |]. rewrite Eprio in Eprio'. injection Eprio' as <- <-.
  destruct (driver_tx_spec s1 held I1 Hnot) as (n & s2 & E2 & _ & _ & Hpr & _ & Hall). exists s2. split; [done |].
  intros sent Hr. destruct (pr_bus _ _ _ _ _ Hpr sent Hr) as (writes & Hr' & Hw & _).
  rewrite (Hall Hroom), firstn_all, app_nil_r in Hw. cbn [app] in Hw.
  assert (Hin : b ∈ schedule s1).
  { apply (newest_scheduled s1 interface prio addr b); try done; [lia |]. intros p Hp. destruct (Hsend p Hp) as [Hm Hps].
    split; [done |]. intros ac k r Hra Hra'. apply (Hps ac k r Hra). rewrite Eaddr. by f_equal. }
  assert (Hpk : packet_of (w_bufs s1) b ∈ concat (snd <$> writes)) by (rewrite <- Hw; apply list_elem_of_fmap; by exists b).
  apply list_elem_of_In, in_concat in Hpk as (l & Hl1 & Hl2). apply list_elem_of_In, list_elem_of_fmap in Hl1 as (w & -> & Hw1).
  apply list_elem_of_In in Hl2. by exists writes, w, (packet_of (w_bufs s1) b).
Qed.

(** Dropping the receivers of an interface empties its four categories and
    gives every buffer that was queued there back to the pool. *)
Theorem clean_up_frees_queues s held i p :
  wmm_ok [] s held -> 0 <= i <= 1 -> w_privs s !! Z.to_nat i = Some p -> (forall ac, 4 <= ac < 8 -> has_cat p ac []) ->
  exists s' p', clean_receivers i s = Ret s' /\ w_privs s' !! Z.to_nat i = Some p' /\ tid_tbl p' = replicate MAX_NUM_TID [] /\
    free_list (w_pool s') ≡ₚ free_list (w_pool s) ++ priv_bufs p /\ wmm_ok [] s' held.
Proof.
  intros I Hi Hp Hhigh. destruct (clean_ok i s held I Hi) as (s' & p' & E & I' & Hp' & Hcats & Hrest). destruct (Hrest p Hp) as [Hothers Hperm].
  exists s', p'. split; [done |]. split; [done |].
  assert (Hok : priv_ok p') by (pose proof (wo_privs _ _ _ I') as Hall; rewrite list.Forall_lookup in Hall; by apply (Hall _ _ Hp')).
  assert (Ht : tid_tbl p' = replicate MAX_NUM_TID []).
  { apply list_eq_same_length with MAX_NUM_TID; [done | apply (po_length _ Hok) |]. intros j x y Hj Hx Hy.
    apply lookup_replicate in Hy as [-> _]. destruct (decide (j < 4)%nat) as [Hlt | Hge].
    - rewrite list.Forall_forall in Hcats. destruct (Hcats (Z.of_nat j)) as [_ Hc].
      { unfold MAX_AC_QUEUES. rewrite !elem_of_cons. lia. }
      rewrite Nat2Z.id in Hc. congruence.
    - unfold MAX_NUM_TID in Hj. destruct (Hothers (Z.of_nat j) []) as [_ Hc]; [| apply Hhigh; lia |].
      { unfold MAX_AC_QUEUES. rewrite !elem_of_cons, elem_of_nil. lia. }
      rewrite Nat2Z.id in Hc. congruence. }
  split; [done |]. split; [| done]. assert (Eb : priv_bufs p' = []) by (unfold priv_bufs; by rewrite Ht).
  rewrite Eb in Hperm. rewrite Permutation_app_comm. exact Hperm.
Qed.
End theorems.

(** ** Over SDIO *)

(** C15: Over the SDIO transport, a turn with enough free ports leaves nothing
    ready to go: the packets of the schedule, in its order, are in the writes,
    and what the card took of these are blocks framed for its data ports. *)
Theorem turn_over_sdio {W} `{HE : SdioEnv W, HEL : !SdioEnvLaws W, HA : !SdioAwake W} (s : wmm (sdio W)) held sent :
  wmm_ok [] s held -> w_notified s = true ->
  Forall2 framed (data_writes (events (w_bus s))) (arrived sent) ->
  ports_free (w_bus s) (length (schedule s)) ->
  exists s' writes, wifi_driver_tx true s = Ret s' /\ schedule s' = [] /\
    concat (snd <$> writes) = packet_of (w_bufs s) <$> schedule s /\ Forall (fun w => (length (snd w) <= 8)%nat) writes /\
    Forall2 framed (data_writes (events (w_bus s'))) (arrived (sent ++ writes)) /\ tx_inv (w_bus s') [].
Proof.
  intros I Hn Hf Hports. destruct (driver_tx_spec s held I Hn) as (n & s' & E & _ & Hp & Hpr & I' & Hroom).
  pose proof (Hroom Hports) as ->. destruct (wo_bus _ _ _ I) as (sent0 & Hinv & _).
  destruct (pr_bus _ _ _ _ _ Hpr sent (conj Hinv Hf)) as (writes & [Hinv' Hf'] & Hw & Hl). exists s', writes.
  split; [done |]. split; [unfold schedule; rewrite Hp, drain_privs_sched by apply I; apply drop_all |].
  rewrite firstn_all, app_nil_r in Hw. cbn [app] in Hw. by symmetry in Hw.
Qed.

(** ** Concrete runs *)
#[local] Existing Instance demo_card.
#[local] Instance demo_laws : SdioEnvLaws unit := eq_refl.
#[local] Instance demo_awake : SdioAwake unit := fun _ => eq_refl.

Definition demo_priv (i : Z) (uap : bool) : wmm_priv :=
  MkPriv uap 0 true false [2; 0; 0; 0; 0; i] [2; 0; 0; 0; 0; 9] (replicate MAX_NUM_TID []) (replicate MAX_NUM_TID 0) (MkStat 0 0 0 0).
Definition demo_start : wmm (sdio unit) :=
  wmm_start [demo_priv 1 false; demo_priv 2 true] (replicate 16 (replicate OUTBUF_LEN 0)) [] (demo_state 0 31).
(** A packet of a hundred bytes for the access point, with the type of service
    given. *)
Definition demo_payload (tos : Z) : list Z := [2; 0; 0; 0; 0; 9; 2; 0; 0; 0; 0; 1; 8; 0; 0x45; tos] ++ replicate 84 7.
Definition demo_calls : list wmm_call :=
  [CallJoin false (replicate 6 0) [2; 0; 0; 0; 0; 9]; CallSend true false [] 0 (demo_payload 0); CallSend true false [] 0 (demo_payload 0xC0);
   CallHold 0 1 [2; 0; 0; 0; 0; 9]; CallAssoc [2; 0; 0; 0; 0; 5]].

Lemma demo_start_ok : wmm_ok [] demo_start [] /\ @bus_rep (sdio unit) sdio_bus (demo_state 0 31) [] [].
Proof.
  assert (Hr : @bus_rep (sdio unit) sdio_bus (demo_state 0 31) [] []) by (split; [exact demo_tx_inv | constructor]).
  split; [| done]. apply start_ok with []; try done.
  - by repeat (apply list.Forall_cons; split; [by split |]); apply list.Forall_nil.
  - apply list.Forall_replicate. split; [done |]. apply list.Forall_replicate. unfold is_byte. lia.
Qed.

Lemma demo_payload_fits tos : 0 <= tos < 256 -> bytes (demo_payload tos) /\ (16 <= length (demo_payload tos) <= 1580)%nat.
Proof.
  intros Ht. split; [| simpl; lia]. unfold demo_payload, is_byte.
  apply list.Forall_app. split; [repeat (apply list.Forall_cons; split; [lia |]); by apply list.Forall_nil | apply list.Forall_replicate; lia].
Qed.

Lemma demo_calls_fit : Forall call_fits demo_calls.
Proof.
  unfold demo_calls. repeat (apply list.Forall_cons; split; [cbn [call_fits]; try done; try (split; [lia |]); try (apply demo_payload_fits; lia); lia |]).
  by apply list.Forall_nil.
Qed.

Lemma demo_calls_awake : Forall (fun c => asleep c = false) demo_calls.
Proof. unfold demo_calls. repeat (apply list.Forall_cons; split; [reflexivity |]). by apply list.Forall_nil. Qed.

Lemma every_buffer_has_one_owner_witness :
  exists s held, run_calls demo_calls (demo_start, []) = Ret (s, held) /\ free_list (w_pool s) ++ queued s ++ held ≡ₚ seqZ 0 16.
Proof.
  destruct demo_start_ok as [I Hr].
  pose proof (every_buffer_has_one_owner [demo_priv 1 false; demo_priv 2 true] (replicate 16 (replicate OUTBUF_LEN 0)) [] (demo_state 0 31) [] demo_calls) as H.
  destruct (run_calls_ok demo_calls demo_start [] demo_calls_fit demo_calls_awake I) as (s & held & E & _).
  change (wmm_start _ _ _ _) with demo_start in H. rewrite E in H. exists s, held. split; [exact E |]. apply H.
  - reflexivity.
  - by repeat (apply list.Forall_cons; split; [by split |]); apply list.Forall_nil.
  - reflexivity.
  - apply list.Forall_replicate. split; [reflexivity |]. apply list.Forall_replicate. unfold is_byte. lia.
  - exact Hr.
  - exact demo_calls_fit.
Defined.

(** The packet held is handed over while the card sleeps: the assertion. *)
Example demo_asleep : run_calls (demo_calls ++ [CallOutput false 0 134 0 0]) (demo_start, []) = Fault Hang.
Proof. vm_compute. reflexivity. Qed.

(** The state after the calls: two packets wait, the voice one first. *)
Definition demo_queued : wmm (sdio unit) := match run_calls demo_calls (demo_start, []) with Ret (s, _) => s | Fault _ => demo_start end.

Lemma demo_queued_ok : wmm_ok [] demo_queued [2].
Proof.
  destruct demo_start_ok as [I _]. destruct (run_calls_ok demo_calls demo_start [] demo_calls_fit demo_calls_awake I) as (s & held & E & I').
  assert (Hh : match run_calls demo_calls (demo_start, []) with Ret (_, h) => h | Fault _ => [] end = [2]) by (vm_compute; reflexivity).
  unfold demo_queued. rewrite E in Hh |- *. by rewrite <- Hh.
Qed.

Example demo_schedule : schedule demo_queued = [1; 0] /\ w_notified demo_queued = true.
Proof. vm_compute. split; reflexivity. Qed.

Lemma transmit_turn_sends_schedule_witness :
  exists n s', wifi_driver_tx true demo_queued = Ret s' /\ schedule s' = drop n [1; 0] /\ n = 2%nat /\ wmm_ok [] s' [2].
Proof.
  destruct (transmit_turn_sends_schedule demo_queued [2] demo_queued_ok (proj2 demo_schedule))
    as (n & s' & E & Hn & Hroom & _ & Hs & _ & _ & _ & I').
  exists n, s'. split; [exact E |]. rewrite (proj1 demo_schedule) in *. split; [exact Hs |]. split; [| exact I'].
  apply Hroom. split; [vm_compute; congruence |]. apply (bool_decide_unpack _). vm_compute. exact I.
Defined.

Lemma turn_over_sdio_witness :
  exists s' (writes : list (bool * list (list Z))), wifi_driver_tx true demo_queued = Ret s' /\ schedule s' = [] /\
    concat (snd <$> writes) = packet_of (w_bufs demo_queued) <$> [1; 0].
Proof.
  destruct (turn_over_sdio demo_queued [2] [] demo_queued_ok (proj2 demo_schedule)) as (s' & writes & E & Hs & Hw & _).
  - assert (H : events (w_bus demo_queued) = []) by (vm_compute; reflexivity). rewrite H. constructor.
  - rewrite (proj1 demo_schedule). split; [vm_compute; congruence |]. apply (bool_decide_unpack _). vm_compute. exact I.
  - rewrite (proj1 demo_schedule) in Hw. exists s', writes. split; [exact E |]. split; [exact Hs | exact Hw].
Defined.

(** One more packet. *)
Definition demo_sent : wmm (sdio unit) :=
  match low_level_output true false [] 0 (demo_payload 0x80) demo_queued with Ret (_, s) => s | Fault _ => demo_start end.

Lemma accepted_result {A} (o : outcome (err_t * A)) d :
  match o with Ret (ERR_OK, _) => true | _ => false end = true -> o = Ret (ERR_OK, match o with Ret (_, s) => s | Fault _ => d end).
Proof. by destruct o as [[[] s] | f]. Qed.
Lemma demo_sent_accepted : low_level_output true false [] 0 (demo_payload 0x80) demo_queued = Ret (ERR_OK, demo_sent).
Proof. unfold demo_sent. apply accepted_result. vm_compute. reflexivity. Qed.

(** No receiver of the interface is paused. *)
Definition none_paused (p : wmm_priv) : bool := forallb (forallb (fun r => negb (ra_tx_pause r))) (tid_tbl p).
Lemma none_paused_spec p ac k r : none_paused p = true -> has_ra p ac k r -> ra_tx_pause r = false.
Proof.
  intros H (l & [_ Hl] & _ & Hr). unfold none_paused in H. rewrite forallb_forall in H. specialize (H l).
  rewrite forallb_forall in H. apply negb_true_iff, H; apply list_elem_of_In; by eapply list_elem_of_lookup_2.
Qed.

Lemma accepted_packet_reaches_bus_witness :
  exists s2, wifi_driver_tx true demo_sent = Ret s2 /\ forall sent, bus_rep (w_bus demo_sent) sent [] ->
    exists (writes : list (bool * list (list Z))) w pkt, bus_rep (w_bus s2) (sent ++ writes) [] /\ w ∈ writes /\ pkt ∈ snd w /\ drop 26 pkt = demo_payload 0x80.
Proof.
  apply (accepted_packet_reaches_bus demo_queued [2] true [] 0 (demo_payload 0x80) demo_sent).
  - exact demo_queued_ok.
  - lia.
  - apply demo_payload_fits. lia.
  - apply demo_payload_fits. lia.
  - exact demo_sent_accepted.
  - assert (H : match w_privs demo_sent with p :: _ => may_send p && none_paused p | [] => false end = true) by (vm_compute; reflexivity).
    intros p Hp. change (Z.to_nat 0) with 0%nat in Hp. destruct (w_privs demo_sent) as [| q l]; [done |]. injection Hp as ->.
    apply andb_true_iff in H as [Hm Hn]. split; [exact Hm |]. intros ac k r Hra _. exact (none_paused_spec p ac k r Hn Hra).
  - assert (H : schedule demo_sent = [1; 3; 0]) by (vm_compute; reflexivity). rewrite H.
    split; [vm_compute; congruence |]. apply (bool_decide_unpack _). vm_compute. exact I.
Defined.

Lemma clean_up_frees_queues_witness :
  exists s' p', clean_receivers 0 demo_queued = Ret s' /\ w_privs s' !! 0%nat = Some p' /\ tid_tbl p' = replicate MAX_NUM_TID [].
Proof.
  assert (H : match w_privs demo_queued with p :: _ => drop 4 (tid_tbl p) | [] => [] end = [[]; []; []; []]) by (vm_compute; reflexivity).
  destruct (w_privs demo_queued) as [| p l] eqn:Ep; [done |].
  destruct (clean_up_frees_queues demo_queued [2] 0 p demo_queued_ok) as (s' & p' & E & Hp' & Ht & _).
  - lia.
  - rewrite Ep. reflexivity.
  - intros ac Hac. split; [lia |]. replace (Z.to_nat ac) with (4 + (Z.to_nat ac - 4))%nat by lia. rewrite <- lookup_drop, H.
    assert (Hj : (Z.to_nat ac - 4 < 4)%nat) by lia. revert Hj. generalize (Z.to_nat ac - 4)%nat as j. clear.
    intros [| [| [| [| j]]]] Hj; [reflexivity.. | lia].
  - exists s', p'. split; [exact E |]. split; [exact Hp' | exact Ht].
Defined.
