(* ===== verification/Dns.v ===== *)
(** * The name server of the access point

    [dhcpd/dns-server.c]: the names to answer for, in the format of the
    protocol; the questions of a query, in the receive buffer of the DHCP server;
    and the answers written behind them.  Every name that is known has the
    address of the access point.  Plain [char] is unsigned, as on the
    processor.  The socket is left out; a response is its bytes. *)
From S2P Require Import Prelude CString DhcpServer.

(** ** Constants and data *)
Definition MAX_QNAME_SIZE : Z := 32.
Definition ERROR_REFUSED : Z := 5.
Definition sizeof_dns_header : Z := 12.
Definition sizeof_dns_question : Z := 4.
Definition sizeof_dns_rr : Z := 16.
Definition DOT : Z := 46.

(** The names; [None] before the server is enabled with any. *)
Record dns_server_data := MkDnss {
  count_qnames : Z;
  list_qnames : option (list (list Z))   (* char[MAX_QNAME_SIZE + 1] each *)
}.

(** ** The names *)

(** From the end of the name to its start; [i] counts the characters since the
    last dot. *)
Fixpoint format_loop (k : nat) (domain_name dns_qname : list Z) (i : Z) : outcome (list Z * Z) :=
  match k with
  | O => Ret (dns_qname, i)
  | S k =>
      c ← arr_get domain_name (Z.of_nat k);
      if c =? DOT then q ← arr_set dns_qname (Z.of_nat k + 1) (u8 i); format_loop k domain_name q 0
      else q ← arr_set dns_qname (Z.of_nat k + 1) c; format_loop k domain_name q (i + 1)
  end.
Definition format_qname (domain_name dns_qname : list Z) : outcome (list Z) :=
  len ← strlen_list domain_name;
  '(q, i) ← format_loop (Z.to_nat len) domain_name dns_qname 0;
  arr_set q 0 (u8 i).

Fixpoint format_names (names : list (list Z)) : outcome (list (list Z)) :=
  match names with
  | [] => Ret []
  | n :: names => q ← format_qname n (replicate (Z.to_nat (MAX_QNAME_SIZE + 1)) 0); qs ← format_names names; Ret (q :: qs)
  end.
(** [got]: memory for the names was had; it is written without a look. *)
Definition dhcp_enable_dns_server (got : bool) (domain_names : option (list (list Z))) (s : dhcp_server_data) (d : dns_server_data) :
  outcome (dhcp_server_data * dns_server_data) :=
  if dns_enabled s || (match list_qnames d with Some _ => true | None => false end) then Ret (s, d)
  else
    let s := MkDhcps (count_clients s) (msg s) (ip_mac_mapping s) (netmask s) (my_ip s) (client_ip s) (current_ip s)
                     (dhcp_address_timeout s) true in
    match domain_names with
    | None => Ret (s, d)
    | Some names =>
        if got then qs ← format_names names; Ret (s, MkDnss (count_qnames d + Z.of_nat (length names)) (Some qs))
        else match names with
             | [] => Ret (s, d)
             | _ => Fault NullPointer
             end
    end.

(** The server stops: the names are freed. *)
Definition dns_free_allocations (s : dhcp_server_data) (d : dns_server_data) : dhcp_server_data * dns_server_data :=
  if negb (dns_enabled s) then (s, d)
  else
    (MkDhcps (count_clients s) (msg s) (ip_mac_mapping s) (netmask s) (my_ip s) (client_ip s) (current_ip s)
             (dhcp_address_timeout s) false,
     match list_qnames d with Some _ => MkDnss 0 None | None => d end).

(** ** The questions of a query *)

(** [!strncmp(qname, pos, n)]; [q] is what is left of the name's buffer. *)
Fixpoint qname_matches (q m : list Z) (pos n : Z) : outcome bool :=
  if n <=? 0 then Ret true
  else
    match q with
    | [] => Fault OutOfBounds
    | a :: q =>
        b ← arr_get m pos;
        if a =? b then if a =? 0 then Ret true else qname_matches q m (pos + 1) (n - 1) else Ret false
    end.
Fixpoint find_qname (qs : list (list Z)) (m : list Z) (pos : Z) : outcome bool :=
  match qs with
  | [] => Ret false
  | q :: qs => b ← qname_matches q m pos (u32 (SERVER_BUFFER_SIZE - pos)); if b : bool then Ret true else find_qname qs m pos
  end.

(** Behind the labels, at the byte that ends them; [bounded] as in
    [parse_questions], [None] when the buffer ends first. *)
Fixpoint skip_labels (bounded : bool) (fuel : nat) (m : list Z) (pos : Z) : outcome (option Z) :=
  match fuel with
  | O => Fault OutOfFuel
  | S fuel =>
      c ← arr_get m pos;
      let pos := if 0 <? c then pos + c + 1 else pos in
      if bounded && (SERVER_BUFFER_SIZE <=? pos) then Ret None
      else
        c ← arr_get m pos;
        if 0 <? c then skip_labels bounded fuel m pos else Ret (Some pos)
  end.

Fixpoint questions_loop (n : nat) (qs : list (list Z)) (m : list Z) (pos : Z) (found : bool) : outcome (option Z * bool) :=
  match n with
  | O => Ret (Some pos, found)
  | S n =>
      found ← (if found then Ret true else find_qname qs m pos);
      p ← skip_labels true (length m) m pos;
      match p with
      | None => Ret (None, found)
      | Some pos => questions_loop n qs m (pos + (1 + sizeof_dns_question)) found
      end
  end.
Definition parse_questions (num_questions : Z) (d : dns_server_data) (m : list Z) : outcome (option Z * bool) :=
  questions_loop (Z.to_nat num_questions) (take (Z.to_nat (count_qnames d)) (default [] (list_qnames d))) m sizeof_dns_header false.

(** ** The answers *)

(** The answer at [dst] to the question at [query], and the length of the
    question.  Bytes in the order of the network. *)
Definition make_answer_rr (ip : Z) (m : list Z) (query dst : Z) : outcome (Z * list Z) :=
  m ← mem_write m dst (be16 (Z.lor (u16 query) 0xC000));
  p ← skip_labels false (length m) m query;
  match p with
  | None => Fault OutOfFuel (* not reached *)
  | Some p =>
      let q := p + 1 in
      type_class ← mem_read m q sizeof_dns_question;
      m ← mem_write m (dst + 2) (type_class ++ write_u32 (bswap32 3600) ++ be16 4 ++ write_u32 ip);
      Ret (q + sizeof_dns_question - query, m)
  end.

(** Answers while there is room; their number and the end of the last. *)
Fixpoint answers_loop (n : nat) (ip : Z) (m : list Z) (pos outp i : Z) : outcome (Z * Z * list Z) :=
  match n with
  | O => Ret (i, outp, m)
  | S n =>
      if SERVER_BUFFER_SIZE <=? outp + sizeof_dns_rr then Ret (i, outp, m)
      else
        '(len, m) ← make_answer_rr ip m pos outp;
        answers_loop n ip m (pos + len) (outp + sizeof_dns_rr) (i + 1)
  end.

(** The flags are the two bytes at 2, used as a number of the processor: [rcode]
    in the bits 0 to 3, [ra] 7, [rd] 8, [tc] 9, [aa] 10, [opcode] 11 to 14, [qr]
    15. *)
Definition get_flags (m : list Z) : outcome Z := mem_read_le16 m 2.
(** [flags.num = htons(flags.num)]. *)
Definition put_flags (m : list Z) (num : Z) : outcome (list Z) := mem_write m 2 (be16 num).
Definition answer_flags (num : Z) : Z := Z.ldiff (Z.lor num 0x8400) 0xF.
Definition refusal_flags (num : Z) : Z := Z.lor (Z.ldiff (Z.lor num 0x8100) 0x7E8F) 5.

Inductive dns_result := DnsIgnored | DnsAnswered | DnsRefused.

(** The buffer after the message and the response, if one is sent. *)
Definition process_dns_message (ip : Z) (d : dns_server_data) (m : list Z) (len : Z) : outcome (dns_result * list Z * option (list Z)) :=
  if u32 len <? sizeof_dns_header then Ret (DnsIgnored, m, None)
  else
    num ← get_flags m;
    if Z.testbit num 15 then Ret (DnsIgnored, m, None)
    else
      nq ← mem_read_be16 m 4;
      if nq <=? 0 then Ret (DnsIgnored, m, None)
      else
        '(outp, found) ← parse_questions nq d m;
        match outp, found with
        | Some outp, true =>
            '(i, outp, m) ← answers_loop (Z.to_nat nq) ip m sizeof_dns_header outp 0;
            num ← get_flags m;
            m ← put_flags m (answer_flags num);
            m ← mem_write m 6 (be16 i);
            r ← mem_read m 0 outp;
            Ret (DnsAnswered, m, Some r)
        | _, _ =>
            m ← put_flags m (refusal_flags num);
            m ← mem_write m 4 (be16 1 ++ [0; 0; 0; 0; 0; 0]);
            match outp with
            | None => Fault NullPointer (* the length sent is NULL - msg *)
            | Some outp => r ← mem_read m 0 outp; Ret (DnsRefused, m, Some r)
            end
        end.

(** A datagram on the name server's socket. *)
Definition dns_process_packet (s : dhcp_server_data) (d : dns_server_data) (datagram : list Z) :
  outcome (dhcp_server_data * option (list Z)) :=
  if negb (dns_enabled s) then Ret (s, None)
  else
    let dg := take (Z.to_nat SERVER_BUFFER_SIZE) datagram in
    m ← mem_write (msg s) 0 dg;
    if 0 <? Z.of_nat (length dg) then
      '(_, m, r) ← process_dns_message (my_ip s) d m (Z.of_nat (length dg));
      Ret (set_msg m s, r)
    else Ret (set_msg m s, None).
