(* ===== verification/DnsProps.v ===== *)
(** * Lemmas about the name server

    Names and questions as lists of labels, what the loops do on their bytes, and
    what becomes of a whole query in the buffer. *)
From S2P Require Import Prelude CString DhcpServer Dns.

(** ** Names *)
Definition label := list Z.
Definition label_ok (l : label) : Prop := Forall (fun c => 0 < c < 256 /\ c <> DOT) l /\ (0 < length l < 64)%nat.

Definition encode_labels (ls : list label) : list Z := concat ((fun l => Z.of_nat (length l) :: l) <$> ls).
Definition encode_name (ls : list label) : list Z := encode_labels ls ++ [0].

(** A name as it is configured. *)
Fixpoint dotted (ls : list label) : list Z :=
  match ls with [] => [] | [l] => l | l :: ls => l ++ DOT :: dotted ls end.

(** What [format_loop] makes of a string: [i] characters follow it up to the
    next dot. *)
Fixpoint first (s : list Z) (i : Z) : Z := match s with [] => i | c :: s => if c =? DOT then 0 else 1 + first s i end.
Fixpoint body (s : list Z) (i : Z) : list Z :=
  match s with [] => [] | c :: s => (if c =? DOT then u8 (first s i) else c) :: body s i end.

Lemma first_snoc s c i : first (s ++ [c]) i = first s (if c =? DOT then 0 else i + 1).
Proof.
  induction s as [| a s IH]; cbn [app first]; [destruct (c =? DOT); lia |]. by rewrite IH.
Qed.

Lemma body_snoc s c i : body (s ++ [c]) i = body s (if c =? DOT then 0 else i + 1) ++ [if c =? DOT then u8 i else c].
Proof. induction s as [| a s IH]; cbn [app body first]; [done |]. by rewrite IH, first_snoc. Qed.

Lemma format_loop_spec s : forall rest q0 junk t i, length junk = length s ->
  format_loop (length s) (s ++ rest) (q0 :: junk ++ t) i = Ret (q0 :: body s i ++ t, first s i).
Proof.
  induction s as [| c s IH] using rev_ind; intros rest q0 junk t i Hl.
  { destruct junk; [done | simpl in Hl; lia]. }
  rewrite length_app, Nat.add_1_r in Hl |- *. destruct junk as [| x junk _] using rev_ind; [simpl in Hl; lia |].
  rewrite length_app, Nat.add_1_r in Hl. injection Hl as Hl. cbn [format_loop].
  rewrite <- !(assoc_L (++)). cbn [app]. rewrite (arr_get_app s) by done. rewrite bind_ret.
  assert (Hset : forall y, arr_set (q0 :: junk ++ x :: t) (Z.of_nat (length s) + 1) y = Ret (q0 :: junk ++ y :: t)).
  { intros y. change (q0 :: junk ++ x :: t) with ((q0 :: junk) ++ x :: t). rewrite (arr_set_app (q0 :: junk)); [done |].
    simpl. lia. }
  rewrite body_snoc, first_snoc, <- (assoc_L (++)). cbn [app].
  destruct (c =? DOT); rewrite Hset, bind_ret; by rewrite IH.
Qed.

Lemma body_label l s i : Forall (fun c => c <> DOT) l -> body (l ++ s) i = l ++ body s i /\ first (l ++ s) i = Z.of_nat (length l) + first s i.
Proof.
  induction 1 as [| c l Hc _ [IH1 IH2]]; cbn [app body first]; [by rewrite Z.add_0_l |].
  rewrite IH1, IH2. destruct (Z.eqb_spec c DOT); [done |]. split; [done |]. simpl length. lia.
Qed.

Lemma label_no_dot l : label_ok l -> Forall (fun c => c <> DOT) l.
Proof. intros [H _]. eapply list.Forall_impl; [exact H |]. cbn. tauto. Qed.

(** The trailing dot of a full name, or none. *)
Lemma body_dotted ls (dot : bool) : ls <> [] -> Forall label_ok ls ->
  let s := dotted ls ++ (if dot then [DOT] else []) in
  u8 (first s 0) :: body s 0 = encode_labels ls ++ (if dot then [0] else []).
Proof.
  intros Hne Hls. induction Hls as [| l ls Hl Hls IH]; [done |].
  assert (Hlen : u8 (Z.of_nat (length l)) = Z.of_nat (length l)).
  { destruct Hl as [_ Hl]. apply wrap_small. change (2 ^ 8) with 256. lia. }
  pose proof (label_no_dot l Hl) as Hd. cbn zeta.
  destruct ls as [| l2 ls].
  - cbn [dotted]. destruct (body_label l (if dot then [DOT] else []) 0 Hd) as [-> ->].
    unfold encode_labels. cbn [fmap list_fmap concat]. rewrite app_nil_r.
    destruct dot; cbn [first body]; change (DOT =? DOT) with true; cbn iota; rewrite Z.add_0_r, Hlen; [done | by rewrite !app_nil_r].
  - change (dotted (l :: l2 :: ls)) with (l ++ DOT :: dotted (l2 :: ls)). rewrite <- (assoc_L (++)). cbn [app].
    destruct (body_label l (DOT :: dotted (l2 :: ls) ++ (if dot then [DOT] else [])) 0 Hd) as [-> ->].
    cbn [first body]. change (DOT =? DOT) with true. cbn iota. rewrite Z.add_0_r, Hlen.
    cbn zeta in IH. rewrite IH by done. unfold encode_labels. cbn [fmap list_fmap concat]. by rewrite <- !(assoc_L (++)).
Qed.

Lemma encode_labels_length ls : ls <> [] -> length (encode_labels ls) = S (length (dotted ls)).
Proof.
  induction ls as [| l ls IH]; [done |]. intros _.
  change (encode_labels (l :: ls)) with ((Z.of_nat (length l) :: l) ++ encode_labels ls). rewrite length_app. destruct ls as [| l2 ls].
  - simpl. lia.
  - rewrite IH by done. change (dotted (l :: l2 :: ls)) with (l ++ DOT :: dotted (l2 :: ls)). rewrite length_app. simpl length. lia.
Qed.

Lemma dotted_no_nul ls : Forall label_ok ls -> no_nul (dotted ls).
Proof.
  assert (Hone : forall l, label_ok l -> no_nul l) by (intros l [H _]; eapply list.Forall_impl; [exact H |]; cbn; lia).
  induction 1 as [| l ls Hl _ IH]; [by apply list.Forall_nil |]. cbn [dotted]. destruct ls; [by apply Hone |].
  apply list.Forall_app. split; [by apply Hone |]. apply list.Forall_cons. by split.
Qed.

Lemma format_qname_spec ls (dot : bool) rest : ls <> [] -> Forall label_ok ls -> (length (dotted ls) <= 31)%nat ->
  format_qname (dotted ls ++ (if dot then [DOT] else []) ++ 0 :: rest) (replicate (Z.to_nat (MAX_QNAME_SIZE + 1)) 0) =
    Ret (encode_name ls ++ replicate (31 - length (dotted ls)) 0).
Proof.
  intros Hne Hls Hl. set (s := dotted ls ++ (if dot then [DOT] else [])). rewrite (assoc_L (++)). fold s.
  assert (Hs : no_nul s).
  { apply list.Forall_app. split; [by apply dotted_no_nul |]. destruct dot; [by apply list.Forall_singleton | by apply list.Forall_nil]. }
  assert (Hsl : (length s <= 32)%nat) by (unfold s; rewrite length_app; destruct dot; simpl; lia).
  unfold format_qname. rewrite (strlen_list_app s rest Hs), bind_ret, Nat2Z.id.
  change (replicate (Z.to_nat (MAX_QNAME_SIZE + 1)) 0) with (0 :: replicate 32 0).
  replace 32%nat with (length s + (32 - length s))%nat by lia. rewrite replicate_add.
  rewrite (format_loop_spec s (0 :: rest) 0) by (by rewrite length_replicate). rewrite bind_ret.
  change (arr_set (0 :: ?x) 0 ?y) with (@Ret (list Z) (y :: x)). cbn [arr_set].
  pose proof (body_dotted ls dot Hne Hls) as Hb. cbn zeta in Hb. fold s in Hb.
  rewrite app_comm_cons. rewrite Hb. unfold encode_name. f_equal. rewrite <- !(assoc_L (++)). f_equal.
  unfold s. rewrite length_app. destruct dot; cbn [app length].
  - f_equal. f_equal. lia.
  - replace (32 - (length (dotted ls) + 0))%nat with (S (31 - length (dotted ls))) by lia. done.
Qed.

(** ** Questions *)
Definition wire_ok (l : label) : Prop := Forall (fun c => 0 < c < 256) l /\ (0 < length l < 64)%nat.
Record question := MkQuestion { q_name : list label; q_type_class : list Z }.
Definition question_ok (q : question) : Prop := Forall wire_ok (q_name q) /\ length (q_type_class q) = 4%nat.
Definition encode_question (q : question) : list Z := encode_name (q_name q) ++ q_type_class q.
Definition encode_questions (qs : list question) : list Z := concat (encode_question <$> qs).

Lemma encode_labels_cons l ls : encode_labels (l :: ls) = (Z.of_nat (length l) :: l) ++ encode_labels ls.
Proof. done. Qed.

Lemma skip_labels_spec bounded ls : forall fuel pre post pos, Forall wire_ok ls ->
  pos = Z.of_nat (length pre) -> (length ls < fuel)%nat ->
  (bounded = true -> pos + Z.of_nat (length (encode_labels ls)) < SERVER_BUFFER_SIZE) ->
  skip_labels bounded fuel (pre ++ encode_name ls ++ post) pos = Ret (Some (pos + Z.of_nat (length (encode_labels ls)))).
Proof.
  assert (Hbound : forall p, (bounded = true -> p < SERVER_BUFFER_SIZE) -> bounded && (SERVER_BUFFER_SIZE <=? p) = false).
  { intros p Hp. destruct bounded; [| done]. specialize (Hp eq_refl). by apply Z.leb_gt. }
  unfold encode_name. induction ls as [| l ls IH]; intros fuel pre post pos Hls Hpos Hf Hb; (destruct fuel as [| fuel]; [lia |]).
  - change ((encode_labels [] ++ [0]) ++ post) with (0 :: post). change (encode_labels []) with (@nil Z) in *. cbn [skip_labels]. rewrite (arr_get_app pre) by done.
    rewrite bind_ret. change (0 <? 0) with false. cbn iota. simpl in Hb.
    rewrite Hbound by (intros Hbt; specialize (Hb Hbt); lia). rewrite (arr_get_app pre) by done. rewrite bind_ret. change (0 <? 0) with false. cbn iota.
    by rewrite Z.add_0_r.
  - cbn [skip_labels]. apply list.Forall_cons in Hls as [[_ Hl] Hls]. rewrite encode_labels_cons in *. rewrite length_app in Hb |- *. rewrite <- !(assoc_L (++)).
    change ((Z.of_nat (length l) :: l) ++ ?x) with (Z.of_nat (length l) :: l ++ x). rewrite (arr_get_app pre) by done. rewrite bind_ret.
    replace (0 <? Z.of_nat (length l)) with true by (symmetry; apply Z.ltb_lt; lia). cbn iota.
    change (length (Z.of_nat (length l) :: l)) with (S (length l)) in *. simpl length in Hf. set (pos' := pos + Z.of_nat (length l) + 1).
    rewrite Hbound by (intros Hbt; specialize (Hb Hbt); lia).
    replace (pre ++ Z.of_nat (length l) :: l ++ encode_labels ls ++ [0] ++ post) with
      ((pre ++ Z.of_nat (length l) :: l) ++ (encode_labels ls ++ [0]) ++ post) by (by rewrite <- !(assoc_L (++))).
    set (pre' := pre ++ Z.of_nat (length l) :: l) in *.
    assert (Hpre : pos' = Z.of_nat (length pre')) by (unfold pre'; rewrite length_app; simpl length; lia).
    replace (pos + Z.of_nat (S (length l) + length (encode_labels ls))) with (pos' + Z.of_nat (length (encode_labels ls))) by lia.
    destruct ls as [| l2 ls].
    + change ((encode_labels [] ++ [0]) ++ post) with (0 :: post). rewrite (arr_get_app pre') by done. rewrite bind_ret.
      change (0 <? 0) with false. cbn iota. change (encode_labels []) with (@nil Z). by rewrite Z.add_0_r.
    + pose proof (IH fuel pre' post pos' Hls Hpre ltac:(simpl in *; lia)) as IH'. rewrite <- IH' by (intros Hbt; specialize (Hb Hbt); lia).
      apply list.Forall_cons in Hls as [[_ Hl2] _].
      rewrite encode_labels_cons. rewrite <- !(assoc_L (++)). change ((Z.of_nat (length l2) :: l2) ++ ?x) with (Z.of_nat (length l2) :: l2 ++ x).
      rewrite (arr_get_app pre') by done. rewrite bind_ret. by replace (0 <? Z.of_nat (length l2)) with true by (symmetry; apply Z.ltb_lt; lia).
Qed.

(** ** Known names *)
Lemma encode_no_nul ls : Forall wire_ok ls -> no_nul (encode_labels ls).
Proof.
  induction 1 as [| l ls [Hl Hn] _ IH]; [by apply list.Forall_nil |]. rewrite encode_labels_cons.
  apply list.Forall_app. split; [| done]. apply list.Forall_cons. split; [lia |]. eapply list.Forall_impl; [exact Hl |]. cbn. lia.
Qed.

Lemma encode_labels_inj ls1 ls2 : encode_labels ls1 = encode_labels ls2 -> ls1 = ls2.
Proof.
  revert ls2. induction ls1 as [| l1 ls1 IH]; intros [| l2 ls2] H; try done. rewrite !encode_labels_cons in H. cbn [app] in H.
  injection H as Hl H. apply Nat2Z.inj in Hl. apply app_inj_1 in H as [-> H]; [| done]. by rewrite (IH ls2).
Qed.

Lemma qname_matches_string s : forall t pad pre post pos n, no_nul s -> no_nul t -> pos = Z.of_nat (length pre) ->
  Z.of_nat (length t) < n -> qname_matches (s ++ 0 :: pad) (pre ++ t ++ 0 :: post) pos n = Ret (bool_decide (s = t)).
Proof.
  induction s as [| a s IH]; intros t pad pre post pos n Hs Ht Hpos Hn; cbn [app qname_matches];
    (destruct (Z.leb_spec n 0); [lia |]); destruct t as [| b t]; cbn [app]; rewrite (arr_get_app pre) by done; rewrite bind_ret.
  - done.
  - apply list.Forall_cons in Ht as [Hb _]. destruct (Z.eqb_spec 0 b); [lia | by rewrite bool_decide_false].
  - apply list.Forall_cons in Hs as [Ha _]. destruct (Z.eqb_spec a 0); [lia | by rewrite bool_decide_false].
  - apply list.Forall_cons in Hs as [Ha Hs]. apply list.Forall_cons in Ht as [Hb Ht].
    destruct (Z.eqb_spec a b) as [<- | Hne]; [| by rewrite bool_decide_false by congruence].
    destruct (Z.eqb_spec a 0); [lia |]. replace (pre ++ a :: t ++ 0 :: post) with ((pre ++ [a]) ++ t ++ 0 :: post) by (by rewrite <- (assoc_L (++))).
    rewrite IH; [| done | done | rewrite length_app; simpl; lia | simpl in Hn; lia]. f_equal. apply bool_decide_ext. split; congruence.
Qed.

Lemma qname_matches_spec ls1 ls2 pad pre post pos n : Forall wire_ok ls1 -> Forall wire_ok ls2 -> pos = Z.of_nat (length pre) ->
  Z.of_nat (length (encode_name ls2)) <= n ->
  qname_matches (encode_name ls1 ++ pad) (pre ++ encode_name ls2 ++ post) pos n = Ret (bool_decide (ls1 = ls2)).
Proof.
  unfold encode_name. intros H1 H2 Hpos Hn. rewrite length_app in Hn. simpl in Hn. rewrite <- !(assoc_L (++)).
  change ([0] ++ pad) with (0 :: pad). change ([0] ++ post) with (0 :: post).
  rewrite (qname_matches_string (encode_labels ls1)); [| by apply encode_no_nul.. | done | lia].
  f_equal. apply bool_decide_ext. split; [apply encode_labels_inj | congruence].
Qed.

(** The names as they are stored. *)
Definition stored (ls : list label) : list Z := encode_name ls ++ replicate (31 - length (dotted ls)) 0.

Lemma find_qname_spec names ls pre post pos : Forall (Forall wire_ok) names -> Forall wire_ok ls -> pos = Z.of_nat (length pre) ->
  pos + Z.of_nat (length (encode_name ls)) <= SERVER_BUFFER_SIZE ->
  find_qname (stored <$> names) (pre ++ encode_name ls ++ post) pos = Ret (bool_decide (ls ∈ names)).
Proof.
  intros Hn Hls Hpos Hb. assert (Hu : u32 (SERVER_BUFFER_SIZE - pos) = SERVER_BUFFER_SIZE - pos).
  { apply wrap_small. unfold SERVER_BUFFER_SIZE in *. change (2 ^ 32) with 4294967296. lia. }
  induction Hn as [| n names Hn1 _ IH]; cbn [fmap list_fmap find_qname]; [done |]. change (stored n) with (encode_name n ++ replicate (31 - length (dotted n)) 0). rewrite Hu.
  rewrite (qname_matches_spec n ls) by (done || lia). rewrite bind_ret. destruct (decide (n = ls)) as [-> | E].
  - rewrite !bool_decide_true; [done | apply elem_of_cons; by left | done].
  - rewrite (bool_decide_false (n = ls)), IH by done. f_equal. apply bool_decide_ext. rewrite elem_of_cons. intuition congruence.
Qed.

(** Some question is for a known name. *)
Definition asks_known (names : list (list label)) (qs : list question) : bool := existsb (fun q => bool_decide (q_name q ∈ names)) qs.

Lemma encode_question_length q : question_ok q -> length (encode_question q) = (length (encode_labels (q_name q)) + 5)%nat.
Proof. intros [_ H]. unfold encode_question, encode_name. rewrite !length_app, H. simpl. lia. Qed.

Lemma questions_loop_spec names qs : Forall (Forall wire_ok) names -> Forall question_ok qs -> forall pre post pos found,
  pos = Z.of_nat (length pre) -> pos + Z.of_nat (length (encode_questions qs)) <= SERVER_BUFFER_SIZE ->
  questions_loop (length qs) (stored <$> names) (pre ++ encode_questions qs ++ post) pos found =
    Ret (Some (pos + Z.of_nat (length (encode_questions qs))), found || asks_known names qs).
Proof.
  intros Hn Hqs. induction Hqs as [| q qs Hq _ IH]; intros pre post pos found Hpos Hb; cbn [length questions_loop].
  { change (length (encode_questions [])) with 0%nat. rewrite Z.add_0_r. by destruct found. }
  change (encode_questions (q :: qs)) with (encode_question q ++ encode_questions qs) in *. rewrite length_app in *.
  pose proof (encode_question_length q Hq) as Hl. destruct Hq as [Hw Htc].
  assert (Em : pre ++ (encode_question q ++ encode_questions qs) ++ post =
               pre ++ encode_name (q_name q) ++ q_type_class q ++ encode_questions qs ++ post) by (unfold encode_question; by rewrite <- !(assoc_L (++))).
  assert (Hf : (if found then Ret true else find_qname (stored <$> names) (pre ++ encode_name (q_name q) ++ q_type_class q ++ encode_questions qs ++ post) pos)
               = Ret (found || bool_decide (q_name q ∈ names))).
  { destruct found; [done |]. apply find_qname_spec; try done. unfold encode_name. rewrite length_app. simpl. lia. }
  rewrite Em, Hf, bind_ret, skip_labels_spec; try done.
  2: { unfold encode_name. rewrite !length_app. assert (length (q_name q) <= length (encode_labels (q_name q)))%nat; [| simpl; lia].
       clear. induction (q_name q) as [| l ls IH]; [done |]. rewrite encode_labels_cons, length_app. simpl. lia. }
  2: { intros _. lia. }
  rewrite bind_ret. unfold sizeof_dns_question.
  replace (pre ++ encode_name (q_name q) ++ q_type_class q ++ encode_questions qs ++ post) with
    ((pre ++ encode_question q) ++ encode_questions qs ++ post) by (unfold encode_question; by rewrite <- !(assoc_L (++))).
  rewrite IH; [| rewrite length_app, Hl; lia | lia]. cbn [asks_known existsb]. rewrite <- orb_assoc. do 2 f_equal. f_equal. rewrite length_app, Hl. lia.
Qed.

(** ** Answers *)
Definition answer_rr (ip offset : Z) (type_class : list Z) : list Z :=
  be16 (Z.lor (u16 offset) 0xC000) ++ type_class ++ write_u32 (bswap32 3600) ++ be16 4 ++ write_u32 ip.
Fixpoint answers (ip offset : Z) (qs : list question) : list Z :=
  match qs with
  | [] => []
  | q :: qs => answer_rr ip offset (q_type_class q) ++ answers ip (offset + Z.of_nat (length (encode_question q))) qs
  end.
(** How many answers there is room for behind [outp] bytes. *)
Definition answers_room (outp : Z) : nat := Z.to_nat ((SERVER_BUFFER_SIZE - 1 - outp) / sizeof_dns_rr).

Lemma names_length ls : (length ls <= length (encode_labels ls))%nat.
Proof. induction ls as [| l ls IH]; [done |]. rewrite encode_labels_cons, length_app. simpl. lia. Qed.

Lemma make_answer_spec ip A q Bm D E query dst : question_ok q -> length D = 16%nat ->
  query = Z.of_nat (length A) -> dst = Z.of_nat (length (A ++ encode_question q ++ Bm)) ->
  make_answer_rr ip (A ++ encode_question q ++ Bm ++ D ++ E) query dst =
    Ret (Z.of_nat (length (encode_question q)), A ++ encode_question q ++ Bm ++ answer_rr ip query (q_type_class q) ++ E).
Proof.
  intros Hq HD Hquery Hdst. pose proof (encode_question_length q Hq) as Hl. destruct Hq as [Hw Htc].
  destruct (split_block D 2) as (D2 & D14 & -> & H2 & H14); [lia |]. rewrite length_app in HD. unfold make_answer_rr.
  set (bs := be16 (Z.lor (u16 query) 0xC000)).
  replace (A ++ encode_question q ++ Bm ++ (D2 ++ D14) ++ E) with ((A ++ encode_question q ++ Bm) ++ D2 ++ D14 ++ E) by (by rewrite <- !(assoc_L (++))).
  rewrite mem_write_app by done. rewrite bind_ret.
  assert (Em : (A ++ encode_question q ++ Bm) ++ bs ++ D14 ++ E = A ++ encode_name (q_name q) ++ q_type_class q ++ Bm ++ bs ++ D14 ++ E)
    by (unfold encode_question; by rewrite <- !(assoc_L (++))).
  rewrite Em at 1 2. rewrite skip_labels_spec; try done.
  2: { unfold encode_name. rewrite !length_app. pose proof (names_length (q_name q)). simpl. lia. }
  rewrite bind_ret. set (p := query + Z.of_nat (length (encode_labels (q_name q))) + 1).
  assert (Hp : p = Z.of_nat (length (A ++ encode_name (q_name q)))) by (unfold p, encode_name; rewrite !length_app; simpl; lia).
  rewrite Em, (assoc_L (++) A), (mem_read_app (A ++ encode_name (q_name q))) by (done || (unfold sizeof_dns_question; lia)). rewrite bind_ret.
  replace ((A ++ encode_name (q_name q)) ++ q_type_class q ++ Bm ++ bs ++ D14 ++ E) with
    ((A ++ encode_question q ++ Bm ++ bs) ++ D14 ++ E) by (unfold encode_question; by rewrite <- !(assoc_L (++))).
  rewrite mem_write_app; [rewrite bind_ret | rewrite Hdst, !length_app; unfold bs, be16; simpl; lia | rewrite !length_app, Htc; simpl; lia].
  unfold answer_rr. fold bs. rewrite <- !(assoc_L (++)). do 2 f_equal. unfold p, sizeof_dns_question. lia.
Qed.

Lemma answer_rr_length ip o tc : length tc = 4%nat -> length (answer_rr ip o tc) = 16%nat.
Proof. intros H. unfold answer_rr. rewrite !length_app, H. done. Qed.

Lemma answers_loop_spec ip qs : Forall question_ok qs -> forall A Bm E pos outp i,
  Z.of_nat (length (A ++ encode_questions qs ++ Bm ++ E)) = SERVER_BUFFER_SIZE ->
  pos = Z.of_nat (length A) -> outp = Z.of_nat (length (A ++ encode_questions qs ++ Bm)) ->
  let n := Nat.min (length qs) (answers_room outp) in
  answers_loop (length qs) ip (A ++ encode_questions qs ++ Bm ++ E) pos outp i =
    Ret (i + Z.of_nat n, outp + 16 * Z.of_nat n, A ++ encode_questions qs ++ Bm ++ answers ip pos (take n qs) ++ drop (16 * n) E).
Proof.
  unfold answers_room, SERVER_BUFFER_SIZE, sizeof_dns_rr.
  induction 1 as [| q qs Hq _ IH]; intros A Bm E pos outp i Hlen Hpos Hout; cbn zeta; cbn [length answers_loop].
  { cbn [Nat.min]. rewrite Z.mul_0_r, !Z.add_0_r. by rewrite drop_0. }
  change (encode_questions (q :: qs)) with (encode_question q ++ encode_questions qs) in *. unfold SERVER_BUFFER_SIZE, sizeof_dns_rr.
  pose proof (encode_question_length q Hq) as Hl.
  destruct (Z.leb_spec 1024 (outp + 16)) as [Hno | Hroom].
  - replace (Z.to_nat ((1024 - 1 - outp) / 16)) with 0%nat.
    2: { assert ((1024 - 1 - outp) / 16 < 1) by (apply Z.div_lt_upper_bound; lia). lia. }
    rewrite Nat.min_0_r, Z.mul_0_r, !Z.add_0_r. cbn [Nat.mul take answers app]. by rewrite drop_0.
  - assert (Hdiv : (1024 - 1 - outp) / 16 = (1024 - 1 - (outp + 16)) / 16 + 1).
    { replace (1024 - 1 - outp) with (1024 - 1 - (outp + 16) + 1 * 16) by lia. by rewrite Z.div_add by lia. }
    assert (Hpos0 : 0 <= (1024 - 1 - (outp + 16)) / 16) by (apply Z.div_pos; lia).
    replace (Z.to_nat ((1024 - 1 - outp) / 16)) with (S (Z.to_nat ((1024 - 1 - (outp + 16)) / 16))) by lia.
    set (room := Z.to_nat ((1024 - 1 - (outp + 16)) / 16)) in *. rewrite <- Nat.succ_min_distr. set (n := Nat.min (length qs) room).
    assert (HE : (16 <= length E)%nat) by (rewrite !length_app in *; lia).
    destruct (split_block E 16 HE) as (D & E' & -> & HD & _).
    rewrite <- !(assoc_L (++)), (assoc_L (++) (encode_questions qs)).
    rewrite (make_answer_spec ip A q (encode_questions qs ++ Bm) D E') by (done || (rewrite Hout, <- !(assoc_L (++)); done)). rewrite bind_ret.
    set (r := answer_rr ip pos (q_type_class q)).
    replace (A ++ encode_question q ++ (encode_questions qs ++ Bm) ++ r ++ E') with
      ((A ++ encode_question q) ++ encode_questions qs ++ (Bm ++ r) ++ E') by (by rewrite <- !(assoc_L (++))).
    pose proof (answer_rr_length ip pos (q_type_class q) (proj2 Hq)) as Hr. fold r in Hr.
    rewrite (IH (A ++ encode_question q) (Bm ++ r) E'); [| rewrite !length_app in *; lia | rewrite length_app; lia | rewrite !length_app in *; lia].
    fold room. fold n. cbn [take answers]. rewrite <- !(assoc_L (++)). fold r.
    replace (drop (16 * S n) (D ++ E')) with (drop (16 * n) E').
    2: { replace (16 * S n)%nat with (length D + 16 * n)%nat by lia. by rewrite drop_app_add. }
    rewrite Hpos. do 3 f_equal; lia.
Qed.

(** ** Queries *)

(** The first twelve bytes of a query. *)
Record query_header := MkHeader {
  h_id : list Z;
  h_flags : Z * Z;        (* the two bytes *)
  h_answers : list Z;     (* the number of answers *)
  h_rest : list Z         (* the numbers of authority and additional records *)
}.
Definition header_ok (h : query_header) : Prop :=
  length (h_id h) = 2%nat /\ 0 <= (h_flags h).1 < 256 /\ 0 <= (h_flags h).2 < 128 /\ length (h_answers h) = 2%nat /\ length (h_rest h) = 4%nat.
Definition header_num (h : query_header) : Z := (h_flags h).1 + 256 * (h_flags h).2.
Definition header (h : query_header) (n : nat) : list Z :=
  h_id h ++ [(h_flags h).1; (h_flags h).2] ++ be16 (Z.of_nat n) ++ h_answers h ++ h_rest h.
(** The response of [n] bytes of questions and [i] answers. *)
Definition answered (h : query_header) (n i : nat) : list Z :=
  h_id h ++ be16 (answer_flags (header_num h)) ++ be16 (Z.of_nat n) ++ be16 (Z.of_nat i) ++ h_rest h.
Definition refused (h : query_header) : list Z :=
  h_id h ++ be16 (refusal_flags (header_num h)) ++ [0; 1; 0; 0; 0; 0; 0; 0].

Lemma header_length h n : header_ok h -> length (header h n) = 12%nat.
Proof. intros (H1 & _ & _ & H2 & H3). unfold header. rewrite !length_app, H1, H2, H3. done. Qed.

Lemma header_facts h n post : header_ok h -> Z.of_nat n < 65536 ->
  get_flags (header h n ++ post) = Ret (header_num h) /\ Z.testbit (header_num h) 15 = false /\
  mem_read_be16 (header h n ++ post) 4 = Ret (Z.of_nat n).
Proof.
  intros (H1 & Hf2 & Hf3 & H2 & H3) Hn. unfold get_flags, mem_read_le16, mem_read_be16, header, header_num. split; [| split].
  - rewrite <- !(assoc_L (++)). rewrite (mem_read_app (h_id h)) by (done || lia). by rewrite bind_ret.
  - rewrite Z.testbit_eqb by lia. change (2 ^ 15) with 32768. rewrite Z.div_small by lia. done.
  - rewrite <- !(assoc_L (++)). rewrite (assoc_L (++) (h_id h)). rewrite (mem_read_app (h_id h ++ _)) by (rewrite ?length_app, ?H1; done).
    rewrite bind_ret, be16_of_be16 by lia. done.
Qed.

Lemma put_flags_header h n num post : header_ok h ->
  put_flags (header h n ++ post) num = Ret (h_id h ++ be16 num ++ be16 (Z.of_nat n) ++ h_answers h ++ h_rest h ++ post).
Proof.
  intros (H1 & _ & _ & H2 & H3). unfold put_flags, header. rewrite <- !(assoc_L (++)).
  by rewrite (mem_write_app (h_id h) [_; _]) by (done || lia).
Qed.

Lemma questions_length qs : Forall question_ok qs -> (length qs <= length (encode_questions qs))%nat.
Proof.
  induction 1 as [| q l Hq _ IH]; [done |]. change (encode_questions (q :: l)) with (encode_question q ++ encode_questions l).
  rewrite length_app, (encode_question_length q Hq). cbn [length]. lia.
Qed.

Lemma answers_length ip qs : Forall question_ok qs -> forall k o,
  length (answers ip o (take (Nat.min (length qs) k) qs)) = (16 * Nat.min (length qs) k)%nat.
Proof.
  induction 1 as [| q l Hq _ IH]; intros k o; [done |]. destruct k as [| k]; [by rewrite Nat.min_0_r |].
  cbn [length]. rewrite <- Nat.succ_min_distr. cbn [take answers]. rewrite length_app, answer_rr_length by apply Hq. rewrite IH. lia.
Qed.

Section query.
Context (names : list (list label)) (Hnames : Forall (Forall wire_ok) names).
Context (h : query_header) (Hh : header_ok h) (qs : list question) (Hqs : Forall question_ok qs) (Hne : qs <> []).
(** The buffer with a query, and what follows it. *)
Context (post : list Z) (Hsize : Z.of_nat (length (header h (length qs) ++ encode_questions qs ++ post)) = SERVER_BUFFER_SIZE).
Definition server_names : dns_server_data := MkDnss (Z.of_nat (length names)) (Some (stored <$> names)).
Definition end_of_questions : Z := sizeof_dns_header + Z.of_nat (length (encode_questions qs)).

Lemma few_questions : Z.of_nat (length qs) < 65536.
Proof using Hsize Hqs Hh.
  pose proof (questions_length qs Hqs).
  rewrite !length_app in Hsize. unfold SERVER_BUFFER_SIZE in Hsize. lia.
Qed.

Lemma parse_spec : parse_questions (Z.of_nat (length qs)) server_names (header h (length qs) ++ encode_questions qs ++ post) =
  Ret (Some end_of_questions, asks_known names qs).
Proof using Hnames Hh Hqs Hsize.
  unfold parse_questions, server_names. cbn [count_qnames list_qnames]. change (default [] (Some (stored <$> names))) with (stored <$> names). rewrite !Nat2Z.id, take_ge by (by rewrite length_fmap).
  pose proof (header_length h (length qs) Hh) as Hl. rewrite !length_app, Hl in Hsize.
  rewrite (questions_loop_spec names qs Hnames Hqs); [done | by rewrite Hl |]. unfold sizeof_dns_header. lia.
Qed.

Lemma process_known ip len : sizeof_dns_header <= len < 4294967296 -> asks_known names qs = true ->
  let i := Nat.min (length qs) (answers_room end_of_questions) in
  let m' := answered h (length qs) i ++ encode_questions qs ++ answers ip sizeof_dns_header (take i qs) ++ drop (16 * i) post in
  process_dns_message ip server_names (header h (length qs) ++ encode_questions qs ++ post) len =
    Ret (DnsAnswered, m', Some (answered h (length qs) i ++ encode_questions qs ++ answers ip sizeof_dns_header (take i qs))).
Proof using Hnames Hh Hqs Hsize Hne.
  intros Hlen Hknown i m'. pose proof few_questions as Hfew. pose proof (header_length h (length qs) Hh) as Hl.
  destruct (header_facts h (length qs) (encode_questions qs ++ post) Hh Hfew) as (E1 & E2 & E3).
  unfold process_dns_message. rewrite wrap_small by (unfold sizeof_dns_header in *; change (2 ^ 32) with 4294967296; lia).
  destruct (Z.ltb_spec len sizeof_dns_header) as [|_]; [lia |]. rewrite E1, bind_ret, E2, E3, bind_ret.
  destruct (Z.leb_spec (Z.of_nat (length qs)) 0) as [H0 |]; [destruct qs; [done | simpl in H0; lia] |].
  rewrite parse_spec, bind_ret, Hknown, Nat2Z.id.
  pose proof (answers_loop_spec ip qs Hqs (header h (length qs)) [] post sizeof_dns_header end_of_questions 0 Hsize) as Hans.
  cbn zeta in Hans. fold i in Hans. cbn [app] in Hans. rewrite Hans; [rewrite bind_ret | by rewrite Hl | unfold end_of_questions, sizeof_dns_header; rewrite app_nil_r, length_app, Hl; lia].
  set (ans := answers ip sizeof_dns_header (take i qs)) in *.
  destruct (header_facts h (length qs) (encode_questions qs ++ ans ++ drop (16 * i) post) Hh Hfew) as (E1' & _ & _).
  rewrite E1', bind_ret, put_flags_header, bind_ret by done. rewrite Z.add_0_l.
  set (fl := be16 (answer_flags (header_num h))). destruct Hh as (Hid & _ & _ & Ha & Hr).
  rewrite (assoc_L (++) fl), (assoc_L (++) (h_id h)).
  rewrite (mem_write_app (h_id h ++ fl ++ be16 (Z.of_nat (length qs)))) by (rewrite ?length_app, ?Hid, ?Ha; done). rewrite bind_ret.
  replace ((h_id h ++ fl ++ be16 (Z.of_nat (length qs))) ++ be16 (Z.of_nat i) ++ h_rest h ++ encode_questions qs ++ ans ++ drop (16 * i) post)
    with m' by (unfold m', answered; fold fl ans; by rewrite <- !(assoc_L (++))).
  assert (Hans_len : length ans = (16 * i)%nat).
  { unfold ans, i. by apply answers_length. }
  replace m' with ((answered h (length qs) i ++ encode_questions qs ++ ans) ++ drop (16 * i) post) at 1 by (unfold m'; by rewrite <- !(assoc_L (++))).
  rewrite mem_read_head; [by rewrite bind_ret |]. rewrite !length_app, Hans_len. unfold answered, end_of_questions, sizeof_dns_header.
  rewrite !length_app, Hid, Hr. simpl length. lia.
Qed.

Lemma process_unknown ip len : sizeof_dns_header <= len < 4294967296 -> asks_known names qs = false ->
  process_dns_message ip server_names (header h (length qs) ++ encode_questions qs ++ post) len =
    Ret (DnsRefused, refused h ++ encode_questions qs ++ post, Some (refused h ++ encode_questions qs)).
Proof using Hnames Hh Hqs Hsize Hne.
  intros Hlen Hknown. pose proof few_questions as Hfew.
  destruct (header_facts h (length qs) (encode_questions qs ++ post) Hh Hfew) as (E1 & E2 & E3).
  unfold process_dns_message. rewrite wrap_small by (unfold sizeof_dns_header in *; change (2 ^ 32) with 4294967296; lia).
  destruct (Z.ltb_spec len sizeof_dns_header) as [|_]; [lia |]. rewrite E1, bind_ret, E2, E3, bind_ret.
  destruct (Z.leb_spec (Z.of_nat (length qs)) 0) as [H0 |]; [destruct qs; [done | simpl in H0; lia] |].
  rewrite parse_spec, bind_ret, Hknown, put_flags_header, bind_ret by done.
  set (fl := be16 (refusal_flags (header_num h))). destruct Hh as (Hid & _ & _ & Ha & Hr).
  replace (h_id h ++ fl ++ be16 (Z.of_nat (length qs)) ++ h_answers h ++ h_rest h ++ encode_questions qs ++ post) with
    ((h_id h ++ fl) ++ (be16 (Z.of_nat (length qs)) ++ h_answers h ++ h_rest h) ++ encode_questions qs ++ post) by (by rewrite <- !(assoc_L (++))).
  rewrite mem_write_app by (rewrite ?length_app, ?Hid, ?Ha, ?Hr; done). rewrite bind_ret.
  replace ((h_id h ++ fl) ++ (be16 1 ++ [0; 0; 0; 0; 0; 0]) ++ encode_questions qs ++ post) with
    ((refused h ++ encode_questions qs) ++ post) by (unfold refused; fold fl; by rewrite <- !(assoc_L (++))).
  rewrite mem_read_head; [rewrite bind_ret; by rewrite <- (assoc_L (++)) |]. unfold end_of_questions, sizeof_dns_header, refused.
  rewrite !length_app, Hid. simpl length. lia.
Qed.
End query.
