(* ===== verification/DnsTheorems.v ===== *)
(** * Theorems about the name server

    A configured name is stored as the protocol writes it; a query for a known
    name is answered with the address of the access point, one for unknown names
    refused; and where the parsing of questions leaves the buffer. *)
From S2P Require Import Prelude CString DhcpServer Dns DnsProps.

(** ** The theorems *)

(** A configured name: its labels, with a last dot or not, and what lies behind
    it in memory. *)
Record config_name := MkName { c_labels : list label; c_dot : bool; c_behind : list Z }.
Definition config_ok (n : config_name) : Prop :=
  c_labels n <> [] /\ Forall label_ok (c_labels n) /\ (length (dotted (c_labels n)) <= 31)%nat.
Definition configured (n : config_name) : list Z := dotted (c_labels n) ++ (if c_dot n then [DOT] else []) ++ 0 :: c_behind n.

Lemma format_names_spec ns : Forall config_ok ns -> format_names (configured <$> ns) = Ret (stored <$> (c_labels <$> ns)).
Proof.
  induction 1 as [| n ns (Hne & Hls & Hl) _ IH]; [done |]. cbn [fmap list_fmap format_names].
  change (configured n) with (dotted (c_labels n) ++ (if c_dot n then [DOT] else []) ++ 0 :: c_behind n).
  rewrite format_qname_spec by done. rewrite bind_ret. change (list_fmap config_name (list Z) configured ns) with (configured <$> ns). by rewrite IH, bind_ret.
Qed.

Lemma config_wire ns : Forall config_ok ns -> Forall (Forall wire_ok) (c_labels <$> ns).
Proof.
  intros H. apply list.Forall_fmap. eapply list.Forall_impl; [exact H |]. intros n (_ & Hls & _). cbn.
  eapply list.Forall_impl; [exact Hls |]. intros l [Hl Hn]. split; [| done]. eapply list.Forall_impl; [exact Hl |]. cbn. tauto.
Qed.

(** Reads a name back: its labels, up to the empty one. *)
Fixpoint decode_name (fuel : nat) (q : list Z) : option (list label) :=
  match fuel, q with
  | S fuel, n :: q =>
      if n =? 0 then Some []
      else if Z.of_nat (length q) <? n then None
      else ls ← decode_name fuel (drop (Z.to_nat n) q); Some (take (Z.to_nat n) q :: ls)
  | _, _ => None
  end.

Lemma decode_step fuel n q : decode_name (S fuel) (n :: q) =
  if n =? 0 then Some []
  else if Z.of_nat (length q) <? n then None
  else ls ← decode_name fuel (drop (Z.to_nat n) q); Some (take (Z.to_nat n) q :: ls).
Proof. done. Qed.

Lemma decode_encode ls rest : Forall wire_ok ls -> decode_name (S (length ls)) (encode_name ls ++ rest) = Some ls.
Proof.
  unfold encode_name. induction 1 as [| l ls [_ Hl] _ IH]; [done |]. rewrite encode_labels_cons, <- !(assoc_L (++)).
  rewrite <- (assoc_L (++)) in IH. set (t := encode_labels ls ++ [0] ++ rest) in *.
  change ((Z.of_nat (length l) :: l) ++ t) with (Z.of_nat (length l) :: l ++ t). change (length (l :: ls)) with (S (length ls)).
  rewrite decode_step, Nat2Z.id. rewrite drop_app_length, take_app_length, IH.
  destruct (Z.eqb_spec (Z.of_nat (length l)) 0); [lia |].
  destruct (Z.ltb_spec (Z.of_nat (length (l ++ t))) (Z.of_nat (length l))) as [H |]; [rewrite length_app in H; lia | done].
Qed.

(** A configured name, with or without its last dot, is stored as the
    protocol writes names, and reads back as its labels. *)
Theorem configured_name_roundtrip n : config_ok n ->
  exists q, format_qname (configured n) (replicate 33 0) = Ret q /\ length q = 33%nat /\
    q = encode_name (c_labels n) ++ replicate (31 - length (dotted (c_labels n))) 0 /\
    decode_name (S (length (c_labels n))) q = Some (c_labels n).
Proof.
  intros Hn. pose proof (config_wire [n] (proj2 (list.Forall_singleton _ _) Hn)) as Hw. apply (list.Forall_singleton (Forall wire_ok) (c_labels n)) in Hw.
  destruct Hn as (Hne & Hls & Hl). exists (stored (c_labels n)).
  split; [by apply format_qname_spec |]. split; [| split; [done | by apply decode_encode]].
  unfold stored, encode_name. rewrite !length_app, encode_labels_length, length_replicate by done. simpl length. lia.
Qed.

Lemma enable_spec ns s : Forall config_ok ns -> dns_enabled s = false ->
  exists s1, dhcp_enable_dns_server true (Some (configured <$> ns)) s (MkDnss 0 None) = Ret (s1, server_names (c_labels <$> ns)) /\
    msg s1 = msg s /\ my_ip s1 = my_ip s /\ dns_enabled s1 = true.
Proof.
  intros Hns Hs. unfold dhcp_enable_dns_server. rewrite Hs. cbn [orb list_qnames]. rewrite format_names_spec, bind_ret by done.
  eexists. split; [unfold server_names; by rewrite !length_fmap | done].
Qed.

(** A datagram in the buffer of the server. *)
Lemma receive_buffer (old dg : list Z) : length old = 1024%nat -> (length dg <= 1024)%nat ->
  take (Z.to_nat SERVER_BUFFER_SIZE) dg = dg /\ mem_write old 0 dg = Ret (dg ++ drop (length dg) old).
Proof.
  intros Ho Hd. split; [apply take_ge; change (Z.to_nat SERVER_BUFFER_SIZE) with 1024%nat; lia |].
  pose proof (mem_write_next [] old [] dg 0 eq_refl) as H. cbn [app] in H. rewrite !app_nil_r in H. apply H. lia.
Qed.

(** C24: A query with a question for a configured name is answered: the
    questions come back, followed by an answer for each of them that there is
    room for, which points to its question and gives the address of the access
    point; the header has the identifier of the query and the number of answers. *)
Theorem known_names_answered ns s h qs extra :
  Forall config_ok ns -> dns_enabled s = false -> length (msg s) = 1024%nat ->
  header_ok h -> Forall question_ok qs -> asks_known (c_labels <$> ns) qs = true ->
  let query := header h (length qs) ++ encode_questions qs ++ extra in
  (length query <= 1024)%nat ->
  exists s1 d1 s2, dhcp_enable_dns_server true (Some (configured <$> ns)) s (MkDnss 0 None) = Ret (s1, d1) /\
    let i := Nat.min (length qs) (answers_room (12 + Z.of_nat (length (encode_questions qs)))) in
    dns_process_packet s1 d1 query =
      Ret (s2, Some (answered h (length qs) i ++ encode_questions qs ++ answers (my_ip s) 12 (take i qs))).
Proof.
  intros Hns Hs Hm Hh Hqs Hknown query Hlen. destruct (enable_spec ns s Hns Hs) as (s1 & E1 & Em & Ei & Ed).
  exists s1, (server_names (c_labels <$> ns)).
  assert (Hne : qs <> []) by (intros ->; done).
  set (post := extra ++ drop (length query) (msg s)).
  assert (Ebuf : query ++ drop (length query) (msg s) = header h (length qs) ++ encode_questions qs ++ post)
    by (unfold query, post; by rewrite <- !(assoc_L (++))).
  assert (Hsize : Z.of_nat (length (header h (length qs) ++ encode_questions qs ++ post)) = SERVER_BUFFER_SIZE).
  { rewrite <- Ebuf, length_app, length_drop, Hm. unfold SERVER_BUFFER_SIZE. lia. }
  destruct (receive_buffer (msg s) query Hm Hlen) as [Et Ew].
  assert (Hpos : 12 <= Z.of_nat (length query)) by (unfold query; rewrite length_app, header_length by done; lia).
  eexists. split; [exact E1 |]. cbn zeta. unfold dns_process_packet. rewrite Ed. cbn [negb]. rewrite Et, Em, Ew, bind_ret.
  destruct (Z.ltb_spec 0 (Z.of_nat (length query))); [| lia]. rewrite Ebuf.
  rewrite (process_known _ (config_wire ns Hns) h Hh qs Hqs Hne post Hsize) by (done || (unfold sizeof_dns_header; lia)).
  rewrite bind_ret, Ei. done.
Qed.

(** The flags of a refusal say that it is a response and that the query was
    refused, code 5. *)
Lemma refusal_flags_spec num : Z.land (refusal_flags num) 0xF = 5 /\ Z.testbit (refusal_flags num) 15 = true.
Proof.
  unfold refusal_flags. split; [| by rewrite Z.lor_spec, Z.ldiff_spec, Z.lor_spec, orb_true_r].
  apply Z.bits_inj'. intros n Hn. rewrite Z.land_spec, Z.lor_spec, Z.ldiff_spec.
  destruct (Z.ltb_spec n 4).
  - assert (n = 0 \/ n = 1 \/ n = 2 \/ n = 3) as [-> | [-> | [-> | ->]]] by lia; cbn; by rewrite ?andb_false_r.
  - rewrite (Z.bits_above_log2 0xF n), (Z.bits_above_log2 5 n) by (cbn; lia). apply andb_false_r.
Qed.

(** C37: A query of at most 1024 bytes with one or more whole questions, all for names
    that are not configured, is refused: its questions come back behind a header
    with its identifier, the mark of a response and the code for refusal. The
    header counts one question whatever their number. *)
Theorem unknown_names_refused ns s h qs extra :
  Forall config_ok ns -> dns_enabled s = false -> length (msg s) = 1024%nat ->
  header_ok h -> Forall question_ok qs -> qs <> [] -> asks_known (c_labels <$> ns) qs = false ->
  let query := header h (length qs) ++ encode_questions qs ++ extra in
  (length query <= 1024)%nat ->
  exists s1 d1 s2 flags, dhcp_enable_dns_server true (Some (configured <$> ns)) s (MkDnss 0 None) = Ret (s1, d1) /\
    dns_process_packet s1 d1 query = Ret (s2, Some (h_id h ++ be16 flags ++ [0; 1; 0; 0; 0; 0; 0; 0] ++ encode_questions qs)) /\
    Z.land flags 0xF = ERROR_REFUSED /\ Z.testbit flags 15 = true.
Proof.
  intros Hns Hs Hm Hh Hqs Hne Hknown query Hlen. destruct (enable_spec ns s Hns Hs) as (s1 & E1 & Em & Ei & Ed).
  exists s1, (server_names (c_labels <$> ns)).
  set (post := extra ++ drop (length query) (msg s)).
  assert (Ebuf : query ++ drop (length query) (msg s) = header h (length qs) ++ encode_questions qs ++ post)
    by (unfold query, post; by rewrite <- !(assoc_L (++))).
  assert (Hsize : Z.of_nat (length (header h (length qs) ++ encode_questions qs ++ post)) = SERVER_BUFFER_SIZE).
  { rewrite <- Ebuf, length_app, length_drop, Hm. unfold SERVER_BUFFER_SIZE. lia. }
  destruct (receive_buffer (msg s) query Hm Hlen) as [Et Ew].
  assert (Hpos : 12 <= Z.of_nat (length query)) by (unfold query; rewrite length_app, header_length by done; lia).
  eexists _, (refusal_flags (header_num h)). split; [exact E1 |]. split; [| exact (refusal_flags_spec _)].
  unfold dns_process_packet. rewrite Ed. cbn [negb]. rewrite Et, Em, Ew, bind_ret.
  destruct (Z.ltb_spec 0 (Z.of_nat (length query))); [| lia]. rewrite Ebuf.
  rewrite (process_unknown _ (config_wire ns Hns) h Hh qs Hqs Hne post Hsize) by (done || (unfold sizeof_dns_header; lia)).
  rewrite bind_ret. unfold refused. by rewrite <- !(assoc_L (++)).
Qed.
Lemma skip_labels_past ls : forall fuel pre c post pos, Forall wire_ok ls -> 0 < c -> pos = Z.of_nat (length pre) ->
  (length ls < fuel)%nat -> pos + Z.of_nat (length (encode_labels ls)) < SERVER_BUFFER_SIZE ->
  SERVER_BUFFER_SIZE <= pos + Z.of_nat (length (encode_labels ls)) + c + 1 ->
  skip_labels true fuel (pre ++ encode_labels ls ++ c :: post) pos = Ret None.
Proof.
  induction ls as [| l ls IH]; intros fuel pre c post pos Hls Hc Hpos Hf Hin Hout; (destruct fuel as [| fuel]; [lia |]).
  - change (encode_labels []) with (@nil Z) in *. simpl in Hin, Hout. cbn [app skip_labels]. rewrite (arr_get_app pre) by done.
    rewrite bind_ret. rewrite (proj2 (Z.ltb_lt 0 c) Hc). cbn [andb]. by rewrite (proj2 (Z.leb_le _ _)) by lia.
  - apply list.Forall_cons in Hls as [[_ Hl] Hls]. rewrite encode_labels_cons in *. rewrite length_app in Hin, Hout.
    change (length (Z.of_nat (length l) :: l)) with (S (length l)) in *. simpl length in Hf. cbn [skip_labels].
    rewrite <- (assoc_L (++)). change ((Z.of_nat (length l) :: l) ++ ?x) with (Z.of_nat (length l) :: l ++ x).
    rewrite (arr_get_app pre) by done. rewrite bind_ret. rewrite (proj2 (Z.ltb_lt 0 (Z.of_nat (length l)))) by lia.
    set (pos' := pos + Z.of_nat (length l) + 1). rewrite (proj2 (Z.leb_gt SERVER_BUFFER_SIZE pos')) by lia. cbn [andb].
    replace (pre ++ Z.of_nat (length l) :: l ++ encode_labels ls ++ c :: post) with
      ((pre ++ Z.of_nat (length l) :: l) ++ encode_labels ls ++ c :: post) by (by rewrite <- (assoc_L (++))).
    set (pre' := pre ++ Z.of_nat (length l) :: l) in *.
    assert (Hpre : pos' = Z.of_nat (length pre')) by (unfold pre'; rewrite length_app; simpl length; lia).
    assert (Hnext : exists d, arr_get (pre' ++ encode_labels ls ++ c :: post) pos' = Ret d /\ 0 < d).
    { destruct ls as [| l2 ls]; [exists c; change (encode_labels [] ++ c :: post) with (c :: post); by rewrite (arr_get_app pre') |]. apply list.Forall_cons in Hls as [[_ Hl2] _].
      exists (Z.of_nat (length l2)). rewrite encode_labels_cons, <- (assoc_L (++)).
      change ((Z.of_nat (length l2) :: l2) ++ ?x) with (Z.of_nat (length l2) :: l2 ++ x). rewrite (arr_get_app pre') by done. split; [done | lia]. }
    destruct Hnext as (d & -> & Hd). rewrite bind_ret, (proj2 (Z.ltb_lt 0 d) Hd). apply IH; done || lia.
Qed.

(** The comparison of names stays within the buffer. *)
Lemma qname_matches_total s pad m : no_nul s -> Z.of_nat (length m) = SERVER_BUFFER_SIZE -> forall pos n, 0 <= pos -> pos + n <= SERVER_BUFFER_SIZE ->
  exists b, qname_matches (s ++ 0 :: pad) m pos n = Ret b.
Proof.
  intros Hs Hm. induction Hs as [| a s Ha _ IH]; intros pos n Hpos Hn; cbn [app qname_matches];
    (destruct (Z.leb_spec n 0); [by exists true |]); (destruct (arr_get_total m pos) as (b & -> & _); [lia |]); rewrite bind_ret.
  - destruct (0 =? b); eauto.
  - destruct (a =? b); [| eauto]. destruct (Z.eqb_spec a 0); [lia |]. apply IH; lia.
Qed.

Lemma find_qname_total names m pos : Forall (Forall wire_ok) names -> Z.of_nat (length m) = SERVER_BUFFER_SIZE ->
  0 <= pos <= SERVER_BUFFER_SIZE -> exists b, find_qname (stored <$> names) m pos = Ret b.
Proof.
  intros Hn Hm Hpos. assert (Hu : u32 (SERVER_BUFFER_SIZE - pos) = SERVER_BUFFER_SIZE - pos).
  { apply wrap_small. unfold SERVER_BUFFER_SIZE in *. change (2 ^ 32) with 4294967296. lia. }
  induction Hn as [| n names Hn1 _ IH]; [by exists false |]. cbn [fmap list_fmap find_qname]. rewrite Hu.
  destruct (qname_matches_total (encode_labels n) (replicate (31 - length (dotted n)) 0) m (encode_no_nul n Hn1) Hm pos
    (SERVER_BUFFER_SIZE - pos)) as [b Hb]; [lia.. |].
  change (stored n) with ((encode_labels n ++ [0]) ++ replicate (31 - length (dotted n)) 0). rewrite <- (assoc_L (++)).
  change ([0] ++ ?x) with (0 :: x). rewrite Hb, bind_ret. destruct b; [by exists true | exact IH].
Qed.

Lemma parse_past names hd n ls c post : Forall (Forall wire_ok) names -> length hd = 12%nat -> (0 < n)%nat -> Forall wire_ok ls -> 0 < c ->
  Z.of_nat (length (hd ++ encode_labels ls ++ c :: post)) = SERVER_BUFFER_SIZE ->
  SERVER_BUFFER_SIZE <= 12 + Z.of_nat (length (encode_labels ls)) + c + 1 ->
  exists b, parse_questions (Z.of_nat n) (server_names names) (hd ++ encode_labels ls ++ c :: post) = Ret (None, b).
Proof.
  intros Hn Hhd Hn0 Hls Hc Hsize Hout. destruct n as [| n]; [lia |]. unfold parse_questions, server_names. cbn [count_qnames list_qnames].
  change (default [] (Some (stored <$> names))) with (stored <$> names). rewrite !Nat2Z.id, take_ge by (by rewrite length_fmap).
  cbn [questions_loop]. destruct (find_qname_total names _ sizeof_dns_header Hn Hsize) as [b ->]; [done |]. rewrite bind_ret.
  pose proof (names_length ls) as Hnl. rewrite !length_app in Hsize. cbn [length] in Hsize.
  rewrite (skip_labels_past ls _ hd c post sizeof_dns_header Hls Hc);
    [by exists b | by rewrite Hhd | rewrite !length_app; lia | unfold sizeof_dns_header; lia | exact Hout].
Qed.

(** ** Theorems of errors *)

(** A configured name of more than 32 characters is written past its buffer. *)
Theorem overlong_name_overflows s rest : no_nul s -> (32 < length s)%nat ->
  format_qname (s ++ 0 :: rest) (replicate 33 0) = Fault OutOfBounds.
Proof.
  intros Hs Hl. unfold format_qname. rewrite strlen_list_app, bind_ret, Nat2Z.id by done.
  destruct s as [| c s _] using rev_ind; [simpl in Hl; lia |]. rewrite length_app, Nat.add_1_r in *. cbn [format_loop].
  rewrite <- (assoc_L (++)). cbn [app]. rewrite (arr_get_app s) by done. rewrite bind_ret.
  assert (E : forall y, arr_set (replicate 33 0) (Z.of_nat (length s) + 1) y = Fault OutOfBounds).
  { intros y. apply arr_set_oob. rewrite length_replicate. lia. }
  destruct (c =? DOT); by rewrite E.
Qed.

(** A datagram whose first question runs to the end of the buffer: the
    response has as its length the difference between no address and the buffer. *)
Theorem endless_question_sent_from_null ns s h n ls c rest :
  Forall config_ok ns -> dns_enabled s = false -> length (msg s) = 1024%nat ->
  header_ok h -> (0 < n)%nat -> Z.of_nat n < 65536 -> Forall wire_ok ls -> 0 < c ->
  let query := header h n ++ encode_labels ls ++ c :: rest in
  (length query <= 1024)%nat -> 1024 <= 12 + Z.of_nat (length (encode_labels ls)) + c + 1 ->
  exists s1 d1, dhcp_enable_dns_server true (Some (configured <$> ns)) s (MkDnss 0 None) = Ret (s1, d1) /\
    dns_process_packet s1 d1 query = Fault NullPointer.
Proof.
  intros Hns Hs Hm Hh Hn0 Hn Hls Hc query Hlen Hout. destruct (enable_spec ns s Hns Hs) as (s1 & E1 & Em & Ei & Ed).
  exists s1, (server_names (c_labels <$> ns)). split; [exact E1 |]. unfold dns_process_packet. rewrite Ed. cbn [negb].
  destruct (receive_buffer (msg s) query Hm Hlen) as [Et Ew]. rewrite Et, Em, Ew, bind_ret.
  pose proof (header_length h n Hh) as Hhl.
  assert (Hpos : 12 <= Z.of_nat (length query)) by (unfold query; rewrite length_app; lia).
  destruct (Z.ltb_spec 0 (Z.of_nat (length query))); [| lia].
  set (post := rest ++ drop (length query) (msg s)).
  assert (Ebuf : query ++ drop (length query) (msg s) = header h n ++ encode_labels ls ++ c :: post)
    by (unfold query, post; rewrite <- !(assoc_L (++)); done).
  assert (Hsize : Z.of_nat (length (header h n ++ encode_labels ls ++ c :: post)) = SERVER_BUFFER_SIZE).
  { rewrite <- Ebuf, length_app, length_drop, Hm. unfold SERVER_BUFFER_SIZE. lia. }
  rewrite Ebuf. unfold process_dns_message. rewrite wrap_small by (change (2 ^ 32) with 4294967296; lia).
  destruct (Z.ltb_spec (Z.of_nat (length query)) sizeof_dns_header) as [Hlt |_]; [unfold sizeof_dns_header in Hlt; lia |].
  destruct (header_facts h n (encode_labels ls ++ c :: post) Hh Hn) as (E2 & E3 & E4). rewrite E2, bind_ret, E3, E4, bind_ret.
  destruct (Z.leb_spec (Z.of_nat n) 0); [lia |].
  destruct (parse_past (c_labels <$> ns) (header h n) n ls c post) as [b ->]; [by apply config_wire | done.. |].
  rewrite bind_ret, put_flags_header, bind_ret by done.
  rewrite (assoc_L (++) (h_id h)). destruct Hh as (Hid & _ & _ & Ha & Hr).
  set (fl := be16 (refusal_flags (header_num h))).
  replace ((h_id h ++ fl) ++ be16 (Z.of_nat n) ++ h_answers h ++ h_rest h ++ encode_labels ls ++ c :: post) with
    ((h_id h ++ fl) ++ (be16 (Z.of_nat n) ++ h_answers h ++ h_rest h) ++ encode_labels ls ++ c :: post) by (by rewrite <- !(assoc_L (++))).
  rewrite mem_write_app by (rewrite ?length_app, ?Hid, ?Ha, ?Hr; done). rewrite !bind_ret. by destruct b.
Qed.

(** ** Examples *)
Definition ex_names : list config_name :=
  [MkName [map (fun c => c) [119; 105; 102; 105]; [110; 101; 116]] true [];   (* wifi.net. *)
   MkName [[97; 112]] false [7; 7]].                                          (* ap *)
Definition ex_server : dhcp_server_data := MkDhcps 0 (replicate 1024 0) [] 0 0x0100A8C0 0 0 0 false.
Definition ex_header : query_header := MkHeader [0x12; 0x34] (1, 0) [0; 0] [0; 0; 0; 0].
Definition ask (ls : list label) : question := MkQuestion ls [0; 1; 0; 1].
Definition ex_response (r : outcome (dhcp_server_data * option (list Z))) : option (list Z) :=
  match r with Ret (_, o) => o | _ => None end.
Definition ex_query (qs : list question) : option (list Z) :=
  match dhcp_enable_dns_server true (Some (configured <$> ex_names)) ex_server (MkDnss 0 None) with
  | Ret (s, d) => ex_response (dns_process_packet s d (header ex_header (length qs) ++ encode_questions qs))
  | _ => None
  end.

Example query_for_ap : ex_query [ask [[97; 112]]] =
  Some [0x12; 0x34; 0x84; 0; 0; 1; 0; 1; 0; 0; 0; 0;  2; 97; 112; 0; 0; 1; 0; 1;
        0xC0; 12; 0; 1; 0; 1; 0; 0; 14; 16; 0; 4; 0xC0; 0xA8; 0; 1].
Proof. vm_compute. reflexivity. Qed.

Example query_for_other : ex_query [ask [[97]]] =
  Some [0x12; 0x34; 0x81; 5; 0; 1; 0; 0; 0; 0; 0; 0;  1; 97; 0; 0; 1; 0; 1].
Proof. vm_compute. reflexivity. Qed.

(** The flags are not put in the order of the processor first: a query that asks
    for authenticated data (the bit 0x20 of the second byte) is answered with
    the operation code 4, and one with the bit 0x80 of it is taken for a response. *)
Example authenticated_query_answered : be16 (answer_flags (0x01 + 256 * 0x20)) = [0xA4; 0].
Proof. reflexivity. Qed.
Example available_bit_ignores_query :
  process_dns_message 0 (MkDnss 0 None) ([0x12; 0x34; 0x01; 0x80; 0; 1] ++ replicate 1018 0) 17 =
    Ret (DnsIgnored, [0x12; 0x34; 0x01; 0x80; 0; 1] ++ replicate 1018 0, None).
Proof. vm_compute. reflexivity. Qed.

(** Labels that end with the buffer: the type and class behind them are sent from
    beyond it. *)
Example question_cut_off :
  process_dns_message 0 (MkDnss 0 None)
    (header ex_header 1 ++ encode_name (replicate 19 (replicate 50 97) ++ [replicate 41 97])) 1024 = Fault OutOfBounds.
Proof. vm_compute. reflexivity. Qed.

(** ** Witnesses *)
Lemma check_forall {A} (f : A -> bool) (P : A -> Prop) l : (forall x, f x = true -> P x) -> forallb f l = true -> Forall P l.
Proof.
  intros Hf. induction l as [| x l IH]; intros H; [by apply list.Forall_nil |]. cbn [forallb] in H. apply andb_true_iff in H as [H1 H2].
  apply list.Forall_cons. auto.
Qed.

Definition label_check (dots : bool) (l : label) : bool :=
  forallb (fun c => (0 <? c) && (c <? 256) && (dots || negb (c =? DOT))) l && (0 <? length l)%nat && (length l <? 64)%nat.

Lemma label_check_wire l : label_check true l = true -> wire_ok l.
Proof.
  unfold label_check. rewrite !andb_true_iff, !Nat.ltb_lt. intros [[H1 H2] H3]. split; [| lia]. eapply check_forall, H1.
  intros c. cbn beta. rewrite !andb_true_iff, !Z.ltb_lt. lia.
Qed.

Lemma label_check_config l : label_check false l = true -> label_ok l.
Proof.
  unfold label_check. rewrite !andb_true_iff, !Nat.ltb_lt. intros [[H1 H2] H3]. split; [| lia]. eapply check_forall, H1.
  intros c. cbn [orb]. rewrite !andb_true_iff, !Z.ltb_lt, negb_true_iff, Z.eqb_neq. lia.
Qed.

Lemma ask_ok ls : forallb (label_check true) ls = true -> question_ok (ask ls).
Proof. intros H. split; [| done]. eapply check_forall, H. apply label_check_wire. Qed.

Lemma name_ok n : c_labels n <> [] -> forallb (label_check false) (c_labels n) = true -> (length (dotted (c_labels n)) <= 31)%nat -> config_ok n.
Proof. intros H1 H2 H3. split; [done |]. split; [| done]. eapply check_forall, H2. apply label_check_config. Qed.

Lemma ex_names_ok : Forall config_ok ex_names.
Proof. repeat apply list.Forall_cons_2; try apply list.Forall_nil_2; by (apply name_ok; [done | done | cbn; lia]). Qed.

Lemma configured_name_roundtrip_witness : exists q,
  format_qname (configured (MkName [[97; 112]; [108]] true [1])) (replicate 33 0) = Ret q /\ length q = 33%nat /\
    q = encode_name [[97; 112]; [108]] ++ replicate (31 - length (dotted [[97; 112]; [108]])) 0 /\
    decode_name 3 q = Some [[97; 112]; [108]].
Proof.
  apply (configured_name_roundtrip (MkName [[97; 112]; [108]] true [1])). apply name_ok; [done | done | cbn; lia].
Defined.

Lemma known_names_answered_witness : exists s1 d1 s2,
  dhcp_enable_dns_server true (Some (configured <$> ex_names)) ex_server (MkDnss 0 None) = Ret (s1, d1) /\
  let qs := [ask [[97]]; ask [[97; 112]]] in
  let i := Nat.min (length qs) (answers_room (12 + Z.of_nat (length (encode_questions qs)))) in
  dns_process_packet s1 d1 (header ex_header (length qs) ++ encode_questions qs ++ [9]) =
    Ret (s2, Some (answered ex_header (length qs) i ++ encode_questions qs ++ answers 0x0100A8C0 12 (take i qs))).
Proof.
  apply (known_names_answered ex_names ex_server ex_header [ask [[97]]; ask [[97; 112]]] [9]).
  - exact ex_names_ok.
  - reflexivity.
  - apply length_replicate.
  - unfold header_ok, ex_header; cbn; lia.
  - repeat apply list.Forall_cons_2; try apply list.Forall_nil_2; by apply ask_ok.
  - vm_compute. reflexivity.
  - vm_compute. lia.
Defined.

Lemma unknown_names_refused_witness : exists s1 d1 s2 flags,
  dhcp_enable_dns_server true (Some (configured <$> ex_names)) ex_server (MkDnss 0 None) = Ret (s1, d1) /\
  dns_process_packet s1 d1 (header ex_header 1 ++ encode_questions [ask [[97]]] ++ []) =
    Ret (s2, Some (h_id ex_header ++ be16 flags ++ [0; 1; 0; 0; 0; 0; 0; 0] ++ encode_questions [ask [[97]]])) /\
  Z.land flags 0xF = ERROR_REFUSED /\ Z.testbit flags 15 = true.
Proof.
  apply (unknown_names_refused ex_names ex_server ex_header [ask [[97]]] []).
  - exact ex_names_ok.
  - reflexivity.
  - apply length_replicate.
  - unfold header_ok, ex_header; cbn; lia.
  - repeat apply list.Forall_cons_2; try apply list.Forall_nil_2; by apply ask_ok.
  - done.
  - vm_compute. reflexivity.
  - vm_compute. lia.
Defined.

Lemma overlong_name_overflows_witness : format_qname (replicate 33 97 ++ 0 :: []) (replicate 33 0) = Fault OutOfBounds.
Proof.
  apply (overlong_name_overflows (replicate 33 97) []); [| rewrite length_replicate; lia].
  apply list.Forall_replicate. lia.
Defined.

Lemma endless_question_sent_from_null_witness : exists s1 d1,
  dhcp_enable_dns_server true (Some (configured <$> ex_names)) ex_server (MkDnss 0 None) = Ret (s1, d1) /\
  dns_process_packet s1 d1 (header ex_header 1 ++ encode_labels (replicate 19 (replicate 50 97)) ++ (0xC0 : Z) :: [12 : Z]) = Fault NullPointer.
Proof.
  apply (endless_question_sent_from_null ex_names ex_server ex_header 1 (replicate 19 (replicate 50 97)) 0xC0 [12]).
  - exact ex_names_ok.
  - reflexivity.
  - apply length_replicate.
  - unfold header_ok, ex_header; cbn; lia.
  - lia.
  - lia.
  - apply list.Forall_replicate. split; [apply list.Forall_replicate; lia | rewrite length_replicate; lia].
  - lia.
  - change (length (header ex_header 1 ++ encode_labels (replicate 19 (replicate 50 (97 : Z))) ++ (0xC0 : Z) :: [12 : Z]) <= 1024)%nat. vm_compute. lia.
  - apply Z.leb_le. vm_compute. reflexivity.
Defined.
