(* ===== verification/DnsSafety.v ===== *)
(** * The name server beside the DHCP server

    Both receive into one buffer.  Whatever the bytes of a datagram, the loops of
    the name server end, and where it returns the DHCP server's state is well
    formed and its leases are as they were.  Nothing is said here of where it
    reads: a question that is cut off is read past the buffer
    ([DnsTheorems.question_cut_off]). *)
From S2P Require Import Prelude CString DhcpServer DhcpProps DhcpTheorems Dns DnsProps DnsTheorems.

(** ** Any datagram *)

Lemma be16_bytes z : bytes (be16 z).
Proof. unfold be16, is_byte. repeat apply list.Forall_cons_2; try apply list.Forall_nil_2; by apply wrap_range. Qed.

(** A call that returns what satisfies [P] or fails on an access; its loops end. *)
Definition ends {A} (P : A -> Prop) (m : outcome A) : Prop :=
  match m with Ret a => P a | Fault f => f = OutOfBounds \/ f = NullPointer end.

Lemma ends_bind {A B} (P : A -> Prop) (Q : B -> Prop) (m : outcome A) k :
  ends P m -> (forall a, P a -> ends Q (k a)) -> ends Q (m ≫= k).
Proof. destruct m; cbn; auto. Qed.

Definition buffer_ok (m : list Z) : Prop := length m = 1024%nat /\ bytes m.

Lemma get_ends m pos : buffer_ok m -> ends (fun b => is_byte b /\ 0 <= pos < 1024) (arr_get m pos).
Proof.
  intros [Hl Hm]. destruct (decide (0 <= pos < 1024)) as [H |].
  - destruct (byte_at m pos Hm) as (b & -> & Hb); [lia | done].
  - destruct (arr_get m pos) as [b | f] eqn:E; [apply arr_get_ret in E as [? E%lookup_lt_Some]; lia |]. left.
    unfold arr_get in E. repeat case_match; congruence.
Qed.

Lemma read_ends m off n : buffer_ok m -> ends (fun bs => bytes bs /\ Z.of_nat (length bs) = n /\ off + n <= 1024) (mem_read m off n).
Proof.
  intros [Hl Hm]. destruct (mem_read m off n) as [bs | f] eqn:E; [| left; by eapply mem_read_fault].
  split; [eapply mem_read_bytes; [exact Hm | exact E] |]. split; [by eapply mem_read_len |]. unfold mem_read in E.
  destruct (0 <=? off), (0 <=? n), (Z.leb_spec (off + n) (Z.of_nat (length m))); try done. lia.
Qed.

Lemma write_ends m off bs : buffer_ok m -> bytes bs -> ends buffer_ok (mem_write m off bs).
Proof.
  intros [Hl Hm] Hb. destruct (mem_write m off bs) as [m' | f] eqn:E; [| left; by eapply mem_write_fault].
  split; [rewrite <- Hl; by eapply mem_write_length | eapply mem_write_bytes; [exact Hm | exact Hb | exact E]].
Qed.

Lemma skip_ends bounded m : buffer_ok m -> forall fuel pos, 0 <= pos -> (0 < fuel)%nat -> 1024 - pos <= Z.of_nat fuel ->
  ends (fun p => (bounded = false -> p <> None) /\ forall q, p = Some q -> pos <= q < 1024) (skip_labels bounded fuel m pos).
Proof.
  intros Hm. induction fuel as [| fuel IH]; intros pos Hpos Hf Hfuel; [lia |]. cbn [skip_labels].
  pose proof (get_ends m pos Hm) as Hc. destruct (arr_get m pos) as [c |] eqn:Ec; [| exact Hc]. destruct Hc as [Hc Hp]. unfold is_byte in Hc.
  rewrite bind_ret. destruct (Z.ltb_spec 0 c) as [Hc0 | Hc0].
  - set (pos' := pos + c + 1). destruct (bounded && (SERVER_BUFFER_SIZE <=? pos')) eqn:Eb; [by destruct bounded |].
    eapply ends_bind; [by apply get_ends |]. intros c' [_ Hp']. destruct (0 <? c'); [| split; [done | intros q [= <-]; lia]].
    pose proof (IH pos' ltac:(lia) ltac:(lia) ltac:(lia)) as Hgoal.
    destruct (skip_labels bounded fuel m pos') as [p |]; [| exact Hgoal]. destruct Hgoal as [H1 H2].
    split; [done |]. intros q Hq. specialize (H2 q Hq). lia.
  - destruct (bounded && (SERVER_BUFFER_SIZE <=? pos)) eqn:Eb; [by destruct bounded |]. rewrite Ec, bind_ret.
    destruct (Z.ltb_spec 0 c); [lia |]. split; [done | intros q [= <-]; lia].
Qed.

Lemma skip_buffer_ends bounded m pos : buffer_ok m -> 0 <= pos ->
  ends (fun p => (bounded = false -> p <> None) /\ forall q, p = Some q -> pos <= q < 1024) (skip_labels bounded (length m) m pos).
Proof. intros Hm Hpos. apply skip_ends; [done | done | destruct Hm; lia..]. Qed.

Lemma qname_matches_ends m : buffer_ok m -> forall q pos n, ends (fun _ => True) (qname_matches q m pos n).
Proof.
  intros Hm. induction q as [| a q IH]; intros pos n; cbn [qname_matches]; destruct (n <=? 0); [done | by left | done |].
  eapply ends_bind; [by apply get_ends |]. intros b _. destruct (a =? b); [| done]. destruct (a =? 0); [done | apply IH].
Qed.

Lemma find_qname_ends m qs pos : buffer_ok m -> ends (fun _ => True) (find_qname qs m pos).
Proof.
  intros Hm. induction qs as [| q qs IH]; cbn [find_qname]; [done |].
  eapply ends_bind; [by apply qname_matches_ends |]. intros [] _; [done | exact IH].
Qed.

Lemma questions_ends m qs : buffer_ok m -> forall n pos found, 0 <= pos ->
  ends (fun r => forall q, r.1 = Some q -> 0 <= q) (questions_loop n qs m pos found).
Proof.
  intros Hm. induction n as [| n IH]; intros pos found Hpos; cbn [questions_loop]; [intros q [= <-]; lia |].
  eapply (ends_bind (fun _ => True)); [destruct found; [done | by apply find_qname_ends] |]. intros f _.
  eapply ends_bind; [by apply skip_buffer_ends |]. intros [p |] [_ Hp]; [| done]. specialize (Hp p eq_refl).
  apply IH. unfold sizeof_dns_question. lia.
Qed.

Lemma answer_ends ip m query dst : buffer_ok m -> 0 <= query ->
  ends (fun r => 0 <= r.1 /\ buffer_ok r.2) (make_answer_rr ip m query dst).
Proof.
  intros Hm Hq. unfold make_answer_rr. eapply ends_bind; [apply write_ends; [done | apply be16_bytes] |]. intros m1 Hm1.
  eapply ends_bind; [by apply skip_buffer_ends |]. intros [p |] [H1 H2]; [| by destruct (H1 eq_refl)]. specialize (H2 p eq_refl).
  eapply ends_bind; [by apply read_ends |]. intros tc (Htc & _ & _). eapply ends_bind; [apply write_ends; [done |] |].
  - repeat apply Forall_app_2; [done | apply write_u32_bytes | apply be16_bytes | apply write_u32_bytes].
  - intros m2 Hm2. split; [unfold sizeof_dns_question; cbn; lia | done].
Qed.

Lemma answers_ends ip n : forall m pos outp i, buffer_ok m -> 0 <= pos ->
  ends (fun r => buffer_ok r.2) (answers_loop n ip m pos outp i).
Proof.
  induction n as [| n IH]; intros m pos outp i Hm Hpos; cbn [answers_loop]; [done |]. destruct (_ <=? _); [done |].
  eapply ends_bind; [by apply answer_ends |]. intros [len m1] [Hlen Hm1]. cbn in Hlen, Hm1. apply IH; [done | lia].
Qed.

Definition response_ok (r : option (list Z)) : Prop := forall bs, r = Some bs -> bytes bs /\ (length bs <= 1024)%nat.

Lemma message_ends ip d m len : buffer_ok m -> ends (fun r => buffer_ok r.1.2 /\ response_ok r.2) (process_dns_message ip d m len).
Proof.
  intros Hm. unfold process_dns_message. destruct (_ <? _); [done |].
  assert (Hle : forall m p, buffer_ok m -> ends (fun _ => True) (mem_read_le16 m p)).
  { intros m0 p H0. unfold mem_read_le16. by eapply ends_bind; [apply read_ends |]. }
  assert (Hsend : forall k m n, buffer_ok m -> ends (fun r => buffer_ok r.1.2 /\ response_ok r.2) (r ← mem_read m 0 n; Ret (k : dns_result, m, Some r))).
  { intros k m0 n H0. eapply ends_bind; [by apply read_ends |]. intros bs (Hb & Hl & Hn). split; [done |]. intros ? [= <-]. split; [done | lia]. }
  eapply ends_bind; [by apply Hle |]. intros num _. destruct (Z.testbit num 15); [done |].
  eapply (ends_bind (fun _ => True)).
  { unfold mem_read_be16. by eapply ends_bind; [apply read_ends |]. }
  intros nq _. destruct (nq <=? 0); [done |]. eapply ends_bind; [by apply questions_ends |]. intros [outp found] Hout. cbn in Hout.
  assert (Hrefuse : ends (fun r => buffer_ok r.1.2 /\ response_ok r.2)
    (m0 ← put_flags m (refusal_flags num); m1 ← mem_write m0 4 (be16 1 ++ [0; 0; 0; 0; 0; 0]);
     match outp with None => Fault NullPointer | Some outp => r ← mem_read m1 0 outp; Ret (DnsRefused, m1, Some r) end)).
  { eapply ends_bind; [apply write_ends; [done | apply be16_bytes] |]. intros m1 Hm1.
    eapply ends_bind; [apply write_ends; [done |] |]; [by apply (bool_decide_unpack _); vm_compute |].
    intros m2 Hm2. destruct outp; [by apply Hsend | by right]. }
  destruct outp as [outp |]; [| exact Hrefuse]. destruct found; [| exact Hrefuse].
  eapply ends_bind; [by apply answers_ends |]. intros [[i outp'] m1] Hm1. cbn in Hm1.
  eapply ends_bind; [by apply Hle |]. intros num' _. eapply ends_bind; [apply write_ends; [done | apply be16_bytes] |]. intros m2 Hm2.
  eapply ends_bind; [apply write_ends; [done | apply be16_bytes] |]. intros m3 Hm3. by apply Hsend.
Qed.

(** Whatever bytes arrive on the name server's socket, its loops end: it stops at
    an access outside the buffer or through NULL, or it returns, and then the buffer
    it shares with the DHCP server has its size and holds bytes, the leases are
    as they were, and a response is made of bytes. *)
Theorem name_server_keeps_leases k s d dg : dhcp_ok k s -> bytes dg ->
  match dns_process_packet s d dg with
  | Ret (s', r) => dhcp_ok k s' /\ leases s' = leases s /\ my_ip s' = my_ip s /\ response_ok r
  | Fault f => f = OutOfBounds \/ f = NullPointer
  end.
Proof.
  intros Hs Hdg. assert (H : ends (fun r => dhcp_ok k r.1 /\ leases r.1 = leases s /\ my_ip r.1 = my_ip s /\ response_ok r.2)
    (dns_process_packet s d dg)); [| by destruct (dns_process_packet s d dg) as [[s' r] |]].
  unfold dns_process_packet. destruct (dns_enabled s); cbn [negb]; [| done].
  assert (Hm : buffer_ok (msg s)) by (destruct Hs; done).
  eapply ends_bind; [apply write_ends; [exact Hm | by apply Forall_take] |]. intros m [Hl Hb].
  assert (Hset : dhcp_ok k (set_msg m s)) by (by apply dhcp_ok_msg).
  destruct (0 <? _); [| done]. eapply ends_bind; [by apply message_ends |]. intros [[st m1] r] [[Hl1 Hb1] Hr]. cbn in Hl1, Hb1, Hr.
  split; [by apply dhcp_ok_msg | done].
Qed.

(** A query to an enabled server of an access point with leases. *)
Definition ex_dns : dns_server_data := MkDnss 2 (Some (stored <$> (c_labels <$> ex_names))).
Definition ex_datagram : list Z := header ex_header 1 ++ encode_question (ask [[97; 112]]).

Lemma name_server_keeps_leases_witness :
  match dns_process_packet ex_dhcps ex_dns ex_datagram with
  | Ret (s', r) => dhcp_ok 8 s' /\ leases s' = leases ex_dhcps /\ length (default [] r) = 36%nat /\ response_ok r
  | Fault _ => False
  end.
Proof.
  assert (Hl : match dns_process_packet ex_dhcps ex_dns ex_datagram with
    | Ret (_, r) => length (default [] r) = 36%nat | Fault _ => False end) by (vm_compute; reflexivity).
  assert (Hb : bytes ex_datagram) by (apply (check_forall (fun b => (0 <=? b) && (b <? 256)));
    [intros x; unfold is_byte; rewrite andb_true_iff, Z.leb_le, Z.ltb_lt; tauto | vm_compute; reflexivity]).
  pose proof (name_server_keeps_leases 8 ex_dhcps ex_dns ex_datagram ex_dhcps_ok Hb) as Ht.
  destruct (dns_process_packet _ _ _) as [[s' r] | f]; [| destruct Hl]. destruct Ht as (H1 & H2 & _ & H3).
  split; [exact H1 |]. split; [exact H2 |]. split; [exact Hl | exact H3].
Defined.
