(* ===== verification/TxBa.v ===== *)
(** * Transmit block-ack sessions

    [wifidriver/mlan_glue.c], [wifi-uap.c], [mlan_11n.c]: when a packet asks the
    peer for a session, the answer of the peer, the end of a session, the peers
    that come and go, and the request to end sessions.  A session is set up
    when enough packets went to the peer.  The receive side of an interface is
    that of [RxReorder]; the command path of the driver is a log of the commands
    it is given, and its answers are arguments. *)
From S2P Require Import Prelude Aggr RxSink RxTable TxBaTable RxReorder.

(** ** Constants *)
Definition BLOCKACKPARAM_TID_POS : Z := 2.
Definition BLOCKACKPARAM_WINSIZE_POS : Z := 6.
Definition IMMEDIATE_BLOCK_ACK : Z := 0x2.
Definition DELBA_TID_POS : Z := 12.
Definition DELBA_INITIATOR_POS : Z := 11.
Definition DELBA_INITIATOR (paramset : Z) : Z := u16 (Z.lor paramset (Z.shiftl 1 11)).
Definition DELBA_RECIPIENT (paramset : Z) : Z := u16 (Z.ldiff paramset (Z.shiftl 1 11)).
Definition INITIATOR_BIT (paramset : Z) : Z := Z.shiftr (Z.land paramset (Z.shiftl 1 DELBA_INITIATOR_POS)) DELBA_INITIATOR_POS.
Definition DELBA_ALL_TIDS : Z := 0xff.
Definition DELBA_TX : Z := 1.
Definition DELBA_RX : Z := 2.
Definition TYPE_DELBA_SENT : Z := 1.
Definition BA_RESULT_SUCCESS : Z := 0.
Definition BA_RESULT_TIMEOUT : Z := 2.

(** [add_ba_param] of an interface. *)
Record add_ba_param_t := MkBaParam { tx_win_size : Z (* u32 *); timeout : Z (* u32 *); tx_amsdu : Z (* u8 *) }.

Inductive ba_command :=
  | CmdAddba (bss : Z) (c : host_cmd HostCmd_DS_11N_ADDBA_REQ)
  | CmdDelba (bss : Z) (c : host_cmd HostCmd_DS_11N_DELBA).

Section ops.
Context {W : Type} `{RxSink W}.
Variable in_reset : bool.
(** The configuration of the interfaces: station (0) and access point (1). *)
Variable add_ba_param : Z -> add_ba_param_t.
(** [is_11n_enabled] of the access point. *)
Variable is_11n_enabled : bool.

Record ba_state := MkBaState {
  bs_sta : mlan_private;
  bs_uap : mlan_private;
  lock_sta : bool;               (* tx_ba_stream_tbl_lock of each interface *)
  lock_uap : bool;
  dialog_tok : Z;                (* t_u8, of wlan_send_addba *)
  sent_cmds : list ba_command;
  bs_w : W
}.
Definition priv_of (bss : Z) (s : ba_state) : mlan_private := if bss =? 0 then bs_sta s else bs_uap s.
Definition set_priv (bss : Z) (p : mlan_private) (s : ba_state) : ba_state :=
  if bss =? 0 then MkBaState p (bs_uap s) (lock_sta s) (lock_uap s) (dialog_tok s) (sent_cmds s) (bs_w s)
  else MkBaState (bs_sta s) p (lock_sta s) (lock_uap s) (dialog_tok s) (sent_cmds s) (bs_w s).
Definition lock_of (bss : Z) (s : ba_state) : bool := if bss =? 0 then lock_sta s else lock_uap s.
Definition set_lock (bss : Z) (b : bool) (s : ba_state) : ba_state :=
  if bss =? 0 then MkBaState (bs_sta s) (bs_uap s) b (lock_uap s) (dialog_tok s) (sent_cmds s) (bs_w s)
  else MkBaState (bs_sta s) (bs_uap s) (lock_sta s) b (dialog_tok s) (sent_cmds s) (bs_w s).
Definition set_world (w : W) (s : ba_state) : ba_state :=
  MkBaState (bs_sta s) (bs_uap s) (lock_sta s) (lock_uap s) (dialog_tok s) (sent_cmds s) w.
Definition peers (bss : Z) (s : ba_state) : list TxBAStreamTbl := tx_ba_stream_tbl_ptr (priv_of bss s).
Definition set_peers (bss : Z) (l : list TxBAStreamTbl) (s : ba_state) : ba_state := set_priv bss (with_txba l (priv_of bss s)) s.

(** A mutex of FreeRTOS that is not recursive: taken twice by one thread, or
    never given back, the taker waits forever. *)
Definition wlan_request_ralist_lock (bss : Z) (s : ba_state) : outcome ba_state :=
  if lock_of bss s then Fault Hang else Ret (set_lock bss true s).
Definition wlan_release_ralist_lock (bss : Z) (s : ba_state) : ba_state := set_lock bss false s.

(** ** Commands *)

(** [ssn], [junk]: the bytes of the stack the request is made in; the code sets
    neither field. *)
Definition addba_param_set (tid win : Z) : Z :=
  u16 (Z.lor (Z.lor (Z.shiftl tid BLOCKACKPARAM_TID_POS) (u32 (Z.shiftl win BLOCKACKPARAM_WINSIZE_POS))) IMMEDIATE_BLOCK_ACK).
Definition wlan_send_addba (bss tid : Z) (peer_mac : list Z) (ssn junk : Z) (s : ba_state) : ba_state :=
  let tok := u8 (dialog_tok s + 1) in
  let tok := if tok =? 0 then 1 else tok in
  let req := MkAddbaReq junk peer_mac tok (addba_param_set tid (tx_win_size (add_ba_param bss))) (u16 (timeout (add_ba_param bss))) ssn in
  MkBaState (bs_sta s) (bs_uap s) (lock_sta s) (lock_uap s) tok (sent_cmds s ++ [CmdAddba bss (wlan_cmd_11n_addba_req req)]) (bs_w s).

(** The request the user waits for is passed with the last command only; that
    is left out, as the commands do not depend on it. *)
Definition wlan_send_delba (bss tid : Z) (peer_mac : list Z) (initiator : bool) (ret : mlan_status) (s : ba_state) : mlan_status * ba_state :=
  let set := u16 (Z.shiftl tid DELBA_TID_POS) in
  let set := if initiator then DELBA_INITIATOR set else DELBA_RECIPIENT set in
  (if decide (ret = MLAN_STATUS_SUCCESS) then MLAN_STATUS_PENDING else ret,
   MkBaState (bs_sta s) (bs_uap s) (lock_sta s) (lock_uap s) (dialog_tok s)
     (sent_cmds s ++ [CmdDelba bss (wlan_cmd_11n_delba (MkDelba 0 peer_mac set 0 0))]) (bs_w s)).

(** ** A packet to the peer went out *)
Definition wants_session (tid : Z) (x : TxBAStreamTbl) : outcome bool :=
  stat ← arr_get (ampdu_stat x) tid;
  if negb (stat =? 0) then Ret false
  else
    supp ← arr_get (ampdu_supported x) tid;
    Ret (negb (supp =? 0) && (txba_thresh x <=? txpkt_cnt x)).

(** The end of both functions: the entry is there and its packet counted. *)
Definition ask_session (bss tid : Z) (ra : list Z) (ssn junk ret : Z) (s : ba_state) : outcome (mlan_status * ba_state) :=
  match wlan_11n_get_txbastream_tbl (peers bss s) ra with
  | None => Ret (MLAN_STATUS_SUCCESS, wlan_release_ralist_lock bss s)
  | Some i =>
      x ← arr_get (peers bss s) (Z.of_nat i);
      ask ← wants_session tid x;
      if ask : bool then
        let s := set_peers bss (<[i := with_txba_status BA_STREAM_SETUP_INPROGRESS x]> (peers bss s)) s in
        let s := wlan_send_addba bss tid ra ssn junk (wlan_release_ralist_lock bss s) in
        Ret (if ret =? 0 then MLAN_STATUS_SUCCESS else MLAN_STATUS_FAILURE, s)
      else Ret (MLAN_STATUS_SUCCESS, wlan_release_ralist_lock bss s)
  end.

Definition wrapper_wlan_uap_ampdu_enable (addr : list Z) (tid ssn junk ret : Z) (s : ba_state) : outcome (mlan_status * ba_state) :=
  if negb is_11n_enabled then Ret (MLAN_STATUS_SUCCESS, s)
  else
    s ← wlan_request_ralist_lock 1 s;
    l ← wlan_11n_update_txbastream_tbl_tx_cnt (peers 1 s) addr;
    ask_session 1 tid addr ssn junk ret (set_peers 1 l s).

(** [link]: the access point the station is connected to, and whether it has HT
    capabilities. *)
Definition wrapper_wlan_sta_ampdu_enable (link : option (list Z * bool)) (got : bool) (rand tid ssn junk ret : Z) (s : ba_state) :
  outcome (mlan_status * ba_state) :=
  s ← wlan_request_ralist_lock 0 s;
  match link with
  | None => Ret (MLAN_STATUS_FAILURE, wlan_release_ralist_lock 0 s)
  | Some (cur_mac, pht_cap) =>
      let count (s : ba_state) :=
        l ← wlan_11n_update_txbastream_tbl_tx_cnt (peers 0 s) cur_mac;
        ask_session 0 tid cur_mac ssn junk ret (set_peers 0 l s) in
      match wlan_11n_get_txbastream_tbl (peers 0 s) cur_mac with
      | Some _ => count s
      | None =>
          l ← wlan_11n_create_txbastream_tbl got rand (peers 0 s) cur_mac BA_STREAM_NOT_SETUP;
          l ← wlan_11n_update_txbastream_tbl_tx_thresh l cur_mac 1;
          if pht_cap : bool then
            l ← wlan_11n_update_txbastream_tbl_ampdu_supported l cur_mac 1;
            count (set_peers 0 l s)
          else Ret (MLAN_STATUS_SUCCESS, wlan_release_ralist_lock 0 (set_peers 0 l s))
      end
  end.

(** ** The answer to a request *)
Definition do_wlan_ret_11n_addba_req (bss : Z) (resp : HostCmd_DS_11N_ADDBA_RSP) (s : ba_state) : outcome (mlan_status * ba_state) :=
  let set := rsp_param_set resp in
  let tid_ := params_tid set in
  if status_code resp =? BA_RESULT_SUCCESS then
    s ← wlan_request_ralist_lock bss s;
    l ← update_entry (fun x =>
           x ← set_ampdu_stat 1 tid_ x;
           Ret (with_txba_amsdu (if negb (Z.land set BLOCKACKPARAM_AMSDU_SUPP_MASK =? 0) && negb (tx_amsdu (add_ba_param bss) =? 0) then 1 else 0)
                  (with_txba_status BA_STREAM_SETUP_COMPLETE x))) (peers bss s) (rsp_peer resp);
    Ret (MLAN_STATUS_SUCCESS, wlan_release_ralist_lock bss (set_peers bss l s))
  else if negb (add_rsp_result resp =? BA_RESULT_TIMEOUT) then
    s ← wlan_request_ralist_lock bss s;
    l ← update_entry (fun x =>
           x ← set_ampdu_stat 0 tid_ x;
           sup ← arr_set (ampdu_supported x) tid_ 0;
           Ret (with_ampdu_supported sup x)) (peers bss s) (rsp_peer resp);
    Ret (MLAN_STATUS_SUCCESS, wlan_release_ralist_lock bss (set_peers bss l s))
  else Ret (MLAN_STATUS_SUCCESS, s).

(** ** The end of a session *)

(** [mlan_11n_update_bastream_tbl] with its lock, which the receive side does not
    take. *)
Definition update_bastream_locked (bss tid_ : Z) (peer_mac : list Z) (type initiator : Z) (s : ba_state) : outcome ba_state :=
  let cleanup := if type =? TYPE_DELBA_RECEIVE then negb (initiator =? 0) else initiator =? 0 in
  let update (s : ba_state) :=
    '(p, w) ← mlan_11n_update_bastream_tbl in_reset (priv_of bss s) (bs_w s) tid_ peer_mac type initiator;
    Ret (set_world w (set_priv bss p s)) in
  if cleanup : bool then update s
  else s ← wlan_request_ralist_lock bss s; s ← update s; Ret (wlan_release_ralist_lock bss s).

(** The event that the peer ended a session. *)
Definition wlan_11n_delete_bastream (bss : Z) (d : HostCmd_DS_11N_DELBA) (s : ba_state) : outcome ba_state :=
  update_bastream_locked bss (Z.shiftr (del_ba_param_set d) DELBA_TID_POS) (del_peer d) TYPE_DELBA_RECEIVE (INITIATOR_BIT (del_ba_param_set d)) s.
(** The answer to the command that ends one. *)
Definition do_wlan_ret_11n_delba (bss : Z) (d : HostCmd_DS_11N_DELBA) (s : ba_state) : outcome (mlan_status * ba_state) :=
  if del_result d =? BA_RESULT_SUCCESS then
    s ← update_bastream_locked bss (Z.shiftr (del_ba_param_set d) DELBA_TID_POS) (del_peer d) TYPE_DELBA_SENT (INITIATOR_BIT (del_ba_param_set d)) s;
    Ret (MLAN_STATUS_SUCCESS, s)
  else Ret (MLAN_STATUS_SUCCESS, s).

(** ** Peers come and go *)
Definition wlan_11n_deleteall_txbastream_tbl (bss : Z) (s : ba_state) : outcome ba_state :=
  s ← wlan_request_ralist_lock bss s;
  l ← deleteall_loop (length (peers bss s)) (peers bss s);
  Ret (wlan_release_ralist_lock bss (set_peers bss l s)).

(** The receive sessions and the entry of a client that joins the access point
    ([wifi_uap_client_assoc]); its queues are in [Wmm].  The event handler of
    [mlan_glue.c] does the same; without memory for the capabilities it goes on
    as if the client had none. *)
Definition client_assoc_ba (sta_addr : list Z) (sta_11n got : bool) (rand : Z) (s : ba_state) : outcome ba_state :=
  s ← wlan_request_ralist_lock 1 s;
  let s := set_peers 1 (wlan_11n_delete_txbastream_tbl_entry (peers 1 s) sta_addr) s in
  '(p, w) ← wlan_cleanup_reorder_tbl in_reset (priv_of 1 s) (bs_w s) sta_addr;
  let s := set_world w (set_priv 1 p s) in
  l ← wlan_11n_create_txbastream_tbl got rand (peers 1 s) sta_addr BA_STREAM_NOT_SETUP;
  l ← wlan_11n_update_txbastream_tbl_tx_thresh l sta_addr 3;
  l ← (if sta_11n : bool then wlan_11n_update_txbastream_tbl_ampdu_supported l sta_addr 1 else Ret l);
  Ret (wlan_release_ralist_lock 1 (set_peers 1 l s)).

(** [wifi_uap_client_deauth], its queues left out. *)
Definition client_deauth_ba (sta_addr : list Z) (s : ba_state) : outcome ba_state :=
  if negb is_11n_enabled then Ret s
  else
    '(p, w) ← wlan_cleanup_reorder_tbl in_reset (priv_of 1 s) (bs_w s) sta_addr;
    let s := set_world w (set_priv 1 p s) in
    s ← wlan_request_ralist_lock 1 s;
    Ret (wlan_release_ralist_lock 1 (set_peers 1 (wlan_11n_delete_txbastream_tbl_entry (peers 1 s) sta_addr) s)).

(** The sessions of the station end when it joins another access point while
    connected ([wlan_ret_802_11_associate]) and when an interface is cleaned
    ([wlan_clean_txrx]). *)
Definition clean_sessions (bss : Z) (s : ba_state) : outcome ba_state :=
  '(p, w) ← wlan_11n_cleanup_reorder_tbl in_reset (priv_of bss s) (bs_w s);
  wlan_11n_deleteall_txbastream_tbl bss (set_world w (set_priv bss p s)).

(** ** The request to end sessions *)
Definition zero_mac : list Z := replicate 6 0.

(** The TIDs a request names, of those set up. *)
Fixpoint delba_tids (bss : Z) (ts : list Z) (x : TxBAStreamTbl) (reply : mlan_status) (ret : mlan_status) (s : ba_state) :
  outcome (mlan_status * ba_state) :=
  match ts with
  | [] => Ret (ret, s)
  | t :: ts =>
      stat ← arr_get (ampdu_stat x) t;
      if negb (stat =? 0) then
        let '(ret, s) := wlan_send_delba bss t (txba_ra x) true reply s in delba_tids bss ts x reply ret s
      else delba_tids bss ts x reply ret s
  end.
Definition requested_tids (tid : Z) : list Z := if tid =? DELBA_ALL_TIDS then [0; 1; 2; 3; 4; 5; 6; 7] else [tid].

(** The walk over the list; [true] when it returns from within, with the lock. *)
Fixpoint delba_walk (all l : list TxBAStreamTbl) (bss tid : Z) (peer_address : list Z) (reply ret : mlan_status) (s : ba_state) :
  outcome (mlan_status * bool * ba_state) :=
  match l with
  | [] => Ret (ret, false, s)
  | x :: l =>
      if decide (txba_status x = BA_STREAM_SETUP_COMPLETE) then
        if bool_decide (peer_address <> zero_mac) && bool_decide (peer_address = txba_ra x) then
          match wlan_11n_get_txbastream_tbl all peer_address with
          | None => Fault NullPointer
          | Some i =>
              x ← arr_get all (Z.of_nat i);
              '(ret, s) ← delba_tids bss (requested_tids tid) x reply ret s;
              Ret (ret, true, s)
          end
        else
          '(ret, s) ← delba_tids bss (requested_tids tid) x reply ret s;
          delba_walk all l bss tid peer_address reply ret s
      else delba_walk all l bss tid peer_address reply ret s
  end.
Definition wlan_send_delba_to_entry_in_txbastream_tbl (bss tid : Z) (peer_address : list Z) (reply : mlan_status) (s : ba_state) :
  outcome (mlan_status * ba_state) :=
  s ← wlan_request_ralist_lock bss s;
  match peers bss s with
  | [] => Ret (MLAN_STATUS_SUCCESS, wlan_release_ralist_lock bss s)
  | _ =>
      if bool_decide (peer_address <> zero_mac) && bool_decide (wlan_11n_get_txbastream_tbl (peers bss s) peer_address = None)
      then Ret (MLAN_STATUS_FAILURE, s)
      else
        '(ret, early, s) ← delba_walk (peers bss s) (peers bss s) bss tid peer_address reply MLAN_STATUS_SUCCESS s;
        Ret (ret, if early : bool then s else wlan_release_ralist_lock bss s)
  end.

Definition rx_matches (tid_ : Z) (peer_address : list Z) (t : RxReorderTbl) : bool :=
  bool_decide (RxTable.ba_status t = BA_STREAM_SETUP_COMPLETE) && ((tid_ =? DELBA_ALL_TIDS) || (tid_ =? tid t)) &&
  (bool_decide (peer_address = zero_mac) || bool_decide (peer_address = ta t)).
Fixpoint delba_rx_walk (l : list RxReorderTbl) (bss tid_ : Z) (peer_address : list Z) (reply ret : mlan_status) (s : ba_state) : mlan_status * ba_state :=
  match l with
  | [] => (ret, s)
  | t :: l =>
      if rx_matches tid_ peer_address t then
        let '(ret, s) := wlan_send_delba bss (tid t) (ta t) false reply s in delba_rx_walk l bss tid_ peer_address reply ret s
      else delba_rx_walk l bss tid_ peer_address reply ret s
  end.
Definition wlan_send_delba_to_entry_in_reorder_tbl (bss tid_ : Z) (peer_address : list Z) (reply : mlan_status) (s : ba_state) : mlan_status * ba_state :=
  delba_rx_walk (rx_reorder_tbl_ptr (priv_of bss s)) bss tid_ peer_address reply MLAN_STATUS_SUCCESS s.

(** The search for the last transmit session that is meant, which only chooses
    the command the user waits for: what is left of it is the access to the TID. *)
Fixpoint tx_search (l : list TxBAStreamTbl) (tid_ : Z) : outcome unit :=
  match l with
  | [] => Ret tt
  | x :: l =>
      if decide (txba_status x = BA_STREAM_SETUP_COMPLETE) then
        if tid_ =? DELBA_ALL_TIDS then tx_search l tid_ else _ ← arr_get (ampdu_stat x) tid_; tx_search l tid_
      else tx_search l tid_
  end.
Definition wlan_11n_ioctl_delba (bss direction tid_ : Z) (peer_address : list Z) (reply : mlan_status) (s : ba_state) : outcome (mlan_status * ba_state) :=
  let found_rx := negb (Z.land direction DELBA_RX =? 0) && existsb (rx_matches tid_ peer_address) (rx_reorder_tbl_ptr (priv_of bss s)) in
  let tx := negb (Z.land direction DELBA_TX =? 0) in
  s ← (if negb found_rx && tx then
         s ← wlan_request_ralist_lock bss s; _ ← tx_search (peers bss s) tid_; Ret (wlan_release_ralist_lock bss s)
       else Ret s);
  '(ret, s) ← (if tx then wlan_send_delba_to_entry_in_txbastream_tbl bss tid_ peer_address reply s else Ret (MLAN_STATUS_SUCCESS, s));
  Ret (if found_rx then wlan_send_delba_to_entry_in_reorder_tbl bss tid_ peer_address reply s else (ret, s)).

(** ** Sequences of calls *)
Inductive ba_call :=
  | PacketToAp (link : option (list Z * bool)) (got : bool) (rand tid ssn junk ret : Z)
  | PacketToClient (addr : list Z) (tid ssn junk ret : Z)
  | RequestAnswered (bss : Z) (resp : HostCmd_DS_11N_ADDBA_RSP)
  | SessionEnded (bss : Z) (d : HostCmd_DS_11N_DELBA)
  | EndAnswered (bss : Z) (d : HostCmd_DS_11N_DELBA)
  | ClientJoins (addr : list Z) (sta_11n got : bool) (rand : Z)
  | ClientLeaves (addr : list Z)
  | InterfaceCleaned (bss : Z).

Definition ba_step (c : ba_call) (s : ba_state) : outcome ba_state :=
  match c with
  | PacketToAp link got rand tid ssn junk ret => '(_, s) ← wrapper_wlan_sta_ampdu_enable link got rand tid ssn junk ret s; Ret s
  | PacketToClient addr tid ssn junk ret => '(_, s) ← wrapper_wlan_uap_ampdu_enable addr tid ssn junk ret s; Ret s
  | RequestAnswered bss resp => '(_, s) ← do_wlan_ret_11n_addba_req bss resp s; Ret s
  | SessionEnded bss d => wlan_11n_delete_bastream bss d s
  | EndAnswered bss d => '(_, s) ← do_wlan_ret_11n_delba bss d s; Ret s
  | ClientJoins addr sta_11n got rand => client_assoc_ba addr sta_11n got rand s
  | ClientLeaves addr => client_deauth_ba addr s
  | InterfaceCleaned bss => clean_sessions bss s
  end.
Fixpoint ba_run (cs : list ba_call) (s : ba_state) : outcome ba_state :=
  match cs with
  | [] => Ret s
  | c :: cs => s ← ba_step c s; ba_run cs s
  end.
End ops.
Arguments ba_state : clear implicits.
