(* ===== verification/TxBaProps.v ===== *)
(** * Lemmas about the transmit block-ack sessions

    The invariant of the two interfaces, the automaton of one session, and that
    every call moves every session by its automaton. *)
From S2P Require Import Prelude Aggr RxSink RxTable TxBaTable RxReorder TxBa.

(** ** Entries *)
Definition entry_ok (x : TxBAStreamTbl) : Prop := length (ampdu_stat x) = 8%nat /\ length (ampdu_supported x) = 8%nat.
Definition peers_ok (l : list TxBAStreamTbl) : Prop :=
  NoDup (addresses l) /\ forall r x, entry_of l r = Some x -> entry_ok x.

Definition applied (f : TxBAStreamTbl -> outcome TxBAStreamTbl) (x : TxBAStreamTbl) : option TxBAStreamTbl :=
  match f x with Ret y => Some y | Fault _ => None end.
(** A change of an entry that keeps its address and sizes. *)
Definition safe_change (f : TxBAStreamTbl -> outcome TxBAStreamTbl) : Prop :=
  forall x, entry_ok x -> exists y, f x = Ret y /\ txba_ra y = txba_ra x /\ entry_ok y.

Lemma update_ok f l ra : peers_ok l -> safe_change f ->
  exists l', update_entry f l ra = Ret l' /\ peers_ok l' /\
    forall r, entry_of l' r = if bool_decide (ra = r) then entry_of l r ≫= applied f else entry_of l r.
Proof.
  intros [Hnd Hok] Hf. pose proof (update_entry_spec f l ra Hnd) as H. destruct (entry_of l ra) as [x |] eqn:Ex.
  - destruct (Hf x (Hok _ _ Ex)) as (y & Hy & Hra & Hyok). apply entry_of_Some in Ex as Hx. destruct Hx as [_ Hx].
    destruct (H y Hy) as (l' & E & Ha & Hl'); [congruence |]. exists l'. split; [done |]. split.
    + split; [by rewrite Ha |]. intros r z. rewrite Hl'. case_bool_decide; [intros [= <-]; done | apply Hok].
    + intros r. rewrite Hl'. case_bool_decide as Hr; [subst r | done]. rewrite Ex. simpl. unfold applied. by rewrite Hy.
  - exists l. split; [done |]. split; [done |]. intros r. case_bool_decide as Hr; [subst r; by rewrite Ex | done].
Qed.

Lemma pure_change_safe (g : TxBAStreamTbl -> TxBAStreamTbl) :
  (forall x, entry_ok x -> txba_ra (g x) = txba_ra x /\ entry_ok (g x)) -> safe_change (fun x => Ret (g x)).
Proof. intros Hg x Hx. exists (g x). split; [done | by apply Hg]. Qed.

Lemma create_ok rand l ra s : peers_ok l ->
  exists l', wlan_11n_create_txbastream_tbl true rand l ra s = Ret l' /\ peers_ok l' /\
    forall r, entry_of l' r =
      match entry_of l r with
      | Some x => Some x
      | None => if bool_decide (ra = r) then Some (MkTxBA ra (replicate 8 0) s 0 0 (u32 rand) (replicate 8 0)) else None
      end.
Proof.
  intros [Hnd Hok]. destruct (create_entry_map rand l ra s Hnd) as (l' & E & Hnd' & Hl'). exists l'. split; [done |]. split; [| done].
  split; [done |]. intros r x. rewrite Hl'. destruct (entry_of l r) eqn:Er; [intros [= <-]; by eapply Hok |].
  case_bool_decide; [intros [= <-]; done | done].
Qed.

Lemma delete_ok l ra : peers_ok l ->
  peers_ok (wlan_11n_delete_txbastream_tbl_entry l ra) /\
  forall r, entry_of (wlan_11n_delete_txbastream_tbl_entry l ra) r = if bool_decide (ra = r) then None else entry_of l r.
Proof.
  intros [Hnd Hok]. destruct (delete_entry_map l ra Hnd) as (Hnd' & Hl' & _). split; [| done]. split; [done |].
  intros r x. rewrite Hl'. case_bool_decide; [done | apply Hok].
Qed.

Lemma peers_ok_nil : peers_ok [].
Proof. split; [apply NoDup_nil_2 | done]. Qed.

Lemma set_stat_safe v t : 0 <= t < 8 -> safe_change (set_ampdu_stat v t).
Proof.
  intros Ht x [H1 H2]. unfold set_ampdu_stat. rewrite arr_set_ret, bind_ret by (rewrite H1; lia). eexists. split; [done |].
  split; [done |]. split; [| done]. cbn. by rewrite length_insert.
Qed.

Lemma safe_change_then f g : safe_change f -> safe_change g -> safe_change (fun x => y ← f x; g y).
Proof.
  intros Hf Hg x Hx. destruct (Hf x Hx) as (y & -> & Ey & Hy). rewrite bind_ret. destruct (Hg y Hy) as (z & -> & Ez & Hz).
  exists z. split; [done |]. split; [congruence | done].
Qed.

(** ** The automaton of one session *)
Record stream := MkStream {
  st_supp : bool;      (* the peer may be asked *)
  st_est : bool;       (* the session is set up *)
  st_cnt : Z;          (* packets to the peer, whatever their TID *)
  st_thresh : Z
}.
Definition flag_at (l : list Z) (t : Z) : bool := negb (default 0 (l !! Z.to_nat t) =? 0).
Definition stream_of (t : Z) (x : TxBAStreamTbl) : stream :=
  MkStream (flag_at (ampdu_supported x) t) (flag_at (ampdu_stat x) t) (txpkt_cnt x) (txba_thresh x).

(** A packet of TID [t']: the peer is asked for the session of its TID if it may
    be and is not set up, once enough packets went there. *)
Definition count_packet (t t' : Z) (x : stream) : stream * nat :=
  let c := u32 (st_cnt x + 1) in
  (MkStream (st_supp x) (st_est x) c (st_thresh x),
   if (t =? t') && st_supp x && negb (st_est x) && (st_thresh x <=? c) then 1%nat else 0%nat).

(** What a call does to the session of [ra] and [t] on [bss], and how many
    requests it sends for it. *)
Definition stream_step (ap_11n : bool) (bss : Z) (ra : list Z) (t : Z) (c : ba_call) (a : option stream) : option stream * nat :=
  match c with
  | PacketToAp (Some (cur_mac, pht_cap)) _ _ tid _ _ _ =>
      if (bss =? 0) && bool_decide (cur_mac = ra) then
        match a with
        | Some x => let '(x, n) := count_packet t tid x in (Some x, n)
        | None => if pht_cap then let '(x, n) := count_packet t tid (MkStream true false 0 1) in (Some x, n)
                  else (Some (MkStream false false 0 1), 0%nat)
        end
      else (a, 0%nat)
  | PacketToAp None _ _ _ _ _ _ => (a, 0%nat)
  | PacketToClient addr tid _ _ _ =>
      if ap_11n && (bss =? 1) && bool_decide (addr = ra) then
        match a with Some x => let '(x, n) := count_packet t tid x in (Some x, n) | None => (None, 0%nat) end
      else (a, 0%nat)
  | RequestAnswered b resp =>
      if (b =? bss) && bool_decide (rsp_peer resp = ra) && (params_tid (rsp_param_set resp) =? t) then
        ((fun x => if status_code resp =? 0 then MkStream (st_supp x) true (st_cnt x) (st_thresh x)
                   else if add_rsp_result resp =? BA_RESULT_TIMEOUT then x
                   else MkStream false false (st_cnt x) (st_thresh x)) <$> a, 0%nat)
      else (a, 0%nat)
  | SessionEnded b d =>
      if (b =? bss) && bool_decide (del_peer d = ra) && (Z.shiftr (del_ba_param_set d) 12 =? t) && (INITIATOR_BIT (del_ba_param_set d) =? 0)
      then ((fun x => MkStream (st_supp x) false (st_cnt x) (st_thresh x)) <$> a, 0%nat) else (a, 0%nat)
  | EndAnswered b d =>
      if (b =? bss) && bool_decide (del_peer d = ra) && (Z.shiftr (del_ba_param_set d) 12 =? t) && (del_result d =? 0) &&
         negb (INITIATOR_BIT (del_ba_param_set d) =? 0)
      then ((fun x => MkStream (st_supp x) false (st_cnt x) (st_thresh x)) <$> a, 0%nat) else (a, 0%nat)
  | ClientJoins addr sta_11n _ _ =>
      if (bss =? 1) && bool_decide (addr = ra) then (Some (MkStream sta_11n false 0 3), 0%nat) else (a, 0%nat)
  | ClientLeaves addr => if ap_11n && (bss =? 1) && bool_decide (addr = ra) then (None, 0%nat) else (a, 0%nat)
  | InterfaceCleaned b => if b =? bss then (None, 0%nat) else (a, 0%nat)
  end.
Fixpoint stream_run (ap_11n : bool) (bss : Z) (ra : list Z) (t : Z) (cs : list ba_call) (a : option stream) : option stream * nat :=
  match cs with
  | [] => (a, 0%nat)
  | c :: cs =>
      let '(a, n) := stream_step ap_11n bss ra t c a in
      let '(a, m) := stream_run ap_11n bss ra t cs a in (a, (n + m)%nat)
  end.

(** The requests among the commands. *)
Definition is_request (bss : Z) (ra : list Z) (t : Z) (c : ba_command) : bool :=
  match c with
  | CmdAddba b c => (b =? bss) && bool_decide (req_peer (hc_body c) = ra) && (params_tid (req_param_set (hc_body c)) =? t)
  | CmdDelba _ _ => false
  end.
Definition requests (bss : Z) (ra : list Z) (t : Z) (cs : list ba_command) : nat := length (List.filter (is_request bss ra t) cs).

Lemma requests_snoc bss ra t cs c : requests bss ra t (cs ++ [c]) = (requests bss ra t cs + if is_request bss ra t c then 1 else 0)%nat.
Proof. unfold requests. rewrite List.filter_app, length_app. cbn [List.filter]. by destruct (is_request bss ra t c). Qed.

(** The TID of a request, whatever the window. *)
Lemma params_tid_request t win : 0 <= t < 8 -> params_tid (addba_param_set t win) = t.
Proof.
  intros Ht. unfold params_tid, addba_param_set, BLOCKACKPARAM_TID_POS, BLOCKACKPARAM_WINSIZE_POS, IMMEDIATE_BLOCK_ACK, BLOCKACKPARAM_TID_MASK, wrap.
  apply Z.bits_inj'. intros i Hi. rewrite Z.shiftr_spec, Z.land_spec by lia. destruct (Z.ltb_spec i 4) as [Hlt | Hge].
  - rewrite Z.mod_pow2_bits_low, !Z.lor_spec, Z.mod_pow2_bits_low, !Z.shiftl_spec by lia.
    rewrite (Z.testbit_neg_r win) by lia. replace (i + 2 - 2) with i by lia.
    assert (i = 0 \/ i = 1 \/ i = 2 \/ i = 3) as [-> | [-> | [-> | ->]]] by lia; change (Z.testbit 0x3C _) with true;
      change (Z.testbit 2 _) with false; by rewrite !orb_false_r, andb_true_r.
  - replace (Z.testbit 0x3C (i + 2)) with false by (symmetry; apply (Z.bits_above_log2 0x3C); [lia | change (Z.log2 0x3C) with 5; lia]).
    rewrite andb_false_r. symmetry. destruct (decide (t = 0)) as [-> |]; [apply Z.bits_0 |]. apply Z.bits_above_log2; [lia |].
    apply Z.log2_lt_pow2; [lia |]. assert (2 ^ 3 <= 2 ^ i) by (apply Z.pow_le_mono_r; lia). lia.
Qed.

Lemma flag_insert l t0 v t : length l = 8%nat -> 0 <= t0 < 8 -> 0 <= t < 8 ->
  flag_at (<[Z.to_nat t0 := v]> l) t = if t0 =? t then negb (v =? 0) else flag_at l t.
Proof.
  intros Hl H0 Ht. unfold flag_at. destruct (Z.eqb_spec t0 t) as [-> | Hne].
  - by rewrite list_lookup_insert_eq by lia.
  - by rewrite list_lookup_insert_ne by lia.
Qed.

Lemma flag_replicate v t : 0 <= t < 8 -> flag_at (replicate 8 v) t = negb (v =? 0).
Proof. intros Ht. unfold flag_at. by rewrite lookup_replicate_2 by lia. Qed.

Lemma stream_fresh t r st a th v : 0 <= t < 8 ->
  stream_of t (MkTxBA r (replicate 8 0) st a 0 th (replicate 8 v)) = MkStream (negb (v =? 0)) false 0 th.
Proof. intros Ht. unfold stream_of. cbn [ampdu_supported ampdu_stat txpkt_cnt txba_thresh]. by rewrite !flag_replicate. Qed.

(** ** The two interfaces *)
Definition is_bss (b : Z) : Prop := b = 0 \/ b = 1.
Definition other (b : Z) : Z := 1 - b.

Section state.
Context {W : Type} `{RxSinkLaws W}.
Variables (in_reset : bool) (add_ba_param : Z -> add_ba_param_t) (is_11n_enabled : bool).

Record ba_ok (s : ba_state W) : Prop := {
  bo_peers : forall b, is_bss b -> peers_ok (peers b s);
  bo_inv : forall b, is_bss b -> priv_inv (priv_of b s);
  bo_lock : forall b, is_bss b -> lock_of b s = false;
  bo_sink : sink_inv (bs_w s)
}.

(** The session of [ra] and [t] on [bss]. *)
Definition view (bss : Z) (ra : list Z) (t : Z) (s : ba_state W) : option stream := stream_of t <$> entry_of (peers bss s) ra.
Definition moved (c : ba_call) (s s' : ba_state W) : Prop :=
  forall bss ra t, is_bss bss -> 0 <= t < 8 ->
    exists n, stream_step is_11n_enabled bss ra t c (view bss ra t s) = (view bss ra t s', n) /\
      requests bss ra t (sent_cmds s') = (requests bss ra t (sent_cmds s) + n)%nat.

(** A call that leaves the other interface alone and its own in order. *)
Record frame (b : Z) (s s' : ba_state W) : Prop := {
  fr_priv : priv_of (other b) s' = priv_of (other b) s;
  fr_other : lock_of (other b) s' = lock_of (other b) s;
  fr_lock : lock_of b s' = false;
  fr_inv : priv_inv (priv_of b s');
  fr_peers : peers_ok (peers b s');
  fr_sink : sink_inv (bs_w s')
}.

Lemma frame_ok b s s' : is_bss b -> ba_ok s -> frame b s s' -> ba_ok s'.
Proof.
  intros Hb [Hp Hi Hl Hw] []. assert (Ho : is_bss (other b)) by (unfold is_bss, other in *; lia).
  assert (Hsplit : forall a, is_bss a -> a = b \/ a = other b) by (unfold is_bss, other in *; lia).
  split; [| | | done]; intros a Ha; destruct (Hsplit a Ha) as [-> | ->]; try done;
    unfold peers in *; rewrite ?fr_priv0, ?fr_other0; auto.
Qed.

(** A call about one peer. *)
Lemma moved_peer c b ra s s' cmds : is_bss b -> frame b s s' ->
  (forall r, ra <> r -> entry_of (peers b s') r = entry_of (peers b s) r) ->
  sent_cmds s' = sent_cmds s ++ cmds ->
  (forall t, 0 <= t < 8 -> stream_step is_11n_enabled b ra t c (view b ra t s) = (view b ra t s', requests b ra t cmds)) ->
  (forall bss r t a, bss <> b \/ ra <> r -> stream_step is_11n_enabled bss r t c a = (a, 0%nat) /\ requests bss r t cmds = 0%nat) ->
  moved c s s'.
Proof.
  intros Hb Hf Hr Hc Hstep Hother bss r t Hbss Ht.
  assert (Hreq : requests bss r t (sent_cmds s') = (requests bss r t (sent_cmds s) + requests bss r t cmds)%nat).
  { rewrite Hc. unfold requests. by rewrite List.filter_app, length_app. }
  destruct (decide (bss = b)) as [-> | Hne]; [destruct (decide (ra = r)) as [-> | Hra] |].
  - exists (requests b r t cmds). by rewrite Hstep.
  - destruct (Hother b r t (view b r t s)) as [E1 E2]; [by right |]. exists 0%nat. rewrite E1, Hreq, E2. split; [| lia].
    f_equal. unfold view. by rewrite Hr.
  - destruct (Hother bss r t (view bss r t s)) as [E1 E2]; [by left |]. exists 0%nat. rewrite E1, Hreq, E2. split; [| lia].
    f_equal. unfold view, peers. replace bss with (other b) by (unfold is_bss, other in *; lia). by rewrite (fr_priv _ _ _ Hf).
Qed.

(** ** The fields of a state *)
Lemma priv_set_priv b p (s : ba_state W) : is_bss b -> priv_of b (set_priv b p s) = p.
Proof. by intros [-> | ->]. Qed.
Lemma other_set_priv b p (s : ba_state W) : is_bss b ->
  priv_of (other b) (set_priv b p s) = priv_of (other b) s /\ lock_of (other b) (set_priv b p s) = lock_of (other b) s /\
  lock_of b (set_priv b p s) = lock_of b s /\ bs_w (set_priv b p s) = bs_w s /\ sent_cmds (set_priv b p s) = sent_cmds s.
Proof. by intros [-> | ->]. Qed.
Lemma set_lock_facts b v (s : ba_state W) : is_bss b ->
  (forall a, priv_of a (set_lock b v s) = priv_of a s) /\ lock_of b (set_lock b v s) = v /\
  lock_of (other b) (set_lock b v s) = lock_of (other b) s /\ bs_w (set_lock b v s) = bs_w s /\ sent_cmds (set_lock b v s) = sent_cmds s.
Proof. by intros [-> | ->]. Qed.
Lemma peers_set_peers b l (s : ba_state W) : is_bss b -> peers b (set_peers b l s) = l.
Proof. intros Hb. unfold peers, set_peers. by rewrite priv_set_priv. Qed.
Lemma with_txba_inv l p : priv_inv p -> priv_inv (with_txba l p).
Proof. intros []. by split. Qed.

(** The lock is free, and taken and given back around a change of the peers. *)
Lemma locked_change b l (s : ba_state W) : is_bss b -> ba_ok s -> peers_ok l ->
  frame b s (wlan_release_ralist_lock b (set_peers b l (set_lock b true s))) /\
  peers b (wlan_release_ralist_lock b (set_peers b l (set_lock b true s))) = l /\
  sent_cmds (wlan_release_ralist_lock b (set_peers b l (set_lock b true s))) = sent_cmds s.
Proof.
  intros Hb [Hp Hi Hl Hw] Hok. specialize (Hi b Hb).
  destruct Hb as [-> | ->]; (split; [split; [done | done | done | by apply with_txba_inv | exact Hok | done] | done]).
Qed.

Lemma request_free b (s : ba_state W) : is_bss b -> ba_ok s -> wlan_request_ralist_lock b s = Ret (set_lock b true s).
Proof. intros Hb Hs. unfold wlan_request_ralist_lock. by rewrite (bo_lock s Hs b Hb). Qed.

Lemma release_request b (s : ba_state W) : is_bss b -> ba_ok s -> wlan_release_ralist_lock b (set_lock b true s) = s.
Proof. intros Hb Hs. pose proof (bo_lock s Hs b Hb) as Hl. destruct s, Hb as [-> | ->]; cbn in Hl; by subst. Qed.

(** ** Packets *)
Definition asks (tid : Z) (o : option TxBAStreamTbl) : bool :=
  match o with
  | Some x => flag_at (ampdu_supported x) tid && negb (flag_at (ampdu_stat x) tid) && (txba_thresh x <=? txpkt_cnt x)
  | None => false
  end.

Lemma wants_spec tid x : entry_ok x -> 0 <= tid < 8 -> wants_session tid x = Ret (asks tid (Some x)).
Proof.
  intros [H1 H2] Ht. unfold wants_session, asks, flag_at.
  destruct (arr_get_total (ampdu_stat x) tid) as (a & -> & Ea); [lia |]. destruct (arr_get_total (ampdu_supported x) tid) as (b & -> & Eb); [lia |].
  rewrite bind_ret, Ea, Eb. change (default 0 (Some a)) with a. change (default 0 (Some b)) with b. destruct (negb (a =? 0)); cbn [negb]; [by rewrite andb_false_r | by rewrite bind_ret, andb_true_r].
Qed.

Lemma ask_spec b tid ra ssn junk ret s l : is_bss b -> ba_ok s -> peers_ok l -> 0 <= tid < 8 ->
  exists r s' cmds, ask_session add_ba_param b tid ra ssn junk ret (set_peers b l (set_lock b true s)) = Ret (r, s') /\
    frame b s s' /\ sent_cmds s' = sent_cmds s ++ cmds /\
    (forall r' t, stream_of t <$> entry_of (peers b s') r' = stream_of t <$> entry_of l r') /\
    (forall r', ra <> r' -> entry_of (peers b s') r' = entry_of l r') /\
    (forall bss r' t, requests bss r' t cmds =
       if (b =? bss) && bool_decide (ra = r') && (tid =? t) && asks tid (entry_of l ra) then 1%nat else 0%nat).
Proof.
  intros Hb Hs Hl Ht. unfold ask_session. rewrite peers_set_peers by done.
  destruct (locked_change b l s Hb Hs Hl) as (Hf & Hp & Hc).
  assert (Hquiet : asks tid (entry_of l ra) = false ->
    exists r s' cmds, Ret (MLAN_STATUS_SUCCESS, wlan_release_ralist_lock b (set_peers b l (set_lock b true s))) = Ret (r, s') /\
    frame b s s' /\ sent_cmds s' = sent_cmds s ++ cmds /\
    (forall r' t, stream_of t <$> entry_of (peers b s') r' = stream_of t <$> entry_of l r') /\
    (forall r', ra <> r' -> entry_of (peers b s') r' = entry_of l r') /\
    (forall bss r' t, requests bss r' t cmds =
       if (b =? bss) && bool_decide (ra = r') && (tid =? t) && asks tid (entry_of l ra) then 1%nat else 0%nat)).
  { intros Ha. eexists _, _, []. split; [done |]. split; [exact Hf |]. rewrite Hp, Hc, app_nil_r. split; [done |].
    split; [done |]. split; [done |]. intros. by rewrite Ha, andb_false_r. }
  set (f := fun x => Ret (with_txba_status BA_STREAM_SETUP_INPROGRESS x)).
  destruct (update_ok f l ra Hl) as (l' & E & Hl' & He).
  { apply pure_change_safe. intros x Hx. by split. }
  unfold update_entry in E. destruct (wlan_11n_get_txbastream_tbl l ra) as [i |] eqn:Ei.
  2: { apply Hquiet. by rewrite (proj2 (entry_of_None l ra) (get_tx_None _ _ Ei)). }
  destruct (get_tx_Some _ _ _ Ei) as (x & Hx & Hxra). rewrite (arr_get_lookup _ _ _ Hx) in E. rewrite (arr_get_lookup _ _ _ Hx), bind_ret. change (Ret (<[i := with_txba_status BA_STREAM_SETUP_INPROGRESS x]> l) = Ret l') in E. injection E as <-.
  assert (Eent : entry_of l ra = Some x) by (unfold entry_of; rewrite Ei; exact Hx).
  rewrite wants_spec, bind_ret by (done || by eapply (proj2 Hl)). rewrite <- Eent. destruct (asks tid (entry_of l ra)) eqn:Ea; [| by apply Hquiet].
  destruct (locked_change b _ s Hb Hs Hl') as (Hf' & Hp' & Hc').
  set (s1 := wlan_release_ralist_lock b (set_peers b (<[i:=with_txba_status BA_STREAM_SETUP_INPROGRESS x]> l) (set_lock b true s))) in *.
  replace (wlan_release_ralist_lock b (set_peers b (<[i:=with_txba_status BA_STREAM_SETUP_INPROGRESS x]> l) (set_peers b l (set_lock b true s))))
    with s1 by (by destruct Hb as [-> | ->]).
  eexists _, _, [_]. split; [done |]. split; [destruct Hf'; by destruct Hb as [-> | ->] |]. split; [cbn; by rewrite Hc' |].
  split; [| split].
  - intros r' t. change (peers b (wlan_send_addba add_ba_param b tid ra ssn junk s1)) with (peers b s1). rewrite Hp', He.
    case_bool_decide as Hr; [subst r' | done]. rewrite Eent. done.
  - intros r' Hr. change (peers b (wlan_send_addba add_ba_param b tid ra ssn junk s1)) with (peers b s1). rewrite Hp', He. by rewrite bool_decide_false.
  - intros bss r' t. unfold requests. cbn [List.filter is_request wlan_cmd_11n_addba_req hc_body req_peer req_param_set].
    rewrite params_tid_request by done. rewrite andb_true_r. by destruct ((b =? bss) && bool_decide (ra = r') && (tid =? t)).
Qed.

(** A packet is counted in the peers [l], and the session asked for if it is due. *)
Definition counted (t tid : Z) (a : option stream) : option stream * nat :=
  match a with Some x => let '(x, n) := count_packet t tid x in (Some x, n) | None => (None, 0%nat) end.

Lemma count_spec b tid ra ssn junk ret s l : is_bss b -> ba_ok s -> peers_ok l -> 0 <= tid < 8 ->
  exists r s' cmds,
    (l' ← wlan_11n_update_txbastream_tbl_tx_cnt l ra; ask_session add_ba_param b tid ra ssn junk ret (set_peers b l' (set_lock b true s))) = Ret (r, s') /\
    frame b s s' /\ sent_cmds s' = sent_cmds s ++ cmds /\
    (forall r', ra <> r' -> entry_of (peers b s') r' = entry_of l r') /\
    (forall t, counted t tid (stream_of t <$> entry_of l ra) = (view b ra t s', requests b ra t cmds)) /\
    (forall bss r' t, bss <> b \/ ra <> r' -> requests bss r' t cmds = 0%nat).
Proof.
  intros Hb Hs Hl Ht. unfold wlan_11n_update_txbastream_tbl_tx_cnt.
  destruct (update_ok (fun x => Ret (with_txpkt_cnt (u32 (txpkt_cnt x + 1)) x)) l ra Hl) as (l' & -> & Hl' & He).
  { apply pure_change_safe. intros x Hx. by split. }
  rewrite bind_ret. destruct (ask_spec b tid ra ssn junk ret s l' Hb Hs Hl' Ht) as (r & s' & cmds & E & Hf & Hc & Hv & Hr & Hq).
  exists r, s', cmds. split; [exact E |]. split; [done |]. split; [done |]. split; [| split].
  - intros r' Hne. rewrite Hr by done. rewrite He. by rewrite bool_decide_false.
  - intros t. unfold view. rewrite Hv, Hq, He, !bool_decide_true, Z.eqb_refl by done. cbn [andb].
    destruct (entry_of l ra) as [x |]; [| by rewrite andb_false_r]. cbn -[wrap]. unfold stream_of. cbn -[wrap].
    rewrite (Z.eqb_sym t tid). destruct (Z.eqb_spec tid t) as [-> |]; [| done]. done.
  - intros bss r' t Hne. rewrite Hq. destruct (Z.eqb_spec b bss) as [-> |]; [| done]. destruct Hne as [| Hne]; [done |].
    by rewrite bool_decide_false.
Qed.

Lemma step_client_packet addr tid ssn junk ret s : ba_ok s -> 0 <= tid < 8 ->
  exists r s', wrapper_wlan_uap_ampdu_enable add_ba_param is_11n_enabled addr tid ssn junk ret s = Ret (r, s') /\
    ba_ok s' /\ moved (PacketToClient addr tid ssn junk ret) s s'.
Proof.
  intros Hs Ht. unfold wrapper_wlan_uap_ampdu_enable. destruct is_11n_enabled eqn:E11; cbn [negb].
  2: { exists MLAN_STATUS_SUCCESS, s. split; [done |]. split; [done |]. intros bss ra t _ _. exists 0%nat. cbn [stream_step]. rewrite E11. by rewrite Nat.add_0_r. }
  assert (Hb : is_bss 1) by (by right). rewrite (request_free 1) by done. rewrite bind_ret.
  destruct (count_spec 1 tid addr ssn junk ret s (peers 1 s) Hb Hs (bo_peers s Hs 1 Hb) Ht) as (r & s' & cmds & E & Hf & Hc & Hr & Hv & Hq).
  exists r, s'. split; [exact E |]. split; [by eapply frame_ok |].
  apply (moved_peer _ 1 addr s s' cmds Hb Hf Hr Hc).
  - intros t Htt. cbn [stream_step]. rewrite E11, bool_decide_true by done. exact (Hv t).
  - intros bss r' t a Hne. split; [| by apply Hq]. cbn [stream_step]. rewrite E11. cbn [andb].
    destruct (Z.eqb_spec bss 1) as [-> |]; [| done]. destruct Hne as [| Hne]; [done |]. by rewrite bool_decide_false.
Qed.

Lemma step_ap_packet link rand tid ssn junk ret s : ba_ok s -> 0 <= tid < 8 ->
  exists r s', wrapper_wlan_sta_ampdu_enable add_ba_param link true rand tid ssn junk ret s = Ret (r, s') /\
    ba_ok s' /\ moved (PacketToAp link true rand tid ssn junk ret) s s'.
Proof.
  intros Hs Ht. unfold wrapper_wlan_sta_ampdu_enable. assert (Hb : is_bss 0) by (by left). rewrite (request_free 0) by done. rewrite bind_ret.
  destruct link as [[cur_mac ht] |].
  2: { rewrite release_request by done. exists MLAN_STATUS_FAILURE, s. split; [done |]. split; [done |].
       intros bss ra t _ _. exists 0%nat. by rewrite Nat.add_0_r. }
  assert (Hothers : forall bss r' t a, bss <> 0 \/ cur_mac <> r' ->
    stream_step is_11n_enabled bss r' t (PacketToAp (Some (cur_mac, ht)) true rand tid ssn junk ret) a = (a, 0%nat)).
  { intros bss r' t a Hne. cbn [stream_step]. destruct (Z.eqb_spec bss 0) as [-> |]; [| done]. destruct Hne as [| Hne]; [done |].
    by rewrite bool_decide_false. }
  pose proof (bo_peers s Hs 0 Hb) as Hl. change (peers 0 (set_lock 0 true s)) with (peers 0 s).
  assert (Hview : forall t, view 0 cur_mac t s = stream_of t <$> entry_of (peers 0 s) cur_mac) by done.
  destruct (wlan_11n_get_txbastream_tbl (peers 0 s) cur_mac) as [i |] eqn:Ei.
  - destruct (count_spec 0 tid cur_mac ssn junk ret s (peers 0 s) Hb Hs Hl Ht) as (r & s' & cmds & E & Hf & Hc & Hr & Hv & Hq).
    exists r, s'. split; [exact E |]. split; [by eapply frame_ok |]. apply (moved_peer _ 0 cur_mac s s' cmds Hb Hf Hr Hc).
    + intros t Htt. rewrite <- Hv, <- Hview. cbn [stream_step]. rewrite bool_decide_true by done. cbn [andb]. unfold counted.
      destruct (get_tx_Some _ _ _ Ei) as (x & Hx & _). rewrite Hview. unfold entry_of. rewrite Ei. cbn. by rewrite Hx.
    + intros. split; [by apply Hothers | by apply Hq].
  - pose proof (proj2 (entry_of_None _ _) (get_tx_None _ _ Ei)) as En.
    destruct (create_ok rand (peers 0 s) cur_mac BA_STREAM_NOT_SETUP Hl) as (l1 & -> & Hl1 & He1). rewrite bind_ret.
    destruct (update_ok (fun x => Ret (with_txba_thresh 1 x)) l1 cur_mac Hl1) as (l2 & E2 & Hl2 & He2);
      [by apply pure_change_safe |]. unfold wlan_11n_update_txbastream_tbl_tx_thresh. rewrite E2, bind_ret.
    assert (He2c : entry_of l2 cur_mac = Some (MkTxBA cur_mac (replicate 8 0) BA_STREAM_NOT_SETUP 0 0 1 (replicate 8 0)))
      by (rewrite He2, bool_decide_true, He1, En, bool_decide_true by done; done).
    assert (He2o : forall r', cur_mac <> r' -> entry_of l2 r' = entry_of (peers 0 s) r').
    { intros r' Hne. rewrite He2, bool_decide_false, He1, bool_decide_false by done. by destruct (entry_of (peers 0 s) r'). }
    destruct ht.
    + destruct (update_ok (fun x => Ret (with_ampdu_supported (replicate 8 1) x)) l2 cur_mac Hl2) as (l3 & E3 & Hl3 & He3);
        [apply pure_change_safe; by intros x [] |]. unfold wlan_11n_update_txbastream_tbl_ampdu_supported.
      change (Z.to_nat MAX_NUM_TID) with 8%nat. rewrite E3, bind_ret.
      destruct (count_spec 0 tid cur_mac ssn junk ret s l3 Hb Hs Hl3 Ht) as (r & s' & cmds & E & Hf & Hc & Hr & Hv & Hq).
      exists r, s'. split; [exact E |]. split; [by eapply frame_ok |]. apply (moved_peer _ 0 cur_mac s s' cmds Hb Hf).
      * intros r' Hne. rewrite Hr by done. rewrite He3, bool_decide_false by done. by apply He2o.
      * done.
      * intros t Htt. rewrite <- Hv. rewrite Hview, En. cbn [stream_step fmap option_fmap option_map]. rewrite !bool_decide_true by done. cbn [andb].
        rewrite He3, bool_decide_true, He2c by done. change (Some (MkTxBA cur_mac (replicate 8 0) BA_STREAM_NOT_SETUP 0 0 1 (replicate 8 0)) ≫= _) with
          (Some (MkTxBA cur_mac (replicate 8 0) BA_STREAM_NOT_SETUP 0 0 1 (replicate 8 1))).
        cbn [fmap option_fmap option_map]. by rewrite stream_fresh.
      * intros. split; [by apply Hothers | by apply Hq].
    + destruct (locked_change 0 l2 s Hb Hs Hl2) as (Hf & Hp & Hc). eexists _, _. split; [done |]. split; [by eapply frame_ok |].
      apply (moved_peer _ 0 cur_mac s _ [] Hb Hf).
      * intros r' Hne. rewrite Hp. by apply He2o.
      * by rewrite Hc, app_nil_r.
      * intros t Htt. rewrite Hview, En. unfold view. rewrite Hp, He2c. cbn [stream_step fmap option_fmap option_map]. rewrite !bool_decide_true by done.
        cbn [andb fmap option_fmap option_map]. by rewrite stream_fresh.
      * intros. split; [by apply Hothers | done].
Qed.

(** ** Answers and ends *)

(** A change [f] of one entry, which moves its sessions by [g]. *)
Lemma step_update c b ra f (g : Z -> stream -> stream) s : is_bss b -> ba_ok s -> safe_change f ->
  (forall x y t, entry_ok x -> f x = Ret y -> 0 <= t < 8 -> stream_of t y = g t (stream_of t x)) ->
  (forall t a, 0 <= t < 8 -> stream_step is_11n_enabled b ra t c a = (g t <$> a, 0%nat)) ->
  (forall bss r t a, bss <> b \/ ra <> r -> stream_step is_11n_enabled bss r t c a = (a, 0%nat)) ->
  exists l', update_entry f (peers b s) ra = Ret l' /\
    let s' := wlan_release_ralist_lock b (set_peers b l' (set_lock b true s)) in ba_ok s' /\ moved c s s'.
Proof.
  intros Hb Hs Hsafe Hg Hstep Hother. pose proof (bo_peers s Hs b Hb) as Hl. destruct (update_ok f (peers b s) ra Hl Hsafe) as (l' & E & Hl' & He).
  exists l'. split; [exact E |]. cbn zeta. destruct (locked_change b l' s Hb Hs Hl') as (Hf & Hp & Hc).
  split; [by eapply frame_ok |]. apply (moved_peer c b ra s _ [] Hb Hf).
  - intros r Hr. by rewrite Hp, He, bool_decide_false.
  - by rewrite Hc, app_nil_r.
  - intros t Ht. rewrite Hstep by done. f_equal. unfold view. rewrite Hp, He, bool_decide_true by done.
    destruct (entry_of (peers b s) ra) as [x |] eqn:Ex; [| done]. assert (Hx : entry_ok x) by (by eapply (proj2 Hl)).
    destruct (Hsafe x Hx) as (y & Hy & _ & _). cbn. unfold applied. rewrite Hy. cbn. f_equal. symmetry. by apply Hg.
  - intros. split; [by apply Hother | done].
Qed.

Lemma set_stat_stream v t0 x y t : entry_ok x -> 0 <= t0 < 8 -> set_ampdu_stat v t0 x = Ret y -> 0 <= t < 8 ->
  stream_of t y = MkStream (st_supp (stream_of t x)) (if t0 =? t then negb (v =? 0) else st_est (stream_of t x)) (txpkt_cnt x) (txba_thresh x).
Proof.
  intros [HL1 HL2] Ht0 Hy Ht. unfold set_ampdu_stat in Hy. rewrite arr_set_ret, bind_ret in Hy by (rewrite HL1; lia). injection Hy as <-.
  unfold stream_of. cbn. by rewrite flag_insert.
Qed.

Lemma step_answer b resp s : is_bss b -> ba_ok s -> 0 <= params_tid (rsp_param_set resp) < 8 ->
  exists r s', do_wlan_ret_11n_addba_req add_ba_param b resp s = Ret (r, s') /\ ba_ok s' /\ moved (RequestAnswered b resp) s s'.
Proof.
  intros Hb Hs Ht. unfold do_wlan_ret_11n_addba_req. set (t0 := params_tid (rsp_param_set resp)) in *.
  assert (Hother : forall bss r t a, bss <> b \/ rsp_peer resp <> r -> stream_step is_11n_enabled bss r t (RequestAnswered b resp) a = (a, 0%nat)).
  { intros bss r t a Hne. cbn [stream_step]. destruct (Z.eqb_spec b bss) as [-> |]; [| done]. destruct Hne as [| Hne]; [done |]. by rewrite bool_decide_false. }
  assert (Hsame : forall t a, stream_step is_11n_enabled b (rsp_peer resp) t (RequestAnswered b resp) a =
    ((fun x => if t0 =? t then if status_code resp =? 0 then MkStream (st_supp x) true (st_cnt x) (st_thresh x)
       else if add_rsp_result resp =? BA_RESULT_TIMEOUT then x else MkStream false false (st_cnt x) (st_thresh x) else x) <$> a, 0%nat)).
  { intros t a. cbn [stream_step]. rewrite Z.eqb_refl, bool_decide_true by done. fold t0. cbn [andb]. destruct (t0 =? t); [done | by destruct a]. }
  unfold BA_RESULT_SUCCESS. destruct (status_code resp =? 0) eqn:Est.
  - rewrite (request_free b) by done. rewrite bind_ret. change (peers b (set_lock b true s)) with (peers b (set_lock b true s)).
    replace (peers b (set_lock b true s)) with (peers b s) by (by destruct Hb as [-> | ->]).
    match goal with |- context [update_entry ?f _ _] => set (ff := f) end.
    destruct (step_update (RequestAnswered b resp) b (rsp_peer resp) ff
      (fun t x => if t0 =? t then MkStream (st_supp x) true (st_cnt x) (st_thresh x) else x) s Hb Hs) as (l' & E & Hok & Hm).
    + apply safe_change_then; [by apply set_stat_safe | by apply pure_change_safe].
    + intros x y t Hx Hy Htt. unfold ff in Hy. apply bind_inv in Hy as (z & Hz & Hy). injection Hy as <-.
      transitivity (stream_of t z); [done |]. rewrite (set_stat_stream 1 t0 x z t) by done. by destruct (t0 =? t).
    + intros t a _. exact (Hsame t a).
    + exact Hother.
    + rewrite E, bind_ret. eexists _, _. split; [done |]. done.
  - destruct (add_rsp_result resp =? BA_RESULT_TIMEOUT) eqn:Eto; cbn [negb].
    + eexists _, s. split; [done |]. split; [done |]. intros bss r t Hbss Htt. exists 0%nat. rewrite Nat.add_0_r. split; [| done].
      destruct (decide (bss = b)) as [-> |]; [| apply Hother; by left]. destruct (decide (rsp_peer resp = r)) as [<- |]; [| apply Hother; by right].
      rewrite Hsame. unfold view. destruct (entry_of (peers b s) (rsp_peer resp)); [| done]. cbn. by destruct (t0 =? t).
    + rewrite (request_free b) by done. rewrite bind_ret.
      replace (peers b (set_lock b true s)) with (peers b s) by (by destruct Hb as [-> | ->]).
      match goal with |- context [update_entry ?f _ _] => set (ff := f) end.
      destruct (step_update (RequestAnswered b resp) b (rsp_peer resp) ff
        (fun t x => if t0 =? t then MkStream false false (st_cnt x) (st_thresh x) else x) s Hb Hs) as (l' & E & Hok & Hm).
      * apply safe_change_then; [by apply set_stat_safe |]. intros x [H1 H2]. rewrite arr_set_ret, bind_ret by (rewrite H2; lia).
        eexists. split; [done |]. split; [done |]. split; [done |]. cbn. by rewrite length_insert.
      * intros x y t Hx Hy Htt. unfold ff in Hy. apply bind_inv in Hy as (z & Hz & Hy).
        assert (Hzok : length (ampdu_supported z) = 8%nat).
        { destruct (set_stat_safe 0 t0 Ht x Hx) as (z' & Hz' & _ & [_ Hl']). congruence. }
        rewrite arr_set_ret, bind_ret in Hy by (rewrite Hzok; lia). injection Hy as <-.
        pose proof (set_stat_stream 0 t0 x z t Hx Ht Hz Htt) as Hst. unfold stream_of in Hst |- *. cbn -[flag_at] in Hst |- *.
        rewrite flag_insert by done. injection Hst as -> -> -> ->. by destruct (t0 =? t).
      * intros t a _. exact (Hsame t a).
      * exact Hother.
      * rewrite E, bind_ret. eexists _, _. split; [done |]. done.
Qed.

(** ** The receive side *)

(** An interface after work on its receive sessions. *)
Definition rx_changed (b : Z) (s : ba_state W) (p : mlan_private) (w : W) : Prop :=
  priv_inv p /\ sink_inv w /\ tx_ba_stream_tbl_ptr p = peers b s.

Lemma rx_changed_ok b s p w : is_bss b -> ba_ok s -> rx_changed b s p w ->
  ba_ok (set_world w (set_priv b p s)) /\ (forall a, is_bss a -> peers a (set_world w (set_priv b p s)) = peers a s) /\
  sent_cmds (set_world w (set_priv b p s)) = sent_cmds s.
Proof.
  intros Hb [Hp Hi Hl Hw] (Hinv & Hsink & Htx).
  assert (Hpeers : forall a, is_bss a -> peers a (set_world w (set_priv b p s)) = peers a s).
  { intros a Ha. unfold peers in *. by destruct Hb as [-> | ->], Ha as [-> | ->]. }
  split; [| split; [done | by destruct Hb as [-> | ->]]]. split; [| | | by destruct Hb as [-> | ->]].
  - intros a Ha. rewrite Hpeers by done. auto.
  - intros a Ha. destruct Hb as [-> | ->], Ha as [-> | ->]; [exact Hinv | exact (Hi 1 (or_intror eq_refl)) | exact (Hi 0 (or_introl eq_refl)) | exact Hinv].
  - intros a Ha. destruct Hb as [-> | ->], Ha as [-> | ->]; by (apply (Hl 0); left) || (apply (Hl 1); right).
Qed.

Lemma delete_entry_rx p w i : priv_inv p -> sink_inv w -> (i < length (rx_reorder_tbl_ptr p))%nat ->
  exists p' w', wlan_11n_delete_rxreorder_tbl_entry in_reset p w i = Ret (p', w') /\ priv_inv p' /\ sink_inv w' /\
    tx_ba_stream_tbl_ptr p' = tx_ba_stream_tbl_ptr p.
Proof.
  intros Hp Hw Hi. destruct (delete_entry_spec in_reset p w i Hp Hw Hi) as (t & w' & _ & -> & Ht).
  eexists _, w'. split; [done |]. split; [by apply priv_inv_delete |]. split; [by eapply torn_down_inv | done].
Qed.

Lemma get_rx_bound p tid_ ta_ i : wlan_11n_get_rxreorder_tbl p tid_ ta_ = Some i -> (i < length (rx_reorder_tbl_ptr p))%nat.
Proof. intros Hi. apply get_rxreorder_tbl_Some in Hi as (t & Ht & _). by eapply lookup_lt_Some. Qed.

Lemma cleanup_peer_rx ta_ n : forall i p w, priv_inv p -> sink_inv w ->
  exists p' w', cleanup_peer_loop in_reset n i p w ta_ = Ret (p', w') /\ priv_inv p' /\ sink_inv w' /\
    tx_ba_stream_tbl_ptr p' = tx_ba_stream_tbl_ptr p.
Proof.
  induction n as [| n IH]; intros i p w Hp Hw; cbn [cleanup_peer_loop]; [by exists p, w |].
  destruct (wlan_11n_get_rxreorder_tbl p i ta_) as [k |] eqn:Ek.
  - destruct (delete_entry_rx p w k Hp Hw (get_rx_bound _ _ _ _ Ek)) as (p1 & w1 & -> & Hp1 & Hw1 & E1). rewrite bind_ret, <- E1. by apply IH.
  - rewrite bind_ret. by apply IH.
Qed.

Lemma cleanup_rx n : forall p w, priv_inv p -> sink_inv w -> length (rx_reorder_tbl_ptr p) = n ->
  exists p' w', cleanup_loop in_reset n p w = Ret (p', w') /\ priv_inv p' /\ sink_inv w' /\ tx_ba_stream_tbl_ptr p' = tx_ba_stream_tbl_ptr p.
Proof.
  induction n as [| n IH]; intros p w Hp Hw Hn; cbn [cleanup_loop]; destruct (rx_reorder_tbl_ptr p) as [| t l] eqn:El; try done; [by exists p, w |].
  destruct (delete_entry_rx p w 0 Hp Hw) as (p1 & w1 & E & Hp1 & Hw1 & E1); [rewrite El; simpl; lia |].
  destruct (delete_entry_spec in_reset p w 0 Hp Hw) as (t' & w' & _ & E' & _); [rewrite El; simpl; lia |].
  rewrite E, bind_ret, <- E1. apply IH; [done | done |]. rewrite E in E'. injection E' as -> ->. cbn. rewrite El. cbn in Hn |- *. lia.
Qed.

Lemma clean_interface_rx p w : priv_inv p -> sink_inv w ->
  exists p' w', wlan_11n_cleanup_reorder_tbl in_reset p w = Ret (p', w') /\ priv_inv p' /\ sink_inv w' /\ tx_ba_stream_tbl_ptr p' = tx_ba_stream_tbl_ptr p.
Proof.
  intros Hp Hw. unfold wlan_11n_cleanup_reorder_tbl. destruct (cleanup_rx _ p w Hp Hw eq_refl) as (p1 & w1 & -> & Hp1 & Hw1 & E1).
  rewrite bind_ret. eexists _, w1. split; [done |]. split; [| done]. destruct Hp1 as [? ? ? ? ?].
  split; cbn; [by apply list.Forall_nil | by apply NoDup_nil_2 | by rewrite length_replicate | | done]. apply Forall_replicate. by right.
Qed.

(** ** The end of a session *)
Lemma step_end c b tid_ peer type init s : is_bss b -> ba_ok s -> 0 <= tid_ < 8 ->
  let tx := if type =? TYPE_DELBA_RECEIVE then init =? 0 else negb (init =? 0) in
  (forall t a, 0 <= t < 8 -> stream_step is_11n_enabled b peer t c a =
     (if (tid_ =? t) && tx then (fun x => MkStream (st_supp x) false (st_cnt x) (st_thresh x)) <$> a else a, 0%nat)) ->
  (forall bss r t a, bss <> b \/ peer <> r -> stream_step is_11n_enabled bss r t c a = (a, 0%nat)) ->
  exists s', update_bastream_locked in_reset b tid_ peer type init s = Ret s' /\ ba_ok s' /\ moved c s s'.
Proof.
  intros Hb Hs Ht tx Hstep Hother. unfold update_bastream_locked, mlan_11n_update_bastream_tbl.
  replace (if type =? TYPE_DELBA_RECEIVE then negb (init =? 0) else init =? 0) with (negb tx) by (unfold tx; by destruct (type =? TYPE_DELBA_RECEIVE), (init =? 0)).
  destruct tx eqn:Etx; cbn [negb].
  - rewrite (request_free b) by done. rewrite bind_ret.
    destruct (step_update c b peer (set_ampdu_stat 0 tid_)
      (fun t x => if tid_ =? t then MkStream (st_supp x) false (st_cnt x) (st_thresh x) else x) s Hb Hs) as (l' & E & Hok & Hm).
    + by apply set_stat_safe.
    + intros x y t Hx Hy Htt. rewrite (set_stat_stream 0 tid_ x y t) by done. by destruct (tid_ =? t).
    + intros t a Htt. rewrite Hstep by done. rewrite andb_true_r. by destruct (tid_ =? t), a.
    + exact Hother.
    + exists (wlan_release_ralist_lock b (set_peers b l' (set_lock b true s))). split; [| done].
      destruct (set_lock_facts b true s Hb) as (Ep & _). rewrite Ep. change (tx_ba_stream_tbl_ptr (priv_of b s)) with (peers b s).
      assert (Hu : u8 tid_ = tid_) by (apply wrap_small; change (2 ^ 8) with 256; lia).
      destruct (wlan_11n_get_txbastream_tbl (peers b s) peer) as [i |] eqn:Ei.
      * unfold wlan_11n_update_txbastream_tbl_ampdu_stat. rewrite Hu. change (tx_ba_stream_tbl_ptr (priv_of b s)) with (peers b s). rewrite E.
        by destruct Hb as [-> | ->].
      * unfold update_entry in E. rewrite Ei in E. injection E as <-. rewrite !bind_ret. f_equal. unfold set_peers. rewrite Ep.
        unfold peers. destruct s as [[] [] ? ? ? ? ?], Hb as [-> | ->]; done.
  - assert (Hstay : forall s', (forall a, is_bss a -> peers a s' = peers a s) -> sent_cmds s' = sent_cmds s -> moved c s s').
    { intros s' Hp Hc bss r t Hbss Htt. exists 0%nat. rewrite Hc, Nat.add_0_r. split; [| done]. unfold view. rewrite Hp by done.
      destruct (decide (bss = b)) as [-> |]; [| apply Hother; by left]. destruct (decide (peer = r)) as [<- |]; [| apply Hother; by right].
      rewrite Hstep by done. by rewrite andb_false_r. }
    destruct (wlan_11n_get_rxreorder_tbl (priv_of b s) tid_ peer) as [i |] eqn:Ei.
    + destruct (delete_entry_rx (priv_of b s) (bs_w s) i (bo_inv s Hs b Hb) (bo_sink s Hs) (get_rx_bound _ _ _ _ Ei)) as (p' & w' & -> & Hp' & Hw' & E').
      rewrite bind_ret. destruct (rx_changed_ok b s p' w' Hb Hs) as (Hok & Hpe & Hc); [done |]. eexists. split; [done |]. split; [done |]. by apply Hstay.
    + rewrite bind_ret. destruct (rx_changed_ok b s (priv_of b s) (bs_w s) Hb Hs) as (Hok & Hpe & Hc); [split; [by apply bo_inv | split; [by apply bo_sink | done]] |].
      eexists. split; [done |]. split; [done |]. by apply Hstay.
Qed.

(** ** Peers come and go *)
Lemma other_client bss r t addr c : (forall a, stream_step is_11n_enabled bss r t c a =
    if (bss =? 1) && bool_decide (addr = r) then stream_step is_11n_enabled bss r t c a else (a, 0%nat)) ->
  forall a, bss <> 1 \/ addr <> r -> stream_step is_11n_enabled bss r t c a = (a, 0%nat).
Proof.
  intros Hc a Hne. rewrite Hc. destruct (Z.eqb_spec bss 1) as [-> |]; [| done]. destruct Hne as [| Hne]; [done |]. by rewrite bool_decide_false.
Qed.

Lemma step_join addr ht rand s : ba_ok s ->
  exists s', client_assoc_ba in_reset addr ht true rand s = Ret s' /\ ba_ok s' /\ moved (ClientJoins addr ht true rand) s s'.
Proof.
  intros Hs. assert (Hb : is_bss 1) by (by right). unfold client_assoc_ba. rewrite (request_free 1) by done. rewrite bind_ret.
  change (peers 1 (set_lock 1 true s)) with (peers 1 s). pose proof (bo_peers s Hs 1 Hb) as Hl.
  destruct (delete_ok (peers 1 s) addr Hl) as [Hl1 He1]. set (l1 := wlan_11n_delete_txbastream_tbl_entry (peers 1 s) addr) in *.
  destruct (cleanup_peer_rx addr (Z.to_nat MAX_NUM_TID) 0 (with_txba l1 (priv_of 1 s)) (bs_w s)
    (with_txba_inv l1 _ (bo_inv s Hs 1 Hb)) (bo_sink s Hs)) as (p & w & E & Hp & Hw & Htx).
  unfold wlan_cleanup_reorder_tbl. change (bs_w (set_peers 1 l1 (set_lock 1 true s))) with (bs_w s).
  change (priv_of 1 (set_peers 1 l1 (set_lock 1 true s))) with (with_txba l1 (priv_of 1 s)). rewrite E, bind_ret.
  change (tx_ba_stream_tbl_ptr (with_txba l1 (priv_of 1 s))) with l1 in Htx.
  change (peers 1 (set_world w (set_priv 1 p (set_peers 1 l1 (set_lock 1 true s))))) with (tx_ba_stream_tbl_ptr p). rewrite Htx.
  destruct (create_ok rand l1 addr BA_STREAM_NOT_SETUP Hl1) as (l2 & -> & Hl2 & He2). rewrite bind_ret.
  unfold wlan_11n_update_txbastream_tbl_tx_thresh, wlan_11n_update_txbastream_tbl_ampdu_supported. change (Z.to_nat MAX_NUM_TID) with 8%nat.
  destruct (update_ok (fun x => Ret (with_txba_thresh 3 x)) l2 addr Hl2) as (l3 & -> & Hl3 & He3); [by apply pure_change_safe |]. rewrite bind_ret.
  assert (Hlast : exists l4, (if ht then update_entry (fun x => Ret (with_ampdu_supported (replicate 8 1) x)) l3 addr else Ret l3) = Ret l4 /\ peers_ok l4 /\
    (forall r, addr <> r -> entry_of l4 r = entry_of (peers 1 s) r) /\
    entry_of l4 addr = Some (MkTxBA addr (replicate 8 0) BA_STREAM_NOT_SETUP 0 0 3 (replicate 8 (if ht then 1 else 0)))).
  { assert (H3o : forall r, addr <> r -> entry_of l3 r = entry_of (peers 1 s) r).
    { intros r Hne. rewrite He3, bool_decide_false, He2, bool_decide_false, He1, bool_decide_false by done. by destruct (entry_of (peers 1 s) r). }
    assert (H3a : entry_of l3 addr = Some (MkTxBA addr (replicate 8 0) BA_STREAM_NOT_SETUP 0 0 3 (replicate 8 0)))
      by (rewrite He3, bool_decide_true, He2, He1, !bool_decide_true by done; done).
    destruct ht; [| by exists l3].
    destruct (update_ok (fun x => Ret (with_ampdu_supported (replicate 8 1) x)) l3 addr Hl3) as (l4 & -> & Hl4 & He4); [apply pure_change_safe; by intros x [] |].
    exists l4. split; [done |]. split; [done |]. split; [| by rewrite He4, bool_decide_true, H3a by done].
    intros r Hne. rewrite He4, bool_decide_false by done. by apply H3o. }
  destruct Hlast as (l4 & -> & Hl4 & Ho & Ha). rewrite bind_ret. eexists. split; [done |].
  set (s' := wlan_release_ralist_lock 1 _). assert (Hf : frame 1 s s').
  { split; [done | done | done | by apply with_txba_inv | exact Hl4 | exact Hw]. }
  split; [by eapply frame_ok |]. apply (moved_peer _ 1 addr s s' [] Hb Hf).
  - exact Ho.
  - by rewrite app_nil_r.
  - intros t Ht. unfold view. change (peers 1 s') with l4. rewrite Ha. cbn [stream_step fmap option_fmap option_map]. rewrite bool_decide_true, stream_fresh by done.
    by destruct ht.
  - intros bss r t a Hne. split; [| done]. apply (other_client bss r t addr); [| done]. intros a'. cbn [stream_step].
    by destruct ((bss =? 1) && bool_decide (addr = r)).
Qed.

Lemma step_leave addr s : ba_ok s ->
  exists s', client_deauth_ba in_reset is_11n_enabled addr s = Ret s' /\ ba_ok s' /\ moved (ClientLeaves addr) s s'.
Proof.
  intros Hs. assert (Hb : is_bss 1) by (by right). unfold client_deauth_ba. destruct is_11n_enabled eqn:E11; cbn [negb].
  2: { exists s. split; [done |]. split; [done |]. intros bss ra t _ _. exists 0%nat. cbn [stream_step]. rewrite E11. by rewrite Nat.add_0_r. }
  unfold wlan_cleanup_reorder_tbl.
  destruct (cleanup_peer_rx addr (Z.to_nat MAX_NUM_TID) 0 (priv_of 1 s) (bs_w s) (bo_inv s Hs 1 Hb) (bo_sink s Hs)) as (p & w & -> & Hp & Hw & Htx).
  rewrite bind_ret. destruct (rx_changed_ok 1 s p w Hb Hs) as (Hok & Hpe & Hc); [done |]. set (s1 := set_world w (set_priv 1 p s)) in *.
  rewrite (request_free 1 s1) by done. rewrite bind_ret. eexists. split; [done |].
  change (peers 1 (set_lock 1 true s1)) with (peers 1 s1). rewrite Hpe by done.
  destruct (delete_ok (peers 1 s) addr (bo_peers s Hs 1 Hb)) as [Hl1 He1].
  destruct (locked_change 1 _ s1 Hb Hok Hl1) as (Hf & Hp1 & Hc1).
  set (s' := wlan_release_ralist_lock 1 _) in *. assert (Hf' : frame 1 s s') by (destruct Hf; by split).
  split; [by eapply frame_ok |]. apply (moved_peer _ 1 addr s s' [] Hb Hf').
  - intros r Hr. rewrite Hp1, He1. by rewrite bool_decide_false.
  - by rewrite Hc1, app_nil_r.
  - intros t Ht. unfold view. rewrite Hp1, He1, bool_decide_true by done. cbn [stream_step]. rewrite E11, bool_decide_true by done. done.
  - intros bss r t a Hne. split; [| done]. apply (other_client bss r t addr); [| done]. intros a'. cbn [stream_step]. rewrite E11. cbn [andb].
    by destruct ((bss =? 1) && bool_decide (addr = r)).
Qed.

Lemma step_clean b s : is_bss b -> ba_ok s ->
  exists s', clean_sessions in_reset b s = Ret s' /\ ba_ok s' /\ moved (InterfaceCleaned b) s s'.
Proof.
  intros Hb Hs. unfold clean_sessions, wlan_11n_deleteall_txbastream_tbl.
  destruct (clean_interface_rx (priv_of b s) (bs_w s) (bo_inv s Hs b Hb) (bo_sink s Hs)) as (p & w & -> & Hp & Hw & Htx). rewrite bind_ret.
  destruct (rx_changed_ok b s p w Hb Hs) as (Hok & Hpe & Hc); [done |]. set (s1 := set_world w (set_priv b p s)) in *.
  rewrite (request_free b s1) by done. rewrite bind_ret, deleteall_empties, bind_ret. eexists. split; [done |].
  destruct (locked_change b [] s1 Hb Hok peers_ok_nil) as (Hf & Hp1 & Hc1). set (s' := wlan_release_ralist_lock b _) in *.
  split; [by eapply frame_ok |]. intros bss r t Hbss Ht. exists 0%nat. rewrite Hc1, Hc, Nat.add_0_r. split; [| done]. cbn [stream_step]. unfold view.
  destruct (Z.eqb_spec b bss) as [<- | Hne]; [by rewrite Hp1 |]. f_equal. f_equal. unfold peers.
  assert (bss = other b) as -> by (unfold is_bss, other in *; lia). rewrite (fr_priv _ _ _ Hf). by destruct Hb as [-> | ->].
Qed.

(** ** Sequences of calls *)

(** What a call may be given: an interface, a TID of the eight, and memory. *)
Definition call_ok (c : ba_call) : Prop :=
  match c with
  | PacketToAp _ got _ tid _ _ _ => got = true /\ 0 <= tid < 8
  | PacketToClient _ tid _ _ _ => 0 <= tid < 8
  | RequestAnswered bss resp => is_bss bss /\ 0 <= params_tid (rsp_param_set resp) < 8
  | SessionEnded bss d => is_bss bss /\ 0 <= Z.shiftr (del_ba_param_set d) 12 < 8
  | EndAnswered bss d => is_bss bss /\ 0 <= Z.shiftr (del_ba_param_set d) 12 < 8
  | ClientJoins _ _ got _ => got = true
  | ClientLeaves _ => True
  | InterfaceCleaned bss => is_bss bss
  end.

Lemma step_moves c s : ba_ok s -> call_ok c ->
  exists s', ba_step in_reset add_ba_param is_11n_enabled c s = Ret s' /\ ba_ok s' /\ moved c s s'.
Proof.
  intros Hs Hc. destruct c as [link got rand tid ssn junk ret | addr tid ssn junk ret | b resp | b d | b d | addr ht got rand | addr | b]; cbn [ba_step call_ok] in *.
  - destruct Hc as [-> Ht]. destruct (step_ap_packet link rand tid ssn junk ret s Hs Ht) as (r & s' & -> & H'). by exists s'.
  - destruct (step_client_packet addr tid ssn junk ret s Hs Hc) as (r & s' & -> & H'). by exists s'.
  - destruct Hc as [Hb Ht]. destruct (step_answer b resp s Hb Hs Ht) as (r & s' & -> & H'). by exists s'.
  - destruct Hc as [Hb Ht]. apply step_end; [done | done | done | |].
    + intros t a Htt. cbn [stream_step]. rewrite Z.eqb_refl, bool_decide_true by done. change (TYPE_DELBA_RECEIVE =? TYPE_DELBA_RECEIVE) with true. cbn [andb].
      by destruct (_ && _).
    + intros bss r t a Hne. cbn [stream_step]. destruct (Z.eqb_spec b bss) as [-> |]; [| done]. destruct Hne as [| Hne]; [done |]. by rewrite bool_decide_false.
  - destruct Hc as [Hb Ht]. unfold do_wlan_ret_11n_delba, BA_RESULT_SUCCESS.
    assert (Ho : forall bss r t a, bss <> b \/ del_peer d <> r -> stream_step is_11n_enabled bss r t (EndAnswered b d) a = (a, 0%nat)).
    { intros bss r t a Hne. cbn [stream_step]. destruct (Z.eqb_spec b bss) as [-> |]; [| done]. destruct Hne as [| Hne]; [done |]. by rewrite bool_decide_false. }
    destruct (del_result d =? 0) eqn:Ed.
    + destruct (step_end (EndAnswered b d) b (Z.shiftr (del_ba_param_set d) 12) (del_peer d) TYPE_DELBA_SENT (INITIATOR_BIT (del_ba_param_set d)) s Hb Hs Ht)
        as (s' & E & Hok & Hm).
      * intros t a Htt. cbn [stream_step]. rewrite Z.eqb_refl, bool_decide_true, Ed by done. change (TYPE_DELBA_SENT =? TYPE_DELBA_RECEIVE) with false. cbn [andb].
        rewrite andb_true_r. by destruct (_ && _).
      * exact Ho.
      * exists s'. unfold DELBA_TID_POS. rewrite E, !bind_ret. done.
    + exists s. split; [done |]. split; [done |]. intros bss r t Hbss Htt. exists 0%nat. rewrite Nat.add_0_r. split; [| done].
      cbn [stream_step]. rewrite Ed, andb_false_r. done.
  - subst got. by apply step_join.
  - by apply step_leave.
  - by apply step_clean.
Qed.
End state.
