(* ===== verification/TxBaTheorems.v ===== *)
(** * Theorems about the transmit block-ack sessions

    Every session follows its own automaton, whatever calls are made for which
    peers; a peer that answered is not asked again; a client that does not answer
    is asked with each packet; and what the requests to end sessions do wrong. *)
From S2P Require Import Prelude Aggr RxSink RxTable TxBaTable RxReorder RxProps RxPath RxTheorems TxBa TxBaProps.

Section theorems.
Context {W : Type} `{RxSinkLaws W}.
Variables (in_reset : bool) (add_ba_param : Z -> add_ba_param_t) (is_11n_enabled : bool).
Abbreviation run := (ba_run in_reset add_ba_param is_11n_enabled).

(** All sessions along a sequence of calls. *)
Lemma run_moves cs : forall (s : ba_state W), ba_ok s -> Forall call_ok cs ->
  exists s', run cs s = Ret s' /\ ba_ok s' /\
    forall bss ra t, is_bss bss -> 0 <= t < 8 ->
      exists n, stream_run is_11n_enabled bss ra t cs (view bss ra t s) = (view bss ra t s', n) /\
        requests bss ra t (sent_cmds s') = (requests bss ra t (sent_cmds s) + n)%nat.
Proof.
  induction cs as [| c cs IH]; intros s Hs Hcs; cbn [ba_run stream_run].
  - exists s. split; [done |]. split; [done |]. intros. exists 0%nat. by rewrite Nat.add_0_r.
  - apply list.Forall_cons in Hcs as [Hc Hcs]. destruct (step_moves in_reset add_ba_param is_11n_enabled c s Hs Hc) as (s1 & -> & Hs1 & Hm1).
    rewrite bind_ret. destruct (IH s1 Hs1 Hcs) as (s' & E & Hs' & Hm). exists s'. split; [exact E |]. split; [done |].
    intros bss ra t Hb Ht. destruct (Hm1 bss ra t Hb Ht) as (n & -> & E1). destruct (Hm bss ra t Hb Ht) as (m & -> & E2).
    exists (n + m)%nat. split; [done |]. lia.
Qed.

(** C6: Whatever packets, answers, ends and arrivals of peers there are, as long as
    [call_ok] holds of each (the TID it names is one of the eight, there is
    memory for the entry of a peer that comes, and no request of the user to end
    a session is among them), no call
    faults or waits forever, each peer has one entry, and every session of a peer
    and TID is where its own automaton takes it, with the requests it asks for:
    other peers and interfaces do not matter to it. *)
Theorem sessions_follow_automata cs (s : ba_state W) : ba_ok s -> Forall call_ok cs ->
  exists s', run cs s = Ret s' /\ ba_ok s' /\
    forall bss ra t, is_bss bss -> 0 <= t < 8 ->
      exists n, stream_run is_11n_enabled bss ra t cs (view bss ra t s) = (view bss ra t s', n) /\
        requests bss ra t (sent_cmds s') = (requests bss ra t (sent_cmds s) + n)%nat.
Proof. apply run_moves. Qed.

(** ** Peers that answered *)

(** The calls that start a session anew: an answer, an end, or the peer comes or
    goes. *)
Definition renews (bss : Z) (ra : list Z) (t : Z) (c : ba_call) : bool :=
  match c with
  | PacketToAp _ _ _ _ _ _ _ | PacketToClient _ _ _ _ _ => false
  | RequestAnswered b resp => (b =? bss) && bool_decide (rsp_peer resp = ra) && (params_tid (rsp_param_set resp) =? t)
  | SessionEnded b d | EndAnswered b d => (b =? bss) && bool_decide (del_peer d = ra) && (Z.shiftr (del_ba_param_set d) 12 =? t)
  | ClientJoins addr _ _ _ | ClientLeaves addr => (bss =? 1) && bool_decide (addr = ra)
  | InterfaceCleaned b => b =? bss
  end.
Definition settled (a : option stream) : Prop := exists x, a = Some x /\ (st_est x = true \/ st_supp x = false).

Lemma settled_step bss ra t c a : settled a -> renews bss ra t c = false ->
  exists a', stream_step is_11n_enabled bss ra t c a = (a', 0%nat) /\ settled a'.
Proof.
  intros (x & -> & Hx) Hc.
  assert (Hcount : forall t', exists y, count_packet t t' x = (y, 0%nat) /\ (st_est y = true \/ st_supp y = false)).
  { intros t'. unfold count_packet. exists (MkStream (st_supp x) (st_est x) (u32 (st_cnt x + 1)) (st_thresh x)). split; [| exact Hx].
    destruct Hx as [-> | ->]; cbn [negb]; by rewrite !andb_false_r. }
  assert (Hstay : exists a', (Some x, 0%nat) = (a', 0%nat) /\ settled a') by (exists (Some x); split; [done | by exists x]).
  destruct c as [[[cur ht] |] ? ? t' ? ? ? | addr t' ? ? ? | b resp | b d | b d | addr ht ? ? | addr | b]; cbn [stream_step renews] in *; rewrite ?Hc; try exact Hstay.
  - destruct (_ && _); [| exact Hstay]. destruct (Hcount t') as (y & -> & Hy). eexists. split; [done |]. by exists y.
  - destruct (_ && _); [| exact Hstay]. destruct (Hcount t') as (y & -> & Hy). eexists. split; [done |]. by exists y.
  - destruct is_11n_enabled; cbn [andb]; [rewrite Hc |]; exact Hstay.
Qed.

Lemma settled_run bss ra t cs : forall a, settled a -> Forall (fun c => renews bss ra t c = false) cs ->
  exists a', stream_run is_11n_enabled bss ra t cs a = (a', 0%nat) /\ settled a'.
Proof.
  induction cs as [| c cs IH]; intros a Ha Hcs; cbn [stream_run]; [by exists a |]. apply list.Forall_cons in Hcs as [Hc Hcs].
  destruct (settled_step bss ra t c a Ha Hc) as (a1 & -> & Ha1). destruct (IH a1 Ha1 Hcs) as (a' & -> & Ha'). by exists a'.
Qed.

(** After a peer accepted or refused a session, no packet asks it for that
    session again, until it answers again, the session ends, or the peer leaves or
    comes anew. *)
Theorem answered_peer_not_asked_again bss resp cs (s : ba_state W) :
  ba_ok s -> call_ok (RequestAnswered bss resp) -> Forall call_ok cs ->
  entry_of (peers bss s) (rsp_peer resp) <> None ->
  status_code resp = 0 \/ add_rsp_result resp <> BA_RESULT_TIMEOUT ->
  let t := params_tid (rsp_param_set resp) in
  Forall (fun c => renews bss (rsp_peer resp) t c = false) cs ->
  exists s', run (RequestAnswered bss resp :: cs) s = Ret s' /\
    requests bss (rsp_peer resp) t (sent_cmds s') = requests bss (rsp_peer resp) t (sent_cmds s).
Proof.
  intros Hs Hc Hcs Hentry Hanswer t Hnew. destruct (run_moves (RequestAnswered bss resp :: cs) s Hs) as (s' & E & _ & Hm); [by apply list.Forall_cons |].
  exists s'. split; [exact E |]. destruct (Hm bss (rsp_peer resp) t (proj1 Hc) (proj2 Hc)) as (n & Hrun & ->).
  cbn [stream_run stream_step] in Hrun. rewrite Z.eqb_refl, bool_decide_true, Z.eqb_refl in Hrun by done. cbn [andb] in Hrun.
  unfold view in Hrun at 1. destruct (entry_of (peers bss s) (rsp_peer resp)) as [x |]; [| done].
  match type of Hrun with context [stream_run _ _ _ _ _ ?a] => destruct (settled_run bss (rsp_peer resp) t cs a) as (a' & Ea & _) end; [| done |].
  - destruct (Z.eqb_spec (status_code resp) 0) as [Hst | Hst]; [eexists; split; [done | by left] |].
    destruct (Z.eqb_spec (add_rsp_result resp) BA_RESULT_TIMEOUT); [by destruct Hanswer |]. eexists. split; [done | by right].
  - rewrite Ea in Hrun. injection Hrun as _ <-. lia.
Qed.

(** ** Peers that do not answer *)
Definition packet_call (addr : list Z) (t : Z) (p : Z * Z * Z) : ba_call := let '(ssn, junk, ret) := p in PacketToClient addr t ssn junk ret.

Lemma packets_ask addr t ps : forall cnt, 0 <= cnt -> cnt + Z.of_nat (length ps) < 2 ^ 32 ->
  stream_run true 1 addr t (packet_call addr t <$> ps) (Some (MkStream true false cnt 3)) =
    (Some (MkStream true false (cnt + Z.of_nat (length ps)) 3), (length ps - Z.to_nat (2 - cnt))%nat).
Proof.
  induction ps as [| [[ssn junk] ret] ps IH]; intros cnt Hcnt Hk; cbn [fmap list_fmap length stream_run packet_call]; [by rewrite Z.add_0_r |].
  cbn [length] in Hk. cbn [stream_step]. rewrite bool_decide_true by done. cbn [andb Z.eqb Pos.eqb]. unfold count_packet. cbn [st_cnt st_supp st_est st_thresh].
  rewrite Z.eqb_refl. cbn [andb negb]. rewrite wrap_small by lia. change (list_fmap _ _ (packet_call addr t) ps) with (packet_call addr t <$> ps).
  rewrite IH by lia. f_equal; [do 2 f_equal; lia |]. destruct (Z.leb_spec 3 (cnt + 1)); lia.
Qed.

(** A client that can aggregate is asked for a session with its third packet of
    a TID, and with every further one while it does not answer. *)
Theorem silent_client_asked_each_packet addr t rand ps (s : ba_state W) :
  is_11n_enabled = true -> ba_ok s -> 0 <= t < 8 -> Z.of_nat (length ps) < 2 ^ 32 ->
  exists s', run (ClientJoins addr true true rand :: (packet_call addr t <$> ps)) s = Ret s' /\
    requests 1 addr t (sent_cmds s') = (requests 1 addr t (sent_cmds s) + (length ps - 2))%nat.
Proof.
  intros H11 Hs Ht Hps. destruct (run_moves (ClientJoins addr true true rand :: (packet_call addr t <$> ps)) s Hs) as (s' & E & _ & Hm).
  { apply list.Forall_cons. split; [done |]. apply list.Forall_fmap. apply list.Forall_true. by intros [[]]. }
  exists s'. split; [exact E |]. destruct (Hm 1 addr t (or_intror eq_refl) Ht) as (n & Hrun & ->). f_equal.
  cbn [stream_run stream_step] in Hrun. rewrite bool_decide_true, H11 in Hrun by done. cbn [andb Z.eqb Pos.eqb] in Hrun.
  rewrite packets_ask in Hrun by lia. injection Hrun as _ <-. lia.
Qed.

(** ** Requests to end sessions *)

(** The commands change nothing but their log. *)
Definition same_but_log (s s' : ba_state W) : Prop := forall a, priv_of a s' = priv_of a s /\ lock_of a s' = lock_of a s.

Lemma send_delba_same bss t ra init reply (s : ba_state W) : same_but_log s (wlan_send_delba bss t ra init reply s).2.
Proof. intros a. unfold wlan_send_delba. cbn. by unfold priv_of, lock_of. Qed.

Lemma same_trans (s1 s2 s3 : ba_state W) : same_but_log s1 s2 -> same_but_log s2 s3 -> same_but_log s1 s3.
Proof. intros H1 H2 a. destruct (H1 a), (H2 a). split; congruence. Qed.

Lemma delba_tids_spec bss ts x reply : entry_ok x -> Forall (fun t => 0 <= t < 8) ts -> forall ret (s : ba_state W),
  exists ret' s', delba_tids bss ts x reply ret s = Ret (ret', s') /\ same_but_log s s'.
Proof.
  intros [Hl _]. induction 1 as [| t ts Ht _ IH]; intros ret s; cbn [delba_tids]; [by exists ret, s |].
  destruct (arr_get_total (ampdu_stat x) t) as (v & -> & _); [lia |]. rewrite bind_ret. destruct (negb (v =? 0)); [| apply IH].
  destruct (wlan_send_delba bss t (txba_ra x) true reply s) as [r1 s1] eqn:E1.
  pose proof (send_delba_same bss t (txba_ra x) true reply s) as Hs1. rewrite E1 in Hs1. cbn in Hs1.
  destruct (IH r1 s1) as (ret' & s' & E & Hs'). exists ret', s'. split; [exact E | by eapply same_trans].
Qed.

Definition tid_ok (tid_ : Z) : Prop := tid_ = DELBA_ALL_TIDS \/ 0 <= tid_ < 8.
Lemma requested_ok tid_ : tid_ok tid_ -> Forall (fun t => 0 <= t < 8) (requested_tids tid_).
Proof.
  intros Ht. unfold requested_tids. destruct (Z.eqb_spec tid_ DELBA_ALL_TIDS) as [-> | Hne].
  - repeat apply list.Forall_cons_2; try lia. apply list.Forall_nil_2.
  - apply list.Forall_singleton. by destruct Ht.
Qed.

Lemma peers_entry l x : peers_ok l -> x ∈ l -> entry_ok x.
Proof.
  intros [Hnd Hok] Hx. apply (Hok (txba_ra x)). apply list_elem_of_lookup in Hx as (i & Hi). unfold entry_of.
  by rewrite (get_tx_lookup l (txba_ra x) i x Hnd Hi).
Qed.

Lemma tx_search_spec l tid_ : Forall entry_ok l -> tid_ok tid_ -> tx_search l tid_ = Ret tt.
Proof.
  intros Hl Ht. induction Hl as [| x l [Hx _] _ IH]; cbn [tx_search]; [done |]. destruct (decide _); [| done].
  destruct (Z.eqb_spec tid_ DELBA_ALL_TIDS) as [-> | Hne]; [done |]. destruct Ht as [| Ht]; [done |].
  destruct (arr_get_total (ampdu_stat x) tid_) as (v & -> & _); [lia |]. by rewrite bind_ret.
Qed.

Lemma delba_walk_early all bss tid_ peer reply y : tid_ok tid_ -> peer <> zero_mac -> entry_of all peer = Some y -> entry_ok y ->
  forall l, Forall entry_ok l -> (exists x, x ∈ l /\ txba_ra x = peer /\ txba_status x = BA_STREAM_SETUP_COMPLETE) ->
  forall ret (s : ba_state W), exists ret' s', delba_walk all l bss tid_ peer reply ret s = Ret (ret', true, s') /\ same_but_log s s'.
Proof.
  intros Ht Hne Hy Hyok. pose proof (requested_ok tid_ Ht) as Hts. unfold entry_of in Hy. apply bind_Some in Hy as (i & Hi & Hy).
  induction 1 as [| x l Hx _ IH]; intros Hex ret s; [by destruct Hex as (x & Hx%elem_of_nil & _) |]. cbn [delba_walk].
  destruct (decide (txba_ra x = peer)) as [Hra | Hra].
  - destruct (decide (txba_status x = BA_STREAM_SETUP_COMPLETE)) as [Hst | Hst].
    + rewrite !bool_decide_true by done. cbn [andb]. rewrite Hi, (arr_get_lookup _ _ _ Hy), bind_ret.
      destruct (delba_tids_spec bss _ y reply Hyok Hts ret s) as (r' & s' & -> & Hs'). rewrite bind_ret. by exists r', s'.
    + apply IH. destruct Hex as (z & Hz & Hzra & Hzst). apply elem_of_cons in Hz as [-> | Hz]; [done | by exists z].
  - assert (Hex' : exists z, z ∈ l /\ txba_ra z = peer /\ txba_status z = BA_STREAM_SETUP_COMPLETE).
    { destruct Hex as (z & Hz & Hzra & Hzst). apply elem_of_cons in Hz as [-> | Hz]; [done | by exists z]. }
    destruct (decide (txba_status x = BA_STREAM_SETUP_COMPLETE)); [| by apply IH].
    rewrite (bool_decide_false (peer = txba_ra x)), andb_false_r by congruence.
    destruct (delba_tids_spec bss _ x reply Hx Hts ret s) as (r1 & s1 & -> & Hs1). rewrite bind_ret.
    destruct (IH Hex' r1 s1) as (r' & s' & E & Hs'). exists r', s'. split; [exact E | by eapply same_trans].
Qed.

(** A request to end the transmit sessions of one peer returns with the lock of
    the peers taken, when the peer has a session, or is unknown while there are
    others; the next packet that goes out on the interface waits for it forever. *)
Theorem delba_request_keeps_lock bss tid_ peer reply (s : ba_state W) :
  is_bss bss -> ba_ok s -> tid_ok tid_ -> peer <> zero_mac -> peers bss s <> [] ->
  entry_of (peers bss s) peer = None \/ (exists x, entry_of (peers bss s) peer = Some x /\ txba_status x = BA_STREAM_SETUP_COMPLETE) ->
  exists r s', wlan_11n_ioctl_delba bss DELBA_TX tid_ peer reply s = Ret (r, s') /\ lock_of bss s' = true /\
    (bss = 0 -> forall link got rand t ssn junk ret, wrapper_wlan_sta_ampdu_enable add_ba_param link got rand t ssn junk ret s' = Fault Hang) /\
    (bss = 1 -> is_11n_enabled = true ->
     forall addr t ssn junk ret, wrapper_wlan_uap_ampdu_enable add_ba_param is_11n_enabled addr t ssn junk ret s' = Fault Hang).
Proof.
  intros Hb Hs Ht Hne Hnil Hpeer. pose proof (bo_peers s Hs bss Hb) as Hl.
  assert (Hall : Forall entry_ok (peers bss s)) by (apply list.Forall_forall; intros x; by apply peers_entry).
  assert (Hlocked : exists r s', wlan_11n_ioctl_delba bss DELBA_TX tid_ peer reply s = Ret (r, s') /\ lock_of bss s' = true).
  2: { destruct Hlocked as (r & s' & E & Hlock). exists r, s'. split; [exact E |]. split; [exact Hlock |]. split.
       - intros -> *. unfold wrapper_wlan_sta_ampdu_enable, wlan_request_ralist_lock. by rewrite Hlock.
       - intros -> H11 *. unfold wrapper_wlan_uap_ampdu_enable, wlan_request_ralist_lock. by rewrite H11, Hlock. }
  unfold wlan_11n_ioctl_delba. change (negb (Z.land DELBA_TX DELBA_RX =? 0)) with false. change (negb (Z.land DELBA_TX DELBA_TX =? 0)) with true. cbn [andb negb].
  rewrite (request_free bss) by done. rewrite bind_ret. destruct (set_lock_facts bss true s Hb) as (Ep & El & _).
  unfold peers at 1. rewrite Ep. fold (peers bss s). rewrite tx_search_spec, bind_ret, release_request, bind_ret by done.
  unfold wlan_send_delba_to_entry_in_txbastream_tbl. rewrite (request_free bss) by done. rewrite bind_ret.
  set (s1 := set_lock bss true s) in *. assert (Epeers : peers bss s1 = peers bss s) by (unfold peers; by rewrite Ep). rewrite Epeers.
  destruct (peers bss s) as [| x0 l0] eqn:Epl; [done |]. rewrite <- Epl in *.
  rewrite (bool_decide_true (peer <> zero_mac)) by done. cbn [andb].
  destruct Hpeer as [Hnone | (x & Hx & Hst)].
  - destruct (wlan_11n_get_txbastream_tbl (peers bss s) peer) as [i |] eqn:Ei.
    + exfalso. destruct (get_tx_Some _ _ _ Ei) as (z & Hz & _). unfold entry_of in Hnone. rewrite Ei in Hnone. cbn in Hnone. congruence.
    + rewrite bool_decide_true, bind_ret by done. by eexists _, s1.
  - pose proof (entry_of_Some _ _ _ Hx) as [Hin Hra].
    rewrite bool_decide_false. 2: { unfold entry_of in Hx. destruct (wlan_11n_get_txbastream_tbl (peers bss s) peer); done. }
    destruct (delba_walk_early (peers bss s) bss tid_ peer reply x Ht Hne Hx (peers_entry _ _ Hl Hin) (peers bss s) Hall) with (ret := MLAN_STATUS_SUCCESS) (s := s1)
      as (r & s' & -> & Hsame); [by exists x |]. rewrite !bind_ret. exists r, s'. split; [done |]. by rewrite (proj2 (Hsame bss)).
Qed.

(** The end of a session with a TID of 8 or more, which the peer chooses, is
    written behind the sessions of its entry. *)
Theorem delba_tid_past_table bss d (s : ba_state W) : is_bss bss -> ba_ok s ->
  entry_of (peers bss s) (del_peer d) <> None -> 8 <= Z.shiftr (del_ba_param_set d) 12 < 16 -> INITIATOR_BIT (del_ba_param_set d) = 0 ->
  wlan_11n_delete_bastream in_reset bss d s = Fault OutOfBounds.
Proof.
  intros Hb Hs Hentry Ht Hi. unfold wlan_11n_delete_bastream, update_bastream_locked, mlan_11n_update_bastream_tbl. rewrite Hi.
  change (TYPE_DELBA_RECEIVE =? TYPE_DELBA_RECEIVE) with true. cbn [negb Z.eqb]. rewrite (request_free bss) by done. rewrite bind_ret.
  destruct (set_lock_facts bss true s Hb) as (Ep & _). rewrite Ep. change (tx_ba_stream_tbl_ptr (priv_of bss s)) with (peers bss s).
  destruct (wlan_11n_get_txbastream_tbl (peers bss s) (del_peer d)) as [i |] eqn:Ei.
  2: { destruct Hentry. by apply entry_of_None, get_tx_None. }
  destruct (get_tx_Some _ _ _ Ei) as (x & Hx & _). assert (Hxin : x ∈ peers bss s) by (by eapply list_elem_of_lookup_2).
  destruct (peers_entry _ _ (bo_peers s Hs bss Hb) Hxin) as [Hl _].
  unfold wlan_11n_update_txbastream_tbl_ampdu_stat, update_entry. change (tx_ba_stream_tbl_ptr (priv_of bss s)) with (peers bss s).
  rewrite Ei, (arr_get_lookup _ _ _ Hx), bind_ret. unfold set_ampdu_stat, DELBA_TID_POS.
  rewrite (wrap_small 8) by (change (2 ^ 8) with 256; lia). rewrite arr_set_oob; [done |]. rewrite Hl. lia.
Qed.
End theorems.

(** ** Examples *)
Definition ex_param (bss : Z) : add_ba_param_t := MkBaParam 64 0 0.
Definition ex_client (n : Z) : list Z := [2; 0; 0; 0; 0; n].
Definition ex_idle : ba_state rx_world := MkBaState (ex_priv []) (ex_priv []) false false 0 [] ex_world.
Definition ex_answer (n t status result : Z) : HostCmd_DS_11N_ADDBA_RSP := MkAddbaRsp result (ex_client n) 1 status (addba_param_set t 64) 0 0.
Definition ex_join (n : Z) : ba_call := ClientJoins (ex_client n) true true 5.
(** Two clients with a session of TID 0 each. *)
Definition ex_calls : list ba_call :=
  [ex_join 1; ex_join 2; RequestAnswered 1 (ex_answer 1 0 0 0); RequestAnswered 1 (ex_answer 2 0 0 0)].
Definition ex_sessions : ba_state rx_world :=
  match ba_run false ex_param true ex_calls ex_idle with Ret s => s | Fault _ => ex_idle end.

(** A request to end the sessions of the second client ends those of the first as
    well, and keeps the lock. *)
Example delba_request_ends_others :
  match wlan_11n_ioctl_delba 1 DELBA_TX DELBA_ALL_TIDS (ex_client 2) MLAN_STATUS_SUCCESS ex_sessions with
  | Ret (_, s) => (map (fun c => match c with CmdDelba _ c => del_peer (hc_body c) | CmdAddba _ _ => [] end) (sent_cmds s), lock_uap s)
  | Fault _ => ([], false)
  end = ([ex_client 1; ex_client 2], true).
Proof. vm_compute. reflexivity. Qed.

(** ** Witnesses *)
Lemma ex_idle_ok : ba_ok ex_idle.
Proof.
  split; [| | | exact ex_world_ok]; intros b [-> | ->]; try done; try apply peers_ok_nil; apply ex_priv_inv; try apply list.Forall_nil_2; apply NoDup_nil_2.
Qed.

Lemma ex_calls_ok : Forall call_ok ex_calls.
Proof.
  repeat apply list.Forall_cons_2; try apply list.Forall_nil_2; try reflexivity; (split; [by right |]); vm_compute; split; [discriminate | reflexivity | discriminate | reflexivity].
Qed.

Lemma ex_sessions_ok : ba_ok ex_sessions.
Proof.
  destruct (run_moves false ex_param true ex_calls ex_idle ex_idle_ok ex_calls_ok) as (s' & E & Hs & _). unfold ex_sessions. by rewrite E.
Qed.

Lemma sessions_follow_automata_witness : exists s', ba_run false ex_param true ex_calls ex_idle = Ret s' /\
  view 1 (ex_client 1) 0 s' = Some (MkStream true true 0 3) /\ view 1 (ex_client 2) 5 s' = Some (MkStream true false 0 3).
Proof.
  destruct (sessions_follow_automata false ex_param true ex_calls ex_idle ex_idle_ok ex_calls_ok) as (s' & E & _ & Hm). exists s'. split; [exact E |].
  assert (F1 : stream_run true 1 (ex_client 1) 0 ex_calls (view 1 (ex_client 1) 0 ex_idle) = (Some (MkStream true true 0 3), 0%nat)) by (vm_compute; reflexivity).
  assert (F2 : stream_run true 1 (ex_client 2) 5 ex_calls (view 1 (ex_client 2) 5 ex_idle) = (Some (MkStream true false 0 3), 0%nat)) by (vm_compute; reflexivity).
  destruct (Hm 1 (ex_client 1) 0) as (n1 & H1 & _); [by right | lia |]. destruct (Hm 1 (ex_client 2) 5) as (n2 & H2 & _); [by right | lia |].
  rewrite F1 in H1. rewrite F2 in H2. injection H1 as H1 _. injection H2 as H2 _. split; [by symmetry | by symmetry].
Defined.

(** The first client refuses TID 3; four packets of it follow. *)
Lemma answered_peer_not_asked_again_witness : exists s',
  ba_run false ex_param true (RequestAnswered 1 (ex_answer 1 3 37 1) :: replicate 4 (PacketToClient (ex_client 1) 3 0 0 0)) ex_sessions = Ret s' /\
  requests 1 (ex_client 1) 3 (sent_cmds s') = requests 1 (ex_client 1) 3 (sent_cmds ex_sessions).
Proof.
  apply (answered_peer_not_asked_again false ex_param true 1 (ex_answer 1 3 37 1) (replicate 4 (PacketToClient (ex_client 1) 3 0 0 0)) ex_sessions).
  - exact ex_sessions_ok.
  - split; [by right |]. vm_compute. split; [discriminate | reflexivity].
  - apply list.Forall_replicate. cbn. lia.
  - vm_compute. discriminate.
  - right. discriminate.
  - apply list.Forall_replicate. reflexivity.
Defined.

Lemma silent_client_asked_each_packet_witness : exists s',
  ba_run false ex_param true (ex_join 3 :: (packet_call (ex_client 3) 6 <$> [(0, 0, 0); (1, 0, 0); (2, 0, 0); (3, 0, 0)])) ex_sessions = Ret s' /\
  requests 1 (ex_client 3) 6 (sent_cmds s') = (requests 1 (ex_client 3) 6 (sent_cmds ex_sessions) + 2)%nat.
Proof.
  apply (silent_client_asked_each_packet false ex_param true (ex_client 3) 6 5 [(0, 0, 0); (1, 0, 0); (2, 0, 0); (3, 0, 0)] ex_sessions).
  - reflexivity.
  - exact ex_sessions_ok.
  - lia.
  - cbn. lia.
Defined.

Lemma delba_request_keeps_lock_witness : exists r s',
  wlan_11n_ioctl_delba 1 DELBA_TX 0 (ex_client 2) MLAN_STATUS_SUCCESS ex_sessions = Ret (r, s') /\ lock_of 1 s' = true /\
  wrapper_wlan_uap_ampdu_enable ex_param true (ex_client 1) 0 0 0 0 s' = Fault Hang.
Proof.
  destruct (delba_request_keeps_lock ex_param true 1 0 (ex_client 2) MLAN_STATUS_SUCCESS ex_sessions) as (r & s' & E & Hl & _ & Hu).
  - by right.
  - exact ex_sessions_ok.
  - right. lia.
  - discriminate.
  - vm_compute. discriminate.
  - right. eexists. split; [vm_compute; reflexivity | reflexivity].
  - exists r, s'. split; [exact E |]. split; [exact Hl |]. by apply Hu.
Defined.

Lemma delba_tid_past_table_witness : wlan_11n_delete_bastream false 1 (MkDelba 0 (ex_client 1) 0x8000 0 0) ex_sessions = Fault OutOfBounds.
Proof.
  apply (delba_tid_past_table false 1 (MkDelba 0 (ex_client 1) 0x8000 0 0) ex_sessions).
  - by right.
  - exact ex_sessions_ok.
  - vm_compute. discriminate.
  - vm_compute. split; [discriminate | reflexivity].
  - reflexivity.
Defined.
