(* ===== verification/CliUtils.v ===== *)
(** * Numbers and addresses on the command line

    [cli/cli_utils.c]: the functions that read them from the words of a command,
    and the options.  A string is memory from its first character on. *)
From S2P Require Import Prelude CString.

(** ** Characters *)
Definition isdigit (c : Z) : bool := (48 <=? c) && (c <=? 57).
Definition isupperhex (c : Z) : bool := (65 <=? c) && (c <=? 70).
Definition islowerhex (c : Z) : bool := (97 <=? c) && (c <=? 102).
Definition isxdigit (c : Z) : bool := isdigit c || isupperhex c || islowerhex c.

(** The length of [s1] bounds the comparison, which stops at a NUL. *)
Fixpoint same_chars (n : nat) (s1 s2 : list Z) (i : Z) : outcome bool :=
  match n with
  | O => Ret true
  | S n =>
      a ← arr_get s1 i; b ← arr_get s2 i;
      if a =? b then if a =? 0 then Ret true else same_chars n s1 s2 (i + 1) else Ret false
  end.
Definition string_equal (s1 s2 : list Z) : outcome bool :=
  len ← strlen_list s1; len2 ← strlen_list s2;
  if len =? len2 then same_chars (Z.to_nat len) s1 s2 0 else Ret false.

Definition hexc2bin (chr : Z) : Z :=
  u8 (if isdigit chr then chr - 48 else if isupperhex chr then chr - (65 - 10) else if islowerhex chr then chr - (97 - 10) else chr).

(** ** Numbers *)
Fixpoint a2hex_loop (s : list Z) (val : Z) : outcome Z :=
  match s with
  | [] => Fault OutOfBounds
  | c :: s => if negb (c =? 0) && isxdigit c then a2hex_loop s (u32 (u32 (Z.shiftl val 4) + hexc2bin c)) else Ret val
  end.
(** [strncasecmp("0x", s, 2) == 0]. *)
Definition has_0x (s : list Z) : outcome bool :=
  a ← arr_get s 0;
  if negb (a =? 48) then Ret false else b ← arr_get s 1; Ret ((b =? 120) || (b =? 88)).
Definition a2hex (s : list Z) : outcome Z :=
  x ← has_0x s; a2hex_loop (if x : bool then drop 2 s else s) 0.

(** [strtol] in base 10 of a string that starts with a digit; [long] has 32 bits. *)
Fixpoint strtol_digits (s : list Z) (val : Z) : outcome Z :=
  match s with
  | [] => Fault OutOfBounds
  | c :: s => if isdigit c then strtol_digits s (Z.min (val * 10 + (c - 48)) (2 ^ 31 - 1)) else Ret val
  end.
Definition a2hex_or_atoi (value : list Z) : outcome Z :=
  c ← arr_get value 0;
  hex ← (if c =? 48 then d ← arr_get value 1; Ret ((d =? 88) || (d =? 120)) else Ret false);
  if hex : bool then a2hex (drop 2 value)
  else if isdigit c then v ← strtol_digits value 0; Ret (u32 v)
  else Ret (u32 c).

(** [None] for the error, which leaves the destination as it was. *)
Fixpoint get_uint_loop (n : nat) (arg : list Z) (i val : Z) : outcome (option Z) :=
  match n with
  | O => Ret (Some val)
  | S n =>
      c ← arr_get arg i;
      if (c <? 48) || (57 <? c) then Ret None else get_uint_loop n arg (i + 1) (u32 (u32 (val * 10) + (c - 48)))
  end.
Definition get_uint (arg : list Z) (len : Z) : outcome (option Z) := get_uint_loop (Z.to_nat (u32 len)) arg 0 0.

(** ** Addresses *)
Definition hex_value (c : Z) : option Z :=
  if isdigit c then Some (u8 (c - 48))
  else if isupperhex c then Some (u8 (c - 65 + 10))
  else if islowerhex c then Some (u8 (c - 97 + 10))
  else None.
(** [true] for the error; the destination is changed on the way to it. *)
Definition mac_digit (arg dest : list Z) (i j k : Z) : outcome (bool * list Z) :=
  c ← arr_get arg (i + j);
  match hex_value c with
  | None => Ret (true, dest)
  | Some n => d ← arr_get dest k; dest ← arr_set dest k (u8 (d + u8 (Z.shiftl n (4 * (1 - j))))); Ret (false, dest)
  end.
Fixpoint mac_loop (n : nat) (arg dest : list Z) (sep i k : Z) : outcome (bool * list Z) :=
  match n with
  | O => Ret (false, dest)
  | S n =>
      '(e, dest) ← mac_digit arg dest i 0 k;
      if e : bool then Ret (true, dest)
      else
        '(e, dest) ← mac_digit arg dest i 1 k;
        if e : bool then Ret (true, dest)
        else
          bad ← (if i <? 15 then c ← arr_get arg (i + 2); Ret (negb (c =? sep)) else Ret false);
          if bad : bool then Ret (true, dest) else mac_loop n arg dest sep (i + 3) (k + 1)
  end.
Definition get_mac (arg dest : list Z) (sep : Z) : outcome (bool * list Z) :=
  len ← strlen_list arg;
  if len <? 17 then Ret (true, dest)
  else dest ← mem_write dest 0 (replicate 6 0); mac_loop 6 arg dest sep 0 0.

(** ** Options *)
Record getopt_state := MkGetopt { cli_optind : Z; cli_optarg : option (list Z) }.

Definition cli_getopt (argv : list (list Z)) (fmt : list Z) (s : getopt_state) : outcome (Z * getopt_state) :=
  let argc := Z.of_nat (length argv) in
  if cli_optind s =? argc then Ret (-1, s)
  else
    let s := MkGetopt (cli_optind s) None in
    opt ← arr_get argv (cli_optind s);
    o ← arr_get opt 0;
    if negb (o =? 45) then Ret (-1, s)
    else
      o ← arr_get opt 1;
      if o =? 0 then Ret (63, s)
      else
        let s := MkGetopt (cli_optind s + 1) None in
        c ← strchr_list fmt o;
        match c with
        | None => Ret (o, s)
        | Some c =>
            k ← arr_get fmt c;
            n ← arr_get fmt (c + 1);
            if (n =? 58) && (cli_optind s <? argc) then
              a ← arr_get argv (cli_optind s); Ret (k, MkGetopt (cli_optind s + 1) (Some a))
            else Ret (k, s)
        end.
