(* ===== verification/CliUtilsTheorems.v ===== *)
(** * Theorems about the numbers and addresses of the command line

    Numbers are read as their digits say, modulo the width of the result; the
    text of an address reads back as the address, and only such texts are
    accepted; options are taken one by one, but for a lone dash. *)
From S2P Require Import Prelude CString CliUtils.

(** ** Digits *)
Definition hex_char (up : bool) (n : Z) : Z := if n <? 10 then 48 + n else if up then 55 + n else 87 + n.

Lemma hex_value_char up n : 0 <= n < 16 -> hex_value (hex_char up n) = Some n.
Proof.
  intros Hn. assert (Hall : forallb (fun i => bool_decide (hex_value (hex_char up (Z.of_nat i)) = Some (Z.of_nat i))) (seq 0 16) = true)
    by (destruct up; vm_compute; reflexivity).
  rewrite forallb_forall in Hall. specialize (Hall (Z.to_nat n)). rewrite in_seq, Z2Nat.id in Hall by lia.
  apply bool_decide_eq_true in Hall; [done | lia].
Qed.

Lemma hex_value_inv c n : hex_value c = Some n -> 0 <= n < 16 /\ exists up, c = hex_char up n.
Proof.
  unfold hex_value, isdigit, isupperhex, islowerhex, hex_char.
  destruct (Z.leb_spec 48 c), (Z.leb_spec c 57); cbn [andb];
    try (intros [= <-]; rewrite wrap_small by (change (2 ^ 8) with 256; lia); split; [lia |]; exists false; destruct (Z.ltb_spec (c - 48) 10); lia);
  (destruct (Z.leb_spec 65 c), (Z.leb_spec c 70); cbn [andb];
    try (intros [= <-]; rewrite wrap_small by (change (2 ^ 8) with 256; lia); split; [lia |]; exists true; destruct (Z.ltb_spec (c - 65 + 10) 10); lia));
  (destruct (Z.leb_spec 97 c), (Z.leb_spec c 102); cbn [andb]; try done;
    intros [= <-]; rewrite wrap_small by (change (2 ^ 8) with 256; lia); split; [lia |]; exists false; destruct (Z.ltb_spec (c - 97 + 10) 10); lia).
Qed.

Lemma isxdigit_value c : isxdigit c = true -> hex_value c = Some (hexc2bin c) /\ 0 <= hexc2bin c < 16 /\ c <> 0.
Proof.
  intros Hc. assert (Hv : hex_value c = Some (hexc2bin c)).
  { unfold isxdigit, hex_value, hexc2bin in *. destruct (isdigit c); [done |]. destruct (isupperhex c); [do 2 f_equal; lia |].
    destruct (islowerhex c); [do 2 f_equal; lia | done]. }
  split; [done |]. split; [exact (proj1 (hex_value_inv c _ Hv)) | by intros ->].
Qed.

(** ** Numbers *)
Definition value_of (base : Z) (ds : list Z) : Z := fold_left (fun v d => v * base + d) ds 0.

Lemma fold_wrap base ds : forall v, fold_left (fun v d => u32 (u32 (v * base) + d)) ds (u32 v) = u32 (fold_left (fun v d => v * base + d) ds v).
Proof.
  induction ds as [| d ds IH]; intros v; [done |]. cbn [fold_left]. rewrite <- IH. f_equal. unfold wrap.
  rewrite Zmult_mod_idemp_l, Zplus_mod_idemp_l. done.
Qed.

Lemma get_uint_digits l : forall pre rest val, get_uint_loop (length l) (pre ++ l ++ rest) (Z.of_nat (length pre)) val =
  Ret (if forallb isdigit l then Some (fold_left (fun v d => u32 (u32 (v * 10) + d)) ((fun c => c - 48) <$> l) val) else None).
Proof.
  induction l as [| c l IH]; intros pre rest val; [done |]. cbn [length get_uint_loop app forallb]. rewrite (arr_get_app pre) by done. rewrite bind_ret.
  replace ((c <? 48) || (57 <? c)) with (negb (isdigit c)) by (unfold isdigit; destruct (Z.ltb_spec c 48), (Z.ltb_spec 57 c), (Z.leb_spec 48 c), (Z.leb_spec c 57); lia || done).
  destruct (isdigit c); [cbn [negb andb] | done]. replace (pre ++ c :: l ++ rest) with ((pre ++ [c]) ++ l ++ rest) by (by rewrite <- (assoc_L (++))).
  replace (Z.of_nat (length pre) + 1) with (Z.of_nat (length (pre ++ [c]))) by (rewrite length_app; simpl; lia). by rewrite IH.
Qed.

(** A word is read as a number exactly if it has only digits, and then as the
    value of its digits modulo the width of the result. *)
Theorem get_uint_reads_digits l rest : Z.of_nat (length l) < 2 ^ 32 ->
  get_uint (l ++ rest) (Z.of_nat (length l)) =
    Ret (if forallb isdigit l then Some (u32 (value_of 10 ((fun c => c - 48) <$> l))) else None).
Proof.
  intros Hl. unfold get_uint. rewrite wrap_small, Nat2Z.id by lia. etransitivity; [exact (get_uint_digits l [] rest 0) |].
  unfold value_of. by rewrite <- fold_wrap.
Qed.

Lemma a2hex_digits l : forall rest c val, forallb isxdigit l = true -> isxdigit c = false ->
  a2hex_loop (l ++ c :: rest) val = Ret (fold_left (fun v d => u32 (u32 (v * 16) + d)) (hexc2bin <$> l) val).
Proof.
  induction l as [| d l IH]; intros rest c val Hl Hc; cbn [app a2hex_loop]; [by rewrite Hc, andb_false_r |].
  cbn [forallb] in Hl. apply andb_true_iff in Hl as [Hd Hl]. destruct (isxdigit_value d Hd) as (_ & _ & Hd0).
  rewrite Hd, (proj2 (Z.eqb_neq d 0) Hd0). cbn [negb andb]. rewrite IH by done. cbn [fmap list_fmap fold_left].
  by rewrite Z.shiftl_mul_pow2 by lia.
Qed.

(** Hexadecimal digits, after 0x or without it, are read as their value modulo
    the width of the result, up to the first other character. *)
Theorem a2hex_reads_digits (prefix : option bool) l c rest : forallb isxdigit l = true -> isxdigit c = false -> c <> 120 -> c <> 88 ->
  a2hex (match prefix with Some up => [48; if up then 88 else 120] | None => [] end ++ l ++ c :: rest) = Ret (u32 (value_of 16 (hexc2bin <$> l))).
Proof.
  intros Hl Hc Hx HX. unfold a2hex, value_of. rewrite <- fold_wrap. destruct prefix as [up |].
  - replace (has_0x _) with (@Ret bool true) by (by destruct up). rewrite bind_ret. cbn [app drop]. by rewrite (a2hex_digits l rest c).
  - cbn [app]. assert (Hno : has_0x (l ++ c :: rest) = Ret false).
    { unfold has_0x. destruct l as [| a l]; cbn [app].
      - change (arr_get (c :: rest) 0) with (@Ret Z c). rewrite bind_ret. destruct (Z.eqb_spec c 48) as [-> |]; done.
      - change (arr_get (a :: l ++ c :: rest) 0) with (@Ret Z a). rewrite bind_ret. destruct (a =? 48); [cbn [negb] | done].
        assert (Hnx : forall d, d <> 120 -> d <> 88 -> (d =? 120) || (d =? 88) = false).
        { intros d H1 H2. by rewrite (proj2 (Z.eqb_neq _ _) H1), (proj2 (Z.eqb_neq _ _) H2). }
        destruct l as [| b l]; cbn [app].
        + change (arr_get (a :: c :: rest) 1) with (@Ret Z c). rewrite bind_ret. by rewrite Hnx.
        + change (arr_get (a :: b :: l ++ c :: rest) 1) with (@Ret Z b). rewrite bind_ret. cbn [forallb] in Hl.
          apply andb_true_iff in Hl as [_ [Hb _]%andb_true_iff]. rewrite Hnx; [done | by intros -> ..]. }
    rewrite Hno, bind_ret. by rewrite (a2hex_digits l rest c).
Qed.

(** ** Addresses *)

(** The text of bytes, each digit with letters of either case. *)
Definition letters := (bool * bool * Z)%type.
Definition pair_text (x : letters) : list Z := let '(u, v, b) := x in [hex_char u (b / 16); hex_char v (b mod 16)].
Fixpoint mac_text (sep : Z) (l : list letters) : list Z :=
  match l with [] => [] | [x] => pair_text x | x :: l => pair_text x ++ sep :: mac_text sep l end.
Abbreviation octets := (fmap (fun x : letters => x.2)).
Definition octets_ok (l : list letters) : Prop := Forall (fun x => is_byte x.2) l.

Lemma mac_digit_some pre c post dpre d dpost n i j k : hex_value c = Some n -> i + j = Z.of_nat (length pre) -> k = Z.of_nat (length dpre) ->
  mac_digit (pre ++ c :: post) (dpre ++ d :: dpost) i j k = Ret (false, dpre ++ u8 (d + u8 (Z.shiftl n (4 * (1 - j)))) :: dpost).
Proof.
  intros Hc Hi Hk. unfold mac_digit. rewrite (arr_get_app pre), bind_ret, Hc by done. rewrite (arr_get_app dpre), bind_ret by done.
  by rewrite (arr_set_app dpre), bind_ret.
Qed.
Lemma mac_digit_none pre c post dest i j k : hex_value c = None -> i + j = Z.of_nat (length pre) ->
  mac_digit (pre ++ c :: post) dest i j k = Ret (true, dest).
Proof. intros Hc Hi. unfold mac_digit. by rewrite (arr_get_app pre), bind_ret, Hc. Qed.

Lemma two_digits a b : 0 <= a < 16 -> 0 <= b < 16 -> u8 (u8 (0 + u8 (Z.shiftl a (4 * (1 - 0)))) + u8 (Z.shiftl b (4 * (1 - 1)))) = 16 * a + b.
Proof.
  intros Ha Hb. rewrite !Z.shiftl_mul_pow2 by lia. change (2 ^ (4 * (1 - 0))) with 16. change (2 ^ (4 * (1 - 1))) with 1.
  assert (Hs : forall z, 0 <= z < 256 -> u8 z = z) by (intros; by apply wrap_small). rewrite (Hs (a * 16)), (Hs (b * 1)), (Hs (0 + a * 16)) by lia.
  rewrite Hs by lia. lia.
Qed.

(** One step of the loop over two digits. *)
Lemma mac_pair pre c1 c2 post dpre dpost a b n sep : hex_value c1 = Some a -> hex_value c2 = Some b ->
  let arg := pre ++ c1 :: c2 :: post in let i := Z.of_nat (length pre) in
  mac_loop (S n) arg (dpre ++ 0 :: dpost) sep i (Z.of_nat (length dpre)) =
    (bad ← (if i <? 15 then c ← arr_get arg (i + 2); Ret (negb (c =? sep)) else Ret false);
     if bad : bool then Ret (true, dpre ++ 16 * a + b :: dpost)
     else mac_loop n arg (dpre ++ 16 * a + b :: dpost) sep (i + 3) (Z.of_nat (length dpre) + 1)).
Proof.
  intros H1 H2 arg i. cbn [mac_loop]. unfold arg, i. rewrite (mac_digit_some pre c1 _ dpre 0 dpost a) by (done || lia). rewrite bind_ret.
  replace (pre ++ c1 :: c2 :: post) with ((pre ++ [c1]) ++ c2 :: post) by (by rewrite <- (assoc_L (++))).
  rewrite (mac_digit_some (pre ++ [c1]) c2 post dpre _ dpost b) by (done || (rewrite ?length_app; simpl; lia)). rewrite bind_ret.
  by rewrite two_digits by (by eapply hex_value_inv).
Qed.

Lemma mac_loop_reads sep l : octets_ok l -> forall pre post dpre, (length dpre + length l = 6)%nat -> (length pre = 3 * length dpre)%nat ->
  mac_loop (length l) (pre ++ mac_text sep l ++ post) (dpre ++ replicate (length l) 0) sep (Z.of_nat (length pre)) (Z.of_nat (length dpre)) =
    Ret (false, dpre ++ octets l).
Proof.
  induction 1 as [| [[u v] b] l Hb _ IH]; intros pre post dpre Hd Hp; [done |]. cbn in Hb. unfold is_byte in Hb.
  assert (Hdiv : 0 <= b / 16 < 16) by (split; [apply Z.div_pos; lia | apply Z.div_lt_upper_bound; lia]).
  pose proof (Z.mod_pos_bound b 16 ltac:(lia)) as Hmod. pose proof (Z.div_mod b 16 ltac:(lia)) as Hdm.
  cbn [length] in Hd. change (length ((u, v, b) :: l)) with (S (length l)). change (replicate (S (length l)) 0) with (0 :: replicate (length l) 0).
  change (octets ((u, v, b) :: l)) with (b :: octets l). destruct l as [| x l].
  - change (mac_text sep [(u, v, b)] ++ post) with (hex_char u (b / 16) :: hex_char v (b mod 16) :: post).
    rewrite (mac_pair pre _ _ post dpre _ (b / 16) (b mod 16)) by (by apply hex_value_char). simpl in Hd.
    rewrite (proj2 (Z.ltb_ge (Z.of_nat (length pre)) 15)) by lia. rewrite bind_ret, <- Hdm. done.
  - change (mac_text sep ((u, v, b) :: x :: l) ++ post) with (hex_char u (b / 16) :: hex_char v (b mod 16) :: sep :: mac_text sep (x :: l) ++ post).
    rewrite (mac_pair pre _ _ _ dpre _ (b / 16) (b mod 16)) by (by apply hex_value_char). rewrite <- Hdm. cbn [length] in Hd.
    rewrite (proj2 (Z.ltb_lt (Z.of_nat (length pre)) 15)) by lia. set (t := mac_text sep (x :: l)) in *.
    replace (pre ++ hex_char u (b / 16) :: hex_char v (b mod 16) :: sep :: t ++ post) with
      ((pre ++ [hex_char u (b / 16); hex_char v (b mod 16)]) ++ sep :: t ++ post) by (by rewrite <- (assoc_L (++))).
    rewrite arr_get_app by (rewrite length_app; simpl; lia). rewrite !bind_ret, Z.eqb_refl. cbn [negb].
    replace ((pre ++ [hex_char u (b / 16); hex_char v (b mod 16)]) ++ sep :: t ++ post) with
      ((pre ++ [hex_char u (b / 16); hex_char v (b mod 16); sep]) ++ t ++ post) by (by rewrite <- !(assoc_L (++))).
    replace (dpre ++ b :: replicate (length (x :: l)) 0) with ((dpre ++ [b]) ++ replicate (length (x :: l)) 0) by (by rewrite <- (assoc_L (++))).
    replace (Z.of_nat (length pre) + 3) with (Z.of_nat (length (pre ++ [hex_char u (b / 16); hex_char v (b mod 16); sep]))) by (rewrite length_app; simpl; lia).
    replace (Z.of_nat (length dpre) + 1) with (Z.of_nat (length (dpre ++ [b]))) by (rewrite length_app; simpl; lia).
    rewrite IH by (rewrite !length_app; simpl in *; lia). by rewrite <- (assoc_L (++)).
Qed.

Lemma mac_loop_accepts sep n : forall pre t dpre d, (length dpre + n = 6)%nat -> (length pre = 3 * length dpre)%nat -> (3 * n <= S (length t))%nat ->
  mac_loop n (pre ++ t) (dpre ++ replicate n 0) sep (Z.of_nat (length pre)) (Z.of_nat (length dpre)) = Ret (false, d) ->
  exists l post, length l = n /\ octets_ok l /\ t = mac_text sep l ++ post /\ d = dpre ++ octets l.
Proof.
  induction n as [| n IH]; intros pre t dpre d Hd Hp Ht Hrun.
  { injection Hrun as <-. exists [], t. split; [done |]. split; [apply list.Forall_nil_2 | done]. }
  destruct t as [| c1 [| c2 t]]; [simpl in Ht; lia.. |]. cbn [replicate] in Hrun.
  destruct (hex_value c1) as [a |] eqn:E1.
  2: { cbn [mac_loop] in Hrun. rewrite (mac_digit_none pre c1) in Hrun by (done || lia). done. }
  destruct (hex_value c2) as [b |] eqn:E2.
  2: { cbn [mac_loop] in Hrun. rewrite (mac_digit_some pre c1 _ dpre 0 _ a), bind_ret in Hrun by (done || lia).
       replace (pre ++ c1 :: c2 :: t) with ((pre ++ [c1]) ++ c2 :: t) in Hrun by (by rewrite <- (assoc_L (++))).
       rewrite (mac_digit_none (pre ++ [c1]) c2) in Hrun by (done || (rewrite ?length_app; simpl; lia)). done. }
  rewrite (mac_pair pre c1 c2 t dpre _ a b n sep E1 E2) in Hrun. apply hex_value_inv in E1 as (Ha & u & ->). apply hex_value_inv in E2 as (Hb & v & ->).
  set (x := (u, v, 16 * a + b) : letters). assert (Hx : pair_text x = [hex_char u a; hex_char v b]).
  { unfold pair_text, x. replace ((16 * a + b) / 16) with a by (apply (Z.div_unique _ _ _ b); lia). by replace ((16 * a + b) mod 16) with b by (apply (Z.mod_unique _ _ a); lia). }
  assert (Hxok : is_byte x.2) by (unfold is_byte, x; cbn; lia). destruct n as [| n].
  - rewrite (proj2 (Z.ltb_ge (Z.of_nat (length pre)) 15)), bind_ret in Hrun by lia. cbn [mac_loop] in Hrun. injection Hrun as <-.
    exists [x], t. split; [done |]. split; [by apply list.Forall_singleton |]. split; [| done]. change (mac_text sep [x]) with (pair_text x). by rewrite Hx.
  - rewrite (proj2 (Z.ltb_lt (Z.of_nat (length pre)) 15)) in Hrun by lia. destruct t as [| c t]; [simpl in Ht; lia |].
    replace (pre ++ hex_char u a :: hex_char v b :: c :: t) with ((pre ++ [hex_char u a; hex_char v b]) ++ c :: t) in Hrun by (by rewrite <- (assoc_L (++))).
    rewrite arr_get_app in Hrun by (rewrite length_app; simpl; lia). rewrite !bind_ret in Hrun. destruct (Z.eqb_spec c sep) as [-> |]; [cbn [negb] in Hrun | done].
    replace ((pre ++ [hex_char u a; hex_char v b]) ++ sep :: t) with ((pre ++ [hex_char u a; hex_char v b; sep]) ++ t) in Hrun by (by rewrite <- !(assoc_L (++))).
    replace (dpre ++ 16 * a + b :: replicate (S n) 0) with ((dpre ++ [16 * a + b]) ++ replicate (S n) 0) in Hrun by (by rewrite <- (assoc_L (++))).
    replace (Z.of_nat (length pre) + 3) with (Z.of_nat (length (pre ++ [hex_char u a; hex_char v b; sep]))) in Hrun by (rewrite length_app; simpl; lia).
    replace (Z.of_nat (length dpre) + 1) with (Z.of_nat (length (dpre ++ [16 * a + b]))) in Hrun by (rewrite length_app; simpl; lia).
    apply IH in Hrun as (l & post & Hl & Hlok & -> & ->); [| rewrite length_app; simpl; lia | rewrite !length_app; simpl; lia | simpl in Ht; lia].
    exists (x :: l), post. split; [simpl; by f_equal |]. split; [by apply list.Forall_cons_2 |]. split.
    + destruct l as [| y l]; [done |]. change (mac_text sep (x :: y :: l)) with (pair_text x ++ sep :: mac_text sep (y :: l)). by rewrite Hx.
    + by rewrite <- (assoc_L (++)).
Qed.

Lemma mac_text_length sep l : l <> [] -> S (length (mac_text sep l)) = (3 * length l)%nat.
Proof.
  induction l as [| [[u v] b] l IH]; [done |]. intros _. destruct l as [| y l]; [done |].
  change (mac_text sep ((u, v, b) :: y :: l)) with (pair_text (u, v, b) ++ sep :: mac_text sep (y :: l)). rewrite length_app. cbn [length pair_text].
  specialize (IH ltac:(done)). cbn [length] in IH |- *. lia.
Qed.

(** C31: A word is accepted as an address exactly if it starts with the text of six
    bytes, two digits each with the separator between them, and the bytes are
    those of the text; letters of either case are read. *)
Theorem get_mac_reads_addresses s rest dest sep d : no_nul s -> length dest = 6%nat ->
  get_mac (s ++ 0 :: rest) dest sep = Ret (false, d) <->
  exists l post, length l = 6%nat /\ octets_ok l /\ s = mac_text sep l ++ post /\ d = octets l.
Proof.
  intros Hs Hdest. unfold get_mac. rewrite strlen_list_app, bind_ret by done. split.
  - destruct (Z.ltb_spec (Z.of_nat (length s)) 17) as [| Hlen]; [done |].
    replace (mem_write dest 0 (replicate 6 0)) with (Ret (replicate 6 0)).
    2: { destruct dest as [| ? [| ? [| ? [| ? [| ? [| ? []]]]]]]; done. }
    rewrite bind_ret. intros Hrun. destruct (mac_loop_accepts sep 6 [] (s ++ 0 :: rest) [] d) as (l & post & Hl & Hlok & Ht & ->);
      [done | done | rewrite length_app; simpl; lia | exact Hrun |].
    assert (Hlt : (length (mac_text sep l) <= length s)%nat).
    { pose proof (mac_text_length sep l ltac:(by intros ->)). lia. }
    exists l, (drop (length (mac_text sep l)) s). split; [done |]. split; [done |]. split; [| done].
    assert (Htake : take (length (mac_text sep l)) s = mac_text sep l).
    { transitivity (take (length (mac_text sep l)) (s ++ 0 :: rest)); [by rewrite take_app_le | by rewrite Ht, take_app_length]. }
    rewrite <- Htake at 1. by rewrite take_drop.
  - intros (l & post & Hl & Hlok & -> & ->). pose proof (mac_text_length sep l ltac:(by intros ->)) as Hml.
    destruct (Z.ltb_spec (Z.of_nat (length (mac_text sep l ++ post))) 17) as [Hlt |]; [rewrite length_app in Hlt; lia |].
    replace (mem_write dest 0 (replicate 6 0)) with (Ret (replicate 6 0)).
    2: { destruct dest as [| ? [| ? [| ? [| ? [| ? [| ? []]]]]]]; done. }
    rewrite bind_ret, <- (assoc_L (++)). pose proof (mac_loop_reads sep l Hlok [] (post ++ 0 :: rest) []) as E. rewrite Hl in E. by apply E.
Qed.

(** ** Options *)

(** A lone dash among the words is answered with a question mark and not
    taken: a program that asks for options until there are none asks forever. *)
Theorem lone_dash_not_taken argv fmt s rest : 0 <= cli_optind s -> argv !! Z.to_nat (cli_optind s) = Some (45 :: 0 :: rest) ->
  cli_getopt argv fmt s = Ret (63, MkGetopt (cli_optind s) None).
Proof.
  intros Hs Ha. unfold cli_getopt. apply lookup_lt_Some in Ha as Hlt. destruct (Z.eqb_spec (cli_optind s) (Z.of_nat (length argv))); [lia |].
  cbn [cli_optind]. rewrite (proj2 (arr_get_ret argv (cli_optind s) (45 :: 0 :: rest))) by done. rewrite bind_ret. done.
Qed.

(** ** Examples and witnesses *)
Example number_wraps : get_uint (lit "4294967297" ++ [0]) 10 = Ret (Some 1).
Proof. vm_compute. reflexivity. Qed.
Example empty_word_is_zero : get_uint [0] 0 = Ret (Some 0).
Proof. vm_compute. reflexivity. Qed.
Example decimal_saturates : a2hex_or_atoi (lit "3000000000" ++ [0]) = Ret 2147483647.
Proof. vm_compute. reflexivity. Qed.
Example longer_address_accepted : get_mac (lit "02:00:5E:10:00:ff:99" ++ [0]) (replicate 6 7) 58 = Ret (false, [2; 0; 94; 16; 0; 255]).
Proof. vm_compute. reflexivity. Qed.

Lemma get_uint_reads_digits_witness : get_uint (lit "42" ++ [0]) 2 = Ret (Some 42).
Proof. exact (get_uint_reads_digits (lit "42") [0] ltac:(vm_compute; reflexivity)). Defined.

Lemma a2hex_reads_digits_witness : a2hex ([48; 120] ++ lit "Ff" ++ 0 :: []) = Ret 255.
Proof. apply (a2hex_reads_digits (Some false) (lit "Ff") 0 []); [reflexivity | reflexivity | lia | lia]. Defined.

Definition ex_octets : list letters := [(false, false, 2); (false, false, 0); (true, true, 94); (false, false, 16); (false, false, 0); (false, false, 255)].
Lemma get_mac_reads_addresses_witness : get_mac (lit "02:00:5E:10:00:ff" ++ 0 :: []) (replicate 6 7) 58 = Ret (false, [2; 0; 94; 16; 0; 255]).
Proof.
  apply (get_mac_reads_addresses (lit "02:00:5E:10:00:ff") [] (replicate 6 7) 58); [| reflexivity |].
  - repeat (apply list.Forall_cons_2; [discriminate |]). apply list.Forall_nil_2.
  - exists ex_octets, []. split; [reflexivity |]. split; [| split; [vm_compute; reflexivity | reflexivity]].
    repeat (apply list.Forall_cons_2; [unfold is_byte; cbn; lia |]). apply list.Forall_nil_2.
Defined.

Lemma lone_dash_not_taken_witness : cli_getopt [lit "x" ++ [0]; [45; 0]] (lit "a:" ++ [0]) (MkGetopt 1 None) = Ret (63, MkGetopt 1 None).
Proof. apply (lone_dash_not_taken [lit "x" ++ [0]; [45; 0]] (lit "a:" ++ [0]) (MkGetopt 1 None) []); [cbn; lia | reflexivity]. Defined.
