(* ===== verification/Rsn.v ===== *)
(** * The RSN element of an association request

    [wlan_update_rsn_ie] of [mlan_join.c] narrows the element of the access point
    to what the station chose: one cipher, one way of authentication and its own
    protection of management frames.  It works in the command buffer, on the
    element behind the header of its TLV, and gives back the new length. *)
From stdpp Require Import list.
From S2P Require Import Prelude ScanData.
Open Scope Z_scope.

(** ** Preferences *)
Definition cipher_preference : list Z := [0; 0; 1; 0; 2].
Definition PREFERENCE_TKIP : Z := 1.
Definition akm_preference : list Z := [0; 7; 1; 0; 3; 0; 2; 0; 5; 6; 0; 8; 9; 0; 0; 0; 0; 0; 4].

Definition AssocAgentAuth_Open : Z := 0.
Definition AssocAgentAuth_Wpa3Sae : Z := 6.
Definition AssocAgentAuth_Auto : Z := 7.

Definition MFPC_BIT : Z := 7.
Definition MFPR_BIT : Z := 6.
Definition PMF_MASK : Z := 0xc0.
Definition PAIRWISE_CIPHER_SUITE_LEN : Z := 4.
Definition AKM_SUITE_LEN : Z := 4.
Definition PMKID_LEN : Z := 16.
Definition GROUP_MGMT_CIPHER_SUITE_LEN : Z := 4.

(** [pmfcfg] of the interface: capable of protection, and requiring it. *)
Record pmf_cfg := MkPmf { mfpc : Z; mfpr : Z }.
Definition pmf_mask (c : pmf_cfg) : Z :=
  u16 (Z.lor (Z.lor (Z.shiftl (mfpc c) MFPC_BIT) (Z.shiftl (mfpr c) MFPR_BIT)) (Z.lnot PMF_MASK)).

(** ** Choice of a suite

    The loops over the suites at [ptr]: the counter has eight bits, the count
    sixteen. *)
Definition suite_fuel (m : list Z) : nat := S (length m).

(** The suite of the highest preference, the first of equals. *)
Definition better (table : list Z) (t selected id : Z) : outcome (Z * Z) :=
  if t <? Z.of_nat (length table) then
    p ← arr_get table t; Ret (if p >? selected then (p, t) else (selected, id))
  else Ret (selected, id).
Fixpoint best_suite (fuel : nat) (table m : list Z) (ptr i count selected id : Z) : outcome (Z * Z) :=
  if i <? count then
    match fuel with
    | O => Fault OutOfFuel
    | S fuel =>
        t ← arr_get m (ptr + 3);
        '(selected, id) ← better table t selected id;
        best_suite fuel table m (ptr + AKM_SUITE_LEN) (u8 (i + 1)) count selected id
    end
  else Ret (selected, id).

(** What the chosen authentication is for the firmware; others leave it open. *)
Definition auth_of_akm (akm_type akm_type_id : Z) : Z :=
  if existsb (Z.eqb akm_type_id) [6; 1; 11; 12; 2] then AssocAgentAuth_Open
  else if akm_type_id =? 8 then AssocAgentAuth_Wpa3Sae
  else akm_type.
Definition akm_matches (akm_type t : Z) : bool :=
  ((akm_type =? AssocAgentAuth_Open) && existsb (Z.eqb t) [6; 2; 1; 11; 12]) ||
  ((akm_type =? AssocAgentAuth_Wpa3Sae) && (t =? 8)).
(** The counter and the pointer at the end of the loop. *)
Fixpoint match_akm (fuel : nat) (m : list Z) (akm_type ptr i count : Z) : outcome (Z * Z) :=
  if i <? count then
    match fuel with
    | O => Fault OutOfFuel
    | S fuel =>
        t ← arr_get m (ptr + 3);
        if (t <? Z.of_nat (length akm_preference)) && akm_matches akm_type t then Ret (i, ptr)
        else match_akm fuel m akm_type (ptr + AKM_SUITE_LEN) (u8 (i + 1)) count
    end
  else Ret (i, ptr).

(** The new kind of authentication, the preference of the suite and the suite. *)
Definition select_akm (m : list Z) (akm_type ptr count : Z) : outcome (Z * Z * Z) :=
  if akm_type =? AssocAgentAuth_Auto then
    '(selected, id) ← best_suite (suite_fuel m) akm_preference m ptr 0 count 0 0;
    Ret (if selected =? 0 then akm_type else auth_of_akm akm_type id, selected, id)
  else
    '(i, ptr) ← match_akm (suite_fuel m) m akm_type ptr 0 count;
    if i =? count then Ret (akm_type, 0, 0)
    else t ← arr_get m (ptr + 3); selected ← arr_get akm_preference t; Ret (akm_type, selected, t).

(** ** Protection of management frames *)
Definition flag_set (cap bit : Z) : bool := Z.land cap (Z.shiftl 1 bit) =? Z.shiftl 1 bit.
Definition pmf_mismatch (c : pmf_cfg) (cap : Z) : bool :=
  let ap_mfpc := flag_set cap MFPC_BIT in
  let ap_mfpr := flag_set cap MFPR_BIT in
  (negb ap_mfpc && negb ap_mfpr && negb (mfpr c =? 0)) || (negb ap_mfpc && ap_mfpr) || (ap_mfpc && ap_mfpr && (mfpc c =? 0)).

(** ** The new element *)
Definition oui (t : Z) : list Z := [0; 15; 172; t].
(** [memmove] of what lies between [dst] and the end of the old element. *)
Definition move_rest (m : list Z) (dst src end_ptr : Z) : outcome (list Z) :=
  bs ← mem_read m src (end_ptr - dst); mem_write m dst bs.
(** The identifiers of keys and the cipher of management frames, from [ptr] on;
    the memory and the end of the element. *)
Definition compose_tail (m : list Z) (ptr pmkid_count : Z) (pmkid_list_ptr group_mgmt_cipher_suite_ptr : option Z) (end_ptr : Z) : outcome (list Z * Z) :=
  match pmkid_list_ptr, group_mgmt_cipher_suite_ptr with
  | None, None => Ret (m, ptr)
  | _, _ =>
      m ← mem_write m ptr (le16 pmkid_count);
      let ptr := ptr + 2 in
      '(m, ptr) ← (if pmkid_count =? 0 then Ret (m, ptr)
                   else
                     match pmkid_list_ptr with
                     | None => Fault NullPointer
                     | Some src => m ← move_rest m ptr src end_ptr; Ret (m, ptr + pmkid_count * PMKID_LEN)
                     end);
      match group_mgmt_cipher_suite_ptr with
      | None => Ret (m, ptr)
      | Some src => m ← move_rest m ptr src end_ptr; Ret (m, ptr + GROUP_MGMT_CIPHER_SUITE_LEN)
      end
  end.
(** From the count of ciphers to the capabilities. *)
Definition compose_fixed (m : list Z) (pairwise_cipher_count_ptr cipher akm prsn_cap : Z) : outcome (list Z * Z) :=
  let ptr := pairwise_cipher_count_ptr in
  m ← mem_write m ptr (le16 1);
  let ptr := ptr + 2 in
  m ← mem_write m ptr (oui cipher);
  let ptr := ptr + PAIRWISE_CIPHER_SUITE_LEN in
  m ← mem_write m ptr (le16 1);
  let ptr := ptr + 2 in
  m ← mem_write m ptr (oui akm);
  let ptr := ptr + AKM_SUITE_LEN in
  cap ← mem_read_le16 m prsn_cap;
  m ← mem_write m ptr (le16 cap);
  Ret (m, ptr + 2).

(** From the capabilities of the element on, once everything is chosen. *)
Definition replace_element (c : pmf_cfg) (m : list Z) (rsn_ie end_ptr pairwise_cipher_count_ptr cipher_selected_id akm_type akm_type_id prsn_cap cap : Z) :
    outcome (mlan_status * list Z * Z * Z) :=
  m ← mem_write m prsn_cap (le16 (Z.land (Z.lor cap PMF_MASK) (pmf_mask c)));
  let ptr := prsn_cap + 2 in
  '(pmkid_count, pmkid_list_ptr, ptr) ←
    (if end_ptr >=? ptr + 2 then n ← mem_read_le16 m ptr; Ret (n, Some (ptr + 2), ptr + 2 + n * PMKID_LEN) else Ret (0, None, ptr));
  let group_mgmt_cipher_suite_ptr := if (end_ptr >=? ptr + 4) && negb (Z.land (pmf_mask c) PMF_MASK =? 0) then Some ptr else None in
  '(m, ptr) ← compose_fixed m pairwise_cipher_count_ptr cipher_selected_id akm_type_id prsn_cap;
  '(m, ptr) ← compose_tail m ptr pmkid_count pmkid_list_ptr group_mgmt_cipher_suite_ptr end_ptr;
  Ret (MLAN_STATUS_SUCCESS, m, u16 (ptr - rsn_ie), akm_type).

(** ** The function: the status, the memory, the length and the kind of
    authentication.  The element is at [rsn_ie]. *)
Definition wlan_update_rsn_ie (c : pmf_cfg) (m : list Z) (rsn_ie rsn_ie_len akm_type : Z) : outcome (mlan_status * list Z * Z * Z) :=
  let end_ptr := rsn_ie + rsn_ie_len in
  let ptr := rsn_ie + 2 + 4 in
  let pairwise_cipher_count_ptr := ptr in
  pairwise_cipher_count ← mem_read_le16 m ptr;
  '(preference_selected, cipher_selected_id) ← best_suite (suite_fuel m) cipher_preference m (ptr + 2) 0 pairwise_cipher_count 0 0;
  if preference_selected =? 0 then Ret (MLAN_STATUS_FAILURE, m, rsn_ie_len, akm_type)
  else if (preference_selected =? PREFERENCE_TKIP) && (akm_type =? AssocAgentAuth_Wpa3Sae) then Ret (MLAN_STATUS_FAILURE, m, rsn_ie_len, akm_type)
  else
    let akm_type := if (preference_selected =? PREFERENCE_TKIP) && (akm_type =? AssocAgentAuth_Auto) then AssocAgentAuth_Open else akm_type in
    let ptr := rsn_ie + 2 + 4 + 2 + pairwise_cipher_count * PAIRWISE_CIPHER_SUITE_LEN in
    akm_suite_count ← mem_read_le16 m ptr;
    '(akm_type, akm_type_selected, akm_type_id) ← select_akm m akm_type (ptr + 2) akm_suite_count;
    if akm_type_selected =? 0 then Ret (MLAN_STATUS_FAILURE, m, rsn_ie_len, akm_type)
    else
      let ptr := rsn_ie + 2 + 4 + 2 + pairwise_cipher_count * PAIRWISE_CIPHER_SUITE_LEN + 2 + akm_suite_count * AKM_SUITE_LEN in
      let prsn_cap := ptr in
      cap ← mem_read_le16 m prsn_cap;
      if pmf_mismatch c cap then Ret (MLAN_STATUS_FAILURE, m, rsn_ie_len, akm_type)
      else
        replace_element c m rsn_ie end_ptr pairwise_cipher_count_ptr cipher_selected_id akm_type akm_type_id prsn_cap cap.
