(* ===== verification/RsnProps.v ===== *)
(** * The RSN element: what its functions compute

    An element as a value and its bytes; the choice of a suite as a function of
    the list of suites; the new element in memory. *)
From stdpp Require Import list.
From S2P Require Import Prelude ScanData Rsn.
Open Scope Z_scope.

(** ** Elements *)

(** A suite: three bytes of its organisation and its type. *)
Definition suite := (list Z * Z)%type.
Definition suite_bytes (s : suite) : list Z := s.1 ++ [s.2].
Definition suite_ok (s : suite) : Prop := length s.1 = 3%nat /\ is_byte s.2.
Abbreviation types := (fmap (fun s : suite => s.2)).
Definition rsn_suite (t : Z) : suite := ([0; 15; 172], t).

(** [r_group] and the version are not looked at; the identifiers of keys are
    absent or a list, behind which there may be a cipher for management frames. *)
Record rsn := MkRsn {
  r_version : list Z; r_group : list Z; r_ciphers : list suite; r_akms : list suite; r_caps : Z;
  r_pmkids : option (list (list Z)); r_mgmt : option (list Z)
}.
Abbreviation suites_bytes := (fun l : list suite => concat (suite_bytes <$> l)).
Definition tail_bytes (ids : option (list (list Z))) (g : option (list Z)) : list Z :=
  match ids with None => [] | Some l => le16 (Z.of_nat (length l)) ++ concat l ++ default [] g end.
Definition rsn_bytes (r : rsn) : list Z :=
  r_version r ++ r_group r ++ le16 (Z.of_nat (length (r_ciphers r))) ++ suites_bytes (r_ciphers r) ++
  le16 (Z.of_nat (length (r_akms r))) ++ suites_bytes (r_akms r) ++ le16 (r_caps r) ++ tail_bytes (r_pmkids r) (r_mgmt r).
Definition few {A} (l : list A) : Prop := (length l < 256)%nat.
Record rsn_ok (r : rsn) : Prop := {
  ok_version : length (r_version r) = 2%nat;
  ok_group : length (r_group r) = 4%nat;
  ok_ciphers : Forall suite_ok (r_ciphers r) /\ few (r_ciphers r);
  ok_akms : Forall suite_ok (r_akms r) /\ few (r_akms r);
  ok_caps : 0 <= r_caps r < 65536;
  ok_ids : match r_pmkids r with None => r_mgmt r = None | Some l => Forall (fun x => length x = 16%nat) l /\ few l end;
  ok_mgmt : match r_mgmt r with None => True | Some g => length g = 4%nat end
}.

Lemma suites_cons s l : concat (suite_bytes <$> s :: l) = suite_bytes s ++ suites_bytes l.
Proof. reflexivity. Qed.
Lemma suites_length l : Forall suite_ok l -> length (suites_bytes l) = (4 * length l)%nat.
Proof.
  induction 1 as [| s l [Hs _] _ IH]; [done |]. rewrite suites_cons. unfold suite_bytes at 1. rewrite !length_app, IH, Hs. simpl. lia.
Qed.
Lemma ids_length (l : list (list Z)) : Forall (fun x => length x = 16%nat) l -> length (concat l) = (16 * length l)%nat.
Proof. induction 1 as [| x l Hx _ IH]; [done |]. cbn [concat length]. rewrite length_app, IH, Hx. lia. Qed.

(** ** The choice *)
Definition preference (table : list Z) (t : Z) : Z := nth (Z.to_nat t) table 0.
Definition pick (table : list Z) (ts : list Z) (c : Z * Z) : Z * Z :=
  fold_left (fun c t => if preference table t >? c.1 then (preference table t, t) else c) ts c.
(** The first of the most preferred. *)
Definition chosen (table : list Z) (ts : list Z) (t : Z) : Prop :=
  exists before after, ts = before ++ t :: after /\ 0 < preference table t /\
    Forall (fun x => preference table x < preference table t) before /\ Forall (fun x => preference table x <= preference table t) after.

Lemma preference_beyond table t : Z.of_nat (length table) <= t -> preference table t = 0.
Proof. intros Ht. unfold preference. by rewrite nth_overflow by lia. Qed.

Lemma better_pick table t sel id : 0 <= t -> 0 <= sel ->
  better table t sel id = Ret (if preference table t >? sel then (preference table t, t) else (sel, id)).
Proof.
  intros Ht Hs. unfold better. destruct (Z.ltb_spec t (Z.of_nat (length table))) as [Hlt | Hge].
  - unfold preference. destruct (arr_get_total table t ltac:(lia)) as (x & -> & Hx). rewrite bind_ret.
    by rewrite (nth_lookup_Some _ _ _ _ Hx).
  - rewrite preference_beyond by done. by destruct (Z.gtb_spec 0 sel); [lia |].
Qed.

Lemma best_suite_pick table l : Forall suite_ok l -> Forall (fun x => 0 <= x) table -> forall pre post i count sel id fuel,
  0 <= i -> 0 <= sel -> i + Z.of_nat (length l) = count -> count < 256 -> (length l < fuel)%nat ->
  best_suite fuel table (pre ++ suites_bytes l ++ post) (Z.of_nat (length pre)) i count sel id = Ret (pick table (types l) (sel, id)).
Proof.
  intros Hl Htab. assert (Hnn : forall t, 0 <= preference table t).
  { intros t. unfold preference. destruct (nth_in_or_default (Z.to_nat t) table 0) as [Hin | ->]; [| done].
    by apply (proj1 (List.Forall_forall _ _) Htab). }
  induction Hl as [| s l [Hs Hb] Hl IH]; intros pre post i count sel id fuel Hi Hsel Hc Hlt Hf; destruct fuel as [| fuel]; [simpl in Hf; lia | | simpl in Hf; lia |].
  - cbn [best_suite]. destruct (Z.ltb_spec i count); [simpl in Hc; lia | done].
  - cbn [best_suite]. rewrite (proj2 (Z.ltb_lt i count)) by (simpl in Hc; lia). rewrite suites_cons.
    replace (pre ++ (suite_bytes s ++ suites_bytes l) ++ post) with ((pre ++ s.1) ++ s.2 :: suites_bytes l ++ post) by (unfold suite_bytes; by rewrite <- !(assoc_L (++))).
    rewrite arr_get_app by (rewrite length_app; lia). rewrite bind_ret, better_pick by (unfold is_byte in Hb; lia || done). rewrite bind_ret.
    replace ((pre ++ s.1) ++ s.2 :: suites_bytes l ++ post) with ((pre ++ suite_bytes s) ++ suites_bytes l ++ post) by (unfold suite_bytes; by rewrite <- !(assoc_L (++))).
    replace (Z.of_nat (length pre) + AKM_SUITE_LEN) with (Z.of_nat (length (pre ++ suite_bytes s)))
      by (unfold suite_bytes, AKM_SUITE_LEN; rewrite !length_app, Hs; simpl; lia).
    rewrite wrap_small by (simpl in Hc; lia). cbn [fmap list_fmap pick fold_left fst].
    destruct (preference table s.2 >? sel); cbn [length] in *; by rewrite IH by (lia || apply Hnn).
Qed.

Lemma pick_keeps table ts c : Forall (fun x => preference table x <= c.1) ts -> pick table ts c = c.
Proof.
  induction 1 as [| t ts Ht _ IH]; [done |]. cbn [pick fold_left]. destruct (Z.gtb_spec (preference table t) c.1); [lia |]. exact IH.
Qed.
Lemma pick_below table ts bound : forall c, c.1 < bound -> Forall (fun x => preference table x < bound) ts -> (pick table ts c).1 < bound.
Proof.
  induction ts as [| t ts IH]; intros c Hc Hts; [done |]. apply list.Forall_cons_1 in Hts as [Ht Hts]. cbn [pick fold_left].
  apply IH; [| done]. by destruct (preference table t >? c.1).
Qed.
Lemma pick_chosen table ts t : chosen table ts t -> pick table ts (0, 0) = (preference table t, t).
Proof.
  intros (before & after & -> & Hpos & Hb & Ha). unfold pick. rewrite fold_left_app. cbn [fold_left].
  pose proof (pick_below table before (preference table t) (0, 0) Hpos Hb) as Hlt. unfold pick in Hlt.
  destruct (Z.gtb_spec (preference table t) (fold_left (fun c x => if preference table x >? c.1 then (preference table x, x) else c) before (0, 0)).1); [| lia].
  by apply (pick_keeps table after).
Qed.
Lemma pick_none table ts : Forall (fun x => preference table x <= 0) ts -> pick table ts (0, 0) = (0, 0).
Proof. intros. by apply pick_keeps. Qed.
(** A preferred suite that is there makes a choice. *)
Lemma chosen_total table ts : Exists (fun x => 0 < preference table x) ts -> exists t, chosen table ts t.
Proof.
  induction ts as [| t ts IH] using rev_ind; intros He; [inversion He |].
  destruct (decide (Exists (fun x => 0 < preference table x) ts)) as [Hts | Hno].
  - destruct (IH Hts) as (u & before & after & -> & Hpos & Hb & Ha). destruct (Z.le_gt_cases (preference table t) (preference table u)) as [Hle | Hgt].
    + exists u, before, (after ++ [t]). split; [by rewrite <- (assoc_L (++)) |]. split; [done |]. split; [done |].
      apply list.Forall_app_2; [done | by apply list.Forall_singleton].
    + exists t, (before ++ u :: after), []. split; [done |]. split; [lia |]. split; [| apply list.Forall_nil_2].
      apply list.Forall_app_2; [| apply list.Forall_cons_2]; [| done |]; (eapply list.Forall_impl; [eassumption |]); intros x Hx; simpl in Hx; lia.
  - apply list.Exists_app in He as [He | He]; [done |]. apply List.Exists_cons in He as [He | He]; [| inversion He].
    exists t, ts, []. split; [done |]. split; [done |]. split; [| apply list.Forall_nil_2].
    apply list.Forall_forall. intros x Hx. destruct (Z.lt_ge_cases 0 (preference table x)) as [Hp |]; [| lia].
    destruct Hno. apply list.Exists_exists. eauto.
Qed.

(** ** The way of authentication *)

(** Whether [a] is what the code takes for [kind] of the suites [ts], and the
    kind afterwards. *)
Definition akm_choice (kind : Z) (ts : list Z) (a new_kind : Z) : Prop :=
  if kind =? AssocAgentAuth_Auto then chosen akm_preference ts a /\ new_kind = auth_of_akm kind a
  else new_kind = kind /\ exists before after, ts = before ++ a :: after /\ akm_matches kind a = true /\
         Forall (fun x => akm_matches kind x = false) before.

Lemma akm_matches_known kind t : akm_matches kind t = true -> 0 < preference akm_preference t /\ 0 <= t < Z.of_nat (length akm_preference).
Proof.
  unfold akm_matches. cbn [existsb]. intros H.
  assert (Ht : t = 6 \/ t = 2 \/ t = 1 \/ t = 11 \/ t = 12 \/ t = 8).
  { repeat (apply orb_true_iff in H as [H | H] || apply andb_true_iff in H as [? H]); try (apply Z.eqb_eq in H; lia); done. }
  by destruct Ht as [-> | [-> | [-> | [-> | [-> | ->]]]]].
Qed.
Lemma akm_guard kind t : (t <? Z.of_nat (length akm_preference)) && akm_matches kind t = akm_matches kind t.
Proof.
  destruct (akm_matches kind t) eqn:E; [| by rewrite andb_false_r]. apply akm_matches_known in E as [_ Ht].
  by rewrite (proj2 (Z.ltb_lt _ _) (proj2 Ht)).
Qed.
Lemma preferences_nonneg (b : bool) : Forall (fun x => 0 <= x) (if b then akm_preference else cipher_preference).
Proof. destruct b; repeat (apply list.Forall_cons_2; [lia |]); apply list.Forall_nil_2. Qed.

Lemma suites_app l1 l2 : concat (suite_bytes <$> (l1 ++ l2)) = suites_bytes l1 ++ suites_bytes l2.
Proof. rewrite fmap_app. apply concat_app. Qed.

Lemma match_akm_step kind s : suite_ok s -> forall pre post i count fuel, i < count ->
  match_akm (S fuel) (pre ++ suite_bytes s ++ post) kind (Z.of_nat (length pre)) i count =
    if akm_matches kind s.2 then Ret (i, Z.of_nat (length pre))
    else match_akm fuel ((pre ++ suite_bytes s) ++ post) kind (Z.of_nat (length (pre ++ suite_bytes s))) (u8 (i + 1)) count.
Proof.
  intros [Hs _] pre post i count fuel Hi. cbn [match_akm]. rewrite (proj2 (Z.ltb_lt i count)) by done.
  replace (pre ++ suite_bytes s ++ post) with ((pre ++ s.1) ++ s.2 :: post) at 1 by (unfold suite_bytes; by rewrite <- !(assoc_L (++))).
  rewrite arr_get_app by (rewrite length_app; lia). rewrite bind_ret, akm_guard.
  destruct (akm_matches kind s.2); [done |]. rewrite (assoc_L (++)). f_equal. unfold suite_bytes, AKM_SUITE_LEN. rewrite !length_app, Hs. simpl. lia.
Qed.

Lemma match_akm_past kind l : Forall suite_ok l -> Forall (fun x => akm_matches kind x = false) (types l) -> forall pre post i count fuel,
  0 <= i -> i + Z.of_nat (length l) <= count -> count < 256 -> (length l <= fuel)%nat ->
  match_akm fuel (pre ++ suites_bytes l ++ post) kind (Z.of_nat (length pre)) i count =
  match_akm (fuel - length l) ((pre ++ suites_bytes l) ++ post) kind (Z.of_nat (length (pre ++ suites_bytes l))) (i + Z.of_nat (length l)) count.
Proof.
  induction 1 as [| s l Hs Hl IH]; intros Hn pre post i count fuel Hi Hc Hlt Hf.
  - cbn [fmap list_fmap concat length]. rewrite app_nil_r, Nat.sub_0_r, Z.add_0_r. done.
  - cbn [fmap list_fmap] in Hn. apply list.Forall_cons_1 in Hn as [Hno Hn]. destruct fuel as [| fuel]; [simpl in Hf; lia |]. cbn [length] in *.
    rewrite suites_cons, <- !(assoc_L (++)), match_akm_step, Hno by (done || lia). rewrite wrap_small by lia.
    rewrite IH by (done || lia). cbn [Nat.sub]. rewrite <- !(assoc_L (++)). f_equal. lia.
Qed.

Lemma select_akm_chosen kind l a new pre post : Forall suite_ok l -> few l -> akm_choice kind (types l) a new ->
  select_akm (pre ++ suites_bytes l ++ post) kind (Z.of_nat (length pre)) (Z.of_nat (length l)) = Ret (new, preference akm_preference a, a) /\
  0 < preference akm_preference a.
Proof.
  intros Hl Hfew. unfold few in Hfew. unfold select_akm, akm_choice. set (m := pre ++ concat (suite_bytes <$> l) ++ post).
  assert (Hfuel : (length l < suite_fuel m)%nat) by (unfold suite_fuel, m; rewrite !length_app, (suites_length l Hl); lia).
  revert Hfuel. generalize (suite_fuel m). intros n Hn. unfold m. clear m.
  destruct (kind =? AssocAgentAuth_Auto) eqn:E; clear E.
  - intros [Hc ->]. rewrite best_suite_pick by (done || exact (preferences_nonneg true) || lia).
    rewrite (pick_chosen _ _ _ Hc), bind_ret. assert (Hpos : 0 < preference akm_preference a) by (destruct Hc as (? & ? & ? & ? & ?); done).
    split; [| done]. by rewrite (proj2 (Z.eqb_neq _ _)) by lia.
  - intros [-> (before & after & Hts & Hm & Hno)]. apply akm_matches_known in Hm as Hk. destruct Hk as [Hpos Ha]. split; [| done].
    apply fmap_app_inv in Hts as (lb & la & -> & Hafter & ->). destruct la as [| s la]; [done |]. cbn [fmap list_fmap] in Hafter.
    injection Hafter as -> ->. apply list.Forall_app in Hl as [Hlb Hla]. apply list.Forall_cons_1 in Hla as [Hs Hla].
    rewrite length_app in Hfew, Hn |- *. cbn [length] in Hfew, Hn |- *. rewrite suites_app, suites_cons, <- !(assoc_L (++)).
    rewrite match_akm_past by (done || lia). destruct (n - length lb)%nat as [| fuel] eqn:Ef; [lia |].
    rewrite match_akm_step, Hm by (done || lia). rewrite bind_ret. rewrite (proj2 (Z.eqb_neq _ _)) by lia.
    replace (pre ++ concat (suite_bytes <$> lb) ++ suite_bytes s ++ concat (suite_bytes <$> la) ++ post) with (((pre ++ suites_bytes lb) ++ s.1) ++ s.2 :: suites_bytes la ++ post)
      by (unfold suite_bytes; by rewrite <- !(assoc_L (++))).
    rewrite arr_get_app by (rewrite !length_app; destruct Hs; lia). rewrite bind_ret.
    destruct (arr_get_total akm_preference s.2 Ha) as (x & -> & Hx). rewrite bind_ret. unfold preference. by rewrite (nth_lookup_Some _ _ _ _ Hx).
Qed.

Definition akm_absent (kind : Z) (ts : list Z) : Prop :=
  if kind =? AssocAgentAuth_Auto then Forall (fun x => preference akm_preference x <= 0) ts else Forall (fun x => akm_matches kind x = false) ts.
Lemma select_akm_absent kind l pre post : Forall suite_ok l -> few l -> akm_absent kind (types l) ->
  select_akm (pre ++ suites_bytes l ++ post) kind (Z.of_nat (length pre)) (Z.of_nat (length l)) = Ret (kind, 0, 0).
Proof.
  intros Hl Hfew. unfold few in Hfew. unfold select_akm, akm_absent. set (m := pre ++ concat (suite_bytes <$> l) ++ post).
  assert (Hfuel : (length l < suite_fuel m)%nat) by (unfold suite_fuel, m; rewrite !length_app, (suites_length l Hl); lia).
  revert Hfuel. generalize (suite_fuel m). intros n Hn. unfold m. clear m. destruct (kind =? AssocAgentAuth_Auto) eqn:E; clear E; intros Ha.
  - rewrite best_suite_pick by (done || exact (preferences_nonneg true) || lia). by rewrite (pick_none _ _ Ha).
  - rewrite match_akm_past by (done || lia). destruct (n - length l)%nat as [| fuel] eqn:Ef; [lia |]. cbn [match_akm]. rewrite Z.add_0_l, Z.ltb_irrefl.
    rewrite bind_ret. by rewrite Z.eqb_refl.
Qed.

(** ** The new element in memory *)

(** What is moved to the front takes as many bytes along from behind. *)
Lemma move_rest_spec (A E B post : list Z) dst src end_ptr : (length E <= length post)%nat -> dst = Z.of_nat (length A) ->
  src = Z.of_nat (length (A ++ E)) -> end_ptr = Z.of_nat (length (A ++ E ++ B)) ->
  move_rest (A ++ E ++ B ++ post) dst src end_ptr = Ret (A ++ B ++ take (length E) post ++ post).
Proof.
  intros He -> -> ->. unfold move_rest.
  replace (A ++ E ++ B ++ post) with ((A ++ E) ++ (B ++ take (length E) post) ++ drop (length E) post) at 1
    by (rewrite <- !(assoc_L (++)); do 3 f_equal; apply take_drop).
  rewrite mem_read_app; [| done | rewrite !length_app, length_take; lia]. rewrite bind_ret.
  replace (A ++ E ++ B ++ post) with (A ++ (E ++ B) ++ post) by (by rewrite <- !(assoc_L (++))).
  rewrite (mem_write_app A (E ++ B)); [by rewrite <- !(assoc_L (++)) | done |]. rewrite !length_app, length_take. lia.
Qed.

Definition fixed_bytes (cipher akm cap : Z) : list Z := le16 1 ++ oui cipher ++ le16 1 ++ oui akm ++ le16 cap.
Lemma compose_fixed_spec (P X rest : list Z) cipher akm cap : (12 <= length X)%nat -> 0 <= cap < 65536 ->
  compose_fixed (P ++ X ++ le16 cap ++ rest) (Z.of_nat (length P)) cipher akm (Z.of_nat (length (P ++ X))) =
  Ret (P ++ fixed_bytes cipher akm cap ++ drop 14 (X ++ le16 cap) ++ rest, Z.of_nat (length P) + 14).
Proof.
  intros HX Hcap. unfold compose_fixed, PAIRWISE_CIPHER_SUITE_LEN, AKM_SUITE_LEN.
  rewrite mem_write_next by (done || (simpl; lia)). rewrite bind_ret.
  rewrite mem_write_next by (rewrite ?length_app, ?length_drop; simpl; lia). rewrite bind_ret.
  rewrite mem_write_next by (rewrite ?length_app, ?length_drop; simpl; lia). rewrite bind_ret.
  rewrite mem_write_next by (rewrite ?length_app, ?length_drop; simpl; lia). rewrite bind_ret.
  rewrite !drop_drop. set (Q := (((P ++ le16 1) ++ oui cipher) ++ le16 1) ++ oui akm).
  assert (HQ : length Q = (length P + 12)%nat) by (unfold Q; rewrite !length_app; simpl; lia).
  change (length (le16 1) + (length (oui cipher) + (length (le16 1) + length (oui akm))))%nat with 12%nat.
  unfold mem_read_le16. rewrite (assoc_L (++) Q), mem_read_app; [| rewrite !length_app, length_drop, HQ; lia | done].
  rewrite bind_ret, bind_ret, of_le16_le16, <- (assoc_L (++) Q) by done.
  rewrite (assoc_L (++) (drop 12 X)), mem_write_next; [| lia | rewrite length_app; simpl; lia]. rewrite bind_ret.
  rewrite <- (drop_app_le X (le16 cap) 12), drop_drop by lia. unfold Q, fixed_bytes. rewrite <- !(assoc_L (++)). do 2 f_equal. lia.
Qed.

(** The mask of the interface, and what it leaves of a cipher for management frames. *)
Definition protects (c : pmf_cfg) : bool := negb (Z.land (pmf_mask c) PMF_MASK =? 0).
Definition kept {A} (b : bool) (g : option A) : option A := if b then g else None.

(** The pointers to the identifiers and to the cipher, for an element whose
    capabilities end at [p]. *)
Definition ids_ptr (ids : option (list (list Z))) (p : Z) : option Z := match ids with None => None | Some _ => Some (p + 2) end.
Definition ids_count (ids : option (list (list Z))) : Z := match ids with None => 0 | Some l => Z.of_nat (length l) end.
Definition ids_end (ids : option (list (list Z))) (p : Z) : Z := match ids with None => p | Some l => p + 2 + Z.of_nat (length l) * PMKID_LEN end.
Definition mgmt_ptr (ids : option (list (list Z))) (g : option (list Z)) (p : Z) : option Z :=
  match ids, g with Some l, Some _ => Some (p + 2 + Z.of_nat (length l) * PMKID_LEN) | _, _ => None end.
Definition ids_ok (ids : option (list (list Z))) : Prop :=
  match ids with None => True | Some l => Forall (fun x => length x = 16%nat) l /\ few l end.

Lemma compose_tail_spec (H E post : list Z) ids g (b : bool) : ids_ok ids -> (ids = None -> g = None) -> (ids <> None -> length E <= length post)%nat ->
  match g with None => True | Some x => length x = 4%nat end ->
  (match ids with None | Some [] => True | _ => kept b g = None end) ->
  exists junk,
    compose_tail (H ++ E ++ tail_bytes ids g ++ post) (Z.of_nat (length H)) (ids_count ids)
      (ids_ptr ids (Z.of_nat (length (H ++ E)))) (mgmt_ptr ids (kept b g) (Z.of_nat (length (H ++ E)))) (Z.of_nat (length (H ++ E ++ tail_bytes ids g))) =
    Ret (H ++ tail_bytes ids (kept b g) ++ junk ++ post, Z.of_nat (length (H ++ tail_bytes ids (kept b g)))).
Proof.
  intros Hids Hnone Hroom Hg Htail. destruct ids as [l |]; cycle 1.
  { rewrite (Hnone eq_refl). exists E. by destruct b; cbn; rewrite app_nil_r. }
  specialize (Hroom ltac:(done)). destruct Hids as [Hl Hfew]. unfold few in Hfew. cbn [ids_ptr ids_count tail_bytes mgmt_ptr].
  set (n := Z.of_nat (length l)). set (G := default [] g). unfold compose_tail.
  assert (Hm : mem_write (H ++ E ++ (le16 n ++ concat l ++ G) ++ post) (Z.of_nat (length H)) (le16 n) =
               Ret ((H ++ le16 n) ++ drop 2 (E ++ le16 n) ++ (concat l ++ G) ++ post)).
  { rewrite <- (assoc_L (++) (le16 n)), (assoc_L (++) E), mem_write_next; [done | done | rewrite length_app; simpl; lia]. }
  set (E' := drop 2 (E ++ le16 n)) in *. assert (HE' : length E' = length E) by (unfold E'; rewrite length_drop, length_app; simpl; lia).
  assert (Hc : length (concat l) = (16 * length l)%nat) by (by apply ids_length).
  assert (Hcase : l = [] \/ l <> [] /\ kept b g = None) by (destruct l; [by left | by right]). clear Htail.
  destruct Hcase as [-> | [Hne ->]].
  - destruct (kept b g) as [x |] eqn:Ek.
    + assert (G = x) as -> by (unfold G, kept in *; destruct b, g; simplify_eq; done). rewrite Hm, bind_ret. change (n =? 0) with true. cbv iota. rewrite bind_ret. cbv beta iota. cbn [concat app] in *.
      exists (take (length E') post). rewrite (move_rest_spec (H ++ le16 n) E' x post).
      * rewrite bind_ret, <- !(assoc_L (++)). do 2 f_equal. assert (length x = 4%nat) by (unfold kept in Ek; destruct b; simplify_eq; done).
        unfold GROUP_MGMT_CIPHER_SUITE_LEN. rewrite !length_app. simpl. lia.
      * lia.
      * rewrite length_app. simpl. lia.
      * rewrite !length_app, HE'. unfold n, PMKID_LEN. simpl. lia.
      * rewrite !length_app, HE'. simpl. lia.
    + rewrite Hm, bind_ret. change (n =? 0) with true. cbv iota. rewrite bind_ret. cbv beta iota. cbn [concat app] in *. exists (E' ++ G). rewrite <- !(assoc_L (++)). do 2 f_equal.
      rewrite !length_app. simpl. lia.
  - rewrite Hm, bind_ret. rewrite (proj2 (Z.eqb_neq n 0)) by (unfold n; destruct l; [done | simpl; lia]). cbv iota.
    rewrite (move_rest_spec (H ++ le16 n) E' (concat l ++ G) post).
    + rewrite bind_ret, bind_ret. exists (G ++ take (length E') post). cbn [default from_option]. rewrite <- !(assoc_L (++)). cbn [app]. do 2 f_equal.
      unfold PMKID_LEN, n. rewrite !length_app, Hc. simpl. lia.
    + lia.
    + rewrite length_app. simpl. lia.
    + rewrite !length_app, HE'. simpl. lia.
    + rewrite !length_app, HE'. simpl. lia.
Qed.

(** Identifiers that were only announced. *)
Lemma compose_announced (H E post : list Z) n src : 0 < n -> (length E <= length post)%nat -> src = Z.of_nat (length (H ++ E)) + 2 ->
  exists m', compose_tail (H ++ E ++ le16 n ++ post) (Z.of_nat (length H)) n (Some src) None src = Ret (m', Z.of_nat (length H) + 2 + n * PMKID_LEN) /\
    length m' = length (H ++ E ++ le16 n ++ post).
Proof.
  intros Hn He ->. unfold compose_tail. rewrite (assoc_L (++) E), mem_write_next by (done || (rewrite length_app; simpl; lia)). rewrite bind_ret.
  rewrite (proj2 (Z.eqb_neq n 0)) by lia. set (E' := drop _ (E ++ le16 n)). assert (HE : length E' = length E) by (unfold E'; rewrite length_drop, length_app; simpl; lia).
  change (E' ++ post) with (E' ++ [] ++ post). rewrite (move_rest_spec (H ++ le16 n) E' [] post); [| lia | rewrite length_app; simpl; lia | |].
  - rewrite bind_ret, bind_ret. eexists. split; [done |]. rewrite !length_app, length_take, HE. simpl. lia.
  - rewrite !length_app, HE. simpl. lia.
  - rewrite app_nil_r, !length_app, HE. simpl. lia.
Qed.
