(* ===== verification/RsnTheorems.v ===== *)
(** * The RSN element of an association request: theorems *)
From stdpp Require Import list.
From S2P Require Import Prelude ScanData Rsn RsnProps.
Open Scope Z_scope.

(** ** The element of the station *)

(** What is sent instead of [r]: the chosen suites alone, the bits of protection
    the interface has, the identifiers of keys, and the cipher for management
    frames when the interface protects them. *)
Definition narrow (c : pmf_cfg) (r : rsn) (cipher akm : Z) : rsn :=
  MkRsn (r_version r) (r_group r) [rsn_suite cipher] [rsn_suite akm] (Z.land (Z.lor (r_caps r) PMF_MASK) (pmf_mask c)) (r_pmkids r) (kept (protects c) (r_mgmt r)).

(** The kind of authentication the search for a suite starts from. *)
Definition kind_for (cipher kind : Z) : Z :=
  if (preference cipher_preference cipher =? PREFERENCE_TKIP) && (kind =? AssocAgentAuth_Auto) then AssocAgentAuth_Open else kind.
Definition tkip_with_sae (cipher kind : Z) : bool :=
  (preference cipher_preference cipher =? PREFERENCE_TKIP) && (kind =? AssocAgentAuth_Wpa3Sae).
(** Both the identifiers and the cipher behind them are moved only one at a time. *)
Definition one_move (c : pmf_cfg) (r : rsn) : Prop :=
  match r_pmkids r with None | Some [] => True | _ => kept (protects c) (r_mgmt r) = None end.
(** The bytes behind the element that its parts take along when they move. *)
Definition behind (r : rsn) : nat := (4 * (length (r_ciphers r) + length (r_akms r)) - 8)%nat.

Lemma chosen_nonempty table ts t : chosen table ts t -> (0 < length ts)%nat.
Proof. intros (before & after & -> & _). rewrite length_app. simpl. lia. Qed.
Lemma akm_nonempty kind ts a new : akm_choice kind ts a new -> (0 < length ts)%nat.
Proof.
  unfold akm_choice. destruct (kind =? _); [intros [H _]; by eapply chosen_nonempty |]. intros (_ & before & after & -> & _). rewrite length_app. simpl. lia.
Qed.
Lemma pmf_mask_range c : 0 <= pmf_mask c < 65536.
Proof. apply wrap_range. lia. Qed.
Lemma land_range x y : 0 <= y < 65536 -> 0 <= Z.land x y < 65536.
Proof.
  intros Hy. rewrite <- (Z.mod_small y (2 ^ 16)) by lia. rewrite <- Z.land_ones, Z.land_assoc, Z.land_ones by lia. apply Z.mod_pos_bound. lia.
Qed.
Lemma mem_read_le16_in (m X Y : list Z) v p : m = X ++ le16 v ++ Y -> p = Z.of_nat (length X) -> 0 <= v < 65536 -> mem_read_le16 m p = Ret v.
Proof. intros -> -> Hv. unfold mem_read_le16. rewrite mem_read_app by done. rewrite bind_ret. by rewrite of_le16_le16. Qed.
Lemma mem_write_in (m X old Y bs : list Z) p : m = X ++ old ++ Y -> p = Z.of_nat (length X) -> length old = length bs -> mem_write m p bs = Ret (X ++ bs ++ Y).
Proof. intros -> -> Hl. by apply mem_write_app. Qed.
Lemma best_cipher_any m X l Y p : m = X ++ concat (suite_bytes <$> l) ++ Y -> p = Z.of_nat (length X) -> Forall suite_ok l -> few l ->
  best_suite (suite_fuel m) cipher_preference m p 0 (Z.of_nat (length l)) 0 0 = Ret (pick cipher_preference (types l) (0, 0)).
Proof.
  intros -> -> Hl Hf. unfold few in Hf. apply best_suite_pick; [done | exact (preferences_nonneg false) | lia.. |].
  unfold suite_fuel. rewrite !length_app, (suites_length l Hl). lia.
Qed.
Lemma best_cipher_in m X l Y p t : m = X ++ concat (suite_bytes <$> l) ++ Y -> p = Z.of_nat (length X) -> Forall suite_ok l -> few l ->
  chosen cipher_preference (types l) t ->
  best_suite (suite_fuel m) cipher_preference m p 0 (Z.of_nat (length l)) 0 0 = Ret (preference cipher_preference t, t).
Proof. intros. erewrite best_cipher_any by done. by rewrite (pick_chosen _ _ t). Qed.
Lemma best_cipher_none m X l Y p : m = X ++ concat (suite_bytes <$> l) ++ Y -> p = Z.of_nat (length X) -> Forall suite_ok l -> few l ->
  Forall (fun t => preference cipher_preference t <= 0) (types l) ->
  best_suite (suite_fuel m) cipher_preference m p 0 (Z.of_nat (length l)) 0 0 = Ret (0, 0).
Proof. intros. erewrite best_cipher_any by done. by rewrite pick_none. Qed.
Lemma select_akm_in m X l Y p kind a new : m = X ++ concat (suite_bytes <$> l) ++ Y -> p = Z.of_nat (length X) -> Forall suite_ok l -> few l ->
  akm_choice kind (types l) a new -> select_akm m kind p (Z.of_nat (length l)) = Ret (new, preference akm_preference a, a) /\ 0 < preference akm_preference a.
Proof. intros -> ->. apply select_akm_chosen. Qed.

Lemma select_akm_none m X l Y p kind : m = X ++ concat (suite_bytes <$> l) ++ Y -> p = Z.of_nat (length X) -> Forall suite_ok l -> few l ->
  akm_absent kind (types l) -> select_akm m kind p (Z.of_nat (length l)) = Ret (kind, 0, 0).
Proof. intros -> ->. apply select_akm_absent. Qed.

(** The count of identifiers, where the element is long enough to have one. *)
Lemma read_ids (m X post : list Z) ids g p end_ptr : m = X ++ tail_bytes ids g ++ post -> p = Z.of_nat (length X) ->
  end_ptr = Z.of_nat (length (X ++ tail_bytes ids g)) -> ids_ok ids ->
  (if end_ptr >=? p + 2 then n ← mem_read_le16 m p; Ret (n, Some (p + 2), p + 2 + n * PMKID_LEN) else Ret (0, None, p)) =
  Ret (ids_count ids, ids_ptr ids p, ids_end ids p).
Proof.
  intros -> -> -> Hok. destruct ids as [l |]; cbn [tail_bytes].
  - destruct Hok as [_ Hf]. unfold few in Hf. rewrite (proj2 (Z.geb_le _ _)) by (rewrite !length_app; simpl; lia).
    rewrite <- !(assoc_L (++)), (mem_read_le16_in _ X (concat l ++ default [] g ++ post) (Z.of_nat (length l))) by (done || lia). done.
  - rewrite app_nil_r. destruct (Z.geb_spec (Z.of_nat (length X)) (Z.of_nat (length X) + 2)); [lia | done].
Qed.
(** Where the cipher for management frames is looked for. *)
Lemma read_mgmt (X : list Z) ids g b end_ptr : end_ptr = Z.of_nat (length (X ++ tail_bytes ids g)) -> ids_ok ids -> (ids = None -> g = None) ->
  match g with None => True | Some x => length x = 4%nat end ->
  let p := ids_end ids (Z.of_nat (length X)) in
  (if (end_ptr >=? p + 4) && b then Some p else None) = mgmt_ptr ids (kept b g) (Z.of_nat (length X)).
Proof.
  intros -> Hok Hnone Hg. destruct ids as [l |]; cbn [tail_bytes mgmt_ptr ids_end].
  - destruct Hok as [Hl _]. cbv zeta. destruct b; cbn [kept]; [| by rewrite andb_false_r]. rewrite andb_true_r, !length_app, (ids_length l Hl). unfold PMKID_LEN.
    destruct g as [x |]; cbn [default from_option length le16]; unfold id.
    + rewrite (proj2 (Z.geb_le _ _)) by lia. done.
    + destruct (Z.geb_spec (Z.of_nat (length X + (2 + (16 * length l + 0)))) (Z.of_nat (length X) + 2 + Z.of_nat (length l) * 16 + 4)); [lia | done].
  - cbv zeta. rewrite app_nil_r. destruct (Z.geb_spec (Z.of_nat (length X)) (Z.of_nat (length X) + 4)); [lia | done].
Qed.

(** ** What the function reads of a well-formed element *)
Section reading.
Context (r : rsn) (pre post : list Z) (Hok : rsn_ok r).
Let n := Z.of_nat (length (r_ciphers r)).
Let k := Z.of_nat (length (r_akms r)).
Let C := concat (suite_bytes <$> r_ciphers r).
Let A := concat (suite_bytes <$> r_akms r).
Let T := tail_bytes (r_pmkids r) (r_mgmt r).
Let P := pre ++ r_version r ++ r_group r.
Let M := le16 n ++ C ++ le16 k ++ A.
Let m := pre ++ rsn_bytes r ++ post.
Let at0 := Z.of_nat (length pre).

Lemma rsn_split : m = P ++ M ++ le16 (r_caps r) ++ T ++ post.
Proof. unfold m, P, M, rsn_bytes. fold C A n k T. by rewrite <- !(assoc_L (++)). Qed.
Lemma head_length : Z.of_nat (length P) = at0 + 2 + 4.
Proof. unfold P, at0. destruct Hok. rewrite !length_app. lia. Qed.
Lemma ciphers_length : length C = (4 * length (r_ciphers r))%nat.
Proof. apply suites_length, Hok. Qed.
Lemma akms_length : length A = (4 * length (r_akms r))%nat.
Proof. apply suites_length, Hok. Qed.
Lemma mid_length : length M = (4 + 4 * length (r_ciphers r) + 4 * length (r_akms r))%nat.
Proof. unfold M. rewrite !length_app, ciphers_length, akms_length. simpl. lia. Qed.
Lemma counts_small : n < 256 /\ k < 256.
Proof. unfold n, k. destruct Hok as [_ _ [_ Hc] [_ Ha] _ _ _]. unfold few in Hc, Ha. lia. Qed.
Lemma end_at : at0 + Z.of_nat (length (rsn_bytes r)) = Z.of_nat (length (P ++ M ++ le16 (r_caps r) ++ T)).
Proof. unfold at0, P, M, rsn_bytes. fold C A n k T. rewrite !length_app. lia. Qed.

Ltac lengths := pose proof head_length; pose proof counts_small; unfold PAIRWISE_CIPHER_SUITE_LEN, AKM_SUITE_LEN; unfold n, k;
  rewrite ?length_app, ?mid_length, ?ciphers_length, ?akms_length; cbn [length le16]; lia.
Ltac layout := rewrite rsn_split; unfold M; by rewrite <- !(assoc_L (++)).

Lemma cipher_count_read : mem_read_le16 m (at0 + 2 + 4) = Ret n.
Proof. apply (mem_read_le16_in _ P (C ++ le16 k ++ A ++ le16 (r_caps r) ++ T ++ post)); [layout | lengths..]. Qed.
Lemma cipher_read t : chosen cipher_preference (types (r_ciphers r)) t ->
  best_suite (suite_fuel m) cipher_preference m (at0 + 2 + 4 + 2) 0 n 0 0 = Ret (preference cipher_preference t, t).
Proof.
  intros Ht. apply (best_cipher_in _ (P ++ le16 n) _ (le16 k ++ A ++ le16 (r_caps r) ++ T ++ post)); [layout | lengths | apply Hok.. | done].
Qed.
Lemma akm_count_read : mem_read_le16 m (at0 + 2 + 4 + 2 + n * PAIRWISE_CIPHER_SUITE_LEN) = Ret k.
Proof. apply (mem_read_le16_in _ (P ++ le16 n ++ C) (A ++ le16 (r_caps r) ++ T ++ post)); [layout | lengths..]. Qed.
Lemma akm_read kind a new : akm_choice kind (types (r_akms r)) a new ->
  select_akm m kind (at0 + 2 + 4 + 2 + n * PAIRWISE_CIPHER_SUITE_LEN + 2) k = Ret (new, preference akm_preference a, a) /\ 0 < preference akm_preference a.
Proof.
  intros Ha. apply (select_akm_in _ (P ++ le16 n ++ C ++ le16 k) _ (le16 (r_caps r) ++ T ++ post)); [layout | lengths | apply Hok.. | done].
Qed.
Lemma cipher_none_read : Forall (fun t => preference cipher_preference t <= 0) (types (r_ciphers r)) ->
  best_suite (suite_fuel m) cipher_preference m (at0 + 2 + 4 + 2) 0 n 0 0 = Ret (0, 0).
Proof.
  intros Hn. apply (best_cipher_none _ (P ++ le16 n) _ (le16 k ++ A ++ le16 (r_caps r) ++ T ++ post)); [layout | lengths | apply Hok.. | done].
Qed.
Lemma akm_none_read kind : akm_absent kind (types (r_akms r)) -> select_akm m kind (at0 + 2 + 4 + 2 + n * PAIRWISE_CIPHER_SUITE_LEN + 2) k = Ret (kind, 0, 0).
Proof.
  intros Ha. apply (select_akm_none _ (P ++ le16 n ++ C ++ le16 k) _ (le16 (r_caps r) ++ T ++ post)); [layout | lengths | apply Hok.. | done].
Qed.
Definition caps_ptr : Z := Z.of_nat (length (P ++ M)).
Lemma caps_at : at0 + 2 + 4 + 2 + n * PAIRWISE_CIPHER_SUITE_LEN + 2 + k * AKM_SUITE_LEN = caps_ptr.
Proof. unfold caps_ptr. lengths. Qed.
Lemma caps_read : mem_read_le16 m caps_ptr = Ret (r_caps r).
Proof. apply (mem_read_le16_in _ (P ++ M) (T ++ post)); [layout | done | apply Hok]. Qed.
Lemma caps_write cap : mem_write m caps_ptr (le16 cap) = Ret (P ++ M ++ le16 cap ++ T ++ post).
Proof. rewrite (mem_write_in _ (P ++ M) (le16 (r_caps r)) (T ++ post)); [by rewrite <- !(assoc_L (++)) | layout | done..]. Qed.
End reading.

(** The new element: its fixed part and its tail. *)
Lemma narrow_bytes c r cipher akm : rsn_bytes (narrow c r cipher akm) =
  (r_version r ++ r_group r) ++ fixed_bytes cipher akm (Z.land (Z.lor (r_caps r) PMF_MASK) (pmf_mask c)) ++
  tail_bytes (r_pmkids r) (kept (protects c) (r_mgmt r)).
Proof. unfold rsn_bytes, narrow, fixed_bytes. cbn [r_version r_group r_ciphers r_akms r_caps r_pmkids r_mgmt]. by rewrite <- !(assoc_L (++)). Qed.

(** Both parts are written from where the count of ciphers was. *)
Lemma compose_spec (P M post : list Z) ids g b cipher akm cap : (12 <= length M)%nat -> 0 <= cap < 65536 ->
  ids_ok ids -> (ids = None -> g = None) -> (ids <> None -> length M - 12 <= length post)%nat ->
  match g with None => True | Some x => length x = 4%nat end -> match ids with None | Some [] => True | _ => kept b g = None end ->
  let X := P ++ M ++ le16 cap in
  exists junk,
    ('(m, ptr) ← compose_fixed (P ++ M ++ le16 cap ++ tail_bytes ids g ++ post) (Z.of_nat (length P)) cipher akm (Z.of_nat (length (P ++ M)));
     compose_tail m ptr (ids_count ids)
      (ids_ptr ids (Z.of_nat (length X))) (mgmt_ptr ids (kept b g) (Z.of_nat (length X))) (Z.of_nat (length (X ++ tail_bytes ids g)))) =
    Ret (P ++ fixed_bytes cipher akm cap ++ tail_bytes ids (kept b g) ++ junk ++ post,
         Z.of_nat (length (P ++ fixed_bytes cipher akm cap ++ tail_bytes ids (kept b g)))).
Proof.
  intros HM Hcap Hids Hnone Hroom Hg Hone X. rewrite compose_fixed_spec by done. rewrite bind_ret. cbv beta iota.
  set (H := P ++ fixed_bytes cipher akm cap). set (E := drop 14 (M ++ le16 cap)).
  assert (HE : length E = (length M - 12)%nat) by (unfold E; rewrite length_drop, length_app; simpl; lia).
  assert (HX : length X = length (H ++ E)) by (unfold X, H; rewrite !length_app, HE; simpl; lia).
  destruct (compose_tail_spec H E post ids g b) as [junk Hj]; [done | done | rewrite HE; done | done | done |].
  exists junk. replace (P ++ fixed_bytes cipher akm cap ++ E ++ tail_bytes ids g ++ post) with (H ++ E ++ tail_bytes ids g ++ post)
    by (unfold H; by rewrite <- !(assoc_L (++))).
  replace (Z.of_nat (length P) + 14) with (Z.of_nat (length H)) by (unfold H; rewrite length_app; simpl; lia).
  replace (length (X ++ tail_bytes ids g)) with (length (H ++ E ++ tail_bytes ids g)) by (rewrite (assoc_L (++) H), !(length_app _ (tail_bytes ids g)); lia).
  rewrite HX, Hj. unfold H. by rewrite <- !(assoc_L (++)).
Qed.

Lemma narrow_small c r cipher akm : rsn_ok r -> Z.of_nat (length (rsn_bytes (narrow c r cipher akm))) < 65536.
Proof.
  intros [Hv Hg _ _ _ Hids Hm]. rewrite narrow_bytes, !length_app, Hv, Hg. change (length (fixed_bytes _ _ _)) with 14%nat.
  destruct (r_pmkids r) as [l |]; cbn [tail_bytes]; [| simpl; lia]. destruct Hids as [Hl Hf]. unfold few in Hf. rewrite !length_app, (ids_length l Hl).
  destruct (protects c), (r_mgmt r); cbn [kept default from_option length le16]; unfold id; lia.
Qed.

(** The choice alone, whatever follows the capabilities. *)
Lemma choice_made c r kind cipher akm new pre post len : rsn_ok r -> chosen cipher_preference (types (r_ciphers r)) cipher ->
  tkip_with_sae cipher kind = false -> akm_choice (kind_for cipher kind) (types (r_akms r)) akm new -> pmf_mismatch c (r_caps r) = false ->
  wlan_update_rsn_ie c (pre ++ rsn_bytes r ++ post) (Z.of_nat (length pre)) len kind =
  replace_element c (pre ++ rsn_bytes r ++ post) (Z.of_nat (length pre)) (Z.of_nat (length pre) + len) (Z.of_nat (length pre) + 2 + 4) cipher new akm
    (caps_ptr r pre) (r_caps r).
Proof.
  intros Hok Hcipher Htkip Hakm Hpmf. unfold wlan_update_rsn_ie.
  rewrite cipher_count_read, bind_ret, (cipher_read r pre post Hok cipher Hcipher), bind_ret by done. cbv beta iota.
  assert (Hpos : 0 < preference cipher_preference cipher) by (destruct Hcipher as (? & ? & ? & ? & ?); done).
  rewrite (proj2 (Z.eqb_neq _ 0)) by lia. fold (tkip_with_sae cipher kind). rewrite Htkip. fold (kind_for cipher kind).
  rewrite akm_count_read, bind_ret by done. destruct (akm_read r pre post Hok _ _ _ Hakm) as [-> Hapos]. rewrite bind_ret. cbv beta iota.
  rewrite (proj2 (Z.eqb_neq _ 0)) by lia. rewrite (caps_at r pre Hok). by rewrite (caps_read r pre post Hok), bind_ret, Hpmf.
Qed.

(** The counts are positive where something was chosen. *)
Lemma mid_enough r kind cipher akm new : rsn_ok r -> chosen cipher_preference (types (r_ciphers r)) cipher -> akm_choice kind (types (r_akms r)) akm new ->
  (12 <= 4 + 4 * length (r_ciphers r) + 4 * length (r_akms r))%nat.
Proof.
  intros Hok Hc Ha. apply chosen_nonempty in Hc. apply akm_nonempty in Ha. rewrite length_fmap in Hc, Ha. lia.
Qed.

(** The memory keeps its length. *)
Lemma compose_tail_length m ptr n ids g end_ptr m' p : compose_tail m ptr n ids g end_ptr = Ret (m', p) -> length m' = length m.
Proof.
  unfold compose_tail, move_rest. intros E. destruct ids as [i |], g as [j |]; try (destruct (n =? 0)); outcome_inv; simplify_eq; try done;
    repeat match goal with H : mem_write _ _ _ = Ret _ |- _ => apply mem_write_length in H end; congruence.
Qed.
Lemma replace_element_length c m rsn_ie end_ptr pc cipher kind akm prsn cap st m' len k :
  replace_element c m rsn_ie end_ptr pc cipher kind akm prsn cap = Ret (st, m', len, k) -> length m' = length m.
Proof.
  unfold replace_element, compose_fixed. intros E. apply bind_inv in E as (m1 & E1 & E). apply bind_inv in E as ([[n ids] ptr] & _ & E).
  apply bind_inv in E as ([m2 p2] & E2 & E). apply bind_inv in E as ([m3 p3] & E3 & E). injection E as <- <- <- <-.
  apply compose_tail_length in E3. outcome_inv. simplify_eq. repeat match goal with H : mem_write _ _ _ = Ret _ |- _ => apply mem_write_length in H end. congruence.
Qed.

(** ** The choice is made and carried out *)

Lemma narrowed_in_place c r kind cipher akm new pre post : rsn_ok r -> chosen cipher_preference (types (r_ciphers r)) cipher ->
  tkip_with_sae cipher kind = false -> akm_choice (kind_for cipher kind) (types (r_akms r)) akm new -> pmf_mismatch c (r_caps r) = false ->
  one_move c r -> (r_pmkids r <> None -> (behind r <= length post)%nat) ->
  exists junk,
    wlan_update_rsn_ie c (pre ++ rsn_bytes r ++ post) (Z.of_nat (length pre)) (Z.of_nat (length (rsn_bytes r))) kind =
    Ret (MLAN_STATUS_SUCCESS, pre ++ rsn_bytes (narrow c r cipher akm) ++ junk ++ post, Z.of_nat (length (rsn_bytes (narrow c r cipher akm))), new).
Proof.
  intros Hok Hcipher Htkip Hakm Hpmf Hone Hroom. erewrite choice_made by done. unfold replace_element. rewrite caps_write, bind_ret by done.
  unfold caps_ptr. set (P := pre ++ r_version r ++ r_group r). set (M := le16 _ ++ _). set (cap := Z.land (Z.lor _ _) _). set (T := tail_bytes _ _).
  assert (Hcap : 0 <= cap < 65536) by (apply land_range, pmf_mask_range).
  assert (Hids : ids_ok (r_pmkids r)) by (pose proof (ok_ids r Hok); by destruct (r_pmkids r)).
  assert (Hnone : r_pmkids r = None -> r_mgmt r = None) by (pose proof (ok_ids r Hok) as H; intros E; by rewrite E in H).
  pose proof (ok_mgmt r Hok) as Hm. assert (HX : Z.of_nat (length (P ++ M)) + 2 = Z.of_nat (length (P ++ M ++ le16 cap))) by (rewrite !length_app; simpl; lia).
  pose proof (end_at r pre) as Hend. fold P M T in Hend.
  assert (Hend' : Z.of_nat (length pre) + Z.of_nat (length (rsn_bytes r)) = Z.of_nat (length ((P ++ M ++ le16 cap) ++ T)))
    by (rewrite Hend, !length_app; simpl; lia).
  rewrite HX, Hend', (read_ids _ (P ++ M ++ le16 cap) post (r_pmkids r) (r_mgmt r)) by (done || by rewrite <- !(assoc_L (++))). rewrite bind_ret.
  pose proof (read_mgmt (P ++ M ++ le16 cap) (r_pmkids r) (r_mgmt r) (protects c) _ eq_refl Hids Hnone Hm) as Hmg. cbv zeta in Hmg.
  fold T in Hmg. fold (protects c). cbv beta iota. rewrite Hmg. pose proof (mid_enough _ _ _ _ _ Hok Hcipher Hakm) as HM.
  destruct (compose_spec P M post (r_pmkids r) (r_mgmt r) (protects c) cipher akm cap) as [junk Hj]; try done.
  - unfold M. by rewrite mid_length.
  - intros Hi. unfold M. rewrite mid_length by done. specialize (Hroom Hi). unfold behind in Hroom. lia.
  - pose proof (head_length r pre Hok) as Hh. fold P in Hh. exists junk. rewrite <- Hh. fold T in Hj.
    destruct (compose_fixed _ _ _ _ _) as [[m' p'] | f]; [| done]. cbn [mbind outcome_bind] in Hj |- *. rewrite Hj. cbn [mbind outcome_bind].
    pose proof (narrow_small c r cipher akm Hok) as Hs. rewrite narrow_bytes in Hs |- *. fold cap in Hs |- *. unfold P in *. rewrite <- !(assoc_L (++)) in *.
    rewrite wrap_small by (rewrite !length_app in *; lia). do 2 f_equal. f_equal. rewrite !length_app in *. lia.
Qed.

Lemma narrowed_length c r kind cipher akm new pre post : rsn_ok r -> chosen cipher_preference (types (r_ciphers r)) cipher ->
  tkip_with_sae cipher kind = false -> akm_choice (kind_for cipher kind) (types (r_akms r)) akm new -> pmf_mismatch c (r_caps r) = false ->
  one_move c r -> (r_pmkids r <> None -> (behind r <= length post)%nat) ->
  exists junk, (length (rsn_bytes (narrow c r cipher akm)) + length junk = length (rsn_bytes r))%nat /\
    wlan_update_rsn_ie c (pre ++ rsn_bytes r ++ post) (Z.of_nat (length pre)) (Z.of_nat (length (rsn_bytes r))) kind =
    Ret (MLAN_STATUS_SUCCESS, pre ++ rsn_bytes (narrow c r cipher akm) ++ junk ++ post, Z.of_nat (length (rsn_bytes (narrow c r cipher akm))), new).
Proof.
  intros Hok Hc Ht Ha Hp Hone Hroom. destruct (narrowed_in_place c r kind cipher akm new pre post) as [junk Hj]; [done.. |]. exists junk.
  split; [| exact Hj]. pose proof Hj as Hl. rewrite (choice_made c r kind cipher akm new) in Hl by done. apply replace_element_length in Hl.
  rewrite !length_app in Hl. lia.
Qed.

(** C10: For a well-formed element with a cipher and a way of authentication that
    suit the station, [wlan_update_rsn_ie] leaves in its place the element with
    these two suites alone, with the protection bits of the interface, the
    listed identifiers and the cipher for management frames if the interface
    protects them; it gives the new length and kind of authentication, and
    touches nothing before or behind the old element. The element does not have
    both key identifiers and a cipher for management frames that is kept
    ([one_move]: of these one is lost, [management_cipher_lost]), and where it has
    a count of identifiers there is as much memory behind it as it loses suites
    ([behind]). *)
Theorem rsn_narrowed c r kind cipher akm new pre post : rsn_ok r -> chosen cipher_preference (types (r_ciphers r)) cipher ->
  tkip_with_sae cipher kind = false -> akm_choice (kind_for cipher kind) (types (r_akms r)) akm new -> pmf_mismatch c (r_caps r) = false ->
  one_move c r -> (r_pmkids r <> None -> (behind r <= length post)%nat) ->
  exists junk, (length (rsn_bytes (narrow c r cipher akm)) + length junk = length (rsn_bytes r))%nat /\
    wlan_update_rsn_ie c (pre ++ rsn_bytes r ++ post) (Z.of_nat (length pre)) (Z.of_nat (length (rsn_bytes r))) kind =
    Ret (MLAN_STATUS_SUCCESS, pre ++ rsn_bytes (narrow c r cipher akm) ++ junk ++ post, Z.of_nat (length (rsn_bytes (narrow c r cipher akm))), new).
Proof. apply narrowed_length. Qed.
Lemma rsn_narrowed_witness :
  let r := MkRsn [1; 0] [0; 15; 172; 4] [rsn_suite 2; rsn_suite 4] [rsn_suite 2; rsn_suite 8] 0x8c (Some [replicate 16 7]) None in
  rsn_ok r /\ exists junk, (length (rsn_bytes (narrow (MkPmf 1 0) r 4 8)) + length junk = length (rsn_bytes r))%nat /\
    wlan_update_rsn_ie (MkPmf 1 0) ([48; 44] ++ rsn_bytes r ++ replicate 20 0) 2 (Z.of_nat (length (rsn_bytes r))) AssocAgentAuth_Auto =
    Ret (MLAN_STATUS_SUCCESS, [48; 44] ++ rsn_bytes (narrow (MkPmf 1 0) r 4 8) ++ junk ++ replicate 20 0,
         Z.of_nat (length (rsn_bytes (narrow (MkPmf 1 0) r 4 8))), AssocAgentAuth_Wpa3Sae).
Proof.
  assert (Hr : rsn_ok (MkRsn [1; 0] [0; 15; 172; 4] [rsn_suite 2; rsn_suite 4] [rsn_suite 2; rsn_suite 8] 0x8c (Some [replicate 16 7]) None)).
  { split; cbn [r_version r_group r_ciphers r_akms r_caps r_pmkids r_mgmt]; [done | done | | | lia | | done];
      (split; [| unfold few; simpl; lia]); repeat (apply list.Forall_cons_2; [done |]); apply list.Forall_nil_2. }
  split; [exact Hr |]. apply (rsn_narrowed (MkPmf 1 0) _ AssocAgentAuth_Auto 4 8 AssocAgentAuth_Wpa3Sae [48; 44]); try done.
  - exists [2], []. repeat split; repeat constructor.
  - split; [| done]. exists [2], []. repeat split; repeat constructor.
  - intros _. vm_compute. lia.
Defined.

(** C39: an element without a suite the station prefers, with TKIP where SAE was
    asked for, without a way of authentication that fits, or whose protection of
    management frames contradicts that of the interface is refused: the memory
    and the length stay as they are. *)
Theorem rsn_refused c r kind pre post len : rsn_ok r ->
  Forall (fun t => preference cipher_preference t <= 0) (types (r_ciphers r)) \/
  (exists cipher, chosen cipher_preference (types (r_ciphers r)) cipher /\
     (tkip_with_sae cipher kind = true \/
      akm_absent (kind_for cipher kind) (types (r_akms r)) \/
      exists akm new, akm_choice (kind_for cipher kind) (types (r_akms r)) akm new /\ pmf_mismatch c (r_caps r) = true)) ->
  exists kind', wlan_update_rsn_ie c (pre ++ rsn_bytes r ++ post) (Z.of_nat (length pre)) len kind =
    Ret (MLAN_STATUS_FAILURE, pre ++ rsn_bytes r ++ post, len, kind').
Proof.
  intros Hok Hcase. unfold wlan_update_rsn_ie. rewrite cipher_count_read, bind_ret by done.
  destruct Hcase as [Hnone | (cipher & Hcipher & Hcase)].
  { rewrite (cipher_none_read r pre post Hok Hnone), bind_ret. by exists kind. }
  rewrite (cipher_read r pre post Hok cipher Hcipher), bind_ret. cbv beta iota.
  assert (Hpos : 0 < preference cipher_preference cipher) by (destruct Hcipher as (? & ? & ? & ? & ?); done).
  rewrite (proj2 (Z.eqb_neq _ 0)) by lia. fold (tkip_with_sae cipher kind). destruct (tkip_with_sae cipher kind) eqn:Htkip; [by exists kind |].
  destruct Hcase as [? | Hcase]; [done |]. fold (kind_for cipher kind). rewrite akm_count_read, bind_ret by done.
  destruct Hcase as [Habsent | (akm & new & Hakm & Hpmf)].
  - rewrite (akm_none_read r pre post Hok _ Habsent), bind_ret. by exists (kind_for cipher kind).
  - destruct (akm_read r pre post Hok _ _ _ Hakm) as [-> Hapos]. rewrite bind_ret. cbv beta iota. rewrite (proj2 (Z.eqb_neq _ 0)) by lia.
    rewrite (caps_at r pre Hok), (caps_read r pre post Hok), bind_ret, Hpmf. by exists new.
Qed.
Ltac suites_fine := split; cbn [r_version r_group r_ciphers r_akms r_caps r_pmkids r_mgmt]; [done | done | | | lia | done | done];
  (split; [| unfold few; simpl; lia]); repeat (apply list.Forall_cons_2; [done |]); apply list.Forall_nil_2.
Lemma rsn_refused_witness :
  let r := MkRsn [1; 0] [0; 15; 172; 4] [rsn_suite 2; rsn_suite 4] [rsn_suite 2] 0xc0 None None in
  exists kind', wlan_update_rsn_ie (MkPmf 0 0) ([48; 20] ++ rsn_bytes r ++ [9; 9]) 2 20 AssocAgentAuth_Open =
    Ret (MLAN_STATUS_FAILURE, [48; 20] ++ rsn_bytes r ++ [9; 9], 20, kind').
Proof.
  apply (rsn_refused (MkPmf 0 0) (MkRsn [1; 0] [0; 15; 172; 4] [rsn_suite 2; rsn_suite 4] [rsn_suite 2] 0xc0 None None) AssocAgentAuth_Open [48; 20]).
  - suites_fine.
  - right. exists 4. split; [exists [2], []; repeat split; repeat constructor |]. right. right. exists 2, AssocAgentAuth_Open.
    split; [| done]. split; [done |]. exists [], []. repeat split; repeat constructor.
Defined.

(** ** The count of identifiers is believed *)

(** C38: an element that ends with a count of identifiers and none of them is
    taken to have them: the length that comes back is that of the identifiers
    announced, wherever the element ended. *)
Theorem rsn_count_trusted c r kind cipher akm new n pre post : rsn_ok r -> r_pmkids r = None ->
  chosen cipher_preference (types (r_ciphers r)) cipher -> tkip_with_sae cipher kind = false ->
  akm_choice (kind_for cipher kind) (types (r_akms r)) akm new -> pmf_mismatch c (r_caps r) = false -> 0 < n < 65536 -> (behind r <= length post)%nat ->
  exists m', wlan_update_rsn_ie c (pre ++ rsn_bytes r ++ le16 n ++ post) (Z.of_nat (length pre)) (Z.of_nat (length (rsn_bytes r)) + 2) kind =
    Ret (MLAN_STATUS_SUCCESS, m', u16 (22 + 16 * n), new) /\ length m' = length (pre ++ rsn_bytes r ++ le16 n ++ post).
Proof.
  intros Hok Hids Hcipher Htkip Hakm Hpmf Hn Hroom. erewrite choice_made by done. unfold replace_element. rewrite caps_write, bind_ret by done.
  pose proof (end_at r pre) as Hend. pose proof (rsn_split r pre (le16 n ++ post)) as Hsplit. pose proof (head_length r pre Hok) as Hh.
  rewrite Hsplit. unfold caps_ptr. rewrite Hids in Hend |- *. cbn [tail_bytes app] in Hend |- *. rewrite app_nil_r in Hend.
  pose proof (mid_enough _ _ _ _ _ Hok Hcipher Hakm) as HM. pose proof (mid_length r pre Hok) as HM'. revert Hend Hh HM'.
  set (P := pre ++ r_version r ++ r_group r). set (M := le16 _ ++ _). set (cap := Z.land (Z.lor _ _) _). intros Hend Hh HM'. clearbody P M.
  assert (Hcap : 0 <= cap < 65536) by (apply land_range, pmf_mask_range).
  set (X := Z.of_nat (length (P ++ M))) in *. assert (HX : Z.of_nat (length (P ++ M ++ le16 cap)) = X + 2) by (unfold X; rewrite !length_app; simpl; lia).
  assert (He : Z.of_nat (length pre) + (Z.of_nat (length (rsn_bytes r)) + 2) = X + 2 + 2) by (unfold X in *; rewrite !length_app in *; simpl in *; lia).
  rewrite He. rewrite (proj2 (Z.geb_le _ _)) by lia.
  rewrite (mem_read_le16_in _ (P ++ M ++ le16 cap) post n) by (by rewrite <- ?(assoc_L (++)) || lia). rewrite bind_ret, bind_ret. cbv beta iota.
  replace (X + 2 + 2 >=? X + 2 + 2 + n * PMKID_LEN + 4) with false by (symmetry; unfold PMKID_LEN; destruct (Z.geb_spec (X + 2 + 2) (X + 2 + 2 + n * 16 + 4)); [lia | done]).
  cbn [andb]. rewrite <- Hh. unfold X at 1. rewrite compose_fixed_spec, bind_ret by (done || lia). cbv beta iota.
  set (E := drop 14 (M ++ le16 cap)). assert (HE : length E = (length M - 12)%nat) by (unfold E; rewrite length_drop, length_app; simpl; lia).
  set (H := P ++ fixed_bytes cipher akm cap). assert (HH : Z.of_nat (length P) + 14 = Z.of_nat (length H)) by (unfold H; rewrite length_app; simpl; lia).
  destruct (compose_announced H E post n (X + 2 + 2)) as (m' & Hm' & Hl); [lia | unfold behind in Hroom; lia | unfold X, H; rewrite !length_app, HE; simpl; lia |].
  replace (P ++ fixed_bytes cipher akm cap ++ E ++ le16 n ++ post) with (H ++ E ++ le16 n ++ post) by (unfold H; by rewrite <- !(assoc_L (++))).
  fold X.   rewrite HH, Hm', bind_ret. exists m'. split; [| rewrite Hl; unfold H; rewrite !length_app, HE; simpl; lia].
  do 2 f_equal. f_equal. f_equal. unfold PMKID_LEN. lia.
Qed.
Lemma rsn_count_trusted_witness :
  let r := MkRsn [1; 0] [0; 15; 172; 4] [rsn_suite 4] [rsn_suite 2] 0 None None in
  exists m', wlan_update_rsn_ie (MkPmf 0 0) ([48; 22] ++ rsn_bytes r ++ le16 200 ++ []) 2 22 AssocAgentAuth_Open =
    Ret (MLAN_STATUS_SUCCESS, m', 3222, AssocAgentAuth_Open) /\ length m' = length ([48; 22] ++ rsn_bytes r ++ le16 200 ++ []).
Proof.
  apply (rsn_count_trusted (MkPmf 0 0) (MkRsn [1; 0] [0; 15; 172; 4] [rsn_suite 4] [rsn_suite 2] 0 None None) AssocAgentAuth_Open 4 2
    AssocAgentAuth_Open 200 [48; 22] []); try done.
  - suites_fine.
  - exists [], []. repeat split; repeat constructor.
  - split; [done |]. exists [], []. repeat split; repeat constructor.
Defined.

(** An identifier and two ciphers: the first move takes four bytes from behind
    the element to the place the cipher for management frames is then read from. *)
Definition guarded : rsn :=
  MkRsn [1; 0] [0; 15; 172; 4] [rsn_suite 4; rsn_suite 2] [rsn_suite 8] 0xc0 (Some [replicate 16 7]) (Some [0; 15; 172; 6]).
Example management_cipher_lost :
  match wlan_update_rsn_ie (MkPmf 1 0) ([48; 50] ++ rsn_bytes guarded ++ [241; 242; 243; 244] ++ replicate 20 0) 2 50 AssocAgentAuth_Auto with
  | Ret (s, m, len, kind) => (s, len, kind, mem_read m 2 42)
  | Fault f => (MLAN_STATUS_FAILURE, 0, 0, Fault f)
  end =
  (MLAN_STATUS_SUCCESS, 42, AssocAgentAuth_Wpa3Sae, Ret (rsn_bytes (MkRsn [1; 0] [0; 15; 172; 4] [rsn_suite 4] [rsn_suite 8] 0x80 (Some [replicate 16 7]) (Some [241; 242; 243; 244])))).
Proof. vm_compute. reflexivity. Qed.
(** Suites of another organisation are taken for those of the standard. *)
Example foreign_suite_taken :
  match wlan_update_rsn_ie (MkPmf 0 0) ([48; 20] ++ rsn_bytes (MkRsn [1; 0] [0; 15; 172; 4] [([0; 64; 150], 4)] [([0; 64; 150], 2)] 0 None None)) 2 20 AssocAgentAuth_Open with
  | Ret (s, m, len, kind) => (s, mem_read m 2 20)
  | Fault f => (MLAN_STATUS_FAILURE, Fault f)
  end = (MLAN_STATUS_SUCCESS, Ret (rsn_bytes (MkRsn [1; 0] [0; 15; 172; 4] [rsn_suite 4] [rsn_suite 2] 0 None None))).
Proof. vm_compute. reflexivity. Qed.
(** Fast transition is the most preferred but not one the firmware is told of. *)
Example fast_transition_preferred :
  select_akm (suite_bytes (rsn_suite 2) ++ suite_bytes (rsn_suite 9)) AssocAgentAuth_Auto 0 2 = Ret (AssocAgentAuth_Auto, 6, 9).
Proof. vm_compute. reflexivity. Qed.
