(* ===== verification/HtCap.v ===== *)
(** * Capabilities in an association request

    The elements for 802.11n ([mlan_11n.c]) and 802.11ac ([mlan_11ac.c]) that an
    association request carries: what the access point announced, with the
    capabilities of the station put in. *)
From stdpp Require Import list.
From S2P Require Import Prelude Cfp ScanData ScanParse ScanFind.
Open Scope Z_scope.

(** ** Constants *)
Definition BW_20MHZ : Z := 0.
Definition BW_40MHZ : Z := 1.
Definition BW_FOLLOW_VHTCAP : Z := 1.
Definition VHT_OPER_CHWD_80MHZ : Z := 1.
Definition NO_NSS_SUPPORT : Z := 3.
Definition SEC_CHAN_ABOVE : Z := 1.
Definition AMPDU_FACTOR_64K : Z := 3.
Definition NUM_MCS_FIELD : Z := 16.
Definition TLV_TYPE_CHANLIST : Z := 0x101.
Definition HOTSPOT_ENABLED : Z := 1.

(** [MBIT(n)] set in or cleared from a word, and looked for in it. *)
Definition MBIT (n : Z) : Z := Z.shiftl 1 n.
Definition set_to (n : Z) (on : bool) (x : Z) : Z := if on then Z.lor x (MBIT n) else Z.land x (Z.lnot (MBIT n)).
Definition has_bit (x n : Z) : bool := negb (Z.land x (MBIT n) =? 0).

Definition ISSUPP_11NENABLED (c : Z) : bool := has_bit c 11.
Definition ISSUPP_11ACENABLED (c : Z) : bool := negb (Z.land c (Z.lor (MBIT 12) (MBIT 13)) =? 0).
Definition ISSUPP_CHANWIDTH40 (c : Z) : bool := has_bit c 17.

(** ** The fields of the adapter and of the interface *)
Record cap_adapter := MkCap {
  fw_cap_info : Z;
  hw_dot_11n_dev_cap : Z;
  usr_dot_11n_dev_cap_bg : Z;
  usr_dot_11n_dev_cap_a : Z;
  usr_dev_mcs_support : Z;
  usr_dot_11ac_dev_cap_bg : Z;
  usr_dot_11ac_dev_cap_a : Z;
  usr_dot_11ac_mcs_support : Z;   (* t_u32: receive in the low half *)
  usr_dot_11ac_bw : Z;
  usr_dot_11ac_opermode_bw : Z;
  usr_dot_11ac_opermode_nss : Z;
  adhoc_start_band : Z;
  cap_channels : cfp_adapter
}.
Definition set_usr_bg (x : Z) (a : cap_adapter) : cap_adapter :=
  MkCap (fw_cap_info a) (hw_dot_11n_dev_cap a) x (usr_dot_11n_dev_cap_a a) (usr_dev_mcs_support a) (usr_dot_11ac_dev_cap_bg a)
    (usr_dot_11ac_dev_cap_a a) (usr_dot_11ac_mcs_support a) (usr_dot_11ac_bw a) (usr_dot_11ac_opermode_bw a)
    (usr_dot_11ac_opermode_nss a) (adhoc_start_band a) (cap_channels a).
Record cap_private := MkCapPriv { cp_bss_mode : mlan_bss_mode; cp_config_bands : Z; tx_bf_cap : Z; hotspot_cfg : Z }.
Definition ibss (p : cap_private) : bool := bool_decide (cp_bss_mode p = MLAN_BSS_MODE_IBSS).

Definition usr_dot_11n_dev_cap (a : cap_adapter) (bss_band : Z) : Z :=
  if has_band bss_band BAND_A then usr_dot_11n_dev_cap_a a else usr_dot_11n_dev_cap_bg a.

(** ** HT capabilities: bytes of [HTCap_t] *)
Record HTCap_t := MkHT { ht_cap_info : Z; ampdu_param : Z; supported_mcs_set : list Z; ht_ext_cap : Z; ht_tx_bf_cap : list Z; asel : Z }.
Definition read_ht (bs : list Z) : HTCap_t :=
  MkHT (of_le16 (take 2 bs)) (nth 2 bs 0) (take 16 (drop 3 bs)) (of_le16 (take 2 (drop 19 bs))) (take 4 (drop 21 bs)) (nth 25 bs 0).
Definition ht_bytes (h : HTCap_t) : list Z :=
  le16 (ht_cap_info h) ++ [ampdu_param h] ++ supported_mcs_set h ++ le16 (ht_ext_cap h) ++ ht_tx_bf_cap h ++ [asel h].
Definition sizeof_HTCap : Z := 26.
Definition le32 (z : Z) : list Z := [u8 z; u8 (Z.shiftr z 8); u8 (Z.shiftr z 16); u8 (Z.shiftr z 24)].

(** [wlan_fill_cap_info]: [usr] the capability of the band, [info] what was in
    the field. *)
Definition fill_cap_info (usr hw info : Z) : Z :=
  let info := set_to 1 (has_bit usr 17) info in
  let info := set_to 12 (has_bit usr 17) info in
  let info := set_to 4 (has_bit usr 29) info in
  let info := set_to 5 (has_bit usr 23) info in
  let info := set_to 6 (has_bit usr 24) info in
  let info := if has_bit usr 26 then Z.lor info (Z.shiftl 1 8) else Z.land info (Z.lnot (Z.shiftl 3 8)) in
  let info := set_to 14 (has_bit usr 8) info in
  let info := set_to 0 (has_bit usr 22) info in
  let info := set_to 7 (has_bit usr 25) info in
  let info := set_to 10 false info in
  let info := set_to 11 false info in
  if has_bit hw 27 then Z.land info (Z.lnot (Z.lor (MBIT 2) (MBIT 3))) else Z.lor info (Z.lor (MBIT 2) (MBIT 3)).
Definition mcs_set (rx_mcs_supp : Z) (width40 : bool) : list Z :=
  let s := replicate (Z.to_nat rx_mcs_supp) 255 ++ replicate (Z.to_nat (NUM_MCS_FIELD - rx_mcs_supp)) 0 in
  if width40 then <[4%nat := Z.lor (nth 4 s 0) 1]> s else s.
Definition wlan_fill_ht_cap_tlv (a : cap_adapter) (p : cap_private) (h : HTCap_t) (bss_band : Z) : HTCap_t :=
  let usr := usr_dot_11n_dev_cap a bss_band in
  let info := fill_cap_info usr (hw_dot_11n_dev_cap a) (ht_cap_info h) in
  let ampdu := Z.lor (Z.land (ampdu_param h) (Z.lnot 3)) (Z.land AMPDU_FACTOR_64K 3) in
  let ampdu := Z.lor (Z.land ampdu (Z.lnot 0x1c)) (Z.shiftl (Z.land 5 7) 2) in
  let mcs := mcs_set (Z.land (usr_dev_mcs_support a) 0xf) (ISSUPP_CHANWIDTH40 usr) in
  MkHT info ampdu mcs (set_to 11 false (ht_ext_cap h)) (le32 (tx_bf_cap p)) (asel h).

(** ** Whether the region has the channels of 40 MHz

    [pht_info] is the element of the access point, null when it has none. *)
Definition GET_SECONDARYCHAN (field2 : Z) : Z := Z.land field2 3.
Fixpoint cover_pri_chan (n : nat) (a : cfp_adapter) (pcfp : option cfp_pointer) (pri_chan i : Z) : outcome bool :=
  match n with
  | O => Ret false
  | S n =>
      match pcfp with
      | None => Fault NullPointer
      | Some q => e ← arr_get (deref a q) i; if pri_chan =? CfpTables.channel e then Ret true else cover_pri_chan n a pcfp pri_chan (i + 1)
      end
  end.
Definition wlan_check_chan_width_ht40_by_region (a : cap_adapter) (bss_band : Z) (pht_info : option (list Z)) : outcome bool :=
  match pht_info with
  | None => Ret false
  | Some b =>
      pri_chan ← arr_get b 2;
      field2 ← arr_get b 3;
      let chan_offset := GET_SECONDARYCHAN field2 in
      rc ← arr_get (region_channel (cap_channels a)) 0;
      if has_band bss_band (bands [BAND_B; BAND_G]) && valid rc then
        cover ← cover_pri_chan (Z.to_nat (num_cfp rc)) (cap_channels a) (pcfp rc) pri_chan 0;
        if negb cover then Ret false
        else if (chan_offset =? SEC_CHAN_ABOVE) && (pri_chan >? u32 (num_cfp rc - 4)) then Ret false
        else Ret true
      else Ret true
  end.

(** ** TLVs in the command buffer: the memory and the place behind them *)
Definition put_tlv (m : list Z) (pos type : Z) (value : list Z) : outcome (list Z * Z) :=
  m ← mem_write m pos (le16 type ++ le16 (Z.of_nat (length value)) ++ value); Ret (m, pos + 4 + Z.of_nat (length value)).

Definition wlan_band_to_radio_type (band : Z) : Z :=
  if (band =? BAND_A) || (band =? BAND_AN) || (band =? bands [BAND_A; BAND_AN]) then 1 else 0.

(** Extended capabilities: bits 0, 31 and 37. *)
Definition sizeof_ExtCap : Z := 10.
Definition or_byte (m : list Z) (p x : Z) : outcome (list Z) := b ← arr_get m p; arr_set m p (Z.lor b x).
Definition hotspot_bits (hotspot_cfg : Z) (m : list Z) (p : Z) : outcome (list Z) :=
  let ind := u8 (Z.shiftr hotspot_cfg 8) in
  m ← (if has_bit ind 0 then or_byte m (p + 3) 128 else Ret m);
  if has_bit ind 1 then or_byte m (p + 4) 32 else Ret m.
Definition wlan_add_ext_capa_info_ie (p : cap_private) (m : list Z) (pos : Z) : outcome (list Z * Z) :=
  m ← mem_write m pos (le16 (element_number EXT_CAPABILITY) ++ le16 sizeof_ExtCap ++ replicate 10 0);
  m ← hotspot_bits (hotspot_cfg p) m (pos + 4);
  Ret (m, pos + 14).
(** [pext_cap]: the element of the access point, of which as much is copied as it
    says it has. *)
Definition put_ext_cap (p : cap_private) (m : list Z) (pos : Z) (pext_cap : list Z) : outcome (list Z * Z) :=
  m ← mem_write m pos (le16 (element_number EXT_CAPABILITY) ++ le16 sizeof_ExtCap ++ replicate 10 0);
  len ← arr_get pext_cap 1;
  bs ← mem_read pext_cap 2 len;
  m ← mem_write m (pos + 4) bs;
  m ← or_byte m (pos + 4) 1;
  m ← (if negb (Z.land (hotspot_cfg p) HOTSPOT_ENABLED =? 0) then hotspot_bits (hotspot_cfg p) m (pos + 4) else Ret m);
  Ret (m, pos + 14).

(** ** [wlan_11ac_bandconfig_allowed]: 0 for not allowed *)
Definition wlan_11ac_bandconfig_allowed (a : cap_adapter) (p : cap_private) (bss_band : Z) : Z :=
  let b := if ibss p then adhoc_start_band a else cp_config_bands p in
  if has_band bss_band BAND_G then Z.land b BAND_GAC else if has_band bss_band BAND_A then Z.land b BAND_AAC else 0.

(** ** [wlan_cmd_append_11n_tlv] *)

(** The state it works on: the buffer, the adapter, and the bandwidth in the
    descriptor. *)
Record cap_state := MkCs { cs_mem : list Z; cs_pos : Z; cs_adapter : cap_adapter; curr_bandwidth : Z }.
Definition at_tlv (r : list Z * Z) (s : cap_state) : cap_state := MkCs r.1 r.2 (cs_adapter s) (curr_bandwidth s).
Definition set_bandwidth (b : Z) (s : cap_state) : cap_state := MkCs (cs_mem s) (cs_pos s) (cs_adapter s) b.
Definition set_cs_adapter (a : cap_adapter) (s : cap_state) : cap_state := MkCs (cs_mem s) (cs_pos s) a (curr_bandwidth s).

(** The elements of the access point that the pointers of its descriptor lead to. *)
Record ap_elements := MkAp {
  pht_cap : option (list Z); pht_info : option (list Z); pbss_co_2040 : option (list Z); pext_cap : option (list Z);
  pvht_cap : option (list Z); pvht_oprat : option (list Z)
}.
Definition ap_elements_of (t : list BSSDescriptor_t) (e : BSSDescriptor_t) : outcome ap_elements :=
  h ← pointed t HtCap e; i ← pointed t HtInfo e; c ← pointed t BssCo2040 e; x ← pointed t ExtCap e;
  v ← pointed t VhtCap e; o ← pointed t VhtOprat e; Ret (MkAp h i c x v o).

(** 40 MHz not in the region, or 2.4 GHz: the user's capabilities without bit 8,
    what they were, or 0, the adapter and whether the bandwidth becomes 20 MHz. *)
Definition force_20 (bss_band : Z) (x : ap_elements) (a : cap_adapter) : outcome (Z * Z * cap_adapter * bool) :=
  let usr := usr_dot_11n_dev_cap a bss_band in
  outside ← (if has_band bss_band (bands [BAND_B; BAND_G; BAND_A]) && ISSUPP_CHANWIDTH40 usr then
               ok ← wlan_check_chan_width_ht40_by_region a bss_band (pht_info x); Ret (negb ok)
             else Ret false);
  if (outside : bool) || has_band bss_band (bands [BAND_B; BAND_G; BAND_GN]) then
    let cleared := set_to 8 false usr in Ret (cleared, usr, set_usr_bg cleared a, true)
  else Ret (usr, 0, a, false).

Definition ht_cap_value (a : cap_adapter) (p : cap_private) (bss_band usr : Z) (b : list Z) : outcome (list Z) :=
  bs ← mem_read b 2 sizeof_HTCap;
  let h := read_ht bs in
  let info := if negb (ISSUPP_CHANWIDTH40 usr) then Z.land (ht_cap_info h) (Z.lnot (Z.lor (MBIT 1) (MBIT 6))) else ht_cap_info h in
  let h := MkHT info (ampdu_param h) (supported_mcs_set h) (ht_ext_cap h) (ht_tx_bf_cap h) (asel h) in
  Ret (ht_bytes (wlan_fill_ht_cap_tlv a p h bss_band)).
Definition put_ht_cap (p : cap_private) (bss_band usr : Z) (b : list Z) (s : cap_state) : outcome cap_state :=
  v ← ht_cap_value (cs_adapter s) p bss_band usr b;
  r ← put_tlv (cs_mem s) (cs_pos s) (element_number HT_CAPABILITY) v; Ret (at_tlv r s).

Definition ht_info_value (usr : Z) (b : list Z) : outcome (list Z) :=
  bs ← mem_read b 2 22;
  field2 ← arr_get bs 1;
  if negb (ISSUPP_CHANWIDTH40 usr) then arr_set bs 1 (Z.land field2 (Z.lnot 7)) else Ret bs.
Definition put_ht_info (p : cap_private) (usr : Z) (b : list Z) (s : cap_state) : outcome cap_state :=
  if negb (ibss p) then Ret s
  else v ← ht_info_value usr b; r ← put_tlv (cs_mem s) (cs_pos s) (element_number HT_OPERATION) v; Ret (at_tlv r s).

(** The channel of the access point, with the width to use; the new bandwidth. *)
Definition chan_list_value (a : cap_adapter) (p : cap_private) (bss_band usr : Z) (x : ap_elements) (b : list Z) : outcome (list Z * option Z) :=
  pri_chan ← arr_get b 2;
  field2 ← arr_get b 3;
  let radio := wlan_band_to_radio_type (u8 bss_band) in
  let usr_dot_11ac_bw := if ibss p then BW_FOLLOW_VHTCAP else usr_dot_11ac_bw a in
  vht80 ← (if ISSUPP_11ACENABLED (fw_cap_info a) && (usr_dot_11ac_bw =? BW_FOLLOW_VHTCAP) && ISSUPP_CHANWIDTH40 (hw_dot_11n_dev_cap a)
              && negb (wlan_11ac_bandconfig_allowed a p bss_band =? 0) then
             match pvht_oprat x with None => Ret false | Some o => w ← arr_get o 2; Ret (w =? VHT_OPER_CHWD_80MHZ) end
           else Ret false);
  ht40 ← (if vht80 : bool then Ret false
          else if ISSUPP_CHANWIDTH40 usr && has_bit field2 2 then wlan_check_chan_width_ht40_by_region a bss_band (Some b) else Ret false);
  let radio_type :=
    if vht80 : bool then Z.lor (Z.lor radio (Z.shiftl (GET_SECONDARYCHAN field2) 4)) (Z.lor (MBIT 2) (MBIT 3))
    else if ht40 : bool then Z.lor (Z.lor radio (Z.shiftl (GET_SECONDARYCHAN field2) 4)) (MBIT 3) else radio in
  Ret ([u8 radio_type; pri_chan; 0; 0; 0; 0; 0], if vht80 : bool then Some BW_80MHZ else if ht40 then Some BW_40MHZ else None).
Definition put_chan_list (p : cap_private) (bss_band usr : Z) (x : ap_elements) (b : list Z) (s : cap_state) : outcome cap_state :=
  '(v, w) ← chan_list_value (cs_adapter s) p bss_band usr x b;
  r ← put_tlv (cs_mem s) (cs_pos s) TLV_TYPE_CHANLIST v;
  Ret (at_tlv r (match w with Some w => set_bandwidth w s | None => s end)).

Definition put_2040 (bss_band : Z) (x : ap_elements) (s : cap_state) : outcome cap_state :=
  match pbss_co_2040 x with
  | Some b =>
      if has_band bss_band (bands [BAND_A; BAND_AN]) then
        bs ← mem_read b 2 1; r ← put_tlv (cs_mem s) (cs_pos s) (element_number BSSCO_2040) bs; Ret (at_tlv r s)
      else Ret s
  | None => Ret s
  end.
Definition put_ext (p : cap_private) (x : ap_elements) (s : cap_state) : outcome cap_state :=
  match pext_cap x with
  | Some b => r ← put_ext_cap p (cs_mem s) (cs_pos s) b; Ret (at_tlv r s)
  | None =>
      if negb (Z.land (hotspot_cfg p) HOTSPOT_ENABLED =? 0) then r ← wlan_add_ext_capa_info_ie p (cs_mem s) (cs_pos s); Ret (at_tlv r s)
      else Ret s
  end.
Definition wlan_cmd_append_11n_tlv (p : cap_private) (bss_band : Z) (x : ap_elements) (s : cap_state) : outcome cap_state :=
  '(usr, orig, a, forced) ← force_20 bss_band x (cs_adapter s);
  let s := set_cs_adapter a (if forced : bool then set_bandwidth BW_20MHZ s else s) in
  s ← match pht_cap x with Some b => put_ht_cap p bss_band usr b s | None => Ret s end;
  s ← match pht_info x with Some b => s ← put_ht_info p usr b s; put_chan_list p bss_band usr x b s | None => Ret s end;
  s ← put_2040 bss_band x s;
  s ← put_ext p x s;
  Ret (if orig =? 0 then s else set_cs_adapter (set_usr_bg orig (cs_adapter s)) s).

(** ** 802.11ac *)
Definition GET_VHTNSSMCS (map nss : Z) : Z := Z.land (Z.shiftr map (2 * (nss - 1))) 3.
Definition SET_VHTNSSMCS (map nss value : Z) : Z := Z.lor map (Z.shiftl (Z.land value 3) (2 * (nss - 1))).
Definition streams : list Z := [1; 2; 3; 4; 5; 6; 7; 8].
Definition wlan_get_nss_vht_mcs (map : Z) : Z :=
  fold_left (fun nss_map nss => if GET_VHTNSSMCS map nss =? NO_NSS_SUPPORT then nss_map else Z.lor nss_map (Z.shiftl 1 (nss - 1))) streams 0.
Definition wlan_get_nss_num_vht_mcs (map : Z) : Z :=
  fold_left (fun n nss => if GET_VHTNSSMCS map nss =? NO_NSS_SUPPORT then n else n + 1) streams 0.
(** The lesser of two maps, stream by stream. *)
Definition min_mcs (user resp nss : Z) : Z :=
  let mcs_user := GET_VHTNSSMCS user nss in
  let mcs_resp := GET_VHTNSSMCS resp nss in
  if (mcs_user =? NO_NSS_SUPPORT) || (mcs_resp =? NO_NSS_SUPPORT) then NO_NSS_SUPPORT else Z.min mcs_user mcs_resp.
Definition mcs_map_result (user resp : Z) : Z := fold_left (fun r nss => SET_VHTNSSMCS r nss (min_mcs user resp nss)) streams 0.

Definition max_rate_lgi_20MHZ : list (list Z) :=
  [[0x41; 0x4E; 0x0]; [0x82; 0x9C; 0x0]; [0xC3; 0xEA; 0x104]; [0x104; 0x138; 0x0];
   [0x145; 0x186; 0x0]; [0x186; 0x1D4; 0x208]; [0x1C7; 0x222; 0x0]; [0x208; 0x270; 0x0]].
Definition max_rate_lgi_40MHZ : list (list Z) :=
  [[0x87; 0xA2; 0xB4]; [0x10E; 0x144; 0x168]; [0x195; 0x1E6; 0x21C]; [0x21C; 0x288; 0x2D0];
   [0x2A3; 0x32A; 0x384]; [0x32A; 0x3CC; 0x438]; [0x3B1; 0x46E; 0x4EC]; [0x438; 0x510; 0x5A0]].
Definition max_rate_lgi_80MHZ : list (list Z) :=
  [[0x124; 0x15F; 0x186]; [0x249; 0x2BE; 0x30C]; [0x36D; 0x41D; 0x492]; [0x492; 0x57C; 0x618];
   [0x5B6; 0x6DB; 0x79E]; [0x6DB; 0x83A; 0x0]; [0x7FF; 0x999; 0xAAA]; [0x924; 0xAF8; 0xC30]].
Definition max_rate_lgi_160MHZ : list (list Z) :=
  [[0x249; 0x2BE; 0x30C]; [0x492; 0x57C; 0x618]; [0x6DB; 0x83A; 0x0]; [0x924; 0xAF8; 0xC30];
   [0xB6D; 0xDB6; 0xF3C]; [0xDB6; 0x1074; 0x1248]; [0xFFF; 0x1332; 0x1554]; [0x1248; 0x15F0; 0x1860]].
(** The entry, or the one before it where it is 0. *)
Definition rate_or_below (t : list (list Z)) (nss max_mcs : Z) : outcome Z :=
  r ← arr_get2 t nss max_mcs;
  if (max_mcs >=? 1) && (r =? 0) then arr_get2 t nss (max_mcs - 1) else Ret r.
Definition max_nss (mcs_map : Z) : Z :=
  fold_left (fun nss i => if Z.land (Z.shiftr mcs_map (2 * i)) 3 <? 3 then i else nss) [0; 1; 2; 3; 4; 5; 6; 7] 0.
Definition wlan_convert_mcsmap_to_maxrate (a : cap_adapter) (bands mcs_map : Z) : outcome Z :=
  let aac := has_band bands BAND_AAC in
  let usr_vht_cap_info := if aac then usr_dot_11ac_dev_cap_a a else usr_dot_11ac_dev_cap_bg a in
  let usr_11n := if aac then usr_dot_11n_dev_cap_a a else usr_dot_11n_dev_cap_bg a in
  let nss := max_nss mcs_map in
  let max_mcs := Z.land (Z.shiftr mcs_map (2 * nss)) 3 in
  let max_mcs := if max_mcs >=? 3 then 2 else max_mcs in
  if negb (Z.land (Z.shiftr usr_vht_cap_info 2) 3 =? 0) then rate_or_below max_rate_lgi_160MHZ nss max_mcs
  else if usr_dot_11ac_bw a =? BW_FOLLOW_VHTCAP then rate_or_below max_rate_lgi_80MHZ nss max_mcs
  else if ISSUPP_CHANWIDTH40 usr_11n then arr_get2 max_rate_lgi_40MHZ nss max_mcs
  else rate_or_below max_rate_lgi_20MHZ nss max_mcs.

(** [VHT_capa_t]; [flag] for the maps of the access point in it. *)
Record VHT_capa_t := MkVht { vht_cap_info : list Z; rx_mcs_map : Z; rx_max_rate : Z; tx_mcs_map : Z; tx_max_rate : Z }.
Definition read_vht (bs : list Z) : VHT_capa_t :=
  MkVht (take 4 bs) (of_le16 (take 2 (drop 4 bs))) (of_le16 (take 2 (drop 6 bs))) (of_le16 (take 2 (drop 8 bs))) (of_le16 (take 2 (drop 10 bs))).
Definition vht_bytes (v : VHT_capa_t) : list Z :=
  vht_cap_info v ++ le16 (rx_mcs_map v) ++ le16 (rx_max_rate v) ++ le16 (tx_mcs_map v) ++ le16 (tx_max_rate v).
Definition sizeof_VHT_capa : Z := 12.
Definition wlan_fill_vht_cap_tlv (a : cap_adapter) (v : VHT_capa_t) (bss_band : Z) (flag : bool) : outcome VHT_capa_t :=
  let info := if has_band bss_band BAND_A then usr_dot_11ac_dev_cap_a a else usr_dot_11ac_dev_cap_bg a in
  let user := u16 (Z.land (usr_dot_11ac_mcs_support a) 0xffff) in
  let result := u16 (mcs_map_result user (if flag then rx_mcs_map v else user)) in
  rate ← wlan_convert_mcsmap_to_maxrate a (u8 bss_band) result;
  let user := u16 (Z.shiftr (usr_dot_11ac_mcs_support a) 16) in
  let tx_result := u16 (mcs_map_result user (if flag then tx_mcs_map v else user)) in
  tx_rate ← wlan_convert_mcsmap_to_maxrate a (u8 bss_band) tx_result;
  Ret (MkVht (le32 info) result rate tx_result tx_rate).

Definition SET_OPER_MODE_80M (x : Z) : Z := Z.lor (u8 (Z.land x (Z.lnot (MBIT 0)))) (MBIT 1).
Definition SET_OPER_MODE_40M (x : Z) : Z := Z.lor (u8 (Z.land x (Z.lnot (MBIT 1)))) (MBIT 0).
Definition SET_OPER_MODE_20M (x : Z) : Z := Z.land x (u8 (Z.lnot 3)).
Definition oper_mode_ntf (a : cap_adapter) (bandwidth bss_band : Z) (x : ap_elements) : outcome Z :=
  if negb (usr_dot_11ac_opermode_bw a =? 0) || negb (usr_dot_11ac_opermode_nss a =? 0) then
    let mode := u8 (Z.shiftl (u32 (usr_dot_11ac_opermode_nss a - 1)) 4) in
    let mode := u8 (Z.lor mode (u32 (usr_dot_11ac_opermode_bw a - 1))) in
    if has_band bss_band BAND_G && negb (Z.land mode 3 =? 0) then
      match pht_cap x with
      | None => Fault NullPointer
      | Some b => info ← mem_read_le16 b 2; Ret (if has_bit info 1 then SET_OPER_MODE_40M mode else SET_OPER_MODE_20M mode)
      end
    else Ret mode
  else
    let nss := wlan_get_nss_num_vht_mcs (u16 (Z.land (usr_dot_11ac_mcs_support a) 0xffff)) in
    let mode := u8 (Z.lor (SET_OPER_MODE_80M 0) (Z.shiftl (u8 (nss - 1)) 4)) in
    Ret (if bandwidth =? BW_20MHZ then SET_OPER_MODE_20M mode
         else if bandwidth =? BW_40MHZ then SET_OPER_MODE_40M mode else mode).
Definition vht_cap_value (a : cap_adapter) (bss_band : Z) (b : list Z) : outcome (list Z) :=
  bs ← mem_read b 2 sizeof_VHT_capa; v ← wlan_fill_vht_cap_tlv a (read_vht bs) bss_band true; Ret (vht_bytes v).
Definition wlan_cmd_append_11ac_tlv (bss_band : Z) (x : ap_elements) (s : cap_state) : outcome cap_state :=
  match pvht_cap x with
  | None => Ret s
  | Some b =>
      map ← mem_read_le16 b 6;
      if wlan_get_nss_vht_mcs map =? 0 then Ret s
      else
        v ← vht_cap_value (cs_adapter s) bss_band b;
        r ← put_tlv (cs_mem s) (cs_pos s) (element_number VHT_CAPABILITY) v;
        let s := at_tlv r s in
        mode ← oper_mode_ntf (cs_adapter s) (curr_bandwidth s) bss_band x;
        r ← put_tlv (cs_mem s) (cs_pos s) (element_number OPER_MODE_NTF) [mode];
        Ret (at_tlv r s)
  end.
