(* ===== verification/HtCapTheorems.v ===== *)
(** * Capabilities in an association request: theorems *)
From stdpp Require Import list.
From S2P Require Import Prelude Cfp ScanData ScanParse ScanFind HtCap.
Open Scope Z_scope.

(** ** Single bits *)
Lemma has_bit_testbit x n : 0 <= n -> has_bit x n = Z.testbit x n.
Proof.
  intros Hn. unfold has_bit, MBIT. rewrite Z.shiftl_1_l. destruct (Z.testbit x n) eqn:E.
  - apply negb_true_iff, Z.eqb_neq. intros H. assert (Hb : Z.testbit (Z.land x (2 ^ n)) n = true) by (by rewrite Z.land_spec, E, Z.pow2_bits_true).
    by rewrite H, Z.bits_0 in Hb.
  - apply negb_false_iff, Z.eqb_eq. apply Z.bits_inj. intros k. rewrite Z.land_spec, Z.bits_0, Z.pow2_bits_eqb by done.
    destruct (Z.eqb_spec n k) as [-> |]; [by rewrite E | by rewrite andb_false_r].
Qed.
Lemma mbit_testbit n k : 0 <= n -> Z.testbit (MBIT n) k = (n =? k).
Proof. intros. unfold MBIT. rewrite Z.shiftl_1_l. by apply Z.pow2_bits_eqb. Qed.
Lemma set_to_testbit n on x k : 0 <= n -> 0 <= k -> Z.testbit (set_to n on x) k = if n =? k then on else Z.testbit x k.
Proof.
  intros Hn Hk. unfold set_to. destruct on.
  - rewrite Z.lor_spec, mbit_testbit by done. destruct (n =? k); [apply orb_true_r | apply orb_false_r].
  - rewrite Z.land_spec, Z.lnot_spec, mbit_testbit by done. destruct (n =? k); [apply andb_false_r | apply andb_true_r].
Qed.

(** ** The word of HT capabilities *)

(** Bit [k]: of the capabilities [usr] the user set for the band and of those of
    the hardware [hw], and of what the access point has, [ap]. *)
Definition ht_bit (usr hw ap k : Z) : bool :=
  if k =? 0 then has_bit usr 22 else if k =? 1 then has_bit usr 17 else if (k =? 2) || (k =? 3) then negb (has_bit hw 27)
  else if k =? 4 then has_bit usr 29 else if k =? 5 then has_bit usr 23 else if k =? 6 then has_bit usr 24 else if k =? 7 then has_bit usr 25
  else if k =? 8 then has_bit usr 26 else if k =? 9 then has_bit usr 26 && has_bit ap 9
  else if (k =? 10) || (k =? 11) then false else if k =? 12 then has_bit usr 17 else if k =? 14 then has_bit usr 8
  else has_bit ap k.

(** every bit of the HT capability information that is sent is the
    corresponding capability the user left on, or off (10 and 11), whatever the
    access point announced; what it announced remains in bit 13, bit 15 and, with
    reception of STBC on, in bit 9. *)
Theorem ht_info_bits usr hw ap k : 0 <= k < 16 -> Z.testbit (fill_cap_info usr hw ap) k = ht_bit usr hw ap k.
Proof.
  intros Hk.
  assert (Hc : k = 0 \/ k = 1 \/ k = 2 \/ k = 3 \/ k = 4 \/ k = 5 \/ k = 6 \/ k = 7 \/ k = 8 \/ k = 9 \/ k = 10 \/ k = 11 \/ k = 12 \/ k = 13 \/ k = 14 \/ k = 15) by lia.
  clear Hk. unfold fill_cap_info. rewrite (has_bit_testbit hw 27), (has_bit_testbit usr 26) by done.
  destruct (Z.testbit hw 27) eqn:Eh, (Z.testbit usr 26) eqn:Eu;
    repeat (destruct Hc as [-> | Hc]); try subst k;
    rewrite ?Z.land_spec, ?Z.lor_spec, ?Z.lnot_spec, ?Z.lor_spec, ?mbit_testbit by done;
    rewrite ?set_to_testbit, ?Z.land_spec, ?Z.lor_spec, ?Z.lnot_spec by done; rewrite ?set_to_testbit by done;
    unfold ht_bit; cbn [Z.eqb Pos.eqb orb andb]; rewrite ?(has_bit_testbit hw 27), ?(has_bit_testbit usr 26), ?Eh, ?Eu by done; cbn;
    rewrite ?has_bit_testbit by done; rewrite ?andb_true_r, ?andb_false_r, ?orb_true_r, ?orb_false_r; done.
Qed.
Lemma ht_info_bits_witness : 0 <= 9 < 16 /\ Z.testbit (fill_cap_info (MBIT 26) 0 0x0200) 9 = true.
Proof. split; [lia | apply (ht_info_bits (MBIT 26) 0 0x0200 9); lia]. Defined.

(** ** The maps of VHT streams *)
Lemma get_testbit map nss j : 1 <= nss -> 0 <= j -> Z.testbit (GET_VHTNSSMCS map nss) j = (j <? 2) && Z.testbit map (2 * (nss - 1) + j).
Proof.
  intros Hn Hj. unfold GET_VHTNSSMCS. rewrite Z.land_spec, Z.shiftr_spec by done. change 3 with (Z.ones 2). rewrite Z.testbit_ones_nonneg by lia.
  rewrite andb_comm. do 2 f_equal. lia.
Qed.
Lemma get_range map nss : 0 <= GET_VHTNSSMCS map nss < 4.
Proof. unfold GET_VHTNSSMCS. change 3 with (Z.ones 2). rewrite Z.land_ones by lia. apply Z.mod_pos_bound. lia. Qed.
Lemma get_set map nss k v : 1 <= nss -> 1 <= k -> 0 <= v < 4 ->
  GET_VHTNSSMCS (SET_VHTNSSMCS map nss v) k = if k =? nss then Z.lor (GET_VHTNSSMCS map k) v else GET_VHTNSSMCS map k.
Proof.
  intros Hn Hk Hv. apply Z.bits_inj'. intros j Hj. rewrite get_testbit by done. unfold SET_VHTNSSMCS. rewrite Z.lor_spec, Z.shiftl_spec by lia.
  change 3 with (Z.ones 2). rewrite Z.land_spec. replace (Z.lor (GET_VHTNSSMCS map k) v) with (Z.lor (GET_VHTNSSMCS map k) (Z.land v (Z.ones 2)))
    by (f_equal; rewrite Z.land_ones by lia; apply Z.mod_small; lia).
  set (i := 2 * (k - 1) + j - 2 * (nss - 1)). destruct (Z.eqb_spec k nss) as [-> | Hne].
  - rewrite Z.lor_spec, Z.land_spec, get_testbit by done. replace i with j by (unfold i; lia). rewrite Z.testbit_ones_nonneg by lia.
    destruct (j <? 2); cbn [andb]; [by rewrite !andb_true_r | by rewrite andb_false_r].
  - rewrite get_testbit by done. destruct (Z.ltb_spec j 2) as [Hlt |]; [| done]. cbn [andb].
    assert (H0 : Z.testbit v i && Z.testbit (Z.ones 2) i = false); [| by rewrite H0, orb_false_r].
    destruct (Z.lt_ge_cases i 0); [by rewrite Z.testbit_neg_r |]. rewrite Z.testbit_ones_nonneg by lia.
    rewrite (proj2 (Z.ltb_ge i 2)) by (unfold i in *; lia). apply andb_false_r.
Qed.
Lemma get_u16 map nss : 1 <= nss <= 8 -> GET_VHTNSSMCS (u16 map) nss = GET_VHTNSSMCS map nss.
Proof.
  intros Hn. apply Z.bits_inj'. intros j Hj. rewrite !get_testbit by lia. destruct (Z.ltb_spec j 2); [| done]. cbn [andb]. unfold wrap.
  by rewrite Z.mod_pow2_bits_low by lia.
Qed.
Lemma min_mcs_range user resp nss : 0 <= min_mcs user resp nss < 4.
Proof.
  unfold min_mcs. pose proof (get_range user nss). pose proof (get_range resp nss). destruct (_ || _); [unfold NO_NSS_SUPPORT; lia | lia].
Qed.
Lemma mcs_result_get user resp nss : 1 <= nss <= 8 -> GET_VHTNSSMCS (mcs_map_result user resp) nss = min_mcs user resp nss.
Proof.
  intros Hn. unfold mcs_map_result, streams. cbn [fold_left].
  rewrite !get_set by (lia || apply min_mcs_range).
  assert (Hc : nss = 1 \/ nss = 2 \/ nss = 3 \/ nss = 4 \/ nss = 5 \/ nss = 6 \/ nss = 7 \/ nss = 8) by lia.
  repeat (destruct Hc as [-> | Hc]); try subst nss; cbn [Z.eqb Pos.eqb]; change (GET_VHTNSSMCS 0 _) with 0; apply Z.lor_0_l.
Qed.

(** ** The highest rate of a map *)
Lemma max_nss_range map : 0 <= max_nss map <= 7.
Proof.
  assert (H : forall l n, 0 <= n <= 7 -> Forall (fun i => 0 <= i <= 7) l -> 0 <= fold_left (fun nss i => if Z.land (Z.shiftr map (2 * i)) 3 <? 3 then i else nss) l n <= 7).
  { induction l as [| i l IH]; intros n Hn Hl; [done |]. apply list.Forall_cons_1 in Hl as [Hi Hl]. cbn [fold_left]. apply IH; [| done]. by destruct (_ <? 3). }
  apply H; [lia |]. repeat (apply list.Forall_cons_2; [lia |]). apply list.Forall_nil_2.
Qed.
(** The tables are read within their bounds, and have a rate below every gap. *)
Definition rate_ok (r : outcome Z) : bool := match r with Ret x => (0 <? x) && (x <? 65536) | Fault _ => false end.
Lemma tables_ok : forallb (fun t => forallb (fun nss => forallb (fun mcs => rate_ok (rate_or_below t nss mcs)) [0; 1; 2]) [0; 1; 2; 3; 4; 5; 6; 7])
  [max_rate_lgi_160MHZ; max_rate_lgi_80MHZ; max_rate_lgi_20MHZ] && forallb (fun nss => forallb (fun mcs => rate_ok (arr_get2 max_rate_lgi_40MHZ nss mcs)) [0; 1; 2]) [0; 1; 2; 3; 4; 5; 6; 7] = true.
Proof. vm_compute. reflexivity. Qed.
Lemma small_in x n : 0 <= x < Z.of_nat n -> In x (seqZ 0 (Z.of_nat n)).
Proof. intros. apply list_elem_of_In, elem_of_seqZ. lia. Qed.
Lemma max_rate_total a b map : exists r, wlan_convert_mcsmap_to_maxrate a b map = Ret r /\ 0 < r < 65536.
Proof.
  pose proof tables_ok as H. apply andb_true_iff in H as [H1 H2]. rewrite forallb_forall in H1, H2. unfold wlan_convert_mcsmap_to_maxrate.
  set (nss := max_nss map). set (mcs := if _ >=? 3 then 2 else _).
  assert (Hn : In nss [0; 1; 2; 3; 4; 5; 6; 7]) by (apply (small_in nss 8); pose proof (max_nss_range map); unfold nss; lia).
  assert (Hm : In mcs [0; 1; 2]).
  { apply (small_in mcs 3). unfold mcs. set (y := Z.land _ 3). assert (0 <= y < 4) by (unfold y; change 3 with (Z.ones 2); rewrite Z.land_ones by lia; apply Z.mod_pos_bound; lia).
    destruct (Z.geb_spec y 3); lia. }
  assert (Hr : forall r, rate_ok r = true -> exists x, r = Ret x /\ 0 < x < 65536).
  { intros [x |] Hx; [| done]. unfold rate_ok in Hx. exists x. split; [done |]. lia. }
  specialize (H2 nss Hn). rewrite forallb_forall in H2. specialize (H2 mcs Hm).
  assert (Ht : forall t, In t [max_rate_lgi_160MHZ; max_rate_lgi_80MHZ; max_rate_lgi_20MHZ] -> rate_ok (rate_or_below t nss mcs) = true).
  { intros t Hin. specialize (H1 t Hin). rewrite forallb_forall in H1. specialize (H1 nss Hn). rewrite forallb_forall in H1. by apply H1. }
  destruct (negb _); [apply Hr, Ht; simpl; tauto |]. destruct (_ =? _); [apply Hr, Ht; simpl; tauto |]. destruct (ISSUPP_CHANWIDTH40 _); apply Hr; [done |].
  apply Ht. simpl; tauto.
Qed.

(** The lesser of what two maps say of a number of streams; 3 stands for not at all. *)
Definition lesser (u r : Z) : Z := if (u =? 3) || (r =? 3) then 3 else Z.min u r.

(** C32: the VHT capabilities that are sent carry the word the user set for the
    band and, for every number of streams and either direction, the lesser of
    what the user and the access point support, unsupported where either does
    not; the highest rates always come from within the tables and are not 0. *)
Theorem vht_per_stream a v band : exists v', wlan_fill_vht_cap_tlv a v band true = Ret v' /\
  vht_cap_info v' = le32 (if has_band band BAND_A then usr_dot_11ac_dev_cap_a a else usr_dot_11ac_dev_cap_bg a) /\
  (forall nss, 1 <= nss <= 8 ->
     GET_VHTNSSMCS (rx_mcs_map v') nss = lesser (GET_VHTNSSMCS (usr_dot_11ac_mcs_support a) nss) (GET_VHTNSSMCS (rx_mcs_map v) nss) /\
     GET_VHTNSSMCS (tx_mcs_map v') nss = lesser (GET_VHTNSSMCS (Z.shiftr (usr_dot_11ac_mcs_support a) 16) nss) (GET_VHTNSSMCS (tx_mcs_map v) nss)) /\
  0 < rx_max_rate v' < 65536 /\ 0 < tx_max_rate v' < 65536.
Proof.
  unfold wlan_fill_vht_cap_tlv.
  destruct (max_rate_total a (u8 band) (u16 (mcs_map_result (u16 (Z.land (usr_dot_11ac_mcs_support a) 0xffff)) (rx_mcs_map v)))) as (r & -> & Hr).
  destruct (max_rate_total a (u8 band) (u16 (mcs_map_result (u16 (Z.shiftr (usr_dot_11ac_mcs_support a) 16)) (tx_mcs_map v)))) as (r' & -> & Hr').
  rewrite !bind_ret. eexists. split; [done |]. split; [done |]. cbn [rx_mcs_map tx_mcs_map rx_max_rate tx_max_rate]. split; [| done].
  intros nss Hn. rewrite !get_u16, !mcs_result_get by done. unfold min_mcs. rewrite !get_u16 by done. split; [| done].
  change 0xffff with (Z.ones 16). rewrite Z.land_ones by lia. change (usr_dot_11ac_mcs_support a mod 2 ^ 16) with (u16 (usr_dot_11ac_mcs_support a)).
  by rewrite get_u16.
Qed.

(** ** The user's capabilities while the elements are built *)
Abbreviation keeps := (fun s s' : cap_state => cs_adapter s' = cs_adapter s)%type.
Lemma parts_keep p band usr x s :
  (forall b s', put_ht_cap p band usr b s = Ret s' -> keeps s s') /\ (forall b s', put_ht_info p usr b s = Ret s' -> keeps s s') /\
  (forall b s', put_chan_list p band usr x b s = Ret s' -> keeps s s') /\ (forall s', put_2040 band x s = Ret s' -> keeps s s') /\
  (forall s', put_ext p x s = Ret s' -> keeps s s').
Proof.
  split; [| split; [| split; [| split]]].
  - intros b s' E. apply bind_inv in E as (v & _ & E). apply bind_inv in E as (r & _ & E). by injection E as <-.
  - intros b s' E. unfold put_ht_info in E. destruct (negb _); [by injection E as <- |]. apply bind_inv in E as (v & _ & E). apply bind_inv in E as (r & _ & E). by injection E as <-.
  - intros b s' E. apply bind_inv in E as ([v w] & _ & E). apply bind_inv in E as (r & _ & E). injection E as <-. by destruct w.
  - intros s' E. unfold put_2040 in E. destruct (pbss_co_2040 x); [| by injection E as <-]. destruct (has_band _ _); [| by injection E as <-].
    apply bind_inv in E as (bs & _ & E). apply bind_inv in E as (r & _ & E). by injection E as <-.
  - intros s' E. unfold put_ext in E. destruct (pext_cap x); [| destruct (negb _); [| by injection E as <-]]; apply bind_inv in E as (r & _ & E); by injection E as <-.
Qed.
(** The adapter at the end is that of [force_20] with the saved word put back. *)
Lemma adapter_after p band x s s' : wlan_cmd_append_11n_tlv p band x s = Ret s' ->
  exists usr orig a forced, force_20 band x (cs_adapter s) = Ret (usr, orig, a, forced) /\ cs_adapter s' = if orig =? 0 then a else set_usr_bg orig a.
Proof.
  unfold wlan_cmd_append_11n_tlv. intros E. apply bind_inv in E as ([[[usr orig] a] forced] & E0 & E). exists usr, orig, a, forced. split; [done |].
  set (s0 := set_cs_adapter a _) in E. assert (H0 : cs_adapter s0 = a) by done. clearbody s0.
  apply bind_inv in E as (s1 & E1 & E). apply bind_inv in E as (s2 & E2 & E). apply bind_inv in E as (s3 & E3 & E). apply bind_inv in E as (s4 & E4 & E).
  assert (H1 : keeps s0 s1) by (destruct (pht_cap x); [exact (proj1 (parts_keep p band usr x s0) _ _ E1) | by injection E1 as <-]).
  assert (H2 : keeps s1 s2).
  { destruct (pht_info x); [| by injection E2 as <-]. apply bind_inv in E2 as (t & Et & E2).
    pose proof (proj1 (proj2 (parts_keep p band usr x s1)) _ _ Et) as K1. pose proof (proj1 (proj2 (proj2 (parts_keep p band usr x t))) _ _ E2) as K2.
    congruence. }
  pose proof (proj1 (proj2 (proj2 (proj2 (parts_keep p band usr x s2)))) _ E3) as H3.
  pose proof (proj2 (proj2 (proj2 (proj2 (parts_keep p band usr x s3)))) _ E4) as H4.
  injection E as <-. destruct (orig =? 0); cbn; congruence.
Qed.

(** On 2.4 GHz the word the user set, changed for the time of the request, is put
    back. *)
Theorem user_word_restored p band x s s' : has_band band BAND_A = false -> wlan_cmd_append_11n_tlv p band x s = Ret s' -> cs_adapter s' = cs_adapter s.
Proof.
  intros Hband E. apply adapter_after in E as (usr & orig & a & forced & Ef & ->). unfold force_20, usr_dot_11n_dev_cap in Ef. rewrite Hband in Ef.
  apply bind_inv in Ef as (out & _ & Ef). destruct (_ || _).
  - injection Ef as <- <- <- <-. destruct (Z.eqb_spec (usr_dot_11n_dev_cap_bg (cs_adapter s)) 0) as [Hz |]; [| by destruct (cs_adapter s)].
    rewrite Hz. destruct (cs_adapter s). cbn in *. by subst.
  - by injection Ef as <- <- <- <-.
Qed.
(** On 5 GHz, for an access point without 802.11n, the word of 2.4 GHz is lost to
    that of 5 GHz. *)
Theorem user_word_lost p band x s s' : has_band band BAND_A = true -> pht_info x = None -> ISSUPP_CHANWIDTH40 (usr_dot_11n_dev_cap_a (cs_adapter s)) = true ->
  wlan_cmd_append_11n_tlv p band x s = Ret s' -> usr_dot_11n_dev_cap_bg (cs_adapter s') = usr_dot_11n_dev_cap_a (cs_adapter s).
Proof.
  intros Hband Hinfo Hwide E. apply adapter_after in E as (usr & orig & a & forced & Ef & ->). unfold force_20, usr_dot_11n_dev_cap in Ef. rewrite Hband, Hinfo, Hwide in Ef.
  assert (Hb : has_band band (bands [BAND_B; BAND_G; BAND_A]) = true).
  { unfold has_band in *. apply negb_true_iff, Z.eqb_neq. apply negb_true_iff, Z.eqb_neq in Hband. intros H. apply Hband.
    change (bands [BAND_B; BAND_G; BAND_A]) with (Z.lor (bands [BAND_B; BAND_G]) BAND_A) in H. rewrite Z.land_lor_distr_r in H. by apply Z.lor_eq_0_iff in H as [_ H]. }
  rewrite Hb in Ef. cbn in Ef. injection Ef as <- <- <- <-. destruct (Z.eqb_spec (usr_dot_11n_dev_cap_a (cs_adapter s)) 0) as [Hz |]; [| done].
  rewrite Hz in Hwide. done.
Qed.
