(* ===== verification/Join.v ===== *)
(** * The association command

    [mlan_join.c], with the start of a connection in [mlan_glue.c]
    ([wrapper_wifi_assoc]) and [mlan_sta_ioctl.c] ([wlan_bss_ioctl_start]) and the
    request's part of [mlan_wmm.c].  The command is built in the command buffer
    behind the header of the bus, where bytes of the previous command still are. *)
From stdpp Require Import list.
From S2P Require Import Prelude CString Cfp ScanData ScanParse ScanFind Rsn HtCap.
Open Scope Z_scope.

(** ** Constants *)
Definition HostCmd_CMD_802_11_ASSOCIATE : Z := 0x12.
Definition S_DS_GEN : Z := 8.
Definition sizeof_associate : Z := 13.
Definition command_buffer_size : Z := 2096.   (* [WIFI_FW_CMDBUF_SIZE] without the header of the bus *)
Definition TLV_TYPE_SSID : Z := 0.
Definition TLV_TYPE_RATES : Z := 1.
Definition TLV_TYPE_PHY_DS : Z := 3.
Definition TLV_TYPE_CF : Z := 4.
Definition TLV_TYPE_PASSTHROUGH : Z := 0x10a.
Definition TLV_TYPE_AUTH_TYPE : Z := 0x11f.
Definition TLV_TYPE_HOST_MLME : Z := 0x100 + 307.
Definition TLV_TYPE_WPA3_SAE_PWE_DERIVATION_MODE : Z := 0x100 + 339.
Definition SAE_H2E_BIT : Z := 5.
Definition COUNTRY_CODE_JP_40 : Z := 0x40.
Definition COUNTRY_CODE_JP_FF : Z := 0xff.
Definition FW_MULTI_BANDS_SUPPORT : Z := 0x3f00.
Definition WMM_IE : Z := 221.
Definition wmm_info_ie : list Z := [221; 7; 0; 80; 242; 2; 0; 1; 0].
Inductive mlan_auth_mode := MLAN_AUTH_MODE_OPEN | MLAN_AUTH_MODE_SHARED | MLAN_AUTH_MODE_FT | MLAN_AUTH_MODE_SAE | MLAN_AUTH_MODE_NETWORKEAP | MLAN_AUTH_MODE_AUTO.
#[export] Instance mlan_auth_mode_eq_dec : EqDecision mlan_auth_mode.
Proof. solve_decision. Defined.
Definition auth_mode_number (m : mlan_auth_mode) : Z :=
  match m with
  | MLAN_AUTH_MODE_OPEN => 0 | MLAN_AUTH_MODE_SHARED => 1 | MLAN_AUTH_MODE_FT => 2 | MLAN_AUTH_MODE_SAE => 3
  | MLAN_AUTH_MODE_NETWORKEAP => 0x80 | MLAN_AUTH_MODE_AUTO => 0xff
  end.

(** ** Fields of the interface, and two of the adapter *)
Record join_private := MkJoin {
  jp_cap : cap_private;
  listen_interval : Z;
  jp_sec : sec_info_t;
  authentication_mode : mlan_auth_mode;
  is_wpa_tkip : bool;
  wpa_ie : list Z;   (* [MLAN_WMSDK_MAX_WPA_IE_LEN] bytes *)
  wpa_ie_len : Z;
  pmfcfg : pmf_cfg;
  gen_ie_buf : list Z;   (* [MRVDRV_GENIE_BUF_SIZE] bytes *)
  gen_ie_buf_len : Z;   (* t_u8 *)
  is_data_rate_auto : bool;
  data_rate : Z;
  region_code : Z;   (* of the adapter *)
  rates_memory : bool;   (* whether the allocation of [wlan_get_common_rates] succeeds *)
  num_of_rates : Z;
  cur_data_rates : list Z;
  host_mlme : bool;
  wmm_required : bool;
  wmm_qosinfo : Z
}.
Definition set_gen_ie_buf_len (n : Z) (p : join_private) : join_private :=
  MkJoin (jp_cap p) (listen_interval p) (jp_sec p) (authentication_mode p) (is_wpa_tkip p) (wpa_ie p) (wpa_ie_len p) (pmfcfg p)
    (gen_ie_buf p) n (is_data_rate_auto p) (data_rate p) (region_code p) (rates_memory p) (num_of_rates p) (cur_data_rates p)
    (host_mlme p) (wmm_required p) (wmm_qosinfo p).
Definition set_cur_rates (n : Z) (rates : list Z) (p : join_private) : join_private :=
  MkJoin (jp_cap p) (listen_interval p) (jp_sec p) (authentication_mode p) (is_wpa_tkip p) (wpa_ie p) (wpa_ie_len p) (pmfcfg p)
    (gen_ie_buf p) (gen_ie_buf_len p) (is_data_rate_auto p) (data_rate p) (region_code p) (rates_memory p) n rates
    (host_mlme p) (wmm_required p) (wmm_qosinfo p).
Definition set_security (sec : sec_info_t) (mode : mlan_auth_mode) (tkip : bool) (ie : list Z) (len : Z) (p : join_private) : join_private :=
  MkJoin (jp_cap p) (listen_interval p) sec mode tkip ie len (pmfcfg p)
    (gen_ie_buf p) (gen_ie_buf_len p) (is_data_rate_auto p) (data_rate p) (region_code p) (rates_memory p) (num_of_rates p)
    (cur_data_rates p) (host_mlme p) (wmm_required p) (wmm_qosinfo p).

(** ** Rates *)

(** The rate of [tmp] that is [r] but for the bit of basic rates. *)
Fixpoint common_rate (fuel : nat) (tmp : list Z) (rate1_size r j : Z) : outcome (option Z) :=
  match fuel with
  | O => Fault OutOfFuel
  | S fuel =>
      t ← arr_get tmp j;
      if (t =? 0) || (j >=? rate1_size) then Ret None
      else if Z.land r 0x7f =? Z.land t 0x7f then Ret (Some t)
      else common_rate fuel tmp rate1_size r (j + 1)
  end.
(** [n] is the number of rates written. *)
Fixpoint common_rates_loop (fuel : nat) (tmp rate1 : list Z) (rate1_size : Z) (rate2 : list Z) (rate2_size i n : Z) : outcome (list Z) :=
  match fuel with
  | O => Fault OutOfFuel
  | S fuel =>
      r ← arr_get rate2 i;
      if (r =? 0) || (i >=? rate2_size) then Ret rate1
      else
        t ← common_rate (S (length tmp)) tmp rate1_size r 0;
        match t with
        | Some t => rate1 ← arr_set rate1 n t; common_rates_loop fuel tmp rate1 rate1_size rate2 rate2_size (i + 1) (n + 1)
        | None => common_rates_loop fuel tmp rate1 rate1_size rate2 rate2_size (i + 1) n
        end
  end.
Fixpoint has_fixed_rate (fuel : nat) (rates : list Z) (rate i : Z) : outcome bool :=
  match fuel with
  | O => Fault OutOfFuel
  | S fuel =>
      r ← arr_get rates i;
      if r =? 0 then Ret false else if Z.land r 0x7f =? rate then Ret true else has_fixed_rate fuel rates rate (i + 1)
  end.
Definition wlan_get_common_rates (p : join_private) (rate1 : list Z) (rate1_size : Z) (rate2 : list Z) (rate2_size : Z) : outcome (mlan_status * list Z) :=
  if negb (rates_memory p) then Ret (MLAN_STATUS_FAILURE, rate1)
  else
    tmp ← mem_read rate1 0 rate1_size;
    rate1 ← common_rates_loop (S (length rate2)) tmp (replicate (Z.to_nat rate1_size) 0) rate1_size rate2 rate2_size 0 0;
    if negb (is_data_rate_auto p) then
      ok ← has_fixed_rate (S (length rate1)) rate1 (data_rate p) 0; Ret (if ok : bool then MLAN_STATUS_SUCCESS else MLAN_STATUS_FAILURE, rate1)
    else Ret (MLAN_STATUS_SUCCESS, rate1).
(** The rates and their number. *)
Definition wlan_setup_rates_from_bssdesc (p : join_private) (e : BSSDescriptor_t) : outcome (mlan_status * list Z * Z) :=
  out ← mem_read (supported_rates e) 0 WLAN_SUPPORTED_RATES;
  chan ← arr_get (phy_param_set e) 2;
  let bands := if ((region_code p =? COUNTRY_CODE_JP_40) || (region_code p =? COUNTRY_CODE_JP_FF)) && (chan =? 14) then BAND_B else cp_config_bands (jp_cap p) in
  '(card_rates, card_rates_size) ← wlan_get_supported_rates (bool_decide (cp_bss_mode (jp_cap p) = MLAN_BSS_MODE_INFRA)) bands (replicate 14 0);
  '(status, out) ← wlan_get_common_rates p out WLAN_SUPPORTED_RATES card_rates card_rates_size;
  match status with
  | MLAN_STATUS_FAILURE => Ret (MLAN_STATUS_FAILURE, out, 0)
  | MLAN_STATUS_SUCCESS => n ← strlen_list out; Ret (MLAN_STATUS_SUCCESS, out, Z.min n WLAN_SUPPORTED_RATES)
  end.

(** ** The parts of the command, each behind the last *)
Definition put_header (p : join_private) (e : BSSDescriptor_t) (m : list Z) : outcome (list Z) :=
  m ← mem_write m 0 (le16 HostCmd_CMD_802_11_ASSOCIATE);
  m ← mem_write m S_DS_GEN (mac_address e);
  m ← mem_write m (S_DS_GEN + 8) (le16 (listen_interval p));
  mem_write m (S_DS_GEN + 10) (le16 (beacon_period e)).
Definition put_ssid (e : BSSDescriptor_t) (m : list Z) (pos : Z) : outcome (list Z * Z) :=
  bs ← mem_read (ssid e) 0 (u16 (ssid_len e)); put_tlv m pos TLV_TYPE_SSID bs.
Definition put_phy (e : BSSDescriptor_t) (m : list Z) (pos : Z) : outcome (list Z * Z) :=
  chan ← arr_get (phy_param_set e) 2; put_tlv m pos TLV_TYPE_PHY_DS [chan].
(** Only the header is written. *)
Definition put_cf (m : list Z) (pos : Z) : outcome (list Z * Z) :=
  m ← mem_write m pos (le16 TLV_TYPE_CF ++ le16 6); Ret (m, pos + 4 + 6).
Definition put_rates (rates : list Z) (rates_size : Z) (m : list Z) (pos : Z) : outcome (list Z * Z) :=
  bs ← mem_read rates 0 rates_size; put_tlv m pos TLV_TYPE_RATES bs.
Definition put_auth_type (auth_type : Z) (m : list Z) (pos : Z) : outcome (list Z * Z) := put_tlv m pos TLV_TYPE_AUTH_TYPE (le16 auth_type).
(** None: no TLV for now. *)
Definition auth_type_of_mode (p : join_private) : option Z :=
  match authentication_mode p with
  | MLAN_AUTH_MODE_AUTO => None
  | MLAN_AUTH_MODE_SAE => Some AssocAgentAuth_Wpa3Sae
  | m => Some (match wep_status (jp_sec p) with Wlan802_11WEPEnabled => auth_mode_number m | _ => auth_mode_number MLAN_AUTH_MODE_OPEN end)
  end.
Definition wants_channel (a : cap_adapter) (p : join_private) (e : BSSDescriptor_t) (x : ap_elements) : bool :=
  let config_bands := cp_config_bands (jp_cap p) in
  negb (Z.land (fw_cap_info a) FW_MULTI_BANDS_SUPPORT =? 0) && negb (Z.land (bss_band e) config_bands =? 0) &&
  negb (ISSUPP_11NENABLED (fw_cap_info a) && negb (disable_11n e) && (has_band config_bands BAND_GN || has_band config_bands BAND_AN) &&
        match pht_cap x with Some _ => true | None => false end).
Definition put_channel (e : BSSDescriptor_t) (m : list Z) (pos : Z) : outcome (list Z * Z) :=
  chan ← arr_get (phy_param_set e) 2;
  put_tlv m pos TLV_TYPE_CHANLIST [wlan_band_to_radio_type (u8 (bss_band e)); chan; 0; 0; 0; 0; 0].

(** The element of WPA or WPA2: the status, the memory, the place behind the TLV
    and the kind of authentication.  It may be too long: the memory. *)
Definition put_security_ie (p : join_private) (pauth : option Z) (m : list Z) (pos : Z) : outcome (list Z + mlan_status * list Z * Z * Z) :=
  type ← arr_get (wpa_ie p) 0;
  len ← arr_get (wpa_ie p) 1;
  m ← mem_write m pos (le16 type ++ le16 len);
  if len <=? MLAN_WMSDK_MAX_WPA_IE_LEN - 2 then
    bs ← mem_read (wpa_ie p) 2 len;
    m ← mem_write m (pos + 4) bs;
    if wpa2_enabled (jp_sec p) then
      let akm_type := match pauth with Some a => u8 a | None => AssocAgentAuth_Auto end in
      '(status, m, len, akm_type) ← wlan_update_rsn_ie (pmfcfg p) m (pos + 4) len akm_type;
      m ← mem_write m (pos + 2) (le16 len);
      Ret (inr (status, m, pos + 4 + len, akm_type))
    else Ret (inr (MLAN_STATUS_SUCCESS, m, pos + 4 + len, 0))
  else Ret (inl m).
(** With the place for the kind of authentication before it, when that follows
    from the element. *)
Definition put_security (p : join_private) (pauth : option Z) (m : list Z) (pos : Z) : outcome (list Z + mlan_status * list Z * Z * option Z) :=
  if negb (wpa_enabled (jp_sec p) || wpa2_enabled (jp_sec p)) then Ret (inr (MLAN_STATUS_SUCCESS, m, pos, pauth))
  else
    match pauth with
    | Some _ =>
        r ← put_security_ie p pauth m pos;
        Ret (match r with inl m => inl m | inr (status, m, pos, _) => inr (status, m, pos, pauth) end)
    | None =>
        let auth_pos := pos in
        r ← put_security_ie p pauth m (pos + 6);
        match r with
        | inl m => Ret (inl m)
        | inr (status, m, pos, akm_type) => '(m, _) ← put_auth_type akm_type m auth_pos; Ret (inr (status, m, pos, Some akm_type))
        end
    end.
(** Hash to element, when the access point has it. *)
Definition put_sae_pwe (pauth : option Z) (prsnx_ie : option (list Z)) (m : list Z) (pos : Z) : outcome (list Z * Z) :=
  match pauth, prsnx_ie with
  | Some a, Some b =>
      if a =? AssocAgentAuth_Wpa3Sae then
        len ← arr_get b 1;
        data ← (if len =? 0 then Ret 0 else arr_get b 2);
        if has_bit data SAE_H2E_BIT then put_tlv m pos TLV_TYPE_WPA3_SAE_PWE_DERIVATION_MODE [data] else Ret (m, pos)
      else Ret (m, pos)
  | _, _ => Ret (m, pos)
  end.
Definition wlan_wmm_process_association_req (p : join_private) (e : BSSDescriptor_t) (pHTCap : option (list Z)) (m : list Z) (pos : Z) : outcome (list Z * Z) :=
  let config_bands := cp_config_bands (jp_cap p) in
  ht ← match pHTCap with None => Ret false | Some b => id ← arr_get b 0; Ret (id =? element_number HT_CAPABILITY) end;
  id ← arr_get (wmm_ie e) 0;
  if (wmm_required p || (ht && (has_band config_bands BAND_GN || has_band config_bands BAND_AN))) && (id =? WMM_IE) then
    qos_info ← arr_get (wmm_ie e) 8;
    type ← arr_get wmm_info_ie 0;
    len ← arr_get wmm_info_ie 1;
    bs ← mem_read wmm_info_ie 2 len;
    bs ← (if has_bit qos_info 7 then arr_set bs (len - 1) (wmm_qosinfo p) else Ret bs);
    put_tlv m pos type bs
  else Ret (m, pos).
Definition put_host_mlme (p : join_private) (m : list Z) (pos : Z) : outcome (list Z * Z) :=
  if host_mlme p then put_tlv m pos TLV_TYPE_HOST_MLME [1] else Ret (m, pos).
Definition wlan_cmd_append_generic_ie (p : join_private) (m : list Z) (pos : Z) : outcome (list Z * Z * join_private) :=
  if gen_ie_buf_len p =? 0 then Ret (m, pos, p)
  else
    bs ← mem_read (gen_ie_buf p) 0 (gen_ie_buf_len p);
    '(m, pos) ← put_tlv m pos TLV_TYPE_PASSTHROUGH bs;
    Ret (m, pos, set_gen_ie_buf_len 0 p).
(** [CAPINFO_MASK] clears bits 9, 11, 14 and 15. *)
Definition capability_info (config_bands cap : Z) : Z :=
  let cap := if config_bands =? BAND_B then set_to 10 false cap else cap in
  set_to 15 false (set_to 14 false (set_to 11 false (set_to 9 false (set_to 12 false cap)))).

(** ** [wlan_cmd_802_11_associate] *)
Record join_result := MkJr { jr_status : mlan_status; jr_state : cap_state; jr_private : join_private }.
Definition put_capabilities (p : join_private) (e : BSSDescriptor_t) (x : ap_elements) (s : cap_state) : outcome cap_state :=
  let a := cs_adapter s in
  let config_bands := cp_config_bands (jp_cap p) in
  s ← (if ISSUPP_11NENABLED (fw_cap_info a) && negb (disable_11n e) && (has_band config_bands BAND_GN || has_band config_bands BAND_AN) && negb (is_wpa_tkip p) then
         wlan_cmd_append_11n_tlv (jp_cap p) (bss_band e) x s
       else if negb (Z.land (hotspot_cfg (jp_cap p)) HOTSPOT_ENABLED =? 0) then
         r ← wlan_add_ext_capa_info_ie (jp_cap p) (cs_mem s) (cs_pos s); Ret (at_tlv r s)
       else Ret s);
  if ISSUPP_11ACENABLED (fw_cap_info a) && negb (disable_11n e) && negb (wlan_11ac_bandconfig_allowed (cs_adapter s) (jp_cap p) (bss_band e) =? 0) then
    wlan_cmd_append_11ac_tlv (bss_band e) x s
  else Ret s.
Definition finish_command (e : BSSDescriptor_t) (p : join_private) (m : list Z) (pos : Z) : outcome (list Z) :=
  m ← mem_write m 2 (le16 (pos - S_DS_GEN + S_DS_GEN));
  mem_write m (S_DS_GEN + 6) (le16 (capability_info (cp_config_bands (jp_cap p)) (of_le16 (cap_info e)))).
Definition wlan_cmd_802_11_associate (p : join_private) (t : list BSSDescriptor_t) (e : BSSDescriptor_t) (s : cap_state) : outcome join_result :=
  x ← ap_elements_of t e;
  prsnx_ie ← pointed t RsnxIe e;
  m ← put_header p e (cs_mem s);
  '(m, pos) ← put_ssid e m (S_DS_GEN + sizeof_associate);
  '(m, pos) ← put_phy e m pos;
  '(m, pos) ← put_cf m pos;
  '(status, rates, rates_size) ← wlan_setup_rates_from_bssdesc p e;
  match status with
  | MLAN_STATUS_FAILURE => Ret (MkJr MLAN_STATUS_FAILURE (at_tlv (m, pos) s) p)
  | MLAN_STATUS_SUCCESS =>
      used ← mem_read rates 0 rates_size;
      cur ← mem_write (cur_data_rates p) 0 used;
      let p := set_cur_rates rates_size cur p in
      '(m, pos) ← put_rates rates rates_size m pos;
      let pauth := auth_type_of_mode p in
      '(m, pos) ← match pauth with Some a => put_auth_type a m pos | None => Ret (m, pos) end;
      '(m, pos) ← (if wants_channel (cs_adapter s) p e x then put_channel e m pos else Ret (m, pos));
      r ← put_security p pauth m pos;
      match r with
      | inl m => Ret (MkJr MLAN_STATUS_FAILURE (at_tlv (m, pos) s) p)
      | inr (status, m, pos, pauth) =>
          '(m, pos) ← put_sae_pwe pauth prsnx_ie m pos;
          s ← put_capabilities p e x (at_tlv (m, pos) s);
          '(m, pos) ← wlan_wmm_process_association_req p e (pht_cap x) (cs_mem s) (cs_pos s);
          '(m, pos) ← put_host_mlme p m pos;
          '(m, pos, p) ← wlan_cmd_append_generic_ie p m pos;
          m ← finish_command e p m pos;
          Ret (MkJr status (at_tlv (m, pos) s) p)
      end
  end.
