(* ===== verification/JoinProps.v ===== *)
(** * The association command as a list of TLVs

    What the parts of the command put into the buffer, without the buffer: the
    TLVs in their order.  Each part is shown to put its TLVs behind what is
    there, in [P], and to leave what is behind them. *)
From stdpp Require Import list.
From S2P Require Import Prelude Cfp ScanData ScanParse ScanFind Rsn HtCap Join.
Open Scope Z_scope.

(** ** TLVs *)
Definition tlv := (Z * list Z)%type.
Definition tlv_bytes (t : tlv) : list Z := le16 t.1 ++ le16 (Z.of_nat (length t.2)) ++ t.2.
Definition encode (l : list tlv) : list Z := concat (tlv_bytes <$> l).

Lemma encode_app l1 l2 : encode (l1 ++ l2) = encode l1 ++ encode l2.
Proof. unfold encode. rewrite fmap_app. apply concat_app. Qed.
Lemma encode_one t v : encode [(t, v)] = le16 t ++ le16 (Z.of_nat (length v)) ++ v.
Proof. unfold encode. cbn. by rewrite app_nil_r. Qed.

(** The buffer [m] of [N] bytes begins with [P], and [pos] is the place behind it. *)
Record filled (N : nat) (P m : list Z) (pos : Z) : Prop := {
  filled_length : length m = N;
  filled_prefix : exists rest, m = P ++ rest;
  filled_pos : pos = Z.of_nat (length P)
}.

Lemma filled_write N P m pos bs : filled N P m pos -> (length P + length bs <= N)%nat ->
  exists m', mem_write m pos bs = Ret m' /\ filled N (P ++ bs) m' (pos + Z.of_nat (length bs)).
Proof.
  intros [Hl (rest & ->) ->] Hfit. rewrite length_app in Hl. destruct (split_block rest (length bs)) as (old & rest' & -> & Ho & _); [lia |].
  rewrite mem_write_app by done. eexists. split; [done |]. rewrite length_app in Hl. split; [rewrite !length_app; lia | | rewrite length_app; lia].
  exists rest'. by rewrite <- (assoc_L (++)).
Qed.
Lemma filled_tlv N P m pos t v : filled N P m pos -> (length P + length (encode [(t, v)]) <= N)%nat ->
  exists m' pos', put_tlv m pos t v = Ret (m', pos') /\ filled N (P ++ encode [(t, v)]) m' pos'.
Proof.
  intros H Hfit. unfold put_tlv. rewrite encode_one in *. destruct (filled_write _ _ _ _ _ H Hfit) as (m' & -> & H'). rewrite bind_ret.
  exists m', (pos + 4 + Z.of_nat (length v)). split; [done |]. revert H'. rewrite !length_app. cbn [length le16]. intros H'.
  replace (pos + 4 + Z.of_nat (length v)) with (pos + Z.of_nat (2 + (2 + length v))) by lia. done.
Qed.

(** ** The capabilities *)

(** The elements of 802.11n, the adapter and the bandwidth of the descriptor. *)
Definition ext_value (p : cap_private) (pext_cap : option (list Z)) : outcome (list tlv) :=
  match pext_cap with
  | Some b =>
      len ← arr_get b 1;
      bs ← mem_read b 2 len;
      v ← mem_write (replicate 10 0) 0 bs;
      v ← or_byte v 0 1;
      v ← (if negb (Z.land (hotspot_cfg p) HOTSPOT_ENABLED =? 0) then hotspot_bits (hotspot_cfg p) v 0 else Ret v);
      Ret [(element_number EXT_CAPABILITY, v)]
  | None =>
      if negb (Z.land (hotspot_cfg p) HOTSPOT_ENABLED =? 0) then
        v ← hotspot_bits (hotspot_cfg p) (replicate 10 0) 0; Ret [(element_number EXT_CAPABILITY, v)]
      else Ret []
  end.
Definition tlvs_2040 (bss_band : Z) (x : ap_elements) : outcome (list tlv) :=
  match pbss_co_2040 x with
  | Some b => if has_band bss_band (bands [BAND_A; BAND_AN]) then bs ← mem_read b 2 1; Ret [(element_number BSSCO_2040, bs)] else Ret []
  | None => Ret []
  end.
Definition tlvs_info (a : cap_adapter) (p : cap_private) (bss_band usr bw : Z) (x : ap_elements) : outcome (list tlv * Z) :=
  match pht_info x with
  | Some b =>
      l ← (if negb (ibss p) then Ret [] else v ← ht_info_value usr b; Ret [(element_number HT_OPERATION, v)]);
      '(v, w) ← chan_list_value a p bss_band usr x b;
      Ret (l ++ [(TLV_TYPE_CHANLIST, v)], default bw w)
  | None => Ret ([], bw)
  end.
Definition tlvs_11n (p : cap_private) (bss_band : Z) (x : ap_elements) (a : cap_adapter) (bw : Z) : outcome (list tlv * cap_adapter * Z) :=
  '(usr, orig, a, forced) ← force_20 bss_band x a;
  l1 ← match pht_cap x with Some b => v ← ht_cap_value a p bss_band usr b; Ret [(element_number HT_CAPABILITY, v)] | None => Ret [] end;
  '(l2, bw) ← tlvs_info a p bss_band usr (if forced : bool then BW_20MHZ else bw) x;
  l3 ← tlvs_2040 bss_band x;
  l4 ← ext_value p (pext_cap x);
  Ret (l1 ++ l2 ++ l3 ++ l4, if orig =? 0 then a else set_usr_bg orig a, bw).
Definition tlvs_11ac (bss_band : Z) (x : ap_elements) (a : cap_adapter) (bw : Z) : outcome (list tlv) :=
  match pvht_cap x with
  | None => Ret []
  | Some b =>
      map ← mem_read_le16 b 6;
      if wlan_get_nss_vht_mcs map =? 0 then Ret []
      else v ← vht_cap_value a bss_band b; mode ← oper_mode_ntf a bw bss_band x; Ret [(element_number VHT_CAPABILITY, v); (element_number OPER_MODE_NTF, [mode])]
  end.

(** ** A part puts its TLVs *)
Definition puts (N : nat) (f : cap_state -> outcome cap_state) (s : cap_state) (l : list tlv) (a : cap_adapter) (bw : Z) : Prop :=
  forall P, filled N P (cs_mem s) (cs_pos s) -> (length P + length (encode l) <= N)%nat ->
  exists m pos, f s = Ret (MkCs m pos a bw) /\ filled N (P ++ encode l) m pos.
Lemma puts_nothing N s : puts N Ret s [] (cs_adapter s) (curr_bandwidth s).
Proof. intros P H _. destruct s as [m pos a bw]. exists m, pos. split; [done |]. by rewrite app_nil_r. Qed.
Lemma puts_one N s t v : puts N (fun s => r ← put_tlv (cs_mem s) (cs_pos s) t v; Ret (at_tlv r s)) s [(t, v)] (cs_adapter s) (curr_bandwidth s).
Proof. intros P H Hfit. destruct (filled_tlv _ _ _ _ _ _ H Hfit) as (m & pos & -> & H'). rewrite bind_ret. by exists m, pos. Qed.
(** One part after another. *)
Lemma puts_then N f g s l1 a1 bw1 l2 a bw :
  puts N f s l1 a1 bw1 -> (forall m pos, puts N g (MkCs m pos a1 bw1) l2 a bw) -> puts N (fun s => s ← f s; g s) s (l1 ++ l2) a bw.
Proof.
  intros Hf Hg P H Hfit. rewrite encode_app, length_app in Hfit. destruct (Hf P H) as (m & pos & -> & H'); [lia |]. rewrite bind_ret.
  destruct (Hg m pos (P ++ encode l1) H') as (m' & pos' & -> & H''); [rewrite length_app; lia |]. exists m', pos'. split; [done |].
  by rewrite encode_app, (assoc_L (++)).
Qed.
Lemma puts_ext N f g s l a bw : f s = g s -> puts N f s l a bw -> puts N g s l a bw.
Proof. intros E H P. rewrite <- E. apply H. Qed.

Lemma put_ht_cap_puts N p bss_band usr b s v : ht_cap_value (cs_adapter s) p bss_band usr b = Ret v ->
  puts N (put_ht_cap p bss_band usr b) s [(element_number HT_CAPABILITY, v)] (cs_adapter s) (curr_bandwidth s).
Proof. intros E. eapply puts_ext; [| apply puts_one]. unfold put_ht_cap. by rewrite E. Qed.
Lemma put_chan_list_puts N p bss_band usr x b s v w : chan_list_value (cs_adapter s) p bss_band usr x b = Ret (v, w) ->
  puts N (put_chan_list p bss_band usr x b) s [(TLV_TYPE_CHANLIST, v)] (cs_adapter s) (default (curr_bandwidth s) w).
Proof.
  intros E P H Hfit. unfold put_chan_list. rewrite E, bind_ret. cbv beta iota. destruct (filled_tlv _ _ _ _ _ _ H Hfit) as (m & pos & -> & H'). rewrite bind_ret.
  exists m, pos. by destruct w.
Qed.
Lemma put_info_puts N p bss_band usr x s l bw : tlvs_info (cs_adapter s) p bss_band usr (curr_bandwidth s) x = Ret (l, bw) ->
  puts N (fun s => match pht_info x with Some b => s ← put_ht_info p usr b s; put_chan_list p bss_band usr x b s | None => Ret s end) s l (cs_adapter s) bw.
Proof.
  unfold tlvs_info. destruct (pht_info x) as [b |]; intros E; [| injection E as <- <-; apply puts_nothing].
  apply bind_inv in E as (l1 & E1 & E). apply bind_inv in E as ([v w] & E2 & E). injection E as <- <-.
  apply puts_then with (a1 := cs_adapter s) (bw1 := curr_bandwidth s).
  - unfold put_ht_info. destruct (negb (ibss p)); [injection E1 as <-; apply puts_nothing |].
    apply bind_inv in E1 as (v1 & Ev & E1). injection E1 as <-. eapply puts_ext; [| apply puts_one]. cbv beta. by rewrite Ev.
  - intros m pos. exact (put_chan_list_puts N p bss_band usr x b (MkCs m pos (cs_adapter s) (curr_bandwidth s)) v w E2).
Qed.
Lemma put_2040_puts N bss_band x s l : tlvs_2040 bss_band x = Ret l -> puts N (put_2040 bss_band x) s l (cs_adapter s) (curr_bandwidth s).
Proof.
  unfold tlvs_2040, put_2040. destruct (pbss_co_2040 x) as [b |]; [| intros [= <-]; apply puts_nothing].
  destruct (has_band bss_band (bands [BAND_A; BAND_AN])); [| intros [= <-]; apply puts_nothing]. intros E.
  apply bind_inv in E as (bs & Eb & E). injection E as <-. eapply puts_ext; [| apply puts_one]. cbv beta. by rewrite Eb.
Qed.

(** *** Extended capabilities *)
Lemma or_byte_in (P v R : list Z) i y v' : or_byte v i y = Ret v' ->
  or_byte (P ++ v ++ R) (Z.of_nat (length P) + i) y = Ret (P ++ v' ++ R) /\ length v' = length v.
Proof.
  unfold or_byte. intros E. apply bind_inv in E as (b & Eb & Ev). apply arr_get_ret in Eb as [Hi Hb].
  pose proof (lookup_lt_Some _ _ _ Hb) as Hlt. rewrite arr_set_ret in Ev by lia. injection Ev as <-.
  assert (Hn : Z.to_nat (Z.of_nat (length P) + i) = (length P + Z.to_nat i)%nat) by lia. split; [| by rewrite length_insert].
  replace (arr_get (P ++ v ++ R) (Z.of_nat (length P) + i)) with (Ret b)
    by (symmetry; apply arr_get_ret; split; [lia | rewrite Hn, lookup_app_r, Nat.add_comm, Nat.add_sub by lia; by rewrite lookup_app_l by lia]).
  rewrite bind_ret, arr_set_ret by (rewrite !length_app; lia). f_equal. rewrite Hn, insert_app_r. f_equal. by rewrite insert_app_l by lia.
Qed.
Lemma hotspot_bits_in cfg (P v R : list Z) v' : hotspot_bits cfg v 0 = Ret v' ->
  hotspot_bits cfg (P ++ v ++ R) (Z.of_nat (length P)) = Ret (P ++ v' ++ R) /\ length v' = length v.
Proof.
  unfold hotspot_bits. intros E. apply bind_inv in E as (v1 & E1 & E2).
  assert (H1 : (if has_bit (u8 (Z.shiftr cfg 8)) 0 then or_byte (P ++ v ++ R) (Z.of_nat (length P) + 3) 128 else Ret (P ++ v ++ R)) = Ret (P ++ v1 ++ R) /\
               length v1 = length v) by (destruct (has_bit _ 0); [by apply or_byte_in | by injection E1 as <-]).
  destruct H1 as [-> Hl]. rewrite bind_ret. destruct (has_bit _ 1); [| injection E2 as <-; done].
  rewrite <- Hl. by apply or_byte_in.
Qed.
Lemma ext_header (v : list Z) : length v = 10%nat -> encode [(element_number EXT_CAPABILITY, v)] = le16 (element_number EXT_CAPABILITY) ++ le16 sizeof_ExtCap ++ v.
Proof. intros H. rewrite encode_one, H. done. Qed.
Lemma mem_write_inside {A} (P v R bs v' : list A) : mem_write v 0 bs = Ret v' -> mem_write (P ++ v ++ R) (Z.of_nat (length P)) bs = Ret (P ++ v' ++ R).
Proof.
  unfold mem_write at 1. intros E. destruct (Z.leb_spec (0 + Z.of_nat (length bs)) (Z.of_nat (length v))); [| done]. injection E as <-.
  rewrite mem_write_next by (done || lia). by rewrite <- !(assoc_L (++)).
Qed.
(** The header of the element and ten bytes, where the buffer is filled up to. *)
Definition ext_head : list Z := le16 (element_number EXT_CAPABILITY) ++ le16 sizeof_ExtCap.
Lemma ext_start N P m pos : filled N P m pos -> (length P + 14 <= N)%nat ->
  exists R, mem_write m pos (le16 (element_number EXT_CAPABILITY) ++ le16 sizeof_ExtCap ++ replicate 10 0) = Ret ((P ++ ext_head) ++ replicate 10 0 ++ R) /\
    pos + 4 = Z.of_nat (length (P ++ ext_head)) /\
    forall v, length v = 10%nat -> filled N (P ++ encode [(element_number EXT_CAPABILITY, v)]) ((P ++ ext_head) ++ v ++ R) (pos + 14).
Proof.
  intros [Hl (rest & ->) ->] Hfit. rewrite length_app in Hl. destruct (split_block rest 14) as (old & R & -> & Ho & _); [lia |]. exists R.
  rewrite length_app in Hl. split; [rewrite mem_write_app by done; unfold ext_head; by rewrite <- !(assoc_L (++)) |].
  split; [rewrite length_app; simpl; lia |]. intros v Hv. rewrite ext_header by done.
  split; [rewrite !length_app; simpl; lia | | rewrite !length_app; simpl; lia]. exists R. unfold ext_head. by rewrite <- !(assoc_L (++)).
Qed.
Lemma put_ext_puts N p x s l : ext_value p (pext_cap x) = Ret l -> puts N (put_ext p x) s l (cs_adapter s) (curr_bandwidth s).
Proof.
  unfold ext_value, put_ext. destruct (pext_cap x) as [b |].
  - intros E P H Hfit. apply bind_inv in E as (len & E1 & E). apply bind_inv in E as (bs & E2 & E). apply bind_inv in E as (v1 & E3 & E).
    apply bind_inv in E as (v2 & E4 & E). apply bind_inv in E as (v3 & E5 & E). injection E as <-.
    pose proof (mem_write_length _ _ _ _ E3) as Hv1. pose proof (proj2 (or_byte_in [] v1 [] 0 1 v2 E4)) as Hv2.
    assert (Hv3 : length v3 = length v2) by (destruct (negb _); [by apply (hotspot_bits_in (hotspot_cfg p) [] v2 [] v3) | by injection E5 as <-]).
    rewrite length_replicate in Hv1. rewrite ext_header, length_app in Hfit by lia. unfold put_ext_cap.
    destruct (ext_start N P _ _ H) as (R & -> & Hpos & Hdone); [simpl in Hfit; lia |].
    rewrite bind_ret, E1, bind_ret, E2, bind_ret, Hpos, (mem_write_inside _ _ R _ _ E3), bind_ret.
    pose proof (proj1 (or_byte_in (P ++ ext_head) _ R _ _ _ E4)) as Hor. rewrite Z.add_0_r in Hor. rewrite Hor, bind_ret.
    assert (Hhot : (if negb (Z.land (hotspot_cfg p) HOTSPOT_ENABLED =? 0) then hotspot_bits (hotspot_cfg p) ((P ++ ext_head) ++ v2 ++ R) (Z.of_nat (length (P ++ ext_head)))
                    else Ret ((P ++ ext_head) ++ v2 ++ R)) = Ret ((P ++ ext_head) ++ v3 ++ R))
      by (destruct (negb _); [by apply hotspot_bits_in | by injection E5 as <-]).
    rewrite Hhot, !bind_ret. eexists _, _. split; [done |]. apply Hdone. lia.
  - destruct (negb _); [| intros [= <-]; apply puts_nothing]. intros E P H Hfit. apply bind_inv in E as (v & Ev & E). injection E as <-.
    destruct (hotspot_bits_in (hotspot_cfg p) [] _ [] v Ev) as [_ Hv]. rewrite length_replicate in Hv. rewrite ext_header, length_app in Hfit by done.
    unfold wlan_add_ext_capa_info_ie. destruct (ext_start N P _ _ H) as (R & -> & Hpos & Hdone); [simpl in Hfit; lia |].
    rewrite bind_ret, Hpos, (proj1 (hotspot_bits_in _ _ _ R _ Ev)), !bind_ret. eexists _, _. split; [done |]. by apply Hdone.
Qed.

(** *** Both functions *)
Lemma put_cap_puts N p bss_band usr x s l :
  match pht_cap x with Some b => v ← ht_cap_value (cs_adapter s) p bss_band usr b; Ret [(element_number HT_CAPABILITY, v)] | None => Ret [] end = Ret l ->
  puts N (fun s => match pht_cap x with Some b => put_ht_cap p bss_band usr b s | None => Ret s end) s l (cs_adapter s) (curr_bandwidth s).
Proof.
  destruct (pht_cap x) as [b |]; [| intros [= <-]; apply puts_nothing]. intros E. apply bind_inv in E as (v & Ev & E). injection E as <-.
  by apply put_ht_cap_puts.
Qed.
Lemma append_11n_puts N p bss_band x s l a bw : tlvs_11n p bss_band x (cs_adapter s) (curr_bandwidth s) = Ret (l, a, bw) ->
  puts N (wlan_cmd_append_11n_tlv p bss_band x) s l a bw.
Proof.
  unfold tlvs_11n. intros E. apply bind_inv in E as ([[[usr orig] a1] forced] & E0 & E). apply bind_inv in E as (l1 & E1 & E).
  apply bind_inv in E as ([l2 bw2] & E2 & E). apply bind_inv in E as (l3 & E3 & E). apply bind_inv in E as (l4 & E4 & E). injection E as <- <- <-.
  set (bw1 := if forced then BW_20MHZ else curr_bandwidth s) in *. set (s1 := MkCs (cs_mem s) (cs_pos s) a1 bw1).
  assert (Hs1 : set_cs_adapter a1 (if forced then set_bandwidth BW_20MHZ s else s) = s1) by (unfold s1, bw1; by destruct forced).
  intros P H Hfit. unfold wlan_cmd_append_11n_tlv. rewrite E0, bind_ret. cbv beta iota zeta. rewrite Hs1.
  assert (Hp : puts N (fun s => s ← match pht_cap x with Some b => put_ht_cap p bss_band usr b s | None => Ret s end;
                              s ← match pht_info x with Some b => s ← put_ht_info p usr b s; put_chan_list p bss_band usr x b s | None => Ret s end;
                              s ← put_2040 bss_band x s; put_ext p x s) s1 (l1 ++ l2 ++ l3 ++ l4) a1 bw2).
  { apply puts_then with a1 bw1; [exact (put_cap_puts N p bss_band usr x s1 l1 E1) |]. intros m pos.
    apply puts_then with a1 bw2; [exact (put_info_puts N p bss_band usr x (MkCs m pos a1 bw1) l2 bw2 E2) |]. intros m' pos'.
    apply puts_then with a1 bw2; [exact (put_2040_puts N bss_band x (MkCs m' pos' a1 bw2) l3 E3) |]. intros m'' pos''.
    exact (put_ext_puts N p x (MkCs m'' pos'' a1 bw2) l4 E4). }
  destruct (Hp P H Hfit) as (m & pos & Hrun & Hdone).
  apply bind_inv in Hrun as (t1 & -> & Hrun). rewrite bind_ret. apply bind_inv in Hrun as (t2 & -> & Hrun). rewrite bind_ret.
  apply bind_inv in Hrun as (t3 & -> & Hrun). rewrite bind_ret, Hrun, bind_ret. exists m, pos. split; [by destruct (orig =? 0) | done].
Qed.
Lemma append_11ac_puts N bss_band x s l : tlvs_11ac bss_band x (cs_adapter s) (curr_bandwidth s) = Ret l ->
  puts N (wlan_cmd_append_11ac_tlv bss_band x) s l (cs_adapter s) (curr_bandwidth s).
Proof.
  unfold tlvs_11ac. intros E. destruct (pvht_cap x) as [b |] eqn:Ex.
  - apply bind_inv in E as (map & Em & E). destruct (wlan_get_nss_vht_mcs map =? 0) eqn:En.
    + injection E as <-. eapply puts_ext; [| apply puts_nothing]. unfold wlan_cmd_append_11ac_tlv. by rewrite Ex, Em, bind_ret, En.
    + apply bind_inv in E as (v & Ev & E). apply bind_inv in E as (mode & Eo & E). injection E as <-.
      set (put t v := fun s => r ← put_tlv (cs_mem s) (cs_pos s) t v; Ret (at_tlv r s)).
      apply puts_ext with (fun s => s ← put (element_number VHT_CAPABILITY) v s; put (element_number OPER_MODE_NTF) [mode] s).
      2: { apply (puts_then N _ _ s [(element_number VHT_CAPABILITY, v)] (cs_adapter s) (curr_bandwidth s) [(element_number OPER_MODE_NTF, [mode])]);
             [apply puts_one | intros m pos; apply (puts_one N (MkCs m pos (cs_adapter s) (curr_bandwidth s)))]. }
      unfold put.
      cbv beta. unfold wlan_cmd_append_11ac_tlv. rewrite Ex, Em, bind_ret, En, Ev, bind_ret. destruct (put_tlv _ _ _ v) as [r |]; [| done].
      rewrite !bind_ret. cbn [cs_adapter at_tlv curr_bandwidth]. by rewrite Eo, bind_ret.
  - injection E as <-. eapply puts_ext; [| apply puts_nothing]. unfold wlan_cmd_append_11ac_tlv. by rewrite Ex.
Qed.
