(* ===== verification/JoinTheorems.v ===== *)
(** * The association command: theorems *)
From stdpp Require Import list.
From S2P Require Import Prelude CString Cfp ScanData ScanParse ScanFind Rsn RsnProps RsnTheorems HtCap HtCapTheorems Join JoinProps.
Open Scope Z_scope.

(** ** The TLVs of the parts *)
Definition auth_tlvs (pauth : option Z) : list tlv := match pauth with Some a => [(TLV_TYPE_AUTH_TYPE, le16 a)] | None => [] end.
Definition channel_tlvs (a : cap_adapter) (p : join_private) (e : BSSDescriptor_t) (x : ap_elements) : outcome (list tlv) :=
  if wants_channel a p e x then
    chan ← arr_get (phy_param_set e) 2; Ret [(TLV_TYPE_CHANLIST, [wlan_band_to_radio_type (u8 (bss_band e)); chan; 0; 0; 0; 0; 0])]
  else Ret [].
Definition sae_tlvs (pauth : option Z) (prsnx_ie : option (list Z)) : outcome (list tlv) :=
  match pauth, prsnx_ie with
  | Some a, Some b =>
      if a =? AssocAgentAuth_Wpa3Sae then
        len ← arr_get b 1;
        data ← (if len =? 0 then Ret 0 else arr_get b 2);
        Ret (if has_bit data SAE_H2E_BIT then [(TLV_TYPE_WPA3_SAE_PWE_DERIVATION_MODE, [data])] else [])
      else Ret []
  | _, _ => Ret []
  end.
Definition caps_tlvs (p : join_private) (e : BSSDescriptor_t) (x : ap_elements) (a : cap_adapter) (bw : Z) : outcome (list tlv * cap_adapter * Z) :=
  let config_bands := cp_config_bands (jp_cap p) in
  '(l1, a', bw) ← (if ISSUPP_11NENABLED (fw_cap_info a) && negb (disable_11n e) && (has_band config_bands BAND_GN || has_band config_bands BAND_AN) && negb (is_wpa_tkip p)
                  then tlvs_11n (jp_cap p) (bss_band e) x a bw else l ← ext_value (jp_cap p) None; Ret (l, a, bw));
  l2 ← (if ISSUPP_11ACENABLED (fw_cap_info a) && negb (disable_11n e) && negb (wlan_11ac_bandconfig_allowed a' (jp_cap p) (bss_band e) =? 0)
        then tlvs_11ac (bss_band e) x a' bw else Ret []);
  Ret (l1 ++ l2, a', bw).
(** The quality of service element; its last byte the user's where the access
    point has power save by quality of service. *)
Definition wmm_tlvs (p : join_private) (e : BSSDescriptor_t) (pHTCap : option (list Z)) : outcome (list tlv) :=
  let config_bands := cp_config_bands (jp_cap p) in
  ht ← match pHTCap with None => Ret false | Some b => id ← arr_get b 0; Ret (id =? element_number HT_CAPABILITY) end;
  id ← arr_get (wmm_ie e) 0;
  if (wmm_required p || (ht && (has_band config_bands BAND_GN || has_band config_bands BAND_AN))) && (id =? WMM_IE) then
    qos_info ← arr_get (wmm_ie e) 8;
    Ret [(WMM_IE, [0; 80; 242; 2; 0; 1; if has_bit qos_info 7 then wmm_qosinfo p else 0])]
  else Ret [].
Definition generic_tlvs (p : join_private) : outcome (list tlv) :=
  if gen_ie_buf_len p =? 0 then Ret [] else bs ← mem_read (gen_ie_buf p) 0 (gen_ie_buf_len p); Ret [(TLV_TYPE_PASSTHROUGH, bs)].
Definition mlme_tlvs (p : join_private) : list tlv := if host_mlme p then [(TLV_TYPE_HOST_MLME, [1])] else [].

(** The element of WPA as it is, that of WPA2 narrowed: its TLV and the kind of
    authentication it leads to. *)
Inductive security_ie (p : join_private) (pauth : option Z) : tlv -> Z -> Prop :=
  | ie_wpa type v pad : wpa2_enabled (jp_sec p) = false -> wpa_ie p = type :: Z.of_nat (length v) :: v ++ pad -> (length v <= 62)%nat ->
      security_ie p pauth (type, v) 0
  | ie_wpa2 type r pad cipher akm new :
      let kind := match pauth with Some a => u8 a | None => AssocAgentAuth_Auto end in
      wpa2_enabled (jp_sec p) = true -> wpa_ie p = type :: Z.of_nat (length (rsn_bytes r)) :: rsn_bytes r ++ pad -> (length (rsn_bytes r) <= 62)%nat ->
      rsn_ok r -> chosen cipher_preference (types (r_ciphers r)) cipher -> tkip_with_sae cipher kind = false ->
      akm_choice (kind_for cipher kind) (types (r_akms r)) akm new -> pmf_mismatch (pmfcfg p) (r_caps r) = false -> one_move (pmfcfg p) r ->
      security_ie p pauth (type, rsn_bytes (narrow (pmfcfg p) r cipher akm)) new.
(** Where that kind is not known before, its TLV comes first. *)
Inductive security_tlvs (p : join_private) (pauth : option Z) : list tlv -> option Z -> Prop :=
  | security_none : wpa_enabled (jp_sec p) || wpa2_enabled (jp_sec p) = false -> security_tlvs p pauth [] pauth
  | security_some t new : wpa_enabled (jp_sec p) || wpa2_enabled (jp_sec p) = true -> security_ie p pauth t new ->
      security_tlvs p pauth (match pauth with Some _ => [] | None => auth_tlvs (Some new) end ++ [t]) (Some (default new pauth)).

(** ** Each part puts its TLVs *)
Definition puts2 (N : nat) (f : list Z -> Z -> outcome (list Z * Z)) (l : list tlv) : Prop :=
  forall P m pos, filled N P m pos -> (length P + length (encode l) <= N)%nat -> exists m' pos', f m pos = Ret (m', pos') /\ filled N (P ++ encode l) m' pos'.
Lemma puts2_nothing N : puts2 N (fun m pos => Ret (m, pos)) [].
Proof. intros P m pos H _. exists m, pos. by rewrite app_nil_r. Qed.
Lemma puts2_one N t v : puts2 N (fun m pos => put_tlv m pos t v) [(t, v)].
Proof. intros P m pos. apply filled_tlv. Qed.
Lemma puts2_ext N f g l : (forall m pos, f m pos = g m pos) -> puts2 N f l -> puts2 N g l.
Proof. intros E H P m pos Hf Hfit. rewrite <- E. by apply H. Qed.

Lemma put_auth_puts N pauth : puts2 N (fun m pos => match pauth with Some a => put_auth_type a m pos | None => Ret (m, pos) end) (auth_tlvs pauth).
Proof. destruct pauth; [apply puts2_one | apply puts2_nothing]. Qed.
Lemma put_channel_puts N a p e x l : channel_tlvs a p e x = Ret l ->
  puts2 N (fun m pos => if wants_channel a p e x then put_channel e m pos else Ret (m, pos)) l.
Proof.
  unfold channel_tlvs. destruct (wants_channel a p e x); [| intros [= <-]; apply puts2_nothing]. intros E. apply bind_inv in E as (c & Ec & E). injection E as <-.
  eapply puts2_ext; [| apply puts2_one]. intros m pos. unfold put_channel. by rewrite Ec.
Qed.
Lemma put_sae_puts N pauth b l : sae_tlvs pauth b = Ret l -> puts2 N (put_sae_pwe pauth b) l.
Proof.
  unfold sae_tlvs, put_sae_pwe. destruct pauth as [a |], b as [b |]; try (intros [= <-]; apply puts2_nothing).
  destruct (a =? AssocAgentAuth_Wpa3Sae); [| intros [= <-]; apply puts2_nothing]. intros E. apply bind_inv in E as (len & E1 & E).
  apply bind_inv in E as (data & E2 & E). injection E as <-.
  apply puts2_ext with (fun m pos => if has_bit data SAE_H2E_BIT then put_tlv m pos TLV_TYPE_WPA3_SAE_PWE_DERIVATION_MODE [data] else Ret (m, pos)).
  - intros m pos. by rewrite E1, bind_ret, E2, bind_ret.
  - destruct (has_bit data SAE_H2E_BIT); [apply puts2_one | apply puts2_nothing].
Qed.
Lemma put_wmm_puts N p e b l : wmm_tlvs p e b = Ret l -> puts2 N (wlan_wmm_process_association_req p e b) l.
Proof.
  unfold wmm_tlvs. intros E. apply bind_inv in E as (ht & E1 & E). apply bind_inv in E as (id & E2 & E).
  destruct (_ && (id =? WMM_IE)) eqn:Ec.
  - apply bind_inv in E as (q & E3 & E). injection E as <-. eapply puts2_ext; [| apply puts2_one]. intros m pos.
    unfold wlan_wmm_process_association_req. rewrite E1, bind_ret, E2, bind_ret, Ec, E3, bind_ret. by destruct (has_bit q 7).
  - injection E as <-. eapply puts2_ext; [| apply puts2_nothing]. intros m pos. unfold wlan_wmm_process_association_req. by rewrite E1, bind_ret, E2, bind_ret, Ec.
Qed.
Lemma put_mlme_puts N p : puts2 N (put_host_mlme p) (mlme_tlvs p).
Proof. unfold put_host_mlme, mlme_tlvs. destruct (host_mlme p); [apply puts2_one | apply puts2_nothing]. Qed.
Lemma put_generic N p l P m pos : generic_tlvs p = Ret l -> filled N P m pos -> (length P + length (encode l) <= N)%nat ->
  exists m' pos', wlan_cmd_append_generic_ie p m pos = Ret (m', pos', set_gen_ie_buf_len 0 p) /\ filled N (P ++ encode l) m' pos'.
Proof.
  unfold generic_tlvs, wlan_cmd_append_generic_ie. destruct (Z.eqb_spec (gen_ie_buf_len p) 0) as [Hz |].
  - intros [= <-] H Hfit. exists m, pos. rewrite app_nil_r. split; [| done]. do 2 f_equal. destruct p; cbn in *. by subst.
  - intros E H Hfit. apply bind_inv in E as (bs & Eb & E). injection E as <-. rewrite Eb, bind_ret.
    destruct (filled_tlv _ _ _ _ _ _ H Hfit) as (m' & pos' & -> & H'). rewrite bind_ret. by exists m', pos'.
Qed.
Lemma put_caps_puts N p e x s l a bw : caps_tlvs p e x (cs_adapter s) (curr_bandwidth s) = Ret (l, a, bw) -> puts N (put_capabilities p e x) s l a bw.
Proof.
  unfold caps_tlvs. intros E. apply bind_inv in E as ([[l1 a1] bw1] & E1 & E). apply bind_inv in E as (l2 & E2 & E). injection E as <- <- <-.
  set (n11 := ISSUPP_11NENABLED _ && _ && _ && _) in *. set (ac := ISSUPP_11ACENABLED (fw_cap_info (cs_adapter s)) && negb (disable_11n e)) in *.
  apply puts_ext with (fun s => s ← (if n11 then wlan_cmd_append_11n_tlv (jp_cap p) (bss_band e) x s else put_ext (jp_cap p) (MkAp None None None None None None) s);
    if ac && negb (wlan_11ac_bandconfig_allowed (cs_adapter s) (jp_cap p) (bss_band e) =? 0) then wlan_cmd_append_11ac_tlv (bss_band e) x s else Ret s); [done |].
  apply puts_then with a1 bw1.
  - destruct n11; [by apply append_11n_puts |].
    apply bind_inv in E1 as (l & El & E1). injection E1 as <- <- <-. exact (put_ext_puts N (jp_cap p) (MkAp None None None None None None) s l El).
  - intros m pos. set (s1 := MkCs m pos a1 bw1). cbn [cs_adapter].
    apply puts_ext with (fun s => if ac && negb (wlan_11ac_bandconfig_allowed a1 (jp_cap p) (bss_band e) =? 0) then wlan_cmd_append_11ac_tlv (bss_band e) x s else Ret s); [done |].
    destruct (ac && _); [exact (append_11ac_puts N (bss_band e) x s1 l2 E2) | injection E2 as <-; apply (puts_nothing N s1)].
Qed.

(** ** The element of WPA *)

(** What is read of the element saved for the interface. *)
Lemma ie_reads p type v pad : wpa_ie p = type :: Z.of_nat (length v) :: v ++ pad ->
  arr_get (wpa_ie p) 0 = Ret type /\ arr_get (wpa_ie p) 1 = Ret (Z.of_nat (length v)) /\ mem_read (wpa_ie p) 2 (Z.of_nat (length v)) = Ret v.
Proof. intros ->. split; [done |]. split; [done |]. by apply (mem_read_app [type; Z.of_nat (length v)] v pad). Qed.
(** It is put as it is: the buffer, with what comes behind. *)
Lemma put_ie_raw N P m pos type (v : list Z) : filled N P m pos -> (length P + 4 + length v <= N)%nat ->
  exists m1 rest, mem_write m pos (le16 type ++ le16 (Z.of_nat (length v))) = Ret m1 /\
    mem_write m1 (pos + 4) v = Ret ((P ++ le16 type ++ le16 (Z.of_nat (length v))) ++ v ++ rest) /\
    (length P + 4 + length v + length rest = N)%nat.
Proof.
  intros H Hfit. destruct (filled_write _ _ _ _ (le16 type ++ le16 (Z.of_nat (length v))) H) as (m1 & -> & H1); [simpl; lia |].
  change (Z.of_nat (length (le16 type ++ le16 (Z.of_nat (length v))))) with 4 in H1.
  destruct (filled_write _ _ _ _ v H1) as (m2 & E2 & H2); [rewrite length_app; simpl; lia |]. destruct H2 as [Hl (rest & ->) _].
  exists m1, rest. split; [done |]. split; [by rewrite E2, <- !(assoc_L (++)) |]. rewrite !length_app in Hl. simpl in Hl. lia.
Qed.

Lemma behind_bytes r : rsn_ok r -> (behind r <= length (rsn_bytes r))%nat.
Proof.
  intros Hok. unfold behind, rsn_bytes. rewrite !length_app, (suites_length (r_ciphers r)), (suites_length (r_akms r)) by apply Hok. lia.
Qed.
Lemma put_ie N p pauth t new P m pos : security_ie p pauth t new -> filled N P m pos -> (length P + 140 <= N)%nat ->
  exists m' pos', put_security_ie p pauth m pos = Ret (inr (MLAN_STATUS_SUCCESS, m', pos', new)) /\ filled N (P ++ encode [t]) m' pos'.
Proof.
  intros Hie H Hfit. unfold put_security_ie. destruct Hie as [type v pad Hw Hbytes Hlen | type r pad cipher akm new kind Hw Hbytes Hlen Hok Hc Ht Ha Hpmf Hone].
  - destruct (ie_reads p type v pad Hbytes) as (-> & -> & Hread). rewrite !bind_ret.
    destruct (put_ie_raw N P m pos type v H) as (m1 & rest & -> & E2 & Hrest); [lia |]. rewrite bind_ret, (proj2 (Z.leb_le _ _)) by (unfold MLAN_WMSDK_MAX_WPA_IE_LEN; lia).
    rewrite Hread, bind_ret, E2, bind_ret, Hw. eexists _, _. split; [done |]. rewrite encode_one. destruct H as [_ _ ->].
    split; [rewrite !length_app; simpl; lia | exists rest; by rewrite <- !(assoc_L (++)) | rewrite !length_app; simpl; lia].
  - destruct (ie_reads p type _ pad Hbytes) as (-> & -> & Hread). rewrite !bind_ret.
    destruct (put_ie_raw N P m pos type (rsn_bytes r) H) as (m1 & rest & -> & E2 & Hrest); [lia |]. rewrite bind_ret, (proj2 (Z.leb_le _ _)) by (unfold MLAN_WMSDK_MAX_WPA_IE_LEN; lia).
    rewrite Hread, bind_ret, E2, bind_ret, Hw. set (hd := P ++ le16 type ++ le16 (Z.of_nat (length (rsn_bytes r)))).
    destruct H as [_ _ ->]. replace (Z.of_nat (length P) + 4) with (Z.of_nat (length hd)) by (unfold hd; rewrite length_app; simpl; lia).
    destruct (narrowed_length (pmfcfg p) r kind cipher akm new hd rest) as (junk & Hjl & Hj); [done.. | |].
    { intros _. pose proof (behind_bytes r Hok). lia. }
    fold kind. rewrite Hj, bind_ret. cbv beta iota. set (nb := rsn_bytes (narrow _ _ _ _)) in *.
    rewrite (mem_write_in _ (P ++ le16 type) (le16 (Z.of_nat (length (rsn_bytes r)))) (nb ++ junk ++ rest));
      [| unfold hd; by rewrite <- !(assoc_L (++)) | rewrite length_app; simpl; lia | done]. rewrite bind_ret.
    eexists _, _. split; [done |]. rewrite encode_one. unfold hd in *.
    split; [rewrite !length_app in *; simpl in *; lia | exists (junk ++ rest); by rewrite <- !(assoc_L (++)) | rewrite !length_app; simpl; lia].
Qed.
Lemma put_security_puts N p pauth l pauth' P m pos : security_tlvs p pauth l pauth' -> filled N P m pos -> (length P + 146 <= N)%nat ->
  exists m' pos', put_security p pauth m pos = Ret (inr (MLAN_STATUS_SUCCESS, m', pos', pauth')) /\ filled N (P ++ encode l) m' pos'.
Proof.
  intros Hs H Hfit. unfold put_security. destruct Hs as [Hw | t new Hw Hie]; rewrite Hw; cbn [negb].
  { exists m, pos. by rewrite app_nil_r. }
  destruct pauth as [a |].
  - destruct (put_ie N p (Some a) t new P m pos Hie H) as (m' & pos' & -> & H'); [lia |]. rewrite bind_ret. by exists m', pos'.
  - (* six bytes are left for the TLV of the kind *)
    destruct H as [Hl (rest & ->) ->]. rewrite length_app in Hl. destruct (split_block rest 6) as (old & rest' & -> & Ho & _); [lia |].
    assert (H6 : filled N (P ++ old) (P ++ old ++ rest') (Z.of_nat (length P) + 6)).
    { split; [rewrite !length_app in *; lia | exists rest'; by rewrite <- (assoc_L (++)) | rewrite length_app, Ho; lia]. }
    destruct (put_ie N p None t new _ _ _ Hie H6) as (m' & pos' & -> & H'); [rewrite length_app; lia |]. rewrite bind_ret. cbv beta iota.
    destruct H' as [Hl' (rest2 & ->) ->]. unfold put_auth_type, put_tlv.
    rewrite (mem_write_in _ P old (encode [t] ++ rest2)) by (by rewrite <- ?(assoc_L (++)) || done). rewrite !bind_ret. cbv beta iota. eexists _, _. split; [done |].
    cbn [auth_tlvs]. rewrite encode_app, encode_one. set (et := encode [t]) in *. clearbody et. change (Z.of_nat (length (le16 new))) with 2.
    rewrite !length_app in Hl'. split; [rewrite !length_app; simpl; lia | exists rest2; by rewrite <- !(assoc_L (++)) | rewrite !length_app; simpl; lia].
Qed.

(** ** The header of the command *)

(** The size and the capabilities come last; the sequence number and the result
    are those of the caller, and the period of DTIM is what was in the buffer. *)
Definition request_header (p : join_private) (e : BSSDescriptor_t) (size cap old : list Z) : list Z :=
  le16 HostCmd_CMD_802_11_ASSOCIATE ++ size ++ take 4 (drop 4 old) ++ mac_address e ++ cap ++ le16 (listen_interval p) ++ le16 (beacon_period e) ++ take 1 (drop 20 old).
Lemma header_put p e m : (21 <= length m)%nat -> length (mac_address e) = 6%nat ->
  exists m' size cap, put_header p e m = Ret m' /\ length size = 2%nat /\ length cap = 2%nat /\
    filled (length m) (request_header p e size cap m) m' (S_DS_GEN + sizeof_associate).
Proof.
  intros Hm Hmac. do 21 (destruct m as [| ? m]; [simpl in Hm; lia |]). clear Hm. unfold put_header, request_header, S_DS_GEN, sizeof_associate.
  set (mac := mac_address e) in *. clearbody mac. do 7 (destruct mac as [| ? mac]; try done).
  erewrite (mem_write_in _ [] [_; _]) by (done || reflexivity). rewrite bind_ret.
  erewrite (mem_write_in _ [_; _; _; _; _; _; _; _] [_; _; _; _; _; _]) by (done || reflexivity). rewrite bind_ret.
  erewrite (mem_write_in _ [_; _; _; _; _; _; _; _; _; _; _; _; _; _; _; _] [_; _]) by (done || reflexivity). rewrite bind_ret.
  erewrite (mem_write_in _ [_; _; _; _; _; _; _; _; _; _; _; _; _; _; _; _; _; _] [_; _]) by (done || reflexivity).
  eexists _, [_; _], [_; _]. split; [done |]. split; [done |]. split; [done |]. split; [done | | done]. eexists. reflexivity.
Qed.
Lemma header_finish p e size cap old l rest pos : length size = 2%nat -> length cap = 2%nat -> (21 <= length old)%nat -> length (mac_address e) = 6%nat ->
  finish_command e p (request_header p e size cap old ++ l ++ rest) pos =
  Ret (request_header p e (le16 pos) (le16 (capability_info (cp_config_bands (jp_cap p)) (of_le16 (cap_info e)))) old ++ l ++ rest).
Proof.
  intros Hs Hc Ho Hmac. unfold finish_command, request_header, S_DS_GEN. replace (pos - 8 + 8) with pos by lia.
  rewrite (mem_write_in _ (le16 HostCmd_CMD_802_11_ASSOCIATE) size (take 4 (drop 4 old) ++ mac_address e ++ cap ++ le16 (listen_interval p) ++ le16 (beacon_period e) ++
    take 1 (drop 20 old) ++ l ++ rest)) by (done || by rewrite <- !(assoc_L (++))). rewrite bind_ret.
  rewrite (mem_write_in _ (le16 HostCmd_CMD_802_11_ASSOCIATE ++ le16 pos ++ take 4 (drop 4 old) ++ mac_address e) cap (le16 (listen_interval p) ++ le16 (beacon_period e) ++
    take 1 (drop 20 old) ++ l ++ rest));
    [by rewrite <- !(assoc_L (++)) | by rewrite <- !(assoc_L (++)) | rewrite !length_app, length_take, length_drop, Hmac; cbn [length le16]; lia | done].
Qed.
Lemma cf_put N P m pos : filled N P m pos -> (length P + 10 <= N)%nat ->
  exists m' pos' junk, put_cf m pos = Ret (m', pos') /\ length junk = 6%nat /\ filled N (P ++ encode [(TLV_TYPE_CF, junk)]) m' pos'.
Proof.
  intros [Hl (rest & ->) ->] Hfit. rewrite length_app in Hl. destruct (split_block rest 4) as (old & rest1 & -> & Ho & H1); [lia |].
  destruct (split_block rest1 6) as (junk & rest2 & -> & Hj & H2); [lia |]. unfold put_cf. rewrite mem_write_app by done. rewrite bind_ret.
  eexists _, _, junk. split; [done |]. split; [done |]. rewrite encode_one, Hj. rewrite !length_app in Hl.
  split; [rewrite !length_app; simpl; lia | exists rest2; by rewrite <- !(assoc_L (++)) | rewrite !length_app; simpl; lia].
Qed.

(** ** The command *)

(** The request of the interface [p] to the access point [e] of the table [t]:
    its TLVs, given the bytes that end up as the value of the one that has only a
    header; the adapter, the bandwidth and the interface afterwards. *)
Inductive association (p : join_private) (t : list BSSDescriptor_t) (e : BSSDescriptor_t) (a : cap_adapter) (bw : Z) :
    (list Z -> list tlv) -> cap_adapter -> Z -> join_private -> Prop :=
  | associates x prsnx name chan rates n used cur lc ls pauth lsae lcaps lw lg a' bw' :
      let p' := set_cur_rates n cur p in
      ap_elements_of t e = Ret x -> pointed t RsnxIe e = Ret prsnx ->
      mem_read (ssid e) 0 (u16 (ssid_len e)) = Ret name -> arr_get (phy_param_set e) 2 = Ret chan ->
      wlan_setup_rates_from_bssdesc p e = Ret (MLAN_STATUS_SUCCESS, rates, n) -> mem_read rates 0 n = Ret used -> mem_write (cur_data_rates p) 0 used = Ret cur ->
      channel_tlvs a p' e x = Ret lc -> security_tlvs p' (auth_type_of_mode p') ls pauth -> sae_tlvs pauth prsnx = Ret lsae ->
      caps_tlvs p' e x a bw = Ret (lcaps, a', bw') -> wmm_tlvs p' e (pht_cap x) = Ret lw -> generic_tlvs p' = Ret lg ->
      association p t e a bw
        (fun junk => [(TLV_TYPE_SSID, name)] ++ [(TLV_TYPE_PHY_DS, [chan])] ++ [(TLV_TYPE_CF, junk)] ++ [(TLV_TYPE_RATES, used)] ++
                     auth_tlvs (auth_type_of_mode p') ++ lc ++ ls ++ lsae ++ lcaps ++ lw ++ mlme_tlvs p' ++ lg)
        a' bw' (set_gen_ie_buf_len 0 p').

(** The parts behind the security element. *)
Lemma tail_put N p e x pauth prsnx lsae lcaps lw lg a bw a' bw' P m pos :
  sae_tlvs pauth prsnx = Ret lsae -> caps_tlvs p e x a bw = Ret (lcaps, a', bw') -> wmm_tlvs p e (pht_cap x) = Ret lw -> generic_tlvs p = Ret lg ->
  filled N P m pos -> (length P + length (encode (lsae ++ lcaps ++ lw ++ mlme_tlvs p ++ lg)) <= N)%nat ->
  exists m' pos',
    ('(m, pos) ← put_sae_pwe pauth prsnx m pos;
     s ← put_capabilities p e x (MkCs m pos a bw);
     '(m, pos) ← wlan_wmm_process_association_req p e (pht_cap x) (cs_mem s) (cs_pos s);
     '(m, pos) ← put_host_mlme p m pos;
     '(m, pos, p) ← wlan_cmd_append_generic_ie p m pos;
     Ret (m, pos, p, cs_adapter s, curr_bandwidth s)) = Ret (m', pos', set_gen_ie_buf_len 0 p, a', bw') /\
    filled N (P ++ encode (lsae ++ lcaps ++ lw ++ mlme_tlvs p ++ lg)) m' pos'.
Proof.
  intros Hsae Hcaps Hwmm Hgen H Hfit. rewrite !encode_app, !length_app in Hfit. rewrite !encode_app.
  destruct (put_sae_puts N _ _ _ Hsae P m pos H) as (m1 & pos1 & -> & F1); [lia |]. rewrite bind_ret. cbv beta iota.
  destruct (put_caps_puts N p e x (MkCs m1 pos1 a bw) _ _ _ Hcaps _ F1) as (m2 & pos2 & -> & F2); [rewrite !length_app; lia |]. rewrite bind_ret. cbn [cs_mem cs_pos].
  destruct (put_wmm_puts N p e _ _ Hwmm _ _ _ F2) as (m3 & pos3 & -> & F3); [rewrite !length_app; lia |]. rewrite bind_ret. cbv beta iota.
  destruct (put_mlme_puts N p _ _ _ F3) as (m4 & pos4 & -> & F4); [rewrite !length_app; lia |]. rewrite bind_ret. cbv beta iota.
  destruct (put_generic N p lg _ _ _ Hgen F4) as (m5 & pos5 & -> & F5); [rewrite !length_app; lia |]. rewrite bind_ret. cbv beta iota.
  exists m5, pos5. split; [done |]. by rewrite <- !(assoc_L (++)) in F5.
Qed.

(** The parts before the rates. *)
Lemma front_put N e name chan P m pos : mem_read (ssid e) 0 (u16 (ssid_len e)) = Ret name -> arr_get (phy_param_set e) 2 = Ret chan ->
  filled N P m pos -> (length P + length (encode [(TLV_TYPE_SSID, name)]) + length (encode [(TLV_TYPE_PHY_DS, [chan])]) + 10 <= N)%nat ->
  exists m1 pos1 m2 pos2 m3 pos3 junk, put_ssid e m pos = Ret (m1, pos1) /\ put_phy e m1 pos1 = Ret (m2, pos2) /\ put_cf m2 pos2 = Ret (m3, pos3) /\
    length junk = 6%nat /\ filled N (P ++ encode ([(TLV_TYPE_SSID, name)] ++ [(TLV_TYPE_PHY_DS, [chan])] ++ [(TLV_TYPE_CF, junk)])) m3 pos3.
Proof.
  intros Hname Hchan F Hfit. unfold put_ssid, put_phy. rewrite Hname, Hchan, !bind_ret.
  destruct (filled_tlv N _ _ _ TLV_TYPE_SSID name F) as (m1 & pos1 & E1 & F1); [lia |].
  destruct (filled_tlv N _ _ _ TLV_TYPE_PHY_DS [chan] F1) as (m2 & pos2 & E2 & F2); [rewrite !length_app; lia |].
  destruct (cf_put N _ _ _ F2) as (m3 & pos3 & junk & E3 & Hj & F3); [rewrite !length_app; lia |].
  exists m1, pos1, m2, pos2, m3, pos3, junk. repeat (split; [done |]). rewrite !encode_app. by rewrite <- !(assoc_L (++)) in F3.
Qed.

(** C9: the association command is its header and, in their order, the TLVs of the
    request, with the size of both in the header: the builder, which works in
    place in the command buffer, writes each TLV behind the last, goes back for
    the kind of authentication and for the length of the narrowed security
    element, and stays within the buffer; the value of the TLV of contention-free
    parameters alone is not written. *)
Theorem association_request p t e s l a' bw' p' : association p t e (cs_adapter s) (curr_bandwidth s) l a' bw' p' -> length (mac_address e) = 6%nat ->
  (167 + length (encode (l (replicate 6 0%Z))) <= length (cs_mem s))%nat ->
  exists junk m' pos, length junk = 6%nat /\
    wlan_cmd_802_11_associate p t e s = Ret (MkJr MLAN_STATUS_SUCCESS (MkCs m' pos a' bw') p') /\
    filled (length (cs_mem s))
      (request_header p' e (le16 pos) (le16 (capability_info (cp_config_bands (jp_cap p')) (of_le16 (cap_info e)))) (cs_mem s) ++ encode (l junk)) m' pos.
Proof.
  intros [x prsnx name chan rates n used cur lc ls pauth lsae lcaps lw lg a1 bw1 p1 Hx Hprsnx Hname Hchan Hrates Hused Hcur Hlc Hls Hsae Hcaps Hw Hg] Hmac Hfit.
  rewrite !encode_app, !length_app in Hfit. rewrite (encode_one TLV_TYPE_CF), !length_app in Hfit. cbn [length le16 replicate] in Hfit.
  unfold wlan_cmd_802_11_associate. rewrite Hx, bind_ret, Hprsnx, bind_ret.
  destruct (header_put p e (cs_mem s)) as (m0 & size & cap & -> & Hs & Hc & F0); [lia | done |]. rewrite bind_ret.
  set (N := length (cs_mem s)) in *. set (hd := request_header p e size cap (cs_mem s)) in *.
  assert (Hhd : length hd = 21%nat) by (destruct F0 as [_ _ Hpos]; unfold S_DS_GEN, sizeof_associate in Hpos; lia).
  destruct (front_put N e name chan _ _ _ Hname Hchan F0) as (m1 & pos1 & m2 & pos2 & m3 & pos3 & junk & E1 & E2 & E3 & Hj & F3); [lia |].
  rewrite E1, bind_ret, E2, bind_ret, E3, bind_ret. clear E1 E2 E3. set (front := encode _) in F3.
  assert (Hfront : (length front = length (encode [(TLV_TYPE_SSID, name)]) + length (encode [(TLV_TYPE_PHY_DS, [chan])]) + 10)%nat)
    by (unfold front; rewrite !encode_app, !length_app, (encode_one TLV_TYPE_CF), !length_app, Hj; simpl; lia).
  rewrite Hrates, bind_ret. cbv beta iota. rewrite Hused, bind_ret, Hcur, bind_ret. fold p1. unfold put_rates. rewrite Hused, bind_ret.
  destruct (filled_tlv N _ _ _ TLV_TYPE_RATES used F3) as (m4 & pos4 & -> & F4); [rewrite !length_app; lia |]. rewrite bind_ret. cbv beta iota.
  destruct (put_auth_puts N (auth_type_of_mode p1) _ _ _ F4) as (m5 & pos5 & -> & F5); [rewrite !length_app; lia |]. rewrite bind_ret. cbv beta iota.
  destruct (put_channel_puts N _ p1 e x lc Hlc _ _ _ F5) as (m6 & pos6 & -> & F6); [rewrite !length_app; lia |]. rewrite bind_ret. cbv beta iota.
  destruct (put_security_puts N p1 _ ls pauth _ _ _ Hls F6) as (m7 & pos7 & -> & F7); [rewrite !length_app; lia |]. rewrite bind_ret. cbv beta iota.
  destruct (tail_put N p1 e x pauth prsnx _ _ _ _ _ _ _ _ _ _ _ Hsae Hcaps Hw Hg F7) as (m8 & pos8 & Hrun & F8); [rewrite !encode_app, !length_app; lia |].
  apply bind_inv in Hrun as ([ma pa] & -> & Hrun). rewrite bind_ret. cbv beta iota. change (at_tlv (ma, pa) s) with (MkCs ma pa (cs_adapter s) (curr_bandwidth s)).
  apply bind_inv in Hrun as (s9 & -> & Hrun). rewrite bind_ret. apply bind_inv in Hrun as ([mb pb] & -> & Hrun). rewrite bind_ret. cbv beta iota in Hrun |- *.
  apply bind_inv in Hrun as ([mc pc] & -> & Hrun). rewrite bind_ret. cbv beta iota in Hrun |- *.
  apply bind_inv in Hrun as ([[md pd] pp] & -> & Hrun). rewrite bind_ret. cbv beta iota in Hrun |- *. injection Hrun as -> -> -> <- <-.
  rewrite <- !(assoc_L (++)) in F8. destruct F8 as [Hl (rest & ->) Hpos].
  change hd with (request_header (set_gen_ie_buf_len 0 p1) e size cap (cs_mem s)) in *. clear hd.
  set (hd := request_header (set_gen_ie_buf_len 0 p1) e size cap (cs_mem s)) in *. set (body := front ++ _) in *. exists junk.
  rewrite <- (assoc_L (++) hd). unfold hd at 1. rewrite header_finish by (done || lia). rewrite bind_ret. eexists _, pos8. split; [done |]. split; [done |].
  assert (Hbody : encode ([(TLV_TYPE_SSID, name)] ++ [(TLV_TYPE_PHY_DS, [chan])] ++ [(TLV_TYPE_CF, junk)] ++ [(TLV_TYPE_RATES, used)] ++
    auth_tlvs (auth_type_of_mode p1) ++ lc ++ ls ++ lsae ++ lcaps ++ lw ++ mlme_tlvs p1 ++ lg) = body)
    by (unfold body, front; rewrite !encode_app; by rewrite <- !(assoc_L (++))).
  rewrite Hbody. set (hd' := request_header _ _ (le16 pos8) _ _). assert (Hhd' : length hd' = length hd) by (unfold hd', hd, request_header; rewrite !length_app, Hs, Hc; done).
  cbn [fst].
  rewrite !length_app in Hl. rewrite length_app in Hpos. split; [rewrite !length_app; lia | exists rest; by rewrite <- !(assoc_L (++)) | rewrite length_app; lia].
Qed.

(** ** An example: a network for WPA2 and WPA3 on channel 6 *)
Definition padded (n : nat) (l : list Z) : list Z := l ++ replicate (n - length l) 0.
Definition home_rsn : rsn := MkRsn [1; 0] [0; 15; 172; 4] [rsn_suite 4] [rsn_suite 2; rsn_suite 8] 0x80 None None.
Definition home_bss : BSSDescriptor_t :=
  set_mac_address [2; 0; 0; 0; 0; 1] (set_ssid (padded 32 [72; 111; 109; 101]) (set_ssid_len 4 (set_supported_rates (padded 14 [130; 132; 139; 150])
    (set_bss_band BAND_G (set_channel 6 (set_phy_param_set (padded 7 [3; 1; 6]) cleared_bss)))))).
Definition home_adapter : cap_adapter :=
  MkCap 0x300 0 0 0 0 0 0 0 0 0 0 0 
    (MkCfpAdapter [MkRegionChan true 0x10 BAND_G 11 (Some (StaticCfp CfpTables.channel_freq_power_US_BG))] [] 0 0 None None None 0 0 [] 0 [] []).
Definition home_private : join_private :=
  MkJoin (MkCapPriv MLAN_BSS_MODE_INFRA (bands [BAND_B; BAND_G]) 0 0) 10 (MkSec Wlan802_11WEPDisabled false true false 0) MLAN_AUTH_MODE_AUTO false
    (padded 64 ([48; 24] ++ rsn_bytes home_rsn)) 26 (MkPmf 1 0) (replicate 256 0) 0 true 0 0x10 true 0 (replicate 14 0) false false 0.
Definition home_request (junk : list Z) : list tlv :=
  [(TLV_TYPE_SSID, [72; 111; 109; 101]); (TLV_TYPE_PHY_DS, [6]); (TLV_TYPE_CF, junk); (TLV_TYPE_RATES, [130; 132; 139; 150]);
   (TLV_TYPE_CHANLIST, [0; 6; 0; 0; 0; 0; 0]); (TLV_TYPE_AUTH_TYPE, le16 AssocAgentAuth_Wpa3Sae);
   (48, rsn_bytes (MkRsn [1; 0] [0; 15; 172; 4] [rsn_suite 4] [rsn_suite 8] 0x80 None None))].
Lemma home_rsn_ok : rsn_ok home_rsn.
Proof. unfold home_rsn. suites_fine. Qed.
Lemma home_associates : association home_private [home_bss] home_bss home_adapter 0 home_request home_adapter 0
  (set_gen_ie_buf_len 0 (set_cur_rates 4 (padded 14 [130; 132; 139; 150]) home_private)).
Proof.
  apply (associates home_private [home_bss] home_bss home_adapter 0 (MkAp None None None None None None) None [72; 111; 109; 101] 6
    (padded 14 [130; 132; 139; 150]) 4 [130; 132; 139; 150] (padded 14 [130; 132; 139; 150]) [(TLV_TYPE_CHANLIST, [0; 6; 0; 0; 0; 0; 0])]
    ([(TLV_TYPE_AUTH_TYPE, le16 AssocAgentAuth_Wpa3Sae)] ++ [(48, rsn_bytes (narrow (MkPmf 1 0) home_rsn 4 8))]) (Some AssocAgentAuth_Wpa3Sae) [] [] [] []);
    try (vm_compute; reflexivity).
  apply (security_some (set_cur_rates 4 (padded 14 [130; 132; 139; 150]) home_private) None (48, rsn_bytes (narrow (MkPmf 1 0) home_rsn 4 8))); [done |].
  apply (ie_wpa2 (set_cur_rates 4 (padded 14 [130; 132; 139; 150]) home_private) None 48 home_rsn (replicate 38 0) 4 8);
    [reflexivity | reflexivity | apply Nat.leb_le; reflexivity | apply home_rsn_ok | | reflexivity | | reflexivity | exact I].
  - exists [], []. repeat split; repeat constructor.
  - split; [| done]. exists [2], []. repeat split; repeat constructor.
Qed.
Lemma association_request_witness : exists junk m' pos, length junk = 6%nat /\
  wlan_cmd_802_11_associate home_private [home_bss] home_bss (MkCs (replicate 300 0) 0 home_adapter 0) =
    Ret (MkJr MLAN_STATUS_SUCCESS (MkCs m' pos home_adapter 0) (set_gen_ie_buf_len 0 (set_cur_rates 4 (padded 14 [130; 132; 139; 150]) home_private))) /\
  filled 300 (request_header (set_gen_ie_buf_len 0 (set_cur_rates 4 (padded 14 [130; 132; 139; 150]) home_private)) home_bss (le16 pos) (le16 0) (replicate 300 0) ++
    encode (home_request junk)) m' pos.
Proof.
  apply (association_request home_private [home_bss] home_bss (MkCs (replicate 300 0) 0 home_adapter 0) home_request home_adapter 0
    (set_gen_ie_buf_len 0 (set_cur_rates 4 (padded 14 [130; 132; 139; 150]) home_private))).
  - exact home_associates.
  - reflexivity.
  - apply Nat.leb_le. reflexivity.
Defined.
(** An access point that announces 200 identifiers it does not send: the next TLV
    is put where they would end, beyond the command buffer. *)
Definition hostile_private : join_private :=
  MkJoin (jp_cap home_private) 10 (jp_sec home_private) MLAN_AUTH_MODE_AUTO false
    (padded 64 ([48; 26] ++ rsn_bytes home_rsn ++ le16 200)) 28 (MkPmf 1 0) (replicate 256 0) 0 true 0 0x10 true 0 (replicate 14 0) true false 0.
Example buffer_left : wlan_cmd_802_11_associate hostile_private [home_bss] home_bss (MkCs (replicate 2096 0) 0 home_adapter 0) = Fault OutOfBounds.
Proof. vm_compute. reflexivity. Qed.
