(* ===== verification/RatesTheorems.v ===== *)
(** * The rates of an association request: theorems *)
From stdpp Require Import list.
From S2P Require Import Prelude CString Cfp ScanData ScanParse ScanFind Rsn HtCap Join.
Open Scope Z_scope.

(** Rates are compared without the bit that marks them as basic. *)
Definition same_rate (r t : Z) : bool := Z.land r 0x7f =? Z.land t 0x7f.
Definition match_rate (aps : list Z) (r : Z) : option Z := find (same_rate r) aps.
Definition common (aps card : list Z) : list Z := omap (match_rate aps) card.
Definition nonzero (l : list Z) : Prop := Forall (fun r => r <> 0) l.
Definition filled_up (n : nat) (l : list Z) : list Z := l ++ replicate (n - length l) 0.

(** What is behind the rates of the access point: nothing, or a zero. *)
Definition rate_end (tail : list Z) : Prop := tail = [] \/ exists post, tail = 0 :: post.
(** A rate the access point does not have is looked for up to the zero. *)
Definition found (tail : list Z) (o : option Z) : outcome (option Z) :=
  match tail, o with [], None => Fault OutOfBounds | _, _ => Ret o end.
Lemma arr_get_end (l : list Z) : arr_get l (Z.of_nat (length l)) = Fault OutOfBounds.
Proof. unfold arr_get. destruct (Z.ltb_spec (Z.of_nat (length l)) 0); [lia |]. by rewrite Nat2Z.id, lookup_ge_None_2. Qed.
Lemma common_rate_find aps r n : nonzero aps -> forall pre tail fuel, rate_end tail ->
  Z.of_nat (length pre + length aps) <= n -> (length aps < fuel)%nat ->
  common_rate fuel (pre ++ aps ++ tail) n r (Z.of_nat (length pre)) = found tail (match_rate aps r).
Proof.
  induction 1 as [| t aps Ht _ IH]; intros pre tail fuel Hz Hn Hf; destruct fuel as [| fuel]; [simpl in Hf; lia | | simpl in Hf; lia |]; cbn [common_rate app].
  - destruct Hz as [-> | [post ->]]; [by rewrite app_nil_r, arr_get_end | by rewrite arr_get_app by done].
  - rewrite arr_get_app, bind_ret by done. rewrite (proj2 (Z.eqb_neq t 0)) by done. cbn [orb].
    destruct (Z.geb_spec (Z.of_nat (length pre)) n) as [Hge |]; [simpl in Hn; lia |]. unfold match_rate. cbn [find]. unfold same_rate at 1.
    destruct (Z.land r 0x7f =? Z.land t 0x7f); [by destruct tail |].
    replace (pre ++ t :: aps ++ tail) with ((pre ++ [t]) ++ aps ++ tail) by (by rewrite <- (assoc_L (++))).
    replace (Z.of_nat (length pre) + 1) with (Z.of_nat (length (pre ++ [t]))) by (rewrite length_app; simpl; lia).
    apply IH; [done | rewrite length_app; simpl in Hn |- *; lia | simpl in Hf; lia].
Qed.
(** A rate of the card that the access point does not have. *)
Definition missing (aps card : list Z) : bool := existsb (fun r => match match_rate aps r with None => true | Some _ => false end) card.
Definition no_end (tail : list Z) : bool := match tail with [] => true | _ => false end.
Lemma common_length aps card : (length (common aps card) <= length card)%nat.
Proof. unfold common. induction card as [| r card IH]; [done |]. cbn. destruct (match_rate aps r); cbn; lia. Qed.
Lemma common_rates_find aps tail n card rest : nonzero aps -> nonzero card -> rate_end tail -> Z.of_nat (length aps) <= n -> (length card <= 13)%nat ->
  forall pre dn fuel, (length (common aps card) + length dn <= 13)%nat -> (length card < fuel)%nat ->
  common_rates_loop fuel (aps ++ tail) (filled_up 14 dn) n (pre ++ card ++ 0 :: rest) (Z.of_nat (length (pre ++ card))) (Z.of_nat (length pre)) (Z.of_nat (length dn)) =
  if no_end tail && missing aps card then Fault OutOfBounds else Ret (filled_up 14 (dn ++ common aps card)).
Proof.
  intros Ha Hc Hz Hn _. induction Hc as [| r card Hr Hc IH]; intros pre dn fuel Hd Hf; destruct fuel as [| fuel]; [simpl in Hf; lia | | simpl in Hf; lia |]; cbn [common_rates_loop app].
  - rewrite arr_get_app, bind_ret by done. change (common aps []) with (@nil Z). change (missing aps []) with false. by rewrite (app_nil_r dn), andb_false_r.
  - rewrite arr_get_app, bind_ret by done. rewrite (proj2 (Z.eqb_neq r 0)) by done. cbn [orb].
    destruct (Z.geb_spec (Z.of_nat (length pre)) (Z.of_nat (length (pre ++ r :: card)))) as [Hge |]; [rewrite length_app in Hge; simpl in Hge; lia |].
    rewrite (common_rate_find aps r n Ha [] tail) by (done || (rewrite ?length_app; simpl; lia)).
    assert (Hmiss : missing aps (r :: card) = match match_rate aps r with None => true | Some _ => missing aps card end)
      by (unfold missing; cbn [existsb]; by destruct (match_rate aps r)). rewrite Hmiss. clear Hmiss.
    assert (Hpre : pre ++ r :: card ++ 0 :: rest = (pre ++ [r]) ++ card ++ 0 :: rest) by (by rewrite <- (assoc_L (++))).
    assert (Hlen : pre ++ r :: card = (pre ++ [r]) ++ card) by (by rewrite <- (assoc_L (++))).
    assert (Hnext : Z.of_nat (length pre) + 1 = Z.of_nat (length (pre ++ [r]))) by (rewrite length_app; simpl; lia).
    rewrite Hpre, Hlen, Hnext. unfold common in Hd |- *. cbn [omap list_omap] in Hd |- *. destruct (match_rate aps r) as [t |].
    + assert (Hfound : found tail (Some t) = Ret (Some t)) by (by destruct tail). rewrite Hfound, bind_ret. cbn [length] in Hd. unfold filled_up at 1. destruct (14 - length dn)%nat as [| k] eqn:Ek; [lia |]. cbn [replicate].
      rewrite arr_set_app, bind_ret by done. replace (dn ++ t :: replicate k 0) with (filled_up 14 (dn ++ [t]))
        by (unfold filled_up; rewrite length_app; simpl; replace (14 - (length dn + 1))%nat with k by lia; by rewrite <- (assoc_L (++))).
      replace (Z.of_nat (length dn) + 1) with (Z.of_nat (length (dn ++ [t]))) by (rewrite length_app; simpl; lia).
      rewrite IH by (simpl in Hf; rewrite ?length_app; simpl; unfold common; lia). by rewrite <- (assoc_L (++)).
    + destruct tail as [| z tail]; [done |]. cbn [found no_end andb]. rewrite bind_ret. apply IH; [done | simpl in Hf; lia].
Qed.
Lemma common_nonzero aps card : nonzero aps -> nonzero (common aps card).
Proof.
  intros Ha. apply list.Forall_forall. intros t Ht. unfold common in Ht. apply list_elem_of_omap in Ht as (r & _ & Hm). apply find_some in Hm as [Hin _].
  apply list_elem_of_In in Hin. exact (proj1 (list.Forall_forall _ _) Ha t Hin).
Qed.
Lemma fixed_rate_find l rate : nonzero l -> forall pre post fuel, (length l < fuel)%nat ->
  has_fixed_rate fuel (pre ++ l ++ 0 :: post) rate (Z.of_nat (length pre)) = Ret (existsb (fun r => Z.land r 0x7f =? rate) l).
Proof.
  induction 1 as [| r l Hr _ IH]; intros pre post fuel Hf; destruct fuel as [| fuel]; [simpl in Hf; lia | | simpl in Hf; lia |]; cbn [has_fixed_rate app existsb].
  - by rewrite arr_get_app by done.
  - rewrite arr_get_app, bind_ret by done. rewrite (proj2 (Z.eqb_neq r 0)) by done. destruct (Z.land r 0x7f =? rate); [done |]. cbn [orb].
    replace (pre ++ r :: l ++ 0 :: post) with ((pre ++ [r]) ++ l ++ 0 :: post) by (by rewrite <- (assoc_L (++))).
    replace (Z.of_nat (length pre) + 1) with (Z.of_nat (length (pre ++ [r]))) by (rewrite length_app; simpl; lia).
    apply IH. simpl in Hf. lia.
Qed.
Lemma filled_up_zero l : (length l <= 13)%nat -> filled_up 14 l = l ++ 0 :: replicate (13 - length l) 0.
Proof. intros Hl. unfold filled_up. replace (14 - length l)%nat with (S (13 - length l)) by lia. done. Qed.
Lemma filled_up_length l : (length l <= 14)%nat -> length (filled_up 14 l) = 14%nat.
Proof. intros Hl. unfold filled_up. rewrite length_app, length_replicate. lia. Qed.

Lemma filled_up_full l : (length l <= 14)%nat -> exists tail, filled_up 14 l = l ++ tail /\ rate_end tail /\ no_end tail = (length l =? 14)%nat.
Proof.
  intros Hl. unfold filled_up. destruct (Nat.eqb_spec (length l) 14) as [-> | Hne]; [by exists []; split_and!; [| left |] |].
  replace (14 - length l)%nat with (S (13 - length l)) by lia. eexists. split; [done |]. split; [right; by eexists | done].
Qed.

(** C40: the rates of the request are, in the order of the card, the rates of the
    access point the card has, marked as the access point marks them, then
    zeros; the call then fails only when the user fixed a rate that is not one of
    them.  It also fails, with the rates as they were, when there is no memory
    for a copy of them.  The access point may have all the 14 rates there is room
    for: then a rate of the card that it does not have is looked for behind the
    copy. *)
Theorem rates_common p aps card : nonzero aps -> nonzero card -> (length aps <= 14)%nat -> (length card <= 13)%nat ->
  wlan_get_common_rates p (filled_up 14 aps) WLAN_SUPPORTED_RATES (filled_up 14 card) (Z.of_nat (length card)) =
  if negb (rates_memory p) then Ret (MLAN_STATUS_FAILURE, filled_up 14 aps)
  else if (length aps =? 14)%nat && missing aps card then Fault OutOfBounds
  else Ret (if is_data_rate_auto p || existsb (fun r => Z.land r 0x7f =? data_rate p) (common aps card) then MLAN_STATUS_SUCCESS else MLAN_STATUS_FAILURE,
            filled_up 14 (common aps card)).
Proof.
  intros Ha Hc Hla Hlc. unfold wlan_get_common_rates. destruct (rates_memory p); cbn [negb]; [| done]. pose proof (common_length aps card) as Hl.
  assert (Hread : mem_read (filled_up 14 aps) 0 WLAN_SUPPORTED_RATES = Ret (filled_up 14 aps)).
  { rewrite <- (app_nil_r (filled_up 14 aps)) at 1. apply mem_read_head. by rewrite filled_up_length by lia. }
  rewrite Hread, bind_ret. clear Hread. destruct (filled_up_full aps Hla) as (tail & -> & Hz & Hend). rewrite (filled_up_zero card Hlc).
  change (replicate (Z.to_nat WLAN_SUPPORTED_RATES) 0) with (filled_up 14 []).
  pose proof (common_rates_find aps tail WLAN_SUPPORTED_RATES card (replicate (13 - length card) 0) Ha Hc Hz) as Hloop.
  specialize (Hloop ltac:(unfold WLAN_SUPPORTED_RATES; lia) Hlc [] [] (S (length (card ++ 0 :: replicate (13 - length card) 0)))).
  cbn [app length] in Hloop. change (Z.of_nat 0) with 0 in Hloop. rewrite Hloop, Hend by (rewrite ?length_app; lia).
  destruct ((length aps =? 14)%nat && missing aps card); [reflexivity |]. rewrite bind_ret.
  destruct (is_data_rate_auto p); cbn [negb orb]; [done |]. rewrite (filled_up_zero (common aps card)) by lia.
  pose proof (fixed_rate_find _ (data_rate p) (common_nonzero aps card Ha) [] (replicate (13 - length (common aps card)) 0)
    (S (length (common aps card ++ 0 :: replicate (13 - length (common aps card)) 0)))) as Hfix. cbn [app length] in Hfix. change (Z.of_nat 0) with 0 in Hfix.
  rewrite Hfix by (rewrite length_app; lia). rewrite bind_ret. by destruct (existsb _ _).
Qed.
Definition any_rate (auto : bool) (rate : Z) : join_private :=
  MkJoin (MkCapPriv MLAN_BSS_MODE_INFRA BAND_B 0 0) 10 (MkSec Wlan802_11WEPDisabled false false false 0) MLAN_AUTH_MODE_OPEN false
    [] 0 (Rsn.MkPmf 0 0) [] 0 auto rate 0x10 true 0 (replicate 14 0) false false 0.
Lemma rates_common_witness :
  wlan_get_common_rates (any_rate false 11) (filled_up 14 [130; 132; 139; 12]) WLAN_SUPPORTED_RATES (filled_up 14 [2; 4; 11; 22]) 4 =
  Ret (MLAN_STATUS_SUCCESS, filled_up 14 [130; 132; 139]).
Proof.
  apply (rates_common (any_rate false 11) [130; 132; 139; 12] [2; 4; 11; 22]).
  - repeat (apply list.Forall_cons_2; [done |]); apply list.Forall_nil_2.
  - repeat (apply list.Forall_cons_2; [done |]); apply list.Forall_nil_2.
  - apply Nat.leb_le; reflexivity.
  - apply Nat.leb_le; reflexivity.
Defined.
(** Of 14 rates, none of them the card's, the byte behind is read. *)
Example fourteen_rates :
  wlan_get_common_rates (any_rate true 0) (replicate 14 3) WLAN_SUPPORTED_RATES (filled_up 14 [2; 4; 11; 22]) 4 = Fault OutOfBounds.
Proof. reflexivity. Qed.
