(* ===== verification/JoinCalls.v ===== *)
(** * Joining an access point

    The calls around the association command: the start of a connection
    ([wrapper_wifi_assoc] of [mlan_glue.c], [wlan_bss_ioctl_start] of
    [mlan_sta_ioctl.c], [wlan_associate] of [mlan_join.c]) and the answer to the
    command ([wlan_ret_802_11_associate]).  What the answer makes other parts of
    the driver do is a log of their operations. *)
From stdpp Require Import list.
From S2P Require Import Prelude CString Cfp WlcmData ScanData ScanParse ScanTable ScanFind Domain Rsn HtCap Join.
Open Scope Z_scope.

(** ** The connection of the interface *)
Record connection := MkConn {
  connected : bool;   (* [media_connected] *)
  port_ctrl_mode : bool;
  port_open : bool;
  prior_port_status : bool;
  scan_block : bool;
  cur_bss : option BSSDescriptor_t;   (* [curr_bss_params.bss_descriptor]; none after it was cleared *)
  cur_band : Z;
  cur_wmm_enabled : bool;   (* [curr_bss_params.wmm_enabled] *)
  priv_wmm_enabled : bool;   (* [wmm_enabled] *)
  wpa_is_gtk_set : bool;
  signal_stats : list Z;   (* RSSI and noise, of data and beacons, last and average; rate and its information *)
  max_amsdu : Z;
  tx_pause : bool
}.
Definition no_stats : list Z := replicate 10 0.
(** What the answer makes other parts do: the lists of the transmit queues
    ([Wmm.join_receivers]), the windows and sessions ([TxBa.clean_sessions]), and
    all of these on a disconnection ([wlan_clean_txrx]). *)
Inductive join_effect := JoinReceivers (was_connected : bool) (old_bssid new_bssid : list Z) | CleanSessions | CleanTxRx.

Record join_world := MkJw {
  jw_private : join_private;
  jw_caps : cap_state;   (* its memory is the command buffer *)
  jw_table : list BSSDescriptor_t;
  jw_num : Z;   (* [num_in_scan_table] *)
  adapter_bands : Z;   (* [config_bands] of the adapter *)
  jw_conn : connection;
  jw_domain : domain_state;
  attempted : option Z;   (* [pattempted_bss_desc], an index *)
  sent : list (list Z);   (* commands given to the bus, the last first *)
  effects : list join_effect
}.
Definition set_jw_private (p : join_private) (w : join_world) : join_world :=
  MkJw p (jw_caps w) (jw_table w) (jw_num w) (adapter_bands w) (jw_conn w) (jw_domain w) (attempted w) (sent w) (effects w).
Definition set_jw_caps (s : cap_state) (w : join_world) : join_world :=
  MkJw (jw_private w) s (jw_table w) (jw_num w) (adapter_bands w) (jw_conn w) (jw_domain w) (attempted w) (sent w) (effects w).
Definition set_jw_table (t : list BSSDescriptor_t) (w : join_world) : join_world :=
  MkJw (jw_private w) (jw_caps w) t (jw_num w) (adapter_bands w) (jw_conn w) (jw_domain w) (attempted w) (sent w) (effects w).
Definition set_jw_conn (c : connection) (w : join_world) : join_world :=
  MkJw (jw_private w) (jw_caps w) (jw_table w) (jw_num w) (adapter_bands w) c (jw_domain w) (attempted w) (sent w) (effects w).
Definition set_jw_domain (d : domain_state) (w : join_world) : join_world :=
  MkJw (jw_private w) (jw_caps w) (jw_table w) (jw_num w) (adapter_bands w) (jw_conn w) d (attempted w) (sent w) (effects w).
Definition set_attempted (i : Z) (w : join_world) : join_world :=
  MkJw (jw_private w) (jw_caps w) (jw_table w) (jw_num w) (adapter_bands w) (jw_conn w) (jw_domain w) (Some i) (sent w) (effects w).
Definition add_sent (c : list Z) (w : join_world) : join_world :=
  MkJw (jw_private w) (jw_caps w) (jw_table w) (jw_num w) (adapter_bands w) (jw_conn w) (jw_domain w) (attempted w) (c :: sent w) (effects w).
Definition add_effects (l : list join_effect) (w : join_world) : join_world :=
  MkJw (jw_private w) (jw_caps w) (jw_table w) (jw_num w) (adapter_bands w) (jw_conn w) (jw_domain w) (attempted w) (sent w) (effects w ++ l).

Definition net_of (w : join_world) : net_private :=
  MkNet (connected (jw_conn w)) (cp_bss_mode (jp_cap (jw_private w))) (jp_sec (jw_private w)) false (cp_config_bands (jp_cap (jw_private w)))
    (adapter_bands w) (cap_channels (cs_adapter (jw_caps w))).

(** ** Sending the command ([wifi_prepare_and_send_cmd]): what the firmware says
    comes later, in the answer *)
Definition send_associate (i : Z) (w : join_world) : outcome (mlan_status * join_world) :=
  e ← arr_get (jw_table w) i;
  m ← mem_write (cs_mem (jw_caps w)) 4 (le16 0 ++ le16 0);
  let s := MkCs m 0 (cs_adapter (jw_caps w)) (curr_bandwidth (jw_caps w)) in
  r ← wlan_cmd_802_11_associate (jw_private w) (jw_table w) e s;
  let w := set_attempted i (set_jw_private (jr_private r) (set_jw_caps (jr_state r) w)) in
  match jr_status r with
  | MLAN_STATUS_FAILURE => Ret (MLAN_STATUS_FAILURE, w)
  | MLAN_STATUS_SUCCESS =>
      size ← mem_read_le16 (cs_mem (jr_state r)) 2;
      Ret (MLAN_STATUS_SUCCESS, if size >? 2100 then w else add_sent (take (Z.to_nat size) (cs_mem (jr_state r))) w)
  end.
Definition wlan_associate (i : Z) (w : join_world) : outcome (mlan_status * join_world) :=
  e ← arr_get (jw_table w) i;
  if negb (bool_decide (cp_bss_mode (jp_cap (jw_private w)) = MLAN_BSS_MODE_INFRA)) || negb (bool_decide (bss_mode e = MLAN_BSS_MODE_INFRA)) then
    Ret (MLAN_STATUS_FAILURE, w)
  else send_associate i w.

(** [idx] counts from 1; 0 asks for a search.  The status is that of the caller,
    for whom a pending request is a success. *)
Definition close_port (c : connection) : connection :=
  MkConn (connected c) (port_ctrl_mode c) (if port_ctrl_mode c then false else port_open c) (if port_ctrl_mode c then port_open c else prior_port_status c)
    false (cur_bss c) (cur_band c) (cur_wmm_enabled c) (priv_wmm_enabled c) (wpa_is_gtk_set c) (signal_stats c) (max_amsdu c) (tx_pause c).
Definition wlan_bss_ioctl_start (idx : Z) (s : mlan_802_11_ssid) (bssid : list Z) (w : join_world) : outcome (mlan_status * join_world) :=
  let w := set_jw_conn (close_port (jw_conn w)) w in
  if bool_decide (cp_bss_mode (jp_cap (jw_private w)) = MLAN_BSS_MODE_INFRA) then
    '(i, t) ← (if (idx =? 0) || (idx >? jw_num w) then
                 if negb (ssid_length s =? 0) then
                   wlan_find_ssid_in_list (net_of w) (jw_table w) (jw_num w) s (if same_bytes bssid (replicate 6 0) then None else Some bssid) MLAN_BSS_MODE_INFRA
                 else i ← wlan_find_bssid_in_list (net_of w) (jw_table w) (jw_num w) (Some bssid) MLAN_BSS_MODE_INFRA; Ret (i, jw_table w)
               else Ret (Some (idx - 1), jw_table w));
    let w := set_jw_table t w in
    match i with Some i => wlan_associate i w | None => Ret (MLAN_STATUS_SUCCESS, w) end
  else Ret (MLAN_STATUS_SUCCESS, w).

(** ** [wrapper_wifi_assoc] *)
Definition copy_security_ie (sec : sec_info_t) (mode : mlan_auth_mode) (tkip : bool) (b : list Z) (len : Z) (p : join_private) : outcome (mlan_status * join_private) :=
  if len <=? MLAN_WMSDK_MAX_WPA_IE_LEN then
    bs ← mem_read b 0 len; ie ← mem_write (wpa_ie p) 0 bs; Ret (MLAN_STATUS_SUCCESS, set_security sec mode tkip ie (u8 len) p)
  else Ret (MLAN_STATUS_FAILURE, set_security sec mode tkip (wpa_ie p) (wpa_ie_len p) p).
(** The security of the request, from that of the network and the elements of the
    access point. *)
Definition choose_security (wlan_security : wlan_security_type) (tkip : bool) (e : BSSDescriptor_t) (p : join_private) : outcome (mlan_status * join_private) :=
  let sec wpa wpa2 := MkSec (wep_status (jp_sec p)) wpa wpa2 false (encryption_mode (jp_sec p)) in
  let p := set_security (sec false false) MLAN_AUTH_MODE_AUTO (is_wpa_tkip p) (no_bytes MLAN_WMSDK_MAX_WPA_IE_LEN) 0 p in
  let has k := match pointer (slot e k) with Some _ => true | None => false end in
  let asked s := bool_decide (wlan_security = s) in
  if has WpaIe && has RsnIe && asked WLAN_SECURITY_WPA_WPA2_MIXED then
    copy_security_ie (sec false true) MLAN_AUTH_MODE_AUTO tkip (saved (slot e RsnIe)) (rsn_ie_buff_len e) p
  else if has WpaIe && (asked WLAN_SECURITY_WPA || asked WLAN_SECURITY_WPA_WPA2_MIXED) then
    copy_security_ie (sec true false) MLAN_AUTH_MODE_AUTO tkip (saved (slot e WpaIe)) (wpa_ie_buff_len e) p
  else if has RsnIe && (asked WLAN_SECURITY_WPA2 || asked WLAN_SECURITY_WPA_WPA2_MIXED || asked WLAN_SECURITY_WPA3_SAE || asked WLAN_SECURITY_WPA2_WPA3_SAE_MIXED) then
    let mode := if asked WLAN_SECURITY_WPA2 || asked WLAN_SECURITY_WPA_WPA2_MIXED then MLAN_AUTH_MODE_OPEN else MLAN_AUTH_MODE_AUTO in
    copy_security_ie (sec false true) mode tkip (saved (slot e RsnIe)) (rsn_ie_buff_len e) p
  else Ret (MLAN_STATUS_SUCCESS, p).
(** [support_11d]: 802.11d is on; [cmd_ok]: its commands are sent. *)
Definition send_country (support_11d cmd_ok : bool) (e : BSSDescriptor_t) (d : domain_state) : outcome (mlan_status * domain_state) :=
  if support_11d then
    '(st, d) ← wlan_11d_create_dnld_countryinfo cmd_ok (bss_band e) d;
    match st with
    | MLAN_STATUS_SUCCESS => wlan_11d_parse_dnld_countryinfo cmd_ok (Some e) d
    | MLAN_STATUS_FAILURE => Ret (MLAN_STATUS_FAILURE, d)
    end
  else Ret (MLAN_STATUS_SUCCESS, d).
(** The search is in a mode that is none of the known ones. *)
Definition wrapper_wifi_assoc (bssid : list Z) (wlan_security : wlan_security_type) (tkip support_11d cmd_ok : bool) (w : join_world) : outcome (mlan_status * join_world) :=
  i ← wlan_find_bssid_in_list (net_of w) (jw_table w) (jw_num w) (Some bssid) MLAN_BSS_MODE_AUTO;
  match i with
  | None => Ret (MLAN_STATUS_FAILURE, w)
  | Some i =>
      e ← arr_get (jw_table w) i;
      '(st, p) ← choose_security wlan_security tkip e (jw_private w);
      let w := set_jw_private p w in
      match st with
      | MLAN_STATUS_FAILURE => Ret (MLAN_STATUS_FAILURE, w)
      | MLAN_STATUS_SUCCESS =>
          '(st, d) ← send_country support_11d cmd_ok e (jw_domain w);
          let w := set_jw_domain d w in
          match st with
          | MLAN_STATUS_FAILURE => Ret (MLAN_STATUS_FAILURE, w)
          | MLAN_STATUS_SUCCESS => wlan_bss_ioctl_start (i + 1) (MkSsid 0 (no_bytes 32)) (no_bytes 6) w
          end
      end
  end.

(** ** The answer *)

(** [wlan_reset_connect_state] with a disconnection; the interface is no ad hoc
    network. *)
Definition wlan_reset_connect_state (w : join_world) : join_world :=
  let c := jw_conn w in
  let p := jw_private w in
  let c := MkConn false (port_ctrl_mode c) (if port_ctrl_mode c then false else port_open c) (prior_port_status c) false None 0 false
             (priv_wmm_enabled c) (wpa_is_gtk_set c) no_stats 0 false in
  let p := MkJoin (jp_cap p) (listen_interval p) (jp_sec p) (authentication_mode p) (is_wpa_tkip p) (wpa_ie p) (wpa_ie_len p) (pmfcfg p)
             (gen_ie_buf p) (gen_ie_buf_len p) true 0 (region_code p) (rates_memory p) 0 (no_bytes 14) false (wmm_required p) (wmm_qosinfo p) in
  add_effects [CleanTxRx] (set_jw_conn c (set_jw_private p w)).
Definition secured (p : join_private) : bool := wpa_enabled (jp_sec p) || wpa2_enabled (jp_sec p) || ewpa_enabled (jp_sec p).
Definition joined (p : join_private) (ht : option (Z * Z)) (e : BSSDescriptor_t) (wmm : bool) (c : connection) : connection :=
  let chan := nth 2 (phy_param_set e) 0 in
  MkConn true (port_ctrl_mode c) (if negb (secured p) && port_ctrl_mode c then true else port_open c) (prior_port_status c)
    (if secured p then true else scan_block c) (Some (set_channel chan e)) (u8 (bss_band e)) wmm
    ((wmm_required p || match ht with Some (id, _) => id =? element_number HT_CAPABILITY | None => false end) && wmm)
    (if wpa_enabled (jp_sec p) || wpa2_enabled (jp_sec p) then false else wpa_is_gtk_set c) no_stats
    (match ht with Some (_, info) => if has_bit info 11 then 8192 else 4096 | None => max_amsdu c end) (tx_pause c).
Definition address_of (b : option BSSDescriptor_t) : list Z := match b with Some e => mac_address e | None => no_bytes 6 end.
(** [resp]: the parameters of the answer. *)
Definition wlan_ret_802_11_associate (resp : list Z) (w : join_world) : outcome (mlan_status * join_world) :=
  match attempted w with
  | None => Fault NullPointer
  | Some i =>
      e ← arr_get (jw_table w) i;
      off ← (if host_mlme (jw_private w) then b ← mem_read resp 16 6; Ret (if same_bytes b (mac_address e) then 24 else 0) else Ret 0);
      status_code ← mem_read_le16 resp (off + 2);
      let c := jw_conn w in
      let cur_mac := if connected c then address_of (cur_bss c) else no_bytes 6 in
      if negb (status_code =? 0) then
        if connected c then
          let c := if port_ctrl_mode c then
                     MkConn (connected c) (port_ctrl_mode c) (prior_port_status c) (prior_port_status c) (scan_block c) (cur_bss c) (cur_band c) (cur_wmm_enabled c)
                       (priv_wmm_enabled c) (wpa_is_gtk_set c) (signal_stats c) (max_amsdu c) (tx_pause c)
                   else c in
          let w := set_jw_conn c w in
          Ret (MLAN_STATUS_FAILURE, if same_bytes cur_mac (mac_address e) then wlan_reset_connect_state w else w)
        else Ret (MLAN_STATUS_FAILURE, w)
      else
        h ← pointed (jw_table w) HtCap e;
        ht ← match h with
             | None => Ret None
             | Some b => id ← arr_get b 0; info ← mem_read_le16 b 2; Ret (Some (id, info))
             end;
        id ← arr_get (wmm_ie e) 0;
        let w' := set_jw_conn (joined (jw_private w) ht e (id =? WMM_IE) c) w in
        Ret (MLAN_STATUS_SUCCESS, add_effects (if connected c then [JoinReceivers true cur_mac (mac_address e); CleanSessions]
                                               else [JoinReceivers false cur_mac (mac_address e)]) w')
  end.
