(* ===== verification/JoinCallsTheorems.v ===== *)
(** * Joining an access point: theorems *)
From stdpp Require Import list.
From S2P Require Import Prelude CString Cfp WlcmData ScanData ScanParse ScanTable ScanFind Domain Rsn RsnProps RsnTheorems HtCap Join JoinProps JoinTheorems JoinCalls.
Open Scope Z_scope.

(** ** What the calls keep *)
Lemma send_associate_conn i w st w' : send_associate i w = Ret (st, w') -> jw_conn w' = jw_conn w.
Proof.
  unfold send_associate. intros E. apply bind_inv in E as (e & _ & E). apply bind_inv in E as (m & _ & E). apply bind_inv in E as (r & _ & E).
  destruct (jr_status r); [| by injection E as <- <-]. apply bind_inv in E as (size & _ & E). injection E as <- <-. by destruct (size >? 2100).
Qed.
Lemma wlan_associate_conn i w st w' : wlan_associate i w = Ret (st, w') -> jw_conn w' = jw_conn w.
Proof.
  unfold wlan_associate. intros E. apply bind_inv in E as (e & _ & E). destruct (_ || _); [by injection E as <- <- | by eapply send_associate_conn].
Qed.
Lemma start_closes_port idx s bssid w st w' : wlan_bss_ioctl_start idx s bssid w = Ret (st, w') -> jw_conn w' = close_port (jw_conn w).
Proof.
  unfold wlan_bss_ioctl_start. intros E. destruct (bool_decide _); [| by injection E as <- <-]. apply bind_inv in E as ([i t] & _ & E).
  destruct i as [i |]; [by apply wlan_associate_conn in E | by injection E as <- <-].
Qed.
Lemma assoc_closes_port bssid sec tkip d11 ok w w' : wrapper_wifi_assoc bssid sec tkip d11 ok w = Ret (MLAN_STATUS_SUCCESS, w') -> jw_conn w' = close_port (jw_conn w).
Proof.
  unfold wrapper_wifi_assoc. intros E. apply bind_inv in E as (i & _ & E). destruct i as [i |]; [| done]. apply bind_inv in E as (e & _ & E).
  apply bind_inv in E as ([st p] & _ & E). destruct st; [| done]. apply bind_inv in E as ([st d] & _ & E). destruct st; [| done].
  by apply start_closes_port in E.
Qed.
(** A connection comes from a status of 0 alone. *)
Lemma answer_success resp w w' : wlan_ret_802_11_associate resp w = Ret (MLAN_STATUS_SUCCESS, w') ->
  exists i e ht wmm, attempted w = Some i /\ arr_get (jw_table w) i = Ret e /\ jw_private w' = jw_private w /\
    jw_conn w' = joined (jw_private w) ht e wmm (jw_conn w) /\
    effects w' = effects w ++ (if connected (jw_conn w) then [JoinReceivers true (address_of (cur_bss (jw_conn w))) (mac_address e); CleanSessions]
                               else [JoinReceivers false (no_bytes 6) (mac_address e)]).
Proof.
  unfold wlan_ret_802_11_associate. destruct (attempted w) as [i |] eqn:Ei; [| done]. intros E. apply bind_inv in E as (e & Ee & E).
  apply bind_inv in E as (off & _ & E). apply bind_inv in E as (code & _ & E). destruct (code =? 0); cbn [negb] in E.
  - apply bind_inv in E as (h & _ & E). apply bind_inv in E as (ht & _ & E). apply bind_inv in E as (id & _ & E). injection E as <-.
    exists i, e, ht, (id =? WMM_IE). split; [done |]. split; [done |]. split; [by destruct (connected _) |]. split; [by destruct (connected _) |].
    unfold add_effects. cbn. by destruct (connected (jw_conn w)).
  - destruct (connected _); [destruct (same_bytes _ _) |]; done.
Qed.

(** ** The port *)

(** C17: between the start of a connection to a protected network and its keys
    nothing passes: with control of the port on, a successful start closes it, and
    the answer that makes the interface connected opens it again exactly when
    there is no WPA to be done, in which case scans are not held back either. *)
Theorem port_guard bssid sec tkip d11 ok w w1 resp w2 : wrapper_wifi_assoc bssid sec tkip d11 ok w = Ret (MLAN_STATUS_SUCCESS, w1) ->
  port_ctrl_mode (jw_conn w) = true -> wlan_ret_802_11_associate resp w1 = Ret (MLAN_STATUS_SUCCESS, w2) ->
  port_open (jw_conn w1) = false /\ connected (jw_conn w2) = true /\ port_open (jw_conn w2) = negb (secured (jw_private w1)) /\
  scan_block (jw_conn w2) = secured (jw_private w1).
Proof.
  intros Hstart Hctrl Hret. apply assoc_closes_port in Hstart. apply answer_success in Hret as (i & e & ht & wmm & _ & _ & _ & Hconn & _).
  rewrite Hconn, Hstart. unfold joined, close_port. cbn. rewrite Hctrl, andb_true_r. split; [done |]. split; [done |].
  by destruct (secured (jw_private w1)).
Qed.
Definition joining (rsn_ie : list Z) (open : bool) : join_world :=
  MkJw home_private (MkCs (replicate 600 0) 0 home_adapter 0)
    [set_bss_mode MLAN_BSS_MODE_INFRA (set_rsn_ie_buff_len (Z.of_nat (length rsn_ie))
       (set_slot RsnIe (MkSlot (padded 64 rsn_ie) (if open then None else Some (Entry 0))) home_bss))] 1 (bands [BAND_B; BAND_G])
    (MkConn false true true false false None 0 false false false no_stats 0 false)
    (MkDs no_parsed no_domain 0x10 BAND_G (cap_channels home_adapter) true false cleared_bss []) None [] [].
Lemma port_guard_witness : exists w1 w2,
  port_open (jw_conn w1) = false /\ connected (jw_conn w2) = true /\ port_open (jw_conn w2) = negb (secured (jw_private w1)) /\
  scan_block (jw_conn w2) = secured (jw_private w1).
Proof.
  do 2 eexists. eapply (port_guard [2; 0; 0; 0; 0; 1] WLAN_SECURITY_WPA2_WPA3_SAE_MIXED false false true (joining ([48; 24] ++ rsn_bytes home_rsn) false) _ (replicate 26 0)).
  - vm_compute. reflexivity.
  - reflexivity.
  - vm_compute. reflexivity.
Defined.
